(* ===== verification/_CoqProject ===== *)
-Q . S2P
Prelude.v
Ids.v
Text.v
Types.v
Events.v
Commands.v
Media.v
Externals.v
RunState.v
Config.v
Promises.v
Contexts.v
Compaction.v
ToolSpecs.v
CodeTools.v
ContextReducer.v
Llm.v
Approvals.v
Turns.v
Sessions.v
WorkflowTools.v
Bindings.v
InvokeEffects.v
Toolset.v
ContextPlan.v
Runs.v
Replay.v
Requests.v
Completions.v
Results.v
CodeProposals.v
Admit.v
Codec.v
BlobRoots.v
SessionStore.v
Drive.v
Frames.v
StoreLaws.v
Example.v
RunLaws.v
ReplayLaws.v
ContextLaws.v
SessionLaws.v
PlanLaws.v
Records.v
PromiseLaws.v
StoreLogs.v
StoreHistory.v
ForkPoints.v
DriveLaws.v
RunEnds.v
DigestLaws.v
CodecLaws.v
WorkflowLaws.v
CloneLaws.v
BotState.v
BotController.v
BotExample.v
BotLaws.v
BotInvariant.v
BotClock.v
BotSessions.v
BotActivities.v
BotTasks.v
BotLoop.v
BotExecution.v
BotAccounting.v
BotSafety.v
VfsTree.v
VfsTreeLaws.v
VfsStore.v
VfsFiles.v
VfsHistory.v
VfsLaws.v
Patch.v
PatchLaws.v
FileTools.v
FileToolLaws.v
FileToolStore.v
VfsExample.v
