(* ===== verification/Prelude.v ===== *)
(** * Lightspeed: a verification development

    Lightspeed runs language-model agents. Its core, the crate [crates/harness], is a
    deterministic event-sourced state machine: everything a session does is an event in its
    log, its state is the reduction of that log, and the core alone decides, from that state,
    what to append and what to ask of the outside next. This development translates that core
    to Rocq, definition by definition, and proves what a host relies on. Around the core, it
    does the same for the controller of a bot, the workflow that turns events into runs, for
    the virtual file system that agents work in, and for the tools that edit and patch its files.

    ** How the program works

    A host owns a [CoreAgentDrive] per session. Commands from clients are admitted, that is
    checked against the state and turned into proposals of events; answers of model, tool and
    compaction runtimes become proposals too; and when nothing came from outside, the planners
    of the components propose what follows. Proposals are dry-run on a scratch state before
    the host appends them to a session store, guarded by the head it expects; the entries the
    store commits are then reduced for good. A session may be cloned, forked and deleted, and
    a drive that is lost is rebuilt by replaying the log.

    A bot is served by one workflow of [crates/temporal-workflow], its controller. Signals
    bring it events, configurations and emissions of its sessions; a loop batches events into
    deliveries, keeps sessions usable, hands each delivery to a lane that starts a run and
    waits for its end, and parks until something is due. All of it lives in one state that
    crosses a continue-as-new; loop and lanes share it, and interleave where they wait.

    The files of an agent are a tree over blobs, a manifest, itself a blob. A workspace is a row
    of a catalog that names the manifest at its head. A tool changes a file by reading the head,
    changing the manifest, storing it and a compare-and-set of the row, again if it was overtaken.
    Workspaces and snapshots are attached to a session by path. The tool [edit_file] replaces text
    of one file, on the condition that the file is still the one it read; [apply_patch] parses a
    patch, resolves each of its hunks against what the files hold and the hunks before it, and
    then carries out the steps of that plan one by one.

    ** Files and what they model

    Data. [Types] holds the structs and enums of the state, [Events] the events, joins and
    entries, [Commands] what crosses the boundary of the core; one Module per Rust type, with
    its fields and variants. [Ids] and [Text] hold identifiers and the operations of [str];
    [Media] is [media.rs]; [Externals] is the interface to code outside the repository.

    Components, each with its reducer and, where it has one, its planner, after the file of
    [core/components] named: [RunState] and [Runs] ([run.rs]), [Turns], with the usage
    in [Contexts] ([turn.rs]), [Contexts], [Compaction], [ContextReducer] and [ContextPlan]
    ([context.rs]), [ToolSpecs] and [Toolset] ([tooling.rs]), [Promises] ([promise.rs]), [Approvals] ([approval.rs]),
    [Sessions] ([lifecycle.rs], [environment.rs]), [Config] ([config.rs]),
    [CodeTools] and [CodeProposals] ([code_tool.rs]), [WorkflowTools], [Bindings]
    and [InvokeEffects] ([workflow_tool.rs]), [Llm] ([llm.rs]).

    The machine around them. [Replay] is [core/apply.rs] and the order of the planners,
    [core/planning.rs], with the reduction of lists of entries and proposals that theorems speak
    of; [Admit] is [core/admit.rs]; [Requests] ([core/io.rs]), [Completions] and [Results] are the parts of
    [core/drive.rs] that make requests and record their results; [Drive] is the machine
    itself. [Codec] is [core/codec.rs], [SessionStore] and [BlobRoots] are
    [storage/session.rs] and [storage/blob_roots.rs]; [BlobRoots] also holds
    [core/session_graph.rs], and [Bindings] holds [emission.rs].

    The controller of a bot. [BotState] is its state and the data of [crates/bots] and
    [crates/api] it is about, [BotController] every decision of [controller/state.rs],
    [BotActivities] the requests of [bots/types.rs]. [BotTasks] is [controller/lanes.rs] and
    [BotLoop] is [controller.rs], as terms of [Task]: control flow with a node for each update
    of the state, each activity, each wait, each lane spawned. [BotExecution] runs a loop and
    its lanes over one state, in steps that interleave with signals, clocks and any results.

    The virtual file system. [VfsTree] is [path.rs], [manifest.rs] and [snapshot.rs] of
    [crates/vfs]; [VfsStore] is the stores beneath, the in-memory store of [storage/blobs.rs] and
    the catalog of [store-pg/src/vfs.rs], with programs that call them ([Prog]), one node for each
    call; [VfsFiles] is the file systems of [tools/src/fs/vfs.rs] as such programs, and
    [crates/vfs/src/attachment.rs]. [VfsHistory] runs any number of clients over one world: between
    any two calls others run, a call may fail, and a reply may be lost.

    The file tools. [Patch] is the text of [tools/src/fs/apply_patch]: [parser.rs],
    [seek_sequence.rs] and the part of [engine.rs] that makes the new text of a file; [FileTools] is
    the rest of [engine.rs] with [fs/tools/edit_file.rs] and [fs/tools/apply_patch.rs], as programs over a
    [FileSystem]. [FileToolLaws] states what the tools ask of one, the class [FileStore], and
    [FileToolStore] shows that the file system of a workspace is one.

    State and operations. [CoreAgentState] is the record of the component states. A function
    that mutates the state and may fail is a [Reducer], from a state to a result and a state;
    since Rust leaves a state half changed when it returns an error, so does the model. A
    function that only reads is a plain function, in [Result] where it can fail. A [BTreeMap]
    is a [gmap] read in key order ([btree_to_list]), a [BTreeSet] a [gset], a [Vec] a list.

    ** What the theorems show

    - Sessions end when asked to: a forced close and a forced cancellation always land
      ([RunEnds], [RunLaws]), and the end of a run takes its promises with it ([RunEnds]).
    - Planning: what planners propose is accepted ([PlanLaws]); a drive with a step limit stops
      ([DriveLaws]).
    - Replay: positions are gapless and a log may be cut anywhere ([ReplayLaws]); against a store,
      through the codec, what a drive appends is what its log replays to, and racing drives are
      ordered by the head ([DriveLaws]).
    - Invariants of reachable states: the active run ([RunLaws]), the ledger of runs
      ([Records]), the context ([ContextLaws]), promises ([PromiseLaws]), the life of the
      session ([SessionLaws]), workflow tools ([WorkflowLaws]). [Frames] says what each
      reducer leaves alone, so that an invariant is proved for few of them.
    - Functional behaviour: rendering loses no entry ([ContextLaws]), usage is a capped sum
      ([RunLaws]), retried submissions are recognised, pruned records are
      rebuilt from the log ([Records]).
    - Encodings: entries read back from their stored form ([CodecLaws]), promise ids and
      effects from their text ([PromiseLaws]), and digests determine what they were made
      from ([DigestLaws]).
    - The store: refused operations change nothing and deletion finds exactly the tree
      ([StoreLaws]), logs are gapless through forks ([StoreLogs]) and grow by appends alone
      ([StoreHistory]), fork points ([ForkPoints]), clones ([CloneLaws]).
    - The controller of a bot: no event is lost between its signal and its outcome, whatever
      fails and however tasks interleave ([BotAccounting]); an invariant of its state over all
      executions ([BotInvariant] for the operations, [BotSafety] for loop, lanes and signals);
      dispatch is in order, one delivery to a session, within the budget of the day, and
      agrees with the condition that wakes the loop ([BotLaws]); the loop oversleeps nothing but, by
      less than a second, the turn of a day ([BotClock]); what a continue-as-new hands on is what there was ([BotInvariant]); a session
      left behind is not used again ([BotSessions]).

    - The virtual file system: the operations on a manifest are updates of a map from paths to
      files and directories, with exact totals, and validation is exact ([VfsTreeLaws]); no change
      of a workspace is lost, none is published twice, and only eight overtaking changes make one
      give up ([VfsHistory]); a snapshot of given files is these files, a rename moves one file,
      attachments never compete for a path ([VfsLaws]).
    - The file tools: a patch that is printed parses to what was printed, a text parses exactly to
      what its lines, each read once, stand for, and an update replaces what it names ([PatchLaws]); a patch that succeeds is its hunks one after the
      other, and one that fails says what it did, in any [FileStore] ([FileToolLaws]); an edit
      replaces the text it was made from, whoever else changes the workspace ([FileToolStore]).

    [Example], [BotExample] and [VfsExample] drive a session and its store, a controller, and a
    workspace with its tools through concrete histories, which the witnesses of the theorems
    evaluate.

    ** Bounds and fuel

    Unsigned integers are [N]; where the code saturates or wraps, so do the definitions
    ([saturating_add_u64], [wrapping_add_u64] and the like), and a theorem that needs room in
    a counter says so. Two recursions of the source have no structural measure. The log of a
    fork is read through the chain of its sources: [effective_entries] takes as fuel one more
    than the number of records, and [StoreLogs] shows that enough in every reachable store. The search
    for descendants takes the same fuel, and [StoreLaws] shows it enough in any store. Numbers
    are printed with twenty digits of fuel, which every [u64] fits. The tasks of a controller
    need none: they are finite terms, and a [while] unfolds one round at a step. A change of a
    workspace makes eight attempts, as in the source. The loops of the parser of patches read a line
    a round and get as many rounds as there are lines; [PatchLaws] shows that enough, for a loop that
    ran out would leave lines unread. The walk to
    the root of a path gets a round for each of its segments.

    ** What is not part of the repository

    SHA-256, the JSON of derived types and the text of UUIDs are the class [Externals], of
    functions; a hasher is the bytes it was fed, and a theorem about digests ends in equal inputs
    or names the two inputs that share one. The JSON of an event is the class [EventJson], with the law that it reads
    back; what an event hands to a serializer is the class [EventSerialize]. [Externals.v] and
    [Example] hold instances of them. Calendar dates are [chrono]'s: the class [Calendar]
    says that the instants of a UTC day share a text that reads back as its midnight;
    [BotExample] holds an instance. What an activity of a bot's controller answers is not
    constrained: a step takes any result of its type. The JSON of a manifest is the class
    [ManifestJson]: it reads back unless it nests deeper than [serde_json] reads, and then it does
    not; [VfsExample] holds an instance.

    ** Choices of the model

    Messages of errors are their templates, without the values put in. A lock and its
    poisoning are not modelled: an operation of the store is atomic. Overflow of an unchecked
    addition, where the release build wraps, is [wrapping_add_u64]. An [expect] that an
    earlier check makes hold is an error or leaves the state as it is. [sort_by] is a stable sort. The
    order of the fields of a JSON object cannot be observed. The fingerprint of a binding does
    not cover the executor of its tool, in the source as in the model.

    Some hypotheses of theorems are about what the reducer does not check by itself, since it
    trusts what the core appended. The laws of the store assume that positions do not run out
    and that a session something was forked from is not discarded before it is opened;
    [ForkPoints] shows what happens otherwise. That a session with work always moves on or waits
    for the outside is not shown: it needs more of the core's appends than the reducer checks.

    The steps of a controller's loop and lanes interleave at every update, while the workflow
    polls them in a fixed order between waits: there are more executions in the model than in
    the program, so what holds of all of them holds of its own. The accounting of events ends
    where a bot closes; [BotAccounting] and [BotSessions] show what its teardown loses.

    Each operation of the catalog is one statement or one transaction over a row, and so one step.
    Deleting a workspace that clients work on breaks what [VfsHistory] shows, as a new workspace of
    that name starts at revision 0; [VfsExample] has that history, a move across workspaces that
    loses a change, and a directory too deep to be read again.

    The laws of [FileToolLaws] are about a tool that runs alone, in a world where no two texts have
    one hash and no head is too deep to be read ([runs]); [PatchLaws] has the patches that lose text,
    and [VfsExample] one that is planned and cannot be carried out.

    ** Not modelled

    Of the harness: streams of blobs, the description of the serialized state that a test compares
    ([core/state_shape.rs]), the lines tools print about media, and the derived implementations of
    [serde]. Of a bot's controller: the implementations of its activities, the workflow that fires
    a trigger, and payloads that do not decode, which stop a workflow task until it is fixed. Of
    the file systems: those in memory, scoped, read-only and on a local disk, paths of remote
    environments, and the tools that read, list and search files or write one whole. Of the repository: the other crates
    around the core. Projections, the rest of the bots' pipeline, channels and the session workflow
    hold logic of their own, which comes after; the remaining crates are network and
    operating-system I/O, wire types, SQL and terminal interfaces. *)
From stdpp Require Export base option list gmap strings fin_maps sorting pretty.

(** ** Machine-width integers

    Every integer of the source is an unsigned [N] together with the bound of
    its Rust type; the checked, saturating and wrapping operations of the Rust
    standard library are written out at their width. *)
Definition u32_max : N := 4294967295.
Definition u64_max : N := 18446744073709551615.

Definition checked_add_u32 (x y : N) : option N :=
  if (x + y <=? u32_max)%N then Some (x + y)%N else None.
Definition checked_add_u64 (x y : N) : option N :=
  if (x + y <=? u64_max)%N then Some (x + y)%N else None.
Definition saturating_add_u32 (x y : N) : N := N.min (x + y) u32_max.
Definition saturating_add_u64 (x y : N) : N := N.min (x + y) u64_max.
Definition saturating_mul_u32 (x y : N) : N := N.min (x * y) u32_max.
Definition wrapping_add_u64 (x y : N) : N := (x + y) mod (u64_max + 1).
Definition wrapping_mul_u64 (x y : N) : N := (x * y) mod (u64_max + 1).

Lemma checked_add_u64_Some x y z :
  checked_add_u64 x y = Some z ↔ z = (x + y)%N ∧ (x + y <= u64_max)%N.
Proof. unfold checked_add_u64. destruct (N.leb_spec (x + y) u64_max); split; [intros [= <-]|intros [-> ?]|done|]; auto with lia. Qed.

Lemma checked_add_u32_Some x y z :
  checked_add_u32 x y = Some z ↔ z = (x + y)%N ∧ (x + y <= u32_max)%N.
Proof. unfold checked_add_u32. destruct (N.leb_spec (x + y) u32_max); split; [intros [= <-]|intros [-> ?]|done|]; auto with lia. Qed.

(** ** Results

    [Result E A] is Rust's [Result<A, E>]; [?] is its monadic bind. *)
Inductive Result (E A : Type) : Type :=
| Ok (a : A)
| Err (e : E).
Arguments Ok {E A} a.
Arguments Err {E A} e.

Section result.
Context {E : Type}.
#[export] Instance Result_ret : MRet (Result E) := λ A a, Ok a.
#[export] Instance Result_bind : MBind (Result E) := λ A B f r,
  match r with Ok a => f a | Err e => Err e end.
#[export] Instance Result_fmap : FMap (Result E) := λ A B f r,
  match r with Ok a => Ok (f a) | Err e => Err e end.
#[export] Instance Result_throw : MThrow E (Result E) := λ A e, Err e.
End result.

Definition is_ok {E A} (r : Result E A) : bool :=
  match r with Ok _ => true | Err _ => false end.
Definition is_err {E A} (r : Result E A) : bool := negb (is_ok r).
Definition ok_or {E A} (o : option A) (e : E) : Result E A :=
  match o with Some a => Ok a | None => Err e end.
Definition map_err {E F A} (f : E → F) (r : Result E A) : Result F A :=
  match r with Ok a => Ok a | Err e => Err (f e) end.

(** [if cond { return Err(e) }]. *)
Definition reject_if {M : Type → Type} {E : Type} `{MRet M, MThrow E M}
    (cond : bool) (e : E) : M unit :=
  if cond then mthrow e else mret tt.

(** [for x in l { f(x)?; }]. *)
Fixpoint for_each {M : Type → Type} `{MRet M, MBind M} {A : Type}
    (f : A → M unit) (l : list A) : M unit :=
  match l with
  | [] => mret tt
  | x :: l => f x ≫= λ _, for_each f l
  end.

(** The loop of a uniqueness check: every element passes [before], has a key not
    yet in the [BTreeSet] of keys seen, and passes [after]. *)
Fixpoint for_each_fresh {E A K : Type} `{EqDecision K} (key : A → K) (duplicate : E)
    (before after : A → Result E unit) (seen : list K) (l : list A) : Result E unit :=
  match l with
  | [] => mret tt
  | x :: l =>
      _ ← before x;
      _ ← reject_if (bool_decide (key x ∈ seen)) duplicate;
      _ ← after x;
      for_each_fresh key duplicate before after (key x :: seen) l
  end.
Definition no_check {E A : Type} (x : A) : Result E unit := mret tt.

(** ** Reducers

    A reducer of the source takes [&mut State] and returns [Result<(), E>]. It
    may fail after it has already written to the state, so the state at the
    failure is part of its meaning: [Reducer S E A] returns it on both paths. *)
Definition Reducer (S E A : Type) : Type := S → Result E A * S.

Section reducer.
Context {S E : Type}.
#[export] Instance Reducer_ret : MRet (Reducer S E) := λ A a s, (Ok a, s).
#[export] Instance Reducer_bind : MBind (Reducer S E) := λ A B f m s,
  match m s with (Ok a, s') => f a s' | (Err e, s') => (Err e, s') end.
#[export] Instance Reducer_throw : MThrow E (Reducer S E) := λ A e s, (Err e, s).
End reducer.

(** The state as it stands, a write to it, and a read-only check of it. *)
Definition get_state {S E} : Reducer S E S := λ s, (Ok s, s).
Definition modify_state {S E} (f : S → S) : Reducer S E unit := λ s, (Ok tt, f s).
Definition checking {S E A} (f : S → Result E A) : Reducer S E A := λ s, (f s, s).
Definition lift_result {S E A} (r : Result E A) : Reducer S E A := λ s, (r, s).

(** [wp m Q s]: if [m] succeeds from [s], it does so in a state satisfying [Q]. *)
Definition wp {S E A} (m : Reducer S E A) (Q : A → S → Prop) (s : S) : Prop :=
  match m s with (Ok a, s') => Q a s' | (Err _, _) => True end.

Section wp_rules.
Context {S E : Type}.
Implicit Types s : S.

Lemma wp_ok_inv {A} (m : Reducer S E A) (Q : A → S → Prop) s a s' :
  wp m Q s → m s = (Ok a, s') → Q a s'.
Proof. unfold wp. intros HQ Hm. by rewrite Hm in HQ. Qed.

Lemma wp_bind {A B} (m : Reducer S E A) (k : A → Reducer S E B) Q s :
  wp m (λ a, wp (k a) Q) s → wp (m ≫= k) Q s.
Proof.
  unfold wp at 1 3. unfold mbind, Reducer_bind.
  destruct (m s) as [[a|e] s']; done.
Qed.

Lemma wp_ret {A} (a : A) (Q : A → S → Prop) s : Q a s → wp (E:=E) (mret a) Q s.
Proof. done. Qed.

Lemma wp_throw {A} (e : E) (Q : A → S → Prop) s : wp (mthrow e) Q s.
Proof. done. Qed.

Lemma wp_reject_if (c : bool) (e : E) (Q : unit → S → Prop) s :
  (c = false → Q tt s) → wp (reject_if c e) Q s.
Proof. destruct c; unfold wp; simpl; auto. Qed.

Lemma wp_get (Q : S → S → Prop) s : Q s s → wp (E:=E) get_state Q s.
Proof. done. Qed.

Lemma wp_modify f (Q : unit → S → Prop) s :
  Q tt (f s) → wp (E:=E) (modify_state f) Q s.
Proof. done. Qed.

Lemma wp_checking {A} (f : S → Result E A) Q s :
  (∀ a, f s = Ok a → Q a s) → wp (checking f) Q s.
Proof. unfold wp, checking. destruct (f s); auto. Qed.

Lemma wp_lift {A} (r : Result E A) Q s :
  (∀ a, r = Ok a → Q a s) → wp (lift_result r) Q s.
Proof. unfold wp, lift_result. destruct r; auto. Qed.

Lemma wp_mono {A} (m : Reducer S E A) (Q Q' : A → S → Prop) s :
  wp m Q s → (∀ a s', Q a s' → Q' a s') → wp m Q' s.
Proof. unfold wp. destruct (m s) as [[] ?]; auto. Qed.

Lemma wp_and {A} (m : Reducer S E A) (Q Q' : A → S → Prop) s :
  wp m Q s → wp m Q' s → wp m (λ a s', Q a s' ∧ Q' a s') s.
Proof. unfold wp. destruct (m s) as [[] ?]; auto. Qed.

Lemma wp_self {A} (m : Reducer S E A) s : wp m (λ a s', m s = (Ok a, s')) s.
Proof. unfold wp. by destruct (m s) as [[] ?]. Qed.

(** A reducer that goes on after its first operation. *)
Lemma bind_runs {A B} (m : Reducer S E A) (k : A → Reducer S E B) s a s' :
  m s = (Ok a, s') → (m ≫= k) s = k a s'.
Proof. intros Hm. unfold mbind, Reducer_bind. by rewrite Hm. Qed.
Lemma get_runs s : get_state (E:=E) s = (Ok s, s).
Proof. done. Qed.
Lemma modify_runs f s : modify_state (E:=E) f s = (Ok tt, f s).
Proof. done. Qed.
Lemma checking_runs {A} (f : S → Result E A) s a : f s = Ok a → checking f s = (Ok a, s).
Proof. intros Hf. unfold checking. by rewrite Hf. Qed.
Lemma lift_runs {A} (r : Result E A) s a : r = Ok a → lift_result r s = (Ok a, s).
Proof. by intros ->. Qed.
Lemma reject_if_runs (c : bool) (e : E) s :
  c = false → reject_if (M:=Reducer S E) c e s = (Ok tt, s).
Proof. by intros ->. Qed.

(** A loop keeps what each of its rounds keeps. *)
Lemma wp_for_each {A} (f : A → Reducer S E unit) (l : list A) (I : S → Prop) s :
  (∀ x s, x ∈ l → I s → wp (f x) (λ _, I) s) → I s → wp (for_each f l) (λ _, I) s.
Proof.
  revert s. induction l as [|x l IH]; intros s Hf Hs; simpl; [done|].
  apply wp_bind. eapply wp_mono; [apply Hf; [set_solver|done]|].
  intros ? s1 Hs1. apply IH; [|done]. intros y s2 ??. apply Hf; [set_solver|done].
Qed.
End wp_rules.

(** [wp_step] moves over the leading operation of a reducer; [wp_steps] goes on
    until a case distinction or an unknown reducer is reached. *)
Ltac wp_step :=
  lazymatch goal with
  | |- wp (mbind _ _) _ _ => apply wp_bind
  | |- wp (mret _) _ _ => apply wp_ret
  | |- wp (mthrow _) _ _ => apply wp_throw
  | |- wp (reject_if _ _) _ _ => apply wp_reject_if; intro
  | |- wp get_state _ _ => apply wp_get
  | |- wp (modify_state _) _ _ => apply wp_modify
  | |- wp (checking _) _ _ => apply wp_checking; intros ? ?
  | |- wp (lift_result _) _ _ => apply wp_lift; intros ? ?
  | |- wp (match ?x with _ => _ end) _ _ => destruct x eqn:?
  end; cbv beta.
Ltac wp_steps := repeat wp_step.

(** [runs] moves over the leading operation of a reducer that is shown to succeed, leaving
    the condition under which it does. *)
Ltac runs :=
  lazymatch goal with
  | |- (mbind _ _) _ = _ =>
      erewrite bind_runs;
      [|first [exact (get_runs _) | exact (modify_runs _ _) | apply checking_runs
              | apply lift_runs | apply reject_if_runs]];
      cbv beta
  end.

(** [Option::is_none], [Option::is_some]. *)
Definition is_none {A} (o : option A) : bool := match o with None => true | Some _ => false end.
Definition is_some {A} (o : option A) : bool := negb (is_none o).

(** ** Inverting successful results *)
Lemma ok_or_Ok {E A} (o : option A) (e : E) a : ok_or o e = Ok a ↔ o = Some a.
Proof. destruct o; simpl; naive_solver. Qed.

Lemma reject_if_Ok {E} (c : bool) (e : E) (u : unit) :
  reject_if (M:=Result E) c e = Ok u ↔ c = false.
Proof. destruct c, u; unfold reject_if, mthrow, mret; simpl; naive_solver. Qed.

Lemma bind_Ok {E A B} (r : Result E A) (k : A → Result E B) b :
  r ≫= k = Ok b ↔ ∃ a, r = Ok a ∧ k a = Ok b.
Proof.
  unfold mbind, Result_bind. destruct r as [a|e].
  - split; [eauto|by intros (? & [= ->] & ?)].
  - split; [done|by intros (? & ? & ?)].
Qed.

Lemma bind_Err {E A B} (r : Result E A) (k : A → Result E B) e :
  r ≫= k = Err e ↔ r = Err e ∨ ∃ a, r = Ok a ∧ k a = Err e.
Proof. unfold mbind, Result_bind. destruct r; naive_solver. Qed.

Lemma map_err_Ok {E F A} (f : E → F) (r : Result E A) a :
  map_err f r = Ok a ↔ r = Ok a.
Proof. destruct r; simpl; naive_solver. Qed.

Lemma mret_Ok {E A} (x a : A) : mret (M:=Result E) x = Ok a ↔ x = a.
Proof. unfold mret, Result_ret. naive_solver. Qed.

(** A read-only loop succeeds exactly when every round does. *)
Lemma for_each_Ok {E A} (f : A → Result E unit) (l : list A) (u : unit) :
  for_each f l = Ok u ↔ Forall (λ x, f x = Ok tt) l.
Proof.
  destruct u. induction l as [|x l IH]; cbn [for_each].
  - split; [constructor|done].
  - rewrite bind_Ok, Forall_cons, <-IH. split; [intros ([] & ?)|intros []]; eauto.
Qed.

(** It succeeds exactly on elements that pass, with pairwise different new keys. *)
Lemma for_each_fresh_Ok {E A K} `{EqDecision K} (key : A → K) (duplicate : E)
    (before after : A → Result E unit) seen l (u : unit) :
  for_each_fresh key duplicate before after seen l = Ok u ↔
  Forall (λ x, before x = Ok tt ∧ after x = Ok tt) l ∧ NoDup (key <$> l) ∧
  (∀ x, x ∈ l → key x ∉ seen).
Proof.
  destruct u. revert seen. induction l as [|x l IH]; intros seen; cbn [for_each_fresh].
  - split; [|done]. intros _. split_and!; [constructor|constructor|set_solver].
  - rewrite bind_Ok. setoid_rewrite bind_Ok. setoid_rewrite bind_Ok.
    setoid_rewrite reject_if_Ok. setoid_rewrite IH. setoid_rewrite bool_decide_eq_false.
    rewrite fmap_cons, Forall_cons, NoDup_cons, list_elem_of_fmap. split.
    + intros ([] & Hb & [] & Hs & [] & Ha & Hf & Hn & Hin).
      split_and!; try done; [|set_solver]. intros (y & Heq & Hy).
      apply (Hin y Hy). rewrite Heq. set_solver.
    + intros ([[Hb Ha] Hf] & [Hx Hn] & Hin). exists tt. split; [done|].
      exists tt. split; [set_solver|]. exists tt. split_and!; try done.
      intros y Hy Hk. apply elem_of_cons in Hk as [Hk|Hk]; [|set_solver].
      apply Hx. exists y. done.
Qed.

Lemma is_some_false {A} (o : option A) : is_some o = false ↔ o = None.
Proof. by destruct o. Qed.
Lemma is_some_true {A} (o : option A) : is_some o = true ↔ is_Some o.
Proof. rewrite <- not_eq_None_Some. by destruct o. Qed.
Lemma is_none_true {A} (o : option A) : is_none o = true ↔ o = None.
Proof. by destruct o. Qed.
Lemma is_none_false {A} (o : option A) : is_none o = false ↔ is_Some o.
Proof. rewrite <- not_eq_None_Some. by destruct o. Qed.

(** [simplify_ok] turns hypotheses that a fallible computation succeeded into
    the facts its success rests on. *)
Ltac simplify_ok_step :=
  match goal with
  | H : mthrow _ = Ok _ |- _ => discriminate H
  | H : Err _ = Ok _ |- _ => discriminate H
  | H : Ok _ = Ok _ |- _ => injection H as H; try subst
  | H : mret _ = Ok _ |- _ => apply (proj1 (mret_Ok _ _)) in H; try subst
  | H : ok_or _ _ = Ok _ |- _ => apply ok_or_Ok in H
  | H : reject_if _ _ = Ok _ |- _ => apply reject_if_Ok in H
  | H : map_err _ _ = Ok _ |- _ => apply map_err_Ok in H
  | H : _ ≫= _ = Ok _ |- _ =>
      apply bind_Ok in H; let a := fresh "a" in let H1 := fresh "Hok" in
      destruct H as (a & H1 & H); cbv beta in H
  | H : checked_add_u64 _ _ = Some _ |- _ => apply checked_add_u64_Some in H; destruct H
  | H : (_ || _) = false |- _ => apply orb_false_iff in H; destruct H
  | H : (_ && _) = true |- _ => apply andb_true_iff in H; destruct H
  | H : negb _ = false |- _ => apply negb_false_iff in H
  | H : negb _ = true |- _ => apply negb_true_iff in H
  | H : is_some _ = false |- _ => apply is_some_false in H
  | H : is_some _ = true |- _ => apply is_some_true in H
  | H : is_none _ = true |- _ => apply is_none_true in H
  | H : is_none _ = false |- _ => apply is_none_false in H
  | H : bool_decide _ = false |- _ => apply bool_decide_eq_false in H
  | H : bool_decide _ = true |- _ => apply bool_decide_eq_true in H
  | H : ¬ (_ ≠ _) |- _ => apply dec_stable in H
  | H : (_ <=? _)%N = true |- _ => apply N.leb_le in H
  | H : (_ <=? _)%N = false |- _ => apply N.leb_gt in H
  | H : (_ <? _)%N = true |- _ => apply N.ltb_lt in H
  | H : (_ <? _)%N = false |- _ => apply N.ltb_ge in H
  | u : unit |- _ => destruct u
  end.
Ltac simplify_ok := repeat (simplify_ok_step; simplify_eq).

(** ** Record updates

    [r <| field := v |>] is Rust's assignment to a field of a struct behind a
    mutable reference. A [Setter] instance per written field is generated from
    the field's projection. *)
Class Setter {R T : Type} (p : R → T) := field_setter : (T → T) → R → R.
Arguments field_setter {R T} p {_} _ _ /.

Ltac build_setter p :=
  let f := fresh "f" in let r := fresh "r" in let keep := fresh "keep" in
  intros f r; pose (keep := r); destruct r;
  let c := eval cbv delta [keep] in keep in
  let x := eval cbn in (p c) in
  match eval pattern x in c with ?g _ => clear keep; exact (g (f x)) end.
Ltac solve_setter p :=
  let t := constr:(ltac:(build_setter p) : Setter p) in
  let t := eval cbv beta zeta in t in exact t.

Declare Scope record_update_scope.
Delimit Scope record_update_scope with upd.
Notation "r <| p := v |>" := (field_setter p (λ _, v) r)
  (at level 1, p at next level, v at level 200, left associativity,
   format "r  <| p  :=  v |>") : record_update_scope.
Notation "r <| p ::= f |>" := (field_setter p f r)
  (at level 1, p at next level, f at level 200, left associativity,
   format "r  <| p  ::=  f |>") : record_update_scope.
Open Scope record_update_scope.

(** ** Ordered maps

    A [BTreeMap] is a [gmap]; where the source iterates over it, the order of
    its keys matters and iteration goes through [btree_to_list]. *)
Class KeyOrder (K : Type) := {
  key_le : relation K;
  key_le_dec :: RelDecision key_le;
  key_le_total :: Total key_le;
  key_le_trans :: Transitive key_le;
  key_le_antisym :: AntiSymm (=) key_le;
}.

#[export] Instance N_KeyOrder : KeyOrder N := {| key_le := N.le |}.

#[export] Instance string_KeyOrder : KeyOrder string := {| key_le := String.le |}.

Section btree.
Context {K V : Type} `{Countable K} `{!KeyOrder K}.
Implicit Types m : gmap K V.

Definition entry_le (p q : K * V) : Prop := key_le p.1 q.1.
#[export] Instance entry_le_dec : RelDecision entry_le :=
  λ p q, decide_rel key_le p.1 q.1.
#[export] Instance entry_le_total : Total entry_le := λ p q, total key_le p.1 q.1.
#[export] Instance entry_le_trans : Transitive entry_le :=
  λ p q r, key_le_trans p.1 q.1 r.1.

(** [m.iter()], ascending; [m.keys()]; [m.values()]. *)
Definition btree_to_list m : list (K * V) := merge_sort entry_le (map_to_list m).
Definition btree_keys m : list K := (btree_to_list m).*1.
Definition btree_values m : list V := (btree_to_list m).*2.
(** [m.iter().next_back()]. *)
Definition btree_last m : option (K * V) := last (btree_to_list m).
(** [m.retain(f)]. *)
Definition btree_retain (f : K → V → bool) m : gmap K V :=
  filter (λ p, f p.1 p.2 = true) m.

Lemma btree_to_list_perm m : btree_to_list m ≡ₚ map_to_list m.
Proof. apply merge_sort_Permutation. Qed.

Lemma elem_of_btree m k v : (k, v) ∈ btree_to_list m ↔ m !! k = Some v.
Proof. rewrite btree_to_list_perm. apply elem_of_map_to_list. Qed.

Lemma elem_of_btree_values m v : v ∈ btree_values m ↔ ∃ k, m !! k = Some v.
Proof.
  unfold btree_values. rewrite list_elem_of_fmap. split.
  - intros ([k v'] & -> & ?%elem_of_btree). eauto.
  - intros (k & ?%elem_of_btree). by exists (k, v).
Qed.

Lemma elem_of_btree_keys m k : k ∈ btree_keys m ↔ is_Some (m !! k).
Proof.
  unfold btree_keys. rewrite list_elem_of_fmap. split.
  - intros ([k' v'] & -> & ?%elem_of_btree). eauto.
  - intros (v & ?%elem_of_btree). by exists (k, v).
Qed.

Lemma btree_keys_NoDup m : NoDup (btree_keys m).
Proof.
  unfold btree_keys. rewrite btree_to_list_perm. apply NoDup_fst_map_to_list.
Qed.

Lemma btree_to_list_sorted m : StronglySorted entry_le (btree_to_list m).
Proof. apply (StronglySorted_merge_sort _). Qed.

(** The last entry is the one with the greatest key. *)
Lemma btree_last_Some m k v :
  btree_last m = Some (k, v) ↔
  m !! k = Some v ∧ ∀ k', is_Some (m !! k') → key_le k' k.
Proof.
  unfold btree_last. split.
  - intros Hl. assert ((k, v) ∈ btree_to_list m) as Hin by by apply last_Some_elem_of.
    rewrite elem_of_btree in Hin. split; [done|]. intros k' [v' Hk'%elem_of_btree].
    apply last_Some in Hl as (l & Heq). pose proof (btree_to_list_sorted m) as Hs.
    rewrite Heq in Hs, Hk'. apply elem_of_app in Hk' as [Hk'|Hk'].
    + exact (StronglySorted_app_1_elem_of _ _ _ _ _ Hs Hk'
        (proj2 (list_elem_of_singleton _ _) eq_refl)).
    + apply list_elem_of_singleton in Hk' as [= -> ->].
      by destruct (total key_le k k).
  - intros [Hk Hmax]. destruct (last (btree_to_list m)) as [[k' v']|] eqn:Hl.
    + assert ((k', v') ∈ btree_to_list m) as Hin by by apply last_Some_elem_of.
      rewrite elem_of_btree in Hin. apply last_Some in Hl as (l & Heq).
      pose proof (btree_to_list_sorted m) as Hs. apply elem_of_btree in Hk.
      rewrite Heq in Hs, Hk. apply elem_of_app in Hk as [Hk|Hk].
      * pose proof (StronglySorted_app_1_elem_of _ _ _ _ _ Hs Hk
          (proj2 (list_elem_of_singleton _ _) eq_refl)) as Hle.
        assert (k = k') as -> by (apply (anti_symm key_le); [done|apply Hmax; eauto]).
        assert ((k', v) ∈ btree_to_list m) as Hk1 by (rewrite Heq; set_solver).
        rewrite elem_of_btree in Hk1. congruence.
      * by apply list_elem_of_singleton in Hk as [= -> ->].
    + apply last_None in Hl. apply elem_of_btree in Hk. rewrite Hl in Hk. set_solver.
Qed.

Lemma btree_last_None m : btree_last m = None ↔ m = ∅.
Proof.
  unfold btree_last. rewrite last_None. split.
  - intros Hl. pose proof (btree_to_list_perm m) as Hp. rewrite Hl in Hp.
    apply Permutation_nil_l in Hp. by apply map_to_list_empty_iff.
  - intros ->. unfold btree_to_list. by rewrite map_to_list_empty.
Qed.

Lemma lookup_btree_retain_Some f m k v :
  btree_retain f m !! k = Some v ↔ m !! k = Some v ∧ f k v = true.
Proof. unfold btree_retain. by rewrite map_lookup_filter_Some. Qed.
Lemma btree_values_perm m : btree_values m ≡ₚ (map_to_list m).*2.
Proof. unfold btree_values. by rewrite btree_to_list_perm. Qed.
End btree.
Section btree_fmap.
Context {K V V' : Type} `{Countable K} `{!KeyOrder K} (f : V → V').
Implicit Types m : gmap K V.
Lemma btree_to_list_fmap m :
  btree_to_list (f <$> m) = prod_map id f <$> btree_to_list m.
Proof.
  assert (prod_map id f <$> btree_to_list m ≡ₚ map_to_list (f <$> m)) as P.
  { by rewrite btree_to_list_perm, map_to_list_fmap. }
  apply (StronglySorted_unique_strong entry_le).
  - intros [k v] [k' v'] In In' L L'.
    assert (k = k') as <- by by apply (anti_symm key_le).
    rewrite P, elem_of_map_to_list in In'. apply elem_of_btree in In. congruence.
  - apply btree_to_list_sorted.
  - pose proof (btree_to_list_sorted m) as S. clear P.
    induction S as [|[k v] l S IH HF]; [constructor|]. rewrite fmap_cons. constructor; [done|].
    apply Forall_fmap. eapply Forall_impl; [exact HF|]. by intros [k' v'].
  - by rewrite btree_to_list_perm, P.
Qed.
Lemma btree_values_fmap m :
  btree_values (f <$> m) = f <$> btree_values m.
Proof. unfold btree_values. rewrite btree_to_list_fmap, <-!list_fmap_compose. done. Qed.
End btree_fmap.

(** ** Filters *)
Section filters.
Context {A : Type} (P : A → Prop) `{!∀ x, Decision (P x)}.
Lemma list_filter_all l : Forall P l → filter P l = l.
Proof.
  induction 1 as [|x l Hx _ IH]; [done|]. rewrite filter_cons, decide_True by done. by f_equal.
Qed.
Lemma list_filter_none l : Forall (λ x, ¬ P x) l → filter P l = [].
Proof. induction 1 as [|x l Hx _ IH]; [done|]. by rewrite filter_cons, decide_False. Qed.
End filters.
