(* ===== verification/Ids.v ===== *)
(** * Identifiers

    The textual identifiers of the harness: the validators behind the
    [string_id!] newtypes ([session/ids.rs], [core/components/ids.rs]), decimal
    [u64]s, promise ids ([core/components/promise.rs]) and blob references
    ([blob.rs]). Strings are sequences of bytes, as Rust's [&str] is UTF-8; every
    character class tested here is ASCII, so a test on characters and the same
    test on bytes fail at the same byte index. *)
From Stdlib Require Import Ascii.
From S2P Require Import Prelude.

(** ** Bytes and characters *)
Definition byte_of (c : Ascii.ascii) : N := Ascii.N_of_ascii c.
Definition in_range (lo hi : N) (c : Ascii.ascii) : bool :=
  (lo <=? byte_of c)%N && (byte_of c <=? hi)%N.
Definition is_ascii_digit : Ascii.ascii → bool := in_range 48 57.
Definition is_ascii_lowercase : Ascii.ascii → bool := in_range 97 122.
Definition is_ascii_uppercase : Ascii.ascii → bool := in_range 65 90.
Definition is_ascii_alphanumeric (c : Ascii.ascii) : bool :=
  is_ascii_digit c || is_ascii_lowercase c || is_ascii_uppercase c.

Definition chars (s : string) : list Ascii.ascii := String.list_ascii_of_string s.
Definition of_chars (l : list Ascii.ascii) : string := String.string_of_list_ascii l.
(** [value.bytes().all(f)], [value.chars().next()] and the index of the first
    character failing [f]. *)
Definition all_chars (f : Ascii.ascii → bool) (s : string) : bool := forallb f (chars s).
Definition first_char (s : string) : option Ascii.ascii := head (chars s).
Fixpoint strip_prefix (prefix s : string) : option string :=
  match prefix, s with
  | EmptyString, _ => Some s
  | String a prefix, String b s => if Ascii.eqb a b then strip_prefix prefix s else None
  | String _ _, EmptyString => None
  end.
Definition starts_with (prefix s : string) : bool :=
  match strip_prefix prefix s with Some _ => true | None => false end.

(** ** Validation errors *)
Inductive StringIdError : Type :=
| Empty (kind : string)
| TooLong (kind : string) (max actual : nat)
| InvalidStart (kind : string)
| InvalidCharacter (kind : string) (index : nat) (ch : Ascii.ascii) (allowed : string).

Definition GENERAL_STRING_ID_MAX_LEN : nat := 128.
Definition TOOL_NAME_MAX_LEN : nat := 64.

Definition validate_string_id_length (kind value : string) (max : nat)
    : Result StringIdError unit :=
  _ ← reject_if (bool_decide (value = "")) (Empty kind);
  reject_if (max <? String.length value)%nat (TooLong kind max (String.length value)).

(** The loop over [char_indices] that stops at the first character refused. *)
Fixpoint validate_chars (ok : Ascii.ascii → bool) (kind allowed : string)
    (index : nat) (l : list Ascii.ascii) : Result StringIdError unit :=
  match l with
  | [] => Ok tt
  | c :: l => if ok c then validate_chars ok kind allowed (S index) l
              else Err (InvalidCharacter kind index c allowed)
  end.

Definition is_one_of (allowed : string) (c : Ascii.ascii) : bool :=
  existsb (Ascii.eqb c) (chars allowed).

Definition validate_general_string_id (kind value : string) : Result StringIdError unit :=
  _ ← validate_string_id_length kind value GENERAL_STRING_ID_MAX_LEN;
  first ← ok_or (first_char value) (Empty kind);
  _ ← reject_if (negb (is_ascii_alphanumeric first)) (InvalidStart kind);
  validate_chars (λ c, is_ascii_alphanumeric c || is_one_of "_-.:" c) kind
    "ASCII letters, digits, '_', '-', '.', ':'" 0 (chars value).

Definition validate_tool_name (kind value : string) : Result StringIdError unit :=
  _ ← validate_string_id_length kind value TOOL_NAME_MAX_LEN;
  validate_chars (λ c, is_ascii_alphanumeric c || is_one_of "_-." c) kind
    "ASCII letters, digits, '_', '-', '.'" 0 (chars value).

(** ** Decimal [u64]s *)
Definition digit_char (d : N) : Ascii.ascii := Ascii.ascii_of_N (48 + d).
Definition digit_value (c : Ascii.ascii) : N := (byte_of c - 48)%N.

(** The digits of a number in front of [acc]; a [u64] has at most 20 of them. *)
Fixpoint decimal_digits (fuel : nat) (n : N) (acc : list Ascii.ascii) : list Ascii.ascii :=
  match fuel with
  | O => acc
  | S fuel =>
      let acc := digit_char (n mod 10) :: acc in
      if (n <? 10)%N then acc else decimal_digits fuel (n / 10) acc
  end.
Definition u64_to_string (n : N) : string := of_chars (decimal_digits 20 n []).

Definition decimal_value (l : list Ascii.ascii) : N :=
  foldl (λ acc c, (10 * acc + digit_value c)%N) 0%N l.

(** [str::parse::<u64>]: an optional [+], then digits whose value fits. *)
Definition parse_u64 (s : string) : option N :=
  let digits := match chars s with
                | c :: l => if Ascii.eqb c "+"%char then l else c :: l
                | [] => []
                end in
  if (length digits =? 0)%nat || negb (forallb is_ascii_digit digits) then None
  else let n := decimal_value digits in
       if (n <=? u64_max)%N then Some n else None.

(** ** Promise ids

    A [PromiseId] is a validated string; [promise_id_roundtrip] and
    [parse_promise_number_canonical] show that it stands for exactly one [u64],
    and the model of the reducer carries that number. *)
Definition PROMISE_ID_PREFIX : string := "promise_".

Definition parse_promise_number (value : string) : option N :=
  match strip_prefix PROMISE_ID_PREFIX value with
  | None => None
  | Some digits =>
      if bool_decide (digits = "")
         || (20 <? String.length digits)%nat
         || negb (all_chars is_ascii_digit digits)
         || ((1 <? String.length digits)%nat && starts_with "0" digits)
      then None
      else parse_u64 digits
  end.

Definition PromiseId_from_number (number : N) : string :=
  PROMISE_ID_PREFIX +:+ u64_to_string number.

(** ** Approval and invocation ids *)
Definition APPROVAL_PREFIX : string := "approval_".

Definition approval_suffix_valid (suffix : string) : bool :=
  negb (bool_decide (suffix = ""))
  && all_chars is_ascii_digit suffix
  && match parse_u64 suffix with Some n => (0 <? n)%N | None => false end
  && negb (starts_with "0" suffix).

Definition approval_allowed : string :=
  "'approval_' followed by a positive decimal integer".

Definition validate_approval_id (kind value : string) : Result StringIdError unit :=
  match strip_prefix APPROVAL_PREFIX value with
  | None => Err (InvalidCharacter kind 0 (default "?"%char (first_char value)) approval_allowed)
  | Some suffix =>
      reject_if (negb (approval_suffix_valid suffix))
        (InvalidCharacter kind (String.length APPROVAL_PREFIX)
           (default "?"%char (first_char suffix)) approval_allowed)
  end.

Definition is_lower_hex (c : Ascii.ascii) : bool := is_ascii_digit c || in_range 97 102 c.
Definition INVOCATION_PREFIX : string := "wti:sha256:".
Definition DIGEST_LEN : nat := 64.

Definition validate_workflow_tool_invocation_id (kind value : string)
    : Result StringIdError unit :=
  let len := (String.length INVOCATION_PREFIX + DIGEST_LEN)%nat in
  _ ← validate_string_id_length kind value len;
  reject_if
    (negb (String.length value =? len)%nat
     || negb (starts_with INVOCATION_PREFIX value)
     || negb (all_chars is_lower_hex
                (String.substring (String.length INVOCATION_PREFIX) DIGEST_LEN value)))
    (InvalidCharacter kind 0 (default "?"%char (first_char value))
       "'wti:sha256:' followed by 64 lowercase hexadecimal characters").

(** ** Blob references *)
Definition SHA256_PREFIX : string := "sha256:".
Definition SHA256_HEX_LEN : nat := 64.

Definition is_canonical_sha256_ref (value : string) : bool :=
  match strip_prefix SHA256_PREFIX value with
  | None => false
  | Some hex =>
      (String.length hex =? SHA256_HEX_LEN)%nat
      && (String.length value =? String.length SHA256_PREFIX + SHA256_HEX_LEN)%nat
      && all_chars is_lower_hex hex
  end.

Definition BlobRef_parse (value : string) : option string :=
  if is_canonical_sha256_ref value then Some value else None.

(** ** Decimal numbers: printing and parsing are inverse *)
Lemma digit_char_value d : (d < 10)%N → digit_value (digit_char d) = d.
Proof.
  intros Hd. unfold digit_value, digit_char, byte_of.
  rewrite Ascii.N_ascii_embedding by lia. lia.
Qed.

Lemma digit_char_digit d : (d < 10)%N → is_ascii_digit (digit_char d) = true.
Proof.
  intros Hd. unfold is_ascii_digit, in_range, digit_char, byte_of.
  rewrite Ascii.N_ascii_embedding by lia.
  apply andb_true_iff. split; apply N.leb_le; lia.
Qed.

Lemma is_ascii_digit_bounds c :
  is_ascii_digit c = true → (48 <= byte_of c <= 57)%N.
Proof. unfold is_ascii_digit, in_range. rewrite andb_true_iff, !N.leb_le. done. Qed.

Lemma digit_value_lt c : is_ascii_digit c = true → (digit_value c < 10)%N.
Proof. intros ?%is_ascii_digit_bounds. unfold digit_value. lia. Qed.

Lemma digit_value_char c : is_ascii_digit c = true → digit_char (digit_value c) = c.
Proof.
  intros Hc%is_ascii_digit_bounds. unfold digit_char, digit_value.
  replace (48 + (byte_of c - 48))%N with (byte_of c) by lia.
  apply Ascii.ascii_N_embedding.
Qed.

Lemma decimal_value_snoc l c :
  decimal_value (l ++ [c]) = (10 * decimal_value l + digit_value c)%N.
Proof. unfold decimal_value. by rewrite foldl_app. Qed.

(** Printing yields a non-empty digit string of the number's value, with no
    leading zero unless the number is zero. *)
Lemma decimal_digits_spec fuel n acc :
  (0 < fuel)%nat → (n < 10 ^ N.of_nat fuel)%N →
  ∃ l c l', decimal_digits fuel n acc = l ++ acc ∧ l = c :: l' ∧
    decimal_value l = n ∧ forallb is_ascii_digit l = true ∧
    (length l ≤ fuel)%nat ∧ (digit_value c = 0%N → l' = []).
Proof.
  revert n acc. induction fuel as [|fuel IH]; intros n acc Hf Hn; [lia|].
  cbn [decimal_digits]. destruct (N.ltb_spec n 10) as [Hlt|Hge].
  - rewrite N.mod_small by done. exists [digit_char n], (digit_char n), [].
    split_and!; [done|done| | |simpl; lia|done].
    + unfold decimal_value; simpl. by rewrite digit_char_value.
    + simpl. by rewrite digit_char_digit.
  - pose proof (N.mod_lt n 10 ltac:(done)) as Hm.
    pose proof (N.div_mod n 10 ltac:(done)) as Hdm.
    destruct fuel as [|fuel]; [simpl in Hn; lia|].
    destruct (IH (n / 10)%N (digit_char (n mod 10) :: acc)) as
      (l & c & l' & Heq & -> & Hv & Hd & Hl & Hz); [lia| |].
    { apply N.Div0.div_lt_upper_bound. rewrite <- N.pow_succ_r by lia.
      by replace (N.succ (N.of_nat (S fuel))) with (N.of_nat (S (S fuel))) by lia. }
    exists ((c :: l') ++ [digit_char (n mod 10)]), c, (l' ++ [digit_char (n mod 10)]).
    split_and!; [|done| | | |].
    + rewrite Heq. by rewrite <- app_assoc.
    + rewrite decimal_value_snoc, Hv, digit_char_value by done. lia.
    + rewrite forallb_app, Hd. simpl. by rewrite digit_char_digit.
    + rewrite length_app. simpl in *. lia.
    + intros Hc. specialize (Hz Hc) as ->.
      unfold decimal_value in Hv. simpl in Hv. rewrite Hc in Hv.
      assert (n < 10)%N by lia. lia.
Qed.

(** A digit string without a redundant leading zero is what printing yields. *)
Lemma decimal_digits_value fuel l acc c l' :
  l = c :: l' → forallb is_ascii_digit l = true → (length l ≤ fuel)%nat →
  (digit_value c = 0%N → l' = []) →
  decimal_digits fuel (decimal_value l) acc = l ++ acc.
Proof.
  intros -> Hd Hl Hz. revert fuel acc Hl Hd Hz.
  induction l' as [|x l' IH] using rev_ind; intros fuel acc Hl Hd Hz.
  - destruct fuel as [|fuel]; [simpl in Hl; lia|]. cbn [decimal_digits].
    simpl in Hd. rewrite andb_true_r in Hd. pose proof (digit_value_lt _ Hd).
    replace (decimal_value [c]) with (digit_value c) by (unfold decimal_value; cbn; lia).
    rewrite N.mod_small, digit_value_char by done.
    by rewrite (proj2 (N.ltb_lt _ _)).
  - rewrite app_comm_cons in *. destruct fuel as [|fuel]; [simpl in Hl; lia|].
    rewrite forallb_app in Hd. apply andb_true_iff in Hd as [Hd Hx].
    simpl in Hx. rewrite andb_true_r in Hx. pose proof (digit_value_lt _ Hx) as Hxl.
    assert (digit_value c ≠ 0%N) as Hc by (intros H0; specialize (Hz H0); by destruct l').
    assert (1 <= decimal_value (c :: l'))%N as Hpos.
    { clear -Hc. unfold decimal_value. cbn [foldl]. rewrite N.mul_0_r, N.add_0_l.
      assert (1 <= digit_value c)%N as H by lia. clear Hc. revert H.
      generalize (digit_value c). induction l' as [|y l' IH]; intros d Hd; simpl; [done|].
      apply IH. lia. }
    rewrite decimal_value_snoc. cbn [decimal_digits].
    rewrite (proj2 (N.ltb_ge _ _)) by lia.
    replace ((10 * decimal_value (c :: l') + digit_value x) mod 10)%N with (digit_value x)
      by (rewrite N.mul_comm, N.add_comm, N.Div0.mod_add; by rewrite N.mod_small).
    replace ((10 * decimal_value (c :: l') + digit_value x) / 10)%N
      with (decimal_value (c :: l'))
      by (rewrite N.mul_comm, N.div_add_l by done; rewrite N.div_small by done; lia).
    rewrite IH; [|rewrite length_app in Hl; simpl in *; lia|done|done].
    rewrite digit_value_char by done. by rewrite <- app_assoc.
Qed.

(** ** Strings and their characters *)
Lemma chars_of_chars l : chars (of_chars l) = l.
Proof. apply String.list_ascii_of_string_of_list_ascii. Qed.

Lemma of_chars_chars s : of_chars (chars s) = s.
Proof. apply String.string_of_list_ascii_of_string. Qed.

Lemma chars_app s t : chars (s +:+ t) = chars s ++ chars t.
Proof. induction s as [|c s IH]; [done|]. exact (f_equal (cons c) IH). Qed.

Lemma length_chars s : length (chars s) = String.length s.
Proof. induction s; simpl; [done|]. by f_equal. Qed.

Lemma chars_nil s : chars s = [] ↔ s = "".
Proof. destruct s; simpl; split; done. Qed.

Lemma strip_prefix_app p s : strip_prefix p (p +:+ s) = Some s.
Proof. induction p as [|a p IH]; simpl; [done|]. by rewrite Ascii.eqb_refl. Qed.

Lemma strip_prefix_Some p s t : strip_prefix p s = Some t ↔ s = p +:+ t.
Proof.
  split; [|intros ->; apply strip_prefix_app].
  revert s. induction p as [|a p IH]; intros s; simpl; [by intros [= ->]|].
  destruct s as [|b s]; [done|]. destruct (Ascii.eqb_spec a b) as [->|]; [|done].
  intros ?%IH. by subst.
Qed.

Lemma starts_with_zero s :
  starts_with "0" s = match chars s with c :: _ => Ascii.eqb "0" c | [] => false end.
Proof.
  unfold starts_with. destruct s as [|c s]; [done|].
  cbn [strip_prefix chars String.list_ascii_of_string].
  destruct (Ascii.eqb "0" c); reflexivity.
Qed.

(** The facts about a printed [u64] that its parsers rely on. *)
Lemma u64_to_string_spec n :
  (n <= u64_max)%N →
  ∃ c l, chars (u64_to_string n) = c :: l ∧ decimal_value (c :: l) = n ∧
    forallb is_ascii_digit (c :: l) = true ∧ (length (c :: l) ≤ 20)%nat ∧
    (digit_value c = 0%N → l = []).
Proof.
  intros Hn. destruct (decimal_digits_spec 20 n []) as (l & c & l' & Heq & -> & ?);
    [lia|unfold u64_max in Hn; simpl; lia|].
  exists c, l'. unfold u64_to_string. rewrite chars_of_chars, Heq, app_nil_r. done.
Qed.

Lemma digit_not_plus c : is_ascii_digit c = true → Ascii.eqb c "+" = false.
Proof.
  intros Hc%is_ascii_digit_bounds. apply Ascii.eqb_neq. intros ->. revert Hc. cbn. lia.
Qed.

Lemma parse_u64_digits s c l :
  chars s = c :: l → forallb is_ascii_digit (c :: l) = true →
  (decimal_value (c :: l) <= u64_max)%N → parse_u64 s = Some (decimal_value (c :: l)).
Proof.
  intros Hs Hd Hv. unfold parse_u64. rewrite Hs.
  assert (is_ascii_digit c = true) as Hc by (simpl in Hd; by apply andb_true_iff in Hd as []).
  rewrite (digit_not_plus _ Hc), Hd. cbn [length Nat.eqb negb orb].
  by rewrite (proj2 (N.leb_le _ _)).
Qed.

Lemma parse_u64_to_string n : (n <= u64_max)%N → parse_u64 (u64_to_string n) = Some n.
Proof.
  intros Hn. destruct (u64_to_string_spec n Hn) as (c & l & Hs & Hv & Hd & _ & _).
  rewrite (parse_u64_digits _ _ _ Hs Hd) by (by rewrite Hv). by rewrite Hv.
Qed.

(** Decoding the text of a promise id gives the number it was minted from. *)
Lemma promise_id_roundtrip n :
  (n <= u64_max)%N → parse_promise_number (PromiseId_from_number n) = Some n.
Proof.
  intros Hn. unfold parse_promise_number, PromiseId_from_number.
  rewrite strip_prefix_app.
  destruct (u64_to_string_spec n Hn) as (c & l & Hs & Hv & Hd & Hl & Hz).
  rewrite parse_u64_to_string by done.
  rewrite bool_decide_false by (rewrite <- chars_nil, Hs; done).
  unfold all_chars. rewrite <- !length_chars, starts_with_zero, Hs, Hd.
  rewrite (proj2 (Nat.ltb_ge _ _) Hl). cbn [negb orb].
  destruct (Ascii.eqb_spec "0" c) as [<-|]; [|by rewrite andb_false_r].
  by rewrite (Hz eq_refl).
Qed.

(** Only the canonical text of a [u64] decodes as a promise id: two different
    strings never name the same promise. *)
Lemma parse_promise_number_canonical s n :
  parse_promise_number s = Some n → s = PromiseId_from_number n ∧ (n <= u64_max)%N.
Proof.
  unfold parse_promise_number. destruct (strip_prefix _ s) as [digits|] eqn:Hp; [|done].
  apply strip_prefix_Some in Hp as ->. case_match eqn:Hc; [done|].
  simplify_ok. rename select (digits ≠ "") into Hne.
  unfold parse_u64. destruct (chars digits) as [|c l] eqn:Hs;
    [by apply chars_nil in Hs|].
  unfold all_chars in *. rewrite Hs in *.
  assert (is_ascii_digit c = true) as Hcd by (by cbn in *; simplify_ok).
  rewrite (digit_not_plus _ Hcd). case_match; [done|].
  case_match eqn:Hle; [|done]. intros [= <-]. apply N.leb_le in Hle. split; [|done].
  unfold PromiseId_from_number. f_equal. unfold u64_to_string.
  rewrite (decimal_digits_value 20 (c :: l) [] c l); [|done|done| |].
  - rewrite app_nil_r, <- Hs. by rewrite of_chars_chars.
  - rewrite <- Hs, length_chars. by apply Nat.ltb_ge.
  - intros Hz. rename select (_ && _ = false) into H0. rewrite starts_with_zero, Hs in H0.
    assert (c = "0"%char) as -> by (by rewrite <- (digit_value_char c Hcd), Hz).
    rewrite Ascii.eqb_refl, andb_true_r, <- length_chars, Hs in H0.
    destruct l; [done|]. done.
Qed.
