(* ===== verification/Text.v ===== *)
(** * Text

    The operations of Rust's [str] the core uses beyond plain comparison: trimming
    Unicode white space from UTF-8 text, ASCII case folding and splitting at a
    character. *)
From S2P Require Import Prelude Ids.

Definition str_of_bytes (l : list N) : string := of_chars (map Ascii.ascii_of_N l).

(** The UTF-8 encodings of the characters with the Unicode property White_Space,
    which is what [str::trim] and [char::is_whitespace] test. UTF-8 is
    self-synchronising, so in well-formed text a byte sequence that matches one of
    these at either end is that character. *)
Definition whitespace_encodings : list (list Ascii.ascii) :=
  map (map Ascii.ascii_of_N)
    [[9]; [10]; [11]; [12]; [13]; [32]; [194; 133]; [194; 160]; [225; 154; 128];
     [226; 128; 128]; [226; 128; 129]; [226; 128; 130]; [226; 128; 131];
     [226; 128; 132]; [226; 128; 133]; [226; 128; 134]; [226; 128; 135];
     [226; 128; 136]; [226; 128; 137]; [226; 128; 138]; [226; 128; 168];
     [226; 128; 169]; [226; 128; 175]; [226; 129; 159]; [227; 128; 128]]%N.

(** [l] without [p] in front of it. *)
Fixpoint strip_list (p l : list Ascii.ascii) : option (list Ascii.ascii) :=
  match p, l with
  | [], _ => Some l
  | a :: p, b :: l => if Ascii.eqb a b then strip_list p l else None
  | _ :: _, [] => None
  end.

Fixpoint strip_first_of (ps : list (list Ascii.ascii)) (l : list Ascii.ascii)
    : option (list Ascii.ascii) :=
  match ps with
  | [] => None
  | p :: ps => match strip_list p l with Some l' => Some l' | None => strip_first_of ps l end
  end.

(** Every round removes at least one byte, so as many rounds as there are bytes
    are enough. *)
Fixpoint strip_while (fuel : nat) (ps : list (list Ascii.ascii)) (l : list Ascii.ascii)
    : list Ascii.ascii :=
  match fuel with
  | O => l
  | S fuel => match strip_first_of ps l with Some l' => strip_while fuel ps l' | None => l end
  end.

Definition trim_start_chars (l : list Ascii.ascii) : list Ascii.ascii :=
  strip_while (length l) whitespace_encodings l.
Definition trim_end_chars (l : list Ascii.ascii) : list Ascii.ascii :=
  rev (strip_while (length l) (map (@rev _) whitespace_encodings) (rev l)).
(** [str::trim]. *)
Definition trim (s : string) : string := of_chars (trim_end_chars (trim_start_chars (chars s))).

(** [char::is_whitespace] at some position of the text. *)
Fixpoint contains_whitespace_chars (l : list Ascii.ascii) : bool :=
  match l with
  | [] => false
  | _ :: l' => match strip_first_of whitespace_encodings l with
               | Some _ => true
               | None => contains_whitespace_chars l'
               end
  end.
Definition contains_whitespace (s : string) : bool := contains_whitespace_chars (chars s).

(** [char::is_control]: U+0000 to U+001F and U+007F to U+009F, the latter encoded
    as [7F] and [C2 80] to [C2 9F]. *)
Fixpoint contains_control_chars (l : list Ascii.ascii) : bool :=
  match l with
  | [] => false
  | c :: l' =>
      in_range 0 31 c || Ascii.eqb c (Ascii.ascii_of_N 127)
      || (Ascii.eqb c (Ascii.ascii_of_N 194)
          && match l' with d :: _ => in_range 128 159 d | [] => false end)
      || contains_control_chars l'
  end.
Definition contains_control (s : string) : bool := contains_control_chars (chars s).

Definition to_ascii_lowercase_char (c : Ascii.ascii) : Ascii.ascii :=
  if is_ascii_uppercase c then Ascii.ascii_of_N (byte_of c + 32) else c.
Definition to_ascii_lowercase (s : string) : string :=
  of_chars (map to_ascii_lowercase_char (chars s)).

(** [s.split(c)], never empty. *)
Fixpoint split_chars (c : Ascii.ascii) (l : list Ascii.ascii) : list (list Ascii.ascii) :=
  match l with
  | [] => [[]]
  | d :: l =>
      let rest := split_chars c l in
      if Ascii.eqb c d then [] :: rest
      else match rest with x :: xs => (d :: x) :: xs | [] => [[d]] end
  end.
Definition split (c : Ascii.ascii) (s : string) : list string :=
  map of_chars (split_chars c (chars s)).

(** [s.strip_suffix(t)]. *)
Definition strip_suffix (suffix s : string) : option string :=
  match strip_list (rev (chars suffix)) (rev (chars s)) with
  | Some l => Some (of_chars (rev l))
  | None => None
  end.

(** [s.split_once(t)]: the text before and after the first occurrence. *)
Fixpoint split_once (t s : string) : option (string * string) :=
  match strip_prefix t s with
  | Some rest => Some ("", rest)
  | None => match s with
            | EmptyString => None
            | String c s => match split_once t s with
                            | Some (a, b) => Some (String c a, b)
                            | None => None
                            end
            end
  end.

(** ** Lemmas *)
Lemma string_app_assoc (s t u : string) : (s +:+ t) +:+ u = s +:+ (t +:+ u).
Proof. induction s as [|a s IH]; [done|]. exact (f_equal (String a) IH). Qed.
Lemma strip_list_length p l l' : strip_list p l = Some l' → length l = length p + length l'.
Proof.
  revert l. induction p as [|a p IH]; intros l; cbn; [by intros [= ->]|].
  destruct l as [|b l]; [done|]. destruct (Ascii.eqb a b); [|done].
  intros ?%IH. simpl. lia.
Qed.

Lemma split_chars_join c l : split_chars c l ≠ [].
Proof. destruct l as [|d l]; cbn; [done|]. case_match; [done|]. by case_match. Qed.

(** *** Splitting *)
Definition has_char (c : Ascii.ascii) (s : string) : bool := existsb (Ascii.eqb c) (chars s).
Lemma has_char_app c s t : has_char c (s +:+ t) = has_char c s || has_char c t.
Proof. unfold has_char. by rewrite chars_app, existsb_app. Qed.
Lemma split_chars_none c l : existsb (Ascii.eqb c) l = false → split_chars c l = [l].
Proof.
  induction l as [|d l IH]; cbn; [done|]. intros [Hd Hl]%orb_false_iff.
  by rewrite Hd, IH.
Qed.
Lemma split_chars_app c l l' :
  existsb (Ascii.eqb c) l = false → split_chars c (l ++ c :: l') = l :: split_chars c l'.
Proof.
  induction l as [|d l IH]; cbn; [by rewrite Ascii.eqb_refl|].
  intros [Hd Hl]%orb_false_iff. by rewrite Hd, IH.
Qed.
Lemma split_chars_parts c l part :
  part ∈ split_chars c l →
  existsb (Ascii.eqb c) part = false ∧ ∀ d, existsb (Ascii.eqb d) l = false →
    existsb (Ascii.eqb d) part = false.
Proof.
  revert part. induction l as [|e l IH]; cbn; intros part Hin; [by apply list_elem_of_singleton in Hin as ->|].
  destruct (Ascii.eqb c e) eqn:Hc.
  - apply elem_of_cons in Hin as [->|Hin]; [by split|].
    destruct (IH _ Hin) as [? H]. split; [done|]. intros d [_ Hd]%orb_false_iff. auto.
  - destruct (split_chars c l) as [|x xs] eqn:Hs; [by destruct (split_chars_join c l)|].
    apply elem_of_cons in Hin as [->|Hin].
    + destruct (IH x) as [Hx H]; [apply elem_of_cons; by left|]. cbn. rewrite Hc. split; [done|].
      intros d [Hd Hl]%orb_false_iff. rewrite Hd. cbn [orb]. auto.
    + destruct (IH part) as [? H]; [apply elem_of_cons; by right|]. split; [done|].
      intros d [_ Hd]%orb_false_iff. auto.
Qed.
Lemma split_none c s : has_char c s = false → split c s = [s].
Proof. intros Hs. unfold split. rewrite split_chars_none by done. cbn. by rewrite of_chars_chars. Qed.
Lemma split_app c s t : has_char c s = false → split c (s +:+ String c t) = s :: split c t.
Proof.
  intros Hs. unfold split. rewrite chars_app. change (chars (String c t)) with (c :: chars t).
  rewrite split_chars_app by done. cbn. by rewrite of_chars_chars.
Qed.
Lemma split_parts c s part :
  part ∈ split c s →
  has_char c part = false ∧ ∀ d, has_char d s = false → has_char d part = false.
Proof.
  unfold split, has_char. intros (l & -> & Hl)%list_elem_of_fmap. rewrite chars_of_chars.
  by apply split_chars_parts.
Qed.

Example trim_ascii : trim " a b  " = "a b".
Proof. reflexivity. Qed.
Example trim_nbsp : trim (str_of_bytes [194; 160; 97; 226; 128; 137]%N) = "a".
Proof. reflexivity. Qed.
