(* ===== verification/Types.v ===== *)
(** * Data of the core state machine

    The structs and enums of [CoreAgentState] and of everything it holds, one
    Module per Rust type: the record [ActiveRun.ActiveRun] is [struct ActiveRun]
    and [RunStatus.Parked] is [RunStatus::Parked], field for field and variant for
    variant. Numeric ids, sequence numbers and uuids are the [N] they wrap; the
    validated string ids and blob references are strings; a promise id is its
    number (see [Ids]); [serde_json::Value] is its text. *)
From S2P Require Import Prelude.
Set Primitive Projections.

Class Default (A : Type) := default_of : A.
#[export] Instance default_N : Default N := 0%N.
#[export] Instance default_bool : Default bool := false.
#[export] Instance default_option A : Default (option A) := None.
#[export] Instance default_list A : Default (list A) := [].
#[export] Instance default_gmap K `{Countable K} A : Default (gmap K A) := (∅ : gmap K A).
#[export] Instance default_gset K `{Countable K} : Default (gset K) := (∅ : gset K).

(** ** Identifiers *)
Abbreviation RunId := N (only parsing).
Abbreviation SteeringId := N (only parsing).
Abbreviation TurnId := N (only parsing).
Abbreviation ToolBatchId := N (only parsing).
Abbreviation ContextEntryId := N (only parsing).
Abbreviation EventSeq := N (only parsing).
Abbreviation PromiseId := N (only parsing).
Abbreviation Uuid := N (only parsing).
Abbreviation SubmissionId := string (only parsing).
Abbreviation ContextEntryKey := string (only parsing).
Abbreviation EnvironmentId := string (only parsing).
Abbreviation ToolCallId := string (only parsing).
Abbreviation ToolId := string (only parsing).
Abbreviation ToolName := string (only parsing).
Abbreviation WorkflowToolId := string (only parsing).
Abbreviation ApprovalId := string (only parsing).
Abbreviation WorkflowToolInvocationId := string (only parsing).
Abbreviation SessionId := string (only parsing).
Abbreviation BlobRef := string (only parsing).
Abbreviation Value := string (only parsing).

(** ** [core/components/error.rs] *)

(** [enum DomainError] of [core/components/error.rs]. *)
Module DomainError.
Inductive DomainError : Type :=
| InvariantViolation (x : string)
| EventOrdering (x : string)
| ProviderCompatibility (x : string).
End DomainError.
Abbreviation DomainError := DomainError.DomainError.
#[export] Instance DomainError_eq_dec : EqDecision DomainError.
Proof. solve_decision. Defined.

(** [enum PlanningError] of [core/components/error.rs]. *)
Module PlanningError.
Inductive PlanningError : Type :=
| Rejected (x : string)
| Domain (x : DomainError).
End PlanningError.
Abbreviation PlanningError := PlanningError.PlanningError.
#[export] Instance PlanningError_eq_dec : EqDecision PlanningError.
Proof. solve_decision. Defined.

(** ** [session/log.rs] *)

(** [struct SessionPosition] of [session/log.rs]. *)
Module SessionPosition.
Record SessionPosition : Type := {
  seq : EventSeq;
}.
End SessionPosition.
Abbreviation SessionPosition := SessionPosition.SessionPosition.
#[export] Instance SessionPosition_eq_dec : EqDecision SessionPosition.
Proof. solve_decision. Defined.

(** ** [core/components/ids.rs] *)

(** [struct IdCursors] of [core/components/ids.rs]. *)
Module IdCursors.
Record IdCursors : Type := {
  last_run_id : N;
  last_steering_id : N;
  last_turn_id : N;
  last_tool_batch_id : N;
  last_context_entry_id : N;
  last_promise_id : N;
  last_approval_id : N;
}.
End IdCursors.
Abbreviation IdCursors := IdCursors.IdCursors.
#[export] Instance IdCursors_eq_dec : EqDecision IdCursors.
Proof. solve_decision. Defined.
#[export] Instance IdCursors_default : Default IdCursors :=
  {| IdCursors.last_run_id := default_of;
     IdCursors.last_steering_id := default_of;
     IdCursors.last_turn_id := default_of;
     IdCursors.last_tool_batch_id := default_of;
     IdCursors.last_context_entry_id := default_of;
     IdCursors.last_promise_id := default_of;
     IdCursors.last_approval_id := default_of |}.
#[export] Instance set_IdCursors_last_run_id : Setter IdCursors.last_run_id := ltac:(solve_setter IdCursors.last_run_id).
#[export] Instance set_IdCursors_last_steering_id : Setter IdCursors.last_steering_id := ltac:(solve_setter IdCursors.last_steering_id).
#[export] Instance set_IdCursors_last_turn_id : Setter IdCursors.last_turn_id := ltac:(solve_setter IdCursors.last_turn_id).
#[export] Instance set_IdCursors_last_tool_batch_id : Setter IdCursors.last_tool_batch_id := ltac:(solve_setter IdCursors.last_tool_batch_id).
#[export] Instance set_IdCursors_last_context_entry_id : Setter IdCursors.last_context_entry_id := ltac:(solve_setter IdCursors.last_context_entry_id).
#[export] Instance set_IdCursors_last_promise_id : Setter IdCursors.last_promise_id := ltac:(solve_setter IdCursors.last_promise_id).
#[export] Instance set_IdCursors_last_approval_id : Setter IdCursors.last_approval_id := ltac:(solve_setter IdCursors.last_approval_id).

(** ** [core/components/lifecycle.rs] *)

(** [enum Status] of [core/components/lifecycle.rs]. *)
Module CoreAgentStatus.
Inductive CoreAgentStatus : Type :=
| New
| Open
| Closed.
End CoreAgentStatus.
Abbreviation CoreAgentStatus := CoreAgentStatus.CoreAgentStatus.
#[export] Instance CoreAgentStatus_eq_dec : EqDecision CoreAgentStatus.
Proof. solve_decision. Defined.

(** ** [core/components/llm.rs] *)

(** [enum ProviderApiKind] of [core/components/llm.rs]. *)
Module ProviderApiKind.
Inductive ProviderApiKind : Type :=
| OpenAiResponses
| AnthropicMessages
| OpenAiCompletions.
End ProviderApiKind.
Abbreviation ProviderApiKind := ProviderApiKind.ProviderApiKind.
#[export] Instance ProviderApiKind_eq_dec : EqDecision ProviderApiKind.
Proof. solve_decision. Defined.

(** [struct ModelSelection] of [core/components/llm.rs]. *)
Module ModelSelection.
Record ModelSelection : Type := {
  api_kind : ProviderApiKind;
  provider_id : string;
  model : string;
}.
End ModelSelection.
Abbreviation ModelSelection := ModelSelection.ModelSelection.
#[export] Instance ModelSelection_eq_dec : EqDecision ModelSelection.
Proof. solve_decision. Defined.

(** ** [core/components/tooling.rs] *)

(** [enum ToolChoice] of [core/components/tooling.rs]. *)
Module ToolChoice.
Inductive ToolChoice : Type :=
| Auto
| None
| RequiredAny
| Specific (tool_id : ToolId).
End ToolChoice.
Abbreviation ToolChoice := ToolChoice.ToolChoice.
#[export] Instance ToolChoice_eq_dec : EqDecision ToolChoice.
Proof. solve_decision. Defined.

(** ** [core/components/config.rs] *)

(** [enum ModelProcessingTier] of [core/components/config.rs]. *)
Module ModelProcessingTier.
Inductive ModelProcessingTier : Type :=
| Standard
| Fast
| Flex.
End ModelProcessingTier.
Abbreviation ModelProcessingTier := ModelProcessingTier.ModelProcessingTier.
#[export] Instance ModelProcessingTier_eq_dec : EqDecision ModelProcessingTier.
Proof. solve_decision. Defined.

(** [struct GenerationConfig] of [core/components/config.rs]. *)
Module GenerationConfig.
Record GenerationConfig : Type := {
  max_output_tokens : option N;
  reasoning_effort : option string;
  tool_choice : option ToolChoice;
  parallel_tool_use : option bool;
  processing_tier : option ModelProcessingTier;
}.
End GenerationConfig.
Abbreviation GenerationConfig := GenerationConfig.GenerationConfig.
#[export] Instance GenerationConfig_eq_dec : EqDecision GenerationConfig.
Proof. solve_decision. Defined.
#[export] Instance GenerationConfig_default : Default GenerationConfig :=
  {| GenerationConfig.max_output_tokens := default_of;
     GenerationConfig.reasoning_effort := default_of;
     GenerationConfig.tool_choice := default_of;
     GenerationConfig.parallel_tool_use := default_of;
     GenerationConfig.processing_tier := default_of |}.

(** [struct LimitsConfig] of [core/components/config.rs]. *)
Module LimitsConfig.
Record LimitsConfig : Type := {
  max_turns : option N;
}.
End LimitsConfig.
Abbreviation LimitsConfig := LimitsConfig.LimitsConfig.
#[export] Instance LimitsConfig_eq_dec : EqDecision LimitsConfig.
Proof. solve_decision. Defined.
#[export] Instance LimitsConfig_default : Default LimitsConfig :=
  {| LimitsConfig.max_turns := default_of |}.

(** [enum CompactionPolicy] of [core/components/config.rs]. *)
Module CompactionPolicy.
Inductive CompactionPolicy : Type :=
| Disabled
| ProviderTriggered (compact_threshold_tokens : option N)
| ProviderStandalone (compact_threshold_tokens : option N) (target_tokens : option N).
End CompactionPolicy.
Abbreviation CompactionPolicy := CompactionPolicy.CompactionPolicy.
#[export] Instance CompactionPolicy_eq_dec : EqDecision CompactionPolicy.
Proof. solve_decision. Defined.

(** [struct ContextConfig] of [core/components/config.rs]. *)
Module ContextConfig.
Record ContextConfig : Type := {
  compaction : option CompactionPolicy;
  input_limit_tokens : option N;
}.
End ContextConfig.
Abbreviation ContextConfig := ContextConfig.ContextConfig.
#[export] Instance ContextConfig_eq_dec : EqDecision ContextConfig.
Proof. solve_decision. Defined.
#[export] Instance ContextConfig_default : Default ContextConfig :=
  {| ContextConfig.compaction := default_of;
     ContextConfig.input_limit_tokens := default_of |}.

(** [enum WorkspaceAttachmentTarget] of [core/components/config.rs]. *)
Module WorkspaceAttachmentTarget.
Inductive WorkspaceAttachmentTarget : Type :=
| Workspace (workspace_id : string)
| Snapshot (snapshot_ref : BlobRef).
End WorkspaceAttachmentTarget.
Abbreviation WorkspaceAttachmentTarget := WorkspaceAttachmentTarget.WorkspaceAttachmentTarget.
#[export] Instance WorkspaceAttachmentTarget_eq_dec : EqDecision WorkspaceAttachmentTarget.
Proof. solve_decision. Defined.

(** [enum WorkspaceAccess] of [core/components/config.rs]. *)
Module WorkspaceAccess.
Inductive WorkspaceAccess : Type :=
| Read
| Edit.
End WorkspaceAccess.
Abbreviation WorkspaceAccess := WorkspaceAccess.WorkspaceAccess.
#[export] Instance WorkspaceAccess_eq_dec : EqDecision WorkspaceAccess.
Proof. solve_decision. Defined.

(** [struct WorkspaceAttachment] of [core/components/config.rs]. *)
Module WorkspaceAttachment.
Record WorkspaceAttachment : Type := {
  path : string;
  target : WorkspaceAttachmentTarget;
  access : WorkspaceAccess;
}.
End WorkspaceAttachment.
Abbreviation WorkspaceAttachment := WorkspaceAttachment.WorkspaceAttachment.
#[export] Instance WorkspaceAttachment_eq_dec : EqDecision WorkspaceAttachment.
Proof. solve_decision. Defined.

(** [struct VfsPromptsConfig] of [core/components/config.rs]. *)
Module VfsPromptsConfig.
Record VfsPromptsConfig : Type := {
  roots : option (list string);
}.
End VfsPromptsConfig.
Abbreviation VfsPromptsConfig := VfsPromptsConfig.VfsPromptsConfig.
#[export] Instance VfsPromptsConfig_eq_dec : EqDecision VfsPromptsConfig.
Proof. solve_decision. Defined.
#[export] Instance VfsPromptsConfig_default : Default VfsPromptsConfig :=
  {| VfsPromptsConfig.roots := default_of |}.

(** [struct VfsSkillsConfig] of [core/components/config.rs]. *)
Module VfsSkillsConfig.
Record VfsSkillsConfig : Type := {
  roots : option (list string);
}.
End VfsSkillsConfig.
Abbreviation VfsSkillsConfig := VfsSkillsConfig.VfsSkillsConfig.
#[export] Instance VfsSkillsConfig_eq_dec : EqDecision VfsSkillsConfig.
Proof. solve_decision. Defined.
#[export] Instance VfsSkillsConfig_default : Default VfsSkillsConfig :=
  {| VfsSkillsConfig.roots := default_of |}.

(** [struct VfsFeature] of [core/components/config.rs]. *)
Module VfsFeature.
Record VfsFeature : Type := {
  version : N;
  working_directory : option string;
  workspaces : list WorkspaceAttachment;
  prompts : option VfsPromptsConfig;
  skills : option VfsSkillsConfig;
}.
End VfsFeature.
Abbreviation VfsFeature := VfsFeature.VfsFeature.
#[export] Instance VfsFeature_eq_dec : EqDecision VfsFeature.
Proof. solve_decision. Defined.

(** [struct WebFetchFeature] of [core/components/config.rs]. *)
Module WebFetchFeature.
Record WebFetchFeature : Type := {
}.
End WebFetchFeature.
Abbreviation WebFetchFeature := WebFetchFeature.WebFetchFeature.
#[export] Instance WebFetchFeature_eq_dec : EqDecision WebFetchFeature.
Proof. solve_decision. Defined.
#[export] Instance WebFetchFeature_default : Default WebFetchFeature := WebFetchFeature.Build_WebFetchFeature.

(** [struct WebSearchFeature] of [core/components/config.rs]. *)
Module WebSearchFeature.
Record WebSearchFeature : Type := {
  allowed_domains : option (list string);
  blocked_domains : list string;
}.
End WebSearchFeature.
Abbreviation WebSearchFeature := WebSearchFeature.WebSearchFeature.
#[export] Instance WebSearchFeature_eq_dec : EqDecision WebSearchFeature.
Proof. solve_decision. Defined.
#[export] Instance WebSearchFeature_default : Default WebSearchFeature :=
  {| WebSearchFeature.allowed_domains := default_of;
     WebSearchFeature.blocked_domains := default_of |}.

(** [struct WebFeature] of [core/components/config.rs]. *)
Module WebFeature.
Record WebFeature : Type := {
  version : N;
  fetch : option WebFetchFeature;
  search : option WebSearchFeature;
}.
End WebFeature.
Abbreviation WebFeature := WebFeature.WebFeature.
#[export] Instance WebFeature_eq_dec : EqDecision WebFeature.
Proof. solve_decision. Defined.

(** [struct SubagentAgentConfig] of [core/components/config.rs]. *)
Module SubagentAgentConfig.
Record SubagentAgentConfig : Type := {
  profile_id : string;
}.
End SubagentAgentConfig.
Abbreviation SubagentAgentConfig := SubagentAgentConfig.SubagentAgentConfig.
#[export] Instance SubagentAgentConfig_eq_dec : EqDecision SubagentAgentConfig.
Proof. solve_decision. Defined.

(** [struct SubagentLimits] of [core/components/config.rs]. *)
Module SubagentLimits.
Record SubagentLimits : Type := {
  max_depth : N;
  max_concurrent : N;
  run_timeout_ms : option N;
}.
End SubagentLimits.
Abbreviation SubagentLimits := SubagentLimits.SubagentLimits.
#[export] Instance SubagentLimits_eq_dec : EqDecision SubagentLimits.
Proof. solve_decision. Defined.

(** [struct SubagentsFeature] of [core/components/config.rs]. *)
Module SubagentsFeature.
Record SubagentsFeature : Type := {
  version : N;
  agents : list SubagentAgentConfig;
  limits : SubagentLimits;
}.
End SubagentsFeature.
Abbreviation SubagentsFeature := SubagentsFeature.SubagentsFeature.
#[export] Instance SubagentsFeature_eq_dec : EqDecision SubagentsFeature.
Proof. solve_decision. Defined.

(** [struct CodeModeLimits] of [core/components/config.rs]. *)
Module CodeModeLimits.
Record CodeModeLimits : Type := {
  timeout_ms : N;
  max_memory_bytes : N;
  max_stack_bytes : N;
  max_source_bytes : N;
  max_catalog_bytes : N;
  max_request_bytes : N;
  max_result_bytes : N;
  max_output_bytes : N;
  max_tool_calls : N;
  max_outstanding_tool_calls : N;
}.
End CodeModeLimits.
Abbreviation CodeModeLimits := CodeModeLimits.CodeModeLimits.
#[export] Instance CodeModeLimits_eq_dec : EqDecision CodeModeLimits.
Proof. solve_decision. Defined.

(** [struct CodeModeFeature] of [core/components/config.rs]. *)
Module CodeModeFeature.
Record CodeModeFeature : Type := {
  version : N;
  allowed_tools : option (list string);
  limits : CodeModeLimits;
}.
End CodeModeFeature.
Abbreviation CodeModeFeature := CodeModeFeature.CodeModeFeature.
#[export] Instance CodeModeFeature_eq_dec : EqDecision CodeModeFeature.
Proof. solve_decision. Defined.

(** [struct TimersFeature] of [core/components/config.rs]. *)
Module TimersFeature.
Record TimersFeature : Type := {
  version : N;
}.
End TimersFeature.
Abbreviation TimersFeature := TimersFeature.TimersFeature.
#[export] Instance TimersFeature_eq_dec : EqDecision TimersFeature.
Proof. solve_decision. Defined.

(** [struct EnvironmentPromptsConfig] of [core/components/config.rs]. *)
Module EnvironmentPromptsConfig.
Record EnvironmentPromptsConfig : Type := {
  roots : option (list string);
}.
End EnvironmentPromptsConfig.
Abbreviation EnvironmentPromptsConfig := EnvironmentPromptsConfig.EnvironmentPromptsConfig.
#[export] Instance EnvironmentPromptsConfig_eq_dec : EqDecision EnvironmentPromptsConfig.
Proof. solve_decision. Defined.
#[export] Instance EnvironmentPromptsConfig_default : Default EnvironmentPromptsConfig :=
  {| EnvironmentPromptsConfig.roots := default_of |}.

(** [struct EnvironmentSkillsConfig] of [core/components/config.rs]. *)
Module EnvironmentSkillsConfig.
Record EnvironmentSkillsConfig : Type := {
  roots : option (list string);
}.
End EnvironmentSkillsConfig.
Abbreviation EnvironmentSkillsConfig := EnvironmentSkillsConfig.EnvironmentSkillsConfig.
#[export] Instance EnvironmentSkillsConfig_eq_dec : EqDecision EnvironmentSkillsConfig.
Proof. solve_decision. Defined.
#[export] Instance EnvironmentSkillsConfig_default : Default EnvironmentSkillsConfig :=
  {| EnvironmentSkillsConfig.roots := default_of |}.

(** [enum EnvironmentAccess] of [core/components/config.rs]. *)
Module EnvironmentAccess.
Inductive EnvironmentAccess : Type :=
| Read
| Edit
| Exec
| Jobs.
End EnvironmentAccess.
Abbreviation EnvironmentAccess := EnvironmentAccess.EnvironmentAccess.
#[export] Instance EnvironmentAccess_eq_dec : EqDecision EnvironmentAccess.
Proof. solve_decision. Defined.

(** [struct EnvironmentAttachment] of [core/components/config.rs]. *)
Module EnvironmentAttachment.
Record EnvironmentAttachment : Type := {
  environment_id : string;
  default : bool;
  access : EnvironmentAccess;
  working_directory : option string;
}.
End EnvironmentAttachment.
Abbreviation EnvironmentAttachment := EnvironmentAttachment.EnvironmentAttachment.
#[export] Instance EnvironmentAttachment_eq_dec : EqDecision EnvironmentAttachment.
Proof. solve_decision. Defined.

(** [struct EnvironmentsFeature] of [core/components/config.rs]. *)
Module EnvironmentsFeature.
Record EnvironmentsFeature : Type := {
  version : N;
  selection : bool;
  prompts : option EnvironmentPromptsConfig;
  skills : option EnvironmentSkillsConfig;
  environments : list EnvironmentAttachment;
}.
End EnvironmentsFeature.
Abbreviation EnvironmentsFeature := EnvironmentsFeature.EnvironmentsFeature.
#[export] Instance EnvironmentsFeature_eq_dec : EqDecision EnvironmentsFeature.
Proof. solve_decision. Defined.

(** [struct McpServerAttachment] of [core/components/config.rs]. *)
Module McpServerAttachment.
Record McpServerAttachment : Type := {
  server_id : string;
  tools : option (list string);
}.
End McpServerAttachment.
Abbreviation McpServerAttachment := McpServerAttachment.McpServerAttachment.
#[export] Instance McpServerAttachment_eq_dec : EqDecision McpServerAttachment.
Proof. solve_decision. Defined.

(** [struct McpFeature] of [core/components/config.rs]. *)
Module McpFeature.
Record McpFeature : Type := {
  version : N;
  servers : list McpServerAttachment;
}.
End McpFeature.
Abbreviation McpFeature := McpFeature.McpFeature.
#[export] Instance McpFeature_eq_dec : EqDecision McpFeature.
Proof. solve_decision. Defined.

(** [struct FeaturesConfig] of [core/components/config.rs]. *)
Module FeaturesConfig.
Record FeaturesConfig : Type := {
  vfs : option VfsFeature;
  web : option WebFeature;
  subagents : option SubagentsFeature;
  code_mode : option CodeModeFeature;
  timers : option TimersFeature;
  environments : option EnvironmentsFeature;
  mcp : option McpFeature;
}.
End FeaturesConfig.
Abbreviation FeaturesConfig := FeaturesConfig.FeaturesConfig.
#[export] Instance FeaturesConfig_eq_dec : EqDecision FeaturesConfig.
Proof. solve_decision. Defined.
#[export] Instance FeaturesConfig_default : Default FeaturesConfig :=
  {| FeaturesConfig.vfs := default_of;
     FeaturesConfig.web := default_of;
     FeaturesConfig.subagents := default_of;
     FeaturesConfig.code_mode := default_of;
     FeaturesConfig.timers := default_of;
     FeaturesConfig.environments := default_of;
     FeaturesConfig.mcp := default_of |}.

(** [struct SessionConfig] of [core/components/config.rs]. *)
Module SessionConfig.
Record SessionConfig : Type := {
  model : ModelSelection;
  generation : GenerationConfig;
  limits : LimitsConfig;
  context : ContextConfig;
  features : FeaturesConfig;
}.
End SessionConfig.
Abbreviation SessionConfig := SessionConfig.SessionConfig.
#[export] Instance SessionConfig_eq_dec : EqDecision SessionConfig.
Proof. solve_decision. Defined.

(** ** [core/components/lifecycle.rs] *)

(** [struct LifecycleState] of [core/components/lifecycle.rs]. *)
Module LifecycleState.
Record LifecycleState : Type := {
  status : CoreAgentStatus;
  config : option SessionConfig;
  config_revision : N;
}.
End LifecycleState.
Abbreviation LifecycleState := LifecycleState.LifecycleState.
#[export] Instance LifecycleState_eq_dec : EqDecision LifecycleState.
Proof. solve_decision. Defined.
(** [LifecycleState::default]. *)
#[export] Instance LifecycleState_default : Default LifecycleState :=
  {| LifecycleState.status := CoreAgentStatus.New; LifecycleState.config := None;
     LifecycleState.config_revision := 0%N |}.
#[export] Instance set_LifecycleState_status : Setter LifecycleState.status := ltac:(solve_setter LifecycleState.status).
#[export] Instance set_LifecycleState_config : Setter LifecycleState.config := ltac:(solve_setter LifecycleState.config).
#[export] Instance set_LifecycleState_config_revision : Setter LifecycleState.config_revision := ltac:(solve_setter LifecycleState.config_revision).

(** ** [core/components/run.rs] *)

(** [struct ContextRecoveryState] of [core/components/run.rs]. *)
Module ContextRecoveryState.
Record ContextRecoveryState : Type := {
  attempts : N;
  recovery_attempted_turn_id : option TurnId;
}.
End ContextRecoveryState.
Abbreviation ContextRecoveryState := ContextRecoveryState.ContextRecoveryState.
#[export] Instance ContextRecoveryState_eq_dec : EqDecision ContextRecoveryState.
Proof. solve_decision. Defined.
#[export] Instance ContextRecoveryState_default : Default ContextRecoveryState :=
  {| ContextRecoveryState.attempts := default_of;
     ContextRecoveryState.recovery_attempted_turn_id := default_of |}.
#[export] Instance set_ContextRecoveryState_attempts : Setter ContextRecoveryState.attempts := ltac:(solve_setter ContextRecoveryState.attempts).
#[export] Instance set_ContextRecoveryState_recovery_attempted_turn_id : Setter ContextRecoveryState.recovery_attempted_turn_id := ltac:(solve_setter ContextRecoveryState.recovery_attempted_turn_id).

(** [enum RunStatus] of [core/components/run.rs]. *)
Module RunStatus.
Inductive RunStatus : Type :=
| Running
| Parked
| Cancelling
| Completed
| Failed
| Cancelled.
End RunStatus.
Abbreviation RunStatus := RunStatus.RunStatus.
#[export] Instance RunStatus_eq_dec : EqDecision RunStatus.
Proof. solve_decision. Defined.

(** ** [core/components/context.rs] *)

(** [enum ContextMessageRole] of [core/components/context.rs]. *)
Module ContextMessageRole.
Inductive ContextMessageRole : Type :=
| User
| Assistant.
End ContextMessageRole.
Abbreviation ContextMessageRole := ContextMessageRole.ContextMessageRole.
#[export] Instance ContextMessageRole_eq_dec : EqDecision ContextMessageRole.
Proof. solve_decision. Defined.

(** [enum ContextEntryKind] of [core/components/context.rs]. *)
Module ContextEntryKind.
Inductive ContextEntryKind : Type :=
| Message (role : ContextMessageRole)
| Instructions
| Catalog (title : string)
| ToolCall (call_id : ToolCallId) (name : ToolName)
| ToolResult (call_id : ToolCallId) (is_error : bool)
| ReasoningState
| ProviderOpaque
| McpApprovalResponse (approval_request_id : string) (approve : bool).
End ContextEntryKind.
Abbreviation ContextEntryKind := ContextEntryKind.ContextEntryKind.
#[export] Instance ContextEntryKind_eq_dec : EqDecision ContextEntryKind.
Proof. solve_decision. Defined.

(** ** [blob.rs] *)

(** [struct ContentRef] of [blob.rs]. *)
Module ContentRef.
Record ContentRef : Type := {
  content_ref : BlobRef;
  media_type : option string;
  provider_kind : option string;
}.
End ContentRef.
Abbreviation ContentRef := ContentRef.ContentRef.
#[export] Instance ContentRef_eq_dec : EqDecision ContentRef.
Proof. solve_decision. Defined.
#[export] Instance set_ContentRef_content_ref : Setter ContentRef.content_ref := ltac:(solve_setter ContentRef.content_ref).
#[export] Instance set_ContentRef_media_type : Setter ContentRef.media_type := ltac:(solve_setter ContentRef.media_type).
#[export] Instance set_ContentRef_provider_kind : Setter ContentRef.provider_kind := ltac:(solve_setter ContentRef.provider_kind).

(** ** [core/components/context.rs] *)

(** [enum TokenEstimateQuality] of [core/components/context.rs]. *)
Module TokenEstimateQuality.
Inductive TokenEstimateQuality : Type :=
| Exact
| ProviderCounted
| Estimated.
End TokenEstimateQuality.
Abbreviation TokenEstimateQuality := TokenEstimateQuality.TokenEstimateQuality.
#[export] Instance TokenEstimateQuality_eq_dec : EqDecision TokenEstimateQuality.
Proof. solve_decision. Defined.

(** [struct TokenEstimate] of [core/components/context.rs]. *)
Module TokenEstimate.
Record TokenEstimate : Type := {
  tokens : N;
  quality : TokenEstimateQuality;
}.
End TokenEstimate.
Abbreviation TokenEstimate := TokenEstimate.TokenEstimate.
#[export] Instance TokenEstimate_eq_dec : EqDecision TokenEstimate.
Proof. solve_decision. Defined.

(** [struct ContextEntryInput] of [core/components/context.rs]. *)
Module ContextEntryInput.
Record ContextEntryInput : Type := {
  origin : option string;
  kind : ContextEntryKind;
  content : ContentRef;
  preview : option string;
  provenance_ref : option BlobRef;
  token_estimate : option TokenEstimate;
}.
End ContextEntryInput.
Abbreviation ContextEntryInput := ContextEntryInput.ContextEntryInput.
#[export] Instance ContextEntryInput_eq_dec : EqDecision ContextEntryInput.
Proof. solve_decision. Defined.
#[export] Instance set_ContextEntryInput_origin : Setter ContextEntryInput.origin := ltac:(solve_setter ContextEntryInput.origin).
#[export] Instance set_ContextEntryInput_kind : Setter ContextEntryInput.kind := ltac:(solve_setter ContextEntryInput.kind).
#[export] Instance set_ContextEntryInput_content : Setter ContextEntryInput.content := ltac:(solve_setter ContextEntryInput.content).
#[export] Instance set_ContextEntryInput_preview : Setter ContextEntryInput.preview := ltac:(solve_setter ContextEntryInput.preview).
#[export] Instance set_ContextEntryInput_provenance_ref : Setter ContextEntryInput.provenance_ref := ltac:(solve_setter ContextEntryInput.provenance_ref).
#[export] Instance set_ContextEntryInput_token_estimate : Setter ContextEntryInput.token_estimate := ltac:(solve_setter ContextEntryInput.token_estimate).

(** ** [core/components/run.rs] *)

(** [enum RunSource] of [core/components/run.rs]. *)
Module RunSource.
Inductive RunSource : Type :=
| Input (input : list ContextEntryInput).
End RunSource.
Abbreviation RunSource := RunSource.RunSource.
#[export] Instance RunSource_eq_dec : EqDecision RunSource.
Proof. solve_decision. Defined.

(** ** [core/components/config.rs] *)

(** [struct RunConfig] of [core/components/config.rs]. *)
Module RunConfig.
Record RunConfig : Type := {
  max_turns : option N;
  model_override : option ModelSelection;
  max_output_tokens : option N;
  reasoning_effort : option string;
  processing_tier : option ModelProcessingTier;
  tool_choice : option ToolChoice;
  parallel_tool_use : option bool;
}.
End RunConfig.
Abbreviation RunConfig := RunConfig.RunConfig.
#[export] Instance RunConfig_eq_dec : EqDecision RunConfig.
Proof. solve_decision. Defined.
#[export] Instance RunConfig_default : Default RunConfig :=
  {| RunConfig.max_turns := default_of;
     RunConfig.model_override := default_of;
     RunConfig.max_output_tokens := default_of;
     RunConfig.reasoning_effort := default_of;
     RunConfig.processing_tier := default_of;
     RunConfig.tool_choice := default_of;
     RunConfig.parallel_tool_use := default_of |}.

(** ** [core/components/turn.rs] *)

(** [struct LlmUsage] of [core/components/turn.rs]. *)
Module LlmUsage.
Record LlmUsage : Type := {
  input_tokens : option N;
  output_tokens : option N;
  reasoning_tokens : option N;
  total_tokens : option N;
  cached_input_tokens : option N;
  cache_write_input_tokens : option N;
  cache_miss_input_tokens : option N;
}.
End LlmUsage.
Abbreviation LlmUsage := LlmUsage.LlmUsage.
#[export] Instance LlmUsage_eq_dec : EqDecision LlmUsage.
Proof. solve_decision. Defined.
#[export] Instance set_LlmUsage_input_tokens : Setter LlmUsage.input_tokens := ltac:(solve_setter LlmUsage.input_tokens).
#[export] Instance set_LlmUsage_output_tokens : Setter LlmUsage.output_tokens := ltac:(solve_setter LlmUsage.output_tokens).
#[export] Instance set_LlmUsage_reasoning_tokens : Setter LlmUsage.reasoning_tokens := ltac:(solve_setter LlmUsage.reasoning_tokens).
#[export] Instance set_LlmUsage_total_tokens : Setter LlmUsage.total_tokens := ltac:(solve_setter LlmUsage.total_tokens).
#[export] Instance set_LlmUsage_cached_input_tokens : Setter LlmUsage.cached_input_tokens := ltac:(solve_setter LlmUsage.cached_input_tokens).
#[export] Instance set_LlmUsage_cache_write_input_tokens : Setter LlmUsage.cache_write_input_tokens := ltac:(solve_setter LlmUsage.cache_write_input_tokens).
#[export] Instance set_LlmUsage_cache_miss_input_tokens : Setter LlmUsage.cache_miss_input_tokens := ltac:(solve_setter LlmUsage.cache_miss_input_tokens).

(** ** [core/components/run.rs] *)

(** [struct SteeringBatch] of [core/components/run.rs]. *)
Module SteeringBatch.
Record SteeringBatch : Type := {
  steering_id : SteeringId;
  submission_id : SubmissionId;
  input : list ContextEntryInput;
  entry_ids : list ContextEntryId;
  consumed_by_turn_id : option TurnId;
}.
End SteeringBatch.
Abbreviation SteeringBatch := SteeringBatch.SteeringBatch.
#[export] Instance SteeringBatch_eq_dec : EqDecision SteeringBatch.
Proof. solve_decision. Defined.
#[export] Instance set_SteeringBatch_steering_id : Setter SteeringBatch.steering_id := ltac:(solve_setter SteeringBatch.steering_id).
#[export] Instance set_SteeringBatch_submission_id : Setter SteeringBatch.submission_id := ltac:(solve_setter SteeringBatch.submission_id).
#[export] Instance set_SteeringBatch_input : Setter SteeringBatch.input := ltac:(solve_setter SteeringBatch.input).
#[export] Instance set_SteeringBatch_entry_ids : Setter SteeringBatch.entry_ids := ltac:(solve_setter SteeringBatch.entry_ids).
#[export] Instance set_SteeringBatch_consumed_by_turn_id : Setter SteeringBatch.consumed_by_turn_id := ltac:(solve_setter SteeringBatch.consumed_by_turn_id).

(** ** [core/components/turn.rs] *)

(** [enum TurnStatus] of [core/components/turn.rs]. *)
Module TurnStatus.
Inductive TurnStatus : Type :=
| Started
| Planned
| GenerationPending
| GenerationSettled
| Completed
| Failed
| Cancelled.
End TurnStatus.
Abbreviation TurnStatus := TurnStatus.TurnStatus.
#[export] Instance TurnStatus_eq_dec : EqDecision TurnStatus.
Proof. solve_decision. Defined.

(** [struct PlannedRequestState] of [core/components/turn.rs]. *)
Module PlannedRequestState.
Record PlannedRequestState : Type := {
  request_fingerprint : string;
  config_revision : N;
  context_revision : N;
  toolset_revision : N;
}.
End PlannedRequestState.
Abbreviation PlannedRequestState := PlannedRequestState.PlannedRequestState.
#[export] Instance PlannedRequestState_eq_dec : EqDecision PlannedRequestState.
Proof. solve_decision. Defined.

(** [enum LlmGenerationStatus] of [core/components/turn.rs]. *)
Module LlmGenerationStatus.
Inductive LlmGenerationStatus : Type :=
| Succeeded
| Failed
| Rejected
| Cancelled.
End LlmGenerationStatus.
Abbreviation LlmGenerationStatus := LlmGenerationStatus.LlmGenerationStatus.
#[export] Instance LlmGenerationStatus_eq_dec : EqDecision LlmGenerationStatus.
Proof. solve_decision. Defined.

(** [enum LlmFinish] of [core/components/turn.rs]. *)
Module LlmFinish.
Inductive LlmFinish : Type :=
| Stop
| ToolCalls
| Length
| ContentFilter
| ContextLimit
| Cancelled
| Failed
| Unknown.
End LlmFinish.
Abbreviation LlmFinish := LlmFinish.LlmFinish.
#[export] Instance LlmFinish_eq_dec : EqDecision LlmFinish.
Proof. solve_decision. Defined.

(** ** [core/components/tooling.rs] *)

(** [struct ObservedToolCall] of [core/components/tooling.rs]. *)
Module ObservedToolCall.
Record ObservedToolCall : Type := {
  call_id : ToolCallId;
  tool_id : option ToolId;
  tool_name : ToolName;
  provider_kind : option string;
  arguments_ref : BlobRef;
  native_call_ref : option BlobRef;
}.
End ObservedToolCall.
Abbreviation ObservedToolCall := ObservedToolCall.ObservedToolCall.
#[export] Instance ObservedToolCall_eq_dec : EqDecision ObservedToolCall.
Proof. solve_decision. Defined.

(** ** [core/components/approval.rs] *)

(** [enum ApprovalSubject] of [core/components/approval.rs]. *)
Module ApprovalSubject.
Inductive ApprovalSubject : Type :=
| McpToolCall (server_id : string) (server_label : string) (tool_name : string) (arguments_ref : BlobRef).
End ApprovalSubject.
Abbreviation ApprovalSubject := ApprovalSubject.ApprovalSubject.
#[export] Instance ApprovalSubject_eq_dec : EqDecision ApprovalSubject.
Proof. solve_decision. Defined.

(** [enum ApprovalContinuation] of [core/components/approval.rs]. *)
Module ApprovalContinuation.
Inductive ApprovalContinuation : Type :=
| ProviderMcp (provider_request_id : string)
| RuntimeMcp (batch_id : ToolBatchId) (call_id : ToolCallId).
End ApprovalContinuation.
Abbreviation ApprovalContinuation := ApprovalContinuation.ApprovalContinuation.
#[export] Instance ApprovalContinuation_eq_dec : EqDecision ApprovalContinuation.
Proof. solve_decision. Defined.

(** [struct ObservedApprovalRequest] of [core/components/approval.rs]. *)
Module ObservedApprovalRequest.
Record ObservedApprovalRequest : Type := {
  subject : ApprovalSubject;
  continuation : ApprovalContinuation;
}.
End ObservedApprovalRequest.
Abbreviation ObservedApprovalRequest := ObservedApprovalRequest.ObservedApprovalRequest.
#[export] Instance ObservedApprovalRequest_eq_dec : EqDecision ObservedApprovalRequest.
Proof. solve_decision. Defined.

(** ** [core/components/turn.rs] *)

(** [struct LlmGenerationFacts] of [core/components/turn.rs]. *)
Module LlmGenerationFacts.
Record LlmGenerationFacts : Type := {
  provider_response_id : option string;
  finish : LlmFinish;
  usage : option LlmUsage;
  duration_ms : option N;
  tool_calls : list ObservedToolCall;
  approval_requests : list ObservedApprovalRequest;
  context_token_estimate : option TokenEstimate;
}.
End LlmGenerationFacts.
Abbreviation LlmGenerationFacts := LlmGenerationFacts.LlmGenerationFacts.
#[export] Instance LlmGenerationFacts_eq_dec : EqDecision LlmGenerationFacts.
Proof. solve_decision. Defined.

(** [enum TurnOutcome] of [core/components/turn.rs]. *)
Module TurnOutcome.
Inductive TurnOutcome : Type :=
| FinalOutput (output : option ContentRef)
| ToolCallsQueued
| ContextLimit (failure_ref : option BlobRef)
| ApprovalsRequested
| Failed (failure_ref : option BlobRef)
| Rejected (failure_ref : option BlobRef)
| Cancelled.
End TurnOutcome.
Abbreviation TurnOutcome := TurnOutcome.TurnOutcome.
#[export] Instance TurnOutcome_eq_dec : EqDecision TurnOutcome.
Proof. solve_decision. Defined.

(** [struct TurnState] of [core/components/turn.rs]. *)
Module TurnState.
Record TurnState : Type := {
  turn_id : TurnId;
  run_id : RunId;
  status : TurnStatus;
  planned_request : option PlannedRequestState;
  generation_status : option LlmGenerationStatus;
  facts : option LlmGenerationFacts;
  outcome : option TurnOutcome;
}.
End TurnState.
Abbreviation TurnState := TurnState.TurnState.
#[export] Instance TurnState_eq_dec : EqDecision TurnState.
Proof. solve_decision. Defined.
#[export] Instance set_TurnState_turn_id : Setter TurnState.turn_id := ltac:(solve_setter TurnState.turn_id).
#[export] Instance set_TurnState_run_id : Setter TurnState.run_id := ltac:(solve_setter TurnState.run_id).
#[export] Instance set_TurnState_status : Setter TurnState.status := ltac:(solve_setter TurnState.status).
#[export] Instance set_TurnState_planned_request : Setter TurnState.planned_request := ltac:(solve_setter TurnState.planned_request).
#[export] Instance set_TurnState_generation_status : Setter TurnState.generation_status := ltac:(solve_setter TurnState.generation_status).
#[export] Instance set_TurnState_facts : Setter TurnState.facts := ltac:(solve_setter TurnState.facts).
#[export] Instance set_TurnState_outcome : Setter TurnState.outcome := ltac:(solve_setter TurnState.outcome).

(** ** [core/components/approval.rs] *)

(** [struct ApprovalRequested] of [core/components/approval.rs]. *)
Module ApprovalRequested.
Record ApprovalRequested : Type := {
  approval_id : ApprovalId;
  run_id : RunId;
  subject : ApprovalSubject;
  continuation : ApprovalContinuation;
}.
End ApprovalRequested.
Abbreviation ApprovalRequested := ApprovalRequested.ApprovalRequested.
#[export] Instance ApprovalRequested_eq_dec : EqDecision ApprovalRequested.
Proof. solve_decision. Defined.

(** [enum ApprovalStatus] of [core/components/approval.rs]. *)
Module ApprovalStatus.
Inductive ApprovalStatus : Type :=
| Pending
| Approved
| Rejected
| Cancelled.
End ApprovalStatus.
Abbreviation ApprovalStatus := ApprovalStatus.ApprovalStatus.
#[export] Instance ApprovalStatus_eq_dec : EqDecision ApprovalStatus.
Proof. solve_decision. Defined.

(** ** [core/components/attribution.rs] *)

(** [enum Attribution] of [core/components/attribution.rs]. *)
Module Attribution.
Inductive Attribution : Type :=
| Actor (id : string)
| Key (prefix : string)
| Local
| Internal (component : string) (cause : string).
End Attribution.
Abbreviation Attribution := Attribution.Attribution.
#[export] Instance Attribution_eq_dec : EqDecision Attribution.
Proof. solve_decision. Defined.

(** ** [core/components/approval.rs] *)

(** [struct ApprovalRecord] of [core/components/approval.rs]. *)
Module ApprovalRecord.
Record ApprovalRecord : Type := {
  request : ApprovalRequested;
  requested_at_ms : N;
  status : ApprovalStatus;
  note : option string;
  decided_by : option Attribution;
}.
End ApprovalRecord.
Abbreviation ApprovalRecord := ApprovalRecord.ApprovalRecord.
#[export] Instance ApprovalRecord_eq_dec : EqDecision ApprovalRecord.
Proof. solve_decision. Defined.
#[export] Instance set_ApprovalRecord_request : Setter ApprovalRecord.request := ltac:(solve_setter ApprovalRecord.request).
#[export] Instance set_ApprovalRecord_requested_at_ms : Setter ApprovalRecord.requested_at_ms := ltac:(solve_setter ApprovalRecord.requested_at_ms).
#[export] Instance set_ApprovalRecord_status : Setter ApprovalRecord.status := ltac:(solve_setter ApprovalRecord.status).
#[export] Instance set_ApprovalRecord_note : Setter ApprovalRecord.note := ltac:(solve_setter ApprovalRecord.note).
#[export] Instance set_ApprovalRecord_decided_by : Setter ApprovalRecord.decided_by := ltac:(solve_setter ApprovalRecord.decided_by).

(** ** [core/components/run.rs] *)

(** [enum AwaitMode] of [core/components/run.rs]. *)
Module AwaitMode.
Inductive AwaitMode : Type :=
| All
| Any.
End AwaitMode.
Abbreviation AwaitMode := AwaitMode.AwaitMode.
#[export] Instance AwaitMode_eq_dec : EqDecision AwaitMode.
Proof. solve_decision. Defined.
#[export] Instance AwaitMode_default : Default AwaitMode := AwaitMode.All.

(** [struct AwaitSpec] of [core/components/run.rs]. *)
Module AwaitSpec.
Record AwaitSpec : Type := {
  promise_ids : list PromiseId;
  mode : AwaitMode;
  deadline_at_ms : option N;
}.
End AwaitSpec.
Abbreviation AwaitSpec := AwaitSpec.AwaitSpec.
#[export] Instance AwaitSpec_eq_dec : EqDecision AwaitSpec.
Proof. solve_decision. Defined.

(** [struct JoinedWorkflowCall] of [core/components/run.rs]. *)
Module JoinedWorkflowCall.
Record JoinedWorkflowCall : Type := {
  call_id : ToolCallId;
  invocation_id : WorkflowToolInvocationId;
  promise_id : PromiseId;
}.
End JoinedWorkflowCall.
Abbreviation JoinedWorkflowCall := JoinedWorkflowCall.JoinedWorkflowCall.
#[export] Instance JoinedWorkflowCall_eq_dec : EqDecision JoinedWorkflowCall.
Proof. solve_decision. Defined.

(** [enum ToolBatchSuspension] of [core/components/run.rs]. *)
Module ToolBatchSuspension.
Inductive ToolBatchSuspension : Type :=
| AwaitTool (call_id : ToolCallId) (spec : AwaitSpec)
| JoinedWorkflowCalls (calls : list JoinedWorkflowCall) (spec : AwaitSpec).
End ToolBatchSuspension.
Abbreviation ToolBatchSuspension := ToolBatchSuspension.ToolBatchSuspension.
#[export] Instance ToolBatchSuspension_eq_dec : EqDecision ToolBatchSuspension.
Proof. solve_decision. Defined.

(** [struct ParkedToolBatch] of [core/components/run.rs]. *)
Module ParkedToolBatch.
Record ParkedToolBatch : Type := {
  batch_id : ToolBatchId;
  suspension : ToolBatchSuspension;
}.
End ParkedToolBatch.
Abbreviation ParkedToolBatch := ParkedToolBatch.ParkedToolBatch.
#[export] Instance ParkedToolBatch_eq_dec : EqDecision ParkedToolBatch.
Proof. solve_decision. Defined.

(** ** [core/components/tooling.rs] *)

(** [enum ToolCallStatus] of [core/components/tooling.rs]. *)
Module ToolCallStatus.
Inductive ToolCallStatus : Type :=
| Accepted
| Unavailable
| Pending
| Succeeded
| Failed
| Cancelled.
End ToolCallStatus.
Abbreviation ToolCallStatus := ToolCallStatus.ToolCallStatus.
#[export] Instance ToolCallStatus_eq_dec : EqDecision ToolCallStatus.
Proof. solve_decision. Defined.

(** ** [core/io.rs] *)

(** [struct ToolEffect] of [core/io.rs]. *)
Module ToolEffect.
Record ToolEffect : Type := {
  kind : string;
  data : gmap string string;
  refs : gmap string BlobRef;
}.
End ToolEffect.
Abbreviation ToolEffect := ToolEffect.ToolEffect.
#[export] Instance ToolEffect_eq_dec : EqDecision ToolEffect.
Proof. solve_decision. Defined.

(** ** [media.rs] *)

(** [enum MediaKind] of [media.rs]. *)
Module MediaKind.
Inductive MediaKind : Type :=
| Image
| Document.
End MediaKind.
Abbreviation MediaKind := MediaKind.MediaKind.
#[export] Instance MediaKind_eq_dec : EqDecision MediaKind.
Proof. solve_decision. Defined.

(** [struct MediaDescriptor] of [media.rs]. *)
Module MediaDescriptor.
Record MediaDescriptor : Type := {
  handle : string;
  content_ref : BlobRef;
  media_type : string;
  kind : MediaKind;
  name : option string;
}.
End MediaDescriptor.
Abbreviation MediaDescriptor := MediaDescriptor.MediaDescriptor.
#[export] Instance MediaDescriptor_eq_dec : EqDecision MediaDescriptor.
Proof. solve_decision. Defined.

(** ** [attachments.rs] *)

(** [struct AttachmentSource] of [attachments.rs]. *)
Module AttachmentSource.
Record AttachmentSource : Type := {
  kind : string;
  id : string;
  path : string;
}.
End AttachmentSource.
Abbreviation AttachmentSource := AttachmentSource.AttachmentSource.
#[export] Instance AttachmentSource_eq_dec : EqDecision AttachmentSource.
Proof. solve_decision. Defined.

(** [struct FileAttachment] of [attachments.rs]. *)
Module FileAttachment.
Record FileAttachment : Type := {
  handle : string;
  content_ref : BlobRef;
  name : string;
  media_type : option string;
  source : option AttachmentSource;
}.
End FileAttachment.
Abbreviation FileAttachment := FileAttachment.FileAttachment.
#[export] Instance FileAttachment_eq_dec : EqDecision FileAttachment.
Proof. solve_decision. Defined.

(** [enum Attachment] of [attachments.rs]. *)
Module Attachment.
Inductive Attachment : Type :=
| Media (x : MediaDescriptor)
| File (x : FileAttachment).
End Attachment.
Abbreviation Attachment := Attachment.Attachment.
#[export] Instance Attachment_eq_dec : EqDecision Attachment.
Proof. solve_decision. Defined.

(** ** [core/components/tooling.rs] *)

(** [struct ToolCallResult] of [core/components/tooling.rs]. *)
Module ToolCallResult.
Record ToolCallResult : Type := {
  call_id : ToolCallId;
  status : ToolCallStatus;
  output_ref : option BlobRef;
  model_visible_context_entries : list ContextEntryInput;
  error_ref : option BlobRef;
  effects : list ToolEffect;
  attachments : list Attachment;
  duration_ms : option N;
  output_bytes : option N;
  truncated : bool;
}.
End ToolCallResult.
Abbreviation ToolCallResult := ToolCallResult.ToolCallResult.
#[export] Instance ToolCallResult_eq_dec : EqDecision ToolCallResult.
Proof. solve_decision. Defined.

(** [struct ToolCallState] of [core/components/tooling.rs]. *)
Module ToolCallState.
Record ToolCallState : Type := {
  call : ObservedToolCall;
  status : ToolCallStatus;
  result : option ToolCallResult;
}.
End ToolCallState.
Abbreviation ToolCallState := ToolCallState.ToolCallState.
#[export] Instance ToolCallState_eq_dec : EqDecision ToolCallState.
Proof. solve_decision. Defined.
#[export] Instance set_ToolCallState_call : Setter ToolCallState.call := ltac:(solve_setter ToolCallState.call).
#[export] Instance set_ToolCallState_status : Setter ToolCallState.status := ltac:(solve_setter ToolCallState.status).
#[export] Instance set_ToolCallState_result : Setter ToolCallState.result := ltac:(solve_setter ToolCallState.result).

(** [struct ActiveToolBatch] of [core/components/tooling.rs]. *)
Module ActiveToolBatch.
Record ActiveToolBatch : Type := {
  batch_id : ToolBatchId;
  run_id : RunId;
  turn_id : TurnId;
  calls : list ToolCallState;
  promise_id_base : N;
}.
End ActiveToolBatch.
Abbreviation ActiveToolBatch := ActiveToolBatch.ActiveToolBatch.
#[export] Instance ActiveToolBatch_eq_dec : EqDecision ActiveToolBatch.
Proof. solve_decision. Defined.
#[export] Instance set_ActiveToolBatch_batch_id : Setter ActiveToolBatch.batch_id := ltac:(solve_setter ActiveToolBatch.batch_id).
#[export] Instance set_ActiveToolBatch_run_id : Setter ActiveToolBatch.run_id := ltac:(solve_setter ActiveToolBatch.run_id).
#[export] Instance set_ActiveToolBatch_turn_id : Setter ActiveToolBatch.turn_id := ltac:(solve_setter ActiveToolBatch.turn_id).
#[export] Instance set_ActiveToolBatch_calls : Setter ActiveToolBatch.calls := ltac:(solve_setter ActiveToolBatch.calls).
#[export] Instance set_ActiveToolBatch_promise_id_base : Setter ActiveToolBatch.promise_id_base := ltac:(solve_setter ActiveToolBatch.promise_id_base).

(** [struct CompletedToolBatch] of [core/components/tooling.rs]. *)
Module CompletedToolBatch.
Record CompletedToolBatch : Type := {
  batch_id : ToolBatchId;
  run_id : RunId;
  turn_id : TurnId;
  results : list ToolCallResult;
}.
End CompletedToolBatch.
Abbreviation CompletedToolBatch := CompletedToolBatch.CompletedToolBatch.
#[export] Instance CompletedToolBatch_eq_dec : EqDecision CompletedToolBatch.
Proof. solve_decision. Defined.

(** ** [core/components/run.rs] *)

(** [struct RunTerminalNotifyIntent] of [core/components/run.rs]. *)
Module RunTerminalNotifyIntent.
Record RunTerminalNotifyIntent : Type := {
  holder_workflow_id : string;
  token : string;
}.
End RunTerminalNotifyIntent.
Abbreviation RunTerminalNotifyIntent := RunTerminalNotifyIntent.RunTerminalNotifyIntent.
#[export] Instance RunTerminalNotifyIntent_eq_dec : EqDecision RunTerminalNotifyIntent.
Proof. solve_decision. Defined.

(** [struct ActiveRun] of [core/components/run.rs]. *)
Module ActiveRun.
Record ActiveRun : Type := {
  context_recovery : ContextRecoveryState;
  run_id : RunId;
  status : RunStatus;
  submission_id : option SubmissionId;
  source : RunSource;
  input_entry_ids : list ContextEntryId;
  input_consumed_by_turn_id : option TurnId;
  run_config : RunConfig;
  input_limit_tokens : option N;
  config_revision : N;
  first_seq : EventSeq;
  accepted_at_ms : N;
  started_at_ms : option N;
  usage : option LlmUsage;
  steering : list SteeringBatch;
  turns : gmap TurnId TurnState;
  turn_count : N;
  entry_guard_attempted : bool;
  active_turn_id : option TurnId;
  active_tool_batch_id : option ToolBatchId;
  approvals : gmap ApprovalId ApprovalRecord;
  parked_tool_batch : option ParkedToolBatch;
  tool_batches : gmap ToolBatchId ActiveToolBatch;
  completed_tool_batches : gmap ToolBatchId CompletedToolBatch;
  notify_on_terminal : list RunTerminalNotifyIntent;
}.
End ActiveRun.
Abbreviation ActiveRun := ActiveRun.ActiveRun.
#[export] Instance ActiveRun_eq_dec : EqDecision ActiveRun.
Proof. solve_decision. Defined.
#[export] Instance set_ActiveRun_context_recovery : Setter ActiveRun.context_recovery := ltac:(solve_setter ActiveRun.context_recovery).
#[export] Instance set_ActiveRun_run_id : Setter ActiveRun.run_id := ltac:(solve_setter ActiveRun.run_id).
#[export] Instance set_ActiveRun_status : Setter ActiveRun.status := ltac:(solve_setter ActiveRun.status).
#[export] Instance set_ActiveRun_submission_id : Setter ActiveRun.submission_id := ltac:(solve_setter ActiveRun.submission_id).
#[export] Instance set_ActiveRun_source : Setter ActiveRun.source := ltac:(solve_setter ActiveRun.source).
#[export] Instance set_ActiveRun_input_entry_ids : Setter ActiveRun.input_entry_ids := ltac:(solve_setter ActiveRun.input_entry_ids).
#[export] Instance set_ActiveRun_input_consumed_by_turn_id : Setter ActiveRun.input_consumed_by_turn_id := ltac:(solve_setter ActiveRun.input_consumed_by_turn_id).
#[export] Instance set_ActiveRun_run_config : Setter ActiveRun.run_config := ltac:(solve_setter ActiveRun.run_config).
#[export] Instance set_ActiveRun_input_limit_tokens : Setter ActiveRun.input_limit_tokens := ltac:(solve_setter ActiveRun.input_limit_tokens).
#[export] Instance set_ActiveRun_config_revision : Setter ActiveRun.config_revision := ltac:(solve_setter ActiveRun.config_revision).
#[export] Instance set_ActiveRun_first_seq : Setter ActiveRun.first_seq := ltac:(solve_setter ActiveRun.first_seq).
#[export] Instance set_ActiveRun_accepted_at_ms : Setter ActiveRun.accepted_at_ms := ltac:(solve_setter ActiveRun.accepted_at_ms).
#[export] Instance set_ActiveRun_started_at_ms : Setter ActiveRun.started_at_ms := ltac:(solve_setter ActiveRun.started_at_ms).
#[export] Instance set_ActiveRun_usage : Setter ActiveRun.usage := ltac:(solve_setter ActiveRun.usage).
#[export] Instance set_ActiveRun_steering : Setter ActiveRun.steering := ltac:(solve_setter ActiveRun.steering).
#[export] Instance set_ActiveRun_turns : Setter ActiveRun.turns := ltac:(solve_setter ActiveRun.turns).
#[export] Instance set_ActiveRun_turn_count : Setter ActiveRun.turn_count := ltac:(solve_setter ActiveRun.turn_count).
#[export] Instance set_ActiveRun_entry_guard_attempted : Setter ActiveRun.entry_guard_attempted := ltac:(solve_setter ActiveRun.entry_guard_attempted).
#[export] Instance set_ActiveRun_active_turn_id : Setter ActiveRun.active_turn_id := ltac:(solve_setter ActiveRun.active_turn_id).
#[export] Instance set_ActiveRun_active_tool_batch_id : Setter ActiveRun.active_tool_batch_id := ltac:(solve_setter ActiveRun.active_tool_batch_id).
#[export] Instance set_ActiveRun_approvals : Setter ActiveRun.approvals := ltac:(solve_setter ActiveRun.approvals).
#[export] Instance set_ActiveRun_parked_tool_batch : Setter ActiveRun.parked_tool_batch := ltac:(solve_setter ActiveRun.parked_tool_batch).
#[export] Instance set_ActiveRun_tool_batches : Setter ActiveRun.tool_batches := ltac:(solve_setter ActiveRun.tool_batches).
#[export] Instance set_ActiveRun_completed_tool_batches : Setter ActiveRun.completed_tool_batches := ltac:(solve_setter ActiveRun.completed_tool_batches).
#[export] Instance set_ActiveRun_notify_on_terminal : Setter ActiveRun.notify_on_terminal := ltac:(solve_setter ActiveRun.notify_on_terminal).

(** [struct AcceptedRun] of [core/components/run.rs]. *)
Module AcceptedRun.
Record AcceptedRun : Type := {
  run_id : RunId;
  submission_id : option SubmissionId;
  source : RunSource;
  run_config : RunConfig;
  input_limit_tokens : option N;
  config_revision : N;
  first_seq : EventSeq;
  accepted_at_ms : N;
  notify_on_terminal : list RunTerminalNotifyIntent;
}.
End AcceptedRun.
Abbreviation AcceptedRun := AcceptedRun.AcceptedRun.
#[export] Instance AcceptedRun_eq_dec : EqDecision AcceptedRun.
Proof. solve_decision. Defined.

(** [enum RunFailureKind] of [core/components/run.rs]. *)
Module RunFailureKind.
Inductive RunFailureKind : Type :=
| ContextFailure
| ModelFailure
| RequestRejected
| OutputTruncated
| ContentFiltered
| LimitExceeded
| Internal.
End RunFailureKind.
Abbreviation RunFailureKind := RunFailureKind.RunFailureKind.
#[export] Instance RunFailureKind_eq_dec : EqDecision RunFailureKind.
Proof. solve_decision. Defined.

(** [struct RunFailure] of [core/components/run.rs]. *)
Module RunFailure.
Record RunFailure : Type := {
  kind : RunFailureKind;
  message_ref : option BlobRef;
}.
End RunFailure.
Abbreviation RunFailure := RunFailure.RunFailure.
#[export] Instance RunFailure_eq_dec : EqDecision RunFailure.
Proof. solve_decision. Defined.

(** [struct RunRecord] of [core/components/run.rs]. *)
Module RunRecord.
Record RunRecord : Type := {
  run_id : RunId;
  status : RunStatus;
  submission_id : option SubmissionId;
  submission_digest : N;
  source : RunSource;
  first_seq : EventSeq;
  terminal_seq : EventSeq;
  accepted_at_ms : N;
  started_at_ms : option N;
  finished_at_ms : N;
  usage : option LlmUsage;
  output : option ContentRef;
  failure : option RunFailure;
  notify_on_terminal : list RunTerminalNotifyIntent;
}.
End RunRecord.
Abbreviation RunRecord := RunRecord.RunRecord.
#[export] Instance RunRecord_eq_dec : EqDecision RunRecord.
Proof. solve_decision. Defined.

(** [struct RunsState] of [core/components/run.rs]. *)
Module RunsState.
Record RunsState : Type := {
  active : option ActiveRun;
  queued : list AcceptedRun;
  finished : list RunRecord;
  pruned_through : option RunId;
}.
End RunsState.
Abbreviation RunsState := RunsState.RunsState.
#[export] Instance RunsState_eq_dec : EqDecision RunsState.
Proof. solve_decision. Defined.
#[export] Instance RunsState_default : Default RunsState :=
  {| RunsState.active := default_of;
     RunsState.queued := default_of;
     RunsState.finished := default_of;
     RunsState.pruned_through := default_of |}.
#[export] Instance set_RunsState_active : Setter RunsState.active := ltac:(solve_setter RunsState.active).
#[export] Instance set_RunsState_queued : Setter RunsState.queued := ltac:(solve_setter RunsState.queued).
#[export] Instance set_RunsState_finished : Setter RunsState.finished := ltac:(solve_setter RunsState.finished).
#[export] Instance set_RunsState_pruned_through : Setter RunsState.pruned_through := ltac:(solve_setter RunsState.pruned_through).

(** ** [core/components/context.rs] *)

(** [enum ContextEntrySource] of [core/components/context.rs]. *)
Module ContextEntrySource.
Inductive ContextEntrySource : Type :=
| ContextEdit
| RunInput (run_id : RunId) (input_index : N)
| Steering (run_id : RunId) (steering_id : SteeringId) (input_index : N)
| AssistantOutput (run_id : RunId) (turn_id : TurnId)
| ApprovalDecision (run_id : RunId) (approval_id : ApprovalId)
| Tool (run_id : RunId) (turn_id : TurnId) (batch_id : option ToolBatchId)
| Reasoning (run_id : RunId) (turn_id : TurnId)
| Runtime (label : string).
End ContextEntrySource.
Abbreviation ContextEntrySource := ContextEntrySource.ContextEntrySource.
#[export] Instance ContextEntrySource_eq_dec : EqDecision ContextEntrySource.
Proof. solve_decision. Defined.

(** [struct ContextEntry] of [core/components/context.rs]. *)
Module ContextEntry.
Record ContextEntry : Type := {
  origin : option string;
  entry_id : ContextEntryId;
  key : option ContextEntryKey;
  kind : ContextEntryKind;
  source : ContextEntrySource;
  content : ContentRef;
  preview : option string;
  provenance_ref : option BlobRef;
  token_estimate : option TokenEstimate;
  supersedes : option ContextEntryId;
}.
End ContextEntry.
Abbreviation ContextEntry := ContextEntry.ContextEntry.
#[export] Instance ContextEntry_eq_dec : EqDecision ContextEntry.
Proof. solve_decision. Defined.

(** [enum ContextCompactionTrigger] of [core/components/context.rs]. *)
Module ContextCompactionTrigger.
Inductive ContextCompactionTrigger : Type :=
| Manual
| HighWatermark
| ContextLimit.
End ContextCompactionTrigger.
Abbreviation ContextCompactionTrigger := ContextCompactionTrigger.ContextCompactionTrigger.
#[export] Instance ContextCompactionTrigger_eq_dec : EqDecision ContextCompactionTrigger.
Proof. solve_decision. Defined.

(** [struct ContextCompactionPlan] of [core/components/context.rs]. *)
Module ContextCompactionPlan.
Record ContextCompactionPlan : Type := {
  run_id : option RunId;
  covered_entry_ids : list ContextEntryId;
  trigger : ContextCompactionTrigger;
  estimated_tokens : option N;
}.
End ContextCompactionPlan.
Abbreviation ContextCompactionPlan := ContextCompactionPlan.ContextCompactionPlan.
#[export] Instance ContextCompactionPlan_eq_dec : EqDecision ContextCompactionPlan.
Proof. solve_decision. Defined.

(** [enum ContextCompactionPhase] of [core/components/context.rs]. *)
Module ContextCompactionPhase.
Inductive ContextCompactionPhase : Type :=
| Idle
| QueuedManual
| Pending (x : ContextCompactionPlan).
End ContextCompactionPhase.
Abbreviation ContextCompactionPhase := ContextCompactionPhase.ContextCompactionPhase.
#[export] Instance ContextCompactionPhase_eq_dec : EqDecision ContextCompactionPhase.
Proof. solve_decision. Defined.
#[export] Instance ContextCompactionPhase_default : Default ContextCompactionPhase := ContextCompactionPhase.Idle.

(** [enum ContextCompactionStatus] of [core/components/context.rs]. *)
Module ContextCompactionStatus.
Inductive ContextCompactionStatus : Type :=
| Succeeded
| Failed.
End ContextCompactionStatus.
Abbreviation ContextCompactionStatus := ContextCompactionStatus.ContextCompactionStatus.
#[export] Instance ContextCompactionStatus_eq_dec : EqDecision ContextCompactionStatus.
Proof. solve_decision. Defined.

(** [struct ManualCompactionOutcome] of [core/components/context.rs]. *)
Module ManualCompactionOutcome.
Record ManualCompactionOutcome : Type := {
  revision : N;
  status : ContextCompactionStatus;
  failure_ref : option BlobRef;
}.
End ManualCompactionOutcome.
Abbreviation ManualCompactionOutcome := ManualCompactionOutcome.ManualCompactionOutcome.
#[export] Instance ManualCompactionOutcome_eq_dec : EqDecision ManualCompactionOutcome.
Proof. solve_decision. Defined.

(** [struct CompactionFailureFloor] of [core/components/context.rs]. *)
Module CompactionFailureFloor.
Record CompactionFailureFloor : Type := {
  tokens : option N;
  entries : nat;
}.
End CompactionFailureFloor.
Abbreviation CompactionFailureFloor := CompactionFailureFloor.CompactionFailureFloor.
#[export] Instance CompactionFailureFloor_eq_dec : EqDecision CompactionFailureFloor.
Proof. solve_decision. Defined.

(** [struct ContextCompactionState] of [core/components/context.rs]. *)
Module ContextCompactionState.
Record ContextCompactionState : Type := {
  phase : ContextCompactionPhase;
  last_finished_revision : option N;
  last_manual_outcome : option ManualCompactionOutcome;
  failure_floor : option CompactionFailureFloor;
}.
End ContextCompactionState.
Abbreviation ContextCompactionState := ContextCompactionState.ContextCompactionState.
#[export] Instance ContextCompactionState_eq_dec : EqDecision ContextCompactionState.
Proof. solve_decision. Defined.
#[export] Instance ContextCompactionState_default : Default ContextCompactionState :=
  {| ContextCompactionState.phase := default_of;
     ContextCompactionState.last_finished_revision := default_of;
     ContextCompactionState.last_manual_outcome := default_of;
     ContextCompactionState.failure_floor := default_of |}.
#[export] Instance set_ContextCompactionState_phase : Setter ContextCompactionState.phase := ltac:(solve_setter ContextCompactionState.phase).
#[export] Instance set_ContextCompactionState_last_finished_revision : Setter ContextCompactionState.last_finished_revision := ltac:(solve_setter ContextCompactionState.last_finished_revision).
#[export] Instance set_ContextCompactionState_last_manual_outcome : Setter ContextCompactionState.last_manual_outcome := ltac:(solve_setter ContextCompactionState.last_manual_outcome).
#[export] Instance set_ContextCompactionState_failure_floor : Setter ContextCompactionState.failure_floor := ltac:(solve_setter ContextCompactionState.failure_floor).

(** [struct ContextGenerationMetadata] of [core/components/context.rs]. *)
Module ContextGenerationMetadata.
Record ContextGenerationMetadata : Type := {
  model : ModelSelection;
  input_limit_tokens : option N;
}.
End ContextGenerationMetadata.
Abbreviation ContextGenerationMetadata := ContextGenerationMetadata.ContextGenerationMetadata.
#[export] Instance ContextGenerationMetadata_eq_dec : EqDecision ContextGenerationMetadata.
Proof. solve_decision. Defined.

(** [struct ContextUsageObservation] of [core/components/context.rs]. *)
Module ContextUsageObservation.
Record ContextUsageObservation : Type := {
  context_revision : N;
  tokens : N;
}.
End ContextUsageObservation.
Abbreviation ContextUsageObservation := ContextUsageObservation.ContextUsageObservation.
#[export] Instance ContextUsageObservation_eq_dec : EqDecision ContextUsageObservation.
Proof. solve_decision. Defined.

(** [struct ContextState] of [core/components/context.rs]. *)
Module ContextState.
Record ContextState : Type := {
  revision : N;
  entries : list ContextEntry;
  compaction : ContextCompactionState;
  last_generation : option ContextGenerationMetadata;
  usage_observation : option ContextUsageObservation;
}.
End ContextState.
Abbreviation ContextState := ContextState.ContextState.
#[export] Instance ContextState_eq_dec : EqDecision ContextState.
Proof. solve_decision. Defined.
#[export] Instance ContextState_default : Default ContextState :=
  {| ContextState.revision := default_of;
     ContextState.entries := default_of;
     ContextState.compaction := default_of;
     ContextState.last_generation := default_of;
     ContextState.usage_observation := default_of |}.
#[export] Instance set_ContextState_revision : Setter ContextState.revision := ltac:(solve_setter ContextState.revision).
#[export] Instance set_ContextState_entries : Setter ContextState.entries := ltac:(solve_setter ContextState.entries).
#[export] Instance set_ContextState_compaction : Setter ContextState.compaction := ltac:(solve_setter ContextState.compaction).
#[export] Instance set_ContextState_last_generation : Setter ContextState.last_generation := ltac:(solve_setter ContextState.last_generation).
#[export] Instance set_ContextState_usage_observation : Setter ContextState.usage_observation := ltac:(solve_setter ContextState.usage_observation).

(** ** [core/components/environment.rs] *)

(** [struct EnvironmentState] of [core/components/environment.rs]. *)
Module EnvironmentState.
Record EnvironmentState : Type := {
  active_environment_id : option EnvironmentId;
}.
End EnvironmentState.
Abbreviation EnvironmentState := EnvironmentState.EnvironmentState.
#[export] Instance EnvironmentState_eq_dec : EqDecision EnvironmentState.
Proof. solve_decision. Defined.
#[export] Instance EnvironmentState_default : Default EnvironmentState :=
  {| EnvironmentState.active_environment_id := default_of |}.
#[export] Instance set_EnvironmentState_active_environment_id : Setter EnvironmentState.active_environment_id := ltac:(solve_setter EnvironmentState.active_environment_id).

(** ** [core/components/tooling.rs] *)

(** [struct BuiltinToolSpec] of [core/components/tooling.rs]. *)
Module BuiltinToolSpec.
Record BuiltinToolSpec : Type := {
  settings : Value;
}.
End BuiltinToolSpec.
Abbreviation BuiltinToolSpec := BuiltinToolSpec.BuiltinToolSpec.
#[export] Instance BuiltinToolSpec_eq_dec : EqDecision BuiltinToolSpec.
Proof. solve_decision. Defined.

(** [struct FunctionToolSpec] of [core/components/tooling.rs]. *)
Module FunctionToolSpec.
Record FunctionToolSpec : Type := {
  description_ref : option BlobRef;
  input_schema_ref : BlobRef;
  output_schema_ref : option BlobRef;
  strict : option bool;
  provider_options_ref : option BlobRef;
}.
End FunctionToolSpec.
Abbreviation FunctionToolSpec := FunctionToolSpec.FunctionToolSpec.
#[export] Instance FunctionToolSpec_eq_dec : EqDecision FunctionToolSpec.
Proof. solve_decision. Defined.

(** [enum ProviderNativeToolExecution] of [core/components/tooling.rs]. *)
Module ProviderNativeToolExecution.
Inductive ProviderNativeToolExecution : Type :=
| ProviderHosted
| ClientEffect.
End ProviderNativeToolExecution.
Abbreviation ProviderNativeToolExecution := ProviderNativeToolExecution.ProviderNativeToolExecution.
#[export] Instance ProviderNativeToolExecution_eq_dec : EqDecision ProviderNativeToolExecution.
Proof. solve_decision. Defined.

(** [struct ProviderNativeToolSpec] of [core/components/tooling.rs]. *)
Module ProviderNativeToolSpec.
Record ProviderNativeToolSpec : Type := {
  api_kind : ProviderApiKind;
  native_tool_ref : BlobRef;
  execution : ProviderNativeToolExecution;
}.
End ProviderNativeToolSpec.
Abbreviation ProviderNativeToolSpec := ProviderNativeToolSpec.ProviderNativeToolSpec.
#[export] Instance ProviderNativeToolSpec_eq_dec : EqDecision ProviderNativeToolSpec.
Proof. solve_decision. Defined.

(** [enum RemoteMcpExecution] of [core/components/tooling.rs]. *)
Module RemoteMcpExecution.
Inductive RemoteMcpExecution : Type :=
| Provider
| Runtime.
End RemoteMcpExecution.
Abbreviation RemoteMcpExecution := RemoteMcpExecution.RemoteMcpExecution.
#[export] Instance RemoteMcpExecution_eq_dec : EqDecision RemoteMcpExecution.
Proof. solve_decision. Defined.
#[export] Instance RemoteMcpExecution_default : Default RemoteMcpExecution := RemoteMcpExecution.Runtime.

(** [enum RemoteMcpExposure] of [core/components/tooling.rs]. *)
Module RemoteMcpExposure.
Inductive RemoteMcpExposure : Type :=
| Inject
| Search.
End RemoteMcpExposure.
Abbreviation RemoteMcpExposure := RemoteMcpExposure.RemoteMcpExposure.
#[export] Instance RemoteMcpExposure_eq_dec : EqDecision RemoteMcpExposure.
Proof. solve_decision. Defined.
#[export] Instance RemoteMcpExposure_default : Default RemoteMcpExposure := RemoteMcpExposure.Inject.

(** [enum RemoteMcpApprovalPolicy] of [core/components/tooling.rs]. *)
Module RemoteMcpApprovalPolicy.
Inductive RemoteMcpApprovalPolicy : Type :=
| Never
| Always.
End RemoteMcpApprovalPolicy.
Abbreviation RemoteMcpApprovalPolicy := RemoteMcpApprovalPolicy.RemoteMcpApprovalPolicy.
#[export] Instance RemoteMcpApprovalPolicy_eq_dec : EqDecision RemoteMcpApprovalPolicy.
Proof. solve_decision. Defined.

(** [struct RemoteMcpToolSpec] of [core/components/tooling.rs]. *)
Module RemoteMcpToolSpec.
Record RemoteMcpToolSpec : Type := {
  server_id : string;
  record_revision : N;
  server_label : string;
  description_ref : option BlobRef;
  allowed_tools : option (list string);
  execution : RemoteMcpExecution;
  exposure : RemoteMcpExposure;
  approval : RemoteMcpApprovalPolicy;
  defer_loading : option bool;
}.
End RemoteMcpToolSpec.
Abbreviation RemoteMcpToolSpec := RemoteMcpToolSpec.RemoteMcpToolSpec.
#[export] Instance RemoteMcpToolSpec_eq_dec : EqDecision RemoteMcpToolSpec.
Proof. solve_decision. Defined.

(** [enum ToolKind] of [core/components/tooling.rs]. *)
Module ToolKind.
Inductive ToolKind : Type :=
| Builtin (x : BuiltinToolSpec)
| Function (x : FunctionToolSpec)
| ProviderNative (x : ProviderNativeToolSpec)
| RemoteMcp (x : RemoteMcpToolSpec).
End ToolKind.
Abbreviation ToolKind := ToolKind.ToolKind.
#[export] Instance ToolKind_eq_dec : EqDecision ToolKind.
Proof. solve_decision. Defined.

(** [enum ToolParallelism] of [core/components/tooling.rs]. *)
Module ToolParallelism.
Inductive ToolParallelism : Type :=
| Exclusive
| ParallelSafe.
End ToolParallelism.
Abbreviation ToolParallelism := ToolParallelism.ToolParallelism.
#[export] Instance ToolParallelism_eq_dec : EqDecision ToolParallelism.
Proof. solve_decision. Defined.

(** [enum ToolExecutionClass] of [core/components/tooling.rs]. *)
Module ToolExecutionClass.
Inductive ToolExecutionClass : Type :=
| Interactive
| RemoteInteractive
| Process
| Bulk.
End ToolExecutionClass.
Abbreviation ToolExecutionClass := ToolExecutionClass.ToolExecutionClass.
#[export] Instance ToolExecutionClass_eq_dec : EqDecision ToolExecutionClass.
Proof. solve_decision. Defined.
#[export] Instance ToolExecutionClass_default : Default ToolExecutionClass := ToolExecutionClass.Interactive.

(** [struct ToolExecutionSpec] of [core/components/tooling.rs]. *)
Module ToolExecutionSpec.
Record ToolExecutionSpec : Type := {
  class : ToolExecutionClass;
  retry_safe : bool;
}.
End ToolExecutionSpec.
Abbreviation ToolExecutionSpec := ToolExecutionSpec.ToolExecutionSpec.
#[export] Instance ToolExecutionSpec_eq_dec : EqDecision ToolExecutionSpec.
Proof. solve_decision. Defined.
#[export] Instance ToolExecutionSpec_default : Default ToolExecutionSpec :=
  {| ToolExecutionSpec.class := default_of;
     ToolExecutionSpec.retry_safe := default_of |}.

(** [struct ToolSpec] of [core/components/tooling.rs]. *)
Module ToolSpec.
Record ToolSpec : Type := {
  id : ToolId;
  kind : ToolKind;
  parallelism : ToolParallelism;
  execution : ToolExecutionSpec;
}.
End ToolSpec.
Abbreviation ToolSpec := ToolSpec.ToolSpec.
#[export] Instance ToolSpec_eq_dec : EqDecision ToolSpec.
Proof. solve_decision. Defined.

(** [struct ToolingState] of [core/components/tooling.rs]. *)
Module ToolingState.
Record ToolingState : Type := {
  revision : N;
  tools : gmap ToolId ToolSpec;
}.
End ToolingState.
Abbreviation ToolingState := ToolingState.ToolingState.
#[export] Instance ToolingState_eq_dec : EqDecision ToolingState.
Proof. solve_decision. Defined.
#[export] Instance ToolingState_default : Default ToolingState :=
  {| ToolingState.revision := default_of;
     ToolingState.tools := default_of |}.
#[export] Instance set_ToolingState_revision : Setter ToolingState.revision := ltac:(solve_setter ToolingState.revision).
#[export] Instance set_ToolingState_tools : Setter ToolingState.tools := ltac:(solve_setter ToolingState.tools).

(** ** [core/components/promise.rs] *)

(** [enum PromiseSource] of [core/components/promise.rs]. *)
Module PromiseSource.
Inductive PromiseSource : Type :=
| Timer (fire_at_ms : N)
| Workflow (producer_workflow_id : string) (producer_workflow_kind : string) (invocation_id : string) (completion_key : string).
End PromiseSource.
Abbreviation PromiseSource := PromiseSource.PromiseSource.
#[export] Instance PromiseSource_eq_dec : EqDecision PromiseSource.
Proof. solve_decision. Defined.

(** [enum PromiseScope] of [core/components/promise.rs]. *)
Module PromiseScope.
Inductive PromiseScope : Type :=
| Run (run_id : RunId)
| Session.
End PromiseScope.
Abbreviation PromiseScope := PromiseScope.PromiseScope.
#[export] Instance PromiseScope_eq_dec : EqDecision PromiseScope.
Proof. solve_decision. Defined.

(** [enum PromiseOwnership] of [core/components/promise.rs]. *)
Module PromiseOwnership.
Inductive PromiseOwnership : Type :=
| Model
| Runtime.
End PromiseOwnership.
Abbreviation PromiseOwnership := PromiseOwnership.PromiseOwnership.
#[export] Instance PromiseOwnership_eq_dec : EqDecision PromiseOwnership.
Proof. solve_decision. Defined.

(** [enum PromiseStatus] of [core/components/promise.rs]. *)
Module PromiseStatus.
Inductive PromiseStatus : Type :=
| Pending
| Resolved
| Failed
| Cancelled.
End PromiseStatus.
Abbreviation PromiseStatus := PromiseStatus.PromiseStatus.
#[export] Instance PromiseStatus_eq_dec : EqDecision PromiseStatus.
Proof. solve_decision. Defined.

(** [struct Promise] of [core/components/promise.rs]. *)
Module Promise.
Record Promise : Type := {
  promise_id : PromiseId;
  source : PromiseSource;
  scope : PromiseScope;
  ownership : PromiseOwnership;
  status : PromiseStatus;
  payload_ref : option BlobRef;
  error_ref : option BlobRef;
  deadline_at_ms : option N;
}.
End Promise.
Abbreviation Promise := Promise.Promise.
#[export] Instance Promise_eq_dec : EqDecision Promise.
Proof. solve_decision. Defined.
#[export] Instance set_Promise_promise_id : Setter Promise.promise_id := ltac:(solve_setter Promise.promise_id).
#[export] Instance set_Promise_source : Setter Promise.source := ltac:(solve_setter Promise.source).
#[export] Instance set_Promise_scope : Setter Promise.scope := ltac:(solve_setter Promise.scope).
#[export] Instance set_Promise_ownership : Setter Promise.ownership := ltac:(solve_setter Promise.ownership).
#[export] Instance set_Promise_status : Setter Promise.status := ltac:(solve_setter Promise.status).
#[export] Instance set_Promise_payload_ref : Setter Promise.payload_ref := ltac:(solve_setter Promise.payload_ref).
#[export] Instance set_Promise_error_ref : Setter Promise.error_ref := ltac:(solve_setter Promise.error_ref).
#[export] Instance set_Promise_deadline_at_ms : Setter Promise.deadline_at_ms := ltac:(solve_setter Promise.deadline_at_ms).

(** [struct PromiseComponentState] of [core/components/promise.rs]. *)
Module PromiseComponentState.
Record PromiseComponentState : Type := {
  promises : gmap PromiseId Promise;
  settled : list PromiseId;
}.
End PromiseComponentState.
Abbreviation PromiseComponentState := PromiseComponentState.PromiseComponentState.
#[export] Instance PromiseComponentState_eq_dec : EqDecision PromiseComponentState.
Proof. solve_decision. Defined.
#[export] Instance PromiseComponentState_default : Default PromiseComponentState :=
  {| PromiseComponentState.promises := default_of;
     PromiseComponentState.settled := default_of |}.
#[export] Instance set_PromiseComponentState_promises : Setter PromiseComponentState.promises := ltac:(solve_setter PromiseComponentState.promises).
#[export] Instance set_PromiseComponentState_settled : Setter PromiseComponentState.settled := ltac:(solve_setter PromiseComponentState.settled).

(** ** [core/components/workflow_tool.rs] *)

(** [struct WorkflowEndpointRef] of [core/components/workflow_tool.rs]. *)
Module WorkflowEndpointRef.
Record WorkflowEndpointRef : Type := {
  workflow_id : string;
  workflow_kind : string;
}.
End WorkflowEndpointRef.
Abbreviation WorkflowEndpointRef := WorkflowEndpointRef.WorkflowEndpointRef.
#[export] Instance WorkflowEndpointRef_eq_dec : EqDecision WorkflowEndpointRef.
Proof. solve_decision. Defined.

(** [struct WorkflowToolDefinition] of [core/components/workflow_tool.rs]. *)
Module WorkflowToolDefinition.
Record WorkflowToolDefinition : Type := {
  workflow_tool_id : WorkflowToolId;
  schema_revision : N;
  semantic_type : string;
  tool : ToolSpec;
}.
End WorkflowToolDefinition.
Abbreviation WorkflowToolDefinition := WorkflowToolDefinition.WorkflowToolDefinition.
#[export] Instance WorkflowToolDefinition_eq_dec : EqDecision WorkflowToolDefinition.
Proof. solve_decision. Defined.

(** [enum BoundWorkflowToolDispatch] of [core/components/workflow_tool.rs]. *)
Module BoundWorkflowToolDispatch.
Inductive BoundWorkflowToolDispatch : Type :=
| Pull
| Push.
End BoundWorkflowToolDispatch.
Abbreviation BoundWorkflowToolDispatch := BoundWorkflowToolDispatch.BoundWorkflowToolDispatch.
#[export] Instance BoundWorkflowToolDispatch_eq_dec : EqDecision BoundWorkflowToolDispatch.
Proof. solve_decision. Defined.

(** [struct WorkflowStartRef] of [core/components/workflow_tool.rs]. *)
Module WorkflowStartRef.
Record WorkflowStartRef : Type := {
  recipe_format : N;
  recipe_revision : N;
  recipe_ref : BlobRef;
  recipe_fingerprint : string;
}.
End WorkflowStartRef.
Abbreviation WorkflowStartRef := WorkflowStartRef.WorkflowStartRef.
#[export] Instance WorkflowStartRef_eq_dec : EqDecision WorkflowStartRef.
Proof. solve_decision. Defined.

(** [enum WorkflowToolTarget] of [core/components/workflow_tool.rs]. *)
Module WorkflowToolTarget.
Inductive WorkflowToolTarget : Type :=
| Bound (receiver : WorkflowEndpointRef) (dispatch : BoundWorkflowToolDispatch)
| Start (start : WorkflowStartRef).
End WorkflowToolTarget.
Abbreviation WorkflowToolTarget := WorkflowToolTarget.WorkflowToolTarget.
#[export] Instance WorkflowToolTarget_eq_dec : EqDecision WorkflowToolTarget.
Proof. solve_decision. Defined.

(** [enum WorkflowToolCompletionKeySource] of [core/components/workflow_tool.rs]. *)
Module WorkflowToolCompletionKeySource.
Inductive WorkflowToolCompletionKeySource : Type :=
| Reply
| StringArray (pointer : string)
| ArrayItemField (pointer : string) (field : string)
| ArrayIndices (pointer : string) (prefix : string).
End WorkflowToolCompletionKeySource.
Abbreviation WorkflowToolCompletionKeySource := WorkflowToolCompletionKeySource.WorkflowToolCompletionKeySource.
#[export] Instance WorkflowToolCompletionKeySource_eq_dec : EqDecision WorkflowToolCompletionKeySource.
Proof. solve_decision. Defined.

(** [enum WorkflowToolCompletion] of [core/components/workflow_tool.rs]. *)
Module WorkflowToolCompletion.
Inductive WorkflowToolCompletion : Type :=
| Accepted
| Joined (reply_schema_ref : option BlobRef) (deadline_after_ms : option N)
| Promises (reply_schema_ref : option BlobRef) (deadline_after_ms : option N) (max_promises : N) (key_source : WorkflowToolCompletionKeySource).
End WorkflowToolCompletion.
Abbreviation WorkflowToolCompletion := WorkflowToolCompletion.WorkflowToolCompletion.
#[export] Instance WorkflowToolCompletion_eq_dec : EqDecision WorkflowToolCompletion.
Proof. solve_decision. Defined.

(** [struct WorkflowToolBinding] of [core/components/workflow_tool.rs]. *)
Module WorkflowToolBinding.
Record WorkflowToolBinding : Type := {
  session_universe_id : Uuid;
  definition : WorkflowToolDefinition;
  target : WorkflowToolTarget;
  completion : WorkflowToolCompletion;
  binding_fingerprint : string;
}.
End WorkflowToolBinding.
Abbreviation WorkflowToolBinding := WorkflowToolBinding.WorkflowToolBinding.
#[export] Instance WorkflowToolBinding_eq_dec : EqDecision WorkflowToolBinding.
Proof. solve_decision. Defined.

(** [struct WorkflowToolInvocation] of [core/components/workflow_tool.rs]. *)
Module WorkflowToolInvocation.
Record WorkflowToolInvocation : Type := {
  invocation_id : WorkflowToolInvocationId;
  workflow_tool_id : WorkflowToolId;
  semantic_type : string;
  schema_revision : N;
  binding_fingerprint : string;
  session_universe_id : Uuid;
  session_id : SessionId;
  run_id : RunId;
  turn_id : TurnId;
  tool_batch_id : ToolBatchId;
  tool_call_id : ToolCallId;
  arguments_ref : BlobRef;
  execution_context_ref : option BlobRef;
  completion_promises : option (gmap string PromiseId);
}.
End WorkflowToolInvocation.
Abbreviation WorkflowToolInvocation := WorkflowToolInvocation.WorkflowToolInvocation.
#[export] Instance WorkflowToolInvocation_eq_dec : EqDecision WorkflowToolInvocation.
Proof. solve_decision. Defined.

(** [struct WorkflowToolState] of [core/components/workflow_tool.rs]. *)
Module WorkflowToolState.
Record WorkflowToolState : Type := {
  session_universe_id : option Uuid;
  lifecycle_controller : option WorkflowEndpointRef;
  declaration_version : option N;
  declared_creation_fingerprint : option string;
  bindings : gmap WorkflowToolId WorkflowToolBinding;
  system_binding_ids : gset WorkflowToolId;
  bound_invocations : gmap WorkflowToolInvocationId WorkflowToolInvocation;
  delivery_failures : gmap WorkflowToolInvocationId BlobRef;
  start_requests : gmap WorkflowToolInvocationId WorkflowToolInvocation;
  start_failures : gmap WorkflowToolInvocationId BlobRef;
}.
End WorkflowToolState.
Abbreviation WorkflowToolState := WorkflowToolState.WorkflowToolState.
#[export] Instance WorkflowToolState_eq_dec : EqDecision WorkflowToolState.
Proof. solve_decision. Defined.
#[export] Instance WorkflowToolState_default : Default WorkflowToolState :=
  {| WorkflowToolState.session_universe_id := default_of;
     WorkflowToolState.lifecycle_controller := default_of;
     WorkflowToolState.declaration_version := default_of;
     WorkflowToolState.declared_creation_fingerprint := default_of;
     WorkflowToolState.bindings := default_of;
     WorkflowToolState.system_binding_ids := default_of;
     WorkflowToolState.bound_invocations := default_of;
     WorkflowToolState.delivery_failures := default_of;
     WorkflowToolState.start_requests := default_of;
     WorkflowToolState.start_failures := default_of |}.
#[export] Instance set_WorkflowToolState_session_universe_id : Setter WorkflowToolState.session_universe_id := ltac:(solve_setter WorkflowToolState.session_universe_id).
#[export] Instance set_WorkflowToolState_lifecycle_controller : Setter WorkflowToolState.lifecycle_controller := ltac:(solve_setter WorkflowToolState.lifecycle_controller).
#[export] Instance set_WorkflowToolState_declaration_version : Setter WorkflowToolState.declaration_version := ltac:(solve_setter WorkflowToolState.declaration_version).
#[export] Instance set_WorkflowToolState_declared_creation_fingerprint : Setter WorkflowToolState.declared_creation_fingerprint := ltac:(solve_setter WorkflowToolState.declared_creation_fingerprint).
#[export] Instance set_WorkflowToolState_bindings : Setter WorkflowToolState.bindings := ltac:(solve_setter WorkflowToolState.bindings).
#[export] Instance set_WorkflowToolState_system_binding_ids : Setter WorkflowToolState.system_binding_ids := ltac:(solve_setter WorkflowToolState.system_binding_ids).
#[export] Instance set_WorkflowToolState_bound_invocations : Setter WorkflowToolState.bound_invocations := ltac:(solve_setter WorkflowToolState.bound_invocations).
#[export] Instance set_WorkflowToolState_delivery_failures : Setter WorkflowToolState.delivery_failures := ltac:(solve_setter WorkflowToolState.delivery_failures).
#[export] Instance set_WorkflowToolState_start_requests : Setter WorkflowToolState.start_requests := ltac:(solve_setter WorkflowToolState.start_requests).
#[export] Instance set_WorkflowToolState_start_failures : Setter WorkflowToolState.start_failures := ltac:(solve_setter WorkflowToolState.start_failures).

(** ** [core/components/code_tool.rs] *)

(** [struct CodeToolBinding] of [core/components/code_tool.rs]. *)
Module CodeToolBinding.
Record CodeToolBinding : Type := {
  tool_id : ToolId;
  tool_name : ToolName;
}.
End CodeToolBinding.
Abbreviation CodeToolBinding := CodeToolBinding.CodeToolBinding.
#[export] Instance CodeToolBinding_eq_dec : EqDecision CodeToolBinding.
Proof. solve_decision. Defined.

(** [struct CodeToolScopeSpec] of [core/components/code_tool.rs]. *)
Module CodeToolScopeSpec.
Record CodeToolScopeSpec : Type := {
  execution_id : string;
  parent_invocation_id : WorkflowToolInvocationId;
  bindings : gmap string CodeToolBinding;
  max_calls : N;
  max_in_flight : N;
}.
End CodeToolScopeSpec.
Abbreviation CodeToolScopeSpec := CodeToolScopeSpec.CodeToolScopeSpec.
#[export] Instance CodeToolScopeSpec_eq_dec : EqDecision CodeToolScopeSpec.
Proof. solve_decision. Defined.

(** [struct CodeToolOrigin] of [core/components/code_tool.rs]. *)
Module CodeToolOrigin.
Record CodeToolOrigin : Type := {
  execution_id : string;
  request_id : string;
}.
End CodeToolOrigin.
Abbreviation CodeToolOrigin := CodeToolOrigin.CodeToolOrigin.
#[export] Instance CodeToolOrigin_eq_dec : EqDecision CodeToolOrigin.
Proof. solve_decision. Defined.

(** [struct CodeToolCallSpec] of [core/components/code_tool.rs]. *)
Module CodeToolCallSpec.
Record CodeToolCallSpec : Type := {
  origin : CodeToolOrigin;
  binding_id : string;
  tool_id : ToolId;
  tool_name : ToolName;
  arguments_ref : BlobRef;
}.
End CodeToolCallSpec.
Abbreviation CodeToolCallSpec := CodeToolCallSpec.CodeToolCallSpec.
#[export] Instance CodeToolCallSpec_eq_dec : EqDecision CodeToolCallSpec.
Proof. solve_decision. Defined.

(** [struct CodeToolCallResult] of [core/components/code_tool.rs]. *)
Module CodeToolCallResult.
Record CodeToolCallResult : Type := {
  call_id : ToolCallId;
  status : ToolCallStatus;
  output_ref : option BlobRef;
  error_ref : option BlobRef;
  attachments : list Attachment;
  duration_ms : option N;
  output_bytes : option N;
  truncated : bool;
}.
End CodeToolCallResult.
Abbreviation CodeToolCallResult := CodeToolCallResult.CodeToolCallResult.
#[export] Instance CodeToolCallResult_eq_dec : EqDecision CodeToolCallResult.
Proof. solve_decision. Defined.

(** [enum CodeToolCallStatus] of [core/components/code_tool.rs]. *)
Module CodeToolCallStatus.
Inductive CodeToolCallStatus : Type :=
| Pending
| Waiting (suspension : ToolBatchSuspension)
| Completed (result : CodeToolCallResult).
End CodeToolCallStatus.
Abbreviation CodeToolCallStatus := CodeToolCallStatus.CodeToolCallStatus.
#[export] Instance CodeToolCallStatus_eq_dec : EqDecision CodeToolCallStatus.
Proof. solve_decision. Defined.

(** [struct CodeToolCall] of [core/components/code_tool.rs]. *)
Module CodeToolCall.
Record CodeToolCall : Type := {
  spec : CodeToolCallSpec;
  call_id : ToolCallId;
  promise_id_base : N;
  status : CodeToolCallStatus;
}.
End CodeToolCall.
Abbreviation CodeToolCall := CodeToolCall.CodeToolCall.
#[export] Instance CodeToolCall_eq_dec : EqDecision CodeToolCall.
Proof. solve_decision. Defined.
#[export] Instance set_CodeToolCall_spec : Setter CodeToolCall.spec := ltac:(solve_setter CodeToolCall.spec).
#[export] Instance set_CodeToolCall_call_id : Setter CodeToolCall.call_id := ltac:(solve_setter CodeToolCall.call_id).
#[export] Instance set_CodeToolCall_promise_id_base : Setter CodeToolCall.promise_id_base := ltac:(solve_setter CodeToolCall.promise_id_base).
#[export] Instance set_CodeToolCall_status : Setter CodeToolCall.status := ltac:(solve_setter CodeToolCall.status).

(** [struct CodeToolScope] of [core/components/code_tool.rs]. *)
Module CodeToolScope.
Record CodeToolScope : Type := {
  toolset_revision : N;
  spec : CodeToolScopeSpec;
  closed : bool;
  calls : gmap string CodeToolCall;
}.
End CodeToolScope.
Abbreviation CodeToolScope := CodeToolScope.CodeToolScope.
#[export] Instance CodeToolScope_eq_dec : EqDecision CodeToolScope.
Proof. solve_decision. Defined.
#[export] Instance set_CodeToolScope_toolset_revision : Setter CodeToolScope.toolset_revision := ltac:(solve_setter CodeToolScope.toolset_revision).
#[export] Instance set_CodeToolScope_spec : Setter CodeToolScope.spec := ltac:(solve_setter CodeToolScope.spec).
#[export] Instance set_CodeToolScope_closed : Setter CodeToolScope.closed := ltac:(solve_setter CodeToolScope.closed).
#[export] Instance set_CodeToolScope_calls : Setter CodeToolScope.calls := ltac:(solve_setter CodeToolScope.calls).

(** [struct CodeToolState] of [core/components/code_tool.rs]. *)
Module CodeToolState.
Record CodeToolState : Type := {
  scopes : gmap string CodeToolScope;
}.
End CodeToolState.
Abbreviation CodeToolState := CodeToolState.CodeToolState.
#[export] Instance CodeToolState_eq_dec : EqDecision CodeToolState.
Proof. solve_decision. Defined.
#[export] Instance CodeToolState_default : Default CodeToolState :=
  {| CodeToolState.scopes := default_of |}.
#[export] Instance set_CodeToolState_scopes : Setter CodeToolState.scopes := ltac:(solve_setter CodeToolState.scopes).

(** ** [core/components/state.rs] *)

(** [struct CoreAgentState] of [core/components/state.rs]. *)
Module CoreAgentState.
Record CoreAgentState : Type := {
  reduced_to : option SessionPosition;
  id_cursors : IdCursors;
  lifecycle : LifecycleState;
  runs : RunsState;
  context : ContextState;
  environment : EnvironmentState;
  tooling : ToolingState;
  promises : PromiseComponentState;
  workflow_tools : WorkflowToolState;
  code_tools : CodeToolState;
}.
End CoreAgentState.
Abbreviation CoreAgentState := CoreAgentState.CoreAgentState.
#[export] Instance CoreAgentState_eq_dec : EqDecision CoreAgentState.
Proof. solve_decision. Defined.
#[export] Instance CoreAgentState_default : Default CoreAgentState :=
  {| CoreAgentState.reduced_to := default_of;
     CoreAgentState.id_cursors := default_of;
     CoreAgentState.lifecycle := default_of;
     CoreAgentState.runs := default_of;
     CoreAgentState.context := default_of;
     CoreAgentState.environment := default_of;
     CoreAgentState.tooling := default_of;
     CoreAgentState.promises := default_of;
     CoreAgentState.workflow_tools := default_of;
     CoreAgentState.code_tools := default_of |}.
#[export] Instance set_CoreAgentState_reduced_to : Setter CoreAgentState.reduced_to := ltac:(solve_setter CoreAgentState.reduced_to).
#[export] Instance set_CoreAgentState_id_cursors : Setter CoreAgentState.id_cursors := ltac:(solve_setter CoreAgentState.id_cursors).
#[export] Instance set_CoreAgentState_lifecycle : Setter CoreAgentState.lifecycle := ltac:(solve_setter CoreAgentState.lifecycle).
#[export] Instance set_CoreAgentState_runs : Setter CoreAgentState.runs := ltac:(solve_setter CoreAgentState.runs).
#[export] Instance set_CoreAgentState_context : Setter CoreAgentState.context := ltac:(solve_setter CoreAgentState.context).
#[export] Instance set_CoreAgentState_environment : Setter CoreAgentState.environment := ltac:(solve_setter CoreAgentState.environment).
#[export] Instance set_CoreAgentState_tooling : Setter CoreAgentState.tooling := ltac:(solve_setter CoreAgentState.tooling).
#[export] Instance set_CoreAgentState_promises : Setter CoreAgentState.promises := ltac:(solve_setter CoreAgentState.promises).
#[export] Instance set_CoreAgentState_workflow_tools : Setter CoreAgentState.workflow_tools := ltac:(solve_setter CoreAgentState.workflow_tools).
#[export] Instance set_CoreAgentState_code_tools : Setter CoreAgentState.code_tools := ltac:(solve_setter CoreAgentState.code_tools).

(** ** [core/components/run.rs] *)

(** [enum RunRequestSource] of [core/components/run.rs]. *)
Module RunRequestSource.
Inductive RunRequestSource : Type :=
| Input (input : list ContextEntryInput).
End RunRequestSource.
Abbreviation RunRequestSource := RunRequestSource.RunRequestSource.
#[export] Instance RunRequestSource_eq_dec : EqDecision RunRequestSource.
Proof. solve_decision. Defined.

(** ** [core/components/context.rs] *)

(** [struct ContextSnapshot] of [core/components/context.rs]. *)
Module ContextSnapshot.
Record ContextSnapshot : Type := {
  api_kind : ProviderApiKind;
  context_revision : N;
  entries : list ContextEntry;
  token_estimate : option TokenEstimate;
}.
End ContextSnapshot.
Abbreviation ContextSnapshot := ContextSnapshot.ContextSnapshot.
#[export] Instance ContextSnapshot_eq_dec : EqDecision ContextSnapshot.
Proof. solve_decision. Defined.

(** ** [core/components/llm.rs] *)

(** [struct WorkflowToolResultContract] of [core/components/llm.rs]. *)
Module WorkflowToolResultContract.
Record WorkflowToolResultContract : Type := {
  completion : WorkflowToolCompletion;
  starts_workflow : bool;
}.
End WorkflowToolResultContract.
Abbreviation WorkflowToolResultContract := WorkflowToolResultContract.WorkflowToolResultContract.
#[export] Instance WorkflowToolResultContract_eq_dec : EqDecision WorkflowToolResultContract.
Proof. solve_decision. Defined.

(** [struct CodeModePresentation] of [core/components/llm.rs]. *)
Module CodeModePresentation.
Record CodeModePresentation : Type := {
  allowed_tools : gset ToolId;
  workflow_results : gmap ToolId WorkflowToolResultContract;
}.
End CodeModePresentation.
Abbreviation CodeModePresentation := CodeModePresentation.CodeModePresentation.
#[export] Instance CodeModePresentation_eq_dec : EqDecision CodeModePresentation.
Proof. solve_decision. Defined.
#[export] Instance CodeModePresentation_default : Default CodeModePresentation :=
  {| CodeModePresentation.allowed_tools := default_of;
     CodeModePresentation.workflow_results := default_of |}.

(** [struct ProviderParams] of [core/components/llm.rs]. *)
Module ProviderParams.
Record ProviderParams : Type := {
  api_kind : ProviderApiKind;
  version : N;
  body : Value;
}.
End ProviderParams.
Abbreviation ProviderParams := ProviderParams.ProviderParams.
#[export] Instance ProviderParams_eq_dec : EqDecision ProviderParams.
Proof. solve_decision. Defined.

(** [struct LlmRequest] of [core/components/llm.rs]. *)
Module LlmRequest.
Record LlmRequest : Type := {
  model : ModelSelection;
  request_fingerprint : string;
  context : ContextSnapshot;
  tools : list ToolSpec;
  code_mode : option CodeModePresentation;
  tool_choice : option ToolChoice;
  output_limit : option N;
  reasoning_effort : option string;
  parallel_tool_use : option bool;
  processing_tier : option ModelProcessingTier;
  compaction : option CompactionPolicy;
  params : option ProviderParams;
}.
End LlmRequest.
Abbreviation LlmRequest := LlmRequest.LlmRequest.
#[export] Instance LlmRequest_eq_dec : EqDecision LlmRequest.
Proof. solve_decision. Defined.

(** [struct ContextCompactionTask] of [core/components/llm.rs]. *)
Module ContextCompactionTask.
Record ContextCompactionTask : Type := {
  model : ModelSelection;
  request_fingerprint : string;
  context : ContextSnapshot;
  target_tokens : option N;
  covered_entry_ids : list ContextEntryId;
  tools : list ToolSpec;
  input_limit_tokens : option N;
}.
End ContextCompactionTask.
Abbreviation ContextCompactionTask := ContextCompactionTask.ContextCompactionTask.
#[export] Instance ContextCompactionTask_eq_dec : EqDecision ContextCompactionTask.
Proof. solve_decision. Defined.
