(* ===== verification/Events.v ===== *)
(** * Events of the session log

    The event vocabulary of the core ([core/components/event.rs] and the [Event]
    enum of each component), the joins recorded beside an event, the proposals of
    the planners and the committed entries the reducer replays. *)
From S2P Require Import Prelude Types.
Set Primitive Projections.

(** ** [core/components/lifecycle.rs] *)

(** [enum Event] of [core/components/lifecycle.rs]. *)
Module CoreAgentLifecycleEvent.
Inductive CoreAgentLifecycleEvent : Type :=
| Opened (config : SessionConfig)
| ConfigChanged (config : SessionConfig) (revision : N)
| Closed.
End CoreAgentLifecycleEvent.
Abbreviation CoreAgentLifecycleEvent := CoreAgentLifecycleEvent.CoreAgentLifecycleEvent.
#[export] Instance CoreAgentLifecycleEvent_eq_dec : EqDecision CoreAgentLifecycleEvent.
Proof. solve_decision. Defined.

(** ** [core/components/run.rs] *)

(** [struct AcceptedRunEvent] of [core/components/run.rs]. *)
Module AcceptedRunEvent.
Record AcceptedRunEvent : Type := {
  run_id : RunId;
  submission_id : option SubmissionId;
  source : RunSource;
  run_config : RunConfig;
  input_limit_tokens : option N;
  config_revision : N;
  notify_on_terminal : list RunTerminalNotifyIntent;
  requested_by : option Attribution;
}.
End AcceptedRunEvent.
Abbreviation AcceptedRunEvent := AcceptedRunEvent.AcceptedRunEvent.
#[export] Instance AcceptedRunEvent_eq_dec : EqDecision AcceptedRunEvent.
Proof. solve_decision. Defined.

(** [enum Event] of [core/components/run.rs]. *)
Module RunEvent.
Inductive RunEvent : Type :=
| Accepted (x : AcceptedRunEvent)
| Started (run_id : RunId)
| SteeringAccepted (run_id : RunId) (steering_id : SteeringId) (submission_id : SubmissionId) (input : list ContextEntryInput) (requested_by : option Attribution)
| CancellationRequested (run_id : RunId) (requested_by : option Attribution)
| Completed (run_id : RunId) (output : option ContentRef)
| Failed (run_id : RunId) (failure : RunFailure)
| Cancelled (run_id : RunId)
| ForceCancelled (run_id : RunId)
| QueuedCancelled (run_id : RunId) (requested_by : option Attribution).
End RunEvent.
Abbreviation RunEvent := RunEvent.RunEvent.
#[export] Instance RunEvent_eq_dec : EqDecision RunEvent.
Proof. solve_decision. Defined.

(** ** [core/components/approval.rs] *)

(** [enum ApprovalDecision] of [core/components/approval.rs]. *)
Module ApprovalDecision.
Inductive ApprovalDecision : Type :=
| Approved
| Rejected.
End ApprovalDecision.
Abbreviation ApprovalDecision := ApprovalDecision.ApprovalDecision.
#[export] Instance ApprovalDecision_eq_dec : EqDecision ApprovalDecision.
Proof. solve_decision. Defined.

(** [enum ApprovalEvent] of [core/components/approval.rs]. *)
Module ApprovalEvent.
Inductive ApprovalEvent : Type :=
| Requested (approval : ApprovalRequested)
| RunParked (run_id : RunId)
| RunUnparked (run_id : RunId)
| Decided (approval_id : ApprovalId) (run_id : RunId) (decision : ApprovalDecision) (note : option string) (decided_by : option Attribution)
| Cancelled (approval_id : ApprovalId) (run_id : RunId).
End ApprovalEvent.
Abbreviation ApprovalEvent := ApprovalEvent.ApprovalEvent.
#[export] Instance ApprovalEvent_eq_dec : EqDecision ApprovalEvent.
Proof. solve_decision. Defined.

(** ** [core/components/turn.rs] *)

(** [enum Event] of [core/components/turn.rs]. *)
Module TurnEvent.
Inductive TurnEvent : Type :=
| Started (turn_id : TurnId) (run_id : RunId)
| Planned (turn_id : TurnId) (run_id : RunId) (request_fingerprint : string) (config_revision : N) (context_revision : N) (toolset_revision : N)
| GenerationRequested (turn_id : TurnId) (run_id : RunId)
| GenerationCompleted (turn_id : TurnId) (run_id : RunId) (status : LlmGenerationStatus) (facts : LlmGenerationFacts)
| Completed (turn_id : TurnId) (outcome : TurnOutcome)
| Cancelled (turn_id : TurnId) (run_id : RunId).
End TurnEvent.
Abbreviation TurnEvent := TurnEvent.TurnEvent.
#[export] Instance TurnEvent_eq_dec : EqDecision TurnEvent.
Proof. solve_decision. Defined.

(** ** [core/components/context.rs] *)

(** [enum ContextRemovalReason] of [core/components/context.rs]. *)
Module ContextRemovalReason.
Inductive ContextRemovalReason : Type :=
| ProviderCompacted.
End ContextRemovalReason.
Abbreviation ContextRemovalReason := ContextRemovalReason.ContextRemovalReason.
#[export] Instance ContextRemovalReason_eq_dec : EqDecision ContextRemovalReason.
Proof. solve_decision. Defined.

(** [enum Event] of [core/components/context.rs]. *)
Module ContextEvent.
Inductive ContextEvent : Type :=
| EntriesApplied (base_revision : N) (entries : list ContextEntry)
| EntriesRemoved (base_revision : N) (entry_ids : list ContextEntryId) (reason : ContextRemovalReason)
| KeysRemoved (base_revision : N) (keys : list ContextEntryKey)
| KeyPrefixReplaced (base_revision : N) (key_prefix : ContextEntryKey) (entries : list ContextEntry)
| EntriesReplaced (base_revision : N) (entries : list ContextEntry)
| CompactionRequested (base_revision : N) (trigger : ContextCompactionTrigger) (plan : ContextCompactionPlan)
| CompactionQueued (base_revision : N)
| CompactionFinished (base_revision : N) (status : ContextCompactionStatus) (failure_ref : option BlobRef) (usage : option LlmUsage) (calls : N).
End ContextEvent.
Abbreviation ContextEvent := ContextEvent.ContextEvent.
#[export] Instance ContextEvent_eq_dec : EqDecision ContextEvent.
Proof. solve_decision. Defined.

(** ** [core/components/environment.rs] *)

(** [enum EnvironmentEvent] of [core/components/environment.rs]. *)
Module EnvironmentEvent.
Inductive EnvironmentEvent : Type :=
| ActiveEnvironmentSet (environment_id : EnvironmentId)
| ActiveEnvironmentCleared.
End EnvironmentEvent.
Abbreviation EnvironmentEvent := EnvironmentEvent.EnvironmentEvent.
#[export] Instance EnvironmentEvent_eq_dec : EqDecision EnvironmentEvent.
Proof. solve_decision. Defined.

(** ** [core/components/tooling.rs] *)

(** [struct ToolPatch] of [core/components/tooling.rs]. *)
Module ToolPatch.
Record ToolPatch : Type := {
  upsert : list ToolSpec;
  remove : list ToolId;
}.
End ToolPatch.
Abbreviation ToolPatch := ToolPatch.ToolPatch.
#[export] Instance ToolPatch_eq_dec : EqDecision ToolPatch.
Proof. solve_decision. Defined.

(** [enum ConfigEvent] of [core/components/tooling.rs]. *)
Module ToolConfigEvent.
Inductive ToolConfigEvent : Type :=
| ToolsReplaced (base_revision : N) (tools : gmap ToolId ToolSpec)
| ToolsPatched (base_revision : N) (patch : ToolPatch).
End ToolConfigEvent.
Abbreviation ToolConfigEvent := ToolConfigEvent.ToolConfigEvent.
#[export] Instance ToolConfigEvent_eq_dec : EqDecision ToolConfigEvent.
Proof. solve_decision. Defined.

(** [enum Event] of [core/components/tooling.rs]. *)
Module ToolEvent.
Inductive ToolEvent : Type :=
| BatchStarted (run_id : RunId) (turn_id : TurnId) (batch_id : ToolBatchId) (toolset_revision : N) (calls : list ObservedToolCall)
| CallStarted (run_id : RunId) (turn_id : TurnId) (batch_id : ToolBatchId) (call_id : ToolCallId) (tool_name : ToolName) (arguments_ref : BlobRef)
| CallCompleted (run_id : RunId) (turn_id : TurnId) (batch_id : ToolBatchId) (result : ToolCallResult)
| BatchParked (run_id : RunId) (turn_id : TurnId) (batch_id : ToolBatchId) (suspension : ToolBatchSuspension)
| BatchUnparked (run_id : RunId) (turn_id : TurnId) (batch_id : ToolBatchId)
| BatchCompleted (run_id : RunId) (turn_id : TurnId) (batch_id : ToolBatchId).
End ToolEvent.
Abbreviation ToolEvent := ToolEvent.ToolEvent.
#[export] Instance ToolEvent_eq_dec : EqDecision ToolEvent.
Proof. solve_decision. Defined.

(** ** [core/components/promise.rs] *)

(** [enum Event] of [core/components/promise.rs]. *)
Module PromiseEvent.
Inductive PromiseEvent : Type :=
| Created (promise : Promise)
| Resolved (promise_id : PromiseId) (payload_ref : option BlobRef)
| Failed (promise_id : PromiseId) (error_ref : option BlobRef)
| Cancelled (promise_id : PromiseId)
| Detached (promise_id : PromiseId).
End PromiseEvent.
Abbreviation PromiseEvent := PromiseEvent.PromiseEvent.
#[export] Instance PromiseEvent_eq_dec : EqDecision PromiseEvent.
Proof. solve_decision. Defined.

(** ** [core/components/workflow_tool.rs] *)

(** [enum WorkflowToolConfigEvent] of [core/components/workflow_tool.rs]. *)
Module WorkflowToolConfigEvent.
Inductive WorkflowToolConfigEvent : Type :=
| DeclaredBindingsAdmitted (session_universe_id : Uuid) (declaration_version : N) (lifecycle_controller : option WorkflowEndpointRef) (creation_fingerprint : string) (bindings : list WorkflowToolBinding)
| SystemBindingAdmitted (binding : WorkflowToolBinding).
End WorkflowToolConfigEvent.
Abbreviation WorkflowToolConfigEvent := WorkflowToolConfigEvent.WorkflowToolConfigEvent.
#[export] Instance WorkflowToolConfigEvent_eq_dec : EqDecision WorkflowToolConfigEvent.
Proof. solve_decision. Defined.

(** [enum WorkflowToolEvent] of [core/components/workflow_tool.rs]. *)
Module WorkflowToolEvent.
Inductive WorkflowToolEvent : Type :=
| Invoked (invocation : WorkflowToolInvocation)
| DeliveryFailed (invocation_id : WorkflowToolInvocationId) (error_ref : BlobRef)
| StartRequested (invocation : WorkflowToolInvocation) (execution_id : string)
| StartFailed (invocation_id : WorkflowToolInvocationId) (error_ref : BlobRef).
End WorkflowToolEvent.
Abbreviation WorkflowToolEvent := WorkflowToolEvent.WorkflowToolEvent.
#[export] Instance WorkflowToolEvent_eq_dec : EqDecision WorkflowToolEvent.
Proof. solve_decision. Defined.

(** ** [core/components/code_tool.rs] *)

(** [enum CodeToolEvent] of [core/components/code_tool.rs]. *)
Module CodeToolEvent.
Inductive CodeToolEvent : Type :=
| ScopeOpened (scope : CodeToolScopeSpec)
| CallAdmitted (call : CodeToolCallSpec) (promise_id_base : N)
| CallCompleted (origin : CodeToolOrigin) (result : CodeToolCallResult)
| CallDeferred (origin : CodeToolOrigin) (suspension : ToolBatchSuspension)
| ScopeClosed (execution_id : string).
End CodeToolEvent.
Abbreviation CodeToolEvent := CodeToolEvent.CodeToolEvent.
#[export] Instance CodeToolEvent_eq_dec : EqDecision CodeToolEvent.
Proof. solve_decision. Defined.

(** ** [core/components/event.rs] *)

(** [enum CoreAgentEvent] of [core/components/event.rs]. *)
Module CoreAgentEvent.
Inductive CoreAgentEvent : Type :=
| Lifecycle (x : CoreAgentLifecycleEvent)
| Run (x : RunEvent)
| Approval (x : ApprovalEvent)
| Turn (x : TurnEvent)
| Context (x : ContextEvent)
| Environment (x : EnvironmentEvent)
| ToolConfig (x : ToolConfigEvent)
| Tool (x : ToolEvent)
| Promise (x : PromiseEvent)
| WorkflowToolConfig (x : WorkflowToolConfigEvent)
| WorkflowTool (x : WorkflowToolEvent)
| CodeTool (x : CodeToolEvent).
End CoreAgentEvent.
Abbreviation CoreAgentEvent := CoreAgentEvent.CoreAgentEvent.
#[export] Instance CoreAgentEvent_eq_dec : EqDecision CoreAgentEvent.
Proof. solve_decision. Defined.

(** ** [core/components/log.rs] *)

(** [struct CoreAgentJoins] of [core/components/log.rs]. *)
Module CoreAgentJoins.
Record CoreAgentJoins : Type := {
  run_id : option RunId;
  turn_id : option TurnId;
  tool_batch_id : option ToolBatchId;
  tool_call_id : option ToolCallId;
  submission_id : option SubmissionId;
}.
End CoreAgentJoins.
Abbreviation CoreAgentJoins := CoreAgentJoins.CoreAgentJoins.
#[export] Instance CoreAgentJoins_eq_dec : EqDecision CoreAgentJoins.
Proof. solve_decision. Defined.
#[export] Instance CoreAgentJoins_default : Default CoreAgentJoins :=
  {| CoreAgentJoins.run_id := default_of;
     CoreAgentJoins.turn_id := default_of;
     CoreAgentJoins.tool_batch_id := default_of;
     CoreAgentJoins.tool_call_id := default_of;
     CoreAgentJoins.submission_id := default_of |}.

(** ** [core/transition.rs] *)

(** [struct CoreAgentEventProposal] of [core/transition.rs]. *)
Module CoreAgentEventProposal.
Record CoreAgentEventProposal : Type := {
  joins : CoreAgentJoins;
  event : CoreAgentEvent;
}.
End CoreAgentEventProposal.
Abbreviation CoreAgentEventProposal := CoreAgentEventProposal.CoreAgentEventProposal.
#[export] Instance CoreAgentEventProposal_eq_dec : EqDecision CoreAgentEventProposal.
Proof. solve_decision. Defined.

(** [CoreAgentEntry], the instance of [SessionEntry] the core replays. *)
Module CoreAgentEntry.
Record CoreAgentEntry : Type := {
  position : SessionPosition;
  observed_at_ms : N;
  joins : CoreAgentJoins;
  event : CoreAgentEvent;
}.
End CoreAgentEntry.
Abbreviation CoreAgentEntry := CoreAgentEntry.CoreAgentEntry.
