(* ===== verification/Commands.v ===== *)
(** * Commands, requests and results

    What crosses the boundary of the core: the commands a host admits and the reasons one
    is rejected ([core/components/command.rs], [core/components/error.rs]), and the
    requests the core makes of model, compaction and tool runtimes with the results they
    answer ([core/io.rs]). *)
From S2P Require Import Prelude Types Events.
Set Primitive Projections.

(** ** [core/components/error.rs] *)

(** [enum CommandRejectionKind] of [core/components/error.rs]. *)
Module CommandRejectionKind.
Inductive CommandRejectionKind : Type :=
| SessionLifecycle
| ActiveWork
| MissingActiveRun
| UnknownReference
| Invalid
| ProviderCompatibility
| DuplicateSubmission
| RevisionConflict
| Conflict
| ApprovalAlreadyTerminal
| Refused
| Internal.
End CommandRejectionKind.
Abbreviation CommandRejectionKind := CommandRejectionKind.CommandRejectionKind.
#[export] Instance CommandRejectionKind_eq_dec : EqDecision CommandRejectionKind.
Proof. solve_decision. Defined.

(** [enum CommandRejectionDetails] of [core/components/error.rs]. *)
Module CommandRejectionDetails.
Inductive CommandRejectionDetails : Type :=
| ContextRevisionConflict (expected : N) (actual : N).
End CommandRejectionDetails.
Abbreviation CommandRejectionDetails := CommandRejectionDetails.CommandRejectionDetails.
#[export] Instance CommandRejectionDetails_eq_dec : EqDecision CommandRejectionDetails.
Proof. solve_decision. Defined.

(** [struct CommandRejection] of [core/components/error.rs]. *)
Module CommandRejection.
Record CommandRejection : Type := {
  kind : CommandRejectionKind;
  message : string;
  details : option CommandRejectionDetails;
}.
End CommandRejection.
Abbreviation CommandRejection := CommandRejection.CommandRejection.
#[export] Instance CommandRejection_eq_dec : EqDecision CommandRejection.
Proof. solve_decision. Defined.

(** [enum CommandError] of [core/components/error.rs]. *)
Module CommandError.
Inductive CommandError : Type :=
| Rejected (x : CommandRejection)
| Domain (x : DomainError).
End CommandError.
Abbreviation CommandError := CommandError.CommandError.
#[export] Instance CommandError_eq_dec : EqDecision CommandError.
Proof. solve_decision. Defined.

(** ** [core/components/workflow_tool.rs] *)

(** [struct WorkflowToolDeclaration] of [core/components/workflow_tool.rs]. *)
Module WorkflowToolDeclaration.
Record WorkflowToolDeclaration : Type := {
  definition : WorkflowToolDefinition;
  target : WorkflowToolTarget;
  completion : WorkflowToolCompletion;
}.
End WorkflowToolDeclaration.
Abbreviation WorkflowToolDeclaration := WorkflowToolDeclaration.WorkflowToolDeclaration.
#[export] Instance WorkflowToolDeclaration_eq_dec : EqDecision WorkflowToolDeclaration.
Proof. solve_decision. Defined.

(** [struct DeclaredSessionWorkflowTools] of [core/components/workflow_tool.rs]. *)
Module DeclaredSessionWorkflowTools.
Record DeclaredSessionWorkflowTools : Type := {
  version : N;
  lifecycle_controller : option WorkflowEndpointRef;
  tools : list WorkflowToolDeclaration;
}.
End DeclaredSessionWorkflowTools.
Abbreviation DeclaredSessionWorkflowTools := DeclaredSessionWorkflowTools.DeclaredSessionWorkflowTools.
#[export] Instance DeclaredSessionWorkflowTools_eq_dec : EqDecision DeclaredSessionWorkflowTools.
Proof. solve_decision. Defined.

(** ** [core/components/run.rs] *)

(** [struct RunRequestCommand] of [core/components/run.rs]. *)
Module RunRequestCommand.
Record RunRequestCommand : Type := {
  submission_id : option SubmissionId;
  source : RunRequestSource;
  run_config : RunConfig;
  input_limit_tokens : option N;
  notify_on_terminal : list RunTerminalNotifyIntent;
  requested_by : option Attribution;
}.
End RunRequestCommand.
Abbreviation RunRequestCommand := RunRequestCommand.RunRequestCommand.
#[export] Instance RunRequestCommand_eq_dec : EqDecision RunRequestCommand.
Proof. solve_decision. Defined.

(** ** [core/components/approval.rs] *)

(** [struct ApprovalDecisionCommand] of [core/components/approval.rs]. *)
Module ApprovalDecisionCommand.
Record ApprovalDecisionCommand : Type := {
  approval_id : ApprovalId;
  run_id : RunId;
  decision : ApprovalDecision;
  note : option string;
  decided_by : option Attribution;
  response : option ContextEntryInput;
}.
End ApprovalDecisionCommand.
Abbreviation ApprovalDecisionCommand := ApprovalDecisionCommand.ApprovalDecisionCommand.
#[export] Instance ApprovalDecisionCommand_eq_dec : EqDecision ApprovalDecisionCommand.
Proof. solve_decision. Defined.

(** ** [core/components/promise.rs] *)

(** [enum AwaitOutcome] of [core/components/promise.rs]. *)
Module AwaitOutcome.
Inductive AwaitOutcome : Type :=
| Terminal
| Timeout
| Cancelled.
End AwaitOutcome.
Abbreviation AwaitOutcome := AwaitOutcome.AwaitOutcome.
#[export] Instance AwaitOutcome_eq_dec : EqDecision AwaitOutcome.
Proof. solve_decision. Defined.

(** ** [core/components/run.rs] *)

(** [struct PromiseContextEntries] of [core/components/run.rs]. *)
Module PromiseContextEntries.
Record PromiseContextEntries : Type := {
  promise_id : PromiseId;
  entries : list ContextEntryInput;
  attachments : list Attachment;
}.
End PromiseContextEntries.
Abbreviation PromiseContextEntries := PromiseContextEntries.PromiseContextEntries.
#[export] Instance PromiseContextEntries_eq_dec : EqDecision PromiseContextEntries.
Proof. solve_decision. Defined.

(** [enum ToolBatchUnparkOutput] of [core/components/run.rs]. *)
Module ToolBatchUnparkOutput.
Inductive ToolBatchUnparkOutput : Type :=
| AwaitTool (result_ref : BlobRef) (additional_context : list ContextEntryInput) (attachments : list Attachment)
| JoinedWorkflowCalls (additional_context : list PromiseContextEntries).
End ToolBatchUnparkOutput.
Abbreviation ToolBatchUnparkOutput := ToolBatchUnparkOutput.ToolBatchUnparkOutput.
#[export] Instance ToolBatchUnparkOutput_eq_dec : EqDecision ToolBatchUnparkOutput.
Proof. solve_decision. Defined.

(** [struct UnparkToolBatchCommand] of [core/components/run.rs]. *)
Module UnparkToolBatchCommand.
Record UnparkToolBatchCommand : Type := {
  run_id : RunId;
  batch_id : ToolBatchId;
  claim : AwaitOutcome;
  claim_observed_at_ms : N;
  output : ToolBatchUnparkOutput;
}.
End UnparkToolBatchCommand.
Abbreviation UnparkToolBatchCommand := UnparkToolBatchCommand.UnparkToolBatchCommand.
#[export] Instance UnparkToolBatchCommand_eq_dec : EqDecision UnparkToolBatchCommand.
Proof. solve_decision. Defined.

(** ** [core/components/promise.rs] *)

(** [enum PromiseResolution] of [core/components/promise.rs]. *)
Module PromiseResolution.
Inductive PromiseResolution : Type :=
| Resolved (payload_ref : option BlobRef)
| Failed (error_ref : option BlobRef)
| Cancelled.
End PromiseResolution.
Abbreviation PromiseResolution := PromiseResolution.PromiseResolution.
#[export] Instance PromiseResolution_eq_dec : EqDecision PromiseResolution.
Proof. solve_decision. Defined.

(** ** [core/io.rs] *)

(** [struct ToolInvocationResult] of [core/io.rs]. *)
Module ToolInvocationResult.
Record ToolInvocationResult : Type := {
  call_id : ToolCallId;
  status : ToolCallStatus;
  output_ref : option BlobRef;
  model_visible_context_entries : list ContextEntryInput;
  error_ref : option BlobRef;
  effects : list ToolEffect;
  attachments : list Attachment;
  duration_ms : option N;
  output_bytes : option N;
  truncated : bool;
}.
End ToolInvocationResult.
Abbreviation ToolInvocationResult := ToolInvocationResult.ToolInvocationResult.
#[export] Instance ToolInvocationResult_eq_dec : EqDecision ToolInvocationResult.
Proof. solve_decision. Defined.

(** ** [core/components/command.rs] *)

(** [enum CoreAgentCommand] of [core/components/command.rs]. *)
Module CoreAgentCommand.
Inductive CoreAgentCommand : Type :=
| OpenSession (config : SessionConfig)
| OpenDeclaredSession (config : SessionConfig) (session_universe_id : Uuid) (workflow_tools : DeclaredSessionWorkflowTools)
| AdmitSystemWorkflowTool (session_universe_id : Uuid) (declaration : WorkflowToolDeclaration)
| ReplaceSessionConfig (expected_revision : option N) (config : SessionConfig)
| ReplaceTools (expected_revision : option N) (tools : gmap ToolId ToolSpec)
| PatchTools (expected_revision : option N) (patch : ToolPatch)
| SetActiveEnvironment (environment_id : EnvironmentId)
| ClearActiveEnvironment
| UpsertContext (expected_revision : option N) (key : ContextEntryKey) (entry : ContextEntryInput)
| ReplaceContextPrefix (expected_revision : option N) (key_prefix : ContextEntryKey) (entries : gmap ContextEntryKey ContextEntryInput)
| RemoveContext (expected_revision : option N) (key : ContextEntryKey)
| ReplaceContextEntries (expected_revision : option N) (entries : gmap ContextEntryId ContextEntryInput)
| CompactContext
| RequestRun (x : RunRequestCommand)
| RequestRunSteering (run_id : RunId) (submission_id : SubmissionId) (input : list ContextEntryInput) (requested_by : option Attribution)
| CancelRun (run_id : RunId) (requested_by : option Attribution)
| DecideApproval (x : ApprovalDecisionCommand)
| ForceCancelRun (run_id : RunId)
| FailRun (run_id : RunId) (message_ref : BlobRef)
| UnparkToolBatch (x : UnparkToolBatchCommand)
| ResolvePromise (promise_id : PromiseId) (resolution : PromiseResolution)
| FailWorkflowToolDelivery (invocation_id : WorkflowToolInvocationId) (error_ref : BlobRef)
| FailWorkflowToolStart (invocation_id : WorkflowToolInvocationId) (error_ref : BlobRef)
| OpenCodeToolScope (scope : CodeToolScopeSpec)
| AdmitCodeToolCall (call : CodeToolCallSpec)
| CompleteCodeToolCall (origin : CodeToolOrigin) (result : ToolInvocationResult)
| DeferCodeToolCall (origin : CodeToolOrigin) (spec : AwaitSpec)
| ResumeCodeToolCall (origin : CodeToolOrigin) (result : ToolInvocationResult) (claim_observed_at_ms : N)
| CloseCodeToolScope (execution_id : string)
| CloseSession (force : bool).
End CoreAgentCommand.
Abbreviation CoreAgentCommand := CoreAgentCommand.CoreAgentCommand.
#[export] Instance CoreAgentCommand_eq_dec : EqDecision CoreAgentCommand.
Proof. solve_decision. Defined.

(** ** [core/io.rs] *)

(** [struct LlmGenerationRequest] of [core/io.rs]. *)
Module LlmGenerationRequest.
Record LlmGenerationRequest : Type := {
  session_id : SessionId;
  run_id : RunId;
  turn_id : TurnId;
  request : LlmRequest;
}.
End LlmGenerationRequest.
Abbreviation LlmGenerationRequest := LlmGenerationRequest.LlmGenerationRequest.
#[export] Instance LlmGenerationRequest_eq_dec : EqDecision LlmGenerationRequest.
Proof. solve_decision. Defined.

(** [struct LlmGenerationResult] of [core/io.rs]. *)
Module LlmGenerationResult.
Record LlmGenerationResult : Type := {
  run_id : RunId;
  turn_id : TurnId;
  status : LlmGenerationStatus;
  failure_ref : option BlobRef;
  context_entries : list ContextEntryInput;
  facts : LlmGenerationFacts;
}.
End LlmGenerationResult.
Abbreviation LlmGenerationResult := LlmGenerationResult.LlmGenerationResult.
#[export] Instance LlmGenerationResult_eq_dec : EqDecision LlmGenerationResult.
Proof. solve_decision. Defined.

(** ** [core/components/llm.rs] *)

(** [struct ContextCompactionRequest] of [core/components/llm.rs]. *)
Module ContextCompactionRequest.
Record ContextCompactionRequest : Type := {
  session_id : SessionId;
  request : ContextCompactionTask;
}.
End ContextCompactionRequest.
Abbreviation ContextCompactionRequest := ContextCompactionRequest.ContextCompactionRequest.
#[export] Instance ContextCompactionRequest_eq_dec : EqDecision ContextCompactionRequest.
Proof. solve_decision. Defined.

(** [struct ContextCompactionResult] of [core/components/llm.rs]. *)
Module ContextCompactionResult.
Record ContextCompactionResult : Type := {
  usage : option LlmUsage;
  calls : N;
  session_id : SessionId;
  context_revision : N;
  status : ContextCompactionStatus;
  failure_ref : option BlobRef;
  context_entries : list ContextEntryInput;
}.
End ContextCompactionResult.
Abbreviation ContextCompactionResult := ContextCompactionResult.ContextCompactionResult.
#[export] Instance ContextCompactionResult_eq_dec : EqDecision ContextCompactionResult.
Proof. solve_decision. Defined.

(** ** [core/io.rs] *)

(** [struct BuiltinToolCallRuntime] of [core/io.rs]. *)
Module BuiltinToolCallRuntime.
Record BuiltinToolCallRuntime : Type := {
  spec : BuiltinToolSpec;
  model : ModelSelection;
}.
End BuiltinToolCallRuntime.
Abbreviation BuiltinToolCallRuntime := BuiltinToolCallRuntime.BuiltinToolCallRuntime.
#[export] Instance BuiltinToolCallRuntime_eq_dec : EqDecision BuiltinToolCallRuntime.
Proof. solve_decision. Defined.

(** [struct WorkflowToolCallRuntime] of [core/io.rs]. *)
Module WorkflowToolCallRuntime.
Record WorkflowToolCallRuntime : Type := {
  version : N;
  binding : WorkflowToolBinding;
  in_flight_invocation_count : N;
}.
End WorkflowToolCallRuntime.
Abbreviation WorkflowToolCallRuntime := WorkflowToolCallRuntime.WorkflowToolCallRuntime.
#[export] Instance WorkflowToolCallRuntime_eq_dec : EqDecision WorkflowToolCallRuntime.
Proof. solve_decision. Defined.

(** [enum PromiseControlStateRuntime] of [core/io.rs]. *)
Module PromiseControlStateRuntime.
Inductive PromiseControlStateRuntime : Type :=
| Unknown
| Known (ownership : PromiseOwnership) (scope : PromiseScope) (promise_status : PromiseStatus).
End PromiseControlStateRuntime.
Abbreviation PromiseControlStateRuntime := PromiseControlStateRuntime.PromiseControlStateRuntime.
#[export] Instance PromiseControlStateRuntime_eq_dec : EqDecision PromiseControlStateRuntime.
Proof. solve_decision. Defined.

(** [struct PromiseControlRuntime] of [core/io.rs]. *)
Module PromiseControlRuntime.
Record PromiseControlRuntime : Type := {
  promise_id : PromiseId;
  state : PromiseControlStateRuntime;
}.
End PromiseControlRuntime.
Abbreviation PromiseControlRuntime := PromiseControlRuntime.PromiseControlRuntime.
#[export] Instance PromiseControlRuntime_eq_dec : EqDecision PromiseControlRuntime.
Proof. solve_decision. Defined.

(** [struct PromiseControlCallRuntime] of [core/io.rs]. *)
Module PromiseControlCallRuntime.
Record PromiseControlCallRuntime : Type := {
  version : N;
  controls : list PromiseControlRuntime;
}.
End PromiseControlCallRuntime.
Abbreviation PromiseControlCallRuntime := PromiseControlCallRuntime.PromiseControlCallRuntime.
#[export] Instance PromiseControlCallRuntime_eq_dec : EqDecision PromiseControlCallRuntime.
Proof. solve_decision. Defined.

(** [struct RemoteMcpCallTarget] of [core/io.rs]. *)
Module RemoteMcpCallTarget.
Record RemoteMcpCallTarget : Type := {
  server_id : string;
  record_revision : N;
  server_label : string;
  allowed_tools : option (list string);
  approval : RemoteMcpApprovalPolicy;
}.
End RemoteMcpCallTarget.
Abbreviation RemoteMcpCallTarget := RemoteMcpCallTarget.RemoteMcpCallTarget.
#[export] Instance RemoteMcpCallTarget_eq_dec : EqDecision RemoteMcpCallTarget.
Proof. solve_decision. Defined.

(** [enum RemoteMcpCallRuntime] of [core/io.rs]. *)
Module RemoteMcpCallRuntime.
Inductive RemoteMcpCallRuntime : Type :=
| Injected (target : RemoteMcpCallTarget) (remote_tool_name : string) (approval_decision : option bool)
| Search (targets : list RemoteMcpCallTarget) (approval_decision : option bool).
End RemoteMcpCallRuntime.
Abbreviation RemoteMcpCallRuntime := RemoteMcpCallRuntime.RemoteMcpCallRuntime.
#[export] Instance RemoteMcpCallRuntime_eq_dec : EqDecision RemoteMcpCallRuntime.
Proof. solve_decision. Defined.

(** [struct ToolInvocationRequest] of [core/io.rs]. *)
Module ToolInvocationRequest.
Record ToolInvocationRequest : Type := {
  call_id : ToolCallId;
  tool_id : option ToolId;
  tool_name : ToolName;
  arguments_ref : BlobRef;
  builtin : option BuiltinToolCallRuntime;
  workflow_tool : option WorkflowToolCallRuntime;
  promise_control : option PromiseControlCallRuntime;
  remote_mcp : option RemoteMcpCallRuntime;
}.
End ToolInvocationRequest.
Abbreviation ToolInvocationRequest := ToolInvocationRequest.ToolInvocationRequest.
#[export] Instance ToolInvocationRequest_eq_dec : EqDecision ToolInvocationRequest.
Proof. solve_decision. Defined.

(** [struct ToolInvocationBatchRequest] of [core/io.rs]. *)
Module ToolInvocationBatchRequest.
Record ToolInvocationBatchRequest : Type := {
  session_id : SessionId;
  run_id : RunId;
  turn_id : TurnId;
  batch_id : ToolBatchId;
  workspace_attachments : list WorkspaceAttachment;
  vfs_working_directory : option string;
  active_environment_id : option EnvironmentId;
  environment_policy : option EnvironmentsFeature;
  subagents_policy : option SubagentsFeature;
  code_mode_policy : option CodeModeFeature;
  promise_id_base : N;
  calls : list ToolInvocationRequest;
}.
End ToolInvocationBatchRequest.
Abbreviation ToolInvocationBatchRequest := ToolInvocationBatchRequest.ToolInvocationBatchRequest.
#[export] Instance ToolInvocationBatchRequest_eq_dec : EqDecision ToolInvocationBatchRequest.
Proof. solve_decision. Defined.

(** [struct ToolInvocationCallRequest] of [core/io.rs]. *)
Module ToolInvocationCallRequest.
Record ToolInvocationCallRequest : Type := {
  session_id : SessionId;
  run_id : RunId;
  turn_id : TurnId;
  batch_id : ToolBatchId;
  workspace_attachments : list WorkspaceAttachment;
  vfs_working_directory : option string;
  active_environment_id : option EnvironmentId;
  environment_policy : option EnvironmentsFeature;
  subagents_policy : option SubagentsFeature;
  code_mode_policy : option CodeModeFeature;
  promise_id_base : N;
  call : ToolInvocationRequest;
  sibling_tool_ids : list ToolId;
  execution : ToolExecutionSpec;
}.
End ToolInvocationCallRequest.
Abbreviation ToolInvocationCallRequest := ToolInvocationCallRequest.ToolInvocationCallRequest.
#[export] Instance ToolInvocationCallRequest_eq_dec : EqDecision ToolInvocationCallRequest.
Proof. solve_decision. Defined.

(** [struct ToolInvocationBatchResult] of [core/io.rs]. *)
Module ToolInvocationBatchResult.
Record ToolInvocationBatchResult : Type := {
  run_id : RunId;
  turn_id : TurnId;
  batch_id : ToolBatchId;
  results : list ToolInvocationResult;
}.
End ToolInvocationBatchResult.
Abbreviation ToolInvocationBatchResult := ToolInvocationBatchResult.ToolInvocationBatchResult.
#[export] Instance ToolInvocationBatchResult_eq_dec : EqDecision ToolInvocationBatchResult.
Proof. solve_decision. Defined.

(** [enum ToolBatchOutcome] of [core/io.rs]. *)
Module ToolBatchOutcome.
Inductive ToolBatchOutcome : Type :=
| Completed (result : ToolInvocationBatchResult)
| Parked (batch_id : ToolBatchId) (call_id : ToolCallId) (completed_results : list ToolInvocationResult) (spec : AwaitSpec).
End ToolBatchOutcome.
Abbreviation ToolBatchOutcome := ToolBatchOutcome.ToolBatchOutcome.
#[export] Instance ToolBatchOutcome_eq_dec : EqDecision ToolBatchOutcome.
Proof. solve_decision. Defined.

(** [struct RuntimeMcpApprovalRequest] of [core/io.rs]. *)
Module RuntimeMcpApprovalRequest.
Record RuntimeMcpApprovalRequest : Type := {
  call_id : ToolCallId;
  subject : ApprovalSubject;
}.
End RuntimeMcpApprovalRequest.
Abbreviation RuntimeMcpApprovalRequest := RuntimeMcpApprovalRequest.RuntimeMcpApprovalRequest.
#[export] Instance RuntimeMcpApprovalRequest_eq_dec : EqDecision RuntimeMcpApprovalRequest.
Proof. solve_decision. Defined.

(** [enum PromiseControlKind] of [core/io.rs]. *)
Module PromiseControlKind.
Inductive PromiseControlKind : Type :=
| Cancel
| Detach.
End PromiseControlKind.
Abbreviation PromiseControlKind := PromiseControlKind.PromiseControlKind.
#[export] Instance PromiseControlKind_eq_dec : EqDecision PromiseControlKind.
Proof. solve_decision. Defined.

(** [struct PromiseControlArgumentCall] of [core/io.rs]. *)
Module PromiseControlArgumentCall.
Record PromiseControlArgumentCall : Type := {
  call_id : ToolCallId;
  kind : PromiseControlKind;
  arguments_ref : BlobRef;
}.
End PromiseControlArgumentCall.
Abbreviation PromiseControlArgumentCall := PromiseControlArgumentCall.PromiseControlArgumentCall.
#[export] Instance PromiseControlArgumentCall_eq_dec : EqDecision PromiseControlArgumentCall.
Proof. solve_decision. Defined.

(** [struct PromiseControlArgumentRequest] of [core/io.rs]. *)
Module PromiseControlArgumentRequest.
Record PromiseControlArgumentRequest : Type := {
  version : N;
  calls : list PromiseControlArgumentCall;
}.
End PromiseControlArgumentRequest.
Abbreviation PromiseControlArgumentRequest := PromiseControlArgumentRequest.PromiseControlArgumentRequest.
#[export] Instance PromiseControlArgumentRequest_eq_dec : EqDecision PromiseControlArgumentRequest.
Proof. solve_decision. Defined.

(** [enum PromiseControlArgumentCallFacts] of [core/io.rs]. *)
Module PromiseControlArgumentCallFacts.
Inductive PromiseControlArgumentCallFacts : Type :=
| Parsed (call_id : ToolCallId) (promise_ids : list PromiseId)
| Invalid (call_id : ToolCallId).
End PromiseControlArgumentCallFacts.
Abbreviation PromiseControlArgumentCallFacts := PromiseControlArgumentCallFacts.PromiseControlArgumentCallFacts.
#[export] Instance PromiseControlArgumentCallFacts_eq_dec : EqDecision PromiseControlArgumentCallFacts.
Proof. solve_decision. Defined.

(** [struct PromiseControlArgumentFacts] of [core/io.rs]. *)
Module PromiseControlArgumentFacts.
Record PromiseControlArgumentFacts : Type := {
  version : N;
  calls : list PromiseControlArgumentCallFacts;
}.
End PromiseControlArgumentFacts.
Abbreviation PromiseControlArgumentFacts := PromiseControlArgumentFacts.PromiseControlArgumentFacts.
#[export] Instance PromiseControlArgumentFacts_eq_dec : EqDecision PromiseControlArgumentFacts.
Proof. solve_decision. Defined.

(** ** [core/components/workflow_tool.rs] *)

(** [struct AdmittedDeclaredSessionWorkflowTools] of [core/components/workflow_tool.rs]. *)
Module AdmittedDeclaredSessionWorkflowTools.
Record AdmittedDeclaredSessionWorkflowTools : Type := {
  session_universe_id : Uuid;
  version : N;
  lifecycle_controller : option WorkflowEndpointRef;
  creation_fingerprint : string;
  bindings : list WorkflowToolBinding;
}.
End AdmittedDeclaredSessionWorkflowTools.
Abbreviation AdmittedDeclaredSessionWorkflowTools := AdmittedDeclaredSessionWorkflowTools.AdmittedDeclaredSessionWorkflowTools.
#[export] Instance AdmittedDeclaredSessionWorkflowTools_eq_dec : EqDecision AdmittedDeclaredSessionWorkflowTools.
Proof. solve_decision. Defined.
