(* ===== verification/Media.v ===== *)
(** * Media

    Handles, media types, previews and the context entries that carry media
    ([media.rs]). *)
From Stdlib Require Import Ascii.
From S2P Require Import Prelude Ids Text Types.

Definition MEDIA_HANDLE_PREFIX : string := "media:".
Definition MEDIA_HANDLE_HEX_LEN : nat := 12.
Definition MAX_TOOL_MEDIA_BYTES : N := (10 * 1024 * 1024)%N.
Definition IMAGE_MEDIA_TYPES : list string :=
  ["image/jpeg"; "image/png"; "image/webp"; "image/gif"].
Definition PDF_MEDIA_TYPE : string := "application/pdf".

(** The first twelve hex characters of the digest; the reference is the text after
    its last [:]. *)
Definition media_handle (blob_ref : BlobRef) : string :=
  let hex := default "" (last (split ":"%char blob_ref)) in
  MEDIA_HANDLE_PREFIX +:+ String.substring 0 (min (String.length hex) MEDIA_HANDLE_HEX_LEN) hex.

Definition is_ascii_hexdigit (c : Ascii.ascii) : bool :=
  is_lower_hex c || in_range 65 70 c.

Fixpoint take_while {A} (f : A → bool) (l : list A) : list A :=
  match l with x :: l => if f x then x :: take_while f l else [] | [] => [] end.

(** One round per occurrence of the prefix; every round moves past it, so as many
    rounds as there are bytes are enough. *)
Fixpoint find_media_handles_from (fuel : nat) (rest : string) (found : list string)
    : list string :=
  match fuel with
  | O => found
  | S fuel =>
      match split_once MEDIA_HANDLE_PREFIX rest with
      | None => found
      | Some (_, after) =>
          let hex := take_while is_ascii_hexdigit (chars after) in
          let handle := MEDIA_HANDLE_PREFIX +:+ of_chars hex in
          let found :=
            if (length hex =? MEDIA_HANDLE_HEX_LEN)%nat && forallb is_lower_hex hex
               && negb (bool_decide (handle ∈ found))
            then found ++ [handle] else found in
          find_media_handles_from fuel (of_chars (drop (length hex) (chars after))) found
      end
  end.
Definition find_media_handles (text : string) : list string :=
  find_media_handles_from (String.length text) text [].

Definition MediaKind_label (self : MediaKind) : string :=
  match self with MediaKind.Image => "image" | MediaKind.Document => "document" end.

Module MediaRejection.
Inductive MediaRejection : Type :=
| UnsupportedMediaType (media_type : string)
| TooLarge (byte_len limit : N)
| TooMany (limit : nat).
End MediaRejection.
Abbreviation MediaRejection := MediaRejection.MediaRejection.

Definition normalized_media_type (media_type : string) : string :=
  to_ascii_lowercase (trim (default "" (head (split ";"%char media_type)))).

Definition media_kind (media_type : string) : option MediaKind :=
  let media_type := normalized_media_type media_type in
  if bool_decide (media_type ∈ IMAGE_MEDIA_TYPES) then Some MediaKind.Image
  else if bool_decide (media_type = PDF_MEDIA_TYPE) then Some MediaKind.Document
  else None.

Definition admit_tool_media (media_type : option string) (byte_len : N)
    : Result MediaRejection MediaKind :=
  let media_type := default "application/octet-stream" media_type in
  kind ← ok_or (media_kind media_type)
           (MediaRejection.UnsupportedMediaType (normalized_media_type media_type));
  _ ← reject_if (MAX_TOOL_MEDIA_BYTES <? byte_len)%N
        (MediaRejection.TooLarge byte_len MAX_TOOL_MEDIA_BYTES);
  mret kind.

Definition sniff_media_type (bytes : string) : option string :=
  if starts_with (str_of_bytes [137; 80; 78; 71; 13; 10; 26; 10]%N) bytes then Some "image/png"
  else if starts_with (str_of_bytes [255; 216; 255]%N) bytes then Some "image/jpeg"
  else if starts_with "GIF87a" bytes || starts_with "GIF89a" bytes then Some "image/gif"
  else if (12 <=? String.length bytes)%nat
          && bool_decide (String.substring 0 4 bytes = "RIFF")
          && bool_decide (String.substring 8 4 bytes = "WEBP")
  then Some "image/webp"
  else if starts_with "%PDF-" bytes then Some PDF_MEDIA_TYPE
  else None.

(** [name.map(str::trim).filter(|name| !name.is_empty())]. *)
Definition trimmed_name (name : option string) : option string :=
  match trim <$> name with
  | Some name => if bool_decide (name = "") then None else Some name
  | None => None
  end.

Definition media_preview (kind : MediaKind) (name : option string) : string :=
  match trimmed_name name with
  | Some name => "[" +:+ MediaKind_label kind +:+ ": " +:+ name +:+ "]"
  | None => "[" +:+ MediaKind_label kind +:+ "]"
  end.

Definition media_preview_name (preview : option string) : option string :=
  preview ← trim <$> preview;
  inner ← strip_prefix "[" preview ≫= strip_suffix "]";
  '(_, name) ← split_once ": " inner;
  trimmed_name (Some name).

Definition media_context_entry (content_ref : BlobRef) (media_type : string)
    (kind : MediaKind) (name : option string) : ContextEntryInput :=
  {| ContextEntryInput.origin := None;
     ContextEntryInput.kind := ContextEntryKind.Message ContextMessageRole.User;
     ContextEntryInput.content :=
       {| ContentRef.content_ref := content_ref;
          ContentRef.media_type := Some (normalized_media_type media_type);
          ContentRef.provider_kind := None |};
     ContextEntryInput.preview := Some (media_preview kind name);
     ContextEntryInput.provenance_ref := None;
     ContextEntryInput.token_estimate := None |}.

Definition MediaDescriptor_new (content_ref : BlobRef) (media_type : string)
    (name : option string) : option MediaDescriptor :=
  kind ← media_kind media_type;
  Some {| MediaDescriptor.handle := media_handle content_ref;
          MediaDescriptor.content_ref := content_ref;
          MediaDescriptor.media_type := normalized_media_type media_type;
          MediaDescriptor.kind := kind;
          MediaDescriptor.name := trimmed_name name |}.

Definition MediaDescriptor_context_entry (self : MediaDescriptor) : ContextEntryInput :=
  media_context_entry self.(MediaDescriptor.content_ref) self.(MediaDescriptor.media_type)
    self.(MediaDescriptor.kind) self.(MediaDescriptor.name).

Definition is_media_content (content : ContentRef) : bool :=
  bool_decide (is_Some (content.(ContentRef.media_type) ≫= media_kind)).

Example media_kind_png : media_kind "image/PNG; q=1" = Some MediaKind.Image.
Proof. reflexivity. Qed.
Example media_handles_found :
  find_media_handles "a media:0123456789ab b media:0123456789abc media:0123456789ab"
  = ["media:0123456789ab"].
Proof. reflexivity. Qed.
Example media_preview_name_read :
  media_preview_name (Some (media_preview MediaKind.Document (Some " a.pdf "))) = Some "a.pdf".
Proof. reflexivity. Qed.
