(* ===== verification/Externals.v ===== *)
(** * Code the core relies on

    SHA-256 (the [sha2] and [hex] crates), JSON encoding ([serde_json]) and the text of
    UUIDs (the [uuid] crate) are not part of the repository. [Externals] is what the core uses of them; every
    definition that reaches them takes it as an argument. The reference of a blob
    and the well-known failure and result contents follow, and the submission
    digest of [core/components/run.rs], which is FNV-1a written out. *)
From Stdlib Require Import Ascii.
From S2P Require Import Prelude Ids Types.

Class Externals := {
  (** [hex::encode(Sha256::digest(bytes))]. *)
  sha256_hex : string → string;
  (** A SHA-256 digest is 32 bytes, printed as 64 lower-case hex digits. *)
  sha256_hex_length : ∀ s, String.length (sha256_hex s) = 64;
  sha256_hex_lower : ∀ s, all_chars is_lower_hex (sha256_hex s) = true;
  (** [serde_json::to_vec] of the payloads the core digests. *)
  json_run_submission :
    string → RunRequestSource → RunConfig → list RunTerminalNotifyIntent → string;
  json_string_pair : string → string → string;
  json_llm_request : ModelSelection → ContextSnapshot → list ToolSpec → GenerationConfig →
    RunId → TurnId → string;
  json_code_mode_request : string → CodeModePresentation → string;
  json_compaction_request : ModelSelection → ContextSnapshot → option N → list ToolSpec →
    option N → string;
  (** A value is encoded so that it can be decoded: different values differ. *)
  json_builtin_tool : BuiltinToolSpec → string;
  json_builtin_tool_inj : ∀ a b, json_builtin_tool a = json_builtin_tool b → a = b;
  (** [serde_json::to_string] and [from_str] at [BTreeMap<String, String>]. *)
  json_string_map : gmap string string → string;
  json_parse_string_map : string → option (gmap string string);
  json_string_map_roundtrip : ∀ m, json_parse_string_map (json_string_map m) = Some m;
  (** [Uuid::to_string] and [Uuid::parse_str]; a UUID is a 128-bit number. *)
  uuid_to_string : Uuid → string;
  uuid_parse_str : string → option Uuid;
  uuid_roundtrip : ∀ u, (u < 2 ^ 128)%N → uuid_parse_str (uuid_to_string u) = Some u;
}.

Section externals.
Context `{!Externals}.

(** [BlobRef::from_bytes]. *)
Definition BlobRef_from_bytes (bytes : string) : BlobRef :=
  SHA256_PREFIX +:+ sha256_hex bytes.

(** The texts end in a newline in the source. *)
Definition line (s : string) : string := s +:+ String "010"%char EmptyString.

Definition run_internal_failure_ref : BlobRef := BlobRef_from_bytes
  (line "the run failed on an internal error and its message could not be recorded").
Definition turn_limit_failure_ref : BlobRef := BlobRef_from_bytes
  (line "the run used every turn its maxTurns limit allows before the model finished").
Definition context_limit_failure_ref : BlobRef := BlobRef_from_bytes
  (line "the context is larger than the model accepts and compaction did not make it fit").
Definition entry_guard_failure_ref : BlobRef := BlobRef_from_bytes
  (line "the session holds too many context entries to keep running and compaction did not bring them down; enable compaction or run it for this session").
Definition provider_cancelled_failure_ref : BlobRef := BlobRef_from_bytes
  (line "the provider cancelled the generation before it finished").
Definition output_truncated_failure_ref : BlobRef := BlobRef_from_bytes
  (line "the provider cut the response off at its output limit").
Definition content_filtered_failure_ref : BlobRef := BlobRef_from_bytes
  (line "the provider refused the request or filtered the response").
Definition llm_runtime_boundary_failure_ref : BlobRef := BlobRef_from_bytes
  (line "LLM call failed at the runtime boundary before its result could be recorded").
Definition unavailable_tool_result_ref : BlobRef := BlobRef_from_bytes
  (line "tool unavailable: this tool cannot be invoked in this session").
Definition cancelled_tool_result_ref : BlobRef := BlobRef_from_bytes
  (line "tool call cancelled before it completed").
Definition await_rejected_ref : BlobRef := BlobRef_from_bytes
  (line "await rejected: a promise id is unknown, no longer retained or not awaitable by this run").
Definition await_batch_conflict_ref : BlobRef := BlobRef_from_bytes
  (line "tool call rejected: a batch may hold one await and no joined workflow tool beside it, and this call did not start").
Definition promise_deadline_exceeded_ref : BlobRef := BlobRef_from_bytes
  (line "deadline exceeded: no result arrived before this call's completion deadline").
Definition tool_runtime_boundary_failure_ref : BlobRef := BlobRef_from_bytes
  (line "tool call failed at the runtime boundary before its result could be recorded").
Definition receiver_cancelled_ref : BlobRef := BlobRef_from_bytes
  (line "tool call cancelled by its receiver").
Definition empty_success_ref : BlobRef := BlobRef_from_bytes
  (line "tool call succeeded with no output").
Definition failed_without_detail_ref : BlobRef := BlobRef_from_bytes
  (line "tool call failed without detail").
Definition unusable_tool_calls_failure_ref : BlobRef := BlobRef_from_bytes
  (line "the model response claimed tool calls but did not contain a usable set of them").
Definition code_tool_interrupted_ref : BlobRef := BlobRef_from_bytes
  "Code tool execution was interrupted when its owning run ended. Its outcome is unknown; an external side effect may already have occurred.".

(** FNV-1a over the bytes of the encoded payload. *)
Definition FNV_OFFSET : N := 14695981039346656037.
Definition FNV_PRIME : N := 1099511628211.
Definition fnv1a (bytes : list Ascii.ascii) : N :=
  foldl (λ hash byte, wrapping_mul_u64 (N.lxor hash (byte_of byte)) FNV_PRIME)
    FNV_OFFSET bytes.
Definition submission_digest_json (payload : string) : N := fnv1a (chars payload).

Definition request_run_submission_digest (source : RunRequestSource) (run_config : RunConfig)
    (notify_on_terminal : list RunTerminalNotifyIntent) : N :=
  submission_digest_json
    (json_run_submission "request_run" source run_config notify_on_terminal).

Lemma append_length (s t : string) :
  String.length (s +:+ t) = String.length s + String.length t.
Proof. induction s; simpl; [done|]. by f_equal. Qed.

(** Every reference made from bytes is canonical, so it decodes again. *)
Lemma BlobRef_from_bytes_canonical s : is_canonical_sha256_ref (BlobRef_from_bytes s) = true.
Proof.
  unfold is_canonical_sha256_ref, BlobRef_from_bytes.
  rewrite strip_prefix_app, append_length, sha256_hex_length, sha256_hex_lower. done.
Qed.

Lemma fnv1a_bound l : (fnv1a l <= u64_max)%N.
Proof.
  unfold fnv1a. induction l as [|c l _] using rev_ind; [vm_compute; discriminate|].
  rewrite foldl_app. cbn [foldl]. apply N.lt_succ_r. unfold wrapping_mul_u64.
  by apply N.mod_lt.
Qed.
End externals.

(** A concrete instance, for evaluating the model: the digest spreads FNV-1a over
    64 hex digits, and the encodings keep the parts the examples vary. *)
Definition hex_char (d : N) : Ascii.ascii :=
  if (d <? 10)%N then Ascii.ascii_of_N (48 + d) else Ascii.ascii_of_N (87 + d).
Definition example_sha256_hex (s : string) : string :=
  let h := fnv1a (chars s) in
  of_chars (map (λ i, hex_char (N.shiftr h (4 * N.of_nat (i mod 16)) mod 16)) (seq 0 64)).

Lemma hex_char_lower d : (d < 16)%N → is_lower_hex (hex_char d) = true.
Proof.
  intros Hd. assert (d ∈ (N.of_nat <$> seq 0 16)) as Hin.
  { apply list_elem_of_fmap. exists (N.to_nat d). rewrite elem_of_seq. lia. }
  clear Hd; revert d Hin. apply Forall_forall. repeat constructor.
Qed.

(** Binary digits of a code, for the encodings that are decoded again. *)
Fixpoint bits_of_pos (p : positive) : string :=
  match p with
  | xH => ""
  | xO p => String "0" (bits_of_pos p)
  | xI p => String "1" (bits_of_pos p)
  end.
Fixpoint pos_of_bits (s : string) : positive :=
  match s with
  | EmptyString => xH
  | String c s => if Ascii.eqb c "0" then xO (pos_of_bits s) else xI (pos_of_bits s)
  end.
Lemma pos_of_bits_of_pos p : pos_of_bits (bits_of_pos p) = p.
Proof. induction p as [p IH|p IH|]; simpl; [by rewrite IH|by rewrite IH|done]. Qed.
Definition code_of {A} `{Countable A} (a : A) : string := bits_of_pos (encode a).
Definition of_code {A} `{Countable A} (s : string) : option A := decode (pos_of_bits s).
Lemma of_code_of {A} `{Countable A} (a : A) : of_code (code_of a) = Some a.
Proof. unfold of_code, code_of. by rewrite pos_of_bits_of_pos, decode_encode. Qed.

#[export, refine] Instance example_externals : Externals := {|
  sha256_hex := example_sha256_hex;
  json_run_submission := λ tag source _ notify,
    tag +:+ match source with RunRequestSource.Input input =>
              u64_to_string (N.of_nat (length input)) end
        +:+ u64_to_string (N.of_nat (length notify));
  json_string_pair := λ a b, a +:+ "," +:+ b;
  json_llm_request := λ _ _ _ _ run turn, u64_to_string run +:+ "," +:+ u64_to_string turn;
  json_code_mode_request := λ fingerprint _, fingerprint;
  json_compaction_request := λ _ _ _ _ _, "compaction";
  json_builtin_tool := BuiltinToolSpec.settings;
  json_string_map := code_of;
  json_parse_string_map := of_code;
  uuid_to_string := code_of;
  uuid_parse_str := of_code;
|}.
Proof.
  - intros s. unfold example_sha256_hex. rewrite <- length_chars, chars_of_chars.
    by rewrite length_map, length_seq.
  - intros s. unfold example_sha256_hex, all_chars. rewrite chars_of_chars.
    apply forallb_forall. intros c (i & <- & _)%in_map_iff.
    apply hex_char_lower. by apply N.mod_lt.
  - intros [x] [y]. simpl. by intros ->.
  - intros m. apply of_code_of.
  - intros u _. apply of_code_of.
Defined.
