(* ===== verification/RunState.v ===== *)
(** * The run a session is working on

    What every component asks of the run state: finding the active run, the
    questions about its latest turn, its steering and its budget, and the pruning
    that keeps reduced state from growing with a run ([core/components/run.rs],
    with the approval and status helpers of [approval.rs], [tooling.rs] and
    [promise.rs]). *)
From S2P Require Import Prelude Ids Text Types Events Media Externals.

(** The reducer monad over the session state, and the two errors it raises. *)
Abbreviation CoreReducer := (Reducer CoreAgentState DomainError).
Abbreviation InvariantViolation := DomainError.InvariantViolation.
Abbreviation EventOrdering := DomainError.EventOrdering.

(** [checked_add(1)] of a cursor or revision. *)
Definition next_u64 (n : N) : option N := checked_add_u64 n 1.
Lemma next_u64_Some n m : next_u64 n = Some m → m = (n + 1)%N.
Proof. intros H. unfold next_u64 in H. by apply checked_add_u64_Some in H as [-> _]. Qed.

(** ** Status predicates *)
Definition ToolCallStatus_is_terminal (self : ToolCallStatus) : bool :=
  match self with
  | ToolCallStatus.Unavailable | ToolCallStatus.Succeeded
  | ToolCallStatus.Failed | ToolCallStatus.Cancelled => true
  | ToolCallStatus.Accepted | ToolCallStatus.Pending => false
  end.
Definition ToolCallStatus_is_error (self : ToolCallStatus) : bool :=
  match self with ToolCallStatus.Succeeded => false | _ => true end.
Definition ApprovalStatus_is_terminal (self : ApprovalStatus) : bool :=
  match self with ApprovalStatus.Pending => false | _ => true end.
Definition PromiseStatus_is_terminal (self : PromiseStatus) : bool :=
  match self with PromiseStatus.Pending => false | _ => true end.
Definition ToolBatchSuspension_spec (self : ToolBatchSuspension) : AwaitSpec :=
  match self with
  | ToolBatchSuspension.AwaitTool _ spec => spec
  | ToolBatchSuspension.JoinedWorkflowCalls _ spec => spec
  end.

(** ** Sources of a run *)
Definition RunSource_input (self : RunSource) : list ContextEntryInput :=
  match self with RunSource.Input input => input end.
Definition RunRequestSource_input (self : RunRequestSource) : list ContextEntryInput :=
  match self with RunRequestSource.Input input => input end.
Definition RunSource_matches_request (self : RunSource) (request : RunRequestSource) : bool :=
  bool_decide (RunSource_input self = RunRequestSource_input request).
Definition source_request_equivalent (source : RunSource) : RunRequestSource :=
  match source with RunSource.Input input => RunRequestSource.Input input end.

(** A media entry keeps its preview, which is the only name its record has. *)
Definition compact_terminal_source (source : RunSource) : RunSource :=
  match source with
  | RunSource.Input input =>
      RunSource.Input
        ((λ entry, if is_media_content entry.(ContextEntryInput.content) then entry
                   else entry <| ContextEntryInput.preview := None |>) <$> input)
  end.

(** ** The active run *)
Definition active_run_ref (state : CoreAgentState) (run_id : RunId)
    : Result DomainError ActiveRun :=
  active_run ← ok_or state.(CoreAgentState.runs).(RunsState.active)
                 (InvariantViolation "no active run");
  _ ← reject_if (bool_decide (active_run.(ActiveRun.run_id) ≠ run_id))
        (InvariantViolation "event run id {} does not match active run {}");
  mret active_run.

(** [active_run_mut] hands out the run to write to; the write is [put_active_run]. *)
Definition active_run_mut (run_id : RunId) : CoreReducer ActiveRun :=
  checking (λ state, active_run_ref state run_id).
Definition set_active_run (run : ActiveRun) (state : CoreAgentState) : CoreAgentState :=
  state <| CoreAgentState.runs ::= λ runs, runs <| RunsState.active := Some run |> |>.
Definition put_active_run (run : ActiveRun) : CoreReducer unit :=
  modify_state (set_active_run run).

Definition pending_approvals (run : ActiveRun) : list ApprovalRecord :=
  filter (λ record, record.(ApprovalRecord.status) = ApprovalStatus.Pending)
    (btree_values run.(ActiveRun.approvals)).

Definition steering_for_submission (run : ActiveRun) (submission_id : SubmissionId)
    : option SteeringBatch :=
  snd <$> list_find (λ steering, steering.(SteeringBatch.submission_id) = submission_id)
            run.(ActiveRun.steering).

Definition latest_turn (run : ActiveRun) : option (TurnId * TurnState) :=
  btree_last run.(ActiveRun.turns).

(** A limit of the run itself wins over the session's; without either a run is
    unbounded. *)
Definition turn_limit (state : CoreAgentState) (run : ActiveRun) : option N :=
  match run.(ActiveRun.run_config).(RunConfig.max_turns) with
  | Some limit => Some limit
  | None => config ← state.(CoreAgentState.lifecycle).(LifecycleState.config);
            config.(SessionConfig.limits).(LimitsConfig.max_turns)
  end.
Definition turn_limit_reached (state : CoreAgentState) (run : ActiveRun) : bool :=
  match turn_limit state run with
  | Some limit => (limit <=? run.(ActiveRun.turn_count))%N
  | None => false
  end.

Definition has_unconsumed_steering (run : ActiveRun) : bool :=
  existsb (λ steering, is_none steering.(SteeringBatch.consumed_by_turn_id))
    run.(ActiveRun.steering).

Definition has_unmaterialized_steering (run : ActiveRun) : bool :=
  existsb (λ steering,
    (length steering.(SteeringBatch.entry_ids) <? length steering.(SteeringBatch.input))%nat)
    run.(ActiveRun.steering).

(** [batches.values().any(|batch| batch.turn_id == turn_id)]. *)
Definition open_batch_of_turn (run : ActiveRun) (turn_id : TurnId) : bool :=
  existsb (λ batch, bool_decide (batch.(ActiveToolBatch.turn_id) = turn_id))
    (btree_values run.(ActiveRun.tool_batches)).
Definition completed_batch_of_turn (run : ActiveRun) (turn_id : TurnId) : bool :=
  existsb (λ batch, bool_decide (batch.(CompletedToolBatch.turn_id) = turn_id))
    (btree_values run.(ActiveRun.completed_tool_batches)).

Definition queued_tool_calls (turn : TurnState) : bool :=
  bool_decide (turn.(TurnState.status) = TurnStatus.Completed)
  && bool_decide (turn.(TurnState.outcome) = Some TurnOutcome.ToolCallsQueued)
  && match turn.(TurnState.facts) with
     | Some facts => negb (bool_decide (facts.(LlmGenerationFacts.tool_calls) = []))
     | None => false
     end.

Definition has_unstarted_tool_call_turn (run : ActiveRun) : bool :=
  match latest_turn run with
  | None => false
  | Some (turn_id, turn) =>
      queued_tool_calls turn
      && negb (open_batch_of_turn run turn_id)
      && negb (match btree_last run.(ActiveRun.completed_tool_batches) with
               | Some (_, batch) => bool_decide (batch.(CompletedToolBatch.turn_id) = turn_id)
               | None => false
               end)
  end.

(** ** Pruning *)
Definition MAX_RETAINED_TERMINAL_RUNS : nat := 256.
Definition MAX_RETAINED_STEERING_BATCHES : nat := 64.

(** A decided approval stays only while the batch that may read it is open. *)
Definition approval_retained (run : ActiveRun) (record : ApprovalRecord) : bool :=
  negb (ApprovalStatus_is_terminal record.(ApprovalRecord.status))
  || match record.(ApprovalRecord.request).(ApprovalRequested.continuation) with
     | ApprovalContinuation.RuntimeMcp batch_id _ =>
         is_some (run.(ActiveRun.tool_batches) !! batch_id)
     | ApprovalContinuation.ProviderMcp _ => false
     end.
Definition prune_terminal_approvals (run : ActiveRun) : ActiveRun :=
  run <| ActiveRun.approvals ::= btree_retain (λ _ record, approval_retained run record) |>.

(** The [retain] over steering counts down the batches that may go, oldest first. *)
Fixpoint retain_steering (droppable : nat) (steering : list SteeringBatch)
    : list SteeringBatch :=
  match steering with
  | [] => []
  | batch :: steering =>
      let oldest := (0 <? droppable)%nat in
      let rest := retain_steering (droppable - 1) steering in
      if negb oldest || is_none batch.(SteeringBatch.consumed_by_turn_id)
      then batch :: rest else rest
  end.

Definition turn_retained (run : ActiveRun) (turn_id : TurnId) : bool :=
  bool_decide (Some turn_id = (fst <$> latest_turn run)) || open_batch_of_turn run turn_id.

Definition prune_settled_run_records (run : ActiveRun) : ActiveRun :=
  let turns := btree_retain (λ turn_id _, turn_retained run turn_id) run.(ActiveRun.turns) in
  let run := run <| ActiveRun.turns := turns |>
                 <| ActiveRun.completed_tool_batches ::=
                      btree_retain (λ _ batch,
                        is_some (turns !! batch.(CompletedToolBatch.turn_id))) |> in
  let run := prune_terminal_approvals run in
  let droppable := (length run.(ActiveRun.steering) - MAX_RETAINED_STEERING_BATCHES)%nat in
  run <| ActiveRun.steering ::= retain_steering droppable |>.

(** The ids drained from the front, chained with the previous mark, and their
    maximum. *)
Definition option_max (a b : option N) : option N :=
  match a, b with
  | Some a, Some b => Some (N.max a b)
  | Some a, None => Some a
  | None, b => b
  end.
Definition prune_terminal_run_records (runs : RunsState) : RunsState :=
  let excess := (length runs.(RunsState.finished) - MAX_RETAINED_TERMINAL_RUNS)%nat in
  runs <| RunsState.pruned_through :=
            foldr (λ run, option_max (Some run.(RunRecord.run_id))) runs.(RunsState.pruned_through)
              (take excess runs.(RunsState.finished)) |>
       <| RunsState.finished ::= drop excess |>.

Definition RunsState_is_pruned (self : RunsState) (run_id : RunId) : bool :=
  match self.(RunsState.pruned_through) with
  | Some through => (run_id <=? through)%N
  | None => false
  end
  && negb (existsb (λ run, bool_decide (run.(RunRecord.run_id) = run_id)) self.(RunsState.finished))
  && negb (existsb (λ run, bool_decide (run.(AcceptedRun.run_id) = run_id)) self.(RunsState.queued))
  && match self.(RunsState.active) with
     | Some run => bool_decide (run.(ActiveRun.run_id) ≠ run_id)
     | None => true
     end.

(** ** Retried submissions *)
Module SubmissionMatch.
Inductive SubmissionMatch : Type := Identical | Different.
End SubmissionMatch.
Abbreviation SubmissionMatch := SubmissionMatch.SubmissionMatch.

Definition submission_match (identical : bool) : SubmissionMatch :=
  if identical then SubmissionMatch.Identical else SubmissionMatch.Different.

Section submission.
Context `{!Externals}.

(** [iter().find(|run| run.submission_id == Some(submission_id))]. *)
Definition find_submission {A} (id_of : A → option SubmissionId) (submission_id : SubmissionId)
    (runs : list A) : option A :=
  snd <$> list_find (λ run, id_of run = Some submission_id) runs.

Definition match_existing_run_submission (state : CoreAgentState) (submission_id : SubmissionId)
    (source : RunRequestSource) (run_config : RunConfig)
    (notify_on_terminal : list RunTerminalNotifyIntent) : option SubmissionMatch :=
  let runs := state.(CoreAgentState.runs) in
  match find_submission ActiveRun.submission_id submission_id
          (option_list runs.(RunsState.active)) with
  | Some active =>
      Some (submission_match
        (RunSource_matches_request active.(ActiveRun.source) source
         && bool_decide (active.(ActiveRun.run_config) = run_config)
         && bool_decide (active.(ActiveRun.notify_on_terminal) = notify_on_terminal)))
  | None =>
  match find_submission AcceptedRun.submission_id submission_id runs.(RunsState.queued) with
  | Some queued =>
      Some (submission_match
        (RunSource_matches_request queued.(AcceptedRun.source) source
         && bool_decide (queued.(AcceptedRun.run_config) = run_config)
         && bool_decide (queued.(AcceptedRun.notify_on_terminal) = notify_on_terminal)))
  | None =>
  match find_submission RunRecord.submission_id submission_id runs.(RunsState.finished) with
  | Some finished =>
      Some (submission_match (bool_decide (finished.(RunRecord.submission_digest)
        = request_run_submission_digest source run_config notify_on_terminal)))
  | None => None
  end end end.
End submission.
