(* ===== verification/Config.v ===== *)
(** * Session configuration

    The configuration document of a session: what admission validates, what the
    reducer validates when it replays a recorded document, and the queries on
    feature grants ([core/components/config.rs]). *)
From Stdlib Require Import Ascii.
From S2P Require Import Prelude Ids Text Types Events Media Externals RunState.

Abbreviation ProviderCompatibility := DomainError.ProviderCompatibility.

Definition MIN_OPENAI_RESPONSES_COMPACT_THRESHOLD : N := 1000.
Definition MIN_ANTHROPIC_MESSAGES_COMPACT_THRESHOLD : N := 50000.
Definition CURRENT_FEATURE_VERSION : N := 1.
Definition CODE_MODE_TIMEOUT_CEILING_MS : N := 600000.

Definition is_blank (s : string) : bool := bool_decide (trim s = "").
Definition is_zero (o : option N) : bool := bool_decide (o = Some 0%N).
Definition char_in (c : Ascii.ascii) (s : string) : bool := existsb (Ascii.eqb c) (chars s).

(** ** Feature queries *)
(** The declaration order of [EnvironmentAccess], which [Ord] follows. *)
Definition EnvironmentAccess_rank (self : EnvironmentAccess) : N :=
  match self with
  | EnvironmentAccess.Read => 0
  | EnvironmentAccess.Edit => 1
  | EnvironmentAccess.Exec => 2
  | EnvironmentAccess.Jobs => 3
  end.
Definition EnvironmentAccess_max (a b : EnvironmentAccess) : EnvironmentAccess :=
  if (EnvironmentAccess_rank a <=? EnvironmentAccess_rank b)%N then b else a.
Definition EnvironmentAccess_allows_edit (self : EnvironmentAccess) : bool :=
  (EnvironmentAccess_rank EnvironmentAccess.Edit <=? EnvironmentAccess_rank self)%N.
Definition EnvironmentAccess_allows_exec (self : EnvironmentAccess) : bool :=
  (EnvironmentAccess_rank EnvironmentAccess.Exec <=? EnvironmentAccess_rank self)%N.
Definition EnvironmentAccess_allows_jobs (self : EnvironmentAccess) : bool :=
  (EnvironmentAccess_rank EnvironmentAccess.Jobs <=? EnvironmentAccess_rank self)%N.

Definition WorkspaceAccess_max (a b : WorkspaceAccess) : WorkspaceAccess :=
  match a, b with
  | WorkspaceAccess.Read, WorkspaceAccess.Read => WorkspaceAccess.Read
  | _, _ => WorkspaceAccess.Edit
  end.

(** [iter().max()]. *)
Definition max_of {A} (max : A → A → A) (l : list A) : option A :=
  match l with [] => None | x :: l => Some (foldl max x l) end.
Definition VfsFeature_tool_access (self : VfsFeature) : option WorkspaceAccess :=
  max_of WorkspaceAccess_max (WorkspaceAttachment.access <$> self.(VfsFeature.workspaces)).
Definition EnvironmentsFeature_tool_access (self : EnvironmentsFeature)
    : option EnvironmentAccess :=
  max_of EnvironmentAccess_max
    (EnvironmentAttachment.access <$> self.(EnvironmentsFeature.environments)).
Definition EnvironmentsFeature_attachment (self : EnvironmentsFeature) (environment_id : string)
    : option EnvironmentAttachment :=
  snd <$> list_find (λ attachment,
    attachment.(EnvironmentAttachment.environment_id) = environment_id)
    self.(EnvironmentsFeature.environments).
Definition EnvironmentsFeature_default_attachment (self : EnvironmentsFeature)
    : option EnvironmentAttachment :=
  snd <$> list_find (λ attachment, attachment.(EnvironmentAttachment.default) = true)
    self.(EnvironmentsFeature.environments).

Definition SubagentsFeature_agent_allowed (self : SubagentsFeature) (profile_id : string) : bool :=
  existsb (λ agent, bool_decide (agent.(SubagentAgentConfig.profile_id) = profile_id))
    self.(SubagentsFeature.agents).

Definition SubagentLimits_attenuated_by (self outer : SubagentLimits) : SubagentLimits :=
  {| SubagentLimits.max_depth :=
       N.min self.(SubagentLimits.max_depth) outer.(SubagentLimits.max_depth);
     SubagentLimits.max_concurrent :=
       N.min self.(SubagentLimits.max_concurrent) outer.(SubagentLimits.max_concurrent);
     SubagentLimits.run_timeout_ms :=
       match self.(SubagentLimits.run_timeout_ms), outer.(SubagentLimits.run_timeout_ms) with
       | Some inner, Some outer => Some (N.min inner outer)
       | Some inner, None => Some inner
       | None, outer => outer
       end |}.

(** ** Validation of a document *)
Definition validate_feature_version (version : N) : Result DomainError unit :=
  reject_if (negb (version =? CURRENT_FEATURE_VERSION)%N)
    (InvariantViolation "unsupported {} feature version {}; supported: {}").

Definition validate_max_turns (max_turns : option N) : Result DomainError unit :=
  reject_if (is_zero max_turns)
    (InvariantViolation "maxTurns must be at least 1; leave it unset for no limit").

Definition is_openai_api_kind (api_kind : ProviderApiKind) : bool :=
  match api_kind with
  | ProviderApiKind.OpenAiResponses | ProviderApiKind.OpenAiCompletions => true
  | ProviderApiKind.AnthropicMessages => false
  end.

Definition validate_generation (generation : GenerationConfig) (model : ModelSelection)
    : Result DomainError unit :=
  _ ← reject_if (match generation.(GenerationConfig.reasoning_effort) with
                 | Some effort => is_blank effort | None => false end)
        (InvariantViolation "reasoning_effort must be a non-empty string when set");
  reject_if
    (is_some generation.(GenerationConfig.processing_tier)
     && (bool_decide (model.(ModelSelection.provider_id) ≠ "openai")
         || negb (is_openai_api_kind model.(ModelSelection.api_kind))))
    (ProviderCompatibility
       "processing tier is supported only by the built-in openai provider").

Definition validate_openai_responses_compact_threshold (compact_threshold_tokens : option N)
    : Result DomainError unit :=
  reject_if (match compact_threshold_tokens with
             | Some threshold => (threshold <? MIN_OPENAI_RESPONSES_COMPACT_THRESHOLD)%N
             | None => false end)
    (ProviderCompatibility
       "OpenAI Responses compact_threshold_tokens must be at least {} when set").

Definition validate_provider_standalone_compaction
    (compact_threshold_tokens target_tokens : option N) : Result DomainError unit :=
  _ ← reject_if (is_zero compact_threshold_tokens)
        (ProviderCompatibility "provider-standalone compaction compact_threshold_tokens must be greater than 0 when set");
  reject_if (is_zero target_tokens)
    (ProviderCompatibility
       "provider-standalone compaction target_tokens must be greater than 0 when set").

Definition validate_context_config (context : ContextConfig) (api_kind : ProviderApiKind)
    : Result DomainError unit :=
  _ ← reject_if (is_zero context.(ContextConfig.input_limit_tokens))
        (ProviderCompatibility "input_limit_tokens must be positive");
  match context.(ContextConfig.compaction), api_kind with
  | None, _ | Some CompactionPolicy.Disabled, _ => mret tt
  | Some (CompactionPolicy.ProviderTriggered threshold), ProviderApiKind.OpenAiResponses =>
      validate_openai_responses_compact_threshold threshold
  | Some (CompactionPolicy.ProviderTriggered threshold), ProviderApiKind.AnthropicMessages =>
      reject_if (match threshold with
                 | Some threshold => (threshold <? MIN_ANTHROPIC_MESSAGES_COMPACT_THRESHOLD)%N
                 | None => false end)
        (ProviderCompatibility
           "Anthropic Messages compact_threshold_tokens must be at least {} when set")
  | Some (CompactionPolicy.ProviderStandalone threshold target), _ =>
      validate_provider_standalone_compaction threshold target
  | Some (CompactionPolicy.ProviderTriggered _), ProviderApiKind.OpenAiCompletions =>
      mthrow (ProviderCompatibility "provider-triggered compaction requires OpenAI Responses or Anthropic Messages api kind, got {:?}")
  end.

Definition validate_subagents_feature (subagents : SubagentsFeature) : Result DomainError unit :=
  _ ← reject_if (bool_decide (subagents.(SubagentsFeature.agents) = []))
        (InvariantViolation "subagents feature must list at least one agent profile");
  _ ← for_each_fresh SubagentAgentConfig.profile_id
        (InvariantViolation "subagents agent profile id is listed twice: {}")
        (λ agent, reject_if (is_blank agent.(SubagentAgentConfig.profile_id))
           (InvariantViolation "subagents agent profile id must be non-empty"))
        no_check [] subagents.(SubagentsFeature.agents);
  let limits := subagents.(SubagentsFeature.limits) in
  _ ← reject_if (bool_decide (limits.(SubagentLimits.max_depth) = 0%N)
                 || bool_decide (limits.(SubagentLimits.max_concurrent) = 0%N))
        (InvariantViolation "subagents limits maxDepth and maxConcurrent must be at least 1");
  reject_if (is_zero limits.(SubagentLimits.run_timeout_ms))
    (InvariantViolation "subagents runTimeoutMs must be at least 1 when set").

(** [/...] or a drive such as [C:/...] or [C:\...]. *)
Definition is_absolute_directory (cwd : string) : bool :=
  starts_with "/" cwd
  || match chars cwd with
     | drive :: colon :: slash :: _ =>
         (is_ascii_lowercase drive || is_ascii_uppercase drive)
         && Ascii.eqb colon ":"%char
         && (Ascii.eqb slash "/"%char || Ascii.eqb slash "\"%char)
     | _ => false
     end.

Definition validate_environment_attachments (attachments : list EnvironmentAttachment)
    : Result DomainError unit :=
  _ ← for_each_fresh EnvironmentAttachment.environment_id
        (InvariantViolation "environment {} is attached more than once")
        (λ attachment, map_err (λ _, InvariantViolation "invalid environment attachment: {error}")
           (validate_general_string_id "EnvironmentId"
              attachment.(EnvironmentAttachment.environment_id)))
        (λ attachment,
           reject_if (match attachment.(EnvironmentAttachment.working_directory) with
                      | Some cwd => negb (is_absolute_directory cwd) || char_in "000"%char cwd
                      | None => false end)
             (InvariantViolation "environment {} working directory must be absolute"))
        [] attachments;
  reject_if (1 <? length (filter (λ attachment,
               attachment.(EnvironmentAttachment.default) = true) attachments))%nat
    (InvariantViolation "at most one environment attachment may be the default").

Definition canonical_workspace_attachment_path (path : string) : Result DomainError string :=
  _ ← reject_if (bool_decide (path = "") || negb (starts_with "/" path))
        (InvariantViolation "workspace attachment path {path:?} must be absolute");
  _ ← reject_if ((1 <? String.length path)%nat && is_some (strip_suffix "/" path))
        (InvariantViolation "workspace attachment path {path:?} must be canonical");
  _ ← reject_if
        (existsb (λ part, bool_decide (part = "") || bool_decide (part = ".")
                          || bool_decide (part = "..") || char_in "000"%char part)
           (drop 1 (split "/"%char path)))
        (InvariantViolation "workspace attachment path {path:?} must be canonical");
  mret path.

Definition paths_overlap (existing path : string) : bool :=
  bool_decide (existing = path) || bool_decide (existing = "/") || bool_decide (path = "/")
  || starts_with (path +:+ "/") existing || starts_with (existing +:+ "/") path.

(** The loop carries the paths it has accepted. *)
Fixpoint validate_workspace_attachments_from (paths : list string)
    (attachments : list WorkspaceAttachment) : Result DomainError (list string) :=
  match attachments with
  | [] => mret paths
  | attachment :: attachments =>
      path ← canonical_workspace_attachment_path attachment.(WorkspaceAttachment.path);
      _ ← reject_if (existsb (λ existing, paths_overlap existing path) paths)
            (InvariantViolation
               "workspace attachment path {path:?} overlaps another workspace attachment");
      _ ← match attachment.(WorkspaceAttachment.target) with
          | WorkspaceAttachmentTarget.Workspace workspace_id =>
              reject_if (is_blank workspace_id)
                (InvariantViolation "workspace attachment workspace_id must not be empty")
          | WorkspaceAttachmentTarget.Snapshot _ =>
              reject_if (bool_decide (attachment.(WorkspaceAttachment.access)
                                        ≠ WorkspaceAccess.Read))
                (InvariantViolation "snapshot workspace attachment at {path:?} must be read")
          end;
      validate_workspace_attachments_from (paths ++ [path]) attachments
  end.
Definition validate_workspace_attachments (attachments : list WorkspaceAttachment)
    : Result DomainError (list string) :=
  validate_workspace_attachments_from [] attachments.

Definition path_under (attachment_path root : string) : bool :=
  bool_decide (root = attachment_path) || bool_decide (attachment_path = "/")
  || starts_with (attachment_path +:+ "/") root.

Definition validate_source_roots (roots : option (list string)) (attachment_paths : list string)
    : Result DomainError unit :=
  match roots with
  | None => mret tt
  | Some roots =>
      _ ← reject_if (bool_decide (roots = []))
            (InvariantViolation
               "explicit {} roots must be non-empty; omit the sourcing block to disable it");
      for_each_fresh id
        (InvariantViolation "{feature} root {root:?} is declared more than once")
        (λ root, _ ← canonical_workspace_attachment_path root; mret tt)
        (λ root, reject_if
           (negb (existsb (λ attachment_path, path_under attachment_path root) attachment_paths))
           (InvariantViolation "{feature} root {root:?} is not under a workspace attachment"))
        [] roots
  end.

Definition validate_web_feature (web : WebFeature) (api_kind : ProviderApiKind)
    : Result DomainError unit :=
  _ ← reject_if (is_none web.(WebFeature.fetch) && is_none web.(WebFeature.search))
        (InvariantViolation
           "web feature grants neither fetch nor search; omit the feature instead");
  match web.(WebFeature.search) with
  | None => mret tt
  | Some search =>
      _ ← reject_if (match api_kind with
                     | ProviderApiKind.OpenAiResponses | ProviderApiKind.AnthropicMessages => false
                     | ProviderApiKind.OpenAiCompletions => true end)
            (ProviderCompatibility "web search requires OpenAI Responses or Anthropic Messages api kind, got {:?}");
      _ ← match search.(WebSearchFeature.allowed_domains) with
          | None => mret tt
          | Some allowed =>
              _ ← reject_if (bool_decide (allowed = []))
                    (InvariantViolation "explicit web search allowed_domains must be non-empty; omit for all domains");
              reject_if (existsb is_blank allowed)
                (InvariantViolation "web search allowed_domains must not contain empty entries")
          end;
      _ ← reject_if (existsb is_blank search.(WebSearchFeature.blocked_domains))
            (InvariantViolation "web search blocked_domains must not contain empty entries");
      reject_if
        (bool_decide (api_kind = ProviderApiKind.AnthropicMessages)
         && is_some search.(WebSearchFeature.allowed_domains)
         && negb (bool_decide (search.(WebSearchFeature.blocked_domains) = [])))
        (ProviderCompatibility
           "Anthropic web search accepts allowedDomains or blockedDomains, not both")
  end.

Definition validate_mcp_feature (mcp : McpFeature) : Result DomainError unit :=
  for_each_fresh McpServerAttachment.server_id
    (InvariantViolation "mcp server {} is attached more than once")
    (λ attachment, reject_if (is_blank attachment.(McpServerAttachment.server_id))
       (InvariantViolation "mcp server attachment requires a non-empty server_id"))
    (λ attachment,
       match attachment.(McpServerAttachment.tools) with
       | None => mret tt
       | Some tools =>
           _ ← reject_if (bool_decide (tools = []))
                 (InvariantViolation "mcp server {} tools subset must be non-empty; omit it to expose the record's allowlist");
           for_each_fresh id (InvariantViolation "mcp server {} tools subset lists {tool} twice")
             (λ tool, reject_if (is_blank tool)
                (InvariantViolation "mcp server {} tools subset contains an empty tool name"))
             no_check [] tools
       end)
    [] mcp.(McpFeature.servers).

(** The budgets with their ceilings, in the order they are checked. *)
Definition code_mode_budgets (self : CodeModeLimits) : list (N * N) :=
  [(self.(CodeModeLimits.timeout_ms), CODE_MODE_TIMEOUT_CEILING_MS);
   (self.(CodeModeLimits.max_memory_bytes), 512 * 1024 * 1024);
   (self.(CodeModeLimits.max_stack_bytes), 8 * 1024 * 1024);
   (self.(CodeModeLimits.max_source_bytes), 1024 * 1024);
   (self.(CodeModeLimits.max_catalog_bytes), 8 * 1024 * 1024);
   (self.(CodeModeLimits.max_request_bytes), 8 * 1024 * 1024);
   (self.(CodeModeLimits.max_result_bytes), 8 * 1024 * 1024);
   (self.(CodeModeLimits.max_output_bytes), 8 * 1024 * 1024);
   (self.(CodeModeLimits.max_tool_calls), 1024);
   (self.(CodeModeLimits.max_outstanding_tool_calls), 64)]%N.
Definition CodeModeLimits_validate (self : CodeModeLimits) : Result DomainError unit :=
  _ ← for_each (λ '(value, ceiling),
        reject_if ((value =? 0)%N || (ceiling <? value)%N)
          (InvariantViolation "code mode {name} must be between 1 and {ceiling}"))
        (code_mode_budgets self);
  reject_if (self.(CodeModeLimits.max_tool_calls)
               <? self.(CodeModeLimits.max_outstanding_tool_calls))%N
    (InvariantViolation "code mode outstanding calls cannot exceed total calls").

(** [any] stops at the first name that is invalid or was seen before. *)
Definition CodeModeFeature_validate (self : CodeModeFeature) : Result DomainError unit :=
  let message := InvariantViolation "code mode allowed tools must contain at most 4096 unique valid logical tool ids" in
  _ ← validate_feature_version self.(CodeModeFeature.version);
  _ ← CodeModeLimits_validate self.(CodeModeFeature.limits);
  match self.(CodeModeFeature.allowed_tools) with
  | None => mret tt
  | Some allowed =>
      reject_if
        ((4096 <? length allowed)%nat
         || is_err (for_each_fresh id message
              (λ name, map_err (λ _, message) (validate_tool_name "ToolName" name))
              no_check [] allowed))
        message
  end.

Definition validate_environment_roots (roots : list string) : Result DomainError unit :=
  reject_if (bool_decide (roots = [])
             || existsb (λ root, is_blank root || char_in "000"%char root) roots)
    (InvariantViolation "environment source root overrides must be nonempty paths").

(** [if let Some(x) = &o { f(x)? }]. *)
Definition when_some {A} (o : option A) (f : A → Result DomainError unit)
    : Result DomainError unit :=
  match o with Some a => f a | None => mret tt end.

Definition validate_vfs_feature (vfs : VfsFeature) : Result DomainError unit :=
  _ ← validate_feature_version vfs.(VfsFeature.version);
  attachment_paths ← validate_workspace_attachments vfs.(VfsFeature.workspaces);
  _ ← when_some vfs.(VfsFeature.working_directory) (λ cwd,
        if bool_decide (cwd = "/") then mret tt
        else validate_source_roots (Some [cwd]) attachment_paths);
  _ ← when_some vfs.(VfsFeature.prompts) (λ prompts,
        validate_source_roots prompts.(VfsPromptsConfig.roots) attachment_paths);
  when_some vfs.(VfsFeature.skills) (λ skills,
    validate_source_roots skills.(VfsSkillsConfig.roots) attachment_paths).

Definition validate_environments_feature (environments : EnvironmentsFeature)
    : Result DomainError unit :=
  _ ← validate_feature_version environments.(EnvironmentsFeature.version);
  _ ← validate_environment_attachments environments.(EnvironmentsFeature.environments);
  _ ← when_some (environments.(EnvironmentsFeature.skills) ≫= EnvironmentSkillsConfig.roots)
        validate_environment_roots;
  when_some (environments.(EnvironmentsFeature.prompts) ≫= EnvironmentPromptsConfig.roots)
    validate_environment_roots.

Definition validate_features (features : FeaturesConfig) (api_kind : ProviderApiKind)
    : Result DomainError unit :=
  _ ← when_some features.(FeaturesConfig.vfs) validate_vfs_feature;
  _ ← when_some features.(FeaturesConfig.web) (λ web,
        _ ← validate_feature_version web.(WebFeature.version);
        validate_web_feature web api_kind);
  _ ← when_some features.(FeaturesConfig.subagents) (λ subagents,
        _ ← validate_feature_version subagents.(SubagentsFeature.version);
        validate_subagents_feature subagents);
  _ ← when_some features.(FeaturesConfig.code_mode) CodeModeFeature_validate;
  _ ← when_some features.(FeaturesConfig.timers) (λ timers,
        validate_feature_version timers.(TimersFeature.version));
  _ ← when_some features.(FeaturesConfig.environments) validate_environments_feature;
  when_some features.(FeaturesConfig.mcp) (λ mcp,
    _ ← validate_feature_version mcp.(McpFeature.version);
    validate_mcp_feature mcp).

Definition SessionConfig_validate (self : SessionConfig) : Result DomainError unit :=
  _ ← validate_max_turns self.(SessionConfig.limits).(LimitsConfig.max_turns);
  _ ← validate_generation self.(SessionConfig.generation) self.(SessionConfig.model);
  let api_kind := self.(SessionConfig.model).(ModelSelection.api_kind) in
  _ ← validate_context_config self.(SessionConfig.context) api_kind;
  validate_features self.(SessionConfig.features) api_kind.

(** ** Validation against the session *)
Definition current_config (state : CoreAgentState) : Result DomainError SessionConfig :=
  ok_or state.(CoreAgentState.lifecycle).(LifecycleState.config)
    (InvariantViolation "open session is missing config").

Definition validate_session_is_idle_for_config_update (state : CoreAgentState)
    : Result DomainError unit :=
  reject_if (is_some state.(CoreAgentState.runs).(RunsState.active)
             || negb (bool_decide (state.(CoreAgentState.runs).(RunsState.queued) = [])))
    (InvariantViolation "session config can only change while no run is active or queued").

Definition validate_session_provider_is_pinned (pinned proposed : ModelSelection)
    : Result DomainError unit :=
  _ ← reject_if (bool_decide (proposed.(ModelSelection.provider_id)
                                ≠ pinned.(ModelSelection.provider_id)))
        (ProviderCompatibility "session provider is pinned to {}, got {}; create a new session for another provider");
  reject_if (bool_decide (proposed.(ModelSelection.api_kind) ≠ pinned.(ModelSelection.api_kind)))
    (ProviderCompatibility "session provider api kind is pinned to {:?}, got {:?}").

Definition validate_recorded_config_update (state : CoreAgentState) (config : SessionConfig)
    : Result DomainError unit :=
  current ← current_config state;
  _ ← validate_session_is_idle_for_config_update state;
  validate_session_provider_is_pinned current.(SessionConfig.model) config.(SessionConfig.model).

Definition validate_config_update_for_state (state : CoreAgentState) (config : SessionConfig)
    : Result DomainError unit :=
  _ ← validate_recorded_config_update state config;
  SessionConfig_validate config.

Definition RunConfig_validate_provider_compatibility (self : RunConfig)
    (session_model : ModelSelection) : Result DomainError unit :=
  _ ← when_some self.(RunConfig.model_override)
        (validate_session_provider_is_pinned session_model);
  _ ← reject_if (is_some self.(RunConfig.processing_tier)
                 && negb (is_openai_api_kind session_model.(ModelSelection.api_kind)))
        (ProviderCompatibility "processing tier requires an OpenAI API kind");
  reject_if
    (is_some self.(RunConfig.processing_tier)
     && match self.(RunConfig.model_override) with
        | Some model => bool_decide (model.(ModelSelection.provider_id) ≠ "openai")
        | None => false end)
    (ProviderCompatibility
       "processing tier is supported only by the built-in openai provider").

Definition validate_recorded_run_config (state : CoreAgentState) (run_config : RunConfig)
    : Result DomainError unit :=
  config ← current_config state;
  when_some run_config.(RunConfig.model_override)
    (validate_session_provider_is_pinned config.(SessionConfig.model)).

Definition validate_tool_choice_for_tools (tools : gmap ToolId ToolSpec)
    (tool_choice : option ToolChoice) : Result DomainError unit :=
  match tool_choice with
  | Some (ToolChoice.Specific tool_id) =>
      reject_if (is_none (tools !! tool_id))
        (InvariantViolation "tool_choice references missing active tool {}")
  | _ => mret tt
  end.
