(* ===== verification/Promises.v ===== *)
(** * Promises

    The promise component ([core/components/promise.rs]): creation, the terminal
    events, detaching, the bounded record of settled promises, what a terminal
    promise means for a call that waits on it, and the effects tool executors
    attach to their results to create, cancel and detach promises. *)
From S2P Require Import Prelude Ids Text Types Events Media Externals RunState.

Definition MAX_RETAINED_TERMINAL_PROMISES : nat := 256.

(** ** State *)
Definition PromiseComponentState_pending (self : PromiseComponentState) : list Promise :=
  filter (λ promise, promise.(Promise.status) = PromiseStatus.Pending)
    (btree_values self.(PromiseComponentState.promises)).
Definition PromiseComponentState_pending_for_run (self : PromiseComponentState)
    (run_id : RunId) : list Promise :=
  filter (λ promise, promise.(Promise.scope) = PromiseScope.Run run_id)
    (PromiseComponentState_pending self).

(** ** Reducer *)
Definition pending_promise_ref (state : CoreAgentState) (promise_id : PromiseId)
    : Result DomainError Promise :=
  promise ← ok_or (state.(CoreAgentState.promises).(PromiseComponentState.promises) !! promise_id)
              (InvariantViolation "unknown promise {}");
  _ ← reject_if (PromiseStatus_is_terminal promise.(Promise.status))
        (InvariantViolation "promise {} is already terminal");
  mret promise.
Definition pending_promise_mut (promise_id : PromiseId) : CoreReducer Promise :=
  checking (λ state, pending_promise_ref state promise_id).

Definition put_promise (promise_id : PromiseId) (promise : Promise) (state : CoreAgentState)
    : CoreAgentState :=
  state <| CoreAgentState.promises ::= λ promises,
    promises <| PromiseComponentState.promises ::= <[promise_id := promise]> |> |>.
Definition push_settled (promise_id : PromiseId) (state : CoreAgentState) : CoreAgentState :=
  state <| CoreAgentState.promises ::= λ promises,
    promises <| PromiseComponentState.settled ::= λ settled, settled ++ [promise_id] |> |>.
Definition advance_promise_cursor (number : N) (state : CoreAgentState) : CoreAgentState :=
  state <| CoreAgentState.id_cursors ::= λ cursors,
    cursors <| IdCursors.last_promise_id ::= N.max number |> |>.

Definition owned_by_active (state : CoreAgentState) (run_id : RunId) : bool :=
  match state.(CoreAgentState.runs).(RunsState.active) with
  | Some active => bool_decide (active.(ActiveRun.run_id) = run_id)
  | None => false
  end.

Definition apply_promise_event (event : PromiseEvent) : CoreReducer unit :=
  match event with
  | PromiseEvent.Created promise =>
      let promise_id := promise.(Promise.promise_id) in
      _ ← reject_if (bool_decide (promise.(Promise.status) ≠ PromiseStatus.Pending))
            (InvariantViolation "promises are created pending");
      state ← get_state;
      _ ← reject_if (is_some (state.(CoreAgentState.promises).(PromiseComponentState.promises)
                                !! promise_id))
            (InvariantViolation "duplicate promise id {}");
      _ ← match promise.(Promise.scope) with
          | PromiseScope.Run run_id =>
              reject_if (negb (owned_by_active state run_id))
                (InvariantViolation "promise {} is scoped to run {} which is not active")
          | PromiseScope.Session => mret tt
          end;
      _ ← modify_state (advance_promise_cursor promise_id);
      modify_state (put_promise promise_id promise)
  | PromiseEvent.Resolved promise_id payload_ref =>
      promise ← pending_promise_mut promise_id;
      _ ← modify_state (put_promise promise_id
            (promise <| Promise.status := PromiseStatus.Resolved |>
                     <| Promise.payload_ref := payload_ref |>));
      modify_state (push_settled promise_id)
  | PromiseEvent.Failed promise_id error_ref =>
      promise ← pending_promise_mut promise_id;
      _ ← modify_state (put_promise promise_id
            (promise <| Promise.status := PromiseStatus.Failed |>
                     <| Promise.error_ref := error_ref |>));
      modify_state (push_settled promise_id)
  | PromiseEvent.Cancelled promise_id =>
      promise ← pending_promise_mut promise_id;
      _ ← modify_state (put_promise promise_id
            (promise <| Promise.status := PromiseStatus.Cancelled |>));
      modify_state (push_settled promise_id)
  | PromiseEvent.Detached promise_id =>
      promise ← pending_promise_mut promise_id;
      modify_state (put_promise promise_id
        (promise <| Promise.scope := PromiseScope.Session |>))
  end.

(** ** Pruning *)
Definition prune_promises (self : PromiseComponentState) : PromiseComponentState :=
  let excess := (length self.(PromiseComponentState.settled)
                 - MAX_RETAINED_TERMINAL_PROMISES)%nat in
  self <| PromiseComponentState.promises ::= λ promises,
            foldl (λ promises promise_id, delete promise_id promises) promises
              (take excess self.(PromiseComponentState.settled)) |>
       <| PromiseComponentState.settled ::= drop excess |>.
Definition prune_terminal_promises (state : CoreAgentState) : CoreAgentState :=
  state <| CoreAgentState.promises ::= prune_promises |>.

Definition promise_was_pruned (state : CoreAgentState) (promise_id : PromiseId) : bool :=
  (promise_id <=? state.(CoreAgentState.id_cursors).(IdCursors.last_promise_id))%N
  && is_none (state.(CoreAgentState.promises).(PromiseComponentState.promises) !! promise_id).

(** ** Calls that wait on a promise *)
Module JoinedCallOutcome.
Record JoinedCallOutcome : Type := {
  status : ToolCallStatus;
  output_ref : option BlobRef;
  error_ref : option BlobRef;
  content_ref : BlobRef;
}.
End JoinedCallOutcome.
Abbreviation JoinedCallOutcome := JoinedCallOutcome.JoinedCallOutcome.

Section joined.
Context `{!Externals}.

Definition joined_call_failed (status : ToolCallStatus) (error_ref : BlobRef)
    : JoinedCallOutcome :=
  {| JoinedCallOutcome.status := status;
     JoinedCallOutcome.output_ref := None;
     JoinedCallOutcome.error_ref := Some error_ref;
     JoinedCallOutcome.content_ref := error_ref |}.

Definition joined_call_outcome (promise : Promise) (cancel_pending : bool)
    : option JoinedCallOutcome :=
  match promise.(Promise.status) with
  | PromiseStatus.Resolved =>
      Some {| JoinedCallOutcome.status := ToolCallStatus.Succeeded;
              JoinedCallOutcome.output_ref := promise.(Promise.payload_ref);
              JoinedCallOutcome.error_ref := None;
              JoinedCallOutcome.content_ref :=
                default empty_success_ref promise.(Promise.payload_ref) |}
  | PromiseStatus.Failed =>
      Some (joined_call_failed ToolCallStatus.Failed
              (default failed_without_detail_ref promise.(Promise.error_ref)))
  | PromiseStatus.Cancelled =>
      if negb cancel_pending
      then Some (joined_call_failed ToolCallStatus.Cancelled receiver_cancelled_ref)
      else Some (joined_call_failed ToolCallStatus.Cancelled cancelled_tool_result_ref)
  | PromiseStatus.Pending =>
      if cancel_pending
      then Some (joined_call_failed ToolCallStatus.Cancelled cancelled_tool_result_ref)
      else None
  end.
End joined.

(** ** Effects *)
Definition PROMISE_CREATE_EFFECT_KIND : string := "lightspeed.core.promise.create".
Definition PROMISE_CANCEL_EFFECT_KIND : string := "lightspeed.core.promise.cancel".
Definition PROMISE_DETACH_EFFECT_KIND : string := "lightspeed.core.promise.detach".
Definition PROMISE_EFFECT_ID : string := "promise_id".
Definition PROMISE_EFFECT_SOURCE : string := "source".
Definition PROMISE_EFFECT_FIRE_AT_MS : string := "fire_at_ms".
Definition PROMISE_EFFECT_DEADLINE_AT_MS : string := "deadline_at_ms".
Definition PROMISE_EFFECT_SOURCE_TIMER : string := "timer".
Definition PROMISE_EFFECT_SOURCE_WORKFLOW : string := "workflow".
Definition PROMISE_EFFECT_PRODUCER_WORKFLOW_ID : string := "producer_workflow_id".
Definition PROMISE_EFFECT_PRODUCER_WORKFLOW_KIND : string := "producer_workflow_kind".
Definition PROMISE_EFFECT_INVOCATION_ID : string := "invocation_id".
Definition PROMISE_EFFECT_COMPLETION_KEY : string := "completion_key".

Definition effect_with (kind : string) (data : gmap string string) : ToolEffect :=
  {| ToolEffect.kind := kind; ToolEffect.data := data; ToolEffect.refs := ∅ |}.

(** The inserts in the order the source makes them. *)
Definition promise_source_fields (source : PromiseSource) (data : gmap string string)
    : gmap string string :=
  match source with
  | PromiseSource.Timer fire_at_ms =>
      <[PROMISE_EFFECT_FIRE_AT_MS := u64_to_string fire_at_ms]>
        (<[PROMISE_EFFECT_SOURCE := PROMISE_EFFECT_SOURCE_TIMER]> data)
  | PromiseSource.Workflow producer_workflow_id producer_workflow_kind invocation_id
      completion_key =>
      <[PROMISE_EFFECT_COMPLETION_KEY := completion_key]>
        (<[PROMISE_EFFECT_INVOCATION_ID := invocation_id]>
          (<[PROMISE_EFFECT_PRODUCER_WORKFLOW_KIND := producer_workflow_kind]>
            (<[PROMISE_EFFECT_PRODUCER_WORKFLOW_ID := producer_workflow_id]>
              (<[PROMISE_EFFECT_SOURCE := PROMISE_EFFECT_SOURCE_WORKFLOW]> data))))
  end.
Definition promise_create_effect (promise_id : PromiseId) (source : PromiseSource)
    (deadline_at_ms : option N) : ToolEffect :=
  let data := promise_source_fields source
                {[PROMISE_EFFECT_ID := PromiseId_from_number promise_id]} in
  effect_with PROMISE_CREATE_EFFECT_KIND
    match deadline_at_ms with
    | Some deadline => <[PROMISE_EFFECT_DEADLINE_AT_MS := u64_to_string deadline]> data
    | None => data
    end.
Definition promise_cancel_effect (promise_id : PromiseId) : ToolEffect :=
  effect_with PROMISE_CANCEL_EFFECT_KIND
    {[PROMISE_EFFECT_ID := PromiseId_from_number promise_id]}.
Definition promise_detach_effect (promise_id : PromiseId) : ToolEffect :=
  effect_with PROMISE_DETACH_EFFECT_KIND
    {[PROMISE_EFFECT_ID := PromiseId_from_number promise_id]}.

(** [PromiseId::try_new]; the id is carried as its number. *)
Definition PromiseId_try_new (value : string) (message : string) : Result DomainError PromiseId :=
  ok_or (parse_promise_number value) (InvariantViolation message).

Definition create_effect_field (effect : ToolEffect) (key : string) : Result DomainError string :=
  ok_or (effect.(ToolEffect.data) !! key)
    (InvariantViolation "promise create effect is missing `{key}`").
Definition create_effect_u64 (value : string) : Result DomainError N :=
  ok_or (parse_u64 value) (InvariantViolation "promise create effect `{key}` is not a u64").

(** [Option<T>::map(f).transpose()]. *)
Definition transpose_map {A B E} (f : A → Result E B) (o : option A) : Result E (option B) :=
  match o with
  | Some a => b ← f a; mret (Some b)
  | None => mret None
  end.

Definition promise_from_create_effect (effect : ToolEffect) (run_id : RunId)
    : Result DomainError (option Promise) :=
  if bool_decide (effect.(ToolEffect.kind) ≠ PROMISE_CREATE_EFFECT_KIND) then mret None else
  id ← create_effect_field effect PROMISE_EFFECT_ID;
  promise_id ← PromiseId_try_new id "promise create effect has an invalid id: {error}";
  source_kind ← create_effect_field effect PROMISE_EFFECT_SOURCE;
  source ←
    (if bool_decide (source_kind = PROMISE_EFFECT_SOURCE_TIMER) then
       fire_at ← create_effect_field effect PROMISE_EFFECT_FIRE_AT_MS;
       fire_at_ms ← create_effect_u64 fire_at;
       mret (PromiseSource.Timer fire_at_ms)
     else if bool_decide (source_kind = PROMISE_EFFECT_SOURCE_WORKFLOW) then
       mthrow (InvariantViolation "workflow-source promises are created by workflow-tool invocation effects, not generic promise-create effects")
     else mthrow (InvariantViolation "unknown promise source kind `{other}`"));
  deadline_at_ms ← transpose_map create_effect_u64
                     (effect.(ToolEffect.data) !! PROMISE_EFFECT_DEADLINE_AT_MS);
  mret (Some {| Promise.promise_id := promise_id;
                Promise.source := source;
                Promise.scope := PromiseScope.Run run_id;
                Promise.ownership := PromiseOwnership.Model;
                Promise.status := PromiseStatus.Pending;
                Promise.payload_ref := None;
                Promise.error_ref := None;
                Promise.deadline_at_ms := deadline_at_ms |}).

Definition promise_id_from_cancel_effect (effect : ToolEffect)
    : Result DomainError (option PromiseId) :=
  if bool_decide (effect.(ToolEffect.kind) ≠ PROMISE_CANCEL_EFFECT_KIND) then mret None else
  id ← ok_or (effect.(ToolEffect.data) !! PROMISE_EFFECT_ID)
         (InvariantViolation "promise cancel effect is missing `promise_id`");
  promise_id ← PromiseId_try_new id "promise cancel effect has an invalid id: {error}";
  mret (Some promise_id).
Definition promise_id_from_detach_effect (effect : ToolEffect)
    : Result DomainError (option PromiseId) :=
  if bool_decide (effect.(ToolEffect.kind) ≠ PROMISE_DETACH_EFFECT_KIND) then mret None else
  id ← ok_or (effect.(ToolEffect.data) !! PROMISE_EFFECT_ID)
         (InvariantViolation "promise detach effect is missing `promise_id`");
  promise_id ← PromiseId_try_new id "promise detach effect has an invalid id: {error}";
  mret (Some promise_id).
