(* ===== verification/Contexts.v ===== *)
(** * Token usage

    Accumulating provider usage over the generations and compactions of a run
    ([accumulate_usage] of [core/components/turn.rs]). *)
From Stdlib Require Import Ascii.
From S2P Require Import Prelude Ids Text Types Events Media Externals RunState.

Definition empty_usage : LlmUsage :=
  {| LlmUsage.input_tokens := None; LlmUsage.output_tokens := None;
     LlmUsage.reasoning_tokens := None; LlmUsage.total_tokens := None;
     LlmUsage.cached_input_tokens := None; LlmUsage.cache_write_input_tokens := None;
     LlmUsage.cache_miss_input_tokens := None |}.

Definition add_tokens (target value : option N) : option N :=
  match value with
  | Some value => Some (saturating_add_u32 (default 0%N target) value)
  | None => target
  end.

Definition accumulate_usage (total : option LlmUsage) (usage : LlmUsage) : option LlmUsage :=
  let total := default empty_usage total in
  Some {| LlmUsage.input_tokens :=
            add_tokens total.(LlmUsage.input_tokens) usage.(LlmUsage.input_tokens);
          LlmUsage.output_tokens :=
            add_tokens total.(LlmUsage.output_tokens) usage.(LlmUsage.output_tokens);
          LlmUsage.reasoning_tokens :=
            add_tokens total.(LlmUsage.reasoning_tokens) usage.(LlmUsage.reasoning_tokens);
          LlmUsage.total_tokens :=
            add_tokens total.(LlmUsage.total_tokens) usage.(LlmUsage.total_tokens);
          LlmUsage.cached_input_tokens :=
            add_tokens total.(LlmUsage.cached_input_tokens) usage.(LlmUsage.cached_input_tokens);
          LlmUsage.cache_write_input_tokens :=
            add_tokens total.(LlmUsage.cache_write_input_tokens)
              usage.(LlmUsage.cache_write_input_tokens);
          LlmUsage.cache_miss_input_tokens :=
            add_tokens total.(LlmUsage.cache_miss_input_tokens)
              usage.(LlmUsage.cache_miss_input_tokens) |}.

(** * Active context

    The entries the next model request is rendered from: looking them up, the order
    they are rendered in and token estimates ([core/components/context.rs]). *)

Definition SUPERSEDED_CATALOG_CAP : nat := 5.
Definition ENTRY_COUNT_COMPACTION_TRIGGER : nat := 1500.
Definition ENTRY_GUARD_LIMIT : nat := 2000.
Definition STANDALONE_COMPACTION_SOURCE : string := "standalone_compaction_prefix".
Definition MAX_CONTEXT_RECOVERY_ATTEMPTS : N := 2.

(** ** Looking entries up *)
Definition context_entries (state : CoreAgentState) : list ContextEntry :=
  state.(CoreAgentState.context).(ContextState.entries).

Definition is_pending (self : ContextCompactionState) : bool :=
  match self.(ContextCompactionState.phase) with
  | ContextCompactionPhase.Pending _ => true
  | _ => false
  end.
Definition is_queued (self : ContextCompactionState) : bool :=
  match self.(ContextCompactionState.phase) with
  | ContextCompactionPhase.QueuedManual => true
  | _ => false
  end.
Definition pending_plan (self : ContextCompactionState) : option ContextCompactionPlan :=
  match self.(ContextCompactionState.phase) with
  | ContextCompactionPhase.Pending plan => Some plan
  | _ => None
  end.

Definition is_standalone_prefix (entry : ContextEntry) : bool :=
  match entry.(ContextEntry.source) with
  | ContextEntrySource.Runtime label => bool_decide (label = STANDALONE_COMPACTION_SOURCE)
  | _ => false
  end.
Definition is_supersedable_catalog_kind (kind : ContextEntryKind) : bool :=
  match kind with ContextEntryKind.Catalog _ => true | _ => false end.
Definition is_replaceable (kind : ContextEntryKind) : bool :=
  match kind with
  | ContextEntryKind.ToolResult _ _ => true
  | ContextEntryKind.Message ContextMessageRole.User => true
  | _ => false
  end.
Definition is_instructions (entry : ContextEntry) : bool :=
  match entry.(ContextEntry.kind) with ContextEntryKind.Instructions => true | _ => false end.

Definition find_entry (entries : list ContextEntry) (entry_id : ContextEntryId)
    : option ContextEntry :=
  snd <$> list_find (λ entry, entry.(ContextEntry.entry_id) = entry_id) entries.
Definition entry_by_id (state : CoreAgentState) (entry_id : ContextEntryId)
    : option ContextEntry :=
  find_entry (context_entries state) entry_id.

(** The newest entry of a key; superseded catalog versions share it. *)
Definition current_key_entry (state : CoreAgentState) (key : ContextEntryKey)
    : option ContextEntry :=
  snd <$> list_find (λ entry, entry.(ContextEntry.key) = Some key)
            (rev (context_entries state)).

Definition is_superseded_context_entry (state : CoreAgentState) (entry_id : ContextEntryId)
    : bool :=
  existsb (λ entry, bool_decide (entry.(ContextEntry.supersedes) = Some entry_id))
    (context_entries state).

Definition is_compactable_entry (state : CoreAgentState) (entry : ContextEntry) : bool :=
  match entry.(ContextEntry.kind) with
  | ContextEntryKind.Instructions => false
  | ContextEntryKind.Catalog _ =>
      is_superseded_context_entry state entry.(ContextEntry.entry_id)
  | _ => true
  end.

(** The suffix test behind key prefixes: the key itself, or the key and a dot. *)
Definition context_key_starts_with (key key_prefix : ContextEntryKey) : bool :=
  bool_decide (key = key_prefix)
  || match strip_prefix key_prefix key with
     | Some suffix => starts_with "." suffix
     | None => false
     end.
Definition entry_key_starts_with (key_prefix : ContextEntryKey) (entry : ContextEntry) : bool :=
  match entry.(ContextEntry.key) with
  | Some key => context_key_starts_with key key_prefix
  | None => false
  end.
Definition has_active_key_with_prefix (state : CoreAgentState) (key_prefix : ContextEntryKey)
    : bool :=
  existsb (entry_key_starts_with key_prefix) (context_entries state).

Definition context_entry_input_from_active (entry : ContextEntry) : ContextEntryInput :=
  {| ContextEntryInput.origin := entry.(ContextEntry.origin);
     ContextEntryInput.kind := entry.(ContextEntry.kind);
     ContextEntryInput.content := entry.(ContextEntry.content);
     ContextEntryInput.preview := entry.(ContextEntry.preview);
     ContextEntryInput.provenance_ref := entry.(ContextEntry.provenance_ref);
     ContextEntryInput.token_estimate := entry.(ContextEntry.token_estimate) |}.

Definition commit (self : ContextEntryInput) (entry_id : ContextEntryId)
    (key : option ContextEntryKey) (source : ContextEntrySource)
    (supersedes : option ContextEntryId) : ContextEntry :=
  {| ContextEntry.origin := self.(ContextEntryInput.origin);
     ContextEntry.entry_id := entry_id;
     ContextEntry.key := key;
     ContextEntry.kind := self.(ContextEntryInput.kind);
     ContextEntry.source := source;
     ContextEntry.content := self.(ContextEntryInput.content);
     ContextEntry.preview := self.(ContextEntryInput.preview);
     ContextEntry.provenance_ref := self.(ContextEntryInput.provenance_ref);
     ContextEntry.token_estimate := self.(ContextEntryInput.token_estimate);
     ContextEntry.supersedes := supersedes |}.

Definition supersede_target (state : CoreAgentState) (key : ContextEntryKey)
    (kind : ContextEntryKind) : option ContextEntryId :=
  if negb (is_supersedable_catalog_kind kind) then None
  else match current_key_entry state key with
       | Some current =>
           if is_supersedable_catalog_kind current.(ContextEntry.kind)
           then Some current.(ContextEntry.entry_id) else None
       | None => None
       end.

Definition current_catalog_inputs (state : CoreAgentState)
    : gmap ContextEntryKey ContextEntryInput :=
  foldl (λ inputs entry,
    match entry.(ContextEntry.key) with
    | Some key => if is_supersedable_catalog_kind entry.(ContextEntry.kind)
                  then <[key := context_entry_input_from_active entry]> inputs else inputs
    | None => inputs
    end) ∅ (context_entries state).

(** ** Rendering order *)
(** [None] before [Some], then the order of the text. *)
Definition option_key_le (a b : option ContextEntryKey) : Prop :=
  match a, b with
  | None, _ => True
  | Some _, None => False
  | Some a, Some b => String.le a b
  end.
#[export] Instance option_key_le_dec : RelDecision option_key_le.
Proof. intros [a|] [b|]; cbn; apply _. Defined.

Definition instruction_le (left right : ContextEntry) : Prop :=
  (left.(ContextEntry.key) = right.(ContextEntry.key)
   ∧ (left.(ContextEntry.entry_id) <= right.(ContextEntry.entry_id))%N)
  ∨ (left.(ContextEntry.key) ≠ right.(ContextEntry.key)
     ∧ option_key_le left.(ContextEntry.key) right.(ContextEntry.key)).
#[export] Instance instruction_le_dec : RelDecision instruction_le.
Proof. intros left right. unfold instruction_le. apply _. Defined.

Definition output_turn (entry : ContextEntry) : option (RunId * TurnId) :=
  match entry.(ContextEntry.source) with
  | ContextEntrySource.AssistantOutput run_id turn_id
  | ContextEntrySource.Reasoning run_id turn_id => Some (run_id, turn_id)
  | _ => None
  end.

(** The variables of the loop. *)
Module Grouping.
Record Grouping : Type := {
  rendered : list ContextEntryId;
  held : list ContextEntryId;
  unanswered : gset ToolCallId;
  calling_turn : option (RunId * TurnId);
}.
End Grouping.
Abbreviation Grouping := Grouping.Grouping.

Definition empty_grouping : Grouping :=
  {| Grouping.rendered := []; Grouping.held := []; Grouping.unanswered := ∅;
     Grouping.calling_turn := None |}.

(** A later turn's output closes the group before it. *)
Definition close_group (g : Grouping) (entry : ContextEntry) : Grouping :=
  if is_some (output_turn entry)
     && bool_decide (output_turn entry ≠ g.(Grouping.calling_turn))
  then {| Grouping.rendered := g.(Grouping.rendered) ++ g.(Grouping.held);
          Grouping.held := []; Grouping.unanswered := ∅;
          Grouping.calling_turn := output_turn entry |}
  else g.

(** Whether the entry belongs to the open group, and the calls unanswered after it. *)
Definition group_membership (unanswered : gset ToolCallId) (entry : ContextEntry)
    : bool * gset ToolCallId :=
  match entry.(ContextEntry.kind) with
  | ContextEntryKind.ToolCall call_id _ => (true, unanswered ∪ {[call_id]})
  | ContextEntryKind.ToolResult call_id _ =>
      (bool_decide (call_id ∈ unanswered), unanswered ∖ {[call_id]})
  | _ => (is_some (output_turn entry), unanswered)
  end.

Definition group_entry (g : Grouping) (entry : ContextEntry) : Grouping :=
  let g := close_group g entry in
  let '(in_group, unanswered) := group_membership g.(Grouping.unanswered) entry in
  let id := entry.(ContextEntry.entry_id) in
  let '(rendered, held) :=
    if in_group || bool_decide (unanswered = ∅)
    then (g.(Grouping.rendered) ++ [id], g.(Grouping.held))
    else (g.(Grouping.rendered), g.(Grouping.held) ++ [id]) in
  let '(rendered, held) :=
    if bool_decide (unanswered = ∅) then (rendered ++ held, []) else (rendered, held) in
  {| Grouping.rendered := rendered; Grouping.held := held;
     Grouping.unanswered := unanswered; Grouping.calling_turn := g.(Grouping.calling_turn) |}.

Definition tool_groups_adjacent (entries : list ContextEntry) : list ContextEntryId :=
  let g := foldl group_entry empty_grouping entries in
  g.(Grouping.rendered) ++ g.(Grouping.held).

(** Ids already pushed are not pushed again. *)
Definition push_unseen (acc : list ContextEntryId * gset ContextEntryId) (entry : ContextEntry)
    : list ContextEntryId * gset ContextEntryId :=
  let '(entry_ids, seen) := acc in
  let id := entry.(ContextEntry.entry_id) in
  if bool_decide (id ∈ seen) then acc else (entry_ids ++ [id], {[id]} ∪ seen).

Definition planned_entry_ids (entries : list ContextEntry) : list ContextEntryId :=
  let instructions := merge_sort instruction_le (filter (λ e, is_instructions e = true) entries) in
  let ids := ContextEntry.entry_id <$> instructions in
  let '(ids, seen) :=
    foldl push_unseen (ids, list_to_set ids)
      (filter (λ e, is_standalone_prefix e = true) entries) in
  ids ++ tool_groups_adjacent
           (filter (λ e, e.(ContextEntry.entry_id) ∉ seen) entries).
Definition planned_context_entry_ids (state : CoreAgentState) : list ContextEntryId :=
  planned_entry_ids (context_entries state).

Definition context_entries_by_id (state : CoreAgentState) (entry_ids : list ContextEntryId)
    : Result PlanningError (list ContextEntry) :=
  foldr (λ entry_id rest,
    entry ← ok_or (entry_by_id state entry_id)
              (PlanningError.Domain (InvariantViolation "context references missing entry {}"));
    entries ← rest;
    mret (entry :: entries)) (mret []) entry_ids.

Definition compactable_context_entry_ids (state : CoreAgentState) : list ContextEntryId :=
  filter (λ entry_id, match entry_by_id state entry_id with
                      | Some entry => is_compactable_entry state entry
                      | None => false end = true)
    (planned_context_entry_ids state).

(** ** Token estimates *)
Definition combine_quality (a b : TokenEstimateQuality) : TokenEstimateQuality :=
  match a, b with
  | TokenEstimateQuality.Estimated, _ | _, TokenEstimateQuality.Estimated =>
      TokenEstimateQuality.Estimated
  | TokenEstimateQuality.ProviderCounted, _ | _, TokenEstimateQuality.ProviderCounted =>
      TokenEstimateQuality.ProviderCounted
  | TokenEstimateQuality.Exact, TokenEstimateQuality.Exact => TokenEstimateQuality.Exact
  end.

Fixpoint combine_estimates (tokens : N) (quality : TokenEstimateQuality)
    (entries : list ContextEntry) : option TokenEstimate :=
  match entries with
  | [] => Some {| TokenEstimate.tokens := tokens; TokenEstimate.quality := quality |}
  | entry :: entries =>
      estimate ← entry.(ContextEntry.token_estimate);
      tokens ← checked_add_u32 tokens estimate.(TokenEstimate.tokens);
      combine_estimates tokens (combine_quality quality estimate.(TokenEstimate.quality)) entries
  end.
Definition combined_token_estimate (entries : list ContextEntry) : option TokenEstimate :=
  combine_estimates 0 TokenEstimateQuality.Exact entries.

Definition planned_context_snapshot (state : CoreAgentState) (api_kind : ProviderApiKind)
    : Result PlanningError ContextSnapshot :=
  entries ← context_entries_by_id state (planned_context_entry_ids state);
  mret {| ContextSnapshot.api_kind := api_kind;
          ContextSnapshot.context_revision :=
            state.(CoreAgentState.context).(ContextState.revision);
          ContextSnapshot.entries := entries;
          ContextSnapshot.token_estimate := combined_token_estimate entries |}.

(** ** Entries for new inputs *)
(** Entry ids follow the last one recorded or proposed. *)
Fixpoint context_entries_after (state : CoreAgentState) (last_entry_id : N)
    (inputs : list (option ContextEntryKey * ContextEntrySource * ContextEntryInput))
    : Result DomainError (list ContextEntry) :=
  match inputs with
  | [] => mret []
  | (key, source, entry) :: inputs =>
      next ← ok_or (next_u64 last_entry_id)
               (InvariantViolation "context entry id cursor exhausted");
      let supersedes :=
        key ← key; supersede_target state key entry.(ContextEntryInput.kind) in
      entries ← context_entries_after state next inputs;
      mret (commit entry next key source supersedes :: entries)
  end.
Definition context_entries_from_inputs (state : CoreAgentState)
    (inputs : list (option ContextEntryKey * ContextEntrySource * ContextEntryInput))
    : Result DomainError (list ContextEntry) :=
  context_entries_after state
    state.(CoreAgentState.id_cursors).(IdCursors.last_context_entry_id) inputs.
