(* ===== verification/Compaction.v ===== *)
(** * Compaction

    When the context may be compacted, which prefix a compaction covers, and what a
    turn boundary owes the structural limit on entries
    ([core/components/context.rs]). *)
From S2P Require Import Prelude Ids Text Types Events Media Externals RunState Config Contexts.

Definition active_run (state : CoreAgentState) : option ActiveRun :=
  state.(CoreAgentState.runs).(RunsState.active).
Definition compaction_state (state : CoreAgentState) : ContextCompactionState :=
  state.(CoreAgentState.context).(ContextState.compaction).

(** ** Boundaries *)
Definition has_nonterminal_call (batch : ActiveToolBatch) : bool :=
  existsb (λ call, negb (ToolCallStatus_is_terminal call.(ToolCallState.status)))
    batch.(ActiveToolBatch.calls).
Definition has_active_nonterminal_tool_batch (state : CoreAgentState) : bool :=
  match active_run state with
  | Some run => existsb has_nonterminal_call (btree_values run.(ActiveRun.tool_batches))
  | None => false
  end.

Definition compaction_safe_boundary (state : CoreAgentState) : bool :=
  negb (is_pending (compaction_state state))
  && negb (has_active_nonterminal_tool_batch state)
  && match active_run state with
     | None => true
     | Some run =>
         bool_decide (run.(ActiveRun.status) = RunStatus.Running)
         && is_none run.(ActiveRun.active_turn_id)
         && is_none run.(ActiveRun.active_tool_batch_id)
         && negb (has_unstarted_tool_call_turn run)
     end.

(** ** What must not be removed *)
Definition validate_entry_is_not_unconsumed_active_run_input (state : CoreAgentState)
    (entry_id : ContextEntryId) : Result DomainError unit :=
  match active_run state with
  | None => mret tt
  | Some run =>
      _ ← reject_if (is_none run.(ActiveRun.input_consumed_by_turn_id)
                     && bool_decide (entry_id ∈ run.(ActiveRun.input_entry_ids)))
            (InvariantViolation "cannot remove unconsumed run input context entry {}");
      for_each (λ steering,
        reject_if (is_none steering.(SteeringBatch.consumed_by_turn_id)
                   && bool_decide (entry_id ∈ steering.(SteeringBatch.entry_ids)))
          (InvariantViolation "cannot remove unconsumed steering context entry {}"))
        run.(ActiveRun.steering)
  end.

(** ** The covered prefix *)
Definition is_context_limit (turn : TurnState) : bool :=
  match turn.(TurnState.outcome) with Some (TurnOutcome.ContextLimit _) => true | _ => false end.

(** Input and steering of a run, which is kept with the turn that answered it. *)
Definition is_input_of_run (run_id : RunId) (entry : ContextEntry) : bool :=
  match entry.(ContextEntry.source) with
  | ContextEntrySource.RunInput previous _ => bool_decide (previous = run_id)
  | ContextEntrySource.Steering previous _ _ => bool_decide (previous = run_id)
  | _ => false
  end.

(** The [while] loop: [before] is the part of the window before the boundary, latest
    entry first; the boundary moves over the run's own input. *)
Fixpoint input_boundary (run_id : RunId) (before : list ContextEntry) : nat :=
  match before with
  | [] => 0
  | entry :: before' =>
      if is_input_of_run run_id entry then input_boundary run_id before' else length before
  end.

(** One boundary per turn with output in the window, where its output starts. *)
Fixpoint turn_boundaries (before entries : list ContextEntry) (last : option (RunId * TurnId))
    : list nat :=
  match entries with
  | [] => []
  | entry :: entries =>
      match output_turn entry with
      | Some turn =>
          if bool_decide (last ≠ Some turn)
          then input_boundary turn.1 before :: turn_boundaries (entry :: before) entries (Some turn)
          else turn_boundaries (entry :: before) entries last
      | None => turn_boundaries (entry :: before) entries last
      end
  end.

(** The first recovery left the window overflowing, and its turn was not tried yet. *)
Definition retry_overflow (state : CoreAgentState) : bool :=
  match active_run state with
  | None => false
  | Some run =>
      let recovery := run.(ActiveRun.context_recovery) in
      (0 <? recovery.(ContextRecoveryState.attempts))%N
      && match latest_turn run with
         | Some (_, turn) =>
             bool_decide (recovery.(ContextRecoveryState.recovery_attempted_turn_id)
                            ≠ Some turn.(TurnState.turn_id))
             && is_context_limit turn
         | None => false
         end
  end.

Definition at_entry_guard (state : CoreAgentState) : bool :=
  (ENTRY_GUARD_LIMIT <=? length (context_entries state))%nat.

Fixpoint take_while_ok (f : ContextEntryId → Result DomainError unit)
    (ids : list ContextEntryId) : list ContextEntryId :=
  match ids with
  | [] => []
  | id :: ids => if is_ok (f id) then id :: take_while_ok f ids else []
  end.

(** [entry_by_id(..).expect("planned entry")]: a compactable id always has its entry. *)
Definition entries_of (state : CoreAgentState) (ids : list ContextEntryId) : list ContextEntry :=
  omap (entry_by_id state) ids.

Definition standalone_prefix_ids (state : CoreAgentState) : list ContextEntryId :=
  let ids := compactable_context_entry_ids state in
  let boundaries := turn_boundaries [] (entries_of state ids) None in
  let cut :=
    if retry_overflow state || at_entry_guard state then length ids
    else match rev boundaries !! 1 with
         | Some boundary => boundary
         | None => default (length ids) (head boundaries)
         end in
  let cut := if (cut =? 0)%nat then length ids else cut in
  take_while_ok (validate_entry_is_not_unconsumed_active_run_input state) (take cut ids).

(** ** Capacity *)
Definition effective_model (config : SessionConfig) (run : ActiveRun) : ModelSelection :=
  default config.(SessionConfig.model) run.(ActiveRun.run_config).(RunConfig.model_override).
Definition last_generation_model (state : CoreAgentState) : option ModelSelection :=
  ContextGenerationMetadata.model
    <$> state.(CoreAgentState.context).(ContextState.last_generation).

(** [a.or_else(|| b)]. *)
Definition or_else {A} (a b : option A) : option A :=
  match a with Some a => Some a | None => b end.

Definition compaction_input_limit_tokens (state : CoreAgentState) : option N :=
  config ← state.(CoreAgentState.lifecycle).(LifecycleState.config);
  let run := active_run state in
  let model := default config.(SessionConfig.model)
                 (or_else (effective_model config <$> run) (last_generation_model state)) in
  or_else (run ≫= ActiveRun.input_limit_tokens)
    (or_else
       (if bool_decide (model = config.(SessionConfig.model))
        then config.(SessionConfig.context).(ContextConfig.input_limit_tokens) else None)
       (if is_none run
        then state.(CoreAgentState.context).(ContextState.last_generation)
             ≫= ContextGenerationMetadata.input_limit_tokens
        else None)).

(** ** The structural limit *)
Definition compaction_enabled (config : SessionConfig) : bool :=
  match config.(SessionConfig.context).(ContextConfig.compaction) with
  | None | Some CompactionPolicy.Disabled => false
  | Some _ => true
  end.

Module EntryGuard.
Inductive EntryGuard : Type := Clear | Compact | FailRun.
End EntryGuard.
Abbreviation EntryGuard := EntryGuard.EntryGuard.
#[export] Instance EntryGuard_eq_dec : EqDecision EntryGuard.
Proof. solve_decision. Defined.

Definition entry_guard (state : CoreAgentState) (run : ActiveRun) : EntryGuard :=
  if (length (context_entries state) <? ENTRY_GUARD_LIMIT)%nat
     || negb (compaction_safe_boundary state)
  then EntryGuard.Clear
  else if negb run.(ActiveRun.entry_guard_attempted)
          && match state.(CoreAgentState.lifecycle).(LifecycleState.config) with
             | Some config => compaction_enabled config | None => false end
          && negb (bool_decide (standalone_prefix_ids state = []))
  then EntryGuard.Compact
  else EntryGuard.FailRun.

(** [value >= floor.saturating_add(floor / 10)], on [u64]. *)
Definition grown_past_floor (value floor : N) : bool :=
  (saturating_add_u64 floor (floor / 10) <=? value)%N.
