(* ===== verification/ToolSpecs.v ===== *)
(** * Tool specifications and results

    The registry of tools, its validation and patches, and the results a tool call
    can end with ([core/components/tooling.rs]). *)
From S2P Require Import Prelude Ids Text Types Events Media Externals RunState Contexts.

(** ** Specifications *)
Definition REMOTE_MCP_ALLOWED_TOOL_MAX_LEN : nat := 128.

Definition validate_remote_mcp_server_label (value : string) : Result DomainError unit :=
  _ ← reject_if (bool_decide (value = "")
                 || (REMOTE_MCP_ALLOWED_TOOL_MAX_LEN <? String.length value)%nat)
        (InvariantViolation "remote MCP server label must contain 1 to 128 bytes");
  reject_if
    (negb (match first_char value with Some ch => is_ascii_alphanumeric ch | None => false end)
     || negb (all_chars (λ ch, is_ascii_alphanumeric ch || is_one_of "_-" ch) value))
    (InvariantViolation "remote MCP server label must start with an ASCII letter or digit and contain only ASCII letters, digits, '_' or '-'").

Definition validate_remote_mcp_allowed_tool_name (value : string) : Result DomainError unit :=
  _ ← reject_if (bool_decide (value = ""))
        (InvariantViolation "remote MCP allowed tool name must not be empty");
  _ ← reject_if (REMOTE_MCP_ALLOWED_TOOL_MAX_LEN <? String.length value)%nat
        (InvariantViolation "remote MCP allowed tool name is too long: {} bytes, max {}");
  _ ← reject_if (bool_decide (trim value ≠ value) || contains_whitespace value)
        (InvariantViolation "remote MCP allowed tool name must not contain whitespace");
  reject_if (contains_control value)
    (InvariantViolation "remote MCP allowed tool name must not contain control characters").

Definition RemoteMcpToolSpec_validate (self : RemoteMcpToolSpec) : Result DomainError unit :=
  _ ← map_err (λ _, InvariantViolation "{string id error}")
        (validate_general_string_id "remote MCP server id" self.(RemoteMcpToolSpec.server_id));
  _ ← reject_if (bool_decide (self.(RemoteMcpToolSpec.record_revision) = 0%N))
        (InvariantViolation "remote MCP record revision must be >= 1");
  _ ← validate_remote_mcp_server_label self.(RemoteMcpToolSpec.server_label);
  _ ← match self.(RemoteMcpToolSpec.allowed_tools) with
      | None => mret tt
      | Some allowed_tools =>
          _ ← reject_if (bool_decide (allowed_tools = []))
                (InvariantViolation "remote MCP allowed_tools must not be empty when present");
          for_each_fresh id
            (InvariantViolation "remote MCP allowed_tools contains duplicate tool name {}")
            validate_remote_mcp_allowed_tool_name no_check [] allowed_tools
      end;
  reject_if (bool_decide (self.(RemoteMcpToolSpec.execution) = RemoteMcpExecution.Provider)
             && bool_decide (self.(RemoteMcpToolSpec.exposure) ≠ RemoteMcpExposure.Inject))
    (InvariantViolation "remote MCP exposure applies only to runtime execution").

Definition ToolSpec_validate (self : ToolSpec) : Result DomainError unit :=
  match self.(ToolSpec.kind) with
  | ToolKind.Builtin _ | ToolKind.Function _ | ToolKind.ProviderNative _ => mret tt
  | ToolKind.RemoteMcp remote_mcp => RemoteMcpToolSpec_validate remote_mcp
  end.

Definition invokes_client_effect (self : ToolSpec) : bool :=
  match self.(ToolSpec.kind) with
  | ToolKind.Builtin _ | ToolKind.Function _ => true
  | ToolKind.ProviderNative native =>
      bool_decide (native.(ProviderNativeToolSpec.execution)
                     = ProviderNativeToolExecution.ClientEffect)
  | ToolKind.RemoteMcp remote =>
      bool_decide (remote.(RemoteMcpToolSpec.execution) = RemoteMcpExecution.Runtime)
  end.

(** ** The tool map *)
Definition validate_unique_remote_mcp_server_labels (tools : gmap ToolId ToolSpec)
    : Result DomainError unit :=
  for_each_fresh id
    (InvariantViolation
       "active tool set has duplicate remote MCP server label {} for tools {} and {}")
    no_check no_check []
    (omap (λ tool, match tool.(ToolSpec.kind) with
                   | ToolKind.RemoteMcp remote_mcp =>
                       Some remote_mcp.(RemoteMcpToolSpec.server_label)
                   | _ => None end) (btree_values tools)).

Definition runtime_mcp_prefix (tool : ToolSpec) : option string :=
  match tool.(ToolSpec.kind) with
  | ToolKind.RemoteMcp spec =>
      if bool_decide (spec.(RemoteMcpToolSpec.execution) = RemoteMcpExecution.Runtime)
         && bool_decide (spec.(RemoteMcpToolSpec.exposure) = RemoteMcpExposure.Inject)
      then Some (tool.(ToolSpec.id) +:+ "__") else None
  | _ => None
  end.
(** Every prefix is compared with the ones after it. *)
Fixpoint ambiguous_prefixes (prefixes : list string) : bool :=
  match prefixes with
  | [] => false
  | prefix :: prefixes =>
      existsb (λ other, starts_with other prefix || starts_with prefix other) prefixes
      || ambiguous_prefixes prefixes
  end.
Definition validate_unique_runtime_mcp_prefixes (tools : gmap ToolId ToolSpec)
    : Result DomainError unit :=
  reject_if (ambiguous_prefixes (omap runtime_mcp_prefix (btree_values tools)))
    (InvariantViolation "runtime MCP tool prefixes for {name} and {other_name} are ambiguous").

Definition validate_tool_map (tools : gmap ToolId ToolSpec) : Result DomainError unit :=
  _ ← for_each (λ '(tool_name, tool), reject_if (bool_decide (tool.(ToolSpec.id) ≠ tool_name))
        (InvariantViolation "tool map key {} does not match tool name {}"))
        (btree_to_list tools);
  _ ← validate_unique_remote_mcp_server_labels tools;
  _ ← validate_unique_runtime_mcp_prefixes tools;
  for_each ToolSpec_validate (btree_values tools).

(** ** Patches *)
Definition ToolPatch_is_empty (self : ToolPatch) : bool :=
  bool_decide (self.(ToolPatch.upsert) = []) && bool_decide (self.(ToolPatch.remove) = []).

Definition validate_for (self : ToolPatch) (tools : gmap ToolId ToolSpec)
    : Result DomainError unit :=
  _ ← for_each_fresh ToolSpec.id (InvariantViolation "tool patch contains duplicate upsert {}")
        ToolSpec_validate no_check [] self.(ToolPatch.upsert);
  for_each_fresh id (InvariantViolation "tool patch contains duplicate remove {}")
    no_check
    (λ tool_name,
       _ ← reject_if (bool_decide (tool_name ∈ ToolSpec.id <$> self.(ToolPatch.upsert)))
             (InvariantViolation "tool patch cannot both upsert and remove {}");
       reject_if (is_none (tools !! tool_name))
         (InvariantViolation "tool patch removes missing tool {}"))
    [] self.(ToolPatch.remove).

Definition merged_into (self : ToolPatch) (tools : gmap ToolId ToolSpec) : gmap ToolId ToolSpec :=
  let next := foldl (λ next tool_name, delete tool_name next) tools self.(ToolPatch.remove) in
  foldl (λ next tool, <[tool.(ToolSpec.id) := tool]> next) next self.(ToolPatch.upsert).

Definition apply_to (self : ToolPatch) (tools : gmap ToolId ToolSpec)
    : Result DomainError (gmap ToolId ToolSpec) :=
  _ ← validate_for self tools;
  let next := merged_into self tools in
  _ ← validate_tool_map next;
  mret next.

Definition validate_unique_tool_call_ids (calls : list ObservedToolCall)
    : Result DomainError unit :=
  for_each_fresh ObservedToolCall.call_id (InvariantViolation "duplicate tool call id {}")
    no_check no_check [] calls.

(** ** Results of a call *)
Definition is_tool_result (kind : ContextEntryKind) : bool :=
  match kind with ContextEntryKind.ToolResult _ _ => true | _ => false end.

Definition validate_model_visible_tool_entries (result : ToolCallResult)
    (entries : list ContextEntryInput) : Result DomainError unit :=
  for_each (λ entry,
    match entry.(ContextEntryInput.kind) with
    | ContextEntryKind.ToolResult call_id is_error =>
        reject_if (bool_decide (call_id ≠ result.(ToolCallResult.call_id))
                   || negb (Bool.eqb is_error
                              (ToolCallStatus_is_error result.(ToolCallResult.status))))
          (InvariantViolation "tool-result context entry does not match terminal tool result")
    | ContextEntryKind.Message ContextMessageRole.User | ContextEntryKind.ProviderOpaque => mret tt
    | _ => mthrow (InvariantViolation
             "terminal tool result cannot add model-visible context entry kind {:?}")
    end) entries.

(** A tool-result entry without a provider kind takes that of its call. *)
Definition with_provider_kind (provider_kind : option string) (input : ContextEntryInput)
    : ContextEntryInput :=
  if is_tool_result input.(ContextEntryInput.kind)
     && is_none input.(ContextEntryInput.content).(ContentRef.provider_kind)
  then input <| ContextEntryInput.content ::= λ content,
         content <| ContentRef.provider_kind := provider_kind |> |>
  else input.

Definition tool_result_context_inputs (result : ToolCallResult) (provider_kind : option string)
    : Result DomainError (list ContextEntryInput) :=
  let inputs := result.(ToolCallResult.model_visible_context_entries) in
  _ ← reject_if (bool_decide (inputs = []))
        (InvariantViolation "terminal tool result is missing model-visible context entries");
  _ ← validate_model_visible_tool_entries result inputs;
  _ ← reject_if
        (negb (existsb (λ entry, is_tool_result entry.(ContextEntryInput.kind)) inputs))
        (InvariantViolation "terminal tool result is missing a tool-result context entry");
  mret (with_provider_kind provider_kind <$> inputs).

Definition entry_of_tool_turn (run_id : RunId) (turn_id : TurnId) (entry : ContextEntry) : bool :=
  match entry.(ContextEntry.source) with
  | ContextEntrySource.Tool item_run_id item_turn_id _ =>
      bool_decide (item_run_id = run_id) && bool_decide (item_turn_id = turn_id)
  | _ => false
  end.

Definition tool_result_context_input_exists (state : CoreAgentState) (run_id : RunId)
    (turn_id : TurnId) (result : ToolCallResult) (input : ContextEntryInput) : bool :=
  existsb (λ entry,
    entry_of_tool_turn run_id turn_id entry
    && bool_decide (entry.(ContextEntry.kind) = input.(ContextEntryInput.kind))
    && bool_decide (entry.(ContextEntry.content) = input.(ContextEntryInput.content))
    && bool_decide (entry.(ContextEntry.preview) = input.(ContextEntryInput.preview))
    && bool_decide (entry.(ContextEntry.provenance_ref) = input.(ContextEntryInput.provenance_ref))
    && bool_decide (entry.(ContextEntry.token_estimate) = input.(ContextEntryInput.token_estimate))
    && match entry.(ContextEntry.kind), input.(ContextEntryInput.kind) with
       | ContextEntryKind.ToolResult item_call_id is_error, ContextEntryKind.ToolResult _ _ =>
           bool_decide (item_call_id = result.(ToolCallResult.call_id))
           && Bool.eqb is_error (ToolCallStatus_is_error result.(ToolCallResult.status))
       | _, _ => true
       end) (context_entries state).

Definition tool_result_context_entry_exists (state : CoreAgentState) (run_id : RunId)
    (turn_id : TurnId) (result : ToolCallResult) (provider_kind : option string) : bool :=
  match tool_result_context_inputs result provider_kind with
  | Ok inputs => forallb (tool_result_context_input_exists state run_id turn_id result) inputs
  | Err _ => false
  end.

Section results.
Context `{!Externals}.

(** A result the harness makes itself, with one entry that answers the call. *)
Definition synthetic_tool_result (call : ObservedToolCall) (status : ToolCallStatus)
    (error_ref : BlobRef) : ToolCallResult :=
  {| ToolCallResult.call_id := call.(ObservedToolCall.call_id);
     ToolCallResult.status := status;
     ToolCallResult.output_ref := None;
     ToolCallResult.model_visible_context_entries :=
       [{| ContextEntryInput.origin := None;
           ContextEntryInput.kind := ContextEntryKind.ToolResult
             call.(ObservedToolCall.call_id) (ToolCallStatus_is_error status);
           ContextEntryInput.content :=
             {| ContentRef.content_ref := error_ref; ContentRef.media_type := None;
                ContentRef.provider_kind := call.(ObservedToolCall.provider_kind) |};
           ContextEntryInput.preview := None;
           ContextEntryInput.provenance_ref := None;
           ContextEntryInput.token_estimate := None |}];
     ToolCallResult.error_ref := Some error_ref;
     ToolCallResult.effects := [];
     ToolCallResult.attachments := [];
     ToolCallResult.duration_ms := None;
     ToolCallResult.output_bytes := None;
     ToolCallResult.truncated := false |}.
Definition cancelled_tool_result (call : ObservedToolCall) : ToolCallResult :=
  synthetic_tool_result call ToolCallStatus.Cancelled cancelled_tool_result_ref.
Definition unavailable_tool_result (call : ObservedToolCall) : ToolCallResult :=
  synthetic_tool_result call ToolCallStatus.Unavailable unavailable_tool_result_ref.
End results.
