(* ===== verification/CodeTools.v ===== *)
(** * Code tools

    Durable calls a workflow-backed tool makes while its own call is parked: scopes,
    calls, their outcomes, and what the end of the run does to them
    ([core/components/code_tool.rs]). *)
From S2P Require Import Prelude Ids Text Types Events Media Externals RunState ToolSpecs Compaction.

Definition MAX_CODE_TOOL_CALLS_PER_SCOPE : N := 1024.
Definition MAX_CODE_TOOL_IN_FLIGHT : N := 64.
Definition CODE_TOOL_PROMISE_SLOTS : N := 32.

(** ** Looking up *)
Definition CodeToolCallStatus_is_terminal (self : CodeToolCallStatus) : bool :=
  match self with CodeToolCallStatus.Completed _ => true | _ => false end.
Definition code_scopes (state : CoreAgentState) : gmap string CodeToolScope :=
  state.(CoreAgentState.code_tools).(CodeToolState.scopes).

Definition code_tool_parent (state : CoreAgentState) (scope : CodeToolScopeSpec)
    : Result DomainError WorkflowToolInvocation :=
  let tools := state.(CoreAgentState.workflow_tools) in
  let id := scope.(CodeToolScopeSpec.parent_invocation_id) in
  ok_or (or_else (tools.(WorkflowToolState.bound_invocations) !! id)
           (tools.(WorkflowToolState.start_requests) !! id))
    (InvariantViolation "code tool scope references unknown parent workflow invocation").

Definition code_tool_call (state : CoreAgentState) (origin : CodeToolOrigin)
    : option CodeToolCall :=
  scope ← code_scopes state !! origin.(CodeToolOrigin.execution_id);
  scope.(CodeToolScope.calls) !! origin.(CodeToolOrigin.request_id).

(** [find_map] over the scopes in key order. *)
Fixpoint find_map {A B} (f : A → option B) (l : list A) : option B :=
  match l with
  | [] => None
  | x :: l => match f x with Some y => Some y | None => find_map f l end
  end.
Definition code_tool_call_for_id (state : CoreAgentState) (call_id : ToolCallId)
    : option (CodeToolScope * CodeToolCall) :=
  find_map (λ scope,
    call ← snd <$> list_find (λ call, call.(CodeToolCall.call_id) = call_id)
                     (btree_values scope.(CodeToolScope.calls));
    Some (scope, call)) (btree_values (code_scopes state)).

(** ** The end of a run *)
Section code_tools.
Context `{!Externals}.

(** [CodeToolCallResult::from] of the interrupted invocation result. *)
Definition interrupted_result (call : CodeToolCall) : CodeToolCallResult :=
  {| CodeToolCallResult.call_id := call.(CodeToolCall.call_id);
     CodeToolCallResult.status := ToolCallStatus.Unavailable;
     CodeToolCallResult.output_ref := None;
     CodeToolCallResult.error_ref := Some code_tool_interrupted_ref;
     CodeToolCallResult.attachments := [];
     CodeToolCallResult.duration_ms := None;
     CodeToolCallResult.output_bytes := None;
     CodeToolCallResult.truncated := false |}.

Definition interrupt_call (call : CodeToolCall) : CodeToolCall :=
  if CodeToolCallStatus_is_terminal call.(CodeToolCall.status) then call
  else call <| CodeToolCall.status := CodeToolCallStatus.Completed (interrupted_result call) |>.

Definition scope_of_run (state : CoreAgentState) (run_id : RunId) (scope : CodeToolScope)
    : bool :=
  match code_tool_parent state scope.(CodeToolScope.spec) with
  | Ok parent => bool_decide (parent.(WorkflowToolInvocation.run_id) = run_id)
  | Err _ => false
  end.

Definition interrupt_scope (scope : CodeToolScope) : CodeToolScope :=
  scope <| CodeToolScope.closed := true |> <| CodeToolScope.calls ::= fmap interrupt_call |>.

Definition set_code_scopes (f : gmap string CodeToolScope → gmap string CodeToolScope)
    (state : CoreAgentState) : CoreAgentState :=
  state <| CoreAgentState.code_tools ::= λ tools, tools <| CodeToolState.scopes ::= f |> |>.

Definition interrupt_code_tools_for_run (run_id : RunId) (state : CoreAgentState)
    : CoreAgentState :=
  set_code_scopes (fmap (λ scope,
    if scope_of_run state run_id scope then interrupt_scope scope else scope)) state.

(** ** Validation *)
Definition is_pending_promise (state : CoreAgentState) (promise_id : PromiseId) : bool :=
  match state.(CoreAgentState.promises).(PromiseComponentState.promises) !! promise_id with
  | Some promise => bool_decide (promise.(Promise.status) = PromiseStatus.Pending)
  | None => false
  end.

Definition validate_live_parent (state : CoreAgentState) (scope : CodeToolScopeSpec)
    : Result DomainError unit :=
  parent ← code_tool_parent state scope;
  run ← ok_or (active_run state) (InvariantViolation "code tool calls require an active run");
  _ ← reject_if
        (bool_decide (run.(ActiveRun.run_id) ≠ parent.(WorkflowToolInvocation.run_id))
         || negb (bool_decide (run.(ActiveRun.status) = RunStatus.Running)
                  || bool_decide (run.(ActiveRun.status) = RunStatus.Parked)))
        (InvariantViolation "code tool parent run is not accepting calls");
  parked ← ok_or run.(ActiveRun.parked_tool_batch)
             (InvariantViolation "code tool parent is not parked");
  calls ← match parked.(ParkedToolBatch.suspension) with
          | ToolBatchSuspension.JoinedWorkflowCalls calls _ => mret calls
          | ToolBatchSuspension.AwaitTool _ _ =>
              mthrow (InvariantViolation "code tool parent must be a joined workflow call")
          end;
  reject_if
    (bool_decide (parked.(ParkedToolBatch.batch_id) ≠ parent.(WorkflowToolInvocation.tool_batch_id))
     || negb (existsb (λ call,
          bool_decide (call.(JoinedWorkflowCall.invocation_id)
                         = parent.(WorkflowToolInvocation.invocation_id))
          && bool_decide (call.(JoinedWorkflowCall.call_id)
                            = parent.(WorkflowToolInvocation.tool_call_id))
          && is_pending_promise state call.(JoinedWorkflowCall.promise_id)) calls))
    (InvariantViolation "code tool parent joined call is no longer pending").

Definition code_tool_scope_is_live (state : CoreAgentState) (scope : CodeToolScopeSpec) : bool :=
  is_ok (validate_live_parent state scope).

Definition validate_recorded_scope (state : CoreAgentState) (scope : CodeToolScopeSpec)
    : Result DomainError unit :=
  _ ← validate_live_parent state scope;
  reject_if (existsb (λ existing,
      bool_decide (existing.(CodeToolScope.spec).(CodeToolScopeSpec.parent_invocation_id)
                     = scope.(CodeToolScopeSpec.parent_invocation_id)))
      (btree_values (code_scopes state)))
    (InvariantViolation "parent workflow invocation already owns a code tool scope").

Definition validate_id (kind value : string) : Result DomainError unit :=
  _ ← reject_if (256 <? String.length value)%nat
        (InvariantViolation "code tool {kind} exceeds 256 bytes");
  map_err (λ _, InvariantViolation "{string id error}") (validate_general_string_id kind value).

Definition validate_scope (state : CoreAgentState) (scope : CodeToolScopeSpec)
    : Result DomainError unit :=
  _ ← validate_id "execution_id" scope.(CodeToolScopeSpec.execution_id);
  _ ← validate_recorded_scope state scope;
  let max_calls := scope.(CodeToolScopeSpec.max_calls) in
  let max_in_flight := scope.(CodeToolScopeSpec.max_in_flight) in
  _ ← reject_if
        ((max_calls =? 0)%N || (MAX_CODE_TOOL_CALLS_PER_SCOPE <? max_calls)%N
         || (max_in_flight =? 0)%N || (MAX_CODE_TOOL_IN_FLIGHT <? max_in_flight)%N
         || (max_calls <? max_in_flight)%N
         || (4096 <? size scope.(CodeToolScopeSpec.bindings))%nat)
        (InvariantViolation "code tool scope limits are outside their bounded ranges");
  parent ← code_tool_parent state scope;
  parent_tool ← ok_or (state.(CoreAgentState.workflow_tools).(WorkflowToolState.bindings)
                         !! parent.(WorkflowToolInvocation.workflow_tool_id))
                  (InvariantViolation "code tool parent binding is missing");
  for_each (λ '(binding_id, binding),
    _ ← validate_id "binding_id" binding_id;
    let tool_id := binding.(CodeToolBinding.tool_id) in
    tool ← ok_or (state.(CoreAgentState.tooling).(ToolingState.tools) !! tool_id)
             (InvariantViolation "code tool {tool_id} is not granted");
    reject_if (negb (invokes_client_effect tool)
               || bool_decide (tool_id = parent_tool.(WorkflowToolBinding.definition)
                                 .(WorkflowToolDefinition.tool).(ToolSpec.id)))
      (InvariantViolation "tool {tool_id} is not available for code tool execution"))
    (btree_to_list scope.(CodeToolScopeSpec.bindings)).

Definition validate_recorded_call (state : CoreAgentState) (call : CodeToolCallSpec)
    : Result DomainError CodeToolScope :=
  scope ← ok_or (code_scopes state
                   !! call.(CodeToolCallSpec.origin).(CodeToolOrigin.execution_id))
            (InvariantViolation "unknown code tool execution scope");
  _ ← reject_if scope.(CodeToolScope.closed)
        (InvariantViolation "code tool execution scope is closed");
  _ ← validate_live_parent state scope.(CodeToolScope.spec);
  _ ← reject_if (bool_decide (scope.(CodeToolScope.toolset_revision)
                                ≠ state.(CoreAgentState.tooling).(ToolingState.revision)))
        (InvariantViolation "code tool scope catalog is stale after a toolset change");
  _ ← reject_if
        (match scope.(CodeToolScope.spec).(CodeToolScopeSpec.bindings)
                 !! call.(CodeToolCallSpec.binding_id) with
         | Some binding =>
             negb (bool_decide (binding.(CodeToolBinding.tool_id) = call.(CodeToolCallSpec.tool_id))
                   && bool_decide (binding.(CodeToolBinding.tool_name)
                                     = call.(CodeToolCallSpec.tool_name)))
         | None => true
         end)
        (InvariantViolation "code tool is outside the execution grant");
  mret scope.

Definition code_tool_call_id (origin : CodeToolOrigin) : ToolCallId :=
  "code-tool:" +:+ sha256_hex (json_string_pair origin.(CodeToolOrigin.execution_id)
                                 origin.(CodeToolOrigin.request_id)).

Definition validate_call (state : CoreAgentState) (call : CodeToolCallSpec)
    : Result DomainError unit :=
  _ ← validate_id "request_id" call.(CodeToolCallSpec.origin).(CodeToolOrigin.request_id);
  scope ← validate_recorded_call state call;
  _ ← reject_if (match state.(CoreAgentState.tooling).(ToolingState.tools)
                        !! call.(CodeToolCallSpec.tool_id) with
                 | Some tool => negb (invokes_client_effect tool) | None => true end)
        (InvariantViolation "code tool is outside the execution grant");
  _ ← reject_if (scope.(CodeToolScope.spec).(CodeToolScopeSpec.max_calls)
                   <=? N.of_nat (size scope.(CodeToolScope.calls)))%N
        (InvariantViolation "code tool execution exhausted its call budget");
  _ ← reject_if (scope.(CodeToolScope.spec).(CodeToolScopeSpec.max_in_flight)
                   <=? N.of_nat (length (filter (λ call,
                         CodeToolCallStatus_is_terminal call.(CodeToolCall.status) = false)
                         (btree_values scope.(CodeToolScope.calls)))))%N
        (InvariantViolation "code tool execution exceeded its in-flight limit");
  let call_id := code_tool_call_id call.(CodeToolCallSpec.origin) in
  reject_if
    (match active_run state with
     | Some run => existsb (λ batch, existsb (λ call, bool_decide
           (call.(ToolCallState.call).(ObservedToolCall.call_id) = call_id))
           batch.(ActiveToolBatch.calls)) (btree_values run.(ActiveRun.tool_batches))
     | None => false
     end)
    (InvariantViolation "code tool call identity collides with a model call").

Definition validate_result_fields (call : CodeToolCall) (call_id : ToolCallId)
    (status : ToolCallStatus) : Result DomainError unit :=
  reject_if
    (bool_decide (call_id ≠ call.(CodeToolCall.call_id))
     || negb (match status with
              | ToolCallStatus.Succeeded | ToolCallStatus.Failed | ToolCallStatus.Cancelled => true
              | _ => false end))
    (InvariantViolation "code tool result does not match its admitted call or is not terminal").

(** ** Reducer *)
(** A write to one call of one scope. *)
Definition update_code_call (origin : CodeToolOrigin) (f : CodeToolCall → CodeToolCall)
    : CoreAgentState → CoreAgentState :=
  set_code_scopes (alter (λ scope,
    scope <| CodeToolScope.calls ::= alter f origin.(CodeToolOrigin.request_id) |>)
    origin.(CodeToolOrigin.execution_id)).

Definition validate_code_tool_suspension (state : CoreAgentState) (call : CodeToolCall)
    (suspension : ToolBatchSuspension) : Result DomainError unit :=
  let promises := state.(CoreAgentState.promises).(PromiseComponentState.promises) in
  match suspension with
  | ToolBatchSuspension.AwaitTool call_id spec =>
      _ ← reject_if (bool_decide (call_id ≠ call.(CodeToolCall.call_id)))
            (InvariantViolation "code tool await call id mismatch");
      reject_if (existsb (λ id, is_none (promises !! id)) spec.(AwaitSpec.promise_ids))
        (InvariantViolation "code tool await references an unknown promise")
  | ToolBatchSuspension.JoinedWorkflowCalls calls spec =>
      let mismatch := InvariantViolation "code tool joined suspension does not match its call" in
      match calls with
      | [joined] =>
          _ ← reject_if
                (bool_decide (joined.(JoinedWorkflowCall.call_id) ≠ call.(CodeToolCall.call_id))
                 || bool_decide (spec.(AwaitSpec.promise_ids)
                                   ≠ [joined.(JoinedWorkflowCall.promise_id)])
                 || bool_decide (spec.(AwaitSpec.mode) ≠ AwaitMode.All))
                mismatch;
          promise ← ok_or (promises !! joined.(JoinedWorkflowCall.promise_id))
                      (InvariantViolation "code tool completion promise is missing");
          reject_if (bool_decide (promise.(Promise.status) ≠ PromiseStatus.Pending))
            (InvariantViolation "code tool completion promise is already terminal")
      | _ => mthrow mismatch
      end
  end.

Definition admit_code_call (call : CodeToolCallSpec) (promise_id_base : N)
    : CoreReducer unit :=
  _ ← checking (λ state, validate_recorded_call state call);
  state ← get_state;
  let origin := call.(CodeToolCallSpec.origin) in
  _ ← reject_if (is_some (code_tool_call state origin))
        (InvariantViolation "duplicate code tool admission event");
  _ ← reject_if (bool_decide (Some promise_id_base
          ≠ next_u64 state.(CoreAgentState.id_cursors).(IdCursors.last_promise_id)))
        (InvariantViolation "code tool promise reservation is not contiguous");
  last ← lift_result (ok_or (checked_add_u64 promise_id_base (CODE_TOOL_PROMISE_SLOTS - 1))
           (InvariantViolation "promise counter exhausted"));
  _ ← modify_state (set_code_scopes (alter (λ scope,
        scope <| CodeToolScope.calls ::= <[origin.(CodeToolOrigin.request_id) :=
          {| CodeToolCall.spec := call;
             CodeToolCall.call_id := code_tool_call_id origin;
             CodeToolCall.promise_id_base := promise_id_base;
             CodeToolCall.status := CodeToolCallStatus.Pending |}]> |>)
        origin.(CodeToolOrigin.execution_id)));
  modify_state (λ state, state <| CoreAgentState.id_cursors ::= λ cursors,
    cursors <| IdCursors.last_promise_id := last |> |>).

Definition apply_code_tool_event (event : CodeToolEvent) : CoreReducer unit :=
  match event with
  | CodeToolEvent.ScopeOpened scope =>
      let execution_id := scope.(CodeToolScopeSpec.execution_id) in
      state ← get_state;
      _ ← reject_if (is_some (code_scopes state !! execution_id))
            (InvariantViolation "duplicate code tool scope event");
      _ ← lift_result (validate_recorded_scope state scope);
      modify_state (set_code_scopes (<[execution_id :=
        {| CodeToolScope.toolset_revision :=
             state.(CoreAgentState.tooling).(ToolingState.revision);
           CodeToolScope.spec := scope;
           CodeToolScope.closed := false;
           CodeToolScope.calls := ∅ |}]>))
  | CodeToolEvent.CallAdmitted call promise_id_base => admit_code_call call promise_id_base
  | CodeToolEvent.CallCompleted origin result =>
      state ← get_state;
      call ← lift_result (ok_or (code_tool_call state origin)
               (InvariantViolation "unknown code tool request"));
      _ ← lift_result (validate_result_fields call result.(CodeToolCallResult.call_id)
                         result.(CodeToolCallResult.status));
      _ ← reject_if (CodeToolCallStatus_is_terminal call.(CodeToolCall.status))
            (InvariantViolation "duplicate code tool completion event");
      modify_state (update_code_call origin (λ call,
        call <| CodeToolCall.status := CodeToolCallStatus.Completed result |>))
  | CodeToolEvent.CallDeferred origin suspension =>
      state ← get_state;
      call ← lift_result (ok_or (code_tool_call state origin)
               (InvariantViolation "unknown code tool request"));
      _ ← reject_if (bool_decide (call.(CodeToolCall.status) ≠ CodeToolCallStatus.Pending))
            (InvariantViolation "code tool request was already deferred or completed");
      _ ← lift_result (validate_code_tool_suspension state call suspension);
      modify_state (update_code_call origin (λ call,
        call <| CodeToolCall.status := CodeToolCallStatus.Waiting suspension |>))
  | CodeToolEvent.ScopeClosed execution_id =>
      state ← get_state;
      _ ← reject_if (is_none (code_scopes state !! execution_id))
            (InvariantViolation "unknown code tool execution scope");
      modify_state (set_code_scopes (alter (λ scope,
        scope <| CodeToolScope.closed := true |>) execution_id))
  end.
End code_tools.
