(* ===== verification/ContextReducer.v ===== *)
(** * The context reducer

    [apply_event] of [core/components/context.rs]: applying, removing and replacing
    entries, the supersession of catalogs, and the phases of a compaction. *)
From S2P Require Import Prelude Ids Text Types Events Media Externals RunState Config Contexts.
From S2P Require Import Compaction.

(** ** Writes *)
Definition set_context (f : ContextState → ContextState) (state : CoreAgentState)
    : CoreAgentState :=
  state <| CoreAgentState.context ::= f |>.
Definition set_entries (f : list ContextEntry → list ContextEntry) : CoreAgentState → CoreAgentState :=
  set_context (λ context, context <| ContextState.entries ::= f |>).
Definition set_compaction (f : ContextCompactionState → ContextCompactionState)
    : CoreAgentState → CoreAgentState :=
  set_context (λ context, context <| ContextState.compaction ::= f |>).
(** A write to the active run, if there is one. *)
Definition update_active_run (f : ActiveRun → ActiveRun) (state : CoreAgentState)
    : CoreAgentState :=
  state <| CoreAgentState.runs ::= λ runs, runs <| RunsState.active ::= fmap f |> |>.

Definition retain_entries (keep : ContextEntry → bool) (entries : list ContextEntry)
    : list ContextEntry :=
  filter (λ entry, keep entry = true) entries.

Definition remove_context_entry_by_key (key : ContextEntryKey) : CoreAgentState → CoreAgentState :=
  set_entries (retain_entries (λ entry,
    bool_decide (entry.(ContextEntry.key) ≠ Some key))).
Definition remove_context_entries_by_key_prefix (key_prefix : ContextEntryKey)
    : CoreAgentState → CoreAgentState :=
  set_entries (retain_entries (λ entry, negb (entry_key_starts_with key_prefix entry))).

(** The newest version of a key is current; the oldest of the others go beyond the
    cap. *)
Definition dropped_versions (key : ContextEntryKey) (entries : list ContextEntry)
    : list ContextEntryId :=
  let versions := ContextEntry.entry_id
    <$> filter (λ entry, entry.(ContextEntry.key) = Some key) entries in
  let versions := take (length versions - 1) versions in
  take (length versions - SUPERSEDED_CATALOG_CAP) versions.
Definition drop_superseded_beyond_cap (key : ContextEntryKey) (state : CoreAgentState)
    : CoreAgentState :=
  let dropped := dropped_versions key (context_entries state) in
  set_entries (retain_entries (λ entry,
    negb (bool_decide (entry.(ContextEntry.entry_id) ∈ dropped)))) state.

(** ** Validation *)
Definition validate_base_revision (base_revision : N) : CoreReducer unit :=
  checking (λ state,
    reject_if (negb (base_revision =? state.(CoreAgentState.context).(ContextState.revision))%N)
      (InvariantViolation "context event base revision {} does not match active revision {}")).

Definition bump_context_revision : CoreReducer unit :=
  state ← get_state;
  revision ← lift_result
    (ok_or (next_u64 state.(CoreAgentState.context).(ContextState.revision))
       (InvariantViolation "context revision exhausted"));
  modify_state (set_context (λ context, context <| ContextState.revision := revision |>)).

Definition entry_keys (entries : list ContextEntry) : list ContextEntryKey :=
  omap ContextEntry.key entries.
Definition validate_no_duplicate_entry_keys (entries : list ContextEntry)
    : Result DomainError unit :=
  for_each_fresh id (InvariantViolation "duplicate context key {} in entries event")
    no_check no_check [] (entry_keys entries).

Definition validate_entry_matches_input (entry : ContextEntry) (input : ContextEntryInput)
    (allow_key : bool) : Result DomainError unit :=
  _ ← reject_if (is_some entry.(ContextEntry.key) && negb allow_key)
        (InvariantViolation "run materialized context entry {} must not have a key");
  reject_if (bool_decide (context_entry_input_from_active entry ≠ input))
    (InvariantViolation "context entry {} does not match accepted input payload").

Definition validate_entries_removable (state : CoreAgentState) (entry_ids : list ContextEntryId)
    : Result DomainError unit :=
  for_each (validate_entry_is_not_unconsumed_active_run_input state) entry_ids.

Definition validate_context_key_exists (state : CoreAgentState) (key : ContextEntryKey)
    : Result DomainError unit :=
  reject_if (is_none (current_key_entry state key))
    (InvariantViolation "context key {} does not exist").
Definition validate_keys_removable (state : CoreAgentState) (keys : list ContextEntryKey)
    : Result DomainError unit :=
  for_each_fresh id (InvariantViolation "duplicate context key removal {}")
    no_check (validate_context_key_exists state) [] keys.

Definition validate_prefix_entries_removable (state : CoreAgentState)
    (key_prefix : ContextEntryKey) : Result DomainError unit :=
  for_each (λ entry,
    if entry_key_starts_with key_prefix entry
    then validate_entry_is_not_unconsumed_active_run_input state entry.(ContextEntry.entry_id)
    else mret tt) (context_entries state).

Definition validate_recorded_entry_replacement (state : CoreAgentState) (entry : ContextEntry)
    : Result DomainError unit :=
  active ← ok_or (entry_by_id state entry.(ContextEntry.entry_id))
             (InvariantViolation "cannot replace unknown context entry {entry_id}");
  _ ← reject_if
        (bool_decide (entry.(ContextEntry.kind) ≠ active.(ContextEntry.kind))
         || bool_decide (entry.(ContextEntry.key) ≠ active.(ContextEntry.key))
         || bool_decide (entry.(ContextEntry.source) ≠ active.(ContextEntry.source)))
        (InvariantViolation
           "replacement of context entry {entry_id} must keep its kind, key, and source");
  validate_entry_is_not_unconsumed_active_run_input state entry.(ContextEntry.entry_id).

Definition validate_entry_replacement (state : CoreAgentState) (entry : ContextEntry)
    : Result DomainError unit :=
  _ ← validate_recorded_entry_replacement state entry;
  match entry_by_id state entry.(ContextEntry.entry_id) with
  | None => mret tt
  | Some active =>
      let catalog_metadata_only :=
        is_supersedable_catalog_kind active.(ContextEntry.kind)
        && bool_decide (active.(ContextEntry.content) = entry.(ContextEntry.content))
        && bool_decide (active.(ContextEntry.supersedes) = entry.(ContextEntry.supersedes))
        && match active.(ContextEntry.key) ≫= current_key_entry state with
           | Some current =>
               bool_decide (current.(ContextEntry.entry_id) = entry.(ContextEntry.entry_id))
           | None => false
           end in
      reject_if (negb catalog_metadata_only && negb (is_replaceable active.(ContextEntry.kind)))
        (InvariantViolation "context entry {entry_id} cannot be replaced: only tool results, user messages, and current catalog metadata can")
  end.

Definition is_context_edit (entry : ContextEntry) : bool :=
  match entry.(ContextEntry.source) with ContextEntrySource.ContextEdit => true | _ => false end.

Definition validate_key_prefix_replacement_entries (state : CoreAgentState)
    (key_prefix : ContextEntryKey) (entries : list ContextEntry) : Result DomainError unit :=
  _ ← reject_if (bool_decide (entries = []) && negb (has_active_key_with_prefix state key_prefix))
        (InvariantViolation "context key prefix replacement {} has no active entries and no replacement entries");
  _ ← validate_no_duplicate_entry_keys entries;
  for_each (λ entry,
    key ← ok_or entry.(ContextEntry.key)
            (InvariantViolation "context key prefix replacement entry {} must have a key");
    _ ← reject_if (negb (context_key_starts_with key key_prefix))
          (InvariantViolation
             "context key prefix replacement entry {} has key {} outside prefix {}");
    reject_if (negb (is_context_edit entry))
      (InvariantViolation
         "context key prefix replacement entry {} must use context edit source")) entries.

(** ** Materialised input *)
Definition record_run_input (entry : ContextEntry) (run_id : RunId) (input_index : N)
    : CoreReducer unit :=
  run ← active_run_mut run_id;
  let index := N.to_nat input_index in
  expected ← lift_result (ok_or (RunSource_input run.(ActiveRun.source) !! index)
    (InvariantViolation "run input context entry {} references missing input index {}"));
  _ ← lift_result (validate_entry_matches_input entry expected true);
  _ ← reject_if (negb (length run.(ActiveRun.input_entry_ids) =? index)%nat)
        (InvariantViolation "run input context entry {} expected input index {}, got {}");
  put_active_run (run <| ActiveRun.input_entry_ids ::= λ ids,
    ids ++ [entry.(ContextEntry.entry_id)] |>).

Definition record_steering (entry : ContextEntry) (run_id : RunId) (steering_id : SteeringId)
    (input_index : N) : CoreReducer unit :=
  run ← active_run_mut run_id;
  '(position, steering) ← lift_result
    (ok_or (list_find (λ steering, steering.(SteeringBatch.steering_id) = steering_id)
              run.(ActiveRun.steering))
       (InvariantViolation "steering context entry {} references missing steering batch {}"));
  let index := N.to_nat input_index in
  expected ← lift_result (ok_or (steering.(SteeringBatch.input) !! index)
    (InvariantViolation "steering context entry {} references missing input index {}"));
  _ ← lift_result (validate_entry_matches_input entry expected false);
  _ ← reject_if (negb (length steering.(SteeringBatch.entry_ids) =? index)%nat)
        (InvariantViolation "steering context entry {} expected input index {}, got {}");
  let steering := steering <| SteeringBatch.entry_ids ::= λ ids,
                                ids ++ [entry.(ContextEntry.entry_id)] |> in
  put_active_run (run <| ActiveRun.steering ::= <[position := steering]> |>).

Definition record_entry_materialization (entry : ContextEntry) : CoreReducer unit :=
  match entry.(ContextEntry.source) with
  | ContextEntrySource.RunInput run_id input_index => record_run_input entry run_id input_index
  | ContextEntrySource.Steering run_id steering_id input_index =>
      record_steering entry run_id steering_id input_index
  | _ => mret tt
  end.

(** ** Applying entries *)
Definition push_entry (entry : ContextEntry) (state : CoreAgentState) : CoreAgentState :=
  set_entries (λ entries, entries ++ [entry]) state
    <| CoreAgentState.id_cursors ::= λ cursors,
         cursors <| IdCursors.last_context_entry_id := entry.(ContextEntry.entry_id) |> |>.

(** What the key of an entry asks of the state, and which entries it removes. *)
Definition settle_key (entry : ContextEntry) : CoreReducer unit :=
  match entry.(ContextEntry.key) with
  | None => mret tt
  | Some key =>
      state ← get_state;
      let expected := supersede_target state key entry.(ContextEntry.kind) in
      _ ← reject_if (bool_decide (entry.(ContextEntry.supersedes) ≠ expected))
            (InvariantViolation
               "context entry {} supersedes {:?} but key {} currently holds {:?}");
      if is_none expected then modify_state (remove_context_entry_by_key key) else mret tt
  end.

Definition apply_entry (entry : ContextEntry) : CoreReducer unit :=
  state ← get_state;
  expected ← lift_result
    (ok_or (next_u64 state.(CoreAgentState.id_cursors).(IdCursors.last_context_entry_id))
       (InvariantViolation "context entry id cursor exhausted"));
  let entry_id := entry.(ContextEntry.entry_id) in
  _ ← reject_if (bool_decide (entry_id ≠ expected))
        (InvariantViolation "expected context entry id {}, got {}");
  _ ← reject_if (is_some (entry_by_id state entry_id))
        (InvariantViolation "duplicate active context entry id {}");
  _ ← reject_if (match last (context_entries state) with
                 | Some last => (entry_id <=? last.(ContextEntry.entry_id))%N
                 | None => false end)
        (InvariantViolation
           "context entry id {} must be greater than last active entry id {}");
  _ ← record_entry_materialization entry;
  _ ← settle_key entry;
  _ ← modify_state (push_entry entry);
  match entry.(ContextEntry.key), entry.(ContextEntry.supersedes) with
  | Some key, Some _ => modify_state (drop_superseded_beyond_cap key)
  | _, _ => mret tt
  end.

Definition apply_entries_applied (entries : list ContextEntry) : CoreReducer unit :=
  _ ← reject_if (bool_decide (entries = []))
        (InvariantViolation "context entries event must contain at least one entry");
  _ ← lift_result (validate_no_duplicate_entry_keys entries);
  for_each apply_entry entries.

Definition apply_key_prefix_replaced (key_prefix : ContextEntryKey) (entries : list ContextEntry)
    : CoreReducer unit :=
  _ ← checking (λ state, validate_key_prefix_replacement_entries state key_prefix entries);
  _ ← checking (λ state, validate_prefix_entries_removable state key_prefix);
  _ ← modify_state (remove_context_entries_by_key_prefix key_prefix);
  if bool_decide (entries = []) then mret tt else apply_entries_applied entries.

Definition remove_context_entries (entry_ids : list ContextEntryId) : CoreReducer unit :=
  _ ← reject_if (bool_decide (entry_ids = []))
        (InvariantViolation "context entry removal event must contain at least one entry");
  _ ← checking (λ state,
        for_each_fresh id (InvariantViolation "duplicate context entry removal {}")
          no_check
          (λ entry_id, reject_if (is_none (entry_by_id state entry_id))
             (InvariantViolation "cannot remove unknown context entry {}"))
          [] entry_ids);
  modify_state (set_entries (retain_entries (λ entry,
    negb (bool_decide (entry.(ContextEntry.entry_id) ∈ entry_ids))))).

(** Writing over the first entry with the id. *)
Definition replace_entry (entries : list ContextEntry) (entry : ContextEntry)
    : list ContextEntry :=
  match list_find (λ active, active.(ContextEntry.entry_id) = entry.(ContextEntry.entry_id))
          entries with
  | Some (position, _) => <[position := entry]> entries
  | None => entries
  end.

(** ** Compaction phases *)
(** The attempt is recorded on the run whose latest turn overflowed; [attempts] is a
    [u32] that wraps. *)
Definition record_recovery_attempt (run : ActiveRun) : ActiveRun :=
  match latest_turn run with
  | Some (_, turn) =>
      if is_context_limit turn
      then run <| ActiveRun.context_recovery ::= λ recovery,
             recovery <| ContextRecoveryState.attempts ::= λ n, ((n + 1) mod (u32_max + 1))%N |>
                      <| ContextRecoveryState.recovery_attempted_turn_id :=
                           Some turn.(TurnState.turn_id) |> |>
      else run
  | None => run
  end.

Definition run_id_of (run : option ActiveRun) : option RunId := ActiveRun.run_id <$> run.

Definition validate_compaction_plan (state : CoreAgentState) (trigger : ContextCompactionTrigger)
    (plan : ContextCompactionPlan) : Result DomainError unit :=
  _ ← reject_if
        (negb (compaction_safe_boundary state)
         || bool_decide (plan.(ContextCompactionPlan.trigger) ≠ trigger)
         || bool_decide (plan.(ContextCompactionPlan.run_id) ≠ run_id_of (active_run state))
         || bool_decide (plan.(ContextCompactionPlan.covered_entry_ids) = []))
        (InvariantViolation "invalid compaction plan or execution boundary");
  for_each (λ entry_id,
    _ ← reject_if (is_none (entry_by_id state entry_id))
          (InvariantViolation "compaction plan covers unknown context entry {entry_id}");
    validate_entry_is_not_unconsumed_active_run_input state entry_id)
    plan.(ContextCompactionPlan.covered_entry_ids).

Definition set_phase (phase : ContextCompactionPhase) : CoreAgentState → CoreAgentState :=
  set_compaction (λ compaction, compaction <| ContextCompactionState.phase := phase |>).

(** A failed proactive attempt of the run that still goes on leaves its floor. *)
Definition failure_floor (state : CoreAgentState) : option CompactionFailureFloor :=
  let attempting_run :=
    run ← active_run state;
    if bool_decide (run.(ActiveRun.status) = RunStatus.Running)
    then Some run.(ActiveRun.run_id) else None in
  plan ← pending_plan (compaction_state state);
  if bool_decide (plan.(ContextCompactionPlan.trigger) = ContextCompactionTrigger.HighWatermark)
     && bool_decide (plan.(ContextCompactionPlan.run_id) = attempting_run)
  then Some {| CompactionFailureFloor.tokens := plan.(ContextCompactionPlan.estimated_tokens);
               CompactionFailureFloor.entries := length (context_entries state) |}
  else None.

Definition settle_compaction (status : ContextCompactionStatus) (state : CoreAgentState)
    : CoreAgentState :=
  match status with
  | ContextCompactionStatus.Succeeded =>
      let state := set_compaction (λ compaction,
        compaction <| ContextCompactionState.failure_floor := None |>) state in
      if (length (context_entries state) <? ENTRY_GUARD_LIMIT)%nat
      then update_active_run (λ run, run <| ActiveRun.entry_guard_attempted := false |>) state
      else state
  | ContextCompactionStatus.Failed =>
      match failure_floor state with
      | Some floor => set_compaction (λ compaction,
          compaction <| ContextCompactionState.failure_floor := Some floor |>) state
      | None => state
      end
  end.

Definition compaction_is_manual (compaction : ContextCompactionState) : bool :=
  is_queued compaction
  || match pending_plan compaction with
     | Some plan => bool_decide (plan.(ContextCompactionPlan.trigger)
                                   = ContextCompactionTrigger.Manual)
     | None => false
     end.

Definition request_compaction (trigger : ContextCompactionTrigger) (plan : ContextCompactionPlan)
    : CoreReducer unit :=
  _ ← checking (λ state, validate_compaction_plan state trigger plan);
  _ ← modify_state (update_active_run record_recovery_attempt);
  _ ← modify_state (λ state,
        if bool_decide (trigger = ContextCompactionTrigger.HighWatermark)
           && (ENTRY_GUARD_LIMIT <=? length (context_entries state))%nat
        then update_active_run (λ run, run <| ActiveRun.entry_guard_attempted := true |>) state
        else state);
  _ ← modify_state (set_phase (ContextCompactionPhase.Pending plan));
  bump_context_revision.

Definition finish_compaction (status : ContextCompactionStatus) (failure_ref : option BlobRef)
    (usage : option LlmUsage) : CoreReducer unit :=
  _ ← reject_if (bool_decide (status = ContextCompactionStatus.Succeeded) && is_some failure_ref)
        (InvariantViolation "successful context compaction cannot include a failure ref");
  before ← get_state;
  _ ← reject_if (negb (is_pending (compaction_state before))
                 && negb (is_queued (compaction_state before)))
        (InvariantViolation "context compaction finished without a pending request");
  _ ← modify_state (λ state, match usage with
        | Some usage => update_active_run (λ run,
            run <| ActiveRun.usage ::= λ total, accumulate_usage total usage |>) state
        | None => state
        end);
  let manual := compaction_is_manual (compaction_state before) in
  _ ← modify_state (settle_compaction status);
  _ ← modify_state (set_phase ContextCompactionPhase.Idle);
  _ ← bump_context_revision;
  modify_state (λ state,
    let revision := state.(CoreAgentState.context).(ContextState.revision) in
    let state := set_compaction (λ compaction,
      compaction <| ContextCompactionState.last_finished_revision := Some revision |>) state in
    if manual
    then set_compaction (λ compaction,
      compaction <| ContextCompactionState.last_manual_outcome := Some
        {| ManualCompactionOutcome.revision := revision;
           ManualCompactionOutcome.status := status;
           ManualCompactionOutcome.failure_ref := failure_ref |} |>) state
    else state).

(** ** The reducer *)
Definition apply_context_event (event : ContextEvent) : CoreReducer unit :=
  match event with
  | ContextEvent.EntriesApplied base_revision entries =>
      _ ← validate_base_revision base_revision;
      _ ← apply_entries_applied entries;
      bump_context_revision
  | ContextEvent.EntriesRemoved base_revision entry_ids _ =>
      _ ← validate_base_revision base_revision;
      _ ← checking (λ state, validate_entries_removable state entry_ids);
      _ ← remove_context_entries entry_ids;
      bump_context_revision
  | ContextEvent.KeysRemoved base_revision keys =>
      _ ← validate_base_revision base_revision;
      _ ← reject_if (bool_decide (keys = []))
            (InvariantViolation "context key removal event must contain at least one key");
      _ ← checking (λ state, validate_keys_removable state keys);
      _ ← for_each (λ key, modify_state (remove_context_entry_by_key key)) keys;
      bump_context_revision
  | ContextEvent.KeyPrefixReplaced base_revision key_prefix entries =>
      _ ← validate_base_revision base_revision;
      _ ← apply_key_prefix_replaced key_prefix entries;
      bump_context_revision
  | ContextEvent.EntriesReplaced base_revision entries =>
      _ ← validate_base_revision base_revision;
      _ ← reject_if (bool_decide (entries = []))
            (InvariantViolation "context entry replacement event must contain at least one entry");
      _ ← checking (λ state,
            for_each_fresh ContextEntry.entry_id
              (InvariantViolation "duplicate context entry replacement {}")
              no_check (validate_recorded_entry_replacement state) [] entries);
      _ ← modify_state (set_entries (λ active, foldl replace_entry active entries));
      bump_context_revision
  | ContextEvent.CompactionRequested base_revision trigger plan =>
      _ ← validate_base_revision base_revision;
      request_compaction trigger plan
  | ContextEvent.CompactionQueued base_revision =>
      _ ← validate_base_revision base_revision;
      _ ← checking (λ state, reject_if (is_pending (compaction_state state)
                                        || is_queued (compaction_state state))
            (InvariantViolation "context compaction is already pending"));
      modify_state (set_phase ContextCompactionPhase.QueuedManual)
  | ContextEvent.CompactionFinished base_revision status failure_ref usage _ =>
      _ ← validate_base_revision base_revision;
      finish_compaction status failure_ref usage
  end.
