(* ===== verification/Llm.v ===== *)
(** * Generation requests

    The request a turn is planned with, rebuilt from reduced state: the effective
    model and generation settings, the rendered context, the tools and the
    fingerprint that ties a planned turn to its request
    ([core/components/llm.rs]). *)
From S2P Require Import Prelude Ids Text Types Events Media Externals RunState Config Contexts.
From S2P Require Import Compaction.

Definition LLM_REQUEST_FINGERPRINT_PREFIX : string := "llm:sha256:".
Definition LLM_COMPACTION_FINGERPRINT_PREFIX : string := "compaction:sha256:".

Definition domain {A} (r : Result DomainError A) : Result PlanningError A :=
  map_err PlanningError.Domain r.

Definition effective_generation (base : GenerationConfig) (run_config : RunConfig)
    : GenerationConfig :=
  {| GenerationConfig.max_output_tokens :=
       or_else run_config.(RunConfig.max_output_tokens) base.(GenerationConfig.max_output_tokens);
     GenerationConfig.reasoning_effort :=
       or_else run_config.(RunConfig.reasoning_effort) base.(GenerationConfig.reasoning_effort);
     GenerationConfig.tool_choice :=
       or_else run_config.(RunConfig.tool_choice) base.(GenerationConfig.tool_choice);
     GenerationConfig.parallel_tool_use :=
       or_else run_config.(RunConfig.parallel_tool_use) base.(GenerationConfig.parallel_tool_use);
     GenerationConfig.processing_tier :=
       or_else run_config.(RunConfig.processing_tier) base.(GenerationConfig.processing_tier) |}.

Definition remote_mcp_supported_by_provider (api_kind : ProviderApiKind) : bool :=
  match api_kind with
  | ProviderApiKind.OpenAiResponses | ProviderApiKind.AnthropicMessages => true
  | ProviderApiKind.OpenAiCompletions => false
  end.

Definition validate_tools_for_api_kind (tools : list ToolSpec) (api_kind : ProviderApiKind)
    : Result DomainError unit :=
  for_each (λ tool,
    match tool.(ToolSpec.kind) with
    | ToolKind.ProviderNative native =>
        reject_if (bool_decide (native.(ProviderNativeToolSpec.api_kind) ≠ api_kind))
          (ProviderCompatibility "provider-native tool {} api kind {:?} does not match request api kind {:?}")
    | ToolKind.RemoteMcp remote =>
        reject_if (bool_decide (remote.(RemoteMcpToolSpec.execution) = RemoteMcpExecution.Provider)
                   && negb (remote_mcp_supported_by_provider api_kind))
          (ProviderCompatibility "provider-executed MCP tool {} is not supported by request api kind {:?}; switch the server record to runtime execution or register a runtime twin")
    | _ => mret tt
    end) tools.

Definition active_tools (state : CoreAgentState) (api_kind : ProviderApiKind)
    : Result PlanningError (list ToolSpec) :=
  let tools := btree_values state.(CoreAgentState.tooling).(ToolingState.tools) in
  _ ← domain (validate_tools_for_api_kind tools api_kind);
  mret tools.

Definition binding_for_tool_id (self : WorkflowToolState) (tool_id : ToolId)
    : option WorkflowToolBinding :=
  snd <$> list_find (λ binding,
    binding.(WorkflowToolBinding.definition).(WorkflowToolDefinition.tool).(ToolSpec.id) = tool_id)
    (btree_values self.(WorkflowToolState.bindings)).

Definition result_contract (binding : WorkflowToolBinding) : WorkflowToolResultContract :=
  {| WorkflowToolResultContract.completion := binding.(WorkflowToolBinding.completion);
     WorkflowToolResultContract.starts_workflow :=
       match binding.(WorkflowToolBinding.target) with
       | WorkflowToolTarget.Start _ => true
       | WorkflowToolTarget.Bound _ _ => false
       end |}.

Definition present_tool (state : CoreAgentState) (allowed : option (list string))
    (presentation : CodeModePresentation) (tool : ToolSpec) : CodeModePresentation :=
  let id := tool.(ToolSpec.id) in
  {| CodeModePresentation.allowed_tools :=
       if match allowed with Some allowed => bool_decide (id ∈ allowed) | None => true end
       then {[id]} ∪ presentation.(CodeModePresentation.allowed_tools)
       else presentation.(CodeModePresentation.allowed_tools);
     CodeModePresentation.workflow_results :=
       match binding_for_tool_id state.(CoreAgentState.workflow_tools) id with
       | Some binding => <[id := result_contract binding]>
                           presentation.(CodeModePresentation.workflow_results)
       | None => presentation.(CodeModePresentation.workflow_results)
       end |}.
Definition code_mode_presentation (state : CoreAgentState) (tools : list ToolSpec)
    : option CodeModePresentation :=
  config ← state.(CoreAgentState.lifecycle).(LifecycleState.config);
  feature ← config.(SessionConfig.features).(FeaturesConfig.code_mode);
  Some (foldl (present_tool state feature.(CodeModeFeature.allowed_tools)) default_of tools).

Section llm.
Context `{!Externals}.

Definition request_fingerprint (model : ModelSelection) (context : ContextSnapshot)
    (tools : list ToolSpec) (generation : GenerationConfig) (run_id : RunId) (turn_id : TurnId)
    : string :=
  LLM_REQUEST_FINGERPRINT_PREFIX
    +:+ sha256_hex (json_llm_request model context tools generation run_id turn_id).

Definition build_llm_request (state : CoreAgentState) (run : ActiveRun) (turn_id : TurnId)
    : Result PlanningError LlmRequest :=
  config ← ok_or state.(CoreAgentState.lifecycle).(LifecycleState.config)
             (PlanningError.Domain (InvariantViolation "active session is missing config"));
  let model := effective_model config run in
  let generation := effective_generation config.(SessionConfig.generation)
                      run.(ActiveRun.run_config) in
  context ← planned_context_snapshot state model.(ModelSelection.api_kind);
  tools ← active_tools state model.(ModelSelection.api_kind);
  _ ← domain (validate_tool_choice_for_tools state.(CoreAgentState.tooling).(ToolingState.tools)
                generation.(GenerationConfig.tool_choice));
  let code_mode := code_mode_presentation state tools in
  let fingerprint := request_fingerprint model context tools generation
                       run.(ActiveRun.run_id) turn_id in
  let fingerprint :=
    match code_mode with
    | Some presentation => LLM_REQUEST_FINGERPRINT_PREFIX
        +:+ sha256_hex (json_code_mode_request fingerprint presentation)
    | None => fingerprint
    end in
  mret {| LlmRequest.model := model;
          LlmRequest.request_fingerprint := fingerprint;
          LlmRequest.context := context;
          LlmRequest.tools := tools;
          LlmRequest.code_mode := code_mode;
          LlmRequest.tool_choice := generation.(GenerationConfig.tool_choice);
          LlmRequest.output_limit := generation.(GenerationConfig.max_output_tokens);
          LlmRequest.reasoning_effort := generation.(GenerationConfig.reasoning_effort);
          LlmRequest.parallel_tool_use := generation.(GenerationConfig.parallel_tool_use);
          LlmRequest.processing_tier := generation.(GenerationConfig.processing_tier);
          LlmRequest.compaction := config.(SessionConfig.context).(ContextConfig.compaction);
          LlmRequest.params := None |}.

Definition build_planned_llm_request (state : CoreAgentState) (run : ActiveRun)
    (turn_id : TurnId) (planned : PlannedRequestState) : Result DomainError LlmRequest :=
  _ ← reject_if (negb (planned.(PlannedRequestState.config_revision)
                       =? state.(CoreAgentState.lifecycle).(LifecycleState.config_revision))%N)
        (InvariantViolation "planned request config revision {} does not match active revision {}");
  _ ← reject_if (negb (planned.(PlannedRequestState.context_revision)
                       =? state.(CoreAgentState.context).(ContextState.revision))%N)
        (InvariantViolation "planned request context revision {} does not match active revision {}");
  _ ← reject_if (negb (planned.(PlannedRequestState.toolset_revision)
                       =? state.(CoreAgentState.tooling).(ToolingState.revision))%N)
        (InvariantViolation "planned request toolset revision {} does not match active revision {}");
  request ← map_err (λ _, InvariantViolation "{planning error}")
              (build_llm_request state run turn_id);
  _ ← reject_if (bool_decide (request.(LlmRequest.request_fingerprint)
                                ≠ planned.(PlannedRequestState.request_fingerprint)))
        (InvariantViolation "rebuilt request fingerprint {} does not match planned fingerprint {}");
  mret request.

Definition build_context_compaction_task (state : CoreAgentState)
    : Result PlanningError ContextCompactionTask :=
  config ← ok_or state.(CoreAgentState.lifecycle).(LifecycleState.config)
             (PlanningError.Domain (InvariantViolation "active session is missing config"));
  plan ← ok_or (pending_plan (compaction_state state)) (PlanningError.Domain
           (InvariantViolation "context compaction request is missing pending state"));
  let model := default config.(SessionConfig.model)
                 (or_else (effective_model config <$> active_run state)
                    (last_generation_model state)) in
  let target_tokens :=
    match config.(SessionConfig.context).(ContextConfig.compaction) with
    | Some (CompactionPolicy.ProviderStandalone _ target_tokens) => target_tokens
    | _ => None
    end in
  let covered := plan.(ContextCompactionPlan.covered_entry_ids) in
  let ids := filter (λ id, bool_decide (id ∈ covered)
      || match entry_by_id state id with
         | Some entry => is_instructions entry
                         || is_supersedable_catalog_kind entry.(ContextEntry.kind)
         | None => false
         end = true) (planned_context_entry_ids state) in
  entries ← context_entries_by_id state ids;
  tools ← active_tools state model.(ModelSelection.api_kind);
  let context :=
    {| ContextSnapshot.api_kind := model.(ModelSelection.api_kind);
       ContextSnapshot.context_revision := state.(CoreAgentState.context).(ContextState.revision);
       ContextSnapshot.entries := entries;
       ContextSnapshot.token_estimate := combined_token_estimate entries |} in
  let input_limit_tokens := compaction_input_limit_tokens state in
  mret {| ContextCompactionTask.model := model;
          ContextCompactionTask.request_fingerprint := LLM_COMPACTION_FINGERPRINT_PREFIX
            +:+ sha256_hex (json_compaction_request model context target_tokens tools
                              input_limit_tokens);
          ContextCompactionTask.context := context;
          ContextCompactionTask.target_tokens := target_tokens;
          ContextCompactionTask.covered_entry_ids := covered;
          ContextCompactionTask.tools := tools;
          ContextCompactionTask.input_limit_tokens := input_limit_tokens |}.
End llm.
