(* ===== verification/Approvals.v ===== *)
(** * Approvals

    Approval requests of a run, their decisions, and the parking of a run that
    waits on them ([core/components/approval.rs]). *)
From S2P Require Import Prelude Ids Text Types Events Media Externals RunState.

Definition MAX_APPROVAL_NOTE_BYTES : nat := 2000.

(** ** Reducer *)
Definition ApprovalId_from_number (number : N) : ApprovalId :=
  "approval_" +:+ u64_to_string number.

Definition put_approval (approval_id : ApprovalId) (record : ApprovalRecord) (run : ActiveRun)
    : ActiveRun :=
  run <| ActiveRun.approvals ::= <[approval_id := record]> |>.

(** The record a decision or a cancellation answers. *)
Definition answerable_approval (run : ActiveRun) (approval_id : ApprovalId) (run_id : RunId)
    : Result DomainError ApprovalRecord :=
  record ← ok_or (run.(ActiveRun.approvals) !! approval_id)
             (InvariantViolation "unknown approval {approval_id}");
  _ ← reject_if
        (bool_decide (record.(ApprovalRecord.request).(ApprovalRequested.run_id) ≠ run_id)
         || bool_decide (record.(ApprovalRecord.status) ≠ ApprovalStatus.Pending))
        (InvariantViolation "approval {approval_id} is not pending for run {run_id}");
  mret record.

Definition decided_status (decision : ApprovalDecision) : ApprovalStatus :=
  match decision with
  | ApprovalDecision.Approved => ApprovalStatus.Approved
  | ApprovalDecision.Rejected => ApprovalStatus.Rejected
  end.

Definition is_runtime_mcp (record : ApprovalRecord) : bool :=
  match record.(ApprovalRecord.request).(ApprovalRequested.continuation) with
  | ApprovalContinuation.RuntimeMcp _ _ => true
  | ApprovalContinuation.ProviderMcp _ => false
  end.

Definition apply_approval_event (event : ApprovalEvent) (observed_at_ms : N)
    : CoreReducer unit :=
  match event with
  | ApprovalEvent.Requested approval =>
      state ← get_state;
      expected ← lift_result
        (ok_or (next_u64 state.(CoreAgentState.id_cursors).(IdCursors.last_approval_id))
           (InvariantViolation "approval id cursor exhausted"));
      _ ← reject_if (bool_decide (approval.(ApprovalRequested.approval_id)
                                    ≠ ApprovalId_from_number expected))
            (InvariantViolation "expected approval id approval_{expected}, got {}");
      run ← lift_result (ok_or state.(CoreAgentState.runs).(RunsState.active)
              (InvariantViolation "approval request requires an active run"));
      _ ← reject_if
            (bool_decide (run.(ActiveRun.run_id) ≠ approval.(ApprovalRequested.run_id))
             || bool_decide (run.(ActiveRun.status) ≠ RunStatus.Running))
            (InvariantViolation "approval request does not match the active run");
      _ ← reject_if
            (existsb (λ record, bool_decide
                 (record.(ApprovalRecord.request).(ApprovalRequested.continuation)
                  = approval.(ApprovalRequested.continuation)))
               (btree_values run.(ActiveRun.approvals)))
            (InvariantViolation "duplicate approval continuation");
      _ ← put_active_run (put_approval approval.(ApprovalRequested.approval_id)
            {| ApprovalRecord.request := approval;
               ApprovalRecord.requested_at_ms := observed_at_ms;
               ApprovalRecord.status := ApprovalStatus.Pending;
               ApprovalRecord.note := None;
               ApprovalRecord.decided_by := None |} run);
      modify_state (λ state, state <| CoreAgentState.id_cursors ::= λ cursors,
        cursors <| IdCursors.last_approval_id := expected |> |>)
  | ApprovalEvent.RunParked run_id =>
      run ← active_run_mut run_id;
      _ ← reject_if (bool_decide (pending_approvals run = []))
            (InvariantViolation "run cannot park without pending approvals");
      let runtime_batch_approval :=
        is_some run.(ActiveRun.active_tool_batch_id)
        && forallb is_runtime_mcp (pending_approvals run) in
      _ ← reject_if
            (bool_decide (run.(ActiveRun.status) ≠ RunStatus.Running)
             || is_some run.(ActiveRun.active_turn_id)
             || (is_some run.(ActiveRun.active_tool_batch_id) && negb runtime_batch_approval))
            (InvariantViolation "approval parking requires an idle active run");
      put_active_run (run <| ActiveRun.status := RunStatus.Parked |>)
  | ApprovalEvent.RunUnparked run_id =>
      run ← active_run_mut run_id;
      _ ← reject_if (bool_decide (run.(ActiveRun.status) ≠ RunStatus.Parked))
            (InvariantViolation "only a parked run can unpark");
      put_active_run (run <| ActiveRun.status := RunStatus.Running |>)
  | ApprovalEvent.Decided approval_id run_id decision note decided_by =>
      run ← active_run_mut run_id;
      record ← lift_result (answerable_approval run approval_id run_id);
      put_active_run (put_approval approval_id
        (record <| ApprovalRecord.status := decided_status decision |>
                <| ApprovalRecord.note := note |>
                <| ApprovalRecord.decided_by := decided_by |>) run)
  | ApprovalEvent.Cancelled approval_id run_id =>
      run ← active_run_mut run_id;
      record ← lift_result (answerable_approval run approval_id run_id);
      put_active_run (put_approval approval_id
        (record <| ApprovalRecord.status := ApprovalStatus.Cancelled |>) run)
  end.

(** ** Planner *)
Definition run_joins (run_id : RunId) : CoreAgentJoins :=
  {| CoreAgentJoins.run_id := Some run_id; CoreAgentJoins.turn_id := None;
     CoreAgentJoins.tool_batch_id := None; CoreAgentJoins.tool_call_id := None;
     CoreAgentJoins.submission_id := None |}.
Definition proposal (joins : CoreAgentJoins) (event : CoreAgentEvent) : CoreAgentEventProposal :=
  {| CoreAgentEventProposal.joins := joins; CoreAgentEventProposal.event := event |}.

Definition plan_approval_next (state : CoreAgentState)
    : Result PlanningError (list CoreAgentEventProposal) :=
  if bool_decide (state.(CoreAgentState.lifecycle).(LifecycleState.status) ≠ CoreAgentStatus.Open)
  then mret [] else
  match state.(CoreAgentState.runs).(RunsState.active) with
  | None => mret []
  | Some run =>
      if bool_decide (run.(ActiveRun.status) ≠ RunStatus.Running)
         || is_some run.(ActiveRun.active_turn_id)
         || is_some run.(ActiveRun.active_tool_batch_id)
         || bool_decide (pending_approvals run = [])
         || has_unstarted_tool_call_turn run
      then mret []
      else mret [proposal (run_joins run.(ActiveRun.run_id))
                   (CoreAgentEvent.Approval (ApprovalEvent.RunParked run.(ActiveRun.run_id)))]
  end.

Definition pending_approval_cancellations (run : ActiveRun) : list CoreAgentEventProposal :=
  (λ record, proposal (run_joins run.(ActiveRun.run_id))
     (CoreAgentEvent.Approval (ApprovalEvent.Cancelled
        record.(ApprovalRecord.request).(ApprovalRequested.approval_id) run.(ActiveRun.run_id))))
  <$> pending_approvals run.

(** ** Notes *)
Definition validate_note (note : option string) : Result DomainError unit :=
  match note with
  | None => mret tt
  | Some note =>
      _ ← reject_if (bool_decide (trim note ≠ note) || bool_decide (note = ""))
            (InvariantViolation "approval note must be non-empty and trimmed when present");
      reject_if (MAX_APPROVAL_NOTE_BYTES <? String.length note)%nat
        (InvariantViolation "approval note is too long: {} bytes, max {MAX_APPROVAL_NOTE_BYTES}")
  end.
