(* ===== verification/Turns.v ===== *)
(** * Turns

    One model generation of a run: started, planned, requested, settled and completed,
    or cancelled ([core/components/turn.rs]). *)
From S2P Require Import Prelude Ids Text Types Events Media Externals RunState Config Contexts.
From S2P Require Import Approvals Compaction ContextReducer Llm.

(** ** Consumption of input *)
(** What a planned turn carries is marked consumed by it. *)
Definition consume_steering (turn_id : TurnId) (consumed : list ContextEntryId)
    (steering : SteeringBatch) : SteeringBatch :=
  if is_none steering.(SteeringBatch.consumed_by_turn_id)
     && (length steering.(SteeringBatch.entry_ids) =? length steering.(SteeringBatch.input))%nat
     && forallb (λ id, bool_decide (id ∈ consumed)) steering.(SteeringBatch.entry_ids)
  then steering <| SteeringBatch.consumed_by_turn_id := Some turn_id |>
  else steering.

Definition mark_context_entries_consumed_by_turn (turn_id : TurnId)
    (consumed : list ContextEntryId) (run : ActiveRun) : ActiveRun :=
  let run :=
    if is_none run.(ActiveRun.input_consumed_by_turn_id)
       && forallb (λ id, bool_decide (id ∈ consumed)) run.(ActiveRun.input_entry_ids)
    then run <| ActiveRun.input_consumed_by_turn_id := Some turn_id |>
    else run in
  run <| ActiveRun.steering ::= fmap (consume_steering turn_id consumed) |>.

Definition mark_current_context_consumed_by_turn (run_id : RunId) (turn_id : TurnId)
    : CoreReducer unit :=
  state ← get_state;
  run ← active_run_mut run_id;
  put_active_run
    (mark_context_entries_consumed_by_turn turn_id (planned_context_entry_ids state) run).

(** ** Reducer *)
Definition put_turn (turn_id : TurnId) (turn : TurnState) (run : ActiveRun) : ActiveRun :=
  run <| ActiveRun.turns ::= <[turn_id := turn]> |>.

(** [active_turn_mut]: the run and the turn to write to. *)
Definition active_turn_mut (run_id : RunId) (turn_id : TurnId)
    : CoreReducer (ActiveRun * TurnState) :=
  run ← active_run_mut run_id;
  _ ← reject_if (bool_decide (run.(ActiveRun.active_turn_id) ≠ Some turn_id))
        (InvariantViolation "event turn id does not match active turn");
  turn ← lift_result (ok_or (run.(ActiveRun.turns) !! turn_id)
           (InvariantViolation "active turn {} is missing"));
  mret (run, turn).

Definition started_turn (turn_id : TurnId) (run_id : RunId) : TurnState :=
  {| TurnState.turn_id := turn_id; TurnState.run_id := run_id;
     TurnState.status := TurnStatus.Started; TurnState.planned_request := None;
     TurnState.generation_status := None; TurnState.facts := None;
     TurnState.outcome := None |}.

Definition outcome_status (outcome : TurnOutcome) : TurnStatus :=
  match outcome with
  | TurnOutcome.FinalOutput _ | TurnOutcome.ToolCallsQueued
  | TurnOutcome.ContextLimit _ | TurnOutcome.ApprovalsRequested => TurnStatus.Completed
  | TurnOutcome.Failed _ | TurnOutcome.Rejected _ => TurnStatus.Failed
  | TurnOutcome.Cancelled => TurnStatus.Cancelled
  end.

Definition cancellable_turn (status : TurnStatus) : bool :=
  match status with
  | TurnStatus.Started | TurnStatus.Planned | TurnStatus.GenerationPending => true
  | _ => false
  end.

(** Tokens of the estimate and of the output, saturating. *)
Definition observed_context_tokens (facts : LlmGenerationFacts) (estimate : TokenEstimate) : N :=
  saturating_add_u32 estimate.(TokenEstimate.tokens)
    (default 0%N (facts.(LlmGenerationFacts.usage) ≫= LlmUsage.output_tokens)).

(** What a successful generation tells about the context it was given. The source
    expects the configuration of an open session and an active run here. *)
Definition record_generation (facts : LlmGenerationFacts) (state : CoreAgentState)
    : CoreAgentState :=
  match state.(CoreAgentState.lifecycle).(LifecycleState.config), active_run state with
  | Some config, Some run =>
      set_context (λ context,
        context <| ContextState.last_generation := Some
                     {| ContextGenerationMetadata.model := effective_model config run;
                        ContextGenerationMetadata.input_limit_tokens :=
                          compaction_input_limit_tokens state |} |>
                <| ContextState.usage_observation :=
                     estimate ← facts.(LlmGenerationFacts.context_token_estimate);
                     Some {| ContextUsageObservation.context_revision :=
                               context.(ContextState.revision);
                             ContextUsageObservation.tokens :=
                               observed_context_tokens facts estimate |} |>) state
  | _, _ => state
  end.

Definition complete_generation (run_id : RunId) (turn_id : TurnId) (status : LlmGenerationStatus)
    (facts : LlmGenerationFacts) : CoreReducer unit :=
  '(run, turn) ← active_turn_mut run_id turn_id;
  _ ← reject_if (bool_decide (turn.(TurnState.status) ≠ TurnStatus.GenerationPending))
        (InvariantViolation "generation can only complete from pending state");
  _ ← reject_if (is_some turn.(TurnState.facts) || is_some turn.(TurnState.generation_status))
        (InvariantViolation "turn already has a generation result");
  _ ← put_active_run (put_turn turn_id
        (turn <| TurnState.generation_status := Some status |>
              <| TurnState.facts := Some facts |>
              <| TurnState.status := TurnStatus.GenerationSettled |>) run);
  let succeeded := bool_decide (status = LlmGenerationStatus.Succeeded) in
  _ ← modify_state (λ state,
        if succeeded
           && bool_decide (facts.(LlmGenerationFacts.finish) ≠ LlmFinish.ContextLimit)
        then update_active_run (λ run, run <| ActiveRun.context_recovery ::= λ recovery,
               recovery <| ContextRecoveryState.attempts := 0%N |> |>) state
        else state);
  _ ← modify_state (λ state, if succeeded then record_generation facts state else state);
  match facts.(LlmGenerationFacts.usage) with
  | Some usage =>
      run ← active_run_mut run_id;
      put_active_run (run <| ActiveRun.usage ::= λ total, accumulate_usage total usage |>)
  | None => mret tt
  end.

Definition apply_turn_event (event : TurnEvent) : CoreReducer unit :=
  match event with
  | TurnEvent.Started turn_id run_id =>
      state ← get_state;
      expected ← lift_result
        (ok_or (next_u64 state.(CoreAgentState.id_cursors).(IdCursors.last_turn_id))
           (InvariantViolation "turn id cursor exhausted"));
      _ ← reject_if (bool_decide (turn_id ≠ expected))
            (InvariantViolation "expected turn id {}, got {}");
      run ← active_run_mut run_id;
      _ ← reject_if (bool_decide (run.(ActiveRun.status) ≠ RunStatus.Running))
            (InvariantViolation "turns can only start for running runs");
      _ ← reject_if (is_some run.(ActiveRun.active_turn_id))
            (InvariantViolation "cannot start turn while another turn is active");
      _ ← put_active_run
            (put_turn turn_id (started_turn turn_id run_id)
               (run <| ActiveRun.turn_count ::= λ n, saturating_add_u32 n 1 |>)
               <| ActiveRun.active_turn_id := Some turn_id |>);
      modify_state (λ state, state <| CoreAgentState.id_cursors ::= λ cursors,
        cursors <| IdCursors.last_turn_id := turn_id |> |>)
  | TurnEvent.Planned turn_id run_id request_fingerprint config_revision context_revision
      toolset_revision =>
      state ← get_state;
      _ ← reject_if (negb (config_revision
              =? state.(CoreAgentState.lifecycle).(LifecycleState.config_revision))%N)
            (InvariantViolation
               "planned request config revision {} does not match active revision {}");
      _ ← reject_if (negb (context_revision
              =? state.(CoreAgentState.context).(ContextState.revision))%N)
            (InvariantViolation
               "planned request context revision {} does not match active revision {}");
      _ ← reject_if (negb (toolset_revision
              =? state.(CoreAgentState.tooling).(ToolingState.revision))%N)
            (InvariantViolation
               "planned request toolset revision {} does not match active revision {}");
      _ ← mark_current_context_consumed_by_turn run_id turn_id;
      '(run, turn) ← active_turn_mut run_id turn_id;
      _ ← reject_if (bool_decide (turn.(TurnState.status) ≠ TurnStatus.Started))
            (InvariantViolation "turn can only be planned from started state");
      _ ← reject_if (is_some turn.(TurnState.planned_request))
            (InvariantViolation "turn already has planned request metadata");
      put_active_run (put_turn turn_id
        (turn <| TurnState.planned_request := Some
                   {| PlannedRequestState.request_fingerprint := request_fingerprint;
                      PlannedRequestState.config_revision := config_revision;
                      PlannedRequestState.context_revision := context_revision;
                      PlannedRequestState.toolset_revision := toolset_revision |} |>
              <| TurnState.status := TurnStatus.Planned |>) run)
  | TurnEvent.GenerationRequested turn_id run_id =>
      '(run, turn) ← active_turn_mut run_id turn_id;
      _ ← reject_if (bool_decide (turn.(TurnState.status) ≠ TurnStatus.Planned))
            (InvariantViolation "generation can only be requested for planned turns");
      _ ← reject_if (is_none turn.(TurnState.planned_request))
            (InvariantViolation "generation request requires planned turn metadata");
      put_active_run (put_turn turn_id
        (turn <| TurnState.status := TurnStatus.GenerationPending |>) run)
  | TurnEvent.GenerationCompleted turn_id run_id status facts =>
      complete_generation run_id turn_id status facts
  | TurnEvent.Completed turn_id outcome =>
      state ← get_state;
      run ← lift_result (ok_or (active_run state) (InvariantViolation "no active run"));
      _ ← reject_if (bool_decide (run.(ActiveRun.active_turn_id) ≠ Some turn_id))
            (InvariantViolation "completed turn does not match active turn");
      turn ← lift_result (ok_or (run.(ActiveRun.turns) !! turn_id)
               (InvariantViolation "active turn {} is missing"));
      _ ← reject_if (bool_decide (turn.(TurnState.status) ≠ TurnStatus.GenerationSettled))
            (InvariantViolation "turn completion requires settled generation");
      put_active_run (prune_settled_run_records
        (put_turn turn_id
           (turn <| TurnState.outcome := Some outcome |>
                 <| TurnState.status := outcome_status outcome |>) run
           <| ActiveRun.active_turn_id := None |>))
  | TurnEvent.Cancelled turn_id run_id =>
      run ← active_run_mut run_id;
      _ ← reject_if (bool_decide (run.(ActiveRun.status) ≠ RunStatus.Cancelling))
            (InvariantViolation "turns can only be cancelled while their run is cancelling");
      _ ← reject_if (bool_decide (run.(ActiveRun.active_turn_id) ≠ Some turn_id))
            (InvariantViolation "cancelled turn does not match active turn");
      turn ← lift_result (ok_or (run.(ActiveRun.turns) !! turn_id)
               (InvariantViolation "active turn {} is missing"));
      _ ← reject_if (negb (cancellable_turn turn.(TurnState.status)))
            (InvariantViolation
               "only started, planned, or generation-pending turns can be cancelled");
      put_active_run
        (put_turn turn_id
           (turn <| TurnState.outcome := Some TurnOutcome.Cancelled |>
                 <| TurnState.status := TurnStatus.Cancelled |>) run
           <| ActiveRun.active_turn_id := None |>)
  end.
