(* ===== verification/Sessions.v ===== *)
(** * Lifecycle

    Opening, reconfiguring and closing a session ([core/components/lifecycle.rs]). *)
From S2P Require Import Prelude Ids Text Types Events Media Externals RunState Config Promises.

Definition set_lifecycle (f : LifecycleState → LifecycleState) (state : CoreAgentState)
    : CoreAgentState :=
  state <| CoreAgentState.lifecycle ::= f |>.

Definition has_session_promise (state : CoreAgentState) : bool :=
  existsb (λ promise, bool_decide (promise.(Promise.scope) = PromiseScope.Session))
    (PromiseComponentState_pending state.(CoreAgentState.promises)).

Definition apply_lifecycle_event (event : CoreAgentLifecycleEvent) : CoreReducer unit :=
  state ← get_state;
  let lifecycle := state.(CoreAgentState.lifecycle) in
  match event with
  | CoreAgentLifecycleEvent.Opened config =>
      _ ← reject_if (bool_decide (lifecycle.(LifecycleState.status) ≠ CoreAgentStatus.New))
            (InvariantViolation "session can only be opened from new state");
      modify_state (set_lifecycle (λ lifecycle,
        lifecycle <| LifecycleState.status := CoreAgentStatus.Open |>
                  <| LifecycleState.config := Some config |>
                  <| LifecycleState.config_revision := 0%N |>))
  | CoreAgentLifecycleEvent.ConfigChanged config revision =>
      _ ← reject_if (bool_decide (lifecycle.(LifecycleState.status) ≠ CoreAgentStatus.Open))
            (InvariantViolation "session config can only change while open");
      expected ← lift_result (ok_or (next_u64 lifecycle.(LifecycleState.config_revision))
                   (InvariantViolation "config revision exhausted"));
      _ ← reject_if (bool_decide (revision ≠ expected))
            (InvariantViolation "expected config revision {}, got {}");
      _ ← lift_result (validate_recorded_config_update state config);
      modify_state (set_lifecycle (λ lifecycle,
        lifecycle <| LifecycleState.config := Some config |>
                  <| LifecycleState.config_revision := revision |>))
  | CoreAgentLifecycleEvent.Closed =>
      _ ← reject_if (bool_decide (lifecycle.(LifecycleState.status) ≠ CoreAgentStatus.Open))
            (InvariantViolation "only open sessions can be closed");
      _ ← reject_if
            (is_some state.(CoreAgentState.runs).(RunsState.active)
             || negb (bool_decide (state.(CoreAgentState.runs).(RunsState.queued) = []))
             || has_session_promise state)
            (InvariantViolation "session cannot close with active work");
      modify_state (set_lifecycle (λ lifecycle,
        lifecycle <| LifecycleState.status := CoreAgentStatus.Closed |>))
  end.

(** * The active environment

    The selection of the environment tools run in, and the effects that change it
    ([core/components/environment.rs]). *)

Definition ENVIRONMENT_ACTIVATE_EFFECT_KIND : string := "lightspeed.environment.activate".
Definition ENVIRONMENT_DEACTIVATE_EFFECT_KIND : string := "lightspeed.environment.deactivate".
Definition ENVIRONMENT_ID_EFFECT_KEY : string := "environment_id".

Definition set_active_environment (environment_id : option EnvironmentId)
    (state : CoreAgentState) : CoreAgentState :=
  state <| CoreAgentState.environment ::= λ environment,
    environment <| EnvironmentState.active_environment_id := environment_id |> |>.

Definition apply_environment_event (event : EnvironmentEvent) : CoreReducer unit :=
  match event with
  | EnvironmentEvent.ActiveEnvironmentSet environment_id =>
      modify_state (set_active_environment (Some environment_id))
  | EnvironmentEvent.ActiveEnvironmentCleared => modify_state (set_active_environment None)
  end.

Definition environment_activate_effect (environment_id : EnvironmentId) : ToolEffect :=
  effect_with ENVIRONMENT_ACTIVATE_EFFECT_KIND {[ENVIRONMENT_ID_EFFECT_KEY := environment_id]}.
Definition environment_deactivate_effect : ToolEffect :=
  effect_with ENVIRONMENT_DEACTIVATE_EFFECT_KIND ∅.

Definition is_environment_selection_effect (effect : ToolEffect) : bool :=
  bool_decide (effect.(ToolEffect.kind) = ENVIRONMENT_ACTIVATE_EFFECT_KIND)
  || bool_decide (effect.(ToolEffect.kind) = ENVIRONMENT_DEACTIVATE_EFFECT_KIND).

Definition environment_event_from_effect (effect : ToolEffect)
    : Result DomainError (option EnvironmentEvent) :=
  if bool_decide (effect.(ToolEffect.kind) = ENVIRONMENT_ACTIVATE_EFFECT_KIND) then
    _ ← reject_if (bool_decide (size effect.(ToolEffect.data) ≠ 1))
          (InvariantViolation "environment activate effect must contain only environment_id");
    environment_id ← ok_or (effect.(ToolEffect.data) !! ENVIRONMENT_ID_EFFECT_KEY)
      (InvariantViolation "environment activate effect is missing environment_id");
    _ ← map_err (λ _, InvariantViolation
            "environment activate effect has invalid environment_id: {error}")
          (validate_general_string_id "EnvironmentId" environment_id);
    mret (Some (EnvironmentEvent.ActiveEnvironmentSet environment_id))
  else if bool_decide (effect.(ToolEffect.kind) = ENVIRONMENT_DEACTIVATE_EFFECT_KIND) then
    _ ← reject_if (bool_decide (effect.(ToolEffect.data) ≠ ∅))
          (InvariantViolation "environment deactivate effect must not contain data");
    mret (Some EnvironmentEvent.ActiveEnvironmentCleared)
  else mret None.
