(* ===== verification/WorkflowTools.v ===== *)
(** * Workflow tools

    Tools whose calls are carried out by other workflows: the declared bindings and
    their validation, the record of invocations and start requests with the checks
    their events make, and the pruning of finished invocations
    ([core/components/workflow_tool.rs]). *)
From Stdlib Require Import Ascii.
From S2P Require Import Prelude Ids Text Types Events Media Externals RunState ToolSpecs CodeTools.

Definition MAX_IN_FLIGHT_WORKFLOW_TOOL_INVOCATIONS : N := 32.
Definition MAX_COMPLETION_PROMISES : N := 32.
Definition COMPLETION_KEY_MAX_LEN : nat := 64.
Definition REPLY_COMPLETION_KEY : string := "reply".
Definition WORKFLOW_ID_MAX_LEN : nat := 512.
Definition WORKFLOW_KIND_MAX_LEN : nat := 128.
Definition SEMANTIC_TYPE_MAX_LEN : nat := 192.
Definition RECIPE_FINGERPRINT_MAX_LEN : nat := 256.
Definition WORKFLOW_TOOL_EXECUTION_KIND : string := "workflow_tool.execution".
Definition RESERVED_RUN_TERMINAL_SEMANTIC_TYPE : string := "lightspeed.run.terminal.v1".

(** ** Validation of bindings *)
Definition validate_component (value : string) (max_len : nat) (allowed_char : ascii → bool)
    : Result DomainError unit :=
  _ ← reject_if (bool_decide (value = "")) (InvariantViolation "{kind} must not be empty");
  _ ← reject_if (max_len <? String.length value)%nat
        (InvariantViolation "{kind} is too long: {} bytes, max {max_len}");
  _ ← reject_if (negb (match first_char value with
                       | Some first => is_ascii_alphanumeric first | None => false end))
        (InvariantViolation "{kind} must start with an ASCII letter or digit");
  reject_if (negb (all_chars allowed_char value))
    (InvariantViolation "{kind} contains invalid character {ch:?} at byte {index}; allowed: {allowed}").

Definition component_char (c : ascii) : bool := is_ascii_alphanumeric c || is_one_of "_-." c.

Definition validate_completion_key (key : string) : Result DomainError unit :=
  validate_component key COMPLETION_KEY_MAX_LEN component_char.

Definition version_segment (version : string) : bool :=
  (2 <=? String.length version)%nat
  && match strip_prefix "v" version with
     | Some digits => all_chars is_ascii_digit digits
     | None => false
     end.
Definition validate_semantic_type (value : string) : Result DomainError unit :=
  _ ← validate_component value SEMANTIC_TYPE_MAX_LEN component_char;
  let segments := split "."%char value in
  _ ← reject_if
        ((length segments <? 3)%nat
         || existsb (λ segment, bool_decide (segment = "")) segments
         || negb (version_segment (default "" (last segments))))
        (InvariantViolation "workflow tool semantic type must be a dotted identifier ending in '.v<digits>'");
  reject_if (bool_decide (value = RESERVED_RUN_TERMINAL_SEMANTIC_TYPE))
    (InvariantViolation "workflow tool semantic type {value} is reserved by the emission substrate").

Definition WorkflowEndpointRef_validate (self : WorkflowEndpointRef) : Result DomainError unit :=
  _ ← reject_if (bool_decide (self.(WorkflowEndpointRef.workflow_id) = ""))
        (InvariantViolation "workflow endpoint id must not be empty");
  _ ← reject_if (WORKFLOW_ID_MAX_LEN <? String.length self.(WorkflowEndpointRef.workflow_id))%nat
        (InvariantViolation "workflow endpoint id is too long: {} bytes, max {}");
  validate_component self.(WorkflowEndpointRef.workflow_kind) WORKFLOW_KIND_MAX_LEN component_char.

Definition WorkflowStartRef_validate (self : WorkflowStartRef) : Result DomainError unit :=
  _ ← reject_if ((self.(WorkflowStartRef.recipe_format) =? 0)%N
                 || (self.(WorkflowStartRef.recipe_revision) =? 0)%N)
        (InvariantViolation "workflow start recipe format and recipe revision must be greater than zero");
  reject_if (bool_decide (self.(WorkflowStartRef.recipe_fingerprint) = "")
             || (RECIPE_FINGERPRINT_MAX_LEN
                   <? String.length self.(WorkflowStartRef.recipe_fingerprint))%nat)
    (InvariantViolation "workflow start recipe fingerprint must be 1..={RECIPE_FINGERPRINT_MAX_LEN} bytes").

Definition WorkflowToolTarget_validate (self : WorkflowToolTarget) : Result DomainError unit :=
  match self with
  | WorkflowToolTarget.Bound receiver _ => WorkflowEndpointRef_validate receiver
  | WorkflowToolTarget.Start start => WorkflowStartRef_validate start
  end.
Definition bound_receiver (self : WorkflowToolTarget) : option WorkflowEndpointRef :=
  match self with
  | WorkflowToolTarget.Bound receiver _ => Some receiver
  | WorkflowToolTarget.Start _ => None
  end.

Definition validate_completion_pointer (pointer : string) (max_promises : N)
    : Result DomainError unit :=
  _ ← reject_if (bool_decide (pointer = "") || negb (starts_with "/" pointer))
        (InvariantViolation "workflow tool completion key pointer must be a JSON Pointer starting with '/'");
  reject_if (max_promises <? 2)%N
    (InvariantViolation "workflow tool completion key pointer requires max_promises >= 2").

Definition WorkflowToolCompletionKeySource_validate (self : WorkflowToolCompletionKeySource)
    (max_promises : N) : Result DomainError unit :=
  match self with
  | WorkflowToolCompletionKeySource.Reply =>
      reject_if (negb (max_promises =? 1)%N)
        (InvariantViolation "workflow tool reply completion key source requires max_promises = 1")
  | WorkflowToolCompletionKeySource.StringArray pointer =>
      validate_completion_pointer pointer max_promises
  | WorkflowToolCompletionKeySource.ArrayItemField pointer field =>
      _ ← validate_completion_pointer pointer max_promises;
      reject_if (bool_decide (field = "") || existsb (Ascii.eqb "/"%char) (chars field))
        (InvariantViolation "workflow tool array-item completion key field must be a non-empty object key")
  | WorkflowToolCompletionKeySource.ArrayIndices pointer prefix =>
      _ ← validate_completion_pointer pointer max_promises;
      map_err (λ _, InvariantViolation "workflow tool array-index completion key prefix is invalid: {error}")
        (validate_completion_key (prefix +:+ u64_to_string (max_promises - 1)))
  end.

Definition WorkflowToolCompletion_validate (self : WorkflowToolCompletion)
    : Result DomainError unit :=
  match self with
  | WorkflowToolCompletion.Accepted => mret tt
  | WorkflowToolCompletion.Joined _ deadline_after_ms =>
      reject_if (bool_decide (deadline_after_ms = Some 0%N))
        (InvariantViolation "joined workflow tool completion requires a non-zero deadline_after_ms")
  | WorkflowToolCompletion.Promises _ _ max_promises key_source =>
      _ ← reject_if ((max_promises =? 0)%N || (MAX_COMPLETION_PROMISES <? max_promises)%N)
            (InvariantViolation "workflow tool completion max_promises must be 1..={MAX_COMPLETION_PROMISES}");
      WorkflowToolCompletionKeySource_validate key_source max_promises
  end.
Definition is_promise_bearing (self : WorkflowToolCompletion) : bool :=
  match self with
  | WorkflowToolCompletion.Joined _ _ | WorkflowToolCompletion.Promises _ _ _ _ => true
  | WorkflowToolCompletion.Accepted => false
  end.

Definition WorkflowToolDefinition_validate (self : WorkflowToolDefinition)
    : Result DomainError unit :=
  _ ← reject_if (self.(WorkflowToolDefinition.schema_revision) =? 0)%N
        (InvariantViolation "workflow tool {} schema revision must be greater than zero");
  _ ← validate_semantic_type self.(WorkflowToolDefinition.semantic_type);
  _ ← ToolSpec_validate self.(WorkflowToolDefinition.tool);
  reject_if (match self.(WorkflowToolDefinition.tool).(ToolSpec.kind) with
             | ToolKind.Builtin _ | ToolKind.Function _ => false
             | _ => true
             end)
    (InvariantViolation "workflow tool {} must use a function tool").

Definition validate_target_completion (target : WorkflowToolTarget)
    (completion : WorkflowToolCompletion) : Result DomainError unit :=
  match target, completion with
  | WorkflowToolTarget.Bound _ BoundWorkflowToolDispatch.Push,
    WorkflowToolCompletion.Joined _ None =>
      mthrow (InvariantViolation "workflow tool {tool_id} joined on a bound receiver requires a hard deadline: a receiver that never answers has no recovery path")
  | WorkflowToolTarget.Bound _ BoundWorkflowToolDispatch.Pull, WorkflowToolCompletion.Accepted
  | WorkflowToolTarget.Bound _ BoundWorkflowToolDispatch.Push, _
  | WorkflowToolTarget.Start _, WorkflowToolCompletion.Joined _ _
  | WorkflowToolTarget.Start _, WorkflowToolCompletion.Promises _ _ _ _ => mret tt
  | WorkflowToolTarget.Bound _ BoundWorkflowToolDispatch.Pull, _ =>
      mthrow (InvariantViolation "workflow tool {tool_id} pull dispatch supports Accepted completion only")
  | WorkflowToolTarget.Start _, WorkflowToolCompletion.Accepted =>
      mthrow (InvariantViolation "workflow tool {tool_id} fire-and-forget start targets are not supported; start targets require promise-bearing completion")
  end.

Definition validate_policy (self : WorkflowToolBinding) : Result DomainError unit :=
  _ ← reject_if
        (match bound_receiver self.(WorkflowToolBinding.target) with
         | Some receiver => bool_decide (receiver.(WorkflowEndpointRef.workflow_kind)
                                           = WORKFLOW_TOOL_EXECUTION_KIND)
         | None => false
         end)
        (InvariantViolation "workflow tool {} cannot bind a receiver of kind {WORKFLOW_TOOL_EXECUTION_KIND}, which is reserved for system-started executions");
  reject_if
    (match self.(WorkflowToolBinding.completion) with
     | WorkflowToolCompletion.Promises _ (Some 0%N) _ _ => true
     | _ => false
     end)
    (InvariantViolation "workflow tool {} requires a non-zero promise deadline_after_ms").

(** ** Writes to the component's state *)
Definition set_workflow_tools (f : WorkflowToolState → WorkflowToolState)
    (state : CoreAgentState) : CoreAgentState :=
  state <| CoreAgentState.workflow_tools ::= f |>.

Definition apply_workflow_tool_config_event (event : WorkflowToolConfigEvent)
    : CoreReducer unit :=
  state ← get_state;
  let status := state.(CoreAgentState.lifecycle).(LifecycleState.status) in
  let tools := state.(CoreAgentState.workflow_tools) in
  match event with
  | WorkflowToolConfigEvent.DeclaredBindingsAdmitted session_universe_id declaration_version
      lifecycle_controller creation_fingerprint bindings =>
      _ ← reject_if (bool_decide (status ≠ CoreAgentStatus.Open))
            (InvariantViolation "session integration workflow bindings can only be admitted to an open session");
      _ ← reject_if (is_some tools.(WorkflowToolState.session_universe_id)
                     || is_some tools.(WorkflowToolState.lifecycle_controller)
                     || is_some tools.(WorkflowToolState.declared_creation_fingerprint)
                     || negb (bool_decide (tools.(WorkflowToolState.bindings) = ∅)))
            (InvariantViolation "session integration workflow bindings are immutable after session creation");
      _ ← lift_result (for_each (λ binding, reject_if
            (bool_decide (binding.(WorkflowToolBinding.session_universe_id) ≠ session_universe_id))
            (InvariantViolation "workflow tool {} source universe does not match the integrated session"))
            bindings);
      modify_state (set_workflow_tools (λ tools,
        tools <| WorkflowToolState.session_universe_id := Some session_universe_id |>
              <| WorkflowToolState.lifecycle_controller := lifecycle_controller |>
              <| WorkflowToolState.declaration_version := Some declaration_version |>
              <| WorkflowToolState.declared_creation_fingerprint := Some creation_fingerprint |>
              <| WorkflowToolState.bindings :=
                   foldl (λ map binding,
                     <[binding.(WorkflowToolBinding.definition)
                         .(WorkflowToolDefinition.workflow_tool_id) := binding]> map)
                     ∅ bindings |>))
  | WorkflowToolConfigEvent.SystemBindingAdmitted binding =>
      _ ← reject_if (bool_decide (status ≠ CoreAgentStatus.Open))
            (InvariantViolation "system workflow bindings can only be admitted to an open session");
      let tool_id := binding.(WorkflowToolBinding.definition)
                       .(WorkflowToolDefinition.workflow_tool_id) in
      _ ← reject_if (is_some (tools.(WorkflowToolState.bindings) !! tool_id))
            (InvariantViolation "system workflow tool {tool_id} conflicts with an existing immutable binding");
      modify_state (set_workflow_tools (λ tools,
        tools <| WorkflowToolState.system_binding_ids ::= union {[tool_id]} |>
              <| WorkflowToolState.bindings ::= <[tool_id := binding]> |>))
  end.

(** ** Invocations *)
Section invocations.
Context `{!Externals}.

Definition validate_invocation_identity (binding : WorkflowToolBinding)
    (invocation : WorkflowToolInvocation) : Result DomainError unit :=
  let definition := binding.(WorkflowToolBinding.definition) in
  reject_if
    (bool_decide (invocation.(WorkflowToolInvocation.session_universe_id)
                    ≠ binding.(WorkflowToolBinding.session_universe_id))
     || bool_decide (invocation.(WorkflowToolInvocation.semantic_type)
                       ≠ definition.(WorkflowToolDefinition.semantic_type))
     || negb (invocation.(WorkflowToolInvocation.schema_revision)
                =? definition.(WorkflowToolDefinition.schema_revision))%N
     || bool_decide (invocation.(WorkflowToolInvocation.binding_fingerprint)
                       ≠ binding.(WorkflowToolBinding.binding_fingerprint))
     || bool_decide (invocation.(WorkflowToolInvocation.workflow_tool_id)
                       ≠ definition.(WorkflowToolDefinition.workflow_tool_id)))
    (InvariantViolation "workflow tool invocation {} does not match its durable binding").

Definition require_bound_target (binding : WorkflowToolBinding) : Result DomainError unit :=
  match binding.(WorkflowToolBinding.target) with
  | WorkflowToolTarget.Bound _ _ => mret tt
  | WorkflowToolTarget.Start _ => mthrow (InvariantViolation
      "workflow tool {} start-on-call targets do not produce bound-receiver invocations")
  end.
Definition require_start_target (binding : WorkflowToolBinding) : Result DomainError unit :=
  match binding.(WorkflowToolBinding.target) with
  | WorkflowToolTarget.Start _ => mret tt
  | WorkflowToolTarget.Bound _ _ => mthrow (InvariantViolation
      "workflow tool {} bound targets do not produce start intents")
  end.

(** A single promise, under the reserved key. *)
Definition is_reply_set (promises : gmap string PromiseId) : bool :=
  (size promises =? 1)%nat && is_some (promises !! REPLY_COMPLETION_KEY).

Definition validate_completion_promises (binding : WorkflowToolBinding)
    (invocation : WorkflowToolInvocation) : Result DomainError unit :=
  match binding.(WorkflowToolBinding.completion),
        invocation.(WorkflowToolInvocation.completion_promises) with
  | WorkflowToolCompletion.Accepted, None => mret tt
  | WorkflowToolCompletion.Accepted, Some _ => mthrow (InvariantViolation
      "accepted workflow tool invocation must not include completion promises")
  | _, None => mthrow (InvariantViolation
      "promise-bearing workflow tool invocation is missing its completion promises")
  | WorkflowToolCompletion.Joined _ _, Some promises =>
      reject_if (negb (is_reply_set promises))
        (InvariantViolation "joined workflow tool invocation must use the single reserved completion key `{REPLY_COMPLETION_KEY}`")
  | WorkflowToolCompletion.Promises _ _ max_promises key_source, Some promises =>
      _ ← reject_if (bool_decide (promises = ∅))
            (InvariantViolation "promise-bearing workflow tool invocation must create at least one promise");
      _ ← reject_if (max_promises <? N.of_nat (size promises) mod 2 ^ 32)%N
            (InvariantViolation "workflow tool invocation creates {} promises, binding allows {max_promises}");
      _ ← reject_if (bool_decide (key_source = WorkflowToolCompletionKeySource.Reply)
                     && negb (is_reply_set promises))
            (InvariantViolation "workflow tool reply key source must use the single reserved completion key `{REPLY_COMPLETION_KEY}`");
      for_each_fresh (E:=DomainError) snd
        (InvariantViolation "workflow tool completion promise {promise_id} is used for more than one key")
        (λ p, validate_completion_key p.1) no_check [] (btree_to_list promises)
  end.

(** The joined call of a suspension that an invocation is the producer of. *)
Definition joined_call_of (invocation : WorkflowToolInvocation) (joined : JoinedWorkflowCall)
    : bool :=
  bool_decide (joined.(JoinedWorkflowCall.call_id)
                 = invocation.(WorkflowToolInvocation.tool_call_id))
  && bool_decide (joined.(JoinedWorkflowCall.invocation_id)
                    = invocation.(WorkflowToolInvocation.invocation_id))
  && bool_decide ((promises ← invocation.(WorkflowToolInvocation.completion_promises);
                   promises !! REPLY_COMPLETION_KEY)
                    = Some joined.(JoinedWorkflowCall.promise_id)).

Definition validate_code_tool_invocation (state : CoreAgentState) (binding : WorkflowToolBinding)
    (scope : CodeToolScope) (call : CodeToolCall) (invocation : WorkflowToolInvocation)
    : Result DomainError unit :=
  parent ← code_tool_parent state scope.(CodeToolScope.spec);
  reject_if
    (bool_decide (invocation.(WorkflowToolInvocation.run_id)
                    ≠ parent.(WorkflowToolInvocation.run_id))
     || bool_decide (invocation.(WorkflowToolInvocation.turn_id)
                       ≠ parent.(WorkflowToolInvocation.turn_id))
     || bool_decide (invocation.(WorkflowToolInvocation.tool_batch_id)
                       ≠ parent.(WorkflowToolInvocation.tool_batch_id))
     || bool_decide (invocation.(WorkflowToolInvocation.session_id)
                       ≠ parent.(WorkflowToolInvocation.session_id))
     || bool_decide (invocation.(WorkflowToolInvocation.session_universe_id)
                       ≠ parent.(WorkflowToolInvocation.session_universe_id))
     || bool_decide (call.(CodeToolCall.spec).(CodeToolCallSpec.tool_id)
                       ≠ binding.(WorkflowToolBinding.definition)
                           .(WorkflowToolDefinition.tool).(ToolSpec.id))
     || bool_decide (call.(CodeToolCall.spec).(CodeToolCallSpec.arguments_ref)
                       ≠ invocation.(WorkflowToolInvocation.arguments_ref)))
    (InvariantViolation "code tool workflow invocation does not match its admitted scope and call").

(** The wait or the outcome a code tool's invocation may be recorded with. *)
Definition code_tool_completion_matches (binding : WorkflowToolBinding) (call : CodeToolCall)
    (invocation : WorkflowToolInvocation) : bool :=
  match binding.(WorkflowToolBinding.completion), call.(CodeToolCall.status) with
  | WorkflowToolCompletion.Joined _ _,
    CodeToolCallStatus.Waiting (ToolBatchSuspension.JoinedWorkflowCalls calls _) =>
      existsb (joined_call_of invocation) calls
  | WorkflowToolCompletion.Accepted, CodeToolCallStatus.Completed result
  | WorkflowToolCompletion.Promises _ _ _ _, CodeToolCallStatus.Completed result =>
      bool_decide (result.(CodeToolCallResult.status) = ToolCallStatus.Succeeded)
  | _, _ => false
  end.

(** The same for a call of the batch itself. *)
Definition validate_batch_call_completion (active_run : ActiveRun) (binding : WorkflowToolBinding)
    (call : ToolCallState) (invocation : WorkflowToolInvocation) : Result DomainError unit :=
  match binding.(WorkflowToolBinding.completion) with
  | WorkflowToolCompletion.Joined _ _ =>
      _ ← reject_if (bool_decide (call.(ToolCallState.status) ≠ ToolCallStatus.Pending))
            (InvariantViolation "joined workflow tool invocation requires its original call to remain pending");
      parked ← ok_or active_run.(ActiveRun.parked_tool_batch)
                 (InvariantViolation "joined workflow tool invocation requires a parked tool batch");
      match parked.(ParkedToolBatch.suspension) with
      | ToolBatchSuspension.JoinedWorkflowCalls calls _ =>
          reject_if (bool_decide (parked.(ParkedToolBatch.batch_id)
                                    ≠ invocation.(WorkflowToolInvocation.tool_batch_id))
                     || negb (existsb (joined_call_of invocation) calls))
            (InvariantViolation "joined workflow tool invocation is missing its durable parked mapping")
      | ToolBatchSuspension.AwaitTool _ _ => mthrow (InvariantViolation
          "joined workflow tool invocation requires a joined-workflow suspension")
      end
  | _ =>
      reject_if (bool_decide (call.(ToolCallState.status) ≠ ToolCallStatus.Succeeded))
        (InvariantViolation "workflow tool invocation does not match a successful durable tool call")
  end.

Definition validate_batch_invocation (active_run : ActiveRun) (binding : WorkflowToolBinding)
    (invocation : WorkflowToolInvocation) : Result DomainError unit :=
  batch ← ok_or (active_run.(ActiveRun.tool_batches)
                   !! invocation.(WorkflowToolInvocation.tool_batch_id))
            (InvariantViolation "workflow tool invocation references missing tool batch {}");
  _ ← reject_if (bool_decide (batch.(ActiveToolBatch.turn_id)
                                ≠ invocation.(WorkflowToolInvocation.turn_id)))
        (InvariantViolation "workflow tool invocation does not match its tool batch turn");
  call ← ok_or (snd <$> list_find (λ call,
                  call.(ToolCallState.call).(ObservedToolCall.call_id)
                    = invocation.(WorkflowToolInvocation.tool_call_id))
                  batch.(ActiveToolBatch.calls))
           (InvariantViolation "workflow tool invocation references missing tool call {}");
  _ ← reject_if
        (bool_decide (call.(ToolCallState.call).(ObservedToolCall.tool_id)
                        ≠ Some binding.(WorkflowToolBinding.definition)
                                 .(WorkflowToolDefinition.tool).(ToolSpec.id))
         || bool_decide (call.(ToolCallState.call).(ObservedToolCall.arguments_ref)
                           ≠ invocation.(WorkflowToolInvocation.arguments_ref)))
        (InvariantViolation "workflow tool invocation does not match its durable tool call");
  validate_batch_call_completion active_run binding call invocation.

Definition validate_recorded_invocation (state : CoreAgentState)
    (invocation : WorkflowToolInvocation) : Result DomainError unit :=
  binding ← ok_or (state.(CoreAgentState.workflow_tools).(WorkflowToolState.bindings)
                     !! invocation.(WorkflowToolInvocation.workflow_tool_id))
              (InvariantViolation "workflow tool invocation references unknown tool {}");
  _ ← validate_invocation_identity binding invocation;
  active_run ← ok_or state.(CoreAgentState.runs).(RunsState.active)
                 (InvariantViolation "workflow tool invocation can only be recorded for an active run");
  _ ← reject_if (bool_decide (active_run.(ActiveRun.run_id)
                                ≠ invocation.(WorkflowToolInvocation.run_id)))
        (InvariantViolation "workflow tool invocation does not match the active run");
  _ ← match code_tool_call_for_id state invocation.(WorkflowToolInvocation.tool_call_id) with
      | Some (scope, call) =>
          _ ← validate_code_tool_invocation state binding scope call invocation;
          reject_if (negb (code_tool_completion_matches binding call invocation))
            (InvariantViolation "code tool workflow invocation does not match its durable completion or wait")
      | None => validate_batch_invocation active_run binding invocation
      end;
  match invocation.(WorkflowToolInvocation.completion_promises) with
  | Some promises =>
      for_each (λ promise_id,
        reject_if (is_none (state.(CoreAgentState.promises).(PromiseComponentState.promises)
                              !! promise_id))
          (InvariantViolation "workflow tool invocation references missing completion promise for key `{key}`"))
        (btree_values promises)
  | None => mret tt
  end.

(** [bindings.get(id).expect("binding was validated above")]. *)
Definition validated_binding (state : CoreAgentState) (invocation : WorkflowToolInvocation)
    : Result DomainError WorkflowToolBinding :=
  ok_or (state.(CoreAgentState.workflow_tools).(WorkflowToolState.bindings)
           !! invocation.(WorkflowToolInvocation.workflow_tool_id))
    (InvariantViolation "binding was validated above").

(** The first failure recorded for an invocation stays; the same one again is a
    no-op. *)
Definition record_failure (failures : gmap WorkflowToolInvocationId BlobRef)
    (write : (gmap WorkflowToolInvocationId BlobRef → gmap WorkflowToolInvocationId BlobRef)
             → WorkflowToolState → WorkflowToolState)
    (invocation_id : WorkflowToolInvocationId) (error_ref : BlobRef) (conflict : string)
    : CoreReducer unit :=
  match failures !! invocation_id with
  | Some existing =>
      if bool_decide (existing = error_ref) then mret tt
      else mthrow (InvariantViolation conflict)
  | None => modify_state (set_workflow_tools (write (insert invocation_id error_ref)))
  end.

Definition apply_workflow_tool_event (event : WorkflowToolEvent) : CoreReducer unit :=
  state ← get_state;
  let tools := state.(CoreAgentState.workflow_tools) in
  match event with
  | WorkflowToolEvent.Invoked invocation =>
      let invocation_id := invocation.(WorkflowToolInvocation.invocation_id) in
      _ ← lift_result (validate_recorded_invocation state invocation);
      _ ← lift_result (validated_binding state invocation ≫= require_bound_target);
      _ ← reject_if (is_some (tools.(WorkflowToolState.bound_invocations) !! invocation_id))
            (InvariantViolation "workflow tool invocation {} is already recorded");
      modify_state (set_workflow_tools (λ tools,
        tools <| WorkflowToolState.bound_invocations ::= <[invocation_id := invocation]> |>))
  | WorkflowToolEvent.StartRequested invocation _ =>
      let invocation_id := invocation.(WorkflowToolInvocation.invocation_id) in
      _ ← lift_result (validate_recorded_invocation state invocation);
      _ ← lift_result (validated_binding state invocation ≫= require_start_target);
      _ ← reject_if (is_some (tools.(WorkflowToolState.start_requests) !! invocation_id))
            (InvariantViolation "workflow tool start intent {} was already recorded");
      modify_state (set_workflow_tools (λ tools,
        tools <| WorkflowToolState.start_requests ::= <[invocation_id := invocation]> |>))
  | WorkflowToolEvent.DeliveryFailed invocation_id error_ref =>
      _ ← reject_if (is_none (tools.(WorkflowToolState.bound_invocations) !! invocation_id))
            (InvariantViolation "workflow tool delivery failure references unknown invocation {invocation_id}");
      record_failure tools.(WorkflowToolState.delivery_failures)
        (λ f tools, tools <| WorkflowToolState.delivery_failures ::= f |>)
        invocation_id error_ref
        "workflow tool invocation {invocation_id} already has a different delivery failure"
  | WorkflowToolEvent.StartFailed invocation_id error_ref =>
      _ ← reject_if (is_none (tools.(WorkflowToolState.start_requests) !! invocation_id))
            (InvariantViolation "workflow tool start failure references unknown start intent {invocation_id}");
      record_failure tools.(WorkflowToolState.start_failures)
        (λ f tools, tools <| WorkflowToolState.start_failures ::= f |>)
        invocation_id error_ref
        "workflow tool start intent {invocation_id} already has a different terminal failure"
  end.
End invocations.

(** ** Finished invocations *)
Definition completion_promise_ids (invocation : WorkflowToolInvocation) : list PromiseId :=
  match invocation.(WorkflowToolInvocation.completion_promises) with
  | Some promises => btree_values promises
  | None => []
  end.

Definition in_flight_invocation_count (self : WorkflowToolState)
    (promises : PromiseComponentState) (run_id : RunId) (tool_id : WorkflowToolId) : N :=
  let invocations := btree_values self.(WorkflowToolState.bound_invocations)
                     ++ btree_values self.(WorkflowToolState.start_requests) in
  let waiting invocation :=
    bool_decide (invocation.(WorkflowToolInvocation.run_id) = run_id)
    && bool_decide (invocation.(WorkflowToolInvocation.workflow_tool_id) = tool_id)
    && existsb (λ promise_id,
         match promises.(PromiseComponentState.promises) !! promise_id with
         | Some promise => negb (PromiseStatus_is_terminal promise.(Promise.status))
         | None => false
         end) (completion_promise_ids invocation) in
  N.min (N.of_nat (length (List.filter waiting invocations))) u32_max.

Definition invocation_finished (state : CoreAgentState) (invocation : WorkflowToolInvocation)
    : bool :=
  forallb (λ promise_id,
      match state.(CoreAgentState.promises).(PromiseComponentState.promises) !! promise_id with
      | Some promise => PromiseStatus_is_terminal promise.(Promise.status)
      | None => true
      end) (completion_promise_ids invocation)
  && negb (existsb (λ scope,
       negb scope.(CodeToolScope.closed)
       && bool_decide (scope.(CodeToolScope.spec).(CodeToolScopeSpec.parent_invocation_id)
                         = invocation.(WorkflowToolInvocation.invocation_id)))
       (btree_values (code_scopes state))).

(** The ids swept; a closed code tool scope goes with its parent. *)
Definition finished_invocations (state : CoreAgentState) : gset WorkflowToolInvocationId :=
  let tools := state.(CoreAgentState.workflow_tools) in
  list_to_set (WorkflowToolInvocation.invocation_id <$>
    List.filter (invocation_finished state)
      (btree_values tools.(WorkflowToolState.bound_invocations)
       ++ btree_values tools.(WorkflowToolState.start_requests))).

Definition not_in {V} (ids : gset string) (id : string) (_ : V) : bool :=
  bool_decide (id ∉ ids).
Definition prune_finished_invocations (state : CoreAgentState) : CoreAgentState :=
  let finished := finished_invocations state in
  if bool_decide (finished = ∅) then state else
  set_code_scopes (btree_retain (λ _ scope,
      not_in finished scope.(CodeToolScope.spec).(CodeToolScopeSpec.parent_invocation_id) scope))
    (set_workflow_tools (λ tools,
      tools <| WorkflowToolState.bound_invocations ::= btree_retain (not_in finished) |>
            <| WorkflowToolState.delivery_failures ::= btree_retain (not_in finished) |>
            <| WorkflowToolState.start_requests ::= btree_retain (not_in finished) |>
            <| WorkflowToolState.start_failures ::= btree_retain (not_in finished) |>) state).
