(* ===== verification/Bindings.v ===== *)
(** * Fingerprints of workflow tools

    The identities the core derives by digesting length-prefixed parts: of a binding, of a
    declared session, of an invocation and of a started execution
    ([core/components/workflow_tool.rs]). A digest is what [Sha256] gives for the bytes fed
    to the hasher, so that a hasher is the bytes it was fed so far. *)
From Stdlib Require Import Ascii.
From S2P Require Import Prelude Ids Text Types Events Commands Externals RunState ToolSpecs.
From S2P Require Import WorkflowTools.
Set Primitive Projections.

Definition BINDING_FINGERPRINT_DOMAIN : string := "lightspeed.workflow-tool.binding.v4".
Definition CREATION_FINGERPRINT_DOMAIN : string := "lightspeed.declared-session.creation.v1".
Definition FINGERPRINT_ENCODING_VERSION : N := 4.
Definition INVOCATION_ID_DOMAIN : string := "lightspeed.workflow-tool.invocation.v1".
Definition EXECUTION_ID_DOMAIN : string := "lightspeed.workflow-tool.execution.v1".

(** ** Parts *)
(** [to_be_bytes]: the [width] low bytes of a number, the most significant first. *)
Fixpoint be_bytes (width : nat) (n : N) : string :=
  match width with
  | O => ""
  | S width => be_bytes width (n / 256) +:+ String (Ascii.ascii_of_N (n mod 256)) ""
  end.
Definition u32_be_bytes : N → string := be_bytes 4.
Definition u64_be_bytes : N → string := be_bytes 8.
(** [Uuid::as_bytes]. *)
Definition uuid_bytes : Uuid → string := be_bytes 16.

(** [update_digest_part]: the length of the field as a [u64], then the field. *)
Definition digest_part (field : string) : string :=
  u64_be_bytes (N.of_nat (String.length field)) +:+ field.
Definition digest_parts (fields : list string) : string :=
  foldr (λ field bytes, digest_part field +:+ bytes) "" fields.

(** The parts each [update_..] function feeds to the hasher, in order. *)
Definition optional_part (value : option string) : list string :=
  match value with Some bytes => ["some"; bytes] | None => ["none"] end.
Definition optional_bool_part (value : option bool) : list string :=
  [match value with None => "none" | Some false => "false" | Some true => "true" end].
Definition endpoint_parts (endpoint : WorkflowEndpointRef) : list string :=
  [endpoint.(WorkflowEndpointRef.workflow_id); endpoint.(WorkflowEndpointRef.workflow_kind)].
Definition optional_endpoint_parts (endpoint : option WorkflowEndpointRef) : list string :=
  match endpoint with Some endpoint => "some" :: endpoint_parts endpoint | None => ["none"] end.

Definition target_parts (target : WorkflowToolTarget) : list string :=
  match target with
  | WorkflowToolTarget.Bound receiver dispatch =>
      "bound" :: endpoint_parts receiver
      ++ [match dispatch with
          | BoundWorkflowToolDispatch.Pull => "pull"
          | BoundWorkflowToolDispatch.Push => "push" end]
  | WorkflowToolTarget.Start start =>
      ["start"; u32_be_bytes start.(WorkflowStartRef.recipe_format);
       u32_be_bytes start.(WorkflowStartRef.recipe_revision);
       start.(WorkflowStartRef.recipe_ref); start.(WorkflowStartRef.recipe_fingerprint)]
  end.
Definition key_source_parts (key_source : WorkflowToolCompletionKeySource) : list string :=
  match key_source with
  | WorkflowToolCompletionKeySource.Reply => ["reply"]
  | WorkflowToolCompletionKeySource.StringArray pointer => ["string_array"; pointer]
  | WorkflowToolCompletionKeySource.ArrayItemField pointer field =>
      ["array_item_field"; pointer; field]
  | WorkflowToolCompletionKeySource.ArrayIndices pointer prefix =>
      ["array_indices"; pointer; prefix]
  end.
Definition completion_parts (completion : WorkflowToolCompletion) : list string :=
  match completion with
  | WorkflowToolCompletion.Accepted => ["accepted"]
  | WorkflowToolCompletion.Joined reply_schema_ref deadline_after_ms =>
      "joined" :: optional_part reply_schema_ref
      ++ [match deadline_after_ms with Some ms => u64_be_bytes ms | None => "none" end]
  | WorkflowToolCompletion.Promises reply_schema_ref deadline_after_ms max_promises key_source =>
      "promises" :: optional_part reply_schema_ref
      ++ optional_part (u64_be_bytes <$> deadline_after_ms)
      ++ [u32_be_bytes max_promises] ++ key_source_parts key_source
  end.

Section fingerprints.
Context `{!Externals}.

Definition tool_kind_parts (kind : ToolKind) : Result DomainError (list string) :=
  match kind with
  | ToolKind.Builtin builtin => mret ["builtin"; json_builtin_tool builtin]
  | ToolKind.Function function =>
      mret ("function" :: optional_part function.(FunctionToolSpec.description_ref)
        ++ [function.(FunctionToolSpec.input_schema_ref)]
        ++ optional_part function.(FunctionToolSpec.output_schema_ref)
        ++ optional_bool_part function.(FunctionToolSpec.strict)
        ++ optional_part function.(FunctionToolSpec.provider_options_ref))
  | _ => mthrow (InvariantViolation "workflow tool fingerprint requires a function definition")
  end.
Definition parallelism_part (parallelism : ToolParallelism) : string :=
  match parallelism with
  | ToolParallelism.Exclusive => "exclusive"
  | ToolParallelism.ParallelSafe => "parallel_safe"
  end.
Definition definition_parts (definition : WorkflowToolDefinition)
    : Result DomainError (list string) :=
  let tool := definition.(WorkflowToolDefinition.tool) in
  kind ← tool_kind_parts tool.(ToolSpec.kind);
  mret ([definition.(WorkflowToolDefinition.workflow_tool_id);
         u32_be_bytes definition.(WorkflowToolDefinition.schema_revision);
         definition.(WorkflowToolDefinition.semantic_type); tool.(ToolSpec.id)]
        ++ kind ++ [parallelism_part tool.(ToolSpec.parallelism); "target_free"]).

(** [canonical_fingerprint_hasher]. *)
Definition fingerprint_domain_parts (domain : string) : list string :=
  [domain; u32_be_bytes FINGERPRINT_ENCODING_VERSION].

(** ** Fingerprints *)
Definition binding_fingerprint_bytes (session_universe_id : Uuid)
    (definition : WorkflowToolDefinition) (target : WorkflowToolTarget)
    (completion : WorkflowToolCompletion) : Result DomainError string :=
  definition ← definition_parts definition;
  mret (digest_parts (fingerprint_domain_parts BINDING_FINGERPRINT_DOMAIN
    ++ [uuid_bytes session_universe_id] ++ definition ++ target_parts target
    ++ completion_parts completion)).
Definition binding_fingerprint (session_universe_id : Uuid) (definition : WorkflowToolDefinition)
    (target : WorkflowToolTarget) (completion : WorkflowToolCompletion)
    : Result DomainError string :=
  bytes ← binding_fingerprint_bytes session_universe_id definition target completion;
  mret ("wtb:sha256:" +:+ sha256_hex bytes).

Definition WorkflowToolBinding_validate (self : WorkflowToolBinding) : Result DomainError unit :=
  _ ← WorkflowToolDefinition_validate self.(WorkflowToolBinding.definition);
  _ ← WorkflowToolTarget_validate self.(WorkflowToolBinding.target);
  _ ← WorkflowToolCompletion_validate self.(WorkflowToolBinding.completion);
  _ ← validate_target_completion self.(WorkflowToolBinding.target)
        self.(WorkflowToolBinding.completion);
  expected ← binding_fingerprint self.(WorkflowToolBinding.session_universe_id)
    self.(WorkflowToolBinding.definition) self.(WorkflowToolBinding.target)
    self.(WorkflowToolBinding.completion);
  reject_if (bool_decide (self.(WorkflowToolBinding.binding_fingerprint) ≠ expected))
    (InvariantViolation "workflow tool {} binding fingerprint does not match its durable definition, target, and completion").

Definition creation_fingerprint (session_universe_id : Uuid) (version : N)
    (controller : option WorkflowEndpointRef) (bindings : list WorkflowToolBinding)
    : Result DomainError string :=
  _ ← for_each WorkflowToolBinding_validate bindings;
  mret ("dsc:sha256:" +:+ sha256_hex (digest_parts
    (fingerprint_domain_parts CREATION_FINGERPRINT_DOMAIN
     ++ [uuid_bytes session_universe_id; u32_be_bytes version]
     ++ optional_endpoint_parts controller
     ++ [u64_be_bytes (N.of_nat (length bindings))]
     ++ (WorkflowToolBinding.binding_fingerprint <$> bindings)))).

(** [digest_fields]. *)
Definition digest_fields (domain : string) (fields : list string) : string :=
  sha256_hex (digest_parts (domain :: fields)).
Definition workflow_tool_execution_id (invocation_id : WorkflowToolInvocationId)
    (recipe_fingerprint : string) : string :=
  "wtx:sha256:" +:+ digest_fields EXECUTION_ID_DOMAIN [invocation_id; recipe_fingerprint].
Definition WorkflowToolInvocationId_for_call (session_universe_id : Uuid) (session_id : SessionId)
    (run_id : RunId) (turn_id : TurnId) (tool_batch_id : ToolBatchId) (tool_call_id : ToolCallId)
    (binding_fingerprint : string) : WorkflowToolInvocationId :=
  "wti:sha256:" +:+ digest_fields INVOCATION_ID_DOMAIN
    [uuid_bytes session_universe_id; session_id; u64_be_bytes run_id; u64_be_bytes turn_id;
     u64_be_bytes tool_batch_id; tool_call_id; binding_fingerprint].
End fingerprints.

(** * Admission of workflow tools

    The trusted declarations of a session become bindings, each checked and fingerprinted
    once ([WorkflowToolBinding::admit] and [DeclaredSessionWorkflowTools::admit] of
    [core/components/workflow_tool.rs]). *)

Definition DECLARED_TOOL_DECLARATION_VERSION : N := 1.
Definition MAX_DECLARED_TOOLS : nat := 32.

(** [sort_by], which keeps the order of equal elements. *)
Fixpoint insert_by_key {A K} `{!KeyOrder K} (key : A → K) (x : A) (l : list A) : list A :=
  match l with
  | [] => [x]
  | y :: l' => if decide (key_le (key x) (key y)) then x :: l else y :: insert_by_key key x l'
  end.
Definition sort_by_key {A K} `{!KeyOrder K} (key : A → K) (l : list A) : list A :=
  foldr (insert_by_key key) [] l.

(** [if let Some(x) = option { f(x)?; }]. *)
Definition for_some {M : Type → Type} `{MRet M} {A : Type} (f : A → M unit) (o : option A)
    : M unit :=
  match o with Some x => f x | None => mret tt end.

Section bindings.
Context `{!Externals}.

Definition WorkflowToolBinding_admit (session_universe_id : Uuid)
    (definition : WorkflowToolDefinition) (target : WorkflowToolTarget)
    (completion : WorkflowToolCompletion) : Result DomainError WorkflowToolBinding :=
  _ ← WorkflowToolDefinition_validate definition;
  _ ← WorkflowToolTarget_validate target;
  _ ← WorkflowToolCompletion_validate completion;
  _ ← validate_target_completion target completion;
  fingerprint ← binding_fingerprint session_universe_id definition target completion;
  let binding :=
    {| WorkflowToolBinding.session_universe_id := session_universe_id;
       WorkflowToolBinding.definition := definition;
       WorkflowToolBinding.target := target;
       WorkflowToolBinding.completion := completion;
       WorkflowToolBinding.binding_fingerprint := fingerprint |} in
  _ ← validate_policy binding;
  mret binding.

Definition has_positive_deadline (completion : WorkflowToolCompletion) : bool :=
  match completion with
  | WorkflowToolCompletion.Joined _ (Some deadline)
  | WorkflowToolCompletion.Promises _ (Some deadline) _ _ => (0 <? deadline)%N
  | _ => false
  end.
Definition validate_controller_self_receiver (binding : WorkflowToolBinding)
    (lifecycle_controller : option WorkflowEndpointRef) : Result DomainError unit :=
  if bool_decide (bound_receiver binding.(WorkflowToolBinding.target) ≠ lifecycle_controller)
     || is_none lifecycle_controller
  then mret tt
  else if has_positive_deadline binding.(WorkflowToolBinding.completion) then mret tt
  else reject_if (is_promise_bearing binding.(WorkflowToolBinding.completion))
         (InvariantViolation "workflow tool {} bound to the session's lifecycle controller requires a non-zero promise deadline_after_ms").

(** The loop over the sorted declarations, with the ids and names seen so far. *)
Fixpoint admit_declarations (session_universe_id : Uuid)
    (lifecycle_controller : option WorkflowEndpointRef) (tool_ids : list WorkflowToolId)
    (tool_names : list ToolId) (declarations : list WorkflowToolDeclaration)
    : Result DomainError (list WorkflowToolBinding) :=
  match declarations with
  | [] => mret []
  | declaration :: declarations =>
      let definition := declaration.(WorkflowToolDeclaration.definition) in
      let tool_id := definition.(WorkflowToolDefinition.workflow_tool_id) in
      let tool_name := definition.(WorkflowToolDefinition.tool).(ToolSpec.id) in
      _ ← reject_if (bool_decide (tool_id ∈ tool_ids))
            (InvariantViolation "session integration contains duplicate tool id {}");
      _ ← reject_if (bool_decide (tool_name ∈ tool_names))
            (InvariantViolation "session integration contains duplicate tool name {}");
      binding ← WorkflowToolBinding_admit session_universe_id definition
        declaration.(WorkflowToolDeclaration.target)
        declaration.(WorkflowToolDeclaration.completion);
      _ ← validate_controller_self_receiver binding lifecycle_controller;
      bindings ← admit_declarations session_universe_id lifecycle_controller
        (tool_id :: tool_ids) (tool_name :: tool_names) declarations;
      mret (binding :: bindings)
  end.

Definition declaration_id (declaration : WorkflowToolDeclaration) : WorkflowToolId :=
  declaration.(WorkflowToolDeclaration.definition).(WorkflowToolDefinition.workflow_tool_id).
Definition DeclaredSessionWorkflowTools_admit (self : DeclaredSessionWorkflowTools)
    (session_universe_id : Uuid) : Result DomainError AdmittedDeclaredSessionWorkflowTools :=
  let version := self.(DeclaredSessionWorkflowTools.version) in
  let controller := self.(DeclaredSessionWorkflowTools.lifecycle_controller) in
  let tools := self.(DeclaredSessionWorkflowTools.tools) in
  _ ← reject_if (negb (version =? DECLARED_TOOL_DECLARATION_VERSION)%N)
        (InvariantViolation "unsupported session integration version {}");
  _ ← for_some WorkflowEndpointRef_validate controller;
  _ ← reject_if (MAX_DECLARED_TOOLS <? length tools)%nat
        (InvariantViolation "session integration contains {} tools, max {}");
  bindings ← admit_declarations session_universe_id controller [] []
    (sort_by_key declaration_id tools);
  fingerprint ← creation_fingerprint session_universe_id version controller bindings;
  mret {| AdmittedDeclaredSessionWorkflowTools.session_universe_id := session_universe_id;
          AdmittedDeclaredSessionWorkflowTools.version := version;
          AdmittedDeclaredSessionWorkflowTools.lifecycle_controller := controller;
          AdmittedDeclaredSessionWorkflowTools.creation_fingerprint := fingerprint;
          AdmittedDeclaredSessionWorkflowTools.bindings := bindings |}.
End bindings.

(** * Emissions

    The facts a session or another durable workflow sends to other workflows, each under
    an id derived from what it says ([emission.rs]), so that a repeat is recognised. *)

Definition EMISSION_ID_PREFIX : string := "emission:sha256:".
Definition EMISSION_ID_HEX_LEN : nat := 64.
Definition EMISSION_HASH_DOMAIN : string := "lightspeed.emission.v1".

(** A validated string. *)
Abbreviation EmissionId := string (only parsing).
Module EmissionIdError.
Inductive EmissionIdError : Type := InvalidFormat (value : string).
End EmissionIdError.
Abbreviation EmissionIdError := EmissionIdError.EmissionIdError.
Definition is_canonical_emission_id (value : string) : bool :=
  match match strip_prefix EMISSION_ID_PREFIX value with
        | Some hex => Some hex
        | None => strip_prefix "wti:sha256:" value
        end with
  | Some hex => (String.length hex =? EMISSION_ID_HEX_LEN)%nat && all_chars is_lower_hex hex
  | None => false
  end.
Definition EmissionId_parse (value : string) : Result EmissionIdError EmissionId :=
  if is_canonical_emission_id value then mret value
  else mthrow (EmissionIdError.InvalidFormat value).

(** ** What an emission is *)
Module EmissionProducer.
Inductive EmissionProducer : Type :=
| Session (universe_id : Uuid) (session_id : SessionId) (log_seq : EventSeq)
| Workflow (universe_id : Uuid) (workflow_id : string).
End EmissionProducer.
Abbreviation EmissionProducer := EmissionProducer.EmissionProducer.
Definition EmissionProducer_universe_id (self : EmissionProducer) : Uuid :=
  match self with
  | EmissionProducer.Session universe_id _ _ | EmissionProducer.Workflow universe_id _ =>
      universe_id
  end.
Module EmissionBody.
Inductive EmissionBody : Type :=
| RunTerminal (token : string) (run_id : RunId) (status : RunStatus)
    (output : option ContentRef) (failure_message_ref : option BlobRef)
| SourceResolution (promise_id : PromiseId) (resolution : PromiseResolution)
| ToolInvocation (invocation : WorkflowToolInvocation) (holder_workflow_id : string)
| InvocationCancellation (invocation_id : WorkflowToolInvocationId) (completion_key : string)
    (promise_id : PromiseId).
End EmissionBody.
Abbreviation EmissionBody := EmissionBody.EmissionBody.
Module EmissionEnvelope.
Record EmissionEnvelope : Type := {
  emission_id : EmissionId;
  producer : EmissionProducer;
  body : EmissionBody;
}.
End EmissionEnvelope.
Abbreviation EmissionEnvelope := EmissionEnvelope.EmissionEnvelope.

Section emissions.
Context `{!Externals}.

(** ** Ids *)
(** What is fed to the hasher: the domain, the kind and the parts, each length-prefixed. *)
Definition emission_bytes (kind : string) (parts : list string) : string :=
  digest_parts (EMISSION_HASH_DOMAIN :: kind :: parts).
Definition EmissionId_from_parts (kind : string) (parts : list string) : EmissionId :=
  EMISSION_ID_PREFIX +:+ sha256_hex (emission_bytes kind parts).

Definition EmissionId_for_run_terminal (universe_id : Uuid) (session_id : SessionId)
    (run_id : RunId) (token : string) : EmissionId :=
  EmissionId_from_parts "run_terminal"
    [uuid_to_string universe_id; session_id; u64_be_bytes run_id; token].
(** A promise id is a number of its session, so the holder is part of the identity. *)
Definition EmissionId_for_source_resolution (universe_id : Uuid)
    (workflow_id holder_workflow_id : string) (promise_id : PromiseId) : EmissionId :=
  EmissionId_from_parts "source_resolution"
    [uuid_to_string universe_id; workflow_id; holder_workflow_id;
     PromiseId_from_number promise_id].
Definition EmissionId_for_tool_invocation (invocation_id : WorkflowToolInvocationId)
    : EmissionId := invocation_id.
Definition EmissionId_for_invocation_cancellation (invocation_id : WorkflowToolInvocationId)
    (completion_key : string) : EmissionId :=
  EmissionId_from_parts "invocation_cancellation" [invocation_id; completion_key].

(** ** Envelopes *)
Definition EmissionEnvelope_run_terminal (universe_id : Uuid) (session_id : SessionId)
    (log_seq : EventSeq) (token : string) (run_id : RunId) (status : RunStatus)
    (output : option ContentRef) (failure_message_ref : option BlobRef) : EmissionEnvelope :=
  {| EmissionEnvelope.emission_id :=
       EmissionId_for_run_terminal universe_id session_id run_id token;
     EmissionEnvelope.producer := EmissionProducer.Session universe_id session_id log_seq;
     EmissionEnvelope.body :=
       EmissionBody.RunTerminal token run_id status output failure_message_ref |}.
Definition EmissionEnvelope_source_resolution (universe_id : Uuid)
    (workflow_id holder_workflow_id : string) (promise_id : PromiseId)
    (resolution : PromiseResolution) : EmissionEnvelope :=
  {| EmissionEnvelope.emission_id :=
       EmissionId_for_source_resolution universe_id workflow_id holder_workflow_id promise_id;
     EmissionEnvelope.producer := EmissionProducer.Workflow universe_id workflow_id;
     EmissionEnvelope.body := EmissionBody.SourceResolution promise_id resolution |}.
Definition EmissionEnvelope_invocation_cancellation (universe_id : Uuid)
    (session_id : SessionId) (log_seq : EventSeq) (invocation_id : WorkflowToolInvocationId)
    (completion_key : string) (promise_id : PromiseId) : EmissionEnvelope :=
  {| EmissionEnvelope.emission_id :=
       EmissionId_for_invocation_cancellation invocation_id completion_key;
     EmissionEnvelope.producer := EmissionProducer.Session universe_id session_id log_seq;
     EmissionEnvelope.body :=
       EmissionBody.InvocationCancellation invocation_id completion_key promise_id |}.
Definition EmissionEnvelope_tool_invocation (universe_id : Uuid) (session_id : SessionId)
    (log_seq : EventSeq) (invocation : WorkflowToolInvocation) (holder_workflow_id : string)
    : EmissionEnvelope :=
  {| EmissionEnvelope.emission_id :=
       EmissionId_for_tool_invocation invocation.(WorkflowToolInvocation.invocation_id);
     EmissionEnvelope.producer := EmissionProducer.Session universe_id session_id log_seq;
     EmissionEnvelope.body := EmissionBody.ToolInvocation invocation holder_workflow_id |}.
End emissions.
