(* ===== verification/InvokeEffects.v ===== *)
(** * Invocations as effects

    A workflow tool's executor attaches its invocation to the tool result as an effect; the
    core reads it back and checks it against the state before it records anything
    ([core/components/workflow_tool.rs]). *)
From S2P Require Import Prelude Ids Text Types Events Commands Externals RunState Promises.
From S2P Require Import ToolSpecs CodeTools Compaction WorkflowTools Bindings.

Definition WORKFLOW_TOOL_INVOKE_EFFECT_KIND : string := "lightspeed.core.workflow_tool.invoke".
Definition EFFECT_INVOCATION_ID : string := "invocation_id".
Definition EFFECT_WORKFLOW_TOOL_ID : string := "workflow_tool_id".
Definition EFFECT_SEMANTIC_TYPE : string := "semantic_type".
Definition EFFECT_SCHEMA_REVISION : string := "schema_revision".
Definition EFFECT_BINDING_FINGERPRINT : string := "binding_fingerprint".
Definition EFFECT_SESSION_UNIVERSE_ID : string := "session_universe_id".
Definition EFFECT_SESSION_ID : string := "session_id".
Definition EFFECT_RUN_ID : string := "run_id".
Definition EFFECT_TURN_ID : string := "turn_id".
Definition EFFECT_TOOL_BATCH_ID : string := "tool_batch_id".
Definition EFFECT_TOOL_CALL_ID : string := "tool_call_id".
Definition EFFECT_ARGUMENTS_REF : string := "arguments_ref".
Definition EFFECT_EXECUTION_CONTEXT_REF : string := "execution_context_ref".
Definition EFFECT_COMPLETION_PROMISES : string := "completion_promises".
Definition EFFECT_COMPLETION_DEADLINE_AT_MS : string := "completion_deadline_at_ms".

Section effects.
Context `{!Externals}.

(** ** Writing *)
(** The fields every invocation has, in the order the source inserts them. *)
Definition invocation_fields (invocation : WorkflowToolInvocation) : list (string * string) :=
  [(EFFECT_INVOCATION_ID, invocation.(WorkflowToolInvocation.invocation_id));
   (EFFECT_WORKFLOW_TOOL_ID, invocation.(WorkflowToolInvocation.workflow_tool_id));
   (EFFECT_SEMANTIC_TYPE, invocation.(WorkflowToolInvocation.semantic_type));
   (EFFECT_SCHEMA_REVISION, u64_to_string invocation.(WorkflowToolInvocation.schema_revision));
   (EFFECT_BINDING_FINGERPRINT, invocation.(WorkflowToolInvocation.binding_fingerprint));
   (EFFECT_SESSION_UNIVERSE_ID,
    uuid_to_string invocation.(WorkflowToolInvocation.session_universe_id));
   (EFFECT_SESSION_ID, invocation.(WorkflowToolInvocation.session_id));
   (EFFECT_RUN_ID, u64_to_string invocation.(WorkflowToolInvocation.run_id));
   (EFFECT_TURN_ID, u64_to_string invocation.(WorkflowToolInvocation.turn_id));
   (EFFECT_TOOL_BATCH_ID, u64_to_string invocation.(WorkflowToolInvocation.tool_batch_id));
   (EFFECT_TOOL_CALL_ID, invocation.(WorkflowToolInvocation.tool_call_id))].
Definition insert_all {A} (fields : list (string * A)) (data : gmap string A) : gmap string A :=
  foldl (λ data field, <[field.1 := field.2]> data) data fields.

Definition workflow_tool_invoke_effect (invocation : WorkflowToolInvocation) : ToolEffect :=
  let data := insert_all (invocation_fields invocation) ∅ in
  {| ToolEffect.kind := WORKFLOW_TOOL_INVOKE_EFFECT_KIND;
     ToolEffect.data :=
       match invocation.(WorkflowToolInvocation.completion_promises) with
       | Some promises =>
           <[EFFECT_COMPLETION_PROMISES :=
               json_string_map (PromiseId_from_number <$> promises)]> data
       | None => data
       end;
     ToolEffect.refs :=
       insert_all match invocation.(WorkflowToolInvocation.execution_context_ref) with
                  | Some context_ref => [(EFFECT_EXECUTION_CONTEXT_REF, context_ref)]
                  | None => []
                  end
         {[EFFECT_ARGUMENTS_REF := invocation.(WorkflowToolInvocation.arguments_ref)]} |}.

Definition with_completion_deadline (effect : ToolEffect) (deadline_at_ms : option N)
    : ToolEffect :=
  match deadline_at_ms with
  | Some deadline_at_ms =>
      {| ToolEffect.kind := effect.(ToolEffect.kind);
         ToolEffect.data := <[EFFECT_COMPLETION_DEADLINE_AT_MS := u64_to_string deadline_at_ms]>
                              effect.(ToolEffect.data);
         ToolEffect.refs := effect.(ToolEffect.refs) |}
  | None => effect
  end.

(** ** Reading *)
Definition completion_deadline_from_invoke_effect (effect : ToolEffect)
    : Result DomainError (option N) :=
  transpose_map (λ value, ok_or (parse_u64 value)
      (InvariantViolation "workflow tool invoke effect completion deadline is not a u64"))
    (effect.(ToolEffect.data) !! EFFECT_COMPLETION_DEADLINE_AT_MS).

Definition invoke_effect_field (effect : ToolEffect) (key : string) : Result DomainError string :=
  ok_or (effect.(ToolEffect.data) !! key)
    (InvariantViolation "workflow tool invoke effect is missing `{key}`").
Definition invoke_effect_u64 (effect : ToolEffect) (key : string) : Result DomainError N :=
  value ← invoke_effect_field effect key;
  ok_or (parse_u64 value) (InvariantViolation "workflow tool invoke effect `{key}` is not a u64").
(** [..Id::try_new(field(key)?)]. *)
Definition invoke_effect_id (validate : string → string → Result StringIdError unit)
    (kind : string) (effect : ToolEffect) (key message : string) : Result DomainError string :=
  value ← invoke_effect_field effect key;
  _ ← map_err (λ _, InvariantViolation message) (validate kind value);
  mret value.

Definition completion_promises_from_invoke_effect (effect : ToolEffect)
    : Result DomainError (option (gmap string PromiseId)) :=
  transpose_map (λ value,
      decoded ← ok_or (json_parse_string_map value)
        (InvariantViolation "workflow tool invoke effect completion promise map is invalid: {error}");
      promises ← mapM (λ '(key, promise_id),
          id ← PromiseId_try_new promise_id
            "workflow tool invoke effect has an invalid completion promise id: {error}";
          mret (key, id)) (btree_to_list decoded);
      mret (list_to_map promises : gmap string PromiseId))
    (effect.(ToolEffect.data) !! EFFECT_COMPLETION_PROMISES).

Definition invocation_from_invoke_effect (effect : ToolEffect)
    : Result DomainError (option WorkflowToolInvocation) :=
  if bool_decide (effect.(ToolEffect.kind) ≠ WORKFLOW_TOOL_INVOKE_EFFECT_KIND) then mret None else
  invocation_id ← invoke_effect_id validate_workflow_tool_invocation_id
    "WorkflowToolInvocationId" effect EFFECT_INVOCATION_ID
    "workflow tool invoke effect has invalid invocation id: {error}";
  tool_id ← invoke_effect_id validate_general_string_id "WorkflowToolId" effect
    EFFECT_WORKFLOW_TOOL_ID "workflow tool invoke effect has invalid tool id: {error}";
  universe ← invoke_effect_field effect EFFECT_SESSION_UNIVERSE_ID;
  session_universe_id ← ok_or (uuid_parse_str universe)
    (InvariantViolation "workflow tool invoke effect has invalid source universe: {error}");
  session_id ← invoke_effect_id validate_general_string_id "SessionId" effect EFFECT_SESSION_ID
    "workflow tool invoke effect has invalid session id: {error}";
  tool_call_id ← invoke_effect_id validate_general_string_id "ToolCallId" effect
    EFFECT_TOOL_CALL_ID "workflow tool invoke effect has invalid tool call id: {error}";
  arguments_ref ← ok_or (effect.(ToolEffect.refs) !! EFFECT_ARGUMENTS_REF)
    (InvariantViolation "workflow tool invoke effect is missing `{EFFECT_ARGUMENTS_REF}`");
  completion_promises ← completion_promises_from_invoke_effect effect;
  semantic_type ← invoke_effect_field effect EFFECT_SEMANTIC_TYPE;
  schema_revision ← invoke_effect_u64 effect EFFECT_SCHEMA_REVISION;
  _ ← reject_if (u32_max <? schema_revision)%N
        (InvariantViolation "workflow tool invoke effect schema revision exceeds u32");
  binding_fingerprint ← invoke_effect_field effect EFFECT_BINDING_FINGERPRINT;
  run_id ← invoke_effect_u64 effect EFFECT_RUN_ID;
  turn_id ← invoke_effect_u64 effect EFFECT_TURN_ID;
  tool_batch_id ← invoke_effect_u64 effect EFFECT_TOOL_BATCH_ID;
  mret (Some
    {| WorkflowToolInvocation.invocation_id := invocation_id;
       WorkflowToolInvocation.workflow_tool_id := tool_id;
       WorkflowToolInvocation.semantic_type := semantic_type;
       WorkflowToolInvocation.schema_revision := schema_revision;
       WorkflowToolInvocation.binding_fingerprint := binding_fingerprint;
       WorkflowToolInvocation.session_universe_id := session_universe_id;
       WorkflowToolInvocation.session_id := session_id;
       WorkflowToolInvocation.run_id := run_id;
       WorkflowToolInvocation.turn_id := turn_id;
       WorkflowToolInvocation.tool_batch_id := tool_batch_id;
       WorkflowToolInvocation.tool_call_id := tool_call_id;
       WorkflowToolInvocation.arguments_ref := arguments_ref;
       WorkflowToolInvocation.execution_context_ref :=
         effect.(ToolEffect.refs) !! EFFECT_EXECUTION_CONTEXT_REF;
       WorkflowToolInvocation.completion_promises := completion_promises |}).

(** ** Checking *)
Definition validate_invocation_against_binding (binding : WorkflowToolBinding)
    (invocation : WorkflowToolInvocation) : Result DomainError unit :=
  _ ← validate_invocation_identity binding invocation;
  validate_completion_promises binding invocation.
Definition validate_invocation_binding (state : CoreAgentState)
    (invocation : WorkflowToolInvocation) : Result DomainError unit :=
  binding ← ok_or (state.(CoreAgentState.workflow_tools).(WorkflowToolState.bindings)
                     !! invocation.(WorkflowToolInvocation.workflow_tool_id))
              (InvariantViolation "workflow tool invocation references unknown tool {}");
  validate_invocation_against_binding binding invocation.

(** The call of the batch the effect is attached to. *)
Definition validate_invoking_call (active_run : ActiveRun) (binding : WorkflowToolBinding)
    (batch_id : ToolBatchId) (call_id : ToolCallId) (invocation : WorkflowToolInvocation)
    : Result DomainError unit :=
  batch ← ok_or (active_run.(ActiveRun.tool_batches) !! batch_id)
    (InvariantViolation "workflow tool invoke effect references missing tool batch {expected_batch_id}");
  call ← ok_or (snd <$> list_find (λ call,
                  call.(ToolCallState.call).(ObservedToolCall.call_id) = call_id)
                  batch.(ActiveToolBatch.calls))
    (InvariantViolation "workflow tool invoke effect references missing tool call {expected_call_id}");
  reject_if
    (bool_decide (call.(ToolCallState.call).(ObservedToolCall.tool_id)
                    ≠ Some binding.(WorkflowToolBinding.definition)
                             .(WorkflowToolDefinition.tool).(ToolSpec.id))
     || bool_decide (call.(ToolCallState.call).(ObservedToolCall.arguments_ref)
                       ≠ invocation.(WorkflowToolInvocation.arguments_ref)))
    (InvariantViolation "workflow tool invoke effect does not match its admitted tool identity and arguments").

Definition validate_invoke_effect (state : CoreAgentState) (expected_session_id : SessionId)
    (expected_run_id : RunId) (expected_turn_id : TurnId) (expected_batch_id : ToolBatchId)
    (expected_call_id : ToolCallId) (invocation : WorkflowToolInvocation)
    (in_flight_in_this_result : N) : Result DomainError unit :=
  _ ← reject_if
        (bool_decide (invocation.(WorkflowToolInvocation.session_id) ≠ expected_session_id)
         || bool_decide (invocation.(WorkflowToolInvocation.run_id) ≠ expected_run_id)
         || bool_decide (invocation.(WorkflowToolInvocation.turn_id) ≠ expected_turn_id)
         || bool_decide (invocation.(WorkflowToolInvocation.tool_batch_id) ≠ expected_batch_id)
         || bool_decide (invocation.(WorkflowToolInvocation.tool_call_id) ≠ expected_call_id))
        (InvariantViolation "workflow tool invoke effect does not match its session/run/turn/batch/call joins");
  _ ← validate_invocation_binding state invocation;
  active_run ← ok_or (active_run state)
    (InvariantViolation "workflow tool invoke effect requires an active run");
  binding ← validated_binding state invocation;
  _ ← match code_tool_call_for_id state expected_call_id with
      | Some (scope, call) =>
          _ ← validate_code_tool_invocation state binding scope call invocation;
          reject_if (bool_decide (call.(CodeToolCall.status) ≠ CodeToolCallStatus.Pending))
            (InvariantViolation "code tool effect requires a pending call")
      | None => validate_invoking_call active_run binding expected_batch_id expected_call_id
                  invocation
      end;
  let expected_id := WorkflowToolInvocationId_for_call
    invocation.(WorkflowToolInvocation.session_universe_id)
    invocation.(WorkflowToolInvocation.session_id) invocation.(WorkflowToolInvocation.run_id)
    invocation.(WorkflowToolInvocation.turn_id)
    invocation.(WorkflowToolInvocation.tool_batch_id)
    invocation.(WorkflowToolInvocation.tool_call_id)
    invocation.(WorkflowToolInvocation.binding_fingerprint) in
  _ ← reject_if (bool_decide (invocation.(WorkflowToolInvocation.invocation_id) ≠ expected_id))
        (InvariantViolation "workflow tool invocation id does not match its durable call identity");
  reject_if
    (is_promise_bearing binding.(WorkflowToolBinding.completion)
     && (MAX_IN_FLIGHT_WORKFLOW_TOOL_INVOCATIONS
           <=? saturating_add_u32
                 (in_flight_invocation_count state.(CoreAgentState.workflow_tools)
                    state.(CoreAgentState.promises) invocation.(WorkflowToolInvocation.run_id)
                    invocation.(WorkflowToolInvocation.workflow_tool_id))
                 in_flight_in_this_result)%N)
    (InvariantViolation "workflow tool {tool_id} already has {MAX_IN_FLIGHT_WORKFLOW_TOOL_INVOCATIONS} invocations in flight in this run; wait for one to finish before starting another").

(** The producer that may resolve a completion promise: the admitted receiver, or the
    execution the start request gives rise to. *)
Definition completion_promise_source (binding : WorkflowToolBinding)
    (invocation : WorkflowToolInvocation) (key : string) : PromiseSource :=
  let '(producer_workflow_id, producer_workflow_kind) :=
    match binding.(WorkflowToolBinding.target) with
    | WorkflowToolTarget.Bound receiver _ =>
        (receiver.(WorkflowEndpointRef.workflow_id), receiver.(WorkflowEndpointRef.workflow_kind))
    | WorkflowToolTarget.Start start =>
        (workflow_tool_execution_id invocation.(WorkflowToolInvocation.invocation_id)
           start.(WorkflowStartRef.recipe_fingerprint), WORKFLOW_TOOL_EXECUTION_KIND)
    end in
  PromiseSource.Workflow producer_workflow_id producer_workflow_kind
    invocation.(WorkflowToolInvocation.invocation_id) key.
End effects.
