(* ===== verification/Toolset.v ===== *)
(** * Tool batches

    A completed generation's tool calls run as one batch: started, invoked, parked on
    promises, completed or cancelled, with the planner that drives it and the reducer
    that records it ([core/components/tooling.rs]). *)
From S2P Require Import Prelude Ids Text Types Events Media Externals RunState Promises Contexts.
From S2P Require Import Compaction ToolSpecs CodeTools WorkflowTools Approvals.

(** ** Tool configuration *)
Definition set_tooling (f : ToolingState → ToolingState) (state : CoreAgentState)
    : CoreAgentState := state <| CoreAgentState.tooling ::= f |>.

Definition validate_tooling_base_revision (state : CoreAgentState) (base_revision : N)
    : Result DomainError unit :=
  reject_if (negb (base_revision =? state.(CoreAgentState.tooling).(ToolingState.revision))%N)
    (InvariantViolation "tool event base revision {} does not match active revision {}").

Definition bump_tooling_revision : CoreReducer unit :=
  state ← get_state;
  revision ← lift_result
    (ok_or (next_u64 state.(CoreAgentState.tooling).(ToolingState.revision))
       (InvariantViolation "tool revision exhausted"));
  modify_state (set_tooling (λ tooling, tooling <| ToolingState.revision := revision |>)).

Definition apply_tool_config_event (event : ToolConfigEvent) : CoreReducer unit :=
  state ← get_state;
  _ ← reject_if (bool_decide (state.(CoreAgentState.lifecycle).(LifecycleState.status)
                                ≠ CoreAgentStatus.Open))
        (InvariantViolation "tool config can only change while session is open");
  match event with
  | ToolConfigEvent.ToolsReplaced base_revision tools =>
      _ ← lift_result (validate_tooling_base_revision state base_revision);
      _ ← modify_state (set_tooling (λ tooling, tooling <| ToolingState.tools := tools |>));
      bump_tooling_revision
  | ToolConfigEvent.ToolsPatched base_revision patch =>
      _ ← lift_result (validate_tooling_base_revision state base_revision);
      _ ← modify_state (set_tooling (λ tooling,
            tooling <| ToolingState.tools ::= merged_into patch |>));
      bump_tooling_revision
  end.

(** Sweeps that follow a batch or a run: finished invocations, then promises. *)
Definition prune_finished_work (state : CoreAgentState) : CoreAgentState :=
  prune_terminal_promises (prune_finished_invocations state).

(** ** Looking at a batch *)
Definition batch_parked (run : ActiveRun) (batch_id : ToolBatchId) : bool :=
  match run.(ActiveRun.parked_tool_batch) with
  | Some parked => bool_decide (parked.(ParkedToolBatch.batch_id) = batch_id)
  | None => false
  end.
Definition find_call (batch : ActiveToolBatch) (call_id : ToolCallId) : option ToolCallState :=
  snd <$> list_find (λ call, call.(ToolCallState.call).(ObservedToolCall.call_id) = call_id)
            batch.(ActiveToolBatch.calls).
Definition pending_call_in (batch : ActiveToolBatch) (call_id : ToolCallId) : bool :=
  existsb (λ call,
    bool_decide (call.(ToolCallState.call).(ObservedToolCall.call_id) = call_id)
    && bool_decide (call.(ToolCallState.status) = ToolCallStatus.Pending))
    batch.(ActiveToolBatch.calls).

(** A write through [iter_mut().find]: the first call of that id. *)
Fixpoint update_first_call (call_id : ToolCallId) (f : ToolCallState → ToolCallState)
    (calls : list ToolCallState) : list ToolCallState :=
  match calls with
  | [] => []
  | call :: calls =>
      if bool_decide (call.(ToolCallState.call).(ObservedToolCall.call_id) = call_id)
      then f call :: calls
      else call :: update_first_call call_id f calls
  end.
Definition update_batch_call (batch_id : ToolBatchId) (call_id : ToolCallId)
    (f : ToolCallState → ToolCallState) (run : ActiveRun) : ActiveRun :=
  run <| ActiveRun.tool_batches ::= alter (λ batch,
    batch <| ActiveToolBatch.calls ::= update_first_call call_id f |>) batch_id |>.

Definition active_batch (run : ActiveRun) (batch_id : ToolBatchId)
    : Result DomainError ActiveToolBatch :=
  ok_or (run.(ActiveRun.tool_batches) !! batch_id)
    (InvariantViolation "tool batch {} is missing").
Definition batch_of_run_and_turn (batch : ActiveToolBatch) (run_id : RunId) (turn_id : TurnId)
    : bool :=
  bool_decide (batch.(ActiveToolBatch.run_id) = run_id)
  && bool_decide (batch.(ActiveToolBatch.turn_id) = turn_id).

(** ** Starting a batch *)
Section tooling.
Context `{!Externals}.

Definition planned_tool_for_turn (state : CoreAgentState) (turn_id : TurnId) (tool_id : ToolId)
    : option ToolSpec :=
  active_run ← state.(CoreAgentState.runs).(RunsState.active);
  turn ← active_run.(ActiveRun.turns) !! turn_id;
  _ ← turn.(TurnState.planned_request);
  state.(CoreAgentState.tooling).(ToolingState.tools) !! tool_id.

Definition planned_toolset_revision_for_turn (state : CoreAgentState) (run_id : RunId)
    (turn_id : TurnId) : Result DomainError N :=
  active_run ← active_run_ref state run_id;
  turn ← ok_or (active_run.(ActiveRun.turns) !! turn_id)
           (InvariantViolation "tool batch turn {} is missing");
  planned ← ok_or turn.(TurnState.planned_request)
              (InvariantViolation "tool batch turn {} is missing planned request metadata");
  mret planned.(PlannedRequestState.toolset_revision).

Definition initial_tool_call_state (state : CoreAgentState) (turn_id : TurnId)
    (call : ObservedToolCall) : ToolCallState :=
  let tool := tool_id ← call.(ObservedToolCall.tool_id);
              planned_tool_for_turn state turn_id tool_id in
  if match tool with Some tool => invokes_client_effect tool | None => false end
  then {| ToolCallState.call := call; ToolCallState.status := ToolCallStatus.Accepted;
          ToolCallState.result := None |}
  else {| ToolCallState.call := call; ToolCallState.status := ToolCallStatus.Unavailable;
          ToolCallState.result := Some (unavailable_tool_result call) |}.

Definition start_tool_batch (run_id : RunId) (turn_id : TurnId) (batch_id : ToolBatchId)
    (toolset_revision : N) (calls : list ObservedToolCall) : CoreReducer unit :=
  state ← get_state;
  let cursors := state.(CoreAgentState.id_cursors) in
  let next_promise_id_base := saturating_add_u64 cursors.(IdCursors.last_promise_id) 1 in
  _ ← reject_if (bool_decide (calls = []))
        (InvariantViolation "tool batch must contain at least one call");
  _ ← lift_result (validate_unique_tool_call_ids calls);
  expected ← lift_result (ok_or (next_u64 cursors.(IdCursors.last_tool_batch_id))
               (InvariantViolation "tool batch id cursor exhausted"));
  _ ← reject_if (bool_decide (batch_id ≠ expected))
        (InvariantViolation "expected tool batch id {}, got {}");
  planned ← lift_result (planned_toolset_revision_for_turn state run_id turn_id);
  _ ← reject_if (negb (toolset_revision =? planned)%N)
        (InvariantViolation "tool batch toolset revision {} does not match planned revision {}");
  _ ← reject_if (negb (toolset_revision
                         =? state.(CoreAgentState.tooling).(ToolingState.revision))%N)
        (InvariantViolation "tool batch toolset revision {} does not match active revision {}");
  let call_states := initial_tool_call_state state turn_id <$> calls in
  run ← active_run_mut run_id;
  _ ← reject_if (negb (bool_decide (run.(ActiveRun.status) = RunStatus.Running)
                       || bool_decide (run.(ActiveRun.status) = RunStatus.Cancelling)))
        (InvariantViolation "tool batches can only start for active or cancelling runs");
  _ ← reject_if (is_some run.(ActiveRun.active_tool_batch_id))
        (InvariantViolation "cannot start tool batch while another batch is active");
  _ ← reject_if (is_some (run.(ActiveRun.tool_batches) !! batch_id))
        (InvariantViolation "duplicate tool batch id {}");
  _ ← reject_if (is_some (run.(ActiveRun.completed_tool_batches) !! batch_id))
        (InvariantViolation "duplicate completed tool batch id {}");
  _ ← reject_if (open_batch_of_turn run turn_id || completed_batch_of_turn run turn_id)
        (InvariantViolation "turn {} already has a tool batch");
  turn ← lift_result (ok_or (run.(ActiveRun.turns) !! turn_id)
           (InvariantViolation "tool batch turn {} is missing"));
  _ ← reject_if (bool_decide (turn.(TurnState.status) ≠ TurnStatus.Completed)
                 || bool_decide (turn.(TurnState.outcome) ≠ Some TurnOutcome.ToolCallsQueued))
        (InvariantViolation "tool batch requires completed turn with queued tool calls");
  facts ← lift_result (ok_or turn.(TurnState.facts)
            (InvariantViolation "tool batch turn is missing generation facts"));
  _ ← reject_if (bool_decide (facts.(LlmGenerationFacts.tool_calls) ≠ calls))
        (InvariantViolation "tool batch calls do not match generation facts");
  _ ← put_active_run
        (run <| ActiveRun.tool_batches ::= <[batch_id :=
                  {| ActiveToolBatch.batch_id := batch_id;
                     ActiveToolBatch.run_id := run_id;
                     ActiveToolBatch.turn_id := turn_id;
                     ActiveToolBatch.calls := call_states;
                     ActiveToolBatch.promise_id_base := next_promise_id_base |}]> |>
             <| ActiveRun.active_tool_batch_id := Some batch_id |>);
  modify_state (λ state, state <| CoreAgentState.id_cursors ::= λ cursors,
    cursors <| IdCursors.last_tool_batch_id := batch_id |> |>).

(** ** Calls of a batch *)
Definition validate_tool_call_start (active_run : ActiveRun) (turn_id : TurnId)
    (batch_id : ToolBatchId) (call_id : ToolCallId) (tool_name : ToolName)
    (arguments_ref : BlobRef) : Result DomainError unit :=
  _ ← reject_if (bool_decide (active_run.(ActiveRun.active_tool_batch_id) ≠ Some batch_id))
        (InvariantViolation "tool call start does not match active tool batch");
  batch ← active_batch active_run batch_id;
  _ ← reject_if (bool_decide (batch.(ActiveToolBatch.turn_id) ≠ turn_id))
        (InvariantViolation "tool call start does not match tool batch turn");
  call_state ← ok_or (find_call batch call_id)
                 (InvariantViolation "tool call start references missing call {}");
  _ ← reject_if
        (bool_decide (call_state.(ToolCallState.call).(ObservedToolCall.tool_name) ≠ tool_name)
         || bool_decide (call_state.(ToolCallState.call).(ObservedToolCall.arguments_ref)
                           ≠ arguments_ref))
        (InvariantViolation "tool call start does not match accepted call");
  _ ← reject_if (bool_decide (call_state.(ToolCallState.status) ≠ ToolCallStatus.Accepted))
        (InvariantViolation "tool call can only start from accepted state");
  reject_if (is_some call_state.(ToolCallState.result))
    (InvariantViolation "tool call already has a result").

Definition start_tool_call (run_id : RunId) (turn_id : TurnId) (batch_id : ToolBatchId)
    (call_id : ToolCallId) (tool_name : ToolName) (arguments_ref : BlobRef)
    : CoreReducer unit :=
  run ← active_run_mut run_id;
  _ ← lift_result (validate_tool_call_start run turn_id batch_id call_id tool_name arguments_ref);
  _ ← reject_if (bool_decide (run.(ActiveRun.status) ≠ RunStatus.Running))
        (InvariantViolation "tool calls can only start for running runs");
  _ ← reject_if (is_some run.(ActiveRun.active_turn_id))
        (InvariantViolation "tool calls cannot start while a turn is active");
  _ ← reject_if (bool_decide (run.(ActiveRun.active_tool_batch_id) ≠ Some batch_id))
        (InvariantViolation "tool call start does not match active tool batch");
  _ ← reject_if (batch_parked run batch_id)
        (InvariantViolation "parked tool batch cannot start calls");
  batch ← lift_result (active_batch run batch_id);
  _ ← reject_if (negb (batch_of_run_and_turn batch run_id turn_id))
        (InvariantViolation "tool call start does not match tool batch run/turn");
  call_state ← lift_result (ok_or (find_call batch call_id)
                 (InvariantViolation "tool call start references missing call {}"));
  _ ← reject_if (bool_decide (call_state.(ToolCallState.status) ≠ ToolCallStatus.Accepted))
        (InvariantViolation "tool call can only start from accepted state");
  _ ← reject_if (is_some call_state.(ToolCallState.result))
        (InvariantViolation "tool call already has a result");
  _ ← reject_if
        (bool_decide (call_state.(ToolCallState.call).(ObservedToolCall.tool_name) ≠ tool_name)
         || bool_decide (call_state.(ToolCallState.call).(ObservedToolCall.arguments_ref)
                           ≠ arguments_ref))
        (InvariantViolation "tool call start does not match observed tool call");
  put_active_run (update_batch_call batch_id call_id (λ call,
    call <| ToolCallState.status := ToolCallStatus.Pending |>) run).

Definition cancellable_call (status : ToolCallStatus) : bool :=
  match status with ToolCallStatus.Accepted | ToolCallStatus.Pending => true | _ => false end.
Definition complete_tool_call (run_id : RunId) (turn_id : TurnId) (batch_id : ToolBatchId)
    (result : ToolCallResult) : CoreReducer unit :=
  let status := result.(ToolCallResult.status) in
  _ ← reject_if (negb (match status with
                       | ToolCallStatus.Succeeded | ToolCallStatus.Failed
                       | ToolCallStatus.Cancelled => true
                       | _ => false end))
        (InvariantViolation "tool call completion must have a terminal call status");
  run ← active_run_mut run_id;
  _ ← reject_if (bool_decide (run.(ActiveRun.active_tool_batch_id) ≠ Some batch_id))
        (InvariantViolation "tool call completion does not match active tool batch");
  _ ← reject_if (batch_parked run batch_id)
        (InvariantViolation "parked tool batch must be unparked before calls complete");
  batch ← lift_result (active_batch run batch_id);
  _ ← reject_if (negb (batch_of_run_and_turn batch run_id turn_id))
        (InvariantViolation "tool call completion does not match tool batch run/turn");
  call_state ← lift_result (ok_or (find_call batch result.(ToolCallResult.call_id))
                 (InvariantViolation "tool call completion references missing call {}"));
  let cancellable := bool_decide (status = ToolCallStatus.Cancelled)
                     && cancellable_call call_state.(ToolCallState.status) in
  _ ← reject_if (bool_decide (call_state.(ToolCallState.status) ≠ ToolCallStatus.Pending)
                 && negb cancellable)
        (InvariantViolation "tool call completion requires a pending tool call");
  _ ← reject_if (is_some call_state.(ToolCallState.result))
        (InvariantViolation "tool call already has a result");
  put_active_run (update_batch_call batch_id result.(ToolCallResult.call_id) (λ call,
    call <| ToolCallState.status := status |> <| ToolCallState.result := Some result |>) run).

(** ** Parking *)
Definition is_runtime_promise_of_run (run_id : RunId) (promise : Promise) : bool :=
  bool_decide (promise.(Promise.ownership) = PromiseOwnership.Runtime)
  && bool_decide (promise.(Promise.scope) = PromiseScope.Run run_id).
Definition is_reply_source_of (invocation_id : WorkflowToolInvocationId)
    (source : PromiseSource) : bool :=
  match source with
  | PromiseSource.Workflow _ _ source_invocation completion_key =>
      bool_decide (source_invocation = invocation_id)
      && bool_decide (completion_key = REPLY_COMPLETION_KEY)
  | PromiseSource.Timer _ => false
  end.

Definition validate_joined_call (state : CoreAgentState) (run_id : RunId)
    (batch : ActiveToolBatch) (joined : JoinedWorkflowCall) : Result DomainError unit :=
  _ ← reject_if (negb (pending_call_in batch joined.(JoinedWorkflowCall.call_id)))
        (InvariantViolation "joined workflow call {} is not pending in tool batch {}");
  promise ← ok_or (state.(CoreAgentState.promises).(PromiseComponentState.promises)
                     !! joined.(JoinedWorkflowCall.promise_id))
              (InvariantViolation "joined workflow call {} references missing Promise {}");
  _ ← reject_if (negb (is_runtime_promise_of_run run_id promise))
        (InvariantViolation "joined workflow Promise {} is not runtime-owned by run {}");
  reject_if (negb (is_reply_source_of joined.(JoinedWorkflowCall.invocation_id)
                     promise.(Promise.source)))
    (InvariantViolation "joined workflow Promise {} does not match invocation {} reply source").

(** The loop over the joined calls, with the call and promise ids seen so far. *)
Fixpoint validate_joined_calls (state : CoreAgentState) (run_id : RunId)
    (batch : ActiveToolBatch) (call_ids : list ToolCallId) (promise_ids : list PromiseId)
    (calls : list JoinedWorkflowCall) : Result DomainError unit :=
  match calls with
  | [] => mret tt
  | joined :: calls =>
      _ ← reject_if (bool_decide (joined.(JoinedWorkflowCall.call_id) ∈ call_ids)
                     || bool_decide (joined.(JoinedWorkflowCall.promise_id) ∈ promise_ids))
            (InvariantViolation "joined workflow suspension contains duplicate call or Promise identity");
      _ ← validate_joined_call state run_id batch joined;
      validate_joined_calls state run_id batch
        (joined.(JoinedWorkflowCall.call_id) :: call_ids)
        (joined.(JoinedWorkflowCall.promise_id) :: promise_ids) calls
  end.

Definition validate_batch_suspension (state : CoreAgentState) (run_id : RunId)
    (batch : ActiveToolBatch) (suspension : ToolBatchSuspension) : Result DomainError unit :=
  match suspension with
  | ToolBatchSuspension.AwaitTool call_id _ =>
      reject_if (negb (pending_call_in batch call_id))
        (InvariantViolation "await call {} is not pending in tool batch {}")
  | ToolBatchSuspension.JoinedWorkflowCalls calls spec =>
      _ ← reject_if (bool_decide (calls = [])
                     || bool_decide (spec.(AwaitSpec.mode) ≠ AwaitMode.All))
            (InvariantViolation "joined workflow suspension requires a non-empty all-of Promise wait");
      _ ← validate_joined_calls state run_id batch [] [] calls;
      reject_if (bool_decide (spec.(AwaitSpec.promise_ids)
                                ≠ JoinedWorkflowCall.promise_id <$> calls))
        (InvariantViolation "joined workflow suspension wait set does not match its call mappings")
  end.

Definition park_tool_batch (run_id : RunId) (turn_id : TurnId) (batch_id : ToolBatchId)
    (suspension : ToolBatchSuspension) : CoreReducer unit :=
  state ← get_state;
  run ← active_run_mut run_id;
  _ ← reject_if (bool_decide (run.(ActiveRun.status) ≠ RunStatus.Running))
        (InvariantViolation "tool batches can only park for running runs");
  _ ← reject_if (is_some run.(ActiveRun.active_turn_id))
        (InvariantViolation "tool batches cannot park while a turn is active");
  _ ← reject_if (bool_decide (run.(ActiveRun.active_tool_batch_id) ≠ Some batch_id))
        (InvariantViolation "parked tool batch does not match active tool batch");
  _ ← reject_if (is_some run.(ActiveRun.parked_tool_batch))
        (InvariantViolation "tool batch {} is already parked");
  batch ← lift_result (active_batch run batch_id);
  _ ← reject_if (negb (batch_of_run_and_turn batch run_id turn_id))
        (InvariantViolation "parked tool batch does not match run/turn");
  _ ← lift_result (validate_batch_suspension state run_id batch suspension);
  _ ← reject_if (existsb (λ call,
          bool_decide (call.(ToolCallState.status) = ToolCallStatus.Accepted))
          batch.(ActiveToolBatch.calls))
        (InvariantViolation "tool batch deferral requires all invocable calls to be pending");
  put_active_run
    (run <| ActiveRun.parked_tool_batch := Some
              {| ParkedToolBatch.batch_id := batch_id;
                 ParkedToolBatch.suspension := suspension |} |>
         <| ActiveRun.status := RunStatus.Parked |>).

Definition unpark_tool_batch (run_id : RunId) (turn_id : TurnId) (batch_id : ToolBatchId)
    : CoreReducer unit :=
  run ← active_run_mut run_id;
  _ ← reject_if (bool_decide (run.(ActiveRun.active_tool_batch_id) ≠ Some batch_id))
        (InvariantViolation "unparked tool batch does not match active tool batch");
  batch ← lift_result (active_batch run batch_id);
  _ ← reject_if (negb (batch_of_run_and_turn batch run_id turn_id))
        (InvariantViolation "unparked tool batch does not match run/turn");
  _ ← reject_if (negb (batch_parked run batch_id))
        (InvariantViolation "tool batch {} is not parked");
  put_active_run
    (run <| ActiveRun.parked_tool_batch := None |>
         <| ActiveRun.status ::= λ status,
              if bool_decide (status = RunStatus.Parked) then RunStatus.Running else status |>).

(** ** Completion *)
(** One call's result, checked against the call and the context. *)
Definition settled_result (state : CoreAgentState) (run_id : RunId) (turn_id : TurnId)
    (call_state : ToolCallState) : Result DomainError ToolCallResult :=
  _ ← reject_if (negb (ToolCallStatus_is_terminal call_state.(ToolCallState.status)))
        (InvariantViolation "tool batch cannot complete before all calls are terminal");
  result ← ok_or call_state.(ToolCallState.result)
             (InvariantViolation "terminal tool call is missing result");
  _ ← reject_if
        (bool_decide (result.(ToolCallResult.call_id)
                        ≠ call_state.(ToolCallState.call).(ObservedToolCall.call_id))
         || bool_decide (result.(ToolCallResult.status) ≠ call_state.(ToolCallState.status)))
        (InvariantViolation "terminal tool call result does not match call state");
  _ ← reject_if (negb (tool_result_context_entry_exists state run_id turn_id result
                         call_state.(ToolCallState.call).(ObservedToolCall.provider_kind)))
        (InvariantViolation "tool batch cannot complete before result context entries are recorded");
  mret result.

Definition complete_tool_batch (run_id : RunId) (turn_id : TurnId) (batch_id : ToolBatchId)
    : CoreReducer unit :=
  state ← get_state;
  run ← active_run_mut run_id;
  _ ← reject_if (bool_decide (run.(ActiveRun.active_tool_batch_id) ≠ Some batch_id))
        (InvariantViolation "completed tool batch does not match active tool batch");
  _ ← reject_if (is_some (run.(ActiveRun.completed_tool_batches) !! batch_id))
        (InvariantViolation "duplicate completed tool batch id {}");
  batch ← lift_result (active_batch run batch_id);
  _ ← reject_if (negb (batch_of_run_and_turn batch run_id turn_id))
        (InvariantViolation "completed tool batch does not match run/turn");
  _ ← reject_if (batch_parked run batch_id)
        (InvariantViolation "parked tool batch cannot complete before it is unparked");
  results ← lift_result (mapM (settled_result state run_id turn_id)
              batch.(ActiveToolBatch.calls));
  _ ← put_active_run
        (prune_settled_run_records
          (run <| ActiveRun.tool_batches ::= delete batch_id |>
               <| ActiveRun.completed_tool_batches ::= <[batch_id :=
                    {| CompletedToolBatch.batch_id := batch_id;
                       CompletedToolBatch.run_id := run_id;
                       CompletedToolBatch.turn_id := turn_id;
                       CompletedToolBatch.results := results |}]> |>
               <| ActiveRun.active_tool_batch_id := None |>));
  modify_state prune_finished_work.

(** ** Reducer *)
Definition apply_tool_event (event : ToolEvent) : CoreReducer unit :=
  match event with
  | ToolEvent.BatchStarted run_id turn_id batch_id toolset_revision calls =>
      start_tool_batch run_id turn_id batch_id toolset_revision calls
  | ToolEvent.CallStarted run_id turn_id batch_id call_id tool_name arguments_ref =>
      start_tool_call run_id turn_id batch_id call_id tool_name arguments_ref
  | ToolEvent.CallCompleted run_id turn_id batch_id result =>
      complete_tool_call run_id turn_id batch_id result
  | ToolEvent.BatchParked run_id turn_id batch_id suspension =>
      park_tool_batch run_id turn_id batch_id suspension
  | ToolEvent.BatchUnparked run_id turn_id batch_id => unpark_tool_batch run_id turn_id batch_id
  | ToolEvent.BatchCompleted run_id turn_id batch_id =>
      complete_tool_batch run_id turn_id batch_id
  end.

(** ** Planner *)
Definition domain {A} (r : Result DomainError A) : Result PlanningError A :=
  map_err PlanningError.Domain r.

Definition batch_joins (batch : ActiveToolBatch) (call_id : option ToolCallId) : CoreAgentJoins :=
  {| CoreAgentJoins.run_id := Some batch.(ActiveToolBatch.run_id);
     CoreAgentJoins.turn_id := Some batch.(ActiveToolBatch.turn_id);
     CoreAgentJoins.tool_batch_id := Some batch.(ActiveToolBatch.batch_id);
     CoreAgentJoins.tool_call_id := call_id;
     CoreAgentJoins.submission_id := None |}.
Definition planner_batch (active_run : ActiveRun) (batch_id : ToolBatchId)
    : Result PlanningError ActiveToolBatch :=
  domain (ok_or (active_run.(ActiveRun.tool_batches) !! batch_id)
    (InvariantViolation "active tool batch {} is missing")).

Definition call_event (batch : ActiveToolBatch) (call_state : ToolCallState)
    (event : ObservedToolCall → ToolEvent) : CoreAgentEventProposal :=
  let call := call_state.(ToolCallState.call) in
  proposal (batch_joins batch (Some call.(ObservedToolCall.call_id)))
    (CoreAgentEvent.Tool (event call)).

Definition decide_active_tool_batch_invocations (active_run : ActiveRun) (batch_id : ToolBatchId)
    : Result PlanningError (list CoreAgentEventProposal) :=
  batch ← planner_batch active_run batch_id;
  if batch_parked active_run batch_id then mret [] else
  _ ← domain (reject_if (bool_decide (batch.(ActiveToolBatch.run_id)
                                        ≠ active_run.(ActiveRun.run_id)))
        (InvariantViolation "active tool batch {} run id {} does not match active run {}"));
  mret ((λ call_state, call_event batch call_state (λ call,
           ToolEvent.CallStarted batch.(ActiveToolBatch.run_id) batch.(ActiveToolBatch.turn_id)
             batch.(ActiveToolBatch.batch_id) call.(ObservedToolCall.call_id)
             call.(ObservedToolCall.tool_name) call.(ObservedToolCall.arguments_ref)))
        <$> filter (λ call_state, call_state.(ToolCallState.status) = ToolCallStatus.Accepted)
              batch.(ActiveToolBatch.calls)).

Definition decide_cancelling_tool_batch_calls (active_run : ActiveRun) (batch_id : ToolBatchId)
    : Result PlanningError (list CoreAgentEventProposal) :=
  batch ← planner_batch active_run batch_id;
  if batch_parked active_run batch_id then mret [] else
  mret ((λ call_state, call_event batch call_state (λ call,
           ToolEvent.CallCompleted batch.(ActiveToolBatch.run_id) batch.(ActiveToolBatch.turn_id)
             batch.(ActiveToolBatch.batch_id) (cancelled_tool_result call)))
        <$> filter (λ call_state,
                ToolCallStatus_is_terminal call_state.(ToolCallState.status) = false)
              batch.(ActiveToolBatch.calls)).

(** The inputs of one result that the context does not hold yet, as this batch's. *)
Definition missing_result_inputs (state : CoreAgentState) (run_id : RunId) (turn_id : TurnId)
    (batch_id : option ToolBatchId) (provider_kind : option string) (result : ToolCallResult)
    : Result DomainError (list (option ContextEntryKey * ContextEntrySource * ContextEntryInput)) :=
  inputs ← tool_result_context_inputs result provider_kind;
  let missing : list ContextEntryInput := filter (λ input,
        tool_result_context_input_exists state run_id turn_id result input = false) inputs in
  mret ((λ input, (None, ContextEntrySource.Tool run_id turn_id batch_id, input)) <$> missing).

Definition tool_result_context_entries (state : CoreAgentState) (batch : ActiveToolBatch)
    : Result PlanningError (list ContextEntry) :=
  inputs ← domain (mapM (λ call_state,
    result ← ok_or call_state.(ToolCallState.result)
               (InvariantViolation "terminal tool call is missing result");
    _ ← reject_if
          (bool_decide (result.(ToolCallResult.call_id)
                          ≠ call_state.(ToolCallState.call).(ObservedToolCall.call_id))
           || bool_decide (result.(ToolCallResult.status) ≠ call_state.(ToolCallState.status)))
          (InvariantViolation "terminal tool call result does not match call state");
    missing_result_inputs state batch.(ActiveToolBatch.run_id) batch.(ActiveToolBatch.turn_id)
      (Some batch.(ActiveToolBatch.batch_id))
      call_state.(ToolCallState.call).(ObservedToolCall.provider_kind) result)
    batch.(ActiveToolBatch.calls));
  domain (context_entries_from_inputs state (concat inputs)).

Definition decide_active_tool_batch_completion (state : CoreAgentState) (active_run : ActiveRun)
    (batch_id : ToolBatchId) : Result PlanningError (list CoreAgentEventProposal) :=
  batch ← planner_batch active_run batch_id;
  if batch_parked active_run batch_id then mret [] else
  if has_nonterminal_call batch then mret [] else
  result_entries ← tool_result_context_entries state batch;
  let joins := batch_joins batch None in
  let applied :=
    if bool_decide (result_entries = []) then []
    else [proposal joins (CoreAgentEvent.Context (ContextEvent.EntriesApplied
            state.(CoreAgentState.context).(ContextState.revision) result_entries))] in
  mret (applied ++ [proposal joins (CoreAgentEvent.Tool (ToolEvent.BatchCompleted
          batch.(ActiveToolBatch.run_id) batch.(ActiveToolBatch.turn_id)
          batch.(ActiveToolBatch.batch_id)))]).

(** The first completed tool-call turn without a batch starts one. *)
Definition plan_batch_start (state : CoreAgentState) (active_run : ActiveRun) (turn_id : TurnId)
    (facts : LlmGenerationFacts) (turn : TurnState)
    : Result PlanningError (list CoreAgentEventProposal) :=
  planned ← domain (ok_or turn.(TurnState.planned_request)
              (InvariantViolation "tool-call turn {} is missing planned request metadata"));
  let revision := planned.(PlannedRequestState.toolset_revision) in
  _ ← domain (reject_if
        (negb (revision =? state.(CoreAgentState.tooling).(ToolingState.revision))%N)
        (InvariantViolation "planned toolset revision {} does not match active revision {}"));
  batch_id ← domain (ok_or
               (next_u64 state.(CoreAgentState.id_cursors).(IdCursors.last_tool_batch_id))
               (InvariantViolation "tool batch id cursor exhausted"));
  let run_id := active_run.(ActiveRun.run_id) in
  mret [proposal
    {| CoreAgentJoins.run_id := Some run_id; CoreAgentJoins.turn_id := Some turn_id;
       CoreAgentJoins.tool_batch_id := Some batch_id; CoreAgentJoins.tool_call_id := None;
       CoreAgentJoins.submission_id := None |}
    (CoreAgentEvent.Tool (ToolEvent.BatchStarted run_id turn_id batch_id revision
       facts.(LlmGenerationFacts.tool_calls)))].

Fixpoint plan_first_batch (state : CoreAgentState) (active_run : ActiveRun)
    (turns : list (TurnId * TurnState)) : Result PlanningError (list CoreAgentEventProposal) :=
  match turns with
  | [] => mret []
  | (turn_id, turn) :: turns =>
      if bool_decide (turn.(TurnState.status) ≠ TurnStatus.Completed)
         || bool_decide (turn.(TurnState.outcome) ≠ Some TurnOutcome.ToolCallsQueued)
         || open_batch_of_turn active_run turn_id
         || completed_batch_of_turn active_run turn_id
      then plan_first_batch state active_run turns
      else
        facts ← domain (ok_or turn.(TurnState.facts)
                  (InvariantViolation "completed tool-call turn {} is missing generation facts"));
        if bool_decide (facts.(LlmGenerationFacts.tool_calls) = [])
        then plan_first_batch state active_run turns
        else plan_batch_start state active_run turn_id facts turn
  end.

(** The completion, unless calls have to be settled first. *)
Definition or_complete (state : CoreAgentState) (active_run : ActiveRun) (batch_id : ToolBatchId)
    (decided : Result PlanningError (list CoreAgentEventProposal))
    : Result PlanningError (list CoreAgentEventProposal) :=
  proposals ← decided;
  if bool_decide (proposals = [])
  then decide_active_tool_batch_completion state active_run batch_id
  else mret proposals.

Definition plan_tool_next (state : CoreAgentState)
    : Result PlanningError (list CoreAgentEventProposal) :=
  if bool_decide (state.(CoreAgentState.lifecycle).(LifecycleState.status) ≠ CoreAgentStatus.Open)
  then mret [] else
  match active_run state with
  | None => mret []
  | Some run =>
      if is_some run.(ActiveRun.active_turn_id) then mret [] else
      match run.(ActiveRun.active_tool_batch_id) with
      | Some batch_id =>
          match run.(ActiveRun.status) with
          | RunStatus.Running => or_complete state run batch_id
              (decide_active_tool_batch_invocations run batch_id)
          | RunStatus.Cancelling => or_complete state run batch_id
              (decide_cancelling_tool_batch_calls run batch_id)
          | _ => mret []
          end
      | None =>
          match run.(ActiveRun.status) with
          | RunStatus.Running | RunStatus.Cancelling =>
              plan_first_batch state run (btree_to_list run.(ActiveRun.turns))
          | _ => mret []
          end
      end
  end.

(** ** Closing the tool group of a run that ends *)
(** The recorded result where it is usable, a cancelled one otherwise. *)
Definition closing_result (call : ObservedToolCall) (recorded : option ToolCallResult)
    : ToolCallResult :=
  match recorded with
  | Some result =>
      if is_ok (tool_result_context_inputs result call.(ObservedToolCall.provider_kind))
      then result else cancelled_tool_result call
  | None => cancelled_tool_result call
  end.

(** The turn, the batch and the calls of the group still open. *)
Definition open_tool_group (active_run : ActiveRun)
    : Result DomainError
        (option (TurnId * option ToolBatchId * list (ObservedToolCall * option ToolCallResult))) :=
  match active_run.(ActiveRun.active_tool_batch_id) with
  | Some batch_id =>
      batch ← ok_or (active_run.(ActiveRun.tool_batches) !! batch_id)
                (InvariantViolation "active tool batch {batch_id} is missing");
      mret (Some (batch.(ActiveToolBatch.turn_id), Some batch_id,
        (λ call, (call.(ToolCallState.call), call.(ToolCallState.result)))
          <$> batch.(ActiveToolBatch.calls)))
  | None =>
      if has_unstarted_tool_call_turn active_run then
        '(turn_id, turn) ← ok_or (latest_turn active_run)
                             (InvariantViolation "an unstarted tool-call turn exists");
        mret (Some (turn_id, None,
          (λ call, (call, None)) <$> match turn.(TurnState.facts) with
                                     | Some facts => facts.(LlmGenerationFacts.tool_calls)
                                     | None => []
                                     end))
      else mret None
  end.

Definition open_tool_group_closing_entries (state : CoreAgentState) (active_run : ActiveRun)
    : Result DomainError (list ContextEntry) :=
  group ← open_tool_group active_run;
  match group with
  | None => mret []
  | Some (turn_id, batch_id, calls) =>
      inputs ← mapM (λ '(call, recorded),
        missing_result_inputs state active_run.(ActiveRun.run_id) turn_id batch_id
          call.(ObservedToolCall.provider_kind) (closing_result call recorded)) calls;
      context_entries_from_inputs state (concat inputs)
  end.
End tooling.
