(* ===== verification/ContextPlan.v ===== *)
(** * Planning the context

    What the context component proposes next: input and steering to write down,
    compactions to request or abandon, entries a provider compaction has made
    redundant; and what an outside edit of the context may supply
    ([core/components/context.rs]). *)
From Stdlib Require Import Ascii.
From S2P Require Import Prelude Ids Text Types Events Media Externals RunState Config Approvals.
From S2P Require Import Contexts Compaction ContextReducer ToolSpecs CodeTools WorkflowTools.
From S2P Require Import Toolset.

Definition RESERVED_RUN_CONTEXT_KEY_PREFIX : string := "run".
Definition INSTRUCTIONS_KEY_PREFIX : string := "instructions.".
Definition OPENAI_RESPONSES_COMPACTION_PROVIDER_KIND : string := "openai.responses.compaction".
Definition OPENAI_COMPLETIONS_COMPACTION_PROVIDER_KIND : string := "openai.completions.compaction".
Definition ANTHROPIC_MESSAGES_COMPACTION_PROVIDER_KIND : string := "anthropic.messages.compaction".

(** ** Edits from outside *)
Definition is_instructions_key (key : ContextEntryKey) : bool :=
  starts_with INSTRUCTIONS_KEY_PREFIX key.

Definition validate_external_context_key (key : ContextEntryKey) : Result DomainError unit :=
  reject_if (context_key_starts_with key RESERVED_RUN_CONTEXT_KEY_PREFIX)
    (InvariantViolation "context key {} uses reserved internal prefix {}").

Definition validate_external_context_edit_entry (key : ContextEntryKey)
    (entry : ContextEntryInput) : Result DomainError unit :=
  if is_instructions_key key then
    match entry.(ContextEntryInput.kind) with
    | ContextEntryKind.Instructions => mret tt
    | _ => mthrow (InvariantViolation
             "instruction context key {} cannot supply context entry kind {:?}")
    end
  else
    match entry.(ContextEntryInput.kind) with
    | ContextEntryKind.ProviderOpaque => mret tt
    | ContextEntryKind.McpApprovalResponse _ _ => mthrow (InvariantViolation
        "MCP approval responses are runtime-owned context")
    | ContextEntryKind.Message ContextMessageRole.User => mret tt
    | ContextEntryKind.Catalog title =>
        reject_if (is_blank title)
          (InvariantViolation "catalog context entry {} needs a title")
    | ContextEntryKind.Instructions => mthrow (InvariantViolation
        "instruction context entry requires an {}* key, got {}")
    | _ => mthrow (InvariantViolation "context edit cannot supply context entry kind {:?}")
    end.

Definition validate_external_context_edit (key : ContextEntryKey) (entry : ContextEntryInput)
    : Result DomainError unit :=
  _ ← validate_external_context_key key;
  validate_external_context_edit_entry key entry.

Definition validate_external_context_prefix_replacement (key_prefix : ContextEntryKey)
    (entries : gmap ContextEntryKey ContextEntryInput) : Result DomainError unit :=
  _ ← validate_external_context_key key_prefix;
  for_each (λ '(key, entry),
    _ ← validate_external_context_key key;
    _ ← reject_if (negb (context_key_starts_with key key_prefix))
          (InvariantViolation "context replacement entry key {} is outside prefix {}");
    validate_external_context_edit_entry key entry) (btree_to_list entries).

Definition context_prefix_replacement_is_noop (state : CoreAgentState)
    (key_prefix : ContextEntryKey) (entries : gmap ContextEntryKey ContextEntryInput) : bool :=
  bool_decide (foldl (λ active entry,
    match entry.(ContextEntry.key) with
    | Some key =>
        if context_key_starts_with key key_prefix
        then <[key := context_entry_input_from_active entry]> active else active
    | None => active
    end) ∅ (context_entries state) = entries).

Definition context_upsert_is_noop (state : CoreAgentState) (key : ContextEntryKey)
    (entry : ContextEntryInput) : bool :=
  match current_key_entry state key with
  | Some active => bool_decide (context_entry_input_from_active active = entry)
  | None => false
  end.

(** ** Input of a run *)
Definition validate_run_supplied_context_entry (entry : ContextEntryInput)
    : Result DomainError unit :=
  match entry.(ContextEntryInput.kind) with
  | ContextEntryKind.Message ContextMessageRole.User | ContextEntryKind.ProviderOpaque => mret tt
  | _ => mthrow (InvariantViolation "{} cannot supply context entry kind {:?}")
  end.
Definition validate_run_input_entries (entries : list ContextEntryInput)
    : Result DomainError unit := for_each validate_run_supplied_context_entry entries.
Definition validate_steering_input_entries (entries : list ContextEntryInput)
    : Result DomainError unit := for_each validate_run_supplied_context_entry entries.

(** [usize] to [u32]. *)
Definition input_index (index : nat) : Result DomainError N :=
  _ ← reject_if (u32_max <? N.of_nat index)%N
        (InvariantViolation "context input index {} exceeds u32");
  mret (N.of_nat index).

Definition run_input_context_key (run_id : RunId) (index : N) : ContextEntryKey :=
  "run." +:+ u64_to_string run_id +:+ ".input." +:+ u64_to_string index.
Definition run_input_context_keys (run_id : RunId) (input_len : nat)
    : Result DomainError (list ContextEntryKey) :=
  mapM (λ index,
    index ← input_index index; mret (run_input_context_key run_id index)) (seq 0 input_len).

Definition ContextInput : Type := option ContextEntryKey * ContextEntrySource * ContextEntryInput.

(** The inputs that follow the first [from], each with its index. *)
Definition remaining_inputs (from : nat) (input : list ContextEntryInput)
    : list (nat * ContextEntryInput) :=
  drop from (imap pair input).

Definition missing_run_input_entries (state : CoreAgentState)
    : Result DomainError (list ContextEntry) :=
  match active_run state with
  | None => mret []
  | Some run =>
      let input := RunSource_input run.(ActiveRun.source) in
      let recorded := length run.(ActiveRun.input_entry_ids) in
      if (length input <=? recorded)%nat then mret [] else
      keys ← run_input_context_keys run.(ActiveRun.run_id) (length input);
      inputs ← mapM (λ '(index, entry),
        input_index ← input_index index;
        mret (keys !! index, ContextEntrySource.RunInput run.(ActiveRun.run_id) input_index,
              entry)) (remaining_inputs recorded input);
      context_entries_from_inputs state inputs
  end.

(** What a batch of steering still has to write down. *)
Definition missing_steering_inputs (run_id : RunId) (steering : SteeringBatch)
    : Result DomainError (list ContextInput) :=
  mapM (λ '(index, entry),
    input_index ← input_index index;
    mret (None, ContextEntrySource.Steering run_id steering.(SteeringBatch.steering_id)
                  input_index, entry))
    (remaining_inputs (length steering.(SteeringBatch.entry_ids))
       steering.(SteeringBatch.input)).

Definition missing_steering_entries_after (state : CoreAgentState) (last_entry_id : N)
    : Result DomainError (list ContextEntry) :=
  match active_run state with
  | None => mret []
  | Some run =>
      inputs ← mapM (missing_steering_inputs run.(ActiveRun.run_id)) run.(ActiveRun.steering);
      context_entries_after state last_entry_id (concat inputs)
  end.
Definition missing_steering_entries (state : CoreAgentState)
    : Result DomainError (list ContextEntry) :=
  missing_steering_entries_after state
    state.(CoreAgentState.id_cursors).(IdCursors.last_context_entry_id).

Definition entries_applied_proposal (state : CoreAgentState) (run_id : RunId)
    (entries : list ContextEntry) : CoreAgentEventProposal :=
  proposal (run_joins run_id)
    (CoreAgentEvent.Context (ContextEvent.EntriesApplied
       state.(CoreAgentState.context).(ContextState.revision) entries)).

(** ** Provider compactions *)
Definition is_provider_compaction_entry (entry : ContextEntry) : bool :=
  match entry.(ContextEntry.content).(ContentRef.provider_kind) with
  | Some kind =>
      if bool_decide (kind = OPENAI_RESPONSES_COMPACTION_PROVIDER_KIND) then
        match entry.(ContextEntry.kind) with
        | ContextEntryKind.ProviderOpaque => true | _ => false end
      else if bool_decide (kind = ANTHROPIC_MESSAGES_COMPACTION_PROVIDER_KIND) then
        match entry.(ContextEntry.kind) with
        | ContextEntryKind.Message _ | ContextEntryKind.ProviderOpaque => true | _ => false end
      else if bool_decide (kind = OPENAI_COMPLETIONS_COMPACTION_PROVIDER_KIND) then
        match entry.(ContextEntry.kind) with
        | ContextEntryKind.Message _ => true | _ => false end
      else false
  | None => false
  end.

Definition latest_provider_compaction_entry (state : CoreAgentState) : option ContextEntry :=
  snd <$> list_find (λ entry,
    is_provider_compaction_entry entry && negb (is_standalone_prefix entry) = true)
    (rev (context_entries state)).

Definition is_provider_compaction_prunable_entry (state : CoreAgentState) (entry : ContextEntry)
    : bool :=
  is_ok (validate_entry_is_not_unconsumed_active_run_input state entry.(ContextEntry.entry_id))
  && is_compactable_entry state entry.

Definition prunable_before (state : CoreAgentState) (latest : ContextEntry)
    : list ContextEntryId :=
  ContextEntry.entry_id <$>
    filter (λ entry, (entry.(ContextEntry.entry_id) <? latest.(ContextEntry.entry_id))%N
                     && is_provider_compaction_prunable_entry state entry = true)
      (context_entries state).

Definition context_proposal (event : ContextEvent) : CoreAgentEventProposal :=
  proposal default_of (CoreAgentEvent.Context event).
Definition provider_compacted_prune_proposal (state : CoreAgentState)
    : option CoreAgentEventProposal :=
  if has_active_nonterminal_tool_batch state then None else
  latest ← latest_provider_compaction_entry state;
  let entry_ids := prunable_before state latest in
  if bool_decide (entry_ids = []) then None else
  Some (context_proposal (ContextEvent.EntriesRemoved
    state.(CoreAgentState.context).(ContextState.revision) entry_ids
    ContextRemovalReason.ProviderCompacted)).

(** ** Compactions *)
Definition compaction_abandoned_proposal (state : CoreAgentState) : CoreAgentEventProposal :=
  context_proposal (ContextEvent.CompactionFinished
    state.(CoreAgentState.context).(ContextState.revision)
    ContextCompactionStatus.Failed None None 0).

Definition compaction_requested_proposal (state : CoreAgentState)
    (trigger : ContextCompactionTrigger) (estimated_tokens : option N) : CoreAgentEventProposal :=
  context_proposal (ContextEvent.CompactionRequested
    state.(CoreAgentState.context).(ContextState.revision) trigger
    {| ContextCompactionPlan.run_id := run_id_of (active_run state);
       ContextCompactionPlan.covered_entry_ids := standalone_prefix_ids state;
       ContextCompactionPlan.trigger := trigger;
       ContextCompactionPlan.estimated_tokens := estimated_tokens |}).

Definition manual_compaction_requested_proposal (state : CoreAgentState)
    : CoreAgentEventProposal :=
  if compaction_safe_boundary state
  then compaction_requested_proposal state ContextCompactionTrigger.Manual None
  else context_proposal (ContextEvent.CompactionQueued
         state.(CoreAgentState.context).(ContextState.revision)).

(** An observation counts only for the revision it measured. *)
Definition observed_tokens (self : ContextState) : option N :=
  observation ← self.(ContextState.usage_observation);
  if (observation.(ContextUsageObservation.context_revision) =? self.(ContextState.revision))%N
  then Some observation.(ContextUsageObservation.tokens) else None.

(** The last generation's own count, unless a compaction has finished since. *)
Definition last_generation_tokens (state : CoreAgentState) : option N :=
  run ← active_run state;
  turn ← snd <$> latest_turn run;
  let finished := (compaction_state state).(ContextCompactionState.last_finished_revision) in
  if match turn.(TurnState.planned_request), finished with
     | Some planned, Some finished =>
         (planned.(PlannedRequestState.context_revision) <? finished)%N
     | _, _ => false
     end
  then None else
  facts ← turn.(TurnState.facts);
  estimate ← facts.(LlmGenerationFacts.context_token_estimate);
  Some (saturating_add_u32 estimate.(TokenEstimate.tokens)
          (default 0%N (facts.(LlmGenerationFacts.usage) ≫= LlmUsage.output_tokens))).

Definition high_watermark_token_estimate (state : CoreAgentState) : option N :=
  let entries := context_entries state in
  or_else
    (TokenEstimate.tokens <$>
       or_else (combined_token_estimate entries)
         (combined_token_estimate
            (filter (λ entry, is_compactable_entry state entry = true) entries)))
    (or_else (observed_tokens state.(CoreAgentState.context)) (last_generation_tokens state)).

(** On [usize]; the prefix is part of the entries, so the difference is exact. *)
Definition entry_count_calls_for_compaction (state : CoreAgentState) : bool :=
  let entries := length (context_entries state) in
  (ENTRY_COUNT_COMPACTION_TRIGGER <=? entries)%nat
  && match (compaction_state state).(ContextCompactionState.failure_floor) with
     | Some floor => grown_past_floor (N.of_nat entries)
                       (N.of_nat floor.(CompactionFailureFloor.entries))
     | None => true
     end
  && (entries - length (standalone_prefix_ids state) + 1 <? ENTRY_COUNT_COMPACTION_TRIGGER)%nat.

Definition is_anthropic_standalone_block (entry : ContextEntry) : bool :=
  bool_decide (entry.(ContextEntry.content).(ContentRef.provider_kind)
                 = Some ANTHROPIC_MESSAGES_COMPACTION_PROVIDER_KIND)
  && bool_decide (entry.(ContextEntry.kind) = ContextEntryKind.ProviderOpaque)
  && is_standalone_prefix entry.

Definition is_provider_standalone (policy : option CompactionPolicy) : bool :=
  match policy with Some (CompactionPolicy.ProviderStandalone _ _) => true | _ => false end.
Definition policy_threshold (policy : option CompactionPolicy) : option N :=
  match policy with
  | Some (CompactionPolicy.ProviderStandalone threshold _)
  | Some (CompactionPolicy.ProviderTriggered threshold) => threshold
  | _ => None
  end.
(** The policy's threshold, or four fifths of the model's capacity. *)
Definition compaction_threshold (state : CoreAgentState) (config : SessionConfig) : option N :=
  or_else (policy_threshold config.(SessionConfig.context).(ContextConfig.compaction))
    ((λ limit, saturating_mul_u32 limit 4 / 5)%N <$> compaction_input_limit_tokens state).

Definition token_watermark_proposal (state : CoreAgentState) (config : SessionConfig)
    : option CoreAgentEventProposal :=
  if negb (is_provider_standalone config.(SessionConfig.context).(ContextConfig.compaction))
     && negb (existsb is_anthropic_standalone_block (context_entries state))
  then None else
  threshold ← compaction_threshold state config;
  tokens ← high_watermark_token_estimate state;
  let floor := (compaction_state state).(ContextCompactionState.failure_floor) in
  if (tokens <? threshold)%N
     || match floor ≫= CompactionFailureFloor.tokens with
        | Some floor => negb (grown_past_floor tokens floor)
        | None => false
        end
     || bool_decide (standalone_prefix_ids state = [])
  then None
  else Some (compaction_requested_proposal state ContextCompactionTrigger.HighWatermark
               (Some tokens)).

Definition high_watermark_compaction_proposal (state : CoreAgentState) (config : SessionConfig)
    : option CoreAgentEventProposal :=
  if negb (compaction_enabled config) then None else
  run ← active_run state;
  let by_count := compaction_requested_proposal state ContextCompactionTrigger.HighWatermark
                    (high_watermark_token_estimate state) in
  match entry_guard state run with
  | EntryGuard.Compact => Some by_count
  | EntryGuard.FailRun => None
  | EntryGuard.Clear =>
      if bool_decide ((compaction_state state).(ContextCompactionState.last_finished_revision)
                        = Some state.(CoreAgentState.context).(ContextState.revision))
      then None
      else if entry_count_calls_for_compaction state then Some by_count
      else token_watermark_proposal state config
  end.

Definition failed_or_cancelled (status : TurnStatus) : bool :=
  match status with TurnStatus.Failed | TurnStatus.Cancelled => true | _ => false end.

Definition run_latest_turn (state : CoreAgentState) : option TurnState :=
  active_run state ≫= λ run, snd <$> latest_turn run.
Definition overflowing (recovery : option ContextRecoveryState) (latest : option TurnState)
    : bool :=
  match latest with
  | Some turn =>
      is_context_limit turn
      && negb (bool_decide ((recovery ≫= ContextRecoveryState.recovery_attempted_turn_id)
                              = Some turn.(TurnState.turn_id)))
  | None => false
  end.

Definition next_compaction_proposal (state : CoreAgentState) : option CoreAgentEventProposal :=
  if negb (compaction_safe_boundary state) then None
  else if is_queued (compaction_state state) then
    Some (if bool_decide (standalone_prefix_ids state = [])
          then compaction_abandoned_proposal state
          else compaction_requested_proposal state ContextCompactionTrigger.Manual None)
  else
    config ← state.(CoreAgentState.lifecycle).(LifecycleState.config);
    let recovery := ActiveRun.context_recovery <$> active_run state in
    let latest := run_latest_turn state in
    if match latest with
       | Some turn => failed_or_cancelled turn.(TurnState.status) | None => false end
       || match active_run state with
          | Some run => turn_limit_reached state run | None => false end
    then None
    else if overflowing recovery latest then
      if compaction_enabled config
         && match recovery with
            | Some recovery =>
                (recovery.(ContextRecoveryState.attempts) <? MAX_CONTEXT_RECOVERY_ATTEMPTS)%N
            | None => true
            end
         && negb (bool_decide (standalone_prefix_ids state = []))
      then Some (compaction_requested_proposal state ContextCompactionTrigger.ContextLimit None)
      else None
    else high_watermark_compaction_proposal state config.

(** ** Planner *)
(** The run a pending compaction belongs to is not running any more. *)
Definition orphaned_compaction (state : CoreAgentState) : bool :=
  match pending_plan (compaction_state state) ≫= ContextCompactionPlan.run_id with
  | Some run_id =>
      match active_run state with
      | Some run => bool_decide (run.(ActiveRun.run_id) ≠ run_id)
                    || bool_decide (run.(ActiveRun.status) ≠ RunStatus.Running)
      | None => true
      end
  | None => false
  end.

Definition plan_input_entries (state : CoreAgentState) (run : ActiveRun)
    : Result DomainError (list CoreAgentEventProposal) :=
  if bool_decide (run.(ActiveRun.status) ≠ RunStatus.Running) then mret [] else
  run_input ← missing_run_input_entries state;
  if negb (bool_decide (run_input = []))
  then mret [entries_applied_proposal state run.(ActiveRun.run_id) run_input] else
  if is_some run.(ActiveRun.active_turn_id) || is_some run.(ActiveRun.active_tool_batch_id)
  then mret [] else
  steering ← missing_steering_entries state;
  if negb (bool_decide (steering = []))
  then mret [entries_applied_proposal state run.(ActiveRun.run_id) steering] else
  mret [].

Definition plan_context_next (state : CoreAgentState)
    : Result PlanningError (list CoreAgentEventProposal) :=
  if bool_decide (state.(CoreAgentState.lifecycle).(LifecycleState.status) ≠ CoreAgentStatus.Open)
  then mret []
  else if is_pending (compaction_state state) && orphaned_compaction state
  then mret [compaction_abandoned_proposal state]
  else if is_pending (compaction_state state) then mret []
  else match provider_compacted_prune_proposal state with
  | Some p => mret [p]
  | None =>
  match next_compaction_proposal state with
  | Some p => mret [p]
  | None =>
  match active_run state with
  | None => mret []
  | Some run => domain (plan_input_entries state run)
  end end end.
