(* ===== verification/Runs.v ===== *)
(** * Runs

    A run from its acceptance to its terminal record: the reducer, the planner that
    starts queued runs and ends finished ones, the planner of its turns, and the
    rebuilding of a pruned run's record ([core/components/run.rs], [plan_next] of
    [core/components/turn.rs]). *)
From S2P Require Import Prelude Ids Text Types Events Media Externals RunState Config Contexts.
From S2P Require Import Promises Compaction ContextReducer ToolSpecs CodeTools WorkflowTools.
From S2P Require Import Toolset Approvals ContextPlan Llm Turns.

Section runs.
Context `{!Externals}.

(** ** Records *)
Definition set_runs (f : RunsState → RunsState) (state : CoreAgentState) : CoreAgentState :=
  state <| CoreAgentState.runs ::= f |>.

Definition finished_record (run : ActiveRun) (status : RunStatus) (output : option ContentRef)
    (failure : option RunFailure) (terminal_seq : EventSeq) (finished_at_ms : N) : RunRecord :=
  {| RunRecord.run_id := run.(ActiveRun.run_id);
     RunRecord.status := status;
     RunRecord.submission_id := run.(ActiveRun.submission_id);
     RunRecord.submission_digest := request_run_submission_digest
       (source_request_equivalent run.(ActiveRun.source)) run.(ActiveRun.run_config)
       run.(ActiveRun.notify_on_terminal);
     RunRecord.source := compact_terminal_source run.(ActiveRun.source);
     RunRecord.first_seq := run.(ActiveRun.first_seq);
     RunRecord.terminal_seq := terminal_seq;
     RunRecord.accepted_at_ms := run.(ActiveRun.accepted_at_ms);
     RunRecord.started_at_ms := run.(ActiveRun.started_at_ms);
     RunRecord.finished_at_ms := finished_at_ms;
     RunRecord.usage := run.(ActiveRun.usage);
     RunRecord.output := output;
     RunRecord.failure := failure;
     RunRecord.notify_on_terminal := run.(ActiveRun.notify_on_terminal) |}.

Definition cancelled_record (queued : AcceptedRun) (terminal_seq : EventSeq)
    (finished_at_ms : N) : RunRecord :=
  {| RunRecord.run_id := queued.(AcceptedRun.run_id);
     RunRecord.status := RunStatus.Cancelled;
     RunRecord.submission_id := queued.(AcceptedRun.submission_id);
     RunRecord.submission_digest := request_run_submission_digest
       (source_request_equivalent queued.(AcceptedRun.source)) queued.(AcceptedRun.run_config)
       queued.(AcceptedRun.notify_on_terminal);
     RunRecord.source := compact_terminal_source queued.(AcceptedRun.source);
     RunRecord.first_seq := queued.(AcceptedRun.first_seq);
     RunRecord.terminal_seq := terminal_seq;
     RunRecord.accepted_at_ms := queued.(AcceptedRun.accepted_at_ms);
     RunRecord.started_at_ms := None;
     RunRecord.finished_at_ms := finished_at_ms;
     RunRecord.usage := None;
     RunRecord.output := None;
     RunRecord.failure := None;
     RunRecord.notify_on_terminal := queued.(AcceptedRun.notify_on_terminal) |}.

Definition push_finished (record : RunRecord) (runs : RunsState) : RunsState :=
  prune_terminal_run_records
    (runs <| RunsState.finished ::= λ finished, finished ++ [record] |>).

(** ** Reducer *)
Definition finish_active_run (run_id : RunId) (status : RunStatus) (output : option ContentRef)
    (failure : option RunFailure) (terminal_seq : EventSeq) (finished_at_ms : N)
    : CoreReducer unit :=
  run ← active_run_mut run_id;
  _ ← modify_state (interrupt_code_tools_for_run run_id);
  _ ← modify_state (set_runs (λ runs,
        push_finished (finished_record run status output failure terminal_seq finished_at_ms)
          (runs <| RunsState.active := None |>)));
  modify_state prune_finished_work.

Definition accept_run (accepted : AcceptedRunEvent) (seq : EventSeq) (observed_at_ms : N)
    : CoreReducer unit :=
  state ← get_state;
  let lifecycle := state.(CoreAgentState.lifecycle) in
  let run_id := accepted.(AcceptedRunEvent.run_id) in
  _ ← reject_if (bool_decide (lifecycle.(LifecycleState.status) ≠ CoreAgentStatus.Open))
        (InvariantViolation "runs can only be accepted while session is open");
  _ ← reject_if (negb (accepted.(AcceptedRunEvent.config_revision)
                         =? lifecycle.(LifecycleState.config_revision))%N)
        (InvariantViolation "accepted run config revision {} does not match session revision {}");
  _ ← lift_result (validate_recorded_run_config state accepted.(AcceptedRunEvent.run_config));
  expected ← lift_result
    (ok_or (next_u64 state.(CoreAgentState.id_cursors).(IdCursors.last_run_id))
       (InvariantViolation "run id cursor exhausted"));
  _ ← reject_if (bool_decide (run_id ≠ expected))
        (InvariantViolation "expected run id {}, got {}");
  _ ← modify_state (set_runs (λ runs, runs <| RunsState.queued ::= λ queued, queued ++
        [{| AcceptedRun.run_id := run_id;
            AcceptedRun.submission_id := accepted.(AcceptedRunEvent.submission_id);
            AcceptedRun.source := accepted.(AcceptedRunEvent.source);
            AcceptedRun.run_config := accepted.(AcceptedRunEvent.run_config);
            AcceptedRun.input_limit_tokens := accepted.(AcceptedRunEvent.input_limit_tokens);
            AcceptedRun.config_revision := accepted.(AcceptedRunEvent.config_revision);
            AcceptedRun.first_seq := seq;
            AcceptedRun.accepted_at_ms := observed_at_ms;
            AcceptedRun.notify_on_terminal :=
              accepted.(AcceptedRunEvent.notify_on_terminal) |}] |>));
  modify_state (λ state, state <| CoreAgentState.id_cursors ::= λ cursors,
    cursors <| IdCursors.last_run_id := run_id |> |>).

Definition started_run (queued : AcceptedRun) (observed_at_ms : N) : ActiveRun :=
  {| ActiveRun.context_recovery := default_of;
     ActiveRun.run_id := queued.(AcceptedRun.run_id);
     ActiveRun.status := RunStatus.Running;
     ActiveRun.submission_id := queued.(AcceptedRun.submission_id);
     ActiveRun.source := queued.(AcceptedRun.source);
     ActiveRun.input_entry_ids := [];
     ActiveRun.input_consumed_by_turn_id := None;
     ActiveRun.run_config := queued.(AcceptedRun.run_config);
     ActiveRun.input_limit_tokens := queued.(AcceptedRun.input_limit_tokens);
     ActiveRun.config_revision := queued.(AcceptedRun.config_revision);
     ActiveRun.first_seq := queued.(AcceptedRun.first_seq);
     ActiveRun.accepted_at_ms := queued.(AcceptedRun.accepted_at_ms);
     ActiveRun.started_at_ms := Some observed_at_ms;
     ActiveRun.usage := None;
     ActiveRun.steering := [];
     ActiveRun.turns := ∅;
     ActiveRun.turn_count := 0;
     ActiveRun.entry_guard_attempted := false;
     ActiveRun.active_turn_id := None;
     ActiveRun.active_tool_batch_id := None;
     ActiveRun.approvals := ∅;
     ActiveRun.parked_tool_batch := None;
     ActiveRun.tool_batches := ∅;
     ActiveRun.completed_tool_batches := ∅;
     ActiveRun.notify_on_terminal := queued.(AcceptedRun.notify_on_terminal) |}.

Definition start_run (run_id : RunId) (observed_at_ms : N) : CoreReducer unit :=
  state ← get_state;
  let runs := state.(CoreAgentState.runs) in
  _ ← reject_if (bool_decide (state.(CoreAgentState.lifecycle).(LifecycleState.status)
                                ≠ CoreAgentStatus.Open))
        (InvariantViolation "runs can only start while session is open");
  _ ← reject_if (is_some runs.(RunsState.active))
        (InvariantViolation "cannot start run while another run is active");
  queued ← lift_result (ok_or (head runs.(RunsState.queued))
             (InvariantViolation "cannot start run without queued work"));
  _ ← reject_if (bool_decide (queued.(AcceptedRun.run_id) ≠ run_id))
        (InvariantViolation "started run does not match first queued run");
  modify_state (set_runs (λ runs,
    runs <| RunsState.queued ::= tail |>
         <| RunsState.active := Some (started_run queued observed_at_ms) |>)).

Definition accepts_steering (status : RunStatus) : bool :=
  match status with RunStatus.Running | RunStatus.Parked => true | _ => false end.
Definition is_nonterminal (status : RunStatus) : bool :=
  match status with
  | RunStatus.Running | RunStatus.Parked | RunStatus.Cancelling => true
  | _ => false
  end.

Definition accept_steering (run_id : RunId) (steering_id : SteeringId)
    (submission_id : SubmissionId) (input : list ContextEntryInput) : CoreReducer unit :=
  state ← get_state;
  expected ← lift_result
    (ok_or (next_u64 state.(CoreAgentState.id_cursors).(IdCursors.last_steering_id))
       (InvariantViolation "steering id cursor exhausted"));
  _ ← reject_if (bool_decide (steering_id ≠ expected))
        (InvariantViolation "expected steering id {}, got {}");
  run ← active_run_mut run_id;
  _ ← reject_if (negb (accepts_steering run.(ActiveRun.status)))
        (InvariantViolation "steering can only be added to active or parked runs");
  _ ← put_active_run (run <| ActiveRun.steering ::= λ steering, steering ++
        [{| SteeringBatch.steering_id := steering_id;
            SteeringBatch.submission_id := submission_id;
            SteeringBatch.input := input;
            SteeringBatch.entry_ids := [];
            SteeringBatch.consumed_by_turn_id := None |}] |>);
  modify_state (λ state, state <| CoreAgentState.id_cursors ::= λ cursors,
    cursors <| IdCursors.last_steering_id := steering_id |> |>).

Definition cancel_queued (run_id : RunId) (seq : EventSeq) (observed_at_ms : N)
    : CoreReducer unit :=
  state ← get_state;
  '(position, queued) ← lift_result
    (ok_or (list_find (λ queued, queued.(AcceptedRun.run_id) = run_id)
              state.(CoreAgentState.runs).(RunsState.queued))
       (InvariantViolation "queued run {} not found"));
  modify_state (set_runs (λ runs,
    push_finished (cancelled_record queued seq observed_at_ms)
      (runs <| RunsState.queued ::= delete position |>))).

Definition apply_run_event (event : RunEvent) (seq : EventSeq) (observed_at_ms : N)
    : CoreReducer unit :=
  match event with
  | RunEvent.Accepted accepted => accept_run accepted seq observed_at_ms
  | RunEvent.Started run_id => start_run run_id observed_at_ms
  | RunEvent.SteeringAccepted run_id steering_id submission_id input _ =>
      accept_steering run_id steering_id submission_id input
  | RunEvent.CancellationRequested run_id _ =>
      run ← active_run_mut run_id;
      _ ← reject_if (negb (accepts_steering run.(ActiveRun.status)))
            (InvariantViolation "only active or parked runs can request cancellation");
      put_active_run (run <| ActiveRun.status := RunStatus.Cancelling |>)
  | RunEvent.Completed run_id output =>
      finish_active_run run_id RunStatus.Completed output None seq observed_at_ms
  | RunEvent.Failed run_id failure =>
      finish_active_run run_id RunStatus.Failed None (Some failure) seq observed_at_ms
  | RunEvent.Cancelled run_id =>
      run ← checking (λ state, ok_or (active_run state) (InvariantViolation "no active run"));
      _ ← reject_if (bool_decide (run.(ActiveRun.status) ≠ RunStatus.Cancelling))
            (InvariantViolation "only cancelling runs can become cancelled");
      _ ← reject_if (is_some run.(ActiveRun.active_turn_id)
                     || is_some run.(ActiveRun.active_tool_batch_id))
            (InvariantViolation "cancellation requires drained active work");
      finish_active_run run_id RunStatus.Cancelled None None seq observed_at_ms
  | RunEvent.ForceCancelled run_id =>
      run ← checking (λ state, ok_or (active_run state) (InvariantViolation "no active run"));
      _ ← reject_if (negb (is_nonterminal run.(ActiveRun.status)))
            (InvariantViolation "only non-terminal runs can be force-cancelled");
      finish_active_run run_id RunStatus.Cancelled None None seq observed_at_ms
  | RunEvent.QueuedCancelled run_id _ => cancel_queued run_id seq observed_at_ms
  end.

(** ** When a run ends *)
Definition run_failed (run : ActiveRun) (kind : RunFailureKind) (message_ref : option BlobRef)
    : RunEvent :=
  RunEvent.Failed run.(ActiveRun.run_id)
    {| RunFailure.kind := kind; RunFailure.message_ref := message_ref |}.

Definition turn_limit_failure (state : CoreAgentState) (run : ActiveRun) : option RunEvent :=
  if turn_limit_reached state run && negb (has_unstarted_tool_call_turn run)
  then Some (run_failed run RunFailureKind.LimitExceeded (Some turn_limit_failure_ref))
  else None.

(** The overflow of this turn can no longer be recovered from. *)
Definition context_limit_is_final (state : CoreAgentState) (run : ActiveRun) (turn : TurnState)
    : bool :=
  let recovery := run.(ActiveRun.context_recovery) in
  negb (is_pending (compaction_state state))
  && negb (bool_decide (recovery.(ContextRecoveryState.recovery_attempted_turn_id)
                          = Some turn.(TurnState.turn_id)))
  && (match state.(CoreAgentState.lifecycle).(LifecycleState.config) with
      | Some config => negb (compaction_enabled config)
      | None => true
      end
      || (MAX_CONTEXT_RECOVERY_ATTEMPTS <=? recovery.(ContextRecoveryState.attempts))%N
      || bool_decide (standalone_prefix_ids state = [])).

(** What a failed turn ends its run with. *)
Definition failed_turn_failure (run : ActiveRun) (turn : TurnState)
    (failure_ref : option BlobRef) : RunEvent :=
  match LlmGenerationFacts.finish <$> turn.(TurnState.facts) with
  | Some LlmFinish.Length => run_failed run RunFailureKind.OutputTruncated
      (Some (default output_truncated_failure_ref failure_ref))
  | Some LlmFinish.ContentFilter => run_failed run RunFailureKind.ContentFiltered
      (Some (default content_filtered_failure_ref failure_ref))
  | _ => run_failed run RunFailureKind.ModelFailure
      (Some (default llm_runtime_boundary_failure_ref failure_ref))
  end.

Definition mismatched_outcome {A} : Result PlanningError A :=
  mthrow (PlanningError.Domain
    (InvariantViolation "turn {} status {:?} does not match outcome {:?}")).

(** The [match] on the latest turn's status and outcome. *)
Definition terminal_run_event (state : CoreAgentState) (run : ActiveRun) (turn : TurnState)
    : Result PlanningError (option RunEvent) :=
  match turn.(TurnState.status), turn.(TurnState.outcome) with
  | TurnStatus.Completed, Some (TurnOutcome.ContextLimit failure_ref) =>
      mret (if context_limit_is_final state run turn
            then Some (run_failed run RunFailureKind.ContextFailure
                         (or_else failure_ref (Some context_limit_failure_ref)))
            else turn_limit_failure state run)
  | TurnStatus.Completed, Some (TurnOutcome.FinalOutput output) =>
      mret (if has_unconsumed_steering run then turn_limit_failure state run
            else Some (RunEvent.Completed run.(ActiveRun.run_id) output))
  | TurnStatus.Failed, Some (TurnOutcome.Failed failure_ref) =>
      mret (Some (failed_turn_failure run turn failure_ref))
  | TurnStatus.Failed, Some (TurnOutcome.Rejected failure_ref) =>
      mret (Some (run_failed run RunFailureKind.RequestRejected
                    (or_else failure_ref (Some llm_runtime_boundary_failure_ref))))
  | TurnStatus.Cancelled, Some TurnOutcome.Cancelled =>
      mret (Some (run_failed run RunFailureKind.ModelFailure
                    (Some provider_cancelled_failure_ref)))
  | TurnStatus.Completed, Some TurnOutcome.ToolCallsQueued
  | TurnStatus.Completed, Some TurnOutcome.ApprovalsRequested =>
      mret (turn_limit_failure state run)
  | TurnStatus.Completed, Some _ | TurnStatus.Failed, Some _ | TurnStatus.Cancelled, Some _ =>
      mismatched_outcome
  | TurnStatus.Completed, None | TurnStatus.Failed, None | TurnStatus.Cancelled, None =>
      mthrow (PlanningError.Domain (InvariantViolation "terminal turn {} is missing outcome"))
  | _, _ => mret None
  end.

Definition is_run_failed (event : RunEvent) : bool :=
  match event with RunEvent.Failed _ _ => true | _ => false end.

Definition turn_joins (run_id : RunId) (turn_id : TurnId) : CoreAgentJoins :=
  {| CoreAgentJoins.run_id := Some run_id; CoreAgentJoins.turn_id := Some turn_id;
     CoreAgentJoins.tool_batch_id := None; CoreAgentJoins.tool_call_id := None;
     CoreAgentJoins.submission_id := None |}.

(** A failing run writes its accepted steering down before it ends. *)
Definition terminal_run_proposal (state : CoreAgentState) (run : ActiveRun)
    : Result PlanningError (option CoreAgentEventProposal) :=
  match latest_turn run with
  | None => mret None
  | Some (turn_id, turn) =>
      event ← terminal_run_event state run turn;
      mret (event ← event;
            if is_run_failed event && has_unmaterialized_steering run then None
            else Some (proposal (turn_joins run.(ActiveRun.run_id) turn_id)
                         (CoreAgentEvent.Run event)))
  end.
Definition latest_turn_is_terminal_run_outcome (state : CoreAgentState) (run : ActiveRun)
    : Result PlanningError bool :=
  event ← terminal_run_proposal state run;
  mret (is_some event).

(** ** Planner of runs *)
Definition run_proposal (run : ActiveRun) (event : RunEvent) : CoreAgentEventProposal :=
  proposal (run_joins run.(ActiveRun.run_id)) (CoreAgentEvent.Run event).

(** The active run is between turns and batches. *)
Definition plan_idle_run (state : CoreAgentState) (run : ActiveRun)
    : Result PlanningError (list CoreAgentEventProposal) :=
  if bool_decide (run.(ActiveRun.status) = RunStatus.Cancelling)
     && negb (has_unstarted_tool_call_turn run)
  then mret [run_proposal run (RunEvent.Cancelled run.(ActiveRun.run_id))] else
  terminal ← (if bool_decide (run.(ActiveRun.status) = RunStatus.Running)
              then terminal_run_proposal state run else mret None);
  match terminal with
  | Some p => mret [p]
  | None =>
      if bool_decide (entry_guard state run = EntryGuard.FailRun)
         && negb (has_unmaterialized_steering run)
      then mret [run_proposal run (run_failed run RunFailureKind.ContextFailure
                                     (Some entry_guard_failure_ref))]
      else mret []
  end.

Definition plan_run_next (state : CoreAgentState)
    : Result PlanningError (list CoreAgentEventProposal) :=
  if is_pending (compaction_state state)
     || (is_queued (compaction_state state) && compaction_safe_boundary state)
  then mret []
  else if bool_decide (state.(CoreAgentState.lifecycle).(LifecycleState.status)
                         ≠ CoreAgentStatus.Open)
  then mret []
  else match active_run state with
  | Some run =>
      if is_none run.(ActiveRun.active_turn_id) && is_none run.(ActiveRun.active_tool_batch_id)
      then plan_idle_run state run
      else mret []
  | None =>
      match head state.(CoreAgentState.runs).(RunsState.queued) with
      | None => mret []
      | Some queued =>
          let run_id := queued.(AcceptedRun.run_id) in
          mret [proposal
            {| CoreAgentJoins.run_id := Some run_id; CoreAgentJoins.turn_id := None;
               CoreAgentJoins.tool_batch_id := None; CoreAgentJoins.tool_call_id := None;
               CoreAgentJoins.submission_id := queued.(AcceptedRun.submission_id) |}
            (CoreAgentEvent.Run (RunEvent.Started run_id))]
      end
  end.

(** ** Planner of turns *)
Definition turn_proposal (run : ActiveRun) (turn_id : TurnId) (event : TurnEvent)
    : CoreAgentEventProposal :=
  proposal (turn_joins run.(ActiveRun.run_id) turn_id) (CoreAgentEvent.Turn event).

Definition decide_active_turn_progress (state : CoreAgentState) (run : ActiveRun)
    (turn_id : TurnId) : Result PlanningError (list CoreAgentEventProposal) :=
  let run_id := run.(ActiveRun.run_id) in
  turn ← ok_or (run.(ActiveRun.turns) !! turn_id)
           (PlanningError.Domain (InvariantViolation "active turn {} is missing from run state"));
  if bool_decide (run.(ActiveRun.status) = RunStatus.Cancelling)
     && cancellable_turn turn.(TurnState.status)
  then mret [turn_proposal run turn_id (TurnEvent.Cancelled turn_id run_id)] else
  match turn.(TurnState.status) with
  | TurnStatus.Started =>
      if bool_decide (run.(ActiveRun.status) ≠ RunStatus.Running) then mret [] else
      request ← build_llm_request state run turn_id;
      mret [turn_proposal run turn_id (TurnEvent.Planned turn_id run_id
        request.(LlmRequest.request_fingerprint)
        state.(CoreAgentState.lifecycle).(LifecycleState.config_revision)
        request.(LlmRequest.context).(ContextSnapshot.context_revision)
        state.(CoreAgentState.tooling).(ToolingState.revision))]
  | TurnStatus.Planned =>
      if bool_decide (run.(ActiveRun.status) ≠ RunStatus.Running) then mret [] else
      _ ← domain (reject_if (is_none turn.(TurnState.planned_request))
            (InvariantViolation "planned turn {} is missing request metadata"));
      mret [turn_proposal run turn_id (TurnEvent.GenerationRequested turn_id run_id)]
  | _ => mret []
  end.

Definition plan_turn_next (state : CoreAgentState)
    : Result PlanningError (list CoreAgentEventProposal) :=
  if bool_decide (state.(CoreAgentState.lifecycle).(LifecycleState.status) ≠ CoreAgentStatus.Open)
     || is_pending (compaction_state state)
  then mret [] else
  match active_run state with
  | None => mret []
  | Some run =>
      if is_some run.(ActiveRun.active_tool_batch_id) then mret [] else
      match run.(ActiveRun.active_turn_id) with
      | Some turn_id => decide_active_turn_progress state run turn_id
      | None =>
          if bool_decide (run.(ActiveRun.status) ≠ RunStatus.Running) then mret [] else
          terminal ← latest_turn_is_terminal_run_outcome state run;
          if (terminal : bool) then mret [] else
          turn_id ← domain (ok_or
            (next_u64 state.(CoreAgentState.id_cursors).(IdCursors.last_turn_id))
            (InvariantViolation "turn id cursor exhausted"));
          mret [turn_proposal run turn_id (TurnEvent.Started turn_id run.(ActiveRun.run_id))]
      end
  end.
End runs.

(** ** A run's record from the log *)
(** What the entries of one run say so far. *)
Module RunTrace.
Record RunTrace : Type := {
  accepted : option (AcceptedRunEvent * EventSeq * N);
  started_at_ms : option N;
  terminal : option (RunStatus * option ContentRef * option RunFailure * EventSeq * N);
}.
End RunTrace.
Abbreviation RunTrace := RunTrace.RunTrace.
Definition empty_trace : RunTrace :=
  {| RunTrace.accepted := None; RunTrace.started_at_ms := None; RunTrace.terminal := None |}.

Section trace.
Context `{!Externals}.

Definition terminal_outcome (event : RunEvent)
    : option (RunStatus * option ContentRef * option RunFailure) :=
  match event with
  | RunEvent.Completed _ output => Some (RunStatus.Completed, output, None)
  | RunEvent.Failed _ failure => Some (RunStatus.Failed, None, Some failure)
  | RunEvent.Cancelled _ | RunEvent.ForceCancelled _ | RunEvent.QueuedCancelled _ _ =>
      Some (RunStatus.Cancelled, None, None)
  | _ => None
  end.

Definition trace_entry (trace : RunTrace) (entry : CoreAgentEntry) : RunTrace :=
  let seq := entry.(CoreAgentEntry.position).(SessionPosition.seq) in
  let at_ms := entry.(CoreAgentEntry.observed_at_ms) in
  match entry.(CoreAgentEntry.event) with
  | CoreAgentEvent.Run (RunEvent.Accepted event) =>
      {| RunTrace.accepted := Some (event, seq, at_ms);
         RunTrace.started_at_ms := trace.(RunTrace.started_at_ms);
         RunTrace.terminal := trace.(RunTrace.terminal) |}
  | CoreAgentEvent.Run (RunEvent.Started _) =>
      {| RunTrace.accepted := trace.(RunTrace.accepted);
         RunTrace.started_at_ms := Some at_ms;
         RunTrace.terminal := trace.(RunTrace.terminal) |}
  | CoreAgentEvent.Run event =>
      match terminal_outcome event with
      | Some (status, output, failure) =>
          {| RunTrace.accepted := trace.(RunTrace.accepted);
             RunTrace.started_at_ms := trace.(RunTrace.started_at_ms);
             RunTrace.terminal := Some (status, output, failure, seq, at_ms) |}
      | None => trace
      end
  | _ => trace
  end.

Definition run_record_from_entries (entries : list CoreAgentEntry) : option RunRecord :=
  let trace := foldl trace_entry empty_trace entries in
  '(accepted, first_seq, accepted_at_ms) ← trace.(RunTrace.accepted);
  '(status, output, failure, terminal_seq, finished_at_ms) ← trace.(RunTrace.terminal);
  Some {| RunRecord.run_id := accepted.(AcceptedRunEvent.run_id);
          RunRecord.status := status;
          RunRecord.submission_id := accepted.(AcceptedRunEvent.submission_id);
          RunRecord.submission_digest := request_run_submission_digest
            (source_request_equivalent accepted.(AcceptedRunEvent.source))
            accepted.(AcceptedRunEvent.run_config)
            accepted.(AcceptedRunEvent.notify_on_terminal);
          RunRecord.source := compact_terminal_source accepted.(AcceptedRunEvent.source);
          RunRecord.first_seq := first_seq;
          RunRecord.terminal_seq := terminal_seq;
          RunRecord.accepted_at_ms := accepted_at_ms;
          RunRecord.started_at_ms := trace.(RunTrace.started_at_ms);
          RunRecord.finished_at_ms := finished_at_ms;
          RunRecord.usage := None;
          RunRecord.output := output;
          RunRecord.failure := failure;
          RunRecord.notify_on_terminal := accepted.(AcceptedRunEvent.notify_on_terminal) |}.

Definition accumulate_run_usage (total : option LlmUsage) (entry : CoreAgentEntry)
    : option LlmUsage :=
  match entry.(CoreAgentEntry.event) with
  | CoreAgentEvent.Turn (TurnEvent.GenerationCompleted _ _ _ facts) =>
      match facts.(LlmGenerationFacts.usage) with
      | Some usage => accumulate_usage total usage
      | None => total
      end
  | _ => total
  end.
End trace.
