(* ===== verification/Replay.v ===== *)
(** * Replay

    Applying committed entries to the session state, in the order of the log ([core/apply.rs]),
    and the order of the planners ([core/planning.rs]).

    [reduce_log], [reduce_proposals] and [committed_entries] are what theorems about the reducer
    speak of: entries reduced one after the other, proposals reduced at the positions they will
    have, and the entries they become. They translate no function of the source, for drives and
    stores handle events in their stored form. The code's own functions are
    [Drive.resume_appended_entries], [Drive.dry_run_stored] and
    [SessionStore.commit_uncommitted_events], and they agree once the events are decoded:
    [DriveLaws.resume_appended_entries_Ok], [DriveLaws.dry_run_reduces], [DriveLaws.commit_decoded]. *)
From S2P Require Import Prelude Ids Text Types Events Media Externals RunState Config Promises.
From S2P Require Import Sessions Contexts Compaction ToolSpecs CodeTools ContextReducer Llm.
From S2P Require Import Approvals Turns WorkflowTools Toolset ContextPlan Runs.

Section replay.
Context `{!Externals}.

(** ** One entry *)
Definition entry_seq (entry : CoreAgentEntry) : EventSeq :=
  entry.(CoreAgentEntry.position).(SessionPosition.seq).

Definition expected_seq (state : CoreAgentState) : Result DomainError EventSeq :=
  match state.(CoreAgentState.reduced_to) with
  | Some position => ok_or (next_u64 position.(SessionPosition.seq))
                       (EventOrdering "session event sequence exhausted")
  | None => mret 1%N
  end.
Definition validate_next_position (state : CoreAgentState) (entry : CoreAgentEntry)
    : Result DomainError unit :=
  expected ← expected_seq state;
  reject_if (negb (entry_seq entry =? expected)%N)
    (EventOrdering "expected session event seq {}, got {}").

Definition apply_event_kind (entry : CoreAgentEntry) : CoreReducer unit :=
  match entry.(CoreAgentEntry.event) with
  | CoreAgentEvent.Lifecycle event => apply_lifecycle_event event
  | CoreAgentEvent.Run event =>
      apply_run_event event (entry_seq entry) entry.(CoreAgentEntry.observed_at_ms)
  | CoreAgentEvent.Approval event =>
      apply_approval_event event entry.(CoreAgentEntry.observed_at_ms)
  | CoreAgentEvent.Turn event => apply_turn_event event
  | CoreAgentEvent.Context event => apply_context_event event
  | CoreAgentEvent.Environment event => apply_environment_event event
  | CoreAgentEvent.ToolConfig event => apply_tool_config_event event
  | CoreAgentEvent.Tool event => apply_tool_event event
  | CoreAgentEvent.Promise event => apply_promise_event event
  | CoreAgentEvent.WorkflowToolConfig event => apply_workflow_tool_config_event event
  | CoreAgentEvent.CodeTool event => apply_code_tool_event event
  | CoreAgentEvent.WorkflowTool event => apply_workflow_tool_event event
  end.

Definition apply_event (entry : CoreAgentEntry) : CoreReducer unit :=
  _ ← checking (λ state, validate_next_position state entry);
  _ ← apply_event_kind entry;
  modify_state (λ state,
    state <| CoreAgentState.reduced_to := Some entry.(CoreAgentEntry.position) |>).

(** ** A log *)
(** Decoded entries reduced one after the other, up to the first that is refused. *)
Definition reduce_log (entries : list CoreAgentEntry) : CoreReducer unit :=
  for_each apply_event entries.

(** [UncommittedCoreAgentEvent], as the proposal it carries and the time it has. *)
Definition committed_entry (seq : EventSeq) (observed_at_ms : N) (p : CoreAgentEventProposal)
    : CoreAgentEntry :=
  {| CoreAgentEntry.position := {| SessionPosition.seq := seq |};
     CoreAgentEntry.observed_at_ms := observed_at_ms;
     CoreAgentEntry.joins := p.(CoreAgentEventProposal.joins);
     CoreAgentEntry.event := p.(CoreAgentEventProposal.event) |}.

(** [head.map_or(1, |position| position.seq.saturating_add(1))]. *)
Definition following_seq (head : option SessionPosition) : EventSeq :=
  match head with
  | Some position => saturating_add_u64 position.(SessionPosition.seq) 1
  | None => 1%N
  end.

(** Each proposal reduced at the position that follows the state. *)
Definition reduce_proposals (observed_at_ms : N) (proposals : list CoreAgentEventProposal)
    : CoreReducer unit :=
  for_each (λ p,
    state ← get_state;
    apply_event (committed_entry (following_seq state.(CoreAgentState.reduced_to))
                   observed_at_ms p)) proposals.

(** The entries of proposals, at the positions that follow a head. *)
Fixpoint committed_entries (head : option SessionPosition) (observed_at_ms : N)
    (proposals : list CoreAgentEventProposal) : list CoreAgentEntry :=
  match proposals with
  | [] => []
  | p :: proposals =>
      let entry := committed_entry (following_seq head) observed_at_ms p in
      entry :: committed_entries (Some entry.(CoreAgentEntry.position)) observed_at_ms
                 proposals
  end.
End replay.

(** * Planning

    The composition of the component planners ([core/planning.rs]). *)

Section planning.
Context `{!Externals}.

Definition planners : list (CoreAgentState → Result PlanningError (list CoreAgentEventProposal)) :=
  [plan_approval_next; plan_run_next; plan_tool_next; plan_context_next; plan_turn_next].

(** The first planner with a proposal, or with an error, decides. *)
Fixpoint first_proposals
    (plans : list (CoreAgentState → Result PlanningError (list CoreAgentEventProposal)))
    (state : CoreAgentState) : Result PlanningError (list CoreAgentEventProposal) :=
  match plans with
  | [] => mret []
  | plan :: plans =>
      proposals ← plan state;
      if bool_decide (proposals = []) then first_proposals plans state else mret proposals
  end.
Definition plan_next (state : CoreAgentState)
    : Result PlanningError (list CoreAgentEventProposal) := first_proposals planners state.
End planning.
