(* ===== verification/Requests.v ===== *)
(** * Requests to the runtimes

    What the core asks a host to do: generate a model response, compact the context, or
    invoke the pending calls of a tool batch, and how a batch request is split into
    requests for one call ([core/drive.rs], [core/io.rs] and the dispatch part of
    [core/components/tooling.rs]). *)
From S2P Require Import Prelude Ids Text Types Events Commands Media Externals RunState Config.
From S2P Require Import Promises Contexts Compaction ToolSpecs CodeTools Llm WorkflowTools.
From S2P Require Import Toolset ContextPlan.

#[export] Instance set_ToolInvocationRequest_promise_control :
  Setter ToolInvocationRequest.promise_control :=
  ltac:(solve_setter ToolInvocationRequest.promise_control).
#[export] Instance set_ToolInvocationBatchRequest_calls :
  Setter ToolInvocationBatchRequest.calls :=
  ltac:(solve_setter ToolInvocationBatchRequest.calls).

Definition AWAIT_TOOL_ID : string := "concurrency.await".
Definition CANCEL_TOOL_ID : string := "concurrency.cancel".
Definition DETACH_TOOL_ID : string := "concurrency.detach".
Definition SLEEP_TOOL_ID : string := "concurrency.sleep".
Definition MCP_FIND_TOOLS_TOOL_ID : string := "mcp.find_tools".
Definition MCP_CALL_TOOL_ID : string := "mcp.call".

(** ** Routing of a remote MCP call *)
Definition remote_mcp_target (spec : RemoteMcpToolSpec) : RemoteMcpCallTarget :=
  {| RemoteMcpCallTarget.server_id := spec.(RemoteMcpToolSpec.server_id);
     RemoteMcpCallTarget.record_revision := spec.(RemoteMcpToolSpec.record_revision);
     RemoteMcpCallTarget.server_label := spec.(RemoteMcpToolSpec.server_label);
     RemoteMcpCallTarget.allowed_tools := spec.(RemoteMcpToolSpec.allowed_tools);
     RemoteMcpCallTarget.approval := spec.(RemoteMcpToolSpec.approval) |}.

(** [<tool id>__<remote name>], when the server may be called under that name. *)
Definition resolve_injected_runtime_mcp (state : CoreAgentState) (tool_id : ToolId)
    (exposed_name : ToolName) : option (RemoteMcpToolSpec * string) :=
  tool ← state.(CoreAgentState.tooling).(ToolingState.tools) !! tool_id;
  match tool.(ToolSpec.kind) with
  | ToolKind.RemoteMcp spec =>
      if bool_decide (spec.(RemoteMcpToolSpec.execution) ≠ RemoteMcpExecution.Runtime)
         || bool_decide (spec.(RemoteMcpToolSpec.exposure) ≠ RemoteMcpExposure.Inject)
      then None
      else
        remote_name ← strip_prefix (tool_id +:+ "__") exposed_name;
        if bool_decide (remote_name = "")
           || match spec.(RemoteMcpToolSpec.allowed_tools) with
              | Some allowed => negb (bool_decide (remote_name ∈ allowed))
              | None => false
              end
        then None
        else match validate_remote_mcp_allowed_tool_name remote_name with
             | Ok _ => Some (spec, remote_name)
             | Err _ => None
             end
  | _ => None
  end.

(** The decision of the run's first approval for this call of this batch. *)
Definition approval_decision_for (batch_id : ToolBatchId) (call_id : ToolCallId)
    (record : ApprovalRecord) : option (option bool) :=
  match record.(ApprovalRecord.request).(ApprovalRequested.continuation) with
  | ApprovalContinuation.RuntimeMcp approval_batch_id approval_call_id =>
      if bool_decide (approval_batch_id = batch_id) && bool_decide (approval_call_id = call_id)
      then Some match record.(ApprovalRecord.status) with
                | ApprovalStatus.Approved => Some true
                | ApprovalStatus.Rejected => Some false
                | ApprovalStatus.Pending | ApprovalStatus.Cancelled => None
                end
      else None
  | _ => None
  end.
Definition approval_decision (state : CoreAgentState) (batch_id : ToolBatchId)
    (call_id : ToolCallId) : option bool :=
  run ← active_run state;
  mjoin (find_map (approval_decision_for batch_id call_id)
           (btree_values run.(ActiveRun.approvals))).

Definition searchable_target (tool : ToolSpec) : option RemoteMcpCallTarget :=
  match tool.(ToolSpec.kind) with
  | ToolKind.RemoteMcp spec =>
      if bool_decide (spec.(RemoteMcpToolSpec.execution) = RemoteMcpExecution.Runtime)
         && bool_decide (spec.(RemoteMcpToolSpec.exposure) = RemoteMcpExposure.Search)
      then Some (remote_mcp_target spec) else None
  | _ => None
  end.
Definition remote_mcp_call_runtime (state : CoreAgentState) (batch_id : ToolBatchId)
    (call : ObservedToolCall) : option RemoteMcpCallRuntime :=
  tool_id ← call.(ObservedToolCall.tool_id);
  let decision := approval_decision state batch_id call.(ObservedToolCall.call_id) in
  match resolve_injected_runtime_mcp state tool_id call.(ObservedToolCall.tool_name) with
  | Some (spec, remote_tool_name) =>
      Some (RemoteMcpCallRuntime.Injected (remote_mcp_target spec) remote_tool_name decision)
  | None =>
      if negb (bool_decide (tool_id = MCP_FIND_TOOLS_TOOL_ID)
               || bool_decide (tool_id = MCP_CALL_TOOL_ID)) then None else
      let targets := omap searchable_target
        (btree_values state.(CoreAgentState.tooling).(ToolingState.tools)) in
      if bool_decide (targets = []) then None
      else Some (RemoteMcpCallRuntime.Search targets decision)
  end.

(** ** One call *)
Definition WorkflowToolCallRuntime_v1 (binding : WorkflowToolBinding) (in_flight : N)
    : WorkflowToolCallRuntime :=
  {| WorkflowToolCallRuntime.version := 1;
     WorkflowToolCallRuntime.binding := binding;
     WorkflowToolCallRuntime.in_flight_invocation_count := in_flight |}.
Definition workflow_tool_runtime (state : CoreAgentState) (run_id : RunId)
    (call : ObservedToolCall) : option WorkflowToolCallRuntime :=
  tool_id ← call.(ObservedToolCall.tool_id);
  binding ← binding_for_tool_id state.(CoreAgentState.workflow_tools) tool_id;
  Some (WorkflowToolCallRuntime_v1 binding
    (in_flight_invocation_count state.(CoreAgentState.workflow_tools)
       state.(CoreAgentState.promises) run_id
       binding.(WorkflowToolBinding.definition).(WorkflowToolDefinition.workflow_tool_id))).

(** The source expects a model: an open session has one. *)
Definition builtin_runtime (state : CoreAgentState) (run : ActiveRun) (call : ObservedToolCall)
    : Result DomainError (option BuiltinToolCallRuntime) :=
  match (tool_id ← call.(ObservedToolCall.tool_id);
         state.(CoreAgentState.tooling).(ToolingState.tools) !! tool_id) with
  | Some tool =>
      match tool.(ToolSpec.kind) with
      | ToolKind.Builtin spec =>
          model ← ok_or (or_else run.(ActiveRun.run_config).(RunConfig.model_override)
                           (SessionConfig.model
                              <$> state.(CoreAgentState.lifecycle).(LifecycleState.config)))
                    (InvariantViolation "active run has a configured model");
          mret (Some {| BuiltinToolCallRuntime.spec := spec;
                        BuiltinToolCallRuntime.model := model |})
      | _ => mret None
      end
  | None => mret None
  end.
Definition call_invocation_request (state : CoreAgentState) (run : ActiveRun)
    (batch_id : ToolBatchId) (call : ObservedToolCall)
    : Result DomainError ToolInvocationRequest :=
  builtin ← builtin_runtime state run call;
  mret {| ToolInvocationRequest.call_id := call.(ObservedToolCall.call_id);
          ToolInvocationRequest.tool_id := call.(ObservedToolCall.tool_id);
          ToolInvocationRequest.tool_name := call.(ObservedToolCall.tool_name);
          ToolInvocationRequest.arguments_ref := call.(ObservedToolCall.arguments_ref);
          ToolInvocationRequest.builtin := builtin;
          ToolInvocationRequest.workflow_tool :=
            workflow_tool_runtime state run.(ActiveRun.run_id) call;
          ToolInvocationRequest.promise_control := None;
          ToolInvocationRequest.remote_mcp := remote_mcp_call_runtime state batch_id call |}.

(** ** A batch of calls *)
Definition session_features (state : CoreAgentState) : option FeaturesConfig :=
  SessionConfig.features <$> state.(CoreAgentState.lifecycle).(LifecycleState.config).

Definition vfs_feature (state : CoreAgentState) : option VfsFeature :=
  session_features state ≫= FeaturesConfig.vfs.
Definition active_run_named (state : CoreAgentState) (run_id : RunId) : option ActiveRun :=
  run ← active_run state;
  if bool_decide (run.(ActiveRun.run_id) = run_id) then Some run else None.

Definition tool_invocation_request (state : CoreAgentState) (session_id : SessionId)
    (run_id : RunId) (turn_id : TurnId) (batch_id : ToolBatchId) (promise_id_base : N)
    (observed_calls : list ObservedToolCall) : Result DomainError ToolInvocationBatchRequest :=
  run ← ok_or (active_run_named state run_id)
          (InvariantViolation "tool invocation requires its active run");
  calls ← mapM (call_invocation_request state run batch_id) observed_calls;
  mret {| ToolInvocationBatchRequest.session_id := session_id;
          ToolInvocationBatchRequest.run_id := run_id;
          ToolInvocationBatchRequest.turn_id := turn_id;
          ToolInvocationBatchRequest.batch_id := batch_id;
          ToolInvocationBatchRequest.workspace_attachments :=
            default [] (VfsFeature.workspaces <$> vfs_feature state);
          ToolInvocationBatchRequest.vfs_working_directory :=
            vfs_feature state ≫= VfsFeature.working_directory;
          ToolInvocationBatchRequest.active_environment_id :=
            state.(CoreAgentState.environment).(EnvironmentState.active_environment_id);
          ToolInvocationBatchRequest.environment_policy :=
            session_features state ≫= FeaturesConfig.environments;
          ToolInvocationBatchRequest.subagents_policy :=
            session_features state ≫= FeaturesConfig.subagents;
          ToolInvocationBatchRequest.code_mode_policy :=
            session_features state ≫= FeaturesConfig.code_mode;
          ToolInvocationBatchRequest.promise_id_base := promise_id_base;
          ToolInvocationBatchRequest.calls := calls |}.

(** Ids below the base were minted before: by the session or by an earlier dispatch. *)
Definition dispatch_promise_base (state : CoreAgentState) (batch : ActiveToolBatch) : N :=
  N.max batch.(ActiveToolBatch.promise_id_base)
    (saturating_add_u64 state.(CoreAgentState.id_cursors).(IdCursors.last_promise_id) 1).
Definition pending_calls (batch : ActiveToolBatch) : list ObservedToolCall :=
  ToolCallState.call <$> List.filter (λ call,
    bool_decide (call.(ToolCallState.status) = ToolCallStatus.Pending))
    batch.(ActiveToolBatch.calls).

Definition next_tool_batch_request (session_id : SessionId) (state : CoreAgentState)
    : Result DomainError (option ToolInvocationBatchRequest) :=
  match active_run state with
  | None => mret None
  | Some run =>
      if bool_decide (run.(ActiveRun.status) ≠ RunStatus.Running) then mret None else
      match run.(ActiveRun.active_tool_batch_id) with
      | None => mret None
      | Some batch_id =>
          batch ← ok_or (run.(ActiveRun.tool_batches) !! batch_id)
            (InvariantViolation "active tool batch {} is missing");
          if batch_parked run batch_id then mret None else
          let calls := pending_calls batch in
          if bool_decide (calls = []) then mret None else
          Some <$> tool_invocation_request state session_id batch.(ActiveToolBatch.run_id)
                     batch.(ActiveToolBatch.turn_id) batch.(ActiveToolBatch.batch_id)
                     (dispatch_promise_base state batch) calls
      end
  end.

(** ** Generation and compaction *)
Section generation.
Context `{!Externals}.

Definition next_generation_request (session_id : SessionId) (state : CoreAgentState)
    : Result DomainError (option LlmGenerationRequest) :=
  match active_run state with
  | None => mret None
  | Some run =>
      if bool_decide (run.(ActiveRun.status) ≠ RunStatus.Running) then mret None else
      match run.(ActiveRun.active_turn_id) with
      | None => mret None
      | Some turn_id =>
          turn ← ok_or (run.(ActiveRun.turns) !! turn_id)
            (InvariantViolation "active turn {} is missing");
          if bool_decide (turn.(TurnState.status) ≠ TurnStatus.GenerationPending)
          then mret None else
          planned ← ok_or turn.(TurnState.planned_request)
            (InvariantViolation "generation-pending turn is missing planned request metadata");
          request ← build_planned_llm_request state run turn_id planned;
          mret (Some {| LlmGenerationRequest.session_id := session_id;
                        LlmGenerationRequest.run_id := run.(ActiveRun.run_id);
                        LlmGenerationRequest.turn_id := turn_id;
                        LlmGenerationRequest.request := request |})
      end
  end.

Definition next_context_compaction_request (session_id : SessionId) (state : CoreAgentState)
    : Result DomainError (option ContextCompactionRequest) :=
  if bool_decide (state.(CoreAgentState.lifecycle).(LifecycleState.status)
                    ≠ CoreAgentStatus.Open)
     || negb (is_pending (compaction_state state))
  then mret None else
  request ← map_err (λ error, match error with
                              | PlanningError.Domain error => error
                              | PlanningError.Rejected message =>
                                  InvariantViolation ("planning rejected: " +:+ message)
                              end)
              (build_context_compaction_task state);
  mret (Some {| ContextCompactionRequest.session_id := session_id;
                ContextCompactionRequest.request := request |}).
End generation.

(** ** Splitting a batch *)
(** The index is added without a check: the sum wraps in a release build. *)
Definition call_request (self : ToolInvocationBatchRequest) (index : nat)
    (execution : ToolExecutionSpec) : option ToolInvocationCallRequest :=
  call ← self.(ToolInvocationBatchRequest.calls) !! index;
  let siblings := take index self.(ToolInvocationBatchRequest.calls)
                  ++ drop (S index) self.(ToolInvocationBatchRequest.calls) in
  let sibling_tool_ids := btree_keys (list_to_map
    ((λ tool_id, (tool_id, tt)) <$> omap ToolInvocationRequest.tool_id siblings)
    : gmap ToolId unit) in
  Some {| ToolInvocationCallRequest.session_id := self.(ToolInvocationBatchRequest.session_id);
          ToolInvocationCallRequest.run_id := self.(ToolInvocationBatchRequest.run_id);
          ToolInvocationCallRequest.turn_id := self.(ToolInvocationBatchRequest.turn_id);
          ToolInvocationCallRequest.batch_id := self.(ToolInvocationBatchRequest.batch_id);
          ToolInvocationCallRequest.workspace_attachments :=
            self.(ToolInvocationBatchRequest.workspace_attachments);
          ToolInvocationCallRequest.vfs_working_directory :=
            self.(ToolInvocationBatchRequest.vfs_working_directory);
          ToolInvocationCallRequest.active_environment_id :=
            self.(ToolInvocationBatchRequest.active_environment_id);
          ToolInvocationCallRequest.environment_policy :=
            self.(ToolInvocationBatchRequest.environment_policy);
          ToolInvocationCallRequest.subagents_policy :=
            self.(ToolInvocationBatchRequest.subagents_policy);
          ToolInvocationCallRequest.code_mode_policy :=
            self.(ToolInvocationBatchRequest.code_mode_policy);
          ToolInvocationCallRequest.promise_id_base :=
            wrapping_add_u64 self.(ToolInvocationBatchRequest.promise_id_base)
              (N.of_nat index);
          ToolInvocationCallRequest.call := call;
          ToolInvocationCallRequest.sibling_tool_ids := sibling_tool_ids;
          ToolInvocationCallRequest.execution := execution |}.
Definition into_batch_request (self : ToolInvocationCallRequest) : ToolInvocationBatchRequest :=
  {| ToolInvocationBatchRequest.session_id := self.(ToolInvocationCallRequest.session_id);
     ToolInvocationBatchRequest.run_id := self.(ToolInvocationCallRequest.run_id);
     ToolInvocationBatchRequest.turn_id := self.(ToolInvocationCallRequest.turn_id);
     ToolInvocationBatchRequest.batch_id := self.(ToolInvocationCallRequest.batch_id);
     ToolInvocationBatchRequest.workspace_attachments :=
       self.(ToolInvocationCallRequest.workspace_attachments);
     ToolInvocationBatchRequest.vfs_working_directory :=
       self.(ToolInvocationCallRequest.vfs_working_directory);
     ToolInvocationBatchRequest.active_environment_id :=
       self.(ToolInvocationCallRequest.active_environment_id);
     ToolInvocationBatchRequest.environment_policy :=
       self.(ToolInvocationCallRequest.environment_policy);
     ToolInvocationBatchRequest.subagents_policy :=
       self.(ToolInvocationCallRequest.subagents_policy);
     ToolInvocationBatchRequest.code_mode_policy :=
       self.(ToolInvocationCallRequest.code_mode_policy);
     ToolInvocationBatchRequest.promise_id_base :=
       self.(ToolInvocationCallRequest.promise_id_base);
     ToolInvocationBatchRequest.calls := [self.(ToolInvocationCallRequest.call)] |}.

(** ** Promise control *)
Definition PromiseControlKind_for_tool_id (tool_id : ToolId) : option PromiseControlKind :=
  if bool_decide (tool_id = CANCEL_TOOL_ID) then Some PromiseControlKind.Cancel
  else if bool_decide (tool_id = DETACH_TOOL_ID) then Some PromiseControlKind.Detach
  else None.
Definition promise_control_argument_call (call : ToolInvocationRequest)
    : option PromiseControlArgumentCall :=
  tool_id ← call.(ToolInvocationRequest.tool_id);
  kind ← PromiseControlKind_for_tool_id tool_id;
  Some {| PromiseControlArgumentCall.call_id := call.(ToolInvocationRequest.call_id);
          PromiseControlArgumentCall.kind := kind;
          PromiseControlArgumentCall.arguments_ref :=
            call.(ToolInvocationRequest.arguments_ref) |}.
Definition promise_control_argument_request (self : ToolInvocationBatchRequest)
    : option PromiseControlArgumentRequest :=
  let calls := omap promise_control_argument_call self.(ToolInvocationBatchRequest.calls) in
  if bool_decide (calls = []) then None
  else Some {| PromiseControlArgumentRequest.version := 1;
               PromiseControlArgumentRequest.calls := calls |}.
Definition facts_call_id (self : PromiseControlArgumentCallFacts) : ToolCallId :=
  match self with
  | PromiseControlArgumentCallFacts.Parsed call_id _
  | PromiseControlArgumentCallFacts.Invalid call_id => call_id
  end.

(** What the session knows of the promise a control call names. *)
Definition promise_control_runtime (state : CoreAgentState) (promise_id : PromiseId)
    : PromiseControlRuntime :=
  {| PromiseControlRuntime.promise_id := promise_id;
     PromiseControlRuntime.state :=
       match state.(CoreAgentState.promises).(PromiseComponentState.promises) !! promise_id with
       | Some promise =>
           PromiseControlStateRuntime.Known promise.(Promise.ownership) promise.(Promise.scope)
             promise.(Promise.status)
       | None => PromiseControlStateRuntime.Unknown
       end |}.
Definition control_runtimes (state : CoreAgentState) (promise_ids : list PromiseId)
    : Result DomainError PromiseControlCallRuntime :=
  _ ← reject_if (bool_decide (promise_ids = []) || (32 <? length promise_ids)%nat)
        (InvariantViolation "promise-control call {} has an invalid bounded id count {}");
  _ ← for_each_fresh id
        (InvariantViolation "promise-control call {} contains duplicate promise {}")
        no_check no_check [] promise_ids;
  mret {| PromiseControlCallRuntime.version := 1;
          PromiseControlCallRuntime.controls := promise_control_runtime state <$> promise_ids |}.

(** One round of the loop: the first call of that id is given its facts. *)
Definition attach_call_control (state : CoreAgentState) (calls : list ToolInvocationRequest)
    (expected : PromiseControlArgumentCall) (facts : PromiseControlArgumentCallFacts)
    : Result DomainError (list ToolInvocationRequest) :=
  _ ← reject_if (bool_decide (facts_call_id facts
                                ≠ expected.(PromiseControlArgumentCall.call_id)))
        (InvariantViolation "promise-control argument facts call {} does not match expected call {}");
  '(index, call) ← ok_or (list_find (λ call, call.(ToolInvocationRequest.call_id)
                                       = expected.(PromiseControlArgumentCall.call_id)) calls)
    (InvariantViolation "expected promise-control call came from this request");
  _ ← reject_if (is_some call.(ToolInvocationRequest.promise_control))
        (InvariantViolation "promise-control runtime facts already attached to call {}");
  match facts with
  | PromiseControlArgumentCallFacts.Invalid _ => mret calls
  | PromiseControlArgumentCallFacts.Parsed _ promise_ids =>
      controls ← control_runtimes state promise_ids;
      mret (<[index := call <| ToolInvocationRequest.promise_control := Some controls |>]> calls)
  end.
Fixpoint attach_controls (state : CoreAgentState) (calls : list ToolInvocationRequest)
    (expected : list PromiseControlArgumentCall) (facts : list PromiseControlArgumentCallFacts)
    : Result DomainError (list ToolInvocationRequest) :=
  match expected, facts with
  | e :: expected, f :: facts =>
      calls ← attach_call_control state calls e f;
      attach_controls state calls expected facts
  | _, _ => mret calls
  end.
Definition attach_promise_control_runtime (state : CoreAgentState)
    (request : ToolInvocationBatchRequest) (facts : PromiseControlArgumentFacts)
    : Result DomainError ToolInvocationBatchRequest :=
  expected ← ok_or (promise_control_argument_request request)
    (InvariantViolation "promise-control argument facts supplied for a batch without control calls");
  _ ← reject_if (negb (facts.(PromiseControlArgumentFacts.version) =? 1)%N)
        (InvariantViolation "unsupported promise-control argument facts version {}");
  _ ← reject_if (negb (length facts.(PromiseControlArgumentFacts.calls)
                       =? length expected.(PromiseControlArgumentRequest.calls))%nat)
        (InvariantViolation "promise-control argument facts contain {} calls, expected {}");
  calls ← attach_controls state request.(ToolInvocationBatchRequest.calls)
            expected.(PromiseControlArgumentRequest.calls)
            facts.(PromiseControlArgumentFacts.calls);
  mret (request <| ToolInvocationBatchRequest.calls := calls |>).
