(* ===== verification/Completions.v ===== *)
(** * Results of the model and compaction runtimes

    The events that record a generation result and a compaction result ([core/drive.rs]). *)
From S2P Require Import Prelude Ids Text Types Events Commands Media Externals RunState Config.
From S2P Require Import Promises Contexts Compaction ToolSpecs CodeTools ContextReducer Approvals.
From S2P Require Import Sessions WorkflowTools Bindings InvokeEffects ContextPlan.

Section generations.
Context `{!Externals}.

(** ** The outcome of a turn *)
(** The call ids of the generated tool call entries. *)
Definition tool_call_entry_id (entry : ContextEntryInput) : option ToolCallId :=
  match entry.(ContextEntryInput.kind) with
  | ContextEntryKind.ToolCall call_id _ => Some call_id
  | _ => None
  end.
(** Every call has an id of its own and every generated call entry one call to run. *)
Definition generated_tool_calls_are_usable (result : LlmGenerationResult) : bool :=
  let calls := ObservedToolCall.call_id
    <$> result.(LlmGenerationResult.facts).(LlmGenerationFacts.tool_calls) in
  let entries := omap tool_call_entry_id result.(LlmGenerationResult.context_entries) in
  bool_decide (NoDup calls) && forallb (λ call_id, bool_decide (call_id ∈ calls)) entries
  && bool_decide (NoDup entries).

Definition assistant_output (entry : ContextEntryInput) : option ContentRef :=
  match entry.(ContextEntryInput.kind) with
  | ContextEntryKind.Message ContextMessageRole.Assistant =>
      Some entry.(ContextEntryInput.content)
  | _ => None
  end.
Definition final_output (context_entries : list ContextEntryInput) : option ContentRef :=
  last (omap assistant_output context_entries).

Definition turn_outcome_for_generation_result (result : LlmGenerationResult) : TurnOutcome :=
  let facts := result.(LlmGenerationResult.facts) in
  let failure_ref := result.(LlmGenerationResult.failure_ref) in
  let has_calls := negb (bool_decide (facts.(LlmGenerationFacts.tool_calls) = [])) in
  let has_approvals := negb (bool_decide (facts.(LlmGenerationFacts.approval_requests) = [])) in
  let unusable := TurnOutcome.Failed (Some unusable_tool_calls_failure_ref) in
  let answered otherwise :=
    if has_calls then
      if generated_tool_calls_are_usable result then TurnOutcome.ToolCallsQueued else unusable
    else if has_approvals then TurnOutcome.ApprovalsRequested
    else otherwise in
  match result.(LlmGenerationResult.status) with
  | LlmGenerationStatus.Cancelled => TurnOutcome.Cancelled
  | LlmGenerationStatus.Failed => TurnOutcome.Failed failure_ref
  | LlmGenerationStatus.Rejected =>
      if bool_decide (facts.(LlmGenerationFacts.finish) = LlmFinish.ContextLimit)
      then TurnOutcome.ContextLimit failure_ref
      else TurnOutcome.Rejected failure_ref
  | LlmGenerationStatus.Succeeded =>
      match facts.(LlmGenerationFacts.finish) with
      | LlmFinish.ToolCalls => answered unusable
      | LlmFinish.Stop | LlmFinish.Unknown =>
          answered (TurnOutcome.FinalOutput
                      (final_output result.(LlmGenerationResult.context_entries)))
      | LlmFinish.ContextLimit => TurnOutcome.ContextLimit failure_ref
      | LlmFinish.Cancelled => TurnOutcome.Cancelled
      | LlmFinish.Failed | LlmFinish.ContentFilter | LlmFinish.Length =>
          TurnOutcome.Failed failure_ref
      end
  end.

(** ** The events of a generation *)
Definition source_for_llm_context_entry (run_id : RunId) (turn_id : TurnId)
    (entry : ContextEntryInput) : ContextEntrySource :=
  match entry.(ContextEntryInput.kind) with
  | ContextEntryKind.ReasoningState => ContextEntrySource.Reasoning run_id turn_id
  | _ => ContextEntrySource.AssistantOutput run_id turn_id
  end.
(** Only a turn that queues its calls answers them, so only that turn records them. *)
Definition recorded_entries (result : LlmGenerationResult) (outcome : TurnOutcome)
    : list ContextEntryInput :=
  let keep_tool_calls := bool_decide (outcome = TurnOutcome.ToolCallsQueued) in
  List.filter (λ entry, keep_tool_calls || is_none (tool_call_entry_id entry))
    result.(LlmGenerationResult.context_entries).
Definition context_entries_from_llm_result (state : CoreAgentState)
    (result : LlmGenerationResult) (outcome : TurnOutcome)
    : Result DomainError (list ContextEntry) :=
  context_entries_from_inputs state ((λ entry,
    (None, source_for_llm_context_entry result.(LlmGenerationResult.run_id)
             result.(LlmGenerationResult.turn_id) entry, entry))
    <$> recorded_entries result outcome).

(** Approval requests under the ids that follow the cursor. *)
Fixpoint approval_requests_after (cursor : N) (run_id : RunId)
    (requests : list (CoreAgentJoins * ApprovalSubject * ApprovalContinuation))
    : Result DomainError (list CoreAgentEventProposal) :=
  match requests with
  | [] => mret []
  | (joins, subject, continuation) :: requests =>
      next ← ok_or (next_u64 cursor) (InvariantViolation "approval id cursor exhausted");
      proposals ← approval_requests_after next run_id requests;
      mret (proposal joins (CoreAgentEvent.Approval (ApprovalEvent.Requested
              {| ApprovalRequested.approval_id := ApprovalId_from_number next;
                 ApprovalRequested.run_id := run_id;
                 ApprovalRequested.subject := subject;
                 ApprovalRequested.continuation := continuation |})) :: proposals)
  end.

(** The joins of work on a turn, a batch or one call. *)
Definition work_joins (run_id : RunId) (turn_id : TurnId) (tool_batch_id : option ToolBatchId)
    (tool_call_id : option ToolCallId) : CoreAgentJoins :=
  {| CoreAgentJoins.run_id := Some run_id; CoreAgentJoins.turn_id := Some turn_id;
     CoreAgentJoins.tool_batch_id := tool_batch_id;
     CoreAgentJoins.tool_call_id := tool_call_id;
     CoreAgentJoins.submission_id := None |}.

Definition generation_result_proposals (state : CoreAgentState) (result : LlmGenerationResult)
    : Result DomainError (list CoreAgentEventProposal) :=
  let run_id := result.(LlmGenerationResult.run_id) in
  let turn_id := result.(LlmGenerationResult.turn_id) in
  let facts := result.(LlmGenerationResult.facts) in
  run ← ok_or (active_run state) (InvariantViolation "no active run");
  _ ← reject_if (bool_decide (run.(ActiveRun.run_id) ≠ run_id)
                 || bool_decide (run.(ActiveRun.active_turn_id) ≠ Some turn_id))
        (InvariantViolation "llm generation result does not match active turn");
  let overflow := bool_decide (facts.(LlmGenerationFacts.finish) = LlmFinish.ContextLimit) in
  let outcome := turn_outcome_for_generation_result result in
  entries ← (if overflow then mret []
             else context_entries_from_llm_result state result outcome);
  let requests := if overflow then [] else facts.(LlmGenerationFacts.approval_requests) in
  let joins := work_joins run_id turn_id None None in
  approvals ← approval_requests_after state.(CoreAgentState.id_cursors).(IdCursors.last_approval_id)
    run_id ((λ observed, (joins, observed.(ObservedApprovalRequest.subject),
                          observed.(ObservedApprovalRequest.continuation))) <$> requests);
  mret ((if bool_decide (entries = []) then [] else
           [proposal joins (CoreAgentEvent.Context (ContextEvent.EntriesApplied
              state.(CoreAgentState.context).(ContextState.revision) entries))])
        ++ [proposal joins (CoreAgentEvent.Turn (TurnEvent.GenerationCompleted turn_id run_id
              result.(LlmGenerationResult.status) facts))]
        ++ approvals
        ++ [proposal joins (CoreAgentEvent.Turn (TurnEvent.Completed turn_id outcome))]).

(** ** The events of a compaction *)
(** A failed compaction that an overflowing run waits for fails the run, after accepted
    steering is written down. *)
Definition overflow_failure_proposals (state : CoreAgentState) (run : ActiveRun)
    (failure_ref : option BlobRef) (base_revision : N)
    : Result DomainError (list CoreAgentEventProposal) :=
  let joins := run_joins run.(ActiveRun.run_id) in
  steering ← missing_steering_entries state;
  mret ((if bool_decide (run.(ActiveRun.status) = RunStatus.Running)
            && negb (bool_decide (steering = []))
         then [proposal joins (CoreAgentEvent.Context
                 (ContextEvent.EntriesApplied (wrapping_add_u64 base_revision 1) steering))]
         else [])
        ++ [proposal joins (CoreAgentEvent.Run (RunEvent.Failed run.(ActiveRun.run_id)
              {| RunFailure.kind := RunFailureKind.ContextFailure;
                 RunFailure.message_ref :=
                   or_else failure_ref (Some context_limit_failure_ref) |}))]).

(** The first bump of the revision is unchecked in the source: it wraps in a release
    build; the second one is checked. *)
Definition context_compaction_result_proposals (state : CoreAgentState)
    (result : ContextCompactionResult) : Result DomainError (list CoreAgentEventProposal) :=
  let revision := state.(CoreAgentState.context).(ContextState.revision) in
  let status := result.(ContextCompactionResult.status) in
  let inputs := result.(ContextCompactionResult.context_entries) in
  let failure_ref := result.(ContextCompactionResult.failure_ref) in
  let succeeded := bool_decide (status = ContextCompactionStatus.Succeeded) in
  let failed := bool_decide (status = ContextCompactionStatus.Failed) in
  plan ← ok_or (pending_plan (compaction_state state))
    (InvariantViolation "context compaction result received without pending request");
  _ ← reject_if (negb (result.(ContextCompactionResult.context_revision) =? revision)%N)
        (InvariantViolation "context compaction result revision {} does not match active context revision {}");
  _ ← reject_if (succeeded && bool_decide (inputs = []))
        (InvariantViolation "successful compaction has no usable context");
  _ ← reject_if (failed && negb (bool_decide (inputs = [])))
        (InvariantViolation "failed compaction cannot replace context");
  let removed := if succeeded then
    [context_proposal (ContextEvent.EntriesRemoved revision
       plan.(ContextCompactionPlan.covered_entry_ids) ContextRemovalReason.ProviderCompacted)]
    else [] in
  let base_revision := if succeeded then wrapping_add_u64 revision 1 else revision in
  '(applied, base_revision) ←
    (if bool_decide (inputs = []) then mret ([], base_revision) else
       entries ← context_entries_from_inputs state ((λ entry,
         (None, ContextEntrySource.Runtime STANDALONE_COMPACTION_SOURCE, entry)) <$> inputs);
       next ← ok_or (next_u64 base_revision) (InvariantViolation "context revision exhausted");
       mret ([context_proposal (ContextEvent.EntriesApplied base_revision entries)], next));
  let finished := context_proposal (ContextEvent.CompactionFinished
    base_revision status failure_ref result.(ContextCompactionResult.usage)
    result.(ContextCompactionResult.calls)) in
  failure ←
    (if failed && bool_decide (plan.(ContextCompactionPlan.trigger)
                                 = ContextCompactionTrigger.ContextLimit)
     then match active_run state with
          | Some run => overflow_failure_proposals state run failure_ref base_revision
          | None => mret []
          end
     else mret []);
  mret (removed ++ applied ++ [finished] ++ failure).
End generations.

(** * Completing tool calls

    The events that record the results of tool calls, for the calls of a model batch and
    for the calls of a code tool ([tool_call_completed_proposals_inner] of
    [core/drive.rs]). The effects a result carries become events of their own in the same
    append: promises created, cancelled and detached, the environment selected, workflow
    tools invoked; a call whose workflow joins it is parked instead of completed. *)

(** ** Results *)
Definition tool_result_context_entry (call_id : ToolCallId) (status : ToolCallStatus)
    (content_ref : BlobRef) : ContextEntryInput :=
  {| ContextEntryInput.origin := None;
     ContextEntryInput.kind :=
       ContextEntryKind.ToolResult call_id (ToolCallStatus_is_error status);
     ContextEntryInput.content :=
       {| ContentRef.content_ref := content_ref; ContentRef.media_type := None;
          ContentRef.provider_kind := None |};
     ContextEntryInput.preview := None;
     ContextEntryInput.provenance_ref := None;
     ContextEntryInput.token_estimate := None |}.
Definition invocation_result_to_call_result (result : ToolInvocationResult) : ToolCallResult :=
  {| ToolCallResult.call_id := result.(ToolInvocationResult.call_id);
     ToolCallResult.status := result.(ToolInvocationResult.status);
     ToolCallResult.output_ref := result.(ToolInvocationResult.output_ref);
     ToolCallResult.model_visible_context_entries :=
       result.(ToolInvocationResult.model_visible_context_entries);
     ToolCallResult.error_ref := result.(ToolInvocationResult.error_ref);
     ToolCallResult.effects := result.(ToolInvocationResult.effects);
     ToolCallResult.attachments := result.(ToolInvocationResult.attachments);
     ToolCallResult.duration_ms := result.(ToolInvocationResult.duration_ms);
     ToolCallResult.output_bytes := result.(ToolInvocationResult.output_bytes);
     ToolCallResult.truncated := result.(ToolInvocationResult.truncated) |}.
(** [CodeToolCallResult::from]. *)
Definition code_tool_call_result (result : ToolInvocationResult) : CodeToolCallResult :=
  {| CodeToolCallResult.call_id := result.(ToolInvocationResult.call_id);
     CodeToolCallResult.status := result.(ToolInvocationResult.status);
     CodeToolCallResult.output_ref := result.(ToolInvocationResult.output_ref);
     CodeToolCallResult.error_ref := result.(ToolInvocationResult.error_ref);
     CodeToolCallResult.attachments := result.(ToolInvocationResult.attachments);
     CodeToolCallResult.duration_ms := result.(ToolInvocationResult.duration_ms);
     CodeToolCallResult.output_bytes := result.(ToolInvocationResult.output_bytes);
     CodeToolCallResult.truncated := result.(ToolInvocationResult.truncated) |}.
(** A call the harness answers itself. *)
Definition rejected_tool_result (call_id : ToolCallId) (error_ref : BlobRef)
    : ToolInvocationResult :=
  {| ToolInvocationResult.call_id := call_id;
     ToolInvocationResult.status := ToolCallStatus.Failed;
     ToolInvocationResult.output_ref := None;
     ToolInvocationResult.model_visible_context_entries :=
       [tool_result_context_entry call_id ToolCallStatus.Failed error_ref];
     ToolInvocationResult.error_ref := Some error_ref;
     ToolInvocationResult.effects := [];
     ToolInvocationResult.attachments := [];
     ToolInvocationResult.duration_ms := None;
     ToolInvocationResult.output_bytes := None;
     ToolInvocationResult.truncated := false |}.

Definition is_joined_binding (binding : WorkflowToolBinding) : bool :=
  match binding.(WorkflowToolBinding.completion) with
  | WorkflowToolCompletion.Joined _ _ => true
  | _ => false
  end.
Definition batch_has_terminal_environment_selection (state : CoreAgentState)
    (batch_id : ToolBatchId) : bool :=
  match (run ← active_run state; run.(ActiveRun.tool_batches) !! batch_id) with
  | Some batch =>
      existsb (λ call, match call.(ToolCallState.result) with
                       | Some result => existsb is_environment_selection_effect
                                          result.(ToolCallResult.effects)
                       | None => false
                       end) batch.(ActiveToolBatch.calls)
  | None => false
  end.

(** ** What the loop accumulates *)
Module Completion.
Record Completion : Type := {
  proposals : list CoreAgentEventProposal;
  cancelled : list PromiseId;
  minted : list PromiseId;
  in_flight : gmap WorkflowToolId N;
  joined_calls : list JoinedWorkflowCall;
  joined_promises : list CoreAgentEventProposal;
  joined_tools : list CoreAgentEventProposal;
  selected_environment : bool;
  (** The events and the flag of the call at hand. *)
  call_promises : list CoreAgentEventProposal;
  call_tools : list CoreAgentEventProposal;
  call_environment : list CoreAgentEventProposal;
  call_invoked : bool;
}.
End Completion.
Abbreviation Completion := Completion.Completion.
#[export] Instance set_Completion_proposals : Setter Completion.proposals :=
  ltac:(solve_setter Completion.proposals).
#[export] Instance set_Completion_cancelled : Setter Completion.cancelled :=
  ltac:(solve_setter Completion.cancelled).
#[export] Instance set_Completion_minted : Setter Completion.minted :=
  ltac:(solve_setter Completion.minted).
#[export] Instance set_Completion_in_flight : Setter Completion.in_flight :=
  ltac:(solve_setter Completion.in_flight).
#[export] Instance set_Completion_joined_calls : Setter Completion.joined_calls :=
  ltac:(solve_setter Completion.joined_calls).
#[export] Instance set_Completion_joined_promises : Setter Completion.joined_promises :=
  ltac:(solve_setter Completion.joined_promises).
#[export] Instance set_Completion_joined_tools : Setter Completion.joined_tools :=
  ltac:(solve_setter Completion.joined_tools).
#[export] Instance set_Completion_selected_environment :
  Setter Completion.selected_environment :=
  ltac:(solve_setter Completion.selected_environment).
#[export] Instance set_Completion_call_promises : Setter Completion.call_promises :=
  ltac:(solve_setter Completion.call_promises).
#[export] Instance set_Completion_call_tools : Setter Completion.call_tools :=
  ltac:(solve_setter Completion.call_tools).
#[export] Instance set_Completion_call_environment : Setter Completion.call_environment :=
  ltac:(solve_setter Completion.call_environment).
#[export] Instance set_Completion_call_invoked : Setter Completion.call_invoked :=
  ltac:(solve_setter Completion.call_invoked).

Definition Completing (A : Type) : Type := Reducer Completion DomainError A.
Definition empty_completion : Completion :=
  {| Completion.proposals := []; Completion.cancelled := []; Completion.minted := [];
     Completion.in_flight := ∅; Completion.joined_calls := [];
     Completion.joined_promises := []; Completion.joined_tools := [];
     Completion.selected_environment := false; Completion.call_promises := [];
     Completion.call_tools := []; Completion.call_environment := [];
     Completion.call_invoked := false |}.

Definition push_promise (p : CoreAgentEventProposal) : Completing unit :=
  modify_state (λ c, c <| Completion.call_promises ::= λ l, l ++ [p] |>).

(** The batch and the call the results belong to; [origin] names the code tool call. *)
Module ResultOf.
Record ResultOf : Type := {
  state : CoreAgentState;
  session_id : option SessionId;
  run_id : RunId;
  turn_id : TurnId;
  batch_id : ToolBatchId;
  origin : option CodeToolOrigin;
}.
End ResultOf.
Abbreviation ResultOf := ResultOf.ResultOf.
Definition call_joins (r : ResultOf) (call_id : option ToolCallId) : CoreAgentJoins :=
  work_joins r.(ResultOf.run_id) r.(ResultOf.turn_id) (Some r.(ResultOf.batch_id)) call_id.
Definition known_promise (r : ResultOf) (promise_id : PromiseId) : option Promise :=
  r.(ResultOf.state).(CoreAgentState.promises).(PromiseComponentState.promises) !! promise_id.

(** ** Minted promise ids *)
(** The first id a result of this batch, or of this code tool call, may mint. *)
Definition minting_base (r : ResultOf) (promise_id : PromiseId) : Result DomainError N :=
  match r.(ResultOf.origin) with
  | Some origin =>
      call ← ok_or (code_tool_call r.(ResultOf.state) origin)
        (InvariantViolation "unknown code tool promise reservation");
      let base := call.(CodeToolCall.promise_id_base) in
      _ ← reject_if ((base <=? promise_id)%N && (CODE_TOOL_PROMISE_SLOTS <=? promise_id - base)%N)
            (InvariantViolation "code tool effect exceeded its reserved promise ids");
      mret base
  | None =>
      ok_or (run ← active_run r.(ResultOf.state);
             if bool_decide (run.(ActiveRun.run_id) = r.(ResultOf.run_id))
             then ActiveToolBatch.promise_id_base
                    <$> run.(ActiveRun.tool_batches) !! r.(ResultOf.batch_id)
             else None)
        (InvariantViolation "tool batch {batch_id} of run {run_id} is not active")
  end.
Definition validate_minted_promise_id (r : ResultOf) (promise_id : PromiseId)
    : Completing unit :=
  base ← lift_result (minting_base r promise_id);
  _ ← reject_if (promise_id <? base)%N
        (InvariantViolation "promise {promise_id} was minted below tool batch {batch_id}'s promise base {base}");
  c ← get_state;
  _ ← reject_if (is_some (known_promise r promise_id)
                 || bool_decide (promise_id ∈ c.(Completion.minted)))
        (InvariantViolation "promise {promise_id} already exists");
  modify_state (λ c, c <| Completion.minted ::= cons promise_id |>).

(** ** The effects of one call

    An effect has one kind, so at most one of the handlers below acts on it. *)
Section handlers.
Context `{!Externals}.

Definition on_environment (r : ResultOf) (result : ToolInvocationResult) (effect : ToolEffect)
    : Completing unit :=
  event ← lift_result (environment_event_from_effect effect);
  match event with
  | None => mret tt
  | Some event =>
      c ← get_state;
      _ ← reject_if (c.(Completion.selected_environment)
                     || (is_none r.(ResultOf.origin)
                         && batch_has_terminal_environment_selection r.(ResultOf.state)
                              r.(ResultOf.batch_id)))
            (InvariantViolation "tool batch produced more than one environment selection effect");
      _ ← reject_if (bool_decide (result.(ToolInvocationResult.status)
                                    ≠ ToolCallStatus.Succeeded))
            (InvariantViolation "failed tool call {} produced an environment selection effect");
      _ ← reject_if (is_none (
              config ← r.(ResultOf.state).(CoreAgentState.lifecycle).(LifecycleState.config);
              config.(SessionConfig.features).(FeaturesConfig.environments)))
            (InvariantViolation "environment selection effect requires the environments feature");
      modify_state (λ c, c <| Completion.selected_environment := true |>
        <| Completion.call_environment ::= λ l,
             l ++ [proposal (call_joins r (Some result.(ToolInvocationResult.call_id)))
                     (CoreAgentEvent.Environment event)] |>)
  end.

Definition promise_event (r : ResultOf) (result : ToolInvocationResult) (event : PromiseEvent)
    : CoreAgentEventProposal :=
  proposal (call_joins r (Some result.(ToolInvocationResult.call_id)))
    (CoreAgentEvent.Promise event).

Definition on_promise_create (r : ResultOf) (result : ToolInvocationResult)
    (effect : ToolEffect) : Completing unit :=
  promise ← lift_result (promise_from_create_effect effect r.(ResultOf.run_id));
  match promise with
  | None => mret tt
  | Some promise =>
      _ ← validate_minted_promise_id r promise.(Promise.promise_id);
      push_promise (promise_event r result (PromiseEvent.Created promise))
  end.

(** The promise a cancel or detach effect names: [None] when it was pruned. *)
Definition controlled_promise (r : ResultOf) (promise_id : PromiseId) (unknown owned : string)
    : Result DomainError (option Promise) :=
  match known_promise r promise_id with
  | None =>
      if promise_was_pruned r.(ResultOf.state) promise_id then mret None
      else mthrow (InvariantViolation unknown)
  | Some promise =>
      _ ← reject_if (bool_decide (promise.(Promise.ownership) ≠ PromiseOwnership.Model))
            (InvariantViolation owned);
      mret (Some promise)
  end.

Definition on_promise_cancel (r : ResultOf) (result : ToolInvocationResult)
    (effect : ToolEffect) : Completing unit :=
  named ← lift_result (promise_id_from_cancel_effect effect);
  match named with
  | None => mret tt
  | Some promise_id =>
      promise ← lift_result (controlled_promise r promise_id
        "promise cancel effect references unknown promise {}"
        "promise {} is runtime-owned and cannot be cancelled by the model");
      c ← get_state;
      match promise with
      | None => mret tt
      | Some promise =>
          if PromiseStatus_is_terminal promise.(Promise.status)
             || bool_decide (promise_id ∈ c.(Completion.cancelled)) then mret tt else
          _ ← modify_state (λ c, c <| Completion.cancelled ::= cons promise_id |>);
          push_promise (promise_event r result (PromiseEvent.Cancelled promise_id))
      end
  end.

Definition on_promise_detach (r : ResultOf) (result : ToolInvocationResult)
    (effect : ToolEffect) : Completing unit :=
  named ← lift_result (promise_id_from_detach_effect effect);
  match named with
  | None => mret tt
  | Some promise_id =>
      promise ← lift_result (controlled_promise r promise_id
        "promise detach effect references unknown promise {}"
        "promise {} is runtime-owned and cannot be detached by the model");
      c ← get_state;
      match promise with
      | None => mret tt
      | Some promise =>
          if PromiseStatus_is_terminal promise.(Promise.status)
             || bool_decide (promise_id ∈ c.(Completion.cancelled)) then mret tt else
          match promise.(Promise.scope) with
          | PromiseScope.Session => mret tt
          | PromiseScope.Run run_id =>
              _ ← reject_if (bool_decide (run_id ≠ r.(ResultOf.run_id)))
                    (InvariantViolation "promise detach effect references promise {} scoped to run {}, not result run {}");
              push_promise (promise_event r result (PromiseEvent.Detached promise_id))
          end
      end
  end.

(** ** An invoked workflow tool *)
(** The promise an invocation completes by way of, under one key. *)
Definition completion_promise (binding : WorkflowToolBinding)
    (invocation : WorkflowToolInvocation) (run_id : RunId) (deadline_at_ms : option N)
    (key : string) (promise_id : PromiseId) : Promise :=
  {| Promise.promise_id := promise_id;
     Promise.source := completion_promise_source binding invocation key;
     Promise.scope := PromiseScope.Run run_id;
     Promise.ownership := if is_joined_binding binding then PromiseOwnership.Runtime
                          else PromiseOwnership.Model;
     Promise.status := PromiseStatus.Pending;
     Promise.payload_ref := None;
     Promise.error_ref := None;
     Promise.deadline_at_ms := deadline_at_ms |}.

(** A joined binding's deadline is on the effect exactly when it is declared. *)
Definition validate_joined_deadline (binding : WorkflowToolBinding) (deadline_at_ms : option N)
    : Result DomainError unit :=
  match binding.(WorkflowToolBinding.completion) with
  | WorkflowToolCompletion.Joined _ deadline_after_ms =>
      reject_if (negb (Bool.eqb (is_some deadline_after_ms) (is_some deadline_at_ms))
                 || bool_decide (deadline_at_ms = Some 0%N))
        (InvariantViolation "joined workflow tool invocation does not carry the hard completion deadline its binding declares")
  | _ => mret tt
  end.

Definition create_completion_promises (r : ResultOf) (result : ToolInvocationResult)
    (effect : ToolEffect) (binding : WorkflowToolBinding) (invocation : WorkflowToolInvocation)
    : Completing unit :=
  match invocation.(WorkflowToolInvocation.completion_promises) with
  | None => mret tt
  | Some promises =>
      deadline_at_ms ← lift_result (completion_deadline_from_invoke_effect effect);
      _ ← lift_result (validate_joined_deadline binding deadline_at_ms);
      for_each (λ '(key, promise_id),
        _ ← validate_minted_promise_id r promise_id;
        push_promise (promise_event r result (PromiseEvent.Created
          (completion_promise binding invocation r.(ResultOf.run_id) deadline_at_ms key
             promise_id)))) (btree_to_list promises)
  end.

Definition invocation_event (binding : WorkflowToolBinding)
    (invocation : WorkflowToolInvocation) : WorkflowToolEvent :=
  match binding.(WorkflowToolBinding.target) with
  | WorkflowToolTarget.Start start =>
      WorkflowToolEvent.StartRequested invocation
        (workflow_tool_execution_id invocation.(WorkflowToolInvocation.invocation_id)
           start.(WorkflowStartRef.recipe_fingerprint))
  | WorkflowToolTarget.Bound _ _ => WorkflowToolEvent.Invoked invocation
  end.

(** A joined call waits for its reply promise; its events go to the end of the append. *)
Definition join_call (result : ToolInvocationResult) (invocation : WorkflowToolInvocation)
    : Completing unit :=
  promise_id ← lift_result (ok_or
    (promises ← invocation.(WorkflowToolInvocation.completion_promises);
     promises !! REPLY_COMPLETION_KEY)
    (InvariantViolation "Joined invocation validation requires one reply Promise"));
  modify_state (λ c, c <| Completion.joined_calls ::= λ l, l ++
    [{| JoinedWorkflowCall.call_id := result.(ToolInvocationResult.call_id);
        JoinedWorkflowCall.invocation_id :=
          invocation.(WorkflowToolInvocation.invocation_id);
        JoinedWorkflowCall.promise_id := promise_id |}] |>).
Definition move_to_joined (c : Completion) : Completion :=
  c <| Completion.joined_promises ::= λ l, l ++ c.(Completion.call_promises) |>
    <| Completion.joined_tools ::= λ l, l ++ c.(Completion.call_tools) |>
    <| Completion.call_promises := [] |> <| Completion.call_tools := [] |>.

Definition on_invocation (r : ResultOf) (result : ToolInvocationResult)
    (effect : ToolEffect) : Completing unit :=
  invocation ← lift_result (invocation_from_invoke_effect effect);
  match invocation with
  | None => mret tt
  | Some invocation =>
      let call_id := result.(ToolInvocationResult.call_id) in
      let tool_id := invocation.(WorkflowToolInvocation.workflow_tool_id) in
      c ← get_state;
      _ ← reject_if c.(Completion.call_invoked)
            (InvariantViolation "tool call {} produced more than one workflow tool invoke effect");
      _ ← modify_state (λ c, c <| Completion.call_invoked := true |>);
      _ ← reject_if (bool_decide (result.(ToolInvocationResult.status)
                                    ≠ ToolCallStatus.Succeeded))
            (InvariantViolation "failed tool call {} produced a workflow tool invoke effect");
      session_id ← lift_result (ok_or r.(ResultOf.session_id)
        (InvariantViolation "workflow tool invoke effect was admitted without session identity"));
      let pending := default 0%N (c.(Completion.in_flight) !! tool_id) in
      _ ← lift_result (validate_invoke_effect r.(ResultOf.state) session_id
            r.(ResultOf.run_id) r.(ResultOf.turn_id) r.(ResultOf.batch_id) call_id invocation
            pending);
      _ ← modify_state (λ c, c <| Completion.in_flight ::=
            <[tool_id := saturating_add_u32 pending 1]> |>);
      binding ← lift_result (ok_or
        (r.(ResultOf.state).(CoreAgentState.workflow_tools).(WorkflowToolState.bindings)
           !! tool_id)
        (InvariantViolation "binding was validated by validate_invoke_effect"));
      let is_joined := is_joined_binding binding in
      _ ← reject_if (is_joined && negb (length result.(ToolInvocationResult.effects) =? 1)%nat)
            (InvariantViolation "joined workflow tool result must contain only its invoke effect");
      _ ← create_completion_promises r result effect binding invocation;
      _ ← (if is_joined then join_call result invocation else mret tt);
      _ ← modify_state (λ c, c <| Completion.call_tools ::= λ l, l ++
            [proposal (call_joins r (Some call_id))
               (CoreAgentEvent.WorkflowTool (invocation_event binding invocation))] |>);
      modify_state (λ c, if is_joined then move_to_joined c else c)
  end.

Definition on_effect (r : ResultOf) (result : ToolInvocationResult) (effect : ToolEffect)
    : Completing unit :=
  _ ← on_environment r result effect;
  _ ← on_promise_create r result effect;
  _ ← on_promise_cancel r result effect;
  _ ← on_promise_detach r result effect;
  on_invocation r result effect.

(** ** One result *)
Definition completed_event (r : ResultOf) (result : ToolInvocationResult) : CoreAgentEvent :=
  match r.(ResultOf.origin) with
  | Some origin =>
      CoreAgentEvent.CodeTool (CodeToolEvent.CallCompleted origin (code_tool_call_result result))
  | None =>
      CoreAgentEvent.Tool (ToolEvent.CallCompleted r.(ResultOf.run_id) r.(ResultOf.turn_id)
        r.(ResultOf.batch_id) (invocation_result_to_call_result result))
  end.
Definition clear_call (c : Completion) : Completion :=
  c <| Completion.call_promises := [] |> <| Completion.call_tools := [] |>
    <| Completion.call_environment := [] |> <| Completion.call_invoked := false |>.
Definition is_joined_call (c : Completion) (call_id : ToolCallId) : bool :=
  match last c.(Completion.joined_calls) with
  | Some joined => bool_decide (joined.(JoinedWorkflowCall.call_id) = call_id)
  | None => false
  end.

Definition complete_result (r : ResultOf) (result : ToolInvocationResult) : Completing unit :=
  let call_id := result.(ToolInvocationResult.call_id) in
  _ ← modify_state clear_call;
  _ ← for_each (on_effect r result) result.(ToolInvocationResult.effects);
  c ← get_state;
  if negb (is_joined_call c call_id) then
    modify_state (λ c, c <| Completion.proposals ::= λ l,
      l ++ [proposal (call_joins r (Some call_id)) (completed_event r result)]
        ++ c.(Completion.call_promises) ++ c.(Completion.call_tools)
        ++ c.(Completion.call_environment) |>)
  else
    reject_if (negb (bool_decide (c.(Completion.call_promises) = []
                                  ∧ c.(Completion.call_tools) = []
                                  ∧ c.(Completion.call_environment) = [])))
      (InvariantViolation "joined workflow tool result mixed joined and unrelated effects").

(** ** All results *)
(** The calls a workflow joins park together. *)
Definition parked_event (r : ResultOf) (joined_calls : list JoinedWorkflowCall)
    : CoreAgentEvent :=
  let suspension := ToolBatchSuspension.JoinedWorkflowCalls joined_calls
    {| AwaitSpec.promise_ids := JoinedWorkflowCall.promise_id <$> joined_calls;
       AwaitSpec.mode := AwaitMode.All;
       AwaitSpec.deadline_at_ms := None |} in
  match r.(ResultOf.origin) with
  | Some origin => CoreAgentEvent.CodeTool (CodeToolEvent.CallDeferred origin suspension)
  | None => CoreAgentEvent.Tool (ToolEvent.BatchParked r.(ResultOf.run_id)
              r.(ResultOf.turn_id) r.(ResultOf.batch_id) suspension)
  end.
Definition completion_proposals (r : ResultOf) (c : Completion) : list CoreAgentEventProposal :=
  c.(Completion.proposals)
  ++ (if bool_decide (c.(Completion.joined_calls) = []) then [] else
        c.(Completion.joined_promises)
        ++ [proposal (call_joins r (code_tool_call_id <$> r.(ResultOf.origin)))
              (parked_event r c.(Completion.joined_calls))]
        ++ c.(Completion.joined_tools)).
Definition tool_call_completed_proposals_inner (state : CoreAgentState)
    (session_id : option SessionId) (result : ToolInvocationBatchResult)
    (origin : option CodeToolOrigin) : Result DomainError (list CoreAgentEventProposal) :=
  let r := {| ResultOf.state := state; ResultOf.session_id := session_id;
              ResultOf.run_id := result.(ToolInvocationBatchResult.run_id);
              ResultOf.turn_id := result.(ToolInvocationBatchResult.turn_id);
              ResultOf.batch_id := result.(ToolInvocationBatchResult.batch_id);
              ResultOf.origin := origin |} in
  match for_each (complete_result r) result.(ToolInvocationBatchResult.results)
          empty_completion with
  | (Ok _, c) => mret (completion_proposals r c)
  | (Err error, _) => mthrow error
  end.
Definition tool_call_completed_proposals (state : CoreAgentState) (session_id : option SessionId)
    (result : ToolInvocationBatchResult) : Result DomainError (list CoreAgentEventProposal) :=
  tool_call_completed_proposals_inner state session_id result None.
End handlers.
