(* ===== verification/Results.v ===== *)
(** * Results of the tool runtime

    The events a host's answer to a tool batch is recorded by: completed calls, a batch
    parked on an await, and a parked batch that is woken up ([core/drive.rs]). *)
From S2P Require Import Prelude Ids Text Types Events Commands Media Externals RunState Promises.
From S2P Require Import ToolSpecs CodeTools Compaction Approvals WorkflowTools InvokeEffects.
From S2P Require Import Toolset Requests Completions.

(** ** Checks of a result *)
Definition terminal_call_status (status : ToolCallStatus) : bool :=
  match status with
  | ToolCallStatus.Succeeded | ToolCallStatus.Failed | ToolCallStatus.Cancelled => true
  | _ => false
  end.
Definition validate_tool_batch_result (result : ToolInvocationBatchResult)
    : Result DomainError unit :=
  for_each_fresh ToolInvocationResult.call_id
    (InvariantViolation "duplicate tool invocation result for call {}") no_check
    (λ result, reject_if (negb (terminal_call_status result.(ToolInvocationResult.status)))
       (InvariantViolation "tool invocation result must have a terminal call status"))
    [] result.(ToolInvocationBatchResult.results).

Definition validate_result_matches_active_tool_batch (state : CoreAgentState)
    (result : ToolInvocationBatchResult) (require_parked : bool) : Result DomainError unit :=
  let batch_id := result.(ToolInvocationBatchResult.batch_id) in
  run ← ok_or (active_run state) (InvariantViolation "no active run");
  _ ← reject_if (bool_decide (run.(ActiveRun.run_id)
                                ≠ result.(ToolInvocationBatchResult.run_id))
                 || bool_decide (run.(ActiveRun.active_tool_batch_id) ≠ Some batch_id))
        (InvariantViolation "tool invocation result does not match active tool batch");
  batch ← ok_or (run.(ActiveRun.tool_batches) !! batch_id)
    (InvariantViolation "tool batch {} is missing");
  _ ← reject_if (bool_decide (batch.(ActiveToolBatch.turn_id)
                                ≠ result.(ToolInvocationBatchResult.turn_id)))
        (InvariantViolation "tool invocation result does not match active turn");
  let is_parked := batch_parked run batch_id in
  _ ← reject_if (require_parked && negb is_parked)
        (InvariantViolation "tool batch {} is not parked");
  _ ← reject_if (negb require_parked && is_parked)
        (InvariantViolation "parked tool batch must be unparked by command");
  for_each (λ item,
    call ← ok_or (find_call batch item.(ToolInvocationResult.call_id))
      (InvariantViolation "tool invocation result references missing call {}");
    reject_if (bool_decide (call.(ToolCallState.status) ≠ ToolCallStatus.Pending))
      (InvariantViolation "tool invocation result requires pending tool calls"))
    result.(ToolInvocationBatchResult.results).

(** A supplemental entry beside a result is a user message. *)
Definition is_user_message (entry : ContextEntryInput) : bool :=
  match entry.(ContextEntryInput.kind) with
  | ContextEntryKind.Message ContextMessageRole.User => true
  | _ => false
  end.
Definition validate_supplemental_entries (entries : list ContextEntryInput)
    : Result DomainError unit :=
  for_each (λ entry, reject_if (negb (is_user_message entry))
    (InvariantViolation "{what} supplemental entries must be user messages, got {:?}")) entries.

(** ** Awaiting promises *)
Definition validate_await_spec_for_active_run (state : CoreAgentState) (run_id : RunId)
    (spec : AwaitSpec) : Result DomainError unit :=
  _ ← reject_if (bool_decide (spec.(AwaitSpec.promise_ids) = []))
        (InvariantViolation "await requires at least one promise id");
  for_each (λ promise_id,
    promise ← ok_or
      (state.(CoreAgentState.promises).(PromiseComponentState.promises) !! promise_id)
      (InvariantViolation "unknown promise {}");
    _ ← reject_if (bool_decide (promise.(Promise.ownership) ≠ PromiseOwnership.Model))
          (InvariantViolation "promise {} is runtime-owned and cannot be awaited by the model");
    match promise.(Promise.scope) with
    | PromiseScope.Run promise_run_id =>
        reject_if (bool_decide (promise_run_id ≠ run_id))
          (InvariantViolation "promise {} is scoped to run {}, not run {}")
    | PromiseScope.Session => mret tt
    end) spec.(AwaitSpec.promise_ids).

Definition deadline_passed (spec : AwaitSpec) (now_ms : N) : bool :=
  match spec.(AwaitSpec.deadline_at_ms) with
  | Some deadline => (deadline <=? now_ms)%N
  | None => false
  end.
Definition terminal_promises (state : CoreAgentState) (spec : AwaitSpec) : nat :=
  length (List.filter (λ promise_id,
    match state.(CoreAgentState.promises).(PromiseComponentState.promises) !! promise_id with
    | Some promise => PromiseStatus_is_terminal promise.(Promise.status)
    | None => false
    end) spec.(AwaitSpec.promise_ids)).
Definition mode_satisfied (spec : AwaitSpec) (terminal : nat) : bool :=
  match spec.(AwaitSpec.mode) with
  | AwaitMode.All => (terminal =? length spec.(AwaitSpec.promise_ids))%nat
  | AwaitMode.Any => (1 <=? terminal)%nat
  end.

Definition await_wake (state : CoreAgentState) (now_ms : N) : option AwaitOutcome :=
  run ← active_run state;
  parked ← run.(ActiveRun.parked_tool_batch);
  if bool_decide (run.(ActiveRun.status) = RunStatus.Cancelling)
  then Some AwaitOutcome.Cancelled else
  let spec := ToolBatchSuspension_spec parked.(ParkedToolBatch.suspension) in
  if deadline_passed spec now_ms then Some AwaitOutcome.Timeout
  else if bool_decide (spec.(AwaitSpec.promise_ids) = []) then None
  else if mode_satisfied spec (terminal_promises state spec) then Some AwaitOutcome.Terminal
  else None.

(** ** Completing and parking *)
Section results.
Context `{!Externals}.

Definition tool_batch_result_proposals (session_id : SessionId) (state : CoreAgentState)
    (result : ToolInvocationBatchResult) : Result DomainError (list CoreAgentEventProposal) :=
  _ ← validate_tool_batch_result result;
  _ ← validate_result_matches_active_tool_batch state result false;
  tool_call_completed_proposals state (Some session_id) result.
Definition code_tool_result_proposals (state : CoreAgentState) (session_id : SessionId)
    (origin : CodeToolOrigin) (result : ToolInvocationBatchResult)
    : Result DomainError (list CoreAgentEventProposal) :=
  _ ← validate_tool_batch_result result;
  tool_call_completed_proposals_inner state (Some session_id) result (Some origin).

Definition result_of_batch (batch : ActiveToolBatch) (results : list ToolInvocationResult)
    : ToolInvocationBatchResult :=
  {| ToolInvocationBatchResult.run_id := batch.(ActiveToolBatch.run_id);
     ToolInvocationBatchResult.turn_id := batch.(ActiveToolBatch.turn_id);
     ToolInvocationBatchResult.batch_id := batch.(ActiveToolBatch.batch_id);
     ToolInvocationBatchResult.results := results |}.

Definition is_await_call (call : ToolCallState) : bool :=
  bool_decide (call.(ToolCallState.call).(ObservedToolCall.tool_id) = Some AWAIT_TOOL_ID).
Definition is_pending_call (call : ToolCallState) : bool :=
  bool_decide (call.(ToolCallState.status) = ToolCallStatus.Pending).
Definition call_id_of (call : ToolCallState) : ToolCallId :=
  call.(ToolCallState.call).(ObservedToolCall.call_id).

(** The calls whose result invokes a workflow that joins them. *)
Definition effect_joins (state : CoreAgentState) (effect : ToolEffect)
    : Result DomainError bool :=
  invocation ← invocation_from_invoke_effect effect;
  mret match invocation with
       | Some invocation =>
           match state.(CoreAgentState.workflow_tools).(WorkflowToolState.bindings)
                   !! invocation.(WorkflowToolInvocation.workflow_tool_id) with
           | Some binding => is_joined_binding binding
           | None => false
           end
       | None => false
       end.
Definition result_joins (state : CoreAgentState) (result : ToolInvocationResult)
    : Result DomainError (list ToolCallId) :=
  joined ← mapM (effect_joins state) result.(ToolInvocationResult.effects);
  mret (if existsb id joined then [result.(ToolInvocationResult.call_id)] else []).

Definition validate_deferral (batch : ActiveToolBatch) (completed : list ToolCallId)
    : Result DomainError unit :=
  _ ← reject_if (negb (existsb (λ call, is_pending_call call
                         && negb (bool_decide (call_id_of call ∈ completed)))
                         batch.(ActiveToolBatch.calls)))
        (InvariantViolation "tool batch deferral requires at least one pending call");
  reject_if (existsb (λ call, bool_decide (call.(ToolCallState.status)
                                             = ToolCallStatus.Accepted))
               batch.(ActiveToolBatch.calls))
    (InvariantViolation "tool batch deferral requires all invocable calls to be pending").
Definition validate_await_call (batch : ActiveToolBatch) (call_id : ToolCallId)
    : Result DomainError unit :=
  let named call := bool_decide (call_id_of call = call_id) in
  _ ← reject_if (negb (existsb (λ call, named call && is_pending_call call)
                         batch.(ActiveToolBatch.calls)))
        (InvariantViolation "await deferral references non-pending call {}");
  reject_if (negb (existsb (λ call, named call && is_await_call call)
                     batch.(ActiveToolBatch.calls)))
    (InvariantViolation "parked call {} is not an await call").

Definition tool_batch_parked_proposals (session_id : SessionId) (state : CoreAgentState)
    (batch_id : ToolBatchId) (call_id : ToolCallId)
    (completed_results : list ToolInvocationResult) (spec : AwaitSpec)
    : Result DomainError (list CoreAgentEventProposal) :=
  run ← ok_or (active_run state) (InvariantViolation "no active run");
  _ ← reject_if (bool_decide (run.(ActiveRun.active_tool_batch_id) ≠ Some batch_id))
        (InvariantViolation "parked tool batch does not match active tool batch");
  batch ← ok_or (run.(ActiveRun.tool_batches) !! batch_id)
    (InvariantViolation "tool batch {} is missing");
  _ ← reject_if (is_some run.(ActiveRun.parked_tool_batch))
        (InvariantViolation "tool batch {} is already parked");
  let completed := result_of_batch batch completed_results in
  _ ← validate_tool_batch_result completed;
  _ ← validate_result_matches_active_tool_batch state completed false;
  _ ← validate_deferral batch (ToolInvocationResult.call_id <$> completed_results);
  let awaits := call_id_of <$> List.filter (λ call, is_pending_call call && is_await_call call)
                  batch.(ActiveToolBatch.calls) in
  joined ← mapM (result_joins state) completed_results;
  let joined := concat joined in
  let rejected call_id := rejected_tool_result call_id await_batch_conflict_ref in
  let finish results :=
    tool_batch_result_proposals session_id state (result_of_batch batch results) in
  if negb (bool_decide (joined = [])) && negb (bool_decide (awaits = [])) then
    finish (((λ result, if bool_decide (result.(ToolInvocationResult.call_id) ∈ joined)
                        then rejected result.(ToolInvocationResult.call_id) else result)
               <$> completed_results) ++ (rejected <$> awaits))
  else if (1 <? length awaits)%nat then finish (completed_results ++ (rejected <$> awaits))
  else
    _ ← validate_await_call batch call_id;
    if is_err (validate_await_spec_for_active_run state run.(ActiveRun.run_id) spec) then
      finish (completed_results ++ [rejected_tool_result call_id await_rejected_ref])
    else
      proposals ← tool_call_completed_proposals state (Some session_id) completed;
      mret (proposals ++
        [proposal (work_joins batch.(ActiveToolBatch.run_id) batch.(ActiveToolBatch.turn_id)
                     (Some batch.(ActiveToolBatch.batch_id)) None)
           (CoreAgentEvent.Tool (ToolEvent.BatchParked batch.(ActiveToolBatch.run_id)
              batch.(ActiveToolBatch.turn_id) batch.(ActiveToolBatch.batch_id)
              (ToolBatchSuspension.AwaitTool call_id spec)))]).

(** ** Waking up *)
(** The parked batch of the active run. *)
Definition parked_batch (state : CoreAgentState) (missing : string)
    : Result DomainError (ActiveRun * ParkedToolBatch) :=
  run ← ok_or (active_run state) (InvariantViolation "no active run");
  parked ← ok_or run.(ActiveRun.parked_tool_batch)
    (InvariantViolation missing);
  mret (run, parked).
Definition batch_of_parked (run : ActiveRun) (parked : ParkedToolBatch)
    : Result DomainError ActiveToolBatch :=
  ok_or (run.(ActiveRun.tool_batches) !! parked.(ParkedToolBatch.batch_id))
    (InvariantViolation "tool batch {} is missing").
(** The results are of the run that is active. *)
Definition woken_result (run : ActiveRun) (batch : ActiveToolBatch)
    (results : list ToolInvocationResult) : ToolInvocationBatchResult :=
  {| ToolInvocationBatchResult.run_id := run.(ActiveRun.run_id);
     ToolInvocationBatchResult.turn_id := batch.(ActiveToolBatch.turn_id);
     ToolInvocationBatchResult.batch_id := batch.(ActiveToolBatch.batch_id);
     ToolInvocationBatchResult.results := results |}.

Definition woken_call (call_id : ToolCallId) (status : ToolCallStatus)
    (output_ref error_ref : option BlobRef) (entries : list ContextEntryInput)
    (attachments : list Attachment) : ToolInvocationResult :=
  {| ToolInvocationResult.call_id := call_id;
     ToolInvocationResult.status := status;
     ToolInvocationResult.output_ref := output_ref;
     ToolInvocationResult.model_visible_context_entries := entries;
     ToolInvocationResult.error_ref := error_ref;
     ToolInvocationResult.effects := [];
     ToolInvocationResult.attachments := attachments;
     ToolInvocationResult.duration_ms := None;
     ToolInvocationResult.output_bytes := None;
     ToolInvocationResult.truncated := false |}.

Definition await_unpark_result (state : CoreAgentState) (result_ref : BlobRef)
    (additional_context : list ContextEntryInput) (attachments : list Attachment)
    : Result DomainError ToolInvocationBatchResult :=
  _ ← validate_supplemental_entries additional_context;
  '(run, parked) ← parked_batch state "await unpark requires a parked tool batch";
  match parked.(ParkedToolBatch.suspension) with
  | ToolBatchSuspension.AwaitTool call_id _ =>
      batch ← batch_of_parked run parked;
      mret (woken_result run batch
        [woken_call call_id ToolCallStatus.Succeeded (Some result_ref) None
           (tool_result_context_entry call_id ToolCallStatus.Succeeded result_ref
              :: additional_context) attachments])
  | _ => mthrow (InvariantViolation "await unpark requires an await-tool suspension")
  end.

Definition validate_joined_supplements (calls : list JoinedWorkflowCall)
    (additional_context : list PromiseContextEntries) : Result DomainError unit :=
  for_each (λ supplement,
    _ ← reject_if (negb (bool_decide (supplement.(PromiseContextEntries.promise_id)
                                        ∈ JoinedWorkflowCall.promise_id <$> calls)))
          (InvariantViolation "supplemental entries name promise {}, which no joined call of this batch owns");
    validate_supplemental_entries supplement.(PromiseContextEntries.entries))
    additional_context.
Definition supplements_of (promise_id : PromiseId)
    (additional_context : list PromiseContextEntries) : list PromiseContextEntries :=
  List.filter (λ item, bool_decide (item.(PromiseContextEntries.promise_id) = promise_id))
    additional_context.

Definition joined_call_result (state : CoreAgentState) (cancel_pending : bool)
    (additional_context : list PromiseContextEntries) (joined : JoinedWorkflowCall)
    : Result DomainError ToolInvocationResult :=
  let promise_id := joined.(JoinedWorkflowCall.promise_id) in
  let call_id := joined.(JoinedWorkflowCall.call_id) in
  promise ← ok_or
    (state.(CoreAgentState.promises).(PromiseComponentState.promises) !! promise_id)
    (InvariantViolation "joined Promise {} is missing");
  _ ← reject_if (bool_decide (promise.(Promise.ownership) ≠ PromiseOwnership.Runtime)
                 || (negb (PromiseStatus_is_terminal promise.(Promise.status))
                     && negb cancel_pending))
        (InvariantViolation "joined Promise {} is not a terminal runtime-owned Promise");
  outcome ← ok_or (joined_call_outcome promise cancel_pending)
    (InvariantViolation "terminality was checked above");
  let status := outcome.(JoinedCallOutcome.status) in
  let own := if bool_decide (status = ToolCallStatus.Succeeded)
             then supplements_of promise_id additional_context else [] in
  mret (woken_call call_id status outcome.(JoinedCallOutcome.output_ref)
          outcome.(JoinedCallOutcome.error_ref)
          (tool_result_context_entry call_id status outcome.(JoinedCallOutcome.content_ref)
             :: concat (PromiseContextEntries.entries <$> own))
          (concat (PromiseContextEntries.attachments <$> own))).
Definition joined_workflow_unpark_result (state : CoreAgentState) (cancel_pending : bool)
    (additional_context : list PromiseContextEntries)
    : Result DomainError ToolInvocationBatchResult :=
  '(run, parked) ← parked_batch state "joined unpark requires a parked tool batch";
  match parked.(ParkedToolBatch.suspension) with
  | ToolBatchSuspension.JoinedWorkflowCalls calls _ =>
      batch ← batch_of_parked run parked;
      _ ← validate_joined_supplements calls additional_context;
      results ← mapM (joined_call_result state cancel_pending additional_context) calls;
      mret (woken_result run batch results)
  | _ => mthrow (InvariantViolation "joined unpark requires a joined-workflow suspension")
  end.

Definition unpark_result (state : CoreAgentState) (command : UnparkToolBatchCommand)
    (suspension : ToolBatchSuspension) : Result DomainError ToolInvocationBatchResult :=
  match suspension, command.(UnparkToolBatchCommand.output) with
  | ToolBatchSuspension.AwaitTool _ _,
    ToolBatchUnparkOutput.AwaitTool result_ref additional_context attachments =>
      await_unpark_result state result_ref additional_context attachments
  | ToolBatchSuspension.JoinedWorkflowCalls _ _,
    ToolBatchUnparkOutput.JoinedWorkflowCalls additional_context =>
      joined_workflow_unpark_result state
        (bool_decide (command.(UnparkToolBatchCommand.claim) = AwaitOutcome.Cancelled))
        additional_context
  | _, _ => mthrow (InvariantViolation "tool batch unpark output does not match the parked suspension")
  end.

(** A cancelled wait cancels the reply promises that are still pending. *)
Definition unpark_cancellations (state : CoreAgentState) (joins : CoreAgentJoins)
    (claim : AwaitOutcome) (suspension : ToolBatchSuspension) : list CoreAgentEventProposal :=
  match suspension with
  | ToolBatchSuspension.JoinedWorkflowCalls calls _ =>
      if bool_decide (claim = AwaitOutcome.Cancelled) then
        (λ joined, proposal joins (CoreAgentEvent.Promise
           (PromiseEvent.Cancelled joined.(JoinedWorkflowCall.promise_id))))
        <$> List.filter (λ joined, is_pending_promise state
              joined.(JoinedWorkflowCall.promise_id)) calls
      else []
  | _ => []
  end.

Definition unpark_tool_batch_proposals (state : CoreAgentState)
    (command : UnparkToolBatchCommand) : Result DomainError (list CoreAgentEventProposal) :=
  match active_run state with
  | None => mret []
  | Some run =>
      if bool_decide (run.(ActiveRun.run_id) ≠ command.(UnparkToolBatchCommand.run_id))
      then mret [] else
      match run.(ActiveRun.parked_tool_batch) with
      | None => mret []
      | Some parked =>
          if bool_decide (parked.(ParkedToolBatch.batch_id)
                            ≠ command.(UnparkToolBatchCommand.batch_id))
          then mret [] else
          let suspension := parked.(ParkedToolBatch.suspension) in
          result ← unpark_result state command suspension;
          _ ← validate_tool_batch_result result;
          _ ← validate_result_matches_active_tool_batch state result true;
          let run_id := result.(ToolInvocationBatchResult.run_id) in
          let turn_id := result.(ToolInvocationBatchResult.turn_id) in
          let batch_id := result.(ToolInvocationBatchResult.batch_id) in
          let joins := work_joins run_id turn_id (Some batch_id) None in
          completed ← tool_call_completed_proposals state None result;
          mret (unpark_cancellations state joins command.(UnparkToolBatchCommand.claim)
                  suspension
                ++ [proposal joins (CoreAgentEvent.Tool
                      (ToolEvent.BatchUnparked run_id turn_id batch_id))]
                ++ completed)
      end
  end.

(** Why a claim for the parked batch no longer holds. *)
Definition has_unreconciled_code_calls (state : CoreAgentState) (run_id : RunId)
    (batch_id : ToolBatchId) : bool :=
  existsb (λ scope,
    match code_tool_parent state scope.(CodeToolScope.spec) with
    | Ok parent =>
        bool_decide (parent.(WorkflowToolInvocation.run_id) = run_id)
        && bool_decide (parent.(WorkflowToolInvocation.tool_batch_id) = batch_id)
        && existsb (λ call, negb (CodeToolCallStatus_is_terminal call.(CodeToolCall.status)))
             (btree_values scope.(CodeToolScope.calls))
    | Err _ => false
    end) (btree_values (code_scopes state)).
Definition overtaken_unpark_claim (state : CoreAgentState) (command : UnparkToolBatchCommand)
    (observed_at_ms : N) : option string :=
  let claimed_at := command.(UnparkToolBatchCommand.claim_observed_at_ms) in
  run ← active_run state;
  parked ← run.(ActiveRun.parked_tool_batch);
  if bool_decide (run.(ActiveRun.run_id) ≠ command.(UnparkToolBatchCommand.run_id))
     || bool_decide (parked.(ParkedToolBatch.batch_id)
                       ≠ command.(UnparkToolBatchCommand.batch_id))
  then None
  else if has_unreconciled_code_calls state command.(UnparkToolBatchCommand.run_id)
            command.(UnparkToolBatchCommand.batch_id)
  then Some "outer tool batch cannot unpark before its code tool calls are reconciled"
  else if (observed_at_ms <? claimed_at)%N
  then Some "tool batch unpark claim is observed in the future"
  else match await_wake state claimed_at with
       | None => Some "tool batch unpark claim has no satisfied wake"
       | Some actual =>
           if bool_decide (actual ≠ command.(UnparkToolBatchCommand.claim))
           then Some "tool batch unpark claim {:?} does not match current wake {:?}"
           else None
       end.
End results.
