(* ===== verification/CodeProposals.v ===== *)
(** * Proposals of code tools

    How the calls of a code tool are opened, admitted, completed, deferred, resumed and
    closed ([core/components/code_tool.rs]). *)
From S2P Require Import Prelude Ids Text Types Events Commands Media Externals RunState Promises.
From S2P Require Import ToolSpecs CodeTools Compaction Approvals WorkflowTools Requests.
From S2P Require Import Completions Results.

Section code_proposals.
Context `{!Externals}.

(** ** Attribution *)
Definition empty_joins : CoreAgentJoins :=
  {| CoreAgentJoins.run_id := None; CoreAgentJoins.turn_id := None;
     CoreAgentJoins.tool_batch_id := None; CoreAgentJoins.tool_call_id := None;
     CoreAgentJoins.submission_id := None |}.
Definition parent_joins (parent : WorkflowToolInvocation) (call_id : option ToolCallId)
    : CoreAgentJoins :=
  work_joins parent.(WorkflowToolInvocation.run_id) parent.(WorkflowToolInvocation.turn_id)
    (Some parent.(WorkflowToolInvocation.tool_batch_id)) call_id.
Definition scope_joins (state : CoreAgentState) (scope : CodeToolScopeSpec)
    : Result DomainError CoreAgentJoins :=
  parent ← code_tool_parent state scope;
  mret (parent_joins parent None).
Definition code_scope (state : CoreAgentState) (execution_id : string)
    : Result DomainError CodeToolScope :=
  ok_or (code_scopes state !! execution_id)
    (InvariantViolation "unknown code tool execution scope").
Definition code_call_joins (state : CoreAgentState) (origin : CodeToolOrigin)
    : Result DomainError CoreAgentJoins :=
  scope ← code_scope state origin.(CodeToolOrigin.execution_id);
  parent ← code_tool_parent state scope.(CodeToolScope.spec);
  mret (parent_joins parent (Some (code_tool_call_id origin))).
Definition known_code_call (state : CoreAgentState) (origin : CodeToolOrigin)
    : Result DomainError CodeToolCall :=
  ok_or (code_tool_call state origin) (InvariantViolation "unknown code tool request").

(** ** Opening and admitting *)
Definition open_code_tool_scope_proposals (state : CoreAgentState) (scope : CodeToolScopeSpec)
    : Result DomainError (list CoreAgentEventProposal) :=
  match code_scopes state !! scope.(CodeToolScopeSpec.execution_id) with
  | Some existing =>
      _ ← reject_if (bool_decide (existing.(CodeToolScope.spec) ≠ scope))
            (InvariantViolation "code tool execution id reused with a different scope");
      mret []
  | None =>
      _ ← validate_scope state scope;
      joins ← scope_joins state scope;
      mret [proposal joins (CoreAgentEvent.CodeTool (CodeToolEvent.ScopeOpened scope))]
  end.

Definition admit_code_tool_call_proposals (state : CoreAgentState) (call : CodeToolCallSpec)
    : Result DomainError (list CoreAgentEventProposal) :=
  match code_tool_call state call.(CodeToolCallSpec.origin) with
  | Some existing =>
      _ ← reject_if (bool_decide (existing.(CodeToolCall.spec) ≠ call))
            (InvariantViolation "code tool request id reused with different arguments or binding");
      mret []
  | None =>
      _ ← validate_call state call;
      base ← ok_or (next_u64 state.(CoreAgentState.id_cursors).(IdCursors.last_promise_id))
               (InvariantViolation "promise counter exhausted");
      _ ← ok_or (checked_add_u64 base (CODE_TOOL_PROMISE_SLOTS - 1))
            (InvariantViolation "promise counter exhausted");
      joins ← code_call_joins state call.(CodeToolCallSpec.origin);
      mret [proposal joins (CoreAgentEvent.CodeTool (CodeToolEvent.CallAdmitted call base))]
  end.

(** ** Completing and deferring *)
Definition is_pending_code_call (call : CodeToolCall) : bool :=
  bool_decide (call.(CodeToolCall.status) = CodeToolCallStatus.Pending).
Definition validate_code_result (call : CodeToolCall) (result : ToolInvocationResult)
    : Result DomainError unit :=
  validate_result_fields call result.(ToolInvocationResult.call_id)
    result.(ToolInvocationResult.status).

Definition complete_code_tool_call_proposals (state : CoreAgentState) (origin : CodeToolOrigin)
    (result : ToolInvocationResult) : Result DomainError (list CoreAgentEventProposal) :=
  call ← known_code_call state origin;
  _ ← reject_if (negb (is_pending_code_call call))
        (InvariantViolation "code tool request is not pending");
  _ ← validate_code_result call result;
  scope ← code_scope state origin.(CodeToolOrigin.execution_id);
  parent ← code_tool_parent state scope.(CodeToolScope.spec);
  code_tool_result_proposals state parent.(WorkflowToolInvocation.session_id) origin
    {| ToolInvocationBatchResult.run_id := parent.(WorkflowToolInvocation.run_id);
       ToolInvocationBatchResult.turn_id := parent.(WorkflowToolInvocation.turn_id);
       ToolInvocationBatchResult.batch_id := parent.(WorkflowToolInvocation.tool_batch_id);
       ToolInvocationBatchResult.results := [result] |}.

Definition validate_await_ids (spec : AwaitSpec) : Result DomainError unit :=
  let ids := spec.(AwaitSpec.promise_ids) in
  reject_if (bool_decide (ids = []) || (32 <? length ids)%nat || negb (bool_decide (NoDup ids)))
    (InvariantViolation "code tool await requires 1..=32 distinct promise ids").
Definition await_rejected_message : string :=
  "await rejected: a promise id is unknown, no longer retained or not awaitable by this run".

Definition defer_code_tool_call_proposals (state : CoreAgentState) (origin : CodeToolOrigin)
    (spec : AwaitSpec) : Result DomainError (list CoreAgentEventProposal) :=
  call ← known_code_call state origin;
  _ ← reject_if (bool_decide (call.(CodeToolCall.spec).(CodeToolCallSpec.tool_id)
                                ≠ AWAIT_TOOL_ID))
        (InvariantViolation "code tool await suspension requires concurrency.await");
  _ ← validate_await_ids spec;
  scope ← code_scope state origin.(CodeToolOrigin.execution_id);
  parent ← code_tool_parent state scope.(CodeToolScope.spec);
  _ ← map_err (λ _, InvariantViolation await_rejected_message)
        (validate_await_spec_for_active_run state parent.(WorkflowToolInvocation.run_id) spec);
  let suspension := ToolBatchSuspension.AwaitTool call.(CodeToolCall.call_id) spec in
  match call.(CodeToolCall.status) with
  | CodeToolCallStatus.Waiting existing =>
      _ ← reject_if (bool_decide (existing ≠ suspension))
            (InvariantViolation "code tool await changed after admission");
      mret []
  | status =>
      _ ← reject_if (bool_decide (status ≠ CodeToolCallStatus.Pending))
            (InvariantViolation "code tool request already completed");
      joins ← code_call_joins state origin;
      mret [proposal joins
              (CoreAgentEvent.CodeTool (CodeToolEvent.CallDeferred origin suspension))]
  end.

(** ** Waking up *)
Definition code_tool_wake (state : CoreAgentState) (origin : CodeToolOrigin) (now_ms : N)
    : option AwaitOutcome :=
  scope ← code_scopes state !! origin.(CodeToolOrigin.execution_id);
  call ← scope.(CodeToolScope.calls) !! origin.(CodeToolOrigin.request_id);
  match call.(CodeToolCall.status) with
  | CodeToolCallStatus.Waiting suspension =>
      if scope.(CodeToolScope.closed)
         || is_err (validate_live_parent state scope.(CodeToolScope.spec))
      then Some AwaitOutcome.Cancelled else
      let spec := ToolBatchSuspension_spec suspension in
      if deadline_passed spec now_ms then Some AwaitOutcome.Timeout
      else if mode_satisfied spec (terminal_promises state spec) then Some AwaitOutcome.Terminal
      else None
  | _ => None
  end.

(** The promise of a joined call's one reply; the source indexes the first call. *)
Definition reply_promise (state : CoreAgentState) (calls : list JoinedWorkflowCall)
    : Result DomainError Promise :=
  joined ← ok_or (head calls) (InvariantViolation "index out of bounds: calls[0]");
  ok_or (state.(CoreAgentState.promises).(PromiseComponentState.promises)
           !! joined.(JoinedWorkflowCall.promise_id))
    (InvariantViolation "code tool joined promise is missing").

Definition code_tool_joined_result (state : CoreAgentState) (origin : CodeToolOrigin)
    (cancel_pending : bool) : Result DomainError ToolInvocationResult :=
  call ← known_code_call state origin;
  match call.(CodeToolCall.status) with
  | CodeToolCallStatus.Waiting (ToolBatchSuspension.JoinedWorkflowCalls calls _) =>
      promise ← reply_promise state calls;
      outcome ← ok_or (joined_call_outcome promise cancel_pending)
        (InvariantViolation "code tool joined promise is still pending");
      mret (woken_call call.(CodeToolCall.call_id) outcome.(JoinedCallOutcome.status)
              outcome.(JoinedCallOutcome.output_ref) outcome.(JoinedCallOutcome.error_ref)
              [] [])
  | _ => mthrow (InvariantViolation "code tool request is not waiting for a joined reply")
  end.

(** The reply promises that are still pending are cancelled with the call. *)
Definition is_pending_reply (state : CoreAgentState) (joined : JoinedWorkflowCall) : bool :=
  match state.(CoreAgentState.promises).(PromiseComponentState.promises)
          !! joined.(JoinedWorkflowCall.promise_id) with
  | Some promise =>
      bool_decide (promise.(Promise.status) = PromiseStatus.Pending)
      && bool_decide (promise.(Promise.ownership) = PromiseOwnership.Runtime)
  | None => false
  end.
Definition reply_cancellations (state : CoreAgentState) (origin : CodeToolOrigin)
    (calls : list JoinedWorkflowCall) : Result DomainError (list CoreAgentEventProposal) :=
  mapM (λ joined,
    joins ← code_call_joins state origin;
    mret (proposal joins (CoreAgentEvent.Promise
            (PromiseEvent.Cancelled joined.(JoinedWorkflowCall.promise_id)))))
    (List.filter (is_pending_reply state) calls).

Definition reply_status (status : PromiseStatus) : ToolCallStatus :=
  match status with
  | PromiseStatus.Resolved => ToolCallStatus.Succeeded
  | PromiseStatus.Failed => ToolCallStatus.Failed
  | PromiseStatus.Pending | PromiseStatus.Cancelled => ToolCallStatus.Cancelled
  end.
(** The result of a joined call is its reply's. *)
Definition resume_joined (state : CoreAgentState) (origin : CodeToolOrigin)
    (call : CodeToolCall) (result : ToolInvocationResult) (wake : option AwaitOutcome)
    : Result DomainError (list CoreAgentEventProposal) :=
  match call.(CodeToolCall.status) with
  | CodeToolCallStatus.Waiting (ToolBatchSuspension.JoinedWorkflowCalls calls _) =>
      promise ← reply_promise state calls;
      _ ← reject_if
            (bool_decide (result.(ToolInvocationResult.status)
                            ≠ reply_status promise.(Promise.status))
             || (bool_decide (promise.(Promise.status) = PromiseStatus.Resolved)
                 && bool_decide (result.(ToolInvocationResult.output_ref)
                                   ≠ promise.(Promise.payload_ref))))
            (InvariantViolation "code tool joined result does not match its completion promise");
      if bool_decide (wake = Some AwaitOutcome.Cancelled)
         || bool_decide (wake = Some AwaitOutcome.Timeout)
      then reply_cancellations state origin calls
      else mret []
  | _ => mret []
  end.

Definition resume_code_tool_call_proposals (state : CoreAgentState) (origin : CodeToolOrigin)
    (result : ToolInvocationResult) (claim_observed_at_ms observed_at_ms : N)
    : Result DomainError (list CoreAgentEventProposal) :=
  call ← known_code_call state origin;
  _ ← reject_if (CodeToolCallStatus_is_terminal call.(CodeToolCall.status))
        (InvariantViolation "code tool request already completed");
  _ ← validate_code_result call result;
  let wake := code_tool_wake state origin claim_observed_at_ms in
  _ ← reject_if ((observed_at_ms <? claim_observed_at_ms)%N || is_none wake)
        (InvariantViolation "code tool resume has no satisfied wake");
  _ ← reject_if (negb (bool_decide (result.(ToolInvocationResult.effects) = [])))
        (InvariantViolation "code tool resume cannot introduce tool effects");
  cancellations ← resume_joined state origin call result wake;
  joins ← code_call_joins state origin;
  mret (cancellations ++ [proposal joins (CoreAgentEvent.CodeTool
          (CodeToolEvent.CallCompleted origin (code_tool_call_result result)))]).

(** ** Closing *)
Definition call_cancellations (state : CoreAgentState) (call : CodeToolCall)
    : Result DomainError (list CoreAgentEventProposal) :=
  match call.(CodeToolCall.status) with
  | CodeToolCallStatus.Waiting (ToolBatchSuspension.JoinedWorkflowCalls calls _) =>
      reply_cancellations state call.(CodeToolCall.spec).(CodeToolCallSpec.origin) calls
  | _ => mret []
  end.
(** Attribution never stops a scope from closing. *)
Definition close_code_tool_scope_proposals (state : CoreAgentState) (execution_id : string)
    : Result DomainError (list CoreAgentEventProposal) :=
  match code_scopes state !! execution_id with
  | None => mret []
  | Some scope =>
      if scope.(CodeToolScope.closed) then mret [] else
      let joins := match scope_joins state scope.(CodeToolScope.spec) with
                   | Ok joins => joins
                   | Err _ => empty_joins
                   end in
      cancellations ← mapM (call_cancellations state) (btree_values scope.(CodeToolScope.calls));
      mret (proposal joins (CoreAgentEvent.CodeTool (CodeToolEvent.ScopeClosed execution_id))
              :: concat cancellations)
  end.

(** ** The request of a call *)
Definition without_approval (runtime : RemoteMcpCallRuntime) : RemoteMcpCallRuntime :=
  match runtime with
  | RemoteMcpCallRuntime.Injected target name _ =>
      RemoteMcpCallRuntime.Injected target name None
  | RemoteMcpCallRuntime.Search targets _ => RemoteMcpCallRuntime.Search targets None
  end.
Definition without_call_approval (call : ToolInvocationRequest) : ToolInvocationRequest :=
  {| ToolInvocationRequest.call_id := call.(ToolInvocationRequest.call_id);
     ToolInvocationRequest.tool_id := call.(ToolInvocationRequest.tool_id);
     ToolInvocationRequest.tool_name := call.(ToolInvocationRequest.tool_name);
     ToolInvocationRequest.arguments_ref := call.(ToolInvocationRequest.arguments_ref);
     ToolInvocationRequest.builtin := call.(ToolInvocationRequest.builtin);
     ToolInvocationRequest.workflow_tool := call.(ToolInvocationRequest.workflow_tool);
     ToolInvocationRequest.promise_control := call.(ToolInvocationRequest.promise_control);
     ToolInvocationRequest.remote_mcp :=
       without_approval <$> call.(ToolInvocationRequest.remote_mcp) |}.
Definition observed_code_call (call : CodeToolCall) : ObservedToolCall :=
  {| ObservedToolCall.call_id := call.(CodeToolCall.call_id);
     ObservedToolCall.tool_id := Some call.(CodeToolCall.spec).(CodeToolCallSpec.tool_id);
     ObservedToolCall.tool_name := call.(CodeToolCall.spec).(CodeToolCallSpec.tool_name);
     ObservedToolCall.provider_kind := None;
     ObservedToolCall.arguments_ref := call.(CodeToolCall.spec).(CodeToolCallSpec.arguments_ref);
     ObservedToolCall.native_call_ref := None |}.

Definition code_tool_request (session_id : SessionId) (state : CoreAgentState)
    (execution_id request_id : string) : Result DomainError ToolInvocationBatchRequest :=
  let origin := {| CodeToolOrigin.execution_id := execution_id;
                   CodeToolOrigin.request_id := request_id |} in
  call ← known_code_call state origin;
  _ ← reject_if (negb (is_pending_code_call call))
        (InvariantViolation "code tool request is not pending");
  scope ← code_scope state execution_id;
  _ ← reject_if scope.(CodeToolScope.closed)
        (InvariantViolation "code tool scope is closed");
  _ ← validate_live_parent state scope.(CodeToolScope.spec);
  _ ← reject_if (negb (scope.(CodeToolScope.toolset_revision)
                       =? state.(CoreAgentState.tooling).(ToolingState.revision))%N)
        (InvariantViolation "code tool scope catalog is stale after a toolset change");
  parent ← code_tool_parent state scope.(CodeToolScope.spec);
  _ ← reject_if (bool_decide (parent.(WorkflowToolInvocation.session_id) ≠ session_id))
        (InvariantViolation "code tool request session does not match its parent");
  request ← tool_invocation_request state session_id parent.(WorkflowToolInvocation.run_id)
    parent.(WorkflowToolInvocation.turn_id) parent.(WorkflowToolInvocation.tool_batch_id)
    call.(CodeToolCall.promise_id_base) [observed_code_call call];
  mret (request <| ToolInvocationBatchRequest.calls ::= fmap without_call_approval |>).
End code_proposals.
