(* ===== verification/Admit.v ===== *)
(** * Admission

    Every external command is checked against the session state and turned into the events
    that carry it out, or rejected with a reason ([core/admit.rs]). A command whose work is
    already done is admitted with no event, so a retry is harmless. *)
From S2P Require Import Prelude Ids Text Types Events Commands Media Externals RunState Config.
From S2P Require Import Promises Sessions Contexts Compaction ToolSpecs CodeTools ContextReducer.
From S2P Require Import Llm Approvals WorkflowTools Bindings Toolset ContextPlan Requests.
From S2P Require Import Completions Results CodeProposals.

Abbreviation Admission := (Result CommandError).
Abbreviation Proposals := (list CoreAgentEventProposal).

(** ** Rejections *)
Definition rejection (kind : CommandRejectionKind) (message : string) : CommandError :=
  CommandError.Rejected
    {| CommandRejection.kind := kind; CommandRejection.message := message;
       CommandRejection.details := None |}.
Definition context_revision_conflict (expected actual : N) : CommandRejection :=
  {| CommandRejection.kind := CommandRejectionKind.RevisionConflict;
     CommandRejection.message := "expected context revision {expected}, got {actual}";
     CommandRejection.details :=
       Some (CommandRejectionDetails.ContextRevisionConflict expected actual) |}.
Definition DomainError_message (self : DomainError) : string :=
  match self with
  | DomainError.InvariantViolation message
  | DomainError.EventOrdering message
  | DomainError.ProviderCompatibility message => message
  end.
Definition command_rejection_from_domain (error : DomainError) : CommandError :=
  rejection match error with
            | DomainError.ProviderCompatibility _ => CommandRejectionKind.ProviderCompatibility
            | DomainError.InvariantViolation _ | DomainError.EventOrdering _ =>
                CommandRejectionKind.Invalid
            end (DomainError_message error).
Definition unknown_reference_rejection_from_domain (error : DomainError) : CommandError :=
  rejection CommandRejectionKind.UnknownReference (DomainError_message error).
(** [.map_err(command_rejection_from_domain)] and [.map_err(CommandError::Domain)]. *)
Definition rejecting {A} (r : Result DomainError A) : Admission A :=
  map_err command_rejection_from_domain r.
Definition domain {A} (r : Result DomainError A) : Admission A := map_err CommandError.Domain r.

(** ** Guards *)
Definition require_open (state : CoreAgentState) : Admission unit :=
  reject_if (negb (bool_decide (state.(CoreAgentState.lifecycle).(LifecycleState.status)
                                  = CoreAgentStatus.Open)))
    (rejection CommandRejectionKind.SessionLifecycle "session must be open").
Definition has_queued_runs (state : CoreAgentState) : bool :=
  negb (bool_decide (state.(CoreAgentState.runs).(RunsState.queued) = [])).
Definition require_no_active_or_queued_work (state : CoreAgentState) (message : string)
    : Admission unit :=
  reject_if (is_some (active_run state) || has_queued_runs state
             || is_pending (compaction_state state))
    (rejection CommandRejectionKind.ActiveWork message).
Definition tools_frozen (state : CoreAgentState) : bool :=
  match active_run state with
  | Some run =>
      is_some run.(ActiveRun.active_turn_id) || is_some run.(ActiveRun.active_tool_batch_id)
      || has_unstarted_tool_call_turn run
  | None => false
  end.
Definition require_tools_not_frozen (state : CoreAgentState) : Admission unit :=
  reject_if (tools_frozen state) (rejection CommandRejectionKind.ActiveWork
    "tools cannot change between a turn's start and the end of its tool batch").
Definition validate_expected_tool_revision (state : CoreAgentState)
    (expected_revision : option N) : Admission unit :=
  match expected_revision with
  | Some expected =>
      reject_if (negb (expected =? state.(CoreAgentState.tooling).(ToolingState.revision))%N)
        (rejection CommandRejectionKind.RevisionConflict "expected tool revision {}, got {}")
  | None => mret tt
  end.
Definition validate_expected_context_revision (state : CoreAgentState)
    (expected_revision : option N) : Admission unit :=
  match expected_revision with
  | Some expected =>
      let actual := state.(CoreAgentState.context).(ContextState.revision) in
      reject_if (negb (expected =? actual)%N)
        (CommandError.Rejected (context_revision_conflict expected actual))
  | None => mret tt
  end.
Definition require_no_pending_compaction (state : CoreAgentState) (message : string)
    : Admission unit :=
  reject_if (is_pending (compaction_state state))
    (rejection CommandRejectionKind.ActiveWork message).
Definition running_or_parked (status : RunStatus) : bool :=
  match status with RunStatus.Running | RunStatus.Parked => true | _ => false end.
Definition active_run_for_command (state : CoreAgentState) : Admission ActiveRun :=
  run ← ok_or (active_run state)
    (rejection CommandRejectionKind.MissingActiveRun "command requires an active run");
  _ ← reject_if (negb (running_or_parked run.(ActiveRun.status)))
        (rejection CommandRejectionKind.ActiveWork
           "the run is cancelling and accepts no further commands");
  mret run.

(** An event of the session, joined to nothing. *)
Definition session_event (event : CoreAgentEvent) : CoreAgentEventProposal :=
  proposal empty_joins event.
Definition run_event (run_id : RunId) (event : RunEvent) : CoreAgentEventProposal :=
  proposal (run_joins run_id) (CoreAgentEvent.Run event).

(** ** Session *)
#[export] Instance set_SessionConfig_context : Setter SessionConfig.context :=
  ltac:(solve_setter SessionConfig.context).
#[export] Instance set_ContextConfig_compaction : Setter ContextConfig.compaction :=
  ltac:(solve_setter ContextConfig.compaction).
Definition materialize_compaction_default (config : SessionConfig) : SessionConfig :=
  match config.(SessionConfig.context).(ContextConfig.compaction) with
  | Some _ => config
  | None => config <| SessionConfig.context ::= λ context,
      context <| ContextConfig.compaction :=
        Some (CompactionPolicy.ProviderStandalone None None) |> |>
  end.

Section admission.
Context `{!Externals}.

(** The document a session is opened with. *)
Definition opening_config (state : CoreAgentState) (config : SessionConfig)
    : Admission SessionConfig :=
  _ ← reject_if (bool_decide (state.(CoreAgentState.lifecycle).(LifecycleState.status)
                                ≠ CoreAgentStatus.New))
        (rejection CommandRejectionKind.SessionLifecycle
           "session can only be opened from new state");
  let config := materialize_compaction_default config in
  _ ← rejecting (SessionConfig_validate config);
  mret config.
Definition opened_event (config : SessionConfig) : CoreAgentEventProposal :=
  session_event (CoreAgentEvent.Lifecycle (CoreAgentLifecycleEvent.Opened config)).
Definition open_session (state : CoreAgentState) (config : SessionConfig) : Admission Proposals :=
  config ← opening_config state config;
  mret [opened_event config].
Definition open_declared_session (state : CoreAgentState) (config : SessionConfig)
    (session_universe_id : Uuid) (workflow_tools : DeclaredSessionWorkflowTools)
    : Admission Proposals :=
  config ← opening_config state config;
  admitted ← rejecting (DeclaredSessionWorkflowTools_admit workflow_tools session_universe_id);
  mret [opened_event config;
        session_event (CoreAgentEvent.WorkflowToolConfig
          (WorkflowToolConfigEvent.DeclaredBindingsAdmitted
             admitted.(AdmittedDeclaredSessionWorkflowTools.session_universe_id)
             admitted.(AdmittedDeclaredSessionWorkflowTools.version)
             admitted.(AdmittedDeclaredSessionWorkflowTools.lifecycle_controller)
             admitted.(AdmittedDeclaredSessionWorkflowTools.creation_fingerprint)
             admitted.(AdmittedDeclaredSessionWorkflowTools.bindings)))].

Definition tool_name_of (binding : WorkflowToolBinding) : ToolId :=
  binding.(WorkflowToolBinding.definition).(WorkflowToolDefinition.tool).(ToolSpec.id).
Definition admit_system_workflow_tool (state : CoreAgentState) (session_universe_id : Uuid)
    (declaration : WorkflowToolDeclaration) : Admission Proposals :=
  let tools := state.(CoreAgentState.workflow_tools) in
  _ ← require_open state;
  binding ← rejecting (WorkflowToolBinding_admit session_universe_id
    declaration.(WorkflowToolDeclaration.definition)
    declaration.(WorkflowToolDeclaration.target)
    declaration.(WorkflowToolDeclaration.completion));
  let tool_id := binding.(WorkflowToolBinding.definition)
                   .(WorkflowToolDefinition.workflow_tool_id) in
  match tools.(WorkflowToolState.bindings) !! tool_id with
  | Some existing =>
      _ ← reject_if (negb (bool_decide (existing = binding)
                           && bool_decide (tool_id ∈ tools.(WorkflowToolState.system_binding_ids))))
            (rejection CommandRejectionKind.Invalid
               "system workflow tool {tool_id} conflicts with an existing immutable binding");
      mret []
  | None =>
      _ ← reject_if (existsb (λ existing,
              bool_decide (tool_name_of existing = tool_name_of binding))
              (btree_values tools.(WorkflowToolState.bindings)))
            (rejection CommandRejectionKind.Invalid
               "system workflow tool {tool_id} name {} collides with workflow tool {}");
      mret [session_event (CoreAgentEvent.WorkflowToolConfig
              (WorkflowToolConfigEvent.SystemBindingAdmitted binding))]
  end.

(** ** Configuration *)
Definition environments_of (config : SessionConfig) : option EnvironmentsFeature :=
  config.(SessionConfig.features).(FeaturesConfig.environments).
Definition is_attached (self : EnvironmentsFeature) (environment_id : string) : bool :=
  is_some (EnvironmentsFeature_attachment self environment_id).
Definition default_id (config : SessionConfig) : option string :=
  environments ← environments_of config;
  attachment ← EnvironmentsFeature_default_attachment environments;
  Some attachment.(EnvironmentAttachment.environment_id).
Definition attaches (config : SessionConfig) (environment_id : string) : bool :=
  match environments_of config with
  | Some environments => is_attached environments environment_id
  | None => false
  end.
(** The new document clears an active environment it does not attach, and fills an empty
    pointer with a default it newly names; a validated document holds valid ids. *)
Definition environment_changes (active : option EnvironmentId) (current config : SessionConfig)
    : Proposals :=
  let clears_active := match active with
                       | Some active => negb (attaches config active)
                       | None => false
                       end in
  let fills := bool_decide (default_id config ≠ default_id current)
               && (is_none active || clears_active) in
  (if clears_active then
     [session_event (CoreAgentEvent.Environment EnvironmentEvent.ActiveEnvironmentCleared)]
   else [])
  ++ match default_id config with
     | Some environment_id =>
         if fills then
           [session_event (CoreAgentEvent.Environment
              (EnvironmentEvent.ActiveEnvironmentSet environment_id))]
         else []
     | None => []
     end.
Definition replace_session_config (state : CoreAgentState) (expected_revision : option N)
    (config : SessionConfig) : Admission Proposals :=
  let lifecycle := state.(CoreAgentState.lifecycle) in
  _ ← require_open state;
  _ ← require_no_active_or_queued_work state
        "session config can only change while no run or compaction is active or queued";
  _ ← reject_if (match expected_revision with
                 | Some expected => negb (expected =? lifecycle.(LifecycleState.config_revision))%N
                 | None => false
                 end)
        (rejection CommandRejectionKind.RevisionConflict "expected config revision {}, got {}");
  let config := materialize_compaction_default config in
  current ← ok_or lifecycle.(LifecycleState.config)
    (CommandError.Domain (InvariantViolation "open session is missing config"));
  _ ← rejecting (validate_config_update_for_state state config);
  if bool_decide (config = current) then mret [] else
  revision ← ok_or (next_u64 lifecycle.(LifecycleState.config_revision))
    (CommandError.Domain (InvariantViolation "config revision exhausted"));
  mret (session_event (CoreAgentEvent.Lifecycle
          (CoreAgentLifecycleEvent.ConfigChanged config revision))
        :: environment_changes
             state.(CoreAgentState.environment).(EnvironmentState.active_environment_id)
             current config).

(** ** Runs *)
Definition validate_run_config_for_state (state : CoreAgentState) (run_config : RunConfig)
    : Result DomainError unit :=
  let tools := state.(CoreAgentState.tooling).(ToolingState.tools) in
  _ ← validate_max_turns run_config.(RunConfig.max_turns);
  config ← current_config state;
  _ ← RunConfig_validate_provider_compatibility run_config config.(SessionConfig.model);
  let model := default config.(SessionConfig.model) run_config.(RunConfig.model_override) in
  _ ← validate_tool_choice_for_tools tools run_config.(RunConfig.tool_choice);
  validate_tools_for_api_kind (btree_values tools) model.(ModelSelection.api_kind).

(** The event of a new run, after every check but that of a retried submission. *)
Definition request_new_run (state : CoreAgentState) (request : RunRequestCommand)
    : Admission Proposals :=
  let input := RunRequestSource_input request.(RunRequestCommand.source) in
  _ ← require_open state;
  _ ← require_no_pending_compaction state
        "run cannot be requested while context compaction is pending";
  _ ← rejecting (validate_run_config_for_state state request.(RunRequestCommand.run_config));
  _ ← reject_if (bool_decide (request.(RunRequestCommand.input_limit_tokens) = Some 0%N))
        (rejection CommandRejectionKind.Invalid "input_limit_tokens must be positive");
  run_id ← ok_or (next_u64 state.(CoreAgentState.id_cursors).(IdCursors.last_run_id))
    (CommandError.Domain (InvariantViolation "run id cursor exhausted"));
  _ ← reject_if (bool_decide (input = []))
        (rejection CommandRejectionKind.Invalid "run input must contain at least one entry");
  _ ← rejecting (validate_run_input_entries input);
  mret [proposal
          {| CoreAgentJoins.run_id := Some run_id; CoreAgentJoins.turn_id := None;
             CoreAgentJoins.tool_batch_id := None; CoreAgentJoins.tool_call_id := None;
             CoreAgentJoins.submission_id := request.(RunRequestCommand.submission_id) |}
          (CoreAgentEvent.Run (RunEvent.Accepted
             {| AcceptedRunEvent.run_id := run_id;
                AcceptedRunEvent.submission_id := request.(RunRequestCommand.submission_id);
                AcceptedRunEvent.source := RunSource.Input input;
                AcceptedRunEvent.run_config := request.(RunRequestCommand.run_config);
                AcceptedRunEvent.input_limit_tokens :=
                  request.(RunRequestCommand.input_limit_tokens);
                AcceptedRunEvent.config_revision :=
                  state.(CoreAgentState.lifecycle).(LifecycleState.config_revision);
                AcceptedRunEvent.notify_on_terminal :=
                  request.(RunRequestCommand.notify_on_terminal);
                AcceptedRunEvent.requested_by := request.(RunRequestCommand.requested_by) |}))].
Definition request_run (state : CoreAgentState) (request : RunRequestCommand)
    : Admission Proposals :=
  match (submission_id ← request.(RunRequestCommand.submission_id);
         match_existing_run_submission state submission_id request.(RunRequestCommand.source)
           request.(RunRequestCommand.run_config)
           request.(RunRequestCommand.notify_on_terminal)) with
  | Some SubmissionMatch.Identical => mret []
  | Some SubmissionMatch.Different =>
      mthrow (rejection CommandRejectionKind.DuplicateSubmission
        "submission id {submission_id} was already used by a run with different input, run config, or terminal notification")
  | None => request_new_run state request
  end.

Definition request_run_steering (state : CoreAgentState) (run_id : RunId)
    (submission_id : SubmissionId) (input : list ContextEntryInput)
    (requested_by : option Attribution) : Admission Proposals :=
  _ ← require_open state;
  run ← active_run_for_command state;
  _ ← reject_if (bool_decide (run.(ActiveRun.run_id) ≠ run_id))
        (rejection CommandRejectionKind.UnknownReference
           "steering target run {run_id} is no longer active");
  match steering_for_submission run submission_id with
  | Some existing =>
      _ ← reject_if (bool_decide (existing.(SteeringBatch.input) ≠ input))
            (rejection CommandRejectionKind.DuplicateSubmission
               "submission id {submission_id} was already used with different steering input");
      mret []
  | None =>
      _ ← rejecting (validate_steering_input_entries input);
      steering_id ← ok_or
        (next_u64 state.(CoreAgentState.id_cursors).(IdCursors.last_steering_id))
        (CommandError.Domain (InvariantViolation "steering id cursor exhausted"));
      mret [run_event run.(ActiveRun.run_id)
              (RunEvent.SteeringAccepted run.(ActiveRun.run_id) steering_id submission_id input
                 requested_by)]
  end.

Definition cancel_run (state : CoreAgentState) (run_id : RunId)
    (requested_by : option Attribution) : Admission Proposals :=
  _ ← require_open state;
  match active_run_named state run_id with
  | Some run =>
      if running_or_parked run.(ActiveRun.status) then
        mret (run_event run.(ActiveRun.run_id)
                (RunEvent.CancellationRequested run.(ActiveRun.run_id) requested_by)
              :: pending_approval_cancellations run)
      else mret []
  | None =>
      if existsb (λ queued, bool_decide (queued.(AcceptedRun.run_id) = run_id))
           state.(CoreAgentState.runs).(RunsState.queued)
      then mret [run_event run_id (RunEvent.QueuedCancelled run_id requested_by)]
      else mret []
  end.

Definition force_cancel_run (state : CoreAgentState) (run_id : RunId) : Admission Proposals :=
  _ ← require_open state;
  match active_run_named state run_id with
  | None => mret []
  | Some run =>
      closing ← domain (open_tool_group_closing_entries state run);
      mret ((if bool_decide (closing = []) then []
             else [entries_applied_proposal state run_id closing])
            ++ [run_event run_id (RunEvent.ForceCancelled run_id)])
  end.

(** Open calls are answered, approvals ended and accepted steering written down before the
    failure. The revision is bumped without a check: it wraps in a release build. *)
Definition fail_run_proposals (state : CoreAgentState) (run : ActiveRun)
    (message_ref : BlobRef) : Result DomainError Proposals :=
  let run_id := run.(ActiveRun.run_id) in
  let revision := state.(CoreAgentState.context).(ContextState.revision) in
  closing ← open_tool_group_closing_entries state run;
  let '(closed, last_entry_id, base_revision) :=
    match last closing with
    | Some entry => ([entries_applied_proposal state run_id closing],
                     entry.(ContextEntry.entry_id), wrapping_add_u64 revision 1)
    | None => ([], state.(CoreAgentState.id_cursors).(IdCursors.last_context_entry_id), revision)
    end in
  steering ← (if bool_decide (run.(ActiveRun.status) = RunStatus.Cancelling) then mret []
              else missing_steering_entries_after state last_entry_id);
  mret (closed ++ pending_approval_cancellations run
        ++ (if bool_decide (steering = []) then []
            else [proposal (run_joins run_id) (CoreAgentEvent.Context
                    (ContextEvent.EntriesApplied base_revision steering))])
        ++ [run_event run_id (RunEvent.Failed run_id
              {| RunFailure.kind := RunFailureKind.Internal;
                 RunFailure.message_ref := Some message_ref |})]).
Definition fail_run (state : CoreAgentState) (run_id : RunId) (message_ref : BlobRef)
    : Admission Proposals :=
  _ ← require_open state;
  match active_run_named state run_id with
  | None => mret []
  | Some run => domain (fail_run_proposals state run message_ref)
  end.

Definition unpark_tool_batch_command (state : CoreAgentState)
    (command : UnparkToolBatchCommand) (observed_at_ms : N) : Admission Proposals :=
  _ ← require_open state;
  match overtaken_unpark_claim state command observed_at_ms with
  | Some message => mthrow (rejection CommandRejectionKind.Conflict message)
  | None => domain (unpark_tool_batch_proposals state command)
  end.

(** ** Approvals *)
(** Whether the decision carries exactly the response its continuation asks for. *)
Definition validate_approval_response (record : ApprovalRecord)
    (command : ApprovalDecisionCommand) : Admission unit :=
  let mismatch : Admission unit := mthrow (rejection CommandRejectionKind.Invalid
    "approval response context does not match the pending continuation") in
  match record.(ApprovalRecord.request).(ApprovalRequested.continuation) with
  | ApprovalContinuation.ProviderMcp provider_request_id =>
      match ContextEntryInput.kind <$> command.(ApprovalDecisionCommand.response) with
      | Some (ContextEntryKind.McpApprovalResponse approval_request_id approve) =>
          if bool_decide (approval_request_id = provider_request_id)
             && Bool.eqb approve (bool_decide (command.(ApprovalDecisionCommand.decision)
                                                 = ApprovalDecision.Approved))
          then mret tt else mismatch
      | _ => mismatch
      end
  | ApprovalContinuation.RuntimeMcp _ _ =>
      reject_if (is_some command.(ApprovalDecisionCommand.response))
        (rejection CommandRejectionKind.Invalid
           "runtime MCP approval decisions must not add provider response context")
  end.
(** The decision being admitted is the last one the run waits on. *)
Definition last_pending_decision (run : ActiveRun) : bool :=
  bool_decide (run.(ActiveRun.status) = RunStatus.Parked)
  && is_none run.(ActiveRun.parked_tool_batch)
  && (length (pending_approvals run) =? 1)%nat.
Definition decide_approval (state : CoreAgentState) (command : ApprovalDecisionCommand)
    : Admission Proposals :=
  let run_id := command.(ApprovalDecisionCommand.run_id) in
  let approval_id := command.(ApprovalDecisionCommand.approval_id) in
  let unknown message := rejection CommandRejectionKind.UnknownReference message in
  let of_run event := proposal (run_joins run_id) event in
  _ ← require_open state;
  _ ← rejecting (validate_note command.(ApprovalDecisionCommand.note));
  run ← ok_or (active_run_named state run_id) (unknown "run {} is not active");
  record ← ok_or (run.(ActiveRun.approvals) !! approval_id) (unknown "unknown approval {}");
  _ ← reject_if (bool_decide (record.(ApprovalRecord.request).(ApprovalRequested.run_id)
                                ≠ run_id))
        (unknown "approval {} does not belong to run {}");
  _ ← reject_if (bool_decide (record.(ApprovalRecord.status) ≠ ApprovalStatus.Pending))
        (rejection CommandRejectionKind.ApprovalAlreadyTerminal
           "approval {} is already terminal");
  _ ← reject_if (negb (running_or_parked run.(ActiveRun.status)))
        (rejection CommandRejectionKind.ActiveWork
           "approval decision does not target the accepting active run");
  _ ← validate_approval_response record command;
  entries ← domain match command.(ApprovalDecisionCommand.response) with
                   | Some response => context_entries_from_inputs state
                       [(None, ContextEntrySource.ApprovalDecision run_id approval_id, response)]
                   | None => mret []
                   end;
  mret ([of_run (CoreAgentEvent.Approval (ApprovalEvent.Decided approval_id run_id
           command.(ApprovalDecisionCommand.decision) command.(ApprovalDecisionCommand.note)
           command.(ApprovalDecisionCommand.decided_by)))]
        ++ (if last_pending_decision run
            then [of_run (CoreAgentEvent.Approval (ApprovalEvent.RunUnparked run_id))] else [])
        ++ (if bool_decide (entries = []) then []
            else [of_run (CoreAgentEvent.Context (ContextEvent.EntriesApplied
                    state.(CoreAgentState.context).(ContextState.revision) entries))])).

(** ** Promises and workflow tools *)
Definition resolution_event (promise_id : PromiseId) (resolution : PromiseResolution)
    : PromiseEvent :=
  match resolution with
  | PromiseResolution.Resolved payload_ref => PromiseEvent.Resolved promise_id payload_ref
  | PromiseResolution.Failed error_ref => PromiseEvent.Failed promise_id error_ref
  | PromiseResolution.Cancelled => PromiseEvent.Cancelled promise_id
  end.
(** The first writer wins; a late delivery, of a settled or a pruned promise, does nothing. *)
Definition resolve_promise (state : CoreAgentState) (promise_id : PromiseId)
    (resolution : PromiseResolution) : Admission Proposals :=
  match state.(CoreAgentState.promises).(PromiseComponentState.promises) !! promise_id with
  | None =>
      if promise_was_pruned state promise_id then mret []
      else mthrow (rejection CommandRejectionKind.UnknownReference "unknown promise {promise_id}")
  | Some promise =>
      if PromiseStatus_is_terminal promise.(Promise.status) then mret []
      else mret [session_event (CoreAgentEvent.Promise (resolution_event promise_id resolution))]
  end.

Definition is_unsettled_promise (state : CoreAgentState) (promise_id : PromiseId) : bool :=
  match state.(CoreAgentState.promises).(PromiseComponentState.promises) !! promise_id with
  | Some promise => negb (PromiseStatus_is_terminal promise.(Promise.status))
  | None => false
  end.
Definition fail_pending_completion_promises (state : CoreAgentState)
    (invocation : WorkflowToolInvocation) (error_ref : BlobRef) : Proposals :=
  (λ promise_id, session_event (CoreAgentEvent.Promise
     (PromiseEvent.Failed promise_id (Some error_ref))))
  <$> List.filter (is_unsettled_promise state) (completion_promise_ids invocation).
(** The first failure of an invocation wins: reporting it again does nothing, reporting
    another is a conflict. *)
Definition fail_invocation (state : CoreAgentState)
    (invocations : gmap WorkflowToolInvocationId WorkflowToolInvocation)
    (failures : gmap WorkflowToolInvocationId BlobRef)
    (event : WorkflowToolInvocationId → BlobRef → WorkflowToolEvent) (conflict : string)
    (invocation_id : WorkflowToolInvocationId) (error_ref : BlobRef) : Admission Proposals :=
  match invocations !! invocation_id with
  | None => mret []
  | Some invocation =>
      match failures !! invocation_id with
      | Some existing =>
          _ ← reject_if (bool_decide (existing ≠ error_ref))
                (rejection CommandRejectionKind.Conflict conflict);
          mret []
      | None =>
          mret (session_event (CoreAgentEvent.WorkflowTool (event invocation_id error_ref))
                :: fail_pending_completion_promises state invocation error_ref)
      end
  end.
Definition fail_workflow_tool_delivery (state : CoreAgentState)
    : WorkflowToolInvocationId → BlobRef → Admission Proposals :=
  let tools := state.(CoreAgentState.workflow_tools) in
  fail_invocation state tools.(WorkflowToolState.bound_invocations)
    tools.(WorkflowToolState.delivery_failures) WorkflowToolEvent.DeliveryFailed
    "workflow tool invocation {invocation_id} already has a different delivery failure".
Definition fail_workflow_tool_start (state : CoreAgentState)
    : WorkflowToolInvocationId → BlobRef → Admission Proposals :=
  let tools := state.(CoreAgentState.workflow_tools) in
  fail_invocation state tools.(WorkflowToolState.start_requests)
    tools.(WorkflowToolState.start_failures) WorkflowToolEvent.StartFailed
    "workflow tool start intent {invocation_id} already has a different terminal failure".

(** ** Context *)
Definition require_editable_context (state : CoreAgentState) : Admission unit :=
  _ ← require_open state;
  require_no_pending_compaction state
    "context cannot be edited while context compaction is pending".
Definition context_event (state : CoreAgentState) (event : N → ContextEvent)
    : CoreAgentEventProposal :=
  session_event (CoreAgentEvent.Context
    (event state.(CoreAgentState.context).(ContextState.revision))).
Definition edit_input (item : ContextEntryKey * ContextEntryInput) : ContextInput :=
  (Some item.1, ContextEntrySource.ContextEdit, item.2).

Definition replacement_entry (state : CoreAgentState) (entry_id : ContextEntryId)
    (input : ContextEntryInput) : option ContextEntry :=
  active ← entry_by_id state entry_id;
  Some (commit input entry_id active.(ContextEntry.key) active.(ContextEntry.source)
          active.(ContextEntry.supersedes)).
Definition catalog_metadata_replacement (state : CoreAgentState) (key : ContextEntryKey)
    (input : ContextEntryInput) : option ContextEntry :=
  current ← current_key_entry state key;
  if negb (is_supersedable_catalog_kind current.(ContextEntry.kind))
     || bool_decide (current.(ContextEntry.kind) ≠ input.(ContextEntryInput.kind))
     || bool_decide (current.(ContextEntry.content) ≠ input.(ContextEntryInput.content))
  then None else replacement_entry state current.(ContextEntry.entry_id) input.

Definition upsert_context (state : CoreAgentState) (expected_revision : option N)
    (key : ContextEntryKey) (entry : ContextEntryInput) : Admission Proposals :=
  _ ← require_editable_context state;
  _ ← rejecting (validate_external_context_edit key entry);
  _ ← validate_expected_context_revision state expected_revision;
  if context_upsert_is_noop state key entry then mret [] else
  match catalog_metadata_replacement state key entry with
  | Some replacement =>
      mret [context_event state (λ base, ContextEvent.EntriesReplaced base [replacement])]
  | None =>
      entries ← domain (context_entries_from_inputs state [edit_input (key, entry)]);
      mret [context_event state (λ base, ContextEvent.EntriesApplied base entries)]
  end.
Definition replace_context_prefix (state : CoreAgentState) (expected_revision : option N)
    (key_prefix : ContextEntryKey) (entries : gmap ContextEntryKey ContextEntryInput)
    : Admission Proposals :=
  _ ← require_editable_context state;
  _ ← rejecting (validate_external_context_prefix_replacement key_prefix entries);
  _ ← validate_expected_context_revision state expected_revision;
  if context_prefix_replacement_is_noop state key_prefix entries then mret [] else
  entries ← domain (context_entries_from_inputs state (edit_input <$> btree_to_list entries));
  mret [context_event state (λ base, ContextEvent.KeyPrefixReplaced base key_prefix entries)].
Definition remove_context (state : CoreAgentState) (expected_revision : option N)
    (key : ContextEntryKey) : Admission Proposals :=
  _ ← require_editable_context state;
  _ ← rejecting (validate_external_context_key key);
  _ ← validate_expected_context_revision state expected_revision;
  _ ← map_err unknown_reference_rejection_from_domain (validate_context_key_exists state key);
  mret [context_event state (λ base, ContextEvent.KeysRemoved base [key])].

(** The replacements of entries the session holds, in id order, without the identical ones. *)
Fixpoint admitted_replacements (state : CoreAgentState)
    (entries : list (ContextEntryId * ContextEntryInput)) : Admission (list ContextEntry) :=
  match entries with
  | [] => mret []
  | (entry_id, input) :: entries =>
      match replacement_entry state entry_id input with
      | None => admitted_replacements state entries
      | Some entry =>
          if bool_decide (entry_by_id state entry_id = Some entry)
          then admitted_replacements state entries
          else
            _ ← rejecting (validate_entry_replacement state entry);
            replaced ← admitted_replacements state entries;
            mret (entry :: replaced)
      end
  end.
Definition replace_context_entries (state : CoreAgentState) (expected_revision : option N)
    (entries : gmap ContextEntryId ContextEntryInput) : Admission Proposals :=
  _ ← require_editable_context state;
  _ ← reject_if (is_some (active_run state))
        (rejection CommandRejectionKind.ActiveWork
           "context entries cannot be replaced while a run is active");
  _ ← validate_expected_context_revision state expected_revision;
  replaced ← admitted_replacements state (btree_to_list entries);
  if bool_decide (replaced = []) then mret []
  else mret [context_event state (λ base, ContextEvent.EntriesReplaced base replaced)].
Definition compact_context (state : CoreAgentState) : Admission Proposals :=
  _ ← require_open state;
  _ ← reject_if (is_pending (compaction_state state) || is_queued (compaction_state state))
        (rejection CommandRejectionKind.ActiveWork "context compaction is already pending");
  _ ← reject_if (bool_decide (standalone_prefix_ids state = []))
        (rejection CommandRejectionKind.Refused "no older compactable context is available");
  mret [manual_compaction_requested_proposal state].

(** ** Tools and environment *)
Definition replace_tools (state : CoreAgentState) (expected_revision : option N)
    (tools : gmap ToolId ToolSpec) : Admission Proposals :=
  _ ← require_open state;
  _ ← require_tools_not_frozen state;
  _ ← validate_expected_tool_revision state expected_revision;
  _ ← rejecting (validate_tool_map tools);
  mret [session_event (CoreAgentEvent.ToolConfig (ToolConfigEvent.ToolsReplaced
          state.(CoreAgentState.tooling).(ToolingState.revision) tools))].
Definition patch_tools (state : CoreAgentState) (expected_revision : option N)
    (patch : ToolPatch) : Admission Proposals :=
  _ ← require_open state;
  _ ← require_tools_not_frozen state;
  _ ← validate_expected_tool_revision state expected_revision;
  if ToolPatch_is_empty patch then mret [] else
  _ ← rejecting (apply_to patch state.(CoreAgentState.tooling).(ToolingState.tools));
  mret [session_event (CoreAgentEvent.ToolConfig (ToolConfigEvent.ToolsPatched
          state.(CoreAgentState.tooling).(ToolingState.revision) patch))].
Definition active_environment (state : CoreAgentState) : option EnvironmentId :=
  state.(CoreAgentState.environment).(EnvironmentState.active_environment_id).
Definition set_active_environment (state : CoreAgentState) (environment_id : EnvironmentId)
    : Admission Proposals :=
  _ ← require_open state;
  environments ← ok_or (session_features state ≫= FeaturesConfig.environments)
    (rejection CommandRejectionKind.Invalid
       "active environment requires the environments feature");
  _ ← reject_if (negb (is_attached environments environment_id))
        (rejection CommandRejectionKind.Invalid
           "environment {environment_id} is not attached to this session");
  if bool_decide (active_environment state = Some environment_id) then mret []
  else mret [session_event (CoreAgentEvent.Environment
               (EnvironmentEvent.ActiveEnvironmentSet environment_id))].
Definition clear_active_environment (state : CoreAgentState) : Admission Proposals :=
  _ ← require_open state;
  if is_none (active_environment state) then mret []
  else mret [session_event (CoreAgentEvent.Environment
               EnvironmentEvent.ActiveEnvironmentCleared)].

(** ** Closing *)
Definition is_session_promise (promise : Promise) : bool :=
  bool_decide (promise.(Promise.scope) = PromiseScope.Session).
Definition session_promises (state : CoreAgentState) : list Promise :=
  List.filter is_session_promise
    (PromiseComponentState_pending state.(CoreAgentState.promises)).
Definition open_compaction (state : CoreAgentState) : bool :=
  is_pending (compaction_state state) || is_queued (compaction_state state).
(** What a forced close ends before the session is closed. *)
Definition ending_events (state : CoreAgentState) : Proposals :=
  (if open_compaction state then [compaction_abandoned_proposal state] else [])
  ++ match active_run state with
     | Some run => pending_approval_cancellations run
                   ++ [run_event run.(ActiveRun.run_id)
                         (RunEvent.ForceCancelled run.(ActiveRun.run_id))]
     | None => []
     end
  ++ ((λ queued, run_event queued.(AcceptedRun.run_id)
         (RunEvent.QueuedCancelled queued.(AcceptedRun.run_id) None))
        <$> state.(CoreAgentState.runs).(RunsState.queued))
  ++ ((λ promise, session_event (CoreAgentEvent.Promise
         (PromiseEvent.Cancelled promise.(Promise.promise_id)))) <$> session_promises state).
Definition close_session (state : CoreAgentState) (force : bool) : Admission Proposals :=
  if force && bool_decide (state.(CoreAgentState.lifecycle).(LifecycleState.status)
                             = CoreAgentStatus.Closed)
  then mret [] else
  _ ← require_open state;
  _ ← reject_if (negb force && (is_some (active_run state) || has_queued_runs state
                                || open_compaction state
                                || negb (bool_decide (session_promises state = []))))
        (rejection CommandRejectionKind.ActiveWork "session cannot close with active work");
  mret ((if force then ending_events state else [])
        ++ [session_event (CoreAgentEvent.Lifecycle CoreAgentLifecycleEvent.Closed)]).

(** ** Every command *)
Definition admit_command (state : CoreAgentState) (command : CoreAgentCommand)
    (observed_at_ms : N) : Admission Proposals :=
  match command with
  | CoreAgentCommand.OpenCodeToolScope scope =>
      rejecting (open_code_tool_scope_proposals state scope)
  | CoreAgentCommand.AdmitCodeToolCall call =>
      rejecting (admit_code_tool_call_proposals state call)
  | CoreAgentCommand.CompleteCodeToolCall origin result =>
      rejecting (complete_code_tool_call_proposals state origin result)
  | CoreAgentCommand.DeferCodeToolCall origin spec =>
      rejecting (defer_code_tool_call_proposals state origin spec)
  | CoreAgentCommand.ResumeCodeToolCall origin result claim_observed_at_ms =>
      rejecting (resume_code_tool_call_proposals state origin result claim_observed_at_ms
                   observed_at_ms)
  | CoreAgentCommand.CloseCodeToolScope execution_id =>
      rejecting (close_code_tool_scope_proposals state execution_id)
  | CoreAgentCommand.OpenSession config => open_session state config
  | CoreAgentCommand.OpenDeclaredSession config session_universe_id workflow_tools =>
      open_declared_session state config session_universe_id workflow_tools
  | CoreAgentCommand.AdmitSystemWorkflowTool session_universe_id declaration =>
      admit_system_workflow_tool state session_universe_id declaration
  | CoreAgentCommand.ReplaceSessionConfig expected_revision config =>
      replace_session_config state expected_revision config
  | CoreAgentCommand.RequestRun request => request_run state request
  | CoreAgentCommand.UpsertContext expected_revision key entry =>
      upsert_context state expected_revision key entry
  | CoreAgentCommand.ReplaceContextPrefix expected_revision key_prefix entries =>
      replace_context_prefix state expected_revision key_prefix entries
  | CoreAgentCommand.RemoveContext expected_revision key =>
      remove_context state expected_revision key
  | CoreAgentCommand.ReplaceContextEntries expected_revision entries =>
      replace_context_entries state expected_revision entries
  | CoreAgentCommand.CompactContext => compact_context state
  | CoreAgentCommand.CloseSession force => close_session state force
  | CoreAgentCommand.RequestRunSteering run_id submission_id input requested_by =>
      request_run_steering state run_id submission_id input requested_by
  | CoreAgentCommand.CancelRun run_id requested_by => cancel_run state run_id requested_by
  | CoreAgentCommand.DecideApproval command => decide_approval state command
  | CoreAgentCommand.ResolvePromise promise_id resolution =>
      resolve_promise state promise_id resolution
  | CoreAgentCommand.FailWorkflowToolDelivery invocation_id error_ref =>
      fail_workflow_tool_delivery state invocation_id error_ref
  | CoreAgentCommand.FailWorkflowToolStart invocation_id error_ref =>
      fail_workflow_tool_start state invocation_id error_ref
  | CoreAgentCommand.ForceCancelRun run_id => force_cancel_run state run_id
  | CoreAgentCommand.FailRun run_id message_ref => fail_run state run_id message_ref
  | CoreAgentCommand.UnparkToolBatch command =>
      unpark_tool_batch_command state command observed_at_ms
  | CoreAgentCommand.ReplaceTools expected_revision tools =>
      replace_tools state expected_revision tools
  | CoreAgentCommand.PatchTools expected_revision patch =>
      patch_tools state expected_revision patch
  | CoreAgentCommand.SetActiveEnvironment environment_id =>
      set_active_environment state environment_id
  | CoreAgentCommand.ClearActiveEnvironment => clear_active_environment state
  end.
End admission.
