(* ===== verification/Codec.v ===== *)
(** * The stored form of an entry

    The log stores an event as a JSON payload in an envelope with a kind and a schema
    version, and its joins as a map of strings ([core/codec.rs], [session/]). A log cannot
    hold U+0000, so encoding replaces it. *)
From Stdlib Require Import Ascii.
From S2P Require Import Prelude Ids Text Types Events.
Set Primitive Projections.

(** ** JSON values, [serde_json::Value] *)
Module Value.
Inductive Value : Type :=
| Null
| Bool (b : bool)
| Number (text : string)
| String (s : string)
| Array (values : list Value)
| Object (fields : list (string * Value)).
End Value.
Abbreviation Value := Value.Value.

Section value_ind.
Variable P : Value → Prop.
Hypothesis Hnull : P Value.Null.
Hypothesis Hbool : ∀ b, P (Value.Bool b).
Hypothesis Hnumber : ∀ t, P (Value.Number t).
Hypothesis Hstring : ∀ s, P (Value.String s).
Hypothesis Harray : ∀ values, Forall P values → P (Value.Array values).
Hypothesis Hobject : ∀ fields, Forall (λ field, P field.2) fields → P (Value.Object fields).
(** Induction that reaches the values inside arrays and objects. *)
Fixpoint value_ind (v : Value) : P v :=
  match v with
  | Value.Null => Hnull
  | Value.Bool b => Hbool b
  | Value.Number t => Hnumber t
  | Value.String s => Hstring s
  | Value.Array values =>
      Harray values ((fix go l : Forall P l :=
        match l with
        | [] => @List.Forall_nil _ _
        | v :: l => @List.Forall_cons _ _ v l (value_ind v) (go l)
        end) values)
  | Value.Object fields =>
      Hobject fields ((fix go l : Forall (λ field, P field.2) l :=
        match l with
        | [] => @List.Forall_nil _ _
        | f :: l => @List.Forall_cons _ _ f l (value_ind f.2) (go l)
        end) fields)
  end.
End value_ind.

(** Serialization of events is derived by [serde] and not part of the repository. *)
Class EventJson := {
  to_value : CoreAgentEvent → option Value;
  from_value : Value → option CoreAgentEvent;
  (** The derived implementations read back what they wrote. *)
  from_to_value : ∀ event payload, to_value event = Some payload → from_value payload = Some event;
}.

(** ** U+0000 *)
Definition NUL : ascii := "000"%char.
(** The UTF-8 encoding of U+FFFD. *)
Definition replacement_character : list ascii :=
  [ascii_of_N 239; ascii_of_N 191; ascii_of_N 189].
Definition contains_nul (s : string) : bool := existsb (Ascii.eqb NUL) (chars s).
Definition replace_nul (s : string) : string :=
  of_chars (flat_map (λ c, if Ascii.eqb NUL c then replacement_character else [c]) (chars s)).

(** Collecting fields into an object: of two fields of the same key the later one stays. *)
Definition object_insert {A} (fields : list (string * A)) (field : string * A)
    : list (string * A) :=
  filter (λ f, f.1 ≠ field.1) fields ++ [field].
Definition collect_object {A} (fields : list (string * A)) : list (string * A) :=
  foldl object_insert [] fields.

Fixpoint replace_nul_in_json (v : Value) : Value :=
  match v with
  | Value.String s => Value.String (if contains_nul s then replace_nul s else s)
  | Value.Array values => Value.Array (map replace_nul_in_json values)
  | Value.Object fields =>
      let fields := map (λ f, (f.1, replace_nul_in_json f.2)) fields in
      Value.Object (if existsb (λ f, contains_nul f.1) fields
                    then collect_object (map (λ f, (replace_nul f.1, f.2)) fields)
                    else fields)
  | v => v
  end.

(** ** Stored events and joins *)
Module StoredEvent.
Record StoredEvent : Type := { kind : string; version : N; payload : Value; }.
End StoredEvent.
Abbreviation StoredEvent := StoredEvent.StoredEvent.
Abbreviation StoredJoins := (gmap string string).

(** [SessionEntry] and [UncommittedSessionEvent] of stored events. *)
Module StoredSessionEntry.
Record StoredSessionEntry : Type := {
  position : SessionPosition; observed_at_ms : N; joins : StoredJoins; event : StoredEvent;
}.
End StoredSessionEntry.
Abbreviation StoredSessionEntry := StoredSessionEntry.StoredSessionEntry.
Module UncommittedStoredEvent.
Record UncommittedStoredEvent : Type := {
  observed_at_ms : N; joins : StoredJoins; event : StoredEvent;
}.
End UncommittedStoredEvent.
Abbreviation UncommittedStoredEvent := UncommittedStoredEvent.UncommittedStoredEvent.
Module UncommittedCoreAgentEvent.
Record UncommittedCoreAgentEvent : Type := {
  observed_at_ms : N; joins : CoreAgentJoins; event : CoreAgentEvent;
}.
End UncommittedCoreAgentEvent.
Abbreviation UncommittedCoreAgentEvent := UncommittedCoreAgentEvent.UncommittedCoreAgentEvent.
Definition into_uncommitted (self : CoreAgentEventProposal) (observed_at_ms : N)
    : UncommittedCoreAgentEvent :=
  {| UncommittedCoreAgentEvent.observed_at_ms := observed_at_ms;
     UncommittedCoreAgentEvent.joins := self.(CoreAgentEventProposal.joins);
     UncommittedCoreAgentEvent.event := self.(CoreAgentEventProposal.event) |}.

Module CodecError.
Inductive CodecError : Type :=
| Unsupported (kind : string) (version : N)
| Failed (message : string).
End CodecError.
Abbreviation CodecError := CodecError.CodecError.

(** ** Joins *)
Definition insert_join (key : string) (value : option string) (joins : StoredJoins)
    : StoredJoins :=
  match value with Some value => <[key := value]> joins | None => joins end.
Definition encode_joins (joins : CoreAgentJoins) : StoredJoins :=
  insert_join "submission_id" joins.(CoreAgentJoins.submission_id)
  (insert_join "tool_call_id" joins.(CoreAgentJoins.tool_call_id)
  (insert_join "tool_batch_id" (u64_to_string <$> joins.(CoreAgentJoins.tool_batch_id))
  (insert_join "turn_id" (u64_to_string <$> joins.(CoreAgentJoins.turn_id))
  (insert_join "run_id" (u64_to_string <$> joins.(CoreAgentJoins.run_id)) ∅)))).

(** [Option::transpose] after [map]. *)
Definition parse_join {A} (joins : StoredJoins) (key : string)
    (parse : string → Result CodecError A) : Result CodecError (option A) :=
  match joins !! key with
  | Some value => Some <$> parse value
  | None => mret None
  end.
Definition parse_numeric (joins : StoredJoins) (key : string)
    : Result CodecError (option N) :=
  parse_join joins key (λ value,
    ok_or (parse_u64 value) (CodecError.Failed "invalid stored join {key}: {error}")).
Definition parse_string_id (joins : StoredJoins) (key kind : string)
    : Result CodecError (option string) :=
  parse_join joins key (λ value,
    _ ← map_err (λ _, CodecError.Failed "invalid stored join {key}: {error}")
          (validate_general_string_id kind value);
    mret value).
Definition decode_joins (joins : StoredJoins) : Result CodecError CoreAgentJoins :=
  run_id ← parse_numeric joins "run_id";
  turn_id ← parse_numeric joins "turn_id";
  tool_batch_id ← parse_numeric joins "tool_batch_id";
  tool_call_id ← parse_string_id joins "tool_call_id" "ToolCallId";
  submission_id ← parse_string_id joins "submission_id" "SubmissionId";
  mret {| CoreAgentJoins.run_id := run_id; CoreAgentJoins.turn_id := turn_id;
          CoreAgentJoins.tool_batch_id := tool_batch_id;
          CoreAgentJoins.tool_call_id := tool_call_id;
          CoreAgentJoins.submission_id := submission_id |}.

(** ** Envelope kinds *)
Definition CORE_AGENT_EVENT_KIND_PREFIX : string := "lightspeed.core.".
Definition CORE_AGENT_SCHEMA_VERSION : N := 1.


Definition CoreAgentLifecycleEvent_kind (event : CoreAgentLifecycleEvent) : string :=
  match event with
  | CoreAgentLifecycleEvent.Opened _ => "lightspeed.core.lifecycle.opened"
  | CoreAgentLifecycleEvent.ConfigChanged _ _ => "lightspeed.core.lifecycle.config_changed"
  | CoreAgentLifecycleEvent.Closed => "lightspeed.core.lifecycle.closed"
  end.

Definition RunEvent_kind (event : RunEvent) : string :=
  match event with
  | RunEvent.Accepted _ => "lightspeed.core.run.accepted"
  | RunEvent.Started _ => "lightspeed.core.run.started"
  | RunEvent.SteeringAccepted _ _ _ _ _ => "lightspeed.core.run.steering_accepted"
  | RunEvent.CancellationRequested _ _ => "lightspeed.core.run.cancellation_requested"
  | RunEvent.Completed _ _ => "lightspeed.core.run.completed"
  | RunEvent.Failed _ _ => "lightspeed.core.run.failed"
  | RunEvent.Cancelled _ => "lightspeed.core.run.cancelled"
  | RunEvent.ForceCancelled _ => "lightspeed.core.run.force_cancelled"
  | RunEvent.QueuedCancelled _ _ => "lightspeed.core.run.queued_cancelled"
  end.

Definition ApprovalEvent_kind (event : ApprovalEvent) : string :=
  match event with
  | ApprovalEvent.Requested _ => "lightspeed.core.approval.requested"
  | ApprovalEvent.RunParked _ => "lightspeed.core.approval.run_parked"
  | ApprovalEvent.RunUnparked _ => "lightspeed.core.approval.run_unparked"
  | ApprovalEvent.Decided _ _ _ _ _ => "lightspeed.core.approval.decided"
  | ApprovalEvent.Cancelled _ _ => "lightspeed.core.approval.cancelled"
  end.

Definition TurnEvent_kind (event : TurnEvent) : string :=
  match event with
  | TurnEvent.Started _ _ => "lightspeed.core.turn.started"
  | TurnEvent.Planned _ _ _ _ _ _ => "lightspeed.core.turn.planned"
  | TurnEvent.GenerationRequested _ _ => "lightspeed.core.turn.generation_requested"
  | TurnEvent.GenerationCompleted _ _ _ _ => "lightspeed.core.turn.generation_completed"
  | TurnEvent.Completed _ _ => "lightspeed.core.turn.completed"
  | TurnEvent.Cancelled _ _ => "lightspeed.core.turn.cancelled"
  end.

Definition ContextEvent_kind (event : ContextEvent) : string :=
  match event with
  | ContextEvent.EntriesApplied _ _ => "lightspeed.core.context.entries_applied"
  | ContextEvent.EntriesRemoved _ _ _ => "lightspeed.core.context.entries_removed"
  | ContextEvent.EntriesReplaced _ _ => "lightspeed.core.context.entries_replaced"
  | ContextEvent.KeysRemoved _ _ => "lightspeed.core.context.keys_removed"
  | ContextEvent.KeyPrefixReplaced _ _ _ => "lightspeed.core.context.key_prefix_replaced"
  | ContextEvent.CompactionQueued _ => "lightspeed.core.context.compaction_queued"
  | ContextEvent.CompactionRequested _ _ _ => "lightspeed.core.context.compaction_requested"
  | ContextEvent.CompactionFinished _ _ _ _ _ => "lightspeed.core.context.compaction_finished"
  end.

Definition EnvironmentEvent_kind (event : EnvironmentEvent) : string :=
  match event with
  | EnvironmentEvent.ActiveEnvironmentSet _ => "lightspeed.core.environment.active_set"
  | EnvironmentEvent.ActiveEnvironmentCleared => "lightspeed.core.environment.active_cleared"
  end.

Definition ToolConfigEvent_kind (event : ToolConfigEvent) : string :=
  match event with
  | ToolConfigEvent.ToolsReplaced _ _ => "lightspeed.core.tool_config.tools_replaced"
  | ToolConfigEvent.ToolsPatched _ _ => "lightspeed.core.tool_config.tools_patched"
  end.

Definition ToolEvent_kind (event : ToolEvent) : string :=
  match event with
  | ToolEvent.BatchStarted _ _ _ _ _ => "lightspeed.core.tool.batch_started"
  | ToolEvent.CallStarted _ _ _ _ _ _ => "lightspeed.core.tool.call_started"
  | ToolEvent.CallCompleted _ _ _ _ => "lightspeed.core.tool.call_completed"
  | ToolEvent.BatchParked _ _ _ _ => "lightspeed.core.tool.batch_parked"
  | ToolEvent.BatchUnparked _ _ _ => "lightspeed.core.tool.batch_unparked"
  | ToolEvent.BatchCompleted _ _ _ => "lightspeed.core.tool.batch_completed"
  end.

Definition PromiseEvent_kind (event : PromiseEvent) : string :=
  match event with
  | PromiseEvent.Created _ => "lightspeed.core.promise.created"
  | PromiseEvent.Resolved _ _ => "lightspeed.core.promise.resolved"
  | PromiseEvent.Failed _ _ => "lightspeed.core.promise.failed"
  | PromiseEvent.Cancelled _ => "lightspeed.core.promise.cancelled"
  | PromiseEvent.Detached _ => "lightspeed.core.promise.detached"
  end.

Definition WorkflowToolConfigEvent_kind (event : WorkflowToolConfigEvent) : string :=
  match event with
  | WorkflowToolConfigEvent.DeclaredBindingsAdmitted _ _ _ _ _ => "lightspeed.core.workflow_tool_config.declared_bindings_admitted"
  | WorkflowToolConfigEvent.SystemBindingAdmitted _ => "lightspeed.core.workflow_tool_config.system_binding_admitted"
  end.

Definition CodeToolEvent_kind (event : CodeToolEvent) : string :=
  match event with
  | CodeToolEvent.ScopeOpened _ => "lightspeed.core.code_tool.scope_opened"
  | CodeToolEvent.CallAdmitted _ _ => "lightspeed.core.code_tool.call_admitted"
  | CodeToolEvent.CallCompleted _ _ => "lightspeed.core.code_tool.call_completed"
  | CodeToolEvent.CallDeferred _ _ => "lightspeed.core.code_tool.call_deferred"
  | CodeToolEvent.ScopeClosed _ => "lightspeed.core.code_tool.scope_closed"
  end.

Definition WorkflowToolEvent_kind (event : WorkflowToolEvent) : string :=
  match event with
  | WorkflowToolEvent.Invoked _ => "lightspeed.core.workflow_tool.invoked"
  | WorkflowToolEvent.DeliveryFailed _ _ => "lightspeed.core.workflow_tool.delivery_failed"
  | WorkflowToolEvent.StartRequested _ _ => "lightspeed.core.workflow_tool.start_requested"
  | WorkflowToolEvent.StartFailed _ _ => "lightspeed.core.workflow_tool.start_failed"
  end.

Definition core_agent_event_envelope_kind (event : CoreAgentEvent) : string :=
  match event with
  | CoreAgentEvent.Lifecycle event => CoreAgentLifecycleEvent_kind event
  | CoreAgentEvent.Run event => RunEvent_kind event
  | CoreAgentEvent.Approval event => ApprovalEvent_kind event
  | CoreAgentEvent.Turn event => TurnEvent_kind event
  | CoreAgentEvent.Context event => ContextEvent_kind event
  | CoreAgentEvent.Environment event => EnvironmentEvent_kind event
  | CoreAgentEvent.ToolConfig event => ToolConfigEvent_kind event
  | CoreAgentEvent.Tool event => ToolEvent_kind event
  | CoreAgentEvent.Promise event => PromiseEvent_kind event
  | CoreAgentEvent.WorkflowToolConfig event => WorkflowToolConfigEvent_kind event
  | CoreAgentEvent.CodeTool event => CodeToolEvent_kind event
  | CoreAgentEvent.WorkflowTool event => WorkflowToolEvent_kind event
  end.

(** The kinds a pruned run's record is rebuilt from. *)
Definition RUN_RECORD_KINDS : list string :=
  ["lightspeed.core.run.accepted";
   "lightspeed.core.run.started";
   "lightspeed.core.run.completed";
   "lightspeed.core.run.failed";
   "lightspeed.core.run.cancelled";
   "lightspeed.core.run.force_cancelled";
   "lightspeed.core.run.queued_cancelled"].

Definition ensure_core_agent_event_envelope (kind : string) (version : N)
    : Result CodecError unit :=
  reject_if (negb ((version =? CORE_AGENT_SCHEMA_VERSION)%N
                   && starts_with CORE_AGENT_EVENT_KIND_PREFIX kind))
    (CodecError.Unsupported kind version).

(** ** Events and entries *)
Section codec.
Context `{!EventJson}.

Definition encode_event (event : CoreAgentEvent) : Result CodecError StoredEvent :=
  payload ← ok_or (to_value event) (CodecError.Failed "{error}");
  mret {| StoredEvent.kind := core_agent_event_envelope_kind event;
          StoredEvent.version := CORE_AGENT_SCHEMA_VERSION;
          StoredEvent.payload := replace_nul_in_json payload |}.
Definition decode_event (event : StoredEvent) : Result CodecError CoreAgentEvent :=
  _ ← ensure_core_agent_event_envelope event.(StoredEvent.kind) event.(StoredEvent.version);
  ok_or (from_value event.(StoredEvent.payload)) (CodecError.Failed "{error}").

Definition encode_entry (entry : CoreAgentEntry) : Result CodecError StoredSessionEntry :=
  event ← encode_event entry.(CoreAgentEntry.event);
  mret {| StoredSessionEntry.position := entry.(CoreAgentEntry.position);
          StoredSessionEntry.observed_at_ms := entry.(CoreAgentEntry.observed_at_ms);
          StoredSessionEntry.joins := encode_joins entry.(CoreAgentEntry.joins);
          StoredSessionEntry.event := event |}.
Definition decode_entry (entry : StoredSessionEntry) : Result CodecError CoreAgentEntry :=
  joins ← decode_joins entry.(StoredSessionEntry.joins);
  event ← decode_event entry.(StoredSessionEntry.event);
  mret {| CoreAgentEntry.position := entry.(StoredSessionEntry.position);
          CoreAgentEntry.observed_at_ms := entry.(StoredSessionEntry.observed_at_ms);
          CoreAgentEntry.joins := joins;
          CoreAgentEntry.event := event |}.
Definition encode_uncommitted (event : UncommittedCoreAgentEvent)
    : Result CodecError UncommittedStoredEvent :=
  stored ← encode_event event.(UncommittedCoreAgentEvent.event);
  mret {| UncommittedStoredEvent.observed_at_ms :=
            event.(UncommittedCoreAgentEvent.observed_at_ms);
          UncommittedStoredEvent.joins := encode_joins event.(UncommittedCoreAgentEvent.joins);
          UncommittedStoredEvent.event := stored |}.
End codec.
