(* ===== verification/BlobRoots.v ===== *)
(** * The blobs an event holds

    A blob root stops the collector deleting a blob the log points at. The roots of an
    event are the blob references its serializer passes through; a reference in a plain
    string would hold nothing, which every append to the in-memory store checks
    ([storage/blob_roots.rs]). *)
From S2P Require Import Prelude Ids Text Types Events RunState Codec.
Set Primitive Projections.

(** ** What a value hands to its serializer

    The data model of [serde], by the way the walk treats each of its cases: a scalar, a
    string, an optional value, the content of a newtype struct of a given name, the content
    of a newtype variant, the elements or fields of a compound, the entries of a map. *)
Module Serialized.
Inductive Serialized : Type :=
| Scalar
| Str (text : string)
| Some (value : Serialized)
| NewtypeStruct (name : string) (value : Serialized)
| NewtypeVariant (value : Serialized)
| Compound (values : list Serialized)
| Map (entries : list (Serialized * Serialized)).
End Serialized.
Abbreviation Serialized := Serialized.Serialized.

(** The implementations of [Serialize] are derived and not part of the repository. *)
Class EventSerialize := { serialize_event : CoreAgentEvent → Serialized }.

Definition BLOB_REF_NEWTYPE : string := "lightspeed::BlobRef".

(** ** The typed walk *)
Module RefCollector.
Record RefCollector : Type := { refs : gset BlobRef; in_blob_ref : bool; }.
End RefCollector.
Abbreviation RefCollector := RefCollector.RefCollector.
#[export] Instance set_RefCollector_refs : Setter RefCollector.refs :=
  ltac:(solve_setter RefCollector.refs).
#[export] Instance set_RefCollector_in_blob_ref : Setter RefCollector.in_blob_ref :=
  ltac:(solve_setter RefCollector.in_blob_ref).
Definition Walking (A : Type) : Type := Reducer RefCollector string A.

(** [std::mem::take] of the flag, then the string inside a reference is parsed. *)
Definition serialize_str (text : string) : Walking unit :=
  self ← get_state;
  _ ← modify_state (λ self, self <| RefCollector.in_blob_ref := false |>);
  if self.(RefCollector.in_blob_ref) then
    blob_ref ← lift_result (ok_or (BlobRef_parse text)
      "blob ref must use sha256:<64 lowercase hex> format: {value}");
    modify_state (λ self, self <| RefCollector.refs ::= λ refs, {[ blob_ref ]} ∪ refs |>)
  else mret tt.
Fixpoint serialize (value : Serialized) : Walking unit :=
  match value with
  | Serialized.Scalar => mret tt
  | Serialized.Str text => serialize_str text
  | Serialized.Some value | Serialized.NewtypeVariant value => serialize value
  | Serialized.NewtypeStruct name value =>
      _ ← modify_state (λ self, self <| RefCollector.in_blob_ref :=
            bool_decide (name = BLOB_REF_NEWTYPE) |>);
      serialize value
  | Serialized.Compound values => for_each serialize values
  | Serialized.Map entries =>
      for_each (λ entry, _ ← serialize entry.1; serialize entry.2) entries
  end.
Definition typed_blob_refs (value : Serialized) : Result string (gset BlobRef) :=
  match serialize value {| RefCollector.refs := ∅; RefCollector.in_blob_ref := false |} with
  | (Ok _, collector) => Ok collector.(RefCollector.refs)
  | (Err error, _) => Err error
  end.

(** ** The scan by shape *)
(** String fields where a digest is someone's text, named by the end of their path. *)
Definition FREE_TEXT_PATHS : list (list string) :=
  [["preview"]; ["submission_id"]; ["source"; "id"]].
Definition is_free_text (path : list string) : bool :=
  existsb (λ free_text, bool_decide (free_text `suffix_of` path)) FREE_TEXT_PATHS.
(** Every string shaped like a reference, with its path. *)
Fixpoint scan_ref_shapes (value : Value) (path : list string)
    : list (list string * BlobRef) :=
  match value with
  | Value.String text =>
      match BlobRef_parse text with Some blob_ref => [(path, blob_ref)] | None => [] end
  | Value.Array values => flat_map (λ value, scan_ref_shapes value path) values
  | Value.Object fields =>
      flat_map (λ field, scan_ref_shapes field.2 (path ++ [field.1])) fields
  | Value.Null | Value.Bool _ | Value.Number _ => []
  end.

Section blob_roots.
Context `{!EventJson, !EventSerialize}.

(** Refused events are [DataRejected], with a message. *)
Definition event_blob_roots (event : StoredEvent) : Result string (gset BlobRef) :=
  decoded ← map_err (λ _, "session event {}: {error}") (decode_event event);
  map_err (λ _, "session event {}: {error}") (typed_blob_refs (serialize_event decoded)).
Definition missed_refs (event : StoredEvent) (typed : gset BlobRef)
    : list (list string * BlobRef) :=
  filter (λ found, is_free_text found.1 = false ∧ found.2 ∉ typed)
    (scan_ref_shapes event.(StoredEvent.payload) []).
Definition check_typed_walk_sees_every_ref (event : StoredEvent) : Result string unit :=
  typed ← event_blob_roots event;
  reject_if (negb (bool_decide (missed_refs event typed = [])))
    "session event {} holds refs in plain strings, where they would retain nothing: {}".
End blob_roots.

(** * Cloning a session

    The events a config-only clone of a session opens with, taken from the reduced state of
    its source ([core/session_graph.rs]). *)

Module CoreAgentCloneError.
Inductive CoreAgentCloneError : Type :=
| MissingConfig
| Codec (error : CodecError)
| IncompleteDeclaredWorkflowTools
| LifecycleControlledSession.
End CoreAgentCloneError.
Abbreviation CoreAgentCloneError := CoreAgentCloneError.CoreAgentCloneError.
Abbreviation CloneResult := (Result CoreAgentCloneError) (only parsing).

Section clone.
Implicit Types (tools : WorkflowToolState) (state : CoreAgentState).

Definition is_system_binding tools (tool_id : WorkflowToolId) : bool :=
  bool_decide (tool_id ∈ tools.(WorkflowToolState.system_binding_ids)).
Definition has_non_system_bindings tools : bool :=
  existsb (λ tool_id, negb (is_system_binding tools tool_id))
    (btree_keys tools.(WorkflowToolState.bindings)).
(** The declared bindings, without those the system admitted. *)
Definition declared_bindings tools : list WorkflowToolBinding :=
  (filter (λ entry, is_system_binding tools entry.1 = false)
     (btree_to_list tools.(WorkflowToolState.bindings))).*2.
(** The declaration of the source, or none when it never made one. *)
Definition declaration_event tools : CloneResult (list CoreAgentEvent) :=
  match tools.(WorkflowToolState.session_universe_id) with
  | Some session_universe_id =>
      declaration_version ← ok_or tools.(WorkflowToolState.declaration_version)
        CoreAgentCloneError.IncompleteDeclaredWorkflowTools;
      creation_fingerprint ← ok_or tools.(WorkflowToolState.declared_creation_fingerprint)
        CoreAgentCloneError.IncompleteDeclaredWorkflowTools;
      mret [CoreAgentEvent.WorkflowToolConfig
        (WorkflowToolConfigEvent.DeclaredBindingsAdmitted session_universe_id
           declaration_version tools.(WorkflowToolState.lifecycle_controller)
           creation_fingerprint (declared_bindings tools))]
  | None =>
      if is_some tools.(WorkflowToolState.declaration_version)
         || is_some tools.(WorkflowToolState.declared_creation_fingerprint)
         || is_some tools.(WorkflowToolState.lifecycle_controller)
         || has_non_system_bindings tools
      then mthrow CoreAgentCloneError.IncompleteDeclaredWorkflowTools
      else mret []
  end.
(** The names of the tools behind system bindings, which are not cloned. *)
Definition system_tool_names tools : gset ToolId :=
  list_to_set (omap (λ tool_id,
    (λ binding, binding.(WorkflowToolBinding.definition)
                  .(WorkflowToolDefinition.tool).(ToolSpec.id))
      <$> tools.(WorkflowToolState.bindings) !! tool_id)
    (elements tools.(WorkflowToolState.system_binding_ids))).
Definition cloned_tools state : gmap ToolId ToolSpec :=
  let names := system_tool_names state.(CoreAgentState.workflow_tools) in
  filter (λ entry, entry.1 ∉ names) state.(CoreAgentState.tooling).(ToolingState.tools).
Definition tools_event state : list CoreAgentEvent :=
  if bool_decide (cloned_tools state = ∅) then []
  else [CoreAgentEvent.ToolConfig (ToolConfigEvent.ToolsReplaced 0 (cloned_tools state))].
Definition environment_event state : list CoreAgentEvent :=
  match state.(CoreAgentState.environment).(EnvironmentState.active_environment_id) with
  | Some environment_id =>
      [CoreAgentEvent.Environment (EnvironmentEvent.ActiveEnvironmentSet environment_id)]
  | None => []
  end.

Definition clone_event (observed_at_ms : N) (event : CoreAgentEvent)
    : UncommittedCoreAgentEvent :=
  {| UncommittedCoreAgentEvent.observed_at_ms := observed_at_ms;
     UncommittedCoreAgentEvent.joins := default_of;
     UncommittedCoreAgentEvent.event := event |}.

Context `{!EventJson}.

(** Each event is encoded as it is made, so that the first failure is the one reported. *)
Definition encode_all (observed_at_ms : N) (events : list CoreAgentEvent)
    : CloneResult (list UncommittedStoredEvent) :=
  mapM (λ event, map_err CoreAgentCloneError.Codec
    (encode_uncommitted (clone_event observed_at_ms event))) events.
Definition core_agent_clone_opening_events state (observed_at_ms : N)
    : CloneResult (list UncommittedStoredEvent) :=
  let tools := state.(CoreAgentState.workflow_tools) in
  _ ← reject_if (is_some tools.(WorkflowToolState.lifecycle_controller))
        CoreAgentCloneError.LifecycleControlledSession;
  config ← ok_or state.(CoreAgentState.lifecycle).(LifecycleState.config)
    CoreAgentCloneError.MissingConfig;
  opened ← encode_all observed_at_ms
    [CoreAgentEvent.Lifecycle (CoreAgentLifecycleEvent.Opened config)];
  declaration ← declaration_event tools;
  declared ← encode_all observed_at_ms declaration;
  tooling ← encode_all observed_at_ms (tools_event state);
  environment ← encode_all observed_at_ms (environment_event state);
  mret (opened ++ declared ++ tooling ++ environment).
End clone.
