(* ===== verification/SessionStore.v ===== *)
(** * The session store

    The in-memory store of session records and logs: creation, cloning and forking,
    appends guarded by the expected head, the record kept beside the log, checkpoints,
    listing, retention and deletion ([storage/session.rs]). An operation takes the store
    and returns it, changed or not, with its result; the lock around it is not modelled,
    so operations are atomic as they are behind it. *)
From S2P Require Import Prelude Ids Text Types Events RunState Codec BlobRoots.
Set Primitive Projections.

(** ** Records *)
Module SessionOriginKind.
Inductive SessionOriginKind : Type := Subagent.
End SessionOriginKind.
Abbreviation SessionOriginKind := SessionOriginKind.SessionOriginKind.
Module SessionOrigin.
Record SessionOrigin : Type := {
  kind : SessionOriginKind;
  parent_session_id : SessionId;
  parent_run_id : N;
  root_session_id : SessionId;
  depth : N;
  invocation_id : string;
  profile_id : string;
  profile_revision : N;
  limits : SubagentLimits;
}.
End SessionOrigin.
Abbreviation SessionOrigin := SessionOrigin.SessionOrigin.

Module SessionOriginLimit.
Inductive SessionOriginLimit : Type := MaxDepth | MaxConcurrent.
End SessionOriginLimit.
Abbreviation SessionOriginLimit := SessionOriginLimit.SessionOriginLimit.
Module SessionActivity.
Inductive SessionActivity : Type := Idle | Working | Waiting.
End SessionActivity.
Abbreviation SessionActivity := SessionActivity.SessionActivity.
#[export] Instance SessionActivity_eq_dec : EqDecision SessionActivity.
Proof. solve_decision. Defined.
Module SessionLifecycleStatus.
Inductive SessionLifecycleStatus : Type := New | Open | Closed.
End SessionLifecycleStatus.
Abbreviation SessionLifecycleStatus := SessionLifecycleStatus.SessionLifecycleStatus.
#[export] Instance SessionLifecycleStatus_eq_dec : EqDecision SessionLifecycleStatus.
Proof. solve_decision. Defined.

Module SessionRecord.
Record SessionRecord : Type := {
  session_id : SessionId;
  display_name : option string;
  metadata : gmap string string;
  lifecycle_status : SessionLifecycleStatus;
  closed_at_seq : option EventSeq;
  closed_at_ms : option N;
  activity : SessionActivity;
  retention_root_session_id : SessionId;
  delete_after_close_ms : option N;
  delete_at_ms : option N;
  lifecycle_controlled : bool;
  head : option SessionPosition;
  source_session_id : option SessionId;
  source_seq : option EventSeq;
  origin : option SessionOrigin;
  created_at_ms : N;
  updated_at_ms : N;
}.
End SessionRecord.
Abbreviation SessionRecord := SessionRecord.SessionRecord.
#[export] Instance set_record_display_name : Setter SessionRecord.display_name :=
  ltac:(solve_setter SessionRecord.display_name).
#[export] Instance set_record_metadata : Setter SessionRecord.metadata :=
  ltac:(solve_setter SessionRecord.metadata).
#[export] Instance set_record_lifecycle_status : Setter SessionRecord.lifecycle_status :=
  ltac:(solve_setter SessionRecord.lifecycle_status).
#[export] Instance set_record_closed_at_seq : Setter SessionRecord.closed_at_seq :=
  ltac:(solve_setter SessionRecord.closed_at_seq).
#[export] Instance set_record_closed_at_ms : Setter SessionRecord.closed_at_ms :=
  ltac:(solve_setter SessionRecord.closed_at_ms).
#[export] Instance set_record_activity : Setter SessionRecord.activity :=
  ltac:(solve_setter SessionRecord.activity).
#[export] Instance set_record_delete_after : Setter SessionRecord.delete_after_close_ms :=
  ltac:(solve_setter SessionRecord.delete_after_close_ms).
#[export] Instance set_record_delete_at : Setter SessionRecord.delete_at_ms :=
  ltac:(solve_setter SessionRecord.delete_at_ms).
#[export] Instance set_record_controlled : Setter SessionRecord.lifecycle_controlled :=
  ltac:(solve_setter SessionRecord.lifecycle_controlled).
#[export] Instance set_record_head : Setter SessionRecord.head :=
  ltac:(solve_setter SessionRecord.head).
#[export] Instance set_record_source : Setter SessionRecord.source_session_id :=
  ltac:(solve_setter SessionRecord.source_session_id).
#[export] Instance set_record_updated : Setter SessionRecord.updated_at_ms :=
  ltac:(solve_setter SessionRecord.updated_at_ms).

(** ** Requests and results *)
Module CreateSession.
Record CreateSession : Type := {
  session_id : SessionId;
  display_name : option string;
  metadata : gmap string string;
  origin : option SessionOrigin;
  delete_after_close_ms : option N;
  created_at_ms : N;
}.
End CreateSession.
Abbreviation CreateSession := CreateSession.CreateSession.
Module CreateClonedSession.
Record CreateClonedSession : Type := {
  source_session_id : SessionId;
  session_id : SessionId;
  created_at_ms : N;
  opening_events : list UncommittedStoredEvent;
}.
End CreateClonedSession.
Abbreviation CreateClonedSession := CreateClonedSession.CreateClonedSession.
Module CreateForkedSession.
Record CreateForkedSession : Type := {
  source_session_id : SessionId;
  session_id : SessionId;
  source_seq : EventSeq;
  created_at_ms : N;
}.
End CreateForkedSession.
Abbreviation CreateForkedSession := CreateForkedSession.CreateForkedSession.
Module DeleteClosedSessions.
Record DeleteClosedSessions : Type := {
  session_id : SessionId;
  cascade : bool;
  due_at_or_before_ms : option N;
}.
End DeleteClosedSessions.
Abbreviation DeleteClosedSessions := DeleteClosedSessions.DeleteClosedSessions.
Module AppendSessionEvents.
Record AppendSessionEvents : Type := {
  session_id : SessionId;
  expected_head : option SessionPosition;
  events : list UncommittedStoredEvent;
}.
End AppendSessionEvents.
Abbreviation AppendSessionEvents := AppendSessionEvents.AppendSessionEvents.
Module ReadSessionEvents.
Record ReadSessionEvents : Type := {
  session_id : SessionId;
  after : option EventSeq;
  limit : N;
}.
End ReadSessionEvents.
Abbreviation ReadSessionEvents := ReadSessionEvents.ReadSessionEvents.
Module SessionPage.
Record SessionPage : Type := {
  entries : list StoredSessionEntry;
  next_after : option EventSeq;
  complete : bool;
}.
End SessionPage.
Abbreviation SessionPage := SessionPage.SessionPage.
Module SessionCheckpoint.
Record SessionCheckpoint : Type := {
  session_id : SessionId;
  through_seq : EventSeq;
  format_version : N;
  state_ref : BlobRef;
  lineage_source_session_id : option SessionId;
  lineage_source_seq : option EventSeq;
  byte_len : N;
  created_at_ms : N;
}.
End SessionCheckpoint.
Abbreviation SessionCheckpoint := SessionCheckpoint.SessionCheckpoint.
Module ReadSessionEventRange.
Record ReadSessionEventRange : Type := {
  session_id : SessionId;
  after : EventSeq;
  through : EventSeq;
  limit : N;
}.
End ReadSessionEventRange.
Abbreviation ReadSessionEventRange := ReadSessionEventRange.ReadSessionEventRange.
Module ReadRunRecordEntries.
Record ReadRunRecordEntries : Type := {
  session_id : SessionId;
  before : RunId;
  limit : N;
}.
End ReadRunRecordEntries.
Abbreviation ReadRunRecordEntries := ReadRunRecordEntries.ReadRunRecordEntries.
(** The run ids asked for, as a half-open range. *)
Definition ReadRunRecordEntries_run_ids (self : ReadRunRecordEntries) : N * N :=
  let before := self.(ReadRunRecordEntries.before) in
  (N.max (before - self.(ReadRunRecordEntries.limit)) 1, N.max before 1)%N.

(** The sort key of the last row of a page. *)
Module SessionListCursor.
Record SessionListCursor : Type := { updated_at_ms : N; session_id : SessionId; }.
End SessionListCursor.
Abbreviation SessionListCursor := SessionListCursor.SessionListCursor.
Module RetentionRootCursor.
Record RetentionRootCursor : Type := { delete_at_ms : N; session_id : SessionId; }.
End RetentionRootCursor.
Abbreviation RetentionRootCursor := RetentionRootCursor.RetentionRootCursor.
Module ListSessions.
Record ListSessions : Type := {
  cursor : option SessionListCursor;
  limit : N;
  closed : option bool;
  lifecycle_controlled : option bool;
  subagent : option bool;
  parent : option SessionId;
  trees : list SessionId;
  metadata : gmap string string;
}.
End ListSessions.
Abbreviation ListSessions := ListSessions.ListSessions.
Module SessionListPage.
Record SessionListPage : Type := {
  sessions : list SessionRecord;
  next_cursor : option SessionListCursor;
}.
End SessionListPage.
Abbreviation SessionListPage := SessionListPage.SessionListPage.

Module SessionStoreError.
Inductive SessionStoreError : Type :=
| SessionAlreadyExists (session_id : SessionId)
| SessionNotFound (session_id : SessionId)
| ExpectedHeadMismatch (session_id : SessionId) (expected actual : option SessionPosition)
| InvalidLimit (limit : N)
| InvalidRetention (message : string)
| InvalidForkPoint (session_id : SessionId) (source_seq : EventSeq) (message : string)
| OriginLimitExceeded (root_session_id : SessionId) (limit : SessionOriginLimit)
    (max actual : N)
| SessionNotClosed (session_id : SessionId) (lifecycle_status : SessionLifecycleStatus)
| SessionHasChildren (session_id : SessionId)
| SessionRetentionOwnedBy (session_id retention_root_session_id : SessionId)
| SessionRetentionNotDue (session_id : SessionId)
| SessionTreeNotClosed (session_id : SessionId) (lifecycle_status : SessionLifecycleStatus)
| LifecycleControlledSessionCannotBranch (session_id : SessionId)
| MissingBlobs (session_id : SessionId) (blob_refs : list BlobRef)
| DataRejected (message : string)
| Store (message : string).
End SessionStoreError.
Abbreviation SessionStoreError := SessionStoreError.SessionStoreError.
Definition is_data_rejection (self : SessionStoreError) : bool :=
  match self with
  | SessionStoreError.MissingBlobs _ _ | SessionStoreError.DataRejected _ => true
  | _ => false
  end.

(** The depth limit, then the number of descendants still open. *)
Definition check_origin_limits (origin : SessionOrigin) (open_descendants : N)
    : Result SessionStoreError unit :=
  let exceeded := SessionStoreError.OriginLimitExceeded origin.(SessionOrigin.root_session_id) in
  let max_depth := origin.(SessionOrigin.limits).(SubagentLimits.max_depth) in
  let max_concurrent := origin.(SessionOrigin.limits).(SubagentLimits.max_concurrent) in
  _ ← reject_if (max_depth <? origin.(SessionOrigin.depth))%N
        (exceeded SessionOriginLimit.MaxDepth max_depth origin.(SessionOrigin.depth));
  reject_if (max_concurrent <=? open_descendants)%N
    (exceeded SessionOriginLimit.MaxConcurrent max_concurrent open_descendants).

(** [None] matches everything. *)
Definition is_none_or {A} (o : option A) (f : A → bool) : bool :=
  match o with Some x => f x | None => true end.
Definition is_some_and {A} (o : option A) (f : A → bool) : bool :=
  match o with Some x => f x | None => false end.
Definition metadata_matches (record filter : gmap string string) : bool :=
  forallb (λ entry, bool_decide (record !! entry.1 = Some entry.2)) (btree_to_list filter).
(** An empty value asks for the presence of its key. *)
Definition session_metadata_matches (record filter : gmap string string) : bool :=
  forallb (λ entry,
    if bool_decide (entry.2 = "") then is_some (record !! entry.1)
    else bool_decide (record !! entry.1 = Some entry.2)) (btree_to_list filter).

(** ** The store *)
Module InMemorySessionStoreInner.
Record InMemorySessionStoreInner : Type := {
  records : gmap SessionId SessionRecord;
  entries : gmap SessionId (list StoredSessionEntry);
  checkpoints : gmap SessionId SessionCheckpoint;
}.
End InMemorySessionStoreInner.
Abbreviation InMemorySessionStoreInner := InMemorySessionStoreInner.InMemorySessionStoreInner.
#[export] Instance set_inner_records : Setter InMemorySessionStoreInner.records :=
  ltac:(solve_setter InMemorySessionStoreInner.records).
#[export] Instance set_inner_entries : Setter InMemorySessionStoreInner.entries :=
  ltac:(solve_setter InMemorySessionStoreInner.entries).
#[export] Instance set_inner_checkpoints : Setter InMemorySessionStoreInner.checkpoints :=
  ltac:(solve_setter InMemorySessionStoreInner.checkpoints).
Definition Storing (A : Type) : Type := Reducer InMemorySessionStoreInner SessionStoreError A.
Definition InMemorySessionStore_new : InMemorySessionStoreInner :=
  {| InMemorySessionStoreInner.records := ∅; InMemorySessionStoreInner.entries := ∅;
     InMemorySessionStoreInner.checkpoints := ∅ |}.

Section records.
Implicit Types (inner : InMemorySessionStoreInner) (record : SessionRecord).

Definition record_of inner (session_id : SessionId) : Result SessionStoreError SessionRecord :=
  ok_or (inner.(InMemorySessionStoreInner.records) !! session_id)
    (SessionStoreError.SessionNotFound session_id).
Definition has_record inner (session_id : SessionId) : bool :=
  is_some (inner.(InMemorySessionStoreInner.records) !! session_id).
Definition insert_record record inner : InMemorySessionStoreInner :=
  inner <| InMemorySessionStoreInner.records ::= <[record.(SessionRecord.session_id) := record]> |>.
Definition insert_session record (entries : list StoredSessionEntry) inner
    : InMemorySessionStoreInner :=
  insert_record record
    (inner <| InMemorySessionStoreInner.entries
                ::= <[record.(SessionRecord.session_id) := entries]> |>).
Definition head_seq record : N :=
  match record.(SessionRecord.head) with Some head => head.(SessionPosition.seq) | None => 0%N end.

Definition in_memory_open_descendants inner (root_session_id : SessionId) : N :=
  N.of_nat (length (filter (λ record,
    is_some_and record.(SessionRecord.origin) (λ origin,
      bool_decide (origin.(SessionOrigin.root_session_id) = root_session_id)) = true ∧
    record.(SessionRecord.lifecycle_status) ≠ SessionLifecycleStatus.Closed)
    (btree_values inner.(InMemorySessionStoreInner.records)))).

(** ** What the log projects on its record *)
Definition refresh_delete_at record : SessionRecord :=
  record <| SessionRecord.delete_at_ms :=
    if bool_decide (record.(SessionRecord.retention_root_session_id)
                      = record.(SessionRecord.session_id))
    then match record.(SessionRecord.closed_at_ms), record.(SessionRecord.delete_after_close_ms)
         with
         | Some closed_at_ms, Some duration_ms =>
             Some (saturating_add_u64 closed_at_ms duration_ms)
         | _, _ => None
         end
    else None |>.
End records.

Section projection.
Context `{!EventJson}.

Definition names_controller (event : StoredEvent) : bool :=
  match decode_event event with
  | Ok (CoreAgentEvent.WorkflowToolConfig
          (WorkflowToolConfigEvent.DeclaredBindingsAdmitted _ _ (Some _) _ _)) => true
  | _ => false
  end.
(** The kinds that end the park of a run that waits for a person. *)
Definition UNPARKING_KINDS : list string :=
  ["lightspeed.core.approval.run_unparked"; "lightspeed.core.turn.started";
   "lightspeed.core.turn.generation_requested"; "lightspeed.core.tool.call_started";
   "lightspeed.core.tool.batch_unparked"].
Definition RUN_ENDING_KINDS : list string :=
  ["lightspeed.core.run.completed"; "lightspeed.core.run.failed";
   "lightspeed.core.run.cancelled"; "lightspeed.core.run.force_cancelled"].
Definition apply_lifecycle_projection (record : SessionRecord) (entry : StoredSessionEntry)
    : SessionRecord :=
  let kind := entry.(StoredSessionEntry.event).(StoredEvent.kind) in
  if bool_decide (kind = "lightspeed.core.lifecycle.opened") then
    record <| SessionRecord.lifecycle_status := SessionLifecycleStatus.Open |>
  else if bool_decide (kind = "lightspeed.core.lifecycle.closed") then
    refresh_delete_at
      (record <| SessionRecord.lifecycle_status := SessionLifecycleStatus.Closed |>
              <| SessionRecord.closed_at_seq :=
                   Some entry.(StoredSessionEntry.position).(SessionPosition.seq) |>
              <| SessionRecord.closed_at_ms := Some entry.(StoredSessionEntry.observed_at_ms) |>
              <| SessionRecord.activity := SessionActivity.Idle |>)
  else if bool_decide (kind = "lightspeed.core.run.started") then
    record <| SessionRecord.activity := SessionActivity.Working |>
  else if bool_decide (kind = "lightspeed.core.approval.run_parked") then
    record <| SessionRecord.activity := SessionActivity.Waiting |>
  else if bool_decide (kind ∈ UNPARKING_KINDS)
          && bool_decide (record.(SessionRecord.activity) = SessionActivity.Waiting) then
    record <| SessionRecord.activity := SessionActivity.Working |>
  else if bool_decide (kind ∈ RUN_ENDING_KINDS) then
    record <| SessionRecord.activity := SessionActivity.Idle |>
  else if bool_decide
            (kind = "lightspeed.core.workflow_tool_config.declared_bindings_admitted")
          && names_controller entry.(StoredSessionEntry.event) then
    record <| SessionRecord.lifecycle_controlled := true |>
  else record.

Definition following_position (head : option SessionPosition) : SessionPosition :=
  {| SessionPosition.seq :=
       match head with
       | Some position => saturating_add_u64 position.(SessionPosition.seq) 1
       | None => 1%N
       end |}.
Definition stored_entry (position : SessionPosition) (event : UncommittedStoredEvent)
    : StoredSessionEntry :=
  {| StoredSessionEntry.position := position;
     StoredSessionEntry.observed_at_ms := event.(UncommittedStoredEvent.observed_at_ms);
     StoredSessionEntry.joins := event.(UncommittedStoredEvent.joins);
     StoredSessionEntry.event := event.(UncommittedStoredEvent.event) |}.
(** The positions that follow the head, and the record projected entry by entry. *)
Fixpoint commit_uncommitted_events (record : SessionRecord)
    (events : list UncommittedStoredEvent) : SessionRecord * list StoredSessionEntry :=
  match events with
  | [] => (record, [])
  | event :: events =>
      let position := following_position record.(SessionRecord.head) in
      let entry := stored_entry position event in
      let record := (apply_lifecycle_projection record entry)
        <| SessionRecord.head := Some position |>
        <| SessionRecord.updated_at_ms := entry.(StoredSessionEntry.observed_at_ms) |> in
      let '(record, committed) := commit_uncommitted_events record events in
      (record, entry :: committed)
  end.
End projection.

(** ** Effective logs *)
Section effective.
Implicit Types (inner : InMemorySessionStoreInner).

Definition local_entries_up_to inner (session_id : SessionId) (after max_seq : N)
    : Result SessionStoreError (list StoredSessionEntry) :=
  entries ← ok_or (inner.(InMemorySessionStoreInner.entries) !! session_id)
    (SessionStoreError.SessionNotFound session_id);
  mret (filter (λ entry,
    after < entry.(StoredSessionEntry.position).(SessionPosition.seq) ∧
    entry.(StoredSessionEntry.position).(SessionPosition.seq) <= max_seq)%N entries).
(** The recursion has no bound in the source: it ends at a session that is no fork. Each
    level takes one unit of [fuel]; running out would be the source's stack overflow. *)
Fixpoint effective_entries_within (fuel : nat) inner (session_id : SessionId) (max_seq : N)
    : Result SessionStoreError (list StoredSessionEntry) :=
  match fuel with
  | O => mthrow (SessionStoreError.Store "stack overflow")
  | S fuel =>
      record ← record_of inner session_id;
      match record.(SessionRecord.source_session_id), record.(SessionRecord.source_seq) with
      | Some source_session_id, Some branch_seq =>
          if (max_seq <=? branch_seq)%N
          then effective_entries_within fuel inner source_session_id max_seq
          else
            inherited ← effective_entries_within fuel inner source_session_id branch_seq;
            own ← local_entries_up_to inner session_id branch_seq max_seq;
            mret (inherited ++ own)
      | _, _ => local_entries_up_to inner session_id 0 max_seq
      end
  end.
(** A chain of sources without a cycle is no longer than the number of records. *)
Definition effective_entries_up_to inner (session_id : SessionId) (max_seq : N)
    : Result SessionStoreError (list StoredSessionEntry) :=
  effective_entries_within (S (size inner.(InMemorySessionStoreInner.records))) inner
    session_id max_seq.
Definition effective_head_u64 inner (session_id : SessionId) : Result SessionStoreError N :=
  record ← record_of inner session_id;
  mret (head_seq record).
Definition effective_entries inner (session_id : SessionId)
    : Result SessionStoreError (list StoredSessionEntry) :=
  head ← effective_head_u64 inner session_id;
  effective_entries_up_to inner session_id head.
End effective.

(** ** Fork points *)
Module RunRange.
Record RunRange : Type := { run_id : N; first_seq : N; terminal_seq : option N; }.
End RunRange.
Abbreviation RunRange := RunRange.RunRange.
Module RunBoundary.
Record RunBoundary : Type := { run_id : N; terminal : bool; }.
End RunBoundary.
Abbreviation RunBoundary := RunBoundary.RunBoundary.

Definition entry_kind (entry : StoredSessionEntry) : string :=
  entry.(StoredSessionEntry.event).(StoredEvent.kind).
Definition stored_seq (entry : StoredSessionEntry) : N :=
  entry.(StoredSessionEntry.position).(SessionPosition.seq).
Definition joined_run_id (entry : StoredSessionEntry) : option N :=
  entry.(StoredSessionEntry.joins) !! "run_id" ≫= parse_u64.
Definition is_terminal_run_entry (entry : StoredSessionEntry) : bool :=
  bool_decide (entry_kind entry ∈
    ["lightspeed.core.run.completed"; "lightspeed.core.run.failed";
     "lightspeed.core.run.cancelled"; "lightspeed.core.run.force_cancelled";
     "lightspeed.core.run.queued_cancelled"]).
Definition run_boundary (entry : StoredSessionEntry) : option RunBoundary :=
  run_id ← joined_run_id entry;
  let terminal := is_terminal_run_entry entry in
  if terminal || bool_decide (entry_kind entry ∈
       ["lightspeed.core.run.accepted"; "lightspeed.core.run.started";
        "lightspeed.core.run.steering_accepted"; "lightspeed.core.run.cancellation_requested"])
  then Some {| RunBoundary.run_id := run_id; RunBoundary.terminal := terminal |}
  else None.
Definition mark_range (ranges : gmap N RunRange) (boundary : RunBoundary) (seq : N)
    : gmap N RunRange :=
  let run_id := boundary.(RunBoundary.run_id) in
  let range := default {| RunRange.run_id := run_id; RunRange.first_seq := seq;
                          RunRange.terminal_seq := None |} (ranges !! run_id) in
  <[run_id := {| RunRange.run_id := range.(RunRange.run_id);
                 RunRange.first_seq := N.min range.(RunRange.first_seq) seq;
                 RunRange.terminal_seq :=
                   if boundary.(RunBoundary.terminal) then Some seq
                   else range.(RunRange.terminal_seq) |}]> ranges.
Definition extend_range (ranges : gmap N RunRange) (entry : StoredSessionEntry)
    : gmap N RunRange :=
  match run_boundary entry with
  | None => ranges
  | Some boundary => mark_range ranges boundary (stored_seq entry)
  end.
Definition core_run_ranges (entries : list StoredSessionEntry) : gmap N RunRange :=
  foldl extend_range ∅ entries.

(** [Iterator::min]. *)
Definition minimum (l : list N) : option N :=
  match l with [] => None | x :: l => Some (foldr N.min x l) end.
Definition before_earliest (earliest_open : option N) (head : N) : EventSeq :=
  match earliest_open with Some seq => (seq - 1)%N | None => head end.
Definition largest_safe_fork_seq (entries : list StoredSessionEntry) (head : N) : EventSeq :=
  before_earliest
    (minimum (RunRange.first_seq <$> filter (λ range, range.(RunRange.terminal_seq) = None)
       (btree_values (core_run_ranges entries)))) head.
Definition largest_safe_fork_seq_from_state (state : CoreAgentState) : EventSeq :=
  let head := match state.(CoreAgentState.reduced_to) with
              | Some position => position.(SessionPosition.seq)
              | None => 0%N
              end in
  let runs := state.(CoreAgentState.runs) in
  before_earliest
    (minimum (option_list (ActiveRun.first_seq <$> runs.(RunsState.active))
              ++ (AcceptedRun.first_seq <$> runs.(RunsState.queued)))) head.

Definition inside_range (source_seq head : N) (range : RunRange) : bool :=
  let end_exclusive := default (saturating_add_u64 head 1) range.(RunRange.terminal_seq) in
  (range.(RunRange.first_seq) <=? source_seq)%N && (source_seq <? end_exclusive)%N.
Definition validate_fork_point (session_id : SessionId) (source_seq : EventSeq)
    (entries : list StoredSessionEntry) (head : N) : Result SessionStoreError unit :=
  _ ← reject_if (head <? source_seq)%N
        (SessionStoreError.InvalidForkPoint session_id source_seq
           "source seq is beyond session head {head}");
  for_each (λ range, reject_if (inside_range source_seq head range)
      (SessionStoreError.InvalidForkPoint session_id source_seq
         "seq is inside non-terminal run {} ({}..{})"))
    (btree_values (core_run_ranges entries)).
Definition validate_in_memory_fork_point (inner : InMemorySessionStoreInner)
    (source_session_id : SessionId) (source_seq : EventSeq) : Result SessionStoreError unit :=
  entries ← effective_entries inner source_session_id;
  head ← effective_head_u64 inner source_session_id;
  validate_fork_point source_session_id source_seq entries head.

Definition lifecycle_at_fork (source : SessionRecord) (source_seq : EventSeq)
    : SessionLifecycleStatus * option EventSeq :=
  if (source_seq =? 0)%N then (SessionLifecycleStatus.New, None) else
  match source.(SessionRecord.closed_at_seq) with
  | Some closed_at_seq =>
      if (closed_at_seq <=? source_seq)%N
      then (SessionLifecycleStatus.Closed, Some closed_at_seq)
      else (SessionLifecycleStatus.Open, None)
  | None => (SessionLifecycleStatus.Open, None)
  end.
Definition position_from_nonzero_seq (seq : EventSeq) : option SessionPosition :=
  if (0 <? seq)%N then Some {| SessionPosition.seq := seq |} else None.

(** ** Operations *)
Section operations.
Context `{!EventJson, !EventSerialize}.

Definition check_events (events : list UncommittedStoredEvent) : Result SessionStoreError unit :=
  for_each (λ event, map_err SessionStoreError.DataRejected
    (check_typed_walk_sees_every_ref event.(UncommittedStoredEvent.event))) events.

Definition check_origin (request : CreateSession) (inner : InMemorySessionStoreInner)
    : Result SessionStoreError unit :=
  match request.(CreateSession.origin) with
  | None => mret tt
  | Some origin =>
      _ ← reject_if (is_some request.(CreateSession.delete_after_close_ms))
            (SessionStoreError.SessionRetentionOwnedBy request.(CreateSession.session_id)
               origin.(SessionOrigin.root_session_id));
      _ ← for_each (λ session_id, reject_if (negb (has_record inner session_id))
              (SessionStoreError.SessionNotFound session_id))
            [origin.(SessionOrigin.parent_session_id); origin.(SessionOrigin.root_session_id)];
      check_origin_limits origin
        (in_memory_open_descendants inner origin.(SessionOrigin.root_session_id))
  end.
(** The root of the parent's tree, or the session itself. *)
Definition retention_root (request : CreateSession) (inner : InMemorySessionStoreInner)
    : SessionId :=
  match request.(CreateSession.origin) ≫= (λ origin,
          inner.(InMemorySessionStoreInner.records) !! origin.(SessionOrigin.parent_session_id))
  with
  | Some parent => parent.(SessionRecord.retention_root_session_id)
  | None => request.(CreateSession.session_id)
  end.
Definition positive_retention (delete_after_close_ms : option N)
    : Result SessionStoreError unit :=
  reject_if (bool_decide (delete_after_close_ms = Some 0%N))
    (SessionStoreError.InvalidRetention "deleteAfterCloseMs must be positive").
Definition created_record (request : CreateSession) (inner : InMemorySessionStoreInner)
    : SessionRecord :=
  {| SessionRecord.session_id := request.(CreateSession.session_id);
     SessionRecord.display_name := request.(CreateSession.display_name);
     SessionRecord.metadata := request.(CreateSession.metadata);
     SessionRecord.lifecycle_status := SessionLifecycleStatus.New;
     SessionRecord.closed_at_seq := None;
     SessionRecord.closed_at_ms := None;
     SessionRecord.activity := SessionActivity.Idle;
     SessionRecord.retention_root_session_id := retention_root request inner;
     SessionRecord.delete_after_close_ms := request.(CreateSession.delete_after_close_ms);
     SessionRecord.delete_at_ms := None;
     SessionRecord.lifecycle_controlled := false;
     SessionRecord.head := None;
     SessionRecord.source_session_id := None;
     SessionRecord.source_seq := None;
     SessionRecord.origin := request.(CreateSession.origin);
     SessionRecord.created_at_ms := request.(CreateSession.created_at_ms);
     SessionRecord.updated_at_ms := request.(CreateSession.created_at_ms) |}.
Definition create_session (request : CreateSession) : Storing SessionRecord :=
  inner ← get_state;
  _ ← reject_if (has_record inner request.(CreateSession.session_id))
        (SessionStoreError.SessionAlreadyExists request.(CreateSession.session_id));
  _ ← lift_result (positive_retention request.(CreateSession.delete_after_close_ms));
  _ ← lift_result (check_origin request inner);
  let record := created_record request inner in
  _ ← modify_state (insert_session record []);
  mret record.

Definition load_session (session_id : SessionId) : Storing (option SessionRecord) :=
  checking (λ inner, mret (inner.(InMemorySessionStoreInner.records) !! session_id)).

(** [record.field = value], for the record of a session. *)
Definition update_record (session_id : SessionId) (f : SessionRecord → SessionRecord)
    : Storing SessionRecord :=
  record ← checking (λ inner, record_of inner session_id);
  let record := f record in
  _ ← modify_state (λ inner,
        inner <| InMemorySessionStoreInner.records ::= <[session_id := record]> |>);
  mret record.
Definition set_session_display_name (session_id : SessionId) (display_name : option string)
    : Storing SessionRecord :=
  update_record session_id (λ record, record <| SessionRecord.display_name := display_name |>).
Definition set_session_metadata (session_id : SessionId) (metadata : gmap string string)
    : Storing SessionRecord :=
  update_record session_id (λ record, record <| SessionRecord.metadata := metadata |>).
Definition set_session_retention (session_id : SessionId) (delete_after_close_ms : option N)
    : Storing SessionRecord :=
  _ ← lift_result (positive_retention delete_after_close_ms);
  record ← checking (λ inner, record_of inner session_id);
  let root := record.(SessionRecord.retention_root_session_id) in
  _ ← reject_if (bool_decide (root ≠ session_id))
        (SessionStoreError.SessionRetentionOwnedBy session_id root);
  update_record session_id (λ record, refresh_delete_at
    (record <| SessionRecord.delete_after_close_ms := delete_after_close_ms |>)).

(** ** Branching *)
(** What a clone and a fork check of their source. *)
Definition branch_source (inner : InMemorySessionStoreInner)
    (source_session_id session_id : SessionId) : Result SessionStoreError SessionRecord :=
  source ← record_of inner source_session_id;
  _ ← reject_if source.(SessionRecord.lifecycle_controlled)
        (SessionStoreError.LifecycleControlledSessionCannotBranch source_session_id);
  _ ← reject_if (has_record inner session_id)
        (SessionStoreError.SessionAlreadyExists session_id);
  mret source.
Definition cloned_record (request : CreateClonedSession) : SessionRecord :=
  {| SessionRecord.session_id := request.(CreateClonedSession.session_id);
     SessionRecord.display_name := None;
     SessionRecord.metadata := ∅;
     SessionRecord.lifecycle_status := SessionLifecycleStatus.New;
     SessionRecord.closed_at_seq := None;
     SessionRecord.closed_at_ms := None;
     SessionRecord.activity := SessionActivity.Idle;
     SessionRecord.retention_root_session_id := request.(CreateClonedSession.session_id);
     SessionRecord.delete_after_close_ms := None;
     SessionRecord.delete_at_ms := None;
     SessionRecord.lifecycle_controlled := false;
     SessionRecord.head := None;
     SessionRecord.source_session_id := Some request.(CreateClonedSession.source_session_id);
     SessionRecord.source_seq := None;
     SessionRecord.origin := None;
     SessionRecord.created_at_ms := request.(CreateClonedSession.created_at_ms);
     SessionRecord.updated_at_ms := request.(CreateClonedSession.created_at_ms) |}.
Definition create_cloned_session (request : CreateClonedSession) : Storing SessionRecord :=
  _ ← checking (λ inner, branch_source inner request.(CreateClonedSession.source_session_id)
                           request.(CreateClonedSession.session_id));
  _ ← lift_result (check_events request.(CreateClonedSession.opening_events));
  let '(record, committed) := commit_uncommitted_events (cloned_record request)
    request.(CreateClonedSession.opening_events) in
  _ ← modify_state (insert_session record committed);
  mret record.

Definition forked_record (request : CreateForkedSession) (source : SessionRecord)
    : SessionRecord :=
  let source_seq := request.(CreateForkedSession.source_seq) in
  let '(lifecycle_status, closed_at_seq) := lifecycle_at_fork source source_seq in
  {| SessionRecord.session_id := request.(CreateForkedSession.session_id);
     SessionRecord.display_name := None;
     SessionRecord.metadata := ∅;
     SessionRecord.lifecycle_status := lifecycle_status;
     SessionRecord.closed_at_seq := closed_at_seq;
     SessionRecord.closed_at_ms :=
       match closed_at_seq with Some _ => source.(SessionRecord.closed_at_ms) | None => None end;
     SessionRecord.activity := SessionActivity.Idle;
     SessionRecord.retention_root_session_id := source.(SessionRecord.retention_root_session_id);
     SessionRecord.delete_after_close_ms := None;
     SessionRecord.delete_at_ms := None;
     SessionRecord.lifecycle_controlled := false;
     SessionRecord.head := position_from_nonzero_seq source_seq;
     SessionRecord.source_session_id := Some request.(CreateForkedSession.source_session_id);
     SessionRecord.source_seq := Some source_seq;
     SessionRecord.origin := None;
     SessionRecord.created_at_ms := request.(CreateForkedSession.created_at_ms);
     SessionRecord.updated_at_ms := request.(CreateForkedSession.created_at_ms) |}.
Definition create_forked_session (request : CreateForkedSession) : Storing SessionRecord :=
  source ← checking (λ inner,
    source ← branch_source inner request.(CreateForkedSession.source_session_id)
      request.(CreateForkedSession.session_id);
    _ ← validate_in_memory_fork_point inner request.(CreateForkedSession.source_session_id)
          request.(CreateForkedSession.source_seq);
    mret source);
  let record := forked_record request source in
  _ ← modify_state (insert_session record []);
  mret record.
Definition safe_fork_seq (session_id : SessionId) : Storing EventSeq :=
  checking (λ inner,
    entries ← effective_entries inner session_id;
    head ← effective_head_u64 inner session_id;
    mret (largest_safe_fork_seq entries head)).

(** ** Appending and reading *)
Definition append (request : AppendSessionEvents) : Storing (list StoredSessionEntry) :=
  let session_id := request.(AppendSessionEvents.session_id) in
  record ← checking (λ inner, record_of inner session_id);
  let actual_head := record.(SessionRecord.head) in
  _ ← reject_if (bool_decide (request.(AppendSessionEvents.expected_head) ≠ actual_head))
        (SessionStoreError.ExpectedHeadMismatch session_id
           request.(AppendSessionEvents.expected_head) actual_head);
  _ ← lift_result (check_events request.(AppendSessionEvents.events));
  let '(record, committed) :=
    commit_uncommitted_events record request.(AppendSessionEvents.events) in
  _ ← modify_state (λ inner,
        inner <| InMemorySessionStoreInner.records ::= <[session_id := record]> |>
              <| InMemorySessionStoreInner.entries ::= alter (.++ committed) session_id |>);
  mret committed.

Definition positive_limit (limit : N) : Result SessionStoreError unit :=
  reject_if (limit =? 0)%N (SessionStoreError.InvalidLimit 0).
Definition read_after (request : ReadSessionEvents) : Storing SessionPage :=
  checking (λ inner,
    let limit := request.(ReadSessionEvents.limit) in
    _ ← positive_limit limit;
    entries ← effective_entries inner request.(ReadSessionEvents.session_id);
    let selected := take (N.to_nat (saturating_add_u64 limit 1)) (filter (λ entry,
      is_none_or request.(ReadSessionEvents.after) (λ after, after <? stored_seq entry)%N = true)
      entries) in
    let complete := (N.of_nat (length selected) <=? limit)%N in
    let selected := if complete then selected else take (N.to_nat limit) selected in
    mret {| SessionPage.entries := selected;
            SessionPage.next_after := stored_seq <$> last selected;
            SessionPage.complete := complete |}).
(** The provided method of the trait. *)
Definition read_range (request : ReadSessionEventRange) : Storing SessionPage :=
  _ ← lift_result (positive_limit request.(ReadSessionEventRange.limit));
  page ← read_after
    {| ReadSessionEvents.session_id := request.(ReadSessionEventRange.session_id);
       ReadSessionEvents.after := Some request.(ReadSessionEventRange.after);
       ReadSessionEvents.limit := request.(ReadSessionEventRange.limit) |};
  let through := request.(ReadSessionEventRange.through) in
  let entries := filter (λ entry, stored_seq entry <= through)%N page.(SessionPage.entries) in
  mret {| SessionPage.entries := entries;
          SessionPage.next_after := stored_seq <$> last entries;
          SessionPage.complete := page.(SessionPage.complete)
            || is_none_or (last entries) (λ entry, through <=? stored_seq entry)%N |}.
Definition is_run_record_of (run_ids : N * N) (entry : StoredSessionEntry) : bool :=
  bool_decide (entry_kind entry ∈ RUN_RECORD_KINDS)
  && is_some_and (joined_run_id entry) (λ run_id,
       (run_ids.1 <=? run_id) && (run_id <? run_ids.2))%N.
Definition read_run_record_entries (request : ReadRunRecordEntries)
    : Storing (list StoredSessionEntry) :=
  checking (λ inner,
    _ ← positive_limit request.(ReadRunRecordEntries.limit);
    entries ← effective_entries inner request.(ReadRunRecordEntries.session_id);
    mret (filter (λ entry,
      is_run_record_of (ReadRunRecordEntries_run_ids request) entry = true) entries)).
Definition head (session_id : SessionId) : Storing (option SessionPosition) :=
  checking (λ inner, mret (inner.(InMemorySessionStoreInner.records) !! session_id
                             ≫= SessionRecord.head)).

(** ** Checkpoints *)
Definition load_checkpoint (session_id : SessionId) : Storing (option SessionCheckpoint) :=
  checking (λ inner,
    _ ← record_of inner session_id;
    mret (inner.(InMemorySessionStoreInner.checkpoints) !! session_id)).
(** The checkpoint kept is newer, or as new and of the same format. *)
Definition outdates (current checkpoint : SessionCheckpoint) : bool :=
  (checkpoint.(SessionCheckpoint.through_seq) <? current.(SessionCheckpoint.through_seq))%N
  || (current.(SessionCheckpoint.through_seq) =? checkpoint.(SessionCheckpoint.through_seq))%N
     && (current.(SessionCheckpoint.format_version)
           =? checkpoint.(SessionCheckpoint.format_version))%N.
Definition advance_checkpoint (checkpoint : SessionCheckpoint) : Storing bool :=
  let session_id := checkpoint.(SessionCheckpoint.session_id) in
  inner ← get_state;
  _ ← lift_result (record_of inner session_id);
  if is_some_and (inner.(InMemorySessionStoreInner.checkpoints) !! session_id)
       (λ current, outdates current checkpoint)
  then mret false
  else
    _ ← modify_state (λ inner, inner <| InMemorySessionStoreInner.checkpoints
          ::= <[session_id := checkpoint]> |>);
    mret true.

(** ** Listing *)
(** The order of a pair of a number and an id. *)
Definition pair_lt (left right : N * SessionId) : Prop :=
  (left.1 < right.1)%N ∨
  left.1 = right.1 ∧ key_le left.2 right.2 ∧ left.2 ≠ right.2.
#[export] Instance pair_lt_dec : RelDecision pair_lt.
Proof. intros l r. unfold pair_lt. apply _. Defined.
Definition list_key (record : SessionRecord) : N * SessionId :=
  (record.(SessionRecord.updated_at_ms), record.(SessionRecord.session_id)).
Definition newest_first (left right : SessionRecord) : Prop :=
  ¬ pair_lt (list_key left) (list_key right).
#[export] Instance newest_first_dec : RelDecision newest_first.
Proof. intros l r. unfold newest_first. apply _. Defined.
Definition origin_root (record : SessionRecord) : SessionId :=
  match record.(SessionRecord.origin) with
  | Some origin => origin.(SessionOrigin.root_session_id)
  | None => record.(SessionRecord.session_id)
  end.
(** Whether a lifecycle controller owns the root of the session's tree. *)
Definition tree_controlled (inner : InMemorySessionStoreInner) (record : SessionRecord) : bool :=
  match inner.(InMemorySessionStoreInner.records) !! origin_root record with
  | Some root => root.(SessionRecord.lifecycle_controlled)
  | None => record.(SessionRecord.lifecycle_controlled)
  end.
Definition is_listed (request : ListSessions) (inner : InMemorySessionStoreInner)
    (record : SessionRecord) : bool :=
  is_none_or request.(ListSessions.parent) (λ parent,
    is_some_and record.(SessionRecord.origin) (λ origin,
      bool_decide (origin.(SessionOrigin.parent_session_id) = parent)))
  && is_none_or request.(ListSessions.closed) (λ closed,
       Bool.eqb closed (bool_decide (record.(SessionRecord.lifecycle_status)
                                       = SessionLifecycleStatus.Closed)))
  && is_none_or request.(ListSessions.subagent) (λ subagent,
       Bool.eqb subagent (is_some record.(SessionRecord.origin)))
  && session_metadata_matches record.(SessionRecord.metadata) request.(ListSessions.metadata)
  && is_none_or request.(ListSessions.lifecycle_controlled) (λ wanted,
       Bool.eqb (tree_controlled inner record) wanted)
  && (bool_decide (request.(ListSessions.trees) = [])
      || bool_decide (origin_root record ∈ request.(ListSessions.trees)))
  && is_none_or request.(ListSessions.cursor) (λ cursor,
       bool_decide (pair_lt (list_key record)
         (cursor.(SessionListCursor.updated_at_ms), cursor.(SessionListCursor.session_id)))).
Definition list_sessions (request : ListSessions) : Storing SessionListPage :=
  checking (λ inner,
    let limit := request.(ListSessions.limit) in
    _ ← positive_limit limit;
    let records := merge_sort newest_first
      (btree_values inner.(InMemorySessionStoreInner.records)) in
    let sessions := take (N.to_nat (saturating_add_u64 limit 1))
      (filter (λ record, is_listed request inner record = true) records) in
    mret
      (if (limit <? N.of_nat (length sessions))%N then
         let sessions := take (N.to_nat limit) sessions in
         {| SessionListPage.sessions := sessions;
            SessionListPage.next_cursor := (λ last,
              {| SessionListCursor.updated_at_ms := last.(SessionRecord.updated_at_ms);
                 SessionListCursor.session_id := last.(SessionRecord.session_id) |})
              <$> last sessions |}
       else {| SessionListPage.sessions := sessions; SessionListPage.next_cursor := None |})).

(** [Option]'s order has [None] first. *)
Definition deadline_key (record : SessionRecord) : N * SessionId :=
  (match record.(SessionRecord.delete_at_ms) with Some n => N.succ n | None => 0%N end,
   record.(SessionRecord.session_id)).
Definition due_first (left right : SessionRecord) : Prop :=
  ¬ pair_lt (deadline_key right) (deadline_key left).
#[export] Instance due_first_dec : RelDecision due_first.
Proof. intros l r. unfold due_first. apply _. Defined.
Definition is_due (record : SessionRecord) (now_ms : N) : bool :=
  is_some_and record.(SessionRecord.delete_at_ms) (λ deadline, deadline <=? now_ms)%N.
Definition is_due_root (now_ms : N) (after : option RetentionRootCursor)
    (record : SessionRecord) : bool :=
  bool_decide (record.(SessionRecord.retention_root_session_id)
                 = record.(SessionRecord.session_id))
  && bool_decide (record.(SessionRecord.lifecycle_status) = SessionLifecycleStatus.Closed)
  && is_due record now_ms
  && is_none_or after (λ after, bool_decide (pair_lt
       (after.(RetentionRootCursor.delete_at_ms), after.(RetentionRootCursor.session_id))
       (default 0%N record.(SessionRecord.delete_at_ms), record.(SessionRecord.session_id)))).
Definition list_retention_roots_due_for_deletion (now_ms : N)
    (after : option RetentionRootCursor) (limit : N) : Storing (list SessionRecord) :=
  checking (λ inner,
    _ ← positive_limit limit;
    mret (take (N.to_nat limit) (merge_sort due_first
      (filter (λ record, is_due_root now_ms after record = true)
         (btree_values inner.(InMemorySessionStoreInner.records)))))).

(** ** Deletion *)
Definition is_unopened (record : SessionRecord) : bool :=
  bool_decide (record.(SessionRecord.lifecycle_status) = SessionLifecycleStatus.New)
  && is_none record.(SessionRecord.head).
Definition discard_unopened_session (session_id : SessionId) : Storing bool :=
  inner ← get_state;
  let unopened :=
    is_some_and (inner.(InMemorySessionStoreInner.records) !! session_id) is_unopened in
  _ ← modify_state (λ inner,
        if unopened
        then inner <| InMemorySessionStoreInner.records ::= delete session_id |>
                   <| InMemorySessionStoreInner.entries ::= delete session_id |>
        else inner);
  mret unopened.

(** Delegated children, and forks; a clone is no child. *)
Definition is_retention_child (parent : SessionId) (candidate : SessionRecord) : bool :=
  is_some_and candidate.(SessionRecord.origin) (λ origin,
    bool_decide (origin.(SessionOrigin.parent_session_id) = parent))
  || is_some candidate.(SessionRecord.source_seq)
     && bool_decide (candidate.(SessionRecord.source_session_id) = Some parent).
Definition retention_children (inner : InMemorySessionStoreInner) (parent : SessionId)
    : list SessionId :=
  SessionRecord.session_id <$> filter (λ candidate, is_retention_child parent candidate = true)
    (btree_values inner.(InMemorySessionStoreInner.records)).
(** The children not met before go on the stack, which is a list with its top first. *)
Fixpoint discover (children pending descendants : list SessionId)
    : list SessionId * list SessionId :=
  match children with
  | [] => (pending, descendants)
  | child :: children =>
      if bool_decide (child ∈ descendants) then discover children pending descendants
      else discover children (child :: pending) (descendants ++ [child])
  end.
(** [while let Some(parent) = pending.pop()]. *)
Fixpoint descend (fuel : nat) (inner : InMemorySessionStoreInner)
    (pending descendants : list SessionId) : option (list SessionId) :=
  match pending with
  | [] => Some descendants
  | parent :: pending =>
      match fuel with
      | O => None
      | S fuel =>
          let '(pending, descendants) :=
            discover (retention_children inner parent) pending descendants in
          descend fuel inner pending descendants
      end
  end.
(** The session and each record are popped once at most. *)
Definition in_memory_retention_descendants (inner : InMemorySessionStoreInner)
    (session_id : SessionId) : list SessionId :=
  reverse (default [] (descend (S (size inner.(InMemorySessionStoreInner.records))) inner
                         [session_id] [])).

(** The record of a descendant exists. *)
Definition check_closed (inner : InMemorySessionStoreInner) (session_id : SessionId)
    : Result SessionStoreError unit :=
  candidate ← record_of inner session_id;
  reject_if (bool_decide (candidate.(SessionRecord.lifecycle_status)
                            ≠ SessionLifecycleStatus.Closed))
    (SessionStoreError.SessionTreeNotClosed session_id
       candidate.(SessionRecord.lifecycle_status)).
Definition remove_session (session_id : SessionId) (inner : InMemorySessionStoreInner)
    : InMemorySessionStoreInner :=
  inner <| InMemorySessionStoreInner.records ::= delete session_id |>
        <| InMemorySessionStoreInner.entries ::= delete session_id |>
        <| InMemorySessionStoreInner.checkpoints ::= delete session_id |>.
(** A clone forgets a source that is gone. *)
Definition forget_source (deleted : list SessionId) (candidate : SessionRecord) : SessionRecord :=
  if is_some_and candidate.(SessionRecord.source_session_id)
       (λ source, bool_decide (source ∈ deleted))
  then candidate <| SessionRecord.source_session_id := None |>
  else candidate.
Definition sessions_to_delete (request : DeleteClosedSessions)
    (inner : InMemorySessionStoreInner)
    : Result SessionStoreError (SessionRecord * list SessionId) :=
  let session_id := request.(DeleteClosedSessions.session_id) in
  record ← record_of inner session_id;
  _ ← reject_if (bool_decide (record.(SessionRecord.lifecycle_status)
                                ≠ SessionLifecycleStatus.Closed))
        (SessionStoreError.SessionNotClosed session_id record.(SessionRecord.lifecycle_status));
  _ ← reject_if (is_some_and request.(DeleteClosedSessions.due_at_or_before_ms) (λ now_ms,
           bool_decide (record.(SessionRecord.retention_root_session_id)
                          ≠ record.(SessionRecord.session_id))
           || negb (is_due record now_ms)))
        (SessionStoreError.SessionRetentionNotDue record.(SessionRecord.session_id));
  let descendants := in_memory_retention_descendants inner session_id in
  let cascade := request.(DeleteClosedSessions.cascade) in
  _ ← reject_if (negb cascade && negb (bool_decide (descendants = [])))
        (SessionStoreError.SessionHasChildren session_id);
  let deleted := (if cascade then descendants else []) ++ [record.(SessionRecord.session_id)] in
  _ ← for_each (check_closed inner) deleted;
  mret (record, deleted).
Definition delete_closed_sessions (request : DeleteClosedSessions)
    : Storing (SessionRecord * list SessionId) :=
  deletion ← checking (sessions_to_delete request);
  let deleted := deletion.2 in
  _ ← modify_state (λ inner,
        (foldl (λ inner session_id, remove_session session_id inner) inner deleted)
          <| InMemorySessionStoreInner.records ::= fmap (forget_source deleted) |>);
  mret deletion.
(** The provided method of the trait. *)
Definition delete_closed_session (session_id : SessionId) : Storing SessionRecord :=
  deletion ← delete_closed_sessions
    {| DeleteClosedSessions.session_id := session_id; DeleteClosedSessions.cascade := false;
       DeleteClosedSessions.due_at_or_before_ms := None |};
  mret deletion.1.
End operations.
