(* ===== verification/Drive.v ===== *)
(** * The drive machine

    [CoreAgentDrive] owns the state of one session and decides the next action: append
    events, ask the runtimes for work, or rest ([core/drive.rs]). Nothing it appends is
    refused later: every batch of events is reduced on a scratch state first. *)
From S2P Require Import Prelude Ids Text Types Events Commands Media Externals RunState Promises.
From S2P Require Import CodeTools Compaction Approvals Toolset Replay Requests Completions.
From S2P Require Import Results Admit Codec.
Set Primitive Projections.

(** ** Actions and errors *)
Module CoreAgentAction.
Inductive CoreAgentAction : Type :=
| AppendEvents (expected_head : option SessionPosition) (events : list UncommittedStoredEvent)
| GenerateLlm (request : LlmGenerationRequest)
| CompactContext (request : ContextCompactionRequest)
| InvokeTools (request : ToolInvocationBatchRequest)
| Idle
| Closed
| StepLimitReached.
End CoreAgentAction.
Abbreviation CoreAgentAction := CoreAgentAction.CoreAgentAction.

Module CoreAgentDriveError.
Inductive CoreAgentDriveError : Type :=
| Command (error : CommandError)
| Codec (error : CodecError)
| Domain (error : DomainError)
| Planning (error : PlanningError).
End CoreAgentDriveError.
Abbreviation CoreAgentDriveError := CoreAgentDriveError.CoreAgentDriveError.

(** The harness's own words when it refused a step for what the session holds. *)
Definition refusal_message (self : CoreAgentDriveError) : option string :=
  match self with
  | CoreAgentDriveError.Domain error
  | CoreAgentDriveError.Command (CommandError.Domain error)
  | CoreAgentDriveError.Planning (PlanningError.Domain error) => Some (DomainError_message error)
  | CoreAgentDriveError.Planning (PlanningError.Rejected message) => Some message
  | CoreAgentDriveError.Command (CommandError.Rejected _) | CoreAgentDriveError.Codec _ => None
  end.

(** [?] into [CoreAgentDriveError]. *)
Definition from_command {A} : Result CommandError A → Result CoreAgentDriveError A :=
  map_err CoreAgentDriveError.Command.
Definition from_codec {A} : Result CodecError A → Result CoreAgentDriveError A :=
  map_err CoreAgentDriveError.Codec.
Definition from_domain {A} : Result DomainError A → Result CoreAgentDriveError A :=
  map_err CoreAgentDriveError.Domain.
Definition from_planning {A} : Result PlanningError A → Result CoreAgentDriveError A :=
  map_err CoreAgentDriveError.Planning.

(** ** The machine *)
Module CoreAgentDrive.
Record CoreAgentDrive : Type := {
  session_id : SessionId;
  state : CoreAgentState;
  steps_taken : N;
}.
End CoreAgentDrive.
Abbreviation CoreAgentDrive := CoreAgentDrive.CoreAgentDrive.
#[export] Instance set_CoreAgentDrive_state : Setter CoreAgentDrive.state :=
  ltac:(solve_setter CoreAgentDrive.state).
#[export] Instance set_CoreAgentDrive_steps_taken : Setter CoreAgentDrive.steps_taken :=
  ltac:(solve_setter CoreAgentDrive.steps_taken).

Abbreviation Driving := (Reducer CoreAgentDrive CoreAgentDriveError) (only parsing).
Definition from_replayed (session_id : SessionId) (state : CoreAgentState) : CoreAgentDrive :=
  {| CoreAgentDrive.session_id := session_id; CoreAgentDrive.state := state;
     CoreAgentDrive.steps_taken := 0 |}.
Definition head (self : CoreAgentDrive) : option SessionPosition :=
  self.(CoreAgentDrive.state).(CoreAgentState.reduced_to).

Definition classify_core_agent_action (state : CoreAgentState) : CoreAgentAction :=
  if bool_decide (state.(CoreAgentState.lifecycle).(LifecycleState.status)
                    = CoreAgentStatus.Closed)
  then CoreAgentAction.Closed else CoreAgentAction.Idle.

(** ** Side effects of a run's end *)
Definition terminal_run_id_for_proposal (p : CoreAgentEventProposal) : option RunId :=
  match p.(CoreAgentEventProposal.event) with
  | CoreAgentEvent.Run (RunEvent.Completed run_id _)
  | CoreAgentEvent.Run (RunEvent.Failed run_id _)
  | CoreAgentEvent.Run (RunEvent.Cancelled run_id)
  | CoreAgentEvent.Run (RunEvent.ForceCancelled run_id) => Some run_id
  | _ => None
  end.
(** The promises a run leaves pending, that are not cancelled yet. *)
Fixpoint cancel_promises (run_id : RunId) (cancelled : list PromiseId) (promises : list Promise)
    : list CoreAgentEventProposal * list PromiseId :=
  match promises with
  | [] => ([], cancelled)
  | promise :: promises =>
      let promise_id := promise.(Promise.promise_id) in
      if bool_decide (promise.(Promise.status) ≠ PromiseStatus.Pending)
         || bool_decide (promise_id ∈ cancelled)
      then cancel_promises run_id cancelled promises
      else let '(proposals, cancelled) :=
             cancel_promises run_id (promise_id :: cancelled) promises in
           (proposal (run_joins run_id)
              (CoreAgentEvent.Promise (PromiseEvent.Cancelled promise_id)) :: proposals,
            cancelled)
  end.
Fixpoint terminal_side_effects (state : CoreAgentState) (cancelled : list PromiseId)
    (proposals : list CoreAgentEventProposal) : list CoreAgentEventProposal :=
  match proposals with
  | [] => []
  | p :: proposals =>
      match terminal_run_id_for_proposal p with
      | None => p :: terminal_side_effects state cancelled proposals
      | Some run_id =>
          let '(cancellations, cancelled) := cancel_promises run_id cancelled
            (PromiseComponentState_pending_for_run state.(CoreAgentState.promises) run_id) in
          p :: cancellations ++ terminal_side_effects state cancelled proposals
      end
  end.
Definition with_run_terminal_side_effects (state : CoreAgentState)
    (proposals : list CoreAgentEventProposal) : list CoreAgentEventProposal :=
  terminal_side_effects state [] proposals.

(** ** Appending *)
Section drive.
Context `{!Externals, !EventJson}.

(** One round of the dry run: the stored event, decoded at the position that follows the
    scratch state. *)
Definition dry_run_entry (state : CoreAgentState) (event : UncommittedStoredEvent)
    : Result CoreAgentDriveError CoreAgentEntry :=
  joins ← from_codec (decode_joins event.(UncommittedStoredEvent.joins));
  decoded ← from_codec (decode_event event.(UncommittedStoredEvent.event));
  mret {| CoreAgentEntry.position :=
            {| SessionPosition.seq := following_seq state.(CoreAgentState.reduced_to) |};
          CoreAgentEntry.observed_at_ms := event.(UncommittedStoredEvent.observed_at_ms);
          CoreAgentEntry.joins := joins;
          CoreAgentEntry.event := decoded |}.
Fixpoint dry_run_stored (state : CoreAgentState) (events : list UncommittedStoredEvent)
    : Result CoreAgentDriveError unit :=
  match events with
  | [] => mret tt
  | event :: events =>
      entry ← dry_run_entry state event;
      match apply_event entry state with
      | (Ok _, state) => dry_run_stored state events
      | (Err error, _) => mthrow (CoreAgentDriveError.Domain error)
      end
  end.

Definition append_action (self : CoreAgentDrive) (proposals : list CoreAgentEventProposal)
    (observed_at_ms : N) : Result CoreAgentDriveError CoreAgentAction :=
  let state := self.(CoreAgentDrive.state) in
  if bool_decide (proposals = []) then mret (classify_core_agent_action state) else
  events ← from_codec (mapM (λ p, encode_uncommitted (into_uncommitted p observed_at_ms))
    (with_run_terminal_side_effects state proposals));
  _ ← dry_run_stored state events;
  mret (CoreAgentAction.AppendEvents state.(CoreAgentState.reduced_to) events).

(** ** Commands *)
Definition admit_drive_command (command : CoreAgentCommand) (observed_at_ms : N)
    : Driving CoreAgentAction :=
  checking (λ self,
    proposals ← from_command
      (admit_command self.(CoreAgentDrive.state) command observed_at_ms);
    append_action self proposals observed_at_ms).

(** ** The next action *)
Definition increment_steps (max_steps : option N) : Driving bool :=
  self ← get_state;
  if match max_steps with
     | Some max_steps => (max_steps <=? self.(CoreAgentDrive.steps_taken))%N
     | None => false
     end
  then mret false
  else
    _ ← modify_state (λ self, self <| CoreAgentDrive.steps_taken ::= λ n,
          saturating_add_u64 n 1 |>);
    mret true.
(** [if !self.increment_steps(max_steps) { return Ok(StepLimitReached); }]. *)
Definition stepping (max_steps : option N) (action : Driving CoreAgentAction)
    : Driving CoreAgentAction :=
  more ← increment_steps max_steps;
  if (more : bool) then action else mret CoreAgentAction.StepLimitReached.

Definition next_action_with_limit (observed_at_ms : N) (max_steps : option N)
    : Driving CoreAgentAction :=
  self ← get_state;
  let state := self.(CoreAgentDrive.state) in
  let session_id := self.(CoreAgentDrive.session_id) in
  proposals ← lift_result (from_planning (plan_next state));
  if negb (bool_decide (proposals = [])) then
    stepping max_steps (checking (λ self, append_action self proposals observed_at_ms)) else
  generation ← lift_result (from_domain (next_generation_request session_id state));
  match generation with
  | Some request => stepping max_steps (mret (CoreAgentAction.GenerateLlm request))
  | None =>
  compaction ← lift_result (from_domain (next_context_compaction_request session_id state));
  match compaction with
  | Some request => stepping max_steps (mret (CoreAgentAction.CompactContext request))
  | None =>
  tools ← lift_result (from_domain (next_tool_batch_request session_id state));
  match tools with
  | Some request => stepping max_steps (mret (CoreAgentAction.InvokeTools request))
  | None => mret (classify_core_agent_action state)
  end end end.
Definition next_action (observed_at_ms max_steps : N) : Driving CoreAgentAction :=
  next_action_with_limit observed_at_ms (Some max_steps).
Definition next_action_unbounded (observed_at_ms : N) : Driving CoreAgentAction :=
  next_action_with_limit observed_at_ms None.

(** ** Resuming *)
(** All entries are decoded before the first one is applied. *)
Definition apply_to_drive (entry : CoreAgentEntry) : Driving unit := λ self,
  let '(result, state) := apply_event entry self.(CoreAgentDrive.state) in
  (from_domain result, self <| CoreAgentDrive.state := state |>).
Definition resume_appended_entries (entries : list StoredSessionEntry)
    : Driving (list CoreAgentEntry) :=
  decoded ← lift_result (from_codec (mapM decode_entry entries));
  _ ← for_each apply_to_drive decoded;
  mret decoded.

(** [let proposals = ..?; self.append_action(proposals, observed_at_ms)]. *)
Definition resume_with (proposals : CoreAgentDrive → Result DomainError (list CoreAgentEventProposal))
    (observed_at_ms : N) : Driving CoreAgentAction :=
  checking (λ self,
    proposals ← from_domain (proposals self);
    append_action self proposals observed_at_ms).
Definition resume_generation (result : LlmGenerationResult) (observed_at_ms : N)
    : Driving CoreAgentAction :=
  resume_with (λ self, generation_result_proposals self.(CoreAgentDrive.state) result)
    observed_at_ms.
Definition resume_context_compaction (result : ContextCompactionResult) (observed_at_ms : N)
    : Driving CoreAgentAction :=
  resume_with (λ self,
    _ ← reject_if (bool_decide (result.(ContextCompactionResult.session_id)
                                  ≠ self.(CoreAgentDrive.session_id)))
          (InvariantViolation "context compaction result session {} does not match drive session {}");
    context_compaction_result_proposals self.(CoreAgentDrive.state) result) observed_at_ms.
Definition resume_tool_batch (result : ToolInvocationBatchResult) (observed_at_ms : N)
    : Driving CoreAgentAction :=
  resume_with (λ self, tool_batch_result_proposals self.(CoreAgentDrive.session_id)
    self.(CoreAgentDrive.state) result) observed_at_ms.

(** The one terminal result of a call, as a result of the active batch. *)
Definition call_result_of_batch (state : CoreAgentState) (batch_id : ToolBatchId)
    (result : ToolInvocationResult) : Result DomainError ToolInvocationBatchResult :=
  run ← ok_or (active_run state)
    (InvariantViolation "tool call result requires an active run");
  _ ← reject_if (bool_decide (run.(ActiveRun.active_tool_batch_id) ≠ Some batch_id))
        (InvariantViolation "tool call result does not match active tool batch");
  batch ← ok_or (run.(ActiveRun.tool_batches) !! batch_id)
    (InvariantViolation "tool batch {} is missing");
  mret (result_of_batch batch [result]).
Definition resume_tool_call (batch_id : ToolBatchId) (result : ToolInvocationResult)
    (observed_at_ms : N) : Driving CoreAgentAction :=
  self ← get_state;
  result ← lift_result (from_domain
    (call_result_of_batch self.(CoreAgentDrive.state) batch_id result));
  resume_tool_batch result observed_at_ms.

Definition park_tool_batch (batch_id : ToolBatchId) (call_id : ToolCallId)
    (completed_results : list ToolInvocationResult) (spec : AwaitSpec) (observed_at_ms : N)
    : Driving CoreAgentAction :=
  resume_with (λ self, tool_batch_parked_proposals self.(CoreAgentDrive.session_id)
    self.(CoreAgentDrive.state) batch_id call_id completed_results spec) observed_at_ms.
Definition resume_tool_batch_outcome (outcome : ToolBatchOutcome) (observed_at_ms : N)
    : Driving CoreAgentAction :=
  match outcome with
  | ToolBatchOutcome.Completed result => resume_tool_batch result observed_at_ms
  | ToolBatchOutcome.Parked batch_id call_id completed_results spec =>
      park_tool_batch batch_id call_id completed_results spec observed_at_ms
  end.

(** ** Runtime approvals *)
Definition validate_gated_calls (batch : ActiveToolBatch)
    (approvals : list RuntimeMcpApprovalRequest) : Result DomainError unit :=
  let mismatch :=
    InvariantViolation "runtime MCP approval does not match a pending active call" in
  for_each_fresh RuntimeMcpApprovalRequest.call_id mismatch
    (λ approval, reject_if
       (negb (pending_call_in batch approval.(RuntimeMcpApprovalRequest.call_id))) mismatch)
    no_check [] approvals.
Definition runtime_mcp_approval_proposals (state : CoreAgentState) (batch_id : ToolBatchId)
    (approvals : list RuntimeMcpApprovalRequest)
    : Result DomainError (list CoreAgentEventProposal) :=
  _ ← reject_if (bool_decide (approvals = []))
        (InvariantViolation "runtime MCP approval park requires at least one gated call");
  run ← ok_or (active_run state)
    (InvariantViolation "runtime MCP approval requires an active run");
  batch ← ok_or (run.(ActiveRun.tool_batches) !! batch_id)
    (InvariantViolation "tool batch {batch_id} is missing");
  _ ← reject_if (bool_decide (run.(ActiveRun.active_tool_batch_id) ≠ Some batch_id))
        (InvariantViolation "runtime MCP approval does not match the active tool batch");
  _ ← validate_gated_calls batch approvals;
  let run_id := batch.(ActiveToolBatch.run_id) in
  let joins call_id := work_joins run_id batch.(ActiveToolBatch.turn_id)
    (Some batch.(ActiveToolBatch.batch_id)) call_id in
  requests ← approval_requests_after
    state.(CoreAgentState.id_cursors).(IdCursors.last_approval_id) run_id
    ((λ approval,
        (joins (Some approval.(RuntimeMcpApprovalRequest.call_id)),
         approval.(RuntimeMcpApprovalRequest.subject),
         ApprovalContinuation.RuntimeMcp batch_id approval.(RuntimeMcpApprovalRequest.call_id)))
       <$> approvals);
  mret (requests ++ [proposal (joins None)
          (CoreAgentEvent.Approval (ApprovalEvent.RunParked run_id))]).
Definition request_runtime_mcp_approvals (batch_id : ToolBatchId)
    (approvals : list RuntimeMcpApprovalRequest) (observed_at_ms : N)
    : Driving CoreAgentAction :=
  resume_with (λ self,
    runtime_mcp_approval_proposals self.(CoreAgentDrive.state) batch_id approvals)
    observed_at_ms.
End drive.
