(* ===== verification/Frames.v ===== *)
(** * Frames

    What each reducer leaves alone. An invariant over some part of the state then only
    has to be proved for the reducers that write to that part. *)
From S2P Require Import Prelude Ids Text Types Events Media Externals RunState Config Promises.
From S2P Require Import Sessions Contexts Compaction ToolSpecs CodeTools ContextReducer Llm Turns.
From S2P Require Import Approvals WorkflowTools Toolset ContextPlan Runs Replay.

Create HintDb reducers.
#[export] Hint Unfold apply_promise_event pending_promise_mut apply_lifecycle_event
  apply_approval_event active_run_mut put_active_run apply_turn_event complete_generation
  active_turn_mut mark_current_context_consumed_by_turn apply_environment_event
  apply_tool_config_event bump_tooling_revision apply_tool_event start_tool_batch start_tool_call
  complete_tool_call park_tool_batch unpark_tool_batch complete_tool_batch
  apply_workflow_tool_config_event apply_workflow_tool_event record_failure
  apply_code_tool_event admit_code_call apply_run_event finish_active_run accept_run start_run
  accept_steering cancel_queued apply_context_event validate_base_revision bump_context_revision
  apply_key_prefix_replaced remove_context_entries request_compaction finish_compaction
  : reducers.

(** Step through a reducer down to the writes it makes. *)
Ltac reduce_event := autounfold with reducers; wp_steps.

(** ** The parts of a run that never change *)
Definition run_identity (run : ActiveRun) :=
  (run.(ActiveRun.run_id), run.(ActiveRun.submission_id), run.(ActiveRun.source),
   run.(ActiveRun.run_config), run.(ActiveRun.notify_on_terminal),
   run.(ActiveRun.first_seq), run.(ActiveRun.accepted_at_ms), run.(ActiveRun.started_at_ms)).

(** The turn and the batch a run is working on. *)
Definition run_work (run : ActiveRun) :=
  (run.(ActiveRun.run_id), run.(ActiveRun.status), run.(ActiveRun.active_turn_id),
   run.(ActiveRun.turns), run.(ActiveRun.active_tool_batch_id), run.(ActiveRun.tool_batches),
   run.(ActiveRun.completed_tool_batches), run.(ActiveRun.parked_tool_batch)).

(** The approvals a run asked for. *)
Definition run_approvals (run : ActiveRun) := (run.(ActiveRun.run_id), run.(ActiveRun.approvals)).

(** The records of runs are as they were, the active one up to its progress. *)
Definition keeps_runs (s s' : CoreAgentState) : Prop :=
  let runs := s.(CoreAgentState.runs) in let runs' := s'.(CoreAgentState.runs) in
  runs'.(RunsState.queued) = runs.(RunsState.queued) ∧
  runs'.(RunsState.finished) = runs.(RunsState.finished) ∧
  runs'.(RunsState.pruned_through) = runs.(RunsState.pruned_through) ∧
  run_identity <$> runs'.(RunsState.active) = run_identity <$> runs.(RunsState.active).

Lemma keeps_runs_refl s : keeps_runs s s.
Proof. by split_and!. Qed.
Lemma keeps_runs_trans s1 s2 s3 : keeps_runs s1 s2 → keeps_runs s2 s3 → keeps_runs s1 s3.
Proof. unfold keeps_runs. intros (?&?&?&?) (?&?&?&?). split_and!; congruence. Qed.
Lemma keeps_runs_eq s s' :
  s'.(CoreAgentState.runs) = s.(CoreAgentState.runs) → keeps_runs s s'.
Proof. unfold keeps_runs. intros ->. by split_and!. Qed.

Lemma active_run_ref_Ok s run_id run :
  active_run_ref s run_id = Ok run ↔
  s.(CoreAgentState.runs).(RunsState.active) = Some run ∧ run.(ActiveRun.run_id) = run_id.
Proof.
  unfold active_run_ref. split.
  - intros H. simplify_ok. by split.
  - intros [-> <-]. simpl. unfold reject_if. by rewrite bool_decide_eq_false_2 by auto.
Qed.

Lemma keeps_runs_set_active s run run' :
  s.(CoreAgentState.runs).(RunsState.active) = Some run →
  run_identity run' = run_identity run → keeps_runs s (set_active_run run' s).
Proof. intros Ha Hi. unfold keeps_runs; simpl. rewrite Ha. simpl. by rewrite Hi. Qed.

Lemma keeps_runs_update f s :
  (∀ run, run_identity (f run) = run_identity run) → keeps_runs s (update_active_run f s).
Proof.
  intros Hf. unfold keeps_runs; simpl. split_and!; try done.
  destruct (RunsState.active _); simpl; [by rewrite Hf|done].
Qed.

(** ** Sweeps *)
Section sweeps.
Implicit Types s : CoreAgentState.

(** What a sweep keeps: everything but promises, workflow tools and code tools. *)
Definition keeps_but_work s s' : Prop :=
  s'.(CoreAgentState.reduced_to) = s.(CoreAgentState.reduced_to) ∧
  s'.(CoreAgentState.id_cursors) = s.(CoreAgentState.id_cursors) ∧
  s'.(CoreAgentState.lifecycle) = s.(CoreAgentState.lifecycle) ∧
  s'.(CoreAgentState.runs) = s.(CoreAgentState.runs) ∧
  s'.(CoreAgentState.context) = s.(CoreAgentState.context) ∧
  s'.(CoreAgentState.environment) = s.(CoreAgentState.environment) ∧
  s'.(CoreAgentState.tooling) = s.(CoreAgentState.tooling).

Lemma prune_finished_invocations_frame s :
  keeps_but_work s (prune_finished_invocations s) ∧
  (prune_finished_invocations s).(CoreAgentState.promises) = s.(CoreAgentState.promises).
Proof. unfold prune_finished_invocations. case_bool_decide; by split_and!. Qed.

Lemma prune_finished_work_frame s : keeps_but_work s (prune_finished_work s).
Proof. apply (prune_finished_invocations_frame s). Qed.
Lemma prune_finished_work_promises s :
  (prune_finished_work s).(CoreAgentState.promises)
  = prune_promises s.(CoreAgentState.promises).
Proof.
  rewrite <- (proj2 (prune_finished_invocations_frame s)). reflexivity.
Qed.
End sweeps.

(** The bindings of workflow tools and the declaration they came with, which only
    configuration writes to. *)
Definition bindings_of (s : CoreAgentState) :=
  let tools := s.(CoreAgentState.workflow_tools) in
  (tools.(WorkflowToolState.session_universe_id), tools.(WorkflowToolState.lifecycle_controller),
   tools.(WorkflowToolState.declaration_version),
   tools.(WorkflowToolState.declared_creation_fingerprint), tools.(WorkflowToolState.bindings),
   tools.(WorkflowToolState.system_binding_ids)).
Lemma prune_finished_work_bindings s : bindings_of (prune_finished_work s) = bindings_of s.
Proof.
  change (bindings_of (prune_finished_invocations s) = bindings_of s).
  unfold prune_finished_invocations. by case_bool_decide.
Qed.

(** ** Frame relations

    [keeps parts s s']: every projection in [parts] has the same value in [s'] as in
    [s]. The parts are given by their index, so that one relation serves every
    reducer. *)
Module Part.
Inductive Part : Type :=
| reduced_to | lifecycle | runs | run_records | entries | context | environment | tooling
| promises | workflow_tools | code_tools | run_cursor | entry_cursor | promise_cursor
| turn_cursor | context_revision | run_work | bindings | approvals.
End Part.
Abbreviation Part := Part.Part.

Definition keeps_part (part : Part) (s s' : CoreAgentState) : Prop :=
  match part with
  | Part.reduced_to => s'.(CoreAgentState.reduced_to) = s.(CoreAgentState.reduced_to)
  | Part.lifecycle => s'.(CoreAgentState.lifecycle) = s.(CoreAgentState.lifecycle)
  | Part.runs => s'.(CoreAgentState.runs) = s.(CoreAgentState.runs)
  | Part.run_records => keeps_runs s s'
  | Part.entries => context_entries s' = context_entries s
  | Part.context => s'.(CoreAgentState.context) = s.(CoreAgentState.context)
  | Part.environment => s'.(CoreAgentState.environment) = s.(CoreAgentState.environment)
  | Part.tooling => s'.(CoreAgentState.tooling) = s.(CoreAgentState.tooling)
  | Part.promises => s'.(CoreAgentState.promises) = s.(CoreAgentState.promises)
  | Part.workflow_tools =>
      s'.(CoreAgentState.workflow_tools) = s.(CoreAgentState.workflow_tools)
  | Part.bindings => bindings_of s' = bindings_of s
  | Part.code_tools => s'.(CoreAgentState.code_tools) = s.(CoreAgentState.code_tools)
  | Part.context_revision => s'.(CoreAgentState.context).(ContextState.revision)
                             = s.(CoreAgentState.context).(ContextState.revision)
  | Part.run_work => run_work <$> s'.(CoreAgentState.runs).(RunsState.active)
                     = run_work <$> s.(CoreAgentState.runs).(RunsState.active)
  | Part.approvals => run_approvals <$> s'.(CoreAgentState.runs).(RunsState.active)
                      = run_approvals <$> s.(CoreAgentState.runs).(RunsState.active)
  | Part.turn_cursor => s'.(CoreAgentState.id_cursors).(IdCursors.last_turn_id)
                        = s.(CoreAgentState.id_cursors).(IdCursors.last_turn_id)
  | Part.run_cursor => s'.(CoreAgentState.id_cursors).(IdCursors.last_run_id)
                       = s.(CoreAgentState.id_cursors).(IdCursors.last_run_id)
  | Part.entry_cursor => s'.(CoreAgentState.id_cursors).(IdCursors.last_context_entry_id)
                         = s.(CoreAgentState.id_cursors).(IdCursors.last_context_entry_id)
  | Part.promise_cursor => s'.(CoreAgentState.id_cursors).(IdCursors.last_promise_id)
                           = s.(CoreAgentState.id_cursors).(IdCursors.last_promise_id)
  end.
Definition keeps (parts : list Part) (s s' : CoreAgentState) : Prop :=
  Forall (λ part, keeps_part part s s') parts.

#[export] Instance keeps_part_preorder part : PreOrder (keeps_part part).
Proof.
  split.
  - intros s. by destruct part.
  - intros s1 s2 s3. destruct part; simpl; try congruence. apply keeps_runs_trans.
Qed.
#[export] Instance keeps_preorder parts : PreOrder (keeps parts).
Proof.
  split.
  - intros s. apply Forall_true. intros. reflexivity.
  - intros s1 s2 s3 H1 H2. unfold keeps in *. rewrite Forall_forall in *.
    intros part Hp. etransitivity; eauto.
Qed.

(** What the writes to a run and to the context keep. *)
Definition other_parts : list Part :=
  [Part.reduced_to; Part.lifecycle; Part.environment; Part.tooling; Part.promises;
   Part.workflow_tools; Part.code_tools; Part.run_cursor; Part.promise_cursor;
   Part.turn_cursor; Part.bindings].

#[export] Instance Part_eq_dec : EqDecision Part.
Proof. solve_decision. Defined.
(** Every part, and the parts a reducer keeps that writes to some. *)
Definition all_parts : list Part :=
  [Part.runs; Part.run_records; Part.run_work; Part.approvals; Part.context; Part.entries;
   Part.context_revision; Part.entry_cursor] ++ other_parts.
Definition all_but (written : list Part) : list Part :=
  filter (λ part, part ∉ written) all_parts.

(** What a part says about another: the runs include their records, the context its
    entries. *)
Definition part_covers (p q : Part) : bool :=
  match p, q with
  | Part.runs, Part.run_records | Part.runs, Part.run_work | Part.runs, Part.approvals
  | Part.context, Part.entries
  | Part.context, Part.context_revision | Part.workflow_tools, Part.bindings => true
  | _, _ => bool_decide (p = q)
  end.
Lemma part_covers_keeps p q s s' :
  part_covers p q = true → keeps_part p s s' → keeps_part q s s'.
Proof.
  destruct p, q; intros Hc; try discriminate Hc; simpl; try done; [apply keeps_runs_eq| | | | |];
    unfold context_entries, bindings_of; congruence.
Qed.
Lemma keeps_sub parts parts' s s' :
  forallb (λ q, existsb (λ p, part_covers p q) parts) parts' = true →
  keeps parts s s' → keeps parts' s s'.
Proof.
  unfold keeps. rewrite forallb_forall, !Forall_forall. intros Hs Hk q Hq.
  apply list_elem_of_In, Hs, existsb_exists in Hq as (p & Hp%list_elem_of_In & Hc).
  eapply part_covers_keeps; eauto.
Qed.

Lemma keeps_lookup parts part s s' :
  keeps parts s s' → existsb (λ p, part_covers p part) parts = true → keeps_part part s s'.
Proof.
  unfold keeps. rewrite Forall_forall, existsb_exists. intros Hk (p & Hp%list_elem_of_In & Hc).
  eapply part_covers_keeps; eauto.
Qed.

Lemma prune_finished_work_part part s :
  part ∉ [Part.promises; Part.workflow_tools; Part.code_tools] →
  keeps_part part s (prune_finished_work s).
Proof.
  destruct (prune_finished_work_frame s) as (?&?&?&?&?&?&?).
  unfold keeps_part, context_entries.
  destruct part; intros Hp; try congruence; try (by apply keeps_runs_eq);
    [set_solver..|apply prune_finished_work_bindings].
Qed.

Lemma mark_consumed_identity turn_id ids run :
  run_identity (mark_context_entries_consumed_by_turn turn_id ids run) = run_identity run.
Proof. unfold mark_context_entries_consumed_by_turn. by case_match. Qed.
Lemma record_recovery_attempt_identity run :
  run_identity (record_recovery_attempt run) = run_identity run.
Proof. unfold record_recovery_attempt. by repeat case_match. Qed.
Create Rewrite HintDb identity.
Lemma record_recovery_attempt_work run : run_work (record_recovery_attempt run) = run_work run.
Proof. unfold record_recovery_attempt. by repeat case_match. Qed.
Lemma mark_consumed_work turn_id ids run :
  run_work (mark_context_entries_consumed_by_turn turn_id ids run) = run_work run.
Proof. unfold mark_context_entries_consumed_by_turn. by case_match. Qed.
Lemma record_recovery_attempt_approvals run :
  run_approvals (record_recovery_attempt run) = run_approvals run.
Proof. unfold record_recovery_attempt. by repeat case_match. Qed.
Lemma mark_consumed_approvals turn_id ids run :
  run_approvals (mark_context_entries_consumed_by_turn turn_id ids run) = run_approvals run.
Proof. unfold mark_context_entries_consumed_by_turn. by case_match. Qed.
#[export] Hint Rewrite record_recovery_attempt_approvals mark_consumed_approvals : identity.
#[export] Hint Rewrite record_recovery_attempt_work mark_consumed_work : identity.
#[export] Hint Rewrite mark_consumed_identity record_recovery_attempt_identity : identity.

Lemma keeps_set_active_part part s run_id run run' :
  active_run_ref s run_id = Ok run → run_identity run' = run_identity run →
  part ∉ [Part.runs; Part.run_work; Part.approvals] → keeps_part part s (set_active_run run' s).
Proof.
  intros [Ha _]%active_run_ref_Ok Hi Hp. destruct part; try done; [set_solver| |set_solver..].
  by eapply keeps_runs_set_active.
Qed.
Lemma keeps_set_active_work s run_id run run' :
  active_run_ref s run_id = Ok run → run_work run' = run_work run →
  keeps_part Part.run_work s (set_active_run run' s).
Proof.
  intros [Ha _]%active_run_ref_Ok Hw. simpl. rewrite Ha. simpl. by rewrite Hw.
Qed.
Lemma keeps_set_active_approvals s run_id run run' :
  active_run_ref s run_id = Ok run → run_approvals run' = run_approvals run →
  keeps_part Part.approvals s (set_active_run run' s).
Proof.
  intros [Ha _]%active_run_ref_Ok Hw. simpl. rewrite Ha. simpl. by rewrite Hw.
Qed.
Lemma keeps_update_active_approvals s f :
  (∀ run, run_approvals (f run) = run_approvals run) →
  keeps_part Part.approvals s (update_active_run f s).
Proof. intros Hf. simpl. destruct (RunsState.active _); simpl; [by rewrite Hf|done]. Qed.
Lemma keeps_update_active_part part s f :
  (∀ run, run_identity (f run) = run_identity run) → part ∉ [Part.runs; Part.run_work; Part.approvals] →
  keeps_part part s (update_active_run f s).
Proof.
  intros Hf Hp. destruct part; try done; [set_solver| |set_solver..]. by apply keeps_runs_update.
Qed.
Lemma keeps_update_active_work s f :
  (∀ run, run_work (f run) = run_work run) → keeps_part Part.run_work s (update_active_run f s).
Proof. intros Hf. simpl. destruct (RunsState.active _); simpl; [by rewrite Hf|done]. Qed.
Lemma keeps_set_cursors_part part s f :
  part ∉ [Part.run_cursor; Part.entry_cursor; Part.promise_cursor; Part.turn_cursor] →
  keeps_part part s (s <| CoreAgentState.id_cursors ::= f |>).
Proof. destruct part; intros Hp; try done; set_solver. Qed.
Lemma keeps_set_context_part part s f :
  part ∉ [Part.entries; Part.context; Part.context_revision] → keeps_part part s (set_context f s).
Proof. destruct part; intros Hp; try done; set_solver. Qed.
Lemma keeps_record_generation_part part s facts :
  part ≠ Part.context → keeps_part part s (record_generation facts s).
Proof.
  intros Hp. unfold record_generation. repeat case_match; destruct part; try done;
    by apply keeps_runs_eq.
Qed.

(** Settle a frame goal, from the last write back to the first. *)
Ltac identity := intros; autorewrite with identity; done.
Create HintDb frame_writes.
#[export] Hint Unfold push_entry set_entries set_compaction set_phase
  remove_context_entry_by_key remove_context_entries_by_key_prefix drop_superseded_beyond_cap
  settle_compaction : frame_writes.
Ltac active_found :=
  first [eassumption | apply active_run_ref_Ok; split; [eassumption|reflexivity]].
Ltac frame_part :=
  cbv beta zeta;
  lazymatch goal with
  | |- keeps_part _ ?s ?s => reflexivity
  | |- keeps_part _ _ (prune_finished_work _) =>
      etransitivity; [|apply prune_finished_work_part; set_solver]; frame_part
  | |- keeps_part Part.run_work _ (set_active_run _ _) =>
      etransitivity; [|eapply keeps_set_active_work; [active_found|identity]]; frame_part
  | |- keeps_part Part.approvals _ (set_active_run _ _) =>
      etransitivity; [|eapply keeps_set_active_approvals; [active_found|identity]]; frame_part
  | |- keeps_part Part.approvals _ (update_active_run _ _) =>
      etransitivity; [|apply keeps_update_active_approvals; identity]; frame_part
  | |- keeps_part _ _ (set_active_run _ _) =>
      etransitivity; [|eapply keeps_set_active_part; [active_found|identity|set_solver]];
      frame_part
  | |- keeps_part Part.run_work _ (update_active_run _ _) =>
      etransitivity; [|apply keeps_update_active_work; identity]; frame_part
  | |- keeps_part _ _ (update_active_run _ _) =>
      etransitivity; [|apply keeps_update_active_part; [identity|set_solver]]; frame_part
  | |- keeps_part _ _ (set_context _ ?s) =>
      transitivity s; [|first [reflexivity | apply keeps_set_context_part; set_solver]];
      frame_part
  | |- keeps_part _ _ (field_setter CoreAgentState.id_cursors _ ?s) =>
      transitivity s; [|first [reflexivity | apply keeps_set_cursors_part; set_solver]];
      frame_part
  | |- keeps_part _ _ (record_generation _ _) =>
      etransitivity; [|by apply keeps_record_generation_part]; frame_part
  | |- keeps_part _ _ (match ?c with _ => _ end) => destruct c; frame_part
  | |- _ => first [done | apply keeps_runs_eq; done
                  | progress autounfold with frame_writes; frame_part]
  end.
Ltac frame_leaf :=
  lazymatch goal with
  | |- keeps ?parts ?s ?s' =>
      let l := (eval vm_compute in parts) in change (keeps l s s')
  end;
  repeat (constructor; [frame_part|]); constructor.

(** ** One lemma per reducer *)
Section frames.
Context `{!Externals}.
Implicit Types s : CoreAgentState.

Lemma apply_promise_event_frame e s :
  wp (apply_promise_event e) (λ _, keeps (all_but [Part.promises; Part.promise_cursor]) s) s.
Proof. reduce_event; frame_leaf. Qed.
Lemma apply_lifecycle_event_frame e s :
  wp (apply_lifecycle_event e) (λ _, keeps (all_but [Part.lifecycle]) s) s.
Proof. reduce_event; frame_leaf. Qed.
Lemma apply_approval_event_frame e at_ms s :
  wp (apply_approval_event e at_ms) (λ _, keeps (all_but [Part.runs; Part.run_work; Part.approvals]) s) s.
Proof. reduce_event; simplify_ok; frame_leaf. Qed.
Lemma apply_environment_event_frame e s :
  wp (apply_environment_event e) (λ _, keeps (all_but [Part.environment]) s) s.
Proof. reduce_event; frame_leaf. Qed.
Lemma apply_tool_config_event_frame e s :
  wp (apply_tool_config_event e) (λ _, keeps (all_but [Part.tooling]) s) s.
Proof. reduce_event; frame_leaf. Qed.
Lemma apply_workflow_tool_config_event_frame e s :
  wp (apply_workflow_tool_config_event e)
    (λ _, keeps (all_but [Part.workflow_tools; Part.bindings]) s) s.
Proof. reduce_event; frame_leaf. Qed.
Lemma apply_workflow_tool_event_frame e s :
  wp (apply_workflow_tool_event e) (λ _, keeps (all_but [Part.workflow_tools]) s) s.
Proof. reduce_event; frame_leaf. Qed.
Lemma apply_code_tool_event_frame e s :
  wp (apply_code_tool_event e) (λ _, keeps (all_but [Part.code_tools; Part.promise_cursor]) s) s.
Proof. reduce_event; frame_leaf. Qed.
Lemma apply_run_event_frame e seq at_ms s :
  wp (apply_run_event e seq at_ms) (λ _, keeps (all_but [Part.runs; Part.run_records;
    Part.run_work; Part.approvals; Part.run_cursor; Part.promises; Part.workflow_tools;
    Part.code_tools]) s) s.
Proof. reduce_event; frame_leaf. Qed.
Lemma apply_tool_event_frame e s :
  wp (apply_tool_event e) (λ _, keeps (all_but [Part.runs; Part.run_work; Part.approvals; Part.promises;
    Part.workflow_tools; Part.code_tools]) s) s.
Proof. reduce_event; frame_leaf. Qed.
Lemma apply_turn_event_frame e s :
  wp (apply_turn_event e) (λ _, keeps (all_but
    [Part.runs; Part.run_work; Part.approvals; Part.turn_cursor; Part.context]) s) s.
Proof. reduce_event; simplify_ok; frame_leaf. Qed.

Definition context_frame : list Part :=
  Part.run_records :: Part.run_work :: Part.approvals :: Part.context_revision :: other_parts.

Lemma record_entry_materialization_frame entry s :
  wp (record_entry_materialization entry)
    (λ _, keeps (Part.entries :: Part.entry_cursor :: context_frame) s) s.
Proof.
  unfold record_entry_materialization, record_run_input, record_steering.
  reduce_event; frame_leaf.
Qed.
Lemma settle_key_frame entry s :
  wp (settle_key entry) (λ _, keeps context_frame s) s.
Proof. unfold settle_key. reduce_event; frame_leaf. Qed.

Lemma apply_entry_frame entry s :
  wp (apply_entry entry) (λ _, keeps context_frame s) s.
Proof.
  unfold apply_entry. wp_steps.
  eapply wp_mono; [apply record_entry_materialization_frame|].
  intros ? s1 [_ [_ Hs1]%Forall_cons]%Forall_cons. wp_steps.
  eapply wp_mono; [apply settle_key_frame|]. intros ? s2 Hs2.
  wp_steps; (etransitivity; [exact Hs1|]); (etransitivity; [exact Hs2|]); frame_leaf.
Qed.
Lemma apply_entries_applied_frame entries s :
  wp (apply_entries_applied entries) (λ _, keeps context_frame s) s.
Proof.
  unfold apply_entries_applied. wp_steps. apply wp_for_each; [|reflexivity].
  intros entry s1 _ Hs1. eapply wp_mono; [apply apply_entry_frame|].
  intros ? s2 Hs2. by etransitivity.
Qed.

Lemma remove_keys_frame keys s :
  wp (E:=DomainError)
    (for_each (λ key, modify_state (remove_context_entry_by_key key)) keys)
    (λ _, keeps context_frame s) s.
Proof.
  apply wp_for_each; [|reflexivity]. intros key s1 _ Hs1. wp_steps.
  etransitivity; [exact Hs1|]. frame_leaf.
Qed.

End frames.

(** Use a lemma about the loop the goal starts with. *)
Ltac wp_call :=
  eapply wp_mono;
    [first [apply apply_entries_applied_frame | apply remove_keys_frame]
    |intros ? ? ?; cbv beta in *; wp_steps].

Section replayed.
Context `{!Externals}.
Implicit Types s : CoreAgentState.

Lemma apply_context_event_frame e s :
  wp (apply_context_event e) (λ _, keeps (Part.run_records :: Part.run_work :: Part.approvals :: other_parts) s) s.
Proof.
  reduce_event; try (by frame_leaf); wp_call.
  all: match goal with H : keeps _ ?s0 ?s1 |- _ =>
    transitivity s1; [transitivity s0; [frame_leaf|by eapply keeps_sub; [|exact H]]|frame_leaf]
  end.
Qed.

(** ** Invariants of replay *)
(** [stable parts I]: the invariant only speaks of [parts]. *)
Definition stable (parts : list Part) (I : CoreAgentState → Prop) : Prop :=
  ∀ s s', keeps parts s s' → I s → I s'.

Lemma wp_stable {A} parts parts' (I : CoreAgentState → Prop) (m : CoreReducer A) s :
  wp m (λ _, keeps parts s) s → stable parts' I →
  forallb (λ q, existsb (λ p, part_covers p q) parts) parts' = true →
  I s → wp m (λ _, I) s.
Proof.
  intros Hm Hst Hsub HI. eapply wp_mono; [exact Hm|]. intros ? s' Hk.
  eapply Hst; [|exact HI]. by eapply keeps_sub.
Qed.

Lemma apply_event_Ok entry s s' :
  apply_event entry s = (Ok tt, s') →
  ∃ s1, apply_event_kind entry s = (Ok tt, s1) ∧
        s' = s1 <| CoreAgentState.reduced_to := Some entry.(CoreAgentEntry.position) |>.
Proof.
  unfold apply_event, checking, mbind, Reducer_bind, modify_state.
  destruct (validate_next_position s entry); [|done].
  destruct (apply_event_kind entry s) as [[[]|] s1]; naive_solver.
Qed.

(** An invariant that does not speak of the position is kept by [apply_event] if
    every reducer keeps it. *)
Lemma apply_event_keeps (I : CoreAgentState → Prop) entry s :
  (∀ p s, I s → I (s <| CoreAgentState.reduced_to := p |>)) →
  (I s → wp (apply_event_kind entry) (λ _, I) s) → I s → wp (apply_event entry) (λ _, I) s.
Proof.
  intros Hp Hk HI. unfold apply_event. wp_steps. eapply wp_mono; [by apply Hk|].
  intros ? s1 H1. wp_steps. by apply Hp.
Qed.

(** The states a session can be in: those some log replays to. *)
Definition reachable s : Prop := ∃ entries, reduce_log entries default_of = (Ok tt, s).

Lemma reduce_log_keeps (I : CoreAgentState → Prop) entries s :
  (∀ entry s, I s → wp (apply_event entry) (λ _, I) s) →
  I s → wp (reduce_log entries) (λ _, I) s.
Proof. intros Hstep HI. apply wp_for_each; [|done]. intros entry s1 _. apply Hstep. Qed.

(** What holds of a new session and is kept by every entry holds of every session. *)
Lemma reachable_keeps (I : CoreAgentState → Prop) s :
  I default_of → (∀ entry s, I s → wp (apply_event entry) (λ _, I) s) → reachable s → I s.
Proof.
  intros H0 Hstep [entries Hs].
  exact (wp_ok_inv _ _ _ _ _ (reduce_log_keeps I entries _ Hstep H0) Hs).
Qed.
End replayed.

(** The frame lemma of the reducer at hand. *)
Ltac reducer_frame :=
  first [apply apply_lifecycle_event_frame | apply apply_run_event_frame
        | apply apply_approval_event_frame | apply apply_turn_event_frame
        | apply apply_context_event_frame | apply apply_environment_event_frame
        | apply apply_tool_config_event_frame | apply apply_tool_event_frame
        | apply apply_promise_event_frame | apply apply_workflow_tool_config_event_frame
        | apply apply_code_tool_event_frame | apply apply_workflow_tool_event_frame].

(** [frame_reducers Hst HI]: the reducers that leave the parts of an invariant alone keep
    it; the others are left. *)
Ltac frame_reducers Hst HI :=
  unfold apply_event_kind;
  match goal with |- wp (match ?e with _ => _ end) _ _ => destruct e eqn:? end;
  try (eapply wp_stable; [reducer_frame|exact Hst|vm_compute; reflexivity|exact HI]).
