(* ===== verification/StoreLaws.v ===== *)
(** * Laws of the session store

    An operation the store refuses changes nothing, and the tree below a session that a
    deletion removes is exactly what was delegated or forked from it
    ([storage/session.rs]). *)
From S2P Require Import Prelude Ids Text Types Events RunState Codec BlobRoots SessionStore.

Implicit Types (inner : InMemorySessionStoreInner) (record : SessionRecord).

(** ** Operations as values *)
Module StoreOperation.
Inductive StoreOperation : Type :=
| Create (request : CreateSession)
| Clone (request : CreateClonedSession)
| Fork (request : CreateForkedSession)
| Append (request : AppendSessionEvents)
| SetDisplayName (session_id : SessionId) (display_name : option string)
| SetMetadata (session_id : SessionId) (metadata : gmap string string)
| SetRetention (session_id : SessionId) (delete_after_close_ms : option N)
| AdvanceCheckpoint (checkpoint : SessionCheckpoint)
| Discard (session_id : SessionId)
| Delete (request : DeleteClosedSessions).
End StoreOperation.
Abbreviation StoreOperation := StoreOperation.StoreOperation.

(** Forgetting what a reducer returns. *)
Definition discarding {S E A} (m : Reducer S E A) : Reducer S E unit := _ ← m; mret tt.

Section operations.
Context `{!EventJson, !EventSerialize}.

Definition perform (op : StoreOperation) : Storing unit :=
  match op with
  | StoreOperation.Create request => discarding (create_session request)
  | StoreOperation.Clone request => discarding (create_cloned_session request)
  | StoreOperation.Fork request => discarding (create_forked_session request)
  | StoreOperation.Append request => discarding (append request)
  | StoreOperation.SetDisplayName session_id name =>
      discarding (set_session_display_name session_id name)
  | StoreOperation.SetMetadata session_id metadata =>
      discarding (set_session_metadata session_id metadata)
  | StoreOperation.SetRetention session_id delete_after_close_ms =>
      discarding (set_session_retention session_id delete_after_close_ms)
  | StoreOperation.AdvanceCheckpoint checkpoint => discarding (advance_checkpoint checkpoint)
  | StoreOperation.Discard session_id => discarding (discard_unopened_session session_id)
  | StoreOperation.Delete request => discarding (delete_closed_sessions request)
  end.

(** ** Refusals *)
(** All that can fail comes before anything is written. *)
Definition refuses_cleanly {S E A} (m : Reducer S E A) : Prop :=
  ∀ s e s', m s = (Err e, s') → s' = s.
(** What cannot fail. *)
Definition succeeds {S E A} (m : Reducer S E A) : Prop := ∀ s e s', m s ≠ (Err e, s').
(** What only reads. *)
Definition only_reads {S E A} (m : Reducer S E A) : Prop := ∀ s, (m s).2 = s.

Lemma succeeds_ret {S E A} (a : A) : succeeds (S:=S) (E:=E) (mret a).
Proof. intros s e s' [=]. Qed.
Lemma succeeds_modify {S E A} f (k : unit → Reducer S E A) :
  (∀ u, succeeds (k u)) → succeeds (modify_state f ≫= k).
Proof. intros Hk s e s' Hs. by apply (Hk tt) in Hs. Qed.
Lemma refuses_if_succeeds {S E A} (m : Reducer S E A) : succeeds m → refuses_cleanly m.
Proof. intros Hm s e s' Hs. by apply Hm in Hs. Qed.
Lemma refuses_after_read {S E A B} (m : Reducer S E A) (k : A → Reducer S E B) :
  only_reads m → (∀ a, refuses_cleanly (k a)) → refuses_cleanly (m ≫= k).
Proof.
  intros Hm Hk s e s' Hs. unfold mbind, Reducer_bind in Hs. specialize (Hm s).
  destruct (m s) as [[a|e'] s1]; simpl in Hm; subst; [by eapply Hk|by injection Hs].
Qed.
Lemma refuses_then {S E A B} (m : Reducer S E A) (k : A → Reducer S E B) :
  refuses_cleanly m → (∀ a, succeeds (k a)) → refuses_cleanly (m ≫= k).
Proof.
  intros Hm Hk s e s' Hs. unfold mbind, Reducer_bind in Hs.
  destruct (m s) as [[a|e'] s1] eqn:Hms; [by apply Hk in Hs|]. injection Hs as <- <-.
  by eapply Hm.
Qed.
Lemma refuses_discarding {S E A} (m : Reducer S E A) :
  refuses_cleanly m → refuses_cleanly (discarding m).
Proof. intros Hm. apply refuses_then; [done|]. intros a. apply succeeds_ret. Qed.

Ltac refusing :=
  repeat lazymatch goal with
  | |- refuses_cleanly (discarding _) => apply refuses_discarding
  | |- refuses_cleanly (mret _) => apply refuses_if_succeeds, succeeds_ret
  | |- refuses_cleanly (modify_state _ ≫= _) =>
      apply refuses_if_succeeds, succeeds_modify; intros ?; apply succeeds_ret
  | |- refuses_cleanly (_ ≫= _) =>
      apply refuses_after_read;
        [intros ?; try reflexivity; unfold reject_if; by case_match|intros ?]
  | |- refuses_cleanly (match ?x with _ => _ end) => destruct x eqn:?
  | |- _ => progress unfold create_session, create_cloned_session, create_forked_session, append,
              set_session_display_name, set_session_metadata, set_session_retention, update_record,
              advance_checkpoint, discard_unopened_session, delete_closed_sessions
  end.

Lemma append_refuses request inner e inner' :
  append request inner = (Err e, inner') → inner' = inner.
Proof.
  enough (refuses_cleanly (append request)) as Hr by exact (Hr inner e inner'). refusing.
Qed.

(** C22. An operation the store refuses changes nothing: whatever it is refused for, be it a
    head that moved, a limit, an open session in a tree or data it cannot hold, every check
    comes before the first write, so a failed request may be repeated or given up. *)
Theorem refused_operation_changes_nothing op inner e inner' :
  perform op inner = (Err e, inner') → inner' = inner.
Proof.
  enough (refuses_cleanly (perform op)) as Hr by exact (Hr inner e inner').
  destruct op; cbn [perform]; refusing.
Qed.
End operations.

(** ** The tree below a session *)
Definition child_of inner (parent child : SessionId) : Prop :=
  child ∈ retention_children inner parent.
Definition record_ids inner : list SessionId :=
  SessionRecord.session_id <$> btree_values inner.(InMemorySessionStoreInner.records).

Lemma record_ids_length inner :
  length (record_ids inner) = size inner.(InMemorySessionStoreInner.records).
Proof.
  unfold record_ids, btree_values. rewrite !length_fmap, btree_to_list_perm.
  by rewrite length_map_to_list.
Qed.
Lemma retention_children_ids inner parent child :
  child_of inner parent child → child ∈ record_ids inner.
Proof.
  unfold child_of, retention_children, record_ids. rewrite !list_elem_of_fmap.
  intros (r & -> & [_ Hr]%list_elem_of_filter). by exists r.
Qed.

(** What one round adds: the children that are new, once each, to both lists. *)
Lemma discover_spec children pending descendants :
  ∃ added, discover children pending descendants
             = (reverse added ++ pending, descendants ++ added) ∧
    (NoDup descendants → NoDup (descendants ++ added)) ∧
    (∀ x, x ∈ added → x ∈ children) ∧ (∀ x, x ∈ children → x ∈ descendants ++ added).
Proof.
  revert pending descendants. induction children as [|c children IH]; intros p d; simpl.
  { exists []. rewrite app_nil_r. split_and!; [done|done|set_solver|set_solver]. }
  case_bool_decide as Hc.
  - destruct (IH p d) as (added & -> & Hn & Hin & Hall). exists added.
    split_and!; [done|done|set_solver|]. intros x [->|?]%elem_of_cons; set_solver.
  - destruct (IH (c :: p) (d ++ [c])) as (added & -> & Hn & Hin & Hall). exists (c :: added).
    rewrite <- app_assoc in *. rewrite reverse_cons, <- app_assoc.
    split_and!; [done| |set_solver|set_solver].
    intros Hd. apply Hn. apply NoDup_app. split_and!; [done| |apply NoDup_singleton]. set_solver.
Qed.

(** The loop pops each session at most once, and leaves nothing below them out. *)
Lemma descend_spec fuel inner root pending descendants :
  NoDup descendants → (∀ x, x ∈ descendants → x ∈ record_ids inner) →
  (length pending + (length (record_ids inner) - length descendants) <= fuel)%nat →
  (∀ x, x ∈ descendants → tc (child_of inner) root x) →
  (∀ x, x ∈ pending → x = root ∨ x ∈ descendants) →
  (∀ x c, x = root ∨ x ∈ descendants → x ∉ pending → child_of inner x c → c ∈ descendants) →
  ∃ all, descend fuel inner pending descendants = Some all ∧ NoDup all ∧
    (∀ x, x ∈ all → tc (child_of inner) root x) ∧
    (∀ x c, x = root ∨ x ∈ all → child_of inner x c → c ∈ all).
Proof.
  revert pending descendants. induction fuel as [|fuel IH];
    intros pending descendants Hn Hids Hf Htc Hp Hclosed;
    destruct pending as [|x pending]; try (simpl in Hf; lia);
    try (exists descendants; split_and!; try done; intros y c Hy; apply Hclosed; set_solver).
  simpl. destruct (discover_spec (retention_children inner x) pending descendants)
    as (added & -> & Hn' & Hin & Hall). apply Hn' in Hn as Hn2.
  assert (∀ y, y ∈ descendants ++ added → y ∈ record_ids inner) as Hids'.
  { intros y [?|?]%elem_of_app; [by apply Hids|]. eapply retention_children_ids, Hin. done. }
  assert (length (descendants ++ added) <= length (record_ids inner))%nat as Hlen.
  { by apply submseteq_length, NoDup_submseteq. }
  assert (tc (child_of inner) root x ∨ x = root) as Hx.
  { destruct (Hp x) as [->|?]; [set_solver|by right|left; auto]. }
  apply IH; [done|done| | | |].
  - rewrite !length_app in *. rewrite length_reverse. simpl in Hf. lia.
  - intros y [?|Hy%Hin]%elem_of_app; [auto|].
    destruct Hx as [?| ->]; [by eapply tc_r|by apply tc_once].
  - intros y [Hy%elem_of_reverse|Hy]%elem_of_app; [set_solver|].
    destruct (Hp y); set_solver.
  - intros y c Hy Hny Hc. rewrite not_elem_of_app, elem_of_reverse in Hny.
    destruct (decide (y = x)) as [->|Hne]; [by apply Hall|]. apply elem_of_app. left.
    apply (Hclosed y); [|set_solver|done]. set_solver.
Qed.

Lemma descendants_iff inner session_id :
  (∃ found, descend (S (size inner.(InMemorySessionStoreInner.records))) inner [session_id] []
      = Some found) ∧
  NoDup (in_memory_retention_descendants inner session_id) ∧
  ∀ x, x ∈ in_memory_retention_descendants inner session_id ↔ tc (child_of inner) session_id x.
Proof.
  destruct (descend_spec (S (size inner.(InMemorySessionStoreInner.records))) inner session_id
    [session_id] []) as (all & Hall & Hn & Hs & Hc).
  - constructor.
  - set_solver.
  - rewrite record_ids_length. simpl. lia.
  - set_solver.
  - set_solver.
  - set_solver.
  - unfold in_memory_retention_descendants. rewrite Hall. simpl. split_and!; [eauto| |].
    + by rewrite reverse_Permutation.
    + intros x. rewrite elem_of_reverse. split; [auto|]. intros Hx.
      assert (∀ a x, tc (child_of inner) a x → a = session_id ∨ a ∈ all → x ∈ all) as Hreach.
      { clear -Hc. intros a x Ht. induction Ht; eauto. }
      by eapply Hreach; [|left].
Qed.

(** C24. Looking for the tree below a session ends, within one round for each record of the
    store, whatever the links between them, cycles included; and what it finds are exactly
    the sessions reached by delegation and by forking, once each. *)
Theorem descendants_are_the_tree inner session_id :
  (∃ found, descend (S (size inner.(InMemorySessionStoreInner.records))) inner [session_id] []
      = Some found) ∧
  NoDup (in_memory_retention_descendants inner session_id) ∧
  ∀ x, x ∈ in_memory_retention_descendants inner session_id ↔ tc (child_of inner) session_id x.
Proof. apply descendants_iff. Qed.
