(* ===== verification/Example.v ===== *)
(** * An example session

    A session opened, given a run and driven through a turn by its own planners: the
    concrete states the witnesses of the other files evaluate. *)
From S2P Require Import Prelude Ids Text Types Events Media Externals RunState Config Contexts.
From S2P Require Import Replay Codec BlobRoots SessionStore Frames StoreLaws.

Definition example_model : ModelSelection :=
  {| ModelSelection.api_kind := ProviderApiKind.OpenAiResponses;
     ModelSelection.provider_id := "openai"; ModelSelection.model := "gpt" |}.
Definition example_config : SessionConfig :=
  {| SessionConfig.model := example_model; SessionConfig.generation := default_of;
     SessionConfig.limits := default_of; SessionConfig.context := default_of;
     SessionConfig.features := default_of |}.

Definition example_message (text : string) : ContextEntryInput :=
  {| ContextEntryInput.origin := None;
     ContextEntryInput.kind := ContextEntryKind.Message ContextMessageRole.User;
     ContextEntryInput.content :=
       {| ContentRef.content_ref := BlobRef_from_bytes text;
          ContentRef.media_type := None; ContentRef.provider_kind := None |};
     ContextEntryInput.preview := Some text; ContextEntryInput.provenance_ref := None;
     ContextEntryInput.token_estimate := None |}.

Definition example_accepted (run_id : RunId) : AcceptedRunEvent :=
  {| AcceptedRunEvent.run_id := run_id;
     AcceptedRunEvent.submission_id := Some "submission";
     AcceptedRunEvent.source := RunSource.Input [example_message "hello"];
     AcceptedRunEvent.run_config := default_of;
     AcceptedRunEvent.input_limit_tokens := None;
     AcceptedRunEvent.config_revision := 0;
     AcceptedRunEvent.notify_on_terminal := [];
     AcceptedRunEvent.requested_by := None |}.

(** The state after an append, or the state as it was when it is refused. *)
Definition after_events (events : list CoreAgentEvent) (state : CoreAgentState) : CoreAgentState :=
  match reduce_proposals 1000 ((λ event,
          {| CoreAgentEventProposal.joins := default_of;
             CoreAgentEventProposal.event := event |}) <$> events) state with
  | (Ok _, state') => state'
  | (Err _, _) => state
  end.

(** Planning until there is nothing to propose. *)
Fixpoint settle (fuel : nat) (state : CoreAgentState) : CoreAgentState :=
  match fuel with
  | O => state
  | S fuel =>
      match plan_next state with
      | Ok [] | Err _ => state
      | Ok proposals =>
          match reduce_proposals 1000 proposals state with
          | (Ok _, state') => settle fuel state'
          | (Err _, _) => state
          end
      end
  end.

Definition new_state : CoreAgentState := default_of.
Definition open_state : CoreAgentState :=
  after_events [CoreAgentEvent.Lifecycle (CoreAgentLifecycleEvent.Opened example_config)] new_state.
Definition accepted_state : CoreAgentState :=
  after_events [CoreAgentEvent.Run (RunEvent.Accepted (example_accepted 1))] open_state.
Definition generating_state : CoreAgentState := settle 20 accepted_state.

(** What [settle] appends. *)
Fixpoint settle_log (fuel : nat) (state : CoreAgentState) : list CoreAgentEventProposal :=
  match fuel with
  | O => []
  | S fuel =>
      match plan_next state with
      | Ok [] | Err _ => []
      | Ok proposals =>
          match reduce_proposals 1000 proposals state with
          | (Ok _, state') => proposals ++ settle_log fuel state'
          | (Err _, _) => []
          end
      end
  end.
Definition event_proposal (event : CoreAgentEvent) : CoreAgentEventProposal :=
  {| CoreAgentEventProposal.joins := default_of; CoreAgentEventProposal.event := event |}.
Definition generating_log : list CoreAgentEntry :=
  committed_entries None 1000
    ([event_proposal (CoreAgentEvent.Lifecycle (CoreAgentLifecycleEvent.Opened example_config));
      event_proposal (CoreAgentEvent.Run (RunEvent.Accepted (example_accepted 1)))]
     ++ settle_log 20 accepted_state).
Lemma generating_replayed : reduce_log generating_log new_state = (Ok tt, generating_state).
Proof. vm_compute. reflexivity. Qed.
Lemma generating_reachable : reachable generating_state.
Proof. exists generating_log. exact generating_replayed. Qed.

(** The session above with two promises of its own, one of them resolved, while the model
    call is still under way. *)
Definition example_promise (promise_id : PromiseId) : Promise :=
  {| Promise.promise_id := promise_id; Promise.source := PromiseSource.Timer 5000;
     Promise.scope := PromiseScope.Session; Promise.ownership := PromiseOwnership.Model;
     Promise.status := PromiseStatus.Pending; Promise.payload_ref := None;
     Promise.error_ref := None; Promise.deadline_at_ms := None |}.
Definition extend (events : list CoreAgentEvent) (log : list CoreAgentEntry)
    : list CoreAgentEntry :=
  log ++ committed_entries (CoreAgentEntry.position <$> last log) 1000
           (event_proposal <$> events).
Definition state_after (log : list CoreAgentEntry) : CoreAgentState :=
  (reduce_log log new_state).2.

Definition promising_log : list CoreAgentEntry :=
  extend [CoreAgentEvent.Promise (PromiseEvent.Created (example_promise 1));
          CoreAgentEvent.Promise (PromiseEvent.Created (example_promise 2));
          CoreAgentEvent.Promise (PromiseEvent.Resolved 1 None)] generating_log.
Definition promising_state : CoreAgentState := state_after promising_log.
Lemma promising_replayed : reduce_log promising_log new_state = (Ok tt, promising_state).
Proof. vm_compute. reflexivity. Qed.

Lemma promising_reachable : reachable promising_state.
Proof. exists promising_log. exact promising_replayed. Qed.

(** The entry that follows a log. *)
Definition next_entry (event : CoreAgentEvent) (log : list CoreAgentEntry) : CoreAgentEntry :=
  committed_entry (following_seq (CoreAgentEntry.position <$> last log)) 1000
    (event_proposal event).
Definition after (log : list CoreAgentEntry) (event : CoreAgentEvent) : CoreAgentState :=
  (apply_event (next_entry event log) (state_after log)).2.

(** * An example store

    Events by name stand for their JSON encoding, so that the codec, the store and the drive
    can be evaluated: a session opened, given a run, and forked before the run. *)

(** ** Encoding by name *)
Section table.
Variable table : list (string * CoreAgentEvent).
Definition name_of (event : CoreAgentEvent) : option string :=
  fst <$> hd_error (filter (λ row, row.2 = event) table).
Definition event_of (name : string) : option CoreAgentEvent :=
  snd <$> hd_error (filter (λ row, row.1 = name) table).

Lemma head_filter_Some {A} (P : A → Prop) `{!∀ x, Decision (P x)} l x :
  hd_error (filter P l) = Some x → P x ∧ x ∈ l.
Proof.
  intros Hh. apply (list_elem_of_filter P l x). destruct (filter P l); simplify_eq/=. set_solver.
Qed.
Lemma event_of_name event name :
  NoDup (table.*1) → name_of event = Some name → event_of name = Some event.
Proof.
  unfold name_of, event_of. intros Hn Hname.
  apply fmap_Some in Hname as (row & Hrow%head_filter_Some & ->). destruct Hrow as [Hev Hin].
  destruct (hd_error (filter (λ row', row'.1 = row.1) table)) as [row'|] eqn:Hh.
  - apply head_filter_Some in Hh as [Heq Hin']. simpl. f_equal. rewrite <- Hev. f_equal.
    apply list_elem_of_lookup in Hin as [i Hi]. apply list_elem_of_lookup in Hin' as [j Hj].
    assert (i = j) as ->; [|congruence].
    apply (NoDup_lookup _ i j row.1 Hn); rewrite list_lookup_fmap; [by rewrite Hi|].
    rewrite Hj. simpl. by rewrite Heq.
  - assert (row ∈ filter (λ row', row'.1 = row.1) table) as Hf
      by (apply list_elem_of_filter; done).
    destruct (filter _ table); [set_solver|done].
Qed.
End table.

Definition example_table : list (string * CoreAgentEvent) :=
  [("opened", CoreAgentEvent.Lifecycle (CoreAgentLifecycleEvent.Opened example_config));
   ("accepted", CoreAgentEvent.Run (RunEvent.Accepted (example_accepted 1)));
   ("accepted_2", CoreAgentEvent.Run (RunEvent.Accepted (example_accepted 2)));
   ("started", CoreAgentEvent.Run (RunEvent.Started 1));
   ("completed", CoreAgentEvent.Run (RunEvent.Completed 1 None));
   ("cleared", CoreAgentEvent.Environment EnvironmentEvent.ActiveEnvironmentCleared);
   ("closed", CoreAgentEvent.Lifecycle CoreAgentLifecycleEvent.Closed)].
#[export, refine] Instance example_json : EventJson := {|
  to_value event := Value.String <$> name_of example_table event;
  from_value value := match value with
                      | Value.String name => event_of example_table name
                      | _ => None
                      end;
|}.
Proof.
  intros event payload (name & Hname & ->)%fmap_Some. apply event_of_name; [|done].
  apply (bool_decide_eq_true_1 _). vm_compute. reflexivity.
Defined.
#[export] Instance example_serialize : EventSerialize := {| serialize_event _ := Serialized.Scalar |}.

(** ** Sessions *)
Definition example_event (joins : CoreAgentJoins) (event : CoreAgentEvent)
    : UncommittedStoredEvent :=
  match encode_uncommitted (into_uncommitted
          {| CoreAgentEventProposal.joins := joins; CoreAgentEventProposal.event := event |} 1000)
  with
  | Ok stored => stored
  | Err _ => {| UncommittedStoredEvent.observed_at_ms := 0; UncommittedStoredEvent.joins := ∅;
                UncommittedStoredEvent.event := {| StoredEvent.kind := ""; StoredEvent.version := 0;
                                                   StoredEvent.payload := Value.Null |} |}
  end.
Definition joins_of_run (run_id : RunId) : CoreAgentJoins :=
  {| CoreAgentJoins.run_id := Some run_id; CoreAgentJoins.turn_id := None;
     CoreAgentJoins.tool_batch_id := None; CoreAgentJoins.tool_call_id := None;
     CoreAgentJoins.submission_id := None |}.
Definition opened_event : UncommittedStoredEvent :=
  example_event default_of (CoreAgentEvent.Lifecycle (CoreAgentLifecycleEvent.Opened example_config)).
Definition run_event (run_id : RunId) (event : RunEvent) : UncommittedStoredEvent :=
  example_event (joins_of_run run_id) (CoreAgentEvent.Run event).

(** A request to create a session, of no one's tree. *)
Definition example_create (session_id : SessionId) : CreateSession :=
  {| CreateSession.session_id := session_id; CreateSession.display_name := None;
     CreateSession.metadata := ∅; CreateSession.origin := None;
     CreateSession.delete_after_close_ms := None; CreateSession.created_at_ms := 1 |}.
Definition example_append (session_id : SessionId) (head : option N)
    (events : list UncommittedStoredEvent) : StoreOperation :=
  StoreOperation.Append
    {| AppendSessionEvents.session_id := session_id;
       AppendSessionEvents.expected_head :=
         (λ seq, {| SessionPosition.seq := seq |}) <$> head;
       AppendSessionEvents.events := events |}.
Definition example_fork (source session_id : SessionId) (seq : N) : StoreOperation :=
  StoreOperation.Fork
    {| CreateForkedSession.source_session_id := source;
       CreateForkedSession.session_id := session_id;
       CreateForkedSession.source_seq := seq; CreateForkedSession.created_at_ms := 1 |}.
Definition after_operations (ops : list StoreOperation) : InMemorySessionStoreInner :=
  foldl (λ inner op, (perform op inner).2) InMemorySessionStore_new ops.

(** A session with a run, and a fork of it from before the run that went its own way. *)
Definition forked_operations : list StoreOperation :=
  [StoreOperation.Create (example_create "root");
   example_append "root" None [opened_event];
   example_fork "root" "fork" 1;
   example_append "root" (Some 1%N) [run_event 1 (RunEvent.Accepted (example_accepted 1))]].
Definition forked_store : InMemorySessionStoreInner := after_operations forked_operations.
Definition read_positions (inner : InMemorySessionStoreInner) (session_id : SessionId) : list N :=
  match effective_entries inner session_id with Ok es => stored_seq <$> es | Err _ => [] end.
Example forked_store_logs :
  read_positions forked_store "fork" = [1%N] ∧ read_positions forked_store "root" = [1%N; 2%N].
Proof. split; vm_compute; reflexivity. Qed.


Definition example_record (inner : InMemorySessionStoreInner) (session_id : SessionId)
    : SessionRecord :=
  default (created_record (example_create session_id) InMemorySessionStore_new)
    (inner.(InMemorySessionStoreInner.records) !! session_id).

(** ** Witness *)
(** A writer that did not see the last append is refused. *)
Lemma refused_operation_changes_nothing_witness :
  ∃ e, perform (example_append "root" (Some 1%N) [opened_event]) forked_store = (Err e, forked_store).
Proof.
  set (op := example_append "root" (Some 1%N) [opened_event]).
  destruct (perform op forked_store) as [[u|e] inner'] eqn:Hop.
  - exfalso. vm_compute in Hop. discriminate.
  - exists e. f_equal. exact (refused_operation_changes_nothing op forked_store e inner' Hop).
Defined.
