(* ===== verification/RunLaws.v ===== *)
(** * Laws of the active run

    The turn and the tool batch a run is working on are always there and always well formed
    ([core/components/run.rs], [turn.rs] and [tooling.rs]). *)
From S2P Require Import Prelude Ids Text Types Events Media Externals RunState Config Promises.
From S2P Require Import Sessions Contexts Compaction ToolSpecs CodeTools ContextReducer Approvals.
From S2P Require Import Turns WorkflowTools Toolset Runs Replay Frames Example.

(** ** Well-formed work *)
Definition call_id_of (call : ToolCallState) : ToolCallId :=
  call.(ToolCallState.call).(ObservedToolCall.call_id).

(** A call has a result exactly when it is terminal, and the result is its own. *)
Definition call_wf (call : ToolCallState) : Prop :=
  match call.(ToolCallState.result) with
  | Some result =>
      result.(ToolCallResult.call_id) = call_id_of call ∧
      result.(ToolCallResult.status) = call.(ToolCallState.status) ∧
      ToolCallStatus_is_terminal call.(ToolCallState.status) = true
  | None => ToolCallStatus_is_terminal call.(ToolCallState.status) = false
  end.
Definition batch_wf (run_id : RunId) (batch_id : ToolBatchId) (batch : ActiveToolBatch) : Prop :=
  batch.(ActiveToolBatch.batch_id) = batch_id ∧ batch.(ActiveToolBatch.run_id) = run_id ∧
  NoDup (call_id_of <$> batch.(ActiveToolBatch.calls)) ∧
  Forall call_wf batch.(ActiveToolBatch.calls).

(** A turn is at work until it ends, with an outcome its status agrees with. *)
Definition in_progress (status : TurnStatus) : bool :=
  match status with
  | TurnStatus.Started | TurnStatus.Planned | TurnStatus.GenerationPending
  | TurnStatus.GenerationSettled => true
  | _ => false
  end.
(** What a turn at work has so far: a plan, then a result, but no outcome. *)
Definition at_work (turn : TurnState) : Prop :=
  turn.(TurnState.outcome) = None ∧
  match turn.(TurnState.status) with
  | TurnStatus.Started =>
      turn.(TurnState.planned_request) = None ∧ turn.(TurnState.facts) = None ∧
      turn.(TurnState.generation_status) = None
  | TurnStatus.Planned | TurnStatus.GenerationPending =>
      is_Some turn.(TurnState.planned_request) ∧ turn.(TurnState.facts) = None ∧
      turn.(TurnState.generation_status) = None
  | TurnStatus.GenerationSettled =>
      is_Some turn.(TurnState.planned_request) ∧ is_Some turn.(TurnState.facts) ∧
      is_Some turn.(TurnState.generation_status)
  | _ => False
  end.
Lemma at_work_in_progress turn : at_work turn → in_progress turn.(TurnState.status) = true.
Proof. intros [_ H]. by destruct (TurnState.status turn). Qed.
Lemma at_work_plan turn planned :
  at_work turn → turn.(TurnState.status) = TurnStatus.Started →
  at_work (turn <| TurnState.planned_request := Some planned |>
                <| TurnState.status := TurnStatus.Planned |>).
Proof. intros [Ho Hw] Hs. rewrite Hs in Hw. split; [exact Ho|]. by split_and!; [eexists|apply Hw..]. Qed.
Lemma at_work_request turn :
  at_work turn → turn.(TurnState.status) = TurnStatus.Planned →
  at_work (turn <| TurnState.status := TurnStatus.GenerationPending |>).
Proof. intros [Ho Hw] Hs. rewrite Hs in Hw. by split. Qed.
Lemma at_work_settle turn status facts :
  at_work turn → turn.(TurnState.status) = TurnStatus.GenerationPending →
  at_work (turn <| TurnState.generation_status := Some status |>
                <| TurnState.facts := Some facts |>
                <| TurnState.status := TurnStatus.GenerationSettled |>).
Proof.
  intros [Ho Hw] Hs. rewrite Hs in Hw. split; [exact Ho|].
  by split_and!; [apply Hw|eexists..].
Qed.
Definition ended (turn : TurnState) : Prop :=
  ∃ outcome, turn.(TurnState.outcome) = Some outcome ∧
             turn.(TurnState.status) = outcome_status outcome.

Record work_wf (last_turn : TurnId) (run : ActiveRun) : Prop := {
  work_status : is_nonterminal run.(ActiveRun.status) = true;
  work_turns : ∀ t, is_Some (run.(ActiveRun.turns) !! t) → (t <= last_turn)%N;
  work_turn : ∀ t, run.(ActiveRun.active_turn_id) = Some t →
    (∃ turn, run.(ActiveRun.turns) !! t = Some turn ∧ at_work turn) ∧
    ∀ t', is_Some (run.(ActiveRun.turns) !! t') → (t' <= t)%N;
  work_ended : ∀ t turn, run.(ActiveRun.turns) !! t = Some turn →
    run.(ActiveRun.active_turn_id) ≠ Some t → ended turn;
  work_batch : ∀ b, is_Some (run.(ActiveRun.tool_batches) !! b) ↔
    run.(ActiveRun.active_tool_batch_id) = Some b;
  work_batches : ∀ b batch, run.(ActiveRun.tool_batches) !! b = Some batch →
    batch_wf run.(ActiveRun.run_id) b batch;
  work_parked : ∀ parked, run.(ActiveRun.parked_tool_batch) = Some parked →
    run.(ActiveRun.active_tool_batch_id) = Some parked.(ParkedToolBatch.batch_id);
  work_completed : ∀ b c, run.(ActiveRun.completed_tool_batches) !! b = Some c →
    (∀ b', is_Some (run.(ActiveRun.completed_tool_batches) !! b') → b' = b) ∧
    ∀ o batch, run.(ActiveRun.tool_batches) !! o = Some batch →
      batch.(ActiveToolBatch.turn_id) ≠ c.(CompletedToolBatch.turn_id);
}.

Definition last_turn_id (s : CoreAgentState) : TurnId :=
  s.(CoreAgentState.id_cursors).(IdCursors.last_turn_id).
Definition run_wf (s : CoreAgentState) : Prop :=
  ∀ run, active_run s = Some run → work_wf (last_turn_id s) run.

Lemma work_wf_same last_turn run run' :
  run_work run' = run_work run → work_wf last_turn run → work_wf last_turn run'.
Proof.
  unfold run_work. intros He. injection He as E1 E2 E3 E4 E5 E6 E7 E8. intros [].
  split; rewrite ?E1, ?E2, ?E3, ?E4, ?E5, ?E6, ?E7, ?E8; done.
Qed.
Lemma run_wf_stable : stable [Part.run_work; Part.turn_cursor] run_wf.
Proof.
  intros s s' Hk. pose proof (keeps_lookup _ Part.run_work _ _ Hk eq_refl) as Hw.
  pose proof (keeps_lookup _ Part.turn_cursor _ _ Hk eq_refl) as Hc. simpl in Hw, Hc.
  unfold run_wf, last_turn_id, active_run. rewrite Hc. intros Hwf run' Hr'.
  rewrite Hr' in Hw. destruct (RunsState.active (CoreAgentState.runs s)) as [run|]; [|done].
  injection Hw as Hw. eapply work_wf_same; [|by apply Hwf]. unfold run_work. congruence.
Qed.

Lemma run_wf_put run s : work_wf (last_turn_id s) run → run_wf (set_active_run run s).
Proof. by intros Hw run' [= <-]. Qed.
Lemma run_wf_ref s run_id run :
  run_wf s → active_run_ref s run_id = Ok run →
  run.(ActiveRun.run_id) = run_id ∧ work_wf (last_turn_id s) run.
Proof. intros Hwf [Ha Hid]%active_run_ref_Ok. split; [done|by apply Hwf]. Qed.

(** A write to the status alone. *)
Lemma work_wf_status last_turn run status :
  is_nonterminal status = true → work_wf last_turn run →
  work_wf last_turn (run <| ActiveRun.status := status |>).
Proof. intros Hs []. by split. Qed.

(** *** Turns *)
Lemma work_wf_put_turn last_turn t turn run :
  run.(ActiveRun.active_turn_id) = Some t → at_work turn →
  work_wf last_turn run → work_wf last_turn (put_turn t turn run).
Proof.
  intros Ha Hp []. destruct (work_turn0 _ Ha) as [(old & Ht & _) Hm]. split; simpl; try done.
  - intros t' Ht'%lookup_insert_is_Some. naive_solver.
  - intros t' Ha'. assert (t' = t) as -> by congruence. rewrite lookup_insert_eq. split; [eauto|].
    intros t'' Ht''%lookup_insert_is_Some. naive_solver.
  - intros t' turn' [[<- _]|[_ Ht']]%lookup_insert_Some Hn; [done|]. by eapply work_ended0.
Qed.
Lemma work_wf_at_work last_turn run t turn :
  work_wf last_turn run → run.(ActiveRun.active_turn_id) = Some t →
  run.(ActiveRun.turns) !! t = Some turn → at_work turn.
Proof. intros [] Ha Ht. destruct (work_turn0 _ Ha) as [(turn' & Ht' & Hw) _]. by simplify_eq. Qed.
Lemma work_wf_end_turn last_turn t turn run :
  run.(ActiveRun.active_turn_id) = Some t → ended turn → work_wf last_turn run →
  work_wf last_turn (put_turn t turn (run <| ActiveRun.active_turn_id := None |>)).
Proof.
  intros Ha He []. destruct (work_turn0 _ Ha) as [(old & Ht & _) Hm]. split; simpl; try done.
  - intros t' Ht'%lookup_insert_is_Some. naive_solver.
  - intros t' turn' [[<- <-]|[Hne Ht']]%lookup_insert_Some _; [done|].
    eapply work_ended0; [exact Ht'|]. congruence.
Qed.
Lemma work_wf_start_turn last_turn turn run f :
  run.(ActiveRun.active_turn_id) = None → at_work turn → work_wf last_turn run →
  work_wf (last_turn + 1) (put_turn (last_turn + 1) turn (run <| ActiveRun.turn_count ::= f |>)
                           <| ActiveRun.active_turn_id := Some (last_turn + 1)%N |>).
Proof.
  intros Ha Hp []. split; simpl; try done.
  - intros t [->|[_ Ht%work_turns0]]%lookup_insert_is_Some; lia.
  - intros t [= <-]. rewrite lookup_insert_eq. split; [eauto|].
    intros t' [->|[_ Ht%work_turns0]]%lookup_insert_is_Some; lia.
  - intros t turn' [[<- _]|[_ Ht]]%lookup_insert_Some Hn; [done|].
    eapply work_ended0; [exact Ht|]. by rewrite Ha.
Qed.

(** The sweep keeps the turn at work, which is the latest one. *)
Lemma latest_turn_retained run t :
  (∀ t', is_Some (run.(ActiveRun.turns) !! t') → (t' <= t)%N) →
  is_Some (run.(ActiveRun.turns) !! t) → turn_retained run t = true.
Proof.
  intros Hm [turn Ht]. unfold turn_retained, latest_turn.
  rewrite (proj2 (btree_last_Some _ t turn)) by done. by rewrite bool_decide_eq_true_2.
Qed.
Lemma pruned_turns_sub run t turn :
  (prune_settled_run_records run).(ActiveRun.turns) !! t = Some turn →
  run.(ActiveRun.turns) !! t = Some turn ∧ turn_retained run t = true.
Proof. by intros Ht%lookup_btree_retain_Some. Qed.
Lemma pruned_completed_sub run b c :
  (prune_settled_run_records run).(ActiveRun.completed_tool_batches) !! b = Some c →
  run.(ActiveRun.completed_tool_batches) !! b = Some c ∧
  is_Some ((prune_settled_run_records run).(ActiveRun.turns) !! c.(CompletedToolBatch.turn_id)).
Proof. intros [Hc Ht%is_some_true]%lookup_btree_retain_Some. by split. Qed.

Lemma work_wf_prune last_turn run :
  work_wf last_turn run → work_wf last_turn (prune_settled_run_records run).
Proof.
  intros []. split; try done.
  - intros t [turn [Ht _]%pruned_turns_sub]. by apply work_turns0.
  - intros t Ha. destruct (work_turn0 _ Ha) as [(turn & Ht & Hp) Hm]. split.
    + exists turn. split; [|done]. apply lookup_btree_retain_Some. split; [done|].
      by apply latest_turn_retained.
    + intros t' [turn' [Ht' _]%pruned_turns_sub]. by apply Hm.
  - intros t turn [Ht _]%pruned_turns_sub. by apply work_ended0.
  - intros b c [Hc _]%pruned_completed_sub. destruct (work_completed0 _ _ Hc) as [Hu Ho].
    split; [|done]. intros b' [c' [Hc' _]%pruned_completed_sub]. by apply Hu.
Qed.

(** *** Batches *)
Lemma active_batch_Ok run batch_id batch :
  active_batch run batch_id = Ok batch → run.(ActiveRun.tool_batches) !! batch_id = Some batch.
Proof. apply ok_or_Ok. Qed.
Lemma update_first_call_ids call_id f calls :
  (∀ call, call_id_of (f call) = call_id_of call) →
  call_id_of <$> update_first_call call_id f calls = call_id_of <$> calls.
Proof.
  intros Hf. induction calls as [|call calls IH]; simpl; [done|].
  case_bool_decide; rewrite ?fmap_cons, ?Hf; [done|by rewrite IH].
Qed.
Lemma update_first_call_wf batch call_id f call :
  find_call batch call_id = Some call → call_wf (f call) →
  Forall call_wf batch.(ActiveToolBatch.calls) →
  Forall call_wf (update_first_call call_id f batch.(ActiveToolBatch.calls)).
Proof.
  unfold find_call. generalize batch.(ActiveToolBatch.calls). intros calls Hf Hw.
  induction calls as [|c calls IH]; [done|]. simpl in *. intros [Hc Hcs]%Forall_cons.
  case_decide as Hd; simplify_eq/=.
  - rewrite bool_decide_eq_true_2 by done. by constructor.
  - rewrite bool_decide_eq_false_2 by done. constructor; [done|]. apply IH; [|done].
    by destruct (list_find _ calls) as [[]|].
Qed.
Lemma find_call_id batch call_id call :
  find_call batch call_id = Some call → call_id_of call = call_id.
Proof.
  unfold find_call. intros ([i c] & Hf & ->)%fmap_Some. apply list_find_Some in Hf. tauto.
Qed.
Lemma call_wf_pending call :
  call.(ToolCallState.result) = None →
  call_wf (call <| ToolCallState.status := ToolCallStatus.Pending |>).
Proof.
  intros Hr. unfold call_wf. change (ToolCallState.result (call <| ToolCallState.status :=
    ToolCallStatus.Pending |>)) with (ToolCallState.result call). by rewrite Hr.
Qed.
Lemma work_wf_update_call last_turn run batch_id batch call_id call f :
  run.(ActiveRun.tool_batches) !! batch_id = Some batch → find_call batch call_id = Some call →
  (∀ call, call_id_of (f call) = call_id_of call) → call_wf (f call) →
  work_wf last_turn run → work_wf last_turn (update_batch_call batch_id call_id f run).
Proof.
  intros Hb Hc Hf Hw []. split; simpl; try done.
  - intros b. rewrite lookup_alter_is_Some. apply work_batch0.
  - intros b batch' Hb'. destruct (decide (b = batch_id)) as [->|Hne].
    + rewrite lookup_alter_eq in Hb'. apply fmap_Some in Hb' as (b0 & Hb0 & ->).
      change (run.(ActiveRun.tool_batches) !! batch_id = Some b0) in Hb0.
      rewrite Hb in Hb0. injection Hb0 as <-. destruct (work_batches0 _ _ Hb) as (?&?&?&?).
      split_and!; try done; simpl.
      * by rewrite update_first_call_ids.
      * by eapply update_first_call_wf.
    + rewrite lookup_alter_ne in Hb' by done. by apply work_batches0.
  - intros b c Hc'. destruct (work_completed0 _ _ Hc') as [Hu Ho]. split; [done|].
    intros o batch' Hb'. destruct (decide (o = batch_id)) as [->|Hne].
    + rewrite lookup_alter_eq in Hb'. apply fmap_Some in Hb' as (b0 & Hb0 & ->).
      exact (Ho _ _ Hb0).
    + rewrite lookup_alter_ne in Hb' by done. by eapply Ho.
Qed.
Lemma completed_batch_of_turn_false run turn_id b c :
  completed_batch_of_turn run turn_id = false →
  run.(ActiveRun.completed_tool_batches) !! b = Some c → turn_id ≠ c.(CompletedToolBatch.turn_id).
Proof.
  unfold completed_batch_of_turn. rewrite <- not_true_iff_false, existsb_exists.
  intros Hn Hc ->. apply Hn. exists c. split; [|by apply bool_decide_eq_true].
  apply list_elem_of_In, elem_of_btree_values. eauto.
Qed.
Lemma work_wf_start_batch last_turn batch run :
  is_nonterminal run.(ActiveRun.status) = true → run.(ActiveRun.active_tool_batch_id) = None →
  batch_wf run.(ActiveRun.run_id) batch.(ActiveToolBatch.batch_id) batch →
  completed_batch_of_turn run batch.(ActiveToolBatch.turn_id) = false →
  work_wf last_turn run →
  work_wf last_turn (run
    <| ActiveRun.tool_batches ::= <[batch.(ActiveToolBatch.batch_id) := batch]> |>
    <| ActiveRun.active_tool_batch_id := Some batch.(ActiveToolBatch.batch_id) |>).
Proof.
  intros Hs Ha Hb Hcb [].
  assert (∀ b, run.(ActiveRun.tool_batches) !! b = None) as Hn.
  { intros b. apply eq_None_not_Some. rewrite work_batch0. congruence. }
  split; simpl; try done.
  - intros b. rewrite lookup_insert_is_Some', Hn. rewrite is_Some_alt. naive_solver.
  - intros b batch' [[<- <-]|[Hne Hb']]%lookup_insert_Some; [done|]. by rewrite Hn in Hb'.
  - intros parked Hp%work_parked0. congruence.
  - intros b c Hc. split; [by apply (work_completed0 _ _ Hc)|].
    intros o batch' [[_ <-]|[_ Hb']]%lookup_insert_Some; [|by rewrite Hn in Hb'].
    by eapply completed_batch_of_turn_false.
Qed.

(** A batch that completes leaves its own record, or the one there was if its turn was
    not the latest. *)
Lemma batch_parked_false run batch_id parked :
  run.(ActiveRun.parked_tool_batch) = Some parked → batch_parked run batch_id = false →
  parked.(ParkedToolBatch.batch_id) ≠ batch_id.
Proof. intros Hp. unfold batch_parked. rewrite Hp. by rewrite bool_decide_eq_false. Qed.
Definition end_batch (batch_id : ToolBatchId) (completed : CompletedToolBatch) (run : ActiveRun)
    : ActiveRun :=
  run <| ActiveRun.tool_batches ::= delete batch_id |>
      <| ActiveRun.completed_tool_batches ::= <[batch_id := completed]> |>
      <| ActiveRun.active_tool_batch_id := None |>.
Lemma end_batch_none_open last_turn run batch_id completed :
  run.(ActiveRun.active_tool_batch_id) = Some batch_id → work_wf last_turn run →
  (end_batch batch_id completed run).(ActiveRun.tool_batches) = ∅.
Proof.
  intros Ha []. apply map_eq. intros b. rewrite lookup_empty. simpl.
  destruct (decide (b = batch_id)) as [->|Hne]; [apply lookup_delete_eq|].
  rewrite lookup_delete_ne by done. apply eq_None_not_Some. rewrite work_batch0. congruence.
Qed.
Lemma retained_without_open run t :
  run.(ActiveRun.tool_batches) = ∅ → turn_retained run t = true →
  Some t = (fst <$> latest_turn run).
Proof.
  intros Ho. unfold turn_retained, open_batch_of_turn. rewrite Ho.
  rewrite orb_true_iff, bool_decide_eq_true. intros [?|Hf]; [done|]. by vm_compute in Hf.
Qed.
Lemma work_wf_end_batch last_turn run batch_id batch completed :
  run.(ActiveRun.active_tool_batch_id) = Some batch_id → batch_parked run batch_id = false →
  run.(ActiveRun.tool_batches) !! batch_id = Some batch →
  completed.(CompletedToolBatch.turn_id) = batch.(ActiveToolBatch.turn_id) →
  work_wf last_turn run →
  work_wf last_turn (prune_settled_run_records (end_batch batch_id completed run)).
Proof.
  intros Ha Hp Hb Hct Hwf. pose proof (end_batch_none_open _ _ _ completed Ha Hwf) as Hno.
  set (run' := end_batch batch_id completed run) in *. destruct Hwf. split; try done.
  - intros t [turn [Ht _]%pruned_turns_sub]. by apply work_turns0.
  - intros t Ht. destruct (work_turn0 _ Ht) as [(turn & Hl & Hpr) Hm]. split.
    + exists turn. split; [|done]. apply lookup_btree_retain_Some. split; [done|].
      by apply latest_turn_retained.
    + intros t' [turn' [Ht' _]%pruned_turns_sub]. by apply Hm.
  - intros t turn [Ht _]%pruned_turns_sub. by apply work_ended0.
  - intros b. change (is_Some (run'.(ActiveRun.tool_batches) !! b) ↔ None = Some b).
    rewrite Hno, lookup_empty. split; [by intros [? ?]|done].
  - intros b bt. change (run'.(ActiveRun.tool_batches) !! b = Some bt → batch_wf
      run.(ActiveRun.run_id) b bt). by rewrite Hno, lookup_empty.
  - intros parked Hpk. pose proof (work_parked0 _ Hpk) as Hid.
    apply (batch_parked_false _ _ _ Hpk) in Hp. congruence.
  - intros b c Hc. split; [|by change (∀ o batch, run'.(ActiveRun.tool_batches) !! o = Some batch →
      batch.(ActiveToolBatch.turn_id) ≠ c.(CompletedToolBatch.turn_id)); rewrite Hno].
    assert (∀ b c, (prune_settled_run_records run').(ActiveRun.completed_tool_batches) !! b
      = Some c → Some c.(CompletedToolBatch.turn_id) = (fst <$> latest_turn run') ∧
        ((b = batch_id ∧ c = completed) ∨
         (b ≠ batch_id ∧ run.(ActiveRun.completed_tool_batches) !! b = Some c))) as Hcs.
    { intros b1 c1 [Hc1 [turn [_ Ht]%pruned_turns_sub]]%pruned_completed_sub.
      split; [by apply retained_without_open|].
      change (<[batch_id := completed]> run.(ActiveRun.completed_tool_batches) !! b1 = Some c1)
        in Hc1. apply lookup_insert_Some in Hc1 as [[<- <-]|[? ?]]; auto. }
    intros b' [c' Hc']. apply Hcs in Hc as [Ht Hc], Hc' as [Ht' Hc'].
    assert (c.(CompletedToolBatch.turn_id) = c'.(CompletedToolBatch.turn_id)) as He by congruence.
    destruct Hc as [[-> ->]|[_ Hc]], Hc' as [[-> ->]|[_ Hc']]; [done| | |].
    + destruct (work_completed0 _ _ Hc') as [_ Ho]. exfalso. by apply (Ho _ _ Hb); congruence.
    + destruct (work_completed0 _ _ Hc) as [_ Ho]. exfalso. by apply (Ho _ _ Hb); congruence.
    + destruct (work_completed0 _ _ Hc) as [Hu _]. apply Hu. by eexists.
Qed.

(** What follows the write of a turn leaves the work as it was. *)
Ltac turn_written :=
  match goal with
  | |- run_wf ?g =>
      match g with
      | context [set_active_run (put_turn ?t ?turn ?run) ?s] =>
          apply (run_wf_stable (set_active_run (put_turn t turn run) s)); [frame_leaf|]
      end
  end.

Section run_laws.
Context `{!Externals}.
Implicit Types (s : CoreAgentState).

Lemma apply_approval_event_run_wf e at_ms s :
  run_wf s → wp (apply_approval_event e at_ms) (λ _, run_wf) s.
Proof.
  intros Hwf. reduce_event; simplify_ok; try (by eapply run_wf_stable; [|exact Hwf]; frame_leaf).
  all: apply run_wf_put; destruct (run_wf_ref _ _ _ Hwf ltac:(eassumption)) as [_ Hw];
    by apply work_wf_status.
Qed.

Lemma finished_run_wf record run_id s :
  run_wf (prune_finished_work (set_runs (λ runs,
    push_finished record (runs <| RunsState.active := None |>))
    (interrupt_code_tools_for_run run_id s))).
Proof.
  apply (run_wf_stable (set_runs (λ runs,
    push_finished record (runs <| RunsState.active := None |>))
    (interrupt_code_tools_for_run run_id s))); [frame_leaf|by intros run [=]].
Qed.

Lemma apply_run_event_run_wf e seq at_ms s :
  run_wf s → wp (apply_run_event e seq at_ms) (λ _, run_wf) s.
Proof.
  intros Hwf. reduce_event; simplify_ok; try (by eapply run_wf_stable; [|exact Hwf]; frame_leaf).
  - intros run [= <-]. split; simpl; try done.
    all: try (by intros ? [? ?%lookup_empty_Some]).
    intros b. rewrite lookup_empty. split; [by intros [? ?]|done].
  - apply run_wf_put. destruct (run_wf_ref _ _ _ Hwf ltac:(eassumption)) as [_ Hw].
    by apply work_wf_status.
  - by apply finished_run_wf.
  - by apply finished_run_wf.
  - by apply finished_run_wf.
  - by apply finished_run_wf.
Qed.

Lemma apply_turn_event_run_wf e s :
  run_wf s → wp (apply_turn_event e) (λ _, run_wf) s.
Proof.
  intros Hwf. reduce_event; simplify_ok.
  - destruct (run_wf_ref _ _ _ Hwf ltac:(eassumption)) as [_ Hw].
    match goal with H : next_u64 _ = Some _ |- _ => apply next_u64_Some in H as -> end.
    intros run [= <-]. by apply work_wf_start_turn.
  - match goal with H : active_run_ref ?s1 _ = Ok a0 |- _ =>
      assert (run_wf s1) as Hwf1 by (eapply run_wf_stable; [|exact Hwf]; frame_leaf);
      destruct (run_wf_ref _ _ _ Hwf1 H) as [_ Hw] end.
    apply run_wf_put, work_wf_put_turn; [done| |done].
    apply at_work_plan; [by eapply work_wf_at_work|done].
  - destruct (run_wf_ref _ _ _ Hwf ltac:(eassumption)) as [_ Hw].
    apply run_wf_put, work_wf_put_turn; [done| |done].
    apply at_work_request; [by eapply work_wf_at_work|done].
  - destruct (run_wf_ref _ _ _ Hwf ltac:(eassumption)) as [_ Hw].
    turn_written. apply run_wf_put, work_wf_put_turn; [done| |done].
    apply at_work_settle; [by eapply work_wf_at_work|done].
  - destruct (run_wf_ref _ _ _ Hwf ltac:(eassumption)) as [_ Hw].
    turn_written. apply run_wf_put, work_wf_put_turn; [done| |done].
    apply at_work_settle; [by eapply work_wf_at_work|done].
  - apply run_wf_put, work_wf_prune, work_wf_end_turn; [done|by eexists|by apply Hwf].
  - destruct (run_wf_ref _ _ _ Hwf ltac:(eassumption)) as [_ Hw].
    apply run_wf_put, work_wf_end_turn; [done|by eexists|done].
Qed.

Lemma initial_call_wf s turn_id call : call_wf (initial_tool_call_state s turn_id call).
Proof.
  unfold initial_tool_call_state. match goal with |- call_wf (if ?b then _ else _) => destruct b end;
    [done|by split_and!].
Qed.

Lemma call_ids_initial s turn_id (calls : list ObservedToolCall) :
  call_id_of <$> (initial_tool_call_state s turn_id <$> calls)
  = ObservedToolCall.call_id <$> calls.
Proof.
  rewrite <- list_fmap_compose. apply list_fmap_ext. intros _ call _. simpl.
  unfold initial_tool_call_state. by case_match.
Qed.

Lemma apply_tool_event_run_wf e s :
  run_wf s → wp (apply_tool_event e) (λ _, run_wf) s.
Proof.
  intros Hwf. reduce_event; simplify_ok;
    destruct (run_wf_ref _ _ _ Hwf ltac:(eassumption)) as [Hid Hw].
  - apply (run_wf_put _ s).
    match goal with |- context [<[?b := ?batch]>] =>
      apply (work_wf_start_batch _ batch); [by destruct Hw|done| |done|exact Hw] end.
    split_and!; [done|by rewrite Hid| |]; cbn [ActiveToolBatch.calls].
    + match goal with H : validate_unique_tool_call_ids _ = Ok _ |- _ =>
        apply for_each_fresh_Ok in H as (_ & Hn & _) end. by rewrite call_ids_initial.
    + apply Forall_fmap, Forall_true. intros call. apply initial_call_wf.
  - apply run_wf_put. eapply work_wf_update_call; [by eapply active_batch_Ok|done|done| |exact Hw].
    by apply call_wf_pending.
  - apply run_wf_put. eapply work_wf_update_call; [by eapply active_batch_Ok|done|done| |exact Hw].
    match goal with H : find_call _ _ = Some _ |- _ => apply find_call_id in H end.
    split_and!; [done|done|]. simpl. by destruct (ToolCallResult.status result).
  - apply run_wf_put. destruct Hw. split; try done. by intros ? [= <-].
  - apply run_wf_put. destruct Hw. split; try done. simpl. case_bool_decide; done.
  - match goal with |- run_wf (prune_finished_work ?s1) =>
      apply (run_wf_stable s1); [frame_leaf|] end.
    match goal with H : batch_of_run_and_turn _ _ _ = true |- _ =>
      unfold batch_of_run_and_turn in H; simplify_ok end.
    apply run_wf_put. by eapply work_wf_end_batch; [done|done|by apply active_batch_Ok|done|].
Qed.

Lemma apply_event_run_wf entry s : run_wf s → wp (apply_event entry) (λ _, run_wf) s.
Proof.
  intros Hwf. apply apply_event_keeps; [done| |done]. intros _.
  frame_reducers run_wf_stable Hwf.
  - by apply apply_run_event_run_wf.
  - by apply apply_approval_event_run_wf.
  - by apply apply_turn_event_run_wf.
  - by apply apply_tool_event_run_wf.
Qed.
Lemma reachable_run_wf s : reachable s → run_wf s.
Proof. apply reachable_keeps; [by intros run [=]|intros; by apply apply_event_run_wf]. Qed.

(** C34. The work of a running session never dangles. The active run is running, parked or
    being cancelled; the turn it is working on exists, is the latest one, has not ended, and has
    a plan and a result exactly from the steps on that make them; every other turn has ended with an outcome its status agrees with; it has an open
    tool batch exactly when one is active, and a parked batch is the active one; a call of
    a batch has a result exactly when it is terminal. *)
Theorem active_run_is_well_formed s run :
  reachable s → active_run s = Some run →
  is_nonterminal run.(ActiveRun.status) = true ∧
  (∀ t turn, run.(ActiveRun.turns) !! t = Some turn → run.(ActiveRun.active_turn_id) ≠ Some t →
     ended turn) ∧
  (∀ t, run.(ActiveRun.active_turn_id) = Some t →
     ∃ turn, latest_turn run = Some (t, turn) ∧ at_work turn) ∧
  (∀ b, is_Some (run.(ActiveRun.tool_batches) !! b) ↔
     run.(ActiveRun.active_tool_batch_id) = Some b) ∧
  (∀ parked, run.(ActiveRun.parked_tool_batch) = Some parked →
     run.(ActiveRun.active_tool_batch_id) = Some parked.(ParkedToolBatch.batch_id)) ∧
  (∀ b batch call, run.(ActiveRun.tool_batches) !! b = Some batch →
     call ∈ batch.(ActiveToolBatch.calls) →
     is_Some call.(ToolCallState.result) ↔
       ToolCallStatus_is_terminal call.(ToolCallState.status) = true).
Proof.
  intros Hr Ha. destruct (reachable_run_wf s Hr run Ha). split_and!; try done.
  - intros t Ht. destruct (work_turn0 _ Ht) as [(turn & Hl & Hp) Hm]. exists turn.
    split; [|done]. by apply btree_last_Some.
  - intros b batch call Hb Hin. destruct (work_batches0 _ _ Hb) as (_ & _ & _ & Hc).
    rewrite Forall_forall in Hc. specialize (Hc _ Hin). unfold call_wf in Hc.
    destruct (ToolCallState.result call) as [result|].
    + split; [|by eexists]. by destruct Hc as (_ & _ & ?).
    + split; [by intros []|congruence].
Qed.

(** ** The end of a run *)
Lemma push_finished_last record runs :
  last (push_finished record runs).(RunsState.finished) = Some record.
Proof.
  unfold push_finished, prune_terminal_run_records; simpl.
  rewrite drop_app_le; [apply last_snoc|]. rewrite length_app. simpl.
  unfold MAX_RETAINED_TERMINAL_RUNS. lia.
Qed.
Lemma swept_code_scope s id scope :
  code_scopes (prune_finished_work s) !! id = Some scope → code_scopes s !! id = Some scope.
Proof.
  change (code_scopes (prune_finished_work s)) with (code_scopes (prune_finished_invocations s)).
  unfold prune_finished_invocations. case_bool_decide; [done|].
  by intros [? _]%lookup_btree_retain_Some.
Qed.

(** A code tool scope that has nothing left to do. *)
Definition scope_settled (scope : CodeToolScope) : Prop :=
  scope.(CodeToolScope.closed) = true ∧
  ∀ id call, scope.(CodeToolScope.calls) !! id = Some call →
    CodeToolCallStatus_is_terminal call.(CodeToolCall.status) = true.
Lemma interrupt_scope_settled scope : scope_settled (interrupt_scope scope).
Proof.
  split; [done|]. intros id call Hc. apply lookup_fmap_Some in Hc as (c & <- & _).
  unfold interrupt_call. by destruct (CodeToolCallStatus_is_terminal (CodeToolCall.status c)) eqn:Ht.
Qed.

End run_laws.

(** ** Witnesses *)
Definition generating_run : ActiveRun :=
  ltac:(let r := eval vm_compute in (active_run generating_state) in
        match r with Some ?run => exact run end).
Lemma generating_run_active : active_run generating_state = Some generating_run.
Proof. vm_compute. reflexivity. Qed.

Lemma active_run_is_well_formed_witness :
  ∃ turn, latest_turn generating_run = Some (1%N, turn) ∧ at_work turn.
Proof.
  destruct (active_run_is_well_formed generating_state generating_run generating_reachable
    generating_run_active) as (_ & _ & Ht & _). apply Ht. vm_compute. reflexivity.
Defined.


(** * The usage of a run

    What the generations of a run add up to ([accumulate_usage] of
    [core/components/turn.rs], [accumulate_run_usage] of [core/components/run.rs]). *)

Definition counters : list (LlmUsage → option N) :=
  [LlmUsage.input_tokens; LlmUsage.output_tokens; LlmUsage.reasoning_tokens;
   LlmUsage.total_tokens; LlmUsage.cached_input_tokens; LlmUsage.cache_write_input_tokens;
   LlmUsage.cache_miss_input_tokens].
(** What an entry reports of a counter. *)
Definition reported (counter : LlmUsage → option N) (entry : CoreAgentEntry) : option N :=
  match entry.(CoreAgentEntry.event) with
  | CoreAgentEvent.Turn (TurnEvent.GenerationCompleted _ _ _ facts) =>
      facts.(LlmGenerationFacts.usage) ≫= counter
  | _ => None
  end.
Definition sum_reports (reports : list N) : N := foldr N.add 0%N reports.
(** The capped sum of the reports, absent when there is none. *)
Definition capped_sum (reports : list N) : option N :=
  match reports with [] => None | _ => Some (N.min (sum_reports reports) u32_max) end.

Lemma sum_reports_app l l' : sum_reports (l ++ l') = (sum_reports l + sum_reports l')%N.
Proof. induction l as [|x l IH]; simpl; lia. Qed.
Lemma add_tokens_capped reports value :
  add_tokens (capped_sum reports) value = capped_sum (reports ++ option_list value).
Proof.
  destruct value as [v|]; simpl; [|by rewrite app_nil_r].
  unfold capped_sum at 2. destruct (reports ++ [v]) eqn:E; [by destruct reports|].
  rewrite <- E, sum_reports_app. unfold capped_sum, saturating_add_u32.
  destruct reports; simpl; f_equal; lia.
Qed.

Section usage.
Context `{!Externals}.

Lemma accumulate_usage_counter counter total usage :
  counter ∈ counters →
  accumulate_usage total usage ≫= counter
  = add_tokens (total ≫= counter) (counter usage).
Proof.
  unfold counters. rewrite !elem_of_cons, elem_of_nil.
  intros Hc; destruct_or? Hc; try done; subst; by destruct total.
Qed.
Lemma accumulate_run_usage_counter counter total entry :
  counter ∈ counters →
  accumulate_run_usage total entry ≫= counter
  = add_tokens (total ≫= counter) (reported counter entry).
Proof.
  intros Hc. unfold accumulate_run_usage, reported. repeat case_match; simpl; try done.
  by apply accumulate_usage_counter.
Qed.

(** The usage of a run is the sum of what its generations report, counter by counter:
    a counter is there exactly when some generation reports it, and it is capped at the
    largest [u32] rather than wrapped, however many generations there are. *)
Theorem run_usage_is_capped_sum entries counter :
  counter ∈ counters →
  foldl accumulate_run_usage None entries ≫= counter
  = capped_sum (omap (reported counter) entries).
Proof.
  intros Hc. induction entries as [|entry entries IH] using rev_ind; [done|].
  rewrite foldl_app, omap_app. cbn [foldl].
  rewrite accumulate_run_usage_counter, IH, add_tokens_capped by done.
  simpl. by destruct (reported counter entry).
Qed.

End usage.

(** ** Witness *)
Definition usage_entry (tokens : N) : CoreAgentEntry :=
  {| CoreAgentEntry.position := {| SessionPosition.seq := 1 |};
     CoreAgentEntry.observed_at_ms := 0; CoreAgentEntry.joins := default_of;
     CoreAgentEntry.event := CoreAgentEvent.Turn
       (TurnEvent.GenerationCompleted 1 1 LlmGenerationStatus.Succeeded
         {| LlmGenerationFacts.provider_response_id := None;
            LlmGenerationFacts.finish := LlmFinish.Stop;
            LlmGenerationFacts.usage := Some
              {| LlmUsage.input_tokens := Some tokens; LlmUsage.output_tokens := None;
                 LlmUsage.reasoning_tokens := None; LlmUsage.total_tokens := None;
                 LlmUsage.cached_input_tokens := None;
                 LlmUsage.cache_write_input_tokens := None;
                 LlmUsage.cache_miss_input_tokens := None |};
            LlmGenerationFacts.duration_ms := None; LlmGenerationFacts.tool_calls := [];
            LlmGenerationFacts.approval_requests := [];
            LlmGenerationFacts.context_token_estimate := None |}) |}.
Lemma run_usage_is_capped_sum_witness :
  foldl accumulate_run_usage None [usage_entry 4294967290; usage_entry 12]
    ≫= LlmUsage.input_tokens = Some 4294967295%N.
Proof.
  exact (run_usage_is_capped_sum [usage_entry 4294967290; usage_entry 12]
           LlmUsage.input_tokens ltac:(left)).
Defined.
