(* ===== verification/ReplayLaws.v ===== *)
(** * Laws of replay

    Positions follow one another, a log may be cut anywhere, and proposals are reduced one by one
    where each is accepted in turn ([core/apply.rs]). *)
From S2P Require Import Prelude Ids Text Types Events Media Externals RunState Contexts Approvals.
From S2P Require Import Replay Frames Example.

Section replay_laws.
Context `{!Externals}.
Implicit Types (s : CoreAgentState) (entry : CoreAgentEntry).

(** ** One entry *)
(** The position expected is one past the last, which the saturating addition of the
    store and of the dry run gives as well. *)
Lemma expected_seq_Ok s seq :
  expected_seq s = Ok seq →
  seq = following_seq s.(CoreAgentState.reduced_to) ∧
  ∀ position, s.(CoreAgentState.reduced_to) = Some position →
    seq = (position.(SessionPosition.seq) + 1)%N.
Proof.
  unfold expected_seq, following_seq, next_u64, saturating_add_u64. intros Hs.
  destruct (CoreAgentState.reduced_to s); simplify_ok; [|done].
  split; [lia|]. by intros ? [= <-].
Qed.

Lemma apply_event_kind_reduced_to entry s :
  wp (apply_event_kind entry) (λ _ s',
    s'.(CoreAgentState.reduced_to) = s.(CoreAgentState.reduced_to)) s.
Proof.
  unfold apply_event_kind. destruct (CoreAgentEntry.event entry);
    (eapply wp_mono; [reducer_frame|intros ? ? Hk; by apply (keeps_lookup _ Part.reduced_to _ _ Hk)]).
Qed.

Lemma apply_event_position entry s :
  wp (apply_event entry) (λ _ s',
    expected_seq s = Ok (entry_seq entry) ∧
    s'.(CoreAgentState.reduced_to) = Some entry.(CoreAgentEntry.position)) s.
Proof.
  unfold apply_event. wp_steps. eapply wp_mono; [apply apply_event_kind_reduced_to|].
  intros ? s1 _. wp_steps. split; [|done].
  unfold validate_next_position in *. simplify_ok. by match goal with
    H : (_ =? _)%N = true |- _ => apply N.eqb_eq in H; rewrite H end.
Qed.

(** Every entry that is reduced carries the position right after the last one
    reduced, and that position becomes the state's own: entries are neither skipped
    nor applied twice. *)
Theorem apply_event_advances entry s s' :
  apply_event entry s = (Ok tt, s') →
  entry_seq entry = following_seq s.(CoreAgentState.reduced_to) ∧
  s'.(CoreAgentState.reduced_to) = Some entry.(CoreAgentEntry.position).
Proof.
  intros Hs. destruct (wp_ok_inv _ _ _ _ _ (apply_event_position entry s) Hs) as [He ?].
  split; [|done]. by apply expected_seq_Ok.
Qed.

(** ** A log *)
Lemma reduce_log_cons entry entries s s' :
  reduce_log (entry :: entries) s = (Ok tt, s') ↔
  ∃ s1, apply_event entry s = (Ok tt, s1) ∧ reduce_log entries s1 = (Ok tt, s').
Proof.
  unfold reduce_log; cbn [for_each]. unfold mbind, Reducer_bind.
  destruct (apply_event entry s) as [[[]|] s1]; split; try naive_solver.
Qed.

(** A replayed log is gapless: the entry at index [i] has the position [i] past the
    one that follows the state, whatever the events are. *)
Theorem replay_positions_gapless entries s s' i entry :
  reduce_log entries s = (Ok tt, s') → entries !! i = Some entry →
  entry_seq entry = (following_seq s.(CoreAgentState.reduced_to) + N.of_nat i)%N.
Proof.
  revert s i. induction entries as [|e entries IH]; intros s i Hr Hi; [done|].
  apply reduce_log_cons in Hr as (s1 & He & Hr).
  destruct (wp_ok_inv _ _ _ _ _ (apply_event_position e s) He) as [Hseq Hred].
  destruct i as [|i]; simplify_eq/=.
  - destruct (expected_seq_Ok _ _ Hseq) as [-> _]. lia.
  - rewrite (IH s1 i Hr Hi). destruct entries as [|e' entries]; [done|].
    apply reduce_log_cons in Hr as (s2 & He' & _).
    destruct (wp_ok_inv _ _ _ _ _ (apply_event_position e' s1) He') as [Hseq' _].
    destruct (expected_seq_Ok _ _ Hseq') as [Hf' Hn']. specialize (Hn' _ Hred).
    destruct (expected_seq_Ok _ _ Hseq) as [Hf _]. unfold entry_seq in *. lia.
Qed.

Lemma reduce_log_app entries1 entries2 s s' :
  reduce_log (entries1 ++ entries2) s = (Ok tt, s') ↔
  ∃ s1, reduce_log entries1 s = (Ok tt, s1) ∧ reduce_log entries2 s1 = (Ok tt, s').
Proof.
  revert s. induction entries1 as [|e entries1 IH]; intros s; cbn [app].
  - split; [intros; exists s; done|by intros (? & [= <-] & ?)].
  - rewrite reduce_log_cons. setoid_rewrite reduce_log_cons. setoid_rewrite IH.
    naive_solver.
Qed.

(** A log may be cut anywhere: replaying its tail onto the state its head reduces to
    is replaying the whole log, so a checkpoint at any position yields the same state. *)
Theorem replay_from_checkpoint entries1 entries2 s s' :
  reduce_log (entries1 ++ entries2) s = (Ok tt, s') ↔
  ∃ s1, reduce_log entries1 s = (Ok tt, s1) ∧ reduce_log entries2 s1 = (Ok tt, s').
Proof. apply reduce_log_app. Qed.

Lemma reduce_proposals_cons at_ms p ps s s' :
  reduce_proposals at_ms (p :: ps) s = (Ok tt, s') ↔
  ∃ s1, apply_event (committed_entry (following_seq s.(CoreAgentState.reduced_to)) at_ms p) s
          = (Ok tt, s1) ∧ reduce_proposals at_ms ps s1 = (Ok tt, s').
Proof.
  unfold reduce_proposals; cbn [for_each]. unfold mbind, Reducer_bind, get_state.
  destruct (apply_event _ s) as [[[]|] s1]; split; try naive_solver.
Qed.

Lemma reduce_proposals_app at_ms ps1 ps2 s s' :
  reduce_proposals at_ms (ps1 ++ ps2) s = (Ok tt, s') ↔
  ∃ s1, reduce_proposals at_ms ps1 s = (Ok tt, s1) ∧ reduce_proposals at_ms ps2 s1 = (Ok tt, s').
Proof.
  revert s. induction ps1 as [|p ps1 IH]; intros s; cbn [app].
  - split; [intros; exists s; done|by intros (? & [= <-] & ?)].
  - rewrite reduce_proposals_cons. setoid_rewrite reduce_proposals_cons. setoid_rewrite IH.
    naive_solver.
Qed.

(** ** Steps that succeed *)
(** The last position a state has reduced, and the room for more entries after it. *)
Definition log_length s : N :=
  match s.(CoreAgentState.reduced_to) with
  | Some position => position.(SessionPosition.seq)
  | None => 0%N
  end.
Definition advanced s : CoreAgentState :=
  s <| CoreAgentState.reduced_to :=
    Some {| SessionPosition.seq := following_seq s.(CoreAgentState.reduced_to) |} |>.
Lemma expected_seq_room s :
  (log_length s < u64_max)%N → expected_seq s = Ok (log_length s + 1)%N ∧
  following_seq s.(CoreAgentState.reduced_to) = (log_length s + 1)%N.
Proof.
  unfold log_length, expected_seq, following_seq, next_u64, checked_add_u64, saturating_add_u64.
  intros Hl. destruct (CoreAgentState.reduced_to s) as [position|]; [|done].
  rewrite (proj2 (N.leb_le _ _)) by lia. split; [done|lia].
Qed.
Lemma log_length_advanced s s1 :
  (log_length s < u64_max)%N → s1.(CoreAgentState.reduced_to) = s.(CoreAgentState.reduced_to) →
  log_length (advanced s1) = (log_length s + 1)%N.
Proof.
  intros Hl Hr. unfold advanced. rewrite Hr. unfold log_length at 1. cbn.
  by apply expected_seq_room.
Qed.
(** An entry at the next position does what its event does. *)
Lemma apply_event_next at_ms p s s1 :
  (log_length s < u64_max)%N →
  apply_event_kind (committed_entry (following_seq s.(CoreAgentState.reduced_to)) at_ms p) s
    = (Ok tt, s1) →
  apply_event (committed_entry (following_seq s.(CoreAgentState.reduced_to)) at_ms p) s
    = (Ok tt, advanced s1) ∧
  s1.(CoreAgentState.reduced_to) = s.(CoreAgentState.reduced_to).
Proof.
  intros Hl Hkind. destruct (expected_seq_room s Hl) as [He Hf].
  pose proof (wp_ok_inv _ _ _ _ _ (apply_event_kind_reduced_to _ s) Hkind) as Hr. cbv beta in Hr.
  split; [|done]. unfold apply_event. runs.
  - rewrite (bind_runs _ _ _ _ _ Hkind). unfold advanced. by rewrite Hr.
  - unfold validate_next_position. rewrite He. cbn [mbind Result_bind].
    unfold entry_seq. cbn. by rewrite Hf, N.eqb_refl.
Qed.
Lemma dry_run_step at_ms p ps s s1 s' :
  (log_length s < u64_max)%N →
  apply_event_kind (committed_entry (following_seq s.(CoreAgentState.reduced_to)) at_ms p) s
    = (Ok tt, s1) →
  reduce_proposals at_ms ps (advanced s1) = (Ok tt, s') →
  reduce_proposals at_ms (p :: ps) s = (Ok tt, s').
Proof.
  intros Hl Hkind Hps. apply reduce_proposals_cons. exists (advanced s1).
  split; [|done]. by apply apply_event_next.
Qed.
(** A list of proposals, one for each element of a list, each of which is taken where the
    ones before it have been. *)
Lemma dry_run_each {A} (I : list A → CoreAgentState → Prop) (f : A → CoreAgentEventProposal)
    at_ms l s :
  (∀ x l s, I (x :: l) s → ∃ s1,
     apply_event_kind (committed_entry (following_seq s.(CoreAgentState.reduced_to)) at_ms (f x)) s
       = (Ok tt, s1) ∧ I l (advanced s1)) →
  (log_length s + N.of_nat (length l) <= u64_max)%N → I l s →
  ∃ s', reduce_proposals at_ms (f <$> l) s = (Ok tt, s') ∧ I [] s' ∧
    log_length s' = (log_length s + N.of_nat (length l))%N.
Proof.
  intros Hstep. revert s. induction l as [|x l IH]; intros s Hl HI.
  { exists s. split_and!; [done|done|]. simpl. lia. }
  simpl in Hl. destruct (Hstep x l s HI) as (s1 & Hkind & HI1).
  destruct (apply_event_next at_ms (f x) s s1 ltac:(lia) Hkind) as [_ Hr].
  pose proof (log_length_advanced s s1 ltac:(lia) Hr) as Hlen.
  destruct (IH (advanced s1)) as (s' & Hd & HI' & Hlen'); [lia|done|].
  exists s'. split_and!; [|done|simpl; lia]. eapply dry_run_step; [lia|exact Hkind|exact Hd].
Qed.
End replay_laws.

(** ** Witnesses *)
Definition opened_entry : CoreAgentEntry :=
  committed_entry 1 1000 (Approvals.proposal default_of
    (CoreAgentEvent.Lifecycle (CoreAgentLifecycleEvent.Opened example_config))).
Definition accepted_proposal : CoreAgentEventProposal :=
  Approvals.proposal default_of (CoreAgentEvent.Run (RunEvent.Accepted (example_accepted 1))).

Lemma apply_event_advances_witness :
  entry_seq opened_entry = 1%N ∧
  open_state.(CoreAgentState.reduced_to) = Some opened_entry.(CoreAgentEntry.position).
Proof.
  exact (apply_event_advances opened_entry new_state open_state
           ltac:(vm_compute; reflexivity)).
Defined.

Definition example_log : list CoreAgentEntry :=
  [opened_entry; committed_entry 2 1000 accepted_proposal].
Lemma replay_positions_gapless_witness :
  entry_seq (committed_entry 2 1000 accepted_proposal) = 2%N.
Proof.
  exact (replay_positions_gapless example_log new_state accepted_state 1 _
           ltac:(vm_compute; reflexivity) eq_refl).
Defined.
