(* ===== verification/ContextLaws.v ===== *)
(** * Laws of the active context

    The entries of a session's context keep the order they were given out in, no key holds
    more than a catalog's bounded versions, and rendering neither loses nor repeats an entry
    ([core/components/context.rs]). *)
From S2P Require Import Prelude Ids Text Types Events Media Externals RunState Config Promises.
From S2P Require Import Contexts Compaction ContextReducer Approvals Toolset Runs Replay Frames.
From S2P Require Import Example.

(** ** Lists of entries *)
Definition entry_ids (entries : list ContextEntry) : list ContextEntryId :=
  ContextEntry.entry_id <$> entries.
Definition versions (key : ContextEntryKey) (entries : list ContextEntry) : list ContextEntry :=
  filter (λ entry, entry.(ContextEntry.key) = Some key) entries.
Definition is_catalog (entry : ContextEntry) : Prop :=
  is_supersedable_catalog_kind entry.(ContextEntry.kind) = true.

(** A key has one entry, or up to [cap] versions of a catalog. *)
Definition versions_ok (cap : nat) (entries : list ContextEntry) : Prop :=
  (length entries <= cap)%nat ∧ ((2 <= length entries)%nat → Forall is_catalog entries).
Definition ordered (entries : list ContextEntry) (last : ContextEntryId) : Prop :=
  StronglySorted N.lt (entry_ids entries) ∧ Forall (λ id, id <= last)%N (entry_ids entries).
Definition entries_wf (entries : list ContextEntry) (last : ContextEntryId) : Prop :=
  ordered entries last ∧ ∀ key, versions_ok (SUPERSEDED_CATALOG_CAP + 1) (versions key entries).

Lemma StronglySorted_sublist {A} (R : relation A) l k :
  sublist l k → StronglySorted R k → StronglySorted R l.
Proof.
  induction 1 as [|x l k Hs IH|x l k Hs IH]; intros Hk.
  - constructor.
  - apply StronglySorted_inv in Hk as [Hk Hx]. constructor; [by apply IH|].
    rewrite Forall_forall in *. intros y Hy. apply Hx. by eapply sublist_subseteq.
  - apply StronglySorted_inv in Hk as [Hk _]. by apply IH.
Qed.
Lemma ordered_sublist l k last : sublist l k → ordered k last → ordered l last.
Proof.
  intros Hs [Hk Hb]. assert (sublist (entry_ids l) (entry_ids k)) as Hi.
  { unfold entry_ids. by apply fmap_sublist. }
  split; [by eapply StronglySorted_sublist|]. rewrite Forall_forall in *. intros id Hid.
  apply Hb. by eapply sublist_subseteq.
Qed.
Lemma ordered_push entries last entry :
  ordered entries last → entry.(ContextEntry.entry_id) = (last + 1)%N →
  ordered (entries ++ [entry]) (last + 1).
Proof.
  intros [Hs Hb] He. rewrite Forall_forall in Hb. unfold ordered.
  assert (entry_ids (entries ++ [entry]) = entry_ids entries ++ [(last + 1)%N]) as ->.
  { unfold entry_ids. rewrite fmap_app. f_equal. by apply (f_equal (λ id, [id])). }
  split.
  - apply StronglySorted_app_2; [|done|by repeat constructor].
    intros id1 id2 Hid1%Hb ->%list_elem_of_singleton. lia.
  - apply Forall_forall. intros id [Hid%Hb| ->%list_elem_of_singleton]%elem_of_app; lia.
Qed.
Lemma ordered_NoDup entries last : ordered entries last → NoDup (entry_ids entries).
Proof.
  intros [Hs _]. induction Hs as [|id ids Hs IH Hf]; constructor; [|done].
  rewrite Forall_forall in Hf. intros Hin%Hf. lia.
Qed.

(** ** Versions of a key *)
Lemma versions_retain key keep entries :
  versions key (retain_entries keep entries) = retain_entries keep (versions key entries).
Proof.
  unfold versions, retain_entries. rewrite !list_filter_filter. apply list_filter_iff.
  intros; tauto.
Qed.
Lemma versions_ok_sublist cap l k : sublist l k → versions_ok cap k → versions_ok cap l.
Proof.
  intros Hs [Hl Hc]. pose proof (sublist_length _ _ Hs). split; [lia|]. intros H2.
  rewrite Forall_forall in *. intros x Hx. apply Hc; [lia|]. by eapply sublist_subseteq.
Qed.
Lemma entries_wf_retain keep entries last :
  entries_wf entries last → entries_wf (retain_entries keep entries) last.
Proof.
  intros [Ho Hv]. split.
  - eapply ordered_sublist; [|exact Ho]. apply sublist_filter.
  - intros key. rewrite versions_retain. eapply versions_ok_sublist; [|exact (Hv key)].
    apply sublist_filter.
Qed.

(** Dropping the first entries of a list by their ids. *)
Lemma retain_not_taken n entries :
  NoDup (entry_ids entries) →
  retain_entries (λ entry, negb (bool_decide
    (entry.(ContextEntry.entry_id) ∈ take n (entry_ids entries)))) entries = drop n entries.
Proof.
  intros Hn. set (keep := λ entry, _). transitivity
    (retain_entries keep (take n entries ++ drop n entries)); [by rewrite take_drop|].
  unfold retain_entries, keep, entry_ids in *. rewrite filter_app, <- fmap_take.
  rewrite (list_filter_none _ (take n entries)), (list_filter_all _ (drop n entries));
    [done|apply Forall_forall..].
  - intros x Hx. rewrite negb_true_iff, bool_decide_eq_false. intros Hin.
    rewrite <- (take_drop n entries), fmap_app, NoDup_app in Hn. destruct Hn as (_ & Hd & _).
    apply (Hd _ Hin). by apply list_elem_of_fmap_2.
  - intros x Hx. rewrite negb_true_iff, bool_decide_eq_false. intros Hn'. apply Hn'.
    by apply list_elem_of_fmap_2.
Qed.

Lemma dropped_versions_take key entries :
  dropped_versions key entries =
  take (length (versions key entries) - 1 - SUPERSEDED_CATALOG_CAP)
    (entry_ids (versions key entries)).
Proof.
  unfold dropped_versions. fold (versions key entries) (entry_ids (versions key entries)).
  unfold entry_ids. rewrite length_take, length_fmap, take_take. f_equal. lia.
Qed.
Definition drop_beyond_cap (key : ContextEntryKey) (entries : list ContextEntry)
    : list ContextEntry :=
  retain_entries (λ entry, negb (bool_decide
    (entry.(ContextEntry.entry_id) ∈ dropped_versions key entries))) entries.

(** What supersession keeps: the newest versions of the key, up to the cap. *)
Lemma versions_drop_beyond_cap key entries :
  NoDup (entry_ids entries) →
  versions key (drop_beyond_cap key entries) =
  drop (length (versions key entries) - 1 - SUPERSEDED_CATALOG_CAP) (versions key entries).
Proof.
  intros Hn. unfold drop_beyond_cap. rewrite versions_retain, dropped_versions_take.
  apply retain_not_taken. eapply sublist_NoDup; [exact Hn|].
  unfold entry_ids. apply fmap_sublist, sublist_filter.
Qed.
Lemma drop_beyond_cap_wf key entries last :
  ordered entries last →
  (∀ key', key' ≠ key → versions_ok (SUPERSEDED_CATALOG_CAP + 1) (versions key' entries)) →
  versions_ok (SUPERSEDED_CATALOG_CAP + 2) (versions key entries) →
  entries_wf (drop_beyond_cap key entries) last.
Proof.
  intros Ho Hv [Hl Hk]. split.
  - eapply ordered_sublist; [|exact Ho]. apply sublist_filter.
  - intros key'. destruct (decide (key' = key)) as [->|Hne].
    + rewrite versions_drop_beyond_cap by by eapply ordered_NoDup. split.
      * rewrite length_drop. lia.
      * rewrite length_drop. intros H2. apply Forall_drop, Hk. lia.
    + unfold drop_beyond_cap. rewrite versions_retain.
      eapply versions_ok_sublist; [apply sublist_filter|by apply Hv].
Qed.

(** Pushing an entry. *)
Lemma versions_push key entries entry :
  versions key (entries ++ [entry]) =
  versions key entries ++ (if decide (entry.(ContextEntry.key) = Some key) then [entry] else []).
Proof. unfold versions. by rewrite filter_app, filter_singleton. Qed.
Lemma entries_wf_push entries last entry :
  entries_wf entries last → entry.(ContextEntry.entry_id) = (last + 1)%N →
  (∀ key, entry.(ContextEntry.key) = Some key → versions key entries = []) →
  entries_wf (entries ++ [entry]) (last + 1).
Proof.
  intros [Ho Hv] Hid Hk. split; [by apply ordered_push|]. intros key. rewrite versions_push.
  case_decide as Hkey; [|by rewrite app_nil_r]. rewrite (Hk _ Hkey). split; simpl; [unfold SUPERSEDED_CATALOG_CAP|intros H2]; lia.
Qed.
Lemma entries_wf_supersede key entries last entry :
  entries_wf entries last → entry.(ContextEntry.entry_id) = (last + 1)%N →
  entry.(ContextEntry.key) = Some key → is_catalog entry →
  Forall is_catalog (versions key entries) →
  entries_wf (drop_beyond_cap key (entries ++ [entry])) (last + 1).
Proof.
  intros [Ho Hv] Hid Hkey Hc Hall. apply drop_beyond_cap_wf.
  - by apply ordered_push.
  - intros key' Hne. rewrite versions_push, decide_False by congruence. by rewrite app_nil_r.
  - rewrite versions_push, decide_True by done. split.
    + rewrite length_app. cbn [length]. destruct (Hv key) as [Hl _]. lia.
    + intros _. apply Forall_app. split; [done|]. by apply Forall_singleton.
Qed.

(** ** Replacement *)
(** What a replacement keeps of an entry. *)
Definition shape (entry : ContextEntry)
    : ContextEntryId * ContextEntryKind * option ContextEntryKey :=
  (entry.(ContextEntry.entry_id), entry.(ContextEntry.kind), entry.(ContextEntry.key)).
Definition shapes (entries : list ContextEntry) := shape <$> entries.

Lemma shapes_ids entries : entry_ids entries = (λ p, p.1.1) <$> shapes entries.
Proof. unfold entry_ids, shapes. by rewrite <- list_fmap_compose. Qed.
Lemma versions_ok_shapes cap entries :
  versions_ok cap entries ↔
  (length (shapes entries) <= cap)%nat ∧
  ((2 <= length (shapes entries))%nat →
   Forall (λ p, is_supersedable_catalog_kind p.1.2 = true) (shapes entries)).
Proof. unfold versions_ok, shapes. by rewrite length_fmap, Forall_fmap. Qed.
Lemma versions_shapes key entries :
  shapes (versions key entries) = filter (λ p, p.2 = Some key) (shapes entries).
Proof.
  unfold shapes, versions. induction entries as [|x l IH]; [done|]. rewrite fmap_cons.
  rewrite !filter_cons. change (shape x).2 with x.(ContextEntry.key).
  case_decide; [|done]. by rewrite fmap_cons, IH.
Qed.

Lemma entries_wf_shapes entries entries' last :
  shapes entries' = shapes entries → entries_wf entries last → entries_wf entries' last.
Proof.
  intros He. unfold entries_wf, ordered. setoid_rewrite versions_ok_shapes.
  setoid_rewrite versions_shapes. by rewrite !shapes_ids, He.
Qed.

Lemma find_entry_Some entries id entry :
  find_entry entries id = Some entry → entry ∈ entries ∧ entry.(ContextEntry.entry_id) = id.
Proof.
  unfold find_entry. intros ([i x] & Hf & ->)%fmap_Some.
  apply list_find_Some in Hf as (Hi & Hp & _). split; [by eapply list_elem_of_lookup_2|done].
Qed.
Lemma NoDup_ids_eq entries a b :
  NoDup (entry_ids entries) → a ∈ entries → b ∈ entries →
  a.(ContextEntry.entry_id) = b.(ContextEntry.entry_id) → a = b.
Proof.
  intros Hn (i & Ha)%list_elem_of_lookup (j & Hb)%list_elem_of_lookup Hid.
  assert (i = j) as ->; [|congruence].
  apply (NoDup_lookup _ _ _ a.(ContextEntry.entry_id) Hn); unfold entry_ids;
    rewrite list_lookup_fmap; [by rewrite Ha|]. rewrite Hb, Hid. done.
Qed.

(** An entry that agrees with the one it replaces. *)
Definition agrees (entries : list ContextEntry) (entry : ContextEntry) : Prop :=
  ∀ active, active ∈ entries →
    active.(ContextEntry.entry_id) = entry.(ContextEntry.entry_id) → shape entry = shape active.
Lemma agrees_shapes entries entries' entry :
  shapes entries' = shapes entries → agrees entries entry → agrees entries' entry.
Proof.
  intros He Ha active Hin Hid. assert (shape active ∈ shapes entries) as Hs.
  { rewrite <- He. by apply list_elem_of_fmap_2. }
  apply list_elem_of_fmap in Hs as (a & Hs & Hin'). rewrite Hs. apply Ha; [done|].
  injection Hs as <- _ _. done.
Qed.
Lemma replace_entry_shapes entries entry :
  agrees entries entry → shapes (replace_entry entries entry) = shapes entries.
Proof.
  intros Ha. unfold replace_entry. destruct (list_find _ entries) as [[i active]|] eqn:Hf; [|done].
  apply list_find_Some in Hf as (Hi & Hid & _). unfold shapes. rewrite list_fmap_insert.
  apply list_insert_id. rewrite list_lookup_fmap, Hi. simpl. f_equal.
  symmetry. apply Ha; [by eapply list_elem_of_lookup_2|done].
Qed.
Lemma replace_entries_shapes entries replacements :
  Forall (agrees entries) replacements →
  shapes (foldl replace_entry entries replacements) = shapes entries.
Proof.
  revert entries. induction replacements as [|r rs IH]; intros entries; simpl; [done|].
  intros [Hr Hrs]%Forall_cons. pose proof (replace_entry_shapes _ _ Hr) as He.
  rewrite IH; [done|]. eapply Forall_impl; [exact Hrs|]. intros x. by apply agrees_shapes.
Qed.

(** ** The invariant *)
Definition last_context_entry_id (s : CoreAgentState) : ContextEntryId :=
  s.(CoreAgentState.id_cursors).(IdCursors.last_context_entry_id).
Definition context_wf (s : CoreAgentState) : Prop :=
  entries_wf (context_entries s) (last_context_entry_id s).

Lemma context_wf_stable : stable [Part.entries; Part.entry_cursor] context_wf.
Proof.
  intros s s' Hk. pose proof (keeps_lookup _ Part.entries _ _ Hk eq_refl) as He.
  pose proof (keeps_lookup _ Part.entry_cursor _ _ Hk eq_refl) as Hc.
  unfold context_wf, last_context_entry_id. simpl in *. by rewrite He, Hc.
Qed.

Lemma current_key_entry_Some s key current :
  current_key_entry s key = Some current → current ∈ versions key (context_entries s).
Proof.
  unfold current_key_entry, versions. intros ([i x] & Hf & ->)%fmap_Some.
  apply list_find_Some in Hf as (Hi & Hk & _). apply list_elem_of_filter. split; [done|].
  apply list_elem_of_lookup_2 in Hi.
  by rewrite list_elem_of_In, <- in_rev, <- list_elem_of_In in Hi.
Qed.
Lemma supersede_target_Some s key kind id :
  supersede_target s key kind = Some id →
  is_supersedable_catalog_kind kind = true ∧
  ∃ current, current ∈ versions key (context_entries s) ∧ is_catalog current ∧
             current.(ContextEntry.entry_id) = id.
Proof.
  unfold supersede_target. destruct (is_supersedable_catalog_kind kind); [simpl|done].
  destruct (current_key_entry s key) as [current|] eqn:Hc; [|done].
  apply current_key_entry_Some in Hc. case_match eqn:Hk; [|done]. intros [= <-].
  split; [done|]. by exists current.
Qed.
Lemma versions_all_catalogs cap entries current :
  versions_ok cap entries → current ∈ entries → is_catalog current →
  Forall is_catalog entries.
Proof.
  intros [_ Hc] Hin Hk. destruct entries as [|x [|y l]]; [done| |apply Hc; simpl; lia].
  apply list_elem_of_singleton in Hin as ->. by apply Forall_singleton.
Qed.
Lemma versions_retain_other key entries :
  versions key (retain_entries (λ entry, bool_decide (entry.(ContextEntry.key) ≠ Some key))
    entries) = [].
Proof.
  unfold versions, retain_entries. rewrite list_filter_filter. apply list_filter_none, Forall_forall.
  intros x _ [Hk Hn]. rewrite bool_decide_eq_true in Hn. done.
Qed.

Section context.
Context `{!Externals}.
Implicit Types (s : CoreAgentState) (entry : ContextEntry).

(** What settling the key of an entry leaves, seen from the entry. *)
Definition key_settled entry s s' : Prop :=
  last_context_entry_id s' = last_context_entry_id s ∧
  match entry.(ContextEntry.key), entry.(ContextEntry.supersedes) with
  | Some key, Some _ =>
      context_entries s' = context_entries s ∧ is_catalog entry ∧
      Forall is_catalog (versions key (context_entries s))
  | Some key, None =>
      context_entries s' = retain_entries
        (λ entry, bool_decide (entry.(ContextEntry.key) ≠ Some key)) (context_entries s)
  | None, _ => context_entries s' = context_entries s
  end.

Lemma settle_key_settled entry s :
  context_wf s → wp (settle_key entry) (λ _, key_settled entry s) s.
Proof.
  intros [_ Hv]. unfold settle_key, key_settled. wp_steps; simplify_ok.
  - split; [done|]. match goal with H : ContextEntry.supersedes _ = _, H' : _ = None |- _ =>
      by rewrite H, H' end.
  - split; [done|]. destruct Heqb as [id Hid].
    match goal with H : ContextEntry.supersedes _ = _ |- _ => rewrite H, Hid end.
    apply supersede_target_Some in Hid as (Hc & current & Hin & Hcc & _).
    split_and!; [done|done|]. by eapply versions_all_catalogs.
  - by split.
Qed.

Lemma apply_entry_wf entry s : context_wf s → wp (apply_entry entry) (λ _, context_wf) s.
Proof.
  intros Hwf. unfold apply_entry. wp_steps. simplify_ok.
  match goal with H : next_u64 _ = Some _ |- _ => apply next_u64_Some in H as Hid end.
  eapply wp_mono; [apply record_entry_materialization_frame|]. intros ? s1 Hk.
  pose proof (keeps_lookup _ Part.entry_cursor _ _ Hk eq_refl) as Hc. simpl in Hc.
  assert (context_wf s1) as Hwf1.
  { eapply context_wf_stable; [|exact Hwf]. by eapply keeps_sub; [|exact Hk]. }
  wp_steps. eapply wp_mono; [by apply settle_key_settled|]. intros ? s2 [Hc2 He2].
  fold (last_context_entry_id s) in *.
  assert (ContextEntry.entry_id entry = (last_context_entry_id s1 + 1)%N) as Hid1.
  { rewrite Hid. unfold last_context_entry_id in *. by rewrite Hc. }
  unfold context_wf in Hwf1. wp_steps; unfold context_wf.
  - change (entries_wf (drop_beyond_cap s0 (context_entries s2 ++ [entry]))
              entry.(ContextEntry.entry_id)).
    destruct He2 as (-> & Hcat & Hall). rewrite Hid1. by apply entries_wf_supersede.
  - change (entries_wf (context_entries s2 ++ [entry]) entry.(ContextEntry.entry_id)).
    rewrite He2, Hid1. apply entries_wf_push; [by apply entries_wf_retain|done|].
    intros key Hkey. simplify_eq. apply versions_retain_other.
  - change (entries_wf (context_entries s2 ++ [entry]) entry.(ContextEntry.entry_id)).
    rewrite He2, Hid1. apply entries_wf_push; [done|done|]. intros key ?. congruence.
Qed.
Lemma apply_entries_applied_wf entries s :
  context_wf s → wp (apply_entries_applied entries) (λ _, context_wf) s.
Proof.
  intros Hwf. unfold apply_entries_applied. wp_steps. apply wp_for_each; [|done].
  intros entry s1 _. apply apply_entry_wf.
Qed.
Lemma retain_wf keep s :
  context_wf s → context_wf (set_entries (retain_entries keep) s).
Proof. apply entries_wf_retain. Qed.

(** The recorded validation of a replacement makes it agree with what it replaces. *)
Lemma validate_recorded_agrees s entry :
  context_wf s → validate_recorded_entry_replacement s entry = Ok tt →
  agrees (context_entries s) entry.
Proof.
  intros [Ho _] Hv active Hin Hid. apply ordered_NoDup in Ho.
  unfold validate_recorded_entry_replacement in Hv. simplify_ok.
  match goal with H : entry_by_id _ _ = Some _ |- _ => apply find_entry_Some in H as [Ha He] end.
  assert (a = active) as -> by (eapply NoDup_ids_eq; [exact Ho|done|done|congruence]).
  unfold shape. congruence.
Qed.

Lemma remove_keys_wf keys s :
  context_wf s →
  wp (E:=DomainError) (for_each (λ key, modify_state (remove_context_entry_by_key key)) keys)
    (λ _, context_wf) s.
Proof. apply wp_for_each. intros key s1 _ Hs1. wp_steps. by apply retain_wf. Qed.

Lemma apply_context_event_wf e s :
  context_wf s → wp (apply_context_event e) (λ _, context_wf) s.
Proof.
  intros Hwf. reduce_event; simplify_ok;
    try (by eapply context_wf_stable; [|exact Hwf]; frame_leaf);
    try (by eapply wp_mono; [apply apply_entries_applied_wf|intros ? s1 Hs1; wp_steps]).
  - by apply (entries_wf_retain _ (context_entries s)).
  - eapply wp_mono; [by apply remove_keys_wf|]. intros ? s1 Hs1. wp_steps. exact Hs1.
  - by apply (entries_wf_retain _ (context_entries s)).
  - eapply wp_mono; [apply apply_entries_applied_wf; by apply retain_wf|].
    intros ? s1 Hs1. wp_steps. exact Hs1.
  - match goal with H : for_each_fresh _ _ _ _ _ _ = Ok _ |- _ =>
      apply for_each_fresh_Ok in H as (Hall & _ & _) end.
    apply (entries_wf_shapes (context_entries s)); [|exact Hwf].
    apply replace_entries_shapes. eapply Forall_impl; [exact Hall|].
    intros x [_ Hx]. by apply validate_recorded_agrees.
Qed.

Lemma apply_event_context_wf (entry : CoreAgentEntry) s :
  context_wf s → wp (apply_event entry) (λ _, context_wf) s.
Proof.
  intros Hwf. apply apply_event_keeps; [done| |done]. intros _.
  frame_reducers context_wf_stable Hwf. by apply apply_context_event_wf.
Qed.
Lemma reachable_context_wf s : reachable s → context_wf s.
Proof.
  apply reachable_keeps; [|intros; by apply apply_event_context_wf].
  split; [by split; constructor|]. intros key. split; simpl; [lia|]. intros; lia.
Qed.

(** C39. In every session the active context is in the order its entries were given out:
    their ids increase strictly and none is past the cursor, so an id names at most one
    entry. A key holds one entry, or the current version of a catalog and at most the five
    versions it superseded last. *)
Theorem active_context_well_formed s :
  reachable s →
  StronglySorted N.lt (entry_ids (context_entries s)) ∧
  Forall (λ id, id <= last_context_entry_id s)%N (entry_ids (context_entries s)) ∧
  ∀ key, (length (versions key (context_entries s)) <= 6)%nat ∧
         ((2 <= length (versions key (context_entries s)))%nat →
          Forall is_catalog (versions key (context_entries s))).
Proof. by intros [[Hs Hb] Hv]%reachable_context_wf. Qed.

(** ** Revisions *)
Definition base_revision (event : ContextEvent) : N :=
  match event with
  | ContextEvent.EntriesApplied base _ | ContextEvent.EntriesRemoved base _ _
  | ContextEvent.KeysRemoved base _ | ContextEvent.KeyPrefixReplaced base _ _
  | ContextEvent.EntriesReplaced base _ | ContextEvent.CompactionRequested base _ _
  | ContextEvent.CompactionQueued base | ContextEvent.CompactionFinished base _ _ _ _ => base
  end.
Definition only_queues (event : ContextEvent) : bool :=
  match event with ContextEvent.CompactionQueued _ => true | _ => false end.
Definition context_revision (s : CoreAgentState) : N :=
  s.(CoreAgentState.context).(ContextState.revision).

(** The revision after an accepted event. *)
Definition next_revision (event : ContextEvent) s : N :=
  if only_queues event then context_revision s else (context_revision s + 1)%N.

Lemma keeps_revision parts s s' :
  keeps parts s s' → existsb (λ p, part_covers p Part.context_revision) parts = true →
  context_revision s' = context_revision s.
Proof. intros Hk Hp. exact (keeps_lookup _ Part.context_revision _ _ Hk Hp). Qed.
Lemma settle_compaction_revision status s :
  context_revision (settle_compaction status s) = context_revision s.
Proof. unfold settle_compaction. by repeat case_match. Qed.

Lemma wp_const {A} (m : CoreReducer A) (P : Prop) s : P → wp m (λ _ _, P) s.
Proof. unfold wp. by destruct (m s) as [[] ?]. Qed.
Lemma apply_context_event_base e s :
  wp (apply_context_event e) (λ _ _, base_revision e = context_revision s) s.
Proof.
  unfold apply_context_event. destruct e; apply wp_bind; unfold validate_base_revision;
    apply wp_checking; intros ? Ha; apply wp_const; simplify_ok; by apply N.eqb_eq.
Qed.

(** A stale edit writes nothing. *)
Lemma apply_context_event_stale e s :
  base_revision e ≠ context_revision s → ∃ err, apply_context_event e s = (Err err, s).
Proof.
  intros Hne. unfold apply_context_event, validate_base_revision, mbind, Reducer_bind, checking.
  apply N.eqb_neq in Hne. unfold context_revision in Hne.
  destruct e; cbn [base_revision] in Hne; rewrite Hne; by eexists.
Qed.

(** The revision that is bumped is the one the event started from. *)
Ltac bumped :=
  match goal with
  | H : next_u64 _ = Some ?r |- context_revision _ = _ =>
      apply next_u64_Some in H; etransitivity; [exact H|]; apply (f_equal (λ n, n + 1)%N)
  end.
Lemma apply_context_event_next e s :
  wp (apply_context_event e) (λ _ s', context_revision s' = next_revision e s) s.
Proof.
  unfold next_revision. reduce_event; simplify_ok; try wp_call; simplify_ok; cbn [only_queues].
  all: try destruct (compaction_is_manual _); try bumped; try reflexivity.
  all: try match goal with H : keeps _ _ _ |- _ =>
         exact (keeps_revision _ _ _ H eq_refl) end.
  1: by destruct (_ && _).
  all: etransitivity; [apply settle_compaction_revision|by destruct usage].
Qed.

(** Edits of the context are serialised by its revision: an event based on another
    revision than the current one is refused without a trace, and one that is accepted
    moves the revision on by exactly one, except for the queueing of a manual compaction,
    which leaves it. *)
Theorem context_edits_are_serialised e s :
  (base_revision e ≠ context_revision s → ∃ err, apply_context_event e s = (Err err, s)) ∧
  ∀ s', apply_context_event e s = (Ok tt, s') →
    base_revision e = context_revision s ∧ context_revision s' = next_revision e s.
Proof.
  split; [apply apply_context_event_stale|]. intros s' Hs.
  split; [exact (wp_ok_inv _ _ _ _ _ (apply_context_event_base e s) Hs)|].
  exact (wp_ok_inv _ _ _ _ _ (apply_context_event_next e s) Hs).
Qed.
End context.

(** ** Witnesses *)
Lemma active_context_well_formed_witness :
  StronglySorted N.lt (entry_ids (context_entries generating_state)).
Proof. exact (proj1 (active_context_well_formed generating_state generating_reachable)). Defined.

Definition stale_removal : ContextEvent := ContextEvent.KeysRemoved 7 ["key"].
Lemma context_edits_are_serialised_witness :
  context_revision generating_state ≠ 7%N ∧
  ∃ err, apply_context_event stale_removal generating_state = (Err err, generating_state).
Proof.
  assert (context_revision generating_state ≠ 7%N) as Hne by (vm_compute; discriminate).
  split; [exact Hne|].
  apply (proj1 (context_edits_are_serialised stale_removal generating_state)).
  intros He. apply Hne. by rewrite <- He.
Defined.

(** * Laws of rendering

    The order a model request renders the context in ([planned_context_entry_ids] and
    [tool_groups_adjacent] of [core/components/context.rs]): it rearranges the entries of
    the context and neither loses nor repeats one. *)

(** ** Tool groups *)
Definition grouped (g : Grouping) : list ContextEntryId :=
  g.(Grouping.rendered) ++ g.(Grouping.held).

Lemma close_group_grouped g entry : grouped (close_group g entry) = grouped g.
Proof. unfold close_group, grouped. case_match; [|done]. simpl. by rewrite app_nil_r. Qed.
Lemma group_entry_grouped g entry :
  grouped (group_entry g entry) ≡ₚ grouped g ++ [entry.(ContextEntry.entry_id)].
Proof.
  rewrite <- (close_group_grouped g entry). unfold group_entry, grouped.
  destruct (close_group g entry) as [rendered held unanswered turn]. simpl.
  destruct (group_membership unanswered entry) as [in_group unanswered'].
  destruct (in_group || bool_decide (unanswered' = ∅)), (bool_decide (unanswered' = ∅));
    simpl; rewrite <- ?app_assoc, ?app_nil_r; simpl; try done.
  all: f_equiv; by rewrite Permutation_cons_append.
Qed.
Lemma tool_groups_adjacent_perm entries : tool_groups_adjacent entries ≡ₚ entry_ids entries.
Proof.
  unfold tool_groups_adjacent. fold (grouped (foldl group_entry empty_grouping entries)).
  change (entry_ids entries) with (grouped empty_grouping ++ entry_ids entries).
  generalize empty_grouping. induction entries as [|entry entries IH]; intros g; simpl.
  - by rewrite app_nil_r.
  - rewrite IH, group_entry_grouped. by rewrite <- app_assoc.
Qed.

Lemma NoDup_ids_sublist l entries :
  NoDup (entry_ids entries) → sublist l entries → NoDup (entry_ids l).
Proof.
  intros Hn Hs. eapply sublist_NoDup; [exact Hn|]. unfold entry_ids. by apply fmap_sublist.
Qed.

(** ** The planned order *)
(** The ids pushed so far, each once, and the set of them. *)
Definition pushed (acc : list ContextEntryId * gset ContextEntryId) (ids : list ContextEntryId)
    : Prop :=
  NoDup acc.1 ∧ (∀ id, id ∈ acc.1 ↔ id ∈ acc.2) ∧ (∀ id, id ∈ acc.1 ↔ id ∈ ids).

Lemma push_unseen_pushed acc ids entry :
  pushed acc ids → pushed (push_unseen acc entry) (ids ++ [entry.(ContextEntry.entry_id)]).
Proof.
  destruct acc as [pushed_ids seen]. intros (Hn & Hs & Hi); simpl in *. unfold push_unseen.
  case_bool_decide as Hin.
  - split_and!; [done|done|]. intros id. rewrite (Hi id). set_solver.
  - split_and!; simpl.
    + apply NoDup_app. split_and!; [done|set_solver|apply NoDup_singleton].
    + set_solver.
    + set_solver.
Qed.
Lemma push_unseen_all acc ids entries :
  pushed acc ids → pushed (foldl push_unseen acc entries) (ids ++ entry_ids entries).
Proof.
  revert acc ids. induction entries as [|entry entries IH]; intros acc ids Hp; simpl.
  - by rewrite app_nil_r.
  - rewrite cons_middle, app_assoc. by apply IH, push_unseen_pushed.
Qed.

Lemma planned_entry_ids_perm entries :
  NoDup (entry_ids entries) → planned_entry_ids entries ≡ₚ entry_ids entries.
Proof.
  intros Hn. unfold planned_entry_ids.
  set (instructions := merge_sort _ _).
  set (prefixes := filter (λ e, is_standalone_prefix e = true) _).
  assert (instructions ≡ₚ filter (λ e, is_instructions e = true) entries) as Hi
    by apply merge_sort_Permutation.
  assert (pushed (entry_ids instructions, list_to_set (entry_ids instructions))
                 (entry_ids instructions)) as Hp.
  { split_and!; simpl; [|set_solver|done]. unfold entry_ids. rewrite Hi.
    apply (NoDup_ids_sublist _ entries); [done|apply sublist_filter]. }
  apply (push_unseen_all _ _ prefixes) in Hp. change (ContextEntry.entry_id <$> instructions)
    with (entry_ids instructions). destruct (foldl _ _ _) as [ids seen].
  destruct Hp as (Hd & Hs & Hin); simpl in *.
  rewrite tool_groups_adjacent_perm. apply NoDup_Permutation; [|done|].
  - apply NoDup_app. split_and!; [done| |];
    [|by apply (NoDup_ids_sublist _ entries), sublist_filter].
    intros id Hid (e & -> & He)%list_elem_of_fmap. apply list_elem_of_filter in He as [He _].
    by apply He, Hs.
  - intros id. rewrite elem_of_app, Hin, elem_of_app. unfold entry_ids, prefixes.
    rewrite Hi, !list_elem_of_fmap. setoid_rewrite list_elem_of_filter.
    destruct (decide (id ∈ seen)) as [Hseen|Hseen]; [|]. 2: naive_solver.
    apply Hs, Hin in Hseen. unfold entry_ids, prefixes in Hseen. rewrite elem_of_app, Hi in Hseen.
    rewrite !list_elem_of_fmap in Hseen. setoid_rewrite list_elem_of_filter in Hseen.
    naive_solver.
Qed.

(** ** Snapshots *)
Lemma entry_by_id_found s entry :
  NoDup (entry_ids (context_entries s)) → entry ∈ context_entries s →
  entry_by_id s entry.(ContextEntry.entry_id) = Some entry.
Proof.
  intros Hn Hin. unfold entry_by_id. destruct (find_entry _ _) as [e|] eqn:Hf.
  - apply find_entry_Some in Hf as [He Hid]. f_equal. by eapply NoDup_ids_eq.
  - exfalso. unfold find_entry in Hf. apply fmap_None, list_find_None in Hf.
    rewrite Forall_forall in Hf. by apply (Hf _ Hin).
Qed.
Lemma entry_ids_cons entry entries :
  entry_ids (entry :: entries) = entry.(ContextEntry.entry_id) :: entry_ids entries.
Proof. done. Qed.
Lemma context_entries_by_id_found s entries :
  NoDup (entry_ids (context_entries s)) → entries ⊆ context_entries s →
  context_entries_by_id s (entry_ids entries) = Ok entries.
Proof.
  intros Hn. induction entries as [|entry entries IH]; intros Hs; [done|].
  rewrite entry_ids_cons. unfold context_entries_by_id; cbn [foldr].
  rewrite (entry_by_id_found s entry) by (done || set_solver).
  fold (context_entries_by_id s (entry_ids entries)). rewrite IH by set_solver. done.
Qed.

Section rendering.
Context `{!Externals}.

(** C38. Rendering is total and complete in every session: planning the snapshot of a model
    request never fails, and the snapshot has each entry of the active context exactly
    once, at the current revision - reordering instructions, compaction summaries and tool
    results drops nothing and duplicates nothing. *)
Theorem snapshot_is_complete s api_kind :
  reachable s →
  ∃ snapshot, planned_context_snapshot s api_kind = Ok snapshot ∧
    snapshot.(ContextSnapshot.entries) ≡ₚ context_entries s ∧
    (entry_ids snapshot.(ContextSnapshot.entries) = planned_context_entry_ids s) ∧
    snapshot.(ContextSnapshot.context_revision)
      = s.(CoreAgentState.context).(ContextState.revision).
Proof.
  intros [Ho _]%reachable_context_wf. apply ordered_NoDup in Ho as Hn.
  pose proof (planned_entry_ids_perm _ Hn) as Hp. unfold entry_ids in Hp.
  apply Permutation_map_inv in Hp as (entries & He & Hp).
  unfold planned_context_snapshot, planned_context_entry_ids. rewrite He.
  fold (entry_ids entries). rewrite context_entries_by_id_found; [|done|].
  - eexists. by split_and!.
  - intros e. by rewrite Hp.
Qed.
End rendering.

(** ** Witness *)
Lemma snapshot_is_complete_witness :
  ∃ snapshot, planned_context_snapshot generating_state ProviderApiKind.OpenAiResponses
    = Ok snapshot.
Proof.
  destruct (snapshot_is_complete generating_state ProviderApiKind.OpenAiResponses
              generating_reachable) as (snapshot & H & _). by exists snapshot.
Defined.
