(* ===== verification/SessionLaws.v ===== *)
(** * Laws of the session

    The life of a session: it only moves forward, and works only while it is open
    ([core/components/lifecycle.rs], [core/components/run.rs]). *)
From S2P Require Import Prelude Ids Text Types Events Media Externals RunState Config Promises.
From S2P Require Import Sessions Contexts Compaction CodeTools Toolset Runs Approvals Replay.
From S2P Require Import Frames Example.

Definition session_status (s : CoreAgentState) : CoreAgentStatus :=
  s.(CoreAgentState.lifecycle).(LifecycleState.status).
Definition session_config (s : CoreAgentState) : option SessionConfig :=
  s.(CoreAgentState.lifecycle).(LifecycleState.config).
Definition queued_runs (s : CoreAgentState) : list AcceptedRun :=
  s.(CoreAgentState.runs).(RunsState.queued).

(** ** The life of a session *)
Inductive status_step : CoreAgentStatus → CoreAgentStatus → Prop :=
| status_stays st : status_step st st
| status_opens : status_step CoreAgentStatus.New CoreAgentStatus.Open
| status_closes : status_step CoreAgentStatus.Open CoreAgentStatus.Closed.

(** What a status promises: a session has a configuration once it was opened, and runs
    to work on only while it is open. *)
Definition status_promise (status : CoreAgentStatus) (config : option SessionConfig)
    (active : option ActiveRun) (queued : list AcceptedRun) : Prop :=
  (config = None ↔ status = CoreAgentStatus.New) ∧
  (status ≠ CoreAgentStatus.Open → active = None ∧ queued = []).
Definition session_wf (s : CoreAgentState) : Prop :=
  status_promise (session_status s) (session_config s) (active_run s) (queued_runs s).

Lemma session_wf_stable : stable [Part.lifecycle; Part.run_records] session_wf.
Proof.
  intros s s' Hk. pose proof (keeps_lookup _ Part.lifecycle _ _ Hk eq_refl) as Hl.
  pose proof (keeps_lookup _ Part.run_records _ _ Hk eq_refl) as (Hq & _ & _ & Ha).
  unfold session_wf, session_status, session_config, queued_runs, active_run in *.
  simpl in Hl. rewrite Hl, Hq. intros [Hc Hw]. split; [done|].
  intros [Hn ?]%Hw. split; [|done]. rewrite Hn in Ha. by apply fmap_None in Ha.
Qed.

Section session.
Context `{!Externals}.
Implicit Types (s : CoreAgentState) (entry : CoreAgentEntry).

Lemma apply_lifecycle_event_step e s :
  wp (apply_lifecycle_event e) (λ _ s', status_step (session_status s) (session_status s')) s.
Proof.
  reduce_event; simplify_ok; unfold session_status;
    first [apply status_stays
          |match goal with H : LifecycleState.status _ = _ |- _ => rewrite H end;
           first [apply status_opens | apply status_closes]].
Qed.
Lemma apply_lifecycle_event_wf e s :
  session_wf s → wp (apply_lifecycle_event e) (λ _, session_wf) s.
Proof.
  intros [Hc Hw]. reduce_event; simplify_ok.
  - change (status_promise CoreAgentStatus.Open (Some config) (active_run s) (queued_runs s)).
    by split.
  - change (status_promise (session_status s) (Some config) (active_run s) (queued_runs s)).
    unfold session_status. by match goal with H : LifecycleState.status _ = _ |- _ => rewrite H end.
  - change (status_promise CoreAgentStatus.Closed (session_config s) (active_run s)
              (queued_runs s)).
    split; [|done]. rewrite Hc. unfold session_status.
    by match goal with H : LifecycleState.status _ = _ |- _ => rewrite H end.
Qed.

Lemma active_run_ref_open s run_id run :
  session_wf s → active_run_ref s run_id = Ok run → session_status s = CoreAgentStatus.Open.
Proof.
  intros [_ Hw] [Ha _]%active_run_ref_Ok. apply dec_stable. intros [Hn _]%Hw.
  unfold active_run in Hn. congruence.
Qed.

(** Every event of a run needs an open session: to accept or start one the reducer checks
    it, and any other finds its run active or queued. *)
Lemma apply_run_event_open e seq at_ms s :
  session_wf s →
  wp (apply_run_event e seq at_ms) (λ _ _, session_status s = CoreAgentStatus.Open) s.
Proof.
  intros Hwf. reduce_event; simplify_ok; try done; try by eapply active_run_ref_open.
  apply dec_stable. intros [_ Hq]%Hwf. unfold queued_runs in Hq.
  match goal with H : list_find _ _ = Some _ |- _ => by rewrite Hq in H end.
Qed.
Lemma apply_run_event_wf e seq at_ms s :
  session_wf s → wp (apply_run_event e seq at_ms) (λ _, session_wf) s.
Proof.
  intros Hwf. eapply wp_mono;
    [apply wp_and; [exact (apply_run_event_open e seq at_ms s Hwf)|apply apply_run_event_frame]|].
  intros ? s' [Ho Hk]. pose proof (keeps_lookup _ Part.lifecycle _ _ Hk eq_refl) as Hl.
  unfold session_wf, session_status, session_config in *. simpl in Hl. rewrite Hl, Ho in *.
  split; [apply Hwf|done].
Qed.

Lemma apply_event_session_wf entry s :
  session_wf s → wp (apply_event entry) (λ _, session_wf) s.
Proof.
  intros Hwf. apply apply_event_keeps; [done| |done]. intros _.
  frame_reducers session_wf_stable Hwf.
  - by apply apply_lifecycle_event_wf.
  - by apply apply_run_event_wf.
Qed.
Lemma reachable_session_wf s : reachable s → session_wf s.
Proof. apply reachable_keeps; [by repeat split|intros; by apply apply_event_session_wf]. Qed.

Lemma apply_event_status_step entry s :
  wp (apply_event entry) (λ _ s', status_step (session_status s) (session_status s')) s.
Proof.
  apply apply_event_keeps with (I := λ s', status_step (session_status s) (session_status s'));
    [done| |apply status_stays]. intros _.
  assert (stable [Part.lifecycle] (λ s', status_step (session_status s) (session_status s')))
    as Hst.
  { intros s1 s2 Hk. pose proof (keeps_lookup _ Part.lifecycle _ _ Hk eq_refl) as Hl.
    unfold session_status. simpl in Hl. by rewrite Hl. }
  frame_reducers Hst (status_stays (session_status s)).
  apply apply_lifecycle_event_step.
Qed.

(** In every session a run is queued or active only while the session is open, and an
    open or closed session has a configuration: what admission and the planners read from
    the configuration of a session with work is there. *)
Theorem work_needs_open_session s :
  reachable s →
  (queued_runs s ≠ [] ∨ is_Some (active_run s) → session_status s = CoreAgentStatus.Open) ∧
  (session_status s ≠ CoreAgentStatus.New ↔ is_Some (session_config s)).
Proof.
  intros [Hc Hw]%reachable_session_wf. split.
  - intros Hwork. apply dec_stable. intros [Hn Hq]%Hw. destruct Hwork as [|[]]; congruence.
  - rewrite <- not_eq_None_Some. by rewrite Hc.
Qed.

(** A session only moves forward, from new to open to closed: along any log, a closed
    session stays closed, and one that was opened is never new again. *)
Theorem session_moves_forward entries s s' :
  reduce_log entries s = (Ok tt, s') →
  (session_status s = CoreAgentStatus.Closed → session_status s' = CoreAgentStatus.Closed) ∧
  (session_status s ≠ CoreAgentStatus.New → session_status s' ≠ CoreAgentStatus.New).
Proof.
  set (I := λ s', (session_status s = CoreAgentStatus.Closed →
                   session_status s' = CoreAgentStatus.Closed) ∧
                  (session_status s ≠ CoreAgentStatus.New →
                   session_status s' ≠ CoreAgentStatus.New)).
  apply wp_ok_inv with (Q := λ _, I). apply reduce_log_keeps; [|done].
  intros entry s1 [H1 H2]. eapply wp_mono; [apply apply_event_status_step|].
  intros ? s2 Hs2. cbv beta in Hs2. split; intros Hs; [apply H1 in Hs|apply H2 in Hs];
    inversion Hs2; congruence.
Qed.
End session.

(** ** Witnesses *)
Lemma work_needs_open_session_witness : session_status generating_state = CoreAgentStatus.Open.
Proof.
  apply (work_needs_open_session generating_state generating_reachable). right.
  vm_compute. by eexists.
Defined.

Definition closing_log : list CoreAgentEntry :=
  extend [CoreAgentEvent.Run (RunEvent.ForceCancelled 1);
          CoreAgentEvent.Lifecycle CoreAgentLifecycleEvent.Closed] generating_log.
Lemma session_moves_forward_witness :
  session_status (state_after closing_log) ≠ CoreAgentStatus.New ∧
  session_status (state_after closing_log) = CoreAgentStatus.Closed.
Proof.
  split; [|vm_compute; reflexivity].
  refine (proj2 (session_moves_forward (drop 1 closing_log) open_state
                   (state_after closing_log) _) _); [vm_compute; reflexivity|].
  vm_compute. discriminate.
Defined.
