(* ===== verification/PlanLaws.v ===== *)
(** * Laws of planning

    What the planners of approvals, runs and turns propose is accepted by the reducer
    ([core/planning.rs] with the planners of [core/components]). *)
From S2P Require Import Prelude Ids Text Types Events Media Externals RunState Config Promises.
From S2P Require Import Sessions Contexts Compaction ToolSpecs CodeTools ContextReducer Llm.
From S2P Require Import Approvals Turns WorkflowTools Toolset ContextPlan Runs Replay Frames.
From S2P Require Import Example RunLaws ReplayLaws SessionLaws.

Section accepted.
Context `{!Externals}.
Implicit Types (s : CoreAgentState) (p : CoreAgentEventProposal).

(** The reducer takes the event at whatever position and time. *)
Definition accepted s p : Prop :=
  ∀ seq at_ms, ∃ s', apply_event_kind (committed_entry seq at_ms p) s = (Ok tt, s').

Lemma reject_if_false {M : Type → Type} {E} `{MRet M, MThrow E M} (c : bool) (e : E) :
  c = false → reject_if (M:=M) c e = mret tt.
Proof. by intros ->. Qed.

(** A guard [bool_decide (a ≠ b)] that is known not to hold. *)
Ltac agrees :=
  apply bool_decide_eq_false_2; first [assumption | let Hn := fresh in intros Hn; by apply Hn].
Lemma approval_plan_accepted s ps p :
  plan_approval_next s = Ok ps → p ∈ ps → accepted s p.
Proof.
  unfold plan_approval_next. intros Hp Hin seq at_ms.
  repeat case_match; simplify_ok; try by apply not_elem_of_nil in Hin.
  apply list_elem_of_singleton in Hin as ->. simplify_ok.
  change (∃ s', apply_approval_event (ApprovalEvent.RunParked a.(ActiveRun.run_id)) at_ms s
    = (Ok tt, s')). eexists. unfold apply_approval_event.
  runs; [|by apply active_run_ref_Ok]. runs; [|agrees].
  runs; [|by rewrite H2, H5, H6]. done.
Qed.

(** *** Runs *)
Lemma finish_accepted s run status output failure seq at_ms :
  active_run s = Some run →
  ∃ s', finish_active_run run.(ActiveRun.run_id) status output failure seq at_ms s = (Ok tt, s').
Proof.
  intros Ha. unfold finish_active_run. eexists. runs; [|by apply active_run_ref_Ok]. done.
Qed.

(** What a run is proposed to end with names the run, and is a completion or a failure. *)
Definition ends_run (run : ActiveRun) (event : RunEvent) : Prop :=
  match event with
  | RunEvent.Completed run_id _ | RunEvent.Failed run_id _ => run_id = run.(ActiveRun.run_id)
  | _ => False
  end.
Lemma ends_run_accepted s run event seq at_ms :
  active_run s = Some run → ends_run run event →
  ∃ s', apply_run_event event seq at_ms s = (Ok tt, s').
Proof.
  intros Ha He. destruct event; try done; simpl in He; subst; by apply finish_accepted.
Qed.
Lemma turn_limit_failure_ends s run event :
  turn_limit_failure s run = Some event → ends_run run event.
Proof. unfold turn_limit_failure. case_match; [by intros [= <-]|done]. Qed.
Lemma terminal_run_event_ends s run turn event :
  terminal_run_event s run turn = Ok (Some event) → ends_run run event.
Proof.
  unfold terminal_run_event, mismatched_outcome, failed_turn_failure. intros He.
  repeat case_match; simplify_ok; try done; try by eapply turn_limit_failure_ends.
Qed.
Lemma terminal_run_proposal_ends s run p :
  terminal_run_proposal s run = Ok (Some p) →
  ∃ event, p.(CoreAgentEventProposal.event) = CoreAgentEvent.Run event ∧ ends_run run event.
Proof.
  unfold terminal_run_proposal. intros Hp. case_match; [|done]. case_match. simplify_ok.
  match goal with H : terminal_run_event _ _ _ = Ok ?o |- _ => destruct o as [event|] eqn:? end;
    [|done]. simpl in Hp. case_match; [done|]. simplify_eq. exists event.
  split; [done|]. by eapply terminal_run_event_ends.
Qed.

Lemma idle_run_plan s run ps p :
  plan_idle_run s run = Ok ps → p ∈ ps →
  ∃ event, p.(CoreAgentEventProposal.event) = CoreAgentEvent.Run event ∧
    (ends_run run event ∨
     event = RunEvent.Cancelled run.(ActiveRun.run_id) ∧
     run.(ActiveRun.status) = RunStatus.Cancelling).
Proof.
  unfold plan_idle_run. intros Hp Hin. destruct (_ && _) eqn:Hc; simplify_ok.
  { apply list_elem_of_singleton in Hin as ->. eauto. }
  destruct a as [p'|].
  - simplify_ok. apply list_elem_of_singleton in Hin as ->. case_match; [|done].
    apply terminal_run_proposal_ends in Hok as (event & ? & ?). eauto.
  - case_match; simplify_ok; [|by apply not_elem_of_nil in Hin].
    apply list_elem_of_singleton in Hin as ->. eexists. split; [reflexivity|]. by left.
Qed.

Lemma run_plan_accepted s ps p : plan_run_next s = Ok ps → p ∈ ps → accepted s p.
Proof.
  unfold plan_run_next. intros Hp Hin seq at_ms.
  destruct (_ || _); simplify_ok; [by apply not_elem_of_nil in Hin|].
  case_bool_decide as Ho; simplify_ok; [by apply not_elem_of_nil in Hin|].
  destruct (active_run s) as [run|] eqn:Ha.
  - destruct (_ && _) eqn:Hi; simplify_ok; [|by apply not_elem_of_nil in Hin].
    destruct (idle_run_plan _ _ _ _ Hp Hin) as (event & He & Hev).
    unfold apply_event_kind. change (CoreAgentEntry.event (committed_entry seq at_ms p))
      with (CoreAgentEventProposal.event p). rewrite He.
    destruct Hev as [Hev|[-> Hs]]; [by eapply ends_run_accepted|].
    eexists. cbn [apply_run_event]. runs; [|by rewrite Ha].
    runs; [|agrees]. runs; [|by rewrite H0, H1].
    unfold finish_active_run. runs; [|by apply active_run_ref_Ok]. done.
  - destruct (head _) as [queued|] eqn:Hq; simplify_ok; [|by apply not_elem_of_nil in Hin].
    apply list_elem_of_singleton in Hin as ->.
    change (∃ s', start_run queued.(AcceptedRun.run_id) at_ms s = (Ok tt, s')).
    eexists. unfold start_run. runs. runs; [|agrees].
    runs; [|unfold active_run in Ha; by rewrite Ha]. runs; [|by rewrite Hq].
    runs; [|agrees]. done.
Qed.

(** *** Turns *)
Lemma active_turn_runs s run turn_id turn :
  active_run s = Some run → run.(ActiveRun.active_turn_id) = Some turn_id →
  run.(ActiveRun.turns) !! turn_id = Some turn →
  active_turn_mut run.(ActiveRun.run_id) turn_id s = (Ok (run, turn), s).
Proof.
  intros Ha Ht Hturn. unfold active_turn_mut. runs; [|by apply active_run_ref_Ok].
  runs; [|agrees]. runs; [|by rewrite Hturn]. done.
Qed.
Lemma build_llm_request_revision s run turn_id request :
  build_llm_request s run turn_id = Ok request →
  request.(LlmRequest.context).(ContextSnapshot.context_revision)
    = s.(CoreAgentState.context).(ContextState.revision).
Proof.
  unfold build_llm_request, planned_context_snapshot. intros Hr. by simplify_ok.
Qed.
Lemma planned_accepted s run turn_id turn request seq at_ms :
  active_run s = Some run → run.(ActiveRun.active_turn_id) = Some turn_id →
  run.(ActiveRun.turns) !! turn_id = Some turn → at_work turn →
  turn.(TurnState.status) = TurnStatus.Started →
  build_llm_request s run turn_id = Ok request →
  ∃ s', apply_event_kind (committed_entry seq at_ms (turn_proposal run turn_id
    (TurnEvent.Planned turn_id run.(ActiveRun.run_id) request.(LlmRequest.request_fingerprint)
       s.(CoreAgentState.lifecycle).(LifecycleState.config_revision)
       request.(LlmRequest.context).(ContextSnapshot.context_revision)
       s.(CoreAgentState.tooling).(ToolingState.revision)))) s = (Ok tt, s').
Proof.
  intros Ha Ht Hturn [_ Hwork] Hst ->%build_llm_request_revision. rewrite Hst in Hwork.
  match goal with |- ∃ s', apply_event_kind (committed_entry _ _ (turn_proposal _ _ ?e)) _ = _ =>
    change (∃ s', apply_turn_event e s = (Ok tt, s')) end.
  eexists. cbn [apply_turn_event]. runs. do 3 (runs; [|by rewrite N.eqb_refl]).
  set (run' := mark_context_entries_consumed_by_turn turn_id (planned_context_entry_ids s) run).
  assert (run_work run' = run_work run) as Hw by apply mark_consumed_work.
  erewrite bind_runs; [|unfold mark_current_context_consumed_by_turn; runs;
    runs; [reflexivity|by apply active_run_ref_Ok]].
  injection Hw as Hi _ Hat Hts _ _ _ _. rewrite <- Hi.
  erewrite bind_runs; [|apply (active_turn_runs (set_active_run run' s) run' turn_id turn);
    [done|exact (eq_trans Hat Ht)
    |exact (eq_trans (f_equal (lookup turn_id) Hts) Hturn)]].
  cbv beta match. runs; [|agrees]. runs; [|by apply is_some_false; apply Hwork]. done.
Qed.

Lemma turn_plan_accepted s ps p :
  run_wf s → plan_turn_next s = Ok ps → p ∈ ps → accepted s p.
Proof.
  unfold plan_turn_next. intros Hwf Hp Hin seq at_ms.
  destruct (_ || _) eqn:Hg; simplify_ok; [by apply not_elem_of_nil in Hin|].
  destruct (active_run s) as [run|] eqn:Ha; simplify_ok; [|by apply not_elem_of_nil in Hin].
  destruct (is_some (ActiveRun.active_tool_batch_id run)); simplify_ok;
    [by apply not_elem_of_nil in Hin|].
  destruct (ActiveRun.active_turn_id run) as [turn_id|] eqn:Ht.
  - unfold decide_active_turn_progress in Hp. simplify_ok.
    match goal with H : ActiveRun.turns run !! turn_id = Some ?t |- _ =>
      rename t into turn, H into Hturn end.
    pose proof (work_wf_at_work _ _ _ _ (Hwf _ Ha) Ht Hturn) as Hwork.
    assert (active_turn_mut run.(ActiveRun.run_id) turn_id s = (Ok (run, turn), s)) as Hmut.
    { by apply active_turn_runs. }
    destruct (_ && _) eqn:Hc; simplify_ok.
    + apply list_elem_of_singleton in Hin as ->.
      change (∃ s', apply_turn_event (TurnEvent.Cancelled turn_id run.(ActiveRun.run_id)) s
        = (Ok tt, s')). eexists. cbn [apply_turn_event].
      runs; [|by apply active_run_ref_Ok]. runs; [|agrees]. runs; [|agrees].
      runs; [|by rewrite Hturn]. runs; [|by rewrite negb_false_iff]. done.
    + destruct (TurnState.status turn) eqn:Hst; simplify_ok; try by apply not_elem_of_nil in Hin.
      * case_bool_decide as Hr; simplify_ok; [by apply not_elem_of_nil in Hin|].
        apply list_elem_of_singleton in Hin as ->. by eapply planned_accepted.
      * case_bool_decide as Hr; simplify_ok; [by apply not_elem_of_nil in Hin|].
        apply list_elem_of_singleton in Hin as ->.
        change (∃ s', apply_turn_event (TurnEvent.GenerationRequested turn_id
          run.(ActiveRun.run_id)) s = (Ok tt, s')). eexists. cbn [apply_turn_event].
        erewrite bind_runs by exact Hmut. cbv beta match. runs; [|agrees].
        unfold Llm.domain in Hok. simplify_ok.
        runs; [|by apply is_none_false]. done.
  - case_bool_decide; simplify_ok; [by apply not_elem_of_nil in Hin|].
    destruct a; simplify_ok; [by apply not_elem_of_nil in Hin|].
    apply list_elem_of_singleton in Hin as ->. unfold Llm.domain in *. simplify_ok.
    change (∃ s', apply_turn_event (TurnEvent.Started a run.(ActiveRun.run_id)) s = (Ok tt, s')).
    eexists. cbn [apply_turn_event]. runs. runs; [|by apply ok_or_Ok].
    runs; [|agrees]. runs; [|by apply active_run_ref_Ok]. runs; [|agrees].
    runs; [|by rewrite Ht]. done.
Qed.

(** *** One at a time *)
Lemma approval_plan_single s ps : plan_approval_next s = Ok ps → (length ps <= 1)%nat.
Proof. unfold plan_approval_next. intros Hp. repeat case_match; simplify_ok; simpl; lia. Qed.
Lemma run_plan_single s ps : plan_run_next s = Ok ps → (length ps <= 1)%nat.
Proof.
  unfold plan_run_next, plan_idle_run. intros Hp.
  repeat (case_match || simplify_ok_step; simplify_eq); simpl; lia.
Qed.
Lemma turn_plan_single s ps : plan_turn_next s = Ok ps → (length ps <= 1)%nat.
Proof.
  unfold plan_turn_next, decide_active_turn_progress. intros Hp.
  repeat (case_match || simplify_ok_step; simplify_eq); simpl; lia.
Qed.

Lemma dry_run_single s ps at_ms :
  is_ok (expected_seq s) = true → (length ps <= 1)%nat → (∀ p, p ∈ ps → accepted s p) →
  ∃ s', reduce_proposals at_ms ps s = (Ok tt, s').
Proof.
  intros Hseq Hl Hacc. destruct ps as [|p [|? ?]]; [by eexists| |simpl in Hl; lia].
  destruct (Hacc p ltac:(set_solver) (following_seq s.(CoreAgentState.reduced_to)) at_ms)
    as [s1 Hs1].
  eexists. unfold reduce_proposals, for_each. erewrite bind_runs; [done|]. runs.
  unfold apply_event. runs.
  - erewrite bind_runs by exact Hs1. done.
  - unfold validate_next_position. destruct (expected_seq s) as [seq|] eqn:He; [|done].
    destruct (expected_seq_Ok _ _ He) as [-> _]. cbn. by rewrite N.eqb_refl.
Qed.

(** C1. The planners of approvals, runs and turns never propose what the reducer refuses.
    In every session whose positions are not exhausted, whatever one of them proposes
    passes the dry run of its append: a run starts, parks, ends or is cancelled, and a turn
    starts, is planned, requested or cancelled, only where the event is accepted. *)
Theorem control_plans_are_accepted plan s ps at_ms :
  reachable s → plan ∈ [plan_approval_next; plan_run_next; plan_turn_next] →
  plan s = Ok ps → is_ok (expected_seq s) = true →
  ∃ s', reduce_proposals at_ms ps s = (Ok tt, s').
Proof.
  intros Hr Hin Hp Hseq. apply dry_run_single; [done| |];
    repeat (apply elem_of_cons in Hin as [->|Hin]); try by apply not_elem_of_nil in Hin.
  - by eapply approval_plan_single.
  - by eapply run_plan_single.
  - by eapply turn_plan_single.
  - intros p. by eapply approval_plan_accepted.
  - intros p. by eapply run_plan_accepted.
  - intros p. apply turn_plan_accepted; [by apply reachable_run_wf|done].
Qed.
End accepted.

(** ** Witness *)
Lemma control_plans_are_accepted_witness :
  ∃ s', reduce_proposals 2000 (match plan_run_next accepted_state with Ok ps => ps | Err _ => [] end)
          accepted_state = (Ok tt, s').
Proof.
  apply (control_plans_are_accepted plan_run_next accepted_state _ 2000).
  - exists (take 2 generating_log). vm_compute. reflexivity.
  - right. left.
  - vm_compute. reflexivity.
  - vm_compute. reflexivity.
Defined.
