(* ===== verification/Records.v ===== *)
(** * The ledger of runs

    A session accounts for every run it ever accepted: each id is queued, active, kept as
    a terminal record, or known to have been pruned ([core/components/run.rs]). *)
From S2P Require Import Prelude Ids Text Types Events Media Externals RunState Config Promises.
From S2P Require Import Contexts Compaction CodeTools Approvals Toolset Runs Replay Frames.
From S2P Require Import Example ReplayLaws.

(** The ids a session still has a record of. *)
Definition runs_ids (runs : RunsState) : list RunId :=
  (RunRecord.run_id <$> runs.(RunsState.finished))
  ++ (ActiveRun.run_id <$> option_list runs.(RunsState.active))
  ++ (AcceptedRun.run_id <$> runs.(RunsState.queued)).
Definition run_ids (s : CoreAgentState) : list RunId := runs_ids s.(CoreAgentState.runs).
Definition last_run_id (s : CoreAgentState) : RunId :=
  s.(CoreAgentState.id_cursors).(IdCursors.last_run_id).

(** [ids] are all that is left of the ids up to [last], the others being at most
    [through]. *)
Definition accounts (ids : list RunId) (through : option RunId) (last : RunId) : Prop :=
  NoDup ids ∧
  (∀ id, id ∈ ids → 1 <= id <= last)%N ∧
  (∀ id, 1 <= id <= last → id ∈ ids ∨ ∃ t, through = Some t ∧ id <= t)%N ∧
  (∀ t, through = Some t → t <= last)%N.

#[export] Instance accounts_proper :
  Proper ((≡ₚ) ==> (=) ==> (=) ==> iff) accounts.
Proof.
  intros ids ids' Hp ? t -> ? last ->. unfold accounts.
  assert (∀ id, id ∈ ids ↔ id ∈ ids') as He by (intros; by rewrite Hp).
  rewrite Hp. setoid_rewrite He. done.
Qed.

Lemma accounts_accept ids through last :
  accounts ids through last → accounts (ids ++ [(last + 1)%N]) through (last + 1).
Proof.
  intros (Hn & Hb & Hall & Ht). split_and!.
  - apply NoDup_app. split_and!; [done| |apply NoDup_singleton].
    intros id Hid ->%list_elem_of_singleton. apply Hb in Hid. lia.
  - intros id [Hid%Hb|Hid%list_elem_of_singleton]%elem_of_app; lia.
  - intros id Hid. destruct (decide (id = last + 1)%N) as [->|Hne]; [set_solver|].
    destruct (Hall id); [lia| |by right]. left. set_solver.
  - intros t Hl%Ht. lia.
Qed.

Lemma accounts_prune1 id ids through last :
  accounts (id :: ids) through last → accounts ids (option_max (Some id) through) last.
Proof.
  intros ([Hid Hn]%NoDup_cons & Hb & Hall & Ht). split_and!; [done|set_solver| |].
  - intros i Hi. destruct (Hall i Hi) as [[->|Hin]%elem_of_cons|(t & -> & Hle)].
    + right. destruct through as [t|]; eexists; (split; [reflexivity|lia]).
    + by left.
    + right. exists (N.max id t). split; [done|lia].
  - intros t Hm. assert (id ∈ id :: ids) as Hin by set_solver. apply Hb in Hin.
    destruct through as [t'|]; simplify_eq/=; [specialize (Ht t' eq_refl)|]; lia.
Qed.
Lemma accounts_prune dropped ids through last :
  accounts (ids ++ dropped) through last →
  accounts ids (foldr (λ id, option_max (Some id)) through dropped) last.
Proof.
  revert ids. induction dropped as [|id dropped IH]; intros ids; simpl.
  - by rewrite app_nil_r.
  - intros Ha. apply accounts_prune1, IH. rewrite <- Permutation_middle in Ha. exact Ha.
Qed.

Definition runs_account (runs : RunsState) (last : RunId) : Prop :=
  accounts (runs_ids runs) runs.(RunsState.pruned_through) last.

Lemma prune_terminal_run_records_account runs last :
  runs_account runs last → runs_account (prune_terminal_run_records runs) last.
Proof.
  unfold runs_account, prune_terminal_run_records, runs_ids. simpl.
  set (n := (_ - _)%nat). intros Ha.
  rewrite <- (take_drop n (RunsState.finished runs)), fmap_app, <- app_assoc in Ha.
  rewrite (Permutation_app_comm (RunRecord.run_id <$> take n _)) in Ha.
  apply accounts_prune in Ha. rewrite foldr_fmap in Ha. exact Ha.
Qed.
Lemma push_finished_account record runs last :
  accounts (record.(RunRecord.run_id) :: runs_ids runs) runs.(RunsState.pruned_through) last →
  runs_account (push_finished record runs) last ∧
  (length (push_finished record runs).(RunsState.finished) <= 256)%nat.
Proof.
  intros Ha. split.
  - apply prune_terminal_run_records_account. unfold runs_account, runs_ids in *. simpl.
    rewrite fmap_app, <- app_assoc. simpl. by rewrite <- Permutation_middle.
  - unfold push_finished, prune_terminal_run_records. simpl. rewrite length_drop.
    unfold MAX_RETAINED_TERMINAL_RUNS. lia.
Qed.

(** ** The invariant *)
Definition ledger_wf (s : CoreAgentState) : Prop :=
  runs_account s.(CoreAgentState.runs) (last_run_id s) ∧
  (length s.(CoreAgentState.runs).(RunsState.finished) <= 256)%nat.

Lemma keeps_runs_ids s s' : keeps_runs s s' → run_ids s' = run_ids s.
Proof.
  intros (Hq & Hf & _ & Ha). unfold run_ids, runs_ids. rewrite Hq, Hf. do 2 f_equal.
  destruct (RunsState.active (CoreAgentState.runs s)), (RunsState.active (CoreAgentState.runs s'));
    simplify_eq/=; congruence.
Qed.
Lemma ledger_stable : stable [Part.run_records; Part.run_cursor] ledger_wf.
Proof.
  intros s s' Hk. pose proof (keeps_lookup _ Part.run_records _ _ Hk eq_refl) as Hr.
  pose proof (keeps_lookup _ Part.run_cursor _ _ Hk eq_refl) as Hc. simpl in Hc.
  unfold ledger_wf, runs_account, last_run_id. fold (run_ids s') (run_ids s).
  rewrite (keeps_runs_ids _ _ Hr), Hc. by destruct Hr as (_ & -> & -> & _).
Qed.

Section ledger.
Context `{!Externals}.
Implicit Types (s : CoreAgentState) (entry : CoreAgentEntry).

Lemma finish_ledger s run_id run record :
  active_run_ref s run_id = Ok run → record.(RunRecord.run_id) = run.(ActiveRun.run_id) →
  ledger_wf s →
  ledger_wf (prune_finished_work (set_runs (λ runs,
    push_finished record (runs <| RunsState.active := None |>))
    (interrupt_code_tools_for_run run_id s))).
Proof.
  intros [Ha _]%active_run_ref_Ok Hr [Hw _].
  eapply ledger_stable with (s := set_runs (λ runs,
    push_finished record (runs <| RunsState.active := None |>))
    (interrupt_code_tools_for_run run_id s)); [frame_leaf|].
  apply (push_finished_account record (s.(CoreAgentState.runs) <| RunsState.active := None |>)).
  unfold runs_account, runs_ids in *. rewrite Ha in Hw. simpl in *. rewrite Hr.
  by rewrite <- Permutation_middle in Hw.
Qed.

Lemma list_find_perm {A} (P : A → Prop) `{!∀ x, Decision (P x)} l i x :
  list_find P l = Some (i, x) → x :: delete i l ≡ₚ l.
Proof.
  intros (Hi & _)%list_find_Some. symmetry. by apply delete_Permutation.
Qed.

Lemma apply_run_event_ledger e seq at_ms s :
  ledger_wf s → wp (apply_run_event e seq at_ms) (λ _, ledger_wf) s.
Proof.
  intros Hwf. reduce_event; simplify_ok;
    try (by eapply ledger_stable; [|exact Hwf]; frame_leaf);
    try (eapply finish_ledger; [eassumption|reflexivity|exact Hwf]).
  - destruct Hwf as [Hw Hl]. split; [|exact Hl].
    match goal with H : next_u64 _ = Some _ |- _ => apply next_u64_Some in H as Hid end.
    apply accounts_accept in Hw. unfold runs_account, runs_ids, last_run_id in *. simpl in *.
    rewrite Hid. by rewrite fmap_app, !app_assoc in *.
  - destruct Hwf as [Hw Hl]. split; [|exact Hl].
    change (accounts ((RunRecord.run_id <$> s.(CoreAgentState.runs).(RunsState.finished))
      ++ [a.(AcceptedRun.run_id)]
      ++ (AcceptedRun.run_id <$> tail s.(CoreAgentState.runs).(RunsState.queued)))
      s.(CoreAgentState.runs).(RunsState.pruned_through) (last_run_id s)).
    unfold runs_account, runs_ids in Hw.
    match goal with H : head _ = Some _ |- _ => apply head_Some in H as [q Hq] end.
    match goal with H : RunsState.active _ = None |- _ => rewrite H, Hq in Hw end.
    rewrite Hq. exact Hw.
  - apply (push_finished_account (cancelled_record a0 seq at_ms)
             (s.(CoreAgentState.runs) <| RunsState.queued ::= delete n |>)).
    destruct Hwf as [Hw _]. unfold runs_account, runs_ids in *. simpl in *.
    match goal with H : list_find _ _ = Some _ |- _ => apply list_find_perm in H as Hp end.
    rewrite <- Hp in Hw. rewrite fmap_cons in Hw. by rewrite !Permutation_middle, !app_assoc in *.
Qed.

Lemma apply_event_ledger entry s : ledger_wf s → wp (apply_event entry) (λ _, ledger_wf) s.
Proof.
  intros Hwf. apply apply_event_keeps; [done| |done]. intros _.
  frame_reducers ledger_stable Hwf. by apply apply_run_event_ledger.
Qed.
Lemma reachable_ledger s : reachable s → ledger_wf s.
Proof.
  apply reachable_keeps; [|intros; by apply apply_event_ledger].
  split; [|vm_compute; lia]. split_and!; [constructor|set_solver| |done].
  intros id Hid. change (last_run_id default_of) with 0%N in Hid. lia.
Qed.

Lemma existsb_key_false {A} (f : A → RunId) l id :
  existsb (λ x, bool_decide (f x = id)) l = false ↔ id ∉ f <$> l.
Proof.
  rewrite <- not_true_iff_false, existsb_exists, list_elem_of_fmap.
  setoid_rewrite <- list_elem_of_In. setoid_rewrite bool_decide_eq_true. naive_solver.
Qed.
(** [is_pruned] says what it means: an id at most the mark that has no record left. *)
Lemma RunsState_is_pruned_spec runs id :
  RunsState_is_pruned runs id = true ↔
  (∃ t, runs.(RunsState.pruned_through) = Some t ∧ id <= t)%N ∧ id ∉ runs_ids runs.
Proof.
  unfold RunsState_is_pruned, runs_ids.
  rewrite !andb_true_iff, !negb_true_iff, !existsb_key_false, !not_elem_of_app.
  destruct (RunsState.pruned_through runs) as [t|], (RunsState.active runs) as [run|]; simpl;
    rewrite ?N.leb_le, ?bool_decide_eq_true, ?list_elem_of_singleton; split; try naive_solver.
  intros [[[? ?] ?] _]. split_and!; [eauto|done|apply not_elem_of_nil|done].
Qed.

(** C36. The ledger of runs is exact in every session: no id names two runs, every id up to
    the last accepted one is queued, active, kept as a terminal record or reported as
    pruned, no other id is, and at most 256 terminal records are kept. *)
Theorem run_ledger_exact s :
  reachable s →
  NoDup (run_ids s) ∧
  (∀ id, 1 <= id → (id <= last_run_id s ↔
     id ∈ run_ids s ∨ RunsState_is_pruned s.(CoreAgentState.runs) id = true))%N ∧
  (length s.(CoreAgentState.runs).(RunsState.finished) <= 256)%nat.
Proof.
  intros [(Hn & Hb & Hall & Ht) Hl]%reachable_ledger. split_and!; [done| |done].
  intros id Hid. rewrite RunsState_is_pruned_spec. fold (run_ids s) in *.
  destruct (decide (id ∈ run_ids s)) as [Hin|Hnin].
  - specialize (Hb _ Hin). split; [by left|lia].
  - split; [intros Hle; destruct (Hall id) as [?|(t & ? & ?)]; [lia|done|eauto]|].
    intros [?|[(t & Hp & Hle) _]]; [done|]. specialize (Ht _ Hp). lia.
Qed.
End ledger.

(** ** Witness *)
Lemma run_ledger_exact_witness : NoDup (run_ids generating_state).
Proof. exact (proj1 (run_ledger_exact generating_state generating_reachable)). Defined.

(** * Retried submissions

    What a client is told when it submits a run again ([match_existing_run_submission] of
    [core/components/run.rs]), however far the run has come by then. *)

Section submissions.
Context `{!Externals}.
Context (submission_id : SubmissionId) (source : RunRequestSource) (run_config : RunConfig)
  (notify : list RunTerminalNotifyIntent).
Implicit Types (s : CoreAgentState) (entry : CoreAgentEntry).

(** The request a submission id stands for. *)
Definition requested (id : option SubmissionId) (from : RunSource) (config : RunConfig)
    (intents : list RunTerminalNotifyIntent) : Prop :=
  id = Some submission_id →
  source_request_equivalent from = source ∧ config = run_config ∧ intents = notify.
Definition active_requested (run : ActiveRun) : Prop :=
  requested run.(ActiveRun.submission_id) run.(ActiveRun.source) run.(ActiveRun.run_config)
    run.(ActiveRun.notify_on_terminal).
Definition queued_requested (run : AcceptedRun) : Prop :=
  requested run.(AcceptedRun.submission_id) run.(AcceptedRun.source)
    run.(AcceptedRun.run_config) run.(AcceptedRun.notify_on_terminal).
Definition finished_requested (run : RunRecord) : Prop :=
  run.(RunRecord.submission_id) = Some submission_id →
  run.(RunRecord.submission_digest) = request_run_submission_digest source run_config notify.
Definition accepted_requested (entry : CoreAgentEntry) : Prop :=
  ∀ accepted, entry.(CoreAgentEntry.event) = CoreAgentEvent.Run (RunEvent.Accepted accepted) →
    requested accepted.(AcceptedRunEvent.submission_id) accepted.(AcceptedRunEvent.source)
      accepted.(AcceptedRunEvent.run_config) accepted.(AcceptedRunEvent.notify_on_terminal).

Definition runs_requested (runs : RunsState) : Prop :=
  (∀ run, runs.(RunsState.active) = Some run → active_requested run) ∧
  Forall queued_requested runs.(RunsState.queued) ∧
  Forall finished_requested runs.(RunsState.finished).
Definition all_requested s : Prop := runs_requested s.(CoreAgentState.runs).

Lemma all_requested_stable : stable [Part.run_records] all_requested.
Proof.
  intros s s' Hk. pose proof (keeps_lookup _ Part.run_records _ _ Hk eq_refl) as (Hq & Hf & _ & Ha).
  intros (H1 & H2 & H3). split_and!; [|by rewrite Hq|by rewrite Hf].
  intros run' Hr'. rewrite Hr' in Ha. destruct (RunsState.active (CoreAgentState.runs s))
    as [run|]; [|done]. injection Ha as _ Hs Hsrc Hc Hn _ _ _. specialize (H1 _ eq_refl).
  unfold active_requested in *. by rewrite Hs, Hsrc, Hc, Hn.
Qed.

Lemma push_finished_requested record runs :
  finished_requested record → runs_requested runs → runs_requested (push_finished record runs).
Proof.
  intros Hr (H1 & H2 & H3). split_and!; [done|done|].
  apply Forall_drop, Forall_app. split; [done|]. by apply Forall_singleton.
Qed.

Lemma finish_requested s run_id run status output failure seq at_ms :
  active_run_ref s run_id = Ok run → all_requested s →
  all_requested (prune_finished_work (set_runs (λ runs,
    push_finished (finished_record run status output failure seq at_ms)
      (runs <| RunsState.active := None |>)) (interrupt_code_tools_for_run run_id s))).
Proof.
  intros [Ha _]%active_run_ref_Ok (H1 & H2 & H3).
  eapply all_requested_stable with (s := set_runs (λ runs,
    push_finished (finished_record run status output failure seq at_ms)
      (runs <| RunsState.active := None |>)) (interrupt_code_tools_for_run run_id s));
    [frame_leaf|].
  apply push_finished_requested; [|by split_and!].
  intros Hid. apply H1 in Ha. destruct (Ha Hid) as (Hs & Hc & Hn).
  change (request_run_submission_digest (source_request_equivalent run.(ActiveRun.source))
    run.(ActiveRun.run_config) run.(ActiveRun.notify_on_terminal)
    = request_run_submission_digest source run_config notify). by rewrite Hs, Hc, Hn.
Qed.

Lemma apply_run_event_requested entry event s :
  entry.(CoreAgentEntry.event) = CoreAgentEvent.Run event →
  accepted_requested entry → all_requested s →
  wp (apply_run_event event (entry_seq entry) entry.(CoreAgentEntry.observed_at_ms))
    (λ _, all_requested) s.
Proof.
  intros He Hacc Hs. reduce_event; simplify_ok;
    try (by eapply all_requested_stable; [|exact Hs]; frame_leaf);
    try (by eapply finish_requested).
  - destruct Hs as (Hact & Hque & Hfin). split_and!; [done| |done].
    apply Forall_app. split; [done|]. apply Forall_singleton. by apply (Hacc _ He).
  - destruct Hs as (Hact & Hque & Hfin). 
    match goal with H : head _ = Some _ |- _ => apply head_Some in H as [q Hq] end.
    rewrite Hq in Hque. apply Forall_cons in Hque as [Hq1 Hque]. split_and!; [| |done].
    + intros run [= <-]. exact Hq1.
    + change (Forall queued_requested (tail s.(CoreAgentState.runs).(RunsState.queued))).
      by rewrite Hq.
  - apply (push_finished_requested (cancelled_record a0 (entry_seq entry) _)
             (s.(CoreAgentState.runs) <| RunsState.queued ::= delete n |>)).
    + match goal with H : list_find _ _ = Some _ |- _ => apply list_find_Some in H as (Hi & _) end.
      destruct Hs as (_ & Hque & _). intros Hid. rewrite Forall_lookup in Hque.
      destruct (Hque _ _ Hi Hid) as (Hs & Hc & Hn).
      change (request_run_submission_digest (source_request_equivalent a0.(AcceptedRun.source))
        a0.(AcceptedRun.run_config) a0.(AcceptedRun.notify_on_terminal)
        = request_run_submission_digest source run_config notify). by rewrite Hs, Hc, Hn.
    + destruct Hs as (Hact & Hque & Hfin). split_and!; [done| |done]. by apply Forall_delete.
Qed.

Lemma apply_event_requested entry s :
  accepted_requested entry → all_requested s → wp (apply_event entry) (λ _, all_requested) s.
Proof.
  intros Hacc Hs. apply apply_event_keeps; [done| |done]. intros _.
  frame_reducers all_requested_stable Hs. by apply apply_run_event_requested.
Qed.

(** ** Reading the answer off *)
Lemma find_submission_None {A} (id_of : A → option SubmissionId) runs :
  find_submission id_of submission_id runs = None ↔ Some submission_id ∉ id_of <$> runs.
Proof.
  unfold find_submission. rewrite fmap_None, list_find_None, Forall_forall, list_elem_of_fmap.
  naive_solver.
Qed.
Lemma find_submission_Some {A} (id_of : A → option SubmissionId) runs run :
  find_submission id_of submission_id runs = Some run → run ∈ runs ∧ id_of run = Some submission_id.
Proof.
  unfold find_submission. intros ([i x] & Hf & ->)%fmap_Some.
  apply list_find_Some in Hf as (Hi & Hp & _). split; [by eapply list_elem_of_lookup_2|done].
Qed.
Lemma requested_matches id from config intents :
  id = Some submission_id → requested id from config intents →
  RunSource_matches_request from source && bool_decide (config = run_config)
  && bool_decide (intents = notify) = true.
Proof.
  intros Hid Hr. destruct (Hr Hid) as (Hs & -> & ->). unfold RunSource_matches_request.
  rewrite !bool_decide_eq_true_2; [done|done|done|]. rewrite <- Hs. by destruct from.
Qed.

(** The submission ids a session has a record of. *)
Definition recorded_submissions s : list (option SubmissionId) :=
  (ActiveRun.submission_id <$> option_list s.(CoreAgentState.runs).(RunsState.active))
  ++ (AcceptedRun.submission_id <$> s.(CoreAgentState.runs).(RunsState.queued))
  ++ (RunRecord.submission_id <$> s.(CoreAgentState.runs).(RunsState.finished)).

Lemma elem_of_active {A} (o : option A) x : x ∈ option_list o → o = Some x.
Proof. destruct o; simpl; [by intros ->%list_elem_of_singleton|by intros ?%not_elem_of_nil]. Qed.

Lemma all_requested_match s :
  all_requested s →
  match_existing_run_submission s submission_id source run_config notify =
  if decide (Some submission_id ∈ recorded_submissions s)
  then Some SubmissionMatch.Identical else None.
Proof.
  intros (H1 & H2 & H3). unfold match_existing_run_submission, recorded_submissions.
  rewrite Forall_forall in H2. rewrite Forall_forall in H3.
  destruct (find_submission ActiveRun.submission_id _ _) as [run|] eqn:Ha.
  { apply find_submission_Some in Ha as [Hin Hid].
    rewrite decide_True by (rewrite !elem_of_app, !list_elem_of_fmap; naive_solver).
    apply elem_of_active, H1 in Hin.
    by rewrite (requested_matches _ _ _ _ Hid Hin). }
  destruct (find_submission AcceptedRun.submission_id _ _) as [run|] eqn:Hq.
  { apply find_submission_Some in Hq as [Hin Hid].
    rewrite decide_True by (rewrite !elem_of_app, !list_elem_of_fmap; naive_solver).
    apply H2 in Hin. by rewrite (requested_matches _ _ _ _ Hid Hin). }
  destruct (find_submission RunRecord.submission_id _ _) as [run|] eqn:Hf.
  { apply find_submission_Some in Hf as [Hin Hid].
    rewrite decide_True by (rewrite !elem_of_app, !list_elem_of_fmap; naive_solver).
    specialize (H3 _ Hin Hid). by rewrite bool_decide_eq_true_2. }
  apply find_submission_None in Ha, Hq, Hf. rewrite decide_False; [done|].
  by rewrite !not_elem_of_app.
Qed.

(** Retrying a submission is idempotent. However the session has gone on since a run
    was accepted under a submission id - queued, running, finished - a second request with
    the same input, configuration and notifications is recognised as identical, never as a
    conflict, as long as the session has a record of the run; without one it is new. *)
Theorem retried_submission_is_identical log s :
  reduce_log log default_of = (Ok tt, s) →
  Forall accepted_requested log →
  match_existing_run_submission s submission_id source run_config notify =
  if decide (Some submission_id ∈ recorded_submissions s)
  then Some SubmissionMatch.Identical else None.
Proof.
  intros Hlog Hacc. apply all_requested_match. revert Hlog.
  apply wp_ok_inv with (Q := λ _, all_requested). apply wp_for_each; [|by split_and!].
  intros entry s1 Hin Hs1. apply apply_event_requested; [|done].
  rewrite Forall_forall in Hacc. by apply Hacc.
Qed.
End submissions.

(** ** Witness *)
Definition submitted : list CoreAgentEntry := Eval vm_compute in generating_log.
Lemma retried_submission_is_identical_witness :
  match_existing_run_submission generating_state "submission"
    (RunRequestSource.Input [example_message "hello"]) default_of []
  = Some SubmissionMatch.Identical.
Proof.
  rewrite (retried_submission_is_identical "submission"
    (RunRequestSource.Input [example_message "hello"]) default_of [] generating_log).
  - vm_compute. reflexivity.
  - exact generating_replayed.
  - change generating_log with submitted. unfold submitted.
    repeat (apply Forall_cons; split; [by intros accepted He; simplify_eq/=|]).
    by apply Forall_nil.
Defined.

(** * Records of pruned runs

    A run's terminal record can be read back from the log once the state has dropped it
    ([run_record_from_entries] of [core/components/run.rs]): what the log says about a run is
    at every moment what the state says about it. *)

(** The run an event is about, and the entries that join it, which is how the log is asked
    for them. *)
Definition run_event_id (event : RunEvent) : RunId :=
  match event with
  | RunEvent.Accepted accepted => accepted.(AcceptedRunEvent.run_id)
  | RunEvent.Started run_id | RunEvent.SteeringAccepted run_id _ _ _ _
  | RunEvent.CancellationRequested run_id _ | RunEvent.Completed run_id _
  | RunEvent.Failed run_id _ | RunEvent.Cancelled run_id | RunEvent.ForceCancelled run_id
  | RunEvent.QueuedCancelled run_id _ => run_id
  end.
Definition entries_of_run (run_id : RunId) (log : list CoreAgentEntry) : list CoreAgentEntry :=
  filter (λ entry, entry.(CoreAgentEntry.joins).(CoreAgentJoins.run_id) = Some run_id) log.
(** The events of a run join it. *)
Definition joins_its_run (entry : CoreAgentEntry) : Prop :=
  ∀ event, entry.(CoreAgentEntry.event) = CoreAgentEvent.Run event →
    entry.(CoreAgentEntry.joins).(CoreAgentJoins.run_id) = Some (run_event_id event).

Definition trace_of (run_id : RunId) (log : list CoreAgentEntry) : RunTrace :=
  foldl trace_entry empty_trace (entries_of_run run_id log).

(** ** One more entry *)
Lemma trace_of_snoc run_id log entry :
  trace_of run_id (log ++ [entry]) =
  if decide (entry.(CoreAgentEntry.joins).(CoreAgentJoins.run_id) = Some run_id)
  then trace_entry (trace_of run_id log) entry else trace_of run_id log.
Proof.
  unfold trace_of, entries_of_run. rewrite filter_app, foldl_app, filter_cons.
  by case_decide.
Qed.
Lemma trace_of_silent run_id log entry :
  (∀ t, trace_entry t entry = t) → trace_of run_id (log ++ [entry]) = trace_of run_id log.
Proof. intros Ht. rewrite trace_of_snoc. case_decide; [apply Ht|done]. Qed.
Lemma trace_of_other run_id log entry event :
  joins_its_run entry → entry.(CoreAgentEntry.event) = CoreAgentEvent.Run event →
  run_id ≠ run_event_id event → trace_of run_id (log ++ [entry]) = trace_of run_id log.
Proof.
  intros Hj He Hne. rewrite trace_of_snoc, (Hj _ He), decide_False; [done|congruence].
Qed.
Lemma trace_of_own log entry event :
  joins_its_run entry → entry.(CoreAgentEntry.event) = CoreAgentEvent.Run event →
  trace_of (run_event_id event) (log ++ [entry])
    = trace_entry (trace_of (run_event_id event) log) entry.
Proof. intros Hj He. by rewrite trace_of_snoc, (Hj _ He), decide_True. Qed.

(** ** What the log says about the runs of a state *)
(** The acceptance a run stems from. *)
Definition accepted_as (accepted : AcceptedRunEvent) (run_id : RunId)
    (submission_id : option SubmissionId) (source : RunSource) (config : RunConfig)
    (notify : list RunTerminalNotifyIntent) : Prop :=
  accepted.(AcceptedRunEvent.run_id) = run_id ∧
  accepted.(AcceptedRunEvent.submission_id) = submission_id ∧
  accepted.(AcceptedRunEvent.source) = source ∧
  accepted.(AcceptedRunEvent.run_config) = config ∧
  accepted.(AcceptedRunEvent.notify_on_terminal) = notify.
Definition queued_says (q : AcceptedRun) (trace : RunTrace) : Prop :=
  ∃ accepted,
    trace = {| RunTrace.accepted :=
                 Some (accepted, q.(AcceptedRun.first_seq), q.(AcceptedRun.accepted_at_ms));
               RunTrace.started_at_ms := None; RunTrace.terminal := None |} ∧
    accepted_as accepted q.(AcceptedRun.run_id) q.(AcceptedRun.submission_id)
      q.(AcceptedRun.source) q.(AcceptedRun.run_config) q.(AcceptedRun.notify_on_terminal).
Definition active_says (run : ActiveRun) (trace : RunTrace) : Prop :=
  ∃ accepted,
    trace = {| RunTrace.accepted :=
                 Some (accepted, run.(ActiveRun.first_seq), run.(ActiveRun.accepted_at_ms));
               RunTrace.started_at_ms := run.(ActiveRun.started_at_ms);
               RunTrace.terminal := None |} ∧
    accepted_as accepted run.(ActiveRun.run_id) run.(ActiveRun.submission_id)
      run.(ActiveRun.source) run.(ActiveRun.run_config) run.(ActiveRun.notify_on_terminal).

#[export] Instance set_RunRecord_usage : Setter RunRecord.usage := ltac:(solve_setter RunRecord.usage).

Section records.
Context `{!Externals}.
Implicit Types (s : CoreAgentState) (log : list CoreAgentEntry).

(** The record without its usage, which the events of a run do not carry. *)
Definition without_usage (record : RunRecord) : RunRecord :=
  record <| RunRecord.usage := None |>.
Definition finished_says (record : RunRecord) (trace : RunTrace) : Prop :=
  ∀ entries, foldl trace_entry empty_trace entries = trace →
    run_record_from_entries entries = Some (without_usage record).

(** Each run a session has a record of, with what the log has to say about it. *)
Definition sayings (runs : RunsState) : list (RunId * (RunTrace → Prop)) :=
  ((λ r, (r.(RunRecord.run_id), finished_says r)) <$> runs.(RunsState.finished))
  ++ ((λ run, (run.(ActiveRun.run_id), active_says run)) <$> option_list runs.(RunsState.active))
  ++ ((λ q, (q.(AcceptedRun.run_id), queued_says q)) <$> runs.(RunsState.queued)).
Definition said log (saying : RunId * (RunTrace → Prop)) : Prop :=
  saying.2 (trace_of saying.1 log).
Definition recorded log s : Prop :=
  (∀ id, last_run_id s < id → trace_of id log = empty_trace)%N ∧
  Forall (said log) (sayings s.(CoreAgentState.runs)).

Lemma sayings_ids runs : (sayings runs).*1 = runs_ids runs.
Proof. unfold sayings, runs_ids. by rewrite !fmap_app, <- !list_fmap_compose. Qed.
Lemma sayings_distinct s l :
  ledger_wf s → sayings s.(CoreAgentState.runs) ≡ₚ l → NoDup l.*1.
Proof. intros [(Hn & _) _] Hp. by rewrite <- Hp, sayings_ids. Qed.

(** An event that says nothing about runs. *)
Lemma active_says_identity run run' :
  run_identity run = run_identity run' →
  (run.(ActiveRun.run_id), active_says run) = (run'.(ActiveRun.run_id), active_says run').
Proof.
  intros [= E1 E2 E3 E4 E5 E6 E7 E8]. unfold active_says.
  by rewrite E1, E2, E3, E4, E5, E6, E7, E8.
Qed.
Lemma keeps_runs_sayings s s' :
  keeps_runs s s' → sayings s'.(CoreAgentState.runs) = sayings s.(CoreAgentState.runs).
Proof.
  intros (Hq & Hf & _ & Ha). unfold sayings. rewrite Hq, Hf. do 2 f_equal.
  destruct (RunsState.active (CoreAgentState.runs s)) as [run|],
    (RunsState.active (CoreAgentState.runs s')) as [run'|]; [|done|done|done].
  simpl. f_equal. apply active_says_identity. by apply Some_inj.
Qed.
Lemma recorded_silent log entry s s' :
  (∀ t, trace_entry t entry = t) → keeps_runs s s' → last_run_id s' = last_run_id s →
  recorded log s → recorded (log ++ [entry]) s'.
Proof.
  intros Ht Hk Hl [H1 H2]. split.
  - intros id. rewrite Hl. intros Hid%H1. by rewrite trace_of_silent.
  - rewrite (keeps_runs_sayings _ _ Hk). eapply Forall_impl; [exact H2|].
    intros saying. unfold said. by rewrite trace_of_silent.
Qed.

(** An event of one of the runs: what the log says about the others is as before. *)
Lemma said_others log entry event sayings :
  joins_its_run entry → entry.(CoreAgentEntry.event) = CoreAgentEvent.Run event →
  run_event_id event ∉ sayings.*1 →
  Forall (said log) sayings → Forall (said (log ++ [entry])) sayings.
Proof.
  intros Hj He Hn. rewrite !Forall_forall. intros Hs [id P] Hin. unfold said. simpl.
  erewrite trace_of_other; [exact (Hs _ Hin)|exact Hj|exact He|].
  intros E. apply Hn, list_elem_of_fmap. by exists (id, P).
Qed.
Lemma recorded_own log entry event s runs' P P' rest :
  joins_its_run entry → entry.(CoreAgentEntry.event) = CoreAgentEvent.Run event →
  ledger_wf s → recorded log s →
  sayings s.(CoreAgentState.runs) ≡ₚ (run_event_id event, P) :: rest →
  (∀ log, Forall (said log) ((run_event_id event, P') :: rest) →
     Forall (said log) (sayings runs')) →
  (∀ t, P t → P' (trace_entry t entry)) →
  (∀ id, last_run_id s < id → trace_of id (log ++ [entry]) = empty_trace)%N ∧
  Forall (said (log ++ [entry])) (sayings runs').
Proof.
  intros Hj He Hw [H1 H2] Hp Hp' HP. pose proof (sayings_distinct _ _ Hw Hp) as Hn.
  apply NoDup_cons in Hn as [Hn _]. rewrite Hp in H2. apply Forall_cons in H2 as [H2 H3]. split.
  - intros id Hid. erewrite trace_of_other; [by apply H1|exact Hj|exact He|].
    destruct Hw as [(_ & Hb & _) _]. intros ->. rewrite <- sayings_ids in Hb.
    assert (run_event_id event ∈ (sayings s.(CoreAgentState.runs)).*1) as Hin%Hb
      by (rewrite Hp; left). lia.
  - apply Hp'. constructor; [|by eapply said_others].
    unfold said in *. simpl in *. rewrite (trace_of_own _ _ _ Hj He). by apply HP.
Qed.

Lemma push_finished_said log record runs :
  Forall (said log) ((record.(RunRecord.run_id), finished_says record) :: sayings runs) →
  Forall (said log) (sayings (push_finished record runs)).
Proof.
  intros [Hr Hs]%Forall_cons. unfold push_finished, prune_terminal_run_records, sayings in *.
  simpl. rewrite !Forall_app, fmap_drop in *. split; [|apply Hs].
  apply Forall_drop. rewrite fmap_app, Forall_app. split; [apply Hs|by repeat constructor].
Qed.

(** A terminal event is about a run that had none. *)
Lemma finished_says_ended record accepted first_seq accepted_at_ms status output failure seq
    finished_at_ms started_at_ms :
  accepted_as accepted record.(RunRecord.run_id) record.(RunRecord.submission_id)
    accepted.(AcceptedRunEvent.source) accepted.(AcceptedRunEvent.run_config)
    record.(RunRecord.notify_on_terminal) →
  without_usage record =
    {| RunRecord.run_id := record.(RunRecord.run_id);
       RunRecord.status := status;
       RunRecord.submission_id := record.(RunRecord.submission_id);
       RunRecord.submission_digest := request_run_submission_digest
         (source_request_equivalent accepted.(AcceptedRunEvent.source))
         accepted.(AcceptedRunEvent.run_config) record.(RunRecord.notify_on_terminal);
       RunRecord.source := compact_terminal_source accepted.(AcceptedRunEvent.source);
       RunRecord.first_seq := first_seq; RunRecord.terminal_seq := seq;
       RunRecord.accepted_at_ms := accepted_at_ms; RunRecord.started_at_ms := started_at_ms;
       RunRecord.finished_at_ms := finished_at_ms; RunRecord.usage := None;
       RunRecord.output := output; RunRecord.failure := failure;
       RunRecord.notify_on_terminal := record.(RunRecord.notify_on_terminal) |} →
  finished_says record
    {| RunTrace.accepted := Some (accepted, first_seq, accepted_at_ms);
       RunTrace.started_at_ms := started_at_ms;
       RunTrace.terminal := Some (status, output, failure, seq, finished_at_ms) |}.
Proof.
  intros (E1 & E2 & _ & _ & E5) Hw entries Ht. unfold run_record_from_entries.
  rewrite Ht, Hw. simpl. by rewrite E1, E2, E5.
Qed.
Lemma queued_then_cancelled q entry run_id message t :
  entry.(CoreAgentEntry.event) = CoreAgentEvent.Run (RunEvent.QueuedCancelled run_id message) →
  queued_says q t →
  finished_says (cancelled_record q (entry_seq entry) entry.(CoreAgentEntry.observed_at_ms))
    (trace_entry t entry).
Proof.
  intros He (accepted & -> & Ha & Hb & Hc & Hd & Hf). unfold trace_entry. rewrite He. simpl.
  apply finished_says_ended; [by split_and!|]. by rewrite Hc, Hd.
Qed.
Lemma active_then_ended run entry event status output failure t :
  entry.(CoreAgentEntry.event) = CoreAgentEvent.Run event →
  terminal_outcome event = Some (status, output, failure) →
  active_says run t →
  finished_says (finished_record run status output failure (entry_seq entry)
                   entry.(CoreAgentEntry.observed_at_ms)) (trace_entry t entry).
Proof.
  intros He Ht (accepted & -> & Ha & Hb & Hc & Hd & Hf).
  replace (trace_entry _ _) with
    {| RunTrace.accepted := Some (accepted, run.(ActiveRun.first_seq), run.(ActiveRun.accepted_at_ms));
       RunTrace.started_at_ms := run.(ActiveRun.started_at_ms);
       RunTrace.terminal := Some (status, output, failure, entry_seq entry,
                                  entry.(CoreAgentEntry.observed_at_ms)) |}.
  - apply finished_says_ended; [by split_and!|]. by rewrite Hc, Hd.
  - unfold trace_entry. rewrite He. by destruct event; simplify_eq/=.
Qed.

(** ** The events of runs *)
Lemma recorded_stable log : stable [Part.run_records; Part.run_cursor] (recorded log).
Proof.
  intros s s' Hk [H1 H2]. unfold recorded, last_run_id in *.
  pose proof (keeps_lookup _ Part.run_cursor _ _ Hk eq_refl) as Hc. simpl in Hc.
  rewrite Hc, (keeps_runs_sayings _ _ (keeps_lookup _ Part.run_records _ _ Hk eq_refl)).
  by split.
Qed.

Lemma accept_recorded log entry accepted q s s' :
  joins_its_run entry →
  entry.(CoreAgentEntry.event) = CoreAgentEvent.Run (RunEvent.Accepted accepted) →
  accepted.(AcceptedRunEvent.run_id) = (last_run_id s + 1)%N →
  s'.(CoreAgentState.runs) =
    s.(CoreAgentState.runs) <| RunsState.queued ::= λ queued, queued ++ [q] |> →
  (∀ t, t = empty_trace → queued_says q (trace_entry t entry)) →
  q.(AcceptedRun.run_id) = accepted.(AcceptedRunEvent.run_id) →
  last_run_id s' = accepted.(AcceptedRunEvent.run_id) →
  ledger_wf s → recorded log s → recorded (log ++ [entry]) s'.
Proof.
  intros Hj He Hid Hs Hq Hqid Hl [(_ & Hb & _) _] [H1 H2]. unfold recorded.
  assert (sayings s'.(CoreAgentState.runs) =
    sayings s.(CoreAgentState.runs) ++ [(q.(AcceptedRun.run_id), queued_says q)]) as ->.
  { rewrite Hs. unfold sayings. simpl. by rewrite fmap_app, !app_assoc. }
  rewrite Hl. split.
  - intros id Hlt. erewrite trace_of_other; [|exact Hj|exact He|simpl; lia].
    apply H1. lia.
  - apply Forall_app. split; [|constructor; [|done]].
    + eapply said_others; [exact Hj|exact He| |exact H2]. rewrite sayings_ids.
      intros Hin%Hb. simpl in Hin. lia.
    + unfold said. cbn [fst snd]. rewrite Hqid. fold (run_event_id (RunEvent.Accepted accepted)).
      rewrite (trace_of_own _ _ _ Hj He). apply Hq, H1. simpl. lia.
Qed.

Lemma finish_recorded log entry event s run_id run status output failure :
  joins_its_run entry → entry.(CoreAgentEntry.event) = CoreAgentEvent.Run event →
  run_event_id event = run_id →
  terminal_outcome event = Some (status, output, failure) →
  ledger_wf s → recorded log s → active_run_ref s run_id = Ok run →
  recorded (log ++ [entry]) (prune_finished_work (set_runs (λ runs,
    push_finished (finished_record run status output failure (entry_seq entry)
                     entry.(CoreAgentEntry.observed_at_ms))
      (runs <| RunsState.active := None |>)) (interrupt_code_tools_for_run run_id s))).
Proof.
  intros Hj He <- Ht Hw Hr [Ha Hid]%active_run_ref_Ok.
  set (record := finished_record _ _ _ _ _ _).
  eapply recorded_stable with (s := set_runs (λ runs,
    push_finished record (runs <| RunsState.active := None |>))
    (interrupt_code_tools_for_run (run_event_id event) s)); [frame_leaf|].
  set (runs := s.(CoreAgentState.runs) <| RunsState.active := None |>).
  eapply (recorded_own log entry event s _ (active_says run) (finished_says record)
            (sayings runs) Hj He Hw Hr).
  - unfold sayings, runs. rewrite Ha. simpl. rewrite Hid. by rewrite <- Permutation_middle.
  - intros log'. rewrite <- Hid. apply (push_finished_said _ record runs).
  - intros t. by eapply active_then_ended.
Qed.

Lemma trace_entry_progress entry event t :
  entry.(CoreAgentEntry.event) = CoreAgentEvent.Run event →
  match event with
  | RunEvent.SteeringAccepted _ _ _ _ _ | RunEvent.CancellationRequested _ _ => True
  | _ => False
  end → trace_entry t entry = t.
Proof. unfold trace_entry. intros ->. by destruct event. Qed.

Lemma start_recorded log entry s queued :
  joins_its_run entry →
  entry.(CoreAgentEntry.event) = CoreAgentEvent.Run (RunEvent.Started queued.(AcceptedRun.run_id)) →
  active_run s = None → head s.(CoreAgentState.runs).(RunsState.queued) = Some queued →
  ledger_wf s → recorded log s →
  recorded (log ++ [entry]) (set_runs (λ runs,
    runs <| RunsState.queued ::= tail |>
         <| RunsState.active :=
              Some (started_run queued entry.(CoreAgentEntry.observed_at_ms)) |>) s).
Proof.
  intros Hj He Ha [q Hq]%head_Some Hw Hr. unfold active_run in Ha.
  set (run := started_run queued _).
  eapply (recorded_own log entry _ s _ (queued_says queued) (active_says run)
            (((λ r, (r.(RunRecord.run_id), finished_says r))
                <$> s.(CoreAgentState.runs).(RunsState.finished))
             ++ ((λ q, (q.(AcceptedRun.run_id), queued_says q)) <$> q)) Hj He Hw Hr).
  - unfold sayings. rewrite Ha, Hq. simpl. by rewrite <- Permutation_middle.
  - intros log' Hs.
    change (Forall (said log') (((λ r, (r.(RunRecord.run_id), finished_says r))
              <$> s.(CoreAgentState.runs).(RunsState.finished))
      ++ [(run.(ActiveRun.run_id), active_says run)]
      ++ ((λ q, (q.(AcceptedRun.run_id), queued_says q))
            <$> tail s.(CoreAgentState.runs).(RunsState.queued)))).
    rewrite Hq. simpl. by rewrite <- Permutation_middle.
  - intros t (accepted & -> & Hacc). exists accepted. unfold trace_entry. rewrite He. by split.
Qed.
Lemma cancel_queued_recorded log entry s i queued message :
  joins_its_run entry →
  entry.(CoreAgentEntry.event) =
    CoreAgentEvent.Run (RunEvent.QueuedCancelled queued.(AcceptedRun.run_id) message) →
  s.(CoreAgentState.runs).(RunsState.queued) !! i = Some queued →
  ledger_wf s → recorded log s →
  recorded (log ++ [entry]) (set_runs (λ runs,
    push_finished (cancelled_record queued (entry_seq entry)
                     entry.(CoreAgentEntry.observed_at_ms))
      (runs <| RunsState.queued ::= delete i |>)) s).
Proof.
  intros Hj He Hi Hw Hr. set (record := cancelled_record _ _ _).
  set (runs := s.(CoreAgentState.runs) <| RunsState.queued ::= delete i |>).
  eapply (recorded_own log entry _ s _ (queued_says queued) (finished_says record)
            (sayings runs) Hj He Hw Hr).
  - unfold sayings, runs. simpl. apply delete_Permutation in Hi. rewrite Hi. simpl.
    by rewrite <- !Permutation_middle, !app_assoc.
  - intros log'. apply (push_finished_said _ record runs).
  - intros t. by eapply queued_then_cancelled.
Qed.

Lemma apply_run_event_recorded log entry event s :
  joins_its_run entry → entry.(CoreAgentEntry.event) = CoreAgentEvent.Run event →
  ledger_wf s → recorded log s →
  wp (apply_run_event event (entry_seq entry) entry.(CoreAgentEntry.observed_at_ms))
    (λ _, recorded (log ++ [entry])) s.
Proof.
  intros Hj He Hw Hr. reduce_event; simplify_ok;
    try (eapply finish_recorded; eauto; fail).
  - match goal with H : next_u64 _ = Some _ |- _ => apply next_u64_Some in H as Hid end.
    eapply accept_recorded;
      [exact Hj|exact He|exact Hid|reflexivity| |reflexivity|reflexivity|done|done].
    intros t ->. eexists. unfold trace_entry. rewrite He. split; [reflexivity|done].
  - by eapply start_recorded.
  - eapply recorded_silent; [intros t; by eapply trace_entry_progress| | |exact Hr]; [|done].
    apply (keeps_lookup [Part.run_records] Part.run_records); [|done]. frame_leaf.
  - eapply recorded_silent; [intros t; by eapply trace_entry_progress| | |exact Hr]; [|done].
    apply (keeps_lookup [Part.run_records] Part.run_records); [|done]. frame_leaf.
  - match goal with H : list_find _ _ = Some _ |- _ => apply list_find_Some in H as (? & ? & _) end.
    simplify_eq. by eapply cancel_queued_recorded.
Qed.

(** ** A whole log *)
Lemma apply_event_recorded log entry s :
  joins_its_run entry → ledger_wf s → recorded log s →
  wp (apply_event entry) (λ _, recorded (log ++ [entry])) s.
Proof.
  intros Hj Hw Hr. unfold apply_event. wp_steps. eapply wp_mono with (Q := λ _, recorded (log ++ [entry])).
  - destruct (entry.(CoreAgentEntry.event)) eqn:He;
      unfold apply_event_kind; rewrite He;
      try (eapply wp_mono; [reducer_frame|]; intros ? s' Hk;
           eapply recorded_silent; [intros t; unfold trace_entry; by rewrite He
             |exact (keeps_lookup _ Part.run_records _ _ Hk eq_refl)
             |exact (keeps_lookup _ Part.run_cursor _ _ Hk eq_refl)|exact Hr]; fail).
    by apply apply_run_event_recorded.
  - intros _ s1 H1. wp_steps. exact H1.
Qed.
Lemma replayed_recorded log s :
  reduce_log log default_of = (Ok tt, s) → Forall joins_its_run log → recorded log s.
Proof.
  revert s. induction log as [|entry log IH] using rev_ind; intros s Hs Hj.
  - injection Hs as <-. split; [done|constructor].
  - apply reduce_log_app in Hs as (s1 & Hs1 & He).
    apply Forall_app in Hj as [Hj [He' _]%Forall_cons].
    apply reduce_log_cons in He as (s2 & He & [= <-]).
    assert (ledger_wf s1) as Hw by (apply reachable_ledger; by exists log).
    exact (wp_ok_inv _ _ _ _ _ (apply_event_recorded log entry s1 He' Hw (IH s1 Hs1 Hj)) He).
Qed.

(** C37. The terminal record of a run can always be read back from the log: for every run a
    session has finished and still remembers, [run_record_from_entries] on the entries that
    join the run gives exactly the record the session keeps, up to the token usage, which
    the caller accumulates separately. *)
Theorem rebuilt_record_matches log s record :
  reduce_log log default_of = (Ok tt, s) → Forall joins_its_run log →
  record ∈ s.(CoreAgentState.runs).(RunsState.finished) →
  run_record_from_entries (entries_of_run record.(RunRecord.run_id) log)
  = Some (record <| RunRecord.usage := None |>).
Proof.
  intros Hs Hj Hin. destruct (replayed_recorded _ _ Hs Hj) as [_ Hf].
  unfold sayings in Hf. rewrite Forall_app, Forall_fmap, Forall_forall in Hf.
  by apply (proj1 Hf record Hin).
Qed.
End records.

(** ** Witness *)
Definition run_proposal (event : RunEvent) : CoreAgentEventProposal :=
  {| CoreAgentEventProposal.joins :=
       {| CoreAgentJoins.run_id := Some (run_event_id event); CoreAgentJoins.turn_id := None;
          CoreAgentJoins.tool_batch_id := None; CoreAgentJoins.tool_call_id := None;
          CoreAgentJoins.submission_id := None |};
     CoreAgentEventProposal.event := CoreAgentEvent.Run event |}.
Definition cancelled_log : list CoreAgentEntry :=
  committed_entries None 1000
    (event_proposal (CoreAgentEvent.Lifecycle (CoreAgentLifecycleEvent.Opened example_config))
     :: (run_proposal <$> [RunEvent.Accepted (example_accepted 1); RunEvent.Started 1;
           RunEvent.CancellationRequested 1 None; RunEvent.ForceCancelled 1])).
Lemma cancelled_joins : Forall joins_its_run cancelled_log.
Proof. by repeat constructor; intros event [= <-]. Qed.
Definition cancelled_run : RunRecord :=
  finished_record (started_run
    {| AcceptedRun.run_id := 1; AcceptedRun.submission_id := Some "submission";
       AcceptedRun.source := (example_accepted 1).(AcceptedRunEvent.source);
       AcceptedRun.run_config := default_of; AcceptedRun.input_limit_tokens := None;
       AcceptedRun.config_revision := 0; AcceptedRun.first_seq := 2;
       AcceptedRun.accepted_at_ms := 1000; AcceptedRun.notify_on_terminal := [] |} 1000)
    RunStatus.Cancelled None None 5 1000.

Lemma rebuilt_record_matches_witness :
  run_record_from_entries (entries_of_run 1 cancelled_log)
  = Some (cancelled_run <| RunRecord.usage := None |>).
Proof.
  apply (rebuilt_record_matches cancelled_log (state_after cancelled_log) cancelled_run).
  - vm_compute. reflexivity.
  - exact cancelled_joins.
  - vm_compute. left.
Defined.
