(* ===== verification/PromiseLaws.v ===== *)
(** * Laws of promises

    The record of settled promises is exact, a sweep drops the oldest of them and nothing
    else, and a terminal promise never changes ([core/components/promise.rs]). *)
From S2P Require Import Prelude Ids Text Types Events Media Externals RunState Promises Contexts.
From S2P Require Import Approvals Toolset Runs Replay Frames Example.

Definition promise_map (s : CoreAgentState) : gmap PromiseId Promise :=
  s.(CoreAgentState.promises).(PromiseComponentState.promises).
Definition settled_ids (s : CoreAgentState) : list PromiseId :=
  s.(CoreAgentState.promises).(PromiseComponentState.settled).

(** A promise that is there and terminal. *)
Definition settled_in (promises : gmap PromiseId Promise) (id : PromiseId) : Prop :=
  ∃ promise, promises !! id = Some promise ∧
    PromiseStatus_is_terminal promise.(Promise.status) = true.

(** [settled] lists the terminal promises, each once. *)
Definition promises_wf (self : PromiseComponentState) : Prop :=
  NoDup self.(PromiseComponentState.settled) ∧
  ∀ id, id ∈ self.(PromiseComponentState.settled) ↔
        settled_in self.(PromiseComponentState.promises) id.
Definition settled_wf (s : CoreAgentState) : Prop := promises_wf s.(CoreAgentState.promises).

(** ** Sweeping *)
Lemma foldl_delete_lookup {V} (ids : list PromiseId) (m : gmap PromiseId V) id :
  foldl (λ m id, delete id m) m ids !! id = if decide (id ∈ ids) then None else m !! id.
Proof.
  revert m. induction ids as [|i ids IH]; intros m; simpl; [done|].
  rewrite IH. destruct (decide (id ∈ ids)), (decide (id ∈ i :: ids)); try set_solver.
  - rewrite lookup_delete_None. set_solver.
  - rewrite lookup_delete_ne; set_solver.
Qed.

Lemma prune_promises_lookup self id :
  (prune_promises self).(PromiseComponentState.promises) !! id =
  if decide (id ∈ take (length self.(PromiseComponentState.settled)
                        - MAX_RETAINED_TERMINAL_PROMISES)
                      self.(PromiseComponentState.settled))
  then None else self.(PromiseComponentState.promises) !! id.
Proof. apply foldl_delete_lookup. Qed.

Lemma NoDup_take_drop {A} n (l : list A) x : NoDup l → x ∈ take n l → x ∉ drop n l.
Proof.
  intros Hn. rewrite <- (take_drop n l) in Hn. apply NoDup_app in Hn as (_ & Hd & _). eauto.
Qed.

Lemma prune_promises_wf self : promises_wf self → promises_wf (prune_promises self).
Proof.
  intros [Hn Hs].
  set (excess := (length (PromiseComponentState.settled self)
                  - MAX_RETAINED_TERMINAL_PROMISES)%nat).
  pose proof (take_drop excess (PromiseComponentState.settled self)) as Heq. split.
  - rewrite <- Heq in Hn. by apply NoDup_app in Hn as (_ & _ & ?).
  - intros id. unfold settled_in. setoid_rewrite prune_promises_lookup.
    change (PromiseComponentState.settled (prune_promises self))
      with (drop excess (PromiseComponentState.settled self)).
    case_decide as Hid.
    + split; [|by intros (? & ? & _)].
      intros Hd. exfalso. exact (NoDup_take_drop _ _ _ Hn Hid Hd).
    + fold (settled_in (PromiseComponentState.promises self) id).
      rewrite <- Hs, <- Heq, elem_of_app. fold excess in Hid. rewrite Heq. tauto.
Qed.

(** ** The reducers *)
Lemma put_promise_wf promise_id promise s :
  settled_wf s → promise_id ∉ settled_ids s →
  PromiseStatus_is_terminal promise.(Promise.status) = false →
  settled_wf (put_promise promise_id promise s).
Proof.
  intros [Hn Hs] Hid Hp. split; [done|]. intros id. unfold settled_in. simpl.
  destruct (decide (id = promise_id)) as [->|Hne].
  - rewrite lookup_insert_eq. split; [done|]. intros (? & [= <-] & ?). congruence.
  - rewrite lookup_insert_ne by done. apply Hs.
Qed.
Lemma settle_promise_wf promise_id promise s :
  settled_wf s → promise_id ∉ settled_ids s →
  PromiseStatus_is_terminal promise.(Promise.status) = true →
  settled_wf (push_settled promise_id (put_promise promise_id promise s)).
Proof.
  intros [Hn Hs] Hid Hp. split.
  - simpl. apply NoDup_app. split_and!; [done| |apply NoDup_singleton].
    by intros ? ? ->%list_elem_of_singleton.
  - intros id. unfold settled_in. simpl. rewrite elem_of_app, list_elem_of_singleton.
    destruct (decide (id = promise_id)) as [->|Hne].
    + rewrite lookup_insert_eq. naive_solver.
    + rewrite lookup_insert_ne by done. rewrite (Hs id). unfold settled_in. naive_solver.
Qed.

Lemma pending_not_settled s promise_id promise :
  settled_wf s → pending_promise_ref s promise_id = Ok promise →
  promise_id ∉ settled_ids s ∧ (promise_map s !! promise_id = Some promise) ∧
  PromiseStatus_is_terminal promise.(Promise.status) = false.
Proof.
  intros [_ Hs] Hp. unfold pending_promise_ref in Hp. simplify_ok.
  split_and!; try done. unfold settled_ids. rewrite (Hs promise_id).
  intros (p & ? & ?). unfold promise_map in *. congruence.
Qed.

Lemma pending_not_listed s id promise n :
  settled_wf s → promise_map s !! id = Some promise →
  promise.(Promise.status) = PromiseStatus.Pending → id ∉ take n (settled_ids s).
Proof.
  intros [_ Hs] Hp Ht (j & Hd & _)%elem_of_take. apply list_elem_of_lookup_2, Hs in Hd.
  destruct Hd as (p & Hp' & Ht'). unfold promise_map in Hp. rewrite Hp' in Hp.
  injection Hp as ->. by rewrite Ht in Ht'.
Qed.

Lemma unknown_not_settled s promise_id :
  settled_wf s → promise_map s !! promise_id = None → promise_id ∉ settled_ids s.
Proof.
  intros [_ Hs] Hp. unfold settled_ids. rewrite (Hs promise_id).
  intros (p & ? & ?). unfold promise_map in *. congruence.
Qed.

Lemma apply_promise_event_wf e s :
  settled_wf s → wp (apply_promise_event e) (λ _, settled_wf) s.
Proof.
  intros Hwf. reduce_event; try solve
    [ match goal with H : pending_promise_ref _ _ = Ok _ |- _ =>
        destruct (pending_not_settled _ _ _ Hwf H) as (?&?&?) end;
      first [by apply settle_promise_wf | by apply put_promise_wf] ].
  all: simplify_ok; apply put_promise_wf; [exact Hwf| |by rewrite H].
  all: exact (unknown_not_settled _ _ Hwf H0).
Qed.

(** Outside of its own events, a promise is only ever swept. *)
Definition swept (s s' : CoreAgentState) : Prop :=
  s'.(CoreAgentState.promises) = s.(CoreAgentState.promises) ∨
  s'.(CoreAgentState.promises) = prune_promises s.(CoreAgentState.promises).

Lemma promise_map_eq s s' :
  s'.(CoreAgentState.promises) = s.(CoreAgentState.promises) → promise_map s' = promise_map s.
Proof. unfold promise_map. by intros ->. Qed.
Lemma promise_map_swept s s' id :
  s'.(CoreAgentState.promises) = prune_promises s.(CoreAgentState.promises) →
  promise_map s' !! id =
  if decide (id ∈ take (length (settled_ids s) - MAX_RETAINED_TERMINAL_PROMISES) (settled_ids s))
  then None else promise_map s !! id.
Proof. unfold promise_map. intros ->. apply prune_promises_lookup. Qed.
Lemma settled_ids_swept s s' :
  s'.(CoreAgentState.promises) = prune_promises s.(CoreAgentState.promises) →
  settled_ids s' =
    drop (length (settled_ids s) - MAX_RETAINED_TERMINAL_PROMISES) (settled_ids s).
Proof. unfold settled_ids. by intros ->. Qed.

Section laws.
Context `{!Externals}.
Implicit Types (s : CoreAgentState) (entry : CoreAgentEntry).

Lemma apply_run_event_swept e seq at_ms s :
  wp (apply_run_event e seq at_ms) (λ _, swept s) s.
Proof. reduce_event; first [by left | by right; rewrite prune_finished_work_promises]. Qed.
Lemma apply_tool_event_swept e s : wp (apply_tool_event e) (λ _, swept s) s.
Proof. reduce_event; first [by left | by right; rewrite prune_finished_work_promises]. Qed.

Lemma apply_event_kind_swept entry s :
  wp (apply_event_kind entry) (λ _ s', swept s s' ∨
    ∃ e, entry.(CoreAgentEntry.event) = CoreAgentEvent.Promise e ∧
         apply_promise_event e s = (Ok tt, s')) s.
Proof.
  unfold apply_event_kind. destruct (CoreAgentEntry.event entry) eqn:He;
    try (eapply wp_mono;
      [reducer_frame | intros ? s1 Hk; left; left; by apply (keeps_lookup _ Part.promises _ _ Hk)]).
  - eapply wp_mono; [apply apply_run_event_swept|by left].
  - eapply wp_mono; [apply apply_tool_event_swept|by left].
  - eapply wp_mono; [apply wp_self|]. intros [] s1 Hs1. right. eauto.
Qed.

Lemma swept_wf s s' : swept s s' → settled_wf s → settled_wf s'.
Proof. unfold swept, settled_wf. intros [-> | ->]; [done|apply prune_promises_wf]. Qed.

Lemma apply_event_settled_wf entry s :
  settled_wf s → wp (apply_event entry) (λ _, settled_wf) s.
Proof.
  intros Hwf. apply apply_event_keeps; [done| |done]. intros _.
  eapply wp_mono; [apply apply_event_kind_swept|]. intros ? s1 [Hs|(e & _ & He)].
  - by eapply swept_wf.
  - exact (wp_ok_inv _ _ _ _ _ (apply_promise_event_wf e s Hwf) He).
Qed.
Lemma reachable_settled_wf s : reachable s → settled_wf s.
Proof.
  apply reachable_keeps; [|intros; by apply apply_event_settled_wf].
  split; [constructor|]. intros id. split; [by intros ?%not_elem_of_nil|].
  by intros (? & ? & _).
Qed.

(** The list of settled promises is exact in every session: it names each terminal
    promise once and no other, so a sweep driven by it neither forgets a terminal promise
    nor touches a pending one. *)
Theorem settled_promises_exact s :
  reachable s →
  NoDup (settled_ids s) ∧
  ∀ id, id ∈ settled_ids s ↔
    ∃ promise, promise_map s !! id = Some promise ∧
               promise.(Promise.status) ≠ PromiseStatus.Pending.
Proof.
  intros [Hn Hs]%reachable_settled_wf. split; [done|]. intros id.
  unfold settled_ids. rewrite (Hs id). unfold settled_in.
  split; intros (p & Hp & Ht); exists p; split; try done; by destruct (Promise.status p).
Qed.

(** ** The life of a promise *)
(** What an entry may do to a promise. *)
Definition promise_evolves (p p' : Promise) : Prop :=
  p'.(Promise.promise_id) = p.(Promise.promise_id) ∧
  p'.(Promise.source) = p.(Promise.source) ∧
  p'.(Promise.ownership) = p.(Promise.ownership) ∧
  p'.(Promise.deadline_at_ms) = p.(Promise.deadline_at_ms) ∧
  (p'.(Promise.scope) = p.(Promise.scope) ∨ p'.(Promise.scope) = PromiseScope.Session) ∧
  (p.(Promise.status) ≠ PromiseStatus.Pending → p' = p).

Lemma promise_evolves_refl p : promise_evolves p p.
Proof. split_and!; auto. Qed.

Lemma put_promise_evolves s id q q' i p :
  promise_map s !! id = Some q → promise_evolves q q' → promise_map s !! i = Some p →
  ∃ p', promise_map (put_promise id q' s) !! i = Some p' ∧ promise_evolves p p'.
Proof.
  intros Hq He Hi. unfold promise_map, put_promise in *; simpl in *.
  destruct (decide (i = id)) as [->|Hne].
  - exists q'. rewrite lookup_insert_eq. by simplify_eq.
  - exists p. rewrite lookup_insert_ne by done. split; [done|apply promise_evolves_refl].
Qed.

Lemma apply_promise_event_evolves e s i p :
  settled_wf s → promise_map s !! i = Some p →
  wp (apply_promise_event e) (λ _ s',
    ∃ p', promise_map s' !! i = Some p' ∧ promise_evolves p p') s.
Proof.
  intros Hwf Hi. reduce_event; try solve
    [ match goal with H : pending_promise_ref _ _ = Ok _ |- _ =>
        destruct (pending_not_settled _ _ _ Hwf H) as (_ & Hq & Ht) end;
      eapply put_promise_evolves; [exact Hq| |exact Hi]; split_and!; simpl; auto;
      intros Hp; by destruct (Promise.status _) ].
  all: simplify_ok; exists p; unfold promise_map, put_promise in *; simpl in *.
  all: split; [|apply promise_evolves_refl]; rewrite lookup_insert_ne; [done|congruence].
Qed.

(** C40. What may become of a promise: an entry keeps its identity, source, owner and
    deadline, widens its scope at most to the session, and never changes it once it is
    terminal. It disappears only as one of the oldest terminal promises beyond the cap;
    a pending promise is never lost. *)
Theorem promise_lifecycle entry s s' id promise :
  reachable s → promise_map s !! id = Some promise → apply_event entry s = (Ok tt, s') →
  (∃ promise', promise_map s' !! id = Some promise' ∧ promise_evolves promise promise') ∨
  (promise_map s' !! id = None ∧ promise.(Promise.status) ≠ PromiseStatus.Pending ∧
   id ∈ take (length (settled_ids s) - 256) (settled_ids s)).
Proof.
  intros Hwf%reachable_settled_wf Hp (s1 & Hs & ->)%apply_event_Ok.
  destruct (wp_ok_inv _ _ _ _ _ (apply_event_kind_swept entry s) Hs) as [[He|He]|(e & _ & He)].
  - left. exists promise. split; [|apply promise_evolves_refl].
    by rewrite (promise_map_eq s) by exact He.
  - rewrite (promise_map_swept s) by exact He. case_decide as Hd.
    + right. split_and!; [done| |exact Hd]. intros Ht. by eapply pending_not_listed.
    + left. exists promise. split; [exact Hp|apply promise_evolves_refl].
  - left. exact (wp_ok_inv _ _ _ _ _ (apply_promise_event_evolves e s id promise Hwf Hp) He).
Qed.

(** Ending the active run sweeps. *)
Definition ends_active_run (event : RunEvent) : bool :=
  match event with
  | RunEvent.Completed _ _ | RunEvent.Failed _ _ | RunEvent.Cancelled _
  | RunEvent.ForceCancelled _ => true
  | _ => false
  end.

(** When a run ends, however it ends, at most 256 terminal promises are left, the
    most recently settled ones in their order, and no pending promise is touched. *)
Theorem run_end_bounds_promises entry event s s' :
  reachable s → entry.(CoreAgentEntry.event) = CoreAgentEvent.Run event →
  ends_active_run event = true → apply_event entry s = (Ok tt, s') →
  (length (settled_ids s') <= 256)%nat ∧ suffix (settled_ids s') (settled_ids s) ∧
  ∀ id promise, promise_map s !! id = Some promise →
    promise.(Promise.status) = PromiseStatus.Pending → promise_map s' !! id = Some promise.
Proof.
  intros Hwf%reachable_settled_wf Hev He (s1 & Hs & ->)%apply_event_Ok.
  assert (s1.(CoreAgentState.promises) = prune_promises s.(CoreAgentState.promises)) as Hp.
  { unfold apply_event_kind in Hs. rewrite Hev in Hs. revert Hs. apply wp_ok_inv with
      (Q := λ _ s1, s1.(CoreAgentState.promises) = prune_promises s.(CoreAgentState.promises)).
    reduce_event; try discriminate He; by rewrite prune_finished_work_promises. }
  rewrite (settled_ids_swept s) by exact Hp. split_and!.
  - rewrite length_drop. unfold MAX_RETAINED_TERMINAL_PROMISES. lia.
  - eexists. symmetry. apply take_drop.
  - intros id promise Hl Ht. rewrite (promise_map_swept s) by exact Hp. case_decide as Hd; [|done].
    exfalso. by eapply pending_not_listed.
Qed.
End laws.

(** ** Witnesses *)
Lemma settled_promises_exact_witness :
  reachable promising_state ∧ NoDup (settled_ids promising_state) ∧
  (1%N ∈ settled_ids promising_state).
Proof.
  destruct (settled_promises_exact promising_state promising_reachable) as [Hn Hs].
  split_and!; [exact promising_reachable|exact Hn|].
  apply (proj2 (Hs 1%N)). eexists. split; [vm_compute; reflexivity|discriminate].
Defined.

Definition resolve_2 : CoreAgentEvent := CoreAgentEvent.Promise (PromiseEvent.Resolved 2 None).
Definition resolved_promise : Promise :=
  (example_promise 1) <| Promise.status := PromiseStatus.Resolved |>.
Lemma promise_lifecycle_witness :
  apply_event (next_entry resolve_2 promising_log) promising_state
    = (Ok tt, after promising_log resolve_2) ∧
  ∃ promise, promise_map (after promising_log resolve_2) !! 1%N = Some promise ∧
    promise.(Promise.status) = PromiseStatus.Resolved.
Proof.
  destruct (promise_lifecycle (next_entry resolve_2 promising_log) promising_state
    (after promising_log resolve_2) 1
    resolved_promise promising_reachable
    ltac:(vm_compute; reflexivity) ltac:(vm_compute; reflexivity))
    as [(p & Hp & He)|(Hp & _)].
  - split; [vm_compute; reflexivity|]. exists p. split; [exact Hp|].
    destruct He as (_ & _ & _ & _ & _ & He). by rewrite He.
  - exfalso. revert Hp. vm_compute. discriminate.
Defined.

Definition force_cancel : CoreAgentEvent := CoreAgentEvent.Run (RunEvent.ForceCancelled 1).
Lemma run_end_bounds_promises_witness :
  promise_map (after promising_log force_cancel) !! 2%N = Some (example_promise 2).
Proof.
  apply (run_end_bounds_promises (next_entry force_cancel promising_log)
    (RunEvent.ForceCancelled 1) promising_state (after promising_log force_cancel)
    promising_reachable eq_refl eq_refl ltac:(vm_compute; reflexivity));
    vm_compute; reflexivity.
Defined.

(** * Promises as text

    The ids of promises and the effects tools emit about them, between their textual form
    and the reducer's ([core/components/promise.rs]). *)

(** The text of a promise id and its number stand for each other: a string is read as
    number [n] exactly when it is the text minted for [n] and [n] is a [u64]. No two texts
    name one promise: neither a leading zero, a sign nor an overflow gets through. *)
Theorem promise_ids_are_numbers value n :
  parse_promise_number value = Some n ↔
  value = PromiseId_from_number n ∧ (n <= u64_max)%N.
Proof.
  split; [apply parse_promise_number_canonical|].
  intros [-> Hn]. by apply promise_id_roundtrip.
Qed.

#[local] Arguments PromiseId_from_number : simpl never.
#[local] Arguments PromiseId_try_new : simpl never.
#[local] Arguments create_effect_u64 : simpl never.

Definition fits_u64 (value : option N) : Prop := ∀ n, value = Some n → (n <= u64_max)%N.

Lemma PromiseId_try_new_of_number n message :
  (n <= u64_max)%N → PromiseId_try_new (PromiseId_from_number n) message = Ok n.
Proof. intros Hn. unfold PromiseId_try_new. by rewrite promise_id_roundtrip. Qed.
Lemma create_effect_u64_of_number n :
  (n <= u64_max)%N → create_effect_u64 (u64_to_string n) = Ok n.
Proof. intros Hn. unfold create_effect_u64. by rewrite parse_u64_to_string. Qed.

(** The promise a run makes of a timer effect. *)
Definition timer_promise (promise_id : PromiseId) (fire_at_ms : N) (deadline : option N)
    (run_id : RunId) : Promise :=
  {| Promise.promise_id := promise_id; Promise.source := PromiseSource.Timer fire_at_ms;
     Promise.scope := PromiseScope.Run run_id; Promise.ownership := PromiseOwnership.Model;
     Promise.status := PromiseStatus.Pending; Promise.payload_ref := None;
     Promise.error_ref := None; Promise.deadline_at_ms := deadline |}.

Lemma promise_create_effect_data promise_id fire_at_ms deadline :
  let data := (promise_create_effect promise_id (PromiseSource.Timer fire_at_ms) deadline)
                .(ToolEffect.data) in
  data !! PROMISE_EFFECT_ID = Some (PromiseId_from_number promise_id) ∧
  data !! PROMISE_EFFECT_SOURCE = Some PROMISE_EFFECT_SOURCE_TIMER ∧
  data !! PROMISE_EFFECT_FIRE_AT_MS = Some (u64_to_string fire_at_ms) ∧
  data !! PROMISE_EFFECT_DEADLINE_AT_MS = u64_to_string <$> deadline.
Proof.
  destruct deadline; unfold promise_create_effect, promise_source_fields; cbn [ToolEffect.data];
    split_and!; by simplify_map_eq.
Qed.

(** Promise effects are read back as they were written: a create effect for a timer
    gives the pending promise of its run, with the fire time and the deadline, a cancel or
    detach effect gives its id, and no effect is taken for one of another kind. *)
Theorem promise_effects_roundtrip promise_id fire_at_ms deadline run_id :
  (promise_id <= u64_max)%N → (fire_at_ms <= u64_max)%N → fits_u64 deadline →
  let create := promise_create_effect promise_id (PromiseSource.Timer fire_at_ms) deadline in
  let cancel := promise_cancel_effect promise_id in
  let detach := promise_detach_effect promise_id in
  promise_from_create_effect create run_id
    = Ok (Some (timer_promise promise_id fire_at_ms deadline run_id)) ∧
  promise_id_from_cancel_effect cancel = Ok (Some promise_id) ∧
  promise_id_from_detach_effect detach = Ok (Some promise_id) ∧
  promise_from_create_effect cancel run_id = Ok None ∧
  promise_from_create_effect detach run_id = Ok None ∧
  promise_id_from_cancel_effect create = Ok None ∧
  promise_id_from_cancel_effect detach = Ok None ∧
  promise_id_from_detach_effect create = Ok None ∧
  promise_id_from_detach_effect cancel = Ok None.
Proof.
  intros Hid Hf Hd create cancel detach. split_and!; try reflexivity.
  - destruct (promise_create_effect_data promise_id fire_at_ms deadline) as (D1 & D2 & D3 & D4).
    unfold promise_from_create_effect, create_effect_field, create.
    rewrite D1, D2, D3, D4. simpl. rewrite PromiseId_try_new_of_number by done. simpl.
    rewrite create_effect_u64_of_number by done. simpl.
    destruct deadline as [d|]; simpl; [|done].
    by rewrite create_effect_u64_of_number by (by apply Hd).
  - unfold promise_id_from_cancel_effect, cancel. simpl.
    rewrite lookup_singleton_eq. simpl. by rewrite PromiseId_try_new_of_number.
  - unfold promise_id_from_detach_effect, detach. simpl.
    rewrite lookup_singleton_eq. simpl. by rewrite PromiseId_try_new_of_number.
Qed.

(** ** Witness *)
Lemma promise_effects_roundtrip_witness :
  promise_from_create_effect
    (promise_create_effect 7 (PromiseSource.Timer 5000) (Some 9000%N)) 1
  = Ok (Some (timer_promise 7 5000 (Some 9000%N) 1)).
Proof.
  apply (promise_effects_roundtrip 7 5000 (Some 9000%N) 1).
  - by vm_compute.
  - by vm_compute.
  - by intros n [= <-].
Defined.
