(* ===== verification/StoreLogs.v ===== *)
(** * The logs of a store

    What every operation keeps: the log a session reads, its own entries after those it
    inherits by reference, is gapless from the first position to its head, and only an
    append to a session changes what it reads ([storage/session.rs]). *)
From S2P Require Import Prelude Ids Text Types Events Externals RunState Codec BlobRoots.
From S2P Require Import SessionStore StoreLaws Example.

Implicit Types (inner : InMemorySessionStoreInner) (record : SessionRecord).

(** ** Ranges of positions *)
(** The positions after [lo], up to [hi]. *)
Definition positions (lo hi : N) : list N :=
  N.of_nat <$> seq (S (N.to_nat lo)) (N.to_nat (hi - lo)).
Lemma elem_of_positions x lo hi : x ∈ positions lo hi ↔ (lo < x <= hi)%N.
Proof.
  unfold positions. rewrite list_elem_of_fmap. setoid_rewrite elem_of_seq. split.
  - intros (n & -> & ?). lia.
  - intros ?. exists (N.to_nat x). lia.
Qed.
Lemma positions_app lo mid hi :
  (lo <= mid <= hi)%N → positions lo mid ++ positions mid hi = positions lo hi.
Proof.
  intros ?. unfold positions. rewrite <- fmap_app. f_equal.
  replace (N.to_nat (hi - lo)) with (N.to_nat (mid - lo) + N.to_nat (hi - mid))%nat by lia.
  rewrite seq_app. do 2 f_equal. lia.
Qed.
Lemma positions_nil lo hi : (hi <= lo)%N → positions lo hi = [].
Proof. intros ?. unfold positions. by replace (N.to_nat (hi - lo)) with O by lia. Qed.
Lemma positions_cons lo hi :
  (lo < hi)%N → positions lo hi = (lo + 1)%N :: positions (lo + 1) hi.
Proof.
  intros ?. rewrite <- (positions_app lo (lo + 1) hi) by lia. unfold positions at 1.
  replace (N.to_nat (lo + 1 - lo)) with 1%nat by lia. simpl. f_equal. lia.
Qed.
(** Cutting a gapless list of entries at a position. *)
Lemma filter_positions es lo hi max :
  (lo <= max)%N → (lo <= hi)%N → stored_seq <$> es = positions lo hi →
  stored_seq <$> filter (λ e, lo < stored_seq e ∧ stored_seq e <= max)%N es
    = positions lo (N.min max hi).
Proof.
  intros Hm Hh Hes. rewrite <- (positions_app lo (N.min max hi) hi) in Hes by lia.
  apply fmap_app_inv in Hes as (es1 & es2 & H1 & H2 & ->).
  rewrite filter_app, (list_filter_all _ es1), (list_filter_none _ es2), app_nil_r; [done| |].
  - apply Forall_forall. intros e He. apply (list_elem_of_fmap_2 stored_seq) in He.
    rewrite <- H2, elem_of_positions in He. lia.
  - apply Forall_forall. intros e He. apply (list_elem_of_fmap_2 stored_seq) in He.
    rewrite <- H1, elem_of_positions in He. lia.
Qed.

(** ** Well-formed stores *)
(** The session a log continues, and the position it does so after. *)
Definition fork_of record : option (SessionId * N) :=
  match record.(SessionRecord.source_session_id), record.(SessionRecord.source_seq) with
  | Some source, Some seq => Some (source, seq)
  | _, _ => None
  end.
Definition base_seq record : N := match fork_of record with Some (_, seq) => seq | None => 0%N end.

(** The sessions, each before the one it was forked from, which reaches that far. *)
Inductive ordered (records : gmap SessionId SessionRecord) : list SessionId → Prop :=
| ordered_nil : ordered records []
| ordered_cons k record order :
    records !! k = Some record → k ∉ order →
    (∀ source seq, fork_of record = Some (source, seq) → source ∈ order ∧
       ∃ from, records !! source = Some from ∧ (seq <= head_seq from)%N) →
    ordered records order → ordered records (k :: order).
Definition log_wf inner (k : SessionId) record : Prop :=
  ∃ es, inner.(InMemorySessionStoreInner.entries) !! k = Some es ∧
    (base_seq record <= head_seq record)%N ∧
    stored_seq <$> es = positions (base_seq record) (head_seq record).
Definition store_wf inner : Prop :=
  let records := inner.(InMemorySessionStoreInner.records) in
  (∀ k record, records !! k = Some record → record.(SessionRecord.session_id) = k) ∧
  (∃ order, ordered records order ∧ ∀ k, is_Some (records !! k) ↔ k ∈ order) ∧
  (∀ k record, records !! k = Some record → log_wf inner k record).

Lemma branch_order_NoDup records order : ordered records order → NoDup order.
Proof. by induction 1; constructor. Qed.
Lemma ordered_length records order :
  ordered records order → (∀ k, is_Some (records !! k) ↔ k ∈ order) →
  length order = size records.
Proof.
  intros Ho Hall. rewrite <- size_dom. symmetry.
  replace (dom records) with (list_to_set (C:=gset SessionId) order).
  - by rewrite size_list_to_set by by eapply branch_order_NoDup.
  - apply set_eq. intros k. rewrite elem_of_list_to_set, elem_of_dom. by rewrite Hall.
Qed.

(** Leaving sessions out that no other one continues, and advancing the others. *)
Lemma ordered_keep records records' order (keep : SessionId → bool) :
  ordered records order →
  (∀ k record, keep k = true → records !! k = Some record → ∃ record',
     records' !! k = Some record' ∧ fork_of record' = fork_of record ∧
     (head_seq record <= head_seq record')%N) →
  (∀ k record source seq, keep k = true → records !! k = Some record →
     fork_of record = Some (source, seq) → keep source = true) →
  ordered records' (filter (λ k, keep k = true) order).
Proof.
  intros Ho Hk Hs. induction Ho as [|k record order Hr Hn Hf Ho IH]; [constructor|].
  rewrite filter_cons. case_decide as Hkeep; [|done].
  destruct (Hk k record Hkeep Hr) as (record' & Hr' & Hfork & _).
  econstructor; [done| | |done].
  - intros [_ ?]%list_elem_of_filter. done.
  - intros source seq Hsource. rewrite Hfork in Hsource.
    destruct (Hf _ _ Hsource) as (Hin & from & Hfrom & Hle).
    pose proof (Hs _ _ _ _ Hkeep Hr Hsource) as Hks.
    destruct (Hk source from Hks Hfrom) as (from' & Hfrom' & _ & Hle').
    split; [by apply list_elem_of_filter|]. exists from'. split; [done|lia].
Qed.
Lemma filter_true {A} (l : list A) : filter (λ _, true = true) l = l.
Proof. apply list_filter_all. by apply Forall_true. Qed.
Lemma ordered_advance records records' order :
  ordered records order →
  (∀ k record, records !! k = Some record → ∃ record', records' !! k = Some record' ∧
     fork_of record' = fork_of record ∧ (head_seq record <= head_seq record')%N) →
  ordered records' order.
Proof.
  intros Ho Hk. rewrite <- (filter_true order). apply (ordered_keep records _ _ (λ _, true)); auto.
Qed.

(** ** What a session reads *)
Lemma effective_entries_total inner order fuel k record max :
  ordered inner.(InMemorySessionStoreInner.records) order →
  (∀ k record, inner.(InMemorySessionStoreInner.records) !! k = Some record →
     log_wf inner k record) →
  k ∈ order → inner.(InMemorySessionStoreInner.records) !! k = Some record →
  (length order <= fuel)%nat →
  ∃ es, effective_entries_within fuel inner k max = Ok es ∧
    stored_seq <$> es = positions 0 (N.min max (head_seq record)).
Proof.
  intros Ho Hwf. revert fuel k record max. induction Ho as [|k' r' order Hr' Hn Hf Ho IH];
    intros fuel k record max Hin Hr Hl; [set_solver|]. destruct fuel as [|fuel]; [simpl in Hl; lia|].
  apply elem_of_cons in Hin as [->|Hin].
  2: { destruct (IH (S fuel) k record max Hin Hr) as (es & ? & ?); [simpl in Hl; lia|]. eauto. }
  rewrite Hr in Hr'. injection Hr' as <-.
  cbn [effective_entries_within]. unfold record_of. rewrite Hr. cbn [ok_or mbind Result_bind].
  destruct (Hwf _ _ Hr) as (es & Hes & Hle & Hpos). unfold base_seq, fork_of in *.
  assert (∀ lo, lo = match fork_of record with Some (_, seq) => seq | None => 0%N end →
    (lo <= max)%N → local_entries_up_to inner k' lo max
      = Ok (filter (λ e, lo < stored_seq e ∧ stored_seq e <= max)%N es)) as Hlocal.
  { intros. unfold local_entries_up_to. by rewrite Hes. }
  unfold fork_of in Hlocal.
  destruct (SessionRecord.source_session_id record) as [source|],
    (SessionRecord.source_seq record) as [seq|];
    try (rewrite Hlocal by (done || lia); eexists; split; [done|]; by apply filter_positions; lia || done).
  destruct (Hf source seq eq_refl) as (Hsin & from & Hfrom & Hreach).
  destruct (N.leb_spec max seq) as [Hm|Hm].
  - destruct (IH fuel source from max Hsin Hfrom) as (es' & -> & Hes'); [simpl in Hl; lia|].
    exists es'. split; [done|]. rewrite Hes'. f_equal. lia.
  - destruct (IH fuel source from seq Hsin Hfrom) as (es' & -> & Hes'); [simpl in Hl; lia|].
    cbn [mbind Result_bind]. rewrite Hlocal by (done || lia). eexists. split; [done|].
    rewrite fmap_app, Hes', filter_positions with (hi := head_seq record) by (done || lia).
    rewrite N.min_l by done. apply positions_app. lia.
Qed.

(** ** Committing *)
Definition same_session record record' : Prop :=
  record'.(SessionRecord.session_id) = record.(SessionRecord.session_id) ∧
  fork_of record' = fork_of record.
Lemma fork_of_base record record' : fork_of record' = fork_of record →
  base_seq record' = base_seq record.
Proof. unfold base_seq. by intros ->. Qed.

Section commit.
Context `{!EventJson}.

Lemma projection_same_session record entry :
  same_session record (apply_lifecycle_projection record entry).
Proof.
  unfold apply_lifecycle_projection, refresh_delete_at. repeat case_match; split; reflexivity.
Qed.
Lemma following_position_seq record :
  (head_seq record < u64_max)%N →
  following_position record.(SessionRecord.head)
    = {| SessionPosition.seq := (head_seq record + 1)%N |}.
Proof.
  unfold following_position, head_seq, saturating_add_u64. intros ?.
  f_equal. destruct (SessionRecord.head record); [lia|done].
Qed.
Lemma commit_spec record events :
  (head_seq record + N.of_nat (length events) <= u64_max)%N →
  let '(record', committed) := commit_uncommitted_events record events in
  same_session record record' ∧
  head_seq record' = (head_seq record + N.of_nat (length events))%N ∧
  stored_seq <$> committed = positions (head_seq record) (head_seq record').
Proof.
  revert record. induction events as [|event events IH]; intros record Hl; simpl.
  { split_and!; [done|lia|]. by rewrite positions_nil by lia. }
  simpl in Hl. rewrite following_position_seq by lia.
  match goal with |- context [commit_uncommitted_events ?r events] => set (record1 := r) end.
  assert (head_seq record1 = head_seq record + 1)%N as Hh by done.
  assert (same_session record record1) as [Hid Hfork] by apply projection_same_session.
  specialize (IH record1). destruct (commit_uncommitted_events record1 events) as [record' es].
  destruct IH as ([Hid' Hfork'] & Hh' & Hes); [rewrite Hh; lia|].
  split_and!; [split; congruence|lia|].
  rewrite fmap_cons, Hes, Hh, (positions_cons (head_seq record) (head_seq record')) by lia. done.
Qed.
End commit.

(** ** What operations keep *)
(** A session is created, with its log so far. *)
Lemma insert_session_wf inner record es :
  store_wf inner →
  inner.(InMemorySessionStoreInner.records) !! record.(SessionRecord.session_id) = None →
  (∀ source seq, fork_of record = Some (source, seq) → ∃ from,
     inner.(InMemorySessionStoreInner.records) !! source = Some from ∧ seq <= head_seq from)%N →
  (base_seq record <= head_seq record)%N →
  stored_seq <$> es = positions (base_seq record) (head_seq record) →
  store_wf (insert_session record es inner).
Proof.
  intros (Hids & (order & Ho & Hall) & Hlogs) Hnew Hfork Hle Hes.
  set (k := record.(SessionRecord.session_id)) in *. split_and!; simpl.
  - intros k' r. fold k. rewrite lookup_insert_Some. naive_solver.
  - fold k. exists (k :: order). assert (k ∉ order) as Hk by (rewrite <- Hall, Hnew; by intros []).
    split.
    + econstructor; [apply lookup_insert_eq|done| |].
      * intros source seq Hs. destruct (Hfork _ _ Hs) as (from & Hfrom & Hseq).
        split; [by apply Hall|]. exists from. split; [|done].
        rewrite lookup_insert_ne; [done|]. intros <-. congruence.
      * eapply ordered_advance; [done|]. intros k' r Hr. exists r.
        rewrite lookup_insert_ne by congruence. split_and!; [done|done|lia].
    + intros k'. rewrite elem_of_cons, <- Hall, lookup_insert_is_Some. naive_solver.
  - intros k' r. fold k. unfold log_wf. simpl. fold k.
    rewrite lookup_insert_Some. intros [[<- <-]|[Hne Hr]].
    + exists es. by rewrite lookup_insert_eq.
    + rewrite lookup_insert_ne by done. by apply Hlogs.
Qed.
(** The record of a session changes, and its log is extended up to its head. *)
Lemma extend_session_wf inner k record record' es :
  store_wf inner → inner.(InMemorySessionStoreInner.records) !! k = Some record →
  same_session record record' → (head_seq record <= head_seq record')%N →
  stored_seq <$> es = positions (head_seq record) (head_seq record') →
  store_wf (inner <| InMemorySessionStoreInner.records ::= <[k := record']> |>
                  <| InMemorySessionStoreInner.entries ::= alter (.++ es) k |>).
Proof.
  intros (Hids & (order & Ho & Hall) & Hlogs) Hr [Hid Hfork] Hle Hes. split_and!; simpl.
  - intros k' r. rewrite lookup_insert_Some.
    intros [[<- <-]|[_ ?]]; [rewrite Hid|]; by apply Hids.
  - exists order. split.
    + eapply ordered_advance; [done|]. intros k' r Hr'.
      destruct (decide (k' = k)) as [->|Hne].
      * rewrite Hr in Hr'. injection Hr' as <-. exists record'. by rewrite lookup_insert_eq.
      * exists r. rewrite lookup_insert_ne by done. split_and!; [done|done|lia].
    + intros k'. rewrite lookup_insert_is_Some, <- Hall. split; [|by intros ?; destruct (decide (k = k')); auto].
      intros [<-|[_ ?]]; [by rewrite Hr|done].
  - intros k' r. unfold log_wf. rewrite lookup_insert_Some.
    change (InMemorySessionStoreInner.entries _)
      with (alter (.++ es) k inner.(InMemorySessionStoreInner.entries)).
    intros [[<- <-]|[Hne Hr']].
    + destruct (Hlogs _ _ Hr) as (es0 & Hes0 & Hb & Hpos). exists (es0 ++ es).
      rewrite (fork_of_base _ _ Hfork). split_and!; [by rewrite lookup_alter_eq, Hes0|lia|].
      rewrite fmap_app, Hpos, Hes. apply positions_app. lia.
    + rewrite lookup_alter_ne by done. by apply Hlogs.
Qed.
Lemma update_record_wf inner k record record' :
  store_wf inner → inner.(InMemorySessionStoreInner.records) !! k = Some record →
  same_session record record' → head_seq record' = head_seq record →
  store_wf (inner <| InMemorySessionStoreInner.records ::= <[k := record']> |>).
Proof.
  intros Hwf Hr Hs Hh. pose proof (extend_session_wf _ _ _ _ [] Hwf Hr Hs) as He.
  rewrite Hh in He. specialize (He ltac:(lia) ltac:(by rewrite positions_nil by lia)).
  assert (alter (.++ []) k inner.(InMemorySessionStoreInner.entries)
    = inner.(InMemorySessionStoreInner.entries)) as Ha.
  { apply alter_id. intros x _. apply app_nil_r. }
  match type of He with store_wf ?i => change (store_wf
    (i <| InMemorySessionStoreInner.entries
            := alter (.++ []) k inner.(InMemorySessionStoreInner.entries) |>)) in He end.
  rewrite Ha in He. exact He.
Qed.
(** Sessions are removed together with those forked from them. *)
Lemma remove_sessions_wf inner inner' (keep : SessionId → bool) (f : SessionRecord → SessionRecord) :
  store_wf inner →
  (∀ k, inner'.(InMemorySessionStoreInner.records) !! k
     = if keep k then f <$> inner.(InMemorySessionStoreInner.records) !! k else None) →
  (∀ k, keep k = true → inner'.(InMemorySessionStoreInner.entries) !! k
     = inner.(InMemorySessionStoreInner.entries) !! k) →
  (∀ k record, keep k = true → inner.(InMemorySessionStoreInner.records) !! k = Some record →
     same_session record (f record) ∧ head_seq (f record) = head_seq record) →
  (∀ k record source seq, keep k = true →
     inner.(InMemorySessionStoreInner.records) !! k = Some record →
     fork_of record = Some (source, seq) → keep source = true) →
  store_wf inner'.
Proof.
  intros (Hids & (order & Ho & Hall) & Hlogs) Hrec Hent Hf Hs.
  assert (∀ k r, inner'.(InMemorySessionStoreInner.records) !! k = Some r → keep k = true ∧
    ∃ record, inner.(InMemorySessionStoreInner.records) !! k = Some record ∧ r = f record) as Hinv.
  { intros k r. rewrite Hrec. destruct (keep k); [|done]. intros (record & -> & ?)%fmap_Some. eauto. }
  split_and!.
  - intros k r (Hk & record & Hr & ->)%Hinv. destruct (Hf _ _ Hk Hr) as [[-> _] _]. by apply Hids.
  - exists (filter (λ k, keep k = true) order). split.
    + eapply ordered_keep; [done| |done]. intros k r Hk Hr. exists (f r).
      destruct (Hf _ _ Hk Hr) as [[_ ->] ->]. rewrite Hrec, Hk, Hr. by split_and!; [| |lia].
    + intros k. rewrite list_elem_of_filter, <- Hall, Hrec. destruct (keep k).
      * rewrite fmap_is_Some. naive_solver.
      * split; [by intros []|by intros []].
  - intros k r (Hk & record & Hr & ->)%Hinv. unfold log_wf. rewrite Hent by done.
    destruct (Hf _ _ Hk Hr) as [[_ Hfork] ->]. rewrite (fork_of_base _ _ Hfork).
    by apply Hlogs.
Qed.

(** ** Every operation *)
Definition lookup_record inner (k : SessionId) : option SessionRecord :=
  inner.(InMemorySessionStoreInner.records) !! k.
(** Positions are not exhausted, and what is discarded was never forked: an unopened
    session can be, at its beginning. *)
Definition admissible (op : StoreOperation) inner : Prop :=
  match op with
  | StoreOperation.Append request => ∀ record,
      lookup_record inner request.(AppendSessionEvents.session_id) = Some record →
      (head_seq record + N.of_nat (length request.(AppendSessionEvents.events)) <= u64_max)%N
  | StoreOperation.Clone request =>
      (N.of_nat (length request.(CreateClonedSession.opening_events)) <= u64_max)%N
  | StoreOperation.Discard session_id => ∀ k record seq,
      lookup_record inner k = Some record → fork_of record ≠ Some (session_id, seq)
  | _ => True
  end.

Section operations.
Context `{!EventJson, !EventSerialize}.

Lemma record_of_Ok inner k record :
  record_of inner k = Ok record ↔ lookup_record inner k = Some record.
Proof. apply ok_or_Ok. Qed.
Lemma has_record_false inner k : has_record inner k = false ↔ lookup_record inner k = None.
Proof. apply is_some_false. Qed.

Lemma create_session_wf request inner :
  store_wf inner → wp (create_session request) (λ _, store_wf) inner.
Proof.
  intros Hwf. unfold create_session. wp_steps.
  match goal with H : has_record _ _ = false |- _ => apply has_record_false in H end.
  apply insert_session_wf; [done|done|done|simpl; lia|]. by rewrite positions_nil by done.
Qed.
Lemma branch_source_Ok inner source_id session_id source :
  branch_source inner source_id session_id = Ok source →
  lookup_record inner source_id = Some source ∧ lookup_record inner session_id = None.
Proof.
  unfold branch_source. intros Hb. simplify_ok.
  by rewrite <- record_of_Ok, <- has_record_false.
Qed.
Lemma create_cloned_session_wf request inner :
  admissible (StoreOperation.Clone request) inner → store_wf inner →
  wp (create_cloned_session request) (λ _, store_wf) inner.
Proof.
  intros Hadm Hwf. unfold create_cloned_session. do 2 wp_step.
  match goal with H : branch_source _ _ _ = Ok _ |- _ => apply branch_source_Ok in H as [_ Hnew] end.
  do 2 wp_step. pose proof (commit_spec (cloned_record request)
    request.(CreateClonedSession.opening_events) Hadm) as Hc.
  destruct (commit_uncommitted_events _ _) as [record es]. destruct Hc as ([Hid Hf] & Hh & Hes).
  cbv beta match. wp_steps. apply insert_session_wf; [done|exact (eq_trans (f_equal (lookup_record inner) Hid) Hnew)| | |].
  - rewrite Hf. done.
  - unfold base_seq. rewrite Hf. simpl. lia.
  - rewrite Hes. unfold base_seq. by rewrite Hf.
Qed.
Lemma head_seq_position q record :
  record.(SessionRecord.head) = position_from_nonzero_seq q → head_seq record = q.
Proof.
  unfold head_seq, position_from_nonzero_seq. intros ->.
  destruct (N.ltb_spec 0 q); simpl; lia.
Qed.
Lemma create_forked_session_wf request inner :
  store_wf inner → wp (create_forked_session request) (λ _, store_wf) inner.
Proof.
  intros Hwf. unfold create_forked_session. do 3 wp_step. simplify_ok.
  match goal with H : branch_source _ _ _ = Ok _ |- _ =>
    apply branch_source_Ok in H as [Hsrc Hnew] end.
  set (record := forked_record request a).
  assert (record.(SessionRecord.session_id) = request.(CreateForkedSession.session_id) ∧
    fork_of record = Some (request.(CreateForkedSession.source_session_id),
                           request.(CreateForkedSession.source_seq)) ∧
    record.(SessionRecord.head)
      = position_from_nonzero_seq request.(CreateForkedSession.source_seq)) as (Hid & Hf & Hhead).
  { subst record. unfold forked_record. by destruct (lifecycle_at_fork _ _). }
  apply head_seq_position in Hhead.
  match goal with H : validate_in_memory_fork_point _ _ _ = _ |- _ =>
    unfold validate_in_memory_fork_point, validate_fork_point, effective_head_u64 in H end.
  simplify_ok. match goal with H : record_of _ _ = Ok ?r |- _ =>
    apply record_of_Ok in H; rewrite Hsrc in H; injection H as <- end.
  wp_steps. apply insert_session_wf; [done|exact (eq_trans (f_equal (lookup_record inner) Hid) Hnew)| | |].
  - intros source seq. rewrite Hf. intros [= <- <-]. eauto.
  - unfold base_seq. rewrite Hf, Hhead. lia.
  - unfold base_seq. rewrite Hf, Hhead. by rewrite positions_nil by lia.
Qed.
Lemma append_wf request inner :
  admissible (StoreOperation.Append request) inner → store_wf inner →
  wp (append request) (λ _, store_wf) inner.
Proof.
  intros Hadm Hwf. unfold append. do 2 wp_step.
  match goal with H : record_of _ _ = Ok _ |- _ => apply record_of_Ok in H as Hr end.
  do 4 wp_step. pose proof (commit_spec _ _ (Hadm _ Hr)) as Hc.
  destruct (commit_uncommitted_events _ _) as [record es]. destruct Hc as (Hs & Hh & Hes).
  cbv beta match. wp_steps. apply (extend_session_wf inner _ a); [done|done|done|lia|done].
Qed.
Lemma update_session_wf k f inner :
  (∀ record, same_session record (f record) ∧ head_seq (f record) = head_seq record) →
  store_wf inner → wp (update_record k f) (λ _, store_wf) inner.
Proof.
  intros Hf Hwf. unfold update_record. wp_steps. destruct (Hf a).
  apply (update_record_wf inner k a); [done|by apply record_of_Ok|done|done].
Qed.
Lemma checkpoint_wf inner inner' :
  inner'.(InMemorySessionStoreInner.records) = inner.(InMemorySessionStoreInner.records) →
  inner'.(InMemorySessionStoreInner.entries) = inner.(InMemorySessionStoreInner.entries) →
  store_wf inner → store_wf inner'.
Proof. unfold store_wf, log_wf. by intros -> ->. Qed.
Lemma discard_wf session_id inner :
  admissible (StoreOperation.Discard session_id) inner → store_wf inner →
  wp (discard_unopened_session session_id) (λ _, store_wf) inner.
Proof.
  intros Hadm Hwf. unfold discard_unopened_session. do 4 wp_step. destruct (is_some_and _ _); [|done].
  apply (remove_sessions_wf inner _ (λ k, bool_decide (k ≠ session_id)) id).
  - done.
  - intros k. simpl. case_bool_decide as Hk.
    + rewrite lookup_delete_ne by done. by rewrite option_fmap_id.
    + subst k. apply lookup_delete_eq.
  - intros k Hk%bool_decide_eq_true. by apply lookup_delete_ne.
  - intros k r _ _. by split.
  - intros k r source seq _ Hr Hf. apply bool_decide_eq_true. intros ->. by eapply Hadm.
Qed.

Lemma remove_all_lookup deleted inner k :
  let inner' := foldl (λ inner session_id, remove_session session_id inner) inner deleted in
  inner'.(InMemorySessionStoreInner.records) !! k
    = (if bool_decide (k ∈ deleted) then None
       else inner.(InMemorySessionStoreInner.records) !! k) ∧
  inner'.(InMemorySessionStoreInner.entries) !! k
    = (if bool_decide (k ∈ deleted) then None
       else inner.(InMemorySessionStoreInner.entries) !! k).
Proof.
  revert inner. induction deleted as [|d deleted IH]; intros inner; [done|].
  cbn [foldl]. destruct (IH (remove_session d inner)) as [-> ->]. unfold remove_session. simpl.
  destruct (decide (k = d)) as [->|Hne].
  - rewrite !lookup_delete_eq, (bool_decide_eq_true_2 (d ∈ d :: deleted)) by set_solver.
    by case_bool_decide.
  - rewrite !lookup_delete_ne by done. rewrite (bool_decide_ext (k ∈ d :: deleted) (k ∈ deleted)).
    + done.
    + set_solver.
Qed.
Lemma fork_is_child inner k record source seq :
  store_wf inner → lookup_record inner k = Some record →
  fork_of record = Some (source, seq) → child_of inner source k.
Proof.
  intros (Hids & _) Hr Hf. unfold child_of, retention_children.
  apply list_elem_of_fmap. exists record. split; [symmetry; exact (Hids _ _ Hr)|].
  apply list_elem_of_filter. split; [|by apply elem_of_btree_values; exists k].
  unfold is_retention_child, fork_of in *.
  destruct (SessionRecord.source_session_id record), (SessionRecord.source_seq record); try done.
  injection Hf as -> ->. rewrite bool_decide_eq_true_2 by done. by rewrite orb_true_r.
Qed.
(** What is deleted is the session with its tree, and all of it is closed. *)
Lemma sessions_to_delete_Ok request inner record deleted :
  store_wf inner → sessions_to_delete request inner = Ok (record, deleted) →
  lookup_record inner request.(DeleteClosedSessions.session_id) = Some record ∧
  (∀ k, k ∈ deleted ↔ k = request.(DeleteClosedSessions.session_id) ∨
     tc (child_of inner) request.(DeleteClosedSessions.session_id) k) ∧
  (∀ k, k ∈ deleted → ∃ record, lookup_record inner k = Some record ∧
     record.(SessionRecord.lifecycle_status) = SessionLifecycleStatus.Closed).
Proof.
  intros Hwf Hd. unfold sessions_to_delete in Hd. simplify_ok.
  match goal with H : record_of _ _ = Ok _ |- _ => apply record_of_Ok in H as Hr end.
  destruct (descendants_iff inner request.(DeleteClosedSessions.session_id)) as (_ & _ & Hdesc).
  assert (record.(SessionRecord.session_id) = request.(DeleteClosedSessions.session_id)) as Hid.
  { destruct Hwf as (Hids & _). by apply Hids. }
  split; [done|]. split.
  - intros k. rewrite elem_of_app, list_elem_of_singleton, Hid, <- Hdesc.
    destruct (DeleteClosedSessions.cascade request); [tauto|].
    match goal with H : (negb false && _) = false |- _ =>
      apply negb_false_iff, bool_decide_eq_true in H; rewrite H end. tauto.
  - match goal with H : for_each _ _ = Ok _ |- _ => apply for_each_Ok in H; rewrite Forall_forall in H;
      intros k Hk; specialize (H k Hk); unfold check_closed in H end.
    simplify_ok. match goal with H : record_of _ k = Ok _ |- _ => apply record_of_Ok in H end. eauto.
Qed.
(** The sessions deleted are gone, the others are as they were, up to a forgotten source. *)
Definition deletes (deleted : list SessionId) inner inner' : Prop :=
  let keep k := negb (bool_decide (k ∈ deleted)) in
  (∀ k, lookup_record inner' k
     = if keep k then forget_source deleted <$> lookup_record inner k else None) ∧
  (∀ k, keep k = true → inner'.(InMemorySessionStoreInner.entries) !! k
     = inner.(InMemorySessionStoreInner.entries) !! k) ∧
  (∀ k record, keep k = true → lookup_record inner k = Some record →
     same_session record (forget_source deleted record) ∧
     head_seq (forget_source deleted record) = head_seq record) ∧
  (∀ k record source seq, keep k = true → lookup_record inner k = Some record →
     fork_of record = Some (source, seq) → keep source = true).
Lemma deleted_closed inner root (deleted : list SessionId) k record source seq :
  store_wf inner → (∀ k, k ∈ deleted ↔ k = root ∨ tc (child_of inner) root k) →
  lookup_record inner k = Some record → fork_of record = Some (source, seq) →
  source ∈ deleted → k ∈ deleted.
Proof.
  intros Hwf Htree Hr Hf Hs%Htree. apply Htree. right.
  pose proof (fork_is_child _ _ _ _ _ Hwf Hr Hf).
  destruct Hs as [->|?]; [by apply tc_once|by eapply tc_r].
Qed.
Lemma delete_spec request inner :
  store_wf inner →
  wp (delete_closed_sessions request) (λ deletion, deletes deletion.2 inner) inner.
Proof.
  intros Hwf. unfold delete_closed_sessions. do 2 wp_step. destruct a as [record deleted].
  match goal with H : sessions_to_delete _ _ = Ok _ |- _ =>
    destruct (sessions_to_delete_Ok _ _ _ _ Hwf H) as (_ & Htree & _) end.
  wp_steps. split_and!.
  - intros k. unfold lookup_record. etrans; [apply lookup_fmap|].
    destruct (remove_all_lookup deleted inner k) as [Hrec _].
    etrans; [exact (f_equal (fmap (forget_source deleted)) Hrec)|].
    cbn [snd]. by destruct (bool_decide (k ∈ deleted)).
  - cbn [snd]. intros k Hk%negb_true_iff. destruct (remove_all_lookup deleted inner k) as [_ Hent].
    etrans; [exact Hent|]. by rewrite Hk.
  - cbn [snd]. intros k r Hk Hr. unfold forget_source. destruct (is_some_and _ _) eqn:Hs; [|by split; [split|]].
    split; [split; [reflexivity|]|reflexivity].
    destruct (fork_of r) as [[source seq]|] eqn:Hf.
    + pose proof Hf as Hf'. unfold fork_of in Hf'.
      destruct (SessionRecord.source_session_id r), (SessionRecord.source_seq r); simplify_eq.
      simpl in Hs. apply bool_decide_eq_true in Hs. apply negb_true_iff, bool_decide_eq_false in Hk.
      destruct Hk. by eapply deleted_closed.
    + unfold fork_of in *. simpl.
      by destruct (SessionRecord.source_session_id r), (SessionRecord.source_seq r).
  - cbn [snd]. intros k r source seq Hk Hr Hf. apply negb_true_iff, bool_decide_eq_false.
    apply negb_true_iff, bool_decide_eq_false in Hk. contradict Hk. by eapply deleted_closed.
Qed.
Lemma delete_wf request inner :
  store_wf inner → wp (delete_closed_sessions request) (λ _, store_wf) inner.
Proof.
  intros Hwf. eapply wp_mono; [by apply delete_spec|]. intros deletion inner' (?&?&?&?).
  apply (remove_sessions_wf inner inner'
    (λ k, negb (bool_decide (k ∈ deletion.2))) (forget_source deletion.2)); done.
Qed.

Lemma wp_discarding {S E A} (m : Reducer S E A) (Q : S → Prop) s :
  wp m (λ _, Q) s → wp (discarding m) (λ _, Q) s.
Proof. intros Hm. unfold discarding. apply wp_bind. eapply wp_mono; [exact Hm|]. by intros. Qed.
Lemma perform_wf op inner :
  admissible op inner → store_wf inner → wp (perform op) (λ _, store_wf) inner.
Proof.
  intros Hadm Hwf. destruct op; cbn [perform]; apply wp_discarding.
  - by apply create_session_wf.
  - by apply create_cloned_session_wf.
  - by apply create_forked_session_wf.
  - by apply append_wf.
  - by apply update_session_wf; [split; [split|]|].
  - by apply update_session_wf; [split; [split|]|].
  - unfold set_session_retention. do 6 wp_step. apply update_session_wf; [|done].
    intros record. unfold refresh_delete_at. repeat case_match; by split; [split|].
  - unfold advance_checkpoint. wp_steps; [done|]. by eapply checkpoint_wf; [..|exact Hwf].
  - by apply discard_wf.
  - by apply delete_wf.
Qed.

(** What a store may come to hold, starting empty. *)
Inductive store_reachable : InMemorySessionStoreInner → Prop :=
| store_new : store_reachable InMemorySessionStore_new
| store_step op inner inner' :
    store_reachable inner → admissible op inner → perform op inner = (Ok tt, inner') →
    store_reachable inner'.
Lemma store_reachable_wf inner : store_reachable inner → store_wf inner.
Proof.
  induction 1 as [|op inner inner' _ Hwf Hadm Hop].
  - split_and!; [done| |done]. exists []. split; [constructor|].
    intros k. split; [by intros []|by intros ?%elem_of_nil].
  - exact (wp_ok_inv _ _ _ _ _ (perform_wf op inner Hadm Hwf) Hop).
Qed.

Lemma effective_entries_gapless inner k record :
  store_wf inner → lookup_record inner k = Some record →
  ∃ es, effective_entries inner k = Ok es ∧ stored_seq <$> es = positions 0 (head_seq record).
Proof.
  intros (_ & (order & Ho & Hall) & Hlogs) Hr.
  assert (k ∈ order) as Hk by (apply Hall; by eexists).
  destruct (effective_entries_total inner order
    (S (size inner.(InMemorySessionStoreInner.records))) k record (head_seq record))
    as (es & Hes & Hpos); [done|done|done|done|by rewrite (ordered_length _ _ Ho Hall); lia|].
  exists es. split; [|by rewrite Hpos, N.min_id].
  unfold effective_entries, effective_head_u64, record_of.
  unfold lookup_record in Hr. rewrite Hr. exact Hes.
Qed.

(** C7. Whatever a store went through, of creating, cloning, forking, appending, discarding
    and deleting, every session it holds has a log that can be read: following the chain of
    the sessions it was forked from ends, within as many steps as the store has records, and
    gives its entries at positions one to its head, none missing and none twice. That is for
    histories of [admissible] operations: positions did not run out, and no unopened session was
    discarded that something was forked from. The store does discard such a session, and its fork
    cannot be read any more: [ForkPoints.discarding_a_forked_session_orphans_the_fork]. *)
Theorem effective_log_gapless inner k record :
  store_reachable inner → lookup_record inner k = Some record →
  ∃ es, effective_entries inner k = Ok es ∧ stored_seq <$> es = positions 0 (head_seq record).
Proof. intros Hi%store_reachable_wf. by apply effective_entries_gapless. Qed.

(** ** What an operation changes *)
(** What a session reads depends on its own entries and on those it inherits. *)
Lemma effective_entries_frame inner inner' order fuel fuel' (keep : SessionId → Prop) k record max :
  ordered inner.(InMemorySessionStoreInner.records) order →
  (∀ k record, keep k → lookup_record inner k = Some record →
     (∃ record', lookup_record inner' k = Some record' ∧ fork_of record' = fork_of record) ∧
     (∀ after max, max <= head_seq record →
        local_entries_up_to inner' k after max = local_entries_up_to inner k after max)%N ∧
     (∀ source seq, fork_of record = Some (source, seq) → keep source ∧ seq <= head_seq record)%N) →
  keep k → k ∈ order → lookup_record inner k = Some record → (max <= head_seq record)%N →
  (length order <= fuel)%nat → (length order <= fuel')%nat →
  effective_entries_within fuel' inner' k max = effective_entries_within fuel inner k max.
Proof.
  intros Ho Hkeep. revert fuel fuel' k record max.
  induction Ho as [|k0 r0 order Hr0 Hn Hf Ho IH];
    intros fuel fuel' k record max Hk Hin Hr Hm Hl Hl'; [set_solver|].
  destruct fuel as [|fuel]; [simpl in Hl; lia|]. destruct fuel' as [|fuel']; [simpl in Hl'; lia|].
  simpl in Hl, Hl'. apply elem_of_cons in Hin as [->|Hin].
  2: { apply (IH (S fuel) (S fuel') k record max); try done; lia. }
  assert (r0 = record) as -> by (unfold lookup_record in Hr; congruence).
  destruct (Hkeep _ _ Hk Hr) as ((record' & Hr' & Hfork) & Hlocal & Hsource).
  cbn [effective_entries_within]. unfold record_of. unfold lookup_record in Hr, Hr'.
  rewrite Hr, Hr'. cbn [ok_or mbind Result_bind]. unfold fork_of in Hfork, Hf, Hsource.
  destruct (SessionRecord.source_session_id record) as [source|],
    (SessionRecord.source_seq record) as [seq|], (SessionRecord.source_session_id record'),
    (SessionRecord.source_seq record'); simplify_eq; try by apply Hlocal.
  destruct (Hf source seq eq_refl) as (Hsin & from & Hfrom & Hreach).
  destruct (Hsource source seq eq_refl) as [Hks Hseq].
  destruct (N.leb_spec max seq) as [Hms|Hms].
  - apply (IH fuel fuel' source from); try done; lia.
  - rewrite (IH fuel fuel' source from seq) by (done || lia). by rewrite Hlocal.
Qed.
End operations.

(** ** The example store *)
Lemma reach_snoc ops op :
  store_reachable (after_operations ops) → admissible op (after_operations ops) →
  (perform op (after_operations ops)).1 = Ok tt →
  store_reachable (after_operations (ops ++ [op])).
Proof.
  intros Hr Hadm Hop. unfold after_operations. rewrite foldl_app. simpl.
  eapply store_step; [exact Hr|exact Hadm|]. unfold after_operations in *.
  destruct (perform op _) as [[[]|] inner']; simpl in *; [done|discriminate].
Qed.
(** An append or a clone far from the last position. *)
Ltac small_positions :=
  let Hr := fresh in intros ? Hr; vm_compute in Hr; injection Hr as <-; vm_compute; discriminate.
Lemma forked_prefix_reachable : store_reachable (after_operations (take 3 forked_operations)).
Proof.
  apply (reach_snoc (take 2 forked_operations)); [|exact I|vm_compute; reflexivity].
  apply (reach_snoc (take 1 forked_operations)); [|small_positions|vm_compute; reflexivity].
  apply (reach_snoc []); [apply store_new|exact I|vm_compute; reflexivity].
Qed.
Lemma forked_store_reachable : store_reachable forked_store.
Proof.
  apply (reach_snoc (take 3 forked_operations)); [apply forked_prefix_reachable| |].
  - small_positions.
  - vm_compute. reflexivity.
Qed.


(** ** Witness *)
Lemma effective_log_gapless_witness :
  ∃ es, effective_entries forked_store "root" = Ok es ∧ stored_seq <$> es = positions 0 2.
Proof.
  apply (effective_log_gapless forked_store "root" (example_record forked_store "root")).
  - apply forked_store_reachable.
  - vm_compute. reflexivity.
Defined.
