(* ===== verification/StoreHistory.v ===== *)
(** * What an operation changes

    The log a session reads is extended by an append to that session and by nothing else:
    not by appends to the session it was forked from or to its forks, nor by deleting
    others ([storage/session.rs]). *)
From S2P Require Import Prelude Ids Text Types Events Externals RunState Example Codec BlobRoots.
From S2P Require Import SessionStore StoreLaws StoreLogs.

Implicit Types (inner : InMemorySessionStoreInner) (record : SessionRecord).

(** ** What a session reads, by parts *)
Definition lookup_entries inner (k : SessionId) : option (list StoredSessionEntry) :=
  inner.(InMemorySessionStoreInner.entries) !! k.
(** What a session inherits, before its own entries. *)
Definition inherited inner record : Result SessionStoreError (list StoredSessionEntry) :=
  match fork_of record with
  | Some (source, seq) =>
      effective_entries_within (size inner.(InMemorySessionStoreInner.records)) inner source seq
  | None => mret []
  end.

Lemma positions_length lo hi : length (positions lo hi) = N.to_nat (hi - lo).
Proof. unfold positions. by rewrite length_fmap, length_seq. Qed.
Lemma local_entries_all inner k record es max :
  log_wf inner k record → lookup_entries inner k = Some es → (head_seq record <= max)%N →
  local_entries_up_to inner k (base_seq record) max = Ok es.
Proof.
  intros (es' & Hes' & Hle & Hpos) Hes Hm. unfold lookup_entries in Hes.
  unfold local_entries_up_to. rewrite Hes in Hes'. injection Hes' as <-. rewrite Hes. simpl.
  unfold mret, Result_ret. f_equal. apply list_filter_all, Forall_forall. intros e He.
  apply (list_elem_of_fmap_2 stored_seq) in He. rewrite Hpos, elem_of_positions in He.
  unfold stored_seq in He. lia.
Qed.
Lemma effective_entries_parts inner k record es :
  store_wf inner → lookup_record inner k = Some record → lookup_entries inner k = Some es →
  effective_entries inner k = (λ prefix, prefix ++ es) <$> inherited inner record.
Proof.
  intros (_ & _ & Hlogs) Hr Hes. pose proof (Hlogs _ _ Hr) as Hlog.
  unfold effective_entries, effective_head_u64, effective_entries_up_to, record_of.
  unfold lookup_record in Hr. rewrite Hr. cbn [ok_or mbind Result_bind mret Result_ret].
  cbn [effective_entries_within]. unfold record_of. rewrite Hr. cbn [ok_or mbind Result_bind].
  pose proof (local_entries_all _ _ _ _ (head_seq record) Hlog Hes ltac:(lia)) as Hlocal.
  destruct Hlog as (es' & Hes' & Hle & Hpos). change (lookup_entries inner k = Some es') in Hes'.
  rewrite Hes in Hes'. injection Hes' as <-.
  unfold base_seq, inherited, fork_of in *.
  destruct (SessionRecord.source_session_id record) as [source|],
    (SessionRecord.source_seq record) as [seq|]; try by rewrite Hlocal.
  destruct (N.leb_spec (head_seq record) seq) as [Hm|Hm].
  - replace (head_seq record) with seq by lia. replace es with (@nil StoredSessionEntry).
    + destruct (effective_entries_within _ _ _ _); [|done].
      unfold fmap, Result_fmap. by rewrite app_nil_r.
    + rewrite positions_nil in Hpos by lia. by apply fmap_nil_inv in Hpos.
  - rewrite Hlocal. by destruct (effective_entries_within _ _ _ _).
Qed.

(** ** Evolution *)
(** The sessions that remain are branched as they were, each with its log extended. *)
Definition evolves (appended : SessionId → list StoredSessionEntry) inner inner' : Prop :=
  ∀ k record record', lookup_record inner k = Some record → lookup_record inner' k = Some record' →
    fork_of record' = fork_of record ∧
    lookup_entries inner' k = (.++ appended k) <$> lookup_entries inner k.
Lemma log_wf_entries inner k record :
  log_wf inner k record → ∃ es, lookup_entries inner k = Some es ∧
    (base_seq record <= head_seq record)%N ∧
    stored_seq <$> es = positions (base_seq record) (head_seq record).
Proof. done. Qed.

(** The entries appended come after the old head. *)
Lemma evolved_positions appended inner inner' k record record' :
  store_wf inner → store_wf inner' → evolves appended inner inner' →
  lookup_record inner k = Some record → lookup_record inner' k = Some record' →
  (head_seq record <= head_seq record')%N ∧
  stored_seq <$> appended k = positions (head_seq record) (head_seq record').
Proof.
  intros (_ & _ & Hlogs) (_ & _ & Hlogs') Hev Hr Hr'. destruct (Hev _ _ _ Hr Hr') as [Hf He].
  destruct (log_wf_entries _ _ _ (Hlogs _ _ Hr)) as (es & Hes & Hle & Hpos).
  destruct (log_wf_entries _ _ _ (Hlogs' _ _ Hr')) as (es' & Hes' & Hle' & Hpos').
  rewrite (fork_of_base _ _ Hf) in Hle', Hpos'. rewrite Hes, Hes' in He. simpl in He.
  injection He as ->. rewrite fmap_app, Hpos in Hpos'.
  assert (head_seq record <= head_seq record')%N as Hh.
  { apply (f_equal length) in Hpos'. rewrite length_app, !positions_length in Hpos'. lia. }
  split; [done|]. rewrite <- (positions_app (base_seq record) (head_seq record) (head_seq record')) in Hpos' by lia.
  by apply app_inv_head in Hpos'.
Qed.
Lemma evolved_local appended inner inner' k record record' after max :
  store_wf inner → store_wf inner' → evolves appended inner inner' →
  lookup_record inner k = Some record → lookup_record inner' k = Some record' →
  (max <= head_seq record)%N →
  local_entries_up_to inner' k after max = local_entries_up_to inner k after max.
Proof.
  intros Hwf Hwf' Hev Hr Hr' Hm.
  destruct (evolved_positions _ _ _ _ _ _ Hwf Hwf' Hev Hr Hr') as [_ Hnew].
  destruct (Hev _ _ _ Hr Hr') as [_ He]. unfold local_entries_up_to, lookup_entries in *.
  rewrite He. destruct (InMemorySessionStoreInner.entries inner !! k) as [es|]; [|done].
  simpl. unfold mret, Result_ret. f_equal. rewrite filter_app.
  rewrite (list_filter_none _ (appended k)), app_nil_r; [done|].
  apply Forall_forall. intros e Hin%(list_elem_of_fmap_2 stored_seq).
  rewrite Hnew, elem_of_positions in Hin. unfold stored_seq in Hin. lia.
Qed.
Lemma ordered_source records order k record source seq :
  ordered records order → k ∈ order → records !! k = Some record →
  fork_of record = Some (source, seq) →
  source ∈ order ∧ ∃ from, records !! source = Some from ∧ (seq <= head_seq from)%N.
Proof.
  intros Ho Hin Hr Hf. induction Ho as [|k0 r0 order Hr0 _ Hf0 Ho IH]; [set_solver|].
  apply elem_of_cons in Hin as [->|Hin].
  - rewrite Hr in Hr0. injection Hr0 as <-. destruct (Hf0 _ _ Hf) as [? ?]. set_solver.
  - destruct (IH Hin) as [? ?]. set_solver.
Qed.
Lemma fork_source inner k record source seq :
  store_wf inner → lookup_record inner k = Some record → fork_of record = Some (source, seq) →
  (∃ from, lookup_record inner source = Some from ∧ seq <= head_seq from ∧
     seq <= head_seq record)%N.
Proof.
  intros (_ & (order & Ho & Hall) & Hlogs) Hr Hf.
  destruct (ordered_source _ _ _ _ _ _ Ho (proj1 (Hall k) ltac:(by eexists)) Hr Hf)
    as (_ & from & Hfrom & Hle).
  exists from. split_and!; [done|done|]. destruct (Hlogs _ _ Hr) as (_ & _ & Hb & _).
  unfold base_seq in Hb. by rewrite Hf in Hb.
Qed.

Lemma NoDup_length_size (l : list SessionId) (m : gmap SessionId SessionRecord) :
  NoDup l → (∀ k, k ∈ l → is_Some (m !! k)) → (length l <= size m)%nat.
Proof.
  intros Hn Hl. rewrite <- (size_list_to_set (C:=gset SessionId) l Hn), <- size_dom.
  apply subseteq_size. intros k Hk%elem_of_list_to_set. by apply elem_of_dom, Hl.
Qed.
Lemma evolved_inherited appended inner inner' k record record' :
  store_wf inner → store_wf inner' → evolves appended inner inner' →
  lookup_record inner k = Some record → lookup_record inner' k = Some record' →
  inherited inner' record' = inherited inner record.
Proof.
  intros Hwf Hwf' Hev Hr Hr'. unfold inherited. destruct (Hev _ _ _ Hr Hr') as [-> _].
  destruct (fork_of record) as [[source seq]|] eqn:Hf; [|done].
  destruct (fork_source _ _ _ _ _ Hwf Hr Hf) as (from & Hfrom & Hseq & _).
  assert (is_Some (lookup_record inner' source)) as Hkept.
  { destruct (Hev _ _ _ Hr Hr') as [Hf' _]. rewrite Hf in Hf'.
    destruct (fork_source _ _ _ _ _ Hwf' Hr' Hf') as (from' & -> & _). by eexists. }
  pose proof Hwf as (_ & (order & Ho & Hall) & _).
  set (kept k := bool_decide (is_Some (lookup_record inner' k))).
  set (order' := filter (λ k, kept k = true) order).
  assert (∀ k, k ∈ order' ↔ is_Some (lookup_record inner k) ∧ is_Some (lookup_record inner' k))
    as Hin.
  { intros j. unfold order', kept. rewrite list_elem_of_filter, bool_decide_eq_true.
    unfold lookup_record. rewrite Hall. tauto. }
  assert (∀ j r source seq, kept j = true → lookup_record inner j = Some r →
    fork_of r = Some (source, seq) → kept source = true) as Hclosed.
  { intros j r src q [r' Hj']%bool_decide_eq_true Hj Hfj. apply bool_decide_eq_true.
    destruct (Hev _ _ _ Hj Hj') as [Hfj' _]. rewrite Hfj in Hfj'.
    destruct (fork_source _ _ _ _ _ Hwf' Hj' Hfj') as (? & -> & _). by eexists. }
  assert (ordered inner.(InMemorySessionStoreInner.records) order') as Ho'.
  { apply (ordered_keep inner.(InMemorySessionStoreInner.records)); [done| |exact Hclosed].
    intros j r _ Hj. exists r. split_and!; [done|done|lia]. }
  apply (effective_entries_frame inner inner' order' _ _ (λ j, kept j = true) source from seq);
    [done| | | |done|done| |].
  - intros j r Hj Hjr. apply bool_decide_eq_true in Hj as [r' Hjr']. split_and!.
    + exists r'. split; [done|]. by destruct (Hev _ _ _ Hjr Hjr').
    + intros after max. by eapply evolved_local.
    + intros src q Hfj. split; [|by destruct (fork_source _ _ _ _ _ Hwf Hjr Hfj) as (? & _ & _ & ?)].
      eapply Hclosed; [|done|done]. apply bool_decide_eq_true. by eexists.
  - by apply bool_decide_eq_true.
  - apply Hin. split; [by eexists|done].
  - apply (NoDup_length_size _ _ (branch_order_NoDup _ _ Ho')). intros j [? _]%Hin. done.
  - apply (NoDup_length_size _ _ (branch_order_NoDup _ _ Ho')). intros j [_ ?]%Hin. done.
Qed.

(** ** What each operation appends *)
Section operations.
Context `{!EventJson, !EventSerialize}.

Definition appended_by (op : StoreOperation) inner (k : SessionId) : list StoredSessionEntry :=
  match op with
  | StoreOperation.Append request =>
      if bool_decide (k = request.(AppendSessionEvents.session_id)) then
        match lookup_record inner k with
        | Some record => (commit_uncommitted_events record request.(AppendSessionEvents.events)).2
        | None => []
        end
      else []
  | _ => []
  end.

Lemma evolves_insert record es inner :
  lookup_record inner record.(SessionRecord.session_id) = None →
  evolves (λ _, []) inner (insert_session record es inner).
Proof.
  intros Hnew k r r' Hr Hr'. unfold lookup_record, lookup_entries in *. simpl in *.
  rewrite lookup_insert_ne in Hr' by congruence.
  rewrite lookup_insert_ne by congruence. split; [congruence|].
  destruct (InMemorySessionStoreInner.entries inner !! k); simpl; [by rewrite app_nil_r|done].
Qed.
Lemma app_nil_fmap {A} (o : option (list A)) : o = (.++ []) <$> o.
Proof. destruct o; simpl; [by rewrite app_nil_r|done]. Qed.
(** Operations that leave entries alone, or remove all of a session's. *)
Lemma evolves_records inner inner' :
  (∀ k r r', lookup_record inner k = Some r → lookup_record inner' k = Some r' →
     fork_of r' = fork_of r ∧ lookup_entries inner' k = lookup_entries inner k) →
  evolves (λ _, []) inner inner'.
Proof.
  intros Hk k r r' Hr Hr'. destruct (Hk _ _ _ Hr Hr') as [? ->].
  split; [done|apply app_nil_fmap].
Qed.
Lemma update_record_evolves k f inner :
  (∀ record, fork_of (f record) = fork_of record) →
  wp (update_record k f) (λ _, evolves (λ _, []) inner) inner.
Proof.
  intros Hf. unfold update_record. wp_steps. apply evolves_records. intros j r r' Hr Hr'.
  match goal with H : record_of _ _ = Ok _ |- _ => apply record_of_Ok in H as Hk end.
  split; [|done]. unfold lookup_record in *. simpl in Hr'.
  apply lookup_insert_Some in Hr' as [[<- <-]|[_ ?]]; [|congruence]. rewrite Hf. congruence.
Qed.
Lemma delete_evolves request inner :
  store_wf inner →
  wp (delete_closed_sessions request) (λ _, evolves (λ _, []) inner) inner.
Proof.
  intros Hwf. eapply wp_mono; [by apply delete_spec|]. intros deletion inner' (Hrec & Hent & Hs & _).
  apply evolves_records. intros k r r' Hr Hr'. rewrite Hrec in Hr'.
  destruct (bool_decide (k ∈ deletion.2)) eqn:Hk; simpl in Hr'; [done|].
  rewrite Hr in Hr'. injection Hr' as <-. specialize (Hs k r). specialize (Hent k).
  rewrite Hk in Hs, Hent. destruct (Hs eq_refl Hr) as [[_ ?] _]. split; [done|]. by apply Hent.
Qed.
Lemma append_evolves request inner :
  admissible (StoreOperation.Append request) inner →
  wp (append request)
    (λ _, evolves (appended_by (StoreOperation.Append request) inner) inner) inner.
Proof.
  intros Hadm. unfold append. do 2 wp_step.
  match goal with H : record_of _ _ = Ok _ |- _ => apply record_of_Ok in H as Hk end.
  do 4 wp_step. pose proof (commit_spec _ _ (Hadm _ Hk)) as Hc.
  destruct (commit_uncommitted_events _ _) as [record es] eqn:Hcommit.
  destruct Hc as ([_ Hf] & _ & _). cbv beta match. wp_steps. intros j r r' Hr Hr'.
  unfold lookup_record, lookup_entries in *. simpl in Hr'. simpl.
  apply lookup_insert_Some in Hr' as [[<- <-]|[Hne Hr']].
  - rewrite Hk in Hr. injection Hr as <-. split; [done|]. rewrite lookup_alter_eq.
    unfold lookup_record. rewrite bool_decide_eq_true_2 by done. by rewrite Hk, Hcommit.
  - split; [congruence|]. rewrite bool_decide_eq_false_2 by done. rewrite lookup_alter_ne by done.
    apply app_nil_fmap.
Qed.
Lemma perform_evolves op inner :
  admissible op inner → store_wf inner →
  wp (perform op) (λ _, evolves (appended_by op inner) inner) inner.
Proof.
  intros Hadm Hwf. destruct op; cbn [perform]; apply wp_discarding.
  - unfold create_session. wp_steps. apply evolves_insert.
    match goal with H : has_record _ _ = false |- _ => by apply has_record_false in H end.
  - unfold create_cloned_session. do 2 wp_step.
    match goal with H : branch_source _ _ _ = Ok _ |- _ => apply branch_source_Ok in H as [_ Hnew] end.
    do 2 wp_step. pose proof (commit_spec (cloned_record request)
      request.(CreateClonedSession.opening_events) Hadm) as Hc.
    destruct (commit_uncommitted_events _ _) as [record es]. destruct Hc as ([Hid _] & _ & _).
    cbv beta match. wp_steps. apply evolves_insert.
    exact (eq_trans (f_equal (lookup_record inner) Hid) Hnew).
  - unfold create_forked_session. do 3 wp_step. simplify_ok.
    match goal with H : branch_source _ _ _ = Ok _ |- _ => apply branch_source_Ok in H as [_ Hnew] end.
    wp_steps. apply evolves_insert. unfold forked_record. by destruct (lifecycle_at_fork _ _).
  - by apply append_evolves.
  - by apply update_record_evolves.
  - by apply update_record_evolves.
  - unfold set_session_retention. do 6 wp_step. apply update_record_evolves.
    intros record. unfold refresh_delete_at. by repeat case_match.
  - unfold advance_checkpoint. wp_steps; apply evolves_records; intros k r r' Hr Hr';
      (split; [|done]); unfold lookup_record in *; simpl in *; congruence.
  - unfold discard_unopened_session. do 4 wp_step. apply evolves_records.
    unfold lookup_record, lookup_entries.
    destruct (is_some_and _ _); intros k r r' Hr Hr'; [|split; [congruence|done]].
    simpl in *. apply lookup_delete_Some in Hr' as [Hne Hr'].
    split; [congruence|by apply lookup_delete_ne].
  - by apply delete_evolves.
Qed.

Lemma operation_extends_logs op inner inner' k record record' :
  store_wf inner → admissible op inner → perform op inner = (Ok tt, inner') →
  lookup_record inner k = Some record → lookup_record inner' k = Some record' →
  ∃ es, effective_entries inner k = Ok es ∧
    effective_entries inner' k = Ok (es ++ appended_by op inner k).
Proof.
  intros Hwf Hadm Hop Hr Hr'.
  pose proof (wp_ok_inv _ _ _ _ _ (perform_wf op inner Hadm Hwf) Hop) as Hwf'.
  pose proof (wp_ok_inv _ _ _ _ _ (perform_evolves op inner Hadm Hwf) Hop) as Hev.
  simpl in Hwf', Hev. destruct (effective_entries_gapless _ _ _ Hwf Hr) as (es & Hes & _).
  exists es. split; [done|]. destruct (Hev _ _ _ Hr Hr') as [_ He].
  pose proof Hwf as (_ & _ & Hlogs). destruct (log_wf_entries _ _ _ (Hlogs _ _ Hr)) as (own & Hown & _).
  rewrite Hown in He. simpl in He.
  rewrite (effective_entries_parts _ _ _ _ Hwf Hr Hown) in Hes.
  rewrite (effective_entries_parts _ _ _ _ Hwf' Hr' He).
  rewrite (evolved_inherited _ _ _ _ _ _ Hwf Hwf' Hev Hr Hr').
  destruct (inherited inner record); [|done]. unfold fmap, Result_fmap in *. injection Hes as <-.
  by rewrite app_assoc.
Qed.

(** C17. What a session reads only ever grows by what is appended to that very session: an
    operation that succeeds leaves the log of every session that it does not remove as it
    was, or, when it is an append to it, with the committed entries at its end. Appending to
    a session shows in none of its forks, appending to a fork not in its source, and the
    deletion of other sessions takes nothing a fork still reads. The operation is [admissible],
    as are those before it: it does not discard an unopened session that something was forked from
    - the store allows that, and it takes a fork its log
    ([ForkPoints.discarding_a_forked_session_orphans_the_fork]) - and positions do not run out. *)
Theorem only_appends_extend_logs op inner inner' k record record' :
  store_reachable inner → admissible op inner → perform op inner = (Ok tt, inner') →
  lookup_record inner k = Some record → lookup_record inner' k = Some record' →
  ∃ es, effective_entries inner k = Ok es ∧
    effective_entries inner' k = Ok (es ++ appended_by op inner k).
Proof. intros Hwf%store_reachable_wf. by apply operation_extends_logs. Qed.
End operations.

(** ** Witness *)
(** The fork still reads what it did when its source went on. *)
Lemma only_appends_extend_logs_witness :
  ∃ es, effective_entries (after_operations (take 3 forked_operations)) "fork" = Ok es ∧
    effective_entries forked_store "fork" = Ok (es ++ []).
Proof.
  apply (only_appends_extend_logs
    (example_append "root" (Some 1%N) [run_event 1 (RunEvent.Accepted (example_accepted 1))])
    (after_operations (take 3 forked_operations)) forked_store "fork"
    (example_record forked_store "fork") (example_record forked_store "fork")).
  - apply forked_prefix_reachable.
  - small_positions.
  - vm_compute. reflexivity.
  - vm_compute. reflexivity.
  - vm_compute. reflexivity.
Defined.
