(* ===== verification/ForkPoints.v ===== *)
(** * Fork points

    A session may be forked where no run of it was open. The latest such point is sought in
    the log or, without reading the log, in the reduced state; both look for the earliest
    run that is still open ([storage/session.rs]). *)
From S2P Require Import Prelude Ids Text Types Events Media Externals RunState Config Promises.
From S2P Require Import Contexts CodeTools Toolset Runs Replay Frames Example ReplayLaws Records.
From S2P Require Import Codec BlobRoots SessionStore StoreLaws.

(** ** What an entry says of a run *)
(** The run an event belongs to, and whether it ends it. *)
Definition run_mark (event : CoreAgentEvent) : option (RunId * bool) :=
  match event with
  | CoreAgentEvent.Run event => Some
      match event with
      | RunEvent.Accepted accepted => (accepted.(AcceptedRunEvent.run_id), false)
      | RunEvent.Started run_id | RunEvent.SteeringAccepted run_id _ _ _ _
      | RunEvent.CancellationRequested run_id _ => (run_id, false)
      | RunEvent.Completed run_id _ | RunEvent.Failed run_id _ | RunEvent.Cancelled run_id
      | RunEvent.ForceCancelled run_id | RunEvent.QueuedCancelled run_id _ => (run_id, true)
      end
  | _ => None
  end.
(** The joins of a run's events name the run. *)
Definition run_joined (entry : CoreAgentEntry) : Prop :=
  match run_mark entry.(CoreAgentEntry.event) with
  | Some (run_id, _) =>
      entry.(CoreAgentEntry.joins).(CoreAgentJoins.run_id) = Some run_id ∧ (run_id <= u64_max)%N
  | None => True
  end.

Lemma encode_joins_run_id joins :
  encode_joins joins !! "run_id" = u64_to_string <$> joins.(CoreAgentJoins.run_id).
Proof.
  unfold encode_joins, insert_join.
  destruct (CoreAgentJoins.submission_id joins), (CoreAgentJoins.tool_call_id joins),
    (CoreAgentJoins.tool_batch_id joins), (CoreAgentJoins.turn_id joins),
    (CoreAgentJoins.run_id joins); simpl; by simplify_map_eq.
Qed.

Section encoded.
Context `{!EventJson}.

Lemma encode_entry_Ok entry stored :
  encode_entry entry = Ok stored →
  stored.(StoredSessionEntry.position) = entry.(CoreAgentEntry.position) ∧
  stored.(StoredSessionEntry.joins) = encode_joins entry.(CoreAgentEntry.joins) ∧
  entry_kind stored = core_agent_event_envelope_kind entry.(CoreAgentEntry.event).
Proof. unfold encode_entry, encode_event. intros He. by simplify_ok. Qed.
Lemma run_boundary_encoded entry stored :
  encode_entry entry = Ok stored → run_joined entry →
  run_boundary stored = (λ mark, {| RunBoundary.run_id := mark.1; RunBoundary.terminal := mark.2 |})
                          <$> run_mark entry.(CoreAgentEntry.event).
Proof.
  intros (_ & Hj & Hk)%encode_entry_Ok Hjoined.
  unfold run_boundary, joined_run_id, is_terminal_run_entry. rewrite Hj, Hk, encode_joins_run_id.
  unfold run_joined in Hjoined. destruct (CoreAgentEntry.event entry) as [e|e|e|e|e|e|e|e|e|e|e|e].
  2: { destruct e; destruct Hjoined as [-> Hmax]; simpl;
       rewrite parse_u64_to_string by done; reflexivity. }
  all: destruct (CoreAgentJoins.run_id (CoreAgentEntry.joins entry)) as [id|]; [|reflexivity];
    simpl; destruct (parse_u64 _); [|reflexivity]; destruct e; reflexivity.
Qed.
End encoded.

(** ** The open runs of a state *)
Definition open_runs (s : CoreAgentState) : list (RunId * EventSeq) :=
  ((λ run, (run.(ActiveRun.run_id), run.(ActiveRun.first_seq)))
     <$> option_list s.(CoreAgentState.runs).(RunsState.active))
  ++ ((λ run, (run.(AcceptedRun.run_id), run.(AcceptedRun.first_seq)))
        <$> s.(CoreAgentState.runs).(RunsState.queued)).

(** What a run event does to them. *)
Definition run_effect (event : RunEvent) (seq : EventSeq) (s s' : CoreAgentState) : Prop :=
  match event with
  | RunEvent.Accepted accepted =>
      let run_id := accepted.(AcceptedRunEvent.run_id) in
      run_id = (last_run_id s + 1)%N ∧ last_run_id s' = run_id ∧
      ∀ run, run ∈ open_runs s' ↔ run ∈ open_runs s ∨ run = (run_id, seq)
  | RunEvent.Started run_id | RunEvent.SteeringAccepted run_id _ _ _ _
  | RunEvent.CancellationRequested run_id _ =>
      last_run_id s' = last_run_id s ∧ run_id ∈ (open_runs s).*1 ∧
      ∀ run, run ∈ open_runs s' ↔ run ∈ open_runs s
  | RunEvent.Completed run_id _ | RunEvent.Failed run_id _ | RunEvent.Cancelled run_id
  | RunEvent.ForceCancelled run_id | RunEvent.QueuedCancelled run_id _ =>
      last_run_id s' = last_run_id s ∧ run_id ∈ (open_runs s).*1 ∧
      ∀ run, run ∈ open_runs s' ↔ run ∈ open_runs s ∧ run.1 ≠ run_id
  end.

Section open.
Context `{!Externals}.
Implicit Types (s : CoreAgentState).

Lemma open_runs_ids s : ∃ ids, run_ids s = ids ++ (open_runs s).*1.
Proof.
  exists (RunRecord.run_id <$> s.(CoreAgentState.runs).(RunsState.finished)).
  unfold run_ids, runs_ids, open_runs. rewrite fmap_app, <- !list_fmap_compose. done.
Qed.
Lemma open_runs_NoDup s : ledger_wf s → NoDup (open_runs s).*1.
Proof.
  intros [[Hn _] _]. fold (run_ids s) in Hn. destruct (open_runs_ids s) as [ids Hids].
  rewrite Hids in Hn. by apply NoDup_app in Hn as (_ & _ & ?).
Qed.
Lemma open_run_id_bound s run : ledger_wf s → run ∈ open_runs s → (run.1 <= last_run_id s)%N.
Proof.
  intros [[_ [Hb _]] _] Hr. fold (run_ids s) in Hb. destruct (open_runs_ids s) as [ids Hids].
  destruct (Hb run.1); [|done]. rewrite Hids. apply elem_of_app. right. by apply list_elem_of_fmap_2.
Qed.

Lemma open_runs_prune s :
  open_runs (prune_finished_work s) = open_runs s ∧
  last_run_id (prune_finished_work s) = last_run_id s.
Proof.
  destruct (prune_finished_work_frame s) as (_ & Hc & _ & Hr & _).
  unfold open_runs, last_run_id. by rewrite Hr, Hc.
Qed.
Lemma open_runs_active s run :
  s.(CoreAgentState.runs).(RunsState.active) = Some run →
  open_runs s = (run.(ActiveRun.run_id), run.(ActiveRun.first_seq))
    :: ((λ run, (run.(AcceptedRun.run_id), run.(AcceptedRun.first_seq)))
          <$> s.(CoreAgentState.runs).(RunsState.queued)).
Proof. unfold open_runs. by intros ->. Qed.
(** Removing one of several runs with different ids. *)
Lemma without_run (runs rest : list (RunId * EventSeq)) run :
  NoDup runs.*1 → runs ≡ₚ run :: rest →
  ∀ x, x ∈ rest ↔ x ∈ runs ∧ x.1 ≠ run.1.
Proof.
  intros Hn Hp x. rewrite Hp in Hn. rewrite Hp. apply NoDup_cons in Hn as [Hn _].
  rewrite elem_of_cons. split.
  - intros Hx. split; [by right|]. intros Heq. apply Hn. rewrite <- Heq. by apply list_elem_of_fmap_2.
  - intros [[->|?] ?]; done.
Qed.
Lemma keeps_runs_open s s' : keeps_runs s s' → open_runs s' = open_runs s.
Proof.
  intros (Hq & _ & _ & Ha). unfold open_runs. rewrite Hq. f_equal.
  destruct (RunsState.active (CoreAgentState.runs s)), (RunsState.active (CoreAgentState.runs s'));
    simplify_eq/=; [|done]. unfold run_identity in Ha. congruence.
Qed.
(** The active run makes progress. *)
Lemma active_run_progress s s' run :
  s.(CoreAgentState.runs).(RunsState.active) = Some run → keeps_runs s s' →
  run.(ActiveRun.run_id) ∈ (open_runs s).*1 ∧ ∀ x, x ∈ open_runs s' ↔ x ∈ open_runs s.
Proof.
  intros Ha Hk. rewrite (keeps_runs_open _ _ Hk), (open_runs_active _ _ Ha). split; [set_solver|done].
Qed.
Lemma finish_effect run_id status output failure seq at_ms s :
  ledger_wf s →
  wp (finish_active_run run_id status output failure seq at_ms)
    (λ _ s', last_run_id s' = last_run_id s ∧ run_id ∈ (open_runs s).*1 ∧
       ∀ run, run ∈ open_runs s' ↔ run ∈ open_runs s ∧ run.1 ≠ run_id) s.
Proof.
  intros Hwf. pose proof (open_runs_NoDup s Hwf) as Hn. unfold finish_active_run. reduce_event.
  simplify_ok. match goal with H : active_run_ref _ _ = Ok _ |- _ =>
    apply active_run_ref_Ok in H as [Ha <-] end.
  pose proof (open_runs_active s _ Ha) as Ho.
  match goal with |- context [prune_finished_work ?s1] =>
    destruct (open_runs_prune s1) as [-> ->] end.
  split; [done|]. rewrite Ho in *. split; [set_solver|].
  exact (without_run _ _ _ Hn ltac:(reflexivity)).
Qed.
Lemma apply_run_event_effect e seq at_ms s :
  ledger_wf s → wp (apply_run_event e seq at_ms) (λ _ s', run_effect e seq s s') s.
Proof.
  intros Hwf. destruct e; cbn [apply_run_event run_effect];
    try (wp_steps; by apply finish_effect).
  - reduce_event. simplify_ok.
    match goal with H : next_u64 _ = Some _ |- _ => apply next_u64_Some in H as Hid end.
    split; [exact Hid|]. split; [done|]. intros run. unfold open_runs. simpl.
    rewrite fmap_app, app_assoc, elem_of_app. simpl. by rewrite list_elem_of_singleton.
  - reduce_event. simplify_ok.
    match goal with H : hd_error _ = Some _ |- _ => apply head_Some in H as [q Hq] end.
    split; [done|]. unfold open_runs. simpl. rewrite Hq.
    match goal with H : RunsState.active _ = None |- _ => rewrite H end.
    split; [simpl; set_solver|]. intros run.
    assert (tail s.(CoreAgentState.runs).(RunsState.queued) = q) as Ht by by rewrite Hq.
    by replace (tail _) with q by (symmetry; exact Ht).
  - reduce_event. simplify_ok. match goal with H : active_run_ref _ _ = Ok _ |- _ =>
      apply active_run_ref_Ok in H as [Ha <-] end.
    split; [done|]. apply (active_run_progress s _ _ Ha).
    by apply (keeps_runs_set_active s _ _ Ha).
  - reduce_event. simplify_ok. match goal with H : active_run_ref _ _ = Ok _ |- _ =>
      apply active_run_ref_Ok in H as [Ha <-] end.
    split; [done|]. apply (active_run_progress s _ _ Ha).
    by apply (keeps_runs_set_active s _ _ Ha).
  - reduce_event. simplify_ok.
    match goal with H : list_find _ _ = Some _ |- _ => apply list_find_perm in H as Hp;
      apply list_find_Some in H as (_ & <- & _) end.
    split; [done|]. set (f := λ run, (AcceptedRun.run_id run, AcceptedRun.first_seq run)).
    match goal with |- context [open_runs (set_runs ?g s)] => set (s' := set_runs g s) end.
    assert (open_runs s ≡ₚ f a0 :: open_runs s') as Ho.
    { apply (fmap_Permutation f) in Hp. unfold open_runs. fold f. rewrite <- Hp.
      rewrite fmap_cons. symmetry. apply Permutation_middle. }
    split; [rewrite Ho; set_solver|]. apply (without_run _ _ (f a0)); [|done].
    by apply open_runs_NoDup.
Qed.

Definition open_as (s0 s : CoreAgentState) : Prop :=
  open_runs s = open_runs s0 ∧ last_run_id s = last_run_id s0.
Lemma open_as_stable s0 : stable [Part.run_records; Part.run_cursor] (open_as s0).
Proof.
  intros s s' Hk [Ho Hl]. pose proof (keeps_lookup _ Part.run_records _ _ Hk eq_refl) as Hr.
  pose proof (keeps_lookup _ Part.run_cursor _ _ Hk eq_refl) as Hc.
  split; [by rewrite (keeps_runs_open _ _ Hr)|]. unfold last_run_id in *. simpl in Hc. congruence.
Qed.
Definition event_effect (entry : CoreAgentEntry) s s' : Prop :=
  match entry.(CoreAgentEntry.event) with
  | CoreAgentEvent.Run event => run_effect event (entry_seq entry) s s'
  | _ => open_as s s'
  end.
Lemma apply_event_kind_effect entry s :
  ledger_wf s → wp (apply_event_kind entry) (λ _ s', event_effect entry s s') s.
Proof.
  intros Hwf. assert (open_as s s) as Hs by done. unfold event_effect.
  frame_reducers (open_as_stable s) Hs. by apply apply_run_event_effect.
Qed.
Definition position_of s : N :=
  match s.(CoreAgentState.reduced_to) with Some p => p.(SessionPosition.seq) | None => 0%N end.
Lemma apply_event_effect entry s s' :
  ledger_wf s → apply_event entry s = (Ok tt, s') →
  event_effect entry s s' ∧ (position_of s < entry_seq entry)%N ∧ position_of s' = entry_seq entry.
Proof.
  intros Hwf Hs. destruct (wp_ok_inv _ _ _ _ _ (apply_event_position entry s) Hs) as [He Hp].
  split.
  - destruct (apply_event_Ok _ _ _ Hs) as (s1 & Hk & ->).
    pose proof (wp_ok_inv _ _ _ _ _ (apply_event_kind_effect entry s Hwf) Hk) as Heff.
    unfold event_effect in *. by destruct (CoreAgentEntry.event entry) as [|[]| | | | | | | | | |].
  - apply expected_seq_Ok in He as [Hf Hn]. unfold position_of. rewrite Hp. split; [|done].
    destruct (CoreAgentState.reduced_to s) as [p|]; simpl in Hf.
    + rewrite (Hn p eq_refl). lia.
    + rewrite Hf. lia.
Qed.

(** ** The ranges of a log *)
(** The ranges without an end are those of the open runs, and begin where these were
    accepted. *)
Definition tracks (ranges : gmap N RunRange) s : Prop :=
  (∀ id range, ranges !! id = Some range →
     id <= last_run_id s ∧ range.(RunRange.first_seq) <= position_of s)%N ∧
  (∀ run, run ∈ open_runs s ↔ ∃ range, ranges !! run.1 = Some range ∧
     range.(RunRange.first_seq) = run.2 ∧ range.(RunRange.terminal_seq) = None).

(** A run event marks the range of its run. *)
Lemma mark_tracks ranges s s' run_id terminal seq first :
  tracks ranges s → NoDup (open_runs s).*1 →
  (last_run_id s <= last_run_id s')%N → (run_id <= last_run_id s')%N →
  (position_of s < seq)%N → position_of s' = seq →
  first = default seq (RunRange.first_seq <$> ranges !! run_id) →
  (∀ range, ranges !! run_id = Some range → range.(RunRange.terminal_seq) = None) →
  (∀ run, run ∈ open_runs s' ↔
     run ∈ open_runs s ∧ run.1 ≠ run_id ∨ terminal = false ∧ run = (run_id, first)) →
  tracks (mark_range ranges {| RunBoundary.run_id := run_id; RunBoundary.terminal := terminal |} seq)
    s'.
Proof.
  intros [Hb Ho] Hn Hl Hid Hlt Hpos Hfirst Hopen Hs'.
  assert (first <= seq)%N as Hle.
  { rewrite Hfirst. destruct (ranges !! run_id) eqn:Hr; simpl; [|lia].
    destruct (Hb _ _ Hr). lia. }
  set (range' := {| RunRange.run_id := RunRange.run_id
      (default {| RunRange.run_id := run_id; RunRange.first_seq := seq;
                  RunRange.terminal_seq := None |} (ranges !! run_id));
    RunRange.first_seq := first; RunRange.terminal_seq := if terminal then Some seq else None |}).
  assert (mark_range ranges {| RunBoundary.run_id := run_id; RunBoundary.terminal := terminal |} seq
    = <[run_id := range']> ranges) as ->.
  { unfold mark_range, range'. simpl. do 2 f_equal.
    - rewrite Hfirst. destruct (ranges !! run_id) eqn:Hr; simpl; [|lia].
      destruct (Hb _ _ Hr). lia.
    - destruct (ranges !! run_id) eqn:Hr; simpl; [|done]. by rewrite (Hopen _ eq_refl). }
  split.
  - intros id range [[<- <-]|[_ Hr]]%lookup_insert_Some; [simpl; lia|].
    destruct (Hb _ _ Hr). lia.
  - intros [id fs]. rewrite Hs'. simpl. destruct (decide (id = run_id)) as [->|Hne].
    + rewrite lookup_insert_eq. split.
      * intros [[_ []]|[-> [= ->]]]; [done|]. eexists. by split_and!.
      * intros (range & [= <-] & <- & Ht). right. by destruct terminal.
    + rewrite lookup_insert_ne by done. rewrite (Ho (id, fs)). simpl. split.
      * by intros [[? _]|[_ [= -> _]]].
      * intros ?. by left.
Qed.
Lemma open_run_range ranges s run_id :
  tracks ranges s → run_id ∈ (open_runs s).*1 →
  ∃ range, ranges !! run_id = Some range ∧ range.(RunRange.terminal_seq) = None ∧
    (run_id, range.(RunRange.first_seq)) ∈ open_runs s.
Proof.
  intros [_ Ho] ([id fs] & -> & Hin)%list_elem_of_fmap.
  destruct (proj1 (Ho _) Hin) as (range & Hr & Hf & Ht). simpl in *. subst fs. eauto.
Qed.
Lemma NoDup_fst_eq {A B} (l : list (A * B)) a b b' :
  NoDup l.*1 → (a, b) ∈ l → (a, b') ∈ l → b = b'.
Proof.
  intros Hn [i Hi]%list_elem_of_lookup [j Hj]%list_elem_of_lookup.
  assert (i = j) as ->; [|congruence].
  apply (NoDup_lookup _ i j a Hn); rewrite list_lookup_fmap; [by rewrite Hi|by rewrite Hj].
Qed.

Lemma run_event_tracks ranges e s s' seq run_id terminal :
  ledger_wf s → tracks ranges s → run_effect e seq s s' →
  run_mark (CoreAgentEvent.Run e) = Some (run_id, terminal) →
  (position_of s < seq)%N → position_of s' = seq →
  tracks (mark_range ranges {| RunBoundary.run_id := run_id; RunBoundary.terminal := terminal |} seq)
    s'.
Proof.
  intros Hwf Ht Heff Hm Hlt Hpos. pose proof (open_runs_NoDup s Hwf) as Hn.
  destruct terminal eqn:Hterm.
  - assert (last_run_id s' = last_run_id s ∧ run_id ∈ (open_runs s).*1 ∧
      ∀ run, run ∈ open_runs s' ↔ run ∈ open_runs s ∧ run.1 ≠ run_id) as (Hl & Hin & Ho).
    { destruct e; injection Hm as <-; try done; exact Heff. }
    destruct (open_run_range _ _ _ Ht Hin) as (range & Hr & Hterminal & Hopen).
    apply open_run_id_bound in Hopen as Hb; [|done].
    eapply mark_tracks; [done|done|lia|simpl in Hb; lia|done|done|reflexivity| |].
    + intros range' Hr'. congruence.
    + intros run. rewrite Ho. naive_solver.
  - assert ((∃ accepted, e = RunEvent.Accepted accepted) ∨
      last_run_id s' = last_run_id s ∧ run_id ∈ (open_runs s).*1 ∧
      ∀ run, run ∈ open_runs s' ↔ run ∈ open_runs s) as [[accepted ->]|(Hl & Hin & Ho)].
    { destruct e; injection Hm as <-; try done; [left; eauto|right; exact Heff..]. }
    + injection Hm as <-. destruct Heff as (Hid & Hl & Ho).
      assert (ranges !! accepted.(AcceptedRunEvent.run_id) = None) as Hnone.
      { apply eq_None_not_Some. intros [range Hr]. apply Ht in Hr as [? _]. lia. }
      eapply mark_tracks; [done|done|lia|lia|done|done|reflexivity|congruence|].
      intros run. rewrite Hnone, Ho. simpl. split; [|naive_solver].
      intros [Hin|?]; [|by right]. left. split; [done|].
      apply open_run_id_bound in Hin; [lia|done].
    + destruct (open_run_range _ _ _ Ht Hin) as (range & Hr & Hterminal & Hopen).
      apply open_run_id_bound in Hopen as Hb; [|done].
      eapply mark_tracks; [done|done|lia|simpl in Hb; lia|done|done|reflexivity|congruence|].
      intros run. rewrite Hr, Ho. simpl. split.
      * intros Hrun. destruct (decide (run.1 = run_id)) as [Heq|?]; [|by left]. right.
        split; [done|]. destruct run as [id fs]. simpl in Heq. subst id.
        by rewrite (NoDup_fst_eq _ _ _ _ Hn Hrun Hopen).
      * by intros [[? _]|[_ ->]].
Qed.
Lemma extend_range_tracks `{!EventJson} ranges entry stored s s' :
  ledger_wf s → tracks ranges s → apply_event entry s = (Ok tt, s') →
  encode_entry entry = Ok stored → run_joined entry → tracks (extend_range ranges stored) s'.
Proof.
  intros Hwf Ht Hs Henc Hj. destruct (apply_event_effect _ _ _ Hwf Hs) as (Heff & Hlt & Hpos).
  destruct (encode_entry_Ok _ _ Henc) as (Hp & _ & _).
  assert (stored_seq stored = entry_seq entry) as Hseq by (unfold stored_seq, entry_seq; by rewrite Hp).
  unfold extend_range. rewrite (run_boundary_encoded _ _ Henc Hj), Hseq.
  unfold event_effect in Heff.
  destruct (CoreAgentEntry.event entry) as [e|e|e|e|e|e|e|e|e|e|e|e];
    try (destruct Ht as [Hb Ho], Heff as [Ho' Hl']; split;
         [intros id range Hr; rewrite Hl', Hpos; destruct (Hb _ _ Hr); split; [done|lia]
         |intros run; rewrite Ho'; apply Ho]).
  destruct (run_mark (CoreAgentEvent.Run e)) as [[id terminal]|] eqn:Hm; [|done].
  by eapply run_event_tracks.
Qed.

Lemma log_tracks `{!EventJson} entries stored ranges s s' :
  ledger_wf s → tracks ranges s → reduce_log entries s = (Ok tt, s') →
  mapM encode_entry entries = Ok stored → Forall run_joined entries →
  tracks (foldl extend_range ranges stored) s'.
Proof.
  revert stored ranges s. induction entries as [|entry entries IH];
    intros stored ranges s Hwf Ht Hr Henc Hj.
  { cbn [mapM] in Henc. simplify_ok. by injection Hr as <-. }
  apply reduce_log_cons in Hr as (s1 & He & Hr). apply Forall_cons in Hj as [Hj1 Hj].
  cbn [mapM] in Henc. simplify_ok.
  match goal with H1 : encode_entry entry = Ok ?x, H2 : mapM _ _ = Ok ?l |- _ =>
    apply (IH l (extend_range ranges x) s1); [|by eapply extend_range_tracks|done|done|done] end.
  exact (wp_ok_inv _ _ _ _ _ (apply_event_ledger entry s Hwf) He).
Qed.

(** ** Least positions *)
Lemma minimum_Some l x : minimum l = Some x ↔ x ∈ l ∧ ∀ y, y ∈ l → (x <= y)%N.
Proof.
  assert (∀ l z, foldr N.min z l ∈ z :: l ∧ ∀ y, y ∈ z :: l → foldr N.min z l <= y)%N as Hf.
  { clear. intros l z. induction l as [|a l [Hin Hle]]; simpl.
    - split; [set_solver|]. intros y ->%list_elem_of_singleton. lia.
    - split.
      + destruct (N.min_spec a (foldr N.min z l)) as [[_ ->]|[_ ->]]; set_solver.
      + intros y Hy. assert (y = a ∨ y ∈ z :: l) as [->|Hy'%Hle] by set_solver; lia. }
  destruct l as [|z l]; simpl; [split; [done|set_solver]|]. destruct (Hf l z) as [Hin Hle]. split.
  - by intros [= <-].
  - intros [Hx Hall]. f_equal. apply N.le_antisymm; [by apply Hle|by apply Hall].
Qed.
Lemma minimum_ext l l' : (∀ x, x ∈ l ↔ x ∈ l') → minimum l = minimum l'.
Proof.
  intros He. apply option_eq. intros x. rewrite !minimum_Some. setoid_rewrite He. done.
Qed.

(** The latest fork point found from the reduced state is the one found in the log: in
    every session, the run ranges without an end are those of the queued and the active
    runs, beginning where each was accepted, so that a host which only loads the state
    forks where one that reads the whole log would. *)
Theorem fork_point_from_state_agrees `{!EventJson} entries stored s :
  reduce_log entries new_state = (Ok tt, s) → mapM encode_entry entries = Ok stored →
  Forall run_joined entries →
  largest_safe_fork_seq stored (position_of s) = largest_safe_fork_seq_from_state s.
Proof.
  intros Hr Henc Hj. assert (reachable s) as Hs by by exists entries.
  assert (tracks (core_run_ranges stored) s) as [_ Ho].
  { eapply log_tracks; [|  |done|done|done].
    - apply reachable_ledger. by exists [].
    - split; [done|]. intros run. split; [by intros ?%elem_of_nil|by intros (? & ? & _)]. }
  unfold largest_safe_fork_seq, largest_safe_fork_seq_from_state.
  fold (position_of s). f_equal. apply minimum_ext. intros seq.
  assert (option_list (ActiveRun.first_seq <$> s.(CoreAgentState.runs).(RunsState.active))
    ++ (AcceptedRun.first_seq <$> s.(CoreAgentState.runs).(RunsState.queued))
    = (open_runs s).*2) as ->.
  { unfold open_runs. rewrite fmap_app, <- !list_fmap_compose.
    by destruct (RunsState.active (CoreAgentState.runs s)). }
  rewrite !list_elem_of_fmap. split.
  - intros (range & -> & [Ht (id & Hid)%elem_of_btree_values]%list_elem_of_filter).
    exists (id, range.(RunRange.first_seq)). split; [done|]. apply Ho. eauto.
  - intros ([id fs] & -> & (range & Hid & Hf & Ht)%Ho). exists range. split; [done|].
    apply list_elem_of_filter. split; [done|]. apply elem_of_btree_values. eauto.
Qed.
End open.

(** ** What a fork point is checked against *)
Lemma validate_fork_point_Ok session_id seq entries head :
  validate_fork_point session_id seq entries head = Ok tt ↔
  (seq <= head)%N ∧
  ∀ id range, core_run_ranges entries !! id = Some range → inside_range seq head range = false.
Proof.
  unfold validate_fork_point. rewrite bind_Ok. split.
  - intros ([] & Hle & Hall). simplify_ok. apply for_each_Ok in Hall.
    rewrite Forall_forall in Hall. split; [done|]. intros id range Hr.
    apply reject_if_Ok with (e := SessionStoreError.InvalidForkPoint session_id seq
      "seq is inside non-terminal run {} ({}..{})") (u := tt).
    apply Hall, elem_of_btree_values. eauto.
  - intros [Hle Hall]. exists tt. split; [apply reject_if_Ok, N.ltb_ge; done|].
    apply for_each_Ok, Forall_forall. intros range (id & Hr)%elem_of_btree_values.
    apply reject_if_Ok. by eapply Hall.
Qed.
Lemma open_range_bound entries head seq :
  (head < u64_max)%N → (largest_safe_fork_seq entries head < seq <= head)%N →
  ∃ id range, core_run_ranges entries !! id = Some range ∧ inside_range seq head range = true.
Proof.
  unfold largest_safe_fork_seq, before_earliest. intros Hmax Hseq.
  destruct (minimum _) as [first|] eqn:Hm; [|lia].
  apply minimum_Some in Hm as [Hin _]. apply list_elem_of_fmap in Hin as (range & -> & Hin).
  apply list_elem_of_filter in Hin as [Ht (id & Hid)%elem_of_btree_values].
  exists id, range. split; [done|]. unfold inside_range. rewrite Ht. simpl.
  unfold saturating_add_u64. apply andb_true_iff. rewrite N.leb_le, N.ltb_lt. lia.
Qed.

Lemma ranges_within entries head id range :
  Forall (λ e, 1 <= stored_seq e <= head)%N entries →
  core_run_ranges entries !! id = Some range → (1 <= range.(RunRange.first_seq) <= head)%N.
Proof.
  intros He. unfold core_run_ranges. revert id range.
  cut (∀ ranges, (∀ id range, ranges !! id = Some range →
    1 <= range.(RunRange.first_seq) <= head)%N → ∀ id range,
    foldl extend_range ranges entries !! id = Some range →
    (1 <= range.(RunRange.first_seq) <= head)%N); [intros Hcut; by apply Hcut|].
  induction He as [|e entries He _ IH]; intros ranges Hr; simpl; [done|]. apply IH.
  unfold extend_range, mark_range. destruct (run_boundary e) as [boundary|]; [|done].
  intros id range [[_ <-]|[_ Hid]]%lookup_insert_Some; [|by eapply Hr]. simpl.
  destruct (ranges !! _) as [range'|] eqn:Hr'; simpl; [|lia]. apply Hr in Hr'. lia.
Qed.
Lemma open_range_later entries head id range :
  Forall (λ e, 1 <= stored_seq e <= head)%N entries →
  core_run_ranges entries !! id = Some range → range.(RunRange.terminal_seq) = None →
  (largest_safe_fork_seq entries head < range.(RunRange.first_seq))%N.
Proof.
  intros He Hr Ht. assert (range.(RunRange.first_seq) ∈ RunRange.first_seq <$>
    filter (λ range, range.(RunRange.terminal_seq) = None)
      (btree_values (core_run_ranges entries))) as Hin.
  { apply list_elem_of_fmap_2, list_elem_of_filter. split; [done|]. apply elem_of_btree_values. eauto. }
  unfold largest_safe_fork_seq, before_earliest. destruct (minimum _) as [first|] eqn:Hm.
  - apply minimum_Some in Hm as [Hfirst Hall]. apply Hall in Hin.
    apply list_elem_of_fmap in Hfirst as (range' & -> & Hr').
    apply list_elem_of_filter in Hr' as [_ (id' & Hid')%elem_of_btree_values].
    apply (ranges_within _ _ _ _ He) in Hid'. lia.
  - destruct (RunRange.first_seq <$> _); [set_solver|done].
Qed.
Lemma largest_safe_fork_seq_le entries head :
  Forall (λ e, 1 <= stored_seq e <= head)%N entries →
  (largest_safe_fork_seq entries head <= head)%N.
Proof.
  intros He. unfold largest_safe_fork_seq, before_earliest.
  destruct (minimum _) as [first|] eqn:Hm; [|lia].
  apply minimum_Some in Hm as [Hin _]. apply list_elem_of_fmap in Hin as (range & -> & Hin).
  apply list_elem_of_filter in Hin as [_ (id & Hid)%elem_of_btree_values].
  apply (ranges_within _ _ _ _ He) in Hid. lia.
Qed.

(** C32. No fork point after the one computed from a log is ever accepted: it would lie inside
    a run that is still open, or beyond the head. The computed point itself is accepted
    exactly when no run that has ended since was open at it. *)
Theorem computed_fork_point_is_last session_id entries head :
  (head < u64_max)%N → Forall (λ e, 1 <= stored_seq e <= head)%N entries →
  (∀ seq, validate_fork_point session_id seq entries head = Ok tt →
     seq <= largest_safe_fork_seq entries head)%N ∧
  (validate_fork_point session_id (largest_safe_fork_seq entries head) entries head = Ok tt ↔
   ∀ id range terminal_seq, core_run_ranges entries !! id = Some range →
     range.(RunRange.terminal_seq) = Some terminal_seq →
     ¬ (range.(RunRange.first_seq) <= largest_safe_fork_seq entries head < terminal_seq)%N).
Proof.
  intros Hmax He. split.
  - intros seq [Hle Hall]%validate_fork_point_Ok. apply N.nlt_ge. intros Hlt.
    destruct (open_range_bound entries head seq Hmax ltac:(lia)) as (id & range & Hr & Hin).
    rewrite (Hall _ _ Hr) in Hin. done.
  - rewrite validate_fork_point_Ok. split.
    + intros [_ Hall] id range t Hr Ht Hin. specialize (Hall _ _ Hr). unfold inside_range in Hall.
      rewrite Ht in Hall. simpl in Hall. apply andb_false_iff in Hall.
      rewrite N.leb_gt, N.ltb_ge in Hall. lia.
    + intros Hno. split; [by apply largest_safe_fork_seq_le|]. intros id range Hr.
      unfold inside_range. apply not_true_iff_false. rewrite andb_true_iff, N.leb_le, N.ltb_lt.
      intros [Hf Hend]. destruct (RunRange.terminal_seq range) as [t|] eqn:Ht; [by eapply Hno|].
      pose proof (open_range_later _ _ _ _ He Hr Ht). lia.
Qed.

(** ** Examples and witnesses *)
(** A run is accepted while another is at work, which then ends. *)
Definition overlapping_events : list UncommittedStoredEvent :=
  [opened_event; run_event 1 (RunEvent.Accepted (example_accepted 1));
   run_event 1 (RunEvent.Started 1); run_event 2 (RunEvent.Accepted (example_accepted 2));
   run_event 1 (RunEvent.Completed 1 None)].
Definition overlapping_store : InMemorySessionStoreInner :=
  after_operations [StoreOperation.Create (example_create "root");
                    example_append "root" None overlapping_events].
(** The point the store calls safe is one at which it then refuses to fork: the first run was
    open there, though it is not any more. *)
Lemma safe_fork_point_is_refused :
  (safe_fork_seq "root" overlapping_store).1 = Ok 3%N ∧
  is_err (perform (example_fork "root" "fork" 3) overlapping_store).1 = true ∧
  is_ok (perform (example_fork "root" "fork" 1) overlapping_store).1 = true.
Proof. split_and!; vm_compute; reflexivity. Qed.
(** An unopened session may be forked at its beginning and then discarded; its fork can no
    longer be read. *)
Definition orphaned_store : InMemorySessionStoreInner :=
  after_operations [StoreOperation.Create (example_create "root"); example_fork "root" "fork" 0;
                    example_append "fork" None [opened_event];
                    StoreOperation.Discard "root"].
Lemma discarding_a_forked_session_orphans_the_fork :
  has_record orphaned_store "root" = false ∧ has_record orphaned_store "fork" = true ∧
  is_err (effective_entries orphaned_store "fork") = true.
Proof. split_and!; vm_compute; reflexivity. Qed.

Definition stored_log (entries : list CoreAgentEntry) : list StoredSessionEntry :=
  match mapM encode_entry entries with Ok stored => stored | Err _ => [] end.
Definition joined_log : list CoreAgentEntry :=
  committed_entries None 1000
    [{| CoreAgentEventProposal.joins := default_of;
        CoreAgentEventProposal.event :=
          CoreAgentEvent.Lifecycle (CoreAgentLifecycleEvent.Opened example_config) |};
     {| CoreAgentEventProposal.joins := joins_of_run 1;
        CoreAgentEventProposal.event := CoreAgentEvent.Run (RunEvent.Accepted (example_accepted 1)) |};
     {| CoreAgentEventProposal.joins := joins_of_run 1;
        CoreAgentEventProposal.event := CoreAgentEvent.Run (RunEvent.Started 1) |}].
Lemma fork_point_from_state_agrees_witness :
  largest_safe_fork_seq (stored_log joined_log) 3
    = largest_safe_fork_seq_from_state (state_after joined_log).
Proof.
  apply (fork_point_from_state_agrees joined_log (stored_log joined_log) (state_after joined_log)).
  - vm_compute. reflexivity.
  - vm_compute. reflexivity.
  - repeat constructor; vm_compute; discriminate.
Defined.
Lemma computed_fork_point_is_last_witness :
  validate_fork_point "root" 1 (stored_log joined_log) 3 = Ok tt ∧
  (1 <= largest_safe_fork_seq (stored_log joined_log) 3)%N.
Proof.
  split; [vm_compute; reflexivity|].
  apply (computed_fork_point_is_last "root" (stored_log joined_log) 3).
  - vm_compute. reflexivity.
  - apply (bool_decide_eq_true_1 _). vm_compute. reflexivity.
  - vm_compute. reflexivity.
Defined.
