(* ===== verification/DriveLaws.v ===== *)
(** * Laws of the drive

    What a drive appends is what it goes on with: the store commits it or refuses it as a
    whole, the committed entries replay, and the log still replays to the state of the drive
    ([core/drive.rs], [storage/session.rs]). A drive with a step limit stops. *)
From S2P Require Import Prelude Ids Text Types Events Commands Media Externals RunState Promises.
From S2P Require Import Approvals Replay Requests Completions Results Admit Frames Example.
From S2P Require Import ReplayLaws Codec BlobRoots SessionStore Drive StoreLaws StoreLogs.
From S2P Require Import StoreHistory.

(** ** Appending to the store *)
Section append.
Context `{!Externals, !EventJson, !EventSerialize}.
Implicit Types (s : CoreAgentState) (d : CoreAgentDrive) (inner : InMemorySessionStoreInner).

Lemma decode_stored_entry position event joins decoded :
  decode_joins event.(UncommittedStoredEvent.joins) = Ok joins →
  decode_event event.(UncommittedStoredEvent.event) = Ok decoded →
  decode_entry (stored_entry position event) = Ok
    {| CoreAgentEntry.position := position;
       CoreAgentEntry.observed_at_ms := event.(UncommittedStoredEvent.observed_at_ms);
       CoreAgentEntry.joins := joins; CoreAgentEntry.event := decoded |}.
Proof. unfold decode_entry, stored_entry. simpl. by intros -> ->. Qed.

(** *** Stored events and what they decode to *)
Definition decodes_as (at_ms : N) (event : UncommittedStoredEvent) (p : CoreAgentEventProposal)
    : Prop :=
  event.(UncommittedStoredEvent.observed_at_ms) = at_ms ∧
  decode_joins event.(UncommittedStoredEvent.joins) = Ok p.(CoreAgentEventProposal.joins) ∧
  decode_event event.(UncommittedStoredEvent.event) = Ok p.(CoreAgentEventProposal.event).
(** The dry run of stored events succeeds where the proposals they decode to are reduced. *)
Lemma dry_run_reduces at_ms events ps s :
  Forall2 (decodes_as at_ms) events ps →
  dry_run_stored s events = Ok tt ↔ ∃ s', reduce_proposals at_ms ps s = (Ok tt, s').
Proof.
  intros Hs. revert s. induction Hs as [|event p events ps (Ha & Hj & He) Hs IH]; intros s.
  { split; [by eexists|done]. }
  cbn [dry_run_stored]. unfold dry_run_entry. rewrite Ha, Hj, He.
  cbn [from_codec map_err mbind Result_bind mret Result_ret].
  setoid_rewrite reduce_proposals_cons. fold (committed_entry (following_seq s.(CoreAgentState.reduced_to)) at_ms p).
  destruct (apply_event _ s) as [[[]|error] s1]; [rewrite IH|]; naive_solver.
Qed.
(** What the store commits decodes to the entries of the proposals. *)
Lemma commit_decoded at_ms events ps record :
  Forall2 (decodes_as at_ms) events ps →
  mapM decode_entry (commit_uncommitted_events record events).2
  = Ok (committed_entries record.(SessionRecord.head) at_ms ps).
Proof.
  intros Hs. revert record. induction Hs as [|event p events ps (Ha & Hj & He) Hs IH]; intros record;
    [done|]. cbn [commit_uncommitted_events committed_entries].
  match goal with |- context [commit_uncommitted_events ?r events] => set (record1 := r) end.
  specialize (IH record1). destruct (commit_uncommitted_events record1 events) as [record' committed].
  cbn [snd mapM] in *. erewrite decode_stored_entry by eassumption. rewrite IH, Ha. done.
Qed.

(** The events of a dry run that succeeded are committed at the positions it gave them, and
    replay in the state it reached. *)
Lemma dry_run_commits events s record :
  dry_run_stored s events = Ok tt →
  record.(SessionRecord.head) = s.(CoreAgentState.reduced_to) →
  let '(record', committed) := commit_uncommitted_events record events in
  ∃ decoded s', mapM decode_entry committed = Ok decoded ∧
    reduce_log decoded s = (Ok tt, s') ∧
    record'.(SessionRecord.head) = s'.(CoreAgentState.reduced_to).
Proof.
  revert s record. induction events as [|event events IH]; intros s record Hd Hh; simpl.
  { by exists [], s. }
  cbn [dry_run_stored] in Hd. unfold dry_run_entry, from_codec in Hd. simplify_ok.
  match type of Hd with match ?r with _ => _ end = _ => destruct r as [[[]|] s1] eqn:He; [|done] end.
  match goal with |- context [commit_uncommitted_events ?r events] => set (record1 := r) end.
  destruct (wp_ok_inv _ _ _ _ _ (apply_event_position _ s) He) as [_ Hred].
  assert (record1.(SessionRecord.head) = s1.(CoreAgentState.reduced_to)) as Hh1.
  { rewrite Hred. change (Some (following_position record.(SessionRecord.head))
      = Some {| SessionPosition.seq := following_seq s.(CoreAgentState.reduced_to) |}). by rewrite Hh. }
  specialize (IH s1 record1 Hd Hh1).
  destruct (commit_uncommitted_events record1 events) as [record' committed].
  destruct IH as (decoded & s' & Hdec & Hres & Hhead).
  eexists _, s'. cbn [mapM]. erewrite decode_stored_entry by eassumption. rewrite Hdec.
  split; [reflexivity|]. split; [|done]. apply reduce_log_cons. exists s1. split; [|done].
  rewrite Hh. exact He.
Qed.
(** It leaves no position out, so that positions last. *)
Lemma dry_run_positions events s record :
  dry_run_stored s events = Ok tt →
  record.(SessionRecord.head) = s.(CoreAgentState.reduced_to) →
  events ≠ [] ∨ (head_seq record <= u64_max)%N →
  (head_seq record + N.of_nat (length events) <= u64_max)%N.
Proof.
  revert s record. induction events as [|event events IH]; intros s record Hd Hh Hm; simpl.
  { destruct Hm; [done|lia]. }
  cbn [dry_run_stored] in Hd. unfold dry_run_entry in Hd. simplify_ok.
  match type of Hd with match ?r with _ => _ end = _ => destruct r as [[[]|] s1] eqn:He; [|done] end.
  destruct (wp_ok_inv _ _ _ _ _ (apply_event_position _ s) He) as [Hexp Hred].
  apply expected_seq_Ok in Hexp as [_ Hnext].
  assert (following_seq s.(CoreAgentState.reduced_to) = head_seq record + 1 ∧
    following_seq s.(CoreAgentState.reduced_to) <= u64_max)%N as [Hf Hle].
  { unfold head_seq. rewrite Hh. unfold following_seq, saturating_add_u64 in *.
    destruct (CoreAgentState.reduced_to s) as [p|]; [|split; [lia|vm_compute; discriminate]].
    specialize (Hnext p eq_refl). unfold entry_seq in Hnext. simpl in Hnext. lia. }
  specialize (IH s1 (record <| SessionRecord.head := s1.(CoreAgentState.reduced_to) |>) Hd eq_refl).
  assert (head_seq (record <| SessionRecord.head := s1.(CoreAgentState.reduced_to) |>)
    = head_seq record + 1)%N as Hh1.
  { unfold head_seq at 1. simpl. rewrite Hred. exact Hf. }
  rewrite Hh1 in IH. specialize (IH ltac:(right; lia)). lia.
Qed.

(** ** The log and the drive *)
(** The log of a session replays to a state. *)
Definition log_replays inner (session_id : SessionId) s : Prop :=
  ∃ stored decoded, effective_entries inner session_id = Ok stored ∧
    mapM decode_entry stored = Ok decoded ∧ reduce_log decoded new_state = (Ok tt, s).
Definition append_request d (expected_head : option SessionPosition)
    (events : list UncommittedStoredEvent) : AppendSessionEvents :=
  {| AppendSessionEvents.session_id := d.(CoreAgentDrive.session_id);
     AppendSessionEvents.expected_head := expected_head; AppendSessionEvents.events := events |}.

Lemma mapM_nil {A B E} (f : A → Result E B) l : mapM f l = Ok [] → l = [].
Proof. destruct l; cbn [mapM]; [done|]. intros Hl. by simplify_ok. Qed.
Lemma append_action_events d proposals at_ms expected_head events :
  append_action d proposals at_ms = Ok (CoreAgentAction.AppendEvents expected_head events) →
  expected_head = Drive.head d ∧ dry_run_stored d.(CoreAgentDrive.state) events = Ok tt ∧
  events ≠ [].
Proof.
  unfold append_action. intros Ha. case_bool_decide as Hp; simplify_ok.
  - unfold classify_core_agent_action in Ha. by case_bool_decide.
  - split_and!; [done|done|]. intros ->.
    match goal with H : from_codec (mapM _ _) = Ok [] |- _ =>
      unfold from_codec in H; apply map_err_Ok, mapM_nil in H; revert H end.
    unfold with_run_terminal_side_effects. destruct proposals as [|p ps]; [done|].
    cbn [terminal_side_effects]. destruct (terminal_run_id_for_proposal p); [|done].
    by destruct (cancel_promises _ _ _).
Qed.
(** Decoding everything first, then applying it, is resuming. *)
Lemma apply_to_drive_all decoded d s' :
  reduce_log decoded d.(CoreAgentDrive.state) = (Ok tt, s') →
  for_each apply_to_drive decoded d = (Ok tt, d <| CoreAgentDrive.state := s' |>).
Proof.
  revert d. induction decoded as [|entry decoded IH]; intros d Hr.
  { injection Hr as <-. done. }
  apply reduce_log_cons in Hr as (s1 & He & Hr). cbn [for_each].
  erewrite bind_runs; [|unfold apply_to_drive; by rewrite He].
  exact (IH (d <| CoreAgentDrive.state := s1 |>) Hr).
Qed.
Lemma resume_appended_entries_Ok stored decoded d s' :
  mapM decode_entry stored = Ok decoded →
  reduce_log decoded d.(CoreAgentDrive.state) = (Ok tt, s') →
  resume_appended_entries stored d = (Ok decoded, d <| CoreAgentDrive.state := s' |>).
Proof.
  intros Hdec Hr. unfold resume_appended_entries. runs; [|by rewrite Hdec].
  erewrite bind_runs by by apply apply_to_drive_all. done.
Qed.
Lemma mapM_app {A B E} (f : A → Result E B) l1 l2 k1 k2 :
  mapM f l1 = Ok k1 → mapM f l2 = Ok k2 → mapM f (l1 ++ l2) = Ok (k1 ++ k2).
Proof.
  revert k1. induction l1 as [|x l1 IH]; intros k1 Hk1 Hk2; cbn [mapM app] in *.
  { simplify_ok. done. }
  simplify_ok. rewrite Hok. cbn [mbind Result_bind]. by rewrite (IH _ Hok0 Hk2).
Qed.

Lemma append_spec request inner :
  wp (append request) (λ committed inner', ∃ record,
    lookup_record inner request.(AppendSessionEvents.session_id) = Some record ∧
    request.(AppendSessionEvents.expected_head) = record.(SessionRecord.head) ∧
    committed = (commit_uncommitted_events record request.(AppendSessionEvents.events)).2 ∧
    lookup_record inner' request.(AppendSessionEvents.session_id)
      = Some (commit_uncommitted_events record request.(AppendSessionEvents.events)).1) inner.
Proof.
  unfold append. do 2 wp_step.
  match goal with H : record_of _ _ = Ok _ |- _ => apply record_of_Ok in H as Hk end.
  do 4 wp_step. simplify_ok. destruct (commit_uncommitted_events _ _) as [record es] eqn:Hc.
  cbv beta match. wp_steps. exists a. rewrite Hc. split_and!; [done|done|done|].
  unfold lookup_record. simpl. apply lookup_insert_eq.
Qed.
Lemma append_performs request inner inner' committed :
  append request inner = (Ok committed, inner') →
  perform (StoreOperation.Append request) inner = (Ok tt, inner').
Proof. intros Ha. cbn [perform]. unfold discarding. by erewrite bind_runs by exact Ha. Qed.

(** C4. What a drive decided to append is durable or not at all. Against any store whose log
    of the session replays to the state of the drive, the append it asks for is refused
    without a trace, or the committed entries take the drive to a state its log replays to
    again: nothing the drive appends is ever refused by a replay, and a drive that is lost
    and rebuilt from the log goes on where the other one left off. *)
Theorem appended_events_resume d inner proposals at_ms expected_head events result inner' :
  store_reachable inner → log_replays inner d.(CoreAgentDrive.session_id) d.(CoreAgentDrive.state) →
  append_action d proposals at_ms = Ok (CoreAgentAction.AppendEvents expected_head events) →
  append (append_request d expected_head events) inner = (result, inner') →
  match result with
  | Err _ => inner' = inner
  | Ok committed => ∃ decoded d', resume_appended_entries committed d = (Ok decoded, d') ∧
      log_replays inner' d'.(CoreAgentDrive.session_id) d'.(CoreAgentDrive.state) ∧
      d'.(CoreAgentDrive.steps_taken) = d.(CoreAgentDrive.steps_taken)
  end.
Proof.
  intros Hreach (stored & old & Hstored & Hold & Hs) (-> & Hdry & Hne)%append_action_events Happ.
  destruct result as [committed|e]; [|by eapply append_refuses].
  destruct (wp_ok_inv _ _ _ _ _ (append_spec _ inner) Happ) as (record & Hr & Hh & Hc & Hr').
  simpl in Hr, Hh, Hc, Hr'. unfold Drive.head in Hh. symmetry in Hh.
  pose proof (dry_run_commits _ _ _ Hdry Hh) as Hcommit.
  assert (admissible (StoreOperation.Append (append_request d (Drive.head d) events)) inner) as Hadm.
  { intros record' Hr2. simpl in Hr2. rewrite Hr in Hr2. injection Hr2 as <-.
    eapply dry_run_positions; [done|done|by left]. }
  destruct (operation_extends_logs _ _ _ _ _ _ (store_reachable_wf _ Hreach) Hadm
    (append_performs _ _ _ _ Happ) Hr Hr') as (es & Hes & Hes').
  rewrite Hstored in Hes. injection Hes as <-.
  simpl in Hes'. rewrite bool_decide_eq_true_2, Hr in Hes' by done.
  destruct (commit_uncommitted_events record events) as [record' es]. simpl in *. subst committed.
  destruct Hcommit as (decoded & s' & Hdec & Hres & _).
  exists decoded, (d <| CoreAgentDrive.state := s' |>). split_and!; [|..|done].
  - by apply resume_appended_entries_Ok.
  - exists (stored ++ es), (old ++ decoded). split_and!; [done|by apply mapM_app|].
    apply reduce_log_app. eauto.
Qed.

(** Drives that race on one session are put in order by its head. When two drives of a
    session stand at the same position and the append of the first is committed, whatever the
    second decided to append is refused, so that no event is ever committed that was decided
    without knowing those before it. *)
Theorem stale_append_is_refused d1 d2 inner inner' ps1 ps2 at1 at2 head1 head2 events1 events2
    committed :
  append_action d1 ps1 at1 = Ok (CoreAgentAction.AppendEvents head1 events1) →
  append_action d2 ps2 at2 = Ok (CoreAgentAction.AppendEvents head2 events2) →
  d1.(CoreAgentDrive.session_id) = d2.(CoreAgentDrive.session_id) →
  Drive.head d1 = Drive.head d2 →
  append (append_request d1 head1 events1) inner = (Ok committed, inner') →
  ∃ actual, append (append_request d2 head2 events2) inner'
    = (Err (SessionStoreError.ExpectedHeadMismatch d2.(CoreAgentDrive.session_id) head2 actual),
       inner').
Proof.
  intros (-> & Hdry & Hne)%append_action_events (-> & _)%append_action_events Hid Hhead Happ.
  destruct (wp_ok_inv _ _ _ _ _ (append_spec _ inner) Happ) as (record & Hr & Hh & _ & Hr').
  simpl in Hr, Hh, Hr'. unfold Drive.head in Hh. symmetry in Hh.
  pose proof (dry_run_positions _ _ _ Hdry Hh (or_introl Hne)) as Hmax.
  pose proof (commit_spec _ _ Hmax) as Hc.
  destruct (commit_uncommitted_events record events1) as [record' es].
  destruct Hc as (_ & Hseq & _). simpl in Hr'.
  exists record'.(SessionRecord.head). unfold append. simpl. rewrite <- Hid.
  erewrite bind_runs by (apply checking_runs, record_of_Ok; exact Hr'). cbv beta.
  rewrite bool_decide_eq_true_2; [done|]. rewrite <- Hhead. unfold Drive.head. rewrite <- Hh.
  intros Heq. assert (head_seq record' = head_seq record) as Hsame.
  { unfold head_seq. by rewrite <- Heq. }
  destruct events1; [done|]. simpl in Hseq. lia.
Qed.
End append.

(** ** A bounded drive *)
(** Whatever a drive is resumed with. *)
Module DriveInput.
Inductive DriveInput : Type :=
| Command (command : CoreAgentCommand)
| Appended (entries : list StoredSessionEntry)
| Generation (result : LlmGenerationResult)
| Compaction (result : ContextCompactionResult)
| ToolBatch (outcome : ToolBatchOutcome)
| ToolCall (batch_id : ToolBatchId) (result : ToolInvocationResult)
| Approvals (batch_id : ToolBatchId) (approvals : list RuntimeMcpApprovalRequest).
End DriveInput.
Abbreviation DriveInput := DriveInput.DriveInput.
Section steps.
Context `{!Externals, !EventJson}.
Implicit Types (d : CoreAgentDrive).

(** The actions a drive asks others to carry out. *)
Definition is_work (action : CoreAgentAction) : bool :=
  match action with
  | CoreAgentAction.AppendEvents _ _ | CoreAgentAction.GenerateLlm _
  | CoreAgentAction.CompactContext _ | CoreAgentAction.InvokeTools _ => true
  | _ => false
  end.
Definition resume (input : DriveInput) (at_ms : N) : Driving unit :=
  match input with
  | DriveInput.Command command => discarding (admit_drive_command command at_ms)
  | DriveInput.Appended entries => discarding (resume_appended_entries entries)
  | DriveInput.Generation result => discarding (resume_generation result at_ms)
  | DriveInput.Compaction result => discarding (resume_context_compaction result at_ms)
  | DriveInput.ToolBatch outcome => discarding (resume_tool_batch_outcome outcome at_ms)
  | DriveInput.ToolCall batch_id result => discarding (resume_tool_call batch_id result at_ms)
  | DriveInput.Approvals batch_id approvals =>
      discarding (request_runtime_mcp_approvals batch_id approvals at_ms)
  end.

(** What is resumed, fails or succeeds, keeps the count. *)
Definition keeps_steps {A} (m : Driving A) : Prop :=
  ∀ d, (m d).2.(CoreAgentDrive.steps_taken) = d.(CoreAgentDrive.steps_taken).
Lemma keeps_steps_bind {A B} (m : Driving A) (k : A → Driving B) :
  keeps_steps m → (∀ a, keeps_steps (k a)) → keeps_steps (m ≫= k).
Proof.
  intros Hm Hk d. unfold mbind, Reducer_bind. specialize (Hm d).
  destruct (m d) as [[a|e] d1]; simpl in *; [|done]. by rewrite (Hk a d1).
Qed.
Lemma keeps_steps_checking {A} (f : CoreAgentDrive → Result CoreAgentDriveError A) :
  keeps_steps (checking f).
Proof. done. Qed.
Lemma keeps_steps_each {A} (f : A → Driving unit) l :
  (∀ x, keeps_steps (f x)) → keeps_steps (for_each f l).
Proof.
  intros Hf. induction l as [|x l IH]; cbn [for_each]; [done|]. by apply keeps_steps_bind.
Qed.
Lemma resume_keeps_steps input at_ms : keeps_steps (resume input at_ms).
Proof.
  destruct input; cbn [resume]; apply keeps_steps_bind; try done.
  - apply keeps_steps_bind; [done|]. intros decoded. apply keeps_steps_bind; [|done].
    apply keeps_steps_each. intros entry d. unfold apply_to_drive.
    by destruct (apply_event entry _).
  - by destruct outcome.
  - apply keeps_steps_bind; [done|]. intros self. by apply keeps_steps_bind.
Qed.

(** A run of a drive with a limit: resumed with anything, asked for its next action, any
    number of times; the work it asked for is counted. *)
Inductive driven (max : N) : CoreAgentDrive → N → CoreAgentDrive → Prop :=
| driven_nil d : driven max d 0 d
| driven_resume d1 n d2 input at_ms :
    driven max d1 n d2 → driven max d1 n (resume input at_ms d2).2
| driven_next d1 n d2 at_ms action d3 :
    driven max d1 n d2 → next_action at_ms max d2 = (Ok action, d3) →
    driven max d1 (if is_work action then n + 1 else n) d3
| driven_fail d1 n d2 at_ms error d3 :
    driven max d1 n d2 → next_action at_ms max d2 = (Err error, d3) → driven max d1 n d3.

(** Asking for work takes a step and nothing else does. *)
Definition step_spec (max : N) d (result : Result CoreAgentDriveError CoreAgentAction) d' : Prop :=
  match result with
  | Ok action =>
      if is_work action
      then (d.(CoreAgentDrive.steps_taken) < max ∧
            d'.(CoreAgentDrive.steps_taken)
              = saturating_add_u64 d.(CoreAgentDrive.steps_taken) 1)%N
      else d' = d
  | Err _ => d' = d ∨ (d.(CoreAgentDrive.steps_taken) < max ∧
      d'.(CoreAgentDrive.steps_taken) = saturating_add_u64 d.(CoreAgentDrive.steps_taken) 1)%N
  end.
Lemma append_action_works d proposals at_ms action :
  proposals ≠ [] → append_action d proposals at_ms = Ok action → is_work action = true.
Proof. unfold append_action. intros Hp Ha. case_bool_decide; [done|]. by simplify_ok. Qed.
Lemma stepping_spec max action d :
  (∀ d1 a d2, action d1 = (Ok a, d2) → is_work a = true ∧ d2 = d1) →
  (∀ d1 e d2, action d1 = (Err e, d2) → d2 = d1) →
  let '(result, d') := stepping (Some max) action d in step_spec max d result d'.
Proof.
  intros Hok Herr. unfold stepping, increment_steps, mbind, Reducer_bind, get_state, modify_state.
  destruct (N.leb_spec max d.(CoreAgentDrive.steps_taken)) as [Hle|Hlt]; simpl; [done|].
  match goal with |- context [action ?d1] => destruct (action d1) as [[a|e] d2] eqn:Ha end; simpl.
  - destruct (Hok _ _ _ Ha) as [-> ->]. done.
  - right. by rewrite (Herr _ _ _ Ha).
Qed.
Lemma stepping_request_spec max request d :
  is_work request = true →
  let '(result, d') := stepping (Some max) (mret request) d in step_spec max d result d'.
Proof. intros Hw. apply stepping_spec; [|done]. by intros d1 a d2 [= <- <-]. Qed.
Lemma next_action_spec at_ms max d :
  let '(result, d') := next_action at_ms max d in step_spec max d result d'.
Proof.
  unfold next_action, next_action_with_limit. cbv zeta.
  assert (∀ A (m : Driving A) (k : A → Driving CoreAgentAction),
    (∀ d1, (m d1).2 = d1) → (∀ a, let '(result, d') := k a d in step_spec max d result d') →
    let '(result, d') := (m ≫= k) d in step_spec max d result d') as Hread.
  { intros A m k Hm Hk. unfold mbind, Reducer_bind. specialize (Hm d).
    destruct (m d) as [[a|e] d1]; simpl in Hm; subst d1; [apply Hk|by left]. }
  apply Hread; [done|]. intros self. apply Hread; [done|]. intros proposals.
  case_bool_decide as Hp; simpl.
  - apply Hread; [done|]. intros generation. destruct generation; [by apply stepping_request_spec|].
    apply Hread; [done|]. intros compaction. destruct compaction; [by apply stepping_request_spec|].
    apply Hread; [done|]. intros tools. destruct tools; [by apply stepping_request_spec|].
    unfold classify_core_agent_action. by case_bool_decide.
  - apply stepping_spec; unfold checking.
    + intros d1 a d2 [= Ha <-]. split; [by eapply append_action_works|done].
    + by intros d1 e d2 [= _ <-].
Qed.

Lemma driven_steps max d1 n d2 :
  (max <= u64_max)%N → driven max d1 n d2 →
  (d1.(CoreAgentDrive.steps_taken) + n <= d2.(CoreAgentDrive.steps_taken) ∧
   (d2.(CoreAgentDrive.steps_taken) <= max ∨
    n = 0 ∧ d2.(CoreAgentDrive.steps_taken) = d1.(CoreAgentDrive.steps_taken)))%N.
Proof.
  intros Hmax. induction 1 as [d|d1 n d2 input at_ms _ IH|d1 n d2 at_ms action d3 _ IH Hn
    |d1 n d2 at_ms e d3 _ IH Hn].
  - split; [lia|by right].
  - by rewrite resume_keeps_steps.
  - pose proof (next_action_spec at_ms max d2) as Hs. rewrite Hn in Hs. unfold step_spec in Hs.
    destruct (is_work action); [|by subst]. destruct Hs as [Hlt ->].
    unfold saturating_add_u64. lia.
  - pose proof (next_action_spec at_ms max d2) as Hs. rewrite Hn in Hs.
    destruct Hs as [->|[Hlt ->]]; [done|]. unfold saturating_add_u64. lia.
Qed.

(** C15. A drive with a step limit terminates. However it is resumed, with results, appended
    entries or commands, right or wrong, it asks for at most as much work as its limit
    allows; and once it has, all it answers is that it is idle, closed or out of steps, and
    it no longer changes by being asked. *)
Theorem bounded_drive_stops session_id s max n d :
  (max <= u64_max)%N → driven max (from_replayed session_id s) n d →
  (n <= max)%N ∧
  (n = max → ∀ at_ms action d', next_action at_ms max d = (Ok action, d') →
     action ∈ [CoreAgentAction.Idle; CoreAgentAction.Closed; CoreAgentAction.StepLimitReached] ∧
     d' = d).
Proof.
  intros Hmax Hd. destruct (driven_steps _ _ _ _ Hmax Hd) as [Hle Hor]. simpl in Hle, Hor.
  split; [lia|]. intros -> at_ms action d' Hn.
  pose proof (next_action_spec at_ms max d) as Hs. rewrite Hn in Hs. unfold step_spec in Hs.
  destruct action; simpl in Hs; try lia; (split; [set_solver|done]).
Qed.
End steps.

(** ** Witnesses *)
Definition opened_drive : CoreAgentDrive := from_replayed "root" open_state.
Definition drive_store : InMemorySessionStoreInner :=
  after_operations [StoreOperation.Create (example_create "root");
                    example_append "root" None [opened_event]].
Definition accepted_proposals : list CoreAgentEventProposal :=
  [{| CoreAgentEventProposal.joins := joins_of_run 1;
      CoreAgentEventProposal.event := CoreAgentEvent.Run (RunEvent.Accepted (example_accepted 1)) |}].
Definition appended_head (action : Result CoreAgentDriveError CoreAgentAction)
    : option SessionPosition :=
  match action with Ok (CoreAgentAction.AppendEvents head _) => head | _ => None end.
Definition appended_events (action : Result CoreAgentDriveError CoreAgentAction)
    : list UncommittedStoredEvent :=
  match action with Ok (CoreAgentAction.AppendEvents _ events) => events | _ => [] end.
Definition accepting_action : Result CoreAgentDriveError CoreAgentAction :=
  append_action opened_drive accepted_proposals 1000.
Definition accepting_request : AppendSessionEvents :=
  append_request opened_drive (appended_head accepting_action) (appended_events accepting_action).

Lemma accepting_action_appends :
  append_action opened_drive accepted_proposals 1000 = Ok (CoreAgentAction.AppendEvents
    (appended_head accepting_action) (appended_events accepting_action)).
Proof. vm_compute. reflexivity. Qed.
Lemma drive_store_reachable : store_reachable drive_store.
Proof.
  apply (reach_snoc [StoreOperation.Create (example_create "root")]);
    [|small_positions|vm_compute; reflexivity].
  apply (reach_snoc []); [apply store_new|exact I|vm_compute; reflexivity].
Qed.
Lemma drive_store_replays : log_replays drive_store "root" open_state.
Proof.
  eexists _, _. split; [vm_compute; reflexivity|]. split; [vm_compute; reflexivity|].
  vm_compute. reflexivity.
Qed.
Lemma appended_events_resume_witness :
  ∃ committed decoded d', (append accepting_request drive_store).1 = Ok committed ∧
    resume_appended_entries committed opened_drive = (Ok decoded, d') ∧
    log_replays (append accepting_request drive_store).2 "root" d'.(CoreAgentDrive.state).
Proof.
  destruct (append accepting_request drive_store) as [result inner'] eqn:Ha.
  pose proof (appended_events_resume opened_drive drive_store accepted_proposals 1000
    (appended_head accepting_action) (appended_events accepting_action) result inner'
    drive_store_reachable drive_store_replays accepting_action_appends Ha) as Ht.
  destruct result as [committed|e]; [|vm_compute in Ha; discriminate].
  destruct Ht as (decoded & d' & Hd & Hr & _). exists committed, decoded, d'.
  split; [reflexivity|]. split; [exact Hd|].
  assert (d'.(CoreAgentDrive.session_id) = "root") as Hid; [|rewrite Hid in Hr; exact Hr].
  vm_compute in Ha. injection Ha as <- <-. vm_compute in Hd. injection Hd as _ <-. reflexivity.
Defined.
Definition accepting_entries : list StoredSessionEntry :=
  match (append accepting_request drive_store).1 with Ok entries => entries | Err _ => [] end.
Lemma accepting_request_commits :
  append accepting_request drive_store
    = (Ok accepting_entries, (append accepting_request drive_store).2).
Proof. vm_compute. reflexivity. Qed.
Lemma stale_append_is_refused_witness :
  ∃ actual, (append accepting_request (append accepting_request drive_store).2).1
    = Err (SessionStoreError.ExpectedHeadMismatch "root" (appended_head accepting_action) actual).
Proof.
  destruct (stale_append_is_refused opened_drive opened_drive drive_store
    (append accepting_request drive_store).2 accepted_proposals accepted_proposals 1000 1000
    (appended_head accepting_action) (appended_head accepting_action)
    (appended_events accepting_action) (appended_events accepting_action) accepting_entries
    accepting_action_appends accepting_action_appends eq_refl eq_refl accepting_request_commits)
    as [actual Hs].
  exists actual. exact (f_equal fst Hs).
Defined.
(** A drive with a run to start, asked twice for its next action under a limit of two. *)
Definition working_drive : CoreAgentDrive := from_replayed "root" accepted_state.
Definition asked (d : CoreAgentDrive) : CoreAgentDrive := (next_action 2000 2 d).2.
Definition first_action (d : CoreAgentDrive) : CoreAgentAction :=
  match (next_action 2000 2 d).1 with Ok action => action | Err _ => CoreAgentAction.Idle end.
Lemma working_drive_works :
  is_work (first_action working_drive) = true ∧ is_work (first_action (asked working_drive)) = true.
Proof. split; vm_compute; reflexivity. Qed.
Lemma working_drive_asked d :
  is_work (first_action d) = true → next_action 2000 2 d = (Ok (first_action d), asked d).
Proof.
  unfold first_action, asked. destruct (next_action 2000 2 d) as [[action|error] d'];
    [reflexivity|discriminate].
Qed.
Lemma working_drive_driven : driven 2 working_drive 2 (asked (asked working_drive)).
Proof.
  pose proof (driven_next 2 _ _ _ 2000 _ _ (driven_nil 2 working_drive)
    (working_drive_asked _ (proj1 working_drive_works))) as H1. rewrite (proj1 working_drive_works) in H1.
  pose proof (driven_next 2 _ _ _ 2000 _ _ H1
    (working_drive_asked _ (proj2 working_drive_works))) as H2. rewrite (proj2 working_drive_works) in H2.
  exact H2.
Qed.
Lemma bounded_drive_stops_witness :
  next_action 3000 2 (asked (asked working_drive))
    = (Ok CoreAgentAction.StepLimitReached, asked (asked working_drive)) ∧
  CoreAgentAction.StepLimitReached ∈
    [CoreAgentAction.Idle; CoreAgentAction.Closed; CoreAgentAction.StepLimitReached].
Proof.
  assert (next_action 3000 2 (asked (asked working_drive))
    = (Ok CoreAgentAction.StepLimitReached, asked (asked working_drive))) as Hn
    by (vm_compute; reflexivity).
  split; [exact Hn|].
  exact (proj1 (proj2 (bounded_drive_stops "root" accepted_state 2 2 (asked (asked working_drive))
    ltac:(vm_compute; discriminate) working_drive_driven) eq_refl 3000%N _ _ Hn)).
Defined.
