(* ===== verification/RunEnds.v ===== *)
(** * The end of a run

    A run that ends takes the promises it still waits on with it: the append that ends it
    cancels each of them, in the same transaction ([with_run_terminal_side_effects] of
    [core/drive.rs]). *)
From S2P Require Import Prelude Ids Text Types Events Media Externals RunState Promises Sessions.
From S2P Require Import Contexts Compaction CodeTools ContextReducer Approvals Turns.
From S2P Require Import WorkflowTools Toolset ContextPlan Runs Replay Admit Codec BlobRoots Drive.
From S2P Require Import Frames Example RunLaws ReplayLaws PlanLaws PromiseLaws.

Section run_ends.
Context `{!Externals}.
Implicit Types (s : CoreAgentState) (entry : CoreAgentEntry).

(** ** Promises under their ids *)
Definition promises_keyed s : Prop :=
  ∀ id promise, promise_map s !! id = Some promise → promise.(Promise.promise_id) = id.

Lemma put_promise_keyed id promise s :
  promises_keyed s → promise.(Promise.promise_id) = id →
  promises_keyed (put_promise id promise s).
Proof.
  intros Hk Hid i p. unfold promise_map, put_promise. simpl.
  intros [[<- <-]|[_ ?]]%lookup_insert_Some; [done|by apply Hk].
Qed.
Lemma apply_promise_event_keyed e s :
  promises_keyed s → wp (apply_promise_event e) (λ _, promises_keyed) s.
Proof.
  intros Hk. reduce_event; simplify_ok; try (by apply put_promise_keyed).
  all: apply put_promise_keyed; [exact Hk|]; simpl;
    match goal with H : pending_promise_ref _ _ = Ok _ |- _ =>
      unfold pending_promise_ref in H; simplify_ok; by apply Hk end.
Qed.
Lemma swept_lookup s s' id promise :
  swept s s' → promise_map s' !! id = Some promise → promise_map s !! id = Some promise.
Proof.
  intros [He|He].
  - by rewrite (promise_map_eq s s') by exact He.
  - rewrite (promise_map_swept s) by exact He. by case_decide.
Qed.
Lemma swept_pending s s' id promise :
  settled_wf s → swept s s' → promise_map s !! id = Some promise →
  promise.(Promise.status) = PromiseStatus.Pending → promise_map s' !! id = Some promise.
Proof.
  intros Hwf [He|He] Hp Hs.
  - by rewrite (promise_map_eq s s') by exact He.
  - rewrite (promise_map_swept s) by exact He. rewrite decide_False; [done|].
    by eapply pending_not_listed.
Qed.
Lemma reachable_keyed s : reachable s → promises_keyed s.
Proof.
  apply reachable_keeps; [done|]. intros entry s0 Hk. apply apply_event_keeps; [done| |done].
  intros _. eapply wp_mono; [apply apply_event_kind_swept|]. intros ? s1 [Hs|(e & _ & He)].
  - intros id p Hp. by apply Hk, (swept_lookup _ _ _ _ Hs).
  - exact (wp_ok_inv _ _ _ _ _ (apply_promise_event_keyed e s0 Hk) He).
Qed.

(** ** Cancellations *)
Definition is_pending_promise s (id : PromiseId) : Prop :=
  ∃ promise, promise_map s !! id = Some promise ∧
    promise.(Promise.status) = PromiseStatus.Pending.
Definition cancellation (run_id : RunId) (id : PromiseId) : CoreAgentEventProposal :=
  proposal (run_joins run_id) (CoreAgentEvent.Promise (PromiseEvent.Cancelled id)).

(** Pending promises with different ids are all cancelled. *)
Lemma cancel_promises_all run_id cancelled promises :
  Forall (λ promise, promise.(Promise.status) = PromiseStatus.Pending) promises →
  NoDup (Promise.promise_id <$> promises) →
  (∀ promise, promise ∈ promises → promise.(Promise.promise_id) ∉ cancelled) →
  (cancel_promises run_id cancelled promises).1
    = cancellation run_id ∘ Promise.promise_id <$> promises.
Proof.
  revert cancelled. induction promises as [|promise promises IH]; intros cancelled Hp Hn Hc; [done|].
  apply Forall_cons in Hp as [Hp1 Hp]. rewrite fmap_cons in Hn. apply NoDup_cons in Hn as [Hn1 Hn].
  cbn [cancel_promises]. rewrite bool_decide_eq_false_2 by (by intros []).
  rewrite bool_decide_eq_false_2 by (apply Hc; set_solver). cbn [orb].
  specialize (IH (promise.(Promise.promise_id) :: cancelled) Hp Hn).
  destruct (cancel_promises _ _ promises) as [proposals cancelled'] eqn:He. simpl in *.
  rewrite IH; [done|]. intros p Hin. rewrite not_elem_of_cons. split; [|apply Hc; set_solver].
  intros Heq. apply Hn1, list_elem_of_fmap. exists p. split; [symmetry; exact Heq|done].
Qed.

(** Cancelling a pending promise settles it and leaves the others alone. *)
Lemma cancellation_accepted s run_id id at_ms :
  is_pending_promise s id → is_ok (expected_seq s) = true →
  ∃ s', apply_event (committed_entry (following_seq s.(CoreAgentState.reduced_to)) at_ms
          (cancellation run_id id)) s = (Ok tt, s') ∧
    (∀ i, i ≠ id → promise_map s' !! i = promise_map s !! i) ∧ ¬ is_pending_promise s' id.
Proof.
  intros (promise & Hp & Hs) Hseq. unfold apply_event. eexists. split_and!.
  - runs.
    2: { unfold validate_next_position. destruct (expected_seq s) as [seq|] eqn:He; [|done].
         destruct (expected_seq_Ok _ _ He) as [-> _]. cbn. by rewrite N.eqb_refl. }
    erewrite bind_runs; [reflexivity|].
    match goal with |- _ = (Ok ?a, ?s1) =>
      change (apply_promise_event (PromiseEvent.Cancelled id) s = (Ok a, s1)) end.
    cbn [apply_promise_event]. erewrite bind_runs.
    2: { unfold pending_promise_mut. apply checking_runs. unfold pending_promise_ref.
         change (CoreAgentState.promises s).(PromiseComponentState.promises) with (promise_map s).
         rewrite Hp. cbn [ok_or mbind Result_bind]. by rewrite Hs. }
    runs. reflexivity.
  - intros i Hi. by apply lookup_insert_ne.
  - intros (p' & Hp' & Hs'). change (<[id := promise <| Promise.status := PromiseStatus.Cancelled |>]>
      (promise_map s) !! id = Some p') in Hp'. rewrite lookup_insert_eq in Hp'.
    injection Hp' as <-. done.
Qed.

Definition last_position s : N :=
  match s.(CoreAgentState.reduced_to) with Some p => p.(SessionPosition.seq) | None => 0%N end.
Lemma expected_seq_is_ok s :
  (last_position s < u64_max)%N → is_ok (expected_seq s) = true.
Proof.
  unfold last_position, expected_seq, next_u64, checked_add_u64.
  destruct (CoreAgentState.reduced_to s) as [p|]; [|done]. intros Hl.
  by rewrite (proj2 (N.leb_le _ _)) by lia.
Qed.
Lemma apply_event_last entry s s' :
  apply_event entry s = (Ok tt, s') → last_position s' = (last_position s + 1)%N.
Proof.
  intros Hs. destruct (wp_ok_inv _ _ _ _ _ (apply_event_position entry s) Hs) as [He Hred].
  apply expected_seq_Ok in He as [Hf Hn]. unfold last_position. rewrite Hred.
  unfold entry_seq in *. destruct (CoreAgentState.reduced_to s) as [p|]; [by rewrite (Hn p)|].
  by rewrite Hf.
Qed.
(** Cancelling different pending promises, one after the other. *)
Lemma cancellations_accepted ids run_id at_ms s :
  NoDup ids → Forall (is_pending_promise s) ids →
  (last_position s + N.of_nat (length ids) <= u64_max)%N →
  ∃ s', reduce_proposals at_ms (cancellation run_id <$> ids) s = (Ok tt, s') ∧
    (∀ i, i ∉ ids → promise_map s' !! i = promise_map s !! i) ∧
    (∀ i, i ∈ ids → ¬ is_pending_promise s' i).
Proof.
  revert s. induction ids as [|id ids IH]; intros s Hn Hp Hl.
  { exists s. split_and!; [done|done|set_solver]. }
  apply NoDup_cons in Hn as [Hn1 Hn]. apply Forall_cons in Hp as [Hp1 Hp]. simpl in Hl.
  destruct (cancellation_accepted s run_id id at_ms Hp1) as (s1 & Hs1 & Hother & Hid).
  { apply expected_seq_is_ok. lia. }
  destruct (IH s1 Hn) as (s' & Hs' & Hkeep & Hdone).
  - rewrite Forall_forall in Hp |- *. intros i Hi. unfold is_pending_promise.
    rewrite Hother; [by apply Hp|]. by intros ->.
  - rewrite (apply_event_last _ _ _ Hs1). lia.
  - exists s'. split_and!.
    + apply reduce_proposals_cons. eauto.
    + intros i [Hi1 Hi]%not_elem_of_cons. rewrite Hkeep by done. by apply Hother.
    + intros i [->|Hi]%elem_of_cons; [|by apply Hdone].
      unfold is_pending_promise. by rewrite Hkeep.
Qed.

(** ** The append that ends a run *)
Definition waiting_ids s (run_id : RunId) : list PromiseId :=
  Promise.promise_id <$>
    PromiseComponentState_pending_for_run s.(CoreAgentState.promises) run_id.
Lemma elem_of_waiting s run_id promise :
  promise ∈ PromiseComponentState_pending_for_run s.(CoreAgentState.promises) run_id ↔
  promise.(Promise.scope) = PromiseScope.Run run_id ∧
  promise.(Promise.status) = PromiseStatus.Pending ∧ ∃ id, promise_map s !! id = Some promise.
Proof.
  unfold PromiseComponentState_pending_for_run, PromiseComponentState_pending.
  rewrite !list_elem_of_filter, elem_of_btree_values. done.
Qed.
Lemma waiting_ids_NoDup s run_id : promises_keyed s → NoDup (waiting_ids s run_id).
Proof.
  intros Hk. unfold waiting_ids, PromiseComponentState_pending_for_run,
    PromiseComponentState_pending. fold (promise_map s).
  assert (NoDup (Promise.promise_id <$> btree_values (promise_map s))) as Hn.
  { replace (Promise.promise_id <$> btree_values (promise_map s)) with (btree_keys (promise_map s));
      [apply btree_keys_NoDup|].
    unfold btree_keys, btree_values. rewrite <- list_fmap_compose. apply list_fmap_ext.
    intros i [id p] Hi. apply list_elem_of_lookup_2, elem_of_btree in Hi.
    symmetry. by apply Hk. }
  assert (∀ (P : Promise → Prop) `{!∀ x, Decision (P x)} l,
    NoDup (Promise.promise_id <$> l) → NoDup (Promise.promise_id <$> filter P l)) as Hf.
  { clear. intros P HP l Hl. eapply sublist_NoDup; [exact Hl|].
    apply fmap_sublist, sublist_filter. }
  by apply Hf, Hf.
Qed.
(** The events that end a run that was started. *)
Inductive ends_run (run_id : RunId) : CoreAgentEvent → Prop :=
| completed_ends output : ends_run run_id (CoreAgentEvent.Run (RunEvent.Completed run_id output))
| failed_ends failure : ends_run run_id (CoreAgentEvent.Run (RunEvent.Failed run_id failure))
| cancelled_ends : ends_run run_id (CoreAgentEvent.Run (RunEvent.Cancelled run_id))
| force_cancelled_ends : ends_run run_id (CoreAgentEvent.Run (RunEvent.ForceCancelled run_id)).

(** C9. The append that ends a run is accepted as a whole and leaves nothing waiting. Where
    the reducer takes the event that completes, fails or cancels a run, it also takes the
    cancellation of every promise of the run that is still pending, each exactly once, and
    afterwards no promise scoped to that run is pending any more; positions permitting. *)
Theorem run_end_cancels_its_promises s p run_id at_ms s1 :
  reachable s → ends_run run_id p.(CoreAgentEventProposal.event) →
  reduce_proposals at_ms [p] s = (Ok tt, s1) →
  (last_position s1 + N.of_nat (length (waiting_ids s run_id)) <= u64_max)%N →
  ∃ s', reduce_proposals at_ms (with_run_terminal_side_effects s [p]) s = (Ok tt, s') ∧
    ∀ id promise, promise_map s' !! id = Some promise →
      promise.(Promise.scope) = PromiseScope.Run run_id →
      promise.(Promise.status) ≠ PromiseStatus.Pending.
Proof.
  intros Hr Hends Hd Hl.
  assert (terminal_run_id_for_proposal p = Some run_id) as Ht
    by (unfold terminal_run_id_for_proposal; by destruct Hends).
  apply reduce_proposals_cons in Hd as (s2' & Hp & [= <-]).
  pose proof (reachable_keyed s Hr) as Hk. pose proof (reachable_settled_wf s Hr) as Hwf.
  destruct (apply_event_Ok _ _ _ Hp) as (s2 & Hkind & ->).
  assert (swept s s2) as Hs.
  { destruct (wp_ok_inv _ _ _ _ _ (apply_event_kind_swept _ s) Hkind) as [?|(e & He & _)]; [done|].
    exfalso. unfold terminal_run_id_for_proposal in Ht. simpl in He. by rewrite He in Ht. }
  set (s1 := s2 <| CoreAgentState.reduced_to := _ |>) in *.
  change (swept s s1) in Hs. pose proof (waiting_ids_NoDup s run_id Hk) as Hn.
  destruct (cancellations_accepted (waiting_ids s run_id) run_id at_ms s1 Hn) as
    (s' & Hs' & Hkeep & Hdone); [|exact Hl|].
  { apply Forall_forall. intros id (promise & -> & Hw)%list_elem_of_fmap.
    apply elem_of_waiting in Hw as (_ & Hstatus & id & Hid). exists promise.
    split; [|done]. exact (eq_trans (f_equal (λ i, promise_map s1 !! i) (Hk _ _ Hid))
      (swept_pending _ _ _ _ Hwf Hs Hid Hstatus)). }
  exists s'. split.
  - unfold with_run_terminal_side_effects. cbn [terminal_side_effects]. rewrite Ht.
    destruct (cancel_promises run_id [] _) as [proposals cancelled] eqn:He.
    apply (f_equal fst) in He. rewrite cancel_promises_all in He; [| |exact Hn|set_solver].
    + simpl in He. subst proposals. rewrite app_nil_r. apply reduce_proposals_cons. exists s1.
      split; [exact Hp|]. rewrite list_fmap_compose. exact Hs'.
    + apply Forall_forall. by intros promise (_ & ? & _)%elem_of_waiting.
  - intros id promise Hid Hscope Hstatus. destruct (decide (id ∈ waiting_ids s run_id)) as [Hin|Hin].
    + apply (Hdone _ Hin). by exists promise.
    + apply Hin. rewrite Hkeep in Hid by done. apply (swept_lookup s) in Hid; [|done].
      apply list_elem_of_fmap. exists promise. split; [symmetry; by apply Hk|].
      apply elem_of_waiting. eauto.
Qed.
End run_ends.

(** ** Witness *)
Definition run_promise : Promise :=
  (example_promise 1) <| Promise.scope := PromiseScope.Run 1 |>.
Definition waiting_log : list CoreAgentEntry :=
  extend [CoreAgentEvent.Promise (PromiseEvent.Created run_promise)] generating_log.
Definition waiting_state : CoreAgentState := state_after waiting_log.
Definition force_cancel_proposal : CoreAgentEventProposal :=
  proposal (run_joins 1) (CoreAgentEvent.Run (RunEvent.ForceCancelled 1)).
Lemma run_end_cancels_its_promises_witness :
  waiting_ids waiting_state 1 = [1%N] ∧
  ∃ s', reduce_proposals 2000 (with_run_terminal_side_effects waiting_state [force_cancel_proposal])
      waiting_state = (Ok tt, s') ∧
    ∀ id promise, promise_map s' !! id = Some promise →
      promise.(Promise.scope) = PromiseScope.Run 1 →
      promise.(Promise.status) ≠ PromiseStatus.Pending.
Proof.
  split; [vm_compute; reflexivity|].
  apply (run_end_cancels_its_promises waiting_state force_cancel_proposal 1 2000
    (reduce_proposals 2000 [force_cancel_proposal] waiting_state).2).
  - exists waiting_log. vm_compute. reflexivity.
  - apply force_cancelled_ends.
  - vm_compute. reflexivity.
  - vm_compute. discriminate.
Defined.

(** * Closing a session by force

    A forced close ends whatever the session is doing and closes it: every event it proposes
    is one the reducer takes ([core/admit.rs], [core/apply.rs]). *)

(** ** Approvals are filed *)
(** Each approval of a run is filed under its own id and is of that run. *)
Definition run_filed (run : ActiveRun) : Prop :=
  map_Forall (λ id record,
    record.(ApprovalRecord.request).(ApprovalRequested.approval_id) = id ∧
    record.(ApprovalRecord.request).(ApprovalRequested.run_id) = run.(ActiveRun.run_id))
    run.(ActiveRun.approvals).
Definition approvals_filed (s : CoreAgentState) : Prop :=
  ∀ run, active_run s = Some run → run_filed run.

Section filed.
Context `{!Externals}.
Implicit Types (s : CoreAgentState) (run : ActiveRun).

Lemma approvals_filed_stable : stable [Part.approvals] approvals_filed.
Proof.
  intros s s' Hk Hf run' Hr'. pose proof (keeps_lookup _ Part.approvals _ _ Hk eq_refl) as Hw.
  unfold active_run in Hr'. simpl in Hw. rewrite Hr' in Hw. symmetry in Hw.
  apply fmap_Some_1 in Hw as (run & Hr & Hw). injection Hw as Hid Ha.
  unfold run_filed. rewrite Hid, Ha. by apply Hf.
Qed.
Lemma filed_set s run : run_filed run → approvals_filed (set_active_run run s).
Proof. by intros Hf run' [= <-]. Qed.
Lemma filed_update s f :
  (∀ run, run_filed run → run_filed (f run)) → approvals_filed s →
  approvals_filed (update_active_run f s).
Proof.
  intros Hf Hs run. unfold active_run. simpl. intros (r & Hr & ->)%fmap_Some_1. by apply Hf, Hs.
Qed.
Lemma filed_runs s s' :
  s'.(CoreAgentState.runs) = s.(CoreAgentState.runs) → approvals_filed s → approvals_filed s'.
Proof. unfold approvals_filed, active_run. by intros ->. Qed.
Lemma active_filed s run_id run :
  active_run_ref s run_id = Ok run → approvals_filed s → run_filed run.
Proof. intros [Ha _]%active_run_ref_Ok Hs. by apply Hs. Qed.
Lemma filed_sub run run' :
  run'.(ActiveRun.run_id) = run.(ActiveRun.run_id) →
  run'.(ActiveRun.approvals) ⊆ run.(ActiveRun.approvals) → run_filed run → run_filed run'.
Proof. unfold run_filed. intros -> Hsub Hf id record Hr. by eapply Hf, lookup_weaken. Qed.
Lemma filed_prune run : run_filed run → run_filed (prune_settled_run_records run).
Proof.
  apply filed_sub; [done|]. cbn. apply map_subseteq_spec. intros id record.
  by intros [? _]%lookup_btree_retain_Some.
Qed.
Lemma filed_mark turn_id ids run :
  run_filed run → run_filed (mark_context_entries_consumed_by_turn turn_id ids run).
Proof. unfold mark_context_entries_consumed_by_turn. intros Hf. by case_match. Qed.
Lemma filed_recovery run : run_filed run → run_filed (record_recovery_attempt run).
Proof. unfold record_recovery_attempt. intros Hf. by repeat case_match. Qed.
Lemma filed_put id record run :
  record.(ApprovalRecord.request).(ApprovalRequested.approval_id) = id →
  record.(ApprovalRecord.request).(ApprovalRequested.run_id) = run.(ActiveRun.run_id) →
  run_filed run → run_filed (put_approval id record run).
Proof. intros Hid Hrun Hf. by apply map_Forall_insert_2. Qed.
Lemma filed_answer run id run_id record record' :
  answerable_approval run id run_id = Ok record →
  record'.(ApprovalRecord.request) = record.(ApprovalRecord.request) →
  run_filed run → run_filed (put_approval id record' run).
Proof.
  unfold answerable_approval. intros Ha Hr Hf. simplify_ok.
  destruct (Hf _ _ Hok). apply filed_put; [by rewrite Hr..|done].
Qed.
Lemma filed_generation facts s : approvals_filed s → approvals_filed (record_generation facts s).
Proof. apply filed_runs. unfold record_generation. by repeat case_match. Qed.
Lemma filed_swept s : approvals_filed s → approvals_filed (prune_finished_work s).
Proof. apply filed_runs. by apply prune_finished_work_frame. Qed.
Lemma filed_none s : active_run s = None → approvals_filed s.
Proof. unfold approvals_filed. by intros ->. Qed.

(** The approvals of a run after a write to it. *)
Ltac run_filed :=
  lazymatch goal with
  | |- run_filed (prune_settled_run_records _) => apply filed_prune; run_filed
  | |- run_filed (mark_context_entries_consumed_by_turn _ _ _) => apply filed_mark; run_filed
  | |- run_filed (record_recovery_attempt _) => apply filed_recovery; run_filed
  | |- _ => first [done | match goal with H : active_run_ref ?s _ = Ok ?a |- _ =>
                            simple refine (active_filed s _ a H _); filed end]
  end
with filed :=
  lazymatch goal with
  | |- approvals_filed (prune_finished_work _) => apply filed_swept; filed
  | |- approvals_filed (record_generation _ _) => apply filed_generation; filed
  | |- approvals_filed (field_setter CoreAgentState.id_cursors _ ?s) =>
      change (approvals_filed s); filed
  | |- approvals_filed (set_active_run _ _) => apply filed_set; run_filed
  | |- approvals_filed (update_active_run _ _) =>
      apply filed_update; [intros; run_filed|filed]
  | |- approvals_filed (if ?c then _ else _) => destruct c; filed
  | |- _ => first [eassumption | by apply filed_none]
  end.

Lemma approval_event_filed e at_ms s :
  approvals_filed s → wp (apply_approval_event e at_ms) (λ _, approvals_filed) s.
Proof.
  intros Hs. reduce_event; simplify_ok; try (filed; fail).
  - change (approvals_filed (set_active_run (put_approval (ApprovalRequested.approval_id approval)
      {| ApprovalRecord.request := approval; ApprovalRecord.requested_at_ms := at_ms;
         ApprovalRecord.status := ApprovalStatus.Pending; ApprovalRecord.note := None;
         ApprovalRecord.decided_by := None |} a0) s)).
    apply filed_set, filed_put; [done|by symmetry|by apply Hs].
  - apply filed_set. eapply filed_answer; [eassumption|done|run_filed].
  - apply filed_set. eapply filed_answer; [eassumption|done|run_filed].
Qed.
Lemma run_event_filed e seq at_ms s :
  approvals_filed s → wp (apply_run_event e seq at_ms) (λ _, approvals_filed) s.
Proof.
  intros Hs. reduce_event; simplify_ok; try (filed; fail).
  intros run [= <-]. by apply map_Forall_empty.
Qed.
Lemma turn_event_filed e s :
  approvals_filed s → wp (apply_turn_event e) (λ _, approvals_filed) s.
Proof.
  intros Hs. reduce_event; simplify_ok; try (filed; fail).
  apply filed_set, filed_prune. by apply (Hs a).
Qed.
Lemma tool_event_filed e s :
  approvals_filed s → wp (apply_tool_event e) (λ _, approvals_filed) s.
Proof.
  intros Hs. reduce_event; simplify_ok; try (filed; fail).
Qed.
Lemma apply_event_filed entry s :
  approvals_filed s → wp (apply_event entry) (λ _, approvals_filed) s.
Proof.
  intros Hs. apply apply_event_keeps; [done| |done]. intros _.
  frame_reducers approvals_filed_stable Hs.
  - by apply run_event_filed.
  - by apply approval_event_filed.
  - by apply turn_event_filed.
  - by apply tool_event_filed.
Qed.
Lemma reachable_filed s : reachable s → approvals_filed s.
Proof. apply reachable_keeps; [by intros run [=]|intros; by apply apply_event_filed]. Qed.
End filed.

Lemma NoDup_fmap_bool_filter {A B} (f : A → B) (p : A → bool) l :
  NoDup (f <$> l) → NoDup (f <$> List.filter p l).
Proof.
  induction l as [|x l IH]; [done|]. rewrite fmap_cons. intros [Hx Hl]%NoDup_cons. simpl.
  destruct (p x); [|by apply IH]. apply NoDup_cons. split; [|by apply IH].
  intros (y & Hf & [Hy _]%list_elem_of_In%filter_In)%list_elem_of_fmap.
  apply Hx. rewrite Hf. by apply list_elem_of_fmap_2, list_elem_of_In.
Qed.
Lemma NoDup_fmap_filter {A B} (f : A → B) (P : A → Prop) `{!∀ x, Decision (P x)} l :
  NoDup (f <$> l) → NoDup (f <$> filter P l).
Proof.
  induction l as [|x l IH]; [done|]. rewrite fmap_cons, filter_cons. intros [Hx Hl]%NoDup_cons.
  case_decide; [|by apply IH]. rewrite fmap_cons. apply NoDup_cons. split; [|by apply IH].
  intros (y & Hy & [_ Hin]%list_elem_of_filter)%list_elem_of_fmap.
  apply Hx. rewrite Hy. by apply list_elem_of_fmap_2.
Qed.

(** ** Ending the work of a session *)
Section closing.
Context `{!Externals}.
Implicit Types (s : CoreAgentState) (run : ActiveRun).

Definition status_of s : CoreAgentStatus := s.(CoreAgentState.lifecycle).(LifecycleState.status).
Definition queued_of s : list AcceptedRun := s.(CoreAgentState.runs).(RunsState.queued).
Definition approval_id_of (record : ApprovalRecord) : ApprovalId :=
  record.(ApprovalRecord.request).(ApprovalRequested.approval_id).

(** What ending the approvals and the run of a session leaves alone. *)
Record unended (queued : list AcceptedRun) (promises : PromiseComponentState)
    (context : ContextState) s : Prop := {
  unended_open : status_of s = CoreAgentStatus.Open;
  unended_queued : queued_of s = queued;
  unended_promises : s.(CoreAgentState.promises) = promises;
  unended_context : s.(CoreAgentState.context) = context;
}.

(** The approvals [records] of the active run are still to be cancelled. *)
Definition approvals_left queued promises context run_id (records : list ApprovalRecord) s : Prop :=
  unended queued promises context s ∧ NoDup (approval_id_of <$> records) ∧
  ∃ run, active_run s = Some run ∧ run.(ActiveRun.run_id) = run_id ∧
    is_nonterminal run.(ActiveRun.status) = true ∧
    Forall (λ record, run.(ActiveRun.approvals) !! approval_id_of record = Some record ∧
      record.(ApprovalRecord.request).(ApprovalRequested.run_id) = run_id ∧
      record.(ApprovalRecord.status) = ApprovalStatus.Pending) records.
Definition cancelled_approval run_id (record : ApprovalRecord) : CoreAgentEventProposal :=
  proposal (run_joins run_id)
    (CoreAgentEvent.Approval (ApprovalEvent.Cancelled (approval_id_of record) run_id)).
Lemma cancel_next_approval queued promises context run_id record records at_ms s :
  approvals_left queued promises context run_id (record :: records) s →
  ∃ s1, apply_event_kind (committed_entry (following_seq s.(CoreAgentState.reduced_to)) at_ms
      (cancelled_approval run_id record)) s = (Ok tt, s1) ∧
    approvals_left queued promises context run_id records (advanced s1).
Proof.
  intros ([Hopen Hq Hp Hc] & Hnd & run & Ha & Hid & Hst & Hrecords).
  apply Forall_cons in Hrecords as [(Hr & Hrid & Hpending) Hrecords].
  rewrite fmap_cons in Hnd. apply NoDup_cons in Hnd as [Hnew Hnd]. eexists. split.
  - unfold apply_event_kind. cbn [committed_entry cancelled_approval proposal
      CoreAgentEntry.event CoreAgentEventProposal.event]. cbn [apply_approval_event].
    runs; [|by apply active_run_ref_Ok]. runs; [reflexivity|].
    unfold answerable_approval. rewrite Hr. cbn [ok_or mbind Result_bind].
    rewrite Hrid, Hpending. by rewrite !bool_decide_eq_false_2 by auto.
  - split; [done|]. split; [done|]. eexists. split; [done|]. split_and!; [done|done|].
    rewrite Forall_forall in Hrecords |- *. intros r Hin. destruct (Hrecords r Hin) as (Hr' & ? & ?).
    split; [|done]. cbn. rewrite lookup_insert_ne; [done|]. intros Heq. apply Hnew. rewrite Heq.
    by apply list_elem_of_fmap_2.
Qed.

(** The run is cancelled, and nothing waits on it. *)
Lemma force_cancel_next queued promises context run_id at_ms s :
  approvals_left queued promises context run_id [] s →
  ∃ s1, apply_event_kind (committed_entry (following_seq s.(CoreAgentState.reduced_to)) at_ms
      (Admit.run_event run_id (RunEvent.ForceCancelled run_id))) s = (Ok tt, s1) ∧
    active_run s1 = None ∧ unended queued (prune_promises promises) context (advanced s1).
Proof.
  intros ([Hopen Hq Hp Hc] & _ & run & Ha & Hid & Hst & _).
  set (seq := following_seq s.(CoreAgentState.reduced_to)).
  set (s1 := set_runs (λ runs,
    push_finished (finished_record run RunStatus.Cancelled None None seq at_ms)
      (runs <| RunsState.active := None |>)) (interrupt_code_tools_for_run run_id s)).
  destruct (prune_finished_work_frame s1) as (_ & _ & Hlifecycle & Hruns & Hcontext & _).
  exists (prune_finished_work s1). split_and!.
  - unfold apply_event_kind. cbn [committed_entry Admit.run_event proposal CoreAgentEntry.event
      CoreAgentEventProposal.event]. cbn [apply_run_event]. runs; [|by rewrite Ha].
    runs; [|by rewrite Hst]. unfold finish_active_run.
    runs; [|by apply active_run_ref_Ok]. done.
  - unfold active_run. by rewrite Hruns.
  - split.
    + unfold status_of. change (CoreAgentState.lifecycle (advanced _)) with
        (CoreAgentState.lifecycle (prune_finished_work s1)). by rewrite Hlifecycle.
    + unfold queued_of. change (CoreAgentState.runs (advanced _)) with
        (CoreAgentState.runs (prune_finished_work s1)). by rewrite Hruns.
    + change (CoreAgentState.promises (advanced _)) with
        (CoreAgentState.promises (prune_finished_work s1)).
      rewrite prune_finished_work_promises. by rewrite <- Hp.
    + change (CoreAgentState.context (advanced _)) with
        (CoreAgentState.context (prune_finished_work s1)). by rewrite Hcontext.
Qed.

(** The queue is cancelled from the front. *)
Definition queue_left promises context (queued : list AcceptedRun) s : Prop :=
  unended queued promises context s ∧ active_run s = None.
Definition cancelled_queued (queued : AcceptedRun) : CoreAgentEventProposal :=
  Admit.run_event queued.(AcceptedRun.run_id)
    (RunEvent.QueuedCancelled queued.(AcceptedRun.run_id) None).
Lemma cancel_next_queued promises context queued rest at_ms s :
  queue_left promises context (queued :: rest) s →
  ∃ s1, apply_event_kind (committed_entry (following_seq s.(CoreAgentState.reduced_to)) at_ms
      (cancelled_queued queued)) s = (Ok tt, s1) ∧ queue_left promises context rest (advanced s1).
Proof.
  intros [[Hopen Hq Hp Hc] Ha].
  assert (list_find (λ q, q.(AcceptedRun.run_id) = queued.(AcceptedRun.run_id))
    s.(CoreAgentState.runs).(RunsState.queued) = Some (0%nat, queued)) as Hfind.
  { unfold queued_of in Hq. rewrite Hq. cbn. by rewrite decide_True. }
  eexists. split.
  - unfold apply_event_kind. cbn [committed_entry cancelled_queued Admit.run_event proposal
      CoreAgentEntry.event CoreAgentEventProposal.event]. cbn [apply_run_event].
    unfold cancel_queued. runs.
    rewrite (bind_runs _ _ _ (0%nat, queued) s); [reflexivity|].
    by apply lift_runs, ok_or_Ok.
  - split; [split; try done|done]. change (delete 0%nat (queued_of s) = rest). by rewrite Hq.
Qed.

(** The promises [left] of the session are still to be cancelled. *)
Record promises_left context (left : list Promise) s : Prop := {
  left_open : status_of s = CoreAgentStatus.Open;
  left_idle : active_run s = None ∧ queued_of s = [];
  left_context : s.(CoreAgentState.context) = context;
  left_keyed : promises_keyed s;
  left_distinct : NoDup (Promise.promise_id <$> left);
  left_pending : Forall (λ promise, promise_map s !! promise.(Promise.promise_id) = Some promise ∧
    promise.(Promise.status) = PromiseStatus.Pending) left;
  left_all : ∀ id promise, promise_map s !! id = Some promise →
    promise.(Promise.status) = PromiseStatus.Pending →
    promise.(Promise.scope) = PromiseScope.Session → promise ∈ left;
}.
Definition cancelled_promise (promise : Promise) : CoreAgentEventProposal :=
  Admit.session_event (CoreAgentEvent.Promise (PromiseEvent.Cancelled promise.(Promise.promise_id))).
Lemma cancel_next_promise context promise left at_ms s :
  promises_left context (promise :: left) s →
  ∃ s1, apply_event_kind (committed_entry (following_seq s.(CoreAgentState.reduced_to)) at_ms
      (cancelled_promise promise)) s = (Ok tt, s1) ∧ promises_left context left (advanced s1).
Proof.
  intros [Hopen Hidle Hc Hkeyed Hnd Hpending Hall]. rewrite fmap_cons in Hnd.
  apply NoDup_cons in Hnd as [Hnew Hnd]. apply Forall_cons in Hpending as [[Hp Hst] Hpending].
  eexists. split.
  - unfold apply_event_kind. cbn [committed_entry cancelled_promise Admit.session_event proposal
      CoreAgentEntry.event CoreAgentEventProposal.event]. cbn [apply_promise_event].
    unfold pending_promise_mut. runs; [reflexivity|].
    unfold pending_promise_ref. unfold promise_map in Hp. rewrite Hp. cbn. by rewrite Hst.
  - split; try done.
    + simple refine (put_promise_keyed _ _ s Hkeyed _); reflexivity.
    + rewrite Forall_forall in Hpending |- *. intros p Hin. destruct (Hpending p Hin) as [Hp' ?].
      split; [|done]. unfold promise_map in *. cbn. rewrite lookup_insert_ne; [done|].
      intros Heq. apply Hnew, list_elem_of_fmap. by exists p.
    + intros id p. unfold promise_map. cbn. rewrite lookup_insert_Some.
      intros [[<- <-]|[Hne Hin]] Hst' Hsc; [done|].
      specialize (Hall id p Hin Hst' Hsc). apply elem_of_cons in Hall as [->|]; [|done].
      destruct Hne. by apply Hkeyed.
Qed.

(** ** Closing *)
Lemma close_next context at_ms s :
  promises_left context [] s →
  ∃ s1, apply_event_kind (committed_entry (following_seq s.(CoreAgentState.reduced_to)) at_ms
      (Admit.session_event (CoreAgentEvent.Lifecycle CoreAgentLifecycleEvent.Closed))) s
      = (Ok tt, s1) ∧
    status_of s1 = CoreAgentStatus.Closed ∧ active_run s1 = None ∧ queued_of s1 = [] ∧
    s1.(CoreAgentState.context) = context ∧
    ∀ id promise, promise_map s1 !! id = Some promise →
      promise.(Promise.status) = PromiseStatus.Pending → promise.(Promise.scope) ≠ PromiseScope.Session.
Proof.
  intros [Hopen [Ha Hq] Hc Hkeyed _ _ Hall]. eexists. split.
  - unfold apply_event_kind. cbn [committed_entry Admit.session_event proposal
      CoreAgentEntry.event CoreAgentEventProposal.event]. unfold apply_lifecycle_event.
    runs. runs; [runs; [reflexivity|]|].
    + change (RunsState.active _) with (active_run s). change (RunsState.queued _) with (queued_of s).
      rewrite Ha, Hq. cbn. apply not_true_is_false.
      intros (p & Hin%list_elem_of_In & Hscope%bool_decide_eq_true)%existsb_exists.
      apply list_elem_of_filter in Hin as [Hst Hin].
      apply list_elem_of_fmap in Hin as ([id p'] & -> & Hin%elem_of_btree).
      by apply (Hall id p' Hin Hst), not_elem_of_nil in Hscope.
    + apply bool_decide_eq_false_2. intros Hn. exact (Hn Hopen).
  - split_and!; try done. intros id p Hp Hst Hsc.
    by apply (Hall id p Hp Hst), not_elem_of_nil in Hsc.
Qed.

Lemma elem_of_session_promises s promise :
  promises_keyed s →
  promise ∈ session_promises s ↔ promise_map s !! promise.(Promise.promise_id) = Some promise ∧
    promise.(Promise.status) = PromiseStatus.Pending ∧
    promise.(Promise.scope) = PromiseScope.Session.
Proof.
  intros Hk. unfold session_promises, is_session_promise.
  rewrite list_elem_of_In, filter_In, <- list_elem_of_In, bool_decide_eq_true.
  unfold PromiseComponentState_pending. rewrite list_elem_of_filter.
  assert (promise ∈ btree_values s.(CoreAgentState.promises).(PromiseComponentState.promises) ↔
    promise_map s !! promise.(Promise.promise_id) = Some promise) as ->; [|naive_solver].
  unfold btree_values. rewrite list_elem_of_fmap. split.
  - intros ([id p] & -> & Hin%elem_of_btree). simpl. by rewrite (Hk id p Hin).
  - intros Hin. exists (promise.(Promise.promise_id), promise). split; [done|].
    by apply elem_of_btree.
Qed.
Lemma session_promises_distinct s :
  promises_keyed s → NoDup (Promise.promise_id <$> session_promises s).
Proof.
  intros Hk. apply NoDup_fmap_bool_filter, NoDup_fmap_filter.
  assert (Promise.promise_id <$> btree_values s.(CoreAgentState.promises)
    .(PromiseComponentState.promises)
    = btree_keys s.(CoreAgentState.promises).(PromiseComponentState.promises)) as ->;
    [|apply btree_keys_NoDup].
  unfold btree_values, btree_keys. rewrite <- list_fmap_compose. apply list_fmap_ext.
  intros _ [id p] Hin%list_elem_of_lookup_2%elem_of_btree. by apply Hk.
Qed.
(** Ending the run sweeps settled promises at most: those of the session are all left. *)
Lemma promises_left_start s s' :
  reachable s → swept s s' → status_of s' = CoreAgentStatus.Open → active_run s' = None →
  queued_of s' = [] → promises_left s'.(CoreAgentState.context) (session_promises s) s'.
Proof.
  intros Hr Hs Hopen Ha Hq. pose proof (reachable_keyed s Hr) as Hk. split; [done|done|done| | | |].
  - intros id p Hp. by eapply Hk, swept_lookup.
  - by apply session_promises_distinct.
  - apply Forall_forall. intros p (Hp & Hst & _)%elem_of_session_promises; [|done].
    split; [|done]. eapply swept_pending; [by apply reachable_settled_wf|done..].
  - intros id p Hp%(swept_lookup _ _ _ _ Hs) Hst Hsc. apply elem_of_session_promises; [done|].
    by rewrite (Hk id p Hp).
Qed.

(** A compaction that is under way or queued is abandoned. *)
Definition context_revision s : N := s.(CoreAgentState.context).(ContextState.revision).
Lemma bump_runs s :
  (context_revision s < u64_max)%N →
  bump_context_revision s = (Ok tt, set_context (λ context,
    context <| ContextState.revision := (context_revision s + 1)%N |>) s).
Proof.
  intros Hrev. unfold bump_context_revision. runs.
  rewrite (bind_runs _ _ _ (context_revision s + 1)%N s); [done|].
  apply lift_runs, ok_or_Ok. unfold next_u64, checked_add_u64.
  fold (context_revision s). by rewrite (proj2 (N.leb_le _ _)) by lia.
Qed.
Lemma settle_failed_revision s :
  context_revision (set_phase ContextCompactionPhase.Idle
    (settle_compaction ContextCompactionStatus.Failed s)) = context_revision s.
Proof. unfold settle_compaction. by case_match. Qed.
Lemma finish_failed_runs s :
  open_compaction s = true → (context_revision s < u64_max)%N →
  ∃ s1, finish_compaction ContextCompactionStatus.Failed None None s = (Ok tt, s1) ∧
    open_compaction s1 = false.
Proof.
  intros Hc Hrev. eexists. split.
  - unfold finish_compaction. runs; [|done]. runs. runs.
    + runs. runs. runs.
      rewrite (bind_runs _ _ _ _ _ (bump_runs (set_phase ContextCompactionPhase.Idle
        (settle_compaction ContextCompactionStatus.Failed s))
        ltac:(by rewrite settle_failed_revision))). reflexivity.
    + unfold open_compaction in Hc. by destruct (is_pending _), (is_queued _).
  - by destruct (compaction_is_manual (compaction_state s)).
Qed.
Lemma abandon_next at_ms s :
  open_compaction s = true → (context_revision s < u64_max)%N →
  ∃ s1, apply_event_kind (committed_entry (following_seq s.(CoreAgentState.reduced_to)) at_ms
      (compaction_abandoned_proposal s)) s = (Ok tt, s1) ∧
    open_compaction s1 = false ∧
    keeps [Part.lifecycle; Part.run_records; Part.run_work; Part.approvals; Part.promises] s s1.
Proof.
  intros Hc Hrev. destruct (finish_failed_runs s Hc Hrev) as (s1 & Hs1 & Hidle).
  exists s1. assert (apply_event_kind (committed_entry (following_seq
    s.(CoreAgentState.reduced_to)) at_ms (compaction_abandoned_proposal s)) s = (Ok tt, s1)) as Hk.
  { change (apply_context_event (ContextEvent.CompactionFinished (context_revision s)
      ContextCompactionStatus.Failed None None 0) s = (Ok tt, s1)).
    cbn [apply_context_event]. unfold validate_base_revision. runs; [exact Hs1|].
    unfold context_revision. by rewrite N.eqb_refl. }
  split_and!; [done|done|].
  pose proof (wp_ok_inv _ _ _ _ _ (apply_context_event_frame _ s) Hk) as Hkeeps.
  by eapply keeps_sub; [|exact Hkeeps].
Qed.

(** The parts of a forced close, one after the other. *)
Lemma abandon_compaction at_ms s :
  reachable s → status_of s = CoreAgentStatus.Open → (context_revision s < u64_max)%N →
  let ps := if open_compaction s then [compaction_abandoned_proposal s] else [] in
  (log_length s + N.of_nat (length ps) <= u64_max)%N →
  ∃ s1, reduce_proposals at_ms ps s = (Ok tt, s1) ∧
    log_length s1 = (log_length s + N.of_nat (length ps))%N ∧ open_compaction s1 = false ∧
    unended (queued_of s) s.(CoreAgentState.promises) s1.(CoreAgentState.context) s1 ∧
    run_work <$> active_run s1 = run_work <$> active_run s ∧
    run_approvals <$> active_run s1 = run_approvals <$> active_run s.
Proof.
  intros Hr Hopen Hrev ps Hroom. unfold ps in *. destruct (open_compaction s) eqn:Hc.
  - destruct (abandon_next at_ms s Hc Hrev) as (s1 & Hk & Hidle & Hkeeps). simpl in Hroom.
    destruct (apply_event_next at_ms _ s s1 ltac:(lia) Hk) as [_ Hred].
    exists (advanced s1). split; [eapply dry_run_step; [lia|exact Hk|done]|].
    split; [rewrite (log_length_advanced s s1) by (done || lia); simpl; lia|].
    split; [done|]. split; [split; try done|].
    + pose proof (keeps_lookup _ Part.lifecycle _ _ Hkeeps eq_refl) as Hl. simpl in Hl.
      unfold status_of in *. change (CoreAgentState.lifecycle (advanced s1)) with
        (CoreAgentState.lifecycle s1). by rewrite Hl.
    + by destruct (keeps_lookup _ Part.run_records _ _ Hkeeps eq_refl).
    + exact (keeps_lookup _ Part.promises _ _ Hkeeps eq_refl).
    + split; [exact (keeps_lookup _ Part.run_work _ _ Hkeeps eq_refl)
        |exact (keeps_lookup _ Part.approvals _ _ Hkeeps eq_refl)].
  - exists s. split_and!; try done. simpl. lia.
Qed.
Definition run_ending run : list CoreAgentEventProposal :=
  pending_approval_cancellations run
  ++ [Admit.run_event run.(ActiveRun.run_id) (RunEvent.ForceCancelled run.(ActiveRun.run_id))].
Lemma approvals_left_start s s1 run queued promises context :
  reachable s → active_run s = Some run → unended queued promises context s1 →
  run_work <$> active_run s1 = run_work <$> active_run s →
  run_approvals <$> active_run s1 = run_approvals <$> active_run s →
  approvals_left queued promises context run.(ActiveRun.run_id) (pending_approvals run) s1.
Proof.
  intros Hr Ha Hun Hwork Happrovals.
  pose proof (reachable_filed s Hr run Ha) as Hfiled.
  pose proof (work_status _ _ (reachable_run_wf s Hr run Ha)) as Hst.
  rewrite Ha in Hwork, Happrovals. destruct (active_run s1) as [run1|] eqn:Ha1; [|done].
  simpl in Hwork, Happrovals. injection Hwork as Hid Hstatus _ _ _ _ _ _.
  injection Happrovals as _ Happrovals.
  assert (∀ record, record ∈ pending_approvals run →
    run.(ActiveRun.approvals) !! approval_id_of record = Some record ∧
    record.(ApprovalRecord.request).(ApprovalRequested.run_id) = run.(ActiveRun.run_id) ∧
    record.(ApprovalRecord.status) = ApprovalStatus.Pending) as Hpending.
  { intros record [Hs Hin]%list_elem_of_filter.
    apply list_elem_of_fmap in Hin as ([id r] & -> & Hin%elem_of_btree).
    destruct (Hfiled id r Hin) as [Hid' ?]. simpl. unfold approval_id_of. by rewrite Hid'. }
  split; [done|]. split.
  - unfold pending_approvals. apply NoDup_fmap_filter. unfold btree_values.
    rewrite <- list_fmap_compose.
    assert (approval_id_of ∘ snd <$> btree_to_list run.(ActiveRun.approvals)
      = btree_keys run.(ActiveRun.approvals)) as ->; [|apply btree_keys_NoDup].
    unfold btree_keys. apply list_fmap_ext.
    intros _ [id r] Hin%list_elem_of_lookup_2%elem_of_btree. by apply (Hfiled id r).
  - exists run1. split_and!; [done|done|by rewrite Hstatus|].
    rewrite Happrovals. by apply Forall_forall.
Qed.
Lemma end_active_run at_ms s s1 run :
  reachable s → active_run s = Some run →
  unended (queued_of s) s.(CoreAgentState.promises) s1.(CoreAgentState.context) s1 →
  run_work <$> active_run s1 = run_work <$> active_run s →
  run_approvals <$> active_run s1 = run_approvals <$> active_run s →
  (log_length s1 + N.of_nat (length (run_ending run)) <= u64_max)%N →
  ∃ s2, reduce_proposals at_ms (run_ending run) s1 = (Ok tt, s2) ∧
    log_length s2 = (log_length s1 + N.of_nat (length (run_ending run)))%N ∧
    active_run s2 = None ∧
    unended (queued_of s) (prune_promises s.(CoreAgentState.promises))
      s1.(CoreAgentState.context) s2.
Proof.
  intros Hr Ha Hun Hwork Happrovals Hroom. unfold run_ending in *.
  rewrite length_app in *. simpl in Hroom.
  pose proof (approvals_left_start s s1 run _ _ _ Hr Ha Hun Hwork Happrovals) as Hstart.
  unfold pending_approval_cancellations in *. rewrite length_fmap in *.
  destruct (dry_run_each
    (approvals_left (queued_of s) s.(CoreAgentState.promises) s1.(CoreAgentState.context)
       run.(ActiveRun.run_id)) (cancelled_approval run.(ActiveRun.run_id)) at_ms
    (pending_approvals run) s1) as (s2 & Hd & Hleft & Hlen); [|lia|done|].
  { intros record records s' Hs'. by apply cancel_next_approval. }
  destruct (force_cancel_next _ _ _ _ at_ms s2 Hleft) as (s3 & Hk & Hnone & Hun3).
  destruct (apply_event_next at_ms _ s2 s3 ltac:(lia) Hk) as [_ Hred].
  exists (advanced s3). split.
  - apply reduce_proposals_app. exists s2. split; [exact Hd|].
    eapply dry_run_step; [lia|exact Hk|done].
  - split; [rewrite (log_length_advanced s2 s3) by (done || lia); simpl; lia|]. done.
Qed.

Definition active_ending s : list CoreAgentEventProposal :=
  match active_run s with Some run => run_ending run | None => [] end.
Lemma end_active at_ms s s1 :
  reachable s →
  unended (queued_of s) s.(CoreAgentState.promises) s1.(CoreAgentState.context) s1 →
  run_work <$> active_run s1 = run_work <$> active_run s →
  run_approvals <$> active_run s1 = run_approvals <$> active_run s →
  (log_length s1 + N.of_nat (length (active_ending s)) <= u64_max)%N →
  ∃ s2 promises, reduce_proposals at_ms (active_ending s) s1 = (Ok tt, s2) ∧
    log_length s2 = (log_length s1 + N.of_nat (length (active_ending s)))%N ∧
    active_run s2 = None ∧ swept s s2 ∧
    unended (queued_of s) promises s1.(CoreAgentState.context) s2.
Proof.
  intros Hr Hun Hwork Happrovals. unfold active_ending. destruct (active_run s) as [run|] eqn:Ha.
  - intros Hroom. destruct (end_active_run at_ms s s1 run) as (s2 & Hd & Hlen & Hnone & Hun2);
      [done|done|done|by rewrite Ha|by rewrite Ha|done|].
    exists s2. eexists. split_and!; [done|done|done| |exact Hun2].
    right. exact (unended_promises _ _ _ _ Hun2).
  - intros _. exists s1, s.(CoreAgentState.promises). split_and!; [done|simpl; lia| | |done].
    + by destruct (active_run s1).
    + left. exact (unended_promises _ _ _ _ Hun).
Qed.

(** The state a forced close ends in. *)
Definition ended context s : Prop :=
  status_of s = CoreAgentStatus.Closed ∧ active_run s = None ∧ queued_of s = [] ∧
  s.(CoreAgentState.context) = context ∧
  ∀ id promise, promise_map s !! id = Some promise →
    promise.(Promise.status) = PromiseStatus.Pending → promise.(Promise.scope) ≠ PromiseScope.Session.
Definition rest_ending s : list CoreAgentEventProposal :=
  (cancelled_queued <$> queued_of s) ++ (cancelled_promise <$> session_promises s)
  ++ [Admit.session_event (CoreAgentEvent.Lifecycle CoreAgentLifecycleEvent.Closed)].
Lemma end_rest at_ms s s2 promises context :
  reachable s → swept s s2 → active_run s2 = None → unended (queued_of s) promises context s2 →
  (log_length s2 + N.of_nat (length (rest_ending s)) <= u64_max)%N →
  ∃ s', reduce_proposals at_ms (rest_ending s) s2 = (Ok tt, s') ∧ ended context s'.
Proof.
  intros Hr Hswept Hnone Hun Hroom. unfold rest_ending in *.
  rewrite !length_app, !length_fmap in Hroom. simpl in Hroom.
  destruct (dry_run_each (queue_left promises context) cancelled_queued at_ms (queued_of s) s2)
    as (s3 & Hd3 & [Hun3 Hnone3] & Hlen3); [|lia|done|].
  { intros queued rest s' Hs'. by apply cancel_next_queued. }
  assert (swept s s3) as Hswept3.
  { unfold swept. rewrite (unended_promises _ _ _ _ Hun3), <- (unended_promises _ _ _ _ Hun).
    exact Hswept. }
  pose proof (promises_left_start s s3 Hr Hswept3 (unended_open _ _ _ _ Hun3) Hnone3
    (unended_queued _ _ _ _ Hun3)) as Hleft.
  rewrite (unended_context _ _ _ _ Hun3) in Hleft.
  destruct (dry_run_each (promises_left context) cancelled_promise at_ms (session_promises s) s3)
    as (s4 & Hd4 & Hleft4 & Hlen4); [|lia|done|].
  { intros p rest s' Hs'. by apply cancel_next_promise. }
  destruct (close_next context at_ms s4 Hleft4) as (s5 & Hk & Hended).
  exists (advanced s5). split; [|exact Hended].
  apply reduce_proposals_app. exists s3. split; [done|].
  apply reduce_proposals_app. exists s4. split; [done|].
  eapply dry_run_step; [lia|exact Hk|done].
Qed.

(** C2. Closing by force always succeeds. An open session, whatever it is doing - a
    compaction, a model call, tool calls, a run parked on approvals, runs in the queue,
    promises of its own - admits a forced close, and every event it proposes is taken one
    after the other as long as the counters have room: the session ends closed, with no
    active and no queued run, no compaction and no pending promise of its own. *)
Theorem forced_close_lands s at_ms :
  reachable s → status_of s = CoreAgentStatus.Open → (context_revision s < u64_max)%N →
  ∃ proposals, close_session s true = Ok proposals ∧
    ((log_length s + N.of_nat (length proposals) <= u64_max)%N →
     ∃ s', reduce_proposals at_ms proposals s = (Ok tt, s') ∧
       status_of s' = CoreAgentStatus.Closed ∧ active_run s' = None ∧ queued_of s' = [] ∧
       open_compaction s' = false ∧
       ∀ id promise, promise_map s' !! id = Some promise →
         promise.(Promise.status) = PromiseStatus.Pending →
         promise.(Promise.scope) ≠ PromiseScope.Session).
Proof.
  intros Hr Hopen Hrev.
  exists (ending_events s ++ [session_event (CoreAgentEvent.Lifecycle CoreAgentLifecycleEvent.Closed)]).
  split.
  { unfold close_session, require_open. fold (status_of s). by rewrite Hopen. }
  set (abandon := if open_compaction s then [compaction_abandoned_proposal s] else []).
  assert (ending_events s ++ [session_event (CoreAgentEvent.Lifecycle CoreAgentLifecycleEvent.Closed)]
    = abandon ++ active_ending s ++ rest_ending s) as ->.
  { unfold ending_events. by rewrite <- !app_assoc. }
  rewrite !length_app. intros Hroom.
  destruct (abandon_compaction at_ms s Hr Hopen Hrev)
    as (s1 & Hd1 & Hlen1 & Hidle & Hun1 & Hwork & Happrovals); [fold abandon; lia|].
  fold abandon in Hd1, Hlen1.
  destruct (end_active at_ms s s1 Hr Hun1 Hwork Happrovals)
    as (s2 & promises & Hd2 & Hlen2 & Hnone & Hswept & Hun2); [lia|].
  destruct (end_rest at_ms s s2 promises _ Hr Hswept Hnone Hun2)
    as (s3 & Hd3 & Hclosed & Hnone3 & Hq3 & Hcontext & Hpending); [lia|].
  exists s3. split.
  { apply reduce_proposals_app. exists s1. split; [done|]. apply reduce_proposals_app. by exists s2. }
  split_and!; try done. unfold open_compaction, compaction_state in *. by rewrite Hcontext.
Qed.
End closing.

(** ** Witness *)
(** The session with a model call under way and a promise of its own. *)
Lemma forced_close_lands_witness :
  is_Some (active_run promising_state) ∧ session_promises promising_state ≠ [] ∧
  ∃ proposals s', close_session promising_state true = Ok proposals ∧
    reduce_proposals 2000 proposals promising_state = (Ok tt, s') ∧
    status_of s' = CoreAgentStatus.Closed.
Proof.
  split; [vm_compute; by eexists|]. split; [vm_compute; discriminate|].
  destruct (forced_close_lands promising_state 2000 promising_reachable)
    as (proposals & Hclose & Hlands); [vm_compute; reflexivity|vm_compute; reflexivity|].
  assert (match close_session promising_state true with
          | Ok ps => (log_length promising_state + N.of_nat (length ps) <= u64_max)%N
          | Err _ => False end) as Hroom by (vm_compute; discriminate).
  rewrite Hclose in Hroom. destruct (Hlands Hroom) as (s' & Hrun & Hclosed & _).
  exists proposals, s'. split; [exact Hclose|]. split; [exact Hrun|exact Hclosed].
Defined.
