(* ===== verification/DigestLaws.v ===== *)
(** * Laws of digests

    A digest of length-prefixed parts determines the parts: what the identities of the core
    hash tells apart everything it was derived from ([emission.rs],
    [core/components/workflow_tool.rs]). *)
From Stdlib Require Import Ascii.
From S2P Require Import Prelude Ids Text Types Events Commands Externals RunState ToolSpecs.
From S2P Require Import WorkflowTools Bindings.

(** ** Big-endian bytes *)
Lemma string_app_inj (s1 s2 t1 t2 : string) :
  String.length s1 = String.length s2 → s1 +:+ t1 = s2 +:+ t2 → s1 = s2 ∧ t1 = t2.
Proof.
  revert s2. induction s1 as [|a s1 IH]; intros [|b s2] Hl; simpl in *; try done.
  intros [= -> Ht]. destruct (IH s2) as [-> ->]; [lia|done|done].
Qed.
Lemma be_bytes_length width n : String.length (be_bytes width n) = width.
Proof.
  revert n. induction width as [|width IH]; intros n; [done|].
  cbn [be_bytes]. rewrite append_length, IH. simpl. lia.
Qed.
Lemma be_bytes_inj width n m :
  (n < 256 ^ N.of_nat width)%N → (m < 256 ^ N.of_nat width)%N →
  be_bytes width n = be_bytes width m → n = m.
Proof.
  revert n m. induction width as [|width IH]; intros n m Hn Hm He.
  { simpl in *. lia. }
  cbn [be_bytes] in He. apply string_app_inj in He as [He Hc]; [|by rewrite !be_bytes_length].
  injection Hc as Hc. apply (f_equal Ascii.N_of_ascii) in Hc.
  rewrite !Ascii.N_ascii_embedding in Hc by (by apply N.mod_lt).
  assert (256 ^ N.of_nat (S width) = 256 * 256 ^ N.of_nat width)%N as Hpow.
  { rewrite Nat2N.inj_succ. apply N.pow_succ_r. lia. }
  apply IH in He; [| |].
  - rewrite (N.div_mod n 256), (N.div_mod m 256) by done. by rewrite He, Hc.
  - apply N.Div0.div_lt_upper_bound. lia.
  - apply N.Div0.div_lt_upper_bound. lia.
Qed.

(** ** Parts *)
(** A part whose length fits its prefix. *)
Definition fits (part : string) : Prop := (N.of_nat (String.length part) < 256 ^ 8)%N.
Lemma digest_parts_inj parts1 parts2 :
  Forall fits parts1 → Forall fits parts2 → digest_parts parts1 = digest_parts parts2 →
  parts1 = parts2.
Proof.
  intros H1. revert parts2. induction H1 as [|p1 parts1 Hp1 _ IH]; intros parts2 H2 He.
  - destruct parts2 as [|p2 parts2]; [done|]. apply (f_equal String.length) in He.
    cbn [digest_parts foldr] in He. unfold digest_part, u64_be_bytes in He.
    rewrite !append_length, be_bytes_length in He. simpl in He. lia.
  - destruct parts2 as [|p2 parts2].
    { apply (f_equal String.length) in He. cbn [digest_parts foldr] in He.
      unfold digest_part, u64_be_bytes in He.
      rewrite !append_length, be_bytes_length in He. simpl in He. lia. }
    apply Forall_cons in H2 as [Hp2 H2]. cbn [digest_parts foldr] in He.
    unfold digest_part, u64_be_bytes in He. rewrite !string_app_assoc in He.
    apply string_app_inj in He as [Hlen He]; [|by rewrite !be_bytes_length].
    apply be_bytes_inj in Hlen; [|done|done]. apply Nat2N.inj in Hlen.
    apply string_app_inj in He as [-> He]; [|done]. f_equal. by apply IH.
Qed.

(** ** Emissions *)
(** What an emission states under an id of its own making. *)
Module EmissionFact.
Inductive EmissionFact : Type :=
| RunTerminal (universe_id : Uuid) (session_id : SessionId) (run_id : RunId) (token : string)
| SourceResolution (universe_id : Uuid) (workflow_id holder_workflow_id : string)
    (promise_id : PromiseId)
| InvocationCancellation (invocation_id : WorkflowToolInvocationId) (completion_key : string).
End EmissionFact.
Abbreviation EmissionFact := EmissionFact.EmissionFact.

Section emissions.
Context `{!Externals}.

Definition fact_parts (fact : EmissionFact) : string * list string :=
  match fact with
  | EmissionFact.RunTerminal universe_id session_id run_id token =>
      ("run_terminal", [uuid_to_string universe_id; session_id; u64_be_bytes run_id; token])
  | EmissionFact.SourceResolution universe_id workflow_id holder promise_id =>
      ("source_resolution",
       [uuid_to_string universe_id; workflow_id; holder; PromiseId_from_number promise_id])
  | EmissionFact.InvocationCancellation invocation_id completion_key =>
      ("invocation_cancellation", [invocation_id; completion_key])
  end.
Definition fact_bytes (fact : EmissionFact) : string :=
  emission_bytes (fact_parts fact).1 (fact_parts fact).2.
Definition fact_id (fact : EmissionFact) : EmissionId :=
  match fact with
  | EmissionFact.RunTerminal universe_id session_id run_id token =>
      EmissionId_for_run_terminal universe_id session_id run_id token
  | EmissionFact.SourceResolution universe_id workflow_id holder promise_id =>
      EmissionId_for_source_resolution universe_id workflow_id holder promise_id
  | EmissionFact.InvocationCancellation invocation_id completion_key =>
      EmissionId_for_invocation_cancellation invocation_id completion_key
  end.
(** The numbers and the lengths fit their widths. *)
Definition fact_fits (fact : EmissionFact) : Prop :=
  Forall fits (fact_parts fact).2 ∧
  match fact with
  | EmissionFact.RunTerminal universe_id _ run_id _ => (universe_id < 2 ^ 128 ∧ run_id <= u64_max)%N
  | EmissionFact.SourceResolution universe_id _ _ promise_id =>
      (universe_id < 2 ^ 128 ∧ promise_id <= u64_max)%N
  | EmissionFact.InvocationCancellation _ _ => True
  end.

Lemma uuid_to_string_inj u v :
  (u < 2 ^ 128)%N → (v < 2 ^ 128)%N → uuid_to_string u = uuid_to_string v → u = v.
Proof.
  intros Hu%uuid_roundtrip Hv%uuid_roundtrip He. rewrite He in Hu. congruence.
Qed.
Lemma PromiseId_from_number_inj n m :
  (n <= u64_max)%N → (m <= u64_max)%N → PromiseId_from_number n = PromiseId_from_number m → n = m.
Proof.
  intros Hn%promise_id_roundtrip Hm%promise_id_roundtrip He. rewrite He in Hn. congruence.
Qed.
Lemma u64_be_bytes_inj n m :
  (n <= u64_max)%N → (m <= u64_max)%N → u64_be_bytes n = u64_be_bytes m → n = m.
Proof.
  intros Hn Hm. apply be_bytes_inj; (eapply N.le_lt_trans; [eassumption|done]).
Qed.

#[local] Opaque be_bytes u64_be_bytes uuid_to_string PromiseId_from_number.
(** Numbers are read part by part: their bytes are not to be computed. *)
Lemma next_part {x y : string} {l m : list string} : x :: l = y :: m → x = y ∧ l = m.
Proof. by injection 1. Qed.
Lemma same_ok {E} {x y : string} : @Ok E string x = Ok y → x = y.
Proof. by injection 1. Qed.
Lemma four_parts {k a b c d k' a' b' c' d' : string} :
  [k; a; b; c; d] = [k'; a'; b'; c'; d'] → a = a' ∧ b = b' ∧ c = c' ∧ d = d'.
Proof. by injection 1. Qed.
Lemma fact_parts_inj fact1 fact2 :
  fact_fits fact1 → fact_fits fact2 →
  [(fact_parts fact1).1] ++ (fact_parts fact1).2 = [(fact_parts fact2).1] ++ (fact_parts fact2).2 →
  fact1 = fact2.
Proof.
  intros [_ H1] [_ H2]. destruct fact1, fact2; cbn in H1, H2 |- *; try discriminate.
  - destruct H1, H2.
    intros (->%uuid_to_string_inj & -> & ->%u64_be_bytes_inj & ->)%four_parts; done.
  - destruct H1, H2.
    intros (->%uuid_to_string_inj & -> & -> & ->%PromiseId_from_number_inj)%four_parts; done.
  - by injection 1 as -> ->.
Qed.
(** Emission ids are as good as the facts they stand for. Every id is of the canonical
    form its parser accepts; it is the digest of bytes that determine the fact, its kind
    included, so that two facts share an id only if the hash collides, while the same fact
    recomputed after a retry or a restart has the same id. *)
Theorem emission_ids_identify_facts fact1 fact2 :
  fact_fits fact1 → fact_fits fact2 →
  EmissionId_parse (fact_id fact1) = Ok (fact_id fact1) ∧
  fact_id fact1 = EMISSION_ID_PREFIX +:+ sha256_hex (fact_bytes fact1) ∧
  (fact_bytes fact1 = fact_bytes fact2 → fact1 = fact2).
Proof.
  intros [H1 Hw1] [H2 Hw2]. assert (fact_id fact1
    = EMISSION_ID_PREFIX +:+ sha256_hex (fact_bytes fact1)) as Hid by by destruct fact1.
  split_and!; [|done|].
  - rewrite Hid. unfold EmissionId_parse, is_canonical_emission_id.
    by rewrite strip_prefix_app, sha256_hex_length, sha256_hex_lower.
  - unfold fact_bytes, emission_bytes. intros He. apply digest_parts_inj in He.
    + apply fact_parts_inj; [by split|by split|]. exact (f_equal (drop 1) He).
    + repeat constructor; [by destruct fact1|done].
    + repeat constructor; [by destruct fact2|done].
Qed.
End emissions.

Lemma emission_ids_identify_facts_witness :
  let fact := EmissionFact.RunTerminal 7 "session" 3 "token" in
  fact_fits fact ∧ EmissionId_parse (fact_id fact) = Ok (fact_id fact).
Proof.
  assert (fact_fits (EmissionFact.RunTerminal 7 "session" 3 "token")) as Hf.
  { split; [repeat constructor; vm_compute; reflexivity|vm_compute; split; [done|discriminate]]. }
  split; [exact Hf|]. exact (proj1 (emission_ids_identify_facts _ _ Hf Hf)).
Defined.

(** ** Fingerprints of bindings *)
(** An encoding by parts whose value and whose end can be read back, for values in [P]. *)
Definition unambiguous {A} (P : A → Prop) (enc : A → list string) : Prop :=
  ∀ a b rest1 rest2, P a → P b → enc a ++ rest1 = enc b ++ rest2 → a = b ∧ rest1 = rest2.

Definition fits_u32 (n : N) : Prop := (n < 256 ^ 4)%N.
Definition fits_u64 (n : N) : Prop := (n < 256 ^ 8)%N.
Definition fits_opt_u64 (n : option N) : Prop := match n with Some n => fits_u64 n | None => True end.
Definition target_fits (target : WorkflowToolTarget) : Prop :=
  match target with
  | WorkflowToolTarget.Bound _ _ => True
  | WorkflowToolTarget.Start start => fits_u32 start.(WorkflowStartRef.recipe_format)
      ∧ fits_u32 start.(WorkflowStartRef.recipe_revision)
  end.
Definition completion_fits (completion : WorkflowToolCompletion) : Prop :=
  match completion with
  | WorkflowToolCompletion.Accepted => True
  | WorkflowToolCompletion.Joined _ deadline_after_ms => fits_opt_u64 deadline_after_ms
  | WorkflowToolCompletion.Promises _ deadline_after_ms max_promises _ =>
      fits_opt_u64 deadline_after_ms ∧ fits_u32 max_promises
  end.

Lemma u32_be_bytes_inj n m : fits_u32 n → fits_u32 m → u32_be_bytes n = u32_be_bytes m → n = m.
Proof. exact (be_bytes_inj 4 n m). Qed.
Lemma u64_be_bytes_fits_inj n m :
  fits_u64 n → fits_u64 m → u64_be_bytes n = u64_be_bytes m → n = m.
Proof. exact (be_bytes_inj 8 n m). Qed.
Lemma u64_be_bytes_length n : String.length (u64_be_bytes n) = 8%nat.
Proof. exact (be_bytes_length 8 n). Qed.
#[local] Opaque be_bytes u32_be_bytes u64_be_bytes uuid_bytes.

Lemma optional_part_unambiguous : unambiguous (λ _, True) optional_part.
Proof. intros [a|] [b|] r1 r2 _ _ He; cbn in He; by simplify_eq. Qed.
Lemma optional_bool_part_unambiguous : unambiguous (λ _, True) optional_bool_part.
Proof. intros [[]|] [[]|] r1 r2 _ _ He; cbn in He; by simplify_eq. Qed.
Lemma endpoint_parts_unambiguous : unambiguous (λ _, True) endpoint_parts.
Proof. intros [] [] r1 r2 _ _ He; cbn in He; by simplify_eq. Qed.
Lemma key_source_parts_unambiguous : unambiguous (λ _, True) key_source_parts.
Proof. intros [] [] r1 r2 _ _ He; cbn in He; by simplify_eq. Qed.
Lemma target_parts_unambiguous : unambiguous target_fits target_parts.
Proof.
  intros [[] []|[]] [[] []|[]] r1 r2 Ha Hb He; cbn in Ha, Hb, He; try by simplify_eq.
  destruct Ha, Hb. apply next_part in He as [_ He].
  apply next_part in He as [->%u32_be_bytes_inj He]; [|done|done].
  apply next_part in He as [->%u32_be_bytes_inj He]; [|done|done].
  by simplify_eq.
Qed.
Lemma different_lengths (s t : string) : String.length s ≠ String.length t → s ≠ t.
Proof. by intros Hl ->. Qed.
Lemma deadline_part_inj (a b : option N) :
  fits_opt_u64 a → fits_opt_u64 b →
  match a with Some ms => u64_be_bytes ms | None => "none" end
    = match b with Some ms => u64_be_bytes ms | None => "none" end → a = b.
Proof.
  destruct a as [a|], b as [b|]; cbn; intros Ha Hb He; [|exfalso..|done].
  - by apply u64_be_bytes_fits_inj in He as ->.
  - revert He. apply different_lengths. by rewrite u64_be_bytes_length.
  - revert He. apply different_lengths. by rewrite u64_be_bytes_length.
Qed.
Lemma optional_u64_part_unambiguous :
  unambiguous fits_opt_u64 (λ value, optional_part (u64_be_bytes <$> value)).
Proof.
  intros a b r1 r2 Ha Hb He.
  apply (optional_part_unambiguous _ _ _ _ I I) in He as [He ->]. split; [|done].
  destruct a as [a|], b as [b|]; cbn in *; try done.
  assert (u64_be_bytes a = u64_be_bytes b) as ->%u64_be_bytes_fits_inj; [congruence|done..].
Qed.
Lemma completion_parts_unambiguous : unambiguous completion_fits completion_parts.
Proof.
  intros [|r1 d1|r1 d1 m1 k1] [|r2 d2|r2 d2 m2 k2] l1 l2 Ha Hb He; cbn [completion_parts app] in He;
    try (apply next_part in He as [? He]; discriminate); apply next_part in He as [_ He].
  - done.
  - rewrite <- !app_assoc in He.
    apply (optional_part_unambiguous _ _ _ _ I I) in He as [-> He].
    apply next_part in He as [->%deadline_part_inj He]; done.
  - rewrite <- !app_assoc in He. destruct Ha, Hb.
    apply (optional_part_unambiguous _ _ _ _ I I) in He as [-> He].
    apply (optional_u64_part_unambiguous d1 d2) in He as [-> He]; [|done|done].
    apply next_part in He as [->%u32_be_bytes_inj He]; [|done|done].
    by apply (key_source_parts_unambiguous _ _ _ _ I I) in He as [-> ->].
Qed.

(** What a fingerprint covers of a definition: everything but how its tool is executed. *)
Definition covered (definition : WorkflowToolDefinition) :=
  let tool := definition.(WorkflowToolDefinition.tool) in
  (definition.(WorkflowToolDefinition.workflow_tool_id),
   definition.(WorkflowToolDefinition.schema_revision),
   definition.(WorkflowToolDefinition.semantic_type),
   tool.(ToolSpec.id), tool.(ToolSpec.kind), tool.(ToolSpec.parallelism)).
Definition definition_fits (definition : WorkflowToolDefinition) : Prop :=
  fits_u32 definition.(WorkflowToolDefinition.schema_revision).

Section fingerprints.
Context `{!Externals}.

Lemma tool_kind_parts_unambiguous kind1 kind2 parts1 parts2 rest1 rest2 :
  tool_kind_parts kind1 = Ok parts1 → tool_kind_parts kind2 = Ok parts2 →
  parts1 ++ rest1 = parts2 ++ rest2 → kind1 = kind2 ∧ rest1 = rest2.
Proof.
  destruct kind1 as [b1|[]| |], kind2 as [b2|[]| |]; try done; cbn;
    intros [= <-] [= <-] He; cbn [app] in He;
    try (apply next_part in He as [? He]; discriminate);
    apply next_part in He as [_ He].
  - apply next_part in He as [->%json_builtin_tool_inj ->]. done.
  - rewrite <- !app_assoc in He. cbn [app] in He.
    apply (optional_part_unambiguous _ _ _ _ I I) in He as [-> He].
    apply next_part in He as [-> He]. rewrite <- !app_assoc in He.
    apply (optional_part_unambiguous _ _ _ _ I I) in He as [-> He].
    apply (optional_bool_part_unambiguous _ _ _ _ I I) in He as [-> He].
    by apply (optional_part_unambiguous _ _ _ _ I I) in He as [-> ->].
Qed.
Lemma definition_parts_unambiguous definition1 definition2 parts1 parts2 rest1 rest2 :
  definition_fits definition1 → definition_fits definition2 →
  definition_parts definition1 = Ok parts1 → definition_parts definition2 = Ok parts2 →
  parts1 ++ rest1 = parts2 ++ rest2 → covered definition1 = covered definition2 ∧ rest1 = rest2.
Proof.
  destruct definition1 as [id1 r1 t1 [n1 k1 p1 e1]], definition2 as [id2 r2 t2 [n2 k2 p2 e2]].
  unfold definition_fits, definition_parts; cbn. intros Hr1 Hr2.
  destruct (tool_kind_parts k1) as [kp1|] eqn:Hk1, (tool_kind_parts k2) as [kp2|] eqn:Hk2;
    try done; cbn. intros [= <-] [= <-] He. cbn [app] in He.
  apply next_part in He as [-> He]. apply next_part in He as [->%u32_be_bytes_inj He]; [|done..].
  apply next_part in He as [-> He]. apply next_part in He as [-> He].
  rewrite <- !app_assoc in He.
  destruct (tool_kind_parts_unambiguous _ _ _ _ _ _ Hk1 Hk2 He) as [-> He2].
  cbn in He2. apply next_part in He2 as [Hp He2]. apply next_part in He2 as [_ ->].
  by destruct p1, p2.
Qed.

(** Numbers within their widths and parts whose lengths fit their prefixes, as every value
    of the program has them. *)
Definition binding_fits (binding : WorkflowToolBinding) : Prop :=
  (binding.(WorkflowToolBinding.session_universe_id) < 256 ^ 16)%N ∧
  definition_fits binding.(WorkflowToolBinding.definition) ∧
  target_fits binding.(WorkflowToolBinding.target) ∧
  completion_fits binding.(WorkflowToolBinding.completion) ∧
  (∀ parts, definition_parts binding.(WorkflowToolBinding.definition) = Ok parts →
    Forall fits parts) ∧
  Forall fits (target_parts binding.(WorkflowToolBinding.target)) ∧
  Forall fits (completion_parts binding.(WorkflowToolBinding.completion)).
(** What a binding's fingerprint is the digest of, if anything. *)
Definition fingerprinted (binding : WorkflowToolBinding) (bytes : string) : Prop :=
  binding_fingerprint_bytes binding.(WorkflowToolBinding.session_universe_id)
    binding.(WorkflowToolBinding.definition) binding.(WorkflowToolBinding.target)
    binding.(WorkflowToolBinding.completion) = Ok bytes.

Lemma uuid_bytes_fits n : fits (uuid_bytes n).
Proof. unfold fits. change (uuid_bytes n) with (be_bytes 16 n). by rewrite be_bytes_length. Qed.

Lemma fingerprint_parts_fit universe parts1 parts2 parts3 :
  Forall fits parts1 → Forall fits parts2 → Forall fits parts3 →
  Forall fits (fingerprint_domain_parts BINDING_FINGERPRINT_DOMAIN
    ++ [uuid_bytes universe] ++ parts1 ++ parts2 ++ parts3).
Proof.
  intros H1 H2 H3. apply Forall_app. split; [repeat constructor|].
  apply Forall_cons. split; [apply uuid_bytes_fits|]. by rewrite !Forall_app.
Qed.
Lemma binding_bytes_cover b1 b2 bytes :
  binding_fits b1 → binding_fits b2 →
  fingerprinted b1 bytes →
  fingerprinted b2 bytes →
  b1.(WorkflowToolBinding.session_universe_id) = b2.(WorkflowToolBinding.session_universe_id) ∧
  covered b1.(WorkflowToolBinding.definition) = covered b2.(WorkflowToolBinding.definition) ∧
  b1.(WorkflowToolBinding.target) = b2.(WorkflowToolBinding.target) ∧
  b1.(WorkflowToolBinding.completion) = b2.(WorkflowToolBinding.completion).
Proof.
  destruct b1 as [u1 d1 t1 c1 f1], b2 as [u2 d2 t2 c2 f2]. unfold binding_fits; cbn.
  intros (Hu1 & Hd1 & Ht1 & Hc1 & Hdp1 & Htp1 & Hcp1) (Hu2 & Hd2 & Ht2 & Hc2 & Hdp2 & Htp2 & Hcp2).
  unfold fingerprinted, binding_fingerprint_bytes. cbn [WorkflowToolBinding.session_universe_id
    WorkflowToolBinding.definition WorkflowToolBinding.target WorkflowToolBinding.completion].
  destruct (definition_parts d1) as [p1|] eqn:Hp1; [|done].
  destruct (definition_parts d2) as [p2|] eqn:Hp2; [|done].
  intros <-%same_ok He%same_ok. symmetry in He. apply digest_parts_inj in He.
  - apply next_part in He as [_ He]. apply next_part in He as [_ He].
    apply next_part in He as [Hu He]. apply (be_bytes_inj 16) in Hu as ->; [|done..].
    destruct (definition_parts_unambiguous _ _ _ _ _ _ Hd1 Hd2 Hp1 Hp2 He) as [-> He2].
    apply target_parts_unambiguous in He2 as [-> He2]; [|done..].
    apply (f_equal (λ l, l ++ [])) in He2.
    by apply completion_parts_unambiguous in He2 as [-> _].
  - by apply fingerprint_parts_fit; [auto| |].
  - by apply fingerprint_parts_fit; [auto| |].
Qed.

Lemma validated_fingerprint b :
  WorkflowToolBinding_validate b = Ok tt →
  ∃ bytes, fingerprinted b bytes ∧
  b.(WorkflowToolBinding.binding_fingerprint) = "wtb:sha256:" +:+ sha256_hex bytes.
Proof.
  unfold WorkflowToolBinding_validate, fingerprinted. intros Hv. simplify_ok.
  unfold binding_fingerprint in Hok3.
  destruct (binding_fingerprint_bytes _ _ _ _) as [bytes|]; [|done].
  exists bytes. split; [done|]. symmetry. exact (same_ok Hok3).
Qed.
(** C19. A binding cannot change under its fingerprint. Two bindings the core accepts with the
    same fingerprint agree on the universe, the target, the completion and all of the
    definition but the executor of its tool - or the bytes that were hashed for the one and for the
    other are two that differ and have one SHA-256. In particular no field can be moved into
    another, however the strings are chosen. *)
Theorem binding_fingerprint_covers_binding b1 b2 :
  binding_fits b1 → binding_fits b2 →
  WorkflowToolBinding_validate b1 = Ok tt → WorkflowToolBinding_validate b2 = Ok tt →
  b1.(WorkflowToolBinding.binding_fingerprint) = b2.(WorkflowToolBinding.binding_fingerprint) →
  (∃ bytes1 bytes2, fingerprinted b1 bytes1 ∧ fingerprinted b2 bytes2 ∧
     bytes1 ≠ bytes2 ∧ sha256_hex bytes1 = sha256_hex bytes2) ∨
  (b1.(WorkflowToolBinding.session_universe_id) = b2.(WorkflowToolBinding.session_universe_id) ∧
   covered b1.(WorkflowToolBinding.definition) = covered b2.(WorkflowToolBinding.definition) ∧
   b1.(WorkflowToolBinding.target) = b2.(WorkflowToolBinding.target) ∧
   b1.(WorkflowToolBinding.completion) = b2.(WorkflowToolBinding.completion)).
Proof.
  intros Hf1 Hf2 (bytes1 & Hb1 & Hfp1)%validated_fingerprint (bytes2 & Hb2 & Hfp2)%validated_fingerprint He.
  destruct (decide (bytes1 = bytes2)) as [->|Hne].
  - right. by eapply binding_bytes_cover.
  - left. exists bytes1, bytes2. split_and!; [done..|]. rewrite Hfp1, Hfp2 in He.
    by apply (inj (String.append _)) in He.
Qed.
End fingerprints.

(** Two bindings that differ in the executor of the tool only. *)
Definition push_binding_with (retry_safe : bool) : WorkflowToolBinding :=
  let universe : Uuid := 7%N in
  let definition := {|
    WorkflowToolDefinition.workflow_tool_id := "approve";
    WorkflowToolDefinition.schema_revision := 1%N;
    WorkflowToolDefinition.semantic_type := "acme.approve.v1";
    WorkflowToolDefinition.tool := {|
      ToolSpec.id := "approve";
      ToolSpec.kind := ToolKind.Function {|
        FunctionToolSpec.description_ref := None;
        FunctionToolSpec.input_schema_ref := "schema";
        FunctionToolSpec.output_schema_ref := None;
        FunctionToolSpec.strict := Some true;
        FunctionToolSpec.provider_options_ref := None |};
      ToolSpec.parallelism := ToolParallelism.Exclusive;
      ToolSpec.execution := {|
        ToolExecutionSpec.class := ToolExecutionClass.Interactive;
        ToolExecutionSpec.retry_safe := retry_safe |} |} |} in
  let target := WorkflowToolTarget.Bound
    {| WorkflowEndpointRef.workflow_id := "approvals"; WorkflowEndpointRef.workflow_kind := "bot" |}
    BoundWorkflowToolDispatch.Push in
  let completion := WorkflowToolCompletion.Joined None (Some 60000%N) in
  {| WorkflowToolBinding.session_universe_id := universe;
     WorkflowToolBinding.definition := definition;
     WorkflowToolBinding.target := target;
     WorkflowToolBinding.completion := completion;
     WorkflowToolBinding.binding_fingerprint :=
       match binding_fingerprint universe definition target completion with
       | Ok fingerprint => fingerprint
       | Err _ => ""
       end |}.
Lemma push_binding_fits retry_safe : binding_fits (push_binding_with retry_safe).
Proof.
  split_and!; try (repeat constructor; fail).
  intros parts [= <-]. repeat constructor.
Qed.
Lemma binding_fingerprint_covers_binding_witness :
  let b1 := push_binding_with false in
  let b2 := push_binding_with true in
  WorkflowToolBinding_validate b1 = Ok tt ∧ WorkflowToolBinding_validate b2 = Ok tt ∧ b1 ≠ b2 ∧
  ((∃ bytes1 bytes2, fingerprinted b1 bytes1 ∧ fingerprinted b2 bytes2 ∧
      bytes1 ≠ bytes2 ∧ sha256_hex bytes1 = sha256_hex bytes2) ∨
   (b1.(WorkflowToolBinding.session_universe_id) = b2.(WorkflowToolBinding.session_universe_id) ∧
    covered b1.(WorkflowToolBinding.definition) = covered b2.(WorkflowToolBinding.definition) ∧
    b1.(WorkflowToolBinding.target) = b2.(WorkflowToolBinding.target) ∧
    b1.(WorkflowToolBinding.completion) = b2.(WorkflowToolBinding.completion))).
Proof.
  assert (WorkflowToolBinding_validate (push_binding_with false) = Ok tt) as H1
    by (vm_compute; reflexivity).
  assert (WorkflowToolBinding_validate (push_binding_with true) = Ok tt) as H2
    by (vm_compute; reflexivity).
  split; [exact H1|]. split; [exact H2|]. split; [discriminate|].
  exact (binding_fingerprint_covers_binding _ _ (push_binding_fits _) (push_binding_fits _)
    H1 H2 eq_refl).
Defined.
