(* ===== verification/CodecLaws.v ===== *)
(** * Laws of the codec

    What the log stores of an entry reads back as that entry, and never holds the one
    character the log cannot store ([core/codec.rs]). *)
From Stdlib Require Import Ascii.
From S2P Require Import Prelude Ids Text Types Events Codec Example.

(** ** U+0000 *)
Fixpoint nul_free (v : Value) : bool :=
  match v with
  | Value.String s => negb (contains_nul s)
  | Value.Array values => forallb nul_free values
  | Value.Object fields => forallb (λ f, negb (contains_nul f.1) && nul_free f.2) fields
  | _ => true
  end.

Lemma replace_nul_free s : contains_nul (replace_nul s) = false.
Proof.
  unfold contains_nul, replace_nul. rewrite chars_of_chars.
  apply not_true_is_false. intros (c & Hin & Hc)%existsb_exists.
  apply Ascii.eqb_eq in Hc as <-. apply in_flat_map in Hin as (d & _ & Hd).
  destruct (Ascii.eqb_spec NUL d); simpl in Hd; naive_solver.
Qed.

Lemma elem_of_object_insert {A} (fields : list (string * A)) field f :
  f ∈ object_insert fields field → f ∈ fields ∨ f = field.
Proof.
  unfold object_insert. rewrite elem_of_app, list_elem_of_filter, list_elem_of_singleton. naive_solver.
Qed.
Lemma elem_of_collect_object {A} (fields : list (string * A)) f :
  f ∈ collect_object fields → f ∈ fields.
Proof.
  unfold collect_object. revert f. induction fields as [|g fields IH] using rev_ind; [done|].
  intros f. rewrite foldl_app. simpl.
  intros [Hin| ->]%elem_of_object_insert; [|set_solver]. apply IH in Hin. set_solver.
Qed.

Lemma forallb_elem {A} (p : A → bool) l : forallb p l = true ↔ ∀ x, x ∈ l → p x = true.
Proof.
  rewrite forallb_forall. split; intros Hp x Hx; apply Hp; by apply list_elem_of_In.
Qed.

Lemma replaced_nul_free v : nul_free (replace_nul_in_json v) = true.
Proof.
  induction v as [|b|t|s|values IH|fields IH] using value_ind; try done; simpl.
  - destruct (contains_nul s) eqn:Hs; [by rewrite replace_nul_free|by rewrite Hs].
  - apply forallb_elem. intros x (v & -> & Hv)%list_elem_of_fmap. by eapply Forall_forall in IH.
  - set (replaced := map _ fields).
    assert (∀ f, f ∈ replaced → nul_free f.2 = true) as Hvalues.
    { intros f (g & -> & Hg)%list_elem_of_fmap. by eapply Forall_forall in IH. }
    destruct (existsb _ replaced) eqn:Hkeys; apply forallb_elem; intros f Hf.
    + apply elem_of_collect_object, list_elem_of_fmap in Hf as (g & -> & Hg). simpl.
      by rewrite replace_nul_free, Hvalues.
    + rewrite Hvalues by done. rewrite andb_true_r. apply negb_true_iff, not_true_is_false.
      intros Hc. apply not_false_iff_true in Hkeys; [done|]. apply existsb_exists.
    exists f. split; [by apply list_elem_of_In|done].
Qed.

Lemma map_id_on {A} (f : A → A) l : (∀ x, x ∈ l → f x = x) → map f l = l.
Proof. intros Hf. induction l as [|x l IH]; simpl; [done|]. rewrite Hf, IH; set_solver. Qed.
Lemma replace_nul_in_nul_free v : nul_free v = true → replace_nul_in_json v = v.
Proof.
  induction v as [|b|t|s|values IH|fields IH] using value_ind; try done; simpl.
  - by intros ->%negb_true_iff.
  - intros Hv. rewrite forallb_elem in Hv. f_equal. apply map_id_on. intros v Hin.
    rewrite Forall_forall in IH. auto.
  - intros Hf. rewrite forallb_elem in Hf. rewrite Forall_forall in IH.
    assert (map (λ f, (f.1, replace_nul_in_json f.2)) fields = fields) as ->.
    { apply map_id_on. intros [k v] Hin. simpl. f_equal. apply (IH _ Hin).
      by apply Hf, andb_true_iff in Hin as [_ ?]. }
    destruct (existsb _ fields) eqn:Hkeys; [|done].
    apply existsb_exists in Hkeys as (f & Hin%list_elem_of_In & Hk).
    apply Hf, andb_true_iff in Hin as [Hn _]. by rewrite Hk in Hn.
Qed.

(** ** Joins *)
Definition valid_number (n : option N) : Prop := match n with Some n => (n <= u64_max)%N | None => True end.
Definition valid_id (kind : string) (id : option string) : Prop :=
  match id with Some id => validate_general_string_id kind id = Ok tt | None => True end.
(** What the types of the joins guarantee: numbers of 64 bits and validated ids. *)
Definition valid_joins (joins : CoreAgentJoins) : Prop :=
  valid_number joins.(CoreAgentJoins.run_id) ∧ valid_number joins.(CoreAgentJoins.turn_id) ∧
  valid_number joins.(CoreAgentJoins.tool_batch_id) ∧
  valid_id "ToolCallId" joins.(CoreAgentJoins.tool_call_id) ∧
  valid_id "SubmissionId" joins.(CoreAgentJoins.submission_id).

Lemma lookup_join key key' value joins :
  insert_join key value joins !! key' =
  if bool_decide (key = key') then from_option Some (joins !! key') value else joins !! key'.
Proof.
  destruct value as [value|]; simpl; case_bool_decide; subst; simplify_map_eq; done.
Qed.
Lemma parse_number_join joins key n :
  valid_number n → joins !! key = u64_to_string <$> n → parse_numeric joins key = Ok n.
Proof.
  unfold parse_numeric, parse_join. intros Hn ->. destruct n as [n|]; [|done]. simpl.
  by rewrite parse_u64_to_string.
Qed.
Lemma parse_id_join joins key kind id :
  valid_id kind id → joins !! key = id → parse_string_id joins key kind = Ok id.
Proof.
  unfold parse_string_id, parse_join. intros Hid ->. destruct id as [id|]; [|done]. simpl in *.
  by rewrite Hid.
Qed.
Lemma encoded_joins joins :
  encode_joins joins !! "run_id" = u64_to_string <$> joins.(CoreAgentJoins.run_id) ∧
  encode_joins joins !! "turn_id" = u64_to_string <$> joins.(CoreAgentJoins.turn_id) ∧
  encode_joins joins !! "tool_batch_id" = u64_to_string <$> joins.(CoreAgentJoins.tool_batch_id) ∧
  encode_joins joins !! "tool_call_id" = joins.(CoreAgentJoins.tool_call_id) ∧
  encode_joins joins !! "submission_id" = joins.(CoreAgentJoins.submission_id).
Proof.
  unfold encode_joins. split_and!; rewrite !lookup_join; simpl; rewrite lookup_empty;
    match goal with |- context [from_option _ _ ?o] => by destruct o end.
Qed.
Lemma decode_encode_joins joins : valid_joins joins → decode_joins (encode_joins joins) = Ok joins.
Proof.
  intros (Hrun & Hturn & Hbatch & Hcall & Hsubmission).
  destruct (encoded_joins joins) as (Hr & Ht & Hb & Hc & Hs). unfold decode_joins.
  rewrite (parse_number_join _ _ _ Hrun Hr), (parse_number_join _ _ _ Hturn Ht),
    (parse_number_join _ _ _ Hbatch Hb). simpl.
  rewrite (parse_id_join _ _ _ _ Hcall Hc). simpl.
  rewrite (parse_id_join _ _ _ _ Hsubmission Hs). by destruct joins.
Qed.

(** ** Events and entries *)
Section entries.
Context `{!EventJson}.

Lemma kind_prefix event :
  starts_with CORE_AGENT_EVENT_KIND_PREFIX (core_agent_event_envelope_kind event) = true.
Proof. destruct event as [e|e|e|e|e|e|e|e|e|e|e|e]; destruct e; reflexivity. Qed.
Lemma kind_prefixed event :
  ensure_core_agent_event_envelope (core_agent_event_envelope_kind event)
    CORE_AGENT_SCHEMA_VERSION = Ok tt.
Proof. unfold ensure_core_agent_event_envelope. by rewrite kind_prefix. Qed.

(** Reading back an event whose JSON holds no U+0000. *)
Definition plain_event (event : CoreAgentEvent) : Prop :=
  ∀ payload, to_value event = Some payload → nul_free payload = true.
Lemma decode_encode_event event stored :
  plain_event event → encode_event event = Ok stored → decode_event stored = Ok event.
Proof.
  unfold encode_event, decode_event. intros Hplain Hok. simplify_ok. simpl.
  rewrite kind_prefixed. simpl. rewrite replace_nul_in_nul_free by auto.
  by erewrite from_to_value.
Qed.
Lemma encoded_nul_free event stored :
  encode_event event = Ok stored → nul_free stored.(StoredEvent.payload) = true.
Proof. unfold encode_event. intros Hok. simplify_ok. apply replaced_nul_free. Qed.

(** C18. What the log stores of an entry holds no U+0000 anywhere in its payload, whatever the
    event says, since the log could not store it; encoding fails only where serialization of
    the event does. Unless the event itself held one, the stored entry decodes to the very
    entry: the same position, time, joins and event. *)
Theorem stored_entries_read_back entry :
  valid_joins entry.(CoreAgentEntry.joins) →
  match encode_entry entry with
  | Ok stored =>
      nul_free stored.(StoredSessionEntry.event).(StoredEvent.payload) = true ∧
      (plain_event entry.(CoreAgentEntry.event) → decode_entry stored = Ok entry)
  | Err error => to_value entry.(CoreAgentEntry.event) = None ∧ ∃ message, error = CodecError.Failed message
  end.
Proof.
  intros Hjoins. destruct (encode_entry entry) as [stored|error] eqn:Hencode;
    unfold encode_entry in Hencode.
  - simplify_ok. split; [by eapply encoded_nul_free|]. intros Hplain. unfold decode_entry.
    cbn [StoredSessionEntry.joins StoredSessionEntry.event].
    rewrite decode_encode_joins by done. cbn [mbind Result_bind].
    erewrite decode_encode_event by done. by destruct entry.
  - unfold encode_event in Hencode. destruct (to_value _); [done|]. simpl in Hencode.
    split; [done|]. exists "{error}". congruence.
Qed.
End entries.

Definition accepted_entry : CoreAgentEntry :=
  {| CoreAgentEntry.position := {| SessionPosition.seq := 2 |};
     CoreAgentEntry.observed_at_ms := 20;
     CoreAgentEntry.joins := {|
       CoreAgentJoins.run_id := Some 1%N; CoreAgentJoins.turn_id := None;
       CoreAgentJoins.tool_batch_id := None; CoreAgentJoins.tool_call_id := None;
       CoreAgentJoins.submission_id := Some "submission-1" |};
     CoreAgentEntry.event := CoreAgentEvent.Run (RunEvent.Started 1) |}.
Lemma example_plain event : plain_event event.
Proof.
  intros payload (name & Hname & ->)%fmap_Some.
  unfold name_of in Hname. apply fmap_Some in Hname as (row & [_ Hin]%head_filter_Some & ->).
  revert row Hin. apply Forall_forall. repeat (constructor; [reflexivity|]). constructor.
Qed.
Lemma stored_entries_read_back_witness :
  valid_joins accepted_entry.(CoreAgentEntry.joins) ∧
  ∃ stored, encode_entry accepted_entry = Ok stored ∧ decode_entry stored = Ok accepted_entry.
Proof.
  assert (valid_joins accepted_entry.(CoreAgentEntry.joins)) as Hjoins.
  { split_and!; first [done|vm_compute; discriminate|vm_compute; reflexivity]. }
  split; [exact Hjoins|]. pose proof (stored_entries_read_back accepted_entry Hjoins) as Hback.
  eexists. split; [reflexivity|]. exact (proj2 Hback (example_plain _)).
Defined.
