(* ===== verification/WorkflowLaws.v ===== *)
(** * Laws of workflow tools

    The declaration of workflow tools a session holds is complete, each invocation it keeps
    belongs to a binding of the right kind, and each failure to an invocation it keeps
    ([core/components/workflow_tool.rs]). *)
From S2P Require Import Prelude Ids Text Types Events Externals RunState CodeTools WorkflowTools.
From S2P Require Import Toolset Runs Replay Frames Example DigestLaws.

(** ** The declaration of a session *)
Section declaration.
Implicit Types (s : CoreAgentState) (tools : WorkflowToolState).

Definition tool_id_of (binding : WorkflowToolBinding) : WorkflowToolId :=
  binding.(WorkflowToolBinding.definition).(WorkflowToolDefinition.workflow_tool_id).
(** Bindings are filed under their own id; those the system did not admit came with the
    declaration, and of its universe; the parts of a declaration come together. *)
Record bindings_wf tools : Prop := {
  filed : ∀ id binding, tools.(WorkflowToolState.bindings) !! id = Some binding →
    tool_id_of binding = id;
  declared : match tools.(WorkflowToolState.session_universe_id) with
    | Some universe =>
        is_Some tools.(WorkflowToolState.declaration_version) ∧
        is_Some tools.(WorkflowToolState.declared_creation_fingerprint) ∧
        ∀ id binding, tools.(WorkflowToolState.bindings) !! id = Some binding →
          id ∉ tools.(WorkflowToolState.system_binding_ids) →
          binding.(WorkflowToolBinding.session_universe_id) = universe
    | None =>
        tools.(WorkflowToolState.declaration_version) = None ∧
        tools.(WorkflowToolState.declared_creation_fingerprint) = None ∧
        tools.(WorkflowToolState.lifecycle_controller) = None ∧
        ∀ id, is_Some (tools.(WorkflowToolState.bindings) !! id) →
          id ∈ tools.(WorkflowToolState.system_binding_ids)
    end;
}.
Definition session_bindings_wf s : Prop := bindings_wf s.(CoreAgentState.workflow_tools).

Lemma bindings_wf_eq tools tools' :
  bindings_of (default_of <| CoreAgentState.workflow_tools := tools |>)
    = bindings_of (default_of <| CoreAgentState.workflow_tools := tools' |>) →
  bindings_wf tools → bindings_wf tools'.
Proof.
  unfold bindings_of. cbn. intros [= Hu Hc Hv Hf Hb Hs] [Hfiled Hdecl].
  split; [by rewrite <- Hb|]. by rewrite <- Hu, <- Hv, <- Hf, <- Hc, <- Hb, <- Hs.
Qed.
Lemma session_bindings_stable : stable [Part.bindings] session_bindings_wf.
Proof.
  intros s s' Hk Hwf. pose proof (keeps_lookup _ Part.bindings _ _ Hk eq_refl) as Hb.
  eapply bindings_wf_eq; [|exact Hwf]. symmetry. exact Hb.
Qed.

Lemma filed_bindings bindings id binding :
  (foldl (λ map binding, <[tool_id_of binding := binding]> map) ∅ bindings
    : gmap WorkflowToolId WorkflowToolBinding) !! id = Some binding →
  tool_id_of binding = id ∧ binding ∈ bindings.
Proof.
  induction bindings as [|b bindings IH] using rev_ind; [done|].
  rewrite foldl_app. simpl. rewrite lookup_insert_Some. set_solver.
Qed.
Lemma apply_workflow_tool_config_event_wf e s :
  session_bindings_wf s → wp (apply_workflow_tool_config_event e) (λ _, session_bindings_wf) s.
Proof.
  intros [Hfiled Hdecl]. reduce_event; simplify_ok.
  - split; cbn.
    + intros id binding [? _]%filed_bindings. done.
    + split_and!; [done..|]. intros id binding [_ Hin]%filed_bindings _.
      apply for_each_Ok in H1. eapply Forall_forall in H1; [|exact Hin]. by simplify_ok.
  - split; cbn.
    + intros id b [[<- <-]|[_ Hb]]%lookup_insert_Some; [done|]. by apply Hfiled.
    + destruct (WorkflowToolState.session_universe_id _) as [universe|].
      * destruct Hdecl as (? & ? & Hdecl). split_and!; [done..|].
        intros id b [[<- <-]|[_ Hb]]%lookup_insert_Some Hn; [set_solver|]. apply (Hdecl id b Hb).
        set_solver.
      * destruct Hdecl as (? & ? & ? & Hdecl). split_and!; [done..|].
        intros id [b [[<- _]|[_ Hb]]%lookup_insert_Some]; [set_solver|].
        apply elem_of_union_r, Hdecl. by exists b.
Qed.

Context `{!Externals}.

Lemma apply_event_bindings_wf entry s :
  session_bindings_wf s → wp (apply_event entry) (λ _, session_bindings_wf) s.
Proof.
  intros Hwf. apply apply_event_keeps; [done| |done]. intros _.
  frame_reducers session_bindings_stable Hwf.
  by apply apply_workflow_tool_config_event_wf.
Qed.
Lemma reachable_bindings_wf s : reachable s → session_bindings_wf s.
Proof.
  apply reachable_keeps; [|intros; by apply apply_event_bindings_wf].
  split; [done|]. split_and!; [done..|]. by intros id [].
Qed.
End declaration.


(** ** Invocations *)
Section invocations.
Context `{!Externals}.
Implicit Types (s : CoreAgentState) (tools : WorkflowToolState).

(** An invocation is filed under its id and carries out a binding: the identity it was
    recorded with is the binding's, and so is the kind of its target. *)
Definition carries_out tools (target : WorkflowToolBinding → Result DomainError unit)
    (id : WorkflowToolInvocationId) (invocation : WorkflowToolInvocation) : Prop :=
  invocation.(WorkflowToolInvocation.invocation_id) = id ∧
  ∃ binding, tools.(WorkflowToolState.bindings)
      !! invocation.(WorkflowToolInvocation.workflow_tool_id) = Some binding ∧
    validate_invocation_identity binding invocation = Ok tt ∧ target binding = Ok tt.
Record invocations_typed tools : Prop := {
  bound_typed : map_Forall (carries_out tools require_bound_target)
    tools.(WorkflowToolState.bound_invocations);
  start_typed : map_Forall (carries_out tools require_start_target)
    tools.(WorkflowToolState.start_requests);
  delivery_typed : ∀ id, is_Some (tools.(WorkflowToolState.delivery_failures) !! id) →
    is_Some (tools.(WorkflowToolState.bound_invocations) !! id);
  failures_typed : ∀ id, is_Some (tools.(WorkflowToolState.start_failures) !! id) →
    is_Some (tools.(WorkflowToolState.start_requests) !! id);
}.
Definition session_invocations_typed s : Prop := invocations_typed s.(CoreAgentState.workflow_tools).

Lemma session_invocations_stable : stable [Part.workflow_tools] session_invocations_typed.
Proof.
  intros s s' Hk. pose proof (keeps_lookup _ Part.workflow_tools _ _ Hk eq_refl) as Hw.
  unfold session_invocations_typed. simpl in Hw. by rewrite Hw.
Qed.

Lemma lookup_retained {V} (ids : gset string) (m : gmap string V) id v :
  btree_retain (not_in ids) m !! id = Some v ↔ m !! id = Some v ∧ id ∉ ids.
Proof.
  rewrite lookup_btree_retain_Some. unfold not_in. by rewrite bool_decide_eq_true.
Qed.
(** Retaining the invocations that are not finished, and the failures with them. *)
Definition retained (ids : gset string) tools : WorkflowToolState :=
  tools <| WorkflowToolState.bound_invocations ::= btree_retain (not_in ids) |>
        <| WorkflowToolState.delivery_failures ::= btree_retain (not_in ids) |>
        <| WorkflowToolState.start_requests ::= btree_retain (not_in ids) |>
        <| WorkflowToolState.start_failures ::= btree_retain (not_in ids) |>.
Lemma retained_typed ids tools : invocations_typed tools → invocations_typed (retained ids tools).
Proof.
  intros [Hb Hs Hd Hf]. split; cbn.
  - intros id invocation [Hin _]%lookup_retained. exact (Hb id invocation Hin).
  - intros id invocation [Hin _]%lookup_retained. exact (Hs id invocation Hin).
  - intros id [ref [Hin Hid]%lookup_retained]. destruct (Hd id) as [invocation Hi]; [by eexists|].
    exists invocation. by apply lookup_retained.
  - intros id [ref [Hin Hid]%lookup_retained]. destruct (Hf id) as [invocation Hi]; [by eexists|].
    exists invocation. by apply lookup_retained.
Qed.
Lemma prune_finished_work_typed s :
  session_invocations_typed s → session_invocations_typed (prune_finished_work s).
Proof.
  intros Hs. unfold session_invocations_typed.
  change (invocations_typed (prune_finished_invocations s).(CoreAgentState.workflow_tools)).
  unfold prune_finished_invocations. case_bool_decide; [exact Hs|].
  exact (retained_typed (finished_invocations s) _ Hs).
Qed.

(** Filing more bindings keeps what was recorded under those there are. *)
Lemma carries_out_more tools tools' target id invocation :
  tools.(WorkflowToolState.bindings) ⊆ tools'.(WorkflowToolState.bindings) →
  carries_out tools target id invocation → carries_out tools' target id invocation.
Proof.
  intros Hsub (Hid & binding & Hb & Hok). split; [done|]. exists binding. split; [|done].
  by eapply lookup_weaken.
Qed.
Lemma more_bindings_typed tools tools' :
  tools.(WorkflowToolState.bindings) ⊆ tools'.(WorkflowToolState.bindings) →
  tools'.(WorkflowToolState.bound_invocations) = tools.(WorkflowToolState.bound_invocations) →
  tools'.(WorkflowToolState.start_requests) = tools.(WorkflowToolState.start_requests) →
  tools'.(WorkflowToolState.delivery_failures) = tools.(WorkflowToolState.delivery_failures) →
  tools'.(WorkflowToolState.start_failures) = tools.(WorkflowToolState.start_failures) →
  invocations_typed tools → invocations_typed tools'.
Proof.
  intros Hsub Hb Hs Hd Hf [HB HS HD HF]. split; rewrite ?Hb, ?Hs, ?Hd, ?Hf; try done.
  - eapply map_Forall_impl; [exact HB|]. intros id i. by apply carries_out_more.
  - eapply map_Forall_impl; [exact HS|]. intros id i. by apply carries_out_more.
Qed.
Lemma config_event_typed e s :
  session_invocations_typed s →
  wp (apply_workflow_tool_config_event e) (λ _, session_invocations_typed) s.
Proof.
  intros Hs. reduce_event; simplify_ok; (apply (more_bindings_typed s.(CoreAgentState.workflow_tools));
      [|reflexivity..|exact Hs]); cbn.
  - match goal with H : WorkflowToolState.bindings _ = ∅ |- _ => rewrite H end.
    apply map_empty_subseteq.
  - by apply insert_subseteq.
Qed.
Lemma recorded_carries_out s invocation binding target :
  validate_recorded_invocation s invocation = Ok tt →
  validated_binding s invocation = Ok binding → target binding = Ok tt →
  carries_out s.(CoreAgentState.workflow_tools) target
    invocation.(WorkflowToolInvocation.invocation_id) invocation.
Proof.
  unfold validate_recorded_invocation, validated_binding. intros Hv Hb%ok_or_Ok Ht.
  apply bind_Ok in Hv as (binding' & Hb'%ok_or_Ok & Hv). rewrite Hb in Hb'. injection Hb' as <-.
  apply bind_Ok in Hv as ([] & Hidentity & _). split; [done|]. by exists binding.
Qed.
Lemma workflow_tool_event_typed e s :
  session_invocations_typed s → wp (apply_workflow_tool_event e) (λ _, session_invocations_typed) s.
Proof.
  intros [HB HS HD HF]. reduce_event; simplify_ok; try by split.
  - split; cbn; [|exact HS| |exact HF].
    + apply map_Forall_insert_2; [by eapply recorded_carries_out|exact HB].
    + intros id Hid%HD. rewrite lookup_insert_is_Some'. by right.
  - split; cbn; [exact HB|exact HS| |exact HF].
    intros id [<-|Hid]%lookup_insert_is_Some'; [done|by apply HD].
  - split; cbn; [exact HB| |exact HD|].
    + apply map_Forall_insert_2; [by eapply recorded_carries_out|exact HS].
    + intros id Hid%HF. rewrite lookup_insert_is_Some'. by right.
  - split; cbn; [exact HB|exact HS|exact HD|].
    intros id [<-|Hid]%lookup_insert_is_Some'; [done|by apply HF].
Qed.
Lemma run_event_typed e seq at_ms s :
  session_invocations_typed s → wp (apply_run_event e seq at_ms) (λ _, session_invocations_typed) s.
Proof.
  intros Hs. reduce_event; try exact Hs; try (apply prune_finished_work_typed; exact Hs).
Qed.
Lemma tool_event_typed e s :
  session_invocations_typed s → wp (apply_tool_event e) (λ _, session_invocations_typed) s.
Proof.
  intros Hs. reduce_event; try exact Hs; try (apply prune_finished_work_typed; exact Hs).
Qed.
Lemma apply_event_typed entry s :
  session_invocations_typed s → wp (apply_event entry) (λ _, session_invocations_typed) s.
Proof.
  intros Hs. apply apply_event_keeps; [done| |done]. intros _.
  frame_reducers session_invocations_stable Hs.
  - by apply run_event_typed.
  - by apply tool_event_typed.
  - by apply config_event_typed.
  - by apply workflow_tool_event_typed.
Qed.

(** C11. The workflow tools of a session are well typed, whatever its log. Every binding is
    filed under its own id, the parts of the declaration come together, and what the system
    did not add is of the declared universe. Every invocation kept is filed under its id,
    carries the identity of a binding the session still has, and waits for a receiver exactly
    when that binding's target is one, for a start exactly when it is a start; and every
    failure reported is of an invocation that is kept. *)
Theorem workflow_tools_well_typed s :
  reachable s →
  bindings_wf s.(CoreAgentState.workflow_tools) ∧ invocations_typed s.(CoreAgentState.workflow_tools).
Proof.
  intros Hr. split; [exact (reachable_bindings_wf s Hr)|]. revert Hr.
  change (reachable s → session_invocations_typed s).
  apply reachable_keeps; [|intros; by apply apply_event_typed].
  split; [done|done|by intros id []..].
Qed.
End invocations.

(** ** Witness *)
(** A session the system gave a tool to. *)
Definition equipped_log : list CoreAgentEntry :=
  extend [CoreAgentEvent.Lifecycle (CoreAgentLifecycleEvent.Opened example_config);
          CoreAgentEvent.WorkflowToolConfig
            (WorkflowToolConfigEvent.SystemBindingAdmitted (push_binding_with false))] [].
Definition equipped_state : CoreAgentState := state_after equipped_log.
Lemma equipped_reachable : reachable equipped_state.
Proof. exists equipped_log. vm_compute. reflexivity. Qed.
Lemma workflow_tools_well_typed_witness :
  equipped_state.(CoreAgentState.workflow_tools).(WorkflowToolState.bindings) !! "approve"
    = Some (push_binding_with false) ∧
  bindings_wf equipped_state.(CoreAgentState.workflow_tools).
Proof.
  split; [vm_compute; reflexivity|].
  exact (proj1 (workflow_tools_well_typed equipped_state equipped_reachable)).
Defined.
