(* ===== verification/CloneLaws.v ===== *)
(** * Laws of cloning

    The events a clone opens with replay to a copy of the source's configuration, bindings,
    tools and environment, and of nothing else ([core/session_graph.rs],
    [core/components/workflow_tool.rs]). *)
From S2P Require Import Prelude Ids Text Types Events Commands Externals RunState Sessions.
From S2P Require Import ContextReducer Toolset WorkflowTools Replay Codec SessionStore BlobRoots.
From S2P Require Import Frames StoreLogs CodecLaws Example SessionLaws ReplayLaws WorkflowLaws.

(** ** The reducers a clone runs *)
Section reducers.
Context `{!Externals}.
Implicit Types (s : CoreAgentState).

Definition status_of s : CoreAgentStatus := s.(CoreAgentState.lifecycle).(LifecycleState.status).
(** What an entry with the event does to the state, wherever it stands in the log. *)
Definition does (event : CoreAgentEvent) s s' : Prop :=
  ∀ entry, entry.(CoreAgentEntry.event) = event → apply_event_kind entry s = (Ok tt, s').

Lemma status_is s status :
  status_of s = status →
  bool_decide (s.(CoreAgentState.lifecycle).(LifecycleState.status) ≠ status) = false.
Proof. intros Hs. apply bool_decide_eq_false_2. intros Hn. exact (Hn Hs). Qed.
Lemma does_opened config s :
  status_of s = CoreAgentStatus.New →
  does (CoreAgentEvent.Lifecycle (CoreAgentLifecycleEvent.Opened config)) s
    (set_lifecycle (λ lifecycle,
       lifecycle <| LifecycleState.status := CoreAgentStatus.Open |>
                 <| LifecycleState.config := Some config |>
                 <| LifecycleState.config_revision := 0%N |>) s).
Proof.
  intros Hs entry He. unfold apply_event_kind. rewrite He. unfold apply_lifecycle_event.
  runs. runs; [done|by apply status_is].
Qed.
Lemma does_declared universe version fingerprint bindings s :
  status_of s = CoreAgentStatus.Open → s.(CoreAgentState.workflow_tools) = default_of →
  Forall (λ b, b.(WorkflowToolBinding.session_universe_id) = universe) bindings →
  does (CoreAgentEvent.WorkflowToolConfig
          (WorkflowToolConfigEvent.DeclaredBindingsAdmitted universe version None fingerprint bindings))
    s (set_workflow_tools (λ tools,
         tools <| WorkflowToolState.session_universe_id := Some universe |>
               <| WorkflowToolState.lifecycle_controller := None |>
               <| WorkflowToolState.declaration_version := Some version |>
               <| WorkflowToolState.declared_creation_fingerprint := Some fingerprint |>
               <| WorkflowToolState.bindings :=
                    foldl (λ map binding, <[tool_id_of binding := binding]> map) ∅ bindings |>) s).
Proof.
  intros Hs Ht Hb entry He. unfold apply_event_kind. rewrite He.
  unfold apply_workflow_tool_config_event. runs.
  runs; [|by apply status_is].
  rewrite Ht. runs; [|reflexivity].
  assert (for_each (λ binding, reject_if (M:=Result DomainError)
    (bool_decide (binding.(WorkflowToolBinding.session_universe_id) ≠ universe))
    (InvariantViolation "workflow tool {} source universe does not match the integrated session"))
    bindings = Ok tt) as Hok.
  { apply for_each_Ok. eapply Forall_impl; [exact Hb|]. intros b Hu. cbv beta.
    rewrite Hu, bool_decide_eq_false_2; [done|auto]. }
  runs; [done|exact Hok].
Qed.
Lemma does_tools tools s :
  status_of s = CoreAgentStatus.Open → s.(CoreAgentState.tooling) = default_of →
  does (CoreAgentEvent.ToolConfig (ToolConfigEvent.ToolsReplaced 0 tools)) s
    (set_tooling (λ tooling, tooling <| ToolingState.tools := tools |>
                                     <| ToolingState.revision := 1%N |>) s).
Proof.
  intros Hs Ht entry He. unfold apply_event_kind. rewrite He. unfold apply_tool_config_event.
  runs. runs; [|by apply status_is].
  runs; [|unfold validate_tooling_base_revision; by rewrite Ht].
  runs. unfold bump_tooling_revision. runs.
  assert (next_u64 s.(CoreAgentState.tooling).(ToolingState.revision) = Some 1%N) as Hrev
    by by rewrite Ht.
  runs; [|apply ok_or_Ok; exact Hrev]. done.
Qed.
Lemma does_environment environment_id s :
  does (CoreAgentEvent.Environment (EnvironmentEvent.ActiveEnvironmentSet environment_id)) s
    (set_active_environment (Some environment_id) s).
Proof. intros entry He. unfold apply_event_kind. by rewrite He. Qed.

(** ** Replaying the events of a fresh log *)
Definition replays (at_ms : N) (events : list CoreAgentEvent) s s' : Prop :=
  reduce_log (committed_entries s.(CoreAgentState.reduced_to) at_ms
    (event_proposal <$> events)) s = (Ok tt, s').
Lemma replays_cons at_ms event events s s1 s' :
  is_ok (expected_seq s) = true → does event s s1 →
  s1.(CoreAgentState.reduced_to) = s.(CoreAgentState.reduced_to) →
  replays at_ms events (advanced s1) s' → replays at_ms (event :: events) s s'.
Proof.
  intros Hn Hd Hred Hr. unfold replays. cbn [fmap list_fmap committed_entries].
  unfold reduce_log. cbn [for_each].
  assert (apply_event (committed_entry (following_seq s.(CoreAgentState.reduced_to)) at_ms
    (event_proposal event)) s = (Ok tt, advanced s1)) as Hstep.
  { unfold apply_event. runs.
    - erewrite bind_runs; [|by apply Hd]. unfold advanced. by rewrite Hred.
    - unfold validate_next_position. destruct (expected_seq s) as [seq|] eqn:Hseq; [|done].
      apply expected_seq_Ok in Hseq as [-> _]. cbn. by rewrite N.eqb_refl. }
  rewrite (bind_runs _ _ _ _ _ Hstep). revert Hr. unfold replays, reduce_log, advanced.
  rewrite Hred. exact id.
Qed.
Lemma replays_nil at_ms s : replays at_ms [] s s.
Proof. done. Qed.
End reducers.

(** ** The copy *)
Section clone.
Context `{!Externals, !EventJson}.
Implicit Types (s : CoreAgentState) (tools : WorkflowToolState).

Definition own_bindings tools : gmap WorkflowToolId WorkflowToolBinding :=
  filter (λ entry, is_system_binding tools entry.1 = false) tools.(WorkflowToolState.bindings).
(** The declaration without what the system added or any session did with it. *)
Definition cloned_workflow_tools tools : WorkflowToolState :=
  default_of <| WorkflowToolState.session_universe_id := tools.(WorkflowToolState.session_universe_id) |>
             <| WorkflowToolState.declaration_version := tools.(WorkflowToolState.declaration_version) |>
             <| WorkflowToolState.declared_creation_fingerprint :=
                  tools.(WorkflowToolState.declared_creation_fingerprint) |>
             <| WorkflowToolState.bindings := own_bindings tools |>.
(** A session that was only opened, [n] entries ago. *)
Definition opened_with config workflow_tools tooling environment (n : N) : CoreAgentState :=
  default_of
    <| CoreAgentState.lifecycle := {| LifecycleState.status := CoreAgentStatus.Open;
         LifecycleState.config := Some config; LifecycleState.config_revision := 0%N |} |>
    <| CoreAgentState.workflow_tools := workflow_tools |>
    <| CoreAgentState.tooling := tooling |>
    <| CoreAgentState.environment := environment |>
    <| CoreAgentState.reduced_to := Some {| SessionPosition.seq := n |} |>.
(** The tool of some binding the system added. *)
Definition is_system_tool tools (tool_id : ToolId) : bool :=
  existsb (λ entry, is_system_binding tools entry.1
    && bool_decide (entry.2.(WorkflowToolBinding.definition).(WorkflowToolDefinition.tool)
                      .(ToolSpec.id) = tool_id))
    (btree_to_list tools.(WorkflowToolState.bindings)).
Definition own_tools s : gmap ToolId ToolSpec :=
  filter (λ entry, is_system_tool s.(CoreAgentState.workflow_tools) entry.1 = false)
    s.(CoreAgentState.tooling).(ToolingState.tools).
Definition cloned_tooling s : ToolingState :=
  {| ToolingState.revision := if bool_decide (own_tools s = ∅) then 0%N else 1%N;
     ToolingState.tools := own_tools s |}.
(** It has the source's configuration, bindings, tools and environment, and nothing else. *)
Definition clone_of s config (n : N) : CoreAgentState :=
  opened_with config (cloned_workflow_tools s.(CoreAgentState.workflow_tools))
    (cloned_tooling s) s.(CoreAgentState.environment) n.

Lemma is_system_tool_spec tools tool_id :
  is_system_tool tools tool_id = true ↔ tool_id ∈ system_tool_names tools.
Proof.
  unfold is_system_tool, system_tool_names. rewrite elem_of_list_to_set, list_elem_of_omap.
  rewrite existsb_exists. setoid_rewrite elem_of_elements. split.
  - intros ([id b] & Hin & [Hsys Heq]%andb_true_iff). rewrite <- list_elem_of_In in Hin.
    apply elem_of_btree in Hin. apply bool_decide_eq_true in Hsys, Heq. simpl in *.
    exists id. split; [done|]. by rewrite Hin, <- Heq.
  - intros (id & Hsys & (b & Hin & Heq)%fmap_Some). exists (id, b). split.
    + rewrite <- list_elem_of_In. by apply elem_of_btree.
    + apply andb_true_iff. unfold is_system_binding. by rewrite !bool_decide_eq_true, Heq.
Qed.
Lemma cloned_tools_own s : cloned_tools s = own_tools s.
Proof.
  apply map_filter_ext. intros tool_id tool _. simpl.
  rewrite <- is_system_tool_spec. by destruct (is_system_tool _ _).
Qed.

(** Filing bindings one after the other files each, when no two differ under one id. *)
Lemma lookup_filed (bindings : list WorkflowToolBinding) id binding :
  (∀ b1 b2, b1 ∈ bindings → b2 ∈ bindings → tool_id_of b1 = tool_id_of b2 → b1 = b2) →
  (foldl (λ map binding, <[tool_id_of binding := binding]> map) ∅ bindings
    : gmap WorkflowToolId WorkflowToolBinding) !! id = Some binding
  ↔ binding ∈ bindings ∧ tool_id_of binding = id.
Proof.
  induction bindings as [|b bindings IH] using rev_ind; intros Huniq.
  { split; [done|set_solver]. }
  rewrite foldl_app. simpl. rewrite lookup_insert_Some, IH, elem_of_app, list_elem_of_singleton
    by (intros; apply Huniq; set_solver). split.
  - set_solver.
  - intros [[Hin| ->] Hid]; [|by left]. destruct (decide (tool_id_of b = id)) as [Heq|]; [|by right].
    left. split; [done|]. apply Huniq; [set_solver..|congruence].
Qed.
Lemma elem_of_declared tools b :
  bindings_wf tools →
  b ∈ declared_bindings tools ↔ own_bindings tools !! tool_id_of b = Some b.
Proof.
  intros [Hfiled _]. unfold declared_bindings, own_bindings.
  rewrite list_elem_of_fmap, map_lookup_filter_Some. split.
  - intros ([id b'] & -> & [Hsys Hin]%list_elem_of_filter). apply elem_of_btree in Hin.
    simpl in *. by rewrite (Hfiled _ _ Hin).
  - intros [Hin Hsys]. exists (tool_id_of b, b). split; [done|].
    apply list_elem_of_filter. split; [done|]. by apply elem_of_btree.
Qed.
Lemma declared_bindings_map tools :
  bindings_wf tools →
  foldl (λ map binding, <[tool_id_of binding := binding]> map) ∅ (declared_bindings tools)
  = own_bindings tools.
Proof.
  intros Hwf. apply map_eq. intros id. apply option_eq. intros b.
  rewrite lookup_filed, elem_of_declared by first [done
    | intros ?? Hb1%elem_of_declared Hb2%elem_of_declared He; try done; rewrite He in Hb1; congruence].
  split; [by intros [? <-]|]. intros Hb.
  assert (tool_id_of b = id) as Hid.
  { apply map_lookup_filter_Some in Hb as [Hb _]. by apply Hwf. }
  by rewrite Hid.
Qed.

(** The events a clone opens with, before they are encoded. *)
Definition clone_events s config declaration : list CoreAgentEvent :=
  CoreAgentEvent.Lifecycle (CoreAgentLifecycleEvent.Opened config)
  :: declaration ++ tools_event s ++ environment_event s.
Definition has_room (n : N) (events : list CoreAgentEvent) : Prop :=
  (n + N.of_nat (length events) <= u64_max)%N.
Lemma opened_next config w t e n :
  (n < u64_max)%N → is_ok (expected_seq (opened_with config w t e n)) = true ∧
  advanced (opened_with config w t e n) = opened_with config w t e (n + 1).
Proof.
  intros Hn. unfold expected_seq, advanced, opened_with, next_u64, checked_add_u64, following_seq,
    saturating_add_u64. cbn [CoreAgentState.reduced_to SessionPosition.seq].
  split.
  - cbn. by rewrite (proj2 (N.leb_le _ _)) by lia.
  - cbn. by rewrite N.min_l by lia.
Qed.
Lemma replays_next config w t e w' t' e' n event rest at_ms s' :
  (n < u64_max)%N →
  does event (opened_with config w t e n) (opened_with config w' t' e' n) →
  replays at_ms rest (opened_with config w' t' e' (n + 1)) s' →
  replays at_ms (event :: rest) (opened_with config w t e n) s'.
Proof.
  intros Hn Hd Hr. destruct (opened_next config w t e n Hn) as [Hok _].
  eapply replays_cons; [done|exact Hd|done|].
  by rewrite (proj2 (opened_next config w' t' e' n Hn)).
Qed.

Lemma undeclared tools :
  bindings_wf tools → tools.(WorkflowToolState.session_universe_id) = None →
  cloned_workflow_tools tools = default_of.
Proof.
  intros [_ Hdecl] Hu. rewrite Hu in Hdecl. destruct Hdecl as (Hv & Hf & _ & Hsystem).
  assert (own_bindings tools = ∅) as Hown.
  { apply map_eq. intros id. rewrite lookup_empty. apply map_lookup_filter_None. right.
    intros b Hb Hn. apply bool_decide_eq_false in Hn. destruct Hn. apply Hsystem. by exists b. }
  unfold cloned_workflow_tools. by rewrite Hu, Hv, Hf, Hown.
Qed.
Lemma declaration_replays config tools declaration t e n rest at_ms s' :
  bindings_wf tools → tools.(WorkflowToolState.lifecycle_controller) = None →
  declaration_event tools = Ok declaration → (n < u64_max)%N →
  replays at_ms rest
    (opened_with config (cloned_workflow_tools tools) t e (n + N.of_nat (length declaration))) s' →
  replays at_ms (declaration ++ rest) (opened_with config default_of t e n) s'.
Proof.
  intros Hwf Hcontroller Hdecl Hn Hr. unfold declaration_event in Hdecl.
  destruct (WorkflowToolState.session_universe_id tools) as [universe|] eqn:Hu.
  - simplify_ok. rewrite Hcontroller. eapply replays_next; [done| |exact Hr].
    pose proof (does_declared universe a a0 (declared_bindings tools)
      (opened_with config default_of t e n) eq_refl eq_refl) as Hd.
    rewrite (declared_bindings_map tools Hwf) in Hd.
    replace (opened_with config (cloned_workflow_tools tools) t e n)
      with (set_workflow_tools (λ _, cloned_workflow_tools tools)
              (opened_with config default_of t e n)) by reflexivity.
    unfold cloned_workflow_tools. rewrite Hu, Hok, Hok0. apply Hd.
    apply Forall_forall. intros b Hb%elem_of_declared; [|done].
    apply map_lookup_filter_Some in Hb as [Hb Hs]. destruct Hwf as [_ Hdeclared].
    rewrite Hu in Hdeclared. destruct Hdeclared as (_ & _ & Hdeclared).
    apply (Hdeclared _ _ Hb). by apply bool_decide_eq_false in Hs.
  - rewrite (undeclared tools Hwf Hu) in Hr. destruct (_ || _); [done|]. injection Hdecl as <-.
    cbn in Hr. by rewrite N.add_0_r in Hr.
Qed.
Lemma tools_replay config w e n rest at_ms s s' :
  (n < u64_max)%N →
  replays at_ms rest
    (opened_with config w (cloned_tooling s) e (n + N.of_nat (length (tools_event s)))) s' →
  replays at_ms (tools_event s ++ rest) (opened_with config w default_of e n) s'.
Proof.
  intros Hn. unfold tools_event, cloned_tooling. rewrite cloned_tools_own.
  case_bool_decide as Hempty; cbn [app length].
  - rewrite Hempty. by rewrite N.add_0_r.
  - intros Hr. eapply replays_next; [done| |exact Hr]. by apply does_tools.
Qed.
Lemma environment_replays config w t n at_ms s :
  (n < u64_max)%N →
  replays at_ms (environment_event s) (opened_with config w t default_of n)
    (opened_with config w t s.(CoreAgentState.environment)
       (n + N.of_nat (length (environment_event s)))).
Proof.
  intros Hn. unfold environment_event.
  destruct (CoreAgentState.environment s) as [[environment_id|]]; cbn [length].
  - apply replays_next with (w' := w) (t' := t)
      (e' := {| EnvironmentState.active_environment_id := Some environment_id |});
      [done|exact (does_environment _ _)|apply replays_nil].
  - rewrite N.add_0_r. apply replays_nil.
Qed.
Lemma declaration_length tools declaration :
  declaration_event tools = Ok declaration → (length declaration <= 1)%nat.
Proof.
  unfold declaration_event. intros Hd. destruct (WorkflowToolState.session_universe_id _).
  - simplify_ok. simpl. lia.
  - destruct (_ || _); [done|]. injection Hd as <-. simpl. lia.
Qed.
Lemma clone_replays s config declaration at_ms :
  session_bindings_wf s →
  s.(CoreAgentState.workflow_tools).(WorkflowToolState.lifecycle_controller) = None →
  declaration_event s.(CoreAgentState.workflow_tools) = Ok declaration →
  let events := clone_events s config declaration in
  replays at_ms events default_of (clone_of s config (N.of_nat (length events))).
Proof.
  intros Hwf Hcontroller Hdeclaration events. pose proof (declaration_length _ _ Hdeclaration) as Hl.
  assert (length (tools_event s) <= 1)%nat as Hlt by (unfold tools_event; case_bool_decide; simpl; lia).
  unfold events, clone_events. eapply replays_cons; [done|by apply does_opened|done|].
  change (advanced _) with (opened_with config default_of default_of default_of 1).
  apply (declaration_replays _ _ _ _ _ _ _ _ _ Hwf Hcontroller Hdeclaration); [done|].
  apply tools_replay; [unfold u64_max; lia|].
  eassert (clone_of s config _ = _) as ->; [|apply environment_replays; unfold u64_max; lia].
  unfold clone_of. f_equal. rewrite length_cons, !length_app. lia.
Qed.

(** ** What the store holds of it *)
Lemma encode_all_app at_ms es1 es2 st1 st2 :
  encode_all at_ms es1 = Ok st1 → encode_all at_ms es2 = Ok st2 →
  encode_all at_ms (es1 ++ es2) = Ok (st1 ++ st2).
Proof.
  revert st1. induction es1 as [|e es1 IH]; intros st1 H1 H2.
  - injection H1 as <-. exact H2.
  - unfold encode_all in *. cbn [app mapM] in *. simplify_ok. rewrite Hok.
    cbn [mbind Result_bind]. by rewrite (IH _ Hok0 H2).
Qed.
Lemma clone_opening_events_Ok s at_ms stored :
  core_agent_clone_opening_events s at_ms = Ok stored →
  ∃ config declaration,
    s.(CoreAgentState.workflow_tools).(WorkflowToolState.lifecycle_controller) = None ∧
    s.(CoreAgentState.lifecycle).(LifecycleState.config) = Some config ∧
    declaration_event s.(CoreAgentState.workflow_tools) = Ok declaration ∧
    encode_all at_ms (clone_events s config declaration) = Ok stored.
Proof.
  unfold core_agent_clone_opening_events. intros Hok. simplify_ok.
  exists a0, a2. split_and!; [done..|].
  apply (encode_all_app _ [_] _ a1); [done|]. apply encode_all_app; [done|].
  by apply encode_all_app.
Qed.

Lemma decode_clone_entry at_ms event stored position :
  plain_event event → encode_uncommitted (clone_event at_ms event) = Ok stored →
  decode_entry (stored_entry position stored)
  = Ok (committed_entry position.(SessionPosition.seq) at_ms (event_proposal event)).
Proof.
  intros Hplain Hencode. unfold encode_uncommitted in Hencode. simplify_ok.
  pose proof (decode_encode_joins default_of) as Hjoins. unfold decode_entry.
  change (StoredSessionEntry.joins _) with (encode_joins default_of).
  rewrite Hjoins by done. cbn [mbind Result_bind].
  change (StoredSessionEntry.event _) with a.
  rewrite (decode_encode_event event a Hplain Hok). by destruct position.
Qed.
Lemma decode_cloned at_ms events stored record :
  Forall plain_event events → encode_all at_ms events = Ok stored →
  mapM decode_entry (SessionStore.commit_uncommitted_events record stored).2
  = Ok (committed_entries record.(SessionRecord.head) at_ms
          (event_proposal <$> events)).
Proof.
  intros Hplain. revert record stored.
  induction Hplain as [|event events Hevent _ IH]; intros record stored Hencode.
  { by injection Hencode as <-. }
  unfold encode_all in Hencode. cbn [mapM] in Hencode. simplify_ok.
  cbn [SessionStore.commit_uncommitted_events].
  match goal with |- context [commit_uncommitted_events ?r a0] => set (record1 := r) end.
  specialize (IH record1 a0 Hok0). destruct (commit_uncommitted_events record1 a0) as [r es].
  cbn [snd mapM] in *.
  rewrite (decode_clone_entry _ _ _ (following_position record.(SessionRecord.head)) Hevent Hok).
  cbn [mbind Result_bind]. by rewrite IH.
Qed.

Lemma created_clone_Ok request inner record inner' :
  create_cloned_session request inner = (Ok record, inner') →
  ∃ committed, commit_uncommitted_events (cloned_record request)
      request.(CreateClonedSession.opening_events) = (record, committed) ∧
    inner' = insert_session record committed inner.
Proof.
  unfold create_cloned_session, mbind, Reducer_bind, checking, lift_result.
  destruct (branch_source _ _ _); [|done]. destruct (check_events _); [|done].
  destruct (commit_uncommitted_events _ _) as [r committed] eqn:Hc.
  intros [= <- <-]. by exists committed.
Qed.

Lemma encode_all_length at_ms events stored :
  encode_all at_ms events = Ok stored → length stored = length events.
Proof.
  revert stored. induction events as [|e es IH]; intros stored He.
  - by injection He as <-.
  - unfold encode_all in He. cbn [mapM] in He. simplify_ok. simpl. f_equal. by apply IH.
Qed.
(** A session with entries of its own only reads these. *)
Lemma effective_inserted inner record committed :
  fork_of record = None → stored_seq <$> committed = positions 0 (head_seq record) →
  effective_entries (insert_session record committed inner) record.(SessionRecord.session_id)
  = Ok committed.
Proof.
  intros Hfork Hpositions. set (inner' := insert_session record committed inner).
  assert (record_of inner' record.(SessionRecord.session_id) = Ok record) as Hrecord.
  { unfold record_of, inner'. cbn. by rewrite lookup_insert_eq. }
  assert (local_entries_up_to inner' record.(SessionRecord.session_id) 0 (head_seq record)
    = Ok committed) as Hlocal.
  { unfold local_entries_up_to, inner'. cbn [insert_session insert_record].
    erewrite (proj2 (ok_or_Ok _ _ _)); [|apply lookup_insert_eq]. cbn [mbind Result_bind].
    apply (f_equal Ok), list_filter_all, Forall_forall. intros e He.
    apply (list_elem_of_fmap_2 stored_seq) in He. by rewrite Hpositions, elem_of_positions in He. }
  unfold effective_entries, effective_head_u64. rewrite Hrecord. cbn [mbind Result_bind mret Result_ret].
  unfold effective_entries_up_to. cbn [effective_entries_within]. rewrite Hrecord.
  cbn [mbind Result_bind]. unfold fork_of in Hfork.
  by destruct (SessionRecord.source_session_id record), (SessionRecord.source_seq record).
Qed.

(** C6. A clone is a copy of what its source was configured to be, and of nothing it did.
    When the opening events of a clone, made from any session's state, are handed to the
    store, the log the store then holds for the new session replays to an open session with
    the configuration, the declared bindings, the tools and the active environment of the
    source - without the bindings and tools the system added to it, without its runs, context
    and promises - and no other state; the source cannot be one that is lifecycle-controlled. *)
Theorem clone_opens_a_copy s at_ms request inner record inner' :
  reachable s →
  core_agent_clone_opening_events s at_ms = Ok request.(CreateClonedSession.opening_events) →
  create_cloned_session request inner = (Ok record, inner') →
  ∃ config declaration,
    s.(CoreAgentState.lifecycle).(LifecycleState.config) = Some config ∧
    declaration_event s.(CoreAgentState.workflow_tools) = Ok declaration ∧
    (Forall plain_event (clone_events s config declaration) →
     ∃ stored log, effective_entries inner' request.(CreateClonedSession.session_id) = Ok stored ∧
       mapM decode_entry stored = Ok log ∧
       reduce_log log default_of = (Ok tt, clone_of s config (head_seq record))).
Proof.
  intros Hr Hevents Hcreate.
  destruct (clone_opening_events_Ok _ _ _ Hevents)
    as (config & declaration & Hcontroller & Hconfig & Hdeclaration & Hencode).
  exists config, declaration. split_and!; [done..|]. intros Hplain.
  destruct (created_clone_Ok _ _ _ _ Hcreate) as (committed & Hcommit & ->).
  set (events := clone_events s config declaration) in *.
  assert (length request.(CreateClonedSession.opening_events) = length events) as Hlength
    by by eapply encode_all_length.
  pose proof (declaration_length _ _ Hdeclaration) as Hl.
  assert (length events <= 4)%nat as Hshort.
  { unfold events, clone_events, tools_event, environment_event.
    rewrite length_cons, !length_app. case_bool_decide;
      destruct (EnvironmentState.active_environment_id _); simpl; lia. }
  pose proof (commit_spec (cloned_record request) request.(CreateClonedSession.opening_events)) as Hspec.
  pose proof (decode_cloned at_ms events _ (cloned_record request) Hplain Hencode) as Hdecode.
  rewrite Hcommit in Hspec, Hdecode. destruct Hspec as ([Hid Hfork] & Hhead & Hpositions).
  { rewrite Hlength. change (head_seq (cloned_record request)) with 0%N. unfold u64_max. lia. }
  exists committed. eexists. split; [|split; [exact Hdecode|]].
  - replace request.(CreateClonedSession.session_id) with record.(SessionRecord.session_id)
      by exact Hid. by apply effective_inserted; [rewrite Hfork|].
  - rewrite Hhead, Hlength. apply clone_replays; [by apply reachable_bindings_wf|done..].
Qed.

Definition codec_failure (error : CoreAgentCloneError) : Prop :=
  match error with
  | CoreAgentCloneError.Codec failure => ∃ event, encode_event event = Err failure
  | _ => False
  end.
Lemma encode_all_Err at_ms events error :
  encode_all at_ms events = Err error → codec_failure error.
Proof.
  induction events as [|event events IH]; [done|].
  unfold encode_all. cbn [mapM]. intros [Hfail|(stored & _ & Hfail)]%bind_Err.
  - unfold encode_uncommitted in Hfail.
    change (UncommittedCoreAgentEvent.event _) with event in Hfail.
    destruct (encode_event event) as [|failure] eqn:Hencode; [done|].
    injection Hfail as <-. by exists event.
  - by apply bind_Err in Hfail as [Hfail|(? & _ & ?)]; [apply IH|].
Qed.
Lemma declaration_event_complete tools :
  bindings_wf tools → tools.(WorkflowToolState.lifecycle_controller) = None →
  ∀ error, declaration_event tools ≠ Err error.
Proof.
  intros [_ Hdecl] Hcontroller error. unfold declaration_event.
  destruct (WorkflowToolState.session_universe_id tools).
  - by destruct Hdecl as ([? ->] & [? ->] & _).
  - destruct Hdecl as (-> & -> & _ & Hsystem). rewrite Hcontroller.
    destruct (has_non_system_bindings tools) eqn:Hown; [|done].
    apply existsb_exists in Hown as (id & Hin%list_elem_of_In & Hn).
    apply list_elem_of_fmap in Hin as ([id' b] & -> & Hin%elem_of_btree).
    apply negb_true_iff, bool_decide_eq_false in Hn. destruct Hn. apply Hsystem. by exists b.
Qed.
Definition refusal_reason s (error : CoreAgentCloneError) : Prop :=
  match error with
  | CoreAgentCloneError.LifecycleControlledSession =>
      is_Some s.(CoreAgentState.workflow_tools).(WorkflowToolState.lifecycle_controller)
  | CoreAgentCloneError.MissingConfig => status_of s = CoreAgentStatus.New
  | error => codec_failure error
  end.
Lemma codec_failure_reason s error : codec_failure error → refusal_reason s error.
Proof. by destruct error. Qed.
(** Of any session that was opened and is not lifecycle-controlled, a clone can be made
    unless one of the events it would open with cannot be encoded: the declaration a session
    holds is complete whenever there is one. Otherwise the refusal says what the source is. *)
Theorem clone_refusals s at_ms error :
  reachable s → core_agent_clone_opening_events s at_ms = Err error →
  refusal_reason s error.
Proof.
  intros Hr Herror. pose proof (reachable_bindings_wf s Hr) as Hwf.
  pose proof (reachable_session_wf s Hr) as [Hconfig _].
  unfold core_agent_clone_opening_events in Herror.
  apply bind_Err in Herror as [Herror|([] & Hcontroller & Herror)].
  { destruct (WorkflowToolState.lifecycle_controller _) eqn:Hcontroller; [|done].
    injection Herror as <-. unfold refusal_reason. rewrite Hcontroller. by eexists. }
  apply reject_if_Ok, is_some_false in Hcontroller.
  apply bind_Err in Herror as [Herror|(config & _ & Herror)].
  { destruct (LifecycleState.config _) eqn:Hnone; [done|]. injection Herror as <-.
    by apply Hconfig. }
  apply bind_Err in Herror as [Hfail|(opened & _ & Herror)]; [by eapply codec_failure_reason, encode_all_Err|].
  apply bind_Err in Herror as [Hfail|(declaration & _ & Herror)].
  { by destruct (declaration_event_complete _ Hwf Hcontroller error). }
  apply bind_Err in Herror as [Hfail|(declared & _ & Herror)]; [by eapply codec_failure_reason, encode_all_Err|].
  apply bind_Err in Herror as [Hfail|(tooling & _ & Herror)]; [by eapply codec_failure_reason, encode_all_Err|].
  apply bind_Err in Herror as [Hfail|(environment & _ & Herror)]; [by eapply codec_failure_reason, encode_all_Err|].
  done.
Qed.
End clone.

(** ** Witnesses *)
(** A clone of the session whose model call is under way. *)
Definition copy_request : CreateClonedSession :=
  {| CreateClonedSession.source_session_id := "root";
     CreateClonedSession.session_id := "copy";
     CreateClonedSession.opening_events := [opened_event];
     CreateClonedSession.created_at_ms := 2000 |}.
Definition copied_record : SessionRecord :=
  (SessionStore.commit_uncommitted_events (cloned_record copy_request) [opened_event]).1.
Definition copied_store : InMemorySessionStoreInner :=
  (create_cloned_session copy_request forked_store).2.
Lemma clone_opens_a_copy_witness :
  ∃ config stored log,
    effective_entries copied_store "copy" = Ok stored ∧ mapM decode_entry stored = Ok log ∧
    reduce_log log default_of = (Ok tt, clone_of generating_state config 1).
Proof.
  destruct (clone_opens_a_copy generating_state 1000 copy_request forked_store copied_record
    copied_store generating_reachable) as (config & declaration & Hconfig & Hdeclaration & Hcopy);
    [vm_compute; reflexivity|vm_compute; reflexivity|].
  destruct Hcopy as (stored & log & Hstored & Hlog & Hreplay).
  { apply Forall_forall. intros event _. apply example_plain. }
  exists config, stored, log. split; [exact Hstored|]. split; [exact Hlog|]. exact Hreplay.
Defined.

Lemma clone_refusals_witness :
  core_agent_clone_opening_events new_state 1000 = Err CoreAgentCloneError.MissingConfig ∧
  refusal_reason new_state CoreAgentCloneError.MissingConfig.
Proof.
  split; [vm_compute; reflexivity|].
  apply (clone_refusals new_state 1000 CoreAgentCloneError.MissingConfig);
    [exists []; reflexivity|vm_compute; reflexivity].
Defined.
