(* ===== verification/BotState.v ===== *)
(** * Data of a bot's controller

    A bot is served by one workflow, its controller, which routes events to sessions. Here is
    what reaches it and what it shows of itself ([crates/bots], [crates/api/src/bots.rs]), and
    the identities derived from these ([crates/bots/src/ids.rs]). Instants and durations in
    milliseconds are [i64]s, as integers that wrap. *)
From Stdlib Require Import Ascii ZArith.
From S2P Require Import Prelude Ids Text Types Externals Bindings.
Set Primitive Projections.

(** ** Signed integers *)
Definition i64_max : Z := 9223372036854775807.
Definition i64_min : Z := -9223372036854775808.
Definition wrap_i64 (z : Z) : Z := ((z + 2 ^ 63) mod 2 ^ 64 - 2 ^ 63)%Z.
Definition add_i64 (x y : Z) : Z := wrap_i64 (x + y).
Definition sub_i64 (x y : Z) : Z := wrap_i64 (x - y).
(** [n as i64] of an [n : u64]. *)
Definition as_i64 (n : N) : Z := wrap_i64 (Z.of_N n).
Definition wrapping_add_u32 (x y : N) : N := ((x + y) mod (u32_max + 1))%N.

(** ** The smallest element of an iterator *)
Definition min_by {A} (key : A → Z) (l : list A) : option A :=
  match l with
  | [] => None
  | x :: l => Some (foldl (λ least y, if (key y <? key least)%Z then y else least) x l)
  end.
Definition minimum_of (l : list Z) : option Z := min_by id l.
(** [BTreeSet::iter], ascending. *)
Definition btree_elements (s : gset string) : list string := merge_sort String.le (elements s).

(** ** What the API shows *)
(** [enum BotWhenBusy] of [api/src/bots.rs]. *)
Module BotWhenBusy.
Inductive BotWhenBusy : Type :=
| Queue
| Steer
| Append.
End BotWhenBusy.
Abbreviation BotWhenBusy := BotWhenBusy.BotWhenBusy.
#[export] Instance BotWhenBusy_eq_dec : EqDecision BotWhenBusy.
Proof. solve_decision. Defined.

(** [enum BotEventOutcome] of [api/src/bots.rs]. *)
Module BotEventOutcome.
Inductive BotEventOutcome : Type :=
| Handled
| Deferred
| Ignored
| Blocked
| Unresolved
| RunFailed
| Steered
| Appended
| Archived.
End BotEventOutcome.
Abbreviation BotEventOutcome := BotEventOutcome.BotEventOutcome.
#[export] Instance BotEventOutcome_eq_dec : EqDecision BotEventOutcome.
Proof. solve_decision. Defined.

(** [enum BotControllerStatus] of [api/src/bots.rs]. *)
Module BotControllerStatus.
Inductive BotControllerStatus : Type :=
| Initializing
| Degraded
| Idle
| DeliveringEvent
| BudgetExhausted
| Closing
| Closed.
End BotControllerStatus.
Abbreviation BotControllerStatus := BotControllerStatus.BotControllerStatus.
#[export] Instance BotControllerStatus_eq_dec : EqDecision BotControllerStatus.
Proof. solve_decision. Defined.

(** [enum BotSetupStatus] of [api/src/bots.rs]. *)
Module BotSetupStatus.
Inductive BotSetupStatus : Type :=
| Initializing
| Degraded
| Ready.
End BotSetupStatus.
Abbreviation BotSetupStatus := BotSetupStatus.BotSetupStatus.
#[export] Instance BotSetupStatus_eq_dec : EqDecision BotSetupStatus.
Proof. solve_decision. Defined.

(** [enum BotSessionKind] of [api/src/bots.rs]. *)
Module BotSessionKind.
Inductive BotSessionKind : Type :=
| Main
| PerKey
| PerEvent.
End BotSessionKind.
Abbreviation BotSessionKind := BotSessionKind.BotSessionKind.
#[export] Instance BotSessionKind_eq_dec : EqDecision BotSessionKind.
Proof. solve_decision. Defined.

(** [struct LlmUsageView] of [api/src/views.rs]. *)
Module LlmUsageView.
Record LlmUsageView : Type := {
  input_tokens : option N;
  output_tokens : option N;
  reasoning_tokens : option N;
  total_tokens : option N;
  cached_input_tokens : option N;
  cache_write_input_tokens : option N;
}.
End LlmUsageView.
Abbreviation LlmUsageView := LlmUsageView.LlmUsageView.
#[export] Instance LlmUsageView_eq_dec : EqDecision LlmUsageView.
Proof. solve_decision. Defined.

(** [struct BotSessionSnapshot] of [api/src/bots.rs]. *)
Module BotSessionSnapshot.
Record BotSessionSnapshot : Type := {
  session_id : string;
  label : string;
  kind : BotSessionKind;
  generation : N;
  last_active_at_ms : option Z;
  busy : bool;
}.
End BotSessionSnapshot.
Abbreviation BotSessionSnapshot := BotSessionSnapshot.BotSessionSnapshot.
#[export] Instance BotSessionSnapshot_eq_dec : EqDecision BotSessionSnapshot.
Proof. solve_decision. Defined.

(** [struct BotBufferSnapshot] of [api/src/bots.rs]. *)
Module BotBufferSnapshot.
Record BotBufferSnapshot : Type := {
  key : string;
  seqs : list N;
  first_at_ms : Z;
  last_at_ms : Z;
  flush_at_ms : Z;
}.
End BotBufferSnapshot.
Abbreviation BotBufferSnapshot := BotBufferSnapshot.BotBufferSnapshot.
#[export] Instance BotBufferSnapshot_eq_dec : EqDecision BotBufferSnapshot.
Proof. solve_decision. Defined.

(** [struct BotActiveDeliverySnapshot] of [api/src/bots.rs]. *)
Module BotActiveDeliverySnapshot.
Record BotActiveDeliverySnapshot : Type := {
  delivery_id : string;
  seqs : list N;
  session_id : string;
  run_id : option string;
  started_at_ms : Z;
}.
End BotActiveDeliverySnapshot.
Abbreviation BotActiveDeliverySnapshot := BotActiveDeliverySnapshot.BotActiveDeliverySnapshot.
#[export] Instance BotActiveDeliverySnapshot_eq_dec : EqDecision BotActiveDeliverySnapshot.
Proof. solve_decision. Defined.

(** [struct BotRecentDeliverySnapshot] of [api/src/bots.rs]. *)
Module BotRecentDeliverySnapshot.
Record BotRecentDeliverySnapshot : Type := {
  delivery_id : string;
  seqs : list N;
  session_id : string;
  run_id : option string;
  outcome : BotEventOutcome;
  summary : option string;
  finished_at_ms : Z;
  usage : option LlmUsageView;
}.
End BotRecentDeliverySnapshot.
Abbreviation BotRecentDeliverySnapshot := BotRecentDeliverySnapshot.BotRecentDeliverySnapshot.
#[export] Instance BotRecentDeliverySnapshot_eq_dec : EqDecision BotRecentDeliverySnapshot.
Proof. solve_decision. Defined.

(** [struct BotControllerSnapshot] of [api/src/bots.rs]. *)
Module BotControllerSnapshot.
Record BotControllerSnapshot : Type := {
  controller_status : BotControllerStatus;
  setup_status : BotSetupStatus;
  enabled : bool;
  closed : bool;
  main_session_id : string;
  sessions : list BotSessionSnapshot;
  pending_deliveries : N;
  buffers : list BotBufferSnapshot;
  active_deliveries : list BotActiveDeliverySnapshot;
  recent_deliveries : list BotRecentDeliverySnapshot;
  run_day : option string;
  runs_today : N;
  descendants_today : N;
  events_processed : N;
  duplicate_events : N;
  applied_profile_revision : option N;
  last_error : option string;
}.
End BotControllerSnapshot.
Abbreviation BotControllerSnapshot := BotControllerSnapshot.BotControllerSnapshot.
#[export] Instance BotControllerSnapshot_eq_dec : EqDecision BotControllerSnapshot.
Proof. solve_decision. Defined.

(** ** What reaches the controller *)
(** [enum RoutedSessionClosePolicy] of [bots/src/records.rs]. *)
Module RoutedSessionClosePolicy.
Inductive RoutedSessionClosePolicy : Type :=
| Inherit
| Never
| After (ms : N).
End RoutedSessionClosePolicy.
Abbreviation RoutedSessionClosePolicy := RoutedSessionClosePolicy.RoutedSessionClosePolicy.
#[export] Instance RoutedSessionClosePolicy_eq_dec : EqDecision RoutedSessionClosePolicy.
Proof. solve_decision. Defined.

(** [struct RoutedSession] of [bots/src/records.rs]. *)
Module RoutedSession.
Record RoutedSession : Type := {
  session_id : string;
  label : string;
  session_key : option string;
  close_policy : RoutedSessionClosePolicy;
}.
End RoutedSession.
Abbreviation RoutedSession := RoutedSession.RoutedSession.
#[export] Instance RoutedSession_eq_dec : EqDecision RoutedSession.
Proof. solve_decision. Defined.

(** [struct BotControllerConfig] of [bots/src/signal.rs]. *)
Module BotControllerConfig.
Record BotControllerConfig : Type := {
  universe_id : Uuid;
  bot_id : string;
  display_name : option string;
  profile_id : string;
  brief : option string;
  runs_per_day : option N;
  routed_session_close_after_ms : option N;
  self_config : bool;
  emit : bool;
  enabled : bool;
  closed : bool;
}.
End BotControllerConfig.
Abbreviation BotControllerConfig := BotControllerConfig.BotControllerConfig.
#[export] Instance BotControllerConfig_eq_dec : EqDecision BotControllerConfig.
Proof. solve_decision. Defined.

(** [struct BotCoalesceParams] of [bots/src/signal.rs]. *)
Module BotCoalesceParams.
Record BotCoalesceParams : Type := {
  key : string;
  debounce_ms : N;
  max_wait_ms : N;
  max_count : N;
}.
End BotCoalesceParams.
Abbreviation BotCoalesceParams := BotCoalesceParams.BotCoalesceParams.
#[export] Instance BotCoalesceParams_eq_dec : EqDecision BotCoalesceParams.
Proof. solve_decision. Defined.

(** [enum BotEventMediaKind] of [api/src/bots.rs]. *)
Module BotEventMediaKind.
Inductive BotEventMediaKind : Type :=
| Image
| Audio
| Document.
End BotEventMediaKind.
Abbreviation BotEventMediaKind := BotEventMediaKind.BotEventMediaKind.
#[export] Instance BotEventMediaKind_eq_dec : EqDecision BotEventMediaKind.
Proof. solve_decision. Defined.

(** [struct BotEventMedia] of [api/src/bots.rs]. *)
Module BotEventMedia.
Record BotEventMedia : Type := {
  text_ref : option string;
  blob_ref : string;
  kind : BotEventMediaKind;
  mime : string;
  name : option string;
}.
End BotEventMedia.
Abbreviation BotEventMedia := BotEventMedia.BotEventMedia.
#[export] Instance BotEventMedia_eq_dec : EqDecision BotEventMedia.
Proof. solve_decision. Defined.

(** [struct BotEvent] of [bots/src/signal.rs]. *)
Module BotEvent.
Record BotEvent : Type := {
  id : string;
  seq : N;
  document_ref : string;
  prompt_ref : option string;
  session : option RoutedSession;
  coalesce : option BotCoalesceParams;
  when_busy : option BotWhenBusy;
  hops : N;
  reply : bool;
  media : list BotEventMedia;
  tools_ref : option string;
  notify : bool;
}.
End BotEvent.
Abbreviation BotEvent := BotEvent.BotEvent.
#[export] Instance BotEvent_eq_dec : EqDecision BotEvent.
Proof. solve_decision. Defined.

Definition BotWhenBusy_default : BotWhenBusy := BotWhenBusy.Queue.

(** ** Identities *)
Definition BOT_SESSION_PREFIX : string := "bot:v1:".

(** [s.rsplit_once(t)]: the text before and after the last occurrence. *)
Definition rsplit_once (t s : string) : option (string * string) :=
  match split_once (String.rev t) (String.rev s) with
  | Some (after, before) => Some (String.rev before, String.rev after)
  | None => None
  end.
Definition contains (t s : string) : bool := is_some (split_once t s).

Definition bot_session_kind (session_id : string) : BotSessionKind :=
  if contains ":k-" session_id then BotSessionKind.PerKey
  else if contains ":e-" session_id then BotSessionKind.PerEvent
  else BotSessionKind.Main.
Definition bot_main_session_id (bot_id : string) (generation : N) : string :=
  if (generation <=? 1)%N then BOT_SESSION_PREFIX +:+ bot_id
  else BOT_SESSION_PREFIX +:+ bot_id +:+ "-g" +:+ u64_to_string generation.
(** A rotated routed session appends its generation to its base. *)
Definition routed_session_base (session_id : string) : string :=
  match rsplit_once "-g" session_id with
  | None => session_id
  | Some (base, generation) =>
      if negb (bool_decide (generation = "")) && all_chars is_ascii_digit generation
      then base else session_id
  end.
Definition routed_session_generation_id (base : string) (generation : N) : string :=
  if (generation <=? 1)%N then base else base +:+ "-g" +:+ u64_to_string generation.
Definition is_bot_session (bot_id session_id : string) : bool :=
  let base := BOT_SESSION_PREFIX +:+ bot_id in
  bool_decide (session_id = base)
  || match strip_prefix base session_id with
     | Some rest => starts_with ":" rest || starts_with "-g" rest
     | None => false
     end.

Section ids.
Context `{!Externals}.
(** A single event keeps its id; a batch is named by the digest of its sorted ids. The
    source panics without an event, where no delivery is made. *)
Definition delivery_id (event_ids : list string) : string :=
  match event_ids with
  | [only] => only
  | many => "batch-" +:+ sha256_hex (String.concat (String "010"%char "")
              (merge_sort String.le many))
  end.
Definition delivery_submission_id (delivery_id : string) : string :=
  "bot-event-v1-" +:+ sha256_hex delivery_id.
Definition delivery_terminal_token (delivery_id : string) : string :=
  "bot-event-terminal-v1-" +:+ sha256_hex delivery_id.
End ids.

(** ** Tools *)
Definition BOT_EVENT_RESOLVE_TOOL_ID : string := "lightspeed.bots.event.resolve.v1".
Definition BOT_TOOLS_REVISION : N := 12.
(** The tools of [BOT_TOOL_SPECS] that are answered by a reply; all but the first. *)
Definition JOINED_TOOL_IDS : list string :=
  ["lightspeed.bots.status.v1"; "lightspeed.bots.trigger.put.v1";
   "lightspeed.bots.trigger.delete.v1"; "lightspeed.bots.trigger.list.v1";
   "lightspeed.bots.filter.test.v1"; "lightspeed.bots.event.list.v1";
   "lightspeed.bots.event.read.v1"; "lightspeed.bots.brief.put.v1"; "lightspeed.bots.emit.v1"].
Definition is_pushed_tool (tool_id : string) : bool := bool_decide (tool_id ∈ JOINED_TOOL_IDS).

(** * Data of a bot's controller

    The controller's own state ([temporal-workflow/src/workflows/bots/controller/state.rs]):
    deliveries, coalescing buffers, the bounded sets of seen ids, lanes, what dispatch and
    emissions turn into, and what crosses a continue-as-new ([controller.rs]). *)

(** ** Limits, times in milliseconds *)
Definition MS_PER_DAY : Z := 86400000.
Definition ROTATION_RETRY_DELAY_MS : Z := 5000.
Definition EVENT_ID_MAX_LEN : nat := 200.
Definition SESSION_ID_MAX_LEN : nat := 300.
Definition LABEL_MAX_LEN : nat := 200.
Definition COALESCE_KEY_MAX_LEN : nat := 400.
Definition BOT_DEAD_SESSION_SWEEP_INTERVAL : Z := 900000.
Definition BOT_BUSY_RETRY_DELAY : Z := 5000.
Definition BOT_START_MAX_ATTEMPTS : N := 10.
Definition BOT_START_RETRY_MAX_DELAY : Z := 300000.
Definition BOT_RECONCILE_RETRY_MAX_DELAY : Z := 900000.
Definition BOT_DESCENDANT_REFRESH_INTERVAL : Z := 60000.
Definition BOT_CONTINUE_AS_NEW_AFTER_EVENTS : N := 100.
Definition BOT_RECENT_DELIVERY_CAP : nat := 50.
Definition BOT_SEEN_ID_CAP : N := 2000.

(** ** What crosses a continue-as-new *)
(** [struct BotDelivery] of [bots/controller/state.rs]. *)
Module BotDelivery.
Record BotDelivery : Type := {
  id : string;
  events : list BotEvent;
  session : option RoutedSession;
  when_busy : BotWhenBusy;
  attempts : N;
  not_before_ms : option Z;
  rolled_forward : bool;
}.
End BotDelivery.
Abbreviation BotDelivery := BotDelivery.BotDelivery.
#[export] Instance BotDelivery_eq_dec : EqDecision BotDelivery.
Proof. solve_decision. Defined.
#[export] Instance set_BotDelivery_attempts : Setter BotDelivery.attempts :=
  ltac:(solve_setter BotDelivery.attempts).
#[export] Instance set_BotDelivery_not_before_ms : Setter BotDelivery.not_before_ms :=
  ltac:(solve_setter BotDelivery.not_before_ms).
#[export] Instance set_BotDelivery_rolled_forward : Setter BotDelivery.rolled_forward :=
  ltac:(solve_setter BotDelivery.rolled_forward).

(** [struct CoalesceBuffer] of [bots/controller/state.rs]. *)
Module CoalesceBuffer.
Record CoalesceBuffer : Type := {
  params : BotCoalesceParams;
  session : option RoutedSession;
  when_busy : BotWhenBusy;
  events : list BotEvent;
  first_at_ms : Z;
  last_at_ms : Z;
}.
End CoalesceBuffer.
Abbreviation CoalesceBuffer := CoalesceBuffer.CoalesceBuffer.
#[export] Instance CoalesceBuffer_eq_dec : EqDecision CoalesceBuffer.
Proof. solve_decision. Defined.
#[export] Instance set_CoalesceBuffer_events : Setter CoalesceBuffer.events :=
  ltac:(solve_setter CoalesceBuffer.events).
#[export] Instance set_CoalesceBuffer_last_at_ms : Setter CoalesceBuffer.last_at_ms :=
  ltac:(solve_setter CoalesceBuffer.last_at_ms).
#[export] Instance set_CoalesceBuffer_params : Setter CoalesceBuffer.params :=
  ltac:(solve_setter CoalesceBuffer.params).

(** [struct ControlledSession] of [bots/controller/state.rs]. *)
Module ControlledSession.
Record ControlledSession : Type := {
  session_id : string;
  label : string;
  session_key : option string;
  kind : BotSessionKind;
  last_active_at_ms : option Z;
  close_policy : RoutedSessionClosePolicy;
  carried_tool_ids : list string;
}.
End ControlledSession.
Abbreviation ControlledSession := ControlledSession.ControlledSession.
#[export] Instance ControlledSession_eq_dec : EqDecision ControlledSession.
Proof. solve_decision. Defined.
#[export] Instance set_ControlledSession_session_key : Setter ControlledSession.session_key :=
  ltac:(solve_setter ControlledSession.session_key).
#[export] Instance set_ControlledSession_last_active_at_ms : Setter ControlledSession.last_active_at_ms :=
  ltac:(solve_setter ControlledSession.last_active_at_ms).
#[export] Instance set_ControlledSession_close_policy : Setter ControlledSession.close_policy :=
  ltac:(solve_setter ControlledSession.close_policy).

(** [struct WaitingLane] of [bots/controller/state.rs]. *)
Module WaitingLane.
Record WaitingLane : Type := {
  delivery : BotDelivery;
  session_id : string;
  run_id : string;
  started_at_ms : Z;
}.
End WaitingLane.
Abbreviation WaitingLane := WaitingLane.WaitingLane.
#[export] Instance WaitingLane_eq_dec : EqDecision WaitingLane.
Proof. solve_decision. Defined.

(** ** Live only *)
(** The last ids seen, oldest first, and the same as a set. *)
(** [struct SeenIds] of [bots/controller/state.rs]. *)
Module SeenIds.
Record SeenIds : Type := {
  order : list string;
  set : gset string;
  cap : N;
}.
End SeenIds.
Abbreviation SeenIds := SeenIds.SeenIds.
#[export] Instance SeenIds_eq_dec : EqDecision SeenIds.
Proof. solve_decision. Defined.

(** [struct LaneTerminal] of [bots/controller/state.rs]. *)
Module LaneTerminal.
Record LaneTerminal : Type := {
  status : RunStatus;
  run_id : string;
  failure_message_ref : option BlobRef;
  dead_session : option string;
}.
End LaneTerminal.
Abbreviation LaneTerminal := LaneTerminal.LaneTerminal.
#[export] Instance LaneTerminal_eq_dec : EqDecision LaneTerminal.
Proof. solve_decision. Defined.

(** [struct LaneResolution] of [bots/controller/state.rs]. *)
Module LaneResolution.
Record LaneResolution : Type := {
  outcome : BotEventOutcome;
  summary : option string;
}.
End LaneResolution.
Abbreviation LaneResolution := LaneResolution.LaneResolution.
#[export] Instance LaneResolution_eq_dec : EqDecision LaneResolution.
Proof. solve_decision. Defined.

(** [struct ActiveLane] of [bots/controller/state.rs]. *)
Module ActiveLane.
Record ActiveLane : Type := {
  delivery : BotDelivery;
  session_id : string;
  run_id : option string;
  terminal : option LaneTerminal;
  resolution : option LaneResolution;
  started_at_ms : Z;
  parked : bool;
}.
End ActiveLane.
Abbreviation ActiveLane := ActiveLane.ActiveLane.
#[export] Instance ActiveLane_eq_dec : EqDecision ActiveLane.
Proof. solve_decision. Defined.
#[export] Instance set_ActiveLane_session_id : Setter ActiveLane.session_id :=
  ltac:(solve_setter ActiveLane.session_id).
#[export] Instance set_ActiveLane_run_id : Setter ActiveLane.run_id :=
  ltac:(solve_setter ActiveLane.run_id).
#[export] Instance set_ActiveLane_terminal : Setter ActiveLane.terminal :=
  ltac:(solve_setter ActiveLane.terminal).
#[export] Instance set_ActiveLane_resolution : Setter ActiveLane.resolution :=
  ltac:(solve_setter ActiveLane.resolution).
#[export] Instance set_ActiveLane_parked : Setter ActiveLane.parked :=
  ltac:(solve_setter ActiveLane.parked).

(** [struct PendingInvocation] of [bots/controller/state.rs]. *)
Module PendingInvocation.
Record PendingInvocation : Type := {
  invocation : WorkflowToolInvocation;
  holder_workflow_id : string;
}.
End PendingInvocation.
Abbreviation PendingInvocation := PendingInvocation.PendingInvocation.
#[export] Instance PendingInvocation_eq_dec : EqDecision PendingInvocation.
Proof. solve_decision. Defined.

(** [enum DispatchAction] of [bots/controller/state.rs]. *)
Module DispatchAction.
Inductive DispatchAction : Type :=
| Lane (delivery : BotDelivery) (target : string)
| Sidecar (delivery : BotDelivery) (target : string).
End DispatchAction.
Abbreviation DispatchAction := DispatchAction.DispatchAction.
#[export] Instance DispatchAction_eq_dec : EqDecision DispatchAction.
Proof. solve_decision. Defined.

(** [struct DeliveryOutcome] of [bots/controller/state.rs]. *)
Module DeliveryOutcome.
Record DeliveryOutcome : Type := {
  outcome : BotEventOutcome;
  summary : option string;
  run_id : option string;
}.
End DeliveryOutcome.
Abbreviation DeliveryOutcome := DeliveryOutcome.DeliveryOutcome.
#[export] Instance DeliveryOutcome_eq_dec : EqDecision DeliveryOutcome.
Proof. solve_decision. Defined.

(** [enum EmissionDisposition] of [bots/controller/state.rs]. *)
Module EmissionDisposition.
Inductive EmissionDisposition : Type :=
| Foreign (note : string)
| Invocation (session_id : string) (invocation : WorkflowToolInvocation) (holder_workflow_id : string)
| Terminal (session_id run_id token : string) (status : RunStatus) (failure_message_ref : option BlobRef)
| Ignore.
End EmissionDisposition.
Abbreviation EmissionDisposition := EmissionDisposition.EmissionDisposition.
#[export] Instance EmissionDisposition_eq_dec : EqDecision EmissionDisposition.
Proof. solve_decision. Defined.

(** [struct BotToolInvocationRef] of [bots/types.rs]. *)
Module BotToolInvocationRef.
Record BotToolInvocationRef : Type := {
  invocation_id : string;
  workflow_tool_id : string;
  run_id : string;
  arguments_ref : string;
}.
End BotToolInvocationRef.
Abbreviation BotToolInvocationRef := BotToolInvocationRef.BotToolInvocationRef.
#[export] Instance BotToolInvocationRef_eq_dec : EqDecision BotToolInvocationRef.
Proof. solve_decision. Defined.

(** [struct BotControllerSummary] of [bots/types.rs]. *)
Module BotControllerSummary.
Record BotControllerSummary : Type := {
  snapshot : BotControllerSnapshot;
  hops : N;
  routed_session : option RoutedSession;
}.
End BotControllerSummary.
Abbreviation BotControllerSummary := BotControllerSummary.BotControllerSummary.
#[export] Instance BotControllerSummary_eq_dec : EqDecision BotControllerSummary.
Proof. solve_decision. Defined.

(** [struct BotControllerCarry] of [bots/controller.rs]. *)
Module BotControllerCarry.
Record BotControllerCarry : Type := {
  waiting_lanes : list WaitingLane;
  config_dirty : bool;
  pending_deliveries : list BotDelivery;
  buffers : gmap string CoalesceBuffer;
  recent_deliveries : list BotRecentDeliverySnapshot;
  seen_event_ids : list string;
  seen_emission_ids : list string;
  handled_invocation_ids : list string;
  session_cursors : gmap string N;
  applied_profile_id : option string;
  applied_profile_revision : option N;
  session_ready : bool;
  events_processed : N;
  duplicate_events : N;
  duplicate_emissions : N;
  run_day : option string;
  runs_today : N;
  descendants_today : N;
  budget_roots : list string;
  extra_sessions : list ControlledSession;
  session_generations : gmap string N;
  rotation_requests : list string;
  main_generation : N;
  tools_revision : option N;
  reconcile_attempts : N;
  reconcile_rotated : bool;
}.
End BotControllerCarry.
Abbreviation BotControllerCarry := BotControllerCarry.BotControllerCarry.
#[export] Instance BotControllerCarry_eq_dec : EqDecision BotControllerCarry.
Proof. solve_decision. Defined.

(** [struct BotControllerArgs] of [bots/controller.rs]. *)
Module BotControllerArgs.
Record BotControllerArgs : Type := {
  config : BotControllerConfig;
  carry : option BotControllerCarry;
}.
End BotControllerArgs.
Abbreviation BotControllerArgs := BotControllerArgs.BotControllerArgs.
#[export] Instance BotControllerArgs_eq_dec : EqDecision BotControllerArgs.
Proof. solve_decision. Defined.

Definition BotControllerCarry_default : BotControllerCarry :=
  {| BotControllerCarry.waiting_lanes := [];
     BotControllerCarry.config_dirty := false;
     BotControllerCarry.pending_deliveries := [];
     BotControllerCarry.buffers := ∅;
     BotControllerCarry.recent_deliveries := [];
     BotControllerCarry.seen_event_ids := [];
     BotControllerCarry.seen_emission_ids := [];
     BotControllerCarry.handled_invocation_ids := [];
     BotControllerCarry.session_cursors := ∅;
     BotControllerCarry.applied_profile_id := None;
     BotControllerCarry.applied_profile_revision := None;
     BotControllerCarry.session_ready := false;
     BotControllerCarry.events_processed := 0%N;
     BotControllerCarry.duplicate_events := 0%N;
     BotControllerCarry.duplicate_emissions := 0%N;
     BotControllerCarry.run_day := None;
     BotControllerCarry.runs_today := 0%N;
     BotControllerCarry.descendants_today := 0%N;
     BotControllerCarry.budget_roots := [];
     BotControllerCarry.extra_sessions := [];
     BotControllerCarry.session_generations := ∅;
     BotControllerCarry.rotation_requests := [];
     BotControllerCarry.main_generation := 0%N;
     BotControllerCarry.tools_revision := None;
     BotControllerCarry.reconcile_attempts := 0%N;
     BotControllerCarry.reconcile_rotated := false |}.

(** ** The controller *)
(** [struct ControllerState] of [bots/controller/state.rs]. *)
Module ControllerState.
Record ControllerState : Type := {
  config : BotControllerConfig;
  main_generation : N;
  tools_revision : option N;
  pending_deliveries : list BotDelivery;
  buffers : gmap string CoalesceBuffer;
  recent_deliveries : list BotRecentDeliverySnapshot;
  seen_event_ids : SeenIds;
  seen_emission_ids : SeenIds;
  handled_invocation_ids : SeenIds;
  emission_inbox : list EmissionEnvelope;
  pending_invocations : list PendingInvocation;
  extra_sessions : list ControlledSession;
  session_cursors : gmap string N;
  session_generations : gmap string N;
  rotation_requests : gset string;
  active_by_session : gmap string ActiveLane;
  sidecar_by_session : gset string;
  applied_profile_id : option string;
  applied_profile_revision : option N;
  session_ready : bool;
  events_processed : N;
  duplicate_events : N;
  duplicate_emissions : N;
  run_day : string;
  runs_today : N;
  descendants_today : N;
  budget_roots : gset string;
  descendants_refreshed_at_ms : Z;
  descendants_refreshed_processed : option N;
  lane_tick : N;
  event_tick : N;
  rotation_retry_at_ms : option Z;
  dead_session_sweep_at_ms : option Z;
  reconcile_retry_at_ms : option Z;
  reconcile_attempts : N;
  reconcile_rotated : bool;
  setup_status : BotSetupStatus;
  config_dirty : bool;
  rename_dirty : bool;
  closing : bool;
  closed_done : bool;
  last_error : option string;
  clock_ms : Z;
}.
End ControllerState.
Abbreviation ControllerState := ControllerState.ControllerState.
#[export] Instance set_ControllerState_config : Setter ControllerState.config :=
  ltac:(solve_setter ControllerState.config).
#[export] Instance set_ControllerState_main_generation : Setter ControllerState.main_generation :=
  ltac:(solve_setter ControllerState.main_generation).
#[export] Instance set_ControllerState_tools_revision : Setter ControllerState.tools_revision :=
  ltac:(solve_setter ControllerState.tools_revision).
#[export] Instance set_ControllerState_pending_deliveries : Setter ControllerState.pending_deliveries :=
  ltac:(solve_setter ControllerState.pending_deliveries).
#[export] Instance set_ControllerState_buffers : Setter ControllerState.buffers :=
  ltac:(solve_setter ControllerState.buffers).
#[export] Instance set_ControllerState_recent_deliveries : Setter ControllerState.recent_deliveries :=
  ltac:(solve_setter ControllerState.recent_deliveries).
#[export] Instance set_ControllerState_seen_event_ids : Setter ControllerState.seen_event_ids :=
  ltac:(solve_setter ControllerState.seen_event_ids).
#[export] Instance set_ControllerState_seen_emission_ids : Setter ControllerState.seen_emission_ids :=
  ltac:(solve_setter ControllerState.seen_emission_ids).
#[export] Instance set_ControllerState_handled_invocation_ids : Setter ControllerState.handled_invocation_ids :=
  ltac:(solve_setter ControllerState.handled_invocation_ids).
#[export] Instance set_ControllerState_emission_inbox : Setter ControllerState.emission_inbox :=
  ltac:(solve_setter ControllerState.emission_inbox).
#[export] Instance set_ControllerState_pending_invocations : Setter ControllerState.pending_invocations :=
  ltac:(solve_setter ControllerState.pending_invocations).
#[export] Instance set_ControllerState_extra_sessions : Setter ControllerState.extra_sessions :=
  ltac:(solve_setter ControllerState.extra_sessions).
#[export] Instance set_ControllerState_session_cursors : Setter ControllerState.session_cursors :=
  ltac:(solve_setter ControllerState.session_cursors).
#[export] Instance set_ControllerState_session_generations : Setter ControllerState.session_generations :=
  ltac:(solve_setter ControllerState.session_generations).
#[export] Instance set_ControllerState_rotation_requests : Setter ControllerState.rotation_requests :=
  ltac:(solve_setter ControllerState.rotation_requests).
#[export] Instance set_ControllerState_active_by_session : Setter ControllerState.active_by_session :=
  ltac:(solve_setter ControllerState.active_by_session).
#[export] Instance set_ControllerState_sidecar_by_session : Setter ControllerState.sidecar_by_session :=
  ltac:(solve_setter ControllerState.sidecar_by_session).
#[export] Instance set_ControllerState_applied_profile_id : Setter ControllerState.applied_profile_id :=
  ltac:(solve_setter ControllerState.applied_profile_id).
#[export] Instance set_ControllerState_applied_profile_revision : Setter ControllerState.applied_profile_revision :=
  ltac:(solve_setter ControllerState.applied_profile_revision).
#[export] Instance set_ControllerState_session_ready : Setter ControllerState.session_ready :=
  ltac:(solve_setter ControllerState.session_ready).
#[export] Instance set_ControllerState_events_processed : Setter ControllerState.events_processed :=
  ltac:(solve_setter ControllerState.events_processed).
#[export] Instance set_ControllerState_duplicate_events : Setter ControllerState.duplicate_events :=
  ltac:(solve_setter ControllerState.duplicate_events).
#[export] Instance set_ControllerState_duplicate_emissions : Setter ControllerState.duplicate_emissions :=
  ltac:(solve_setter ControllerState.duplicate_emissions).
#[export] Instance set_ControllerState_run_day : Setter ControllerState.run_day :=
  ltac:(solve_setter ControllerState.run_day).
#[export] Instance set_ControllerState_runs_today : Setter ControllerState.runs_today :=
  ltac:(solve_setter ControllerState.runs_today).
#[export] Instance set_ControllerState_descendants_today : Setter ControllerState.descendants_today :=
  ltac:(solve_setter ControllerState.descendants_today).
#[export] Instance set_ControllerState_budget_roots : Setter ControllerState.budget_roots :=
  ltac:(solve_setter ControllerState.budget_roots).
#[export] Instance set_ControllerState_descendants_refreshed_at_ms : Setter ControllerState.descendants_refreshed_at_ms :=
  ltac:(solve_setter ControllerState.descendants_refreshed_at_ms).
#[export] Instance set_ControllerState_descendants_refreshed_processed : Setter ControllerState.descendants_refreshed_processed :=
  ltac:(solve_setter ControllerState.descendants_refreshed_processed).
#[export] Instance set_ControllerState_lane_tick : Setter ControllerState.lane_tick :=
  ltac:(solve_setter ControllerState.lane_tick).
#[export] Instance set_ControllerState_event_tick : Setter ControllerState.event_tick :=
  ltac:(solve_setter ControllerState.event_tick).
#[export] Instance set_ControllerState_rotation_retry_at_ms : Setter ControllerState.rotation_retry_at_ms :=
  ltac:(solve_setter ControllerState.rotation_retry_at_ms).
#[export] Instance set_ControllerState_dead_session_sweep_at_ms : Setter ControllerState.dead_session_sweep_at_ms :=
  ltac:(solve_setter ControllerState.dead_session_sweep_at_ms).
#[export] Instance set_ControllerState_reconcile_retry_at_ms : Setter ControllerState.reconcile_retry_at_ms :=
  ltac:(solve_setter ControllerState.reconcile_retry_at_ms).
#[export] Instance set_ControllerState_reconcile_attempts : Setter ControllerState.reconcile_attempts :=
  ltac:(solve_setter ControllerState.reconcile_attempts).
#[export] Instance set_ControllerState_reconcile_rotated : Setter ControllerState.reconcile_rotated :=
  ltac:(solve_setter ControllerState.reconcile_rotated).
#[export] Instance set_ControllerState_setup_status : Setter ControllerState.setup_status :=
  ltac:(solve_setter ControllerState.setup_status).
#[export] Instance set_ControllerState_config_dirty : Setter ControllerState.config_dirty :=
  ltac:(solve_setter ControllerState.config_dirty).
#[export] Instance set_ControllerState_rename_dirty : Setter ControllerState.rename_dirty :=
  ltac:(solve_setter ControllerState.rename_dirty).
#[export] Instance set_ControllerState_closing : Setter ControllerState.closing :=
  ltac:(solve_setter ControllerState.closing).
#[export] Instance set_ControllerState_closed_done : Setter ControllerState.closed_done :=
  ltac:(solve_setter ControllerState.closed_done).
#[export] Instance set_ControllerState_last_error : Setter ControllerState.last_error :=
  ltac:(solve_setter ControllerState.last_error).
#[export] Instance set_ControllerState_clock_ms : Setter ControllerState.clock_ms :=
  ltac:(solve_setter ControllerState.clock_ms).
