(* ===== verification/BotController.v ===== *)
(** * The decisions of a bot's controller

    Every decision the controller makes without waiting for anything
    ([temporal-workflow/src/workflows/bots/controller/state.rs]): which events it accepts, how
    they are batched, the budget of the day, which deliveries start, retries, the ends of runs,
    when the loop wakes, what crosses a continue-as-new. A method behind [&mut self] returns
    the new state, after its result if it has one. Calendar dates are [chrono]'s. *)
From Stdlib Require Import Ascii ZArith.
From S2P Require Import Prelude Ids Text Types Externals Bindings BotState.
Set Primitive Projections.

(** [chrono]: the [YYYY-MM-DD] of an instant, none outside the years it knows, and the
    midnight of such a text. Up to the year 9999 an instant has a day, a day's text is read
    back as its midnight, and the instants of a day share its text. *)
Class Calendar := {
  format_day : Z → option string;
  parse_day_start : string → option Z;
  same_day : ∀ t u, (t / MS_PER_DAY = u / MS_PER_DAY)%Z → format_day t = format_day u;
  day_roundtrip : ∀ t, (0 <= t < 253402300800000)%Z →
    ∃ day, format_day t = Some day ∧
      parse_day_start day = Some (t / MS_PER_DAY * MS_PER_DAY)%Z;
}.

(** ** Deliveries *)
Definition BotDelivery_event_ids (self : BotDelivery) : list string :=
  BotEvent.id <$> self.(BotDelivery.events).
Definition BotDelivery_seqs (self : BotDelivery) : list N :=
  BotEvent.seq <$> self.(BotDelivery.events).
Definition BotDelivery_hops (self : BotDelivery) : N :=
  foldl N.max 0%N (BotEvent.hops <$> self.(BotDelivery.events)).
Definition BotDelivery_notify_event_ids (self : BotDelivery) : list string :=
  BotEvent.id <$> filter (λ e, e.(BotEvent.notify) = true) self.(BotDelivery.events).
Definition BotDelivery_reply_event_ids (self : BotDelivery) : list string :=
  BotEvent.id <$> filter (λ e, e.(BotEvent.reply) = true) self.(BotDelivery.events).
Definition BotDelivery_waiting (self : BotDelivery) (now_ms : Z) : bool :=
  match self.(BotDelivery.not_before_ms) with Some t => (now_ms <? t)%Z | None => false end.
Definition BotDelivery_single (event : BotEvent) : BotDelivery :=
  {| BotDelivery.id := event.(BotEvent.id);
     BotDelivery.session := event.(BotEvent.session);
     BotDelivery.when_busy := default BotWhenBusy_default event.(BotEvent.when_busy);
     BotDelivery.events := [event];
     BotDelivery.attempts := 0;
     BotDelivery.not_before_ms := None;
     BotDelivery.rolled_forward := false |}.

Definition CoalesceBuffer_flush_at_ms (self : CoalesceBuffer) : Z :=
  Z.min (add_i64 self.(CoalesceBuffer.last_at_ms)
           (as_i64 self.(CoalesceBuffer.params).(BotCoalesceParams.debounce_ms)))
    (add_i64 self.(CoalesceBuffer.first_at_ms)
       (as_i64 self.(CoalesceBuffer.params).(BotCoalesceParams.max_wait_ms))).
Definition CoalesceBuffer_is_ripe (self : CoalesceBuffer) (now_ms : Z) : bool :=
  (CoalesceBuffer_flush_at_ms self <=? now_ms)%Z.
Definition CoalesceBuffer_into_delivery `{!Externals} (self : CoalesceBuffer) : BotDelivery :=
  {| BotDelivery.id := delivery_id (BotEvent.id <$> self.(CoalesceBuffer.events));
     BotDelivery.events := self.(CoalesceBuffer.events);
     BotDelivery.session := self.(CoalesceBuffer.session);
     BotDelivery.when_busy := self.(CoalesceBuffer.when_busy);
     BotDelivery.attempts := 0;
     BotDelivery.not_before_ms := None;
     BotDelivery.rolled_forward := false |}.

(** ** Seen ids *)
Definition SeenIds_with_cap (cap : N) : SeenIds :=
  {| SeenIds.order := []; SeenIds.set := ∅; SeenIds.cap := cap |}.
(** [while self.order.len() > self.cap]: the oldest ids leave. *)
Fixpoint evict (cap : N) (order : list string) (set : gset string)
    : list string * gset string :=
  match order with
  | evicted :: rest =>
      if (cap <? N.of_nat (length order))%N then evict cap rest (set ∖ {[evicted]})
      else (order, set)
  | [] => ([], set)
  end.
Definition SeenIds_insert (id : string) (self : SeenIds) : bool * SeenIds :=
  if bool_decide (id ∈ self.(SeenIds.set)) then (false, self)
  else
    let '(order, set) := evict self.(SeenIds.cap) (self.(SeenIds.order) ++ [id])
                           ({[id]} ∪ self.(SeenIds.set)) in
    (true, {| SeenIds.order := order; SeenIds.set := set;
              SeenIds.cap := self.(SeenIds.cap) |}).
Definition SeenIds_from_ids (ids : list string) (cap : N) : SeenIds :=
  foldl (λ seen id, (SeenIds_insert id seen).2) (SeenIds_with_cap cap) ids.
Definition SeenIds_contains (id : string) (self : SeenIds) : bool :=
  bool_decide (id ∈ self.(SeenIds.set)).
Definition SeenIds_tail (self : SeenIds) : list string := self.(SeenIds.order).

(** ** Time *)
(** Doubling from [BOT_BUSY_RETRY_DELAY], for the [attempts]th failure. *)
Definition backoff_ms (attempts : N) (cap : Z) : Z :=
  let doublings := N.min (attempts - 1) 20 in
  Z.min (Z.shiftl BOT_BUSY_RETRY_DELAY (Z.of_N doublings)) cap.
Definition ms_until_next_utc_day (now_ms : Z) : Z :=
  let next := wrap_i64 ((now_ms / MS_PER_DAY + 1) * MS_PER_DAY) in
  Z.max (sub_i64 next now_ms) 1000.
Definition utc_day `{!Calendar} (now_ms : Z) : string :=
  default "1970-01-01" (format_day now_ms).
Definition day_start_ms `{!Calendar} (day : string) : Z := default 0%Z (parse_day_start day).

(** [update_first p f l]: what a mutable reference to [l.iter_mut().find(p)] writes. *)
Fixpoint update_first {A} (p : A → bool) (f : A → A) (l : list A) : list A :=
  match l with
  | [] => []
  | x :: l => if p x then f x :: l else x :: update_first p f l
  end.
(** [seen.insert(id)] while collecting: the first occurrences, in order. *)
Fixpoint first_occurrences (seen : gset string) (ids : list string) : list string :=
  match ids with
  | [] => []
  | id :: ids =>
      if bool_decide (id ∈ seen) then first_occurrences seen ids
      else id :: first_occurrences ({[id]} ∪ seen) ids
  end.

(** ** Pure helpers *)
Definition validate_event (event : BotEvent) : Result string unit :=
  let id_length := String.length event.(BotEvent.id) in
  reject_if ((id_length =? 0) || (EVENT_ID_MAX_LEN <? id_length))%nat "invalid bot event id";;
  reject_if (String.length event.(BotEvent.document_ref) =? 0)%nat
    "invalid bot event document ref";;
  match event.(BotEvent.session) with
  | Some session =>
      let id_length := String.length session.(RoutedSession.session_id) in
      let label_length := String.length session.(RoutedSession.label) in
      reject_if ((id_length =? 0) || (SESSION_ID_MAX_LEN <? id_length))%nat
        "invalid bot event session id";;
      reject_if ((label_length =? 0) || (LABEL_MAX_LEN <? label_length))%nat
        "invalid bot event session label"
  | None => mret tt
  end;;
  match event.(BotEvent.coalesce) with
  | Some coalesce =>
      let key_length := String.length coalesce.(BotCoalesceParams.key) in
      reject_if ((key_length =? 0) || (COALESCE_KEY_MAX_LEN <? key_length))%nat
        "invalid coalesce key";;
      reject_if (coalesce.(BotCoalesceParams.max_count) =? 0)%N "invalid coalesce maxCount";;
      reject_if (coalesce.(BotCoalesceParams.max_wait_ms)
                   <? coalesce.(BotCoalesceParams.debounce_ms))%N
        "coalesce maxWaitMs must cover debounceMs"
  | None => mret tt
  end.

Definition run_status_label (status : RunStatus) : string :=
  match status with
  | RunStatus.Running => "active"
  | RunStatus.Parked => "parked"
  | RunStatus.Cancelling => "cancelling"
  | RunStatus.Completed => "completed"
  | RunStatus.Failed => "failed"
  | RunStatus.Cancelled => "cancelled"
  end.

(** ** The controller *)
Section controller.
Context `{!Externals} `{!Calendar}.
Implicit Types (self : ControllerState) (delivery : BotDelivery).

(** ** Crossing a continue-as-new *)
(** [collect] into a map keeps the last of two equal keys. *)
Definition resume_lane (lanes : gmap string ActiveLane) (lane : WaitingLane)
    : gmap string ActiveLane :=
  <[lane.(WaitingLane.session_id) :=
      {| ActiveLane.delivery := lane.(WaitingLane.delivery);
         ActiveLane.session_id := lane.(WaitingLane.session_id);
         ActiveLane.run_id := Some lane.(WaitingLane.run_id);
         ActiveLane.terminal := None;
         ActiveLane.resolution := None;
         ActiveLane.started_at_ms := lane.(WaitingLane.started_at_ms);
         ActiveLane.parked := true |}]> lanes.

Definition ControllerState_new (args : BotControllerArgs) (now_ms : Z) : ControllerState :=
  let config := args.(BotControllerArgs.config) in
  let carry := default BotControllerCarry_default args.(BotControllerArgs.carry) in
  let pending_deliveries := carry.(BotControllerCarry.pending_deliveries) in
  let seen_event_ids :=
    match carry.(BotControllerCarry.seen_event_ids) with
    | [] => SeenIds_from_ids (pending_deliveries ≫= BotDelivery_event_ids) BOT_SEEN_ID_CAP
    | seen => SeenIds_from_ids seen BOT_SEEN_ID_CAP
    end in
  let main_generation := N.max carry.(BotControllerCarry.main_generation) 1 in
  let waiting_lanes := carry.(BotControllerCarry.waiting_lanes) in
  let main_session_id :=
    bot_main_session_id config.(BotControllerConfig.bot_id) main_generation in
  let main_run_carried :=
    existsb (λ lane, bool_decide (lane.(WaitingLane.session_id) = main_session_id))
      waiting_lanes in
  let session_ready := carry.(BotControllerCarry.session_ready) in
  {| ControllerState.config := config;
     ControllerState.main_generation := main_generation;
     ControllerState.tools_revision := carry.(BotControllerCarry.tools_revision);
     ControllerState.pending_deliveries := pending_deliveries;
     ControllerState.buffers := carry.(BotControllerCarry.buffers);
     ControllerState.recent_deliveries := carry.(BotControllerCarry.recent_deliveries);
     ControllerState.seen_event_ids := seen_event_ids;
     ControllerState.seen_emission_ids :=
       SeenIds_from_ids carry.(BotControllerCarry.seen_emission_ids) BOT_SEEN_ID_CAP;
     ControllerState.handled_invocation_ids :=
       SeenIds_from_ids carry.(BotControllerCarry.handled_invocation_ids) BOT_SEEN_ID_CAP;
     ControllerState.emission_inbox := [];
     ControllerState.pending_invocations := [];
     ControllerState.extra_sessions := carry.(BotControllerCarry.extra_sessions);
     ControllerState.session_cursors := carry.(BotControllerCarry.session_cursors);
     ControllerState.session_generations := carry.(BotControllerCarry.session_generations);
     ControllerState.rotation_requests :=
       list_to_set carry.(BotControllerCarry.rotation_requests);
     ControllerState.active_by_session := foldl resume_lane ∅ waiting_lanes;
     ControllerState.sidecar_by_session := ∅;
     ControllerState.applied_profile_id := carry.(BotControllerCarry.applied_profile_id);
     ControllerState.applied_profile_revision :=
       carry.(BotControllerCarry.applied_profile_revision);
     ControllerState.session_ready := session_ready;
     ControllerState.events_processed := carry.(BotControllerCarry.events_processed);
     ControllerState.duplicate_events := carry.(BotControllerCarry.duplicate_events);
     ControllerState.duplicate_emissions := carry.(BotControllerCarry.duplicate_emissions);
     ControllerState.run_day := default (utc_day now_ms) carry.(BotControllerCarry.run_day);
     ControllerState.runs_today := carry.(BotControllerCarry.runs_today);
     ControllerState.descendants_today := carry.(BotControllerCarry.descendants_today);
     ControllerState.budget_roots := list_to_set carry.(BotControllerCarry.budget_roots);
     ControllerState.descendants_refreshed_at_ms := 0;
     ControllerState.descendants_refreshed_processed := None;
     ControllerState.lane_tick := 0;
     ControllerState.event_tick := 0;
     ControllerState.rotation_retry_at_ms := None;
     ControllerState.dead_session_sweep_at_ms :=
       match waiting_lanes with
       | [] => None
       | _ => Some (add_i64 now_ms BOT_DEAD_SESSION_SWEEP_INTERVAL)
       end;
     ControllerState.reconcile_retry_at_ms := None;
     ControllerState.reconcile_attempts := carry.(BotControllerCarry.reconcile_attempts);
     ControllerState.reconcile_rotated := carry.(BotControllerCarry.reconcile_rotated);
     ControllerState.setup_status :=
       if session_ready then BotSetupStatus.Ready else BotSetupStatus.Initializing;
     ControllerState.config_dirty :=
       carry.(BotControllerCarry.config_dirty) || negb main_run_carried;
     ControllerState.rename_dirty := false;
     ControllerState.closing := false;
     ControllerState.closed_done := false;
     ControllerState.last_error := None;
     ControllerState.clock_ms := now_ms |}.

(** The lanes this execution inherited, or would hand on. *)
Definition waiting_lane (lane : ActiveLane) : option WaitingLane :=
  run_id ← lane.(ActiveLane.run_id);
  Some {| WaitingLane.delivery := lane.(ActiveLane.delivery);
          WaitingLane.session_id := lane.(ActiveLane.session_id);
          WaitingLane.run_id := run_id;
          WaitingLane.started_at_ms := lane.(ActiveLane.started_at_ms) |}.
Definition waiting_lanes self : list WaitingLane :=
  omap waiting_lane (btree_values self.(ControllerState.active_by_session)).
Definition ControllerState_carry self : BotControllerCarry :=
  {| BotControllerCarry.waiting_lanes := waiting_lanes self;
     BotControllerCarry.config_dirty := self.(ControllerState.config_dirty);
     BotControllerCarry.pending_deliveries := self.(ControllerState.pending_deliveries);
     BotControllerCarry.buffers := self.(ControllerState.buffers);
     BotControllerCarry.recent_deliveries := self.(ControllerState.recent_deliveries);
     BotControllerCarry.seen_event_ids := SeenIds_tail self.(ControllerState.seen_event_ids);
     BotControllerCarry.seen_emission_ids :=
       SeenIds_tail self.(ControllerState.seen_emission_ids);
     BotControllerCarry.handled_invocation_ids :=
       SeenIds_tail self.(ControllerState.handled_invocation_ids);
     BotControllerCarry.session_cursors := self.(ControllerState.session_cursors);
     BotControllerCarry.applied_profile_id := self.(ControllerState.applied_profile_id);
     BotControllerCarry.applied_profile_revision :=
       self.(ControllerState.applied_profile_revision);
     BotControllerCarry.session_ready := self.(ControllerState.session_ready);
     BotControllerCarry.events_processed := 0;
     BotControllerCarry.duplicate_events := self.(ControllerState.duplicate_events);
     BotControllerCarry.duplicate_emissions := self.(ControllerState.duplicate_emissions);
     BotControllerCarry.run_day := Some self.(ControllerState.run_day);
     BotControllerCarry.runs_today := self.(ControllerState.runs_today);
     BotControllerCarry.descendants_today := self.(ControllerState.descendants_today);
     BotControllerCarry.budget_roots := btree_elements self.(ControllerState.budget_roots);
     BotControllerCarry.extra_sessions := self.(ControllerState.extra_sessions);
     BotControllerCarry.session_generations := self.(ControllerState.session_generations);
     BotControllerCarry.rotation_requests :=
       btree_elements self.(ControllerState.rotation_requests);
     BotControllerCarry.main_generation := self.(ControllerState.main_generation);
     BotControllerCarry.tools_revision := self.(ControllerState.tools_revision);
     BotControllerCarry.reconcile_attempts := self.(ControllerState.reconcile_attempts);
     BotControllerCarry.reconcile_rotated := self.(ControllerState.reconcile_rotated) |}.

(** ** Identity and labels *)
Definition main_session_id self : string :=
  bot_main_session_id self.(ControllerState.config).(BotControllerConfig.bot_id)
    self.(ControllerState.main_generation).
Definition bot_label self : string :=
  let config := self.(ControllerState.config) in
  "bot " +:+ default config.(BotControllerConfig.bot_id) config.(BotControllerConfig.display_name).
Definition routed_label (label : string) self : string := bot_label self +:+ " · " +:+ label.

Definition routed_generation (base : string) self : N :=
  default 1%N (self.(ControllerState.session_generations) !! base).
Definition resolve_routed_session_id (base : string) self : string :=
  routed_session_generation_id base (routed_generation base self).
Definition bump_routed_generation (base : string) self : N * ControllerState :=
  let next := wrapping_add_u32 (routed_generation base self) 1 in
  (next, self <| ControllerState.session_generations ::= <[base := next]> |>).
Definition target_of delivery self : string :=
  match delivery.(BotDelivery.session) with
  | None => main_session_id self
  | Some session => resolve_routed_session_id session.(RoutedSession.session_id) self
  end.
Definition close_requested self : bool :=
  self.(ControllerState.config).(BotControllerConfig.closed).
Definition record_error (message : string) self : ControllerState :=
  self <| ControllerState.last_error := Some message |>.

Definition tick_lane self : ControllerState :=
  self <| ControllerState.lane_tick ::= λ tick, wrapping_add_u64 tick 1 |>.

(** ** Coalescing *)
Definition flush_buffer (key : string) self : ControllerState :=
  match self.(ControllerState.buffers) !! key with
  | None => self
  | Some buffer =>
      let self := self <| ControllerState.buffers ::= delete key |> in
      match buffer.(CoalesceBuffer.events) with
      | [] => self
      | _ => self <| ControllerState.pending_deliveries ::=
                       λ pending, pending ++ [CoalesceBuffer_into_delivery buffer] |>
      end
  end.
Definition flush_ripe_buffers (now_ms : Z) self : ControllerState :=
  let ripe :=
    (filter (λ entry, CoalesceBuffer_is_ripe entry.2 now_ms = true)
       (btree_to_list self.(ControllerState.buffers))).*1 in
  foldl (λ self key, flush_buffer key self) self ripe.
Definition next_buffer_deadline self : option Z :=
  minimum_of (CoalesceBuffer_flush_at_ms <$> btree_values self.(ControllerState.buffers)).

(** ** Signals *)
(** [or_insert_with]: the buffer an event opens. *)
Definition opened_buffer (params : BotCoalesceParams) (event : BotEvent) (now_ms : Z)
    : CoalesceBuffer :=
  {| CoalesceBuffer.params := params;
     CoalesceBuffer.session := event.(BotEvent.session);
     CoalesceBuffer.when_busy := default BotWhenBusy_default event.(BotEvent.when_busy);
     CoalesceBuffer.events := [];
     CoalesceBuffer.first_at_ms := now_ms;
     CoalesceBuffer.last_at_ms := now_ms |}.
(** The buffer of the event's key, with the event. *)
Definition joined_buffer (params : BotCoalesceParams) (event : BotEvent) (now_ms : Z) self
    : CoalesceBuffer :=
  (default (opened_buffer params event now_ms)
     (self.(ControllerState.buffers) !! params.(BotCoalesceParams.key)))
    <| CoalesceBuffer.events ::= λ events, events ++ [event] |>
    <| CoalesceBuffer.last_at_ms := now_ms |>
    <| CoalesceBuffer.params := params |>.
Definition buffer_event (params : BotCoalesceParams) (event : BotEvent) (now_ms : Z) self
    : ControllerState :=
  let key := params.(BotCoalesceParams.key) in
  let buffer := joined_buffer params event now_ms self in
  let self := self <| ControllerState.buffers ::= <[key := buffer]> |> in
  let count := (N.of_nat (length buffer.(CoalesceBuffer.events)) mod (u32_max + 1))%N in
  if (buffer.(CoalesceBuffer.params).(BotCoalesceParams.max_count) <=? count)%N
  then flush_buffer key self else self.
Definition accept_event (event : BotEvent) (now_ms : Z) self : Result string unit * ControllerState :=
  match validate_event event with
  | Err message => (Err message, self)
  | Ok _ =>
      let self := self <| ControllerState.event_tick ::= λ tick, wrapping_add_u64 tick 1 |> in
      let '(new, seen) :=
        SeenIds_insert event.(BotEvent.id) self.(ControllerState.seen_event_ids) in
      let self := self <| ControllerState.seen_event_ids := seen |> in
      if negb new then
        (Ok tt, self <| ControllerState.duplicate_events ::= λ n, wrapping_add_u64 n 1 |>)
      else
        match event.(BotEvent.coalesce) with
        | None =>
            (Ok tt, self <| ControllerState.pending_deliveries ::=
                              λ pending, pending ++ [BotDelivery_single event] |>)
        | Some params =>
            (Ok tt, buffer_event params event now_ms self)
        end
  end.

Definition reset_reconcile_retries self : ControllerState :=
  self <| ControllerState.reconcile_retry_at_ms := None |>
       <| ControllerState.reconcile_attempts := 0%N |>
       <| ControllerState.reconcile_rotated := false |>.
Definition identity_message (next config : BotControllerConfig) : string :=
  "bot identity cannot change: got "
    +:+ uuid_to_string next.(BotControllerConfig.universe_id) +:+ "/"
    +:+ next.(BotControllerConfig.bot_id) +:+ ", controller is "
    +:+ uuid_to_string config.(BotControllerConfig.universe_id) +:+ "/"
    +:+ config.(BotControllerConfig.bot_id).
Definition accept_config (next : BotControllerConfig) self : Result string unit * ControllerState :=
  let config := self.(ControllerState.config) in
  if negb (bool_decide (next.(BotControllerConfig.universe_id)
                          = config.(BotControllerConfig.universe_id)))
     || negb (bool_decide (next.(BotControllerConfig.bot_id)
                             = config.(BotControllerConfig.bot_id)))
  then (Err (identity_message next config), self)
  else
    let self :=
      if negb (bool_decide (next.(BotControllerConfig.display_name)
                              = config.(BotControllerConfig.display_name)))
      then self <| ControllerState.rename_dirty := true |> else self in
    let self := self <| ControllerState.config := next |>
                     <| ControllerState.config_dirty := true |> in
    (Ok tt, reset_reconcile_retries self).
Definition request_rotation (session_id : string) self : ControllerState :=
  if bool_decide (session_id = "") then self
  else
    tick_lane (self <| ControllerState.rotation_requests ::= λ ids, {[session_id]} ∪ ids |>
                    <| ControllerState.rotation_retry_at_ms := None |>).
Definition queue_emission (envelope : EmissionEnvelope) self : ControllerState :=
  self <| ControllerState.emission_inbox ::= λ inbox, inbox ++ [envelope] |>.

(** ** Sessions *)
Definition is_session_busy (session_id : string) self : bool :=
  is_some (self.(ControllerState.active_by_session) !! session_id)
  || bool_decide (session_id ∈ self.(ControllerState.sidecar_by_session)).
Definition main_session_free self : bool := negb (is_session_busy (main_session_id self) self).
Definition is_session (session_id : string) (session : ControlledSession) : bool :=
  bool_decide (session.(ControlledSession.session_id) = session_id).
Definition extra_session (session_id : string) self : option ControlledSession :=
  head (filter (λ session, is_session session_id session = true)
          self.(ControllerState.extra_sessions)).
(** What a reference from [extra_session_mut] is used for. *)
Definition extra_session_mut (session_id : string)
    (write : ControlledSession → ControlledSession) self : ControllerState :=
  self <| ControllerState.extra_sessions ::= update_first (is_session session_id) write |>.

Definition observed_session (routed : RoutedSession) (observed_at_ms : Z)
    (known : ControlledSession) : ControlledSession :=
  let known :=
    match routed.(RoutedSession.close_policy) with
    | RoutedSessionClosePolicy.Inherit => known
    | policy => known <| ControlledSession.close_policy := policy |>
    end in
  let known :=
    match routed.(RoutedSession.session_key) with
    | Some key => known <| ControlledSession.session_key := Some key |>
    | None => known
    end in
  known <| ControlledSession.last_active_at_ms := Some observed_at_ms |>.
Definition observe_routed_session (session_id : string) (routed : RoutedSession)
    (observed_at_ms : Z) self : bool * ControllerState :=
  match extra_session session_id self with
  | None => (false, self)
  | Some _ => (true, extra_session_mut session_id (observed_session routed observed_at_ms) self)
  end.

Definition session_close_after_ms (session : ControlledSession) self : option N :=
  match session.(ControlledSession.close_policy) with
  | RoutedSessionClosePolicy.Inherit =>
      duration ← self.(ControllerState.config).(BotControllerConfig.routed_session_close_after_ms);
      if (0 <? duration)%N then Some duration else None
  | RoutedSessionClosePolicy.Never => None
  | RoutedSessionClosePolicy.After ms => if (0 <? ms)%N then Some ms else None
  end.
Definition session_expiry_ms (session : ControlledSession) self : option Z :=
  close_after_ms ← session_close_after_ms session self;
  Some (add_i64 (default 0%Z session.(ControlledSession.last_active_at_ms))
          (as_i64 close_after_ms)).
Definition free_sessions self : list ControlledSession :=
  filter (λ session, is_session_busy session.(ControlledSession.session_id) self = false)
    self.(ControllerState.extra_sessions).
Definition next_idle_close_deadline self : option Z :=
  minimum_of (omap (λ session, session_expiry_ms session self) (free_sessions self)).
Definition is_expired (now_ms : Z) self (session : ControlledSession) : bool :=
  match session_expiry_ms session self with
  | Some expiry => (expiry <=? now_ms)%Z
  | None => false
  end.
Definition expired_sessions (now_ms : Z) self : list string :=
  ControlledSession.session_id <$>
    filter (λ session, is_expired now_ms self session = true) (free_sessions self).
Definition touch_session (session_id : string) (now_ms : Z) self : ControllerState :=
  extra_session_mut session_id
    (λ session, session <| ControlledSession.last_active_at_ms := Some now_ms |>) self.

(** [extra_sessions.retain(|session| session.session_id != session_id)]. *)
Definition retain_other_sessions (session_id : string) self : ControllerState :=
  self <| ControllerState.extra_sessions ::=
            filter (λ session, is_session session_id session = false) |>.
(** A base is bumped when its session is forgotten, but for a per-event base. *)
Definition forget_routed_session (session_id : string) self : ControllerState :=
  let self := retain_other_sessions session_id self in
  let self := self <| ControllerState.session_cursors ::= delete session_id |> in
  let base := routed_session_base session_id in
  match bot_session_kind base with
  | BotSessionKind.PerEvent => self <| ControllerState.session_generations ::= delete base |>
  | _ => (bump_routed_generation base self).2
  end.
Definition rotate_main_session (reset_ready : bool) self : ControllerState :=
  let self :=
    self <| ControllerState.main_generation ::= λ n, wrapping_add_u32 n 1 |>
         <| ControllerState.applied_profile_id := None |>
         <| ControllerState.applied_profile_revision := None |> in
  if reset_ready then
    reset_reconcile_retries
      (self <| ControllerState.tools_revision := None |>
            <| ControllerState.session_ready := false |>
            <| ControllerState.config_dirty := true |>
            <| ControllerState.setup_status := BotSetupStatus.Initializing |>)
  else self.
Definition roll_session_forward (session_id : string) self : ControllerState :=
  let self :=
    self <| ControllerState.budget_roots ::= λ roots, {[session_id]} ∪ roots |>
         <| ControllerState.session_cursors ::= delete session_id |> in
  let self := record_error ("session " +:+ session_id
    +:+ " stopped working, so its conversation moved to a new session") self in
  if bool_decide (session_id = main_session_id self) then rotate_main_session true self
  else
    (bump_routed_generation (routed_session_base session_id)
       (retain_other_sessions session_id self)).2.
Definition idlest_free_session (excluding : string) self : option string :=
  ControlledSession.session_id <$>
    min_by (λ session, default 0%Z session.(ControlledSession.last_active_at_ms))
      (filter (λ session, is_session_busy session.(ControlledSession.session_id) self = false)
         (filter (λ session, is_session excluding session = false)
            self.(ControllerState.extra_sessions))).
Definition rotate_main_for_reconcile self : bool * ControllerState :=
  if self.(ControllerState.reconcile_rotated) then (false, self)
  else (true, rotate_main_session false
                (self <| ControllerState.reconcile_rotated := true |>)).
Definition reconcile_due (now_ms : Z) self : bool :=
  self.(ControllerState.config_dirty) && main_session_free self
  && match self.(ControllerState.reconcile_retry_at_ms) with
     | Some t => (t <=? now_ms)%Z
     | None => true
     end.
Definition mark_session_ready (profile_revision : N) self : ControllerState :=
  reset_reconcile_retries
    (self <| ControllerState.session_ready := true |>
          <| ControllerState.applied_profile_id :=
               Some self.(ControllerState.config).(BotControllerConfig.profile_id) |>
          <| ControllerState.applied_profile_revision := Some profile_revision |>
          <| ControllerState.tools_revision := Some BOT_TOOLS_REVISION |>
          <| ControllerState.config_dirty := false |>
          <| ControllerState.last_error := None |>
          <| ControllerState.setup_status := BotSetupStatus.Ready |>).
Definition mark_session_degraded (message : string) (now_ms : Z) self : ControllerState :=
  let self :=
    self <| ControllerState.last_error := Some message |>
         <| ControllerState.setup_status := BotSetupStatus.Degraded |>
         <| ControllerState.config_dirty := true |>
         <| ControllerState.session_ready := false |>
         <| ControllerState.reconcile_attempts ::= λ n, wrapping_add_u32 n 1 |> in
  self <| ControllerState.reconcile_retry_at_ms :=
            Some (add_i64 now_ms (backoff_ms self.(ControllerState.reconcile_attempts)
                                    BOT_RECONCILE_RETRY_MAX_DELAY)) |>.
Definition applied_revision_for_ensure self : option N :=
  if bool_decide (self.(ControllerState.applied_profile_id)
                    = Some self.(ControllerState.config).(BotControllerConfig.profile_id))
  then self.(ControllerState.applied_profile_revision) else None.
Definition cursor_for (session_id : string) self : N :=
  default 0%N (self.(ControllerState.session_cursors) !! session_id).
Definition set_cursor (session_id : string) (seq : N) self : ControllerState :=
  self <| ControllerState.session_cursors ::= <[session_id := seq]> |>.

(** ** The budget of a UTC day *)
Definition roll_budget_day (now_ms : Z) self : ControllerState :=
  let today := utc_day now_ms in
  if bool_decide (today = self.(ControllerState.run_day)) then self
  else
    self <| ControllerState.run_day := today |>
         <| ControllerState.runs_today := 0%N |>
         <| ControllerState.descendants_today := 0%N |>
         <| ControllerState.budget_roots := ∅ |>
         <| ControllerState.descendants_refreshed_at_ms := 0%Z |>
         <| ControllerState.descendants_refreshed_processed := None |>.
Definition starts_run (lane : ActiveLane) : bool :=
  is_none lane.(ActiveLane.run_id)
  && negb (bool_decide (lane.(ActiveLane.delivery).(BotDelivery.when_busy)
                          = BotWhenBusy.Append)).
Definition reserved_runs self : N :=
  let pending_starts :=
    (N.of_nat (length (filter (λ lane, starts_run lane = true)
                         (btree_values self.(ControllerState.active_by_session))))
       mod (u32_max + 1))%N in
  wrapping_add_u32
    (wrapping_add_u32 self.(ControllerState.runs_today)
       self.(ControllerState.descendants_today)) pending_starts.
Definition budget_exhausted_view (now_ms : Z) self : bool :=
  match self.(ControllerState.config).(BotControllerConfig.runs_per_day) with
  | None => false
  | Some runs_per_day =>
      if bool_decide (utc_day now_ms = self.(ControllerState.run_day))
      then (runs_per_day <=? reserved_runs self)%N else false
  end.
Definition budget_exhausted (now_ms : Z) self : bool * ControllerState :=
  let self := roll_budget_day now_ms self in (budget_exhausted_view now_ms self, self).
Definition descendants_refresh_due (now_ms : Z) self : bool :=
  if is_none self.(ControllerState.config).(BotControllerConfig.runs_per_day) then false
  else if negb (bool_decide (self.(ControllerState.descendants_refreshed_processed)
                               = Some self.(ControllerState.events_processed))) then true
  else
    negb (bool_decide (self.(ControllerState.active_by_session) = ∅))
    && (BOT_DESCENDANT_REFRESH_INTERVAL
          <=? sub_i64 now_ms self.(ControllerState.descendants_refreshed_at_ms))%Z.
Definition budget_root_ids self : list string * ControllerState :=
  let self := self <| ControllerState.budget_roots ::= λ roots,
    list_to_set (ControlledSession.session_id <$> self.(ControllerState.extra_sessions))
      ∪ ({[main_session_id self]} ∪ roots) |> in
  (btree_elements self.(ControllerState.budget_roots), self).

(** ** Dispatch *)
Definition target_held (target : string) self : bool :=
  bool_decide (target ∈ self.(ControllerState.rotation_requests))
  || ((negb self.(ControllerState.session_ready) || self.(ControllerState.config_dirty))
      && bool_decide (target = main_session_id self)).
(** A lane can be joined beside its run, unless the delivery queues for it. *)
Definition joins (delivery : BotDelivery) (target : string) (occupied : ActiveLane) self : bool :=
  is_some occupied.(ActiveLane.run_id)
  && negb (bool_decide (delivery.(BotDelivery.when_busy) = BotWhenBusy.Queue))
  && negb (bool_decide (target ∈ self.(ControllerState.sidecar_by_session))).
Fixpoint any_runnable (now_ms : Z) self (waiting : gset string) (rest : list BotDelivery)
    : bool :=
  match rest with
  | [] => false
  | delivery :: rest =>
      let target := target_of delivery self in
      if BotDelivery_waiting delivery now_ms
      then any_runnable now_ms self ({[target]} ∪ waiting) rest
      else if bool_decide (target ∈ waiting) || target_held target self
      then any_runnable now_ms self waiting rest
      else
        match self.(ControllerState.active_by_session) !! target with
        | None => true
        | Some active =>
            if joins delivery target active self then true
            else any_runnable now_ms self waiting rest
        end
  end.
Definition dispatchable (now_ms : Z) self : bool :=
  if negb self.(ControllerState.config).(BotControllerConfig.enabled)
     || close_requested self
     || bool_decide (self.(ControllerState.pending_deliveries) = [])
     || budget_exhausted_view now_ms self
  then false
  else any_runnable now_ms self ∅ self.(ControllerState.pending_deliveries).

Definition opened_lane delivery (target : string) (now_ms : Z) : ActiveLane :=
  {| ActiveLane.delivery := delivery;
     ActiveLane.session_id := target;
     ActiveLane.run_id := None;
     ActiveLane.terminal := None;
     ActiveLane.resolution := None;
     ActiveLane.started_at_ms := now_ms;
     ActiveLane.parked := false |}.
(** The loop over [pending_deliveries]: [kept] are the deliveries before [index], [rest] those
    from it on. *)
Fixpoint dispatch_from (now_ms : Z) (waiting : gset string) (kept rest : list BotDelivery)
    self : list DispatchAction * ControllerState :=
  match rest with
  | [] => ([], self <| ControllerState.pending_deliveries := kept |>)
  | delivery :: rest' =>
      let '(exhausted, self) := budget_exhausted now_ms self in
      if exhausted then ([], self <| ControllerState.pending_deliveries := kept ++ rest |>)
      else
        let target := target_of delivery self in
        if BotDelivery_waiting delivery now_ms
        then dispatch_from now_ms ({[target]} ∪ waiting) (kept ++ [delivery]) rest' self
        else if bool_decide (target ∈ waiting) || target_held target self
        then dispatch_from now_ms waiting (kept ++ [delivery]) rest' self
        else
          match self.(ControllerState.active_by_session) !! target with
          | Some occupied =>
              if joins delivery target occupied self then
                let '(actions, self) :=
                  dispatch_from now_ms waiting kept rest'
                    (self <| ControllerState.sidecar_by_session ::= λ ids,
                               {[target]} ∪ ids |>) in
                (DispatchAction.Sidecar delivery target :: actions, self)
              else dispatch_from now_ms waiting (kept ++ [delivery]) rest' self
          | None =>
              let '(actions, self) :=
                dispatch_from now_ms waiting kept rest'
                  (self <| ControllerState.active_by_session ::=
                             <[target := opened_lane delivery target now_ms]> |>) in
              (DispatchAction.Lane delivery target :: actions, self)
          end
  end.
Definition dispatch (now_ms : Z) self : list DispatchAction * ControllerState :=
  dispatch_from now_ms ∅ [] self.(ControllerState.pending_deliveries) self.

Definition requeue_front delivery (not_before_ms : Z) self : ControllerState :=
  let delivery := delivery <| BotDelivery.not_before_ms := Some not_before_ms |> in
  self <| ControllerState.pending_deliveries ::= cons delivery |>.
Definition requeue_lane (target : string) delivery (not_before_ms : Z) self : ControllerState :=
  tick_lane (requeue_front delivery not_before_ms
    (self <| ControllerState.active_by_session ::= delete target |>)).
Definition retry_delivery (target : string) delivery (now_ms : Z) self : bool * ControllerState :=
  let attempts := wrapping_add_u32 delivery.(BotDelivery.attempts) 1 in
  if (BOT_START_MAX_ATTEMPTS <=? attempts)%N then (false, self)
  else
    let retried := delivery <| BotDelivery.attempts := attempts |> in
    (true, requeue_lane target retried
             (add_i64 now_ms (backoff_ms attempts BOT_START_RETRY_MAX_DELAY)) self).
Definition requeue_rolled_forward (target : string) delivery (now_ms : Z) self : ControllerState :=
  let retried := delivery <| BotDelivery.rolled_forward := true |>
                          <| BotDelivery.attempts := 0%N |> in
  requeue_lane target retried now_ms self.
Definition rekey_lane (from to : string) self : ControllerState :=
  match self.(ControllerState.active_by_session) !! from with
  | None => self
  | Some lane =>
      let lane := lane <| ActiveLane.session_id := to |> in
      self <| ControllerState.active_by_session ::= λ lanes, <[to := lane]> (delete from lanes) |>
  end.
Definition mark_lane_started (session_id run_id : string) (now_ms : Z) self : ControllerState :=
  let self := self <| ControllerState.active_by_session ::=
                        alter (λ lane, lane <| ActiveLane.run_id := Some run_id |>) session_id |>
                   <| ControllerState.dead_session_sweep_at_ms ::= λ sweep,
                        Some (default (add_i64 now_ms BOT_DEAD_SESSION_SWEEP_INTERVAL) sweep) |> in
  let self := roll_budget_day now_ms self in
  tick_lane (self <| ControllerState.runs_today ::= λ n, wrapping_add_u32 n 1 |>).

(** ** The ends of runs *)
Definition lane_token (lane : ActiveLane) : string :=
  delivery_terminal_token lane.(ActiveLane.delivery).(BotDelivery.id).
Definition lane_awaits_terminal_from (session_id token : string) self : bool :=
  match self.(ControllerState.active_by_session) !! session_id with
  | Some lane => bool_decide (lane_token lane = token)
  | None => false
  end.
Definition attach_terminal (token : string) (terminal : LaneTerminal) self
    : bool * ControllerState :=
  let reached lane := bool_decide (lane_token lane = token) in
  let attached := existsb reached (btree_values self.(ControllerState.active_by_session)) in
  let self := self <| ControllerState.active_by_session ::= fmap (λ lane,
    if reached lane then lane <| ActiveLane.terminal := Some terminal |> else lane) |> in
  (attached, if attached then tick_lane self else self).
Definition park_lane (session_id : string) self : ControllerState :=
  self <| ControllerState.active_by_session ::=
            alter (λ lane, lane <| ActiveLane.parked := true |>) session_id |>.
Definition awaits_terminal (lane : ActiveLane) : bool :=
  is_some lane.(ActiveLane.run_id) && is_none lane.(ActiveLane.terminal).
Definition lanes_awaiting_terminal self : list string :=
  (filter (λ entry, awaits_terminal entry.2 = true)
     (btree_to_list self.(ControllerState.active_by_session))).*1.
Definition take_dead_session_sweep (now_ms : Z) self : list string * ControllerState :=
  if match self.(ControllerState.dead_session_sweep_at_ms) with
     | Some t => (now_ms <? t)%Z
     | None => true
     end
  then ([], self)
  else
    let sessions := lanes_awaiting_terminal self in
    (sessions, self <| ControllerState.dead_session_sweep_at_ms :=
       match sessions with
       | [] => None
       | _ => Some (add_i64 now_ms BOT_DEAD_SESSION_SWEEP_INTERVAL)
       end |>).
Definition dead_session_terminal (run_id message : string) : LaneTerminal :=
  {| LaneTerminal.status := RunStatus.Failed;
     LaneTerminal.run_id := run_id;
     LaneTerminal.failure_message_ref := None;
     LaneTerminal.dead_session := Some message |}.
Definition fail_lane_on_dead_session (session_id message : string) self : bool * ControllerState :=
  match self.(ControllerState.active_by_session) !! session_id with
  | None => (false, self)
  | Some lane =>
      match lane.(ActiveLane.run_id), lane.(ActiveLane.terminal) with
      | Some run_id, None =>
          let lane := lane <| ActiveLane.terminal :=
                               Some (dead_session_terminal run_id message) |> in
          (true, tick_lane
             (self <| ControllerState.active_by_session ::= <[session_id := lane]> |>))
      | _, _ => (false, self)
      end
  end.
Definition set_lane_resolution (session_id : string) (resolution : LaneResolution) self
    : ControllerState :=
  self <| ControllerState.active_by_session ::=
            alter (λ lane, lane <| ActiveLane.resolution := Some resolution |>) session_id |>.
Definition lane_has_terminal (session_id : string) self : bool :=
  match self.(ControllerState.active_by_session) !! session_id with
  | Some lane => is_some lane.(ActiveLane.terminal)
  | None => false
  end.

(** ** Finishing deliveries *)
Definition remember_delivery (recent : BotRecentDeliverySnapshot) self : ControllerState :=
  self <| ControllerState.recent_deliveries ::= λ all,
            let all := all ++ [recent] in drop (length all - BOT_RECENT_DELIVERY_CAP) all |>
       <| ControllerState.events_processed ::= λ n, wrapping_add_u64 n 1 |>.
Definition release_lane (session_id : string) (now_ms : Z) self : ControllerState :=
  let self := self <| ControllerState.active_by_session ::= delete session_id |> in
  let self :=
    match lanes_awaiting_terminal self with
    | [] => self <| ControllerState.dead_session_sweep_at_ms := None |>
    | _ => self
    end in
  tick_lane (touch_session session_id now_ms self).
Definition release_sidecar (session_id : string) (now_ms : Z) self : ControllerState :=
  let self := self <| ControllerState.sidecar_by_session ::= λ ids, ids ∖ {[session_id]} |> in
  tick_lane (touch_session session_id now_ms self).

(** ** Teardown *)
Definition teardown_event_ids self : list string :=
  first_occurrences ∅
    ((self.(ControllerState.pending_deliveries) ≫= BotDelivery_event_ids)
     ++ (btree_values self.(ControllerState.buffers)
           ≫= λ buffer, BotEvent.id <$> buffer.(CoalesceBuffer.events))
     ++ (btree_values self.(ControllerState.active_by_session)
           ≫= λ lane, BotDelivery_event_ids lane.(ActiveLane.delivery))).
Definition main_generations self : list string :=
  bot_main_session_id self.(ControllerState.config).(BotControllerConfig.bot_id) <$>
    (N.of_nat <$> seq 1 (N.to_nat self.(ControllerState.main_generation))).
Definition teardown_sessions self : list string :=
  first_occurrences ∅
    (main_generations self
       ++ (ControlledSession.session_id <$> self.(ControllerState.extra_sessions))).

(** ** What the controller shows *)
Definition controller_status (now_ms : Z) self : BotControllerStatus :=
  if self.(ControllerState.closed_done) then BotControllerStatus.Closed
  else if self.(ControllerState.closing) then BotControllerStatus.Closing
  else
    match self.(ControllerState.setup_status) with
    | BotSetupStatus.Initializing => BotControllerStatus.Initializing
    | BotSetupStatus.Degraded => BotControllerStatus.Degraded
    | BotSetupStatus.Ready =>
        if negb (bool_decide (self.(ControllerState.active_by_session) = ∅))
        then BotControllerStatus.DeliveringEvent
        else if negb (bool_decide (self.(ControllerState.pending_deliveries) = []))
                && budget_exhausted_view now_ms self
        then BotControllerStatus.BudgetExhausted
        else BotControllerStatus.Idle
    end.
Definition main_session_snapshot self : BotSessionSnapshot :=
  {| BotSessionSnapshot.session_id := main_session_id self;
     BotSessionSnapshot.label := "main";
     BotSessionSnapshot.kind := BotSessionKind.Main;
     BotSessionSnapshot.generation := self.(ControllerState.main_generation);
     BotSessionSnapshot.last_active_at_ms := None;
     BotSessionSnapshot.busy := is_session_busy (main_session_id self) self |}.
Definition routed_session_snapshot self (session : ControlledSession) : BotSessionSnapshot :=
  let session_id := session.(ControlledSession.session_id) in
  {| BotSessionSnapshot.session_id := session_id;
     BotSessionSnapshot.label := session.(ControlledSession.label);
     BotSessionSnapshot.kind := session.(ControlledSession.kind);
     BotSessionSnapshot.generation := routed_generation (routed_session_base session_id) self;
     BotSessionSnapshot.last_active_at_ms := session.(ControlledSession.last_active_at_ms);
     BotSessionSnapshot.busy := is_session_busy session_id self |}.
Definition buffer_snapshot (entry : string * CoalesceBuffer) : BotBufferSnapshot :=
  let '(key, buffer) := entry in
  {| BotBufferSnapshot.key := key;
     BotBufferSnapshot.seqs := BotEvent.seq <$> buffer.(CoalesceBuffer.events);
     BotBufferSnapshot.first_at_ms := buffer.(CoalesceBuffer.first_at_ms);
     BotBufferSnapshot.last_at_ms := buffer.(CoalesceBuffer.last_at_ms);
     BotBufferSnapshot.flush_at_ms := CoalesceBuffer_flush_at_ms buffer |}.
Definition lane_snapshot (lane : ActiveLane) : BotActiveDeliverySnapshot :=
  let delivery := lane.(ActiveLane.delivery) in
  {| BotActiveDeliverySnapshot.delivery_id := delivery.(BotDelivery.id);
     BotActiveDeliverySnapshot.seqs := BotDelivery_seqs delivery;
     BotActiveDeliverySnapshot.session_id := lane.(ActiveLane.session_id);
     BotActiveDeliverySnapshot.run_id := lane.(ActiveLane.run_id);
     BotActiveDeliverySnapshot.started_at_ms := lane.(ActiveLane.started_at_ms) |}.
Definition snapshot (now_ms : Z) self : BotControllerSnapshot :=
  let config := self.(ControllerState.config) in
  {| BotControllerSnapshot.controller_status := controller_status now_ms self;
     BotControllerSnapshot.setup_status := self.(ControllerState.setup_status);
     BotControllerSnapshot.enabled := config.(BotControllerConfig.enabled);
     BotControllerSnapshot.closed := config.(BotControllerConfig.closed);
     BotControllerSnapshot.main_session_id := main_session_id self;
     BotControllerSnapshot.sessions :=
       main_session_snapshot self
         :: (routed_session_snapshot self <$> self.(ControllerState.extra_sessions));
     BotControllerSnapshot.pending_deliveries :=
       (N.of_nat (length self.(ControllerState.pending_deliveries)) mod (u32_max + 1))%N;
     BotControllerSnapshot.buffers :=
       buffer_snapshot <$> btree_to_list self.(ControllerState.buffers);
     BotControllerSnapshot.active_deliveries :=
       lane_snapshot <$> btree_values self.(ControllerState.active_by_session);
     BotControllerSnapshot.recent_deliveries := self.(ControllerState.recent_deliveries);
     BotControllerSnapshot.run_day := Some self.(ControllerState.run_day);
     BotControllerSnapshot.runs_today := self.(ControllerState.runs_today);
     BotControllerSnapshot.descendants_today := self.(ControllerState.descendants_today);
     BotControllerSnapshot.events_processed := self.(ControllerState.events_processed);
     BotControllerSnapshot.duplicate_events := self.(ControllerState.duplicate_events);
     BotControllerSnapshot.applied_profile_revision :=
       self.(ControllerState.applied_profile_revision);
     BotControllerSnapshot.last_error := self.(ControllerState.last_error) |}.

(** ** Emissions *)
(** The free function [classify_emission]. The session a producer stands for, or why the
    emission is another's: *)
Definition producer_session (config : BotControllerConfig) (main_session_id : string)
    (envelope : EmissionEnvelope) : Result string string :=
  let emission_id := envelope.(EmissionEnvelope.emission_id) in
  match envelope.(EmissionEnvelope.producer) with
  | EmissionProducer.Session universe_id session_id _ =>
      if negb (bool_decide (universe_id = config.(BotControllerConfig.universe_id)))
         || negb (is_bot_session config.(BotControllerConfig.bot_id) session_id)
      then Err ("emission " +:+ emission_id
                  +:+ " does not belong to this bot's sessions (producer "
                  +:+ uuid_to_string universe_id +:+ "/" +:+ session_id +:+ ")")
      else Ok session_id
  | EmissionProducer.Workflow universe_id workflow_id =>
      if negb (bool_decide (universe_id = config.(BotControllerConfig.universe_id)))
      then Err ("emission " +:+ emission_id
                  +:+ " comes from another universe (producer workflow "
                  +:+ workflow_id +:+ ")")
      else Ok main_session_id
  end.
Definition disposition_of (config : BotControllerConfig) (main_session_id : string)
    (envelope : EmissionEnvelope) : EmissionDisposition :=
  match producer_session config main_session_id envelope with
  | Err note => EmissionDisposition.Foreign note
  | Ok session =>
      match envelope.(EmissionEnvelope.body) with
      | EmissionBody.ToolInvocation invocation holder_workflow_id =>
          if negb (is_pushed_tool invocation.(WorkflowToolInvocation.workflow_tool_id))
          then EmissionDisposition.Ignore
          else EmissionDisposition.Invocation invocation.(WorkflowToolInvocation.session_id)
                 invocation holder_workflow_id
      | EmissionBody.RunTerminal token run_id status _ failure_message_ref =>
          EmissionDisposition.Terminal session ("run_" +:+ u64_to_string run_id) token status
            failure_message_ref
      | EmissionBody.SourceResolution _ _ | EmissionBody.InvocationCancellation _ _ _ =>
          EmissionDisposition.Ignore
      end
  end.
Definition classify_emission (envelope : EmissionEnvelope) self
    : option EmissionDisposition * ControllerState :=
  let '(new, seen) := SeenIds_insert envelope.(EmissionEnvelope.emission_id)
                        self.(ControllerState.seen_emission_ids) in
  let self := self <| ControllerState.seen_emission_ids := seen |> in
  if negb new then
    (None, self <| ControllerState.duplicate_emissions ::= λ n, wrapping_add_u64 n 1 |>)
  else
    let disposition :=
      disposition_of self.(ControllerState.config) (main_session_id self) envelope in
    match disposition with
    | EmissionDisposition.Invocation _ invocation _ =>
        let '(new, handled) :=
          SeenIds_insert invocation.(WorkflowToolInvocation.invocation_id)
            self.(ControllerState.handled_invocation_ids) in
        let self := self <| ControllerState.handled_invocation_ids := handled |> in
        (Some (if new then disposition else EmissionDisposition.Ignore), self)
    | _ => (Some disposition, self)
    end.

Definition controller_summary (invoking_session_id : string) (now_ms : Z) self
    : BotControllerSummary :=
  {| BotControllerSummary.snapshot := snapshot now_ms self;
     BotControllerSummary.hops :=
       match self.(ControllerState.active_by_session) !! invoking_session_id with
       | Some lane => BotDelivery_hops lane.(ActiveLane.delivery)
       | None => 0
       end;
     BotControllerSummary.routed_session :=
       match extra_session invoking_session_id self with
       | Some session =>
           Some {| RoutedSession.session_id :=
                     routed_session_base session.(ControlledSession.session_id);
                   RoutedSession.label := session.(ControlledSession.label);
                   RoutedSession.session_key := session.(ControlledSession.session_key);
                   RoutedSession.close_policy := session.(ControlledSession.close_policy) |}
       | None => None
       end |}.

(** ** Loop control *)
Definition wake_ready (lane_tick event_tick : N) self : bool :=
  close_requested self
  || negb (bool_decide (self.(ControllerState.emission_inbox) = []))
  || negb (match self.(ControllerState.pending_invocations) with [] => true | _ => false end)
  || reconcile_due self.(ControllerState.clock_ms) self
  || negb (self.(ControllerState.lane_tick) =? lane_tick)%N
  || negb (self.(ControllerState.event_tick) =? event_tick)%N
  || dispatchable self.(ControllerState.clock_ms) self.
(** The times the loop may wait for: *)
Definition deadlines (now_ms : Z) self : list (option Z) :=
  let limited := is_some self.(ControllerState.config).(BotControllerConfig.runs_per_day) in
  [next_buffer_deadline self;
   next_idle_close_deadline self;
   self.(ControllerState.rotation_retry_at_ms);
   self.(ControllerState.dead_session_sweep_at_ms);
   (if self.(ControllerState.config_dirty) && main_session_free self
    then self.(ControllerState.reconcile_retry_at_ms) else None);
   minimum_of (filter (λ t, (now_ms < t)%Z)
     (omap BotDelivery.not_before_ms self.(ControllerState.pending_deliveries)))]
  ++ (if negb (bool_decide (self.(ControllerState.pending_deliveries) = [])) && limited
         && budget_exhausted_view now_ms self
      then [Some (add_i64 now_ms (ms_until_next_utc_day now_ms))] else [])
  ++ (if limited && negb (bool_decide (self.(ControllerState.active_by_session) = ∅))
      then [Some (add_i64 self.(ControllerState.descendants_refreshed_at_ms)
                    BOT_DESCENDANT_REFRESH_INTERVAL)] else []).
Definition wake_deadline (now_ms : Z) self : option Z :=
  minimum_of (omap id (deadlines now_ms self)).
Definition is_parked (lane : ActiveLane) : bool :=
  lane.(ActiveLane.parked) && is_none lane.(ActiveLane.terminal).
Definition can_continue_as_new (suggested : bool) (lanes_polled : nat) self : bool :=
  bool_decide (self.(ControllerState.emission_inbox) = [])
  && match self.(ControllerState.pending_invocations) with [] => true | _ => false end
  && forallb is_parked (btree_values self.(ControllerState.active_by_session))
  && bool_decide (self.(ControllerState.sidecar_by_session) = ∅)
  && (lanes_polled =? size self.(ControllerState.active_by_session))%nat
  && negb (close_requested self)
  && ((BOT_CONTINUE_AS_NEW_AFTER_EVENTS <=? self.(ControllerState.events_processed))%N
      || suggested).
End controller.

(** ** Outcomes *)
(** The resolve calls of one run, in log order. *)
Definition resolve_invocations_for_run (invocations : list BotToolInvocationRef)
    (run_id : string) : list BotToolInvocationRef :=
  filter (λ invocation,
      invocation.(BotToolInvocationRef.workflow_tool_id) = BOT_EVENT_RESOLVE_TOOL_ID)
    (filter (λ invocation, invocation.(BotToolInvocationRef.run_id) = run_id) invocations).
Definition used_carried_tool (invocations : list BotToolInvocationRef) (run_id : string)
    (carried_tool_ids : list string) : bool :=
  negb (bool_decide (carried_tool_ids = []))
  && existsb (λ invocation,
       bool_decide (invocation.(BotToolInvocationRef.run_id) = run_id)
       && bool_decide (invocation.(BotToolInvocationRef.workflow_tool_id) ∈ carried_tool_ids))
       invocations.
Definition delivery_outcome (terminal : LaneTerminal) (resolution : option LaneResolution)
    (started_run_id : option string) : DeliveryOutcome :=
  let run_id := Some (default terminal.(LaneTerminal.run_id) started_run_id) in
  if negb (bool_decide (terminal.(LaneTerminal.status) = RunStatus.Completed)) then
    {| DeliveryOutcome.outcome := BotEventOutcome.RunFailed;
       DeliveryOutcome.summary :=
         Some (default ("run ended " +:+ run_status_label terminal.(LaneTerminal.status))
                 terminal.(LaneTerminal.dead_session));
       DeliveryOutcome.run_id := run_id |}
  else
    match resolution with
    | Some resolution =>
        {| DeliveryOutcome.outcome := resolution.(LaneResolution.outcome);
           DeliveryOutcome.summary := resolution.(LaneResolution.summary);
           DeliveryOutcome.run_id := run_id |}
    | None =>
        {| DeliveryOutcome.outcome := BotEventOutcome.Unresolved;
           DeliveryOutcome.summary := None;
           DeliveryOutcome.run_id := run_id |}
    end.
