(* ===== verification/BotExample.v ===== *)
(** * A bot to evaluate the model on

    A calendar that names a day by its number since 1970, and a controller of the bot
    [support] with a main session, events routed to it and to keyed sessions. *)
From Stdlib Require Import Ascii ZArith.
From S2P Require Import Prelude Ids Text Types Externals Bindings BotState BotController.
Set Primitive Projections.

Definition LAST_DAY : Z := 2932896.
#[export, refine] Instance example_calendar : Calendar := {|
  format_day t :=
    let day := (t / MS_PER_DAY)%Z in
    if ((0 <=? day) && (day <=? LAST_DAY))%Z then Some (u64_to_string (Z.to_N day)) else None;
  parse_day_start text :=
    match parse_u64 text with Some day => Some (Z.of_N day * MS_PER_DAY)%Z | None => None end;
|}.
Proof.
  - by intros t u ->.
  - intros t Ht. assert (0 <= t / MS_PER_DAY <= LAST_DAY)%Z as [H0 H1].
    { unfold MS_PER_DAY, LAST_DAY. split; [by apply Z.div_pos; lia|].
      apply Z.lt_succ_r, Z.div_lt_upper_bound; lia. }
    exists (u64_to_string (Z.to_N (t / MS_PER_DAY))). cbn zeta.
    rewrite (proj2 (Z.leb_le _ _) H0), (proj2 (Z.leb_le _ _) H1). split; [done|].
    rewrite parse_u64_to_string by (unfold u64_max, LAST_DAY in *; lia).
    by rewrite Z2N.id.
Defined.

Definition support_config : BotControllerConfig :=
  {| BotControllerConfig.universe_id := 7%N;
     BotControllerConfig.bot_id := "support";
     BotControllerConfig.display_name := Some "Support";
     BotControllerConfig.profile_id := "helpful";
     BotControllerConfig.brief := None;
     BotControllerConfig.runs_per_day := Some 3%N;
     BotControllerConfig.routed_session_close_after_ms := Some 600000%N;
     BotControllerConfig.self_config := false;
     BotControllerConfig.emit := false;
     BotControllerConfig.enabled := true;
     BotControllerConfig.closed := false |}.
Definition noon : Z := 1000 * MS_PER_DAY + 43200000.

Definition routed_to (key : string) : RoutedSession :=
  {| RoutedSession.session_id := "bot:v1:support:k-" +:+ key;
     RoutedSession.label := key;
     RoutedSession.session_key := Some key;
     RoutedSession.close_policy := RoutedSessionClosePolicy.Inherit |}.
Definition plain_event (id : string) (seq : N) : BotEvent :=
  {| BotEvent.id := id;
     BotEvent.seq := seq;
     BotEvent.document_ref := "doc";
     BotEvent.prompt_ref := None;
     BotEvent.session := None;
     BotEvent.coalesce := None;
     BotEvent.when_busy := None;
     BotEvent.hops := 0;
     BotEvent.reply := false;
     BotEvent.media := [];
     BotEvent.tools_ref := None;
     BotEvent.notify := false |}.
Definition keyed_event (id : string) (seq : N) (key : string) : BotEvent :=
  {| BotEvent.id := id;
     BotEvent.seq := seq;
     BotEvent.document_ref := "doc";
     BotEvent.prompt_ref := None;
     BotEvent.session := Some (routed_to key);
     BotEvent.coalesce := None;
     BotEvent.when_busy := Some BotWhenBusy.Steer;
     BotEvent.hops := 0;
     BotEvent.reply := true;
     BotEvent.media := [];
     BotEvent.tools_ref := None;
     BotEvent.notify := true |}.
Definition batched_event (id : string) (seq : N) : BotEvent :=
  {| BotEvent.id := id;
     BotEvent.seq := seq;
     BotEvent.document_ref := "doc";
     BotEvent.prompt_ref := None;
     BotEvent.session := Some (routed_to "alerts");
     BotEvent.coalesce :=
       Some {| BotCoalesceParams.key := "alerts"; BotCoalesceParams.debounce_ms := 1000;
               BotCoalesceParams.max_wait_ms := 5000; BotCoalesceParams.max_count := 3 |};
     BotEvent.when_busy := None;
     BotEvent.hops := 1;
     BotEvent.reply := false;
     BotEvent.media := [];
     BotEvent.tools_ref := None;
     BotEvent.notify := false |}.

Section example.
Context `{!Externals}.
Definition accepting (now : Z) (s : ControllerState) (event : BotEvent) : ControllerState :=
  (accept_event event now s).2.
Definition fresh : ControllerState :=
  ControllerState_new {| BotControllerArgs.config := support_config;
                         BotControllerArgs.carry := None |} noon.
(** Ready to serve, with two events for the main session and two for a keyed one. *)
Definition ready : ControllerState := mark_session_ready 1 fresh.
Definition queued : ControllerState :=
  foldl (accepting noon) ready
    [plain_event "m1" 1; keyed_event "k1" 2 "ana"; plain_event "m2" 3; keyed_event "k2" 4 "ana"].
(** Both sessions run, and two deliveries are left. *)
Definition running : ControllerState :=
  mark_lane_started "bot:v1:support:k-ana" "run_1" noon
    (mark_lane_started "bot:v1:support" "run_1" noon (dispatch noon queued).2).
(** Both lanes wait for the end of their run. *)
Definition waiting : ControllerState :=
  park_lane "bot:v1:support:k-ana" (park_lane "bot:v1:support" running).
(** An event waits in its buffer. *)
Definition buffering : ControllerState := accepting noon ready (batched_event "b1" 5).
End example.
