(* ===== verification/BotLaws.v ===== *)
(** * Dispatch: what a controller starts, and when

    [dispatch] hands pending deliveries to sessions. Here: it loses and invents none, starts at
    most one per session and in order, keeps to the budget of the day, starts all that
    can start, and agrees with [dispatchable], on which the loop wakes. *)
From Stdlib Require Import ZArith.
From S2P Require Import Prelude Ids Text Types Externals Bindings BotState BotController.
From S2P Require Import BotExample.
Set Primitive Projections.

(** ** Inserting into an ordered map *)
Section maps.
Context {K V : Type} `{Countable K} `{!KeyOrder K}.
Lemma btree_values_insert (m : gmap K V) k v :
  m !! k = None → btree_values (<[k := v]> m) ≡ₚ v :: btree_values m.
Proof. intros E. by rewrite !btree_values_perm, map_to_list_insert. Qed.
Lemma btree_values_delete (m : gmap K V) k v :
  m !! k = Some v → v :: btree_values (delete k m) ≡ₚ btree_values m.
Proof. intros E. by rewrite !btree_values_perm, <-(map_to_list_delete m k v). Qed.
Lemma btree_values_replace (m : gmap K V) k v :
  btree_values (<[k := v]> m) ≡ₚ v :: btree_values (delete k m).
Proof. rewrite <-insert_delete_eq. apply btree_values_insert, lookup_delete_eq. Qed.
End maps.

Section dispatch.
Context `{Ext : !Externals} `{Cal : !Calendar}.
Implicit Types (s : ControllerState) (d : BotDelivery) (W : gset string).

Definition action_delivery (a : DispatchAction) : BotDelivery :=
  match a with DispatchAction.Lane d _ | DispatchAction.Sidecar d _ => d end.
Definition action_target (a : DispatchAction) : string :=
  match a with DispatchAction.Lane _ t | DispatchAction.Sidecar _ t => t end.

(** ** The graph of the loop *)
(** A delivery stays in the queue: it waits itself, and blocks its target, or its target is
    blocked, held, or taken. *)
Definition stays (now : Z) s W d W' : Prop :=
  let t := target_of d s in
  (BotDelivery_waiting d now = true ∧ W' = {[t]} ∪ W)
  ∨ BotDelivery_waiting d now = false ∧ W' = W
    ∧ (t ∈ W ∨ target_held t s = true
       ∨ ∃ lane, s.(ControllerState.active_by_session) !! t = Some lane
                 ∧ joins d t lane s = false).
Definition starts (now : Z) s W d : Prop :=
  BotDelivery_waiting d now = false ∧ target_of d s ∉ W ∧ target_held (target_of d s) s = false.
Definition with_lane (now : Z) d s : ControllerState :=
  s <| ControllerState.active_by_session ::=
         <[target_of d s := opened_lane d (target_of d s) now]> |>.
Definition with_sidecar d s : ControllerState :=
  s <| ControllerState.sidecar_by_session ::= λ ids, {[target_of d s]} ∪ ids |>.

Inductive Dispatches (now : Z) : gset string → list BotDelivery → list BotDelivery →
    ControllerState → list DispatchAction → ControllerState → Prop :=
| Dispatches_end W kept s :
    Dispatches now W kept [] s [] (s <| ControllerState.pending_deliveries := kept |>)
| Dispatches_exhausted W kept d rest s :
    budget_exhausted_view now (roll_budget_day now s) = true →
    Dispatches now W kept (d :: rest) s []
      ((roll_budget_day now s) <| ControllerState.pending_deliveries := kept ++ d :: rest |>)
| Dispatches_stays W W' kept d rest s actions s' :
    budget_exhausted_view now (roll_budget_day now s) = false →
    stays now (roll_budget_day now s) W d W' →
    Dispatches now W' (kept ++ [d]) rest (roll_budget_day now s) actions s' →
    Dispatches now W kept (d :: rest) s actions s'
| Dispatches_sidecar W kept d rest s lane actions s' :
    budget_exhausted_view now (roll_budget_day now s) = false →
    starts now (roll_budget_day now s) W d →
    s.(ControllerState.active_by_session) !! target_of d s = Some lane →
    joins d (target_of d s) lane (roll_budget_day now s) = true →
    Dispatches now W kept rest (with_sidecar d (roll_budget_day now s)) actions s' →
    Dispatches now W kept (d :: rest) s (DispatchAction.Sidecar d (target_of d s) :: actions) s'
| Dispatches_lane W kept d rest s actions s' :
    budget_exhausted_view now (roll_budget_day now s) = false →
    starts now (roll_budget_day now s) W d →
    s.(ControllerState.active_by_session) !! target_of d s = None →
    Dispatches now W kept rest (with_lane now d (roll_budget_day now s)) actions s' →
    Dispatches now W kept (d :: rest) s (DispatchAction.Lane d (target_of d s) :: actions) s'.

(** Rolling the day changes nothing that routes. *)
Definition routes s s' : Prop :=
  s'.(ControllerState.config) = s.(ControllerState.config)
  ∧ s'.(ControllerState.main_generation) = s.(ControllerState.main_generation)
  ∧ s'.(ControllerState.session_generations) = s.(ControllerState.session_generations)
  ∧ s'.(ControllerState.rotation_requests) = s.(ControllerState.rotation_requests)
  ∧ s'.(ControllerState.session_ready) = s.(ControllerState.session_ready)
  ∧ s'.(ControllerState.config_dirty) = s.(ControllerState.config_dirty).
#[export] Instance routes_refl : Reflexive routes.
Proof. by intros s. Qed.
#[export] Instance routes_trans : Transitive routes.
Proof. unfold routes. intros s s' s'' ? ?. naive_solver congruence. Qed.

Lemma roll_routes now s : routes s (roll_budget_day now s).
Proof. unfold roll_budget_day. by case_bool_decide. Qed.
Lemma roll_active now s :
  (roll_budget_day now s).(ControllerState.active_by_session)
  = s.(ControllerState.active_by_session).
Proof. unfold roll_budget_day. by case_bool_decide. Qed.
Lemma roll_sidecar now s :
  (roll_budget_day now s).(ControllerState.sidecar_by_session)
  = s.(ControllerState.sidecar_by_session).
Proof. unfold roll_budget_day. by case_bool_decide. Qed.
Lemma roll_pending now s :
  (roll_budget_day now s).(ControllerState.pending_deliveries)
  = s.(ControllerState.pending_deliveries).
Proof. unfold roll_budget_day. by case_bool_decide. Qed.
Lemma roll_day now s : (roll_budget_day now s).(ControllerState.run_day) = utc_day now.
Proof. unfold roll_budget_day. by case_bool_decide. Qed.
Lemma roll_current now s :
  s.(ControllerState.run_day) = utc_day now → roll_budget_day now s = s.
Proof. intros E. unfold roll_budget_day. by rewrite bool_decide_true. Qed.

Lemma routes_main_session s s' : routes s s' → main_session_id s' = main_session_id s.
Proof. intros (E1 & E2 & _). unfold main_session_id. by rewrite E1, E2. Qed.
Lemma routes_target s s' d : routes s s' → target_of d s' = target_of d s.
Proof.
  intros R. pose proof (routes_main_session _ _ R) as E. destruct R as (_ & _ & G & _).
  unfold target_of, resolve_routed_session_id, routed_generation. by rewrite E, G.
Qed.
Lemma routes_held s s' t : routes s s' → target_held t s' = target_held t s.
Proof.
  intros R. pose proof (routes_main_session _ _ R) as E.
  destruct R as (_ & _ & _ & Q & Y & C). unfold target_held. by rewrite E, Q, Y, C.
Qed.

Lemma dispatch_from_graph now W kept rest s :
  Dispatches now W kept rest s (dispatch_from now W kept rest s).1
    (dispatch_from now W kept rest s).2.
Proof.
  revert W kept s. induction rest as [|d rest IH]; intros W kept s; [constructor|].
  cbn [dispatch_from budget_exhausted].
  destruct (budget_exhausted_view now (roll_budget_day now s)) eqn:B; [by apply Dispatches_exhausted|].
  pose proof (routes_target _ _ d (roll_routes now s)) as T.
  remember (target_of d s) as t eqn:Et.
  destruct (BotDelivery_waiting d now) eqn:Wd.
  { eapply Dispatches_stays; [done| |apply IH]. by left. }
  destruct (bool_decide (_ ∈ W) || target_held _ _) eqn:Hd.
  { eapply Dispatches_stays; [done| |apply IH]. right. split_and!; [done..|].
    apply orb_true_iff in Hd as [Hd%bool_decide_eq_true|Hd]; auto. }
  apply orb_false_iff in Hd as [H1%bool_decide_eq_false H2].
  rewrite roll_active.
  destruct (_ !! target_of d (roll_budget_day now s)) as [lane|] eqn:A.
  - destruct (joins _ _ _ _) eqn:J.
    + specialize (IH W kept (with_sidecar d (roll_budget_day now s))).
      unfold with_sidecar in IH at 2 3. destruct (dispatch_from _ _ _ _ _). cbn [fst snd] in *.
      rewrite T in A, J. rewrite T, Et. subst t. by eapply Dispatches_sidecar.
    + eapply Dispatches_stays; [done| |apply IH]. right. rewrite roll_active. eauto 10.
  - specialize (IH W kept (with_lane now d (roll_budget_day now s))).
    unfold with_lane in IH at 2 3. destruct (dispatch_from _ _ _ _ _). cbn [fst snd] in *.
    rewrite T in A. rewrite T, Et. subst t. by eapply Dispatches_lane.
Qed.

(** ** What an action is for *)
(** The target is free, or its run is joined. *)
Definition justified s (a : DispatchAction) : Prop :=
  target_of (action_delivery a) s = action_target a
  ∧ target_held (action_target a) s = false
  ∧ match a with
    | DispatchAction.Lane d t => s.(ControllerState.active_by_session) !! t = None
    | DispatchAction.Sidecar d t =>
        ∃ lane, s.(ControllerState.active_by_session) !! t = Some lane
                ∧ joins d t lane s = true
    end.
(** The sessions the sidecars of some actions are on. *)
Definition sidecar_targets (actions : list DispatchAction) : gset string :=
  list_to_set (omap (λ a, match a with
                          | DispatchAction.Sidecar _ t => Some t
                          | DispatchAction.Lane _ _ => None
                          end) actions).

Lemma routes_joins s s' d t lane :
  s'.(ControllerState.sidecar_by_session) = s.(ControllerState.sidecar_by_session) →
  joins d t lane s' = joins d t lane s.
Proof. unfold joins. by intros ->. Qed.
Lemma roll_joins now s d t lane : joins d t lane (roll_budget_day now s) = joins d t lane s.
Proof. apply routes_joins, roll_sidecar. Qed.

Lemma with_lane_routes now d s : routes s (with_lane now d s).
Proof. by split_and!. Qed.
Lemma with_sidecar_routes d s : routes s (with_sidecar d s).
Proof. by split_and!. Qed.

Lemma graph_routes now W kept rest s actions s' :
  Dispatches now W kept rest s actions s' → routes s s'.
Proof.
  induction 1; [by split_and!|etrans; [apply (roll_routes now)|]..].
  - by split_and!.
  - done.
  - by etrans; [apply with_sidecar_routes|].
  - by etrans; [apply with_lane_routes|].
Qed.

(** The queue is split: what starts, and what stays behind what stayed before, each in order. *)
Lemma graph_partition now W kept rest s actions s' :
  Dispatches now W kept rest s actions s' →
  ∃ left, s'.(ControllerState.pending_deliveries) = kept ++ left
    ∧ left `sublist_of` rest ∧ (action_delivery <$> actions) `sublist_of` rest
    ∧ rest ≡ₚ (action_delivery <$> actions) ++ left.
Proof.
  induction 1 as [W kept s|W kept d rest s _
    |W W' kept d rest s actions s' _ _ _ (left & E & L & A & P)
    |W kept d rest s lane actions s' _ _ _ _ _ (left & E & L & A & P)
    |W kept d rest s actions s' _ _ _ _ (left & E & L & A & P)].
  - exists []. simpl. by rewrite app_nil_r.
  - exists (d :: rest). split_and!; [done|done|apply sublist_nil_l|done].
  - exists (d :: left). rewrite E, <-app_assoc. split_and!; [done|by constructor..|].
    by rewrite P, Permutation_middle.
  - exists left. cbn [fmap list_fmap action_delivery].
    split_and!; [done|by constructor..|by rewrite P].
  - exists left. cbn [fmap list_fmap action_delivery].
    split_and!; [done|by constructor..|by rewrite P].
Qed.

(** No action has a target blocked before it. *)
Lemma graph_unblocked now W kept rest s actions s' :
  Dispatches now W kept rest s actions s' →
  Forall (λ a, action_target a ∉ W) actions.
Proof.
  induction 1 as [| |W W' kept d rest s actions s' _ Hs _ IH
    |W kept d rest s lane actions s' _ (_ & Hs & _) _ _ _ IH
    |W kept d rest s actions s' _ (_ & Hs & _) _ _ IH]; [by constructor..| | |].
  - eapply Forall_impl; [exact IH|]. intros a Ha. simpl in Ha.
    destruct Hs as [[_ ->]|(_ & -> & _)]; [set_solver|done].
  - constructor; [|done]. by rewrite (routes_target _ _ d (roll_routes now s)) in Hs.
  - constructor; [|done]. by rewrite (routes_target _ _ d (roll_routes now s)) in Hs.
Qed.

Lemma justified_roll now s a : justified (roll_budget_day now s) a ↔ justified s a.
Proof.
  unfold justified.
  rewrite (routes_target _ _ _ (roll_routes now s)), (routes_held _ _ _ (roll_routes now s)).
  rewrite roll_active. destruct a; [done|]. by setoid_rewrite roll_joins.
Qed.
Lemma justified_with_lane now d s a :
  s.(ControllerState.active_by_session) !! target_of d s = None →
  justified (with_lane now d s) a → justified s a ∧ action_target a ≠ target_of d s.
Proof.
  intros N (T & H & C).
  rewrite (routes_target _ _ _ (with_lane_routes now d s)) in T.
  rewrite (routes_held _ _ _ (with_lane_routes now d s)) in H. unfold justified.
  destruct a as [d' t'|d' t']; simpl in *.
  - apply lookup_insert_None in C as [C Hne]. done.
  - destruct C as (lane & E & J). apply lookup_insert_Some in E as [[_ <-]|[Hne E]]; [done|].
    eauto 10.
Qed.
Lemma justified_with_sidecar d s a lane :
  s.(ControllerState.active_by_session) !! target_of d s = Some lane →
  justified (with_sidecar d s) a → justified s a ∧ action_target a ≠ target_of d s.
Proof.
  intros N (T & H & C).
  rewrite (routes_target _ _ _ (with_sidecar_routes d s)) in T.
  rewrite (routes_held _ _ _ (with_sidecar_routes d s)) in H. unfold justified.
  destruct a as [d' t'|d' t']; cbn [action_target action_delivery] in *.
  - split; [done|]. intros E. rewrite E in C. change (s.(ControllerState.active_by_session)
      !! target_of d s = None) in C. congruence.
  - destruct C as (lane' & E & J). unfold joins in J. cbn in J.
    apply andb_true_iff in J as [J1 J2%negb_true_iff%bool_decide_eq_false].
    split; [|set_solver]. split_and!; [done..|]. exists lane'. split; [done|].
    unfold joins. rewrite J1. apply negb_true_iff, bool_decide_eq_false. set_solver.
Qed.

Lemma graph_justified now W kept rest s actions s' :
  Dispatches now W kept rest s actions s' →
  Forall (justified s) actions ∧ NoDup (action_target <$> actions).
Proof.
  induction 1 as [| |W W' kept d rest s actions s' _ _ _ [F N]
    |W kept d rest s lane actions s' _ (_ & _ & Hh) E J _ [F N]
    |W kept d rest s actions s' _ (_ & _ & Hh) E _ [F N]].
  1,2: split; constructor.
  - split; [|done]. eapply Forall_impl; [exact F|]. intros a. by rewrite justified_roll.
  - rewrite (routes_target _ _ d (roll_routes now s)), (routes_held _ _ _ (roll_routes now s))
      in Hh.
    assert (Forall (λ a, justified s a ∧ action_target a ≠ target_of d s) actions) as F'.
    { eapply Forall_impl; [exact F|]. intros a Ha.
      eapply justified_with_sidecar in Ha as [Ha Ht]; [|by rewrite roll_active,
        (routes_target _ _ d (roll_routes now s))].
      rewrite justified_roll in Ha. by rewrite (routes_target _ _ d (roll_routes now s)) in Ht. }
    split.
    + constructor; [|by eapply Forall_impl; [exact F'|]; intros a []].
      split_and!; [done..|]. exists lane. by rewrite roll_joins in J.
    + simpl. constructor; [|done]. intros (a & Ha & In)%list_elem_of_fmap.
      rewrite Forall_forall in F'. by destruct (F' _ In).
  - rewrite (routes_target _ _ d (roll_routes now s)), (routes_held _ _ _ (roll_routes now s))
      in Hh.
    assert (Forall (λ a, justified s a ∧ action_target a ≠ target_of d s) actions) as F'.
    { eapply Forall_impl; [exact F|]. intros a Ha.
      eapply justified_with_lane in Ha as [Ha Ht]; [|by rewrite roll_active,
        (routes_target _ _ d (roll_routes now s))].
      rewrite justified_roll in Ha. by rewrite (routes_target _ _ d (roll_routes now s)) in Ht. }
    split.
    + constructor; [|by eapply Forall_impl; [exact F'|]; intros a []]. by split_and!.
    + simpl. constructor; [|done]. intros (a & Ha & In)%list_elem_of_fmap.
      rewrite Forall_forall in F'. by destruct (F' _ In).
Qed.

(** What a delivery may be overtaken by: nothing that opens a lane, and for its part it is
    queued for a run that others join. *)
Definition overtaken_by (now : Z) d (a : DispatchAction) : Prop :=
  match a with
  | DispatchAction.Lane _ _ => False
  | DispatchAction.Sidecar _ _ =>
      d.(BotDelivery.when_busy) = BotWhenBusy.Queue ∧ BotDelivery_waiting d now = false
  end.
Definition in_turn (now : Z) s (rest : list BotDelivery) (a : DispatchAction) : Prop :=
  ∃ before after, rest = before ++ action_delivery a :: after
    ∧ Forall (λ d, target_of d s = action_target a → overtaken_by now d a) before.

Lemma in_turn_routes now s s' rest a :
  routes s s' → in_turn now s' rest a → in_turn now s rest a.
Proof.
  intros R (before & after & -> & F). exists before, after. split; [done|].
  eapply Forall_impl; [exact F|]. intros d Hd. simpl in Hd. by rewrite (routes_target _ _ d R) in Hd.
Qed.
Lemma in_turn_cons now s d rest a :
  (target_of d s = action_target a → overtaken_by now d a) →
  in_turn now s rest a → in_turn now s (d :: rest) a.
Proof.
  intros Hd (before & after & -> & F). exists (d :: before), after. split; [done|].
  by constructor.
Qed.

Lemma stays_overtaken now s W d W' a :
  stays now s W d W' → action_target a ∉ W' → justified s a →
  target_of d s = action_target a → overtaken_by now d a.
Proof.
  intros Hs Hw (_ & Hh & Ha) T. unfold stays in Hs. rewrite T in Hs.
  destruct Hs as [[_ ->]|(Wd & -> & [?|[?|(lane & E & J)]])]; [set_solver|done|congruence|].
  destruct a as [d' t|d' t]; simpl in *; [congruence|].
  destruct Ha as (lane' & E' & J'). simplify_eq. split; [|done]. unfold joins in J, J'.
  apply andb_true_iff in J' as [J' J2]. apply andb_true_iff in J' as [J1 _].
  rewrite J1, J2, andb_true_r in J. by apply negb_false_iff, bool_decide_eq_true in J.
Qed.
Lemma graph_in_turn now W kept rest s actions s' :
  Dispatches now W kept rest s actions s' → Forall (in_turn now s rest) actions.
Proof.
  intros G. pose proof (graph_justified _ _ _ _ _ _ _ G) as [_ N].
  induction G as [| |W W' kept d rest s actions s' _ Hs G IH
    |W kept d rest s lane actions s' _ _ _ _ G IH
    |W kept d rest s actions s' _ _ _ G IH]; [constructor..| | |].
  - pose proof (graph_unblocked _ _ _ _ _ _ _ G) as U.
    destruct (graph_justified _ _ _ _ _ _ _ G) as [J _]. specialize (IH N).
    rewrite Forall_forall in U, J, IH |- *. intros a Ha.
    apply in_turn_routes with (roll_budget_day now s); [apply roll_routes|].
    apply in_turn_cons; [|auto]. eapply stays_overtaken; eauto.
  - apply NoDup_cons in N as [N1 N]. constructor.
    { exists [], rest. by split; [|constructor]. }
    specialize (IH N). rewrite Forall_forall in IH |- *. intros a Ha.
    apply in_turn_cons; [|eapply in_turn_routes; [|by apply IH]].
    + intros E. destruct N1. simpl. rewrite E. by apply list_elem_of_fmap_2.
    + etrans; [apply (roll_routes now)|apply with_sidecar_routes].
  - apply NoDup_cons in N as [N1 N]. constructor.
    { exists [], rest. by split; [|constructor]. }
    specialize (IH N). rewrite Forall_forall in IH |- *. intros a Ha.
    apply in_turn_cons; [|eapply in_turn_routes; [|by apply IH]].
    + intros E. destruct N1. simpl. rewrite E. by apply list_elem_of_fmap_2.
    + etrans; [apply (roll_routes now)|apply with_lane_routes].
Qed.

(** ** What dispatching changes *)
Lemma graph_effects now W kept rest s actions s' :
  Dispatches now W kept rest s actions s' →
  (∀ d t, DispatchAction.Lane d t ∈ actions →
     s'.(ControllerState.active_by_session) !! t = Some (opened_lane d t now))
  ∧ (∀ t, (∀ d, DispatchAction.Lane d t ∉ actions) →
     s'.(ControllerState.active_by_session) !! t = s.(ControllerState.active_by_session) !! t)
  ∧ s'.(ControllerState.sidecar_by_session)
    = s.(ControllerState.sidecar_by_session) ∪ sidecar_targets actions.
Proof.
  induction 1 as [|W kept d rest s _|W W' kept d rest s actions s' _ _ _ (IL & IA & IS)
    |W kept d rest s lane actions s' _ _ _ _ _ (IL & IA & IS)
    |W kept d rest s actions s' _ _ E G (IL & IA & IS)].
  - split_and!; [set_solver|done|]. apply leibniz_equiv. set_solver.
  - split_and!; [set_solver|by intros; cbn; rewrite roll_active|]. cbn. rewrite roll_sidecar.
    apply leibniz_equiv. set_solver.
  - rewrite roll_active in IA. by rewrite roll_sidecar in IS.
  - split_and!.
    + intros d' t [?|Ht]%elem_of_cons; [done|]. by apply IL.
    + intros t Ht. rewrite IA; [cbn; by rewrite roll_active|]. set_solver.
    + rewrite IS. cbn. rewrite roll_sidecar, (routes_target _ _ d (roll_routes now s)).
      apply leibniz_equiv. unfold sidecar_targets. simpl. set_solver.
  - split_and!.
    + intros d' t [?|Ht]%elem_of_cons; [|by apply IL]. simplify_eq.
      rewrite IA; [cbn; by rewrite (routes_target _ _ d (roll_routes now s)), lookup_insert_eq|].
      intros d' In. destruct (graph_justified _ _ _ _ _ _ _ G) as [J _].
      rewrite Forall_forall in J. apply J in In. apply justified_with_lane in In as [_ Hne].
      * by rewrite (routes_target _ _ d (roll_routes now s)) in Hne.
      * by rewrite roll_active, (routes_target _ _ d (roll_routes now s)).
    + intros t Ht. rewrite IA; [|set_solver]. cbn.
      rewrite roll_active, (routes_target _ _ d (roll_routes now s)).
      apply lookup_insert_ne. intros <-. by apply (Ht d), list_elem_of_here.
    + rewrite IS. cbn. rewrite roll_sidecar. apply leibniz_equiv. unfold sidecar_targets.
      simpl. set_solver.
Qed.

(** ** Dispatching and looking for work *)
(** The targets blocked by the waiting deliveries of a queue. *)
Definition blocked_targets (now : Z) s W (l : list BotDelivery) : gset string :=
  foldl (λ W d, if BotDelivery_waiting d now then {[target_of d s]} ∪ W else W) W l.
Lemma any_runnable_app now s W l l' :
  any_runnable now s W (l ++ l')
  = any_runnable now s W l || any_runnable now s (blocked_targets now s W l) l'.
Proof.
  revert W. induction l as [|d l IH]; intros W; simpl; [done|].
  destruct (BotDelivery_waiting d now); [apply IH|].
  destruct (_ || _); [apply IH|]. destruct (_ !! _) as [lane|]; [|done].
  destruct (joins _ _ _ _); [done|apply IH].
Qed.
Lemma stays_not_runnable now s W d W' :
  stays now s W d W' → any_runnable now s W [d] = false ∧ blocked_targets now s W [d] = W'.
Proof.
  simpl. intros [[-> ->]|(-> & -> & H)]; [done|]. split; [|done].
  destruct (bool_decide _ || _) eqn:B; [done|].
  apply orb_false_iff in B as [B1%bool_decide_eq_false B2].
  destruct H as [?|[?|(lane & E & J)]]; [done|congruence|]. by rewrite E, J.
Qed.

(** Lanes and sidecars have been added to, at most. *)
Definition fills s s' : Prop :=
  routes s s'
  ∧ s.(ControllerState.active_by_session) ⊆ s'.(ControllerState.active_by_session)
  ∧ s.(ControllerState.sidecar_by_session) ⊆ s'.(ControllerState.sidecar_by_session).
Lemma roll_fills now s : fills s (roll_budget_day now s).
Proof. split; [apply roll_routes|]. by rewrite roll_active, roll_sidecar. Qed.

Lemma fills_not_runnable now s s' W l :
  fills s s' → any_runnable now s W l = false → any_runnable now s' W l = false.
Proof.
  intros (R & HA & HS). revert W. induction l as [|d l IH]; intros W; simpl; [done|].
  rewrite (routes_target _ _ _ R), (routes_held _ _ _ R).
  destruct (BotDelivery_waiting d now); [apply IH|].
  destruct (_ || _); [apply IH|].
  destruct (s.(ControllerState.active_by_session) !! _) as [lane|] eqn:E; [|done].
  rewrite (lookup_weaken _ _ _ _ E HA).
  destruct (joins _ _ _ s) eqn:J; [done|]. intros H. rewrite IH by done.
  destruct (joins _ _ _ s') eqn:J'; [|done]. exfalso. unfold joins in J, J'.
  apply andb_true_iff in J' as [J1 J2%negb_true_iff%bool_decide_eq_false].
  rewrite J1 in J. apply negb_false_iff, bool_decide_eq_true in J. set_solver.
Qed.
Lemma fills_blocked now s s' W l :
  fills s s' → blocked_targets now s' W l = blocked_targets now s W l.
Proof.
  intros (R & _). revert W. induction l as [|d l IH]; intros W; simpl; [done|].
  by rewrite (routes_target _ _ _ R), IH.
Qed.
Lemma fills_trans s s' s'' : fills s s' → fills s' s'' → fills s s''.
Proof. intros (? & ? & ?) (? & ? & ?). split_and!; by etrans. Qed.

Lemma graph_quiescent now W kept rest s actions s' :
  Dispatches now W kept rest s actions s' →
  W = blocked_targets now s ∅ kept → any_runnable now s ∅ kept = false →
  dispatchable now s' = false.
Proof.
  unfold dispatchable.
  induction 1 as [W kept s|W kept d rest s B|W W' kept d rest s actions s' _ Hs _ IH
    |W kept d rest s lane actions s' _ _ _ _ _ IH
    |W kept d rest s actions s' _ (_ & _ & Hh) E _ IH]; intros HW Hk.
  - destruct (_ || _); [done|]. eapply fills_not_runnable, Hk. by split_and!.
  - change (budget_exhausted_view now (_ <| ControllerState.pending_deliveries := _ |>))
      with (budget_exhausted_view now (roll_budget_day now s)).
    by rewrite B, orb_true_r.
  - subst W. rewrite <-(fills_blocked _ _ _ _ _ (roll_fills now s)) in Hs.
    apply stays_not_runnable in Hs as [H1 H2]. apply IH.
    + unfold blocked_targets in *. by rewrite foldl_app, <-H2.
    + rewrite any_runnable_app, H1, orb_false_r.
      by eapply fills_not_runnable, Hk; [apply roll_fills].
  - assert (fills s (with_sidecar d (roll_budget_day now s))) as F.
    { eapply fills_trans; [apply (roll_fills now)|].
      split_and!; [apply with_sidecar_routes|done|cbn; set_solver]. }
    apply IH; [by rewrite (fills_blocked _ _ _ _ _ F)|by eapply fills_not_runnable].
  - assert (fills s (with_lane now d (roll_budget_day now s))) as F.
    { eapply fills_trans; [apply (roll_fills now)|].
      split_and!; [apply with_lane_routes|cbn; apply insert_subseteq|done].
      by rewrite roll_active, (routes_target _ _ d (roll_routes now s)). }
    apply IH; [by rewrite (fills_blocked _ _ _ _ _ F)|by eapply fills_not_runnable].
Qed.

Lemma graph_starts_something now W kept rest s actions s' :
  Dispatches now W kept rest s actions s' → s.(ControllerState.run_day) = utc_day now →
  actions ≠ [] ↔ any_runnable now s W rest = true ∧ budget_exhausted_view now s = false.
Proof.
  induction 1 as [W kept s|W kept d rest s B|W W' kept d rest s actions s' B Hs _ IH
    |W kept d rest s lane actions s' B (H1 & H2 & H3) E J _ _
    |W kept d rest s actions s' B (H1 & H2 & H3) E _ _]; intros Hd.
  - simpl. naive_solver.
  - rewrite roll_current in B by done. rewrite B. naive_solver.
  - rewrite (roll_current now s Hd) in *. specialize (IH Hd).
    apply stays_not_runnable in Hs as [Hr <-].
    change (d :: rest) with ([d] ++ rest). by rewrite any_runnable_app, Hr.
  - rewrite (roll_current now s Hd) in *. split; [|done]. intros _. split; [|done]. simpl.
    by rewrite H1, (bool_decide_false _ H2), H3, E, J.
  - rewrite (roll_current now s Hd) in *. split; [|done]. intros _. split; [|done]. simpl.
    by rewrite H1, (bool_decide_false _ H2), H3, E.
Qed.

(** ** The budget *)
Definition runs_ahead s : nat :=
  length (filter (λ lane, starts_run lane = true)
            (btree_values s.(ControllerState.active_by_session))).
(** What [reserved_runs] sums. *)
Definition reservations s : N :=
  (s.(ControllerState.runs_today) + s.(ControllerState.descendants_today)
     + N.of_nat (runs_ahead s))%N.
Lemma reserved_runs_small s :
  (reservations s <= u32_max)%N → reserved_runs s = reservations s.
Proof.
  intros H. unfold reserved_runs, wrapping_add_u32. fold (runs_ahead s).
  unfold reservations, u32_max in *.
  rewrite (N.mod_small (N.of_nat _)), (N.mod_small (_ + s.(ControllerState.descendants_today)))
    by lia.
  apply N.mod_small. lia.
Qed.
Lemma roll_reservations now s : (reservations (roll_budget_day now s) <= reservations s)%N.
Proof.
  unfold reservations, runs_ahead. rewrite roll_active. generalize (btree_values
    s.(ControllerState.active_by_session)). intros lanes. unfold roll_budget_day.
  case_bool_decide; [lia|]. cbn [ControllerState.runs_today ControllerState.descendants_today
    field_setter]. cbn. lia.
Qed.
Lemma with_lane_reservations now d s :
  s.(ControllerState.active_by_session) !! target_of d s = None →
  (reservations (with_lane now d s) <= reservations s + 1)%N.
Proof.
  intros E. assert (runs_ahead (with_lane now d s) ≤ S (runs_ahead s)) as H.
  { unfold runs_ahead. cbn. rewrite (btree_values_insert _ _ _ E), filter_cons.
    case_decide; [done|apply Nat.le_succ_diag_r]. }
  unfold reservations. change ((with_lane now d s).(ControllerState.runs_today))
    with s.(ControllerState.runs_today).
  change ((with_lane now d s).(ControllerState.descendants_today))
    with s.(ControllerState.descendants_today). lia.
Qed.

Lemma graph_budget now W kept rest s actions s' limit :
  Dispatches now W kept rest s actions s' →
  s.(ControllerState.config).(BotControllerConfig.runs_per_day) = Some limit →
  (reservations s + N.of_nat (length rest) <= u32_max)%N →
  (reservations s' <= N.max (reservations s) limit)%N.
Proof.
  induction 1 as [W kept s|W kept d rest s B|W W' kept d rest s actions s' B Hs _ IH
    |W kept d rest s lane actions s' B _ _ _ _ IH|W kept d rest s actions s' B _ E _ IH];
    intros Hl Hb; pose proof (roll_reservations now s) as Hr.
  - change (reservations (s <|ControllerState.pending_deliveries := kept|>))
      with (reservations s). lia.
  - change (reservations (_ <|ControllerState.pending_deliveries := _|>))
      with (reservations (roll_budget_day now s)). lia.
  - destruct (roll_routes now s) as [Hc _]. rewrite Hc in IH. simpl in Hb. specialize (IH Hl).
    lia.
  - assert ((with_sidecar d (roll_budget_day now s)).(ControllerState.config)
            = s.(ControllerState.config)) as Hc by apply (roll_routes now s).
    rewrite Hc in IH. simpl in Hb.
    change (reservations (with_sidecar d (roll_budget_day now s)))
      with (reservations (roll_budget_day now s)) in IH. specialize (IH Hl). lia.
  - assert ((with_lane now d (roll_budget_day now s)).(ControllerState.config)
            = s.(ControllerState.config)) as Hc' by apply (roll_routes now s).
    destruct (roll_routes now s) as [Hc _]. rewrite Hc' in IH. simpl in Hb.
    unfold budget_exhausted_view in B. rewrite Hc, Hl, roll_day, bool_decide_true in B by done.
    rewrite reserved_runs_small in B by lia. apply N.leb_gt in B.
    pose proof (with_lane_reservations now d (roll_budget_day now s)) as Ha.
    rewrite roll_active, (routes_target _ _ d (roll_routes now s)) in Ha.
    specialize (Ha E). specialize (IH Hl). lia.
Qed.

(** ** The properties *)
(** C14. A dispatch takes deliveries out of the queue and loses none: what it starts and what
    it leaves are the queue, each in the queue's order. It starts at most one delivery per
    session, on a lane of its own where the session has none, beside a started run where the
    delivery may join it; in turn, so that a lane takes the first delivery of its session and
    a sidecar passes only ones that wait for the run. The lanes and sidecars it opens are its
    actions', and no others change. *)
Theorem dispatch_is_fair now s actions s' :
  dispatch now s = (actions, s') →
  s.(ControllerState.pending_deliveries)
    ≡ₚ (action_delivery <$> actions) ++ s'.(ControllerState.pending_deliveries)
  ∧ s'.(ControllerState.pending_deliveries)
      `sublist_of` s.(ControllerState.pending_deliveries)
  ∧ (action_delivery <$> actions) `sublist_of` s.(ControllerState.pending_deliveries)
  ∧ NoDup (action_target <$> actions)
  ∧ Forall (justified s) actions
  ∧ Forall (in_turn now s s.(ControllerState.pending_deliveries)) actions
  ∧ (∀ d t, DispatchAction.Lane d t ∈ actions →
       s'.(ControllerState.active_by_session) !! t = Some (opened_lane d t now))
  ∧ (∀ t, (∀ d, DispatchAction.Lane d t ∉ actions) →
       s'.(ControllerState.active_by_session) !! t
       = s.(ControllerState.active_by_session) !! t)
  ∧ s'.(ControllerState.sidecar_by_session)
    = s.(ControllerState.sidecar_by_session) ∪ sidecar_targets actions.
Proof.
  intros E. pose proof (dispatch_from_graph now ∅ [] s.(ControllerState.pending_deliveries) s)
    as G. unfold dispatch in E. rewrite E in G. cbn [fst snd] in G.
  destruct (graph_partition _ _ _ _ _ _ _ G) as (left & -> & L & A & P).
  destruct (graph_justified _ _ _ _ _ _ _ G) as [J N].
  destruct (graph_effects _ _ _ _ _ _ _ G) as (EL & EO & ES).
  pose proof (graph_in_turn _ _ _ _ _ _ _ G). by split_and!.
Qed.

(** The loop sleeps only when nothing can start: after a dispatch nothing is dispatchable,
    and on the current day, with the bot enabled and not closing, a delivery is dispatchable
    exactly when a dispatch starts one. *)
Theorem dispatch_runs_to_the_end now s :
  s.(ControllerState.config).(BotControllerConfig.enabled) = true →
  close_requested s = false →
  s.(ControllerState.run_day) = utc_day now →
  dispatchable now (dispatch now s).2 = false
  ∧ (dispatchable now s = true ↔ (dispatch now s).1 ≠ []).
Proof.
  intros He Hc Hd.
  pose proof (dispatch_from_graph now ∅ [] s.(ControllerState.pending_deliveries) s) as G.
  fold (dispatch now s) in G. split; [by apply (graph_quiescent _ _ _ _ _ _ _ G)|].
  rewrite (graph_starts_something _ _ _ _ _ _ _ G Hd). unfold dispatchable.
  rewrite He, Hc. simpl. destruct (budget_exhausted_view now s);
    [by rewrite orb_true_r; naive_solver|rewrite orb_false_r].
  case_bool_decide as Hp; [rewrite Hp; simpl; naive_solver|naive_solver].
Qed.

(** Dispatching keeps to the budget: what a day's runs, delegated runs and lanes about to
    start a run come to stays within the limit, or where it was if already past it. *)
Theorem dispatch_keeps_the_budget now s limit :
  s.(ControllerState.config).(BotControllerConfig.runs_per_day) = Some limit →
  (limit <= u32_max)%N →
  (reservations s + N.of_nat (length s.(ControllerState.pending_deliveries)) <= u32_max)%N →
  (reserved_runs (dispatch now s).2 <= N.max (reserved_runs s) limit)%N.
Proof.
  intros Hl Hm Hb.
  pose proof (dispatch_from_graph now ∅ [] s.(ControllerState.pending_deliveries) s) as G.
  fold (dispatch now s) in G. pose proof (graph_budget _ _ _ _ _ _ _ _ G Hl Hb) as H.
  by rewrite !reserved_runs_small by lia.
Qed.
End dispatch.

(** ** The laws at work *)
Lemma dispatch_is_fair_witness :
  DispatchAction.Lane (BotDelivery_single (keyed_event "k1" 2 "ana")) "bot:v1:support:k-ana"
    ∈ (dispatch noon queued).1
  ∧ NoDup (action_target <$> (dispatch noon running).1)
  ∧ length (dispatch noon running).2.(ControllerState.pending_deliveries) = 1.
Proof.
  split; [|split].
  - vm_compute. right. left.
  - pose proof (dispatch_is_fair noon running (dispatch noon running).1
      (dispatch noon running).2 (surjective_pairing _)) as (_ & _ & _ & N & _). exact N.
  - vm_compute. reflexivity.
Defined.
Lemma dispatch_runs_to_the_end_witness :
  dispatchable noon queued = true ∧ dispatchable noon (dispatch noon queued).2 = false.
Proof.
  split; [vm_compute; reflexivity|].
  refine (proj1 (dispatch_runs_to_the_end noon queued _ _ _)); vm_compute; reflexivity.
Defined.
Lemma dispatch_keeps_the_budget_witness :
  reserved_runs queued = 0%N ∧ (reserved_runs (dispatch noon queued).2 <= 3)%N.
Proof.
  split; [vm_compute; reflexivity|].
  etransitivity; [apply (dispatch_keeps_the_budget noon queued 3)|]; vm_compute;
    [reflexivity|discriminate..].
Defined.
