(* ===== verification/BotInvariant.v ===== *)
(** * What always holds of a controller

    The controller's state changes only through its operations ([operates]), whoever calls them
    and in whatever order: signals, the loop and its lanes interleave. [controller_ok] holds of a
    new controller and is kept by every operation. *)
From Stdlib Require Import Ascii ZArith.
From S2P Require Import Prelude Ids Text Types Externals Bindings BotState BotController.
From S2P Require Import BotExample BotLaws.
Set Primitive Projections.

(** ** Seen ids *)
Record seen_ok (cap : N) (seen : SeenIds) : Prop := {
  seen_cap : seen.(SeenIds.cap) = cap;
  seen_set : seen.(SeenIds.set) = list_to_set seen.(SeenIds.order);
  seen_NoDup : NoDup seen.(SeenIds.order);
  seen_bounded : (N.of_nat (length seen.(SeenIds.order)) <= cap)%N;
}.

(** The last [cap] ids of a list. *)
Definition newest (cap : N) (ids : list string) : list string :=
  drop (length ids - N.to_nat cap) ids.
Lemma evict_newest cap order :
  NoDup order →
  evict cap order (list_to_set order) = (newest cap order, list_to_set (newest cap order)).
Proof.
  unfold newest. induction order as [|id order IH]; intros N; [done|]. cbn [evict].
  apply NoDup_cons in N as [N1 N]. destruct (cap <? _)%N eqn:C.
  - apply N.ltb_lt in C. replace ((list_to_set (id :: order) : gset string) ∖ {[id]})
      with (list_to_set order : gset string) by (apply leibniz_equiv; simpl;
        intros x; rewrite elem_of_difference, elem_of_union, elem_of_singleton,
          elem_of_list_to_set; split; [by intros ?; split; [right|intros ->]|naive_solver]).
    rewrite (IH N). simpl in *.
    replace (S (length order) - N.to_nat cap) with (S (length order - N.to_nat cap)) by lia.
    done.
  - apply N.ltb_ge in C. replace (length (id :: order) - N.to_nat cap) with 0 by lia. done.
Qed.
Lemma newest_all cap ids : (N.of_nat (length ids) <= cap)%N → newest cap ids = ids.
Proof. intros H. unfold newest. by replace (length ids - N.to_nat cap) with 0 by lia. Qed.
Lemma newest_length cap ids : (N.of_nat (length (newest cap ids)) <= cap)%N.
Proof. unfold newest. rewrite length_drop. lia. Qed.
Lemma elem_of_newest cap ids id : id ∈ newest cap ids → id ∈ ids.
Proof. apply (subseteq_drop _ ids). Qed.

(** An id is new unless it is among the last [cap] ones; then it becomes the newest. *)
Lemma SeenIds_insert_spec cap seen id :
  seen_ok cap seen →
  SeenIds_insert id seen
  = if bool_decide (id ∈ seen.(SeenIds.order)) then (false, seen)
    else (true, {| SeenIds.order := newest cap (seen.(SeenIds.order) ++ [id]);
                   SeenIds.set := list_to_set (newest cap (seen.(SeenIds.order) ++ [id]));
                   SeenIds.cap := cap |}).
Proof.
  intros [<- S N _]. unfold SeenIds_insert.
  rewrite S, (bool_decide_ext _ (id ∈ seen.(SeenIds.order)) (elem_of_list_to_set _ _)).
  case_bool_decide as In; [done|].
  replace ({[id]} ∪ list_to_set seen.(SeenIds.order))
    with (list_to_set (seen.(SeenIds.order) ++ [id]) : gset string)
    by (apply leibniz_equiv; rewrite list_to_set_app; set_solver).
  rewrite evict_newest; [done|]. apply NoDup_app. split_and!; [done|set_solver|].
  apply NoDup_singleton.
Qed.
Lemma seen_ok_insert cap seen id : seen_ok cap seen → seen_ok cap (SeenIds_insert id seen).2.
Proof.
  intros H. rewrite (SeenIds_insert_spec cap) by done. case_bool_decide as In; [done|].
  destruct H as [_ _ N _]. split; cbn [SeenIds.order SeenIds.set SeenIds.cap snd];
    [done..| |apply newest_length].
  eapply sublist_NoDup; [|apply sublist_drop].
  apply NoDup_app. split_and!; [done|set_solver|apply NoDup_singleton].
Qed.
Lemma seen_ok_from_ids cap ids : seen_ok cap (SeenIds_from_ids ids cap).
Proof.
  unfold SeenIds_from_ids. induction ids as [|id ids IH] using rev_ind.
  - split; simpl; [done..|constructor|lia].
  - rewrite foldl_app. by apply seen_ok_insert.
Qed.
(** A tail within the bound is taken over as it is. *)
Lemma SeenIds_from_tail cap seen :
  seen_ok cap seen → SeenIds_from_ids (SeenIds_tail seen) cap = seen.
Proof.
  destruct seen as [order set cap']. intros [C S N B]. cbn in *. subst cap' set.
  unfold SeenIds_from_ids, SeenIds_tail. cbn.
  induction order as [|id order IH] using rev_ind; [done|].
  rewrite length_app in B. simpl in B. apply NoDup_app in N as (N & D & _).
  rewrite foldl_app, IH by (done || lia). cbn [foldl].
  rewrite (SeenIds_insert_spec cap); [|by split; cbn; [..|lia]]. cbn [SeenIds.order].
  rewrite bool_decide_false by set_solver. cbn [snd].
  rewrite newest_all by (rewrite length_app; simpl; lia). done.
Qed.

(** ** The invariant *)
Section invariant.
Context `{Ext : !Externals} `{Cal : !Calendar}.
Implicit Types (s : ControllerState) (d : BotDelivery).

Definition buffer_ok (key : string) (buffer : CoalesceBuffer) : Prop :=
  buffer.(CoalesceBuffer.params).(BotCoalesceParams.key) = key
  ∧ buffer.(CoalesceBuffer.events) ≠ []
  ∧ (N.of_nat (length buffer.(CoalesceBuffer.events))
       < buffer.(CoalesceBuffer.params).(BotCoalesceParams.max_count) <= u32_max)%N.
Definition retriable d : Prop := (d.(BotDelivery.attempts) < BOT_START_MAX_ATTEMPTS)%N.

Record controller_ok s : Prop := {
  (** The seen ids are bounded and distinct. *)
  ok_seen_events : seen_ok BOT_SEEN_ID_CAP s.(ControllerState.seen_event_ids);
  ok_seen_emissions : seen_ok BOT_SEEN_ID_CAP s.(ControllerState.seen_emission_ids);
  ok_handled : seen_ok BOT_SEEN_ID_CAP s.(ControllerState.handled_invocation_ids);
  (** What is shown of the past is bounded. *)
  ok_recent : length s.(ControllerState.recent_deliveries) ≤ BOT_RECENT_DELIVERY_CAP;
  (** A buffer is under its key, holds an event, and is not full. *)
  ok_buffers : map_Forall buffer_ok s.(ControllerState.buffers);
  (** A lane is under the session it runs on. *)
  ok_lanes : map_Forall (λ key lane, lane.(ActiveLane.session_id) = key)
    s.(ControllerState.active_by_session);
  (** While a lane waits for the end of a run, a look at its session is scheduled. *)
  ok_sweep : lanes_awaiting_terminal s ≠ [] → is_Some s.(ControllerState.dead_session_sweep_at_ms);
  (** A delivery is retried a bounded number of times. *)
  ok_pending : Forall retriable s.(ControllerState.pending_deliveries);
  ok_running : map_Forall (λ _ lane, retriable lane.(ActiveLane.delivery))
    s.(ControllerState.active_by_session);
  (** The controller shows itself ready when the main session is, and owes a reconcile
      while it is not. *)
  ok_ready : s.(ControllerState.session_ready) = true
    ↔ s.(ControllerState.setup_status) = BotSetupStatus.Ready;
  ok_dirty : s.(ControllerState.config_dirty) = false → s.(ControllerState.session_ready) = true;
}.

(** The fields the invariant is about. *)
Definition guarded s :=
  (s.(ControllerState.seen_event_ids), s.(ControllerState.seen_emission_ids),
   s.(ControllerState.handled_invocation_ids), s.(ControllerState.recent_deliveries),
   (s.(ControllerState.buffers), s.(ControllerState.active_by_session),
    s.(ControllerState.dead_session_sweep_at_ms), s.(ControllerState.pending_deliveries)),
   (s.(ControllerState.session_ready), s.(ControllerState.setup_status),
    s.(ControllerState.config_dirty))).
Definition aside s s' : Prop := guarded s' = guarded s.
Lemma controller_ok_aside s s' : aside s s' → controller_ok s → controller_ok s'.
Proof.
  intros E H. injection E as E1 E2 E3 E4 E5 E6 E7 E8 E9 E10 E11. destruct H.
  split; unfold lanes_awaiting_terminal in *;
    by rewrite ?E1, ?E2, ?E3, ?E4, ?E5, ?E6, ?E7, ?E8, ?E9, ?E10, ?E11.
Qed.
(** ** Lanes *)
Lemma lanes_awaiting_spec s :
  lanes_awaiting_terminal s ≠ []
  ↔ ∃ key lane, s.(ControllerState.active_by_session) !! key = Some lane
                ∧ awaits_terminal lane = true.
Proof.
  unfold lanes_awaiting_terminal. split.
  - destruct (filter _ _) as [|[key lane] l] eqn:E; [done|]. intros _.
    assert ((key, lane) ∈ (key, lane) :: l) as In by set_solver.
    rewrite <-E, list_elem_of_filter in In. destruct In as [Ha In%elem_of_btree]. eauto.
  - intros (key & lane & E & Ha) H. apply fmap_nil_inv in H.
    assert ((key, lane) ∈ filter (λ entry : string * ActiveLane, awaits_terminal entry.2 = true)
      (btree_to_list s.(ControllerState.active_by_session))) as In.
    { apply list_elem_of_filter. by rewrite elem_of_btree. }
    rewrite H in In. set_solver.
Qed.

(** Lanes of a controller: each under its session, each retriable. *)
Definition lane_ok (key : string) (lane : ActiveLane) : Prop :=
  lane.(ActiveLane.session_id) = key ∧ retriable lane.(ActiveLane.delivery).
Definition swept (lanes : gmap string ActiveLane) (sweep : option Z) : Prop :=
  (∃ key lane, lanes !! key = Some lane ∧ awaits_terminal lane = true) → is_Some sweep.
Definition lanes_ok (lanes : gmap string ActiveLane) (sweep : option Z) : Prop :=
  map_Forall lane_ok lanes ∧ swept lanes sweep.
Lemma controller_lanes_ok s :
  controller_ok s →
  lanes_ok s.(ControllerState.active_by_session) s.(ControllerState.dead_session_sweep_at_ms).
Proof.
  intros H. split.
  - intros key lane E. by split; [apply (ok_lanes _ H)|apply (ok_running _ H _ _ E)].
  - intros Ha. by apply (ok_sweep _ H), lanes_awaiting_spec.
Qed.
(** Only the lanes and the sweep may change. *)
Definition beside_lanes s :=
  (s.(ControllerState.seen_event_ids), s.(ControllerState.seen_emission_ids),
   s.(ControllerState.handled_invocation_ids), s.(ControllerState.recent_deliveries),
   (s.(ControllerState.buffers), s.(ControllerState.pending_deliveries)),
   (s.(ControllerState.session_ready), s.(ControllerState.setup_status),
    s.(ControllerState.config_dirty))).
Lemma controller_ok_relane s s' :
  controller_ok s →
  beside_lanes s' = beside_lanes s →
  lanes_ok s'.(ControllerState.active_by_session) s'.(ControllerState.dead_session_sweep_at_ms) →
  controller_ok s'.
Proof.
  intros H E [HL HS]. injection E as E1 E2 E3 E4 E5 E6 E7 E8 E9. destruct H. split;
    rewrite ?E1, ?E2, ?E3, ?E4, ?E5, ?E6, ?E7, ?E8, ?E9; try done.
  - intros key lane EL. by apply HL.
  - rewrite lanes_awaiting_spec. apply HS.
  - intros key lane EL. by apply (HL key).
Qed.

Lemma lanes_ok_insert lanes sweep key lane :
  lanes_ok lanes sweep → lane_ok key lane → (awaits_terminal lane = true → is_Some sweep) →
  lanes_ok (<[key := lane]> lanes) sweep.
Proof.
  intros [HL HS] Hl Ha. split; [by apply map_Forall_insert_2|].
  intros (key' & lane' & E & Ha'). apply lookup_insert_Some in E as [[_ <-]|[_ E]]; [auto|].
  apply HS. eauto.
Qed.
Lemma lanes_ok_delete lanes sweep key : lanes_ok lanes sweep → lanes_ok (delete key lanes) sweep.
Proof.
  intros [HL HS]. split; [by apply map_Forall_delete|].
  intros (key' & lane' & E%lookup_delete_Some & Ha'). apply HS. naive_solver.
Qed.
Lemma lanes_ok_sweep lanes sweep sweep' :
  lanes_ok lanes sweep → (is_Some sweep → is_Some sweep') → lanes_ok lanes sweep'.
Proof. intros [HL HS] H. split; [done|]. intros Ha. auto. Qed.
(** A change of lanes that starts no wait. *)
Definition lane_settles (lane lane' : ActiveLane) : Prop :=
  lane'.(ActiveLane.session_id) = lane.(ActiveLane.session_id)
  ∧ lane'.(ActiveLane.delivery) = lane.(ActiveLane.delivery)
  ∧ (awaits_terminal lane' = true → awaits_terminal lane = true).
Lemma lanes_ok_map lanes lanes' sweep :
  lanes_ok lanes sweep →
  (∀ key lane', lanes' !! key = Some lane' →
     ∃ lane, lanes !! key = Some lane ∧ lane_settles lane lane') →
  lanes_ok lanes' sweep.
Proof.
  intros [HL HS] H. split.
  - intros key lane' E. destruct (H _ _ E) as (lane & EL & S1 & S2 & _).
    destruct (HL _ _ EL) as [H1 H2]. split; [by rewrite S1|by rewrite S2].
  - intros (key & lane' & E & Ha). destruct (H _ _ E) as (lane & EL & _ & _ & S3).
    apply HS. eauto.
Qed.
Lemma lanes_ok_alter lanes sweep key f :
  lanes_ok lanes sweep → (∀ lane, lane_settles lane (f lane)) →
  lanes_ok (alter f key lanes) sweep.
Proof.
  intros H Hf. eapply lanes_ok_map; [done|]. intros key' lane' E.
  apply lookup_alter_Some in E as [(<- & lane & E & ->)|[_ E]]; [eauto|].
  exists lane'. split; [done|]. by split_and!.
Qed.
(** ** The operations *)
(** What may change a controller's state: the methods of [state.rs], and what the loop and the
    lanes write themselves. [Operates_aside] is any write to other fields than those the
    invariant is about. *)
Inductive operates (s : ControllerState) : ControllerState → Prop :=
| Operates_aside s' : aside s s' → operates s s'
| Operates_accept_event event now :
    (∀ params, event.(BotEvent.coalesce) = Some params →
       (params.(BotCoalesceParams.max_count) <= u32_max)%N) →
    operates s (accept_event event now s).2
| Operates_accept_config next : operates s (accept_config next s).2
| Operates_request_rotation session_id : operates s (request_rotation session_id s)
| Operates_queue_emission envelope : operates s (queue_emission envelope s)
| Operates_classify_emission envelope : operates s (classify_emission envelope s).2
| Operates_flush_ripe_buffers now : operates s (flush_ripe_buffers now s)
| Operates_observe session_id routed now :
    operates s (observe_routed_session session_id routed now s).2
| Operates_touch_session session_id now : operates s (touch_session session_id now s)
| Operates_forget session_id : operates s (forget_routed_session session_id s)
| Operates_roll_forward session_id : operates s (roll_session_forward session_id s)
| Operates_rotate_main : operates s (rotate_main_session true s)
| Operates_rotate_for_reconcile : operates s (rotate_main_for_reconcile s).2
| Operates_bump base : operates s (bump_routed_generation base s).2
| Operates_ready revision : operates s (mark_session_ready revision s)
| Operates_degraded message now : operates s (mark_session_degraded message now s)
| Operates_set_cursor session_id seq : operates s (set_cursor session_id seq s)
| Operates_roll_day now : operates s (roll_budget_day now s)
| Operates_budget_roots : operates s (budget_root_ids s).2
| Operates_dispatch now : operates s (dispatch now s).2
| Operates_requeue_front d t : retriable d → operates s (requeue_front d t s)
| Operates_requeue_lane target d t : retriable d → operates s (requeue_lane target d t s)
| Operates_retry target d now : operates s (retry_delivery target d now s).2
| Operates_rolled_forward target d now : operates s (requeue_rolled_forward target d now s)
| Operates_rekey from to : operates s (rekey_lane from to s)
| Operates_started session_id run_id now : operates s (mark_lane_started session_id run_id now s)
| Operates_attach_terminal token terminal : operates s (attach_terminal token terminal s).2
| Operates_park session_id : operates s (park_lane session_id s)
| Operates_sweep now : operates s (take_dead_session_sweep now s).2
| Operates_fail_lane session_id message :
    operates s (fail_lane_on_dead_session session_id message s).2
| Operates_resolution session_id resolution :
    operates s (set_lane_resolution session_id resolution s)
| Operates_remember recent : operates s (remember_delivery recent s)
| Operates_release_lane session_id now : operates s (release_lane session_id now s)
| Operates_release_sidecar session_id now : operates s (release_sidecar session_id now s)
| Operates_drop_lane target :
    operates s (tick_lane (s <| ControllerState.active_by_session ::= delete target |>))
| Operates_teardown :
    operates s (s <| ControllerState.pending_deliveries := [] |>
                  <| ControllerState.buffers := ∅ |>).

(** ** Every operation keeps the invariant *)
Lemma flush_buffer_ok key s : controller_ok s → controller_ok (flush_buffer key s).
Proof.
  intros H. unfold flush_buffer. destruct (_ !! key) as [buffer|] eqn:E; [|done].
  destruct (buffer.(CoalesceBuffer.events)) as [|e l]; destruct H; split; try done.
  - by apply map_Forall_delete.
  - by apply map_Forall_delete.
  - apply Forall_app. split; [done|]. by apply Forall_singleton.
Qed.
Lemma flush_ripe_buffers_ok now s : controller_ok s → controller_ok (flush_ripe_buffers now s).
Proof.
  unfold flush_ripe_buffers. generalize (filter (λ entry : string * CoalesceBuffer,
    CoalesceBuffer_is_ripe entry.2 now = true) (btree_to_list s.(ControllerState.buffers))).*1.
  intros keys. revert s. induction keys as [|key keys IH]; intros s H; [done|].
  by apply IH, flush_buffer_ok.
Qed.

(** An event joins its buffer, which is flushed when full. *)
Lemma buffer_event_ok params event now s :
  (params.(BotCoalesceParams.max_count) <= u32_max)%N →
  controller_ok s → controller_ok (buffer_event params event now s).
Proof.
  intros Hm H. unfold buffer_event. set (buffer := joined_buffer params event now s).
  assert (buffer.(CoalesceBuffer.params) = params) as Ep by done.
  assert (buffer.(CoalesceBuffer.events) ≠ []
          ∧ (N.of_nat (length buffer.(CoalesceBuffer.events)) <= u32_max)%N) as [He Hc].
  { assert (N.of_nat (length (default (opened_buffer params event now)
      (s.(ControllerState.buffers) !! params.(BotCoalesceParams.key))).(CoalesceBuffer.events))
        < u32_max)%N as Hl.
    { destruct (_ !! _) as [old|] eqn:E; [|done].
      pose proof (ok_buffers _ H _ _ E) as (_ & _ & Hb). by eapply N.lt_le_trans; apply Hb. }
    unfold buffer, joined_buffer. cbn. split; [by destruct (CoalesceBuffer.events _)|].
    rewrite length_app, Nat2N.inj_add. apply N.le_succ_l in Hl. by rewrite N.add_1_r. }
  clearbody buffer. rewrite N.mod_small by lia. destruct (_ <=? _)%N eqn:L.
  - unfold flush_buffer. cbn. rewrite lookup_insert_eq.
    destruct (buffer.(CoalesceBuffer.events)) eqn:Eb; [done|].
    destruct H; split; try done.
    + cbn. rewrite delete_insert_eq. by apply map_Forall_delete.
    + apply Forall_app. split; [done|]. by apply Forall_singleton.
  - apply N.leb_gt in L. destruct H; split; try done. apply map_Forall_insert_2; [|done].
    rewrite <-Ep. unfold buffer_ok. by rewrite Ep in *.
Qed.
Lemma accept_event_ok event now s :
  (∀ params, event.(BotEvent.coalesce) = Some params →
     (params.(BotCoalesceParams.max_count) <= u32_max)%N) →
  controller_ok s → controller_ok (accept_event event now s).2.
Proof.
  intros Ht H. unfold accept_event. destruct (validate_event event) as [|message]; [|done].
  pose proof (seen_ok_insert _ _ event.(BotEvent.id) (ok_seen_events _ H)) as Hseen. cbn.
  destruct (SeenIds_insert _ _) as [new seen]. cbn in Hseen.
  destruct new; cbn; [|by destruct H; split].
  destruct (event.(BotEvent.coalesce)) as [params|]; cbn.
  - apply buffer_event_ok; [by apply Ht|]. by destruct H; split.
  - destruct H; split; try done. apply Forall_app. split; [done|]. by apply Forall_singleton.
Qed.
Lemma classify_emission_ok envelope s :
  controller_ok s → controller_ok (classify_emission envelope s).2.
Proof.
  intros H. unfold classify_emission.
  pose proof (seen_ok_insert _ _ envelope.(EmissionEnvelope.emission_id)
    (ok_seen_emissions _ H)) as Hseen.
  destruct (SeenIds_insert _ s.(ControllerState.seen_emission_ids)) as [new seen].
  cbn in Hseen. destruct new; cbn; [|by destruct H; split].
  destruct (disposition_of _ _ _) as [|session_id invocation holder| |]; cbn;
    try by destruct H; split.
  pose proof (seen_ok_insert _ _ invocation.(WorkflowToolInvocation.invocation_id)
    (ok_handled _ H)) as Hh.
  destruct (SeenIds_insert _ _) as [new handled]. cbn in Hh. by destruct H; split.
Qed.

Lemma dispatch_from_ok now W kept rest s :
  controller_ok s → Forall retriable kept → Forall retriable rest →
  controller_ok (dispatch_from now W kept rest s).2.
Proof.
  revert W kept s. induction rest as [|d rest IH]; intros W kept s H Hk Hr.
  { by destruct H; split. }
  pose proof Hr as [Hd Hr']%Forall_cons.
  cbn [dispatch_from budget_exhausted].
  assert (controller_ok (roll_budget_day now s)) as H'.
  { unfold roll_budget_day. case_bool_decide; [done|]. by destruct H; split. }
  destruct (budget_exhausted_view _ _).
  { destruct H'; split; try done. by apply Forall_app. }
  assert (Forall retriable (kept ++ [d])) as Hk' by (by apply Forall_app; split; [|constructor]).
  generalize dependent (roll_budget_day now s). clear H. intros s' H'.
  destruct (BotDelivery_waiting d now); [by apply IH|].
  destruct (_ || _); [by apply IH|]. destruct (_ !! _) as [lane|].
  - destruct (joins _ _ _ _); [|by apply IH].
    specialize (IH W kept (s' <| ControllerState.sidecar_by_session ::=
      λ ids, {[target_of d s']} ∪ ids |>)).
    destruct (dispatch_from _ _ _ _ _). apply IH; [|done..]. by destruct H'; split.
  - specialize (IH W kept (s' <| ControllerState.active_by_session ::=
      <[target_of d s' := opened_lane d (target_of d s') now]> |>)).
    destruct (dispatch_from _ _ _ _ _). apply IH; [|done..].
    apply (controller_ok_relane s'); [done|reflexivity|].
    by apply lanes_ok_insert; [exact (controller_lanes_ok _ H')|..].
Qed.
Lemma dispatch_ok now s : controller_ok s → controller_ok (dispatch now s).2.
Proof. intros H. by apply dispatch_from_ok; [..|apply (ok_pending _ H)]. Qed.

Lemma requeue_front_ok d t s : retriable d → controller_ok s → controller_ok (requeue_front d t s).
Proof. intros Hd H. destruct H; split; try done. by constructor. Qed.
Lemma tick_lane_ok s : controller_ok s → controller_ok (tick_lane s).
Proof. by apply controller_ok_aside. Qed.
Lemma drop_lane_ok key s :
  controller_ok s → controller_ok (s <| ControllerState.active_by_session ::= delete key |>).
Proof.
  intros H. apply (controller_ok_relane s); [done|reflexivity|].
  apply lanes_ok_delete. exact (controller_lanes_ok _ H).
Qed.
Lemma requeue_lane_ok key d t s :
  retriable d → controller_ok s → controller_ok (requeue_lane key d t s).
Proof. intros Hd H. by apply tick_lane_ok, requeue_front_ok, drop_lane_ok. Qed.
Lemma rekey_lane_ok from to s : controller_ok s → controller_ok (rekey_lane from to s).
Proof.
  intros H. unfold rekey_lane. destruct (_ !! from) as [lane|] eqn:E; [|done].
  pose proof (controller_lanes_ok _ H) as HL. apply (controller_ok_relane s); [done|reflexivity|].
  apply lanes_ok_insert; [by apply lanes_ok_delete| |].
  - split; [done|]. apply (proj1 HL _ _ E).
  - intros Ha. apply (proj2 HL). eauto.
Qed.
Lemma mark_lane_started_ok key run_id now s :
  controller_ok s → controller_ok (mark_lane_started key run_id now s).
Proof.
  intros H. unfold mark_lane_started. apply tick_lane_ok.
  set (s' := s <|ControllerState.active_by_session ::= _|> <|_ ::= _|>).
  assert (controller_ok s') as H'.
  { apply (controller_ok_relane s); [done|reflexivity|].
    destruct (controller_lanes_ok _ H) as [HL _].
    split; [|by intros _; eexists]. intros key' lane' E.
    change (alter (λ lane, lane <| ActiveLane.run_id := Some run_id |>) key
      s.(ControllerState.active_by_session) !! key' = Some lane') in E.
    apply lookup_alter_Some in E as [(<- & lane & E & ->)|[_ E]]; apply (HL _ _ E). }
  unfold roll_budget_day. case_bool_decide; by eapply controller_ok_aside, H'.
Qed.
Lemma attach_terminal_ok token terminal s :
  controller_ok s → controller_ok (attach_terminal token terminal s).2.
Proof.
  intros H. unfold attach_terminal. cbn.
  set (s' := set_ControllerState_active_by_session _ _).
  assert (controller_ok s') as H'.
  { apply (controller_ok_relane s); [done|reflexivity|].
    eapply lanes_ok_map; [exact (controller_lanes_ok _ H)|].
    intros key lane' E. unfold s' in E. cbn in E.
    apply lookup_fmap_Some in E as (lane & <- & E). exists lane.
    split; [done|]. case_bool_decide; split_and!; try done.
    unfold awaits_terminal. cbn. by rewrite andb_false_r. }
  destruct (existsb _ _); [by apply tick_lane_ok|done].
Qed.
Lemma take_dead_session_sweep_ok now s :
  controller_ok s → controller_ok (take_dead_session_sweep now s).2.
Proof.
  intros H. unfold take_dead_session_sweep. destruct (match _ with Some _ => _ | None => _ end);
    [done|]. apply (controller_ok_relane s); [done|reflexivity|].
  destruct (controller_lanes_ok _ H) as [HL _]. split; [done|]. intros Ha. cbn.
  apply (lanes_awaiting_spec s) in Ha. destruct (lanes_awaiting_terminal s); [done|]. by eexists.
Qed.
Lemma fail_lane_ok key message s :
  controller_ok s → controller_ok (fail_lane_on_dead_session key message s).2.
Proof.
  intros H. unfold fail_lane_on_dead_session. destruct (_ !! key) as [lane|] eqn:E; [|done].
  destruct (lane.(ActiveLane.run_id)), (lane.(ActiveLane.terminal)); try done.
  apply tick_lane_ok, (controller_ok_relane s); [done|reflexivity|].
  pose proof (controller_lanes_ok _ H) as HL.
  apply lanes_ok_insert; [done|apply (proj1 HL _ _ E)|].
  unfold awaits_terminal. cbn. by rewrite andb_false_r.
Qed.
Lemma touch_session_ok key now s : controller_ok s → controller_ok (touch_session key now s).
Proof. by apply controller_ok_aside. Qed.
Lemma release_lane_ok key now s : controller_ok s → controller_ok (release_lane key now s).
Proof.
  intros H. unfold release_lane. apply tick_lane_ok, touch_session_ok.
  apply (drop_lane_ok key) in H.
  set (s' := s <|ControllerState.active_by_session ::= _|>) in *. clearbody s'.
  destruct (lanes_awaiting_terminal s') eqn:E; [|done].
  apply (controller_ok_relane s'); [done|reflexivity|].
  destruct (controller_lanes_ok _ H) as [HL _]. split; [done|]. intros Ha.
  by apply (lanes_awaiting_spec s') in Ha.
Qed.
Lemma remember_delivery_ok recent s :
  controller_ok s → controller_ok (remember_delivery recent s).
Proof. intros H. destruct H; split; try done. cbn. rewrite length_drop. lia. Qed.

Lemma accept_config_ok next s : controller_ok s → controller_ok (accept_config next s).2.
Proof.
  intros H. unfold accept_config. destruct (_ || _); [done|]. cbn.
  destruct (negb _); by destruct H; split.
Qed.
Lemma rotate_main_ok reset s : controller_ok s → controller_ok (rotate_main_session reset s).
Proof. intros H. destruct reset; destruct H; split; done. Qed.
Lemma roll_session_forward_ok key s :
  controller_ok s → controller_ok (roll_session_forward key s).
Proof.
  intros H. unfold roll_session_forward. case_bool_decide.
  - apply rotate_main_ok. by eapply controller_ok_aside, H.
  - by eapply controller_ok_aside, H.
Qed.
Lemma forget_routed_session_ok key s :
  controller_ok s → controller_ok (forget_routed_session key s).
Proof.
  intros H. unfold forget_routed_session.
  destruct (bot_session_kind _); by eapply controller_ok_aside, H.
Qed.

Lemma operates_ok s s' : operates s s' → controller_ok s → controller_ok s'.
Proof.
  intros O H. destruct O; try (by eapply controller_ok_aside, H).
  - by apply accept_event_ok.
  - by apply accept_config_ok.
  - unfold request_rotation. case_bool_decide; [done|]. by eapply controller_ok_aside, H.
  - by apply classify_emission_ok.
  - by apply flush_ripe_buffers_ok.
  - unfold observe_routed_session. destruct (extra_session _ _); [|done].
    by eapply controller_ok_aside, H.
  - by apply forget_routed_session_ok.
  - by apply roll_session_forward_ok.
  - by apply rotate_main_ok.
  - unfold rotate_main_for_reconcile. destruct (ControllerState.reconcile_rotated s); [done|].
    apply rotate_main_ok. by eapply controller_ok_aside, H.
  - by destruct H; split.
  - by destruct H; split.
  - unfold roll_budget_day. case_bool_decide; [done|]. by eapply controller_ok_aside, H.
  - by apply dispatch_ok.
  - by apply requeue_front_ok.
  - by apply requeue_lane_ok.
  - unfold retry_delivery. destruct (_ <=? _)%N eqn:E; [done|]. apply N.leb_gt in E.
    by apply requeue_lane_ok.
  - by apply requeue_lane_ok.
  - by apply rekey_lane_ok.
  - by apply mark_lane_started_ok.
  - by apply attach_terminal_ok.
  - apply (controller_ok_relane s); [done|reflexivity|].
    by apply lanes_ok_alter; [exact (controller_lanes_ok _ H)|].
  - by apply take_dead_session_sweep_ok.
  - by apply fail_lane_ok.
  - apply (controller_ok_relane s); [done|reflexivity|].
    by apply lanes_ok_alter; [exact (controller_lanes_ok _ H)|].
  - by apply remember_delivery_ok.
  - by apply release_lane_ok.
  - by apply tick_lane_ok, drop_lane_ok.
  - by destruct H; split.
Qed.

(** ** A new controller *)
(** What an earlier execution hands on, as far as the invariant needs it. *)
Record carry_ok (carry : BotControllerCarry) : Prop := {
  carry_recent : length carry.(BotControllerCarry.recent_deliveries) ≤ BOT_RECENT_DELIVERY_CAP;
  carry_buffers : map_Forall buffer_ok carry.(BotControllerCarry.buffers);
  carry_pending : Forall retriable carry.(BotControllerCarry.pending_deliveries);
  carry_lanes : Forall (λ lane, retriable lane.(WaitingLane.delivery))
    carry.(BotControllerCarry.waiting_lanes);
  carry_dirty : carry.(BotControllerCarry.waiting_lanes) ≠ [] →
    carry.(BotControllerCarry.config_dirty) = false →
    carry.(BotControllerCarry.session_ready) = true;
}.
Lemma resumed_lane_ok lanes lane :
  map_Forall lane_ok lanes → retriable lane.(WaitingLane.delivery) →
  map_Forall lane_ok (resume_lane lanes lane).
Proof. intros HL Hd. by apply map_Forall_insert_2. Qed.
Lemma resumed_lanes_ok lanes :
  Forall (λ lane, retriable lane.(WaitingLane.delivery)) lanes →
  map_Forall lane_ok (foldl resume_lane ∅ lanes).
Proof.
  assert (map_Forall lane_ok (∅ : gmap string ActiveLane)) as H by apply map_Forall_empty.
  revert H. generalize (∅ : gmap string ActiveLane).
  induction lanes as [|lane lanes IH]; intros m Hm HF; [done|].
  apply Forall_cons in HF as [Hd HF]. by apply IH; [apply resumed_lane_ok|].
Qed.
Lemma new_carried_ok config carry now :
  carry_ok carry →
  controller_ok (ControllerState_new {| BotControllerArgs.config := config;
                                        BotControllerArgs.carry := Some carry |} now).
Proof.
  intros [HR HB HP HL HD]. pose proof (resumed_lanes_ok _ HL) as HL'.
  split; try done; try apply seen_ok_from_ids; cbn.
  - destruct carry.(BotControllerCarry.seen_event_ids) as [|id ids];
      [apply seen_ok_from_ids|apply (seen_ok_from_ids _ (id :: ids))].
  - by intros key lane E; apply (HL' _ _ E).
  - rewrite lanes_awaiting_spec. cbn.
    destruct (BotControllerCarry.waiting_lanes carry); [|by eexists].
    by intros (key & lane & E & _).
  - by intros key lane E; apply (HL' _ _ E).
  - by destruct (BotControllerCarry.session_ready carry).
  - intros [D M%negb_false_iff]%orb_false_iff. apply HD; [|done].
    by destruct (BotControllerCarry.waiting_lanes carry).
Qed.
Lemma default_carry_ok : carry_ok BotControllerCarry_default.
Proof. split; cbn; [lia|apply map_Forall_empty|constructor|constructor|done]. Qed.
Lemma new_ok config now :
  controller_ok (ControllerState_new {| BotControllerArgs.config := config;
                                        BotControllerArgs.carry := None |} now).
Proof. apply (new_carried_ok config _ now default_carry_ok). Qed.

Lemma carry_of_ok s : controller_ok s → carry_ok (ControllerState_carry s).
Proof.
  intros H. destruct H; split; try done.
  cbn. rewrite Forall_forall. intros lane In. apply list_elem_of_omap in In as (active & In & E).
  apply elem_of_btree_values in In as (key & In).
  unfold waiting_lane in E. destruct (ActiveLane.run_id active); [|done].
  cbn in E. simplify_eq. by apply (ok_running0 key).
Qed.

(** ** Every reachable state *)
(** A controller that runs: it starts fresh, or on what an earlier execution handed on when
    it could, and its state changes by operations, in any order. *)
Inductive reachable : ControllerState → Prop :=
| Reachable_new config now :
    reachable (ControllerState_new {| BotControllerArgs.config := config;
                                      BotControllerArgs.carry := None |} now)
| Reachable_operates s s' : reachable s → operates s s' → reachable s'
| Reachable_continued s config now suggested polled :
    reachable s → can_continue_as_new suggested polled s = true →
    reachable (ControllerState_new {| BotControllerArgs.config := config;
                                      BotControllerArgs.carry := Some (ControllerState_carry s) |}
                 now).

Lemma reachable_ok s : reachable s → controller_ok s.
Proof.
  induction 1 as [config now|s s' _ IH O|s config now suggested polled _ IH _].
  - apply new_ok.
  - by eapply operates_ok.
  - by apply new_carried_ok, carry_of_ok.
Qed.
End invariant.

(** ** An example *)
Lemma running_reachable : reachable running.
Proof.
  unfold running. eapply Reachable_operates; [|apply Operates_started].
  eapply Reachable_operates; [|apply Operates_started].
  eapply Reachable_operates; [|apply Operates_dispatch].
  do 4 (eapply Reachable_operates; [|by apply Operates_accept_event]).
  eapply Reachable_operates; [|apply Operates_ready]. apply Reachable_new.
Qed.
Lemma waiting_reachable : reachable waiting.
Proof.
  unfold waiting. do 2 (eapply Reachable_operates; [|apply Operates_park]).
  apply running_reachable.
Qed.

(** * Crossing a continue-as-new

    A controller whose history has grown hands its state to a new execution
    ([ControllerState_carry], then [ControllerState_new]). Here: the successor goes on from where
    its predecessor stood. *)

Section carry.
Context `{Ext : !Externals} `{Cal : !Calendar}.
Implicit Types s : ControllerState.

(** ** Sets through ordered lists *)
Lemma btree_elements_set (S : gset string) : list_to_set (btree_elements S) = S.
Proof.
  unfold btree_elements. apply leibniz_equiv.
  rewrite (merge_sort_Permutation String.le (elements S)). apply list_to_set_elements.
Qed.

Lemma omap_same {A B} (f : A → option B) (g : A → A) (l : list A) :
  (∀ x, f (g x) = f x) → omap f (g <$> l) = omap f l.
Proof. intros E. induction l as [|x l IH]; csimpl; [done|]. by rewrite E, IH. Qed.

(** ** Lanes through their carried form *)
Definition resumed (lane : WaitingLane) : ActiveLane :=
  {| ActiveLane.delivery := lane.(WaitingLane.delivery);
     ActiveLane.session_id := lane.(WaitingLane.session_id);
     ActiveLane.run_id := Some lane.(WaitingLane.run_id);
     ActiveLane.terminal := None;
     ActiveLane.resolution := None;
     ActiveLane.started_at_ms := lane.(WaitingLane.started_at_ms);
     ActiveLane.parked := true |}.
Lemma resume_lanes_lookup lanes m key :
  NoDup (WaitingLane.session_id <$> lanes) →
  (∀ lane, lane ∈ lanes → lane.(WaitingLane.session_id) = key →
     foldl resume_lane m lanes !! key = Some (resumed lane))
  ∧ ((∀ lane, lane ∈ lanes → lane.(WaitingLane.session_id) ≠ key) →
     foldl resume_lane m lanes !! key = m !! key).
Proof.
  revert m. induction lanes as [|lane lanes IH]; intros m; [by split; [set_solver|]|].
  rewrite fmap_cons. intros [N1 N]%NoDup_cons. cbn [foldl].
  destruct (IH (resume_lane m lane) N) as [IH1 IH2]. split.
  - intros lane' [->|In]%elem_of_cons E; [|by apply IH1].
    rewrite IH2; [subst key; apply lookup_insert_eq|].
    intros lane'' In' E'. destruct N1. apply list_elem_of_fmap. exists lane''. by split; [congruence|].
  - intros Hn. rewrite IH2 by set_solver. apply lookup_insert_ne, Hn. set_solver.
Qed.

(** The sessions of the lanes handed on are distinct: they are keys. *)
Lemma waiting_sessions s :
  controller_ok s → NoDup (WaitingLane.session_id <$> waiting_lanes s).
Proof.
  intros H. unfold waiting_lanes, btree_values.
  assert (Forall (λ entry : string * ActiveLane, entry.2.(ActiveLane.session_id) = entry.1)
    (btree_to_list s.(ControllerState.active_by_session))) as HF.
  { rewrite Forall_forall. intros [key lane] In%elem_of_btree. by apply (ok_lanes _ H). }
  pose proof (btree_keys_NoDup s.(ControllerState.active_by_session)) as N. unfold btree_keys in N.
  revert HF N. generalize (btree_to_list s.(ControllerState.active_by_session)). clear H.
  intros l HF N.
  apply (sublist_NoDup _ (l.*1)); [done|]. clear N.
  induction l as [|[key lane] l IH]; [by constructor|].
  apply Forall_cons in HF as [E HF]. cbn in E |- *. unfold waiting_lane at 1.
  destruct (ActiveLane.run_id lane); cbn; [rewrite E|]; constructor; auto.
Qed.

Definition without_resolution (lane : ActiveLane) : ActiveLane :=
  lane <| ActiveLane.resolution := None |>.
(** Every lane waits, parked, for a run that has started. *)
Definition all_waiting s : Prop :=
  map_Forall (λ _ lane, is_parked lane = true ∧ is_Some lane.(ActiveLane.run_id))
    s.(ControllerState.active_by_session).
Lemma resumed_lanes s :
  controller_ok s → all_waiting s →
  foldl resume_lane ∅ (waiting_lanes s)
  = without_resolution <$> s.(ControllerState.active_by_session).
Proof.
  intros H HW. apply map_eq. intros key. rewrite lookup_fmap.
  destruct (resume_lanes_lookup (waiting_lanes s) ∅ key (waiting_sessions s H)) as [L1 L2].
  destruct (s.(ControllerState.active_by_session) !! key) as [lane|] eqn:E; cbn [fmap option_fmap].
  - destruct (HW _ _ E) as [P [run_id R]].
    pose proof (ok_lanes _ H _ _ E) as ES. cbn in ES.
    rewrite (L1 {| WaitingLane.delivery := lane.(ActiveLane.delivery);
                   WaitingLane.session_id := lane.(ActiveLane.session_id);
                   WaitingLane.run_id := run_id;
                   WaitingLane.started_at_ms := lane.(ActiveLane.started_at_ms) |}); [| |done].
    + cbn. f_equal. unfold is_parked in P. apply andb_true_iff in P as [P1 P2].
      apply is_none_true in P2. destruct lane. cbn in *. by subst.
    + unfold waiting_lanes. apply list_elem_of_omap. exists lane. split.
      * apply elem_of_btree_values. eauto.
      * unfold waiting_lane. by rewrite R.
  - rewrite L2; [done|]. intros lane In ES. unfold waiting_lanes in In.
    apply list_elem_of_omap in In as (active & In & EW).
    apply elem_of_btree_values in In as (key' & EK). unfold waiting_lane in EW.
    destruct (ActiveLane.run_id active); [|done]. cbn in EW. simplify_eq. cbn in E.
    rewrite (ok_lanes _ H _ _ EK) in E. congruence.
Qed.

(** ** The round trip *)
(** What of a controller outlives an execution, as it is. *)
Definition durable s :=
  (s.(ControllerState.config), s.(ControllerState.main_generation),
   s.(ControllerState.tools_revision), s.(ControllerState.pending_deliveries),
   (s.(ControllerState.buffers), s.(ControllerState.recent_deliveries),
    s.(ControllerState.seen_event_ids), s.(ControllerState.seen_emission_ids)),
   (s.(ControllerState.handled_invocation_ids), s.(ControllerState.emission_inbox),
    s.(ControllerState.extra_sessions), s.(ControllerState.session_cursors)),
   (s.(ControllerState.session_generations), s.(ControllerState.rotation_requests),
    s.(ControllerState.sidecar_by_session), s.(ControllerState.applied_profile_id)),
   (s.(ControllerState.applied_profile_revision), s.(ControllerState.session_ready),
    s.(ControllerState.duplicate_events), s.(ControllerState.duplicate_emissions)),
   (s.(ControllerState.run_day), s.(ControllerState.runs_today),
    s.(ControllerState.descendants_today), s.(ControllerState.budget_roots)),
   (s.(ControllerState.reconcile_attempts), s.(ControllerState.reconcile_rotated))).
Definition successor s (now : Z) : ControllerState :=
  ControllerState_new {| BotControllerArgs.config := s.(ControllerState.config);
                         BotControllerArgs.carry := Some (ControllerState_carry s) |} now.

Lemma can_continue_spec suggested polled s :
  can_continue_as_new suggested polled s = true →
  s.(ControllerState.emission_inbox) = [] ∧ s.(ControllerState.pending_invocations) = []
  ∧ map_Forall (λ _ lane, is_parked lane = true) s.(ControllerState.active_by_session)
  ∧ s.(ControllerState.sidecar_by_session) = ∅
  ∧ polled = size s.(ControllerState.active_by_session).
Proof.
  unfold can_continue_as_new. rewrite !andb_true_iff, !bool_decide_eq_true, Nat.eqb_eq.
  intros [[[[[[E1 E2] E3] E4] E5] _] _]. split_and!; try done.
  - by destruct (ControllerState.pending_invocations s).
  - intros key lane E. rewrite forallb_forall in E3. apply E3, list_elem_of_In.
    apply elem_of_btree_values. eauto.
Qed.

(** C21. When a controller continues as new, its successor has its deliveries, buffers, seen ids,
    sessions, budget and main session as they were, and waits for the same runs: its lanes are
    the predecessor's, less any resolution of a run still going. It routes
    deliveries to the same sessions, would hand on the same lanes and archive the same events. It is
    stated for a controller whose lanes have a run, which has seen an event, and whose main session
    has a generation of one or more. *)
Theorem continue_as_new_keeps_the_state suggested polled s now :
  controller_ok s →
  can_continue_as_new suggested polled s = true →
  map_Forall (λ _ lane, is_Some lane.(ActiveLane.run_id)) s.(ControllerState.active_by_session) →
  (1 <= s.(ControllerState.main_generation))%N →
  s.(ControllerState.seen_event_ids).(SeenIds.order) ≠ [] →
  durable (successor s now) = durable s
  ∧ (successor s now).(ControllerState.active_by_session)
    = without_resolution <$> s.(ControllerState.active_by_session)
  ∧ (∀ d, target_of d (successor s now) = target_of d s)
  ∧ waiting_lanes (successor s now) = waiting_lanes s
  ∧ teardown_event_ids (successor s now) = teardown_event_ids s.
Proof.
  intros H (EI & EP & HP & ES & _)%can_continue_spec HR HG HS.
  assert (all_waiting s) as HW by (intros key lane E; by split; [apply (HP _ _ E)|apply (HR _ _ E)]).
  pose proof (resumed_lanes s H HW) as HL.
  assert ((successor s now).(ControllerState.active_by_session)
    = without_resolution <$> s.(ControllerState.active_by_session)) as EA by exact HL.
  assert ((successor s now).(ControllerState.main_generation)
    = s.(ControllerState.main_generation)) as EG by by apply N.max_l.
  split_and!; [|done| | |].
  - assert ((successor s now).(ControllerState.seen_event_ids)
      = s.(ControllerState.seen_event_ids)) as E1.
    { rewrite <-(SeenIds_from_tail _ _ (ok_seen_events _ H)).
      unfold successor, ControllerState_new. cbn. unfold SeenIds_tail.
      by destruct (SeenIds.order (ControllerState.seen_event_ids s)). }
    pose proof (SeenIds_from_tail _ _ (ok_seen_emissions _ H) : (successor s now)
      .(ControllerState.seen_emission_ids) = _) as E2.
    pose proof (SeenIds_from_tail _ _ (ok_handled _ H) : (successor s now)
      .(ControllerState.handled_invocation_ids) = _) as E3.
    pose proof (btree_elements_set _ : (successor s now).(ControllerState.rotation_requests)
      = s.(ControllerState.rotation_requests)) as E4.
    pose proof (btree_elements_set _ : (successor s now).(ControllerState.budget_roots)
      = s.(ControllerState.budget_roots)) as E5.
    unfold durable. by rewrite EG, E1, E2, E3, E4, E5, EI, ES.
  - intros d. unfold target_of, main_session_id, resolve_routed_session_id, routed_generation.
    by rewrite EG.
  - unfold waiting_lanes. rewrite EA, btree_values_fmap. apply omap_same. by intros lane.
  - unfold teardown_event_ids. rewrite EA, btree_values_fmap, list_fmap_bind. done.
Qed.
End carry.

Lemma continue_as_new_keeps_the_state_witness :
  can_continue_as_new true 2 waiting = true
  ∧ waiting_lanes (successor waiting (noon + 1000)) = waiting_lanes waiting
  ∧ length (waiting_lanes waiting) = 2
  ∧ teardown_event_ids (successor waiting (noon + 1000)) = ["m2"; "k2"; "m1"; "k1"].
Proof.
  pose proof (continue_as_new_keeps_the_state true 2 waiting (noon + 1000)
    (reachable_ok _ waiting_reachable)) as H.
  destruct H as (_ & _ & _ & E & T).
  - vm_compute. reflexivity.
  - apply (bool_decide_unpack _). vm_compute. exact I.
  - vm_compute. discriminate.
  - vm_compute. discriminate.
  - split; [vm_compute; reflexivity|]. split; [exact E|]. split; [vm_compute; reflexivity|].
    rewrite T. vm_compute. reflexivity.
Defined.
