(* ===== verification/BotClock.v ===== *)
(** * When a controller wakes

    A parked loop sets one timer, for [wake_deadline]. Here: nothing the loop does by the clock
    falls due before it, so no other timer is needed; and the pauses between attempts. *)
From Stdlib Require Import Ascii ZArith.
From S2P Require Import Prelude Ids Text Types Externals Bindings BotState BotController.
From S2P Require Import BotExample BotLaws.
Set Primitive Projections.

(** ** The smallest *)
Lemma foldl_least {A} (key : A → Z) l x :
  let m := foldl (λ least y, if (key y <? key least)%Z then y else least) x l in
  m ∈ x :: l ∧ (∀ y, y ∈ x :: l → (key m <= key y)%Z).
Proof.
  revert x. induction l as [|z l IH]; intros x; simpl.
  { split; [set_solver|]. intros y Hy. assert (y = x) as -> by set_solver. lia. }
  destruct (IH (if (key z <? key x)%Z then z else x)) as [H1 H2]. simpl in *. split.
  - destruct (_ <? _)%Z; set_solver.
  - pose proof (H2 _ (list_elem_of_here _ _)) as Hl.
    intros y [->|[->|Hy]%elem_of_cons]%elem_of_cons; [| |apply H2; by right];
      destruct (key z <? key x)%Z eqn:E; [apply Z.ltb_lt in E|apply Z.ltb_ge in E|
        apply Z.ltb_lt in E|apply Z.ltb_ge in E]; lia.
Qed.
Lemma minimum_of_least l t : t ∈ l → ∃ m, minimum_of l = Some m ∧ (m <= t)%Z.
Proof.
  intros H. destruct l as [|x l]; [set_solver|]. unfold minimum_of, min_by. eexists.
  split; [done|]. exact (proj2 (foldl_least id l x) t H).
Qed.
Lemma minimum_of_elem l m : minimum_of l = Some m → m ∈ l.
Proof.
  destruct l as [|x l]; [done|]. unfold minimum_of, min_by. intros E. simplify_eq.
  exact (proj1 (foldl_least id l x)).
Qed.

Section clock.
Context `{Ext : !Externals} `{Cal : !Calendar}.
Implicit Types s : ControllerState.

(** ** Due *)
(** What the loop does because of the instant: the buffer it flushes, the session it closes, the
    delivery it starts, and the three rounds it makes again. *)
Inductive Work : Type :=
| Flush (key : string)
| CloseIdle (session_id : string)
| RetryRotation
| SweepDeadSessions
| Reconcile
| RefreshDescendants
| Start (delivery : BotDelivery).
(** A delivery a dispatch may start: the bot may run, and no delivery before it, no lane and no
    teardown holds its session. *)
Definition may_start (t : Z) s d : Prop :=
  negb s.(ControllerState.config).(BotControllerConfig.enabled) || close_requested s = false ∧
  budget_exhausted_view t s = false ∧
  ∃ before after, s.(ControllerState.pending_deliveries) = before ++ d :: after ∧
    any_runnable t s (blocked_targets t s ∅ before) [d] = true.
Inductive due (t : Z) s : Work → Prop :=
| Due_flush key buffer :
    s.(ControllerState.buffers) !! key = Some buffer →
    CoalesceBuffer_is_ripe buffer t = true → due t s (Flush key)
| Due_close session_id :
    session_id ∈ expired_sessions t s → due t s (CloseIdle session_id)
| Due_rotation at_ms :
    s.(ControllerState.rotation_retry_at_ms) = Some at_ms → (at_ms <= t)%Z → due t s RetryRotation
| Due_sweep at_ms :
    s.(ControllerState.dead_session_sweep_at_ms) = Some at_ms → (at_ms <= t)%Z →
    due t s SweepDeadSessions
| Due_reconcile : reconcile_due t s = true → due t s Reconcile
| Due_refresh : descendants_refresh_due t s = true → due t s RefreshDescendants
| Due_start d : may_start t s d → due t s (Start d).

Lemma any_runnable_split now s W l :
  any_runnable now s W l = true ↔
  ∃ before d after, l = before ++ d :: after ∧
    any_runnable now s (blocked_targets now s W before) [d] = true.
Proof.
  split.
  - revert W. induction l as [|d l IH]; intros W; [done|]. change (d :: l) with ([d] ++ l).
    rewrite any_runnable_app. intros [H|H]%orb_true_iff; [by exists [], d, l|].
    apply IH in H as (before & d' & after & -> & H). by exists (d :: before), d', after.
  - intros (before & d & after & -> & H). rewrite any_runnable_app.
    change (d :: after) with ([d] ++ after). by rewrite any_runnable_app, H, orb_true_r.
Qed.
(** The condition the loop parks on: that some delivery may start. *)
Lemma dispatchable_may_start t s : dispatchable t s = true ↔ ∃ d, may_start t s d.
Proof.
  unfold dispatchable, may_start. destruct (negb _ || _); cbn [orb]; [naive_solver|].
  case_bool_decide as Hp; cbn [orb].
  { rewrite Hp. split; [done|]. by intros (d & _ & _ & [] & after & ? & _). }
  destruct (budget_exhausted_view t s); [naive_solver|]. rewrite any_runnable_split. naive_solver.
Qed.

(** Before the deadline, if there is one. *)
Definition asleep (now t : Z) s : Prop :=
  (now <= t)%Z ∧ ∀ deadline, wake_deadline now s = Some deadline → (t < deadline)%Z.
Lemma asleep_before now t s at_ms :
  asleep now t s → Some at_ms ∈ deadlines now s → (t < at_ms)%Z.
Proof.
  intros [_ H] In. destruct (minimum_of_least (omap id (deadlines now s)) at_ms) as (m & E & L).
  - apply list_elem_of_omap. by exists (Some at_ms).
  - specialize (H m E). lia.
Qed.
Lemma asleep_before_min now t s l at_ms :
  asleep now t s → minimum_of l ∈ deadlines now s → at_ms ∈ l → (t < at_ms)%Z.
Proof.
  intros H In Hl. destruct (minimum_of_least l at_ms Hl) as (m & E & L). rewrite E in In.
  pose proof (asleep_before _ _ _ _ H In). lia.
Qed.

Lemma deadline_deliveries now s :
  minimum_of (filter (λ t, (now < t)%Z)
    (omap BotDelivery.not_before_ms s.(ControllerState.pending_deliveries))) ∈ deadlines now s.
Proof. unfold deadlines. set_solver. Qed.
Lemma deadline_buffers now s :
  minimum_of (CoalesceBuffer_flush_at_ms <$> btree_values s.(ControllerState.buffers))
    ∈ deadlines now s.
Proof. unfold deadlines, next_buffer_deadline. set_solver. Qed.
Lemma deadline_sessions now s :
  minimum_of (omap (λ session, session_expiry_ms session s) (free_sessions s)) ∈ deadlines now s.
Proof. unfold deadlines, next_idle_close_deadline. set_solver. Qed.

(** ** The budget's day *)
Lemma wrap_i64_small z : (i64_min <= z <= i64_max)%Z → wrap_i64 z = z.
Proof.
  unfold wrap_i64, i64_min, i64_max. intros H. rewrite Z.mod_small; lia.
Qed.
(** Times within 2^62 ms of the epoch; chrono's years end long before. *)
Definition sane (t : Z) : Prop := (0 <= t < 2 ^ 62)%Z.
Lemma add_i64_sane t u : sane t → sane u → add_i64 t u = (t + u)%Z.
Proof. unfold sane. intros. apply wrap_i64_small. unfold i64_min, i64_max. lia. Qed.
Lemma next_day now :
  sane now → (now mod MS_PER_DAY <= MS_PER_DAY - 1000)%Z →
  add_i64 now (ms_until_next_utc_day now) = ((now / MS_PER_DAY + 1) * MS_PER_DAY)%Z.
Proof.
  unfold sane, ms_until_next_utc_day, sub_i64, add_i64, MS_PER_DAY. intros Hs Hm.
  pose proof (Z.div_mod now 86400000 ltac:(lia)) as E.
  pose proof (Z.mod_pos_bound now 86400000 ltac:(lia)) as B. cbn zeta.
  rewrite (wrap_i64_small ((now / 86400000 + 1) * 86400000))
    by (unfold i64_min, i64_max; lia).
  rewrite (wrap_i64_small (_ - now)) by (unfold i64_min, i64_max; lia).
  rewrite Z.max_l by lia. rewrite wrap_i64_small by (unfold i64_min, i64_max; lia). lia.
Qed.
Lemma last_second now :
  sane now → (MS_PER_DAY - 1000 < now mod MS_PER_DAY)%Z →
  add_i64 now (ms_until_next_utc_day now) = (now + 1000)%Z.
Proof.
  unfold sane, ms_until_next_utc_day, sub_i64, add_i64, MS_PER_DAY. intros Hs Hm.
  pose proof (Z.div_mod now 86400000 ltac:(lia)) as E.
  pose proof (Z.mod_pos_bound now 86400000 ltac:(lia)) as B. cbn zeta.
  rewrite (wrap_i64_small ((now / 86400000 + 1) * 86400000))
    by (unfold i64_min, i64_max; lia).
  rewrite (wrap_i64_small (_ - now)) by (unfold i64_min, i64_max; lia).
  rewrite Z.max_r by lia. apply wrap_i64_small. unfold i64_min, i64_max. lia.
Qed.
Lemma utc_day_same t u : (t / MS_PER_DAY = u / MS_PER_DAY)%Z → utc_day t = utc_day u.
Proof. intros E. unfold utc_day. by rewrite (same_day t u E). Qed.

Lemma deadline_budget now s :
  sane now → (now mod MS_PER_DAY <= MS_PER_DAY - 1000)%Z →
  s.(ControllerState.pending_deliveries) ≠ [] → budget_exhausted_view now s = true →
  Some ((now / MS_PER_DAY + 1) * MS_PER_DAY)%Z ∈ deadlines now s.
Proof.
  intros Hs Hm Hp Hb. rewrite <-next_day by done. unfold deadlines.
  assert (is_some s.(ControllerState.config).(BotControllerConfig.runs_per_day) = true) as Hl.
  { unfold budget_exhausted_view in Hb. by destruct (BotControllerConfig.runs_per_day _). }
  rewrite (bool_decide_false _ Hp), Hl, Hb. set_solver.
Qed.

(** Between two instants no delivery stops waiting. *)
Lemma waiting_same now t s d :
  asleep now t s → d ∈ s.(ControllerState.pending_deliveries) →
  BotDelivery_waiting d t = BotDelivery_waiting d now.
Proof.
  intros H Hd. unfold BotDelivery_waiting.
  destruct (d.(BotDelivery.not_before_ms)) as [at_ms|] eqn:E; [|done].
  destruct (now <? at_ms)%Z eqn:L; [apply Z.ltb_lt in L|apply Z.ltb_ge in L].
  - apply Z.ltb_lt. eapply asleep_before_min; [done|apply deadline_deliveries|].
    apply list_elem_of_filter. split; [done|]. apply list_elem_of_omap. eauto.
  - apply Z.ltb_ge. destruct H. lia.
Qed.
Lemma blocked_same now t s W l :
  (∀ d, d ∈ l → BotDelivery_waiting d t = BotDelivery_waiting d now) →
  blocked_targets t s W l = blocked_targets now s W l.
Proof.
  revert W. induction l as [|d l IH]; intros W H; [done|]. unfold blocked_targets in *. cbn [foldl].
  rewrite H by set_solver. apply IH. set_solver.
Qed.
Lemma budget_asleep now t s :
  asleep now t s → sane now → (now mod MS_PER_DAY <= MS_PER_DAY - 1000)%Z →
  s.(ControllerState.pending_deliveries) ≠ [] →
  budget_exhausted_view t s = false → budget_exhausted_view now s = false.
Proof.
  intros H Hs Hm Hp Bt. destruct (budget_exhausted_view now s) eqn:Bn; [|done]. exfalso.
  pose proof (asleep_before _ _ _ _ H (deadline_budget _ _ Hs Hm Hp Bn)) as Hd.
  assert (t / MS_PER_DAY = now / MS_PER_DAY)%Z as E.
  { destruct H as [Hle _]. unfold MS_PER_DAY in *.
    pose proof (Z.div_le_mono now t 86400000 ltac:(lia) Hle).
    pose proof (Z.div_lt_upper_bound t 86400000 (now / 86400000 + 1) ltac:(lia) ltac:(lia)).
    lia. }
  unfold budget_exhausted_view in Bt, Bn. rewrite (utc_day_same _ _ E) in Bt.
  destruct (BotControllerConfig.runs_per_day _); [|done]. case_bool_decide; congruence.
Qed.
(** A delivery the budget holds back in the last second of its day waits up to a second more. *)
Definition held_overnight (now t : Z) s : Prop :=
  budget_exhausted_view now s = true ∧ (MS_PER_DAY - 1000 < now mod MS_PER_DAY)%Z ∧
  (t < now + 1000)%Z.
Lemma start_asleep now t s d :
  asleep now t s → sane now → may_start t s d → may_start now s d ∨ held_overnight now t s.
Proof.
  intros H Hs (He & Bt & before & after & Hq & Hr).
  assert (s.(ControllerState.pending_deliveries) ≠ []) as Hp by (rewrite Hq; by destruct before).
  destruct (budget_exhausted_view now s) eqn:Bn.
  - right. destruct (Z.le_gt_cases (now mod MS_PER_DAY) (MS_PER_DAY - 1000)) as [Hm|Hm].
    { rewrite (budget_asleep _ _ _ H Hs Hm Hp Bt) in Bn. done. }
    split; [done|]. split; [lia|].
    rewrite <- (last_second now) by done. apply (asleep_before _ _ _ _ H). unfold deadlines.
    assert (is_some s.(ControllerState.config).(BotControllerConfig.runs_per_day) = true) as Hl
      by (unfold budget_exhausted_view in Bn; by destruct (BotControllerConfig.runs_per_day _)).
    rewrite (bool_decide_false _ Hp), Hl, Bn. set_solver.
  - left. split; [done|]. split; [done|]. exists before, after. split; [done|].
    assert (∀ d', d' ∈ before ++ d :: after → BotDelivery_waiting d' t = BotDelivery_waiting d' now)
      as Hw by (rewrite <- Hq; intros ?; by apply waiting_same).
    rewrite <- (blocked_same now t) by set_solver.
    cbn [any_runnable] in *. rewrite <- Hw by set_solver. done.
Qed.
Lemma refresh_asleep now t s :
  asleep now t s → sane now → sane t → sane s.(ControllerState.descendants_refreshed_at_ms) →
  descendants_refresh_due t s = true → descendants_refresh_due now s = true.
Proof.
  intros H Hn Ht Hr. unfold descendants_refresh_due.
  destruct (is_none _) eqn:Hl; [done|]. destruct (negb _); [done|].
  destruct (negb _) eqn:Ha; [|done]. cbn [andb]. intros L%Z.leb_le. exfalso.
  assert (t < s.(ControllerState.descendants_refreshed_at_ms)
              + BOT_DESCENDANT_REFRESH_INTERVAL)%Z as Hd.
  { rewrite <-add_i64_sane; [|done|unfold sane, BOT_DESCENDANT_REFRESH_INTERVAL; lia].
    apply (asleep_before _ _ _ _ H). unfold deadlines, is_some. rewrite Hl, Ha. set_solver. }
  unfold sub_i64 in L. unfold sane in *.
  rewrite wrap_i64_small in L by (unfold i64_min, i64_max; lia). lia.
Qed.

(** C20. A loop that parks until [wake_deadline] oversleeps nothing, with one exception. Whatever
    falls due by the clock before that instant - this buffer to flush, this session to close, this
    delivery to start, a rotation, a sweep, a reconcile or a refresh - was already due when the loop
    parked. The exception is a delivery that the day's budget holds back where the loop parks in the
    last second of that day: it may have to wait for less than a second more. Clocks are taken to lie
    within 2^62 milliseconds after the epoch. *)
Theorem nothing_is_due_before_the_deadline now t s work :
  asleep now t s → sane now → sane t → sane s.(ControllerState.descendants_refreshed_at_ms) →
  due t s work →
  due now s work ∨ (∃ d, work = Start d) ∧ held_overnight now t s.
Proof.
  intros H Hn Ht Hr [key buffer E R|id C|at_ms E L|at_ms E L|R|R|d D].
  - apply Z.leb_le in R. exfalso. apply (Z.lt_irrefl t).
    eapply Z.lt_le_trans; [|exact R].
    eapply asleep_before_min; [done|apply deadline_buffers|].
    apply list_elem_of_fmap_2, elem_of_btree_values. eauto.
  - exfalso. unfold expired_sessions in C. apply list_elem_of_fmap in C as (session & -> & [C In]%list_elem_of_filter).
    unfold is_expired in C.
    destruct (session_expiry_ms session s) as [at_ms|] eqn:E; [|done].
    apply Z.leb_le in C. apply (Z.lt_irrefl t). eapply Z.lt_le_trans; [|exact C].
    eapply asleep_before_min; [done|apply deadline_sessions|].
    apply list_elem_of_omap. eauto.
  - exfalso. assert (t < at_ms)%Z; [|lia]. apply (asleep_before _ _ _ _ H).
    unfold deadlines. rewrite E. set_solver.
  - exfalso. assert (t < at_ms)%Z; [|lia]. apply (asleep_before _ _ _ _ H).
    unfold deadlines. rewrite E. set_solver.
  - left. apply Due_reconcile. unfold reconcile_due in *.
    apply andb_true_iff in R as [R1 R2]. rewrite R1.
    destruct (ControllerState.reconcile_retry_at_ms s) as [at_ms|] eqn:E; [|done]. exfalso.
    apply Z.leb_le in R2. assert (t < at_ms)%Z; [|lia]. apply (asleep_before _ _ _ _ H).
    unfold deadlines. rewrite R1, E. set_solver.
  - left. by eapply Due_refresh, refresh_asleep.
  - destruct (start_asleep now t s d) as [?|?]; [done..|by left; constructor|right; eauto].
Qed.

(** ** Pauses *)
(** The pause before an attempt grows with the failures before it, from five seconds and
    never past the cap. *)
Theorem backoff_is_bounded attempts attempts' cap :
  (BOT_BUSY_RETRY_DELAY <= cap)%Z → (attempts <= attempts')%N →
  (BOT_BUSY_RETRY_DELAY <= backoff_ms attempts cap <= backoff_ms attempts' cap)%Z
  ∧ (backoff_ms attempts' cap <= cap)%Z.
Proof.
  intros Hc Ha. unfold backoff_ms. cbn zeta. rewrite !Z.shiftl_mul_pow2 by lia.
  assert (2 ^ Z.of_N (N.min (attempts - 1) 20) <= 2 ^ Z.of_N (N.min (attempts' - 1) 20))%Z
    by (apply Z.pow_le_mono_r; lia).
  assert (0 < 2 ^ Z.of_N (N.min (attempts - 1) 20))%Z by (apply Z.pow_pos_nonneg; lia).
  unfold BOT_BUSY_RETRY_DELAY in *. lia.
Qed.
End clock.

Lemma nothing_is_due_before_the_deadline_witness :
  let first := BotDelivery_single (plain_event "m1" 1) in
  wake_deadline noon buffering = Some (noon + 1000)%Z
  ∧ next_buffer_deadline buffering = Some (noon + 1000)%Z
  ∧ due (noon + 500) queued (Start first)
  ∧ (due noon queued (Start first)
     ∨ (∃ d, Start first = Start d) ∧ held_overnight noon (noon + 500) queued).
Proof.
  intros first.
  assert (due (noon + 500) queued (Start first)) as Hd.
  { constructor. split; [vm_compute; reflexivity|]. split; [vm_compute; reflexivity|].
    exists [], (tail queued.(ControllerState.pending_deliveries)). split; vm_compute; reflexivity. }
  assert (sane noon ∧ sane (noon + 500)) as [Hn Ht] by (split; split; vm_compute; done).
  split; [vm_compute; reflexivity|]. split; [vm_compute; reflexivity|].
  split; [exact Hd|].
  apply nothing_is_due_before_the_deadline; [|exact Hn|exact Ht|split; vm_compute; done|exact Hd].
  split; [vm_compute; discriminate|]. intros deadline E. vm_compute in E.
  first [discriminate E|injection E as <-; vm_compute; reflexivity].
Defined.
Lemma backoff_is_bounded_witness :
  backoff_ms 1 BOT_START_RETRY_MAX_DELAY = 5000%Z
  ∧ backoff_ms 3 BOT_START_RETRY_MAX_DELAY = 20000%Z
  ∧ (backoff_ms 9 BOT_START_RETRY_MAX_DELAY <= BOT_START_RETRY_MAX_DELAY)%Z.
Proof.
  split; [reflexivity|]. split; [reflexivity|].
  refine (proj2 (backoff_is_bounded 3 9 BOT_START_RETRY_MAX_DELAY _ _)); vm_compute; discriminate.
Defined.
