(* ===== verification/BotSessions.v ===== *)
(** * The sessions of a bot

    A session id carries its generation: [-g2] and on after the base. Here: base and generation
    are read back, a session that is closed is not used again, and where this goes wrong: the
    sessions of two bots share names, a lane moves over another, and a delivery beside a run is
    not archived when the bot closes. *)
From Stdlib Require Import Ascii ZArith.
From S2P Require Import Prelude Ids Text Types Externals Bindings BotState BotController.
From S2P Require Import BotExample BotLaws.
Set Primitive Projections.

(** ** Reversed text *)
Lemma rev_app_chars s t : chars (String.rev_app s t) = rev (chars s) ++ chars t.
Proof.
  revert t. induction s as [|c s IH]; intros t; [done|].
  change (chars (String.rev_app s (String c t)) = rev (c :: chars s) ++ chars t).
  rewrite IH. cbn [rev]. by rewrite <-app_assoc.
Qed.
Lemma chars_rev s : chars (String.rev s) = rev (chars s).
Proof. unfold String.rev. rewrite rev_app_chars. apply app_nil_r. Qed.
Lemma chars_inj s t : chars s = chars t → s = t.
Proof.
  intros E. rewrite <-(String.string_of_list_ascii_of_string s),
    <-(String.string_of_list_ascii_of_string t). unfold chars in E. by rewrite E.
Qed.
Lemma string_rev_app s t : String.rev (s +:+ t) = String.rev t +:+ String.rev s.
Proof. apply chars_inj. by rewrite chars_app, !chars_rev, chars_app, rev_app_distr. Qed.
Lemma string_rev_involutive s : String.rev (String.rev s) = s.
Proof. apply chars_inj. by rewrite !chars_rev, rev_involutive. Qed.

(** ** The last generation mark *)
Lemma split_once_first s t :
  Forall (λ c, c ≠ "g"%char) (chars s) → split_once "g-" (s +:+ "g-" +:+ t) = Some (s, t).
Proof.
  induction s as [|c s IH]; intros F; [done|].
  apply Forall_cons in F as [Hc F]. specialize (IH F).
  change (split_once "g-" (String c (s +:+ "g-" +:+ t)) = Some (String c s, t)).
  cbn [split_once strip_prefix]. destruct (Ascii.eqb "g" c) eqn:E.
  { apply Ascii.eqb_eq in E. by subst. }
  by rewrite IH.
Qed.
Lemma rsplit_once_last base digits :
  Forall (λ c, c ≠ "g"%char) (chars digits) →
  rsplit_once "-g" (base +:+ "-g" +:+ digits) = Some (base, digits).
Proof.
  intros F. unfold rsplit_once. change (String.rev "-g") with "g-".
  rewrite !string_rev_app. change (String.rev "-g") with "g-".
  rewrite string_app_assoc, split_once_first.
  - by rewrite !string_rev_involutive.
  - rewrite chars_rev. by apply Forall_rev.
Qed.
Lemma digits_no_mark l :
  forallb is_ascii_digit l = true → Forall (λ c, c ≠ "g"%char) l.
Proof.
  intros H. rewrite forallb_forall in H. rewrite Forall_forall.
  intros c In%list_elem_of_In ->. by apply H in In.
Qed.
Lemma generation_digits n :
  (n <= u64_max)%N → u64_to_string n ≠ "" ∧ all_chars is_ascii_digit (u64_to_string n) = true
    ∧ Forall (λ c, c ≠ "g"%char) (chars (u64_to_string n)).
Proof.
  intros Hn. destruct (u64_to_string_spec n Hn) as (c & l & Hs & _ & Hd & _).
  unfold all_chars. rewrite Hs. split_and!; [|done|by apply digits_no_mark].
  intros E. rewrite E in Hs. done.
Qed.
Lemma app_inj_l s t t' : s +:+ t = s +:+ t' → t = t'.
Proof. intros E. apply (f_equal chars) in E. rewrite !chars_app in E. apply chars_inj.
  by apply app_inv_head in E. Qed.

(** ** Generations *)
(** A base that does not itself read as a generation of another. *)
Definition plain_base (base : string) : Prop := routed_session_base base = base.

Lemma generation_id_inj base g g' :
  (1 <= g <= u64_max)%N → (1 <= g' <= u64_max)%N →
  routed_session_generation_id base g = routed_session_generation_id base g' → g = g'.
Proof.
  unfold routed_session_generation_id. intros Hg Hg'.
  assert (∀ n, base ≠ base +:+ "-g" +:+ u64_to_string n) as Hne.
  { intros n E. apply (f_equal chars) in E. rewrite !chars_app in E.
    apply (f_equal length) in E. rewrite !length_app in E. simpl in E. lia. }
  destruct (g <=? 1)%N eqn:E1, (g' <=? 1)%N eqn:E2; rewrite ?N.leb_le, ?N.leb_gt in *; [lia|..].
  - intros E. by apply Hne in E.
  - intros E. symmetry in E. by apply Hne in E.
  - intros E%app_inj_l%app_inj_l. apply (f_equal parse_u64) in E.
    rewrite !parse_u64_to_string in E by lia. by simplify_eq.
Qed.
Lemma base_of_generation base g :
  (g <= u64_max)%N → (1 < g)%N ∨ plain_base base →
  routed_session_base (routed_session_generation_id base g) = base.
Proof.
  intros Hg Hb. unfold routed_session_generation_id. destruct (g <=? 1)%N eqn:E.
  - apply N.leb_le in E. destruct Hb as [|Hb]; [lia|exact Hb].
  - destruct (generation_digits g Hg) as (Hne & Hd & Hn). unfold routed_session_base.
    rewrite rsplit_once_last by done. by rewrite bool_decide_false, Hd.
Qed.

(** A session id of a routed base and its generation determine each other: the base is read
    back from any generation's id, and two generations have different ids. *)
Theorem routed_session_round_trip base g g' :
  (1 <= g <= u64_max)%N → (1 <= g' <= u64_max)%N → plain_base base →
  routed_session_base (routed_session_generation_id base g) = base
  ∧ (routed_session_generation_id base g = routed_session_generation_id base g' ↔ g = g').
Proof.
  intros Hg Hg' Hb. split; [apply base_of_generation; [lia|by right]|].
  split; [by apply generation_id_inj|by intros ->].
Qed.

(** ** Leaving a session behind *)
Section sessions.
Context `{Ext : !Externals} `{Cal : !Calendar}.
Implicit Types s : ControllerState.

Definition tracked (session_id : string) s : Prop :=
  session_id ∈ (ControlledSession.session_id <$> s.(ControllerState.extra_sessions)).
Lemma retained_not_tracked session_id s : ¬ tracked session_id (retain_other_sessions session_id s).
Proof.
  unfold tracked, retain_other_sessions. cbn. intros (session & E & In)%list_elem_of_fmap.
  apply list_elem_of_filter in In as [In _]. unfold is_session in In.
  by rewrite bool_decide_eq_false in In.
Qed.
Lemma bumped_is_fresh base s g :
  (routed_generation base s < u32_max)%N → (1 <= g <= routed_generation base s)%N →
  resolve_routed_session_id base (bump_routed_generation base s).2
    ≠ routed_session_generation_id base g.
Proof.
  intros Hs Hg E. unfold resolve_routed_session_id in E.
  assert (routed_generation base (bump_routed_generation base s).2
    = routed_generation base s + 1)%N as Eb.
  { unfold bump_routed_generation, routed_generation at 1. cbn. rewrite lookup_insert_eq. cbn.
    unfold wrapping_add_u32. apply N.mod_small. lia. }
  rewrite Eb in E. unfold u32_max in *. apply generation_id_inj in E; unfold u64_max; lia.
Qed.

(** A routed session that closes, or that has stopped working, is left for good: it is
    tracked no more, its place in its log is forgotten, and its base resolves to a generation
    that was never used before. Only a per-event base starts over after a close, having no
    entry to keep. *)
Theorem session_left_behind_is_not_reused session_id s g :
  let base := routed_session_base session_id in
  (routed_generation base s < u32_max)%N → (1 <= g <= routed_generation base s)%N →
  (bot_session_kind base ≠ BotSessionKind.PerEvent →
   let s' := forget_routed_session session_id s in
   ¬ tracked session_id s' ∧ s'.(ControllerState.session_cursors) !! session_id = None
   ∧ resolve_routed_session_id base s' ≠ routed_session_generation_id base g)
  ∧ (session_id ≠ main_session_id s →
     let s' := roll_session_forward session_id s in
     ¬ tracked session_id s' ∧ s'.(ControllerState.session_cursors) !! session_id = None
     ∧ resolve_routed_session_id base s' ≠ routed_session_generation_id base g
     ∧ session_id ∈ s'.(ControllerState.budget_roots)).
Proof.
  cbn zeta. intros Hs Hg. split; intros Hk.
  - set (s0 := retain_other_sessions session_id s
      <| ControllerState.session_cursors ::= delete session_id |>).
    assert (forget_routed_session session_id s
      = (bump_routed_generation (routed_session_base session_id) s0).2) as ->.
    { unfold forget_routed_session. by destruct (bot_session_kind _). }
    split_and!; [exact (retained_not_tracked session_id s)| |by apply bumped_is_fresh].
    cbn. apply lookup_delete_eq.
  - unfold roll_session_forward. rewrite bool_decide_false by done.
    split_and!; [|cbn; apply lookup_delete_eq|by apply bumped_is_fresh|cbn; set_solver].
    apply retained_not_tracked.
Qed.
End sessions.

(** ** Where sessions get mixed up *)
(** The main session of the bot [support] after a rotation is the first main session of the bot
    [support-g2], and [support] takes any session of a bot such as [support-gold] for its own. *)
Lemma bots_share_session_ids :
  bot_main_session_id "support" 2 = bot_main_session_id "support-g2" 1
  ∧ is_bot_session "support" (bot_main_session_id "support-gold" 1) = true
  ∧ is_bot_session "support" "bot:v1:support-gold:k-ana-0a1b2c3d" = true.
Proof. vm_compute. by split_and!. Qed.

(** Two deliveries to one keyed session. While the first creates the session, which turns out to
    exist under an older declaration, the base moves to its next generation; the second is
    dispatched onto that, and then the first moves its lane there, over the second's. *)
Definition first_started : ControllerState :=
  (dispatch noon (accepting noon ready (keyed_event "k1" 1 "ana"))).2.
Definition both_started : ControllerState :=
  (dispatch noon (accepting noon
    (bump_routed_generation "bot:v1:support:k-ana" first_started).2
    (keyed_event "k2" 2 "ana"))).2.
Definition lane_moved : ControllerState :=
  rekey_lane "bot:v1:support:k-ana" "bot:v1:support:k-ana-g2" both_started.
Lemma rekey_drops_a_lane :
  size both_started.(ControllerState.active_by_session) = 2
  ∧ size lane_moved.(ControllerState.active_by_session) = 1
  ∧ teardown_event_ids both_started = ["k1"; "k2"]
  ∧ teardown_event_ids lane_moved = ["k1"]
  ∧ (∀ terminal, (attach_terminal (delivery_terminal_token "k2") terminal lane_moved).1 = false)
  ∧ (∀ suggested, can_continue_as_new suggested 2 lane_moved = false).
Proof. split_and!; try (by vm_compute); intros []; by vm_compute. Qed.

(** A delivery that joins a run is in no list the teardown archives from. *)
Lemma teardown_misses_a_sidecar :
  "k2" ∈ teardown_event_ids running
  ∧ action_delivery <$> (dispatch noon running).1 = [BotDelivery_single (keyed_event "k2" 4 "ana")]
  ∧ "k2" ∉ teardown_event_ids (dispatch noon running).2.
Proof.
  split_and!.
  - apply (bool_decide_unpack _). by vm_compute.
  - by vm_compute.
  - apply (bool_decide_unpack _). by vm_compute.
Qed.

(** ** The laws at work *)
Lemma routed_session_round_trip_witness :
  routed_session_base "bot:v1:support:k-ana-g12" = "bot:v1:support:k-ana"
  ∧ (routed_session_generation_id "bot:v1:support:k-ana" 12
     = routed_session_generation_id "bot:v1:support:k-ana" 3 ↔ (12 = 3)%N).
Proof.
  apply (routed_session_round_trip "bot:v1:support:k-ana" 12 3);
    [split; vm_compute; discriminate..|reflexivity].
Defined.
Lemma session_left_behind_is_not_reused_witness :
  resolve_routed_session_id "bot:v1:support:k-ana"
    (forget_routed_session "bot:v1:support:k-ana" running) ≠ "bot:v1:support:k-ana".
Proof.
  destruct (session_left_behind_is_not_reused "bot:v1:support:k-ana" running 1) as [H _];
    [vm_compute; reflexivity|split; vm_compute; discriminate|].
  destruct H as (_ & _ & H); [vm_compute; discriminate|]. exact H.
Defined.
