(* ===== verification/BotActivities.v ===== *)
(** * What a bot's controller asks of the world

    Every effect of the controller outside its own state is an activity: a request the runtime
    performs, with a result or the text of its failure ([temporal-workflow/src/workflows/bots/
    types.rs] and the [BotActivities] it calls). Activities are not run here; [Activity] types
    each by its result. *)
From Stdlib Require Import Ascii ZArith.
From S2P Require Import Prelude Ids Text Types Externals Codec Bindings BotState.
Set Primitive Projections.

(** ** Sessions *)
(** [struct BotEnsureSessionRequest] of [bots/types.rs]. *)
Module BotEnsureSessionRequest.
Record BotEnsureSessionRequest : Type := {
  universe_id : Uuid;
  bot_id : string;
  session_id : string;
  session_key : option string;
  session_label : option string;
  display_name : option string;
  profile_id : string;
  brief : option string;
  self_config : bool;
  emit : bool;
  applied_profile_revision : option N;
  controller : WorkflowEndpointRef;
  tools_ref : option string;
}.
End BotEnsureSessionRequest.
Abbreviation BotEnsureSessionRequest := BotEnsureSessionRequest.BotEnsureSessionRequest.

(** [enum BotEnsureSessionResult] of [bots/types.rs]. *)
Module BotEnsureSessionResult.
Inductive BotEnsureSessionResult : Type :=
| Ready (profile_revision : N) (carried_tool_ids : list string)
| DeclarationMismatch (message : string)
| ProfileUnapplicable (message : string)
| SessionDead (message : string).
End BotEnsureSessionResult.
Abbreviation BotEnsureSessionResult := BotEnsureSessionResult.BotEnsureSessionResult.
#[export] Instance BotEnsureSessionResult_eq_dec : EqDecision BotEnsureSessionResult.
Proof. solve_decision. Defined.

(** [struct BotSessionRequest] of [bots/types.rs]. *)
Module BotSessionRequest.
Record BotSessionRequest : Type := {
  universe_id : Uuid;
  session_id : string;
}.
End BotSessionRequest.
Abbreviation BotSessionRequest := BotSessionRequest.BotSessionRequest.

(** [struct BotRenameSessionRequest] of [bots/types.rs]. *)
Module BotRenameSessionRequest.
Record BotRenameSessionRequest : Type := {
  universe_id : Uuid;
  session_id : string;
  display_name : option string;
}.
End BotRenameSessionRequest.
Abbreviation BotRenameSessionRequest := BotRenameSessionRequest.BotRenameSessionRequest.

(** [enum BotSessionStatus] of [bots/types.rs]. *)
Module BotSessionStatus.
Inductive BotSessionStatus : Type :=
| Idle
| Busy (run_id : option string)
| Failed
| Closed
| Missing.
End BotSessionStatus.
Abbreviation BotSessionStatus := BotSessionStatus.BotSessionStatus.
#[export] Instance BotSessionStatus_eq_dec : EqDecision BotSessionStatus.
Proof. solve_decision. Defined.

Definition BotSessionStatus_is_dead (self : BotSessionStatus) : bool :=
  match self with
  | BotSessionStatus.Failed | BotSessionStatus.Closed | BotSessionStatus.Missing => true
  | _ => false
  end.

(** [struct BotReadDeadSessionsRequest] of [bots/types.rs]. *)
Module BotReadDeadSessionsRequest.
Record BotReadDeadSessionsRequest : Type := {
  universe_id : Uuid;
  session_ids : list string;
}.
End BotReadDeadSessionsRequest.
Abbreviation BotReadDeadSessionsRequest := BotReadDeadSessionsRequest.BotReadDeadSessionsRequest.

(** [struct BotDeadSession] of [bots/types.rs]. *)
Module BotDeadSession.
Record BotDeadSession : Type := {
  session_id : string;
  status : BotSessionStatus;
}.
End BotDeadSession.
Abbreviation BotDeadSession := BotDeadSession.BotDeadSession.

(** [struct BotReadDeadSessionsResult] of [bots/types.rs]. *)
Module BotReadDeadSessionsResult.
Record BotReadDeadSessionsResult : Type := {
  dead : list BotDeadSession;
}.
End BotReadDeadSessionsResult.
Abbreviation BotReadDeadSessionsResult := BotReadDeadSessionsResult.BotReadDeadSessionsResult.

(** [struct BotReadRunUsageRequest] of [bots/types.rs]. *)
Module BotReadRunUsageRequest.
Record BotReadRunUsageRequest : Type := {
  universe_id : Uuid;
  session_id : string;
  run_id : string;
}.
End BotReadRunUsageRequest.
Abbreviation BotReadRunUsageRequest := BotReadRunUsageRequest.BotReadRunUsageRequest.

(** [struct BotReadRunUsageResult] of [bots/types.rs]. *)
Module BotReadRunUsageResult.
Record BotReadRunUsageResult : Type := {
  usage : option LlmUsageView;
}.
End BotReadRunUsageResult.
Abbreviation BotReadRunUsageResult := BotReadRunUsageResult.BotReadRunUsageResult.

(** ** Deliveries *)
(** [struct BotStartRunRequest] of [bots/types.rs]. *)
Module BotStartRunRequest.
Record BotStartRunRequest : Type := {
  universe_id : Uuid;
  session_id : string;
  delivery_id : string;
  events : list BotEvent;
  submission_id : string;
  terminal_token : string;
}.
End BotStartRunRequest.
Abbreviation BotStartRunRequest := BotStartRunRequest.BotStartRunRequest.

(** [enum BotStartRunResult] of [bots/types.rs]. *)
Module BotStartRunResult.
Inductive BotStartRunResult : Type :=
| Started (run_id : string) (finished : option RunStatus)
| Retry (message : string)
| Refused (message : string)
| SessionDead (message : string).
End BotStartRunResult.
Abbreviation BotStartRunResult := BotStartRunResult.BotStartRunResult.
#[export] Instance BotStartRunResult_eq_dec : EqDecision BotStartRunResult.
Proof. solve_decision. Defined.

(** [struct BotSteerRunRequest] of [bots/types.rs]. *)
Module BotSteerRunRequest.
Record BotSteerRunRequest : Type := {
  universe_id : Uuid;
  session_id : string;
  delivery_id : string;
  events : list BotEvent;
}.
End BotSteerRunRequest.
Abbreviation BotSteerRunRequest := BotSteerRunRequest.BotSteerRunRequest.

(** [enum BotSteerRunResult] of [bots/types.rs]. *)
Module BotSteerRunResult.
Inductive BotSteerRunResult : Type :=
| Steered (run_id : string)
| NotRunning.
End BotSteerRunResult.
Abbreviation BotSteerRunResult := BotSteerRunResult.BotSteerRunResult.
#[export] Instance BotSteerRunResult_eq_dec : EqDecision BotSteerRunResult.
Proof. solve_decision. Defined.

(** [struct BotAppendContextRequest] of [bots/types.rs]. *)
Module BotAppendContextRequest.
Record BotAppendContextRequest : Type := {
  universe_id : Uuid;
  session_id : string;
  delivery_id : string;
  events : list BotEvent;
}.
End BotAppendContextRequest.
Abbreviation BotAppendContextRequest := BotAppendContextRequest.BotAppendContextRequest.

(** [struct BotCloseSessionRequest] of [bots/types.rs]. *)
Module BotCloseSessionRequest.
Record BotCloseSessionRequest : Type := {
  universe_id : Uuid;
  session_id : string;
  force : bool;
}.
End BotCloseSessionRequest.
Abbreviation BotCloseSessionRequest := BotCloseSessionRequest.BotCloseSessionRequest.

(** [struct BotCloseSessionResult] of [bots/types.rs]. *)
Module BotCloseSessionResult.
Record BotCloseSessionResult : Type := {
  closed : bool;
  descendants_closed : N;
}.
End BotCloseSessionResult.
Abbreviation BotCloseSessionResult := BotCloseSessionResult.BotCloseSessionResult.

(** [struct BotCountDescendantsRequest] of [bots/types.rs]. *)
Module BotCountDescendantsRequest.
Record BotCountDescendantsRequest : Type := {
  universe_id : Uuid;
  session_ids : list string;
  since_ms : Z;
}.
End BotCountDescendantsRequest.
Abbreviation BotCountDescendantsRequest := BotCountDescendantsRequest.BotCountDescendantsRequest.

(** [struct BotCountDescendantsResult] of [bots/types.rs]. *)
Module BotCountDescendantsResult.
Record BotCountDescendantsResult : Type := {
  count : N;
}.
End BotCountDescendantsResult.
Abbreviation BotCountDescendantsResult := BotCountDescendantsResult.BotCountDescendantsResult.

(** ** Tools *)
(** [struct BotReadToolInvocationsRequest] of [bots/types.rs]. *)
Module BotReadToolInvocationsRequest.
Record BotReadToolInvocationsRequest : Type := {
  universe_id : Uuid;
  session_id : string;
  after_seq : N;
}.
End BotReadToolInvocationsRequest.
Abbreviation BotReadToolInvocationsRequest := BotReadToolInvocationsRequest.BotReadToolInvocationsRequest.

(** [struct BotReadToolInvocationsResult] of [bots/types.rs]. *)
Module BotReadToolInvocationsResult.
Record BotReadToolInvocationsResult : Type := {
  next_seq : N;
  invocations : list BotToolInvocationRef;
}.
End BotReadToolInvocationsResult.
Abbreviation BotReadToolInvocationsResult := BotReadToolInvocationsResult.BotReadToolInvocationsResult.

(** [struct BotReadJsonBlobRequest] of [bots/types.rs]. *)
Module BotReadJsonBlobRequest.
Record BotReadJsonBlobRequest : Type := {
  universe_id : Uuid;
  blob_ref : string;
}.
End BotReadJsonBlobRequest.
Abbreviation BotReadJsonBlobRequest := BotReadJsonBlobRequest.BotReadJsonBlobRequest.

(** [struct BotExecuteToolRequest] of [bots/types.rs]. *)
Module BotExecuteToolRequest.
Record BotExecuteToolRequest : Type := {
  universe_id : Uuid;
  bot_id : string;
  session_id : string;
  invocation_id : string;
  tool_id : string;
  arguments_ref : string;
  controller : BotControllerSummary;
}.
End BotExecuteToolRequest.
Abbreviation BotExecuteToolRequest := BotExecuteToolRequest.BotExecuteToolRequest.

(** [enum BotExecuteToolResult] of [bots/types.rs]. *)
Module BotExecuteToolResult.
Inductive BotExecuteToolResult : Type :=
| Resolved (payload_ref : string)
| Failed (message error_ref : string).
End BotExecuteToolResult.
Abbreviation BotExecuteToolResult := BotExecuteToolResult.BotExecuteToolResult.
#[export] Instance BotExecuteToolResult_eq_dec : EqDecision BotExecuteToolResult.
Proof. solve_decision. Defined.

(** ** Outcomes and receipts *)
(** [enum BotDeliveryPhase] of [bots/src/signal.rs]. *)
Module BotDeliveryPhase.
Inductive BotDeliveryPhase : Type :=
| Started
| Finished.
End BotDeliveryPhase.
Abbreviation BotDeliveryPhase := BotDeliveryPhase.BotDeliveryPhase.
#[export] Instance BotDeliveryPhase_eq_dec : EqDecision BotDeliveryPhase.
Proof. solve_decision. Defined.

(** [struct BotRecordOutcomesRequest] of [bots/types.rs]. *)
Module BotRecordOutcomesRequest.
Record BotRecordOutcomesRequest : Type := {
  universe_id : Uuid;
  bot_id : string;
  event_ids : list string;
  outcome : BotEventOutcome;
  detail : option string;
  run_id : option string;
}.
End BotRecordOutcomesRequest.
Abbreviation BotRecordOutcomesRequest := BotRecordOutcomesRequest.BotRecordOutcomesRequest.

(** [struct BotRecordOutcomesResult] of [bots/types.rs]. *)
Module BotRecordOutcomesResult.
Record BotRecordOutcomesResult : Type := {
  updated : N;
}.
End BotRecordOutcomesResult.
Abbreviation BotRecordOutcomesResult := BotRecordOutcomesResult.BotRecordOutcomesResult.

(** [struct BotRecordClosedRequest] of [bots/types.rs]. *)
Module BotRecordClosedRequest.
Record BotRecordClosedRequest : Type := {
  universe_id : Uuid;
  bot_id : string;
  sessions : list string;
}.
End BotRecordClosedRequest.
Abbreviation BotRecordClosedRequest := BotRecordClosedRequest.BotRecordClosedRequest.

(** [struct BotRecordClosedResult] of [bots/types.rs]. *)
Module BotRecordClosedResult.
Record BotRecordClosedResult : Type := {
  sessions : list string;
}.
End BotRecordClosedResult.
Abbreviation BotRecordClosedResult := BotRecordClosedResult.BotRecordClosedResult.

(** [struct BotSendDeliveryReceiptsRequest] of [bots/types.rs]. *)
Module BotSendDeliveryReceiptsRequest.
Record BotSendDeliveryReceiptsRequest : Type := {
  universe_id : Uuid;
  bot_id : string;
  event_ids : list string;
  phase : BotDeliveryPhase;
  delivery_id : string;
  seqs : list N;
  session_id : string;
  run_id : option string;
  outcome : option BotEventOutcome;
  summary : option string;
}.
End BotSendDeliveryReceiptsRequest.
Abbreviation BotSendDeliveryReceiptsRequest := BotSendDeliveryReceiptsRequest.BotSendDeliveryReceiptsRequest.

(** [struct BotReceiptsSent] of [bots/types.rs]. *)
Module BotReceiptsSent.
Record BotReceiptsSent : Type := {
  sent : N;
  skipped : N;
}.
End BotReceiptsSent.
Abbreviation BotReceiptsSent := BotReceiptsSent.BotReceiptsSent.

(** [struct BotSendBotReceiptsRequest] of [bots/types.rs]. *)
Module BotSendBotReceiptsRequest.
Record BotSendBotReceiptsRequest : Type := {
  universe_id : Uuid;
  bot_id : string;
  delivery_id : string;
  event_ids : list string;
  outcome : BotEventOutcome;
  summary : option string;
  hops : N;
}.
End BotSendBotReceiptsRequest.
Abbreviation BotSendBotReceiptsRequest := BotSendBotReceiptsRequest.BotSendBotReceiptsRequest.

(** [struct BotPublishDirectoryRequest] of [bots/types.rs]. *)
Module BotPublishDirectoryRequest.
Record BotPublishDirectoryRequest : Type := {
  universe_id : Uuid;
  bot_id : string;
  session_id : string;
}.
End BotPublishDirectoryRequest.
Abbreviation BotPublishDirectoryRequest := BotPublishDirectoryRequest.BotPublishDirectoryRequest.

(** [struct BotPublishDirectoryResult] of [bots/types.rs]. *)
Module BotPublishDirectoryResult.
Record BotPublishDirectoryResult : Type := {
  entries : N;
}.
End BotPublishDirectoryResult.
Abbreviation BotPublishDirectoryResult := BotPublishDirectoryResult.BotPublishDirectoryResult.

(** ** Activities *)
Inductive Activity : Type → Type :=
| ensure_session (request : BotEnsureSessionRequest) : Activity BotEnsureSessionResult
| close_session_activity (request : BotCloseSessionRequest) : Activity BotCloseSessionResult
| rename_session (request : BotRenameSessionRequest) : Activity unit
| read_session_status_activity (request : BotSessionRequest) : Activity BotSessionStatus
| read_dead_sessions (request : BotReadDeadSessionsRequest) : Activity BotReadDeadSessionsResult
| read_run_usage_activity (request : BotReadRunUsageRequest) : Activity BotReadRunUsageResult
| start_run (request : BotStartRunRequest) : Activity BotStartRunResult
| steer_run_activity (request : BotSteerRunRequest) : Activity BotSteerRunResult
| append_context (request : BotAppendContextRequest) : Activity unit
| count_descendants (request : BotCountDescendantsRequest) : Activity BotCountDescendantsResult
| read_tool_invocations (request : BotReadToolInvocationsRequest)
    : Activity BotReadToolInvocationsResult
| read_json_blob (request : BotReadJsonBlobRequest) : Activity Value
| execute_tool (request : BotExecuteToolRequest) : Activity BotExecuteToolResult
| record_outcomes (request : BotRecordOutcomesRequest) : Activity BotRecordOutcomesResult
| record_closed (request : BotRecordClosedRequest) : Activity BotRecordClosedResult
| send_delivery_receipts_activity (request : BotSendDeliveryReceiptsRequest)
    : Activity BotReceiptsSent
| send_bot_receipts (request : BotSendBotReceiptsRequest) : Activity BotReceiptsSent
| publish_directory_activity (request : BotPublishDirectoryRequest)
    : Activity BotPublishDirectoryResult
(** Not an activity: a signal to another workflow. *)
| deliver_emission (workflow_id : string) (envelope : EmissionEnvelope) : Activity unit.
