(* ===== verification/BotTasks.v ===== *)
(** * The work of a bot's controller

    The asynchronous half of the controller, [temporal-workflow/src/workflows/bots/
    controller/lanes.rs]: delivery lanes, sidecars and answers to pushed tools. A task is its
    control flow up to the points where it gives way: it reads and writes the shared state at
    once, but an activity, a wait or the next iteration of a loop lets others run in between. *)
From Stdlib Require Import Ascii ZArith.
From S2P Require Import Prelude Ids Text Types Commands Externals Codec WorkflowTools Bindings.
From S2P Require Import BotState BotController BotActivities.
Set Primitive Projections.

(** ** Tasks *)
Inductive Task (A : Type) : Type :=
| Return (value : A)
(** [ctx.state], [ctx.state_mut]. *)
| Update {B : Type} (f : ControllerState → B * ControllerState) (k : B → Task A)
(** [now_ms(ctx)]: the workflow's clock. *)
| Clock (k : Z → Task A)
(** [execute_activity(..).await], and a signal to another workflow: its result, or the text of
    its failure. *)
| Call {B : Type} (activity : Activity B) (k : Result string B → Task A)
(** [ctx.wait_for_state(..).await], beside a timer if there is one. *)
| WaitFor (ready : ControllerState → bool) (timer : option Z) (k : Task A)
(** [while]: the body says whether to go on. *)
| While (body : Task bool) (k : Task A)
(** [lanes.push]. *)
| Spawn (lane : Task unit) (k : Task A)
(** [lanes.len()]. *)
| Polled (k : nat → Task A).
Arguments Return {_} _.
Arguments Update {_ _} _ _.
Arguments Clock {_} _.
Arguments Call {_ _} _ _.
Arguments WaitFor {_} _ _ _.
Arguments While {_} _ _.
Arguments Spawn {_} _ _.
Arguments Polled {_} _.

Fixpoint task_bind {A B : Type} (f : A → Task B) (t : Task A) : Task B :=
  match t with
  | Return value => f value
  | Update g k => Update g (λ b, task_bind f (k b))
  | Clock k => Clock (λ now, task_bind f (k now))
  | Call activity k => Call activity (λ result, task_bind f (k result))
  | WaitFor ready timer k => WaitFor ready timer (task_bind f k)
  | While body k => While body (task_bind f k)
  | Spawn lane k => Spawn lane (task_bind f k)
  | Polled k => Polled (λ polled, task_bind f (k polled))
  end.
#[export] Instance Task_ret : MRet Task := λ A, Return.
#[export] Instance Task_bind : MBind Task := λ A B, task_bind.

Definition update {B} (f : ControllerState → B * ControllerState) : Task B := Update f Return.
Definition state {B} (f : ControllerState → B) : Task B := Update (λ self, (f self, self)) Return.
Definition modify (f : ControllerState → ControllerState) : Task unit :=
  Update (λ self, (tt, f self)) Return.
Definition clock : Task Z := Clock Return.
Definition call {B} (activity : Activity B) : Task (Result string B) := Call activity Return.
Definition wait_for (ready : ControllerState → bool) : Task unit := WaitFor ready None (Return tt).
Definition while (body : Task bool) : Task unit := While body (Return tt).
Definition spawn (lane : Task unit) : Task unit := Spawn lane (Return tt).
(** An activity whose failure is only recorded. *)
Definition best_effort {B} (activity : Activity B) : Task unit :=
  result ← call activity;
  match result with Ok _ => mret tt | Err message => modify (record_error message) end.
Fixpoint each {A} (l : list A) (f : A → Task unit) : Task unit :=
  match l with
  | [] => mret tt
  | x :: l => f x;; each l f
  end.

Definition BOT_CONTROLLER_WORKFLOW_KIND : string := "BotControllerWorkflow".
Definition BOT_EXTRA_SESSION_CAP : nat := 200.

(** What ensuring a routed session came to. *)
Module RoutedSessionEnsured.
Inductive RoutedSessionEnsured : Type :=
| Ready (session_id : string)
| Dead (session_id message : string)
| Failed.
End RoutedSessionEnsured.
Abbreviation RoutedSessionEnsured := RoutedSessionEnsured.RoutedSessionEnsured.

(** What ensuring the session of a delivery came to: the session to go on with, or the end of
    the lane on a session. *)
Module Settled.
Inductive Settled : Type :=
| On (target : string)
| Ended (target : string) (result : Result string unit).
End Settled.
Abbreviation Settled := Settled.Settled.

Section lanes.
Context `{!Externals} `{!Calendar}.
(** [ctx.workflow_id()]. *)
Variable workflow_id : string.
Implicit Types (delivery : BotDelivery) (target session_id message : string).

(** ** Requests and sessions, shared with the loop *)
Definition universe_of (self : ControllerState) : Uuid :=
  self.(ControllerState.config).(BotControllerConfig.universe_id).
Definition bot_of (self : ControllerState) : string :=
  self.(ControllerState.config).(BotControllerConfig.bot_id).
Definition ensure_request (self : ControllerState) session_id (display_name : string)
    (applied_profile_revision : option N) (tools_ref : option string)
    (routed_session : option RoutedSession) : BotEnsureSessionRequest :=
  let config := self.(ControllerState.config) in
  {| BotEnsureSessionRequest.universe_id := config.(BotControllerConfig.universe_id);
     BotEnsureSessionRequest.bot_id := config.(BotControllerConfig.bot_id);
     BotEnsureSessionRequest.session_id := session_id;
     BotEnsureSessionRequest.session_key := routed_session ≫= RoutedSession.session_key;
     BotEnsureSessionRequest.session_label := RoutedSession.label <$> routed_session;
     BotEnsureSessionRequest.display_name := Some display_name;
     BotEnsureSessionRequest.profile_id := config.(BotControllerConfig.profile_id);
     BotEnsureSessionRequest.brief := config.(BotControllerConfig.brief);
     BotEnsureSessionRequest.self_config := config.(BotControllerConfig.self_config);
     BotEnsureSessionRequest.emit := config.(BotControllerConfig.emit);
     BotEnsureSessionRequest.applied_profile_revision := applied_profile_revision;
     BotEnsureSessionRequest.controller :=
       {| WorkflowEndpointRef.workflow_id := workflow_id;
          WorkflowEndpointRef.workflow_kind := BOT_CONTROLLER_WORKFLOW_KIND |};
     BotEnsureSessionRequest.tools_ref := tools_ref |}.
(** Whether the session is closed now; a failure is recorded. *)
Definition close_session session_id (force : bool) : Task bool :=
  universe_id ← state universe_of;
  result ← call (close_session_activity
    {| BotCloseSessionRequest.universe_id := universe_id;
       BotCloseSessionRequest.session_id := session_id;
       BotCloseSessionRequest.force := force |});
  match result with
  | Ok result => mret result.(BotCloseSessionResult.closed)
  | Err message =>
      modify (record_error ("close " +:+ session_id +:+ ": " +:+ message));; mret false
  end.
Definition needs_close_to_roll_forward (status : BotSessionStatus) : bool :=
  negb (bool_decide (status = BotSessionStatus.Missing)).
Definition roll_forward session_id (status : BotSessionStatus) : Task bool :=
  closed ← (if needs_close_to_roll_forward status then close_session session_id true
            else mret true);
  if (closed : bool) then modify (roll_session_forward session_id);; mret true
  else mret false.
Definition read_session_status session_id : Task (Result string BotSessionStatus) :=
  universe_id ← state universe_of;
  call (read_session_status_activity
    {| BotSessionRequest.universe_id := universe_id;
       BotSessionRequest.session_id := session_id |}).
Definition dead_session_message session_id (status : BotSessionStatus) : string :=
  match status with
  | BotSessionStatus.Failed =>
      "session " +:+ session_id +:+ " has failed: its workflow is no longer running"
  | BotSessionStatus.Closed => "session " +:+ session_id +:+ " is closed"
  | BotSessionStatus.Missing => "session " +:+ session_id +:+ " is missing"
  | _ => "session " +:+ session_id +:+ " is unavailable"
  end.

(** ** Reading what a run resolved, shared with the loop *)
Definition object_get (name : string) (fields : list (string * Value)) : option Value :=
  snd <$> head (filter (λ field, field.1 = name) fields).
Definition parse_event_resolve_args (value : Value) : Result string LaneResolution :=
  match value with
  | Value.Object fields =>
      outcome ←
        match object_get "outcome" fields with
        | Some (Value.String "handled") => Ok BotEventOutcome.Handled
        | Some (Value.String "deferred") => Ok BotEventOutcome.Deferred
        | Some (Value.String "ignored") => Ok BotEventOutcome.Ignored
        | Some (Value.String "blocked") => Ok BotEventOutcome.Blocked
        | _ => Err "bot_event_resolve outcome is invalid"
        end;
      summary ←
        match object_get "summary" fields with
        | None | Some Value.Null => Ok None
        | Some (Value.String summary) => Ok (Some summary)
        | Some _ => Err "summary must be a string or null"
        end;
      Ok {| LaneResolution.outcome := outcome; LaneResolution.summary := summary |}
  | _ => Err "bot_event_resolve arguments must be an object"
  end.
Definition resolve_from (target : string) (universe_id : Uuid)
    (invocation : BotToolInvocationRef) : Task unit :=
  let arguments_ref := invocation.(BotToolInvocationRef.arguments_ref) in
  args ← call (read_json_blob {| BotReadJsonBlobRequest.universe_id := universe_id;
                                 BotReadJsonBlobRequest.blob_ref := arguments_ref |});
  match args with
  | Err message =>
      modify (record_error ("read bot_event_resolve arguments " +:+ arguments_ref +:+ ": "
                              +:+ message))
  | Ok args =>
      match parse_event_resolve_args args with
      | Ok parsed => modify (set_lane_resolution target parsed)
      | Err message =>
          modify (record_error ("bot_event_resolve arguments invalid: " +:+ message))
      end
  end.
Definition lane_unresolved target (self : ControllerState) : bool :=
  match self.(ControllerState.active_by_session) !! target with
  | Some lane => is_none lane.(ActiveLane.resolution)
  | None => false
  end.
Definition reconcile_run (run_id target : string) : Task unit :=
  '(universe_id, after_seq) ← state (λ self, (universe_of self, cursor_for target self));
  pulled ← call (read_tool_invocations
    {| BotReadToolInvocationsRequest.universe_id := universe_id;
       BotReadToolInvocationsRequest.session_id := target;
       BotReadToolInvocationsRequest.after_seq := after_seq |});
  match pulled with
  | Err message =>
      modify (record_error ("read tool invocations of " +:+ target +:+ ": " +:+ message))
  | Ok pulled =>
      let invocations := pulled.(BotReadToolInvocationsResult.invocations) in
      modify (set_cursor target pulled.(BotReadToolInvocationsResult.next_seq));;
      each (resolve_invocations_for_run invocations run_id) (resolve_from target universe_id);;
      unresolved ← state (lane_unresolved target);
      if (unresolved : bool) then
        carried ← state (λ self,
          match extra_session target self with
          | Some session => session.(ControlledSession.carried_tool_ids)
          | None => []
          end);
        if used_carried_tool invocations run_id carried
        then modify (set_lane_resolution target
               {| LaneResolution.outcome := BotEventOutcome.Handled;
                  LaneResolution.summary := None |})
        else mret tt
      else mret tt
  end.

(** ** Finishing *)
Definition recent_snapshot delivery session_id (outcome : DeliveryOutcome)
    (usage : option LlmUsageView) (finished_at_ms : Z) : BotRecentDeliverySnapshot :=
  {| BotRecentDeliverySnapshot.delivery_id := delivery.(BotDelivery.id);
     BotRecentDeliverySnapshot.seqs := BotDelivery_seqs delivery;
     BotRecentDeliverySnapshot.session_id := session_id;
     BotRecentDeliverySnapshot.run_id := outcome.(DeliveryOutcome.run_id);
     BotRecentDeliverySnapshot.outcome := outcome.(DeliveryOutcome.outcome);
     BotRecentDeliverySnapshot.summary := outcome.(DeliveryOutcome.summary);
     BotRecentDeliverySnapshot.finished_at_ms := finished_at_ms;
     BotRecentDeliverySnapshot.usage := usage |}.
Definition send_delivery_receipts delivery session_id (phase : BotDeliveryPhase)
    (run_id : option string) (outcome : option BotEventOutcome) (summary : option string)
    : Task unit :=
  match BotDelivery_notify_event_ids delivery with
  | [] => mret tt
  | event_ids =>
      '(universe_id, bot_id) ← state (λ self, (universe_of self, bot_of self));
      best_effort (send_delivery_receipts_activity
        {| BotSendDeliveryReceiptsRequest.universe_id := universe_id;
           BotSendDeliveryReceiptsRequest.bot_id := bot_id;
           BotSendDeliveryReceiptsRequest.event_ids := event_ids;
           BotSendDeliveryReceiptsRequest.phase := phase;
           BotSendDeliveryReceiptsRequest.delivery_id := delivery.(BotDelivery.id);
           BotSendDeliveryReceiptsRequest.seqs := BotDelivery_seqs delivery;
           BotSendDeliveryReceiptsRequest.session_id := session_id;
           BotSendDeliveryReceiptsRequest.run_id := run_id;
           BotSendDeliveryReceiptsRequest.outcome := outcome;
           BotSendDeliveryReceiptsRequest.summary := summary |});;
      modify tick_lane
  end.
Definition outcomes_of (universe_id : Uuid) (bot_id : string) delivery
    (outcome : DeliveryOutcome) : BotRecordOutcomesRequest :=
  {| BotRecordOutcomesRequest.universe_id := universe_id;
     BotRecordOutcomesRequest.bot_id := bot_id;
     BotRecordOutcomesRequest.event_ids := BotDelivery_event_ids delivery;
     BotRecordOutcomesRequest.outcome := outcome.(DeliveryOutcome.outcome);
     BotRecordOutcomesRequest.detail := outcome.(DeliveryOutcome.summary);
     BotRecordOutcomesRequest.run_id := outcome.(DeliveryOutcome.run_id) |}.
Definition settle_delivery delivery session_id (outcome : DeliveryOutcome) : Task unit :=
  '(universe_id, bot_id) ← state (λ self, (universe_of self, bot_of self));
  best_effort (record_outcomes (outcomes_of universe_id bot_id delivery outcome));;
  modify tick_lane;;
  match BotDelivery_reply_event_ids delivery with
  | [] => mret tt
  | reply_ids =>
      best_effort (send_bot_receipts
        {| BotSendBotReceiptsRequest.universe_id := universe_id;
           BotSendBotReceiptsRequest.bot_id := bot_id;
           BotSendBotReceiptsRequest.delivery_id := delivery.(BotDelivery.id);
           BotSendBotReceiptsRequest.event_ids := reply_ids;
           BotSendBotReceiptsRequest.outcome := outcome.(DeliveryOutcome.outcome);
           BotSendBotReceiptsRequest.summary := outcome.(DeliveryOutcome.summary);
           BotSendBotReceiptsRequest.hops := BotDelivery_hops delivery |});;
      modify tick_lane
  end;;
  send_delivery_receipts delivery session_id BotDeliveryPhase.Finished
    outcome.(DeliveryOutcome.run_id) (Some outcome.(DeliveryOutcome.outcome))
    outcome.(DeliveryOutcome.summary).
(** The delivery is remembered and its lane freed, then its events settled. *)
Definition finish_delivery session_id delivery (outcome : DeliveryOutcome)
    (usage : option LlmUsageView) : Task unit :=
  now ← clock;
  let recent := recent_snapshot delivery session_id outcome usage now in
  modify (λ self, release_lane session_id now (remember_delivery recent self));;
  settle_delivery delivery session_id outcome.
Definition outcome_without_run (outcome : BotEventOutcome) (summary : option string)
    : DeliveryOutcome :=
  {| DeliveryOutcome.outcome := outcome; DeliveryOutcome.summary := summary;
     DeliveryOutcome.run_id := None |}.
Definition fail_delivery target delivery message : Task unit :=
  modify (record_error message);;
  finish_delivery target delivery (outcome_without_run BotEventOutcome.RunFailed (Some message))
    None.

(** ** On the way to a run *)
Definition enforce_extra_session_cap (keep : string) : Task unit :=
  while
    (over ← state (λ self,
       (BOT_EXTRA_SESSION_CAP <? length self.(ControllerState.extra_sessions))%nat);
     if negb over then mret false
     else
       victim ← state (idlest_free_session keep);
       match victim with
       | None => mret false
       | Some victim =>
           closed ← close_session victim false;
           if negb closed then mret false
           else modify (forget_routed_session victim);; mret true
       end).
Definition controlled_session (session : RoutedSession) session_id (now : Z)
    (carried_tool_ids : list string) : ControlledSession :=
  {| ControlledSession.session_id := session_id;
     ControlledSession.label := session.(RoutedSession.label);
     ControlledSession.session_key := session.(RoutedSession.session_key);
     ControlledSession.kind := bot_session_kind session_id;
     ControlledSession.last_active_at_ms := Some now;
     ControlledSession.close_policy := session.(RoutedSession.close_policy);
     ControlledSession.carried_tool_ids := carried_tool_ids |}.
(** [for attempt in 0..2]: [first] is [attempt == 0]. *)
Fixpoint ensure_attempts (attempts : nat) (first : bool) (session : RoutedSession) session_id
    (tools_ref : option string) : Task RoutedSessionEnsured :=
  match attempts with
  | O => mret RoutedSessionEnsured.Failed
  | S attempts =>
      observed_at_ms ← clock;
      known ← update (observe_routed_session session_id session observed_at_ms);
      if (known : bool) then mret (RoutedSessionEnsured.Ready session_id)
      else
        request ← state (λ self,
          ensure_request self session_id (routed_label session.(RoutedSession.label) self) None
            tools_ref (Some session));
        result ← call (ensure_session request);
        match result with
        | Ok (BotEnsureSessionResult.Ready _ carried_tool_ids) =>
            now ← clock;
            modify (λ self, self <| ControllerState.extra_sessions ::= λ sessions,
              sessions ++ [controlled_session session session_id now carried_tool_ids] |>);;
            enforce_extra_session_cap session_id;;
            mret (RoutedSessionEnsured.Ready session_id)
        | Ok (BotEnsureSessionResult.DeclarationMismatch message
             | BotEnsureSessionResult.ProfileUnapplicable message) =>
            if first then
              let base := routed_session_base session_id in
              session_id ← update (λ self,
                let '(_, self) := bump_routed_generation base self in
                (resolve_routed_session_id base self, self));
              ensure_attempts attempts false session session_id tools_ref
            else modify (record_error message);; mret RoutedSessionEnsured.Failed
        | Ok (BotEnsureSessionResult.SessionDead message) =>
            mret (RoutedSessionEnsured.Dead session_id message)
        | Err message => modify (record_error message);; mret RoutedSessionEnsured.Failed
        end
  end.
Definition ensure_routed_session (session : RoutedSession) (resolved_id : string)
    (tools_ref : option string) : Task RoutedSessionEnsured :=
  ensure_attempts 2 true session resolved_id tools_ref.

(** The session is dead and no run started on it: the delivery goes to its successor, once. *)
Definition retry_on_successor delivery target (status : BotSessionStatus) message
    : Task (Result string unit) :=
  if delivery.(BotDelivery.rolled_forward) then mret (Err message)
  else
    rolled ← roll_forward target status;
    if negb rolled then mret (Err message)
    else
      now ← clock;
      modify (requeue_rolled_forward target delivery now);; mret (Ok tt).
Definition look_again_later target delivery : Task unit :=
  now ← clock;
  modify (requeue_lane target delivery (add_i64 now BOT_BUSY_RETRY_DELAY)).
Definition publish_directory session_id : Task unit :=
  '(emit, universe_id, bot_id) ← state (λ self,
    (self.(ControllerState.config).(BotControllerConfig.emit), universe_of self, bot_of self));
  if negb emit then mret tt
  else best_effort (publish_directory_activity
         {| BotPublishDirectoryRequest.universe_id := universe_id;
            BotPublishDirectoryRequest.bot_id := bot_id;
            BotPublishDirectoryRequest.session_id := session_id |}).
Definition read_run_usage session_id (run_id : string) : Task (option LlmUsageView) :=
  universe_id ← state universe_of;
  result ← call (read_run_usage_activity
    {| BotReadRunUsageRequest.universe_id := universe_id;
       BotReadRunUsageRequest.session_id := session_id;
       BotReadRunUsageRequest.run_id := run_id |});
  mret match result with
       | Ok result => result.(BotReadRunUsageResult.usage)
       | Err _ => None
       end.
Definition steer_run delivery session_id : Task (Result string BotSteerRunResult) :=
  universe_id ← state universe_of;
  call (steer_run_activity
    {| BotSteerRunRequest.universe_id := universe_id;
       BotSteerRunRequest.session_id := session_id;
       BotSteerRunRequest.delivery_id := delivery.(BotDelivery.id);
       BotSteerRunRequest.events := delivery.(BotDelivery.events) |}).
Definition append_events (universe_id : Uuid) delivery session_id : Task (Result string unit) :=
  call (append_context
    {| BotAppendContextRequest.universe_id := universe_id;
       BotAppendContextRequest.session_id := session_id;
       BotAppendContextRequest.delivery_id := delivery.(BotDelivery.id);
       BotAppendContextRequest.events := delivery.(BotDelivery.events) |}).

(** ** Waiting for a run *)
Definition lane_end target (self : ControllerState)
    : option (LaneTerminal * option LaneResolution) :=
  lane ← self.(ControllerState.active_by_session) !! target;
  terminal ← lane.(ActiveLane.terminal);
  Some (terminal, lane.(ActiveLane.resolution)).
Definition wait_for_run_end delivery target (run_id : string) : Task (Result string unit) :=
  modify (park_lane target);;
  wait_for (lane_has_terminal target);;
  ended ← state (lane_end target);
  match ended with
  | None => mret (Err ("the lane on session " +:+ target +:+ " lost its run's end"))
  | Some (terminal, resolution) =>
      let outcome := delivery_outcome terminal resolution (Some run_id) in
      usage ← match outcome.(DeliveryOutcome.run_id) with
              | Some run_id =>
                  if bool_decide (outcome.(DeliveryOutcome.outcome) = BotEventOutcome.RunFailed)
                  then mret None else read_run_usage target run_id
              | None => mret None
              end;
      finish_delivery target delivery outcome usage;; mret (Ok tt)
  end.
(** Pick up a run the previous execution was waiting on. *)
Definition resume_run_wait (lane : WaitingLane) : Task unit :=
  let delivery := lane.(WaitingLane.delivery) in
  let session_id := lane.(WaitingLane.session_id) in
  result ← wait_for_run_end delivery session_id lane.(WaitingLane.run_id);
  match result with
  | Ok _ => mret tt
  | Err message => fail_delivery session_id delivery message
  end.

(** ** A delivery lane *)
Definition settle_on_session delivery target (first_event : BotEvent) : Task Settled :=
  match delivery.(BotDelivery.session) with
  | None => mret (Settled.On target)
  | Some session =>
      ensured ← ensure_routed_session session target first_event.(BotEvent.tools_ref);
      match ensured with
      | RoutedSessionEnsured.Dead session_id message =>
          modify (rekey_lane target session_id);;
          result ← retry_on_successor delivery session_id BotSessionStatus.Failed message;
          mret (Settled.Ended session_id result)
      | RoutedSessionEnsured.Failed =>
          reason ← state (λ self, default "unknown" self.(ControllerState.last_error));
          finish_delivery target delivery
            (outcome_without_run BotEventOutcome.RunFailed
               (Some ("failed to create session " +:+ target +:+ ": " +:+ reason))) None;;
          mret (Settled.Ended target (Ok tt))
      | RoutedSessionEnsured.Ready ensured =>
          if bool_decide (ensured = target) then mret (Settled.On target)
          else modify (rekey_lane target ensured);; mret (Settled.On ensured)
      end
  end.
(** Without a run: the events go into the session's context. *)
Definition append_delivery delivery target : Task (Result string unit) :=
  universe_id ← state universe_of;
  publish_directory target;;
  appended ← append_events universe_id delivery target;
  match appended with
  | Err message =>
      status ← read_session_status target;
      match status with
      | Ok status =>
          if BotSessionStatus_is_dead status
          then retry_on_successor delivery target status message
          else mret (Err message)
      | Err _ => mret (Err message)
      end
  | Ok _ =>
      finish_delivery target delivery (outcome_without_run BotEventOutcome.Appended None) None;;
      mret (Ok tt)
  end.
(** A busy session takes the events as steering. *)
Definition steer_delivery delivery target : Task (Result string unit) :=
  steered ← steer_run delivery target;
  match steered with
  | Err message => mret (Err message)
  | Ok (BotSteerRunResult.Steered run_id) =>
      finish_delivery target delivery
        {| DeliveryOutcome.outcome := BotEventOutcome.Steered;
           DeliveryOutcome.summary := None;
           DeliveryOutcome.run_id := Some run_id |} None;;
      mret (Ok tt)
  | Ok BotSteerRunResult.NotRunning => look_again_later target delivery;; mret (Ok tt)
  end.
Definition start_request (universe_id : Uuid) delivery target : BotStartRunRequest :=
  {| BotStartRunRequest.universe_id := universe_id;
     BotStartRunRequest.session_id := target;
     BotStartRunRequest.delivery_id := delivery.(BotDelivery.id);
     BotStartRunRequest.events := delivery.(BotDelivery.events);
     BotStartRunRequest.submission_id := delivery_submission_id delivery.(BotDelivery.id);
     BotStartRunRequest.terminal_token := delivery_terminal_token delivery.(BotDelivery.id) |}.
(** A start that may still succeed goes back to the queue. *)
Definition retry_start delivery target message : Task (Result string unit) :=
  now ← clock;
  retried ← update (retry_delivery target delivery now);
  if negb retried then mret (Err message)
  else modify (record_error message);; mret (Ok tt).
Definition follow_run delivery target (run_id : string) (finished : option RunStatus)
    : Task (Result string unit) :=
  started_at ← clock;
  modify (mark_lane_started target run_id started_at);;
  send_delivery_receipts delivery target BotDeliveryPhase.Started (Some run_id) None None;;
  match finished with
  | Some status =>
      reconcile_run run_id target;;
      modify (λ self, (attach_terminal (delivery_terminal_token delivery.(BotDelivery.id))
        {| LaneTerminal.status := status;
           LaneTerminal.run_id := run_id;
           LaneTerminal.failure_message_ref := None;
           LaneTerminal.dead_session := None |} self).2)
  | None => mret tt
  end;;
  wait_for_run_end delivery target run_id.
Definition start_delivery (universe_id : Uuid) delivery target : Task (Result string unit) :=
  started ← call (start_run (start_request universe_id delivery target));
  match started with
  | Ok (BotStartRunResult.Started run_id finished) => follow_run delivery target run_id finished
  | Ok (BotStartRunResult.Refused message) => mret (Err message)
  | Ok (BotStartRunResult.SessionDead message) =>
      retry_on_successor delivery target BotSessionStatus.Failed message
  | Ok (BotStartRunResult.Retry message) | Err message => retry_start delivery target message
  end.
Definition run_on_session (universe_id : Uuid) delivery target : Task (Result string unit) :=
  status ← read_session_status target;
  match status with
  | Err message => mret (Err message)
  | Ok BotSessionStatus.Idle =>
      publish_directory target;; start_delivery universe_id delivery target
  | Ok (BotSessionStatus.Busy _) =>
      if bool_decide (delivery.(BotDelivery.when_busy) = BotWhenBusy.Steer)
      then publish_directory target;; steer_delivery delivery target
      else look_again_later target delivery;; mret (Ok tt)
  | Ok dead => retry_on_successor delivery target dead (dead_session_message target dead)
  end.
(** The session the lane ended on, and how. *)
Definition run_delivery_inner delivery target : Task (string * Result string unit) :=
  match delivery.(BotDelivery.events) with
  | [] =>
      modify (λ self, tick_lane (self <| ControllerState.active_by_session ::= delete target |>));;
      mret (target, Ok tt)
  | first_event :: _ =>
      universe_id ← state universe_of;
      settled ← settle_on_session delivery target first_event;
      match settled with
      | Settled.Ended target result => mret (target, result)
      | Settled.On target =>
          result ← (if bool_decide (delivery.(BotDelivery.when_busy) = BotWhenBusy.Append)
                    then append_delivery delivery target
                    else run_on_session universe_id delivery target);
          mret (target, result)
      end
  end.
Definition run_delivery delivery target : Task unit :=
  '(target, result) ← run_delivery_inner delivery target;
  match result with
  | Ok _ => mret tt
  | Err message => fail_delivery target delivery message
  end.

(** ** A sidecar *)
(** None when the delivery was requeued instead of settled. *)
Definition run_busy_sidecar_inner delivery target
    : Task (Result string (option DeliveryOutcome)) :=
  match delivery.(BotDelivery.events) with
  | [] => mret (Ok None)
  | _ =>
      universe_id ← state universe_of;
      if bool_decide (delivery.(BotDelivery.when_busy) = BotWhenBusy.Append) then
        appended ← append_events universe_id delivery target;
        mret match appended with
             | Ok _ => Ok (Some (outcome_without_run BotEventOutcome.Appended None))
             | Err message => Err message
             end
      else
        let later : Task (Result string (option DeliveryOutcome)) :=
          now ← clock;
          modify (requeue_front delivery (add_i64 now BOT_BUSY_RETRY_DELAY));;
          mret (Ok None) in
        status ← read_session_status target;
        match status with
        | Err message => mret (Err message)
        | Ok ((BotSessionStatus.Failed | BotSessionStatus.Missing) as status) =>
            mret (Err (dead_session_message target status))
        | Ok (BotSessionStatus.Busy _) =>
            steered ← steer_run delivery target;
            match steered with
            | Err message => mret (Err message)
            | Ok (BotSteerRunResult.Steered run_id) =>
                mret (Ok (Some {| DeliveryOutcome.outcome := BotEventOutcome.Steered;
                                  DeliveryOutcome.summary := None;
                                  DeliveryOutcome.run_id := Some run_id |}))
            | Ok BotSteerRunResult.NotRunning => later
            end
        | Ok (BotSessionStatus.Idle | BotSessionStatus.Closed) => later
        end
  end.
Definition run_busy_sidecar delivery target : Task unit :=
  result ← run_busy_sidecar_inner delivery target;
  settled ←
    match result with
    | Ok settled => mret settled
    | Err message =>
        modify (record_error message);;
        mret (Some (outcome_without_run BotEventOutcome.RunFailed (Some message)))
    end;
  now ← clock;
  match (settled : option DeliveryOutcome) with
  | Some outcome =>
      let recent := recent_snapshot delivery target outcome None now in
      modify (λ self, release_sidecar target now (remember_delivery recent self));;
      settle_delivery delivery target outcome
  | None => modify (release_sidecar target now)
  end.

(** ** Pushed tools *)
(** A blob reference the tool activity stored; a malformed one is recorded. *)
Definition parse_blob_ref (value : string) : Task (option BlobRef) :=
  match BlobRef_parse value with
  | Some blob_ref => mret (Some blob_ref)
  | None =>
      modify (record_error ("tool result ref: blob ref must use sha256:<64 lowercase hex> format: "
                              +:+ value));;
      mret None
  end.
Definition tool_request (invocation : WorkflowToolInvocation) (now : Z) (self : ControllerState)
    : BotExecuteToolRequest :=
  {| BotExecuteToolRequest.universe_id := universe_of self;
     BotExecuteToolRequest.bot_id := bot_of self;
     BotExecuteToolRequest.session_id := invocation.(WorkflowToolInvocation.session_id);
     BotExecuteToolRequest.invocation_id := invocation.(WorkflowToolInvocation.invocation_id);
     BotExecuteToolRequest.tool_id := invocation.(WorkflowToolInvocation.workflow_tool_id);
     BotExecuteToolRequest.arguments_ref := invocation.(WorkflowToolInvocation.arguments_ref);
     BotExecuteToolRequest.controller :=
       controller_summary invocation.(WorkflowToolInvocation.session_id) now self |}.
Definition tool_resolution (result : Result string BotExecuteToolResult) : Task PromiseResolution :=
  match result with
  | Ok (BotExecuteToolResult.Resolved payload_ref) =>
      payload_ref ← parse_blob_ref payload_ref; mret (PromiseResolution.Resolved payload_ref)
  | Ok (BotExecuteToolResult.Failed _ error_ref) =>
      error_ref ← parse_blob_ref error_ref; mret (PromiseResolution.Failed error_ref)
  | Err message => modify (record_error message);; mret (PromiseResolution.Failed None)
  end.
Definition handle_invocation (pending : PendingInvocation) : Task unit :=
  let invocation := pending.(PendingInvocation.invocation) in
  let holder_workflow_id := pending.(PendingInvocation.holder_workflow_id) in
  match invocation.(WorkflowToolInvocation.completion_promises) ≫= lookup REPLY_COMPLETION_KEY with
  | None =>
      modify (record_error
        ("pushed invocation " +:+ invocation.(WorkflowToolInvocation.invocation_id)
           +:+ " of " +:+ invocation.(WorkflowToolInvocation.workflow_tool_id)
           +:+ " carries no reply promise"))
  | Some reply_promise_id =>
      now ← clock;
      '(universe_id, request) ← state (λ self,
        (universe_of self, tool_request invocation now self));
      result ← call (execute_tool request);
      resolution ← tool_resolution result;
      signalled ← call (deliver_emission holder_workflow_id
        (EmissionEnvelope_source_resolution universe_id workflow_id holder_workflow_id
           reply_promise_id resolution));
      match signalled with
      | Ok _ => mret tt
      | Err failure =>
          modify (record_error
            ("resolve pushed invocation at " +:+ holder_workflow_id +:+ ": " +:+ failure))
      end;;
      modify tick_lane
  end.
End lanes.
