(* ===== verification/BotLoop.v ===== *)
(** * The loop of a bot's controller

    What the controller does between events, [temporal-workflow/src/workflows/bots/
    controller.rs]: one task that acts on emissions, keeps the sessions, dispatches and parks,
    with the lanes beside it. An execution is the loop and its lanes over one state, and their
    steps interleave with signals and the clock. *)
From Stdlib Require Import Ascii ZArith.
From S2P Require Import Prelude Ids Text Types Commands Externals Codec WorkflowTools Bindings.
From S2P Require Import BotState BotController BotActivities BotTasks.
Set Primitive Projections.

(** How an execution ends. *)
Module RunEnd.
Inductive RunEnd : Type :=
| Completed
| ContinueAsNew (args : BotControllerArgs).
End RunEnd.
Abbreviation RunEnd := RunEnd.RunEnd.

Section loop.
Context `{!Externals} `{!Calendar}.
Variable workflow_id : string.
Implicit Types self : ControllerState.

(** ** Emissions *)
Definition pop_emission self : option EmissionEnvelope * ControllerState :=
  match self.(ControllerState.emission_inbox) with
  | [] => (None, self)
  | envelope :: inbox => (Some envelope, self <| ControllerState.emission_inbox := inbox |>)
  end.
Definition act_on (disposition : EmissionDisposition) : Task unit :=
  match disposition with
  | EmissionDisposition.Foreign message => modify (record_error message)
  | EmissionDisposition.Invocation _ invocation holder_workflow_id =>
      modify (λ self, self <| ControllerState.pending_invocations ::= λ pending,
        pending ++ [{| PendingInvocation.invocation := invocation;
                       PendingInvocation.holder_workflow_id := holder_workflow_id |}] |>)
  | EmissionDisposition.Terminal session_id run_id token status failure_message_ref =>
      awaited ← state (lane_awaits_terminal_from session_id token);
      if negb awaited then mret tt
      else
        reconcile_run run_id session_id;;
        modify (λ self, (attach_terminal token
          {| LaneTerminal.status := status;
             LaneTerminal.run_id := run_id;
             LaneTerminal.failure_message_ref := failure_message_ref;
             LaneTerminal.dead_session := None |} self).2)
  | EmissionDisposition.Ignore => mret tt
  end.
Definition process_emissions : Task unit :=
  while
    (envelope ← update pop_emission;
     match envelope with
     | None => mret false
     | Some envelope =>
         disposition ← update (classify_emission envelope);
         match disposition with
         | None => mret tt
         | Some disposition => act_on disposition
         end;;
         mret true
     end).
Definition take_invocations self : list PendingInvocation * ControllerState :=
  (self.(ControllerState.pending_invocations),
   self <| ControllerState.pending_invocations := [] |>).
Definition spawn_invocation_lanes : Task unit :=
  pending ← update take_invocations;
  each pending (λ pending, spawn (handle_invocation workflow_id pending)).

(** ** Sessions *)
(** [for attempt in 0..2]: [first] is [attempt == 0]. *)
Fixpoint reconcile_attempts (attempts : nat) (first : bool) : Task unit :=
  match attempts with
  | O => mret tt
  | S attempts =>
      let degrade message := now ← clock; modify (mark_session_degraded message now) in
      request ← state (λ self,
        ensure_request workflow_id self (main_session_id self) (bot_label self)
          (applied_revision_for_ensure self) None None);
      result ← call (ensure_session request);
      match result with
      | Ok (BotEnsureSessionResult.Ready profile_revision _) =>
          modify (mark_session_ready profile_revision)
      | Ok (BotEnsureSessionResult.DeclarationMismatch message
           | BotEnsureSessionResult.ProfileUnapplicable message) =>
          rotated ← (if first then update rotate_main_for_reconcile else mret false);
          if (rotated : bool) then reconcile_attempts attempts false else degrade message
      | Ok (BotEnsureSessionResult.SessionDead message) =>
          main ← state main_session_id;
          spent ← state ControllerState.reconcile_rotated;
          rolled ← (if first && negb spent then roll_forward main BotSessionStatus.Failed
                    else mret false);
          if (rolled : bool) then
            modify (λ self, self <| ControllerState.reconcile_rotated := true |>);;
            reconcile_attempts attempts false
          else degrade message
      | Err message => degrade message
      end
  end.
Definition reconcile_session : Task unit := reconcile_attempts 2 true.
Definition reconcile_unless_busy : Task unit :=
  ready ← state ControllerState.session_ready;
  if negb ready then reconcile_session
  else
    main ← state main_session_id;
    status ← read_session_status main;
    match status with
    | Ok (BotSessionStatus.Busy _) =>
        now ← clock;
        modify (λ self, self <| ControllerState.reconcile_retry_at_ms :=
                                  Some (add_i64 now BOT_BUSY_RETRY_DELAY) |>)
    | Ok status =>
        if BotSessionStatus_is_dead status then
          rolled_forward ← roll_forward main status;
          if negb rolled_forward then
            now ← clock; modify (mark_session_degraded (dead_session_message main status) now)
          else reconcile_session
        else reconcile_session
    | Err _ => reconcile_session
    end.
Definition fail_dead_lane (session : BotDeadSession) : Task unit :=
  let session_id := session.(BotDeadSession.session_id) in
  let status := session.(BotDeadSession.status) in
  let message := dead_session_message session_id status
    +:+ "; the run reported no end and may have partly happened" in
  failed ← update (fail_lane_on_dead_session session_id message);
  if (failed : bool) then _ ← roll_forward session_id status; mret tt else mret tt.
Definition sweep_dead_sessions : Task unit :=
  now ← clock;
  session_ids ← update (take_dead_session_sweep now);
  match session_ids with
  | [] => mret tt
  | _ =>
      universe_id ← state universe_of;
      dead ← call (read_dead_sessions
        {| BotReadDeadSessionsRequest.universe_id := universe_id;
           BotReadDeadSessionsRequest.session_ids := session_ids |});
      match dead with
      | Err message => modify (record_error ("read dead sessions: " +:+ message))
      | Ok result => each result.(BotReadDeadSessionsResult.dead) fail_dead_lane
      end
  end.
Definition rotation_targets (now : Z) self : list string * ControllerState :=
  if bool_decide (self.(ControllerState.rotation_requests) = ∅)
  then ([], self <| ControllerState.rotation_retry_at_ms := None |>)
  else
    match self.(ControllerState.rotation_retry_at_ms) with
    | Some retry_at =>
        if (now <? retry_at)%Z then ([], self)
        else (btree_elements self.(ControllerState.rotation_requests), self)
    | None => (btree_elements self.(ControllerState.rotation_requests), self)
    end.
Definition drop_request (target : string) self : ControllerState :=
  self <| ControllerState.rotation_requests ::= λ ids, ids ∖ {[target]} |>.
Definition rotated_session (target : string) (is_main : bool) self : ControllerState :=
  let self := self <| ControllerState.budget_roots ::= λ roots, {[target]} ∪ roots |> in
  let self := drop_request target self <| ControllerState.last_error := None |> in
  if is_main then rotate_main_session true self else forget_routed_session target self.
(** Whether some target is to be tried again. *)
Fixpoint rotate_each (targets : list string) (retry : bool) : Task bool :=
  match targets with
  | [] => mret retry
  | target :: targets =>
      '(is_main, is_routed, busy) ← state (λ self,
        (bool_decide (target = main_session_id self), is_some (extra_session target self),
         is_session_busy target self));
      if negb is_main && negb is_routed then
        modify (drop_request target);; rotate_each targets retry
      else if (busy : bool) then rotate_each targets true
      else
        closed ← close_session target false;
        if negb closed then rotate_each targets true
        else modify (rotated_session target is_main);; rotate_each targets retry
  end.
Definition rotate_requested_sessions : Task unit :=
  now ← clock;
  targets ← update (rotation_targets now);
  match targets with
  | [] => mret tt
  | _ =>
      retry ← rotate_each targets false;
      modify (λ self, self <| ControllerState.rotation_retry_at_ms :=
        if (retry : bool) then Some (add_i64 now ROTATION_RETRY_DELAY_MS) else None |>)
  end.
Definition sweep_routed_sessions : Task unit :=
  now ← clock;
  expired ← state (expired_sessions now);
  each expired (λ session_id,
    closed ← close_session session_id false;
    modify (if (closed : bool) then forget_routed_session session_id
            else touch_session session_id now)).

(** ** Budget and names *)
Definition descendants_request (now : Z) self
    : option BotCountDescendantsRequest * ControllerState :=
  let self := roll_budget_day now self in
  if negb (descendants_refresh_due now self) then (None, self)
  else
    let '(session_ids, self) := budget_root_ids self in
    let self := self <| ControllerState.descendants_refreshed_at_ms := now |>
                     <| ControllerState.descendants_refreshed_processed :=
                          Some self.(ControllerState.events_processed) |> in
    (Some {| BotCountDescendantsRequest.universe_id := universe_of self;
             BotCountDescendantsRequest.session_ids := session_ids;
             BotCountDescendantsRequest.since_ms :=
               day_start_ms self.(ControllerState.run_day) |}, self).
Definition refresh_descendants_today : Task unit :=
  now ← clock;
  request ← update (descendants_request now);
  match request with
  | None => mret tt
  | Some request =>
      counted ← call (count_descendants request);
      match counted with
      | Ok counted =>
          modify (λ self, self <| ControllerState.descendants_today :=
                                    counted.(BotCountDescendantsResult.count) |>)
      | Err message => modify (record_error message)
      end
  end.
Definition rename_targets self : list (string * string) * ControllerState :=
  let self := self <| ControllerState.rename_dirty := false |> in
  ((main_session_id self, bot_label self)
     :: ((λ session, (session.(ControlledSession.session_id),
                      routed_label session.(ControlledSession.label) self))
           <$> self.(ControllerState.extra_sessions)), self).
Definition apply_display_name : Task unit :=
  targets ← update rename_targets;
  universe_id ← state universe_of;
  each targets (λ '(session_id, display_name),
    best_effort (rename_session
      {| BotRenameSessionRequest.universe_id := universe_id;
         BotRenameSessionRequest.session_id := session_id;
         BotRenameSessionRequest.display_name := Some display_name |})).

(** ** Teardown *)
Definition archive_request (universe_id : Uuid) (bot_id : string) (event_ids : list string)
    : BotRecordOutcomesRequest :=
  {| BotRecordOutcomesRequest.universe_id := universe_id;
     BotRecordOutcomesRequest.bot_id := bot_id;
     BotRecordOutcomesRequest.event_ids := event_ids;
     BotRecordOutcomesRequest.outcome := BotEventOutcome.Archived;
     BotRecordOutcomesRequest.detail := Some "bot_closed";
     BotRecordOutcomesRequest.run_id := None |}.
Definition clear_queue self : ControllerState :=
  self <| ControllerState.pending_deliveries := [] |> <| ControllerState.buffers := ∅ |>.
Definition teardown : Task unit :=
  modify (λ self, self <| ControllerState.closing := true |>);;
  '(universe_id, bot_id, event_ids) ← state (λ self,
    (universe_of self, bot_of self, teardown_event_ids self));
  (if bool_decide (event_ids = []) then mret tt
   else best_effort (record_outcomes (archive_request universe_id bot_id event_ids)));;
  modify clear_queue;;
  sessions ← state teardown_sessions;
  each sessions (λ session_id, _ ← close_session session_id true; mret tt);;
  best_effort (record_closed
    {| BotRecordClosedRequest.universe_id := universe_id;
       BotRecordClosedRequest.bot_id := bot_id;
       BotRecordClosedRequest.sessions := sessions |});;
  modify (λ self, self <| ControllerState.closed_done := true |>).

(** ** The loop *)
Definition tick_clock : Task unit :=
  now ← clock;
  modify (λ self, self <| ControllerState.clock_ms ::= Z.max now |>).
Definition lane_for (action : DispatchAction) : Task unit :=
  match action with
  | DispatchAction.Lane delivery target => run_delivery workflow_id delivery target
  | DispatchAction.Sidecar delivery target => run_busy_sidecar delivery target
  end.
Definition start_deliveries : Task unit :=
  enabled ← state (λ self, self.(ControllerState.config).(BotControllerConfig.enabled));
  if negb enabled then mret tt
  else
    now ← clock;
    actions ← update (dispatch now);
    each actions (λ action, spawn (lane_for action)).
Definition continue_args self : BotControllerArgs :=
  {| BotControllerArgs.config := self.(ControllerState.config);
     BotControllerArgs.carry := Some (ControllerState_carry self) |}.
(** Wait for state to act on or the deadline, whichever is first. *)
Definition park : Task unit :=
  now ← clock;
  '(lane_tick, event_tick, deadline) ← state (λ self,
    (self.(ControllerState.lane_tick), self.(ControllerState.event_tick),
     wake_deadline now self));
  let timer := (λ deadline, now + Z.max (sub_i64 deadline now) 1)%Z <$> deadline in
  WaitFor (wake_ready lane_tick event_tick) timer (Return tt).
(** One pass of the loop up to where it may end. *)
Definition serve : Task unit :=
  process_emissions;;
  spawn_invocation_lanes;;
  sweep_dead_sessions;;
  rotate_requested_sessions;;
  now ← clock;
  modify (flush_ripe_buffers now);;
  sweep_routed_sessions;;
  refresh_descendants_today;;
  rename ← state ControllerState.rename_dirty;
  (if (rename : bool) then apply_display_name else mret tt);;
  now ← clock;
  due ← state (reconcile_due now);
  (if (due : bool) then reconcile_unless_busy else mret tt);;
  start_deliveries.
(** What a pass comes to: another pass, or the end of the execution. [suggested] is what the
    server suggests. *)
Definition loop_pass (suggested : bool) : Task (option RunEnd) :=
  tick_clock;;
  closing ← state close_requested;
  if (closing : bool) then teardown;; mret (Some RunEnd.Completed)
  else
    serve;;
    polled ← Polled Return;
    rolled ← state (λ self,
      if can_continue_as_new suggested polled self
      then Some (RunEnd.ContinueAsNew (continue_args self)) else None);
    match rolled with
    | Some ended => mret (Some ended)
    | None => park;; mret None
    end.

(** ** Signals *)
Definition observe_clock (now : Z) self : ControllerState :=
  self <| ControllerState.clock_ms ::= λ clock_ms, Z.max clock_ms now |>.
Definition bot_event (event : BotEvent) (now : Z) self : ControllerState :=
  match accept_event event now (observe_clock now self) with
  | (Ok _, self) => self
  | (Err message, self) => record_error ("bot_event rejected: " +:+ message) self
  end.
Definition bot_config (next : BotControllerConfig) (now : Z) self : ControllerState :=
  match accept_config next (observe_clock now self) with
  | (Ok _, self) => self
  | (Err message, self) => record_error ("bot_config rejected: " +:+ message) self
  end.
Definition bot_session_rotate (session_id : string) (now : Z) self : ControllerState :=
  request_rotation session_id (observe_clock now self).
(** [deliver_emission]; one that does not decode is dropped. *)
Definition deliver_emission_signal (envelope : option EmissionEnvelope) (now : Z) self
    : ControllerState :=
  match envelope with
  | Some envelope => queue_emission envelope (observe_clock now self)
  | None => observe_clock now self
  end.
End loop.
