(* ===== verification/BotExecution.v ===== *)
(** * Executions of a bot's controller

    The loop and its lanes over one state, interleaved with signals, activities of any result,
    and the clock ([step]); and an accounting of events over it: every task is checked, once, to
    pass on the events in its hands ([holds]). *)
From Stdlib Require Import Ascii ZArith.
From S2P Require Import Prelude Ids Text Types Commands Externals Codec WorkflowTools Bindings.
From S2P Require Import BotState BotController BotActivities BotTasks BotLoop.
Set Primitive Projections.

(** ** Steps of a task *)
Module World.
Record World : Type := {
  state : ControllerState;
  now : Z;
  (** The events whose outcomes [record_outcomes] has been asked to write. *)
  recorded : list string;
}.
End World.
Abbreviation World := World.World.
#[export] Instance set_World_state : Setter World.state := ltac:(solve_setter World.state).
#[export] Instance set_World_now : Setter World.now := ltac:(solve_setter World.now).
#[export] Instance set_World_recorded : Setter World.recorded :=
  ltac:(solve_setter World.recorded).

Definition recorded_by {B : Type} (activity : Activity B) : list string :=
  match activity with
  | record_outcomes request => request.(BotRecordOutcomesRequest.event_ids)
  | _ => []
  end.
(** [task_step polled w t w' t' spawned]: with [polled] lanes beside it. *)
Inductive task_step {A : Type} (polled : nat) (w : World)
    : Task A → World → Task A → list (Task unit) → Prop :=
| Step_update B (f : ControllerState → B * ControllerState) k :
    task_step polled w (Update f k) (w <| World.state := (f w.(World.state)).2 |>)
      (k (f w.(World.state)).1) []
| Step_clock k : task_step polled w (Clock k) w (k w.(World.now)) []
| Step_call B (activity : Activity B) k result :
    task_step polled w (Call activity k)
      (w <| World.recorded ::= λ all, all ++ recorded_by activity |>) (k result) []
| Step_wait ready timer k :
    ready w.(World.state) = true ∨ (∃ t, timer = Some t ∧ (t <= w.(World.now))%Z) →
    task_step polled w (WaitFor ready timer k) w k []
| Step_while body k :
    task_step polled w (While body k) w
      (task_bind (λ again, if (again : bool) then While body k else k) body) []
| Step_spawn lane k : task_step polled w (Spawn lane k) w k [lane]
| Step_polled k : task_step polled w (Polled k) w (k polled) [].

(** ** Steps of an execution *)
Module Execution.
Record Execution : Type := {
  world : World;
  loop : Task (option RunEnd);
  lanes : list (Task unit);
  (** The events accepted so far, those carried in included. *)
  accepted : list string;
}.
End Execution.
Abbreviation Execution := Execution.Execution.

Section execution.
Context `{Ext : !Externals} `{Cal : !Calendar}.
Variable workflow_id : string.
Implicit Types (s : ControllerState) (w : World) (e : Execution) (ids : list string).

(** The events of a delivery, and those waiting in the queue and in buffers. *)
Definition in_queue s : list string :=
  (s.(ControllerState.pending_deliveries) ≫= BotDelivery_event_ids)
  ++ (btree_values s.(ControllerState.buffers)
        ≫= λ buffer, BotEvent.id <$> buffer.(CoalesceBuffer.events)).
(** The id of an event that is taken in: valid and not seen. *)
Definition admitted (event : BotEvent) s : list string :=
  if is_ok (validate_event event)
     && negb (SeenIds_contains event.(BotEvent.id) s.(ControllerState.seen_event_ids))
  then [event.(BotEvent.id)] else [].

Definition signalled w (f : Z → ControllerState → ControllerState) : World :=
  w <| World.state := f w.(World.now) w.(World.state) |>.

(** [max_count] is a [u32]. *)
Definition typed_event (event : BotEvent) : Prop :=
  ∀ params, event.(BotEvent.coalesce) = Some params →
    (params.(BotCoalesceParams.max_count) <= u32_max)%N.

Inductive step e : Execution → Prop :=
| Step_event event :
    typed_event event →
    step e {| Execution.world := signalled e.(Execution.world) (bot_event event);
              Execution.loop := e.(Execution.loop);
              Execution.lanes := e.(Execution.lanes);
              Execution.accepted :=
                admitted event e.(Execution.world).(World.state) ++ e.(Execution.accepted) |}
| Step_signal f :
    (∃ next, f = bot_config next) ∨ (∃ id, f = bot_session_rotate id)
      ∨ (∃ envelope, f = deliver_emission_signal envelope) →
    step e {| Execution.world := signalled e.(Execution.world) f;
              Execution.loop := e.(Execution.loop);
              Execution.lanes := e.(Execution.lanes);
              Execution.accepted := e.(Execution.accepted) |}
| Step_time now :
    (e.(Execution.world).(World.now) <= now)%Z →
    step e {| Execution.world := e.(Execution.world) <| World.now := now |>;
              Execution.loop := e.(Execution.loop);
              Execution.lanes := e.(Execution.lanes);
              Execution.accepted := e.(Execution.accepted) |}
| Step_loop w' loop' spawned :
    task_step (length e.(Execution.lanes)) e.(Execution.world) e.(Execution.loop) w' loop'
      spawned →
    step e {| Execution.world := w';
              Execution.loop := loop';
              Execution.lanes := e.(Execution.lanes) ++ spawned;
              Execution.accepted := e.(Execution.accepted) |}
| Step_pass suggested :
    e.(Execution.loop) = Return None →
    step e {| Execution.world := e.(Execution.world);
              Execution.loop := loop_pass workflow_id suggested;
              Execution.lanes := e.(Execution.lanes);
              Execution.accepted := e.(Execution.accepted) |}
| Step_lane before lane after w' lane' spawned :
    e.(Execution.lanes) = before ++ lane :: after →
    task_step (length e.(Execution.lanes)) e.(Execution.world) lane w' lane' spawned →
    step e {| Execution.world := w';
              Execution.loop := e.(Execution.loop);
              Execution.lanes := (before ++ lane' :: after) ++ spawned;
              Execution.accepted := e.(Execution.accepted) |}
| Step_lane_done before after :
    e.(Execution.lanes) = before ++ Return tt :: after →
    step e {| Execution.world := e.(Execution.world);
              Execution.loop := e.(Execution.loop);
              Execution.lanes := before ++ after;
              Execution.accepted := e.(Execution.accepted) |}.

(** An execution starts with the lanes its predecessor handed on. *)
Definition started (args : BotControllerArgs) (now : Z) : Execution :=
  let state := ControllerState_new args now in
  let waiting := waiting_lanes state in
  {| Execution.world := {| World.state := state; World.now := now; World.recorded := [] |};
     Execution.loop := Return None;
     Execution.lanes := resume_run_wait <$> waiting;
     Execution.accepted :=
       in_queue state ++ (waiting ≫= λ lane, BotDelivery_event_ids lane.(WaitingLane.delivery)) |}.
Definition is_closing e : bool :=
  e.(Execution.world).(World.state).(ControllerState.closing).
(** Reached while the bot is not closing. *)
Inductive runs (args : BotControllerArgs) (now : Z) : Execution → Prop :=
| Runs_start : runs args now (started args now)
| Runs_step e e' : runs args now e → step e e' → is_closing e' = false → runs args now e'.

(** ** Accounting *)
(** [holds t ids Q]: a task with [ids] in its hands loses none of them while the bot does not
    close: it queues them, records them, gives them to a lane, or still has them at the end,
    where [Q] tells which. *)
Fixpoint holds {A : Type} (t : Task A) (ids : list string) (Q : A → list string → Prop) : Prop :=
  match t with
  | Return value => Q value ids
  | Update f k => ∀ s, s.(ControllerState.closing) = false →
      (f s).2.(ControllerState.closing) = true
      ∨ ∃ ids', in_queue s ++ ids ≡ₚ in_queue (f s).2 ++ ids' ∧ holds (k (f s).1) ids' Q
  | Clock k => ∀ now, holds (k now) ids Q
  | Call activity k => ∃ ids', ids ≡ₚ recorded_by activity ++ ids' ∧
      ∀ result, holds (k result) ids' Q
  | WaitFor _ _ k => holds k ids Q
  | While body k => holds body ids (λ _ ids', ids' = ids) ∧ holds k ids Q
  | Spawn lane k => ∃ given ids', ids ≡ₚ given ++ ids' ∧
      holds lane given (λ _ ids', ids' = []) ∧ holds k ids' Q
  | Polled k => ∀ polled, holds (k polled) ids Q
  end.

Lemma holds_mono {A : Type} (t : Task A) ids (Q Q' : A → list string → Prop) :
  (∀ a ids', Q a ids' → Q' a ids') → holds t ids Q → holds t ids Q'.
Proof.
  intros HQ. revert ids. induction t as [A v|A B f k IH|A k IH|A B a k IH|A r m k IH
    |A body _ k IH|A lane _ k IH|A k IH]; intros ids; simpl; eauto.
  - intros H s Hs. destruct (H s Hs) as [?|(ids' & ? & ?)]; eauto 10.
  - intros (ids' & ? & ?). eauto 10.
  - intros [? ?]. eauto.
  - intros (given & ids' & ? & ? & ?). eauto 10.
Qed.
Lemma holds_bind {A B : Type} (t : Task A) (f : A → Task B) ids (Q : B → list string → Prop) :
  holds t ids (λ a ids', holds (f a) ids' Q) → holds (t ≫= f) ids Q.
Proof.
  unfold mbind, Task_bind. revert ids. induction t as [A v|A C g k IH|A k IH|A C a k IH
    |A r m k IH|A body _ k IH|A lane _ k IH|A k IH]; intros ids; simpl; eauto.
  - intros H s Hs. destruct (H s Hs) as [?|(ids' & ? & ?)]; eauto 10.
  - intros (ids' & ? & ?). eauto 10.
  - intros [? ?]. eauto.
  - intros (given & ids' & ? & ? & ?). eauto 10.
Qed.

(** ** Steps and accounting *)
(** The lanes of an execution, each with what it has in hand. *)
Definition hold_all (hands : list (list string)) (lanes : list (Task unit)) : Prop :=
  Forall2 (λ ids lane, holds lane ids (λ _ ids', ids' = [])) hands lanes.

Lemma task_step_holds {A : Type} polled w (t : Task A) w' t' spawned ids Q :
  task_step polled w t w' t' spawned → holds t ids Q →
  w.(World.state).(ControllerState.closing) = false →
  w'.(World.state).(ControllerState.closing) = true
  ∨ ∃ ids' hands, holds t' ids' Q ∧ hold_all hands spawned
      ∧ in_queue w.(World.state) ++ ids ++ w.(World.recorded)
          ≡ₚ in_queue w'.(World.state) ++ ids' ++ concat hands ++ w'.(World.recorded).
Proof.
  intros St H Hc. destruct St as [B f k|k|B activity k result|ready timer k Hr|body k|lane k|k];
    simpl in H.
  - destruct (H _ Hc) as [?|(ids' & P & H')]; [by left|right].
    exists ids', []. split_and!; [done|constructor|]. cbn.
    by rewrite !(assoc_L (++)), P.
  - right. exists ids, []. split_and!; [done|constructor|done].
  - destruct H as (ids' & P & H). right. exists ids', [].
    split_and!; [done|constructor|]. cbn. rewrite P. solve_Permutation.
  - right. exists ids, []. split_and!; [done|constructor|done].
  - destruct H as [Hb Hk]. right. exists ids, []. split_and!; [|constructor|done].
    apply holds_bind. eapply holds_mono, Hb. intros [] ids' ->; [|done]. by split.
  - destruct H as (given & ids' & P & Hl & Hk). right. exists ids', [given].
    split_and!; [done|by repeat constructor|]. cbn. rewrite P, app_nil_r. solve_Permutation.
  - right. exists ids, []. split_and!; [apply H|constructor|done].
Qed.

(** What a task leaves the queue and its own hands as they are. *)
Definition quiet {A : Type} (t : Task A) : Prop := ∀ ids, holds t ids (λ _ ids', ids' = ids).
Definition neutral (f : ControllerState → ControllerState) : Prop :=
  ∀ s, in_queue (f s) ≡ₚ in_queue s.

Lemma quiet_holds {A : Type} (t : Task A) ids (Q : A → list string → Prop) :
  quiet t → (∀ a, Q a ids) → holds t ids Q.
Proof. intros H HQ. eapply holds_mono, H. by intros a ids' ->. Qed.
Lemma quiet_holds_bind {A B : Type} (t : Task A) (f : A → Task B) ids Q :
  quiet t → (∀ a, holds (f a) ids Q) → holds (t ≫= f) ids Q.
Proof. intros H Hf. apply holds_bind, quiet_holds; auto. Qed.
Lemma quiet_ret {A : Type} (a : A) : quiet (mret a).
Proof. by intros ids. Qed.
Lemma quiet_bind {A B : Type} (t : Task A) (f : A → Task B) :
  quiet t → (∀ a, quiet (f a)) → quiet (t ≫= f).
Proof. intros H Hf ids. apply quiet_holds_bind; [done|]. intros a. apply Hf. Qed.
Lemma quiet_clock : quiet clock.
Proof. by intros ids now. Qed.
Lemma quiet_call {B : Type} (activity : Activity B) :
  recorded_by activity = [] → quiet (call activity).
Proof. intros E ids. exists ids. rewrite E. by split. Qed.
Lemma quiet_update {B : Type} (f : ControllerState → B * ControllerState) :
  neutral (λ s, (f s).2) → quiet (update f).
Proof. intros N ids s _. right. exists ids. cbn. split; [by rewrite (N s)|done]. Qed.
Lemma quiet_state {B : Type} (f : ControllerState → B) : quiet (state f).
Proof. intros ids s _. right. exists ids. by split. Qed.
Lemma quiet_modify f : neutral f → quiet (modify f).
Proof. intros N ids s _. right. exists ids. cbn. split; [by rewrite (N s)|done]. Qed.
Lemma quiet_wait ready timer : quiet (WaitFor ready timer (Return tt)).
Proof. by intros ids. Qed.
Lemma quiet_while body : quiet body → quiet (while body).
Proof. intros H ids. split; [apply H|done]. Qed.
Lemma quiet_polled : quiet (Polled Return).
Proof. by intros ids polled. Qed.
Lemma quiet_each {A : Type} (l : list A) f : (∀ x, quiet (f x)) → quiet (each l f).
Proof.
  intros H. induction l as [|x l IH]; [apply quiet_ret|]. by apply quiet_bind.
Qed.
Lemma quiet_spawn lane : holds lane [] (λ _ ids, ids = []) → quiet (spawn lane).
Proof. intros H ids. exists [], ids. by split_and!. Qed.
Lemma neutral_record message : neutral (record_error message).
Proof. intros s. reflexivity. Qed.
Lemma quiet_best_effort {B : Type} (activity : Activity B) :
  recorded_by activity = [] → quiet (best_effort activity).
Proof.
  intros E. apply quiet_bind; [by apply quiet_call|]. intros [|message]; [apply quiet_ret|].
  apply quiet_modify, neutral_record.
Qed.
End execution.

Create HintDb bots discriminated.
#[export] Hint Resolve quiet_ret quiet_clock quiet_state quiet_polled quiet_wait neutral_record
  : bots.
(** An update that leaves the queue as it is: by a hint, or by computation. *)
Ltac neutral := first [by auto with bots|intros ?; reflexivity].
(** Descends a task that changes neither queue nor hands. *)
Ltac quiet :=
  repeat first
    [ progress (intros; cbn beta iota)
    | by auto with bots
    | apply quiet_bind | apply quiet_while | apply quiet_each
    | apply quiet_best_effort; reflexivity | apply quiet_call; reflexivity
    | apply quiet_update; by neutral | apply quiet_modify; by neutral
    | case_match ].
