(* ===== verification/BotAccounting.v ===== *)
(** * No event of a bot is lost

    Every task of the controller passes on the events in its hands, so over any execution an
    accepted event is queued, in a lane's hands, or recorded with an outcome, and only once. *)
From Stdlib Require Import Ascii ZArith.
From S2P Require Import Prelude Ids Text Types Commands Externals Codec WorkflowTools Bindings.
From S2P Require Import BotState BotController BotLaws BotInvariant BotActivities BotTasks.
From S2P Require Import BotLoop BotExecution BotExample.
Set Primitive Projections.

Section accounting.
Context `{Ext : !Externals} `{Cal : !Calendar}.
Variable workflow_id : string.
Implicit Types (s : ControllerState) (d : BotDelivery) (ids : list string).

(** ** What operations do to the queue *)
Lemma neutral_observe session_id routed now :
  neutral (λ s, (observe_routed_session session_id routed now s).2).
Proof.
  intros s. unfold observe_routed_session. destruct (extra_session _ _); reflexivity.
Qed.
Lemma neutral_forget session_id : neutral (forget_routed_session session_id).
Proof. intros s. unfold forget_routed_session. destruct (bot_session_kind _); reflexivity. Qed.
Lemma neutral_rotate_main reset : neutral (rotate_main_session reset).
Proof. intros s. destruct reset; reflexivity. Qed.
Lemma neutral_roll_forward session_id : neutral (roll_session_forward session_id).
Proof.
  intros s. unfold roll_session_forward. case_bool_decide; [|reflexivity].
  etrans; [apply neutral_rotate_main|reflexivity].
Qed.
Lemma neutral_roll_day now : neutral (roll_budget_day now).
Proof. intros s. unfold roll_budget_day. case_bool_decide; reflexivity. Qed.
Lemma neutral_started session_id run_id now : neutral (mark_lane_started session_id run_id now).
Proof.
  intros s. unfold mark_lane_started. etrans; [apply (neutral_roll_day now)|]. reflexivity.
Qed.
Lemma neutral_attach token terminal : neutral (λ s, (attach_terminal token terminal s).2).
Proof. intros s. unfold attach_terminal. cbn. destruct (existsb _ _); reflexivity. Qed.
Lemma neutral_sweep now : neutral (λ s, (take_dead_session_sweep now s).2).
Proof.
  intros s. unfold take_dead_session_sweep. by destruct (match _ with Some _ => _ | None => _ end).
Qed.
Lemma neutral_fail_lane session_id message :
  neutral (λ s, (fail_lane_on_dead_session session_id message s).2).
Proof.
  intros s. unfold fail_lane_on_dead_session. destruct (_ !! _) as [lane|]; [|reflexivity].
  destruct (ActiveLane.run_id lane), (ActiveLane.terminal lane); reflexivity.
Qed.
Lemma neutral_rekey from to : neutral (rekey_lane from to).
Proof. intros s. unfold rekey_lane. destruct (_ !! from); reflexivity. Qed.
Lemma neutral_release_lane session_id now : neutral (release_lane session_id now).
Proof.
  intros s. unfold release_lane. destruct (lanes_awaiting_terminal _); reflexivity.
Qed.
Lemma neutral_release_sidecar session_id now : neutral (release_sidecar session_id now).
Proof. intros s. reflexivity. Qed.
Lemma neutral_finish session_id now recent :
  neutral (λ s, release_lane session_id now (remember_delivery recent s)).
Proof. intros s. etrans; [apply neutral_release_lane|]. reflexivity. Qed.
Lemma neutral_classify envelope : neutral (λ s, (classify_emission envelope s).2).
Proof.
  intros s. unfold classify_emission. destruct (SeenIds_insert _ _) as [[] seen]; [|reflexivity].
  cbn. destruct (disposition_of _ _ _); try reflexivity.
  destruct (SeenIds_insert _ _); reflexivity.
Qed.
Lemma neutral_rotate_reconcile : neutral (λ s, (rotate_main_for_reconcile s).2).
Proof.
  intros s. unfold rotate_main_for_reconcile.
  destruct (ControllerState.reconcile_rotated s); reflexivity.
Qed.
Lemma neutral_accept_config next : neutral (λ s, (accept_config next s).2).
Proof.
  intros s. unfold accept_config. destruct (_ || _); [reflexivity|]. destruct (negb _); reflexivity.
Qed.

Lemma in_queue_flush key : neutral (flush_buffer key).
Proof.
  intros s. unfold flush_buffer. destruct (_ !! key) as [buffer|] eqn:E; [|reflexivity].
  pose proof (btree_values_delete _ _ _ E) as P. unfold in_queue.
  destruct (CoalesceBuffer.events buffer) as [|event events] eqn:Ev; cbn.
  - rewrite <-P. cbn. by rewrite Ev.
  - rewrite <-P, bind_app. cbn. unfold BotDelivery_event_ids at 2. cbn. rewrite Ev.
    cbn. rewrite app_nil_r, <-app_assoc. done.
Qed.
Lemma in_queue_flush_ripe now : neutral (flush_ripe_buffers now).
Proof.
  intros s. unfold flush_ripe_buffers. generalize (filter (λ entry : string * CoalesceBuffer,
    CoalesceBuffer_is_ripe entry.2 now = true) (btree_to_list s.(ControllerState.buffers))).*1.
  intros keys. revert s. induction keys as [|key keys IH]; intros s; [reflexivity|].
  cbn [foldl]. rewrite IH. apply in_queue_flush.
Qed.
Lemma in_queue_requeue_front d t s : in_queue (requeue_front d t s) = BotDelivery_event_ids d ++ in_queue s.
Proof. unfold in_queue. cbn. by rewrite <-app_assoc. Qed.
Lemma in_queue_requeue_lane target d t s :
  in_queue (requeue_lane target d t s) = BotDelivery_event_ids d ++ in_queue s.
Proof. exact (in_queue_requeue_front d t s). Qed.

Lemma graph_buffers now W kept rest s actions s' :
  Dispatches now W kept rest s actions s' →
  s'.(ControllerState.buffers) = s.(ControllerState.buffers).
Proof.
  assert (∀ s, (roll_budget_day now s).(ControllerState.buffers) = s.(ControllerState.buffers))
    as R by (intros; unfold roll_budget_day; by case_bool_decide).
  induction 1; try done; by rewrite <-(R s).
Qed.
Definition ids_of (actions : list DispatchAction) : list string :=
  actions ≫= λ action, BotDelivery_event_ids (action_delivery action).
Lemma in_queue_dispatch now s :
  in_queue s ≡ₚ ids_of (dispatch now s).1 ++ in_queue (dispatch now s).2.
Proof.
  pose proof (dispatch_from_graph now ∅ [] s.(ControllerState.pending_deliveries) s) as G.
  fold (dispatch now s) in G.
  destruct (graph_partition _ _ _ _ _ _ _ G) as (left & E & _ & _ & P).
  apply graph_buffers in G. unfold in_queue. rewrite G, E, app_assoc. f_equiv.
  rewrite P, bind_app. cbn [app]. unfold ids_of. by rewrite list_fmap_bind.
Qed.

(** A valid new event joins the queue or its buffer. *)
Lemma in_queue_buffer_event params event now s :
  in_queue (buffer_event params event now s) ≡ₚ event.(BotEvent.id) :: in_queue s.
Proof.
  unfold buffer_event. set (buffer := joined_buffer params event now s).
  set (s' := s <| ControllerState.buffers ::= _ |>).
  assert (in_queue s' ≡ₚ event.(BotEvent.id) :: in_queue s) as P.
  { unfold in_queue, s'. cbn. rewrite Permutation_middle. f_equiv; [done|].
    rewrite btree_values_replace. unfold buffer, joined_buffer. cbn. rewrite fmap_app. cbn.
    destruct (s.(ControllerState.buffers) !! params.(BotCoalesceParams.key)) as [old|] eqn:E.
    - rewrite <-(btree_values_delete _ _ _ E). cbn. solve_Permutation.
    - rewrite delete_id by done. done. }
  destruct (_ <=? _)%N; [rewrite in_queue_flush|]; done.
Qed.
Lemma in_queue_bot_event event now s :
  in_queue (bot_event event now s) ≡ₚ admitted event s ++ in_queue s.
Proof.
  unfold bot_event, accept_event, admitted, is_ok. destruct (validate_event event) as [|message];
    [|reflexivity]. cbn. unfold SeenIds_insert, SeenIds_contains.
  destruct (decide (event.(BotEvent.id) ∈ s.(ControllerState.seen_event_ids).(SeenIds.set)));
    [by rewrite !bool_decide_true|rewrite !bool_decide_false by done].
  destruct (evict _ _ _) as [order set]. cbn.
  destruct (event.(BotEvent.coalesce)) as [params|].
  - etrans; [apply (in_queue_buffer_event params event now)|reflexivity].
  - cbn. rewrite bind_app. cbn. solve_Permutation.
Qed.

(** ** Tasks that move no event *)
#[local] Hint Resolve neutral_observe neutral_forget neutral_rotate_main neutral_roll_forward
  neutral_roll_day neutral_started neutral_attach neutral_sweep neutral_fail_lane neutral_rekey
  neutral_release_lane neutral_release_sidecar neutral_finish neutral_classify
  neutral_rotate_reconcile in_queue_flush_ripe : bots.

Lemma quiet_close_session session_id force : quiet (close_session session_id force).
Proof. unfold close_session. quiet. Qed.
#[local] Hint Resolve quiet_close_session : bots.
Lemma quiet_roll_forward session_id status : quiet (roll_forward session_id status).
Proof. unfold roll_forward. quiet. Qed.
Lemma quiet_read_session_status session_id : quiet (read_session_status session_id).
Proof. unfold read_session_status. quiet. Qed.
Lemma quiet_resolve_from target universe_id invocation :
  quiet (resolve_from target universe_id invocation).
Proof. unfold resolve_from. quiet. Qed.
#[local] Hint Resolve quiet_roll_forward quiet_read_session_status quiet_resolve_from : bots.
Lemma quiet_reconcile_run run_id target : quiet (reconcile_run run_id target).
Proof. unfold reconcile_run. quiet. Qed.
Lemma quiet_send_delivery_receipts d session_id phase run_id outcome summary :
  quiet (send_delivery_receipts d session_id phase run_id outcome summary).
Proof. unfold send_delivery_receipts. quiet. Qed.
Lemma quiet_enforce_extra_session_cap keep : quiet (enforce_extra_session_cap keep).
Proof. unfold enforce_extra_session_cap. quiet. Qed.
Lemma quiet_publish_directory session_id : quiet (publish_directory session_id).
Proof. unfold publish_directory. quiet. Qed.
Lemma quiet_read_run_usage session_id run_id : quiet (read_run_usage session_id run_id).
Proof. unfold read_run_usage. quiet. Qed.
Lemma quiet_steer_run d session_id : quiet (steer_run d session_id).
Proof. unfold steer_run. quiet. Qed.
Lemma quiet_append_events universe_id d session_id :
  quiet (append_events universe_id d session_id).
Proof. unfold append_events. quiet. Qed.
#[local] Hint Resolve quiet_reconcile_run quiet_send_delivery_receipts
  quiet_enforce_extra_session_cap quiet_publish_directory quiet_read_run_usage quiet_steer_run
  quiet_append_events : bots.
Lemma quiet_ensure_attempts attempts first session session_id tools_ref :
  quiet (ensure_attempts workflow_id attempts first session session_id tools_ref).
Proof.
  revert first session_id. induction attempts as [|attempts IH]; intros first session_id;
    cbn [ensure_attempts]; quiet.
Qed.
Lemma quiet_parse_blob_ref value : quiet (parse_blob_ref value).
Proof. unfold parse_blob_ref. quiet. Qed.
#[local] Hint Resolve quiet_ensure_attempts quiet_parse_blob_ref : bots.
Lemma quiet_handle_invocation pending : quiet (handle_invocation workflow_id pending).
Proof. unfold handle_invocation, tool_resolution. quiet. Qed.
#[local] Hint Resolve quiet_handle_invocation : bots.

(** ** Tasks with a delivery in hand *)
Definition done_with (_ : unit) ids : Prop := ids = [].
(** A result says whether the delivery is still to be dealt with. *)
Definition returned d (result : Result string unit) ids : Prop :=
  match result with
  | Ok _ => ids = []
  | Err _ => ids = BotDelivery_event_ids d
  end.
Tactic Notation "skip" "as" simple_intropattern(p) :=
  apply quiet_holds_bind; [by quiet|intros p; cbn beta iota].
Tactic Notation "skip" := skip as ?.

Lemma quiet_done (t : Task unit) : quiet t → holds t [] done_with.
Proof. intros H. apply quiet_holds; [done|]. by intros []. Qed.
Lemma holds_queue ids f :
  (∀ s, in_queue (f s) ≡ₚ ids ++ in_queue s) → holds (modify f) ids done_with.
Proof.
  intros E s _. right. exists []. split; [|done]. cbn [snd].
  rewrite E, app_nil_r. solve_Permutation.
Qed.
Lemma holds_record request :
  holds (best_effort (record_outcomes request)) request.(BotRecordOutcomesRequest.event_ids)
    done_with.
Proof.
  unfold best_effort. apply holds_bind. exists []. split; [by rewrite app_nil_r|].
  by intros [result|message]; [|apply quiet_done; quiet].
Qed.
Lemma holds_settle_delivery d session_id outcome :
  holds (settle_delivery d session_id outcome) (BotDelivery_event_ids d) done_with.
Proof.
  unfold settle_delivery. skip as [universe_id bot_id].
  apply holds_bind. eapply holds_mono, (holds_record (outcomes_of universe_id bot_id d outcome)).
  intros [] ids ->. apply quiet_done. quiet.
Qed.
Lemma holds_finish_delivery session_id d outcome usage :
  holds (finish_delivery session_id d outcome usage) (BotDelivery_event_ids d) done_with.
Proof. unfold finish_delivery. skip. skip. apply holds_settle_delivery. Qed.
Lemma holds_fail_delivery target d message :
  holds (fail_delivery target d message) (BotDelivery_event_ids d) done_with.
Proof. unfold fail_delivery. skip. apply holds_finish_delivery. Qed.
(** A task that deals with the delivery, and then answers. *)
Lemma holds_then {A : Type} (t : Task unit) (a : A) d (Q : A → list string → Prop) :
  holds t (BotDelivery_event_ids d) done_with → Q a [] →
  holds (t;; mret a) (BotDelivery_event_ids d) Q.
Proof. intros H HQ. apply holds_bind. eapply holds_mono, H. by intros [] ids ->. Qed.

Lemma holds_retry_on_successor d target status message :
  holds (retry_on_successor d target status message) (BotDelivery_event_ids d) (returned d).
Proof.
  unfold retry_on_successor. destruct (BotDelivery.rolled_forward d); [done|].
  skip. destruct (negb _); [done|]. skip. apply holds_then; [|done].
  apply holds_queue. intros s. unfold requeue_rolled_forward.
  by rewrite in_queue_requeue_lane.
Qed.
Lemma holds_look_again_later target d :
  holds (look_again_later target d) (BotDelivery_event_ids d) done_with.
Proof.
  unfold look_again_later. skip. apply holds_queue. intros s. by rewrite in_queue_requeue_lane.
Qed.
Lemma holds_wait_for_run_end d target run_id :
  holds (wait_for_run_end d target run_id) (BotDelivery_event_ids d) (returned d).
Proof.
  unfold wait_for_run_end. skip. skip. skip as [[terminal resolution]|]; [|done].
  apply holds_bind, quiet_holds; [by quiet|]. intros usage.
  apply holds_then; [apply holds_finish_delivery|done].
Qed.
Lemma holds_retry_start d target message :
  holds (retry_start d target message) (BotDelivery_event_ids d) (returned d).
Proof.
  unfold retry_start. skip. apply holds_bind. intros s _. right. unfold retry_delivery.
  destruct (_ <=? _)%N.
  - exists (BotDelivery_event_ids d). split; [reflexivity|]. cbn. reflexivity.
  - exists []. split; [|cbn [fst snd negb]; by skip]. cbn [fst snd].
    rewrite in_queue_requeue_lane, app_nil_r. apply Permutation_app_comm.
Qed.
Lemma holds_follow_run d target run_id finished :
  holds (follow_run d target run_id finished) (BotDelivery_event_ids d) (returned d).
Proof.
  unfold follow_run. skip. skip. skip. skip. apply holds_wait_for_run_end.
Qed.
Lemma holds_start_delivery universe_id d target :
  holds (start_delivery universe_id d target) (BotDelivery_event_ids d) (returned d).
Proof.
  unfold start_delivery. skip as [[run_id finished|message|message|message]|message].
  - apply holds_follow_run.
  - apply holds_retry_start.
  - done.
  - apply holds_retry_on_successor.
  - apply holds_retry_start.
Qed.
Lemma holds_steer_delivery d target :
  holds (steer_delivery d target) (BotDelivery_event_ids d) (returned d).
Proof.
  unfold steer_delivery. skip as [[run_id|]|message]; [| |done].
  - apply holds_then; [apply holds_finish_delivery|done].
  - apply holds_then; [apply holds_look_again_later|done].
Qed.
Lemma holds_append_delivery d target :
  holds (append_delivery d target) (BotDelivery_event_ids d) (returned d).
Proof.
  unfold append_delivery. skip. skip. skip as [[]|message].
  - apply holds_then; [apply holds_finish_delivery|done].
  - skip as [status|]; [|done]. destruct (BotSessionStatus_is_dead status); [|done].
    apply holds_retry_on_successor.
Qed.
Lemma holds_run_on_session universe_id d target :
  holds (run_on_session universe_id d target) (BotDelivery_event_ids d) (returned d).
Proof.
  unfold run_on_session. skip as [[| run_id | | |]|message];
    try apply holds_retry_on_successor; [| |done].
  - skip. apply holds_start_delivery.
  - case_bool_decide.
    + skip. apply holds_steer_delivery.
    + apply holds_then; [apply holds_look_again_later|done].
Qed.
Definition settled_on d (settled : Settled) ids : Prop :=
  match settled with
  | Settled.On _ => ids = BotDelivery_event_ids d
  | Settled.Ended _ result => returned d result ids
  end.
Lemma holds_settle_on_session d target first_event :
  holds (settle_on_session workflow_id d target first_event) (BotDelivery_event_ids d)
    (settled_on d).
Proof.
  unfold settle_on_session, ensure_routed_session.
  destruct (BotDelivery.session d) as [session|]; [|done]. skip as [ensured|session_id message|].
  - case_bool_decide; [done|]. by skip.
  - skip. apply holds_bind. eapply holds_mono, holds_retry_on_successor. by intros result ids.
  - skip. apply holds_then; [apply holds_finish_delivery|done].
Qed.
Lemma holds_run_delivery_inner d target :
  holds (run_delivery_inner workflow_id d target) (BotDelivery_event_ids d)
    (λ ended ids, returned d ended.2 ids).
Proof.
  unfold run_delivery_inner. destruct (BotDelivery.events d) as [|first_event events] eqn:E.
  - skip. unfold BotDelivery_event_ids. by rewrite E.
  - skip. apply holds_bind. eapply holds_mono, holds_settle_on_session.
    intros [session|session result] ids H; [|exact H]. cbn in H. subst ids.
    apply holds_bind. case_bool_decide.
    + eapply holds_mono, holds_append_delivery. by intros result ids.
    + eapply holds_mono, holds_run_on_session. by intros result ids.
Qed.
(** A lane deals with its delivery: it ends with no event in hand. *)
Lemma holds_run_delivery d target :
  holds (run_delivery workflow_id d target) (BotDelivery_event_ids d) done_with.
Proof.
  unfold run_delivery. apply holds_bind. eapply holds_mono, holds_run_delivery_inner.
  intros [session [u|message]] ids H; cbn in H; subst ids; [done|apply holds_fail_delivery].
Qed.
Lemma holds_resume_run_wait lane :
  holds (resume_run_wait lane) (BotDelivery_event_ids lane.(WaitingLane.delivery)) done_with.
Proof.
  unfold resume_run_wait. apply holds_bind. eapply holds_mono, holds_wait_for_run_end.
  intros [u|message] ids H; cbn in H; subst ids; [done|apply holds_fail_delivery].
Qed.

Definition sidecar_settled d (result : Result string (option DeliveryOutcome)) ids : Prop :=
  match result with
  | Ok None => ids = []
  | _ => ids = BotDelivery_event_ids d
  end.
Lemma holds_run_busy_sidecar_inner d target :
  holds (run_busy_sidecar_inner d target) (BotDelivery_event_ids d) (sidecar_settled d).
Proof.
  unfold run_busy_sidecar_inner. destruct (BotDelivery.events d) as [|event events] eqn:E.
  { unfold BotDelivery_event_ids. by rewrite E. }
  skip. case_bool_decide.
  { by skip as [u|message]. }
  assert (∀ at_ms, holds (modify (requeue_front d at_ms);; mret (Ok None))
    (BotDelivery_event_ids d) (sidecar_settled d)) as later.
  { intros at_ms. apply holds_then; [|done]. apply holds_queue. intros s.
    by rewrite in_queue_requeue_front. }
  skip as [[| run_id | | |]|message]; try done.
  by skip as [[steered|]|message].
Qed.
Lemma holds_run_busy_sidecar d target :
  holds (run_busy_sidecar d target) (BotDelivery_event_ids d) done_with.
Proof.
  unfold run_busy_sidecar. apply holds_bind. eapply holds_mono, holds_run_busy_sidecar_inner.
  intros result ids H. apply holds_bind. destruct result as [[outcome|]|message]; cbn in H; subst ids.
  - skip. skip. apply holds_settle_delivery.
  - skip. apply quiet_done. quiet.
  - skip. cbn [holds mret Task_ret]. skip. skip. apply holds_settle_delivery.
Qed.

(** ** The loop *)
Lemma quiet_act_on disposition : quiet (act_on disposition).
Proof. unfold act_on. quiet. Qed.
#[local] Hint Resolve quiet_act_on : bots.
Lemma neutral_pop : neutral (λ s, (pop_emission s).2).
Proof. intros s. unfold pop_emission. destruct (ControllerState.emission_inbox s); reflexivity. Qed.
#[local] Hint Resolve neutral_pop : bots.
Lemma quiet_process_emissions : quiet process_emissions.
Proof. unfold process_emissions. quiet. Qed.
Lemma quiet_spawn_invocation_lanes : quiet (spawn_invocation_lanes workflow_id).
Proof.
  unfold spawn_invocation_lanes. quiet. apply quiet_spawn, quiet_done, quiet_handle_invocation.
Qed.
Lemma quiet_reconcile_attempts attempts first :
  quiet (reconcile_attempts workflow_id attempts first).
Proof.
  revert first. induction attempts as [|attempts IH]; intros first;
    cbn [reconcile_attempts]; quiet.
Qed.
#[local] Hint Resolve quiet_reconcile_attempts : bots.
Lemma quiet_reconcile_unless_busy : quiet (reconcile_unless_busy workflow_id).
Proof. unfold reconcile_unless_busy, reconcile_session. quiet. Qed.
Lemma quiet_sweep_dead_sessions : quiet sweep_dead_sessions.
Proof. unfold sweep_dead_sessions, fail_dead_lane. quiet. Qed.
Lemma neutral_rotation_targets now : neutral (λ s, (rotation_targets now s).2).
Proof.
  intros s. unfold rotation_targets. case_bool_decide; [reflexivity|].
  destruct (ControllerState.rotation_retry_at_ms s); [|reflexivity].
  destruct (_ <? _)%Z; reflexivity.
Qed.
Lemma neutral_rotated target is_main : neutral (rotated_session target is_main).
Proof.
  intros s. unfold rotated_session. destruct is_main.
  - etrans; [apply neutral_rotate_main|reflexivity].
  - etrans; [apply neutral_forget|reflexivity].
Qed.
#[local] Hint Resolve neutral_rotation_targets neutral_rotated : bots.
Lemma quiet_rotate_each targets retry : quiet (rotate_each targets retry).
Proof.
  revert retry. induction targets as [|target targets IH]; intros retry; cbn [rotate_each]; quiet.
Qed.
#[local] Hint Resolve quiet_rotate_each : bots.
Lemma quiet_rotate_requested_sessions : quiet rotate_requested_sessions.
Proof. unfold rotate_requested_sessions. quiet. Qed.
Lemma neutral_swept (closed : bool) session_id now :
  neutral (if closed then forget_routed_session session_id else touch_session session_id now).
Proof. destruct closed; [apply neutral_forget|]. intros s. reflexivity. Qed.
#[local] Hint Resolve neutral_swept : bots.
Lemma quiet_sweep_routed_sessions : quiet sweep_routed_sessions.
Proof. unfold sweep_routed_sessions. quiet. Qed.
Lemma neutral_descendants now : neutral (λ s, (descendants_request now s).2).
Proof.
  intros s. unfold descendants_request. destruct (negb _); [apply neutral_roll_day|].
  etrans; [|apply (neutral_roll_day now)]. reflexivity.
Qed.
#[local] Hint Resolve neutral_descendants : bots.
Lemma quiet_refresh_descendants_today : quiet refresh_descendants_today.
Proof. unfold refresh_descendants_today. quiet. Qed.
Lemma quiet_apply_display_name : quiet apply_display_name.
Proof. unfold apply_display_name. quiet. Qed.
Lemma quiet_park : quiet park.
Proof. unfold park. quiet. Qed.
Lemma quiet_tick_clock : quiet tick_clock.
Proof. unfold tick_clock. quiet. Qed.
#[local] Hint Resolve quiet_process_emissions quiet_spawn_invocation_lanes
  quiet_reconcile_unless_busy quiet_sweep_dead_sessions quiet_rotate_requested_sessions
  quiet_sweep_routed_sessions quiet_refresh_descendants_today quiet_apply_display_name quiet_park
  quiet_tick_clock : bots.

Lemma holds_lane_for action :
  holds (lane_for workflow_id action) (BotDelivery_event_ids (action_delivery action)) done_with.
Proof. destruct action; [apply holds_run_delivery|apply holds_run_busy_sidecar]. Qed.
Lemma holds_spawn_all actions ids :
  holds (each actions (λ action, spawn (lane_for workflow_id action))) (ids_of actions ++ ids)
    (λ _ ids', ids' = ids).
Proof.
  induction actions as [|action actions IH]; [done|]. cbn [each]. apply holds_bind.
  exists (BotDelivery_event_ids (action_delivery action)), (ids_of actions ++ ids).
  split_and!; [by rewrite (assoc_L (++))|apply holds_lane_for|exact IH].
Qed.
(** Deliveries taken from the queue are given to lanes. *)
Lemma quiet_start_deliveries : quiet (start_deliveries workflow_id).
Proof.
  unfold start_deliveries. apply quiet_bind; [quiet|]. intros enabled.
  destruct (negb enabled); [quiet|]. apply quiet_bind; [quiet|]. intros now ids.
  apply holds_bind. intros s _. right. exists (ids_of (dispatch now s).1 ++ ids).
  split; [|apply holds_spawn_all]. rewrite (in_queue_dispatch now s). solve_Permutation.
Qed.
#[local] Hint Resolve quiet_start_deliveries : bots.
Lemma quiet_serve : quiet (serve workflow_id).
Proof. unfold serve. quiet. Qed.
Lemma holds_loop_pass suggested :
  holds (loop_pass workflow_id suggested) [] (λ _ ids, ids = []).
Proof.
  unfold loop_pass. skip. skip as closing. destruct closing.
  - apply holds_bind. intros s _. by left.
  - apply quiet_holds_bind; [apply quiet_serve|]. intros u. skip. skip as [ended|]; [done|].
    by skip.
Qed.

(** ** Executions *)
(** The events of an execution, where they are: in the queue, in the loop's hands, in each
    lane's, recorded. *)
Definition accounted (e : Execution) : Prop :=
  ∃ hand hands,
    holds e.(Execution.loop) hand (λ _ ids, ids = [])
    ∧ hold_all hands e.(Execution.lanes)
    ∧ e.(Execution.accepted)
        ≡ₚ in_queue e.(Execution.world).(World.state) ++ hand ++ concat hands
             ++ e.(Execution.world).(World.recorded).
Lemma signal_neutral f :
  (∃ next, f = bot_config next) ∨ (∃ id, f = bot_session_rotate id)
    ∨ (∃ envelope, f = deliver_emission_signal envelope) →
  ∀ now, neutral (f now).
Proof.
  intros [[next ->]|[[id ->]|[envelope ->]]] now s.
  - unfold bot_config. pose proof (neutral_accept_config next (observe_clock now s)) as N.
    cbn beta in N. destruct (accept_config _ _) as [[u|message] s']; exact N.
  - unfold bot_session_rotate, request_rotation. case_bool_decide; reflexivity.
  - destruct envelope; reflexivity.
Qed.
Lemma step_accounted e e' :
  step workflow_id e e' → is_closing e = false → is_closing e' = false →
  accounted e → accounted e'.
Proof.
  intros St Hc Hc' (hand & hands & HL & HA & P).
  destruct St as [event _|f Hf|now Hn|w' loop' spawned St|suggested E
    |before lane after w' lane' spawned E St|before after E].
  - exists hand, hands. split_and!; [done..|].
    cbn [Execution.world Execution.accepted World.state World.recorded signalled].
    etrans; [apply Permutation_app_head, P|]. rewrite (assoc_L (++)). apply Permutation_app_tail.
    symmetry. apply (in_queue_bot_event event).
  - exists hand, hands. split_and!; [done..|]. etrans; [exact P|]. apply Permutation_app_tail.
    symmetry. apply (signal_neutral f Hf).
  - by exists hand, hands.
  - destruct (task_step_holds _ _ _ _ _ _ _ _ St HL Hc) as [C|(ids' & new & H' & HS & P')].
    { unfold is_closing in Hc'. cbn in Hc'. congruence. }
    exists ids', (hands ++ new). split_and!; [done|by apply Forall2_app|]. cbn.
    rewrite P, concat_app. etrans; [|etrans; [apply (Permutation_app_head (concat hands) P')|]];
      solve_Permutation.
  - exists [], hands. rewrite E in HL. cbn in HL. subst hand.
    split_and!; [apply holds_loop_pass|done..].
  - rewrite E in HA. apply Forall2_app_inv_r in HA as (h1 & h2 & H1 & H2 & ->).
    apply Forall2_cons_inv_r in H2 as (ids & h2' & H & H2 & ->).
    destruct (task_step_holds _ _ _ _ _ _ _ _ St H Hc) as [C|(ids' & new & H' & HS & P')].
    { unfold is_closing in Hc'. cbn in Hc'. congruence. }
    exists hand, ((h1 ++ ids' :: h2') ++ new). split_and!; [done| |].
    + apply Forall2_app; [|done]. apply Forall2_app; [done|]. by constructor.
    + cbn. rewrite P, !concat_app. cbn [concat].
      etrans; [|etrans; [apply (Permutation_app_head (hand ++ concat h1 ++ concat h2') P')|]];
        solve_Permutation.
  - rewrite E in HA. apply Forall2_app_inv_r in HA as (h1 & h2 & H1 & H2 & ->).
    apply Forall2_cons_inv_r in H2 as (ids & h2' & H & H2 & ->). cbn in H. subst ids.
    exists hand, (h1 ++ h2'). split_and!; [done|by apply Forall2_app|].
    etrans; [exact P|]. by rewrite !concat_app.
Qed.
Lemma concat_fmap {A} (f : A → list string) l : concat (f <$> l) = l ≫= f.
Proof. induction l as [|x l IH]; csimpl; [done|]. by rewrite IH. Qed.
Lemma started_accounted args now : accounted (started args now).
Proof.
  unfold started, accounted. cbn zeta. set (s := ControllerState_new args now).
  exists [], ((λ lane, BotDelivery_event_ids lane.(WaitingLane.delivery)) <$> waiting_lanes s).
  split_and!; [done| |].
  - cbn. generalize (waiting_lanes s). intros lanes.
    induction lanes as [|lane lanes IH]; constructor; [apply holds_resume_run_wait|exact IH].
  - cbn [Execution.accepted Execution.world World.state World.recorded app].
    by rewrite app_nil_r, concat_fmap.
Qed.
Lemma runs_accounted args now e : runs workflow_id args now e → accounted e.
Proof.
  assert (∀ e, runs workflow_id args now e → is_closing e = false) as Hc.
  { by induction 1. }
  induction 1 as [|e e' R IH St Hc']; [apply started_accounted|].
  eapply step_accounted; eauto.
Qed.

(** The loop is between two passes, or parked. *)
Definition resting (e : Execution) : Prop :=
  e.(Execution.loop) = Return None
  ∨ ∃ ready timer, e.(Execution.loop) = WaitFor ready timer (Return None).

End accounting.

(** ** Events that come while the bot closes *)
Definition support_closed : BotControllerConfig :=
  {| BotControllerConfig.universe_id := 7%N;
     BotControllerConfig.bot_id := "support";
     BotControllerConfig.display_name := Some "Support";
     BotControllerConfig.profile_id := "helpful";
     BotControllerConfig.brief := None;
     BotControllerConfig.runs_per_day := Some 3%N;
     BotControllerConfig.routed_session_close_after_ms := Some 600000%N;
     BotControllerConfig.self_config := false;
     BotControllerConfig.emit := false;
     BotControllerConfig.enabled := true;
     BotControllerConfig.closed := true |}.
Definition closing_state : ControllerState :=
  bot_config support_closed noon (accepting noon ready (plain_event "m1" 1))
    <| ControllerState.closing := true |>.
(** An event that is accepted while the teardown waits for [record_outcomes] is cleared from
    the queue and never archived. *)
Lemma teardown_drops_a_late_event :
  let late := bot_event (plain_event "m2" 2) noon closing_state in
  teardown_event_ids closing_state = ["m1"]
  ∧ in_queue late = ["m1"; "m2"]
  ∧ in_queue (clear_queue late) = [].
Proof. by vm_compute. Qed.

(** ** The accounting at work *)
Definition example_args : BotControllerArgs :=
  {| BotControllerArgs.config := support_config; BotControllerArgs.carry := None |}.
Definition after_event : Execution :=
  {| Execution.world := signalled (started example_args noon).(Execution.world)
                          (bot_event (plain_event "m1" 1));
     Execution.loop := Return None;
     Execution.lanes := [];
     Execution.accepted := ["m1"] |}.
Lemma after_event_runs workflow_id : runs workflow_id example_args noon after_event.
Proof.
  eapply Runs_step; [apply Runs_start|by refine (Step_event _ _ (plain_event "m1" 1) _)|].
  by vm_compute.
Qed.
