(* ===== verification/BotSafety.v ===== *)
(** * The controller's invariant over executions

    Signals, the loop and its lanes change the controller's state by its operations only, so
    [controller_ok] holds at every point of every execution, and so of the next execution after
    a continue-as-new. *)
From Stdlib Require Import Ascii ZArith.
From S2P Require Import Prelude Ids Text Types Commands Externals Codec WorkflowTools Bindings.
From S2P Require Import BotState BotController BotLaws BotInvariant BotActivities BotTasks.
From S2P Require Import BotLoop BotExecution BotExample BotAccounting.
Set Primitive Projections.

Section safety.
Context `{Ext : !Externals} `{Cal : !Calendar}.
Variable workflow_id : string.
Implicit Types (s : ControllerState) (d : BotDelivery).

(** A task whose updates keep the invariant, and whose value is in [Q]; what it goes on with may
    depend on the state an update read. *)
Fixpoint returns {A : Type} (t : Task A) (Q : A → Prop) : Prop :=
  match t with
  | Return value => Q value
  | Update f k => ∀ s, controller_ok s → controller_ok (f s).2 ∧ returns (k (f s).1) Q
  | Clock k => ∀ now, returns (k now) Q
  | Call _ k => ∀ result, returns (k result) Q
  | WaitFor _ _ k => returns k Q
  | While body k => returns body (λ _, True) ∧ returns k Q
  | Spawn lane k => returns lane (λ _, True) ∧ returns k Q
  | Polled k => ∀ polled, returns (k polled) Q
  end.
Definition keeps {A : Type} (t : Task A) : Prop := returns t (λ _, True).
Lemma returns_bind {A B : Type} (t : Task A) (f : A → Task B) (P : A → Prop) (Q : B → Prop) :
  returns t P → (∀ a, P a → returns (f a) Q) → returns (t ≫= f) Q.
Proof.
  intros H Hf. revert H. unfold mbind, Task_bind. induction t as [A v|A C g k IH|A k IH|A C a k IH
    |A r m k IH|A body _ k IH|A lane _ k IH|A k IH]; simpl; eauto.
  - intros H s Hs. destruct (H s Hs). eauto.
  - intros [? ?]. eauto.
  - intros [? ?]. eauto.
Qed.
Lemma keeps_bind {A B : Type} (t : Task A) (f : A → Task B) :
  keeps t → (∀ a, keeps (f a)) → keeps (t ≫= f).
Proof. intros H Hf. eapply returns_bind; [exact H|]. intros a _. apply Hf. Qed.
Lemma keeps_then {A B : Type} (t : Task A) (f : A → Task B) Q :
  keeps t → (∀ a, returns (f a) Q) → returns (t ≫= f) Q.
Proof. intros H Hf. eapply returns_bind; [exact H|]. intros a _. apply Hf. Qed.
Definition kept (f : ControllerState → ControllerState) : Prop :=
  ∀ s, controller_ok s → controller_ok (f s).
Lemma keeps_ret {A : Type} (a : A) : keeps (mret a).
Proof. done. Qed.
Lemma keeps_clock : keeps clock.
Proof. done. Qed.
Lemma keeps_call {B : Type} (activity : Activity B) : keeps (call activity).
Proof. done. Qed.
Lemma keeps_state {B : Type} (f : ControllerState → B) : keeps (state f).
Proof. by intros s Hs. Qed.
Lemma keeps_update {B : Type} (f : ControllerState → B * ControllerState) :
  kept (λ s, (f s).2) → keeps (update f).
Proof. intros H s Hs. split; [by apply H|done]. Qed.
Lemma keeps_modify f : kept f → keeps (modify f).
Proof. intros H s Hs. split; [by apply H|done]. Qed.
Lemma keeps_wait ready timer : keeps (WaitFor ready timer (Return tt)).
Proof. done. Qed.
Lemma keeps_polled : keeps (Polled Return).
Proof. done. Qed.
Lemma keeps_while body : keeps body → keeps (while body).
Proof. by intros H. Qed.
Lemma keeps_spawn lane : keeps lane → keeps (spawn lane).
Proof. by intros H. Qed.
Lemma keeps_each {A : Type} (l : list A) f : (∀ x, keeps (f x)) → keeps (each l f).
Proof. intros H. induction l as [|x l IH]; [done|]. by apply keeps_bind. Qed.
Lemma kept_aside f : (∀ s, aside s (f s)) → kept f.
Proof. intros H s. by apply controller_ok_aside. Qed.
Lemma kept_operates f : (∀ s, operates s (f s)) → kept f.
Proof. intros H s. by apply operates_ok. Qed.
Lemma kept_compose f g : kept f → kept g → kept (λ s, g (f s)).
Proof. intros Hf Hg s Hs. by apply Hg, Hf. Qed.
Lemma keeps_best_effort {B : Type} (activity : Activity B) : keeps (best_effort activity).
Proof.
  apply keeps_bind; [done|]. intros [|message]; [done|].
  apply keeps_modify, kept_aside. by intros s.
Qed.
End safety.

Create HintDb bot_ok discriminated.
#[export] Hint Resolve keeps_ret keeps_clock keeps_call keeps_state keeps_wait keeps_polled
  keeps_best_effort : bot_ok.
Ltac kept :=
  first [ by auto with bot_ok
        | by apply kept_operates; intros; constructor
        | by apply kept_aside; intros; exact eq_refl ].
Ltac keeps_step :=
  match goal with
  | |- keeps (_ ≫= _) => apply keeps_bind
  | |- keeps (while _) => apply keeps_while
  | |- keeps (each _ _) => apply keeps_each
  | |- keeps (spawn _) => apply keeps_spawn
  | |- keeps (update _) => apply keeps_update; by kept
  | |- keeps (modify _) => apply keeps_modify; by kept
  | |- _ => case_match
  end.
Ltac keeps :=
  repeat first [progress (intros; cbn beta iota)|by auto with bot_ok|keeps_step].

Section tasks.
Context `{Ext : !Externals} `{Cal : !Calendar}.
Variable workflow_id : string.
Implicit Types (s : ControllerState) (d : BotDelivery).

(** ** Lanes *)
Lemma keeps_close_session session_id force : keeps (close_session session_id force).
Proof. unfold close_session. keeps. Qed.
#[local] Hint Resolve keeps_close_session : bot_ok.
Lemma keeps_roll_forward session_id status : keeps (roll_forward session_id status).
Proof. unfold roll_forward. keeps. Qed.
Lemma keeps_read_session_status session_id : keeps (read_session_status session_id).
Proof. unfold read_session_status. keeps. Qed.
Lemma keeps_reconcile_run run_id target : keeps (reconcile_run run_id target).
Proof. unfold reconcile_run, resolve_from. keeps. Qed.
#[local] Hint Resolve keeps_roll_forward keeps_read_session_status keeps_reconcile_run : bot_ok.
Lemma keeps_send_delivery_receipts d session_id phase run_id outcome summary :
  keeps (send_delivery_receipts d session_id phase run_id outcome summary).
Proof. unfold send_delivery_receipts. keeps. Qed.
#[local] Hint Resolve keeps_send_delivery_receipts : bot_ok.
Lemma keeps_settle_delivery d session_id outcome : keeps (settle_delivery d session_id outcome).
Proof. unfold settle_delivery. keeps. Qed.
#[local] Hint Resolve keeps_settle_delivery : bot_ok.
Lemma kept_finish session_id now recent :
  kept (λ s, release_lane session_id now (remember_delivery recent s)).
Proof. apply kept_compose; kept. Qed.
Lemma kept_finish_sidecar target now recent :
  kept (λ s, release_sidecar target now (remember_delivery recent s)).
Proof. apply kept_compose; kept. Qed.
#[local] Hint Resolve kept_finish kept_finish_sidecar : bot_ok.
Lemma keeps_finish_delivery session_id d outcome usage :
  keeps (finish_delivery session_id d outcome usage).
Proof. unfold finish_delivery. keeps. Qed.
#[local] Hint Resolve keeps_finish_delivery : bot_ok.
Lemma keeps_fail_delivery target d message : keeps (fail_delivery target d message).
Proof. unfold fail_delivery. keeps. Qed.
Lemma keeps_ensure_attempts attempts first session session_id tools_ref :
  keeps (ensure_attempts workflow_id attempts first session session_id tools_ref).
Proof.
  revert first session_id. induction attempts as [|attempts IH]; intros first session_id;
    cbn [ensure_attempts]; unfold enforce_extra_session_cap; keeps.
Qed.
#[local] Hint Resolve keeps_fail_delivery keeps_ensure_attempts : bot_ok.

Lemma keeps_retry_on_successor d target status message :
  keeps (retry_on_successor d target status message).
Proof. unfold retry_on_successor. keeps. Qed.
Lemma keeps_look_again_later target d : retriable d → keeps (look_again_later target d).
Proof. intros Hd. unfold look_again_later. keeps. Qed.
Lemma keeps_publish_directory session_id : keeps (publish_directory session_id).
Proof. unfold publish_directory. keeps. Qed.
Lemma keeps_wait_for_run_end d target run_id : keeps (wait_for_run_end d target run_id).
Proof. unfold wait_for_run_end, wait_for, read_run_usage. keeps. Qed.
#[local] Hint Resolve keeps_retry_on_successor keeps_look_again_later keeps_publish_directory
  keeps_wait_for_run_end : bot_ok.
Lemma keeps_resume_run_wait lane : keeps (resume_run_wait lane).
Proof. unfold resume_run_wait. keeps. Qed.
Lemma keeps_settle_on_session d target event :
  keeps (settle_on_session workflow_id d target event).
Proof. unfold settle_on_session, ensure_routed_session. keeps. Qed.
Lemma keeps_append_delivery d target : keeps (append_delivery d target).
Proof. unfold append_delivery, append_events. keeps. Qed.
Lemma keeps_steer_delivery d target : retriable d → keeps (steer_delivery d target).
Proof. intros Hd. unfold steer_delivery, steer_run. keeps. Qed.
Lemma keeps_follow_run d target run_id finished : keeps (follow_run d target run_id finished).
Proof. unfold follow_run. keeps. Qed.
#[local] Hint Resolve keeps_settle_on_session keeps_append_delivery keeps_steer_delivery
  keeps_follow_run : bot_ok.
Lemma keeps_start_delivery universe_id d target : keeps (start_delivery universe_id d target).
Proof. unfold start_delivery, retry_start. keeps. Qed.
#[local] Hint Resolve keeps_start_delivery : bot_ok.
Lemma keeps_run_on_session universe_id d target :
  retriable d → keeps (run_on_session universe_id d target).
Proof. intros Hd. unfold run_on_session. keeps. Qed.
#[local] Hint Resolve keeps_run_on_session : bot_ok.
Lemma keeps_run_delivery d target : retriable d → keeps (run_delivery workflow_id d target).
Proof. intros Hd. unfold run_delivery, run_delivery_inner. keeps. Qed.
Lemma keeps_run_busy_sidecar d target : retriable d → keeps (run_busy_sidecar d target).
Proof. intros Hd. unfold run_busy_sidecar, run_busy_sidecar_inner, steer_run. keeps. Qed.
#[local] Hint Resolve keeps_run_delivery keeps_run_busy_sidecar : bot_ok.
Lemma keeps_handle_invocation pending : keeps (handle_invocation workflow_id pending).
Proof. unfold handle_invocation, tool_resolution, parse_blob_ref. keeps. Qed.

(** ** The loop *)
#[local] Hint Resolve keeps_handle_invocation : bot_ok.
Lemma kept_pop : kept (λ s, (pop_emission s).2).
Proof. apply kept_aside. intros s. unfold pop_emission. by case_match. Qed.
#[local] Hint Resolve kept_pop : bot_ok.
Lemma keeps_process_emissions : keeps process_emissions.
Proof. unfold process_emissions, act_on. keeps. Qed.
Lemma keeps_spawn_invocation_lanes : keeps (spawn_invocation_lanes workflow_id).
Proof. unfold spawn_invocation_lanes. keeps. Qed.
Lemma keeps_reconcile_attempts attempts first :
  keeps (reconcile_attempts workflow_id attempts first).
Proof.
  revert first. induction attempts as [|attempts IH]; intros first; cbn [reconcile_attempts];
    keeps.
Qed.
#[local] Hint Resolve keeps_reconcile_attempts : bot_ok.
Lemma keeps_reconcile_unless_busy : keeps (reconcile_unless_busy workflow_id).
Proof. unfold reconcile_unless_busy, reconcile_session. keeps. Qed.
Lemma keeps_sweep_dead_sessions : keeps sweep_dead_sessions.
Proof. unfold sweep_dead_sessions, fail_dead_lane. keeps. Qed.
Lemma kept_rotation_targets now : kept (λ s, (rotation_targets now s).2).
Proof. apply kept_aside. intros s. unfold rotation_targets. by repeat case_match. Qed.
Lemma kept_rotated target is_main : kept (rotated_session target is_main).
Proof.
  unfold rotated_session. destruct is_main.
  - eapply kept_compose with (g := rotate_main_session true); kept.
  - eapply kept_compose with (g := forget_routed_session target); kept.
Qed.
#[local] Hint Resolve kept_rotation_targets kept_rotated : bot_ok.
Lemma keeps_rotate_each targets retry : keeps (rotate_each targets retry).
Proof. revert retry. induction targets as [|t targets IH]; intros retry; cbn [rotate_each]; keeps. Qed.
#[local] Hint Resolve keeps_rotate_each : bot_ok.
Lemma keeps_rotate_requested_sessions : keeps rotate_requested_sessions.
Proof. unfold rotate_requested_sessions. keeps. Qed.
Lemma kept_swept (closed : bool) session_id now :
  kept (if closed then forget_routed_session session_id else touch_session session_id now).
Proof. destruct closed; kept. Qed.
Lemma kept_descendants now : kept (λ s, (descendants_request now s).2).
Proof.
  intros s H. unfold descendants_request.
  apply (operates_ok _ _ (Operates_roll_day s now)) in H. case_match; [done|].
  by eapply controller_ok_aside, H.
Qed.
#[local] Hint Resolve kept_swept kept_descendants : bot_ok.
Lemma keeps_sweep_routed_sessions : keeps sweep_routed_sessions.
Proof. unfold sweep_routed_sessions. keeps. Qed.
Lemma keeps_refresh_descendants_today : keeps refresh_descendants_today.
Proof. unfold refresh_descendants_today. keeps. Qed.
Lemma keeps_apply_display_name : keeps apply_display_name.
Proof. unfold apply_display_name. keeps. Qed.
Lemma keeps_teardown : keeps teardown.
Proof. unfold teardown. keeps. Qed.
Lemma keeps_park : keeps park.
Proof. unfold park. keeps. Qed.
#[local] Hint Resolve keeps_process_emissions keeps_spawn_invocation_lanes
  keeps_reconcile_unless_busy keeps_sweep_dead_sessions keeps_rotate_requested_sessions
  keeps_sweep_routed_sessions keeps_refresh_descendants_today keeps_apply_display_name
  keeps_teardown keeps_park : bot_ok.

(** What is dispatched was pending, so it may be retried. *)
Lemma dispatched_retriable now s :
  controller_ok s → Forall (λ action, retriable (action_delivery action)) (dispatch now s).1.
Proof.
  intros H. destruct (graph_partition _ _ _ _ _ _ _ (dispatch_from_graph now ∅ [] 
    s.(ControllerState.pending_deliveries) s)) as (left & _ & _ & A & _).
  apply Forall_forall. intros action In. apply (proj1 (Forall_forall _ _) (ok_pending _ H)).
  eapply sublist_subseteq; [exact A|]. by apply list_elem_of_fmap_2.
Qed.
Lemma keeps_start_deliveries : keeps (start_deliveries workflow_id).
Proof.
  unfold start_deliveries. apply keeps_bind; [keeps|]. intros enabled.
  destruct (negb enabled); [keeps|]. apply keeps_bind; [keeps|].
  intros now s Hs. split; [by apply dispatch_ok|]. cbn.
  pose proof (dispatched_retriable now s Hs) as H. clear Hs.
  induction H as [|[d target|d target] actions Hd _ IH]; [done|split..];
    [by apply keeps_run_delivery|exact IH|by apply keeps_run_busy_sidecar|exact IH].
Qed.
#[local] Hint Resolve keeps_start_deliveries : bot_ok.
Lemma keeps_serve : keeps (serve workflow_id).
Proof. unfold serve. keeps. Qed.

(** What the loop hands on to the next execution is fit for it. *)
Definition args_ok (args : BotControllerArgs) : Prop :=
  match args.(BotControllerArgs.carry) with Some carry => carry_ok carry | None => True end.
Definition hands_on (ended : option RunEnd) : Prop :=
  match ended with Some (RunEnd.ContinueAsNew args) => args_ok args | _ => True end.
Lemma loop_pass_hands_on suggested : returns (loop_pass workflow_id suggested) hands_on.
Proof.
  unfold loop_pass. apply keeps_then; [unfold tick_clock; keeps|]. intros _.
  apply keeps_then; [keeps|]. intros [|].
  { apply keeps_then; [apply keeps_teardown|done]. }
  apply keeps_then; [apply keeps_serve|]. intros _. apply keeps_then; [keeps|]. intros polled.
  apply (returns_bind _ _ hands_on).
  { intros s Hs. split; [done|]. cbn. case_match; [by apply carry_of_ok|done]. }
  intros [ended|] H; [exact H|].
  apply keeps_then; [apply keeps_park|done].
Qed.

(** ** Executions *)
Lemma task_step_ok {A : Type} polled w (t : Task A) w' t' spawned Q :
  task_step polled w t w' t' spawned → returns t Q → controller_ok w.(World.state) →
  controller_ok w'.(World.state) ∧ returns t' Q ∧ Forall keeps spawned.
Proof.
  intros St H Hs. destruct St; simpl in H; try by split_and!.
  - destruct (H _ Hs). by split_and!.
  - destruct H as [Hb Hk]. split_and!; [done| |done].
    eapply returns_bind; [exact Hb|]. by intros [] _; [split|].
  - destruct H as [Hl Hk]. split_and!; [done..|]. by repeat constructor.
Qed.
Record execution_ok (e : Execution) : Prop := {
  execution_state : controller_ok e.(Execution.world).(World.state);
  execution_loop : returns e.(Execution.loop) hands_on;
  execution_lanes : Forall keeps e.(Execution.lanes);
}.
Lemma bot_event_ok event now s : typed_event event → controller_ok s →
  controller_ok (bot_event event now s).
Proof.
  intros Ht H. unfold bot_event.
  assert (controller_ok (observe_clock now s)) as H' by (by eapply controller_ok_aside, H).
  apply (accept_event_ok event now) in H'; [|exact Ht].
  destruct (accept_event _ _ _) as [[u|message] s']; [done|]. by eapply controller_ok_aside, H'.
Qed.
Lemma signal_ok f :
  (∃ next, f = bot_config next) ∨ (∃ id, f = bot_session_rotate id)
    ∨ (∃ envelope, f = deliver_emission_signal envelope) →
  ∀ now, kept (f now).
Proof.
  intros Hf now s H.
  assert (controller_ok (observe_clock now s)) as H' by (by eapply controller_ok_aside, H).
  destruct Hf as [[next ->]|[[id ->]|[envelope ->]]].
  - unfold bot_config. apply (accept_config_ok next) in H'.
    destruct (accept_config _ _) as [[u|message] s']; [done|]. by eapply controller_ok_aside, H'.
  - exact (operates_ok _ _ (Operates_request_rotation _ id) H').
  - destruct envelope; [|done]. by eapply controller_ok_aside, H'.
Qed.
Lemma step_ok e e' : step workflow_id e e' → execution_ok e → execution_ok e'.
Proof.
  intros St [Hs Hl HL]. destruct St as [event He|f Hf|now Hn|w' loop' spawned St|suggested E
    |before lane after w' lane' spawned E St|before after E].
  - split; [by apply bot_event_ok|done..].
  - split; [by apply signal_ok|done..].
  - by split.
  - destruct (task_step_ok _ _ _ _ _ _ _ St Hl Hs) as (? & ? & ?).
    split; [done..|]. by apply Forall_app.
  - split; [done|apply loop_pass_hands_on|done].
  - rewrite E in HL. apply Forall_app in HL as [H1 [H H2]%Forall_cons].
    destruct (task_step_ok _ _ _ _ _ _ _ St H Hs) as (? & ? & ?).
    split; [done..|]. apply Forall_app. split; [|done]. apply Forall_app. by split; [|constructor].
  - rewrite E in HL. apply Forall_app in HL as [H1 [H H2]%Forall_cons].
    split; [done..|]. by apply Forall_app.
Qed.
Lemma started_ok args now : args_ok args → execution_ok (started args now).
Proof.
  intros H. split; [|done|].
  - destruct args as [config [carry|]]; [by apply new_carried_ok|apply new_ok].
  - apply Forall_fmap, Forall_forall. intros lane _. apply keeps_resume_run_wait.
Qed.

(** The executions of a controller: the first one, and each that goes on where one that
    continued as new ended. *)
Inductive executes : Execution → Prop :=
| Executes_new config now :
    executes (started {| BotControllerArgs.config := config;
                         BotControllerArgs.carry := None |} now)
| Executes_step e e' : executes e → step workflow_id e e' → executes e'
| Executes_continued e args now :
    executes e → e.(Execution.loop) = Return (Some (RunEnd.ContinueAsNew args)) →
    executes (started args now).
Lemma executes_ok e : executes e → execution_ok e.
Proof.
  induction 1 as [config now|e e' _ IH St|e args now _ IH E].
  - by apply started_ok.
  - by eapply step_ok.
  - apply started_ok. pose proof (execution_loop _ IH) as H. by rewrite E in H.
Qed.

(** C12. Whatever signals arrive, whatever activities return or fail with, however the loop and
    its lanes interleave, over any number of executions: seen ids stay distinct and bounded,
    recent deliveries bounded; every buffer holds events and is not full; every lane is under
    its session; while a lane waits for a run, a look at its session is scheduled; no delivery
    is past its retries; and while the main session is not ready, a reconcile is owed. *)
Theorem controller_stays_ok e : executes e → controller_ok e.(Execution.world).(World.state).
Proof. intros H. exact (execution_state _ (executes_ok e H)). Qed.
End tasks.

(** ** An example *)
Lemma after_event_executes : executes "7/bot-support" after_event.
Proof.
  eapply Executes_step; [apply Executes_new|]. by refine (Step_event _ _ (plain_event "m1" 1) _).
Qed.
Lemma controller_stays_ok_witness :
  controller_ok after_event.(Execution.world).(World.state)
  ∧ in_queue after_event.(Execution.world).(World.state) = ["m1"].
Proof.
  split; [exact (controller_stays_ok "7/bot-support" after_event after_event_executes)|].
  by vm_compute.
Defined.
