(* ===== verification/VfsTree.v ===== *)
(** * The tree of a virtual file system

    Paths of the virtual file system, the manifest of a snapshot, which is a tree of directories
    over files held as blobs, and the operations that read and change a manifest
    ([crates/vfs/src/{path,manifest,snapshot}.rs]). A function of the source that takes
    [&mut VfsSnapshotManifest] is a reducer over the manifest, so what a failed operation has
    already written is part of it. *)
From Stdlib Require Import Ascii.
From stdpp Require Import countable.
From S2P Require Import Prelude Ids Text Types Externals.
Set Primitive Projections.

(** ** Paths *)
Abbreviation VfsPath := string (only parsing).

Module VfsPathError.
Inductive VfsPathError : Type :=
| Empty
| ContainsNul (path : string)
| InvalidComponent (path : string) (component : string).
End VfsPathError.
Abbreviation VfsPathError := VfsPathError.VfsPathError.

Module VfsPath.
Definition contains_nul (value : string) : bool := existsb (Ascii.eqb "000"%char) (chars value).
(** [components.join("/")]. *)
Definition join (components : list string) : string := String.concat "/" components.
Definition is_invalid (component : string) : bool :=
  bool_decide (component = "") || bool_decide (component = ".") || bool_decide (component = "..").

Definition parse (value : string) : Result VfsPathError VfsPath :=
  if bool_decide (value = "") then Err VfsPathError.Empty
  else if contains_nul value then Err (VfsPathError.ContainsNul value)
  else if bool_decide (value = "/") then Ok "/"
  else
    let trimmed := default value (strip_prefix "/" value) in
    if bool_decide (trimmed = "") then Err (VfsPathError.InvalidComponent value "")
    else
      let components := split "/" trimmed in
      _ ← for_each (λ component,
            reject_if (is_invalid component) (VfsPathError.InvalidComponent value component))
          components;
      mret ("/" +:+ join components).

Definition root : VfsPath := "/".
Definition is_root (self : VfsPath) : bool := bool_decide (self = "/").
(** [str::trim_start_matches('/')]. *)
Fixpoint trim_start_slashes (s : string) : string :=
  match s with
  | String c s' => if Ascii.eqb c "/" then trim_start_slashes s' else s
  | EmptyString => s
  end.
Definition components (self : VfsPath) : list string :=
  if is_root self then [] else split "/" (trim_start_slashes self).
Definition depth (self : VfsPath) : nat := length (components self).
End VfsPath.

(** ** Manifests *)
(** [enum BlobStoreError] of [storage/blobs.rs]. *)
Module BlobStoreError.
Inductive BlobStoreError : Type :=
| NotFound (blob_ref : BlobRef)
| Store (message : string).
End BlobStoreError.
Abbreviation BlobStoreError := BlobStoreError.BlobStoreError.

(** The errors of [serde_json] are their messages. *)
Module VfsError.
Inductive VfsError : Type :=
| InvalidPath (error : VfsPathError)
| RootFile
| DuplicatePath (path : VfsPath)
| AlreadyExists (path : VfsPath)
| PathConflict (path : VfsPath) (existing : string)
| NotFound (path : VfsPath)
| NotAFile (path : VfsPath)
| NotADirectory (path : VfsPath)
| DirectoryNotEmpty (path : VfsPath)
| InvalidOperation (message : string)
| LimitExceeded (limit : string) (value : N) (max : N)
| InvalidManifest (message : string)
| EncodeManifest (source : string)
| DecodeManifest (source : string)
| BlobStore (error : BlobStoreError).
End VfsError.
Abbreviation VfsError := VfsError.VfsError.

Module VfsFile.
Record VfsFile : Type := {
  blob_ref : BlobRef;
  size_bytes : N;
  media_type : option string;
  executable : bool;
}.
End VfsFile.
Abbreviation VfsFile := VfsFile.VfsFile.
#[export] Instance VfsFile_eq_dec : EqDecision VfsFile.
Proof. solve_decision. Defined.

(** A directory is its entries. *)
Module VfsEntry.
Inductive VfsEntry : Type :=
| File (file : VfsFile)
| Directory (directory : gmap string VfsEntry).
End VfsEntry.
Abbreviation VfsEntry := VfsEntry.VfsEntry.
Abbreviation VfsDirectory := (gmap string VfsEntry) (only parsing).
Definition VfsDirectory_default : VfsDirectory := ∅.

Module VfsTotals.
Record VfsTotals : Type := { files : N; bytes : N; }.
End VfsTotals.
Abbreviation VfsTotals := VfsTotals.VfsTotals.
#[export] Instance VfsTotals_eq_dec : EqDecision VfsTotals.
Proof. solve_decision. Defined.
#[export] Instance set_VfsTotals_files : Setter VfsTotals.files :=
  ltac:(solve_setter VfsTotals.files).
#[export] Instance set_VfsTotals_bytes : Setter VfsTotals.bytes :=
  ltac:(solve_setter VfsTotals.bytes).
Definition VfsTotals_default : VfsTotals := {| VfsTotals.files := 0; VfsTotals.bytes := 0 |}.

Module VfsSnapshotManifest.
Record VfsSnapshotManifest : Type := {
  schema_version : string;
  root : VfsDirectory;
  totals : VfsTotals;
}.
End VfsSnapshotManifest.
Abbreviation VfsSnapshotManifest := VfsSnapshotManifest.VfsSnapshotManifest.
#[export] Instance set_VfsSnapshotManifest_root : Setter VfsSnapshotManifest.root :=
  ltac:(solve_setter VfsSnapshotManifest.root).
#[export] Instance set_VfsSnapshotManifest_totals : Setter VfsSnapshotManifest.totals :=
  ltac:(solve_setter VfsSnapshotManifest.totals).

Definition VFS_SNAPSHOT_SCHEMA_VERSION : string := "lightspeed.vfs.snapshot.v1".
Definition VfsSnapshotManifest_empty : VfsSnapshotManifest :=
  {| VfsSnapshotManifest.schema_version := VFS_SNAPSHOT_SCHEMA_VERSION;
     VfsSnapshotManifest.root := VfsDirectory_default;
     VfsSnapshotManifest.totals := VfsTotals_default |}.

(** ** Validation *)
Definition validate_name (name : string) : Result VfsError unit :=
  _ ← reject_if (VfsPath.is_invalid name || VfsPath.contains_nul name)
        (VfsError.InvalidManifest "invalid directory entry name '{name}'");
  reject_if (existsb (Ascii.eqb "/") (chars name))
    (VfsError.InvalidManifest "directory entry name contains '/': '{name}'").

(** [validate_directory], which visits the entries by name; [validate_entry] is one round of
    its loop. Every file is in memory, so their count does not reach [u64]'s bound. *)
Definition validate_entries (entries : gmap string (Reducer VfsTotals VfsError unit))
    : Reducer VfsTotals VfsError unit :=
  for_each (λ '(name, validate), _ ← lift_result (validate_name name); validate)
    (btree_to_list entries).
Fixpoint validate_entry (entry : VfsEntry) : Reducer VfsTotals VfsError unit :=
  match entry with
  | VfsEntry.File file =>
      _ ← modify_state (λ totals, totals <| VfsTotals.files ::= N.add 1 |>);
      totals ← get_state;
      bytes ← lift_result (ok_or
        (checked_add_u64 totals.(VfsTotals.bytes) file.(VfsFile.size_bytes))
        (VfsError.InvalidManifest "file byte total overflowed u64"));
      modify_state (λ totals, totals <| VfsTotals.bytes := bytes |>)
  | VfsEntry.Directory directory => validate_entries (validate_entry <$> directory)
  end.
Definition validate_directory (directory : VfsDirectory) : Reducer VfsTotals VfsError unit :=
  validate_entries (validate_entry <$> directory).

Definition validate (self : VfsSnapshotManifest) : Result VfsError unit :=
  _ ← reject_if (bool_decide
        (self.(VfsSnapshotManifest.schema_version) ≠ VFS_SNAPSHOT_SCHEMA_VERSION))
      (VfsError.InvalidManifest "unsupported schema version '{}'");
  let '(result, totals) :=
    validate_directory self.(VfsSnapshotManifest.root) VfsTotals_default in
  _ ← result;
  reject_if (bool_decide (totals ≠ self.(VfsSnapshotManifest.totals)))
    (VfsError.InvalidManifest
       "manifest totals do not match tree contents: expected {:?}, computed {:?}").

(** ** Totals *)
Definition invalid_totals (message : string) : VfsError := VfsError.InvalidManifest message.
Definition checked_sub_u64 (x y : N) : option N := if (y <=? x)%N then Some (x - y)%N else None.

Definition add_totals (delta : VfsTotals) : Reducer VfsTotals VfsError unit :=
  totals ← get_state;
  files ← lift_result (ok_or
    (checked_add_u64 totals.(VfsTotals.files) delta.(VfsTotals.files))
    (invalid_totals "file count overflowed u64"));
  _ ← modify_state (λ totals, totals <| VfsTotals.files := files |>);
  bytes ← lift_result (ok_or
    (checked_add_u64 totals.(VfsTotals.bytes) delta.(VfsTotals.bytes))
    (invalid_totals "byte total overflowed u64"));
  modify_state (λ totals, totals <| VfsTotals.bytes := bytes |>).
Definition subtract_totals (delta : VfsTotals) : Reducer VfsTotals VfsError unit :=
  totals ← get_state;
  files ← lift_result (ok_or
    (checked_sub_u64 totals.(VfsTotals.files) delta.(VfsTotals.files))
    (invalid_totals "file count underflowed u64"));
  _ ← modify_state (λ totals, totals <| VfsTotals.files := files |>);
  bytes ← lift_result (ok_or
    (checked_sub_u64 totals.(VfsTotals.bytes) delta.(VfsTotals.bytes))
    (invalid_totals "byte total underflowed u64"));
  modify_state (λ totals, totals <| VfsTotals.bytes := bytes |>).

(** [directory_totals] and [entry_totals] call each other. *)
Definition totals_of (children : gmap string (Result VfsError VfsTotals))
    : Result VfsError VfsTotals :=
  match for_each (λ child, delta ← lift_result child; add_totals delta)
          (btree_values children) VfsTotals_default with
  | (Ok _, totals) => Ok totals
  | (Err error, _) => Err error
  end.
Fixpoint entry_totals (entry : VfsEntry) : Result VfsError VfsTotals :=
  match entry with
  | VfsEntry.File file =>
      Ok {| VfsTotals.files := 1; VfsTotals.bytes := file.(VfsFile.size_bytes) |}
  | VfsEntry.Directory directory => totals_of (entry_totals <$> directory)
  end.
Definition directory_totals (directory : VfsDirectory) : Result VfsError VfsTotals :=
  totals_of (entry_totals <$> directory).

(** ** Directories by path *)
(** [path_from_components]: components of a path make a path. *)
Definition path_from_components (components : list string) : VfsPath :=
  if bool_decide (components = []) then VfsPath.root else "/" +:+ VfsPath.join components.
Definition path_starts_with (path base : VfsPath) : bool :=
  if VfsPath.is_root base then true
  else bool_decide (path = base)
       || match strip_prefix base path with
          | Some suffix => starts_with "/" suffix
          | None => false
          end.
(** [&components[..components.len() - 1]] and [components[components.len() - 1]]. *)
Definition parent_components (components : list string) : list string := removelast components.
Definition last_component (components : list string) : string := List.last components "".

(** A change made through [&mut directory.entries[component]], which lies at the components
    [seen]: a file there is refused, and what is missing is inserted or refused. *)
Definition enter {A} (component : string) (missing : Result VfsError VfsDirectory)
    (not_a_directory : VfsError) (change : Reducer VfsDirectory VfsError A)
    : Reducer VfsDirectory VfsError A := λ current,
  let found := match current !! component with
               | Some (VfsEntry.Directory directory) => Ok directory
               | Some (VfsEntry.File _) => Err not_a_directory
               | None => missing
               end in
  match found with
  | Ok directory =>
      let '(result, directory) := change directory in
      (result, <[component := VfsEntry.Directory directory]> current)
  | Err error => (Err error, current)
  end.

Fixpoint directory_at_from (seen : list string) (root : VfsDirectory) (components : list string)
    : Result VfsError VfsDirectory :=
  match components with
  | [] => Ok root
  | component :: components =>
      let seen := seen ++ [component] in
      match root !! component with
      | Some (VfsEntry.Directory directory) => directory_at_from seen directory components
      | Some (VfsEntry.File _) => Err (VfsError.NotADirectory (path_from_components seen))
      | None => Err (VfsError.NotFound (path_from_components seen))
      end
  end.
Definition directory_at : VfsDirectory → list string → Result VfsError VfsDirectory :=
  directory_at_from [].
(** [directory_at_mut], and [change] made to the directory it returns. *)
Fixpoint directory_at_mut_from {A} (seen components : list string)
    (change : Reducer VfsDirectory VfsError A) : Reducer VfsDirectory VfsError A :=
  match components with
  | [] => change
  | component :: components =>
      let seen := seen ++ [component] in
      enter component (Err (VfsError.NotFound (path_from_components seen)))
        (VfsError.NotADirectory (path_from_components seen))
        (directory_at_mut_from seen components change)
  end.
Definition directory_at_mut {A} : list string → Reducer VfsDirectory VfsError A →
    Reducer VfsDirectory VfsError A := directory_at_mut_from [].
Definition parent_directory (root : VfsDirectory) (components : list string)
    : Result VfsError VfsDirectory :=
  directory_at root (parent_components components).
Definition parent_directory_mut {A} (components : list string)
    (change : Reducer VfsDirectory VfsError A) : Reducer VfsDirectory VfsError A :=
  directory_at_mut (parent_components components) change.

(** Changes to [manifest.root] and to [manifest.totals]. *)
Abbreviation ManifestReducer := (Reducer VfsSnapshotManifest VfsError) (only parsing).
Definition on_root {A} (change : Reducer VfsDirectory VfsError A) : ManifestReducer A :=
  λ manifest,
    let '(result, root) := change manifest.(VfsSnapshotManifest.root) in
    (result, manifest <| VfsSnapshotManifest.root := root |>).
Definition on_totals {A} (change : Reducer VfsTotals VfsError A) : ManifestReducer A :=
  λ manifest,
    let '(result, totals) := change manifest.(VfsSnapshotManifest.totals) in
    (result, manifest <| VfsSnapshotManifest.totals := totals |>).

(** ** Reading a manifest *)
Module VfsNode.
Inductive VfsNode : Type :=
| File (file : VfsFile)
| Directory (directory : VfsDirectory).
End VfsNode.
Abbreviation VfsNode := VfsNode.VfsNode.

Module VfsPathMetadata.
Record VfsPathMetadata : Type := {
  is_directory : bool;
  is_file : bool;
  size_bytes : option N;
  media_type : option string;
  executable : bool;
}.
End VfsPathMetadata.
Abbreviation VfsPathMetadata := VfsPathMetadata.VfsPathMetadata.

Module VfsDirectoryListingEntry.
Record VfsDirectoryListingEntry : Type := {
  file_name : string;
  is_directory : bool;
  is_file : bool;
  size_bytes : option N;
}.
End VfsDirectoryListingEntry.
Abbreviation VfsDirectoryListingEntry := VfsDirectoryListingEntry.VfsDirectoryListingEntry.

Fixpoint lookup_components (path : VfsPath) (current : VfsDirectory) (components : list string)
    : Result VfsError VfsNode :=
  match components with
  | [] => Err (VfsError.NotFound path)
  | component :: components =>
      entry ← ok_or (current !! component) (VfsError.NotFound path);
      match entry, components with
      | VfsEntry.File file, [] => Ok (VfsNode.File file)
      | VfsEntry.Directory directory, [] => Ok (VfsNode.Directory directory)
      | VfsEntry.Directory directory, _ => lookup_components path directory components
      | VfsEntry.File _, _ => Err (VfsError.NotADirectory path)
      end
  end.
Definition lookup_snapshot_path (manifest : VfsSnapshotManifest) (path : VfsPath)
    : Result VfsError VfsNode :=
  if VfsPath.is_root path then Ok (VfsNode.Directory manifest.(VfsSnapshotManifest.root))
  else lookup_components path manifest.(VfsSnapshotManifest.root) (VfsPath.components path).

Definition list_snapshot_directory (manifest : VfsSnapshotManifest) (path : VfsPath)
    : Result VfsError (list VfsDirectoryListingEntry) :=
  node ← lookup_snapshot_path manifest path;
  match node with
  | VfsNode.File _ => Err (VfsError.NotADirectory path)
  | VfsNode.Directory directory =>
      Ok (map (λ '(file_name, entry),
            match entry with
            | VfsEntry.File file =>
                {| VfsDirectoryListingEntry.file_name := file_name;
                   VfsDirectoryListingEntry.is_directory := false;
                   VfsDirectoryListingEntry.is_file := true;
                   VfsDirectoryListingEntry.size_bytes := Some file.(VfsFile.size_bytes) |}
            | VfsEntry.Directory _ =>
                {| VfsDirectoryListingEntry.file_name := file_name;
                   VfsDirectoryListingEntry.is_directory := true;
                   VfsDirectoryListingEntry.is_file := false;
                   VfsDirectoryListingEntry.size_bytes := None |}
            end) (btree_to_list directory))
  end.

Definition stat_snapshot_path (manifest : VfsSnapshotManifest) (path : VfsPath)
    : Result VfsError VfsPathMetadata :=
  node ← lookup_snapshot_path manifest path;
  match node with
  | VfsNode.File file =>
      Ok {| VfsPathMetadata.is_directory := false;
            VfsPathMetadata.is_file := true;
            VfsPathMetadata.size_bytes := Some file.(VfsFile.size_bytes);
            VfsPathMetadata.media_type := file.(VfsFile.media_type);
            VfsPathMetadata.executable := file.(VfsFile.executable) |}
  | VfsNode.Directory _ =>
      Ok {| VfsPathMetadata.is_directory := true;
            VfsPathMetadata.is_file := false;
            VfsPathMetadata.size_bytes := None;
            VfsPathMetadata.media_type := None;
            VfsPathMetadata.executable := false |}
  end.

(** The references of the files, as a set. *)
Definition union_refs (refs : gmap string (gset BlobRef)) : gset BlobRef :=
  ⋃ (btree_values refs).
Fixpoint entry_blob_refs (entry : VfsEntry) : gset BlobRef :=
  match entry with
  | VfsEntry.File file => {[ file.(VfsFile.blob_ref) ]}
  | VfsEntry.Directory directory => union_refs (entry_blob_refs <$> directory)
  end.
Definition manifest_blob_refs (manifest : VfsSnapshotManifest) : gset BlobRef :=
  union_refs (entry_blob_refs <$> manifest.(VfsSnapshotManifest.root)).

(** ** Changing a manifest *)
Definition ensure_file_write_target (path : VfsPath) (manifest : VfsSnapshotManifest)
    : Result VfsError unit :=
  let components := VfsPath.components path in
  _ ← reject_if (bool_decide (components = [])) VfsError.RootFile;
  parent ← parent_directory manifest.(VfsSnapshotManifest.root) components;
  match parent !! last_component components with
  | Some (VfsEntry.Directory _) => Err (VfsError.NotAFile path)
  | Some (VfsEntry.File _) | None => Ok tt
  end.

(** [BTreeMap::insert] and [BTreeMap::remove], which return the entry that was there. *)
Definition insert_entry (name : string) (entry : VfsEntry)
    : Reducer VfsDirectory VfsError (option VfsEntry) :=
  λ entries, (Ok (entries !! name), <[name := entry]> entries).
Definition remove_entry (name : string) : Reducer VfsDirectory VfsError (option VfsEntry) :=
  λ entries, (Ok (entries !! name), delete name entries).

Definition insert_or_replace_entry (path : VfsPath) (entry : VfsEntry) : ManifestReducer unit :=
  let components := VfsPath.components path in
  _ ← reject_if (bool_decide (components = [])) (VfsError.PathConflict path "directory");
  added_totals ← lift_result (entry_totals entry);
  replaced ← on_root (parent_directory_mut components
               (insert_entry (last_component components) entry));
  _ ← match replaced with
      | Some replaced =>
          removed_totals ← lift_result (entry_totals replaced);
          on_totals (subtract_totals removed_totals)
      | None => mret tt
      end;
  on_totals (add_totals added_totals).
Definition replace_file_entry (path : VfsPath) (file : VfsFile) : ManifestReducer unit :=
  insert_or_replace_entry path (VfsEntry.File file).

Definition write_manifest_file_ref (path : VfsPath) (blob_ref : BlobRef) (size_bytes : N)
    (media_type : option string) (executable : bool) : ManifestReducer unit :=
  _ ← checking (ensure_file_write_target path);
  replace_file_entry path
    {| VfsFile.blob_ref := blob_ref;
       VfsFile.size_bytes := size_bytes;
       VfsFile.media_type := media_type;
       VfsFile.executable := executable |}.

(** The loop of [create_manifest_directory] under [recursive]. *)
Fixpoint create_directories (seen components : list string)
    : Reducer VfsDirectory VfsError unit :=
  match components with
  | [] => mret tt
  | component :: components =>
      let seen := seen ++ [component] in
      enter component (Ok VfsDirectory_default)
        (VfsError.NotADirectory (path_from_components seen))
        (create_directories seen components)
  end.
Definition create_manifest_directory (path : VfsPath) (recursive : bool)
    : ManifestReducer unit :=
  let components := VfsPath.components path in
  if bool_decide (components = []) then
    if recursive then mret tt else mthrow (VfsError.AlreadyExists path)
  else if recursive then on_root (create_directories [] components)
  else
    let name := last_component components in
    on_root (parent_directory_mut components (
      parent ← get_state;
      _ ← reject_if (is_some (parent !! name)) (VfsError.AlreadyExists path);
      modify_state (<[name := VfsEntry.Directory VfsDirectory_default]>))).

(** What [remove_manifest_path] does to the parent it found: the entry it removed, nothing
    when it has to succeed without one, or the error it returns. *)
Definition remove_from_parent (path : VfsPath) (name : string) (recursive force : bool)
    : Reducer VfsDirectory VfsError (Result VfsError (option VfsEntry)) :=
  parent ← get_state;
  match parent !! name with
  | None => mret (if force then Ok None else Err (VfsError.NotFound path))
  | Some entry =>
      let is_full := match entry with
                     | VfsEntry.Directory directory =>
                         negb recursive && bool_decide (directory ≠ ∅)
                     | VfsEntry.File _ => false
                     end in
      if is_full then mret (Err (VfsError.DirectoryNotEmpty path))
      else removed ← remove_entry name; mret (Ok removed)
  end.
Definition remove_manifest_path (path : VfsPath) (recursive force : bool)
    : ManifestReducer unit :=
  let components := VfsPath.components path in
  _ ← reject_if (bool_decide (components = []))
        (VfsError.InvalidOperation "cannot remove vfs root");
  removed ← (λ manifest,
    match on_root (parent_directory_mut components
            (remove_from_parent path (last_component components) recursive force)) manifest with
    | (Err (VfsError.NotFound _ as error), manifest) =>
        (if force then Ok (Ok None) else Err error, manifest)
    | outcome => outcome
    end);
  removed ← lift_result removed;
  match removed with
  | None => mret tt
  | Some entry =>
      totals ← lift_result (entry_totals entry);
      on_totals (subtract_totals totals)
  end.

Definition replace_manifest_entry (path : VfsPath) (entry : VfsEntry) : ManifestReducer unit :=
  if bool_decide (VfsPath.components path = []) then
    totals ← lift_result (entry_totals entry);
    match entry with
    | VfsEntry.File _ =>
        mthrow (VfsError.InvalidOperation "workspace root must remain a directory")
    | VfsEntry.Directory root =>
        _ ← modify_state (λ manifest, manifest <| VfsSnapshotManifest.root := root |>);
        modify_state (λ manifest, manifest <| VfsSnapshotManifest.totals := totals |>)
    end
  else insert_or_replace_entry path entry.

Definition copy_manifest_path (source destination : VfsPath) (recursive : bool)
    : ManifestReducer unit :=
  source_entry ← checking (λ manifest, lookup_snapshot_path manifest source);
  match source_entry with
  | VfsNode.File file =>
      _ ← checking (ensure_file_write_target destination);
      replace_file_entry destination file
  | VfsNode.Directory directory =>
      _ ← reject_if (negb recursive) (VfsError.InvalidOperation
            "copy requires recursive: true when source is a directory");
      _ ← reject_if (path_starts_with destination source) (VfsError.InvalidOperation
            "cannot copy a directory to itself or one of its descendants");
      insert_or_replace_entry destination (VfsEntry.Directory directory)
  end.

(** ** Snapshots of given files *)
Module InlineFile.
Record InlineFile : Type := {
  path : VfsPath;
  bytes : string;
  media_type : option string;
  executable : bool;
}.
End InlineFile.
Abbreviation InlineFile := InlineFile.InlineFile.
Definition InlineFile_new (path bytes : string) : Result VfsError InlineFile :=
  path ← map_err VfsError.InvalidPath (VfsPath.parse path);
  mret {| InlineFile.path := path;
          InlineFile.bytes := bytes;
          InlineFile.media_type := None;
          InlineFile.executable := false |}.

Module VfsSnapshotLimits.
Record VfsSnapshotLimits : Type := {
  max_files : N;
  max_total_bytes : N;
  max_single_file_bytes : N;
  max_depth : N;
}.
End VfsSnapshotLimits.
Abbreviation VfsSnapshotLimits := VfsSnapshotLimits.VfsSnapshotLimits.
Definition VfsSnapshotLimits_default : VfsSnapshotLimits :=
  {| VfsSnapshotLimits.max_files := 10000;
     VfsSnapshotLimits.max_total_bytes := 512 * 1024 * 1024;
     VfsSnapshotLimits.max_single_file_bytes := 128 * 1024 * 1024;
     VfsSnapshotLimits.max_depth := 64 |}.

Module CreateInlineSnapshotRequest.
Record CreateInlineSnapshotRequest : Type := {
  files : list InlineFile;
  limits : VfsSnapshotLimits;
}.
End CreateInlineSnapshotRequest.
Abbreviation CreateInlineSnapshotRequest :=
  CreateInlineSnapshotRequest.CreateInlineSnapshotRequest.

Module CreateVfsSnapshotResult.
Record CreateVfsSnapshotResult : Type := {
  snapshot_ref : BlobRef;
  manifest : VfsSnapshotManifest;
}.
End CreateVfsSnapshotResult.
Abbreviation CreateVfsSnapshotResult := CreateVfsSnapshotResult.CreateVfsSnapshotResult.

Fixpoint insert_file_at (path : VfsPath) (file : VfsFile) (components : list string)
    : Reducer VfsDirectory VfsError unit :=
  match components with
  | [] => mthrow VfsError.RootFile
  | [filename] =>
      replaced ← insert_entry filename (VfsEntry.File file);
      match replaced with
      | None => mret tt
      | Some (VfsEntry.Directory _) => mthrow (VfsError.PathConflict path "directory")
      | Some (VfsEntry.File _) => mthrow (VfsError.DuplicatePath path)
      end
  | component :: components =>
      enter component (Ok VfsDirectory_default) (VfsError.PathConflict path "file")
        (insert_file_at path file components)
  end.
Definition insert_file (path : VfsPath) (file : VfsFile) : Reducer VfsDirectory VfsError unit :=
  insert_file_at path file (VfsPath.components path).

(** [bytes.len() as u64]. *)
Definition byte_len (bytes : string) : N := N.of_nat (String.length bytes).

(** The first loop of [validate_inline_files], over the paths seen and the bytes so far. *)
Fixpoint validate_inline_limits (limits : VfsSnapshotLimits) (seen : list VfsPath)
    (total_bytes : N) (files : list InlineFile) : Result VfsError unit :=
  match files with
  | [] => mret tt
  | file :: files =>
      let path := file.(InlineFile.path) in
      let file_depth := N.of_nat (VfsPath.depth path) in
      let file_bytes := byte_len file.(InlineFile.bytes) in
      _ ← reject_if (VfsPath.is_root path) VfsError.RootFile;
      _ ← reject_if (bool_decide (path ∈ seen)) (VfsError.DuplicatePath path);
      _ ← reject_if (limits.(VfsSnapshotLimits.max_depth) <? file_depth)%N
            (VfsError.LimitExceeded "depth" file_depth limits.(VfsSnapshotLimits.max_depth));
      _ ← reject_if (limits.(VfsSnapshotLimits.max_single_file_bytes) <? file_bytes)%N
            (VfsError.LimitExceeded "single_file_bytes" file_bytes
               limits.(VfsSnapshotLimits.max_single_file_bytes));
      total_bytes ← ok_or (checked_add_u64 total_bytes file_bytes)
        (VfsError.LimitExceeded "total_bytes" u64_max
           limits.(VfsSnapshotLimits.max_total_bytes));
      _ ← reject_if (limits.(VfsSnapshotLimits.max_total_bytes) <? total_bytes)%N
            (VfsError.LimitExceeded "total_bytes" total_bytes
               limits.(VfsSnapshotLimits.max_total_bytes));
      validate_inline_limits limits (path :: seen) total_bytes files
  end.
(** [BlobRef::default]. *)
Definition BlobRef_default `{!Externals} : BlobRef := BlobRef_from_bytes "".
Definition inline_file_entry (blob_ref : BlobRef) (file : InlineFile) : VfsFile :=
  {| VfsFile.blob_ref := blob_ref;
     VfsFile.size_bytes := byte_len file.(InlineFile.bytes);
     VfsFile.media_type := file.(InlineFile.media_type);
     VfsFile.executable := file.(InlineFile.executable) |}.
Definition validate_inline_files `{!Externals} (files : list InlineFile)
    (limits : VfsSnapshotLimits) : Result VfsError unit :=
  let count := N.of_nat (length files) in
  _ ← reject_if (limits.(VfsSnapshotLimits.max_files) <? count)%N
        (VfsError.LimitExceeded "files" count limits.(VfsSnapshotLimits.max_files));
  _ ← validate_inline_limits limits [] 0 files;
  (for_each (λ file, insert_file file.(InlineFile.path) (inline_file_entry BlobRef_default file))
     files VfsDirectory_default).1.
(** The loop of [create_inline_snapshot] over the files and the references of their blobs. *)
Definition stage_inline_file (staged : InlineFile * BlobRef) : ManifestReducer unit :=
  let '(file, blob_ref) := staged in
  _ ← on_root (insert_file file.(InlineFile.path) (inline_file_entry blob_ref file));
  on_totals (modify_state (λ totals,
    totals <| VfsTotals.files ::= N.add 1 |>
           <| VfsTotals.bytes ::= N.add (byte_len file.(InlineFile.bytes)) |>)).
Definition inline_manifest (files : list InlineFile) (blob_refs : list BlobRef)
    : Result VfsError VfsSnapshotManifest :=
  match for_each stage_inline_file (zip files blob_refs) VfsSnapshotManifest_empty with
  | (Ok _, manifest) => Ok manifest
  | (Err error, _) => Err error
  end.

(** ** Manifests as JSON *)
(** How deep the JSON of a value nests: a file is an object, a directory an object holding the
    object of its entries, a manifest an object holding its root. *)
Definition greatest (l : list nat) : nat := foldr max 0%nat l.
Fixpoint entry_json_depth (entry : VfsEntry) : nat :=
  match entry with
  | VfsEntry.File _ => 1
  | VfsEntry.Directory directory =>
      2 + greatest (map_to_list (entry_json_depth <$> directory)).*2
  end.
Definition manifest_json_depth (manifest : VfsSnapshotManifest) : nat :=
  S (entry_json_depth (VfsEntry.Directory manifest.(VfsSnapshotManifest.root))).

(** What the Rust types say of a manifest: its numbers are [u64]s and its references canonical,
    which decoding checks. *)
Definition file_typed (file : VfsFile) : bool :=
  (file.(VfsFile.size_bytes) <=? u64_max)%N && is_canonical_sha256_ref file.(VfsFile.blob_ref).
Fixpoint entry_typed (entry : VfsEntry) : bool :=
  match entry with
  | VfsEntry.File file => file_typed file
  | VfsEntry.Directory directory => forallb id (map_to_list (entry_typed <$> directory)).*2
  end.
Definition manifest_typed (manifest : VfsSnapshotManifest) : bool :=
  let totals := manifest.(VfsSnapshotManifest.totals) in
  (totals.(VfsTotals.files) <=? u64_max)%N && (totals.(VfsTotals.bytes) <=? u64_max)%N
  && entry_typed (VfsEntry.Directory manifest.(VfsSnapshotManifest.root)).

(** [serde_json] refuses a document that nests more than 127 deep when it reads it, and writes
    one all the same. *)
Definition JSON_DEPTH : nat := 127.
Class ManifestJson := {
  manifest_to_vec : VfsSnapshotManifest → string;
  manifest_from_slice : string → Result string VfsSnapshotManifest;
  manifest_round_trip : ∀ manifest,
    manifest_typed manifest = true → manifest_json_depth manifest ≤ JSON_DEPTH →
    manifest_from_slice (manifest_to_vec manifest) = Ok manifest;
  manifest_too_deep : ∀ manifest,
    JSON_DEPTH < manifest_json_depth manifest →
    is_err (manifest_from_slice (manifest_to_vec manifest)) = true;
  manifest_from_slice_typed : ∀ bytes manifest,
    manifest_from_slice bytes = Ok manifest → manifest_typed manifest = true;
}.

Definition encode_snapshot_manifest `{!ManifestJson} (manifest : VfsSnapshotManifest)
    : Result VfsError string :=
  _ ← validate manifest;
  mret (manifest_to_vec manifest).
Definition decode_snapshot_manifest `{!ManifestJson} (bytes : string)
    : Result VfsError VfsSnapshotManifest :=
  manifest ← map_err VfsError.DecodeManifest (manifest_from_slice bytes);
  _ ← validate manifest;
  mret manifest.
