(* ===== verification/VfsTreeLaws.v ===== *)
(** * Laws of the virtual file system's tree

    A canonical path is its list of components; a manifest is a partial map from lists of
    components to files and directories, on which every operation has a short description; and
    the totals a manifest carries stay exact. *)
From Stdlib Require Import Ascii.
From stdpp Require Import countable.
From S2P Require Import Prelude Ids Text Types Externals VfsTree.
Set Primitive Projections.

(** ** Canonical paths *)
Definition valid_name (name : string) : bool :=
  negb (VfsPath.is_invalid name) && negb (VfsPath.contains_nul name) && negb (has_char "/" name).
Abbreviation valid_names := (Forall (λ name, valid_name name = true)).
Lemma valid_name_spec name :
  valid_name name = true ↔
  VfsPath.is_invalid name = false ∧ has_char "000" name = false ∧ has_char "/" name = false.
Proof.
  unfold valid_name. rewrite !andb_true_iff, !negb_true_iff. unfold VfsPath.contains_nul, has_char.
  tauto.
Qed.
Lemma valid_name_not_empty name : valid_name name = true → name ≠ "".
Proof. intros Hn ->. by vm_compute in Hn. Qed.
Lemma validate_name_Ok name u : validate_name name = Ok u ↔ valid_name name = true.
Proof.
  unfold validate_name. rewrite bind_Ok. setoid_rewrite reject_if_Ok.
  setoid_rewrite orb_false_iff. rewrite valid_name_spec. unfold VfsPath.contains_nul, has_char.
  split; [by intros (_ & [] & ?)|]. intros (? & ? & ?). by exists tt.
Qed.

Lemma join_cons a b l : VfsPath.join (a :: b :: l) = a +:+ String "/" (VfsPath.join (b :: l)).
Proof. done. Qed.
Lemma split_join names :
  valid_names names → names ≠ [] → split "/" (VfsPath.join names) = names.
Proof.
  intros Hv Hn. destruct names as [|a l]; [done|]. clear Hn. revert a Hv.
  induction l as [|b l IH]; intros a [(_ & _ & Ha)%valid_name_spec Hl]%Forall_cons.
  - by apply split_none.
  - rewrite join_cons, split_app by done. by rewrite IH.
Qed.
Lemma trim_start_slashes_join names :
  valid_names names → VfsPath.trim_start_slashes (VfsPath.join names) = VfsPath.join names.
Proof.
  destruct names as [|a l]; [done|]. intros [(Hi & _ & Ha)%valid_name_spec _]%Forall_cons.
  destruct a as [|c a]; [done|]. apply orb_false_iff in Ha as [Hc _].
  assert (∃ t, VfsPath.join (String c a :: l) = String c t) as (t & ->) by (destruct l; by eexists).
  cbn [VfsPath.trim_start_slashes]. by rewrite Ascii.eqb_sym, Hc.
Qed.
Lemma join_not_empty a l : valid_name a = true → VfsPath.join (a :: l) ≠ "".
Proof. intros Ha%valid_name_not_empty. destruct a; [done|]. by destruct l. Qed.

Lemma path_from_cons a l :
  path_from_components (a :: l) = String "/" (VfsPath.join (a :: l)).
Proof. done. Qed.
Lemma path_not_root a l :
  valid_name a = true → VfsPath.is_root (path_from_components (a :: l)) = false.
Proof.
  intros Ha. unfold VfsPath.is_root. apply bool_decide_eq_false. rewrite path_from_cons.
  intros [= H]. by apply (join_not_empty a l Ha).
Qed.
Lemma components_of_path names :
  valid_names names → VfsPath.components (path_from_components names) = names.
Proof.
  intros Hv. destruct names as [|a l]; [done|]. unfold VfsPath.components.
  rewrite path_not_root by by inversion Hv. rewrite path_from_cons. cbn [VfsPath.trim_start_slashes].
  rewrite Ascii.eqb_refl, trim_start_slashes_join by done. by apply split_join.
Qed.

(** A path that was parsed is the path of its components, and each of them is a valid name. *)
Lemma parse_canonical value path :
  VfsPath.parse value = Ok path →
  valid_names (VfsPath.components path) ∧ path = path_from_components (VfsPath.components path).
Proof.
  unfold VfsPath.parse. case_bool_decide as H1; [done|].
  destruct (VfsPath.contains_nul value) eqn:Hnul; [done|].
  case_bool_decide as H2; [by intros [= <-]|]. case_bool_decide as H3; [done|].
  intros Hok. simplify_ok. rename select (for_each _ _ = _) into Hall.
  apply for_each_Ok in Hall.
  set (names := split "/" _) in *.
  assert (has_char "000" (default value (strip_prefix "/" value)) = false) as Hn.
  { destruct (strip_prefix "/" value) as [t|] eqn:Ht; cbn; [|done].
    apply strip_prefix_Some in Ht as ->. revert Hnul. unfold VfsPath.contains_nul.
    change (has_char "000" ("/" +:+ t) = false → has_char "000" t = false).
    rewrite has_char_app. by intros [_ ?]%orb_false_iff. }
  assert (valid_names names) as Hv.
  { apply Forall_forall. intros name Hin. apply valid_name_spec.
    destruct (split_parts _ _ _ Hin) as [Hs Hd]. split_and!; [|by apply Hd|done].
    rewrite Forall_forall in Hall. specialize (Hall _ Hin). by apply reject_if_Ok in Hall. }
  assert (names ≠ []) as Hnn.
  { unfold names, split. intros Hm%fmap_nil_inv. by destruct (split_chars_join "/" (chars (default value (strip_prefix "/" value)))). }
  assert ("/" +:+ VfsPath.join names = path_from_components names) as ->.
  { unfold path_from_components. by rewrite bool_decide_false. }
  by rewrite components_of_path.
Qed.
Lemma has_char_join c names :
  c ≠ "/"%char → Forall (λ name, has_char c name = false) names →
  has_char c (VfsPath.join names) = false.
Proof.
  intros Hc. destruct names as [|a l]; [done|]. revert a.
  induction l as [|b l IH]; intros a [Ha Hl]%Forall_cons; [done|].
  rewrite join_cons, has_char_app, Ha. cbn [orb].
  change (String "/" (VfsPath.join (b :: l))) with ("/" +:+ VfsPath.join (b :: l)).
  rewrite has_char_app, IH by done. rewrite orb_false_r. unfold has_char. cbn.
  rewrite orb_false_r. by apply Ascii.eqb_neq.
Qed.
(** Parsing the path of valid names gives it back. *)
Lemma parse_path_of names :
  valid_names names → VfsPath.parse (path_from_components names) = Ok (path_from_components names).
Proof.
  intros Hv. destruct names as [|a l]; [done|].
  assert (valid_name a = true) as Ha by by inversion Hv.
  pose proof (join_not_empty a l Ha) as Hne. pose proof (split_join (a :: l) Hv ltac:(done)) as Hs.
  assert (has_char "000" (VfsPath.join (a :: l)) = false) as Hnul.
  { apply has_char_join; [done|]. eapply Forall_impl; [exact Hv|].
    by intros ? (_ & ? & _)%valid_name_spec. }
  rewrite path_from_cons. set (s := VfsPath.join (a :: l)) in *.
  unfold VfsPath.parse. rewrite bool_decide_false by done.
  change (VfsPath.contains_nul (String "/" s)) with (has_char "000" s). rewrite Hnul.
  rewrite bool_decide_false by (intros [= H]; by apply Hne).
  change (strip_prefix "/" (String "/" s)) with (strip_prefix "/" ("/" +:+ s)).
  rewrite strip_prefix_app. unfold default, from_option, id. rewrite bool_decide_false, Hs by done.
  assert (for_each (λ component, reject_if (M:=Result VfsPathError)
    (VfsPath.is_invalid component)
    (VfsPathError.InvalidComponent (String "/" s) component)) (a :: l) = Ok tt) as ->; [|done].
  apply for_each_Ok. eapply Forall_impl; [exact Hv|].
  intros name (Hi & _)%valid_name_spec. by apply reject_if_Ok.
Qed.
Lemma path_from_inj names names' :
  valid_names names → valid_names names' →
  path_from_components names = path_from_components names' ↔ names = names'.
Proof.
  intros H H'. split; [|by intros ->]. intros Heq.
  by rewrite <- (components_of_path names), <- (components_of_path names'), Heq.
Qed.
Lemma join_app names names' :
  names ≠ [] → names' ≠ [] →
  VfsPath.join (names ++ names') = VfsPath.join names +:+ String "/" (VfsPath.join names').
Proof.
  intros Hn Hn'. destruct names as [|a l]; [done|]. clear Hn. revert a.
  induction l as [|b l IH]; intros a; [by destruct names'|].
  rewrite <- app_comm_cons. rewrite join_cons, string_app_assoc.
  cbn [app]. rewrite join_cons. f_equal. change ((b :: l) ++ names') with (b :: (l ++ names')) in IH.
  specialize (IH b). cbn [app] in IH. by rewrite IH.
Qed.
Lemma split_join_app names t :
  valid_names names → names ≠ [] →
  split "/" (VfsPath.join names +:+ String "/" t) = names ++ split "/" t.
Proof.
  intros Hv Hn. destruct names as [|a l]; [done|]. clear Hn. revert a Hv.
  induction l as [|b l IH]; intros a [(_ & _ & Ha)%valid_name_spec Hl]%Forall_cons.
  - by apply split_app.
  - rewrite join_cons, string_app_assoc. cbn [app].
    change (String "/" (VfsPath.join (b :: l)) +:+ String "/" t)
      with (String "/" (VfsPath.join (b :: l) +:+ String "/" t)).
    rewrite split_app by done. by rewrite IH.
Qed.
Lemma path_starts_with_spec path base :
  valid_names path → valid_names base →
  path_starts_with (path_from_components path) (path_from_components base) =
  bool_decide (base `prefix_of` path).
Proof.
  intros Hp Hb. unfold path_starts_with. destruct base as [|b base].
  { cbn. symmetry. apply bool_decide_eq_true. apply prefix_nil. }
  rewrite path_not_root by by inversion Hb.
  apply eq_true_iff_eq. rewrite orb_true_iff, !bool_decide_eq_true, path_from_inj by done. split.
  - intros [->|Hs]; [done|].
    destruct (strip_prefix _ _) as [suffix|] eqn:Hstrip; [|done].
    apply strip_prefix_Some in Hstrip. unfold starts_with in Hs.
    destruct (strip_prefix "/" suffix) as [t|] eqn:Ht; [|done].
    apply strip_prefix_Some in Ht as ->. destruct path as [|a path].
    { exfalso. rewrite path_from_cons in Hstrip. injection Hstrip as Hstrip.
      by destruct (VfsPath.join (b :: base)). }
    rewrite !path_from_cons in Hstrip. injection Hstrip as Hstrip.
    exists (split "/" t). rewrite <- (split_join (a :: path)), Hstrip by done.
    by apply (split_join_app (b :: base) t).
  - intros [names ->]. destruct names as [|n names]; [left; by rewrite app_nil_r|]. right.
    cbn [app]. rewrite !path_from_cons.
    change (b :: base ++ n :: names) with ((b :: base) ++ n :: names).
    rewrite join_app by done.
    change (String "/" (VfsPath.join (b :: base) +:+ String "/" (VfsPath.join (n :: names))))
      with (String "/" (VfsPath.join (b :: base)) +:+ String "/" (VfsPath.join (n :: names))).
    rewrite strip_prefix_app. done.
Qed.

(** ** Induction over a tree *)
Lemma greatest_elem n l : n ∈ l → n ≤ greatest l.
Proof.
  induction l as [|m l IH]; [by intros ?%elem_of_nil|]. cbn.
  intros [->|Hn]%elem_of_cons; [lia|]. specialize (IH Hn). unfold greatest in IH. lia.
Qed.
Lemma greatest_least l b : (∀ n, n ∈ l → n ≤ b) → greatest l ≤ b.
Proof.
  intros H. induction l as [|m l IH]; cbn; [lia|].
  apply Nat.max_lub; [apply H|apply IH; intros; apply H]; set_solver.
Qed.
Section values.
Context {A B : Type} (f : A → B).
Implicit Types m : gmap string A.
Lemma map_values_fmap m : (map_to_list (f <$> m)).*2 = f <$> (map_to_list m).*2.
Proof. rewrite map_to_list_fmap, <- !list_fmap_compose. apply list_fmap_ext. by intros ? [] ?. Qed.
Lemma elem_of_map_values m a : a ∈ (map_to_list m).*2 ↔ ∃ k, m !! k = Some a.
Proof.
  rewrite list_elem_of_fmap. split.
  - intros ([k b] & -> & ?%elem_of_map_to_list). eauto.
  - intros (k & ?%elem_of_map_to_list). by exists (k, a).
Qed.
End values.

Lemma entry_depth_child directory name entry :
  directory !! name = Some entry →
  2 + entry_json_depth entry ≤ entry_json_depth (VfsEntry.Directory directory).
Proof.
  intros Hn. cbn [entry_json_depth]. apply le_n_S, le_n_S, greatest_elem.
  rewrite map_values_fmap. apply list_elem_of_fmap. exists entry. split; [done|].
  apply elem_of_map_values. eauto.
Qed.
Lemma VfsEntry_tree_ind (P : VfsEntry → Prop) :
  (∀ file, P (VfsEntry.File file)) →
  (∀ directory, (∀ name entry, directory !! name = Some entry → P entry) →
     P (VfsEntry.Directory directory)) →
  ∀ entry, P entry.
Proof.
  intros Hf Hd. assert (∀ n entry, entry_json_depth entry ≤ n → P entry) as H; [|eauto].
  induction n as [|n IH]; intros [file|directory] Hn; auto; [cbn in Hn; lia|].
  apply Hd. intros name entry Hl. apply IH. pose proof (entry_depth_child _ _ _ Hl). lia.
Qed.

(** ** The tree of a manifest *)
Module Kind.
Inductive Kind : Type :=
| File (file : VfsFile)
| Directory.
End Kind.
Abbreviation Kind := Kind.Kind.
Definition Tree : Type := list string → option Kind.

Fixpoint find (entry : VfsEntry) (names : list string) : option VfsEntry :=
  match names with
  | [] => Some entry
  | name :: names =>
      match entry with
      | VfsEntry.File _ => None
      | VfsEntry.Directory directory => directory !! name ≫= λ child, find child names
      end
  end.
Definition kind_of (entry : VfsEntry) : Kind :=
  match entry with
  | VfsEntry.File file => Kind.File file
  | VfsEntry.Directory _ => Kind.Directory
  end.
Definition tree_of (entry : VfsEntry) : Tree := λ names, kind_of <$> find entry names.
Definition manifest_tree (manifest : VfsSnapshotManifest) : Tree :=
  tree_of (VfsEntry.Directory manifest.(VfsSnapshotManifest.root)).

Fixpoint strip_names (prefix names : list string) : option (list string) :=
  match prefix, names with
  | [], _ => Some names
  | a :: prefix, b :: names => if bool_decide (a = b) then strip_names prefix names else None
  | _ :: _, [] => None
  end.
(** [branch] in the place of whatever lies at or below [names]. *)
Definition graft (names : list string) (branch tree : Tree) : Tree := λ path,
  match strip_names names path with Some rest => branch rest | None => tree path end.
Definition no_tree : Tree := λ _, None.
Definition subtree (tree : Tree) (names : list string) : Tree := λ path, tree (names ++ path).

Lemma strip_names_Some prefix names rest :
  strip_names prefix names = Some rest ↔ names = prefix ++ rest.
Proof.
  revert names. induction prefix as [|a prefix IH]; intros names; cbn; [naive_solver|].
  destruct names as [|b names]; [naive_solver|]. case_bool_decide; [subst; rewrite IH|]; naive_solver.
Qed.
Lemma strip_names_app prefix rest : strip_names prefix (prefix ++ rest) = Some rest.
Proof. by apply strip_names_Some. Qed.
Lemma strip_names_None prefix names :
  strip_names prefix names = None ↔ ¬ prefix `prefix_of` names.
Proof.
  split.
  - intros Hs [rest Hr]. apply strip_names_Some in Hr. congruence.
  - intros Hp. destruct (strip_names prefix names) as [rest|] eqn:Hs; [|done].
    destruct Hp. exists rest. by apply strip_names_Some.
Qed.

Lemma find_app entry names names' :
  find entry (names ++ names') = find entry names ≫= λ found, find found names'.
Proof.
  revert entry. induction names as [|name names IH]; intros entry; [done|]. cbn.
  destruct entry as [file|directory]; [done|].
  destruct (directory !! name) as [child|]; cbn; [apply IH|done].
Qed.
Lemma tree_of_found entry names found :
  find entry names = Some found → ∀ path, tree_of entry (names ++ path) = tree_of found path.
Proof. intros Hf path. unfold tree_of. by rewrite find_app, Hf. Qed.
Lemma tree_of_file file path :
  tree_of (VfsEntry.File file) path = match path with [] => Some (Kind.File file) | _ => None end.
Proof. by destruct path. Qed.
Lemma tree_of_Directory entry names :
  tree_of entry names = Some Kind.Directory ↔
  ∃ directory, find entry names = Some (VfsEntry.Directory directory).
Proof.
  unfold tree_of. destruct (find entry names) as [[file|directory]|]; cbn; naive_solver.
Qed.
Lemma tree_of_File entry names file :
  tree_of entry names = Some (Kind.File file) ↔ find entry names = Some (VfsEntry.File file).
Proof. unfold tree_of. destruct (find entry names) as [[]|]; cbn; naive_solver. Qed.
Lemma tree_of_None entry names : tree_of entry names = None ↔ find entry names = None.
Proof. unfold tree_of. by rewrite fmap_None. Qed.

Lemma tree_of_insert directory name entry path :
  tree_of (VfsEntry.Directory (<[name := entry]> directory)) path =
  graft [name] (tree_of entry) (tree_of (VfsEntry.Directory directory)) path.
Proof.
  unfold graft. destruct path as [|n path]; [done|]. cbn [strip_names].
  case_bool_decide as Hn.
  - subst n. cbn [strip_names]. unfold tree_of. cbn. by rewrite lookup_insert_eq.
  - unfold tree_of. cbn. by rewrite lookup_insert_ne by done.
Qed.
Lemma tree_of_delete directory name path :
  tree_of (VfsEntry.Directory (delete name directory)) path =
  graft [name] no_tree (tree_of (VfsEntry.Directory directory)) path.
Proof.
  unfold graft. destruct path as [|n path]; [done|]. cbn [strip_names].
  case_bool_decide as Hn.
  - subst n. unfold tree_of. cbn. by rewrite lookup_delete_eq.
  - unfold tree_of. cbn. by rewrite lookup_delete_ne by done.
Qed.

(** ** Exact totals *)
Definition plus (s t : VfsTotals) : VfsTotals :=
  {| VfsTotals.files := s.(VfsTotals.files) + t.(VfsTotals.files);
     VfsTotals.bytes := s.(VfsTotals.bytes) + t.(VfsTotals.bytes) |}%N.
Definition sum (l : list VfsTotals) : VfsTotals := foldr plus VfsTotals_default l.
Fixpoint weight (entry : VfsEntry) : VfsTotals :=
  match entry with
  | VfsEntry.File file =>
      {| VfsTotals.files := 1; VfsTotals.bytes := file.(VfsFile.size_bytes) |}
  | VfsEntry.Directory directory => sum (map_to_list (weight <$> directory)).*2
  end.
Definition fits (t : VfsTotals) : Prop :=
  (t.(VfsTotals.files) <= u64_max)%N ∧ (t.(VfsTotals.bytes) <= u64_max)%N.

Lemma totals_eq s t :
  s.(VfsTotals.files) = t.(VfsTotals.files) → s.(VfsTotals.bytes) = t.(VfsTotals.bytes) → s = t.
Proof. destruct s, t. cbn. by intros -> ->. Qed.
Ltac totals := repeat match goal with t : VfsTotals |- _ => destruct t end; cbn in *;
  try (f_equal; lia); try lia; auto with lia.
Lemma plus_comm s t : plus s t = plus t s.
Proof. apply totals_eq; cbn; lia. Qed.
Lemma plus_assoc s t u : plus s (plus t u) = plus (plus s t) u.
Proof. apply totals_eq; cbn; lia. Qed.
Lemma plus_0_l t : plus VfsTotals_default t = t.
Proof. by apply totals_eq. Qed.
Lemma plus_0_r t : plus t VfsTotals_default = t.
Proof. by rewrite plus_comm, plus_0_l. Qed.
Lemma plus_cancel s t u : plus s u = plus t u → s = t.
Proof.
  intros H. apply totals_eq.
  - apply (f_equal VfsTotals.files) in H. cbn in H. lia.
  - apply (f_equal VfsTotals.bytes) in H. cbn in H. lia.
Qed.
Lemma plus_cancel_l s t u : plus s t = plus s u → t = u.
Proof. rewrite !(plus_comm s). apply plus_cancel. Qed.
Lemma fits_plus_l s t : fits (plus s t) → fits s.
Proof. unfold fits. cbn. lia. Qed.
Lemma fits_plus_r s t : fits (plus s t) → fits t.
Proof. unfold fits. cbn. lia. Qed.
#[export] Instance sum_perm : Proper (Permutation ==> eq) sum.
Proof.
  induction 1 as [|t l l' _ IH|s t l|? ? ? _ IH1 _ IH2]; cbn.
  - done.
  - unfold sum in IH. by rewrite IH.
  - by rewrite plus_assoc, (plus_comm t s), <- plus_assoc.
  - by rewrite IH1.
Qed.
Lemma sum_app l l' : sum (l ++ l') = plus (sum l) (sum l').
Proof.
  induction l as [|t l IH]; [by rewrite plus_0_l|].
  change (sum ((t :: l) ++ l')) with (plus t (sum (l ++ l'))). by rewrite IH, plus_assoc.
Qed.

Lemma weight_Directory directory :
  weight (VfsEntry.Directory directory) = sum (weight <$> (map_to_list directory).*2).
Proof. cbn [weight]. by rewrite map_values_fmap. Qed.
Lemma weight_fresh directory name entry :
  directory !! name = None →
  weight (VfsEntry.Directory (<[name := entry]> directory)) =
  plus (weight entry) (weight (VfsEntry.Directory directory)).
Proof. intros Hn. rewrite !weight_Directory. by rewrite map_to_list_insert. Qed.
Definition weight_at (directory : VfsDirectory) (name : string) : VfsTotals :=
  match directory !! name with Some entry => weight entry | None => VfsTotals_default end.
Lemma weight_delete directory name :
  weight (VfsEntry.Directory directory) =
  plus (weight_at directory name) (weight (VfsEntry.Directory (delete name directory))).
Proof.
  unfold weight_at. destruct (directory !! name) as [entry|] eqn:Hn.
  - rewrite <- (weight_fresh _ name) by apply lookup_delete_eq. by rewrite insert_delete_id.
  - rewrite plus_0_l. by rewrite delete_id.
Qed.
Lemma weight_insert directory name entry :
  plus (weight_at directory name) (weight (VfsEntry.Directory (<[name := entry]> directory))) =
  plus (weight entry) (weight (VfsEntry.Directory directory)).
Proof.
  rewrite <- (insert_delete_eq directory name entry), weight_fresh by apply lookup_delete_eq.
  rewrite (weight_delete directory name). apply totals_eq; cbn; lia.
Qed.

(** ** What the checked sums compute *)
Lemma checked_sub_u64_Some x y z : checked_sub_u64 x y = Some z ↔ (y <= x)%N ∧ z = (x - y)%N.
Proof.
  unfold checked_sub_u64. destruct (N.leb_spec y x); split; [by intros [= <-]|by intros [_ ->]|done|].
  intros [? _]. lia.
Qed.
Lemma add_totals_Ok delta totals u totals' :
  add_totals delta totals = (Ok u, totals') ↔ totals' = plus totals delta ∧ fits (plus totals delta).
Proof.
  unfold add_totals, mbind, Reducer_bind, get_state, lift_result, modify_state, ok_or.
  unfold checked_add_u64. unfold fits. cbn [plus VfsTotals.files VfsTotals.bytes].
  destruct (N.leb_spec (totals.(VfsTotals.files) + delta.(VfsTotals.files)) u64_max);
    [|split; [done|lia]].
  cbn. destruct (N.leb_spec (totals.(VfsTotals.bytes) + delta.(VfsTotals.bytes)) u64_max);
    [|split; [done|lia]].
  cbn. destruct u. split; [by intros [= <-]|]. by intros [-> _].
Qed.
Lemma subtract_totals_Ok delta totals u totals' :
  subtract_totals delta totals = (Ok u, totals') ↔ totals = plus totals' delta.
Proof.
  unfold subtract_totals, mbind, Reducer_bind, get_state, lift_result, modify_state, ok_or.
  unfold checked_sub_u64. destruct u.
  destruct (N.leb_spec delta.(VfsTotals.files) totals.(VfsTotals.files)).
  - cbn. destruct (N.leb_spec delta.(VfsTotals.bytes) totals.(VfsTotals.bytes)).
    + cbn. split.
      * intros [= <-]. apply totals_eq; cbn; lia.
      * intros ->. f_equal. apply totals_eq; cbn; lia.
    + split; [done|]. intros ->. cbn in *. lia.
  - split; [done|]. intros ->. cbn in *. lia.
Qed.
Lemma add_all_Ok (children : list (Result VfsError VfsTotals)) totals totals' :
  for_each (λ child, delta ← lift_result child; add_totals delta) children totals
    = (Ok tt, totals') →
  ∃ deltas, children = Ok <$> deltas ∧ totals' = plus totals (sum deltas) ∧
    (fits totals → fits totals').
Proof.
  revert totals. induction children as [|child children IH]; intros totals; cbn [for_each].
  - intros [= <-]. exists []. split_and!; [done|by rewrite plus_0_r|done].
  - unfold mbind at 1, Reducer_bind at 1. unfold mbind at 1, Reducer_bind at 1, lift_result at 1.
    destruct child as [delta|]; [|done].
    destruct (add_totals delta totals) as [[[]|] t] eqn:Ha; [|done].
    apply add_totals_Ok in Ha as [-> Hf]. intros (deltas & -> & -> & Hfits)%IH.
    exists (delta :: deltas). split_and!; [done| |auto]. cbn. by rewrite plus_assoc.
Qed.
Lemma add_all_runs deltas totals :
  fits (plus totals (sum deltas)) →
  for_each (λ child, delta ← lift_result child; add_totals delta) (Ok <$> deltas) totals
    = (Ok tt, plus totals (sum deltas)).
Proof.
  revert totals. induction deltas as [|delta deltas IH]; intros totals Hf; cbn [fmap list_fmap for_each].
  - by rewrite plus_0_r.
  - unfold mbind at 1, Reducer_bind at 1. unfold mbind at 1, Reducer_bind at 1, lift_result at 1.
    cbn [sum foldr] in Hf. fold (sum deltas) in Hf. rewrite plus_assoc in Hf.
    rewrite (proj2 (add_totals_Ok delta totals tt (plus totals delta))).
    + rewrite IH by done. cbn [sum foldr]. by rewrite plus_assoc.
    + split; [done|]. by eapply fits_plus_l.
Qed.
(** The totals of an entry are its exact totals, when these are [u64]s. *)
Lemma entry_totals_Ok entry totals :
  entry_totals entry = Ok totals → totals = weight entry.
Proof.
  revert totals. induction entry as [file|directory IH] using VfsEntry_tree_ind; intros totals.
  { by intros [= <-]. }
  cbn [entry_totals]. unfold totals_of.
  rewrite (btree_values_fmap entry_totals directory). pose proof (btree_values_perm directory) as Hl.
  revert Hl. generalize (btree_values directory) as l. intros l Hl.
  match goal with |- context [match ?x with _ => _ end] => destruct x as [[[]|] t] eqn:Hall end;
    [|done]. intros [= <-].
  apply add_all_Ok in Hall as (deltas & Heq & -> & _). rewrite plus_0_l, weight_Directory, <- Hl.
  f_equal. assert (∀ e, e ∈ l → ∀ t, entry_totals e = Ok t → t = weight e) as IH'.
  { intros e He. rewrite Hl, elem_of_map_values in He. destruct He as [name He]. by eapply IH. }
  clear Hl IH. revert deltas Heq. induction l as [|e l IHl]; intros [|delta deltas] Heq; try done.
  cbn in Heq. injection Heq as He Heq. cbn. rewrite (IH' e ltac:(set_solver) delta) by done.
  f_equal. apply IHl; [|done]. intros e' ?. apply IH'. set_solver.
Qed.
Lemma entry_totals_fits directory totals :
  entry_totals (VfsEntry.Directory directory) = Ok totals → fits totals.
Proof.
  cbn [entry_totals]. unfold totals_of.
  match goal with |- context [match ?x with _ => _ end] => destruct x as [[[]|] t] eqn:Hall end;
    [|done]. intros [= <-]. apply add_all_Ok in Hall as (_ & _ & _ & Hf). apply Hf. done.
Qed.
Lemma fits_sum_elem t l : t ∈ l → fits (sum l) → fits t.
Proof.
  induction l as [|s l IH]; [by intros ?%elem_of_nil|]. cbn. fold (sum l).
  intros [->|Hin]%elem_of_cons Hf; [by eapply fits_plus_l|]. apply IH; [done|].
  by eapply fits_plus_r.
Qed.
Lemma entry_totals_runs entry : fits (weight entry) → entry_totals entry = Ok (weight entry).
Proof.
  induction entry as [file|directory IH] using VfsEntry_tree_ind; [done|].
  cbn [entry_totals]. unfold totals_of.
  rewrite (btree_values_fmap entry_totals directory). pose proof (btree_values_perm directory) as Hl.
  revert Hl. generalize (btree_values directory) as l. intros l Hl.
  rewrite weight_Directory, <- Hl. intros Hf.
  assert (entry_totals <$> l = Ok <$> (weight <$> l)) as ->.
  { rewrite <- list_fmap_compose. apply list_fmap_ext. intros i e Hi%list_elem_of_lookup_2.
    pose proof Hi as Hn. rewrite Hl, elem_of_map_values in Hn. destruct Hn as [name Hn].
    apply (IH name e Hn). eapply fits_sum_elem; [|exact Hf]. apply list_elem_of_fmap. by exists e. }
  rewrite add_all_runs by by rewrite plus_0_l. by rewrite plus_0_l.
Qed.

(** ** Validation accepts exactly the exact manifests *)
Definition names_valid (entry : VfsEntry) : Prop :=
  ∀ names, is_Some (tree_of entry names) → valid_names names.
Lemma names_valid_File file : names_valid (VfsEntry.File file).
Proof. intros [|name names] [k Hk]; [constructor|done]. Qed.
Lemma names_valid_Directory directory :
  names_valid (VfsEntry.Directory directory) ↔
  ∀ name entry, directory !! name = Some entry → valid_name name = true ∧ names_valid entry.
Proof.
  unfold names_valid, tree_of. split.
  - intros H name entry Hn. split.
    + assert (valid_names [name]) as Hv by (apply H; cbn; rewrite Hn; by eexists).
      by inversion Hv.
    + intros names Hs. assert (valid_names (name :: names)) as Hv by (apply H; cbn; by rewrite Hn).
      by inversion Hv.
  - intros H [|name names]; [constructor|]. cbn.
    destruct (directory !! name) as [entry|] eqn:Hn; [|by intros []]. cbn. intros Hs.
    destruct (H _ _ Hn). constructor; auto.
Qed.
(** A manifest whose names are valid and whose totals are those of its tree. *)
Definition consistent (manifest : VfsSnapshotManifest) : Prop :=
  manifest.(VfsSnapshotManifest.schema_version) = VFS_SNAPSHOT_SCHEMA_VERSION ∧
  names_valid (VfsEntry.Directory manifest.(VfsSnapshotManifest.root)) ∧
  manifest.(VfsSnapshotManifest.totals) =
    weight (VfsEntry.Directory manifest.(VfsSnapshotManifest.root)) ∧
  (manifest.(VfsSnapshotManifest.totals).(VfsTotals.bytes) <= u64_max)%N.

Definition validates (entry : VfsEntry) : Prop := ∀ totals totals',
  (totals.(VfsTotals.bytes) <= u64_max)%N →
  validate_entry entry totals = (Ok tt, totals') ↔
  names_valid entry ∧ totals' = plus totals (weight entry) ∧
  (totals'.(VfsTotals.bytes) <= u64_max)%N.
Lemma validate_file file : validates (VfsEntry.File file).
Proof.
  intros [files bytes] totals' Ht. destruct file as [blob_ref size media_type executable].
  cbn [validate_entry].
  unfold mbind, Reducer_bind, get_state, lift_result, modify_state, ok_or, checked_add_u64.
  cbn in Ht |- *. destruct (N.leb_spec (bytes + size) u64_max) as [Hb|Hb]; cbn.
  - split.
    + intros [= <-]. split_and!; [apply names_valid_File| |done]. apply totals_eq; cbn; lia.
    + intros (_ & -> & _). f_equal. apply totals_eq; cbn; lia.
  - split; [done|]. intros (_ & -> & Hb'). cbn in Hb'. lia.
Qed.
Lemma validate_all l totals totals' :
  Forall (λ p, validates p.2) l → (totals.(VfsTotals.bytes) <= u64_max)%N →
  for_each (λ '(name, validate), _ ← lift_result (validate_name name); validate)
    (prod_map id validate_entry <$> l) totals = (Ok tt, totals') ↔
  Forall (λ p, valid_name p.1 = true ∧ names_valid p.2) l ∧
  totals' = plus totals (sum (weight <$> l.*2)) ∧ (totals'.(VfsTotals.bytes) <= u64_max)%N.
Proof.
  intros Hl. revert totals. induction Hl as [|[name entry] l He _ IH]; intros totals Ht.
  { cbn. rewrite plus_0_r. split; [by intros [= <-]|by intros (_ & -> & _)]. }
  cbn [fmap list_fmap for_each prod_map fst snd id].
  unfold mbind at 1, Reducer_bind at 1. unfold mbind at 1, Reducer_bind at 1, lift_result at 1.
  rewrite Forall_cons. cbn [fst snd sum foldr] in *.
  fold (sum (weight <$> l.*2)). rewrite plus_assoc.
  destruct (validate_name name) as [[]|error] eqn:Hname.
  - apply validate_name_Ok in Hname. specialize (He totals).
    destruct (validate_entry entry totals) as [[[]|] t] eqn:Hv.
    + destruct (proj1 (He t Ht) eq_refl) as (Hn & -> & Hb). rewrite IH by done. tauto.
    + split; [done|]. intros ((? & _) & -> & Hb).
      destruct (He (plus totals (weight entry)) Ht) as [_ Hrun].
      discriminate Hrun. split_and!; [tauto|done|]. cbn in *. lia.
  - split; [done|]. intros (([Hn _] & _) & _). cbn in Hn.
    apply (validate_name_Ok name tt) in Hn. congruence.
Qed.
Lemma validate_entry_spec entry : validates entry.
Proof.
  induction entry as [file|directory IH] using VfsEntry_tree_ind; [apply validate_file|].
  intros totals totals' Ht. cbn [validate_entry]. unfold validate_entries.
  rewrite (btree_to_list_fmap validate_entry directory). pose proof (btree_to_list_perm directory) as Hl.
  revert Hl. generalize (btree_to_list directory) as l. intros l Hl.
  rewrite validate_all; [|apply Forall_forall|done].
  - rewrite names_valid_Directory, weight_Directory, <- Hl, Forall_forall.
    assert ((∀ p, p ∈ l → valid_name p.1 = true ∧ names_valid p.2) ↔
      (∀ name entry, directory !! name = Some entry → valid_name name = true ∧ names_valid entry))
      as ->; [|done].
    setoid_rewrite <- elem_of_map_to_list. setoid_rewrite <- Hl.
    split; [intros H n e; apply (H (n, e))|intros H [n e]; apply H].
  - intros [name entry] Hin. rewrite Hl, elem_of_map_to_list in Hin. by eapply IH.
Qed.
Lemma validate_consistent manifest u : validate manifest = Ok u ↔ consistent manifest.
Proof.
  unfold validate, consistent. rewrite bind_Ok. setoid_rewrite reject_if_Ok.
  change (validate_directory ?d ?t) with (validate_entry (VfsEntry.Directory d) t).
  pose proof (validate_entry_spec (VfsEntry.Directory manifest.(VfsSnapshotManifest.root))
    VfsTotals_default) as Hspec. setoid_rewrite plus_0_l in Hspec.
  destruct (validate_entry _ _) as [r totals] eqn:Hv. split.
  - intros (_ & Hs%bool_decide_eq_false%dec_stable & Hr). apply bind_Ok in Hr as ([] & -> & Hr).
    apply reject_if_Ok, bool_decide_eq_false, dec_stable in Hr. subst totals.
    destruct (proj1 (Hspec _ ltac:(done)) eq_refl) as (Hn & Hw & Hb). done.
  - intros (Hs & Hn & Hw & Hb). exists tt. split; [apply bool_decide_eq_false; by intros []|].
    destruct (Hspec manifest.(VfsSnapshotManifest.totals) ltac:(done)) as [_ Hrun].
    specialize (Hrun ltac:(done)). injection Hrun as -> ->. destruct u.
    apply reject_if_Ok, bool_decide_eq_false. by intros [].
Qed.

(** ** Changing a directory inside a tree *)
Fixpoint set_directory (names : list string) (changed root : VfsDirectory) : VfsDirectory :=
  match names with
  | [] => changed
  | name :: names =>
      match root !! name with
      | Some (VfsEntry.Directory directory) =>
          <[name := VfsEntry.Directory (set_directory names changed directory)]> root
      | _ => root
      end
  end.
Lemma directory_at_mut_eq {A} seen names (change : Reducer VfsDirectory VfsError A) root :
  directory_at_mut_from seen names change root =
  match directory_at_from seen root names with
  | Ok directory =>
      let '(result, changed) := change directory in (result, set_directory names changed root)
  | Err error => (Err error, root)
  end.
Proof.
  revert seen root. induction names as [|name names IH]; intros seen root;
    cbn [directory_at_mut_from directory_at_from set_directory].
  - by destruct (change root).
  - unfold enter. destruct (root !! name) as [[file|directory]|] eqn:Hn; try done.
    rewrite IH. destruct (directory_at_from _ directory names) as [found|error].
    + by destruct (change found).
    + by rewrite insert_id.
Qed.
Lemma directory_at_Ok seen root names directory :
  directory_at_from seen root names = Ok directory ↔
  find (VfsEntry.Directory root) names = Some (VfsEntry.Directory directory).
Proof.
  revert seen root. induction names as [|name names IH]; intros seen root;
    cbn [directory_at_from find]; [naive_solver|].
  destruct (root !! name) as [[file|child]|]; cbn; [|apply IH|done].
  split; [done|]. by destruct names.
Qed.
(** It fails where the path first leaves the directories. *)
Lemma directory_at_Err seen root names error :
  directory_at_from seen root names = Err error →
  (∃ names' rest file, names = names' ++ rest ∧
     tree_of (VfsEntry.Directory root) names' = Some (Kind.File file) ∧
     error = VfsError.NotADirectory (path_from_components (seen ++ names'))) ∨
  (∃ above name rest, names = above ++ name :: rest ∧
     tree_of (VfsEntry.Directory root) above = Some Kind.Directory ∧
     tree_of (VfsEntry.Directory root) (above ++ [name]) = None ∧
     error = VfsError.NotFound (path_from_components (seen ++ above ++ [name]))).
Proof.
  revert seen root. induction names as [|name names IH]; intros seen root; [done|].
  cbn [directory_at_from].
  destruct (root !! name) as [[file|child]|] eqn:Hn.
  - intros [= <-]. left. exists [name], names, file. split_and!; [done| |done].
    unfold tree_of. cbn. by rewrite Hn.
  - assert (∀ names, tree_of (VfsEntry.Directory root) (name :: names) =
      tree_of (VfsEntry.Directory child) names) as Ht by (intros; unfold tree_of; cbn; by rewrite Hn).
    intros [(names' & rest & file & -> & ? & ->)|(above & n & rest & -> & ? & ? & ->)]%IH;
      [left|right].
    + exists (name :: names'), rest, file. rewrite Ht, <- app_assoc. done.
    + exists (name :: above), n, rest. cbn [app]. rewrite !Ht, <- app_assoc. done.
  - intros [= <-]. right. exists [], name, names. split_and!; [done|done| |done].
    unfold tree_of. cbn. by rewrite Hn.
Qed.

Section set_directory.
Context (names : list string) (root directory changed : VfsDirectory).
Hypothesis Hfind : find (VfsEntry.Directory root) names = Some (VfsEntry.Directory directory).
Lemma find_child name rest r c :
  find (VfsEntry.Directory r) (name :: rest) = Some (VfsEntry.Directory c) →
  ∃ child, r !! name = Some (VfsEntry.Directory child) ∧
    find (VfsEntry.Directory child) rest = Some (VfsEntry.Directory c).
Proof.
  cbn. destruct (r !! name) as [[file|child]|]; cbn; [by destruct rest|eauto|done].
Qed.
Lemma tree_of_set path :
  tree_of (VfsEntry.Directory (set_directory names changed root)) path =
  graft names (tree_of (VfsEntry.Directory changed)) (tree_of (VfsEntry.Directory root)) path.
Proof.
  revert root path Hfind. induction names as [|name rest IH]; intros r path Hr; [done|].
  apply find_child in Hr as (child & Hn & Hr). cbn [set_directory]. rewrite Hn, tree_of_insert.
  unfold graft. destruct path as [|n path]; [done|]. cbn [strip_names].
  case_bool_decide as Heq; [subst n|done]. cbn [strip_names]. rewrite (IH _ _ Hr). unfold graft.
  destruct (strip_names rest path) as [rest'|]; [done|]. unfold tree_of. cbn. by rewrite Hn.
Qed.
Lemma weight_set :
  plus (weight (VfsEntry.Directory directory))
    (weight (VfsEntry.Directory (set_directory names changed root))) =
  plus (weight (VfsEntry.Directory changed)) (weight (VfsEntry.Directory root)).
Proof.
  revert root Hfind. induction names as [|name rest IH]; intros r Hr.
  { injection Hr as ->. apply plus_comm. }
  apply find_child in Hr as (child & Hn & Hr). cbn [set_directory]. rewrite Hn.
  specialize (IH _ Hr).
  pose proof (weight_insert r name (VfsEntry.Directory (set_directory rest changed child))) as Hw.
  unfold weight_at in Hw. rewrite Hn in Hw.
  apply (plus_cancel _ _ (weight (VfsEntry.Directory child))).
  rewrite <- plus_assoc, (plus_comm _ (weight (VfsEntry.Directory child))), Hw.
  rewrite plus_assoc, IH. rewrite <- !plus_assoc. f_equal. apply plus_comm.
Qed.
End set_directory.

Lemma graft_app names name branch tree path :
  graft names (graft [name] branch (subtree tree names)) tree path =
  graft (names ++ [name]) branch tree path.
Proof.
  unfold graft. destruct (strip_names names path) as [rest|] eqn:Hs.
  - apply strip_names_Some in Hs as ->. destruct rest as [|n rest].
    + cbn [strip_names]. rewrite (proj2 (strip_names_None _ _)); [done|].
      intros [k Hk]. apply (f_equal length) in Hk. rewrite !length_app in Hk. cbn in Hk. lia.
    + cbn [strip_names]. case_bool_decide as Hn.
      * subst n. cbn [strip_names]. change (names ++ name :: rest) with (names ++ [name] ++ rest).
        by rewrite app_assoc, strip_names_app.
      * rewrite (proj2 (strip_names_None _ _)); [done|]. intros [k Hk].
        rewrite <- app_assoc in Hk. apply app_inv_head in Hk. by injection Hk as ->.
  - rewrite (proj2 (strip_names_None _ _)); [done|]. apply strip_names_None in Hs.
    intros Hp. apply Hs. etransitivity; [|exact Hp]. by eexists.
Qed.
Lemma tree_of_sub entry names found path :
  find entry names = Some found → tree_of found path = subtree (tree_of entry) names path.
Proof. intros Hf. unfold subtree. by rewrite (tree_of_found _ _ _ Hf). Qed.
Lemma graft_ext names branch branch' tree tree' :
  (∀ path, branch path = branch' path) → (∀ path, tree path = tree' path) →
  ∀ path, graft names branch tree path = graft names branch' tree' path.
Proof. intros Hb Ht path. unfold graft. destruct (strip_names names path); auto. Qed.
Lemma names_valid_graft root names branch tree :
  (∀ path, tree_of root path = graft names branch tree path) → valid_names names →
  (∀ path, is_Some (tree path) → valid_names path) →
  (∀ path, is_Some (branch path) → valid_names path) → names_valid root.
Proof.
  intros Hr Hn Ht Hb path. rewrite Hr. unfold graft.
  destruct (strip_names names path) as [rest|] eqn:Hs; [|apply Ht].
  apply strip_names_Some in Hs as ->. intros ?%Hb. by apply Forall_app.
Qed.

(** ** What an operation does to the map of paths *)
Lemma weight_found entry names found :
  find entry names = Some found → ∃ others, weight entry = plus others (weight found).
Proof.
  revert entry. induction names as [|name names IH]; intros entry.
  { intros [= ->]. exists VfsTotals_default. by rewrite plus_0_l. }
  destruct entry as [file|directory]; [done|]. cbn [find].
  destruct (directory !! name) as [child|] eqn:Hn; [|done]. intros (others & Hc)%IH.
  rewrite (weight_delete directory name). unfold weight_at. rewrite Hn, Hc.
  eexists (plus _ others). rewrite plus_comm. by rewrite plus_assoc.
Qed.
Lemma fits_found entry names found :
  find entry names = Some found → fits (weight entry) → fits (weight found).
Proof. intros (others & ->)%weight_found. apply fits_plus_r. Qed.
(** A consistent manifest whose totals are [u64]s, as every decoded manifest is. *)
Definition sound (manifest : VfsSnapshotManifest) : Prop :=
  consistent manifest ∧ fits manifest.(VfsSnapshotManifest.totals).
Lemma sound_weight manifest :
  sound manifest → manifest.(VfsSnapshotManifest.totals) =
    weight (VfsEntry.Directory manifest.(VfsSnapshotManifest.root)).
Proof. by intros [(_ & _ & ? & _) _]. Qed.
Lemma sound_names manifest path :
  sound manifest → is_Some (manifest_tree manifest path) → valid_names path.
Proof. intros [(_ & H & _) _]. apply H. Qed.
(** A manifest whose root and totals were changed together. *)
Lemma sound_changed manifest manifest' names branch :
  sound manifest →
  manifest'.(VfsSnapshotManifest.schema_version) = manifest.(VfsSnapshotManifest.schema_version) →
  (∀ path, manifest_tree manifest' path = graft names branch (manifest_tree manifest) path) →
  valid_names names → (∀ path, is_Some (branch path) → valid_names path) →
  manifest'.(VfsSnapshotManifest.totals) =
    weight (VfsEntry.Directory manifest'.(VfsSnapshotManifest.root)) →
  fits manifest'.(VfsSnapshotManifest.totals) → sound manifest'.
Proof.
  intros Hs Hv Ht Hn Hb Hw Hf. split; [|done]. split_and!; [|  |done|apply Hf].
  - rewrite Hv. apply Hs.
  - eapply names_valid_graft; [exact Ht|done| |done]. intros path. by apply sound_names.
Qed.

Lemma names_snoc (names : list string) :
  names ≠ [] → names = parent_components names ++ [last_component names].
Proof. apply app_removelast_last. Qed.
Lemma valid_parent names : valid_names names → valid_names (parent_components names).
Proof.
  destruct (decide (names = [])) as [->|Hn]; [done|].
  rewrite (names_snoc names Hn) at 1. by intros [? _]%Forall_app.
Qed.

(** Changes to the root that go through a parent directory. *)
Lemma on_parent_eq {A} (change : Reducer VfsDirectory VfsError A) names manifest :
  on_root (parent_directory_mut names change) manifest =
  match parent_directory manifest.(VfsSnapshotManifest.root) names with
  | Ok parent =>
      let '(result, changed) := change parent in
      (result, manifest <| VfsSnapshotManifest.root :=
         set_directory (parent_components names) changed manifest.(VfsSnapshotManifest.root) |>)
  | Err error => (Err error, manifest)
  end.
Proof.
  unfold on_root, parent_directory_mut, directory_at_mut, parent_directory, directory_at.
  rewrite directory_at_mut_eq. destruct (directory_at_from _ _ _) as [parent|error].
  - by destruct (change parent).
  - by destruct manifest.
Qed.
Lemma parent_directory_Ok manifest names parent :
  parent_directory manifest.(VfsSnapshotManifest.root) names = Ok parent ↔
  find (VfsEntry.Directory manifest.(VfsSnapshotManifest.root)) (parent_components names)
    = Some (VfsEntry.Directory parent).
Proof. apply directory_at_Ok. Qed.
Lemma parent_directory_tree manifest names :
  is_ok (parent_directory manifest.(VfsSnapshotManifest.root) names) = true ↔
  manifest_tree manifest (parent_components names) = Some Kind.Directory.
Proof.
  unfold manifest_tree. rewrite tree_of_Directory. setoid_rewrite <- parent_directory_Ok.
  destruct (parent_directory _ names); cbn; naive_solver.
Qed.
(** The entry a parent holds under the last component. *)
Lemma parent_lookup manifest names parent :
  names ≠ [] →
  parent_directory manifest.(VfsSnapshotManifest.root) names = Ok parent →
  find (VfsEntry.Directory manifest.(VfsSnapshotManifest.root)) names =
    parent !! last_component names.
Proof.
  intros Hn Hp%parent_directory_Ok. rewrite (names_snoc names Hn) at 1. rewrite find_app, Hp. cbn.
  by destruct (parent !! last_component names).
Qed.
Lemma parent_branch manifest names parent changed branch :
  names ≠ [] →
  parent_directory manifest.(VfsSnapshotManifest.root) names = Ok parent →
  (∀ path, tree_of (VfsEntry.Directory changed) path =
     graft [last_component names] branch (tree_of (VfsEntry.Directory parent)) path) →
  ∀ path, tree_of (VfsEntry.Directory (set_directory (parent_components names) changed
    manifest.(VfsSnapshotManifest.root))) path = graft names branch (manifest_tree manifest) path.
Proof.
  intros Hn Hp%parent_directory_Ok Hc path. rewrite (tree_of_set _ _ _ _ Hp).
  rewrite (names_snoc names Hn) at 2. rewrite <- graft_app.
  apply graft_ext; [|done]. intros path'. rewrite Hc.
  apply graft_ext; [done|]. intros path''. by apply tree_of_sub.
Qed.

(** [insert_or_replace_entry] past its checks: the entry goes in, and its totals replace those of
    the entry it found. *)
Definition set_at (manifest : VfsSnapshotManifest) (names : list string) (changed : VfsDirectory)
    (totals : VfsTotals) : VfsSnapshotManifest :=
  manifest <| VfsSnapshotManifest.root :=
    set_directory (parent_components names) changed manifest.(VfsSnapshotManifest.root) |>
  <| VfsSnapshotManifest.totals := totals |>.
Lemma replaced_totals manifest names parent :
  sound manifest → names ≠ [] →
  parent_directory manifest.(VfsSnapshotManifest.root) names = Ok parent →
  ∃ others, manifest.(VfsSnapshotManifest.totals) =
    plus others (weight_at parent (last_component names)).
Proof.
  intros Hs Hn Hp. unfold weight_at. destruct (parent !! _) as [entry|] eqn:He.
  - rewrite (sound_weight manifest Hs). apply (weight_found _ names).
    by rewrite (parent_lookup manifest names parent).
  - exists manifest.(VfsSnapshotManifest.totals). by rewrite plus_0_r.
Qed.
Lemma replaced_entry_totals manifest names parent entry :
  sound manifest → names ≠ [] →
  parent_directory manifest.(VfsSnapshotManifest.root) names = Ok parent →
  parent !! last_component names = Some entry → entry_totals entry = Ok (weight entry).
Proof.
  intros Hs Hn Hp He. apply entry_totals_runs.
  eapply (fits_found (VfsEntry.Directory manifest.(VfsSnapshotManifest.root)) names).
  - by rewrite (parent_lookup manifest names parent).
  - rewrite <- sound_weight by done. apply Hs.
Qed.
Lemma insert_at_parent manifest names entry parent others :
  sound manifest → valid_names names → names ≠ [] → entry_totals entry = Ok (weight entry) →
  parent_directory manifest.(VfsSnapshotManifest.root) names = Ok parent →
  manifest.(VfsSnapshotManifest.totals) =
    plus others (weight_at parent (last_component names)) →
  insert_or_replace_entry (path_from_components names) entry manifest =
  on_totals (add_totals (weight entry))
    (set_at manifest names (<[last_component names := entry]> parent) others).
Proof.
  intros Hs Hv Hn Hf Hp Ho. unfold insert_or_replace_entry. rewrite components_of_path by done.
  rewrite bool_decide_false by done.
  erewrite bind_runs by reflexivity. erewrite bind_runs by (by apply lift_runs).
  erewrite bind_runs by (rewrite on_parent_eq, Hp; reflexivity).
  destruct (parent !! last_component names) as [replaced|] eqn:Hr.
  - assert (weight_at parent (last_component names) = weight replaced) as Hw
      by (unfold weight_at; by rewrite Hr).
    erewrite bind_runs; [reflexivity|].
    erewrite bind_runs by (apply lift_runs; by eapply replaced_entry_totals).
    unfold on_totals. rewrite (proj2 (subtract_totals_Ok _ _ tt others)); [reflexivity|].
    transitivity manifest.(VfsSnapshotManifest.totals); [done|]. by rewrite Ho, Hw.
  - assert (others = manifest.(VfsSnapshotManifest.totals)) as ->.
    { rewrite Ho. unfold weight_at. by rewrite Hr, plus_0_r. }
    reflexivity.
Qed.
Lemma insert_or_replace_spec manifest names entry r manifest' :
  sound manifest → valid_names names → names_valid entry →
  insert_or_replace_entry (path_from_components names) entry manifest = (r, manifest') →
  match r with
  | Ok _ =>
      names ≠ [] ∧ manifest_tree manifest (parent_components names) = Some Kind.Directory ∧
      (∀ path, manifest_tree manifest' path =
         graft names (tree_of entry) (manifest_tree manifest) path) ∧ sound manifest'
  | Err _ =>
      names = [] ∨ manifest_tree manifest (parent_components names) ≠ Some Kind.Directory ∨
      ¬ fits (plus manifest.(VfsSnapshotManifest.totals) (weight entry))
  end.
Proof.
  intros Hs Hv Hne Hrun. destruct (decide (names = [])) as [->|Hn].
  { unfold insert_or_replace_entry in Hrun. cbn in Hrun. injection Hrun as <- <-. by left. }
  destruct (entry_totals entry) as [added|error] eqn:Hadd.
  2: { unfold insert_or_replace_entry in Hrun. rewrite components_of_path, bool_decide_false in Hrun by done.
    erewrite bind_runs in Hrun by reflexivity. unfold mbind, Reducer_bind, lift_result in Hrun.
    rewrite Hadd in Hrun. injection Hrun as <- <-. right; right. intros Hf%fits_plus_r.
    rewrite (entry_totals_runs _ Hf) in Hadd. done. }
  destruct (parent_directory manifest.(VfsSnapshotManifest.root) names) as [parent|error] eqn:Hp.
  2: { unfold insert_or_replace_entry in Hrun. rewrite components_of_path, bool_decide_false in Hrun by done.
    erewrite bind_runs in Hrun by reflexivity. erewrite bind_runs in Hrun by (by apply lift_runs).
    unfold mbind at 1, Reducer_bind at 1 in Hrun. rewrite on_parent_eq, Hp in Hrun.
    injection Hrun as <- <-. right; left. rewrite <- parent_directory_tree, Hp. done. }
  pose proof (entry_totals_Ok _ _ Hadd) as ->.
  destruct (replaced_totals _ _ _ Hs Hn Hp) as (others & Ho).
  rewrite (insert_at_parent _ _ _ _ _ Hs Hv Hn Hadd Hp Ho) in Hrun.
  unfold on_totals in Hrun. set (changed := <[last_component names := entry]> parent) in *.
  assert ((set_at manifest names changed others).(VfsSnapshotManifest.totals) = others)
    as Ht by done. rewrite Ht in Hrun.
  destruct (add_totals (weight entry) others) as [[[]|error] totals] eqn:Ha;
    injection Hrun as <- <-.
  - apply add_totals_Ok in Ha as [-> Hf].
    assert (∀ path, manifest_tree (set_at manifest names changed (plus others (weight entry))) path =
      graft names (tree_of entry) (manifest_tree manifest) path) as Htree.
    { apply (parent_branch manifest names parent); [done|done|]. apply tree_of_insert. }
    split_and!; [done|by rewrite <- parent_directory_tree, Hp|exact Htree|].
    eapply sound_changed; [exact Hs|done|exact Htree|done|done| |exact Hf].
    change (plus others (weight entry) = weight (VfsEntry.Directory
      (set_directory (parent_components names) changed manifest.(VfsSnapshotManifest.root)))).
    apply (plus_cancel _ _ (plus (weight_at parent (last_component names))
      (weight (VfsEntry.Directory parent)))).
    pose proof (proj1 (parent_directory_Ok _ _ _) Hp) as Hfind.
    pose proof (weight_set _ _ _ changed Hfind) as Hset.
    pose proof (weight_insert parent (last_component names) entry) as Hins. fold changed in Hins.
    rewrite (sound_weight manifest Hs) in Ho. rewrite Ho in Hset. clear -Hset Hins.
    apply totals_eq;
      [apply (f_equal VfsTotals.files) in Hset, Hins|apply (f_equal VfsTotals.bytes) in Hset, Hins];
      cbn [plus VfsTotals.files VfsTotals.bytes] in *; lia.
  - right; right. intros Hf. rewrite Ho in Hf.
    assert (fits (plus others (weight entry))) as Hf' by (unfold fits in *; cbn in *; lia).
    pose proof (proj2 (add_totals_Ok (weight entry) others tt _) (conj eq_refl Hf')) as Ha'. congruence.
Qed.

(** ** The operations as updates of a map of paths *)
Module Update.
Inductive Update : Type :=
| Write (names : list string) (file : VfsFile)
| MakeDirectory (names : list string) (recursive : bool)
| Remove (names : list string) (recursive force : bool)
| Copy (source destination : list string) (recursive : bool)
| Replace (names : list string) (entry : VfsEntry).
End Update.
Abbreviation Update := Update.Update.
Definition run_update (update : Update) : Reducer VfsSnapshotManifest VfsError unit :=
  match update with
  | Update.Write names file =>
      write_manifest_file_ref (path_from_components names) file.(VfsFile.blob_ref)
        file.(VfsFile.size_bytes) file.(VfsFile.media_type) file.(VfsFile.executable)
  | Update.MakeDirectory names recursive =>
      create_manifest_directory (path_from_components names) recursive
  | Update.Remove names recursive force =>
      remove_manifest_path (path_from_components names) recursive force
  | Update.Copy source destination recursive =>
      copy_manifest_path (path_from_components source) (path_from_components destination) recursive
  | Update.Replace names entry => replace_manifest_entry (path_from_components names) entry
  end.
Definition update_valid (update : Update) : Prop :=
  match update with
  | Update.Write names _ | Update.MakeDirectory names _ | Update.Remove names _ _ =>
      valid_names names
  | Update.Copy source destination _ => valid_names source ∧ valid_names destination
  | Update.Replace names entry => valid_names names ∧ names_valid entry
  end.

(** When an update is possible, and the map that it leaves. *)
Definition is_directory_at (tree : Tree) (names : list string) : Prop :=
  tree names = Some Kind.Directory.
Definition has_parent (tree : Tree) (names : list string) : Prop :=
  names ≠ [] ∧ is_directory_at tree (parent_components names).
Definition is_empty_at (tree : Tree) (names : list string) : Prop :=
  ∀ name, tree (names ++ [name]) = None.
Definition no_file_above (tree : Tree) (names : list string) : Prop :=
  ∀ above file, above `prefix_of` names → tree above ≠ Some (Kind.File file).
Definition allowed (update : Update) (tree : Tree) : Prop :=
  match update with
  | Update.Write names _ => has_parent tree names ∧ ¬ is_directory_at tree names
  | Update.MakeDirectory names true => no_file_above tree names
  | Update.MakeDirectory names false => has_parent tree names ∧ tree names = None
  | Update.Remove names recursive force =>
      names ≠ [] ∧ no_file_above tree (parent_components names) ∧
      (tree names = None → force = true) ∧
      (is_directory_at tree names → recursive = true ∨ is_empty_at tree names)
  | Update.Copy source destination recursive =>
      match tree source with
      | None => False
      | Some (Kind.File _) => has_parent tree destination ∧ ¬ is_directory_at tree destination
      | Some Kind.Directory =>
          recursive = true ∧ ¬ source `prefix_of` destination ∧ has_parent tree destination
      end
  | Update.Replace names entry =>
      if bool_decide (names = []) then kind_of entry = Kind.Directory else has_parent tree names
  end.
(** Every directory on the way to [names]. *)
Definition make_path (names : list string) (tree : Tree) : Tree := λ path,
  if bool_decide (path `prefix_of` names) then Some Kind.Directory else tree path.
Definition effect (update : Update) (tree : Tree) : Tree :=
  match update with
  | Update.Write names file => graft names (tree_of (VfsEntry.File file)) tree
  | Update.MakeDirectory names true => make_path names tree
  | Update.MakeDirectory names false =>
      graft names (tree_of (VfsEntry.Directory ∅)) tree
  | Update.Remove names _ _ => graft names no_tree tree
  | Update.Copy source destination _ => graft destination (subtree tree source) tree
  | Update.Replace names entry => graft names (tree_of entry) tree
  end.
(** What an update adds to the totals, at most. *)
Definition added_weight (update : Update) (manifest : VfsSnapshotManifest) : VfsTotals :=
  match update with
  | Update.Write _ file => weight (VfsEntry.File file)
  | Update.MakeDirectory _ _ | Update.Remove _ _ _ => VfsTotals_default
  | Update.Copy _ _ _ => manifest.(VfsSnapshotManifest.totals)
  | Update.Replace _ entry => weight entry
  end.
Definition refines (update : Update) : Prop := ∀ manifest r manifest',
  sound manifest → update_valid update → run_update update manifest = (r, manifest') →
  match r with
  | Ok _ =>
      allowed update (manifest_tree manifest) ∧ sound manifest' ∧
      ∀ path, manifest_tree manifest' path = effect update (manifest_tree manifest) path
  | Err _ =>
      allowed update (manifest_tree manifest) →
      ¬ fits (plus manifest.(VfsSnapshotManifest.totals) (added_weight update manifest))
  end.

Lemma bind_outcome {S E A B} (m : Reducer S E A) (k : A → Reducer S E B) s r s' :
  (m ≫= k) s = (r, s') →
  (∃ e, r = Err e ∧ m s = (Err e, s')) ∨ (∃ a s1, m s = (Ok a, s1) ∧ k a s1 = (r, s')).
Proof.
  unfold mbind, Reducer_bind. destruct (m s) as [[a|e] s1]; [|intros [= <- <-]; left; eauto].
  intros Hk. right. by exists a, s1.
Qed.
Lemma ensure_target manifest names :
  valid_names names →
  is_ok (ensure_file_write_target (path_from_components names) manifest) = true ↔
  has_parent (manifest_tree manifest) names ∧ ¬ is_directory_at (manifest_tree manifest) names.
Proof.
  intros Hv. unfold ensure_file_write_target, has_parent, is_directory_at.
  rewrite components_of_path by done. case_bool_decide as Hn; [naive_solver|].
  rewrite <- parent_directory_tree. cbn.
  destruct (parent_directory _ names) as [parent|error] eqn:Hp; cbn; [|naive_solver].
  unfold manifest_tree. rewrite tree_of_Directory.
  setoid_rewrite (parent_lookup manifest names parent Hn Hp).
  destruct (parent !! last_component names) as [[file|directory]|]; cbn; naive_solver.
Qed.
(** Putting a file where a file may be written. *)
Lemma put_file_spec manifest names file r manifest' :
  sound manifest → valid_names names →
  (_ ← checking (ensure_file_write_target (path_from_components names));
   replace_file_entry (path_from_components names) file) manifest = (r, manifest') →
  match r with
  | Ok _ =>
      (has_parent (manifest_tree manifest) names ∧
       ¬ is_directory_at (manifest_tree manifest) names) ∧ sound manifest' ∧
      ∀ path, manifest_tree manifest' path =
        graft names (tree_of (VfsEntry.File file)) (manifest_tree manifest) path
  | Err _ =>
      has_parent (manifest_tree manifest) names ∧
      ¬ is_directory_at (manifest_tree manifest) names →
      ¬ fits (plus manifest.(VfsSnapshotManifest.totals) (weight (VfsEntry.File file)))
  end.
Proof.
  intros Hs Hv. pose proof (ensure_target manifest names Hv) as Hensure.
  unfold mbind at 1, Reducer_bind at 1, checking.
  destruct (ensure_file_write_target _ manifest) as [[]|error]; cbn [is_ok] in Hensure.
  - intros Hrun%insert_or_replace_spec; [|done|done|apply names_valid_File].
    destruct r as [u|error].
    + destruct Hrun as (_ & _ & Ht & Hs'). split; [by apply Hensure|by split].
    + intros [[??]?]. destruct Hrun as [?|[?|?]]; done.
  - intros [= <- <-] Ha. by apply Hensure in Ha.
Qed.
Lemma write_refines names file : refines (Update.Write names file).
Proof.
  intros manifest r manifest' Hs Hv Hrun. destruct file as [blob_ref size media_type executable].
  by apply put_file_spec in Hrun.
Qed.

(** *** Directories *)
(** The directory under [name], new when nothing is there. *)
Definition child_or_new (root : VfsDirectory) (name : string) : VfsDirectory :=
  match root !! name with Some (VfsEntry.Directory directory) => directory | _ => ∅ end.
Lemma tree_child root name path :
  (∀ file, root !! name ≠ Some (VfsEntry.File file)) → path ≠ [] →
  tree_of (VfsEntry.Directory root) (name :: path) =
  tree_of (VfsEntry.Directory (child_or_new root name)) path.
Proof.
  intros Hf Hp. unfold tree_of, child_or_new. cbn [find].
  destruct (root !! name) as [[file|directory]|]; [by destruct (Hf file)|done|].
  destruct path; [done|]. cbn. by rewrite lookup_empty.
Qed.
Lemma no_file_above_child root name names :
  (∀ file, root !! name ≠ Some (VfsEntry.File file)) →
  no_file_above (tree_of (VfsEntry.Directory root)) (name :: names) ↔
  no_file_above (tree_of (VfsEntry.Directory (child_or_new root name))) names.
Proof.
  intros Hf. unfold no_file_above. split.
  - intros H [|a above] file Ha; [done|]. rewrite <- tree_child by done.
    apply H. by apply prefix_cons.
  - intros H above file Ha. destruct above as [|n above]; [done|].
    apply prefix_cons_inv_1 in Ha as Hn. apply prefix_cons_inv_2 in Ha. subst n.
    destruct above as [|a above].
    + unfold tree_of. cbn. destruct (root !! name) as [[f|d]|] eqn:Hr; [by destruct (Hf f)|done|done].
    + rewrite tree_child by done. by apply H.
Qed.
Lemma enter_or_new {A} root name error (change : Reducer VfsDirectory VfsError A) :
  (∀ file, root !! name ≠ Some (VfsEntry.File file)) →
  enter name (Ok VfsDirectory_default) error change root =
  let '(result, directory) := change (child_or_new root name) in
  (result, <[name := VfsEntry.Directory directory]> root).
Proof.
  intros Hf. unfold enter, child_or_new.
  destruct (root !! name) as [[f|d]|]; [by destruct (Hf f)|done|done].
Qed.
Lemma weight_child_or_new root name directory :
  (∀ file, root !! name ≠ Some (VfsEntry.File file)) →
  plus (weight (VfsEntry.Directory (child_or_new root name)))
    (weight (VfsEntry.Directory (<[name := VfsEntry.Directory directory]> root))) =
  plus (weight (VfsEntry.Directory directory)) (weight (VfsEntry.Directory root)).
Proof.
  intros Hf. rewrite <- (weight_insert root name). f_equal. unfold weight_at, child_or_new.
  destruct (root !! name) as [[f|d]|]; [by destruct (Hf f)|done|done].
Qed.
Lemma create_directories_spec seen names root r root' :
  create_directories seen names root = (r, root') →
  match r with
  | Ok _ =>
      no_file_above (tree_of (VfsEntry.Directory root)) names ∧
      weight (VfsEntry.Directory root') = weight (VfsEntry.Directory root) ∧
      ∀ path, tree_of (VfsEntry.Directory root') path =
        make_path names (tree_of (VfsEntry.Directory root)) path
  | Err _ => ¬ no_file_above (tree_of (VfsEntry.Directory root)) names
  end.
Proof.
  revert seen root r root'. induction names as [|name names IH]; intros seen root r root'.
  - intros [= <- <-]. split_and!; [|done|].
    + intros above file Ha. destruct above; [done|]. by apply prefix_nil_not in Ha.
    + intros path. unfold make_path. case_bool_decide as Hp; [|done].
      destruct path; [done|]. by apply prefix_nil_not in Hp.
  - cbn [create_directories]. destruct (root !! name) as [[file|directory]|] eqn:Hr.
    { unfold enter. rewrite Hr. intros [= <- <-] H. apply (H [name] file).
      - apply prefix_cons, prefix_nil.
      - unfold tree_of. cbn. by rewrite Hr. }
    all: assert (∀ file, root !! name ≠ Some (VfsEntry.File file)) as Hf by (intros; by rewrite Hr).
    all: rewrite enter_or_new by done; pose proof (no_file_above_child root name names Hf) as Hna.
    all: destruct (create_directories _ _ _) as [r0 d'] eqn:Hc; intros [= <- <-].
    all: apply IH in Hc; destruct r0 as [u|error]; [|by rewrite Hna].
    all: destruct Hc as (Hno & Hw & Ht); split_and!; [by apply Hna| |].
    all: try (pose proof (weight_child_or_new root name d' Hf) as Hi; rewrite Hw in Hi;
      by apply plus_cancel_l in Hi).
    all: intros path; rewrite tree_of_insert; unfold graft, make_path.
    all: destruct path as [|n path]; [by rewrite bool_decide_true by apply prefix_nil|].
    all: cbn [strip_names]; case_bool_decide as Hn;
      [subst n; cbn [strip_names]; rewrite Ht; unfold make_path
      |rewrite bool_decide_false by (intros Hp; by apply prefix_cons_inv_1 in Hp); done].
    all: destruct (decide (path `prefix_of` names)) as [Hp|Hp];
      [by rewrite !bool_decide_true by (try done; by apply prefix_cons)
      |rewrite !bool_decide_false by (try done; by intros ?%prefix_cons_inv_2)].
    all: symmetry; apply tree_child; [done|]; intros ->; by apply Hp, prefix_nil.
Qed.
Lemma sound_same_totals manifest root :
  sound manifest →
  (∀ path, is_Some (tree_of (VfsEntry.Directory root) path) → valid_names path) →
  weight (VfsEntry.Directory root) =
    weight (VfsEntry.Directory manifest.(VfsSnapshotManifest.root)) →
  sound (manifest <| VfsSnapshotManifest.root := root |>).
Proof.
  intros Hs Hn Hw. split; [|apply Hs]. split_and!; [apply Hs|exact Hn| |apply Hs].
  change (manifest.(VfsSnapshotManifest.totals) = weight (VfsEntry.Directory root)).
  by rewrite Hw, sound_weight.
Qed.
Lemma valid_prefix names path : valid_names names → path `prefix_of` names → valid_names path.
Proof. by intros Hv [rest ->]; apply Forall_app in Hv as []. Qed.
Lemma make_path_refines names : refines (Update.MakeDirectory names true).
Proof.
  intros manifest r manifest' Hs Hv Hrun. cbn [run_update allowed effect] in *.
  unfold create_manifest_directory in Hrun. rewrite components_of_path in Hrun by done.
  assert (on_root (create_directories [] names) manifest = (r, manifest')) as Hmake.
  { revert Hrun. case_bool_decide as Hn; [|done]. rewrite Hn. intros [= <- <-].
    unfold on_root. cbn. by destruct manifest. }
  clear Hrun. unfold on_root in Hmake.
  destruct (create_directories _ _ _) as [r0 root] eqn:Hc. injection Hmake as <- <-.
  apply create_directories_spec in Hc. destruct r0 as [u|error]; [|done].
  destruct Hc as (Hno & Hw & Ht). split_and!; [done| |exact Ht].
  apply sound_same_totals; [done| |done]. intros path. rewrite Ht. unfold make_path.
  case_bool_decide as Hp; [intros _; by eapply valid_prefix|]. by apply sound_names.
Qed.
Lemma tree_of_empty path : tree_of (VfsEntry.Directory ∅) path = match path with [] => Some Kind.Directory | _ => None end.
Proof. destruct path; [done|]. unfold tree_of. cbn. by rewrite lookup_empty. Qed.
Lemma make_directory_refines names : refines (Update.MakeDirectory names false).
Proof.
  intros manifest r manifest' Hs Hv Hrun. cbn [run_update allowed effect] in *. cbn in Hv.
  unfold create_manifest_directory in Hrun. rewrite components_of_path in Hrun by done.
  unfold has_parent, is_directory_at. revert Hrun. case_bool_decide as Hn.
  { intros [= <- <-]. by intros [[] ?]. }
  rewrite on_parent_eq. pose proof (parent_directory_tree manifest names) as Hparent.
  destruct (parent_directory _ names) as [parent|error] eqn:Hp; cbn [is_ok] in Hparent;
    [|intros [= <- <-]; naive_solver].
  pose proof (parent_lookup manifest names parent Hn Hp) as Hl.
  pose proof (tree_of_None (VfsEntry.Directory manifest.(VfsSnapshotManifest.root)) names) as Hnone.
  rewrite Hl in Hnone. fold (manifest_tree manifest) in Hnone.
  unfold mbind, Reducer_bind, get_state, modify_state.
  destruct (parent !! last_component names) as [entry|] eqn:He; intros [= <- <-]; [naive_solver|].
  assert (∀ path, tree_of (VfsEntry.Directory (set_directory (parent_components names)
    (<[last_component names := VfsEntry.Directory ∅]> parent)
    manifest.(VfsSnapshotManifest.root))) path =
    graft names (tree_of (VfsEntry.Directory ∅)) (manifest_tree manifest) path) as Ht.
  { apply (parent_branch manifest names parent); [done|done|]. apply tree_of_insert. }
  split_and!; [naive_solver..| |exact Ht].
  apply sound_same_totals; [done| |].
  - change (names_valid (VfsEntry.Directory (set_directory (parent_components names)
      (<[last_component names:=VfsEntry.Directory ∅]> parent) manifest.(VfsSnapshotManifest.root)))).
    eapply names_valid_graft; [exact Ht|done| |].
    + intros path. by apply sound_names.
    + intros path. rewrite tree_of_empty. destruct path; [constructor|by intros []].
  - pose proof (weight_set _ _ _ (<[last_component names:=VfsEntry.Directory ∅]> parent)
      (proj1 (parent_directory_Ok _ _ _) Hp)) as Hset.
    rewrite (weight_fresh _ _ _ He), plus_0_l in Hset. by apply plus_cancel_l in Hset.
Qed.

(** *** Removal *)
Lemma is_empty_directory manifest names directory :
  find (VfsEntry.Directory manifest.(VfsSnapshotManifest.root)) names
    = Some (VfsEntry.Directory directory) →
  directory = ∅ ↔ is_empty_at (manifest_tree manifest) names.
Proof.
  intros Hf. unfold is_empty_at, manifest_tree. split.
  - intros -> name. rewrite (tree_of_found _ _ _ Hf). by rewrite tree_of_empty.
  - intros H. apply map_empty. intros name. specialize (H name).
    rewrite (tree_of_found _ _ _ Hf) in H. unfold tree_of in H. cbn in H.
    by destruct (directory !! name).
Qed.
(** A path whose parent is not a directory is free, or lies below a file. *)
Lemma parent_error manifest names error :
  names ≠ [] → parent_directory manifest.(VfsSnapshotManifest.root) names = Err error →
  manifest_tree manifest names = None ∧
  match error with
  | VfsError.NotFound _ => no_file_above (manifest_tree manifest) (parent_components names)
  | _ => ¬ no_file_above (manifest_tree manifest) (parent_components names)
  end.
Proof.
  intros Hn Hp. unfold parent_directory, directory_at in Hp.
  assert (∀ above rest, parent_components names = above ++ rest →
    ∀ e, find (VfsEntry.Directory manifest.(VfsSnapshotManifest.root)) above = e →
    match e with Some (VfsEntry.Directory _) => True | _ => manifest_tree manifest names = None end)
    as Hbelow.
  { intros above rest Heq e He. rewrite (names_snoc names Hn), Heq, <- app_assoc.
    unfold manifest_tree, tree_of. rewrite find_app, He.
    destruct e as [[file|]|]; [|done|done]. cbn. by destruct rest. }
  apply directory_at_Err in Hp as
    [(above & rest & file & Heq & Hf & ->)|(above & n & rest & Heq & Hd & Hf & ->)].
  - split.
    + apply tree_of_File in Hf. by apply (Hbelow _ _ Heq _ Hf).
    + intros Hno. apply (Hno above file); [by exists rest|exact Hf].
  - apply tree_of_None in Hf. replace (above ++ n :: rest) with ((above ++ [n]) ++ rest) in Heq
      by by rewrite <- app_assoc.
    split; [by apply (Hbelow _ _ Heq _ Hf)|].
    intros path file [rest' Hpath] Ht. unfold manifest_tree in Ht.
    apply tree_of_File in Ht. apply tree_of_Directory in Hd as [directory Hd].
    assert (above ++ [n] `prefix_of` path ∨ path `prefix_of` above ++ [n]) as [[k ->]|Hk].
    { apply (prefix_weak_total _ _ (parent_components names)); [by exists rest|by exists rest']. }
    + by rewrite find_app, Hf in Ht.
    + destruct Hk as [k Hk]. induction k as [|x k _] using rev_ind.
      { rewrite app_nil_r in Hk. by rewrite Hk, Ht in Hf. }
      rewrite app_assoc in Hk. apply app_inj_tail in Hk as [-> _].
      rewrite find_app, Ht in Hd. cbn in Hd. by destruct k.
Qed.
Lemma no_file_above_directory entry names :
  tree_of entry names = Some Kind.Directory → no_file_above (tree_of entry) names.
Proof.
  intros [directory Hd]%tree_of_Directory above file [rest ->] Ha%tree_of_File.
  rewrite find_app, Ha in Hd. cbn in Hd. by destruct rest.
Qed.
Lemma graft_nothing entry names path :
  tree_of entry names = None → graft names no_tree (tree_of entry) path = tree_of entry path.
Proof.
  intros Hn. unfold graft. destruct (strip_names names path) as [rest|] eqn:Hs; [|done].
  apply strip_names_Some in Hs as ->. apply tree_of_None in Hn. symmetry.
  apply tree_of_None. by rewrite find_app, Hn.
Qed.
Lemma set_directory_id names root directory :
  find (VfsEntry.Directory root) names = Some (VfsEntry.Directory directory) →
  set_directory names directory root = root.
Proof.
  revert root. induction names as [|name names IH]; intros root; [by intros [= ->]|].
  intros (child & Hn & Hf)%find_child. cbn [set_directory]. rewrite Hn, IH by done.
  by apply insert_id.
Qed.
(** The steps of a removal: what is found at the parent, then the totals. *)
Definition removal (names : list string) (recursive force : bool)
    (manifest : VfsSnapshotManifest) : Result VfsError unit * VfsSnapshotManifest :=
  match parent_directory manifest.(VfsSnapshotManifest.root) names with
  | Err (VfsError.NotFound _ as error) => (if force then Ok tt else Err error, manifest)
  | Err error => (Err error, manifest)
  | Ok parent =>
      match parent !! last_component names with
      | None =>
          (if force then Ok tt else Err (VfsError.NotFound (path_from_components names)), manifest)
      | Some entry =>
          if match entry with
             | VfsEntry.Directory directory => negb recursive && bool_decide (directory ≠ ∅)
             | VfsEntry.File _ => false
             end
          then (Err (VfsError.DirectoryNotEmpty (path_from_components names)), manifest)
          else
            (totals ← lift_result (entry_totals entry); on_totals (subtract_totals totals))
              (manifest <| VfsSnapshotManifest.root :=
                 set_directory (parent_components names) (delete (last_component names) parent)
                   manifest.(VfsSnapshotManifest.root) |>)
      end
  end.
Lemma root_id manifest :
  manifest <| VfsSnapshotManifest.root := manifest.(VfsSnapshotManifest.root) |> = manifest.
Proof. by destruct manifest. Qed.
Lemma remove_eq names recursive force manifest :
  valid_names names → names ≠ [] →
  remove_manifest_path (path_from_components names) recursive force manifest =
  removal names recursive force manifest.
Proof.
  intros Hv Hn. unfold remove_manifest_path, removal. rewrite components_of_path by done.
  rewrite bool_decide_false by done. erewrite bind_runs by reflexivity.
  unfold mbind at 1, Reducer_bind at 1. rewrite on_parent_eq.
  destruct (parent_directory _ names) as [parent|error] eqn:Hp.
  - pose proof (set_directory_id _ _ _ (proj1 (parent_directory_Ok _ _ _) Hp)) as Hid.
    unfold remove_from_parent, mbind, Reducer_bind, get_state, mret, Reducer_ret, remove_entry.
    destruct (parent !! last_component names) as [entry|] eqn:He.
    + match goal with |- context [if ?c then _ else _] => destruct c end.
      * by rewrite Hid, root_id.
      * by rewrite He.
    + rewrite Hid, root_id. by destruct force.
  - by destruct error, force.
Qed.
(** Nothing to remove: an error unless it is forced. *)
Lemma remove_nothing names recursive (force : bool) manifest (error : VfsError)
    (r : Result VfsError unit) manifest' :
  sound manifest → names ≠ [] → manifest_tree manifest names = None →
  no_file_above (manifest_tree manifest) (parent_components names) →
  (if force then Ok tt else Err error, manifest) = (r, manifest') →
  match r with
  | Ok _ =>
      allowed (Update.Remove names recursive force) (manifest_tree manifest) ∧ sound manifest' ∧
      ∀ path, manifest_tree manifest' path =
        effect (Update.Remove names recursive force) (manifest_tree manifest) path
  | Err _ => ¬ allowed (Update.Remove names recursive force) (manifest_tree manifest)
  end.
Proof.
  intros Hs Hn Hnone Hno. cbn [allowed effect]. unfold is_directory_at. rewrite Hnone.
  destruct force; intros [= <- <-]; [|naive_solver].
  split_and!; [naive_solver..| |]; [done|]. intros path. symmetry. by apply graft_nothing.
Qed.
Lemma remove_entry_spec names manifest parent entry r manifest' :
  sound manifest → valid_names names → names ≠ [] →
  parent_directory manifest.(VfsSnapshotManifest.root) names = Ok parent →
  parent !! last_component names = Some entry →
  (totals ← lift_result (entry_totals entry); on_totals (subtract_totals totals))
    (manifest <| VfsSnapshotManifest.root :=
       set_directory (parent_components names) (delete (last_component names) parent)
         manifest.(VfsSnapshotManifest.root) |>) = (r, manifest') →
  r = Ok tt ∧ sound manifest' ∧
  ∀ path, manifest_tree manifest' path = graft names no_tree (manifest_tree manifest) path.
Proof.
  intros Hs Hv Hn Hp He Hrun. destruct (replaced_totals _ _ _ Hs Hn Hp) as (others & Ho).
  assert (weight_at parent (last_component names) = weight entry) as Hw
    by (unfold weight_at; by rewrite He).
  erewrite bind_runs in Hrun by (apply lift_runs; by eapply replaced_entry_totals).
  unfold on_totals in Hrun. rewrite (proj2 (subtract_totals_Ok _ _ tt others)) in Hrun
    by (transitivity manifest.(VfsSnapshotManifest.totals); [done|by rewrite Ho, Hw]).
  injection Hrun as <- <-. split; [done|].
  change (sound (set_at manifest names (delete (last_component names) parent) others) ∧
    ∀ path, manifest_tree (set_at manifest names (delete (last_component names) parent) others) path
      = graft names no_tree (manifest_tree manifest) path).
  assert (∀ path, manifest_tree (set_at manifest names (delete (last_component names) parent) others)
    path = graft names no_tree (manifest_tree manifest) path) as Ht.
  { apply (parent_branch manifest names parent); [done|done|]. apply tree_of_delete. }
  split; [|exact Ht].
  eapply sound_changed; [exact Hs|done|exact Ht|done|by intros ? []| |].
  - change (others = weight (VfsEntry.Directory (set_directory (parent_components names)
      (delete (last_component names) parent) manifest.(VfsSnapshotManifest.root)))).
    pose proof (weight_set _ _ _ (delete (last_component names) parent)
      (proj1 (parent_directory_Ok _ _ _) Hp)) as Hset.
    rewrite <- (sound_weight manifest Hs), Ho, (weight_delete parent (last_component names)) in Hset.
    apply totals_eq; [apply (f_equal VfsTotals.files) in Hset|apply (f_equal VfsTotals.bytes) in Hset];
      cbn [plus VfsTotals.files VfsTotals.bytes] in *; lia.
  - change (fits others). apply (fits_plus_l _ (weight_at parent (last_component names))).
    rewrite <- Ho. apply Hs.
Qed.
Lemma remove_refines names recursive force : refines (Update.Remove names recursive force).
Proof.
  intros manifest r manifest' Hs Hv Hrun. cbn [run_update update_valid added_weight] in *.
  destruct (decide (names = [])) as [->|Hn].
  { unfold remove_manifest_path in Hrun. cbn in Hrun. injection Hrun as <- <-. by intros [? _]. }
  rewrite remove_eq in Hrun by done. unfold removal in Hrun.
  destruct (parent_directory _ names) as [parent|error] eqn:Hp.
  - pose proof (parent_lookup manifest names parent Hn Hp) as Hl.
    assert (no_file_above (manifest_tree manifest) (parent_components names)) as Hno.
    { apply no_file_above_directory, parent_directory_tree. by rewrite Hp. }
    destruct (parent !! last_component names) as [entry|] eqn:He.
    + match type of Hrun with (if ?c then _ else _) = _ => destruct c eqn:Hfull end.
      * injection Hrun as <- <-. intros (_ & _ & _ & Hempty).
        destruct entry as [file|directory]; [done|]. simplify_ok.
        destruct Hempty as [?|Hempty]; [by apply tree_of_Directory; eauto|congruence|].
        by apply (is_empty_directory _ _ _ Hl) in Hempty.
      * destruct (remove_entry_spec _ _ _ _ _ _ Hs Hv Hn Hp He Hrun) as (-> & Hs' & Ht).
        split_and!; [|done|exact Ht]. cbn [allowed]. split_and!; [done|done| |].
        -- intros Hnone%tree_of_None. congruence.
        -- intros [directory Hd]%tree_of_Directory. rewrite Hl in Hd. injection Hd as ->.
           destruct recursive; [by left|right]. apply (is_empty_directory _ _ _ Hl).
           cbn in Hfull. by simplify_ok.
    + apply (remove_nothing names recursive) in Hrun; [|done|done| |done].
      * by destruct r.
      * by apply tree_of_None.
  - pose proof (parent_error manifest names error Hn Hp) as [Hnone Hno].
    destruct error; try (injection Hrun as <- <-; intros (_ & ? & _); done).
    apply (remove_nothing names recursive) in Hrun; [|done..]. by destruct r.
Qed.

(** *** Copies and replacements *)
(** [lookup_snapshot_path] reads the map. *)
Definition node_of (entry : VfsEntry) : VfsNode :=
  match entry with
  | VfsEntry.File file => VfsNode.File file
  | VfsEntry.Directory directory => VfsNode.Directory directory
  end.
Lemma lookup_components_spec path root names :
  names ≠ [] →
  match find (VfsEntry.Directory root) names with
  | Some entry => lookup_components path root names = Ok (node_of entry)
  | None => is_err (lookup_components path root names) = true
  end.
Proof.
  revert root. induction names as [|name names IH]; intros root Hn; [done|].
  cbn [find lookup_components]. destruct (root !! name) as [entry|]; cbn; [|done].
  destruct names as [|n names].
  - by destruct entry.
  - destruct entry as [file|directory]; [done|]. by apply (IH directory).
Qed.
Lemma lookup_spec manifest names :
  valid_names names →
  match find (VfsEntry.Directory manifest.(VfsSnapshotManifest.root)) names with
  | Some entry =>
      lookup_snapshot_path manifest (path_from_components names) = Ok (node_of entry)
  | None => is_err (lookup_snapshot_path manifest (path_from_components names)) = true
  end.
Proof.
  intros Hv. unfold lookup_snapshot_path. destruct names as [|name names]; [done|].
  rewrite path_not_root by by inversion Hv. rewrite components_of_path by done.
  by apply lookup_components_spec.
Qed.
Lemma names_valid_found manifest names entry :
  sound manifest →
  find (VfsEntry.Directory manifest.(VfsSnapshotManifest.root)) names = Some entry →
  names_valid entry.
Proof.
  intros Hs Hf path Hp. rewrite (tree_of_sub _ _ _ path Hf) in Hp.
  apply sound_names in Hp; [|done]. by apply Forall_app in Hp as [].
Qed.
Lemma fits_added manifest t t' :
  (t.(VfsTotals.files) <= t'.(VfsTotals.files))%N → (t.(VfsTotals.bytes) <= t'.(VfsTotals.bytes))%N →
  fits (plus manifest.(VfsSnapshotManifest.totals) t') →
  fits (plus manifest.(VfsSnapshotManifest.totals) t).
Proof. unfold fits. cbn. lia. Qed.
Lemma weight_found_le manifest names entry :
  sound manifest →
  find (VfsEntry.Directory manifest.(VfsSnapshotManifest.root)) names = Some entry →
  fits (plus manifest.(VfsSnapshotManifest.totals) manifest.(VfsSnapshotManifest.totals)) →
  fits (plus manifest.(VfsSnapshotManifest.totals) (weight entry)).
Proof.
  intros Hs Hf. destruct (weight_found _ _ _ Hf) as (others & Ho).
  rewrite <- (sound_weight manifest Hs) in Ho.
  apply fits_added; rewrite Ho; cbn; lia.
Qed.
Lemma copy_refines source destination recursive :
  refines (Update.Copy source destination recursive).
Proof.
  intros manifest r manifest' Hs [Hvs Hvd] Hrun.
  cbn [run_update added_weight allowed effect] in *.
  unfold copy_manifest_path in Hrun. unfold mbind at 1, Reducer_bind at 1, checking at 1 in Hrun.
  pose proof (lookup_spec manifest source Hvs) as Hl.
  assert (manifest_tree manifest source =
    kind_of <$> find (VfsEntry.Directory manifest.(VfsSnapshotManifest.root)) source) as Hsrc by done.
  destruct (find _ source) as [entry|] eqn:Hf; cbn [fmap option_fmap option_map] in Hsrc.
  2: { destruct (lookup_snapshot_path manifest _); [done|]. injection Hrun as <- <-. by rewrite Hsrc. }
  rewrite Hl in Hrun. pose proof (λ path, tree_of_sub _ _ _ path Hf) as Hsub.
  pose proof (weight_found_le _ _ _ Hs Hf) as Hle.
  destruct entry as [file|directory]; cbn [node_of kind_of] in Hrun, Hsrc; rewrite Hsrc.
  - apply put_file_spec in Hrun; [|done..]. destruct r as [u|error]; [|by intros ?%Hrun ?%Hle].
    destruct Hrun as (Ha & Hs' & Ht). split; [exact Ha|split; [done|]]. intros path. rewrite Ht.
    by apply graft_ext.
  - destruct recursive; cbn [negb] in Hrun; [|injection Hrun as <- <-; naive_solver].
    erewrite bind_runs in Hrun by reflexivity. rewrite path_starts_with_spec in Hrun by done.
    case_bool_decide as Hp; [injection Hrun as <- <-; naive_solver|].
    erewrite bind_runs in Hrun by reflexivity.
    apply insert_or_replace_spec in Hrun; [|done|done|by eapply names_valid_found].
    unfold has_parent, is_directory_at. destruct r as [u|error].
    + destruct Hrun as (Hn & Hparent & Ht & Hs'). split_and!; [done..|]. intros path. rewrite Ht.
      by apply graft_ext.
    + intros (_ & _ & Hn & Hparent) Hfit. destruct Hrun as [?|[?|Hfits]]; [done..|].
      by apply Hfits, Hle.
Qed.
Lemma replace_refines names entry : refines (Update.Replace names entry).
Proof.
  intros manifest r manifest' Hs [Hv Hne] Hrun.
  cbn [run_update added_weight allowed effect] in *.
  unfold replace_manifest_entry in Hrun. rewrite components_of_path in Hrun by done.
  case_bool_decide as Hn.
  - subst names. unfold mbind at 1, Reducer_bind at 1, lift_result at 1 in Hrun.
    destruct (entry_totals entry) as [totals|error] eqn:Ht.
    + pose proof (entry_totals_Ok _ _ Ht) as ->. destruct entry as [file|root];
        injection Hrun as <- <-; [done|].
      split_and!; [done| |intros path; done]. split.
      * split_and!; [apply Hs|exact Hne|done|].
        apply entry_totals_fits in Ht. apply Ht.
      * by apply entry_totals_fits in Ht.
    + injection Hrun as <- <-. intros _ Hf%fits_plus_r. by rewrite (entry_totals_runs _ Hf) in Ht.
  - apply insert_or_replace_spec in Hrun; [|done..].
    unfold has_parent, is_directory_at. destruct r as [u|error]; [naive_solver|].
    intros [_ Hparent]. destruct Hrun as [?|[?|?]]; done.
Qed.
Lemma update_refines update : refines update.
Proof.
  destruct update as [names file|names [|]|names recursive force|source destination recursive
    |names entry].
  - apply write_refines.
  - apply make_path_refines.
  - apply make_directory_refines.
  - apply remove_refines.
  - apply copy_refines.
  - apply replace_refines.
Qed.

(** ** What the tree promises *)
(** C10. Every update of a manifest is an update of the map from paths to files and directories: it
    succeeds exactly where the map allows it, unless the totals would not fit 64 bits; it leaves
    the map its description says, with every path it does not name as it was; and totals, names
    and schema of the manifest stay sound. *)
Theorem manifest_updates_refine_the_tree update manifest r manifest' :
  sound manifest → update_valid update → run_update update manifest = (r, manifest') →
  match r with
  | Ok _ =>
      allowed update (manifest_tree manifest) ∧ sound manifest' ∧
      ∀ path, manifest_tree manifest' path = effect update (manifest_tree manifest) path
  | Err _ =>
      allowed update (manifest_tree manifest) →
      ¬ fits (plus manifest.(VfsSnapshotManifest.totals) (added_weight update manifest))
  end.
Proof. exact (update_refines update manifest r manifest'). Qed.

(** C33. Validation of a manifest, an accumulation over its tree with checked sums and early exits,
    accepts exactly the manifests of the schema whose paths all have valid names and whose totals
    are those of the files in their tree. *)
Theorem validation_is_exact manifest : validate manifest = Ok tt ↔ consistent manifest.
Proof. apply validate_consistent. Qed.
