(* ===== verification/VfsStore.v ===== *)
(** * The stores under the virtual file system

    Blobs by content ([storage/blobs.rs], the in-memory store), the catalog of workspaces
    ([crates/vfs/src/catalog.rs], the rows and transactions of [crates/store-pg/src/vfs.rs]), and
    programs that call them: a file operation of the source is [async] and other tasks run
    between its calls, so it is a tree of calls and not one function of the stores. *)
From Stdlib Require Import Ascii ZArith.
From S2P Require Import Prelude Ids Text Types Externals VfsTree.
Set Primitive Projections.

(** ** Blobs *)
Module BlobInfo.
Record BlobInfo : Type := { blob_ref : BlobRef; byte_len : N; }.
End BlobInfo.
Abbreviation BlobInfo := BlobInfo.BlobInfo.
Module BlobEdge.
Record BlobEdge : Type := { parent : BlobRef; child : BlobRef; edge_kind : string; }.
End BlobEdge.
Abbreviation BlobEdge := BlobEdge.BlobEdge.
#[export] Instance BlobEdge_eq_dec : EqDecision BlobEdge.
Proof. solve_decision. Defined.
Definition BlobEdge_contains (parent child : BlobRef) : BlobEdge :=
  {| BlobEdge.parent := parent; BlobEdge.child := child; BlobEdge.edge_kind := "contains" |}.

Module InMemoryBlobStoreInner.
Record InMemoryBlobStoreInner : Type := {
  bytes_by_ref : gmap BlobRef string;
  info_by_ref : gmap BlobRef BlobInfo;
  touched_at_ms : gmap BlobRef N;
  edges : list BlobEdge;
}.
End InMemoryBlobStoreInner.
Abbreviation InMemoryBlobStoreInner := InMemoryBlobStoreInner.InMemoryBlobStoreInner.
#[export] Instance set_Blobs_edges : Setter InMemoryBlobStoreInner.edges :=
  ltac:(solve_setter InMemoryBlobStoreInner.edges).
#[export] Instance set_Blobs_touched_at_ms : Setter InMemoryBlobStoreInner.touched_at_ms :=
  ltac:(solve_setter InMemoryBlobStoreInner.touched_at_ms).
Definition InMemoryBlobStoreInner_default : InMemoryBlobStoreInner :=
  {| InMemoryBlobStoreInner.bytes_by_ref := ∅;
     InMemoryBlobStoreInner.info_by_ref := ∅;
     InMemoryBlobStoreInner.touched_at_ms := ∅;
     InMemoryBlobStoreInner.edges := [] |}.

(** [map.entry(key).or_insert(value)]. *)
Definition or_insert {A} (key : string) (value : A) (m : gmap string A) : gmap string A :=
  match m !! key with Some _ => m | None => <[key := value]> m end.
(** Moving the last touch of a blob forward to [now_ms]. *)
Definition touch (now_ms : N) (blob_ref : BlobRef) (m : gmap BlobRef N) : gmap BlobRef N :=
  <[blob_ref := N.max (default now_ms (m !! blob_ref)) now_ms]> m.

Abbreviation BlobReducer := (Reducer InMemoryBlobStoreInner BlobStoreError) (only parsing).
Definition put_bytes `{!Externals} (now_ms : N) (bytes : string) : BlobReducer BlobRef := λ inner,
  let blob_ref := BlobRef_from_bytes bytes in
  let info := {| BlobInfo.blob_ref := blob_ref; BlobInfo.byte_len := byte_len bytes |} in
  (Ok blob_ref,
   {| InMemoryBlobStoreInner.bytes_by_ref :=
        or_insert blob_ref bytes inner.(InMemoryBlobStoreInner.bytes_by_ref);
      InMemoryBlobStoreInner.info_by_ref :=
        or_insert blob_ref info inner.(InMemoryBlobStoreInner.info_by_ref);
      InMemoryBlobStoreInner.touched_at_ms :=
        touch now_ms blob_ref inner.(InMemoryBlobStoreInner.touched_at_ms);
      InMemoryBlobStoreInner.edges := inner.(InMemoryBlobStoreInner.edges) |}).
Definition read_bytes `{!Externals} (blob_ref : BlobRef) (inner : InMemoryBlobStoreInner)
    : Result BlobStoreError string :=
  bytes ← ok_or (inner.(InMemoryBlobStoreInner.bytes_by_ref) !! blob_ref)
    (BlobStoreError.NotFound blob_ref);
  _ ← reject_if (bool_decide (BlobRef_from_bytes bytes ≠ blob_ref))
    (BlobStoreError.Store "blob hash mismatch: expected {blob_ref}, got {actual}");
  mret bytes.
Definition retain_blob (now_ms : N) (blob_ref : BlobRef) : BlobReducer unit :=
  inner ← get_state;
  _ ← reject_if (is_none (inner.(InMemoryBlobStoreInner.bytes_by_ref) !! blob_ref))
        (BlobStoreError.NotFound blob_ref);
  modify_state (λ inner, inner <| InMemoryBlobStoreInner.touched_at_ms ::= λ touched,
    <[blob_ref := N.max (default 0%N (touched !! blob_ref)) now_ms]> touched |>).
Definition has_blob (blob_ref : BlobRef) (inner : InMemoryBlobStoreInner) : bool :=
  is_some (inner.(InMemoryBlobStoreInner.bytes_by_ref) !! blob_ref).
Definition stat_blob (blob_ref : BlobRef) (inner : InMemoryBlobStoreInner)
    : Result BlobStoreError BlobInfo :=
  ok_or (inner.(InMemoryBlobStoreInner.info_by_ref) !! blob_ref) (BlobStoreError.NotFound blob_ref).

Definition MAX_BLOB_RANGE_BYTES : N := 1024 * 1024.
(** [read_blob_range], by the trait's default. *)
Definition read_blob_range `{!Externals} (blob_ref : BlobRef) (offset max_bytes : N)
    (inner : InMemoryBlobStoreInner) : Result BlobStoreError string :=
  let unsupported := BlobStoreError.Store "streaming blob reads unsupported by this store" in
  _ ← reject_if (MAX_BLOB_RANGE_BYTES <? max_bytes)%N unsupported;
  info ← stat_blob blob_ref inner;
  _ ← reject_if (8 * 1024 * 1024 <? info.(BlobInfo.byte_len))%N unsupported;
  bytes ← read_bytes blob_ref inner;
  let start := N.min offset (byte_len bytes) in
  let stop := N.min (saturating_add_u64 start max_bytes) (byte_len bytes) in
  mret (String.substring (N.to_nat start) (N.to_nat (stop - start)) bytes).
(** What a sweep may collect, oldest first. *)
Definition touched_le (one other : N * BlobInfo) : Prop :=
  (one.1 < other.1)%N ∨
  one.1 = other.1 ∧ String.le one.2.(BlobInfo.blob_ref) other.2.(BlobInfo.blob_ref).
#[export] Instance touched_le_dec : RelDecision touched_le.
Proof. intros p q. unfold touched_le. apply _. Defined.
Definition blobs_touched_before (cutoff_ms : N) (inner : InMemoryBlobStoreInner) : list BlobInfo :=
  (merge_sort touched_le (omap (λ '(blob_ref, touched_at_ms),
     if (touched_at_ms <? cutoff_ms)%N
     then pair touched_at_ms <$> inner.(InMemoryBlobStoreInner.info_by_ref) !! blob_ref
     else None) (btree_to_list inner.(InMemoryBlobStoreInner.touched_at_ms)))).*2.

(** The edges before the first one refused are recorded. *)
Definition record_blob_edges (edges : list BlobEdge) : BlobReducer unit :=
  for_each (λ edge,
    _ ← reject_if (bool_decide (edge.(BlobEdge.edge_kind) = ""))
          (BlobStoreError.Store "blob edge kind must not be empty");
    inner ← get_state;
    _ ← for_each (λ blob_ref,
          reject_if (is_none (inner.(InMemoryBlobStoreInner.bytes_by_ref) !! blob_ref))
            (BlobStoreError.NotFound blob_ref))
        [edge.(BlobEdge.parent); edge.(BlobEdge.child)];
    if bool_decide (edge ∈ inner.(InMemoryBlobStoreInner.edges)) then mret tt
    else modify_state (λ inner,
      inner <| InMemoryBlobStoreInner.edges ::= λ edges, edges ++ [edge] |>)) edges.
(** One round of [delete_blobs], which counts the blobs that existed. *)
Definition delete_blob (blob_ref : BlobRef) (state : nat * InMemoryBlobStoreInner)
    : nat * InMemoryBlobStoreInner :=
  let '(deleted, inner) := state in
  ((if has_blob blob_ref inner then S deleted else deleted),
   {| InMemoryBlobStoreInner.bytes_by_ref :=
        delete blob_ref inner.(InMemoryBlobStoreInner.bytes_by_ref);
      InMemoryBlobStoreInner.info_by_ref :=
        delete blob_ref inner.(InMemoryBlobStoreInner.info_by_ref);
      InMemoryBlobStoreInner.touched_at_ms :=
        delete blob_ref inner.(InMemoryBlobStoreInner.touched_at_ms);
      InMemoryBlobStoreInner.edges :=
        filter (λ edge, edge.(BlobEdge.parent) ≠ blob_ref) inner.(InMemoryBlobStoreInner.edges) |}).
Definition delete_blobs (blob_refs : list BlobRef) (inner : InMemoryBlobStoreInner)
    : nat * InMemoryBlobStoreInner :=
  foldl (λ state blob_ref, delete_blob blob_ref state) (0, inner) blob_refs.
(** [record_contains_edges] past its check for a graph store: a set, in order, without the
    parent itself. *)
Definition contains_edges (parent : BlobRef) (children : gset BlobRef) : list BlobEdge :=
  map (BlobEdge_contains parent) (merge_sort String.le (elements (children ∖ {[ parent ]}))).

(** ** The catalog of workspaces *)
Module VfsCatalogError.
Inductive VfsCatalogError : Type :=
| AlreadyExists (kind : string) (id : string)
| NotFound (kind : string) (id : string)
| RevisionConflict (workspace_id : string) (expected_revision actual_revision : N)
| InvalidInput (message : string)
| Store (message : string).
End VfsCatalogError.
Abbreviation VfsCatalogError := VfsCatalogError.VfsCatalogError.
Abbreviation VfsWorkspaceId := string (only parsing).
Definition VfsWorkspaceId_try_new (value : string) : Result StringIdError VfsWorkspaceId :=
  _ ← validate_general_string_id "VfsWorkspaceId" value;
  mret value.

Module VfsWorkspaceRecord.
Record VfsWorkspaceRecord : Type := {
  workspace_id : VfsWorkspaceId;
  display_name : option string;
  base_snapshot_ref : option BlobRef;
  head_snapshot_ref : BlobRef;
  head_totals : VfsTotals;
  revision : N;
  created_at_ms : Z;
  updated_at_ms : Z;
}.
End VfsWorkspaceRecord.
Abbreviation VfsWorkspaceRecord := VfsWorkspaceRecord.VfsWorkspaceRecord.
#[export] Instance VfsWorkspaceRecord_eq_dec : EqDecision VfsWorkspaceRecord.
Proof. solve_decision. Defined.
Module CreateVfsWorkspaceRecord.
Record CreateVfsWorkspaceRecord : Type := {
  workspace_id : VfsWorkspaceId;
  display_name : option string;
  base_snapshot_ref : option BlobRef;
  head_snapshot_ref : BlobRef;
  head_totals : VfsTotals;
  created_at_ms : Z;
}.
End CreateVfsWorkspaceRecord.
Abbreviation CreateVfsWorkspaceRecord := CreateVfsWorkspaceRecord.CreateVfsWorkspaceRecord.
Module CompareAndSetVfsWorkspaceHead.
Record CompareAndSetVfsWorkspaceHead : Type := {
  workspace_id : VfsWorkspaceId;
  expected_revision : option N;
  display_name : option string;
  new_head_snapshot_ref : BlobRef;
  new_head_totals : VfsTotals;
  updated_at_ms : Z;
}.
End CompareAndSetVfsWorkspaceHead.
Abbreviation CompareAndSetVfsWorkspaceHead :=
  CompareAndSetVfsWorkspaceHead.CompareAndSetVfsWorkspaceHead.

(** The conversions to what a row holds: 64-bit signed integers and bare digests. *)
Definition i64_limit : N := 9223372036854775807.
Definition u64_to_i64 (value : N) : Result VfsCatalogError N :=
  _ ← reject_if (i64_limit <? value)%N
        (VfsCatalogError.Store "{name} is too large for Postgres bigint: {value}");
  mret value.
Definition nonnegative_i64 (value : Z) : Result VfsCatalogError Z :=
  _ ← reject_if (value <? 0)%Z (VfsCatalogError.InvalidInput "{name} must be nonnegative: {value}");
  mret value.
Definition catalog_digest (blob_ref : BlobRef) : Result VfsCatalogError BlobRef :=
  _ ← reject_if (negb (is_canonical_sha256_ref blob_ref))
        (VfsCatalogError.Store "unsupported blob ref format: {blob_ref}");
  mret blob_ref.
Definition totals_to_row (totals : VfsTotals) : Result VfsCatalogError VfsTotals :=
  files ← u64_to_i64 totals.(VfsTotals.files);
  bytes ← u64_to_i64 totals.(VfsTotals.bytes);
  mret {| VfsTotals.files := files; VfsTotals.bytes := bytes |}.

(** The table [vfs_workspaces] of one universe, by [workspace_id]; each operation is one
    statement, or one transaction that holds the row. The constraints of the table that the
    conversions do not already make hold are checked; that a head is the digest of a stored blob
    is one of the ways a call may fail. *)
Abbreviation Workspaces := (gmap VfsWorkspaceId VfsWorkspaceRecord) (only parsing).
Abbreviation CatalogReducer := (Reducer (gmap VfsWorkspaceId VfsWorkspaceRecord) VfsCatalogError) (only parsing).

Definition create_workspace (record : CreateVfsWorkspaceRecord)
    : CatalogReducer VfsWorkspaceRecord :=
  let workspace_id := record.(CreateVfsWorkspaceRecord.workspace_id) in
  base_digest ← lift_result match record.(CreateVfsWorkspaceRecord.base_snapshot_ref) with
                | Some blob_ref => Some <$> catalog_digest blob_ref
                | None => Ok None
                end;
  head_digest ← lift_result (catalog_digest record.(CreateVfsWorkspaceRecord.head_snapshot_ref));
  head_totals ← lift_result (totals_to_row record.(CreateVfsWorkspaceRecord.head_totals));
  created_at_ms ← lift_result (nonnegative_i64 record.(CreateVfsWorkspaceRecord.created_at_ms));
  rows ← get_state;
  _ ← reject_if (is_some (rows !! workspace_id))
        (VfsCatalogError.AlreadyExists "workspace" workspace_id);
  let row :=
    {| VfsWorkspaceRecord.workspace_id := workspace_id;
       VfsWorkspaceRecord.display_name := record.(CreateVfsWorkspaceRecord.display_name);
       VfsWorkspaceRecord.base_snapshot_ref := base_digest;
       VfsWorkspaceRecord.head_snapshot_ref := head_digest;
       VfsWorkspaceRecord.head_totals := head_totals;
       VfsWorkspaceRecord.revision := 0;
       VfsWorkspaceRecord.created_at_ms := created_at_ms;
       VfsWorkspaceRecord.updated_at_ms := created_at_ms |} in
  _ ← modify_state (<[workspace_id := row]>);
  mret row.

Definition read_workspace (workspace_id : VfsWorkspaceId) (rows : Workspaces)
    : Result VfsCatalogError VfsWorkspaceRecord :=
  ok_or (rows !! workspace_id) (VfsCatalogError.NotFound "workspace" workspace_id).

Definition compare_and_set_head (request : CompareAndSetVfsWorkspaceHead)
    : CatalogReducer VfsWorkspaceRecord :=
  let workspace_id := request.(CompareAndSetVfsWorkspaceHead.workspace_id) in
  rows ← get_state;
  current ← lift_result (read_workspace workspace_id rows);
  _ ← match request.(CompareAndSetVfsWorkspaceHead.expected_revision) with
      | Some expected_revision =>
          reject_if (bool_decide (current.(VfsWorkspaceRecord.revision) ≠ expected_revision))
            (VfsCatalogError.RevisionConflict workspace_id expected_revision
               current.(VfsWorkspaceRecord.revision))
      | None => mret tt
      end;
  next_revision ← lift_result (ok_or
    (checked_add_u64 current.(VfsWorkspaceRecord.revision) 1)
    (VfsCatalogError.Store "vfs workspace revision overflow for {}"));
  head_digest ← lift_result
    (catalog_digest request.(CompareAndSetVfsWorkspaceHead.new_head_snapshot_ref));
  head_totals ← lift_result
    (totals_to_row request.(CompareAndSetVfsWorkspaceHead.new_head_totals));
  revision ← lift_result (u64_to_i64 next_revision);
  updated_at_ms ← lift_result
    (nonnegative_i64 request.(CompareAndSetVfsWorkspaceHead.updated_at_ms));
  _ ← reject_if (updated_at_ms <? current.(VfsWorkspaceRecord.created_at_ms))%Z
        (VfsCatalogError.Store "advance vfs workspace head");
  let row :=
    {| VfsWorkspaceRecord.workspace_id := workspace_id;
       VfsWorkspaceRecord.display_name :=
         match request.(CompareAndSetVfsWorkspaceHead.display_name) with
         | Some display_name => Some display_name
         | None => current.(VfsWorkspaceRecord.display_name)
         end;
       VfsWorkspaceRecord.base_snapshot_ref := current.(VfsWorkspaceRecord.base_snapshot_ref);
       VfsWorkspaceRecord.head_snapshot_ref := head_digest;
       VfsWorkspaceRecord.head_totals := head_totals;
       VfsWorkspaceRecord.revision := revision;
       VfsWorkspaceRecord.created_at_ms := current.(VfsWorkspaceRecord.created_at_ms);
       VfsWorkspaceRecord.updated_at_ms := updated_at_ms |} in
  _ ← modify_state (<[workspace_id := row]>);
  mret row.

Definition delete_workspace (workspace_id : VfsWorkspaceId) : CatalogReducer VfsWorkspaceRecord :=
  rows ← get_state;
  record ← lift_result (read_workspace workspace_id rows);
  _ ← modify_state (delete workspace_id);
  mret record.

(** Most recently updated first, then by id. *)
Definition workspace_le (one other : VfsWorkspaceRecord) : Prop :=
  (other.(VfsWorkspaceRecord.updated_at_ms) < one.(VfsWorkspaceRecord.updated_at_ms))%Z ∨
  one.(VfsWorkspaceRecord.updated_at_ms) = other.(VfsWorkspaceRecord.updated_at_ms) ∧
  String.le one.(VfsWorkspaceRecord.workspace_id) other.(VfsWorkspaceRecord.workspace_id).
#[export] Instance workspace_le_dec : RelDecision workspace_le.
Proof. intros p q. unfold workspace_le. apply _. Defined.
Definition list_workspaces (rows : Workspaces) : list VfsWorkspaceRecord :=
  merge_sort workspace_le (btree_values rows).

(** The table [vfs_snapshots], by digest. *)
Module VfsSnapshotSource.
Record VfsSnapshotSource : Type := {
  kind : string;
  subject : option string;
  metadata_ref : option BlobRef;
}.
End VfsSnapshotSource.
Abbreviation VfsSnapshotSource := VfsSnapshotSource.VfsSnapshotSource.
Module VfsSnapshotRecord.
Record VfsSnapshotRecord : Type := {
  snapshot_ref : BlobRef;
  source : VfsSnapshotSource;
  display_name : option string;
  created_at_ms : Z;
}.
End VfsSnapshotRecord.
Abbreviation VfsSnapshotRecord := VfsSnapshotRecord.VfsSnapshotRecord.
Definition record_snapshot (record : VfsSnapshotRecord)
    : Reducer (gmap BlobRef VfsSnapshotRecord) VfsCatalogError unit :=
  digest ← lift_result (catalog_digest record.(VfsSnapshotRecord.snapshot_ref));
  _ ← lift_result (nonnegative_i64 record.(VfsSnapshotRecord.created_at_ms));
  modify_state (<[digest := record]>).
Definition read_snapshot (snapshot_ref : BlobRef) (rows : gmap BlobRef VfsSnapshotRecord)
    : Result VfsCatalogError VfsSnapshotRecord :=
  digest ← catalog_digest snapshot_ref;
  ok_or (rows !! digest) (VfsCatalogError.NotFound "snapshot" snapshot_ref).

(** ** Programs that call the stores *)
(** One call, and what it answers. The log of tool effects is shared by handle, as
    [Arc<Mutex<Vec<ToolEffect>>>] is; the clock is read in milliseconds since the epoch. *)
Module StoreOp.
Inductive StoreOp : Type :=
| PutBytes (bytes : string)
| ReadBytes (blob_ref : BlobRef)
| RecordBlobEdges (edges : list BlobEdge)
| ReadWorkspace (workspace_id : VfsWorkspaceId)
| CompareAndSetHead (request : CompareAndSetVfsWorkspaceHead)
| Now
| RecordEffect (log : nat) (effect : ToolEffect)
| DrainEffects (log : nat).
End StoreOp.
Abbreviation StoreOp := StoreOp.StoreOp.
Definition Answer (op : StoreOp) : Type :=
  match op with
  | StoreOp.PutBytes _ => Result BlobStoreError BlobRef
  | StoreOp.ReadBytes _ => Result BlobStoreError string
  | StoreOp.RecordBlobEdges _ => Result BlobStoreError unit
  | StoreOp.ReadWorkspace _ => Result VfsCatalogError VfsWorkspaceRecord
  | StoreOp.CompareAndSetHead _ => Result VfsCatalogError VfsWorkspaceRecord
  | StoreOp.Now => Z
  | StoreOp.RecordEffect _ _ => unit
  | StoreOp.DrainEffects _ => list ToolEffect
  end.

Inductive Prog (A : Type) : Type :=
| Return (a : A)
| Call (op : StoreOp) (k : Answer op → Prog A).
Arguments Return {A} a.
Arguments Call {A} op k.
Fixpoint bind_prog {A B} (m : Prog A) (f : A → Prog B) : Prog B :=
  match m with
  | Return a => f a
  | Call op k => Call op (λ answer, bind_prog (k answer) f)
  end.
#[export] Instance Prog_ret : MRet Prog := @Return.
#[export] Instance Prog_bind : MBind Prog := λ A B f m, bind_prog m f.
Definition call (op : StoreOp) : Prog (Answer op) := Call op Return.

(** An [async fn] that returns [Result<A, E>]. *)
Definition Async (E A : Type) : Type := Prog (Result E A).
#[export] Instance Async_ret E : MRet (Async E) := λ A a, Return (Ok a).
#[export] Instance Async_bind E : MBind (Async E) := λ A B f m,
  bind_prog m (λ r, match r with Ok a => f a | Err e => Return (Err e) end).
#[export] Instance Async_throw E : MThrow E (Async E) := λ A e, Return (Err e).
Definition await {E A} (m : Prog (Result E A)) : Async E A := m.
Definition pure {E A} (r : Result E A) : Async E A := Return r.
Definition await_err {E F A} (f : E → F) (m : Async E A) : Async F A :=
  bind_prog m (λ r, Return (map_err f r)).
(** [match m.await { .. }]. *)
Definition settle {E F A B} (m : Async E A) (f : Result E A → Async F B) : Async F B :=
  bind_prog m f.
Definition infallible {E A} (m : Prog A) : Async E A := bind_prog m (λ a, Return (Ok a)).

(** ** The world the calls reach *)
Module World.
Record World : Type := {
  blobs : InMemoryBlobStoreInner;
  workspaces : Workspaces;
  effects : gmap nat (list ToolEffect);
  now : Z;
}.
End World.
Abbreviation World := World.World.
#[export] Instance set_World_blobs : Setter World.blobs := ltac:(solve_setter World.blobs).
#[export] Instance set_World_workspaces : Setter World.workspaces :=
  ltac:(solve_setter World.workspaces).
#[export] Instance set_World_effects : Setter World.effects := ltac:(solve_setter World.effects).
#[export] Instance set_World_now : Setter World.now := ltac:(solve_setter World.now).

Section answers.
Context `{!Externals}.
Definition on_blobs {A} (change : Reducer InMemoryBlobStoreInner BlobStoreError A) (world : World)
    : Result BlobStoreError A * World :=
  let '(result, blobs) := change world.(World.blobs) in
  (result, world <| World.blobs := blobs |>).
Definition on_workspaces {A} (change : CatalogReducer A) (world : World)
    : Result VfsCatalogError A * World :=
  let '(result, workspaces) := change world.(World.workspaces) in
  (result, world <| World.workspaces := workspaces |>).
(** What the stores answer when nothing fails, and the world after. *)
Definition answer (op : StoreOp) (world : World) : Answer op * World :=
  match op with
  | StoreOp.PutBytes bytes => on_blobs (put_bytes (Z.to_N world.(World.now)) bytes) world
  | StoreOp.ReadBytes blob_ref => (read_bytes blob_ref world.(World.blobs), world)
  | StoreOp.RecordBlobEdges edges => on_blobs (record_blob_edges edges) world
  | StoreOp.ReadWorkspace workspace_id =>
      (read_workspace workspace_id world.(World.workspaces), world)
  | StoreOp.CompareAndSetHead request => on_workspaces (compare_and_set_head request) world
  | StoreOp.Now => (world.(World.now), world)
  | StoreOp.RecordEffect log effect =>
      (tt, world <| World.effects ::= λ logs, <[log := default [] (logs !! log) ++ [effect]]> logs |>)
  | StoreOp.DrainEffects log =>
      (default [] (world.(World.effects) !! log), world <| World.effects ::= delete log |>)
  end.
(** A program run with nothing else running and nothing failing. *)
Fixpoint run {A} (program : Prog A) (world : World) : A * World :=
  match program with
  | Return a => (a, world)
  | Call op k => let '(reply, world) := answer op world in run (k reply) world
  end.

(** ** Snapshots in the stores *)
Definition put_blob (bytes : string) : Async VfsError BlobRef :=
  await_err VfsError.BlobStore (call (StoreOp.PutBytes bytes)).
Definition read_blob (blob_ref : BlobRef) : Async VfsError string :=
  await_err VfsError.BlobStore (call (StoreOp.ReadBytes blob_ref)).
(** [record_contains_edges]; without a graph store nothing is recorded. *)
Definition record_contains_edges (blob_graph : bool) (parent : BlobRef) (children : gset BlobRef)
    : Async BlobStoreError unit :=
  if negb blob_graph then mret tt
  else if bool_decide (children ∖ {[ parent ]} = ∅) then mret tt
  else call (StoreOp.RecordBlobEdges (contains_edges parent children)).
Definition record_manifest_edges (blob_graph : bool) (snapshot_ref : BlobRef)
    (manifest : VfsSnapshotManifest) : Async VfsError unit :=
  await_err VfsError.BlobStore
    (record_contains_edges blob_graph snapshot_ref (manifest_blob_refs manifest)).

Section manifests.
Context `{!ManifestJson}.
Definition read_snapshot_manifest (snapshot_ref : BlobRef) : Async VfsError VfsSnapshotManifest :=
  bytes ← read_blob snapshot_ref;
  pure (decode_snapshot_manifest bytes).
Definition commit_snapshot_manifest (blob_graph : bool) (manifest : VfsSnapshotManifest)
    : Async VfsError CreateVfsSnapshotResult :=
  manifest_bytes ← pure (encode_snapshot_manifest manifest);
  snapshot_ref ← put_blob manifest_bytes;
  _ ← record_manifest_edges blob_graph snapshot_ref manifest;
  mret {| CreateVfsSnapshotResult.snapshot_ref := snapshot_ref;
          CreateVfsSnapshotResult.manifest := manifest |}.
(** [put_many], by the trait's default. *)
Fixpoint put_many (blobs : list string) : Async VfsError (list BlobRef) :=
  match blobs with
  | [] => mret []
  | bytes :: blobs =>
      blob_ref ← put_blob bytes;
      blob_refs ← put_many blobs;
      mret (blob_ref :: blob_refs)
  end.
Definition create_inline_snapshot (blob_graph : bool) (request : CreateInlineSnapshotRequest)
    : Async VfsError CreateVfsSnapshotResult :=
  let files := request.(CreateInlineSnapshotRequest.files) in
  _ ← pure (validate_inline_files files request.(CreateInlineSnapshotRequest.limits));
  blob_refs ← put_many (map InlineFile.bytes files);
  manifest ← pure (inline_manifest files blob_refs);
  commit_snapshot_manifest blob_graph manifest.
(** With what is left of the manifest, which is written to after the blob is. *)
Definition write_manifest_file (path : VfsPath) (contents : string) (media_type : option string)
    (executable : bool) (manifest : VfsSnapshotManifest)
    : Prog (Result VfsError unit * VfsSnapshotManifest) :=
  match ensure_file_write_target path manifest with
  | Err error => Return (Err error, manifest)
  | Ok _ =>
      stored ← put_blob contents;
      match stored with
      | Err error => Return (Err error, manifest)
      | Ok blob_ref =>
          Return (replace_file_entry path
            {| VfsFile.blob_ref := blob_ref;
               VfsFile.size_bytes := byte_len contents;
               VfsFile.media_type := media_type;
               VfsFile.executable := executable |} manifest)
      end
  end.
Definition read_snapshot_file (manifest : VfsSnapshotManifest) (path : VfsPath)
    : Async VfsError string :=
  node ← pure (lookup_snapshot_path manifest path);
  match node with
  | VfsNode.Directory _ => mthrow (VfsError.NotAFile path)
  | VfsNode.File file =>
      bytes ← read_blob file.(VfsFile.blob_ref);
      _ ← reject_if (bool_decide (byte_len bytes ≠ file.(VfsFile.size_bytes)))
            (VfsError.InvalidManifest
               "file size mismatch for {path}: manifest has {}, blob has {}");
      mret bytes
  end.
End manifests.
End answers.
