(* ===== verification/VfsFiles.v ===== *)
(** * File systems over the virtual file system

    The file systems the standard tools work on: a snapshot, which is read-only, a workspace,
    whose every change is a compare-and-set of its head, and the workspaces and snapshots
    attached to a session, by path ([crates/tools/src/fs/{mod,path,access,vfs}.rs],
    [crates/vfs/src/attachment.rs]). Paths are the logical ones; a path of a remote environment
    never reaches these file systems. The values in messages are left as their placeholders. *)
From Stdlib Require Import Ascii ZArith.
From S2P Require Import Prelude Ids Text Types Externals VfsTree VfsStore.
Set Primitive Projections.

(** ** Paths of file systems *)
Abbreviation FsPath := string (only parsing).
Module FsPathError.
Inductive FsPathError : Type :=
| Remote (message : string)
| Empty
| NulByte
| NonUnixSeparator (path : string).
End FsPathError.
Abbreviation FsPathError := FsPathError.FsPathError.

(** One segment of [normalize_path]'s loop, over the segments kept so far. *)
Definition normalize_segment (absolute : bool) (segments : list string) (segment : string)
    : list string :=
  if bool_decide (segment = "") || bool_decide (segment = ".") then segments
  else if bool_decide (segment = "..") then
    match last segments with
    | Some kept =>
        if bool_decide (kept ≠ "..") then removelast segments
        else if absolute then segments else segments ++ [".."]
    | None => if absolute then segments else segments ++ [".."]
    end
  else segments ++ [segment].
Definition normalize_path (path : string) : Result FsPathError string :=
  _ ← reject_if (bool_decide (path = "")) FsPathError.Empty;
  _ ← reject_if (existsb (Ascii.eqb "000") (chars path)) FsPathError.NulByte;
  _ ← reject_if (existsb (Ascii.eqb "\") (chars path)) (FsPathError.NonUnixSeparator path);
  let absolute := starts_with "/" path in
  let segments := foldl (normalize_segment absolute) [] (split "/" path) in
  mret (if absolute then
          if bool_decide (segments = []) then "/" else "/" +:+ VfsPath.join segments
        else if bool_decide (segments = []) then "." else VfsPath.join segments).

Module FsPath.
Definition new (path : string) : Result FsPathError FsPath := normalize_path path.
Definition root : FsPath := "/".
Definition is_absolute (self : FsPath) : bool := starts_with "/" self.
Definition is_root (self : FsPath) : bool := bool_decide (self = "/") || bool_decide (self = ".").
Definition segments (self : FsPath) : list string :=
  filter (λ segment, segment ≠ "" ∧ segment ≠ ".") (split "/" self).
Definition has_unresolved_parent (self : FsPath) : bool :=
  existsb (λ segment, bool_decide (segment = "..")) (segments self).
Definition starts_with (self base : FsPath) : bool :=
  if bool_decide (base = "/") then is_absolute self
  else if bool_decide (base = ".") then negb (is_absolute self)
  else eqb (is_absolute self) (is_absolute base)
       && (bool_decide (self = base)
           || match strip_prefix base self with
              | Some suffix => Ids.starts_with "/" suffix
              | None => false
              end).
Definition join_segments (self : FsPath) (segments : list string) : Result FsPathError FsPath :=
  let suffix := filter (λ segment, segment ≠ ".") segments in
  if bool_decide (suffix = []) then Ok self
  else new (if bool_decide (self = ".") then VfsPath.join suffix
            else if bool_decide (self = "/") then self +:+ VfsPath.join suffix
            else self +:+ "/" +:+ VfsPath.join suffix).
Definition join_path (self path : FsPath) : Result FsPathError FsPath :=
  if is_absolute path then Ok path else join_segments self (segments path).
Definition join (self : FsPath) (path : string) : Result FsPathError FsPath :=
  path ← new path;
  join_path self path.
Definition parent (self : FsPath) : option FsPath :=
  if is_root self then None
  else match segments self with
       | [] => None
       | segments =>
           match removelast segments with
           | [] => Some (if is_absolute self then root else ".")
           | segments =>
               match new ((if is_absolute self then "/" else "") +:+ VfsPath.join segments) with
               | Ok path => Some path
               | Err _ => None
               end
           end
       end.
Definition file_name (self : FsPath) : option string :=
  if is_root self then None else last (split "/" self).
End FsPath.

(** ** Errors and options *)
Module FsError.
Inductive FsError : Type :=
| InvalidPath (error : FsPathError)
| NotFound (path : FsPath)
| AlreadyExists (path : FsPath)
| Conflict (path : FsPath)
| PermissionDenied (path : FsPath)
| Unavailable (path : FsPath) (message : string)
| Unsupported (message : string)
| InvalidInput (message : string)
| InvalidData (message : string)
| Failed (message : string).
End FsError.
Abbreviation FsError := FsError.FsError.

Module CreateDirectoryOptions.
Record CreateDirectoryOptions : Type := { recursive : bool; }.
End CreateDirectoryOptions.
Abbreviation CreateDirectoryOptions := CreateDirectoryOptions.CreateDirectoryOptions.
Module RemoveOptions.
Record RemoveOptions : Type := { recursive : bool; force : bool; }.
End RemoveOptions.
Abbreviation RemoveOptions := RemoveOptions.RemoveOptions.
Definition RemoveOptions_file : RemoveOptions :=
  {| RemoveOptions.recursive := false; RemoveOptions.force := false |}.
Module RenameOptions.
Record RenameOptions : Type := { overwrite : bool; }.
End RenameOptions.
Abbreviation RenameOptions := RenameOptions.RenameOptions.
Abbreviation FsVersion := string (only parsing).
Module VersionedRead.
Record VersionedRead : Type := { bytes : string; version : option FsVersion; }.
End VersionedRead.
Abbreviation VersionedRead := VersionedRead.VersionedRead.
Module WriteOptions.
Record WriteOptions : Type := { if_match : option FsVersion; }.
End WriteOptions.
Abbreviation WriteOptions := WriteOptions.WriteOptions.
Definition WriteOptions_default : WriteOptions := {| WriteOptions.if_match := None |}.
Module FileMetadata.
Record FileMetadata : Type := {
  is_directory : bool;
  is_file : bool;
  is_symlink : bool;
  created_at_ms : Z;
  modified_at_ms : Z;
}.
End FileMetadata.
Abbreviation FileMetadata := FileMetadata.FileMetadata.
Module ReadDirectoryEntry.
Record ReadDirectoryEntry : Type := {
  file_name : string;
  is_directory : bool;
  is_file : bool;
}.
End ReadDirectoryEntry.
Abbreviation ReadDirectoryEntry := ReadDirectoryEntry.ReadDirectoryEntry.
Module FsRangedRead.
Record FsRangedRead : Type := { bytes : string; file_size : N; truncated : bool; }.
End FsRangedRead.
Abbreviation FsRangedRead := FsRangedRead.FsRangedRead.
(** The part of [ContentDescriptor] a write reads. *)
Module ContentDescriptor.
Record ContentDescriptor : Type := {
  content_ref : BlobRef;
  byte_len : N;
  media_type : option string;
}.
End ContentDescriptor.
Abbreviation ContentDescriptor := ContentDescriptor.ContentDescriptor.
Module FileAccessPolicy.
Inductive FileAccessPolicy : Type :=
| FullReadWrite
| FullReadOnly
| ScopedReadWrite (root : FsPath)
| ScopedReadOnly (root : FsPath).
Definition is_read_only (self : FileAccessPolicy) : bool :=
  match self with FullReadOnly | ScopedReadOnly _ => true | _ => false end.
Definition can_write_path (self : FileAccessPolicy) (path : FsPath) : bool :=
  match self with
  | FullReadWrite => true
  | FullReadOnly => false
  | ScopedReadWrite root => FsPath.starts_with path root
  | ScopedReadOnly _ => false
  end.
Definition can_read_path (self : FileAccessPolicy) (path : FsPath) : bool :=
  match self with
  | FullReadWrite | FullReadOnly => true
  | ScopedReadWrite root | ScopedReadOnly root => FsPath.starts_with path root
  end.
End FileAccessPolicy.
Abbreviation FileAccessPolicy := FileAccessPolicy.FileAccessPolicy.

(** [ranged_read_from_full]. *)
Definition ranged_read_from_full (bytes : string) (offset : N) (max_bytes : option N)
    : FsRangedRead :=
  let file_size := byte_len bytes in
  let start := N.min offset file_size in
  let stop := match max_bytes with
              | Some max => N.min (saturating_add_u64 start max) file_size
              | None => file_size
              end in
  let slice := String.substring (N.to_nat start) (N.to_nat (stop - start)) bytes in
  {| FsRangedRead.bytes := slice;
     FsRangedRead.file_size := file_size;
     FsRangedRead.truncated := (saturating_add_u64 start (byte_len slice) <? file_size)%N |}.

(** ** Errors of the lower layers *)
Definition VfsPathError_to_string (error : VfsPathError) : string :=
  match error with
  | VfsPathError.Empty => "vfs path must not be empty"
  | VfsPathError.ContainsNul _ => "vfs path contains a NUL byte: {path}"
  | VfsPathError.InvalidComponent _ _ => "vfs path has an invalid component '{component}': {path}"
  end.
Definition map_vfs_error (request_path : FsPath) (error : VfsError) : FsError :=
  match error with
  | VfsError.NotFound _ => FsError.NotFound request_path
  | VfsError.AlreadyExists _ => FsError.AlreadyExists request_path
  | VfsError.NotAFile _ => FsError.InvalidInput "path is not a file: {path}"
  | VfsError.NotADirectory _ => FsError.InvalidInput "path is not a directory: {path}"
  | VfsError.DirectoryNotEmpty _ => FsError.InvalidInput "directory is not empty: {path}"
  | VfsError.InvalidOperation message => FsError.InvalidInput message
  | VfsError.PathConflict _ _ =>
      FsError.InvalidInput "path conflicts with an existing {existing}: {path}"
  | VfsError.BlobStore (BlobStoreError.NotFound _) =>
      FsError.InvalidData "vfs snapshot references missing blob: {blob_ref}"
  | VfsError.BlobStore (BlobStoreError.Store _) =>
      FsError.Failed "blob store failure: {message}"
  | VfsError.InvalidPath error => FsError.InvalidInput (VfsPathError_to_string error)
  | VfsError.InvalidManifest message => FsError.InvalidData message
  | VfsError.RootFile => FsError.Failed "vfs file path cannot be the root path"
  | VfsError.DuplicatePath _ => FsError.Failed "duplicate vfs path: {path}"
  | VfsError.LimitExceeded _ _ _ => FsError.Failed
      "vfs snapshot limit exceeded for {limit}: value {value} is greater than max {max}"
  | VfsError.EncodeManifest _ =>
      FsError.Failed "failed to encode vfs snapshot manifest: {source}"
  | VfsError.DecodeManifest _ =>
      FsError.Failed "failed to decode vfs snapshot manifest: {source}"
  end.
Definition id_path (id : string) : FsPath :=
  match FsPath.new ("/" +:+ id) with Ok path => path | Err _ => FsPath.root end.
Definition map_vfs_catalog_error (error : VfsCatalogError) : FsError :=
  match error with
  | VfsCatalogError.AlreadyExists _ id => FsError.AlreadyExists (id_path id)
  | VfsCatalogError.NotFound _ id => FsError.NotFound (id_path id)
  | VfsCatalogError.RevisionConflict _ _ _ => FsError.Failed
      "vfs_workspace_revision_conflict: workspace {workspace_id}, expected revision {expected_revision}, actual revision {actual_revision}"
  | VfsCatalogError.InvalidInput message => FsError.InvalidInput message
  | VfsCatalogError.Store message => FsError.Failed message
  end.

(** ** From one kind of path to the other *)
Definition fs_path_key (path : FsPath) : Result FsError FsPath :=
  if FsPath.has_unresolved_parent path then
    Err (FsError.InvalidInput "vfs path cannot contain unresolved parent components: {path}")
  else if FsPath.is_absolute path then Ok path
  else if FsPath.is_root path then Ok FsPath.root
  else map_err FsError.InvalidPath (FsPath.new ("/" +:+ path)).
Definition fs_path_to_vfs_path (path : FsPath) : Result FsError VfsPath :=
  path ← fs_path_key path;
  if FsPath.is_root path then mret VfsPath.root
  else map_err (λ error, FsError.InvalidInput (VfsPathError_to_string error)) (VfsPath.parse path).
Definition vfs_path_to_fs_path (path : VfsPath) : Result FsError FsPath :=
  map_err FsError.InvalidPath (FsPath.new path).

(** ** Reading and changing a manifest *)
Abbreviation FsAsync := (Async FsError) (only parsing).
Abbreviation HeadUpdate := (Reducer VfsSnapshotManifest FsError unit) (only parsing).
(** A change of the manifest with its errors mapped. *)
Definition mapped (request_path : FsPath) (change : Reducer VfsSnapshotManifest VfsError unit)
    : HeadUpdate :=
  λ manifest,
    let '(result, manifest) := change manifest in
    (map_err (map_vfs_error request_path) result, manifest).

(** The manifest a change leaves, when it succeeds. *)
Definition changed (change : HeadUpdate) (manifest : VfsSnapshotManifest)
    : Result FsError VfsSnapshotManifest :=
  match change manifest with
  | (Ok _, manifest) => Ok manifest
  | (Err error, _) => Err error
  end.

Definition manifest_file (manifest : VfsSnapshotManifest) (path : VfsPath) : option VfsFile :=
  match lookup_snapshot_path manifest path with
  | Ok (VfsNode.File file) => Some file
  | _ => None
  end.
Definition write_keeping_mode (path : VfsPath) (blob_ref : BlobRef) (size_bytes : N)
    (media_type : option string) : Reducer VfsSnapshotManifest VfsError unit :=
  manifest ← get_state;
  let executable := match manifest_file manifest path with
                    | Some file => file.(VfsFile.executable)
                    | None => false
                    end in
  write_manifest_file_ref path blob_ref size_bytes media_type executable.
Definition place_manifest_file (path : VfsPath) (request_path : FsPath) (file : VfsFile)
    (options : RenameOptions) : HeadUpdate :=
  manifest ← get_state;
  _ ← reject_if (negb options.(RenameOptions.overwrite)
                 && is_ok (lookup_snapshot_path manifest path))
        (FsError.AlreadyExists request_path);
  mapped request_path
    (write_manifest_file_ref path file.(VfsFile.blob_ref) file.(VfsFile.size_bytes)
       file.(VfsFile.media_type) file.(VfsFile.executable)).
Definition only_files_move : FsError :=
  FsError.Unsupported "{path} is not a file; only files can be moved".
Definition selected_entry (manifest : VfsSnapshotManifest) (path : FsPath)
    : Result FsError VfsEntry :=
  vfs_path ← fs_path_to_vfs_path path;
  node ← map_err (map_vfs_error path) (lookup_snapshot_path manifest vfs_path);
  mret match node with
       | VfsNode.File file => VfsEntry.File file
       | VfsNode.Directory directory => VfsEntry.Directory directory
       end.
Definition node_metadata (metadata : VfsPathMetadata) : FileMetadata :=
  {| FileMetadata.is_directory := metadata.(VfsPathMetadata.is_directory);
     FileMetadata.is_file := metadata.(VfsPathMetadata.is_file);
     FileMetadata.is_symlink := false;
     FileMetadata.created_at_ms := 0;
     FileMetadata.modified_at_ms := 0 |}.
Definition directory_metadata : FileMetadata :=
  {| FileMetadata.is_directory := true;
     FileMetadata.is_file := false;
     FileMetadata.is_symlink := false;
     FileMetadata.created_at_ms := 0;
     FileMetadata.modified_at_ms := 0 |}.
Definition directory_entries (entries : list VfsDirectoryListingEntry) : list ReadDirectoryEntry :=
  map (λ entry,
    {| ReadDirectoryEntry.file_name := entry.(VfsDirectoryListingEntry.file_name);
       ReadDirectoryEntry.is_directory := entry.(VfsDirectoryListingEntry.is_directory);
       ReadDirectoryEntry.is_file := entry.(VfsDirectoryListingEntry.is_file) |}) entries.
Definition now_ms : FsAsync Z :=
  ms ← infallible (call StoreOp.Now);
  _ ← reject_if (ms <? 0)%Z (FsError.Failed "system clock is before unix epoch: {error}");
  _ ← reject_if (9223372036854775807 <? ms)%Z
        (FsError.Failed "current timestamp does not fit in i64 milliseconds");
  mret ms.
Definition VFS_WORKSPACE_COMMIT_EFFECT_KIND : string := "lightspeed.vfs.workspace_commit.v1".
Definition vfs_workspace_commit_effect (record : VfsWorkspaceRecord) : ToolEffect :=
  {| ToolEffect.kind := VFS_WORKSPACE_COMMIT_EFFECT_KIND;
     ToolEffect.data :=
       <["workspace_id" := record.(VfsWorkspaceRecord.workspace_id)]>
       {[ "revision" := u64_to_string record.(VfsWorkspaceRecord.revision) ]};
     ToolEffect.refs := {[ "snapshot_ref" := record.(VfsWorkspaceRecord.head_snapshot_ref) ]} |}.

(** A value behind [dyn FileSystem]. *)
Module FileSystem.
Record FileSystem : Type := {
  resolve_input_path : option FsPath → string → Result FsError FsPath;
  export_vfs : FsPath → FsAsync VfsEntry;
  read_file : FsPath → FsAsync string;
  read_file_versioned : FsPath → FsAsync VersionedRead;
  write_file_with : FsPath → string → WriteOptions → FsAsync unit;
  create_directory : FsPath → CreateDirectoryOptions → FsAsync unit;
  get_metadata : FsPath → FsAsync FileMetadata;
  read_directory : FsPath → FsAsync (list ReadDirectoryEntry);
  remove : FsPath → RemoveOptions → FsAsync unit;
  rename : FsPath → FsPath → RenameOptions → FsAsync unit;
}.
End FileSystem.
Abbreviation FileSystem := FileSystem.FileSystem.

(** The trait's default methods, over the methods they call. *)
Definition default_resolve_input_path (cwd : option FsPath) (value : string)
    : Result FsError FsPath :=
  path ← map_err FsError.InvalidPath (FsPath.new value);
  if FsPath.is_absolute path then mret path
  else match cwd with
       | Some cwd => map_err FsError.InvalidPath (FsPath.join_path cwd path)
       | None => mret path
       end.
Definition default_read_file_range (read_file : FsPath → FsAsync string) (path : FsPath)
    (offset : N) (max_bytes : option N) : FsAsync FsRangedRead :=
  bytes ← read_file path;
  mret (ranged_read_from_full bytes offset max_bytes).
Definition default_read_file_versioned (read_file : FsPath → FsAsync string) (path : FsPath)
    : FsAsync VersionedRead :=
  bytes ← read_file path;
  mret {| VersionedRead.bytes := bytes; VersionedRead.version := None |}.
Definition default_write_file_with (write_file : FsPath → string → FsAsync unit) (path : FsPath)
    (contents : string) (options : WriteOptions) : FsAsync unit :=
  _ ← reject_if (is_some options.(WriteOptions.if_match))
        (FsError.Unsupported "filesystem does not track file versions");
  write_file path contents.
Definition destination_exists (destination : FsPath) (metadata : FsAsync FileMetadata)
    : FsAsync unit :=
  settle metadata (λ found,
    match found with
    | Ok _ => mthrow (FsError.AlreadyExists destination)
    | Err (FsError.NotFound _) => mret tt
    | Err error => mthrow error
    end).
Definition default_rename (get_metadata : FsPath → FsAsync FileMetadata)
    (read_file : FsPath → FsAsync string) (write_file : FsPath → string → FsAsync unit)
    (remove : FsPath → RemoveOptions → FsAsync unit)
    (source destination : FsPath) (options : RenameOptions) : FsAsync unit :=
  metadata ← get_metadata source;
  _ ← reject_if (negb metadata.(FileMetadata.is_file)) only_files_move;
  _ ← if options.(RenameOptions.overwrite) then mret tt
      else destination_exists destination (get_metadata destination);
  contents ← read_file source;
  _ ← write_file destination contents;
  remove source RemoveOptions_file.

(** ** A snapshot *)
Module VfsSnapshotFileSystem.
Record VfsSnapshotFileSystem : Type := {
  snapshot_ref : BlobRef;
  manifest : VfsSnapshotManifest;
}.
Section operations.
Context `{!Externals, !ManifestJson}.
Definition new (snapshot_ref : BlobRef) : Async VfsError VfsSnapshotFileSystem :=
  manifest ← read_snapshot_manifest snapshot_ref;
  mret {| snapshot_ref := snapshot_ref; manifest := manifest |}.
Implicit Types self : VfsSnapshotFileSystem.

Definition deny_write (path : FsPath) : FsAsync unit := mthrow (FsError.PermissionDenied path).
Definition access_policy self : FileAccessPolicy := FileAccessPolicy.FullReadOnly.
Definition export_vfs self (path : FsPath) : FsAsync VfsEntry :=
  pure (selected_entry self.(manifest) path).
Definition read_file self (path : FsPath) : FsAsync string :=
  vfs_path ← pure (fs_path_to_vfs_path path);
  await_err (map_vfs_error path) (read_snapshot_file self.(manifest) vfs_path).
Definition write_file self (path : FsPath) (contents : string) : FsAsync unit := deny_write path.
Definition write_file_ref self (path : FsPath) (content : ContentDescriptor) : FsAsync unit :=
  deny_write path.
Definition create_directory self (path : FsPath) (options : CreateDirectoryOptions)
    : FsAsync unit := deny_write path.
Definition get_metadata self (path : FsPath) : FsAsync FileMetadata :=
  vfs_path ← pure (fs_path_to_vfs_path path);
  metadata ← pure (map_err (map_vfs_error path) (stat_snapshot_path self.(manifest) vfs_path));
  mret (node_metadata metadata).
Definition read_directory self (path : FsPath) : FsAsync (list ReadDirectoryEntry) :=
  vfs_path ← pure (fs_path_to_vfs_path path);
  entries ← pure (map_err (map_vfs_error path)
    (list_snapshot_directory self.(manifest) vfs_path));
  mret (directory_entries entries).
Definition remove self (path : FsPath) (options : RemoveOptions) : FsAsync unit :=
  deny_write path.
Definition as_file_system self : FileSystem :=
  {| FileSystem.resolve_input_path := default_resolve_input_path;
     FileSystem.export_vfs := export_vfs self;
     FileSystem.read_file := read_file self;
     FileSystem.read_file_versioned := default_read_file_versioned (read_file self);
     FileSystem.write_file_with := default_write_file_with (write_file self);
     FileSystem.create_directory := create_directory self;
     FileSystem.get_metadata := get_metadata self;
     FileSystem.read_directory := read_directory self;
     FileSystem.remove := remove self;
     FileSystem.rename :=
       default_rename (get_metadata self) (read_file self) (write_file self) (remove self) |}.
End operations.
End VfsSnapshotFileSystem.
Abbreviation VfsSnapshotFileSystem := VfsSnapshotFileSystem.VfsSnapshotFileSystem.

(** ** A workspace *)
Definition HEAD_UPDATE_ATTEMPTS : nat := 8.
Module VfsWorkspaceFileSystem.
(** [blob_graph] says whether a graph store is there; [effects] is the log's handle. *)
Record VfsWorkspaceFileSystem : Type := {
  blob_graph : bool;
  workspace_id : VfsWorkspaceId;
  effects : nat;
}.
Section operations.
Context `{!Externals, !ManifestJson}.
Implicit Types self : VfsWorkspaceFileSystem.

Definition read_head self : FsAsync (VfsWorkspaceRecord * VfsSnapshotManifest) :=
  record ← await_err map_vfs_catalog_error (call (StoreOp.ReadWorkspace self.(workspace_id)));
  manifest ← await_err (map_vfs_error FsPath.root)
    (read_snapshot_manifest record.(VfsWorkspaceRecord.head_snapshot_ref));
  mret (record, manifest).

Definition commit_head self (current : VfsWorkspaceRecord) (manifest : VfsSnapshotManifest)
    : FsAsync bool :=
  result ← await_err (map_vfs_error FsPath.root)
    (commit_snapshot_manifest self.(blob_graph) manifest);
  updated_at_ms ← now_ms;
  settle (call (StoreOp.CompareAndSetHead
    {| CompareAndSetVfsWorkspaceHead.workspace_id :=
         current.(VfsWorkspaceRecord.workspace_id);
       CompareAndSetVfsWorkspaceHead.expected_revision :=
         Some current.(VfsWorkspaceRecord.revision);
       CompareAndSetVfsWorkspaceHead.display_name := None;
       CompareAndSetVfsWorkspaceHead.new_head_snapshot_ref :=
         result.(CreateVfsSnapshotResult.snapshot_ref);
       CompareAndSetVfsWorkspaceHead.new_head_totals :=
         result.(CreateVfsSnapshotResult.manifest).(VfsSnapshotManifest.totals);
       CompareAndSetVfsWorkspaceHead.updated_at_ms := updated_at_ms |}))
    (λ outcome : Result VfsCatalogError VfsWorkspaceRecord,
      match outcome with
      | Ok updated =>
          _ ← infallible (call (StoreOp.RecordEffect self.(effects)
                (vfs_workspace_commit_effect updated)));
          mret true
      | Err (VfsCatalogError.RevisionConflict _ _ _) => mret false
      | Err error => mthrow (map_vfs_catalog_error error)
      end).

(** The attempts that are left. *)
Fixpoint update_head_attempts self (request_path : FsPath) (update : HeadUpdate)
    (attempts : nat) : FsAsync unit :=
  match attempts with
  | O => mthrow (FsError.Conflict request_path)
  | S attempts =>
      head ← read_head self;
      manifest ← pure (changed update head.2);
      published ← commit_head self head.1 manifest;
      if (published : bool) then mret tt
      else update_head_attempts self request_path update attempts
  end.
Definition update_head self (request_path : FsPath) (update : HeadUpdate) : FsAsync unit :=
  update_head_attempts self request_path update HEAD_UPDATE_ATTEMPTS.

Definition place_file self (path : FsPath) (file : VfsFile) (options : RenameOptions)
    : FsAsync unit :=
  vfs_path ← pure (fs_path_to_vfs_path path);
  update_head self path (place_manifest_file vfs_path path file options).

Definition access_policy self : FileAccessPolicy := FileAccessPolicy.FullReadWrite.
Definition write_file_ref self (path : FsPath) (content : ContentDescriptor) : FsAsync unit :=
  vfs_path ← pure (fs_path_to_vfs_path path);
  update_head self path (mapped path
    (write_keeping_mode vfs_path content.(ContentDescriptor.content_ref)
       content.(ContentDescriptor.byte_len) content.(ContentDescriptor.media_type))).
Definition export_vfs self (path : FsPath) : FsAsync VfsEntry :=
  head ← read_head self;
  pure (selected_entry head.2 path).
Definition read_file self (path : FsPath) : FsAsync string :=
  vfs_path ← pure (fs_path_to_vfs_path path);
  head ← read_head self;
  await_err (map_vfs_error path) (read_snapshot_file head.2 vfs_path).
Definition read_file_versioned self (path : FsPath) : FsAsync VersionedRead :=
  vfs_path ← pure (fs_path_to_vfs_path path);
  head ← read_head self;
  bytes ← await_err (map_vfs_error path) (read_snapshot_file head.2 vfs_path);
  mret {| VersionedRead.bytes := bytes;
          VersionedRead.version := VfsFile.blob_ref <$> manifest_file head.2 vfs_path |}.

(** The closure of [write_file_with]: the precondition, then the write. *)
Definition write_update (path : FsPath) (vfs_path : VfsPath) (blob_ref : BlobRef)
    (size_bytes : N) (options : WriteOptions) : HeadUpdate :=
  manifest ← get_state;
  _ ← match options.(WriteOptions.if_match) with
      | Some if_match =>
          reject_if (bool_decide
              (VfsFile.blob_ref <$> manifest_file manifest vfs_path ≠ Some if_match))
            (FsError.Conflict path)
      | None => mret tt
      end;
  mapped path (write_keeping_mode vfs_path blob_ref size_bytes None).
Definition write_file_with self (path : FsPath) (contents : string) (options : WriteOptions)
    : FsAsync unit :=
  vfs_path ← pure (fs_path_to_vfs_path path);
  blob_ref ← await_err (λ error, map_vfs_error path (VfsError.BlobStore error))
    (call (StoreOp.PutBytes contents));
  update_head self path (write_update path vfs_path blob_ref (VfsTree.byte_len contents) options).
Definition write_file self (path : FsPath) (contents : string) : FsAsync unit :=
  write_file_with self path contents WriteOptions_default.
Definition create_directory self (path : FsPath) (options : CreateDirectoryOptions)
    : FsAsync unit :=
  vfs_path ← pure (fs_path_to_vfs_path path);
  update_head self path (mapped path
    (create_manifest_directory vfs_path options.(CreateDirectoryOptions.recursive))).
Definition get_metadata self (path : FsPath) : FsAsync FileMetadata :=
  vfs_path ← pure (fs_path_to_vfs_path path);
  head ← read_head self;
  metadata ← pure (map_err (map_vfs_error path) (stat_snapshot_path head.2 vfs_path));
  mret (node_metadata metadata).
Definition read_directory self (path : FsPath) : FsAsync (list ReadDirectoryEntry) :=
  vfs_path ← pure (fs_path_to_vfs_path path);
  head ← read_head self;
  entries ← pure (map_err (map_vfs_error path) (list_snapshot_directory head.2 vfs_path));
  mret (directory_entries entries).
Definition remove self (path : FsPath) (options : RemoveOptions) : FsAsync unit :=
  vfs_path ← pure (fs_path_to_vfs_path path);
  update_head self path (mapped path
    (remove_manifest_path vfs_path options.(RemoveOptions.recursive)
       options.(RemoveOptions.force))).
(** The closure of [rename]. *)
Definition rename_update (source_path destination_path : FsPath) (source destination : VfsPath)
    (options : RenameOptions) : HeadUpdate :=
  manifest ← get_state;
  file ← lift_result match lookup_snapshot_path manifest source with
                     | Ok (VfsNode.File file) => Ok file
                     | Ok (VfsNode.Directory _) => Err only_files_move
                     | Err error => Err (map_vfs_error source_path error)
                     end;
  _ ← place_manifest_file destination destination_path file options;
  if bool_decide (source ≠ destination) then
    mapped source_path (remove_manifest_path source false false)
  else mret tt.
Definition rename self (source_path destination_path : FsPath) (options : RenameOptions)
    : FsAsync unit :=
  source ← pure (fs_path_to_vfs_path source_path);
  destination ← pure (fs_path_to_vfs_path destination_path);
  update_head self destination_path
    (rename_update source_path destination_path source destination options).
Definition drain_tool_effects self : Prog (list ToolEffect) :=
  call (StoreOp.DrainEffects self.(effects)).
Definition as_file_system self : FileSystem :=
  {| FileSystem.resolve_input_path := default_resolve_input_path;
     FileSystem.export_vfs := export_vfs self;
     FileSystem.read_file := read_file self;
     FileSystem.read_file_versioned := read_file_versioned self;
     FileSystem.write_file_with := write_file_with self;
     FileSystem.create_directory := create_directory self;
     FileSystem.get_metadata := get_metadata self;
     FileSystem.read_directory := read_directory self;
     FileSystem.remove := remove self;
     FileSystem.rename := rename self |}.
End operations.
End VfsWorkspaceFileSystem.
Abbreviation VfsWorkspaceFileSystem := VfsWorkspaceFileSystem.VfsWorkspaceFileSystem.

(** *** Captures, which publish under the revision they were prepared at *)
Module WorkspaceCaptureTarget.
Record WorkspaceCaptureTarget : Type := {
  filesystem : VfsWorkspaceFileSystem;
  current : VfsWorkspaceRecord;
  manifest : VfsSnapshotManifest;
  path : FsPath;
}.
Section operations.
Context `{!Externals, !ManifestJson}.
(** [prepare_vfs_capture] of the workspace. *)
Definition prepare (self : VfsWorkspaceFileSystem) (path : FsPath) (replace : bool)
    : FsAsync WorkspaceCaptureTarget :=
  head ← VfsWorkspaceFileSystem.read_head self;
  vfs_path ← pure (fs_path_to_vfs_path path);
  _ ← match lookup_snapshot_path head.2 vfs_path with
      | Ok _ => reject_if (negb replace) (FsError.AlreadyExists path)
      | Err (VfsError.NotFound _) => mret tt
      | Err error => mthrow (map_vfs_error path error)
      end;
  let components := VfsPath.components vfs_path in
  manifest ←
    (if bool_decide (components = []) then mret head.2
     else
       parent ← pure (map_err (λ error, map_vfs_error path (VfsError.InvalidPath error))
         (VfsPath.parse ("/" +:+ VfsPath.join (parent_components components))));
       pure (changed (mapped path (create_manifest_directory parent true)) head.2));
  mret {| filesystem := self; current := head.1; manifest := manifest; path := path |}.
Definition commit (self : WorkspaceCaptureTarget) (entry : VfsEntry) : FsAsync unit :=
  vfs_path ← pure (fs_path_to_vfs_path self.(path));
  manifest ← pure
    (changed (mapped self.(path) (replace_manifest_entry vfs_path entry)) self.(manifest));
  published ← VfsWorkspaceFileSystem.commit_head self.(filesystem) self.(current) manifest;
  if (published : bool) then mret tt else mthrow (FsError.Conflict self.(path)).
End operations.
End WorkspaceCaptureTarget.
Abbreviation WorkspaceCaptureTarget := WorkspaceCaptureTarget.WorkspaceCaptureTarget.

(** ** Attachments *)
Module ResolvedWorkspaceAttachmentTarget.
Inductive ResolvedWorkspaceAttachmentTarget : Type :=
| AvailableSnapshot (snapshot_ref : BlobRef)
| AvailableWorkspace (workspace : VfsWorkspaceRecord)
| Unavailable (declared_target : WorkspaceAttachmentTarget) (reason : string).
End ResolvedWorkspaceAttachmentTarget.
Abbreviation ResolvedWorkspaceAttachmentTarget :=
  ResolvedWorkspaceAttachmentTarget.ResolvedWorkspaceAttachmentTarget.
Module ResolvedWorkspaceAttachment.
Record ResolvedWorkspaceAttachment : Type := {
  path : VfsPath;
  target : ResolvedWorkspaceAttachmentTarget;
  access : WorkspaceAccess;
}.
Definition is_writable (self : ResolvedWorkspaceAttachment) : bool :=
  bool_decide (self.(access) = WorkspaceAccess.Edit).
Definition is_available (self : ResolvedWorkspaceAttachment) : bool :=
  match self.(target) with
  | ResolvedWorkspaceAttachmentTarget.Unavailable _ _ => false
  | _ => true
  end.
Definition unavailable_reason (self : ResolvedWorkspaceAttachment) : option string :=
  match self.(target) with
  | ResolvedWorkspaceAttachmentTarget.Unavailable _ reason => Some reason
  | _ => None
  end.
End ResolvedWorkspaceAttachment.
Abbreviation ResolvedWorkspaceAttachment :=
  ResolvedWorkspaceAttachment.ResolvedWorkspaceAttachment.

(** What went wrong with one target; the text of the error is left open. *)
Definition VfsError_reason : string := "{vfs error}".
Definition VfsCatalogError_reason : string := "{vfs catalog error}".
Section resolution.
Context `{!Externals, !ManifestJson}.
(** A target whose manifest is read before it counts as available. *)
Definition resolve_manifest (declared : WorkspaceAttachmentTarget) (manifest_ref : BlobRef)
    (available : ResolvedWorkspaceAttachmentTarget)
    : Async VfsCatalogError ResolvedWorkspaceAttachmentTarget :=
  settle (read_snapshot_manifest manifest_ref) (λ read,
    match read with
    | Ok _ => Return (Ok available)
    | Err _ =>
        Return (Ok (ResolvedWorkspaceAttachmentTarget.Unavailable declared VfsError_reason))
    end).
Definition resolve_target (declared : WorkspaceAttachmentTarget)
    : Async VfsCatalogError ResolvedWorkspaceAttachmentTarget :=
  match declared with
  | WorkspaceAttachmentTarget.Snapshot snapshot_ref =>
      resolve_manifest declared snapshot_ref
        (ResolvedWorkspaceAttachmentTarget.AvailableSnapshot snapshot_ref)
  | WorkspaceAttachmentTarget.Workspace workspace_id =>
      workspace_id ← pure (map_err
        (λ _, VfsCatalogError.InvalidInput
           "invalid workspace attachment workspace id: {error}")
        (VfsWorkspaceId_try_new workspace_id));
      settle (call (StoreOp.ReadWorkspace workspace_id))
        (λ read : Result VfsCatalogError VfsWorkspaceRecord,
          match read with
          | Ok workspace =>
              resolve_manifest declared workspace.(VfsWorkspaceRecord.head_snapshot_ref)
                (ResolvedWorkspaceAttachmentTarget.AvailableWorkspace workspace)
          | Err _ => Return (Ok (ResolvedWorkspaceAttachmentTarget.Unavailable declared
                       VfsCatalogError_reason))
          end)
  end.
Fixpoint resolve_workspace_attachments (attachments : list WorkspaceAttachment)
    : Async VfsCatalogError (list ResolvedWorkspaceAttachment) :=
  match attachments with
  | [] => mret []
  | attachment :: attachments =>
      path ← pure (map_err
        (λ _, VfsCatalogError.InvalidInput "invalid workspace attachment path {:?}: {error}")
        (VfsPath.parse attachment.(WorkspaceAttachment.path)));
      target ← resolve_target attachment.(WorkspaceAttachment.target);
      resolved ← resolve_workspace_attachments attachments;
      mret ({| ResolvedWorkspaceAttachment.path := path;
               ResolvedWorkspaceAttachment.target := target;
               ResolvedWorkspaceAttachment.access := attachment.(WorkspaceAttachment.access) |}
            :: resolved)
  end.
End resolution.

(** ** The attached file systems *)
(** [validate_attachments]: one attachment per path, no snapshot to write to, and none below
    another. *)
Definition is_snapshot_target (target : ResolvedWorkspaceAttachmentTarget) : bool :=
  match target with
  | ResolvedWorkspaceAttachmentTarget.AvailableSnapshot _ => true
  | _ => false
  end.
Fixpoint validate_not_nested (attachments : list ResolvedWorkspaceAttachment)
    : Result FsError unit :=
  match attachments with
  | [] => mret tt
  | one :: rest =>
      _ ← for_each (λ other,
            reject_if (path_starts_with one.(ResolvedWorkspaceAttachment.path)
                         other.(ResolvedWorkspaceAttachment.path)
                       || path_starts_with other.(ResolvedWorkspaceAttachment.path)
                            one.(ResolvedWorkspaceAttachment.path))
              (FsError.InvalidInput
                 "nested workspace attachments are not supported: {} and {}")) rest;
      validate_not_nested rest
  end.
Definition validate_attachments (attachments : list ResolvedWorkspaceAttachment)
    : Result FsError unit :=
  _ ← for_each_fresh ResolvedWorkspaceAttachment.path
        (FsError.InvalidInput "duplicate workspace attachment path: {}") no_check
        (λ attachment,
          reject_if (ResolvedWorkspaceAttachment.is_writable attachment
                     && is_snapshot_target attachment.(ResolvedWorkspaceAttachment.target))
            (FsError.InvalidInput "snapshot workspace attachment cannot be writable: {}"))
        [] attachments;
  validate_not_nested attachments.

(** Deeper attachments first, then by path. *)
Definition attachment_le (p q : ResolvedWorkspaceAttachment) : Prop :=
  let one := p.(ResolvedWorkspaceAttachment.path) in
  let other := q.(ResolvedWorkspaceAttachment.path) in
  VfsPath.depth other < VfsPath.depth one ∨
  VfsPath.depth one = VfsPath.depth other ∧ String.le one other.
#[export] Instance attachment_le_dec : RelDecision attachment_le.
Proof. intros p q. unfold attachment_le. apply _. Defined.

Definition strip_attachment_path (path attachment_path : VfsPath) : Result FsError VfsPath :=
  if VfsPath.is_root attachment_path then Ok path
  else if bool_decide (path = attachment_path) then Ok VfsPath.root
  else
    suffix ← ok_or (strip_prefix attachment_path path)
      (FsError.InvalidInput "path {path} is not under workspace attachment {attachment_path}");
    map_err (λ error, FsError.InvalidInput (VfsPathError_to_string error)) (VfsPath.parse suffix).
Definition immediate_attachment_child (parent attachment_path : VfsPath) : option string :=
  let parent_names := VfsPath.components parent in
  let attachment_names := VfsPath.components attachment_path in
  if (length attachment_names <=? length parent_names)%nat then None
  else if forallb (λ '(name, expected), bool_decide (name = expected))
            (zip parent_names attachment_names)
  then attachment_names !! length parent_names
  else None.

Module AttachedVfsFileSystem.
Record AttachedVfsFileSystem : Type := {
  blob_graph : bool;
  attachments : list ResolvedWorkspaceAttachment;
  effects : nat;
}.
Section operations.
Context `{!Externals, !ManifestJson}.
Implicit Types self : AttachedVfsFileSystem.

(** [new], with the handle of its log; [with_blob_graph]. *)
Definition new (attachments : list ResolvedWorkspaceAttachment) (effects : nat)
    : Result FsError AttachedVfsFileSystem :=
  _ ← validate_attachments attachments;
  mret {| blob_graph := false;
          attachments := merge_sort attachment_le attachments;
          effects := effects |}.
Definition with_blob_graph self (graph : bool) : AttachedVfsFileSystem :=
  {| blob_graph := graph; attachments := self.(attachments); effects := self.(effects) |}.

(** The first attachment above the path, and the path inside it. *)
Definition route_attachment self (path : FsPath)
    : Result FsError (option (ResolvedWorkspaceAttachment * FsPath)) :=
  vfs_path ← fs_path_to_vfs_path path;
  match List.find (λ attachment,
          path_starts_with vfs_path attachment.(ResolvedWorkspaceAttachment.path))
          self.(attachments) with
  | None => mret None
  | Some attachment =>
      inner_path ← strip_attachment_path vfs_path attachment.(ResolvedWorkspaceAttachment.path);
      inner_path ← vfs_path_to_fs_path inner_path;
      mret (Some (attachment, inner_path))
  end.
Definition workspace_file_system self (workspace : VfsWorkspaceRecord) : VfsWorkspaceFileSystem :=
  {| VfsWorkspaceFileSystem.blob_graph := self.(blob_graph);
     VfsWorkspaceFileSystem.workspace_id := workspace.(VfsWorkspaceRecord.workspace_id);
     VfsWorkspaceFileSystem.effects := self.(effects) |}.
Definition file_system_for_attachment self (attachment : ResolvedWorkspaceAttachment)
    (request_path : FsPath) : FsAsync FileSystem :=
  match attachment.(ResolvedWorkspaceAttachment.target) with
  | ResolvedWorkspaceAttachmentTarget.AvailableSnapshot snapshot_ref =>
      fs ← await_err (map_vfs_error request_path) (VfsSnapshotFileSystem.new snapshot_ref);
      mret (VfsSnapshotFileSystem.as_file_system fs)
  | ResolvedWorkspaceAttachmentTarget.AvailableWorkspace workspace =>
      mret (VfsWorkspaceFileSystem.as_file_system (workspace_file_system self workspace))
  | ResolvedWorkspaceAttachmentTarget.Unavailable _ reason =>
      mthrow (FsError.Unavailable request_path reason)
  end.
Definition writable_workspace_for_attachment self (attachment : ResolvedWorkspaceAttachment)
    (request_path : FsPath) : Result FsError VfsWorkspaceFileSystem :=
  _ ← reject_if (negb (ResolvedWorkspaceAttachment.is_writable attachment))
        (FsError.PermissionDenied request_path);
  match attachment.(ResolvedWorkspaceAttachment.target) with
  | ResolvedWorkspaceAttachmentTarget.AvailableWorkspace workspace =>
      Ok (workspace_file_system self workspace)
  | ResolvedWorkspaceAttachmentTarget.AvailableSnapshot _ =>
      Err (FsError.PermissionDenied request_path)
  | ResolvedWorkspaceAttachmentTarget.Unavailable _ reason =>
      Err (FsError.Unavailable request_path reason)
  end.

(** The directories that lead to attachments, which exist in none of them. *)
Definition synthetic_directory_entries self (path : FsPath)
    : Result FsError (list ReadDirectoryEntry) :=
  vfs_path ← fs_path_to_vfs_path path;
  let entries := foldl (λ entries attachment,
    match immediate_attachment_child vfs_path
            attachment.(ResolvedWorkspaceAttachment.path) with
    | Some file_name =>
        <[file_name := {| ReadDirectoryEntry.file_name := file_name;
                          ReadDirectoryEntry.is_directory := true;
                          ReadDirectoryEntry.is_file := false |}]> entries
    | None => entries
    end) (∅ : gmap string ReadDirectoryEntry) self.(attachments) in
  mret (btree_values entries).
Definition synthetic_metadata self (path : FsPath) : Result FsError (option FileMetadata) :=
  entries ← synthetic_directory_entries self path;
  mret (match entries with [] => None | _ => Some directory_metadata end).

Definition access_policy self : FileAccessPolicy :=
  if existsb ResolvedWorkspaceAttachment.is_writable self.(attachments)
  then FileAccessPolicy.FullReadWrite else FileAccessPolicy.FullReadOnly.

(** The workspace a change goes to, and the path inside it. *)
Definition writable_route self (path : FsPath) (unrouted : FsError)
    : Result FsError (VfsWorkspaceFileSystem * FsPath) :=
  route ← route_attachment self path;
  match route with
  | None => Err unrouted
  | Some (attachment, inner_path) =>
      fs ← writable_workspace_for_attachment self attachment path;
      mret (fs, inner_path)
  end.
Definition write_file_ref self (path : FsPath) (content : ContentDescriptor) : FsAsync unit :=
  route ← pure (writable_route self path (FsError.PermissionDenied path));
  VfsWorkspaceFileSystem.write_file_ref route.1 route.2 content.
Definition write_file_with self (path : FsPath) (contents : string) (options : WriteOptions)
    : FsAsync unit :=
  route ← pure (writable_route self path (FsError.PermissionDenied path));
  VfsWorkspaceFileSystem.write_file_with route.1 route.2 contents options.
Definition write_file self (path : FsPath) (contents : string) : FsAsync unit :=
  write_file_with self path contents WriteOptions_default.
Definition remove self (path : FsPath) (options : RemoveOptions) : FsAsync unit :=
  route ← pure (writable_route self path (FsError.PermissionDenied path));
  VfsWorkspaceFileSystem.remove route.1 route.2 options.
Definition prepare_vfs_capture self (path : FsPath) (replace : bool)
    : FsAsync WorkspaceCaptureTarget :=
  route ← pure (writable_route self path
    (FsError.InvalidInput "select one attached VFS workspace"));
  WorkspaceCaptureTarget.prepare route.1 route.2 replace.

(** What a read does where no attachment is. *)
Definition off_attachments {A} self (path : FsPath) (on_directory : FsError) : FsAsync A :=
  metadata ← pure (synthetic_metadata self path);
  mthrow (match metadata with Some _ => on_directory | None => FsError.NotFound path end).
(** [fs.method(&resolved.inner_path)] of the attachment, or what happens outside. *)
Definition routed {A} self (path : FsPath) (method : FileSystem → FsPath → FsAsync A)
    (outside : FsAsync A) : FsAsync A :=
  route ← pure (route_attachment self path);
  match route with
  | Some (attachment, inner_path) =>
      fs ← file_system_for_attachment self attachment path;
      method fs inner_path
  | None => outside
  end.
Definition not_a_file : FsError := FsError.InvalidInput "path is not a file: {path}".
Definition export_vfs self (path : FsPath) : FsAsync VfsEntry :=
  routed self path FileSystem.export_vfs (mthrow
    (FsError.InvalidInput "select one attached VFS workspace or snapshot")).
Definition read_file self (path : FsPath) : FsAsync string :=
  routed self path FileSystem.read_file (off_attachments self path not_a_file).
Definition read_file_versioned self (path : FsPath) : FsAsync VersionedRead :=
  routed self path FileSystem.read_file_versioned (off_attachments self path not_a_file).
Definition get_metadata self (path : FsPath) : FsAsync FileMetadata :=
  routed self path FileSystem.get_metadata
    (metadata ← pure (synthetic_metadata self path);
     match metadata with
     | Some metadata => mret metadata
     | None => mthrow (FsError.NotFound path)
     end).
Definition read_directory self (path : FsPath) : FsAsync (list ReadDirectoryEntry) :=
  routed self path FileSystem.read_directory
    (entries ← pure (synthetic_directory_entries self path);
     match entries with
     | [] => mthrow (FsError.NotFound path)
     | _ => mret entries
     end).
Definition create_directory self (path : FsPath) (options : CreateDirectoryOptions)
    : FsAsync unit :=
  route ← pure (route_attachment self path);
  match route with
  | Some (attachment, inner_path) =>
      fs ← pure (writable_workspace_for_attachment self attachment path);
      VfsWorkspaceFileSystem.create_directory fs inner_path options
  | None =>
      metadata ← pure (synthetic_metadata self path);
      match metadata with
      | Some _ =>
          if options.(CreateDirectoryOptions.recursive) then mret tt
          else mthrow (FsError.AlreadyExists path)
      | None => mthrow (FsError.PermissionDenied path)
      end
  end.

(** Across workspaces the destination is written before the source is removed. *)
Definition rename self (source_path destination_path : FsPath) (options : RenameOptions)
    : FsAsync unit :=
  source ← pure (route_attachment self source_path);
  source ← pure (ok_or source (FsError.PermissionDenied source_path));
  destination ← pure (route_attachment self destination_path);
  destination ← pure (ok_or destination (FsError.PermissionDenied destination_path));
  source_fs ← pure (writable_workspace_for_attachment self source.1 source_path);
  destination_fs ← pure
    (writable_workspace_for_attachment self destination.1 destination_path);
  if bool_decide (source_fs.(VfsWorkspaceFileSystem.workspace_id)
                  = destination_fs.(VfsWorkspaceFileSystem.workspace_id)) then
    VfsWorkspaceFileSystem.rename source_fs source.2 destination.2 options
  else
    entry ← VfsWorkspaceFileSystem.export_vfs source_fs source.2;
    match entry with
    | VfsEntry.Directory _ => mthrow only_files_move
    | VfsEntry.File file =>
        _ ← VfsWorkspaceFileSystem.place_file destination_fs destination.2 file options;
        VfsWorkspaceFileSystem.remove source_fs source.2 RemoveOptions_file
    end.
Definition drain_tool_effects self : Prog (list ToolEffect) :=
  call (StoreOp.DrainEffects self.(effects)).
Definition as_file_system self : FileSystem :=
  {| FileSystem.resolve_input_path := default_resolve_input_path;
     FileSystem.export_vfs := export_vfs self;
     FileSystem.read_file := read_file self;
     FileSystem.read_file_versioned := read_file_versioned self;
     FileSystem.write_file_with := write_file_with self;
     FileSystem.create_directory := create_directory self;
     FileSystem.get_metadata := get_metadata self;
     FileSystem.read_directory := read_directory self;
     FileSystem.remove := remove self;
     FileSystem.rename := rename self |}.
End operations.
End AttachedVfsFileSystem.
Abbreviation AttachedVfsFileSystem := AttachedVfsFileSystem.AttachedVfsFileSystem.
