(* ===== verification/VfsHistory.v ===== *)
(** * Concurrent changes to a workspace

    Clients change a workspace through its file system while other clients, the gateway and the
    blob collector run between any two of their calls, calls fail, and replies get lost. A client's
    program is safe when, whatever runs between its calls, each change it makes to the catalog is
    the one it promises; and safe programs make safe systems. *)
From Stdlib Require Import Ascii ZArith.
From S2P Require Import Prelude Ids Text Types Externals VfsTree VfsTreeLaws VfsStore VfsFiles.
Set Primitive Projections.

(** ** Calls that may fail *)
(** A change of one row of the catalog. *)
Module Change.
Record Change : Type := {
  workspace : VfsWorkspaceId;
  before : option VfsWorkspaceRecord;
  after : option VfsWorkspaceRecord;
}.
End Change.
Abbreviation Change := Change.Change.
Definition updated (workspace_id : VfsWorkspaceId) (rows rows' : Workspaces) : Change :=
  {| Change.workspace := workspace_id;
     Change.before := rows !! workspace_id;
     Change.after := rows' !! workspace_id |}.
(** The reply of a call that failed, where the call can fail. *)
Definition failure (message : string) (op : StoreOp) : option (Answer op) :=
  match op with
  | StoreOp.PutBytes _ | StoreOp.ReadBytes _ | StoreOp.RecordBlobEdges _ =>
      Some (Err (BlobStoreError.Store message))
  | StoreOp.ReadWorkspace _ | StoreOp.CompareAndSetHead _ =>
      Some (Err (VfsCatalogError.Store message))
  | StoreOp.Now | StoreOp.RecordEffect _ _ | StoreOp.DrainEffects _ => None
  end.

(** The world, and what each client has left to do. *)
Module System.
Record System : Type := {
  world : World;
  clients : gmap nat (FsAsync unit);
}.
End System.
Abbreviation System := System.System.

Section systems.
Context `{!Externals}.
(** What an answered call changed in the catalog. *)
Definition change_of (op : StoreOp) (world : World) : option Change :=
  match op with
  | StoreOp.CompareAndSetHead request =>
      match compare_and_set_head request world.(World.workspaces) with
      | (Ok _, rows) =>
          Some (updated request.(CompareAndSetVfsWorkspaceHead.workspace_id)
                  world.(World.workspaces) rows)
      | (Err _, _) => None
      end
  | _ => None
  end.
(** A call is answered, or fails before it did anything, or fails after it was done. *)
Inductive op_step (world : World) (op : StoreOp)
    : Answer op → option Change → World → Prop :=
| op_answered :
    op_step world op (answer op world).1 (change_of op world) (answer op world).2
| op_refused message reply :
    failure message op = Some reply → op_step world op reply None world
| op_unheard message reply :
    failure message op = Some reply →
    op_step world op reply (change_of op world) (answer op world).2.

(** ** Systems of clients *)
(** The changes of an execution, each with the client that made it, if one did. *)
Abbreviation Trace := (list (option nat * Change)) (only parsing).
Inductive step (system : System) : Trace → System → Prop :=
| step_client c op k reply change world' :
    system.(System.clients) !! c = Some (Call op k) →
    op_step system.(System.world) op reply change world' →
    step system (match change with Some change => [(Some c, change)] | None => [] end)
      {| System.world := world'; System.clients := <[c := k reply]> system.(System.clients) |}
| step_gateway (request : CompareAndSetVfsWorkspaceHead) record rows :
    compare_and_set_head request system.(System.world).(World.workspaces) = (Ok record, rows) →
    step system
      [(None, updated request.(CompareAndSetVfsWorkspaceHead.workspace_id)
                system.(System.world).(World.workspaces) rows)]
      {| System.world := system.(System.world) <| World.workspaces := rows |>;
         System.clients := system.(System.clients) |}
| step_create (request : CreateVfsWorkspaceRecord) record rows :
    create_workspace request system.(System.world).(World.workspaces) = (Ok record, rows) →
    step system
      [(None, updated request.(CreateVfsWorkspaceRecord.workspace_id)
                system.(System.world).(World.workspaces) rows)]
      {| System.world := system.(System.world) <| World.workspaces := rows |>;
         System.clients := system.(System.clients) |}
| step_delete workspace_id record rows :
    delete_workspace workspace_id system.(System.world).(World.workspaces) = (Ok record, rows) →
    step system [(None, updated workspace_id system.(System.world).(World.workspaces) rows)]
      {| System.world := system.(System.world) <| World.workspaces := rows |>;
         System.clients := system.(System.clients) |}
| step_elsewhere world' :
    world'.(World.workspaces) = system.(System.world).(World.workspaces) →
    step system [] {| System.world := world'; System.clients := system.(System.clients) |}.
Inductive steps : System → Trace → System → Prop :=
| steps_done system : steps system [] system
| steps_more system trace system' trace' system'' :
    steps system trace system' → step system' trace' system'' →
    steps system (trace ++ trace') system''.

Definition changes_at (workspace_id : VfsWorkspaceId) (changes : list Change) : list Change :=
  filter (λ change, change.(Change.workspace) = workspace_id) changes.
Definition at_workspace (workspace_id : VfsWorkspaceId) (trace : Trace) : list Change :=
  changes_at workspace_id trace.*2.
Definition by_client (c : nat) (trace : Trace) : list Change :=
  (filter (λ p, p.1 = Some c) trace).*2.
Definition never_deleted (workspace_id : VfsWorkspaceId) (trace : Trace) : Prop :=
  Forall (λ change, is_Some change.(Change.after)) (at_workspace workspace_id trace).
(** Each change starts from the row the one before it left. *)
Fixpoint chained (row : option VfsWorkspaceRecord) (changes : list Change)
    (row' : option VfsWorkspaceRecord) : Prop :=
  match changes with
  | [] => row = row'
  | change :: changes =>
      change.(Change.before) = row ∧ chained change.(Change.after) changes row'
  end.

(** ** Safe programs *)
(** What the others do to a row that is not deleted: its revision grows when it changes. *)
Definition follows (r r' : VfsWorkspaceRecord) : Prop :=
  r = r' ∨ (r.(VfsWorkspaceRecord.revision) < r'.(VfsWorkspaceRecord.revision))%N.
Definition keyed (rows : Workspaces) : Prop :=
  ∀ workspace_id r, rows !! workspace_id = Some r →
    r.(VfsWorkspaceRecord.workspace_id) = workspace_id.
Definition rely (workspace_id : VfsWorkspaceId) (world world' : World) : Prop :=
  keyed world'.(World.workspaces) ∧
  ∀ r, world.(World.workspaces) !! workspace_id = Some r →
    ∃ r', world'.(World.workspaces) !! workspace_id = Some r' ∧ follows r r'.
Definition counted (change : option Change) : nat :=
  match change with Some _ => 1 | None => 0 end.

Section safe.
Context (workspace_id : VfsWorkspaceId) (promise : Change → Prop).
(** From [world], and having made [n] changes: every change is one promised, and the program
    returns as [post] says. *)
Fixpoint safe {A} (program : Prog A) (post : A → nat → World → Prop) (n : nat) (world : World)
    : Prop :=
  match program with
  | Return a => post a n world
  | Call op k => ∀ world1 reply change world2,
      rely workspace_id world world1 → op_step world1 op reply change world2 →
      (∀ c, change = Some c → promise c) ∧
      safe (k reply) post (n + counted change) world2
  end.
Lemma safe_mono {A} (program : Prog A) (post post' : A → nat → World → Prop) n world :
  safe program post n world → (∀ a n world, post a n world → post' a n world) →
  safe program post' n world.
Proof.
  intros Hs Hp. revert n world Hs. induction program as [a|op k IH]; intros n world; cbn; [auto|].
  intros Hs world1 reply change world2 Hr Ho. destruct (Hs _ _ _ _ Hr Ho). auto.
Qed.
Lemma safe_bind {A B} (program : Prog A) (f : A → Prog B) post n world :
  safe program (λ a n world, safe (f a) post n world) n world →
  safe (bind_prog program f) post n world.
Proof.
  revert n world. induction program as [a|op k IH]; intros n world; cbn; [done|].
  intros Hs world1 reply change world2 Hr Ho. destruct (Hs _ _ _ _ Hr Ho). auto.
Qed.
End safe.

(** ** What the catalog does *)
(** What a successful compare-and-set did to the rows. *)
Definition sets_head (request : CompareAndSetVfsWorkspaceHead) (rows : Workspaces)
    (record : VfsWorkspaceRecord) (rows' : Workspaces) : Prop :=
  let workspace_id := request.(CompareAndSetVfsWorkspaceHead.workspace_id) in
  ∃ current, rows !! workspace_id = Some current ∧ rows' = <[workspace_id := record]> rows ∧
    record.(VfsWorkspaceRecord.workspace_id) = workspace_id ∧
    record.(VfsWorkspaceRecord.revision) = (current.(VfsWorkspaceRecord.revision) + 1)%N ∧
    record.(VfsWorkspaceRecord.head_snapshot_ref) =
      request.(CompareAndSetVfsWorkspaceHead.new_head_snapshot_ref) ∧
    record.(VfsWorkspaceRecord.head_totals) =
      request.(CompareAndSetVfsWorkspaceHead.new_head_totals) ∧
    (∀ expected, request.(CompareAndSetVfsWorkspaceHead.expected_revision) = Some expected →
       current.(VfsWorkspaceRecord.revision) = expected).
Lemma totals_to_row_Ok totals row : totals_to_row totals = Ok row → row = totals.
Proof. unfold totals_to_row, u64_to_i64. intros Hok. simplify_ok. by destruct totals. Qed.
Lemma compare_and_set_head_wp request rows :
  wp (compare_and_set_head request) (sets_head request rows) rows.
Proof.
  unfold compare_and_set_head. wp_step. wp_step. wp_step. wp_step.
  unfold read_workspace in *. simplify_ok. rename a into current. wp_step.
  apply (wp_mono _ (λ _ rows', rows' = rows ∧ ∀ expected,
    request.(CompareAndSetVfsWorkspaceHead.expected_revision) = Some expected →
    current.(VfsWorkspaceRecord.revision) = expected)).
  { destruct (request.(CompareAndSetVfsWorkspaceHead.expected_revision)) as [expected|].
    - wp_step. simplify_ok. split; [done|]. by intros ? [= <-].
    - wp_step. done. }
  intros _ rows' [-> He]. wp_steps. unfold catalog_digest, u64_to_i64, nonnegative_i64 in *.
  simplify_ok. exists current. cbn. split_and!; try done. by apply totals_to_row_Ok.
Qed.
Lemma compare_and_set_head_Ok request rows record rows' :
  compare_and_set_head request rows = (Ok record, rows') → sets_head request rows record rows'.
Proof. apply wp_ok_inv, compare_and_set_head_wp. Qed.
Lemma lift_bind_Err {S E A B} (r : Result E A) (k : A → Reducer S E B) s e s' :
  (lift_result r ≫= k) s = (Err e, s') → (r = Err e ∧ s' = s) ∨ ∃ a, r = Ok a ∧ k a s = (Err e, s').
Proof.
  unfold mbind, Reducer_bind, lift_result. destruct r as [a|e0]; [eauto|].
  intros [= <- <-]. by left.
Qed.
Definition is_conflict (error : VfsCatalogError) : bool :=
  match error with VfsCatalogError.RevisionConflict _ _ _ => true | _ => false end.
Ltac conversion_err := unfold catalog_digest, totals_to_row, u64_to_i64, nonnegative_i64,
  mbind, Result_bind, reject_if, mthrow, Result_throw, mret, Result_ret, ok_or;
  repeat case_match; naive_solver.
Lemma catalog_digest_Err blob_ref e : catalog_digest blob_ref = Err e → is_conflict e = false.
Proof. conversion_err. Qed.
Lemma totals_to_row_Err totals e : totals_to_row totals = Err e → is_conflict e = false.
Proof. conversion_err. Qed.
Lemma u64_to_i64_Err n e : u64_to_i64 n = Err e → is_conflict e = false.
Proof. conversion_err. Qed.
Lemma nonnegative_i64_Err z e : nonnegative_i64 z = Err e → is_conflict e = false.
Proof. conversion_err. Qed.
(** A failed one leaves the rows as they are, and a conflict is another revision than the one
    expected. *)
Lemma compare_and_set_head_Err request rows error rows' :
  compare_and_set_head request rows = (Err error, rows') →
  rows' = rows ∧
  ∀ workspace_id expected actual,
    error = VfsCatalogError.RevisionConflict workspace_id expected actual →
    request.(CompareAndSetVfsWorkspaceHead.expected_revision) = Some expected ∧
    ∃ current, rows !! request.(CompareAndSetVfsWorkspaceHead.workspace_id) = Some current ∧
      current.(VfsWorkspaceRecord.revision) ≠ expected.
Proof.
  intros Hrun.
  assert (∀ s, s = rows ∧ is_conflict error = false → s = rows ∧
    ∀ workspace_id expected actual,
    error = VfsCatalogError.RevisionConflict workspace_id expected actual →
    request.(CompareAndSetVfsWorkspaceHead.expected_revision) = Some expected ∧
    ∃ current, rows !! request.(CompareAndSetVfsWorkspaceHead.workspace_id) = Some current ∧
      current.(VfsWorkspaceRecord.revision) ≠ expected) as Hplain
    by (intros s [-> Hc]; split; [done|by intros ??? ->]).
  unfold compare_and_set_head in Hrun. rewrite (bind_runs _ _ _ _ _ (get_runs rows)) in Hrun.
  apply lift_bind_Err in Hrun as [[Hread ->]|(current & Hrow & Hrun)].
  { apply Hplain. split; [done|]. revert Hread. unfold read_workspace. by destruct (rows !! _); intros [= <-]. }
  unfold read_workspace in Hrow. apply ok_or_Ok in Hrow.
  apply bind_outcome in Hrun as [(e & [= <-] & Hrev)|([] & s1 & Hrev & Hrun)].
  - destruct (request.(CompareAndSetVfsWorkspaceHead.expected_revision)) as [expected|]; [|done].
    revert Hrev. case_bool_decide as Hne; [|done]. intros [= <- <-]. split; [done|].
    intros ??? [= <- <- <-]. eauto.
  - assert (s1 = rows) as ->.
    { revert Hrev. destruct (request.(CompareAndSetVfsWorkspaceHead.expected_revision));
        [case_bool_decide|]; by intros [= <-]. }
    apply Hplain.
    apply lift_bind_Err in Hrun as [[Hc ->]|(next & _ & Hrun)];
      [split; [done|]; revert Hc; destruct (checked_add_u64 _ _); [done|by intros [= <-]]|].
    apply lift_bind_Err in Hrun as [[Hc ->]|(? & _ & Hrun)]; [by apply catalog_digest_Err in Hc|].
    apply lift_bind_Err in Hrun as [[Hc ->]|(? & _ & Hrun)]; [by apply totals_to_row_Err in Hc|].
    apply lift_bind_Err in Hrun as [[Hc ->]|(? & _ & Hrun)]; [by apply u64_to_i64_Err in Hc|].
    apply lift_bind_Err in Hrun as [[Hc ->]|(? & _ & Hrun)]; [by apply nonnegative_i64_Err in Hc|].
    apply bind_outcome in Hrun as [(e & He & Hrej)|(? & s1 & Hrej & Hrun)].
    + injection He as <-. revert Hrej. unfold reject_if. by destruct (_ <? _)%Z; intros [= <- <-].
    + by injection Hrun as [=].
Qed.

(** ** Histories of rows *)
(** A change advances a row by one revision, creates it at revision 0 or deletes it. *)
Definition orderly (change : Change) : Prop :=
  match change.(Change.before), change.(Change.after) with
  | Some r, Some r' =>
      r'.(VfsWorkspaceRecord.revision) = (r.(VfsWorkspaceRecord.revision) + 1)%N
  | None, Some r => r.(VfsWorkspaceRecord.revision) = 0%N
  | Some _, None => True
  | None, None => False
  end.
Lemma create_workspace_Ok request rows record rows' :
  create_workspace request rows = (Ok record, rows') →
  let workspace_id := request.(CreateVfsWorkspaceRecord.workspace_id) in
  rows !! workspace_id = None ∧ rows' = <[workspace_id := record]> rows ∧
  record.(VfsWorkspaceRecord.workspace_id) = workspace_id ∧
  record.(VfsWorkspaceRecord.revision) = 0%N.
Proof.
  cbv zeta. apply (wp_ok_inv _ (λ record rows', _ = _ ∧ rows' = <[_ := record]> _ ∧
    record.(VfsWorkspaceRecord.workspace_id) = _ ∧ record.(VfsWorkspaceRecord.revision) = _)).
  unfold create_workspace. wp_steps. simplify_ok. done.
Qed.
Lemma delete_workspace_Ok workspace_id rows record rows' :
  delete_workspace workspace_id rows = (Ok record, rows') →
  rows !! workspace_id = Some record ∧ rows' = delete workspace_id rows.
Proof.
  apply (wp_ok_inv _ (λ record rows', _ !! _ = Some record ∧ rows' = _)).
  unfold delete_workspace, read_workspace. wp_steps. by simplify_ok.
Qed.
(** One change of the rows, at the row it names. *)
Definition moves (rows : Workspaces) (change : Change) (rows' : Workspaces) : Prop :=
  let workspace_id := change.(Change.workspace) in
  orderly change ∧ change.(Change.before) = rows !! workspace_id ∧
  change.(Change.after) = rows' !! workspace_id ∧
  (∀ other, other ≠ workspace_id → rows' !! other = rows !! other) ∧
  (keyed rows → keyed rows').
Lemma keyed_insert workspace_id record rows :
  record.(VfsWorkspaceRecord.workspace_id) = workspace_id → keyed rows →
  keyed (<[workspace_id := record]> rows).
Proof.
  intros Hr Hk other r [[<- <-]|[_ Hl]]%lookup_insert_Some; [done|by apply Hk].
Qed.
Lemma compare_and_set_moves request rows record rows' :
  compare_and_set_head request rows = (Ok record, rows') →
  moves rows (updated request.(CompareAndSetVfsWorkspaceHead.workspace_id) rows rows') rows'.
Proof.
  intros (current & Hrow & -> & Hid & Hrev & _)%compare_and_set_head_Ok.
  unfold moves, orderly. cbn. rewrite Hrow, lookup_insert_eq. split_and!; try done.
  - intros other Ho. by apply lookup_insert_ne.
  - by apply keyed_insert.
Qed.
Lemma create_moves request rows record rows' :
  create_workspace request rows = (Ok record, rows') →
  moves rows (updated request.(CreateVfsWorkspaceRecord.workspace_id) rows rows') rows'.
Proof.
  intros (Hrow & -> & Hid & Hrev)%create_workspace_Ok.
  unfold moves, orderly. cbn. rewrite Hrow, lookup_insert_eq. split_and!; try done.
  - intros other Ho. by apply lookup_insert_ne.
  - by apply keyed_insert.
Qed.
Lemma delete_moves workspace_id rows record rows' :
  delete_workspace workspace_id rows = (Ok record, rows') →
  moves rows (updated workspace_id rows rows') rows'.
Proof.
  intros (Hrow & ->)%delete_workspace_Ok.
  unfold moves, orderly. cbn. rewrite Hrow, lookup_delete_eq. split_and!; try done.
  - intros other Ho. by apply lookup_delete_ne.
  - intros Hk other r [_ Hl]%lookup_delete_Some. by apply Hk.
Qed.
(** A call changes the rows as it says, if at all. *)
Lemma answer_rows op world :
  match change_of op world with
  | Some change => moves world.(World.workspaces) change (answer op world).2.(World.workspaces)
  | None => (answer op world).2.(World.workspaces) = world.(World.workspaces)
  end.
Proof.
  destruct op; cbn; try done; unfold on_blobs, on_workspaces;
    try (match goal with |- context [let '(_, _) := ?x in _] => by destruct x end).
  destruct (compare_and_set_head request world.(World.workspaces)) as [[record|error] rows] eqn:Hc.
  - by apply compare_and_set_moves in Hc.
  - by apply compare_and_set_head_Err in Hc as [-> _].
Qed.
Lemma op_step_rows world op reply change world' :
  op_step world op reply change world' →
  match change with
  | Some change => moves world.(World.workspaces) change world'.(World.workspaces)
  | None => world'.(World.workspaces) = world.(World.workspaces)
  end.
Proof. by intros []; [apply answer_rows| |apply answer_rows]. Qed.

(** What the steps of a system do to its rows. *)
Inductive moved : Workspaces → list Change → Workspaces → Prop :=
| moved_none rows : moved rows [] rows
| moved_one rows change rows' : moves rows change rows' → moved rows [change] rows'.
Lemma step_moved system trace system' :
  step system trace system' →
  moved system.(System.world).(World.workspaces) trace.*2 system'.(System.world).(World.workspaces).
Proof.
  intros [c op k reply change world' _ Ho|request record rows Hc|request record rows Hc
    |workspace_id record rows Hc|world' Hw]; cbn.
  - apply op_step_rows in Ho. destruct change as [change|]; cbn; [by constructor|].
    rewrite Ho. constructor.
  - constructor. by eapply compare_and_set_moves.
  - constructor. by eapply create_moves.
  - constructor. by eapply delete_moves.
  - rewrite Hw. constructor.
Qed.
Lemma chained_app row changes row' changes' row'' :
  chained row changes row' → chained row' changes' row'' → chained row (changes ++ changes') row''.
Proof.
  revert row. induction changes as [|change changes IH]; intros row; cbn; [by intros ->|].
  intros [-> Hc] Hc'. split; [done|by apply IH].
Qed.
Lemma moved_chained rows changes rows' workspace_id :
  moved rows changes rows' →
  chained (rows !! workspace_id) (changes_at workspace_id changes) (rows' !! workspace_id).
Proof.
  intros [|? change ? (_ & Hb & Ha & Ho & _)]; [done|]. unfold changes_at. rewrite filter_cons.
  destruct (decide _) as [<-|Hne]; cbn; [done|]. symmetry. by apply Ho.
Qed.
Lemma moved_orderly rows changes rows' : moved rows changes rows' → Forall orderly changes.
Proof. intros [|? change ? [? _]]; by repeat constructor. Qed.
Lemma moved_keyed rows changes rows' : moved rows changes rows' → keyed rows → keyed rows'.
Proof. intros [|? change ? (_ & _ & _ & _ & Hk)]; auto. Qed.
(** A row that is not deleted advances by one revision per change. *)
Lemma chained_revision r changes row :
  chained (Some r) changes row → Forall orderly changes →
  Forall (λ change, is_Some change.(Change.after)) changes →
  ∃ r', row = Some r' ∧ (changes = [] → r' = r) ∧
    r'.(VfsWorkspaceRecord.revision) =
      (r.(VfsWorkspaceRecord.revision) + N.of_nat (length changes))%N.
Proof.
  revert r. induction changes as [|change changes IH]; intros r; cbn.
  { intros <- _ _. exists r. split_and!; [done|done|lia]. }
  intros [Hb Hc] [Ho Hos]%Forall_cons [[r1 Ha] Has]%Forall_cons. rewrite Ha in Hc.
  destruct (IH r1 Hc Hos Has) as (r' & -> & _ & Hr'). exists r'. split_and!; [done|done|].
  unfold orderly in Ho. rewrite Hb, Ha in Ho. lia.
Qed.

(** ** Safe programs make safe systems *)
Lemma rely_refl workspace_id world : keyed world.(World.workspaces) → rely workspace_id world world.
Proof. intros Hk. split; [done|]. intros r Hr. exists r. split; [done|by left]. Qed.
Lemma rely_trans workspace_id world1 world2 world3 :
  rely workspace_id world1 world2 → rely workspace_id world2 world3 →
  rely workspace_id world1 world3.
Proof.
  intros [_ H12] [Hk H23]. split; [done|]. intros r Hr.
  destruct (H12 r Hr) as (r2 & Hr2 & Hf2). destruct (H23 r2 Hr2) as (r3 & Hr3 & Hf3).
  exists r3. split; [done|].
  destruct Hf2 as [->|Hf2], Hf3 as [->|Hf3]; [by left|by right|by right|]. right. lia.
Qed.
Lemma changes_at_Forall (P : Change → Prop) workspace_id changes :
  Forall P changes → Forall P (changes_at workspace_id changes).
Proof.
  rewrite !Forall_forall. intros Hall change [_ Hin]%list_elem_of_filter. by apply Hall.
Qed.
Lemma moved_rely workspace_id world changes world' :
  moved world.(World.workspaces) changes world'.(World.workspaces) →
  keyed world.(World.workspaces) →
  Forall (λ change, is_Some change.(Change.after)) (changes_at workspace_id changes) →
  rely workspace_id world world'.
Proof.
  intros Hm Hk Hd. split; [by eapply moved_keyed|]. intros r Hr.
  pose proof (moved_chained _ _ _ workspace_id Hm) as Hc. rewrite Hr in Hc.
  apply chained_revision in Hc as (r' & Hr' & He & Hrev); [|by eapply changes_at_Forall, moved_orderly|done].
  exists r'. split; [done|]. unfold follows.
  destruct (changes_at workspace_id changes) as [|change changes']; [left; symmetry; by apply He|].
  right. cbn in Hrev. lia.
Qed.

Lemma by_client_app c trace trace' : by_client c (trace ++ trace') = by_client c trace ++ by_client c trace'.
Proof. unfold by_client. by rewrite filter_app, fmap_app. Qed.
Lemma at_workspace_app workspace_id trace trace' :
  at_workspace workspace_id (trace ++ trace') =
  at_workspace workspace_id trace ++ at_workspace workspace_id trace'.
Proof. unfold at_workspace, changes_at. by rewrite fmap_app, filter_app. Qed.

Section adequacy.
Context (workspace_of : nat → VfsWorkspaceId) (promise : nat → Change → Prop)
  (post : nat → Result FsError unit → nat → World → Prop).
(** Every client is safe for what it has left, since some earlier world. *)
Definition clients_safe (trace : Trace) (system : System) : Prop :=
  keyed system.(System.world).(World.workspaces) ∧
  (∀ c change, (Some c, change) ∈ trace → promise c change) ∧
  ∀ c program, system.(System.clients) !! c = Some program →
    ∃ world, rely (workspace_of c) world system.(System.world) ∧
      safe (workspace_of c) (promise c) program (post c) (length (by_client c trace)) world.
(** No change of another client, nor of nobody, is this one's. *)
Lemma by_other c (who : option nat) changes :
  who ≠ Some c → by_client c ((λ change, (who, change)) <$> changes) = [].
Proof.
  intros Hne. unfold by_client. induction changes as [|change changes IH]; [done|].
  cbn. by rewrite decide_False.
Qed.
Lemma step_safe trace system trace' system' :
  clients_safe trace system → step system trace' system' →
  (∀ c, is_Some (system.(System.clients) !! c) → never_deleted (workspace_of c) trace') →
  clients_safe (trace ++ trace') system'.
Proof.
  intros (Hk & Hp & Hs) Hstep Hd. pose proof (step_moved _ _ _ Hstep) as Hm.
  assert (keyed system'.(System.world).(World.workspaces)) as Hk' by by eapply moved_keyed.
  assert (∀ c, is_Some (system.(System.clients) !! c) →
    rely (workspace_of c) system.(System.world) system'.(System.world)) as Hrely.
  { intros c Hc. eapply moved_rely; [exact Hm|done|]. by apply Hd. }
  assert (∀ c program, by_client c trace' = [] → system.(System.clients) !! c = Some program →
    ∃ world, rely (workspace_of c) world system'.(System.world) ∧
      safe (workspace_of c) (promise c) program (post c) (length (by_client c (trace ++ trace')))
        world) as Hothers.
  { intros c program Hb Hc. destruct (Hs c program Hc) as (world & Hr & Hsafe). exists world.
    rewrite by_client_app, Hb, app_nil_r. split; [|done].
    eapply rely_trans; [exact Hr|]. by apply Hrely. }
  destruct Hstep as [c op k reply change world' Hc Ho|? ? ? _|? ? ? _|? ? ? _|? _].
  - destruct (Hs c _ Hc) as (world & Hr & Hsafe). destruct (Hsafe _ _ _ _ Hr Ho) as [Hprom Hnext].
    split_and!; [done| |].
    + intros c' change' [Hin|Hin]%elem_of_app; [by apply Hp|].
      destruct change as [change|]; [|by apply elem_of_nil in Hin].
      apply list_elem_of_singleton in Hin as [= -> ->]. by apply Hprom.
    + cbn. intros c' program [[<- <-]|[Hne Hc']]%lookup_insert_Some.
      * exists world'. split; [by apply rely_refl|]. rewrite by_client_app, length_app.
        replace (length (by_client c match change with Some change => [(Some c, change)] | None => [] end))
          with (counted change); [done|].
        destruct change; [|done]. unfold by_client. cbn. by rewrite decide_True.
      * apply Hothers; [|done]. destruct change as [change|]; [|done].
        apply (by_other c' (Some c) [change]). congruence.
  - split_and!; [done| |].
    + intros c change [Hin|Hin%list_elem_of_singleton]%elem_of_app; [by apply Hp|done].
    + intros c program Hc. by apply Hothers.
  - split_and!; [done| |].
    + intros c change [Hin|Hin%list_elem_of_singleton]%elem_of_app; [by apply Hp|done].
    + intros c program Hc. by apply Hothers.
  - split_and!; [done| |].
    + intros c change [Hin|Hin%list_elem_of_singleton]%elem_of_app; [by apply Hp|done].
    + intros c program Hc. by apply Hothers.
  - split_and!; [done| |].
    + intros c change. rewrite app_nil_r. apply Hp.
    + intros c program Hc. by apply Hothers.
Qed.
Lemma step_clients system trace system' c :
  step system trace system' →
  is_Some (system'.(System.clients) !! c) ↔ is_Some (system.(System.clients) !! c).
Proof.
  intros [c' op k reply change world' Hc _|? ? ? _|? ? ? _|? ? ? _|? _]; cbn; try done.
  destruct (decide (c' = c)) as [->|Hne].
  - rewrite lookup_insert_eq. by split; intros _; eexists.
  - by rewrite lookup_insert_ne.
Qed.
Lemma steps_clients system trace system' c :
  steps system trace system' →
  is_Some (system'.(System.clients) !! c) ↔ is_Some (system.(System.clients) !! c).
Proof.
  induction 1 as [|system trace system' trace' system'' _ IH Hstep]; [done|].
  by rewrite (step_clients _ _ _ _ Hstep).
Qed.
Lemma steps_safe system trace system' :
  clients_safe [] system → steps system trace system' →
  (∀ c, is_Some (system.(System.clients) !! c) → never_deleted (workspace_of c) trace) →
  clients_safe trace system'.
Proof.
  intros Hs Hsteps. induction Hsteps as [|system trace system' trace' system'' Hsteps IH Hstep];
    intros Hd; [done|].
  assert (∀ c, is_Some (system.(System.clients) !! c) → never_deleted (workspace_of c) trace ∧
    never_deleted (workspace_of c) trace') as Hboth.
  { intros c Hc. specialize (Hd c Hc). unfold never_deleted in *.
    rewrite at_workspace_app in Hd. by apply Forall_app in Hd. }
  eapply step_safe; [apply IH; [done|]|exact Hstep|].
  - intros c Hc. by apply Hboth.
  - intros c Hc. apply Hboth. by apply (steps_clients _ _ _ _ Hsteps).
Qed.
Lemma steps_chained system trace system' workspace_id :
  steps system trace system' →
  chained (system.(System.world).(World.workspaces) !! workspace_id)
    (at_workspace workspace_id trace)
    (system'.(System.world).(World.workspaces) !! workspace_id) ∧
  Forall orderly (at_workspace workspace_id trace).
Proof.
  induction 1 as [|system trace system' trace' system'' _ [IHc IHo] Hstep]; [done|].
  apply step_moved in Hstep. rewrite at_workspace_app. split.
  - eapply chained_app; [exact IHc|]. by apply moved_chained.
  - apply Forall_app. split; [done|]. by eapply changes_at_Forall, moved_orderly.
Qed.
End adequacy.
End systems.

(** ** The file system of a workspace is safe *)
Section clients.
Context `{Ext : !Externals, Json : !ManifestJson}.
(** The manifest a reference stands for, and the reference it is published under. *)
Definition represents (blob_ref : BlobRef) (manifest : VfsSnapshotManifest) : Prop :=
  ∃ bytes, BlobRef_from_bytes bytes = blob_ref ∧ decode_snapshot_manifest bytes = Ok manifest.
Definition published (blob_ref : BlobRef) (manifest : VfsSnapshotManifest) : Prop :=
  ∃ bytes, encode_snapshot_manifest manifest = Ok bytes ∧ BlobRef_from_bytes bytes = blob_ref.
(** The change that applies [update] to the head it replaces. *)
Definition advances (workspace_id : VfsWorkspaceId) (update : HeadUpdate) (change : Change) : Prop :=
  change.(Change.workspace) = workspace_id ∧
  ∃ old new manifest manifest',
    change.(Change.before) = Some old ∧ change.(Change.after) = Some new ∧
    represents old.(VfsWorkspaceRecord.head_snapshot_ref) manifest ∧
    changed update manifest = Ok manifest' ∧
    published new.(VfsWorkspaceRecord.head_snapshot_ref) manifest' ∧
    new.(VfsWorkspaceRecord.revision) = (old.(VfsWorkspaceRecord.revision) + 1)%N ∧
    new.(VfsWorkspaceRecord.head_totals) = manifest'.(VfsSnapshotManifest.totals).

(** What a reply says, whatever the world has become since. *)
Definition replied (op : StoreOp) : Answer op → World → Prop :=
  match op with
  | StoreOp.PutBytes bytes => λ reply _,
      ∀ blob_ref, reply = Ok blob_ref → BlobRef_from_bytes bytes = blob_ref
  | StoreOp.ReadBytes blob_ref => λ reply _,
      ∀ bytes, reply = Ok bytes → BlobRef_from_bytes bytes = blob_ref
  | StoreOp.ReadWorkspace workspace_id => λ reply world,
      ∀ record, reply = Ok record → world.(World.workspaces) !! workspace_id = Some record
  | _ => λ _ _, True
  end.
Definition is_quiet (op : StoreOp) : bool :=
  match op with StoreOp.CompareAndSetHead _ => false | _ => true end.
Lemma answer_replied op world : replied op (answer op world).1 (answer op world).2.
Proof.
  destruct op; cbn; try done.
  - by intros blob_ref [= <-].
  - intros bytes Hread. unfold read_bytes in Hread. simplify_ok. done.
  - intros record Hread. by apply ok_or_Ok in Hread.
Qed.
Lemma failure_replied op message reply world :
  failure message op = Some reply → replied op reply world.
Proof. destruct op; cbn; try done; by intros [= <-]. Qed.
Lemma op_step_quiet world op reply change world' :
  is_quiet op = true → op_step world op reply change world' →
  change = None ∧ world'.(World.workspaces) = world.(World.workspaces) ∧ replied op reply world'.
Proof.
  intros Hq Ho. assert (change_of op world = None) as Hc by by destruct op.
  pose proof (answer_rows op world) as Hrows. rewrite Hc in Hrows.
  destruct Ho as [|message reply Hf|message reply Hf]; rewrite ?Hc; split_and!; try done.
  - apply answer_replied.
  - by eapply failure_replied.
  - by eapply failure_replied.
Qed.

Section one.
Context (workspace_id : VfsWorkspaceId) (promise : Change → Prop).
Abbreviation safe := (safe workspace_id promise).
Abbreviation rely := (rely workspace_id).
Lemma rely_rows world world1 world2 :
  rely world world1 → world2.(World.workspaces) = world1.(World.workspaces) → rely world world2.
Proof. intros [Hk Hr] Hrows. split; by rewrite Hrows. Qed.
Lemma safe_quiet {A} op (k : Answer op → Prog A) post n world :
  is_quiet op = true →
  (∀ reply world', rely world world' → replied op reply world' → safe (k reply) post n world') →
  safe (Call op k) post n world.
Proof.
  intros Hq Hk world1 reply change world2 Hr Ho.
  apply op_step_quiet in Ho as (-> & Hrows & Hreply); [|done]. split; [done|].
  cbn [counted]. rewrite Nat.add_0_r. apply Hk; [|done]. by eapply rely_rows.
Qed.
Lemma safe_async {E A B} (m : Async E A) (f : A → Async E B) post n world :
  safe m (λ r n world, match r with
                       | Ok a => safe (f a) post n world
                       | Err e => post (Err e) n world
                       end) n world →
  safe (m ≫= f) post n world.
Proof.
  intros Hm. apply safe_bind. eapply safe_mono; [exact Hm|]. by intros [a|e] n' world'.
Qed.
Lemma safe_await_err {E F A} (f : E → F) (m : Async E A) post n world :
  safe m (λ r, post (map_err f r)) n world → safe (await_err f m) post n world.
Proof. intros Hm. by apply safe_bind. Qed.
Lemma safe_pure {E A} (r : Result E A) (post : Result E A → nat → World → Prop) n world :
  post r n world → safe (pure r) post n world.
Proof. done. Qed.
Lemma safe_reject {E} (c : bool) (e : E) (post : Result E unit → nat → World → Prop) n world :
  (c = true → post (Err e) n world) → (c = false → post (Ok tt) n world) →
  safe (reject_if (M:=Async E) c e) post n world.
Proof. destruct c; cbn; auto. Qed.
(** What quiet programs guarantee besides their result. *)
Definition quietly {A} (n0 : nat) (world0 : World) (post : A → World → Prop)
    (a : A) (n : nat) (world : World) : Prop := n = n0 ∧ rely world0 world ∧ post a world.

Lemma read_manifest_safe blob_ref n world :
  safe (read_snapshot_manifest blob_ref) (quietly n world (λ r _,
    ∀ manifest, r = Ok manifest → represents blob_ref manifest)) n world.
Proof.
  unfold read_snapshot_manifest. apply safe_async, safe_await_err. apply safe_quiet; [done|].
  intros reply world1 Hr Hreply. cbn. destruct reply as [bytes|error]; cbn; split_and!; try done.
  intros manifest Hd. exists bytes. split; [by apply Hreply|done].
Qed.
Lemma commit_manifest_safe blob_graph manifest n world :
  keyed world.(World.workspaces) →
  safe (commit_snapshot_manifest blob_graph manifest) (quietly n world (λ r _,
    ∀ result, r = Ok result → result.(CreateVfsSnapshotResult.manifest) = manifest ∧
      published result.(CreateVfsSnapshotResult.snapshot_ref) manifest)) n world.
Proof.
  intros Hk. unfold commit_snapshot_manifest. apply safe_async, safe_pure.
  destruct (encode_snapshot_manifest manifest) as [bytes|error] eqn:He.
  2: { split_and!; [done|by apply rely_refl|done]. }
  apply safe_async, safe_await_err. apply safe_quiet; [done|]. intros reply world1 Hr1 Hreply.
  destruct reply as [blob_ref|error]; cbn; [|by split_and!].
  assert (published blob_ref manifest) as Hp by (exists bytes; split; [done|by apply Hreply]).
  apply safe_async, safe_await_err. unfold record_contains_edges.
  destruct blob_graph; cbn [negb].
  2: { cbn. split_and!; [done|done|]. by intros result [= <-]. }
  case_bool_decide.
  { cbn. split_and!; [done|done|]. by intros result [= <-]. }
  apply safe_quiet; [done|]. intros reply world2 Hr2 _.
  assert (rely world world2) by by eapply rely_trans.
  destruct reply as [[]|error]; cbn; split_and!; try done. by intros result [= <-].
Qed.

(** A record read from the row at some moment since [world]. *)
Definition read_since (world : World) (record : VfsWorkspaceRecord) (world' : World) : Prop :=
  ∃ then_, rely world then_ ∧ then_.(World.workspaces) !! workspace_id = Some record ∧
    rely then_ world'.
Definition is_overtaken (error : FsError) : bool :=
  match error with FsError.Conflict _ => true | _ => false end.
Lemma map_vfs_error_overtaken path error : is_overtaken (map_vfs_error path error) = false.
Proof. destruct error as [| | | | | | | | | | | | | |[]]; done. Qed.
Lemma map_vfs_catalog_error_overtaken error : is_overtaken (map_vfs_catalog_error error) = false.
Proof. by destruct error. Qed.
Lemma keyed_rely world world' : rely world world' → keyed world'.(World.workspaces).
Proof. by intros []. Qed.

Context (fs : VfsWorkspaceFileSystem).
Hypothesis Hfs : fs.(VfsWorkspaceFileSystem.workspace_id) = workspace_id.
Lemma read_head_safe n world :
  safe (VfsWorkspaceFileSystem.read_head fs) (quietly n world (λ r world',
    match r with
    | Ok (record, manifest) =>
        record.(VfsWorkspaceRecord.workspace_id) = workspace_id ∧
        represents record.(VfsWorkspaceRecord.head_snapshot_ref) manifest ∧
        read_since world record world'
    | Err error => is_overtaken error = false
    end)) n world.
Proof.
  unfold VfsWorkspaceFileSystem.read_head. rewrite Hfs.
  apply safe_async, safe_await_err. apply safe_quiet; [done|]. intros reply world1 Hr1 Hreply.
  destruct reply as [record|error]; cbn [map_err].
  2: { split_and!; [done|done|]. apply map_vfs_catalog_error_overtaken. }
  specialize (Hreply record eq_refl). apply safe_async, safe_await_err.
  eapply safe_mono; [apply read_manifest_safe|]. intros [manifest|error] n' world2 (-> & Hr2 & Hm);
    cbn [map_err]; (assert (rely world world2) by by eapply rely_trans).
  - split_and!; [done|done|exact (keyed_rely _ _ Hr1 _ _ Hreply)|by apply Hm|by exists world1].
  - split_and!; [done|done|]. apply map_vfs_error_overtaken.
Qed.

(** What publishing over [current] may come to. *)
Definition commit_outcome (current : VfsWorkspaceRecord) (n0 : nat) (world0 : World)
    (r : Result FsError bool) (n : nat) (world : World) : Prop :=
  rely world0 world ∧
  match r with
  | Ok true => n = S n0
  | Ok false =>
      n = n0 ∧ ∃ r', world.(World.workspaces) !! workspace_id = Some r' ∧
        (current.(VfsWorkspaceRecord.revision) < r'.(VfsWorkspaceRecord.revision))%N
  | Err error => is_overtaken error = false ∧ (n = n0 ∨ n = S n0 ∧ ∃ message, error = FsError.Failed message)
  end.
(** The compare-and-set of [commit_head] and what follows it. *)
Lemma compare_and_set_safe request current manifest update world0 world :
  request.(CompareAndSetVfsWorkspaceHead.workspace_id) = workspace_id →
  request.(CompareAndSetVfsWorkspaceHead.expected_revision) =
    Some current.(VfsWorkspaceRecord.revision) →
  request.(CompareAndSetVfsWorkspaceHead.new_head_totals) = manifest.(VfsSnapshotManifest.totals) →
  published request.(CompareAndSetVfsWorkspaceHead.new_head_snapshot_ref) manifest →
  (∃ old, represents current.(VfsWorkspaceRecord.head_snapshot_ref) old ∧
     changed update old = Ok manifest) →
  (∀ change, advances workspace_id update change → promise change) →
  rely world0 world →
  (∃ then_, then_.(World.workspaces) !! workspace_id = Some current ∧ rely then_ world) →
  ∀ world1 reply change world2, rely world world1 →
  op_step world1 (StoreOp.CompareAndSetHead request) reply change world2 →
  (∀ c, change = Some c → promise c) ∧ rely world0 world2 ∧
  match reply with
  | Ok _ => counted change = 1
  | Err error =>
      if is_conflict error then counted change = 0 ∧
        ∃ r', world2.(World.workspaces) !! workspace_id = Some r' ∧
          (current.(VfsWorkspaceRecord.revision) < r'.(VfsWorkspaceRecord.revision))%N
      else counted change = 0 ∨ counted change = 1 ∧ ∃ message, error = VfsCatalogError.Store message
  end.
Proof.
  intros Hid Hexp Htot Hpub Hold Hprom Hr0 (then_ & Hthen & Hr) world1 reply change world2 Hr1 Ho.
  assert (rely world0 world1) as Hr01 by by eapply rely_trans.
  assert (∃ r', world1.(World.workspaces) !! workspace_id = Some r' ∧ follows current r')
    as (row & Hrow & Hfollows) by (eapply rely_trans in Hr1; [|exact Hr]; by apply Hr1).
  assert (rely world0 world2) as Hr02.
  { eapply rely_trans; [exact Hr01|]. pose proof (op_step_rows _ _ _ _ _ Ho) as Hrows.
    eapply (moved_rely workspace_id _ match change with Some c => [c] | None => [] end).
    - destruct change; [by constructor|]. rewrite Hrows. constructor.
    - by eapply keyed_rely.
    - inversion Ho as [Hr'|? ? _ Hr'|? ? _ Hr']; subst; try constructor.
      all: cbn [change_of]; destruct (compare_and_set_head _ _) as [[record|] rows] eqn:Hc;
        [|constructor].
      all: apply changes_at_Forall; repeat constructor.
      all: apply compare_and_set_head_Ok in Hc as (? & _ & -> & _); cbn;
        rewrite lookup_insert_eq; by eexists. }
  (* the answer of the store *)
  assert (match compare_and_set_head request world1.(World.workspaces) with
    | (Ok record, rows) => promise (updated workspace_id world1.(World.workspaces) rows)
    | (Err error, rows) => is_conflict error = true →
        (current.(VfsWorkspaceRecord.revision) < row.(VfsWorkspaceRecord.revision))%N
    end) as Hanswer.
  { destruct (compare_and_set_head _ _) as [[record|error] rows] eqn:Hc.
    - apply compare_and_set_head_Ok in Hc as (old & Hold' & -> & _ & Hrev & Hhead & Htotals & Hsame).
      rewrite Hid in *. rewrite Hrow in Hold'. injection Hold' as ->. specialize (Hsame _ Hexp).
      assert (current = old) as -> by (destruct Hfollows as [|Hlt]; [done|lia]).
      apply Hprom. destruct Hold as (m & Hm & Hm'). split; [done|].
      exists old, record, m, manifest. cbn. rewrite lookup_insert_eq, Hhead, Htotals. done.
    - intros Hcon. apply compare_and_set_head_Err in Hc as [_ Hc].
      destruct error as [| |w e a| |]; try done.
      destruct (Hc w e a eq_refl) as (He & r' & Hr' & Hne). rewrite Hexp in He. injection He as <-.
      rewrite Hid, Hrow in Hr'. injection Hr' as <-. destruct Hfollows as [->|Hlt]; done. }
  inversion Ho as [Hreply|message reply' Hf|message reply' Hf]; subst; cbn [change_of] in *.
  - cbn [answer] in *. unfold on_workspaces in *.
    destruct (compare_and_set_head _ _) as [[record|error] rows] eqn:Hc; cbn [fst counted].
    all: rewrite ?Hc in Hanswer.
    + split_and!; [intros c [= <-]; rewrite Hid; exact Hanswer|done|done].
    + split_and!; [done|done|]. destruct (is_conflict error) eqn:Hcon; [|by left].
      split; [done|]. exists row. split; [|by apply Hanswer].
      apply compare_and_set_head_Err in Hc as [-> _]. done.
  - cbn in Hf. injection Hf as <-. split_and!; [done|done|]. cbn. by left.
  - cbn in Hf. injection Hf as <-. destruct (compare_and_set_head _ _) as [[record|error] rows] eqn:Hc.
    all: rewrite ?Hc in Hanswer.
    + split_and!; [intros c [= <-]; rewrite Hid; exact Hanswer|done|]. cbn. right. eauto.
    + split_and!; [done|done|]. cbn. by left.
Qed.
Lemma now_ms_safe n world :
  keyed world.(World.workspaces) →
  safe now_ms (quietly n world (λ r _, ∀ error, r = Err error → is_overtaken error = false)) n world.
Proof.
  intros Hk. unfold now_ms. apply safe_async. apply safe_bind. apply safe_quiet; [done|].
  intros ms world1 Hr _. cbn [safe bind_prog]. apply safe_async.
  apply safe_reject; intros _; [split_and!; [done|done|by intros error [= <-]]|].
  apply safe_async. apply safe_reject; intros _; [split_and!; [done|done|by intros error [= <-]]|].
  by split_and!.
Qed.
Lemma commit_head_safe current old update manifest n world0 world :
  (∀ change, advances workspace_id update change → promise change) →
  current.(VfsWorkspaceRecord.workspace_id) = workspace_id →
  represents current.(VfsWorkspaceRecord.head_snapshot_ref) old →
  changed update old = Ok manifest →
  rely world0 world → read_since world0 current world →
  safe (VfsWorkspaceFileSystem.commit_head fs current manifest)
    (commit_outcome current n world0) n world.
Proof.
  intros Hprom Hid Hrep Hch Hr0 (then_ & _ & Hthen & Hr). unfold VfsWorkspaceFileSystem.commit_head.
  apply safe_async, safe_await_err. eapply safe_mono.
  { apply commit_manifest_safe. by eapply keyed_rely. }
  intros [result|error] n' world1 (-> & Hr1 & Hres); cbn [map_err].
  2: { split; [by eapply rely_trans|]. split; [apply map_vfs_error_overtaken|by left]. }
  destruct (Hres result eq_refl) as [Hman Hpub].
  apply safe_async. eapply safe_mono; [apply now_ms_safe; by eapply keyed_rely|].
  intros [ms|error] n' world2 (-> & Hr2 & Hnow).
  2: { split; [by do 2 (eapply rely_trans; [done|])|]. split; [by apply Hnow|by left]. }
  assert (rely world world2) as Hr12 by by eapply rely_trans.
  unfold settle. apply safe_bind. intros world3 reply change world4 Hr3 Ho.
  eapply (compare_and_set_safe _ current manifest update world0 world2) in Ho as (Hp & Hr4 & Hout);
    [|done|done|cbn; by rewrite Hman|done|by exists old|done|by eapply rely_trans
     |by exists then_; split; [|by eapply rely_trans]|done].
  split; [done|]. destruct reply as [record|error].
  - cbn in Hout. apply safe_async. apply safe_bind. apply safe_quiet; [done|].
    intros [] world5 Hr5 _. cbn. split; [by eapply rely_trans|]. lia.
  - destruct (is_conflict error) eqn:Hcon.
    + destruct error; try done. destruct Hout as [Hc Hrow]. split; [done|]. split; [lia|done].
    + assert (commit_outcome current n world0 (Err (map_vfs_catalog_error error))
        (n + counted change) world4) as Hpost.
      { split; [done|]. split; [apply map_vfs_catalog_error_overtaken|].
        destruct Hout as [Hc|[Hc [message ->]]]; [left; lia|right]. split; [lia|by exists message]. }
      by destruct error.
Qed.

(** The row is at the revision [v] at least. *)
Definition reached (v : N) (world : World) : Prop :=
  v = 0%N ∨ ∃ r, world.(World.workspaces) !! workspace_id = Some r ∧
    (v <= r.(VfsWorkspaceRecord.revision))%N.
Lemma reached_rely v world world' : reached v world → rely world world' → reached v world'.
Proof.
  intros [->|(r & Hr & Hv)] [_ Hw]; [by left|]. right.
  destruct (Hw r Hr) as (r' & Hr' & Hf). exists r'. split; [done|].
  destruct Hf as [->|Hf]; [done|lia].
Qed.
(** What an update of the head may come to: published once, or an error, after which nothing
    was published unless the reply was lost; a conflict is the update's own, or comes after as
    many changes of others as there were attempts. *)
Definition update_outcome (update : HeadUpdate) (v : N) (n0 : nat)
    (r : Result FsError unit) (n : nat) (world : World) : Prop :=
  match r with
  | Ok _ => n = S n0
  | Err error =>
      (n = n0 ∨ n = S n0 ∧ ∃ message, error = FsError.Failed message) ∧
      (is_overtaken error = true →
        (∃ manifest, changed update manifest = Err error) ∨ reached v world)
  end.
Lemma update_head_safe path update attempts v n world :
  (∀ change, advances workspace_id update change → promise change) →
  keyed world.(World.workspaces) → reached v world →
  safe (VfsWorkspaceFileSystem.update_head_attempts fs path update attempts)
    (update_outcome update (v + N.of_nat attempts) n) n world.
Proof.
  intros Hprom. revert v world. induction attempts as [|attempts IH]; intros v world Hk Hv.
  { cbn. split; [by left|]. intros _. right. by rewrite N.add_0_r. }
  cbn [VfsWorkspaceFileSystem.update_head_attempts]. apply safe_async.
  eapply safe_mono; [apply read_head_safe|].
  intros [[record manifest]|error] n' world1 (-> & Hr1 & Hread).
  2: { split; [by left|]. by rewrite Hread. }
  destruct Hread as (Hid & Hrep & Hsince). apply safe_async, safe_pure. cbn [fst snd].
  destruct (changed update manifest) as [manifest'|error] eqn:Hch.
  2: { split; [by left|]. intros _. left. by exists manifest. }
  apply safe_async. eapply safe_mono.
  { by eapply (commit_head_safe record manifest update manifest' n world). }
  intros [[|]|error] n' world2 (Hr2 & Hout).
  - exact Hout.
  - destruct Hout as (-> & r' & Hr' & Hlt). cbn [is_overtaken].
    eapply safe_mono; [apply (IH (v + 1)%N world2); [by eapply keyed_rely|]|].
    + right. exists r'. split; [done|]. destruct Hsince as (then_ & Ht & Hrow & _).
      destruct (reached_rely _ _ _ Hv Ht) as [->|(r0 & Hr0 & Hv0)]; [lia|].
      rewrite Hrow in Hr0. injection Hr0 as ->. lia.
    + intros r n' world'. unfold update_outcome.
      by replace (v + 1 + N.of_nat attempts)%N with (v + N.of_nat (S attempts))%N by lia.
  - destruct Hout as [Hn Hout]. split; [done|]. by rewrite Hn.
Qed.
End one.
End clients.

(** ** Changes of files *)
Module FileChange.
Inductive FileChange : Type :=
| Write (path : FsPath) (contents : string) (options : WriteOptions)
| WriteRef (path : FsPath) (content : ContentDescriptor)
| Place (path : FsPath) (file : VfsFile) (options : RenameOptions)
| CreateDirectory (path : FsPath) (options : CreateDirectoryOptions)
| Remove (path : FsPath) (options : RemoveOptions)
| Rename (source destination : FsPath) (options : RenameOptions).
End FileChange.
Abbreviation FileChange := FileChange.FileChange.

Section changes.
Context `{Ext : !Externals, Json : !ManifestJson}.
(** The method called, and the update of the head it stands for. *)
Definition perform (fs : VfsWorkspaceFileSystem) (change : FileChange) : FsAsync unit :=
  match change with
  | FileChange.Write path contents options =>
      VfsWorkspaceFileSystem.write_file_with fs path contents options
  | FileChange.WriteRef path content => VfsWorkspaceFileSystem.write_file_ref fs path content
  | FileChange.Place path file options => VfsWorkspaceFileSystem.place_file fs path file options
  | FileChange.CreateDirectory path options =>
      VfsWorkspaceFileSystem.create_directory fs path options
  | FileChange.Remove path options => VfsWorkspaceFileSystem.remove fs path options
  | FileChange.Rename source destination options =>
      VfsWorkspaceFileSystem.rename fs source destination options
  end.
Definition update_of (change : FileChange) : Result FsError HeadUpdate :=
  match change with
  | FileChange.Write path contents options =>
      vfs_path ← fs_path_to_vfs_path path;
      mret (VfsWorkspaceFileSystem.write_update path vfs_path (BlobRef_from_bytes contents)
              (byte_len contents) options)
  | FileChange.WriteRef path content =>
      vfs_path ← fs_path_to_vfs_path path;
      mret (mapped path
        (write_keeping_mode vfs_path content.(ContentDescriptor.content_ref)
           content.(ContentDescriptor.byte_len) content.(ContentDescriptor.media_type)))
  | FileChange.Place path file options =>
      vfs_path ← fs_path_to_vfs_path path;
      mret (place_manifest_file vfs_path path file options)
  | FileChange.CreateDirectory path options =>
      vfs_path ← fs_path_to_vfs_path path;
      mret (mapped path
        (create_manifest_directory vfs_path options.(CreateDirectoryOptions.recursive)))
  | FileChange.Remove path options =>
      vfs_path ← fs_path_to_vfs_path path;
      mret (mapped path (remove_manifest_path vfs_path options.(RemoveOptions.recursive)
        options.(RemoveOptions.force)))
  | FileChange.Rename source destination options =>
      source_path ← fs_path_to_vfs_path source;
      destination_path ← fs_path_to_vfs_path destination;
      mret (VfsWorkspaceFileSystem.rename_update source destination source_path destination_path
              options)
  end.
Definition promised (workspace_id : VfsWorkspaceId) (change : FileChange) (c : Change) : Prop :=
  ∃ update, update_of change = Ok update ∧ advances workspace_id update c.
Definition outcome (workspace_id : VfsWorkspaceId) (change : FileChange) (v : N)
    (r : Result FsError unit) (n : nat) (world : World) : Prop :=
  match update_of change with
  | Ok update => update_outcome workspace_id update (v + N.of_nat HEAD_UPDATE_ATTEMPTS) 0 r n world
  | Err error => r = Err error ∧ n = 0
  end.
(** A path that does not convert is the end of it. *)
Lemma converted_safe workspace_id promise path (f : VfsPath → FsAsync unit) post n world :
  (∀ vfs_path, fs_path_to_vfs_path path = Ok vfs_path →
     safe workspace_id promise (f vfs_path) post n world) →
  (∀ error, fs_path_to_vfs_path path = Err error → post (Err error) n world) →
  safe workspace_id promise (vfs_path ← pure (fs_path_to_vfs_path path); f vfs_path) post n world.
Proof.
  intros Hok Herr. apply safe_async, safe_pure.
  destruct (fs_path_to_vfs_path path) as [vfs_path|error]; auto.
Qed.
Lemma perform_safe fs change v world :
  let workspace_id := fs.(VfsWorkspaceFileSystem.workspace_id) in
  keyed world.(World.workspaces) → reached workspace_id v world →
  safe workspace_id (promised workspace_id change) (perform fs change)
    (outcome workspace_id change v) 0 world.
Proof.
  intros workspace_id Hk Hv.
  assert (∀ path update world, update_of change = Ok update → keyed world.(World.workspaces) →
    reached workspace_id v world →
    safe workspace_id (promised workspace_id change)
      (VfsWorkspaceFileSystem.update_head fs path update)
      (outcome workspace_id change v) 0 world) as Hupdate.
  { intros path update world' Hu Hk' Hv'. unfold outcome. rewrite Hu.
    apply (update_head_safe workspace_id _ fs eq_refl path update HEAD_UPDATE_ATTEMPTS); [|done|done].
    intros c Hc. by exists update. }
  destruct change as [path contents options|path content|path file options|path options
    |path options|source destination options]; cbn [perform update_of] in *.
  1: { apply converted_safe.
    - intros vfs_path Hp. rewrite Hp in Hupdate. apply safe_async, safe_await_err.
      apply safe_quiet; [done|]. intros [blob_ref|error] world1 Hr Hreply; cbn [map_err].
      + rewrite <- (Hreply blob_ref eq_refl). apply Hupdate; [done|by eapply keyed_rely|].
        by eapply reached_rely.
      + unfold outcome. cbn [update_of]. rewrite Hp. cbn. split; [by left|]. by destruct error.
    - intros error He. unfold outcome. cbn [update_of]. by rewrite He. }
  5: { apply converted_safe.
    - intros source_path Hp. rewrite Hp in Hupdate. apply converted_safe.
      + intros destination_path Hp'. rewrite Hp' in Hupdate. by apply Hupdate.
      + intros error He. unfold outcome. cbn [update_of]. rewrite Hp. cbn. by rewrite He.
    - intros error He. unfold outcome. cbn [update_of]. by rewrite He. }
  all: apply converted_safe; [intros vfs_path Hp; rewrite Hp in Hupdate; by apply Hupdate|].
  all: intros error He; unfold outcome; cbn [update_of]; by rewrite He.
Qed.
End changes.

(** ** What a system of clients does to its workspaces *)
Section theorems.
Context `{Ext : !Externals, Json : !ManifestJson}.
Context (fs : nat → VfsWorkspaceFileSystem) (request : nat → FileChange).
Definition workspace_of (c : nat) : VfsWorkspaceId := (fs c).(VfsWorkspaceFileSystem.workspace_id).
(** Every client is about to make its change. *)
Definition starting (system : System) : Prop :=
  keyed system.(System.world).(World.workspaces) ∧
  ∀ c program, system.(System.clients) !! c = Some program → program = perform (fs c) (request c).
Definition spared (system : System) (trace : list (option nat * Change)) : Prop :=
  ∀ c, is_Some (system.(System.clients) !! c) → never_deleted (workspace_of c) trace.
(** The revision a client's workspace is at. *)
Definition revision_at (system : System) (c : nat) : N :=
  match system.(System.world).(World.workspaces) !! workspace_of c with
  | Some r => r.(VfsWorkspaceRecord.revision)
  | None => 0
  end.
Lemma starting_safe system trace system' :
  starting system → steps system trace system' → spared system trace →
  clients_safe workspace_of (λ c, promised (workspace_of c) (request c))
    (λ c, outcome (workspace_of c) (request c) (revision_at system c)) trace system'.
Proof.
  intros [Hk Hstart] Hsteps Hd. eapply steps_safe; [|exact Hsteps|exact Hd].
  split_and!; [done|by intros c change ?%elem_of_nil|].
  intros c program Hc. exists system.(System.world). split; [by apply rely_refl|].
  rewrite (Hstart c program Hc). apply perform_safe; [done|].
  unfold reached, revision_at. fold (workspace_of c).
  destruct (system.(System.world).(World.workspaces) !! workspace_of c) as [r|]; [|by left].
  right. by exists r.
Qed.

(** C5. No change is lost. Whatever clients, the gateway and the collector do in whatever order, and
    whatever calls fail: each head a client publishes is its own update applied to the very head
    it replaces, at the next revision, and every row's history is the unbroken sequence of the
    changes made to it, as long as no workspace a client works on is deleted. *)
Theorem no_change_is_lost system trace system' :
  starting system → steps system trace system' → spared system trace →
  (∀ c change, (Some c, change) ∈ trace →
     ∃ update, update_of (request c) = Ok update ∧ advances (workspace_of c) update change) ∧
  ∀ workspace_id,
    chained (system.(System.world).(World.workspaces) !! workspace_id)
      (at_workspace workspace_id trace)
      (system'.(System.world).(World.workspaces) !! workspace_id).
Proof.
  intros Hs Hsteps Hd. split.
  - by apply (starting_safe system trace system').
  - intros workspace_id. by apply steps_chained.
Qed.

(** C16. A change that returns was published exactly once if it succeeded, and if it failed it was not
    published, unless it failed with a store failure, whose reply may have been lost after the head
    moved; never twice, whatever was retried. As above, no workspace a client works on is deleted. *)
Theorem a_change_is_published_once system trace system' c r :
  starting system → steps system trace system' → spared system trace →
  system'.(System.clients) !! c = Some (Return r) →
  match r with
  | Ok _ => length (by_client c trace) = 1
  | Err error =>
      by_client c trace = [] ∨
      length (by_client c trace) = 1 ∧ ∃ message, error = FsError.Failed message
  end.
Proof.
  intros Hs Hsteps Hd Hc.
  destruct (starting_safe _ _ _ Hs Hsteps Hd) as (_ & _ & Hsafe).
  destruct (Hsafe c _ Hc) as (world & _ & Hpost). cbn in Hpost. unfold outcome in Hpost.
  destruct (update_of (request c)) as [update|error].
  - destruct r as [u|error]; [done|]. destruct Hpost as [[Hn|Hn] _]; [left|by right].
    by apply nil_length_inv.
  - destruct Hpost as [-> Hn]. left. by apply nil_length_inv.
Qed.

(** C23. Retrying makes progress. A change that gives up on a conflict, and whose own preconditions
    never report one, was overtaken by a change of somebody else at each of its eight attempts;
    so a workspace that fewer than eight changes reach never turns one away. *)
Theorem a_conflict_takes_eight_changes system trace system' c path r :
  starting system → steps system trace system' → spared system trace →
  system.(System.world).(World.workspaces) !! workspace_of c = Some r →
  (∀ update manifest error, update_of (request c) = Ok update →
     changed update manifest = Err error → is_overtaken error = false) →
  (∀ error, update_of (request c) = Err error → is_overtaken error = false) →
  system'.(System.clients) !! c = Some (Return (Err (FsError.Conflict path))) →
  by_client c trace = [] ∧ HEAD_UPDATE_ATTEMPTS ≤ length (at_workspace (workspace_of c) trace).
Proof.
  intros Hs Hsteps Hd Hrow Hown Hpath Hc.
  destruct (starting_safe _ _ _ Hs Hsteps Hd) as (_ & _ & Hsafe).
  destruct (Hsafe c _ Hc) as (world & Hrely & Hpost). cbn in Hpost. unfold outcome in Hpost.
  destruct (update_of (request c)) as [update|error] eqn:Hu.
  2: { destruct Hpost as [[= <-] _]. by specialize (Hpath _ eq_refl). }
  destruct Hpost as [[Hn|(_ & message & [=])] Hreached]. split; [by apply nil_length_inv|].
  destruct (Hreached eq_refl) as [(manifest & Hch)|Hat].
  { by specialize (Hown _ _ _ eq_refl Hch). }
  apply (reached_rely _ _ _ _ Hat) in Hrely. unfold revision_at in Hrely. rewrite Hrow in Hrely.
  destruct Hrely as [Hz|(r' & Hr' & Hle)]; [unfold HEAD_UPDATE_ATTEMPTS in Hz; lia|].
  destruct (steps_chained _ _ _ (workspace_of c) Hsteps) as [Hchain Hord]. rewrite Hrow in Hchain.
  apply chained_revision in Hchain as (r1 & Hr1 & _ & Hrev); [|done|].
  - rewrite Hr1 in Hr'. injection Hr' as <-. lia.
  - apply Hd. apply (steps_clients _ _ _ _ Hsteps). by eexists.
Qed.
End theorems.
