(* ===== verification/VfsLaws.v ===== *)
(** * Laws of the virtual file systems

    Attachments route a path to the one workspace or snapshot above it; a snapshot of given files
    holds these files and the directories they need; and a rename moves a file and nothing
    else. *)
From Stdlib Require Import Ascii ZArith.
From stdpp Require Import countable.
From S2P Require Import Prelude Ids Text Types Externals VfsTree VfsTreeLaws VfsStore VfsFiles.
Set Primitive Projections.

(** ** Paths from one kind to the other *)
Abbreviation unix_names := (Forall (λ name, has_char "\" name = false)).
Lemma split_path names :
  valid_names names → names ≠ [] → split "/" (path_from_components names) = "" :: names.
Proof.
  intros Hv Hn. destruct names as [|a l]; [done|]. rewrite path_from_cons.
  change (String "/" (VfsPath.join (a :: l))) with ("" +:+ String "/" (VfsPath.join (a :: l))).
  by rewrite split_app, split_join.
Qed.
Lemma normalize_segments names kept :
  valid_names names → foldl (normalize_segment true) kept names = kept ++ names.
Proof.
  revert kept. induction names as [|a l IH]; intros kept; [by rewrite app_nil_r|].
  intros [(Hi & _)%valid_name_spec Hl]%Forall_cons. cbn [foldl].
  unfold VfsPath.is_invalid in Hi. apply orb_false_iff in Hi as [H1 H3].
  unfold normalize_segment at 2. rewrite H1, H3, IH by done. by rewrite <- app_assoc.
Qed.
(** A path of the virtual file system is normalized. *)
Lemma normalize_canonical names :
  valid_names names → unix_names names →
  normalize_path (path_from_components names) = Ok (path_from_components names).
Proof.
  intros Hv Hu. destruct names as [|a l]; [done|].
  assert (∀ c, c ≠ "/"%char → Forall (λ name, has_char c name = false) (a :: l) →
    existsb (Ascii.eqb c) (chars (path_from_components (a :: l))) = false) as Hchar.
  { intros c Hc Hf. rewrite path_from_cons. apply orb_false_iff. split; [by apply Ascii.eqb_neq|].
    by apply (has_char_join c (a :: l)). }
  unfold normalize_path. rewrite (bool_decide_false (path_from_components (a :: l) = ""))
    by by rewrite path_from_cons.
  assert (Forall (λ name, has_char "000" name = false) (a :: l)) as Hn
    by (eapply Forall_impl; [exact Hv|by intros ? (_ & ? & _)%valid_name_spec]).
  rewrite (Hchar "000"%char), (Hchar "\"%char) by done. cbn [reject_if mbind Result_bind].
  rewrite split_path by done. rewrite path_from_cons.
  change (starts_with "/" (String "/" (VfsPath.join (a :: l)))) with true.
  assert (foldl (normalize_segment true) [] ("" :: a :: l) = a :: l) as ->
    by by apply (normalize_segments (a :: l) []).
  done.
Qed.
Lemma fs_path_of names :
  valid_names names → fs_path_to_vfs_path (path_from_components names) = Ok (path_from_components names).
Proof.
  intros Hv. destruct names as [|a l]; [done|]. unfold fs_path_to_vfs_path, fs_path_key.
  assert (FsPath.has_unresolved_parent (path_from_components (a :: l)) = false) as ->.
  { unfold FsPath.has_unresolved_parent, FsPath.segments. rewrite split_path by done.
    apply not_true_iff_false. intros (name & Hin & Hd)%existsb_exists.
    apply bool_decide_eq_true in Hd as ->. apply list_elem_of_In, list_elem_of_filter in Hin as [_ Hin].
    apply elem_of_cons in Hin as [?|Hin]; [done|]. rewrite Forall_forall in Hv.
    by apply Hv in Hin. }
  change (FsPath.is_absolute (path_from_components (a :: l))) with true. cbn [mbind Result_bind].
  assert (FsPath.is_root (path_from_components (a :: l)) = false) as ->.
  { unfold FsPath.is_root. pose proof (path_not_root a l) as Hr. unfold VfsPath.is_root in Hr.
    rewrite Hr by by inversion Hv. done. }
  by rewrite parse_path_of.
Qed.
Lemma vfs_path_of names :
  valid_names names → unix_names names →
  vfs_path_to_fs_path (path_from_components names) = Ok (path_from_components names).
Proof. intros. unfold vfs_path_to_fs_path, FsPath.new. by rewrite normalize_canonical. Qed.

(** ** Routing *)
Definition attached_at (attachment : ResolvedWorkspaceAttachment) : list string :=
  VfsPath.components attachment.(ResolvedWorkspaceAttachment.path).
(** A path of an attachment was parsed. *)
Definition canonical (attachment : ResolvedWorkspaceAttachment) : Prop :=
  VfsPath.parse attachment.(ResolvedWorkspaceAttachment.path)
  = Ok attachment.(ResolvedWorkspaceAttachment.path).
Lemma canonical_names attachment :
  canonical attachment →
  valid_names (attached_at attachment) ∧
  attachment.(ResolvedWorkspaceAttachment.path) = path_from_components (attached_at attachment).
Proof. apply parse_canonical. Qed.
Lemma above_attachment attachment names :
  canonical attachment → valid_names names →
  path_starts_with (path_from_components names) attachment.(ResolvedWorkspaceAttachment.path) =
  bool_decide (attached_at attachment `prefix_of` names).
Proof.
  intros [Hv Hp]%canonical_names Hn. rewrite Hp at 1. by apply path_starts_with_spec.
Qed.
Lemma strip_attachment_names names rest :
  valid_names (names ++ rest) →
  strip_attachment_path (path_from_components (names ++ rest)) (path_from_components names)
  = Ok (path_from_components rest).
Proof.
  intros [Hv Hr]%Forall_app. destruct names as [|a l]; [done|].
  unfold strip_attachment_path. rewrite path_not_root by by inversion Hv.
  destruct rest as [|b rest].
  { by rewrite app_nil_r, bool_decide_eq_true_2. }
  assert (path_from_components ((a :: l) ++ b :: rest)
    = path_from_components (a :: l) +:+ path_from_components (b :: rest)) as ->.
  { rewrite <- app_comm_cons, !path_from_cons, app_comm_cons, join_app by done. done. }
  rewrite bool_decide_eq_false_2.
  - rewrite strip_prefix_app. cbn [ok_or mbind Result_bind]. by rewrite parse_path_of.
  - rewrite (path_from_cons b). intros H%(f_equal (λ s, length (chars s))). revert H.
    rewrite chars_app, length_app. change (chars (String "/" ?s)) with ("/"%char :: chars s).
    cbn [length]. lia.
Qed.
Lemma validate_not_nested_Ok attachments one other :
  validate_not_nested attachments = Ok tt → one ∈ attachments → other ∈ attachments →
  path_starts_with one.(ResolvedWorkspaceAttachment.path) other.(ResolvedWorkspaceAttachment.path)
    = true →
  one = other.
Proof.
  induction attachments as [|first rest IH]; [by intros _ ?%elem_of_nil|].
  cbn [validate_not_nested]. intros Hok. apply bind_Ok in Hok as (u & Hall & Hrest).
  apply for_each_Ok in Hall. rewrite Forall_forall in Hall.
  rewrite !elem_of_cons. intros [->|H1] [->|H2] Hs; [done| | |by apply IH].
  - apply Hall, reject_if_Ok, orb_false_iff in H2 as [H2 _]. congruence.
  - apply Hall, reject_if_Ok, orb_false_iff in H1 as [_ H1]. congruence.
Qed.
Section routing.
Context (attachments : list ResolvedWorkspaceAttachment) (effects : nat)
  (fs : AttachedVfsFileSystem) (names : list string).
Context (Hnew : AttachedVfsFileSystem.new attachments effects = Ok fs)
  (Hcanonical : Forall canonical attachments)
  (Hvalid : valid_names names) (Hunix : unix_names names).
Lemma attached_permutation : fs.(AttachedVfsFileSystem.attachments) ≡ₚ attachments.
Proof.
  clear -Hnew. unfold AttachedVfsFileSystem.new in Hnew.
  apply bind_Ok in Hnew as (u & _ & [= <-]). apply merge_sort_Permutation.
Qed.
Lemma attached_canonical attachment : attachment ∈ attachments → canonical attachment.
Proof. revert attachment. by apply Forall_forall. Qed.
Lemma attached_apart one other :
  one ∈ attachments → other ∈ attachments →
  attached_at one `prefix_of` names → attached_at other `prefix_of` names → one = other.
Proof.
  intros H1 H2 P1 P2.
  destruct (canonical_names _ (attached_canonical _ H1)) as [V1 E1].
  destruct (canonical_names _ (attached_canonical _ H2)) as [V2 E2].
  unfold AttachedVfsFileSystem.new, validate_attachments in Hnew.
  apply bind_Ok in Hnew as (u & Hv & _). apply bind_Ok in Hv as (u' & _ & Hv). destruct u.
  destruct (prefix_weak_total _ _ _ P1 P2) as [Hp|Hp].
  - symmetry. apply (validate_not_nested_Ok _ _ _ Hv H2 H1).
    rewrite E2, above_attachment by auto using attached_canonical. by apply bool_decide_eq_true.
  - apply (validate_not_nested_Ok _ _ _ Hv H1 H2).
    rewrite E1, above_attachment by auto using attached_canonical. by apply bool_decide_eq_true.
Qed.
Lemma route_found attachment rest :
  attachment ∈ attachments → names = attached_at attachment ++ rest →
  AttachedVfsFileSystem.route_attachment fs (path_from_components names)
  = Ok (Some (attachment, path_from_components rest)).
Proof.
  intros Hin Heq. unfold AttachedVfsFileSystem.route_attachment.
  rewrite fs_path_of by done. cbn [mbind Result_bind].
  assert (attached_at attachment `prefix_of` names) as Hp by (rewrite Heq; by apply prefix_app_r).
  destruct (List.find _ _) as [found|] eqn:Hf.
  - apply find_some in Hf as [Hfin%list_elem_of_In Hs]. rewrite attached_permutation in Hfin.
    rewrite above_attachment in Hs by auto using attached_canonical. apply bool_decide_eq_true in Hs.
    rewrite (attached_apart found attachment) by done.
    destruct (canonical_names _ (attached_canonical _ Hin)) as [_ ->].
    rewrite Heq, strip_attachment_names by by rewrite <- Heq. cbn [mbind Result_bind].
    assert (valid_names (attached_at attachment ++ rest)) as [_ Hr]%Forall_app by by rewrite <- Heq.
    assert (unix_names (attached_at attachment ++ rest)) as [_ Hu]%Forall_app by by rewrite <- Heq.
    by rewrite vfs_path_of.
  - exfalso. assert (attachment ∈ fs.(AttachedVfsFileSystem.attachments)) as Hin'
      by by rewrite attached_permutation.
    apply list_elem_of_In, (find_none _ _ Hf) in Hin'. cbn in Hin'.
    rewrite above_attachment in Hin' by auto using attached_canonical.
    by apply bool_decide_eq_false in Hin'.
Qed.
Lemma route_missing :
  (∀ attachment, attachment ∈ attachments → ¬ attached_at attachment `prefix_of` names) →
  AttachedVfsFileSystem.route_attachment fs (path_from_components names) = Ok None.
Proof.
  intros Hno. unfold AttachedVfsFileSystem.route_attachment.
  rewrite fs_path_of by done. cbn [mbind Result_bind].
  destruct (List.find _ _) as [found|] eqn:Hf; [|done]. exfalso.
  apply find_some in Hf as [Hfin%list_elem_of_In Hs]. rewrite attached_permutation in Hfin.
  rewrite above_attachment in Hs by auto using attached_canonical.
  apply bool_decide_eq_true in Hs. by eapply Hno.
Qed.
Lemma attached_above :
  (∃ attachment, attachment ∈ attachments ∧ attached_at attachment `prefix_of` names) ∨
  ∀ attachment, attachment ∈ attachments → ¬ attached_at attachment `prefix_of` names.
Proof.
  destruct (decide (Exists (λ attachment, attached_at attachment `prefix_of` names) attachments))
    as [He|He]; rewrite Exists_exists in He; [by left|right]. naive_solver.
Qed.
End routing.

(** C30. Attachments never compete for a path: the attachments an attached file system accepts send
    a path to the only one that lies at or above it, with the rest of the path inside it, and a
    path below none of them nowhere; and a change is sent only to a workspace attached for
    editing. *)
Theorem paths_route_to_one_attachment attachments effects fs names :
  AttachedVfsFileSystem.new attachments effects = Ok fs → Forall canonical attachments →
  valid_names names → unix_names names →
  let path := path_from_components names in
  (∀ attachment rest, attachment ∈ attachments → names = attached_at attachment ++ rest →
     AttachedVfsFileSystem.route_attachment fs path
     = Ok (Some (attachment, path_from_components rest))) ∧
  ((∀ attachment, attachment ∈ attachments → ¬ attached_at attachment `prefix_of` names) →
     AttachedVfsFileSystem.route_attachment fs path = Ok None) ∧
  ∀ unrouted workspace_fs inner_path,
    AttachedVfsFileSystem.writable_route fs path unrouted = Ok (workspace_fs, inner_path) →
    ∃ attachment workspace rest, attachment ∈ attachments ∧
      names = attached_at attachment ++ rest ∧ inner_path = path_from_components rest ∧
      attachment.(ResolvedWorkspaceAttachment.access) = WorkspaceAccess.Edit ∧
      attachment.(ResolvedWorkspaceAttachment.target)
        = ResolvedWorkspaceAttachmentTarget.AvailableWorkspace workspace ∧
      workspace_fs = AttachedVfsFileSystem.workspace_file_system fs workspace.
Proof.
  intros Hnew Hcan Hv Hu path. split_and!.
  - by apply (route_found attachments effects).
  - by apply (route_missing attachments effects).
  - intros unrouted workspace_fs inner_path Hr. unfold AttachedVfsFileSystem.writable_route in Hr.
    destruct (attached_above attachments names) as [(attachment & Hin & rest & Hrest)|Hno].
    + unfold path in Hr. rewrite (route_found attachments effects fs names Hnew Hcan Hv Hu
        attachment rest Hin Hrest) in Hr. cbn [mbind Result_bind] in Hr.
      apply bind_Ok in Hr as (fs' & Hfs & [= <- <-]).
      unfold AttachedVfsFileSystem.writable_workspace_for_attachment in Hfs.
      apply bind_Ok in Hfs as (u & Hw & Ht). apply reject_if_Ok, negb_false_iff in Hw.
      apply bool_decide_eq_true in Hw.
      destruct attachment.(ResolvedWorkspaceAttachment.target) as [|workspace|] eqn:Htarget; [done| |done].
      injection Ht as <-. by exists attachment, workspace, rest.
    + unfold path in Hr.
      by rewrite (route_missing attachments effects fs names Hnew Hcan Hv Hno) in Hr.
Qed.

(** ** Snapshots of given files *)
(** Where a file can be put, and the map that leaves. *)
Definition vacant (tree : Tree) (names : list string) : Prop :=
  tree names = None ∧ no_file_above tree names.
Definition put (names : list string) (file : VfsFile) (tree : Tree) : Tree := λ path,
  if bool_decide (path = names) then Some (Kind.File file) else make_path names tree path.

Lemma vacant_child root name names :
  (∀ file, root !! name ≠ Some (VfsEntry.File file)) → names ≠ [] →
  vacant (tree_of (VfsEntry.Directory root)) (name :: names) ↔
  vacant (tree_of (VfsEntry.Directory (child_or_new root name))) names.
Proof. intros Hf Hn. unfold vacant. by rewrite tree_child, no_file_above_child. Qed.
Lemma put_child root name names file directory path :
  (∀ file, root !! name ≠ Some (VfsEntry.File file)) → names ≠ [] →
  (∀ path, tree_of (VfsEntry.Directory directory) path =
     put names file (tree_of (VfsEntry.Directory (child_or_new root name))) path) →
  tree_of (VfsEntry.Directory (<[name := VfsEntry.Directory directory]> root)) path =
  put (name :: names) file (tree_of (VfsEntry.Directory root)) path.
Proof.
  intros Hf Hn Hd. rewrite tree_of_insert. unfold graft, put, make_path.
  destruct path as [|n path].
  { cbn [strip_names]. by rewrite bool_decide_eq_false_2, bool_decide_eq_true_2 by (done || apply prefix_nil). }
  cbn [strip_names]. case_bool_decide as Hname.
  2: { rewrite !bool_decide_eq_false_2; [done| |by intros [= ? _]].
       by intros ?%prefix_cons_inv_1. }
  subst n. cbn [strip_names]. rewrite Hd. unfold put, make_path.
  destruct (decide (path = names)) as [->|Hp]; [by rewrite !bool_decide_eq_true_2|].
  rewrite !(bool_decide_eq_false_2 (_ = _)) by (done || by intros [=]).
  destruct (decide (path `prefix_of` names)) as [Hpre|Hpre].
  { by rewrite !bool_decide_eq_true_2 by (done || by apply prefix_cons). }
  rewrite !bool_decide_eq_false_2 by (done || by intros ?%prefix_cons_inv_2).
  symmetry. apply tree_child; [done|]. intros ->. by apply Hpre, prefix_nil.
Qed.
Lemma insert_file_at_spec path file names root r root' :
  names ≠ [] → insert_file_at path file names root = (r, root') →
  match r with
  | Ok _ =>
      vacant (tree_of (VfsEntry.Directory root)) names ∧
      weight (VfsEntry.Directory root') =
        plus (weight (VfsEntry.File file)) (weight (VfsEntry.Directory root)) ∧
      ∀ p, tree_of (VfsEntry.Directory root') p =
        put names file (tree_of (VfsEntry.Directory root)) p
  | Err _ => ¬ vacant (tree_of (VfsEntry.Directory root)) names
  end.
Proof.
  revert root r root'. induction names as [|name names IH]; intros root r root' Hne; [done|].
  destruct names as [|n2 names].
  - cbn [insert_file_at]. unfold mbind, Reducer_bind, insert_entry.
    destruct (root !! name) as [entry|] eqn:Hr; cbn.
    + intros Hrun. assert (is_err r = true) as He by (by destruct entry; injection Hrun as <- <-).
      destruct r; [done|]. intros [Hv _]. unfold tree_of in Hv. cbn in Hv. by rewrite Hr in Hv.
    + intros [= <- <-]. split; [split|split; [exact (weight_fresh root name (VfsEntry.File file) Hr)|]].
      * unfold tree_of. cbn. by rewrite Hr.
      * intros above f [rest Ha]. destruct above as [|a above]; [done|].
        injection Ha as -> Ha. symmetry in Ha. apply app_nil in Ha as [-> _]. unfold tree_of. cbn. by rewrite Hr.
      * intros p. rewrite tree_of_insert. unfold put, make_path, graft.
        destruct p as [|n p]; [by rewrite bool_decide_eq_false_2, bool_decide_eq_true_2
          by (done || apply prefix_nil)|].
        cbn [strip_names]. case_bool_decide as Hn; [subst n|].
        -- cbn [strip_names]. rewrite tree_of_file. destruct p as [|n p]; [by rewrite bool_decide_eq_true_2|].
           rewrite !bool_decide_eq_false_2; [by unfold tree_of; cbn; rewrite Hr| |done].
           by intros ?%prefix_cons_inv_2%prefix_nil_not.
        -- rewrite !bool_decide_eq_false_2; [done| |by intros [= ? _]]. by intros ?%prefix_cons_inv_1.
  - change (insert_file_at path file (name :: n2 :: names)) with
      (enter name (Ok VfsDirectory_default) (VfsError.PathConflict path "file")
        (insert_file_at path file (n2 :: names))).
    destruct (root !! name) as [[f|directory]|] eqn:Hr.
    { unfold enter. rewrite Hr. intros [= <- <-] [_ H]. apply (H [name] f).
      - apply prefix_cons, prefix_nil.
      - unfold tree_of. cbn. by rewrite Hr. }
    all: assert (∀ file, root !! name ≠ Some (VfsEntry.File file)) as Hf by (intros; by rewrite Hr).
    all: rewrite enter_or_new by done; pose proof (vacant_child root name (n2 :: names) Hf) as Hvac.
    all: destruct (insert_file_at _ _ _ _) as [r0 d'] eqn:Hc; intros [= <- <-].
    all: apply IH in Hc; [|done]; destruct r0 as [u|error]; [|by rewrite Hvac].
    all: destruct Hc as (Hno & Hw & Ht); split_and!; [by apply Hvac| |intros p; by apply put_child].
    all: pose proof (weight_child_or_new root name d' Hf) as Hi; rewrite Hw in Hi;
      rewrite (plus_comm (weight (VfsEntry.File file))), <- plus_assoc in Hi;
      by apply plus_cancel_l in Hi.
Qed.

(** Putting one file after the other, and whether there is room for each. *)
Abbreviation Listing := (list (list string * VfsFile)) (only parsing).
Fixpoint put_all (files : Listing) (tree : Tree) : Tree :=
  match files with
  | [] => tree
  | (names, file) :: files => put_all files (put names file tree)
  end.
Fixpoint placeable (files : Listing) (tree : Tree) : Prop :=
  match files with
  | [] => True
  | (names, file) :: files => vacant tree names ∧ placeable files (put names file tree)
  end.

Lemma put_same names file tree : put names file tree names = Some (Kind.File file).
Proof. unfold put. by rewrite bool_decide_eq_true_2. Qed.
(** A file stays where it is, and nothing else becomes one. *)
Lemma put_file names file tree path found :
  vacant tree names → tree path = Some (Kind.File found) →
  put names file tree path = Some (Kind.File found).
Proof.
  intros [Hn Hf] Hp. unfold put, make_path. rewrite !bool_decide_eq_false_2; [done| |].
  - intros Hpre. by eapply Hf.
  - intros ->. congruence.
Qed.
Lemma put_file_inv names file tree path found :
  put names file tree path = Some (Kind.File found) →
  (path, found) = (names, file) ∨ tree path = Some (Kind.File found).
Proof.
  unfold put, make_path. case_bool_decide as Hn; [intros [= <-]; left; by subst|].
  case_bool_decide; [done|]. by right.
Qed.
Lemma put_directory names file tree path :
  vacant tree names →
  put names file tree path = Some Kind.Directory ↔
  tree path = Some Kind.Directory ∨ path `prefix_of` names ∧ path ≠ names.
Proof.
  intros [Hn _]. unfold put, make_path. case_bool_decide as He; [subst; naive_solver congruence|].
  case_bool_decide; naive_solver.
Qed.
Lemma put_all_file files tree path found :
  placeable files tree →
  put_all files tree path = Some (Kind.File found) ↔
  tree path = Some (Kind.File found) ∨ (path, found) ∈ files.
Proof.
  revert tree. induction files as [|[names file] files IH]; intros tree.
  - intros _. cbn. rewrite elem_of_nil. tauto.
  - cbn [placeable put_all]. intros [Hv Hrest]. rewrite IH, elem_of_cons by done. split.
    + intros [[?|?]%put_file_inv|?]; naive_solver.
    + intros [?|[[= -> ->]|?]]; [left; by apply put_file|left; apply put_same|by right].
Qed.
Lemma put_all_directory files tree path :
  placeable files tree →
  put_all files tree path = Some Kind.Directory ↔
  tree path = Some Kind.Directory ∨
  ∃ names file, (names, file) ∈ files ∧ path `prefix_of` names ∧ path ≠ names.
Proof.
  revert tree. induction files as [|[names file] files IH]; intros tree.
  - intros _. cbn. setoid_rewrite elem_of_nil. naive_solver.
  - cbn [placeable put_all]. intros [Hv Hrest]. rewrite IH, put_directory by done.
    setoid_rewrite elem_of_cons. naive_solver.
Qed.

(** Two maps with files and directories at the same places. *)
Definition alike (tree tree' : Tree) : Prop := ∀ path,
  (tree path = None ↔ tree' path = None) ∧
  (tree path = Some Kind.Directory ↔ tree' path = Some Kind.Directory).
Lemma alike_file tree tree' path file :
  alike tree tree' → tree path = Some (Kind.File file) → ∃ file', tree' path = Some (Kind.File file').
Proof.
  intros Ha Hp. destruct (Ha path) as [Hn Hd]. destruct (tree' path) as [[file'|]|] eqn:H'.
  - by exists file'.
  - destruct Hd as [_ Hd]. by rewrite Hd in Hp.
  - destruct Hn as [_ Hn]. by rewrite Hn in Hp.
Qed.
Lemma alike_sym tree tree' : alike tree tree' → alike tree' tree.
Proof. intros Ha path. destruct (Ha path). by split. Qed.
Lemma alike_vacant tree tree' names : alike tree tree' → vacant tree names → vacant tree' names.
Proof.
  intros Ha [Hn Hf]. split; [by apply Ha|]. intros above file Hp Hfile.
  apply (alike_file tree' tree) in Hfile as [file' Hfile]; [|by apply alike_sym]. by eapply Hf.
Qed.
Lemma alike_put tree tree' names file file' :
  alike tree tree' → alike (put names file tree) (put names file' tree').
Proof. intros Ha path. unfold put, make_path. repeat case_bool_decide; [done..|]. apply Ha. Qed.
Lemma placeable_alike files files' tree tree' :
  files.*1 = files'.*1 → alike tree tree' → placeable files tree → placeable files' tree'.
Proof.
  revert files' tree tree'. induction files as [|[names file] files IH];
    intros [|[names' file'] files'] tree tree'; try done.
  cbn. intros [= <- Hl] Ha [Hv Hrest]. split; [by eapply alike_vacant|].
  eapply IH; [done|by apply alike_put|done].
Qed.
Lemma alike_eq tree tree' : (∀ path, tree path = tree' path) → alike tree tree'.
Proof. intros He path. by rewrite He. Qed.
Lemma put_ext names file tree tree' :
  (∀ path, tree path = tree' path) → ∀ path, put names file tree path = put names file tree' path.
Proof. intros He path. unfold put, make_path. by rewrite He. Qed.
Lemma put_all_ext files tree tree' :
  (∀ path, tree path = tree' path) → ∀ path, put_all files tree path = put_all files tree' path.
Proof.
  revert tree tree'. induction files as [|[names file] files IH]; intros tree tree' He; [done|].
  cbn. apply IH. by apply put_ext.
Qed.

(** The loops over the files *)
Definition listed (staged : InlineFile * BlobRef) : list string * VfsFile :=
  (VfsPath.components staged.1.(InlineFile.path), inline_file_entry staged.2 staged.1).
Definition below_root (file : InlineFile) : Prop := VfsPath.components file.(InlineFile.path) ≠ [].
Lemma validation_places blob_ref files root u root' :
  Forall below_root files →
  for_each (λ file, insert_file file.(InlineFile.path) (inline_file_entry blob_ref file)) files root
    = (Ok u, root') →
  placeable (listed <$> ((λ file, (file, blob_ref)) <$> files)) (tree_of (VfsEntry.Directory root)).
Proof.
  intros Hb. revert root. induction Hb as [|file files Hne Hb IH]; intros root; [done|].
  cbn [for_each fmap list_fmap listed placeable fst snd]. unfold mbind, Reducer_bind, insert_file.
  destruct (insert_file_at _ _ _ _) as [r root1] eqn:Hi. apply insert_file_at_spec in Hi; [|done].
  destruct r as [u1|error]; [|done]. destruct Hi as (Hv & _ & Ht). intros Hrest%IH. split; [done|].
  eapply placeable_alike; [done| |exact Hrest]. by apply alike_eq.
Qed.
Definition bytes_of (staged : list (InlineFile * BlobRef)) : N :=
  foldr N.add 0%N (map (λ p, byte_len p.1.(InlineFile.bytes)) staged).
Lemma staging_puts staged manifest :
  Forall (λ p, below_root p.1) staged → placeable (listed <$> staged) (manifest_tree manifest) →
  ∃ manifest', for_each stage_inline_file staged manifest = (Ok tt, manifest') ∧
    (∀ path, manifest_tree manifest' path = put_all (listed <$> staged) (manifest_tree manifest) path) ∧
    manifest'.(VfsSnapshotManifest.schema_version) = manifest.(VfsSnapshotManifest.schema_version) ∧
    (manifest.(VfsSnapshotManifest.totals) =
       weight (VfsEntry.Directory manifest.(VfsSnapshotManifest.root)) →
     manifest'.(VfsSnapshotManifest.totals) =
       weight (VfsEntry.Directory manifest'.(VfsSnapshotManifest.root))) ∧
    manifest'.(VfsSnapshotManifest.totals).(VfsTotals.bytes) =
      (manifest.(VfsSnapshotManifest.totals).(VfsTotals.bytes) + bytes_of staged)%N.
Proof.
  intros Hb. revert manifest. induction Hb as [|[file blob_ref] staged Hne Hb IH]; intros manifest.
  { intros _. exists manifest. split_and!; [done..|]. unfold bytes_of. cbn. lia. }
  cbn [for_each fmap list_fmap placeable]. unfold listed at 1. cbn [fst snd].
  intros [Hv Hrest]. unfold mbind at 1, Reducer_bind at 1. unfold stage_inline_file at 1.
  unfold mbind at 1, Reducer_bind at 1, on_root at 1, insert_file at 1.
  destruct (insert_file_at _ _ _ _) as [r root1] eqn:Hi.
  apply insert_file_at_spec in Hi; [|done]. destruct r as [u|error]; [|by destruct Hi].
  destruct Hi as (_ & Hw & Ht). unfold on_totals at 1, modify_state at 1.
  set (manifest1 := _ <| VfsSnapshotManifest.totals := _ |>).
  assert (∀ path, manifest_tree manifest1 path = put (VfsPath.components file.(InlineFile.path))
    (inline_file_entry blob_ref file) (manifest_tree manifest) path) as Ht1 by exact Ht.
  destruct (IH manifest1) as (manifest' & Hrun & Htree & Hschema & Htotals & Hbytes).
  { eapply placeable_alike; [done| |exact Hrest]. by apply alike_eq. }
  exists manifest'. split_and!; [exact Hrun| |exact Hschema| |].
  - intros path. rewrite Htree. cbn [put_all]. by apply put_all_ext.
  - intros He. apply Htotals.
    change (weight _) with (weight (VfsEntry.Directory root1)). rewrite Hw, <- He.
    unfold manifest1. apply totals_eq; reflexivity.
  - rewrite Hbytes.
    change (bytes_of ((file, blob_ref) :: staged))
      with (byte_len file.(InlineFile.bytes) + bytes_of staged)%N.
    rewrite N.add_assoc. f_equal. unfold manifest1. apply N.add_comm.
Qed.
Lemma validate_inline_limits_Ok limits seen total_bytes files blob_refs u :
  (total_bytes <= u64_max)%N → length blob_refs = length files →
  validate_inline_limits limits seen total_bytes files = Ok u →
  Forall below_root files ∧ (total_bytes + bytes_of (zip files blob_refs) <= u64_max)%N.
Proof.
  revert seen total_bytes blob_refs. induction files as [|file files IH];
    intros seen total_bytes blob_refs Hle Hl.
  { intros _. split; [constructor|]. unfold bytes_of. cbn. lia. }
  destruct blob_refs as [|blob_ref blob_refs]; [done|]. injection Hl as Hl.
  cbn [validate_inline_limits]. intros Hok. simplify_ok.
  rename select (total_bytes + _ <= u64_max)%N into Hle'.
  destruct (IH _ _ blob_refs Hle' Hl Hok) as [Hb Hsum]. split.
  - constructor; [|done]. unfold below_root, VfsPath.components.
    rename select (VfsPath.is_root _ = false) into Hroot. rewrite Hroot. unfold split.
    intros Hm%fmap_nil_inv. by destruct (split_chars_join "/"
      (chars (VfsPath.trim_start_slashes file.(InlineFile.path)))).
  - change (bytes_of (zip (file :: files) (blob_ref :: blob_refs)))
      with (byte_len file.(InlineFile.bytes) + bytes_of (zip files blob_refs))%N. lia.
Qed.

Lemma listed_names files (blob_ref : BlobRef) blob_refs :
  length blob_refs = length files →
  (listed <$> ((λ file, (file, blob_ref)) <$> files)).*1 = (listed <$> zip files blob_refs).*1.
Proof.
  intros Hlen. rewrite <- !list_fmap_compose.
  transitivity ((λ file, VfsPath.components file.(InlineFile.path)) <$> files); [done|].
  rewrite <- (fst_zip files blob_refs) at 1 by lia. by rewrite <- list_fmap_compose.
Qed.
(** What is listed, from nothing. *)
Lemma listed_tree files blob_refs (start : Tree) :
  length blob_refs = length files → placeable (listed <$> zip files blob_refs) start →
  (∀ names, start names = match names with [] => Some Kind.Directory | _ => None end) →
  (∀ names found,
     put_all (listed <$> zip files blob_refs) start names = Some (Kind.File found) ↔
     ∃ file blob_ref, (file, blob_ref) ∈ zip files blob_refs ∧
       names = VfsPath.components file.(InlineFile.path) ∧
       found = inline_file_entry blob_ref file) ∧
  ∀ names, put_all (listed <$> zip files blob_refs) start names = Some Kind.Directory ↔
    names = [] ∨ ∃ file, file ∈ files ∧
      names `prefix_of` VfsPath.components file.(InlineFile.path) ∧
      names ≠ VfsPath.components file.(InlineFile.path).
Proof.
  intros Hlen Hplace Hstart. split.
  - intros names found. rewrite put_all_file, Hstart, list_elem_of_fmap by done. split.
    + intros [Hs|([file blob_ref] & [= -> ->] & Hin)]; [by destruct names|by exists file, blob_ref].
    + intros (file & blob_ref & Hin & -> & ->). right. by exists (file, blob_ref).
  - intros names. rewrite put_all_directory, Hstart by done.
    assert ((match names with [] => Some Kind.Directory | _ => None end) = Some Kind.Directory
      ↔ names = []) as -> by by destruct names.
    f_equiv. setoid_rewrite list_elem_of_fmap. split.
    + intros (names' & file' & ([file blob_ref] & [= -> ->] & Hin%elem_of_zip_l) & Hp). by exists file.
    + intros (file & Hin & Hp). rewrite <- (fst_zip files blob_refs) in Hin by lia.
      apply list_elem_of_fmap in Hin as (p & -> & Hin). eexists _, _. split; [by exists p|done].
Qed.
Section inline.
Context `{!Externals}.
(** C28. A snapshot of given files is these files: whatever passes validation builds, and the
    manifest is consistent, holds each file at its path with its content and no other file, and
    exactly the directories that lead to them. *)
Theorem inline_snapshot_holds_its_files files limits blob_refs :
  validate_inline_files files limits = Ok tt → length blob_refs = length files →
  Forall (λ file, VfsPath.parse file.(InlineFile.path) = Ok file.(InlineFile.path)) files →
  ∃ manifest, inline_manifest files blob_refs = Ok manifest ∧ consistent manifest ∧
    (∀ names found, manifest_tree manifest names = Some (Kind.File found) ↔
       ∃ file blob_ref, (file, blob_ref) ∈ zip files blob_refs ∧
         names = VfsPath.components file.(InlineFile.path) ∧
         found = inline_file_entry blob_ref file) ∧
    ∀ names, manifest_tree manifest names = Some Kind.Directory ↔
      names = [] ∨ ∃ file, file ∈ files ∧
        names `prefix_of` VfsPath.components file.(InlineFile.path) ∧
        names ≠ VfsPath.components file.(InlineFile.path).
Proof.
  intros Hok Hlen Hcan. unfold validate_inline_files in Hok. simplify_ok.
  rename select (validate_inline_limits _ _ _ _ = _) into Hlimits.
  destruct (validate_inline_limits_Ok limits [] 0 files blob_refs tt ltac:(done) Hlen Hlimits)
    as [Hb Hsum].
  match type of Hok with fst ?loop = _ => destruct loop as [r root] eqn:Hloop end.
  assert (r = Ok tt) as -> by done. apply (validation_places _ _ _ _ _ Hb) in Hloop.
  set (start := tree_of (VfsEntry.Directory VfsDirectory_default)) in *.
  assert (placeable (listed <$> zip files blob_refs) start) as Hplace.
  { eapply placeable_alike; [by apply listed_names|by apply alike_eq|exact Hloop]. }
  assert (Forall (λ p, below_root p.1) (zip files blob_refs)) as Hbz.
  { apply Forall_forall. intros [file blob_ref] Hin%elem_of_zip_l.
    rewrite Forall_forall in Hb. by apply Hb. }
  destruct (staging_puts _ VfsSnapshotManifest_empty Hbz Hplace)
    as (manifest & Hrun & Htree & Hschema & Htotals & Hbytes).
  change (manifest_tree VfsSnapshotManifest_empty) with start in Htree.
  destruct (listed_tree files blob_refs start Hlen Hplace tree_of_empty) as [Hfiles Hdirs].
  setoid_rewrite <- Htree in Hfiles. setoid_rewrite <- Htree in Hdirs.
  exists manifest. split_and!; [| |exact Hfiles|exact Hdirs].
  - unfold inline_manifest. by rewrite Hrun.
  - split_and!; [by rewrite Hschema| |by apply Htotals|by rewrite Hbytes].
    intros names [[found|] Hkind].
    + apply Hfiles in Hkind as (file & blob_ref & Hin%elem_of_zip_l & -> & _).
      rewrite Forall_forall in Hcan. by apply (parse_canonical _ _ (Hcan _ Hin)).
    + apply Hdirs in Hkind as [->|(file & Hin & Hp & _)]; [constructor|].
      rewrite Forall_forall in Hcan. eapply valid_prefix; [|exact Hp].
      by apply (parse_canonical _ _ (Hcan _ Hin)).
Qed.
End inline.

(** ** Renaming *)
Lemma tree_above entry names rest :
  is_Some (tree_of entry (names ++ rest)) → rest ≠ [] → tree_of entry names = Some Kind.Directory.
Proof.
  unfold tree_of. rewrite find_app. destruct (find entry names) as [[file|directory]|]; cbn.
  - destruct rest; [done|]. by intros [].
  - done.
  - by intros [].
Qed.
Lemma tree_below entry names rest :
  tree_of entry names ≠ Some Kind.Directory → rest ≠ [] → tree_of entry (names ++ rest) = None.
Proof.
  intros Hn Hr. destruct (tree_of entry (names ++ rest)) eqn:H; [|done].
  destruct Hn. eapply tree_above; [by rewrite H|done].
Qed.
Lemma parent_last names : names ≠ [] → ∃ last, names = parent_components names ++ [last].
Proof. intros Hn. exists (List.last names ""). by apply app_removelast_last. Qed.
(** When a file can be moved, and what it leaves. *)
Definition movable (tree : Tree) (source destination : list string) (file : VfsFile)
    (overwrite : bool) : Prop :=
  tree source = Some (Kind.File file) ∧ has_parent tree destination ∧
  ¬ is_directory_at tree destination ∧ (overwrite = false → tree destination = None).
Definition move (source destination : list string) (file : VfsFile) (tree : Tree) : Tree := λ path,
  if bool_decide (path = destination) then Some (Kind.File file)
  else if bool_decide (path = source) then None else tree path.

(** Moved onto itself, a file stays. *)
Lemma placed_again entry names file path :
  tree_of entry names ≠ Some Kind.Directory →
  graft names (tree_of (VfsEntry.File file)) (tree_of entry) path =
  move names names file (tree_of entry) path.
Proof.
  intros Hd. unfold move, graft. destruct (strip_names names path) as [rest|] eqn:Hstrip.
  - apply strip_names_Some in Hstrip as ->. rewrite tree_of_file. destruct rest as [|n rest].
    + by rewrite app_nil_r, bool_decide_eq_true_2.
    + rewrite bool_decide_eq_false_2; [symmetry; by apply tree_below|].
      intros Heq%(f_equal length). rewrite length_app in Heq. cbn in Heq. lia.
  - apply strip_names_None in Hstrip. by rewrite !bool_decide_eq_false_2 by (by intros ->).
Qed.

Section moved.
Context (entry : VfsEntry) (source destination : list string) (file : VfsFile) (overwrite : bool).
Let tree := tree_of entry.
Context (Hmovable : movable tree source destination file overwrite) (Hne : source ≠ destination).
Let placed := graft destination (tree_of (VfsEntry.File file)) tree.
Lemma destination_not_above rest : source ≠ destination ++ rest.
Proof.
  intros ->. destruct Hmovable as (Hs & _ & Hd & _). destruct rest as [|name rest].
  - by rewrite app_nil_r in Hne.
  - apply Hd, (tree_above entry destination (name :: rest)); [|done]. unfold tree in Hs.
    by rewrite Hs.
Qed.
Lemma source_not_above rest : destination ≠ source ++ rest.
Proof.
  intros Heq. destruct Hmovable as (Hs & [Hd Hp] & _).
  destruct rest as [|name rest] using rev_ind; [by rewrite app_nil_r in Heq|]. clear IHrest.
  assert (parent_components destination = source ++ rest) as Hpar.
  { rewrite Heq, app_assoc. apply removelast_last. }
  unfold is_directory_at in Hp. rewrite Hpar in Hp. destruct rest as [|n rest].
  - rewrite app_nil_r in Hp. unfold tree in *. congruence.
  - unfold tree in *. rewrite tree_below in Hp; [done| |done]. by rewrite Hs.
Qed.
Lemma placed_source : placed source = Some (Kind.File file).
Proof.
  unfold placed, graft. destruct (strip_names destination source) as [rest|] eqn:Hs.
  - apply strip_names_Some in Hs. by apply destination_not_above in Hs.
  - apply Hmovable.
Qed.
Lemma placed_above : no_file_above placed (parent_components source).
Proof.
  intros above found Ha Hf. destruct Hmovable as (Hs & _).
  assert (∃ rest, rest ≠ [] ∧ source = above ++ rest) as (rest & Hr & Heq).
  { destruct (parent_last source) as [last Hl].
    - intros Hn. destruct (source_not_above destination). by rewrite Hn.
    - destruct Ha as [rest Hrest]. exists (rest ++ [last]). split; [by destruct rest|].
      by rewrite app_assoc, <- Hrest. }
  unfold placed, graft in Hf. destruct (strip_names destination above) as [rest'|] eqn:Hd.
  - apply strip_names_Some in Hd as ->. rewrite <- app_assoc in Heq.
    by apply destination_not_above in Heq.
  - unfold tree in *. rewrite (tree_above entry above rest) in Hf; [done| |done].
    rewrite <- Heq. by rewrite Hs.
Qed.
Lemma placed_moved path : graft source no_tree placed path = move source destination file tree path.
Proof.
  unfold graft at 1, move. destruct (strip_names source path) as [rest|] eqn:Hs.
  - apply strip_names_Some in Hs as ->. rewrite bool_decide_eq_false_2.
    + unfold no_tree. case_bool_decide as Hp; [done|]. symmetry. apply tree_below.
      * destruct Hmovable as (Hf & _). unfold tree in Hf. by rewrite Hf.
      * intros ->. by rewrite app_nil_r in Hp.
    + intros Heq. by eapply source_not_above.
  - apply strip_names_None in Hs. rewrite (bool_decide_eq_false_2 (path = source)) by (by intros ->).
    unfold placed, graft. destruct (strip_names destination path) as [rest|] eqn:Hd.
    + apply strip_names_Some in Hd as ->. rewrite tree_of_file. destruct rest as [|name rest].
      * by rewrite app_nil_r, bool_decide_eq_true_2.
      * rewrite bool_decide_eq_false_2; [|intros Heq%(f_equal length); rewrite length_app in Heq; cbn in Heq; lia].
        symmetry. apply tree_below; [apply Hmovable|done].
    + apply strip_names_None in Hd. by rewrite bool_decide_eq_false_2 by (by intros ->).
Qed.
End moved.
Lemma lookup_file manifest names :
  valid_names names →
  match manifest_tree manifest names with
  | Some (Kind.File file) =>
      lookup_snapshot_path manifest (path_from_components names) = Ok (VfsNode.File file)
  | Some Kind.Directory =>
      ∃ directory, lookup_snapshot_path manifest (path_from_components names)
        = Ok (VfsNode.Directory directory)
  | None => is_err (lookup_snapshot_path manifest (path_from_components names)) = true
  end.
Proof.
  intros Hv. pose proof (lookup_spec manifest names Hv) as Hl. unfold manifest_tree, tree_of.
  destruct (find _ names) as [[file|directory]|]; [done|by exists directory|done].
Qed.
Lemma lookup_is_ok manifest names :
  valid_names names →
  is_ok (lookup_snapshot_path manifest (path_from_components names)) =
  bool_decide (manifest_tree manifest names ≠ None).
Proof.
  intros Hv. pose proof (lookup_file manifest names Hv) as Hl.
  destruct (manifest_tree manifest names) as [[file|]|].
  - by rewrite Hl, bool_decide_eq_true_2.
  - destruct Hl as [directory ->]. by rewrite bool_decide_eq_true_2.
  - rewrite bool_decide_eq_false_2 by auto. by destruct (lookup_snapshot_path _ _).
Qed.
Lemma mapped_run path change manifest r manifest' :
  mapped path change manifest = (r, manifest') →
  ∃ r0, change manifest = (r0, manifest') ∧ r = map_err (map_vfs_error path) r0.
Proof. unfold mapped. destruct (change manifest) as [r0 m]. intros [= <- <-]. by exists r0. Qed.
Lemma place_file_spec request names file options manifest r manifest' :
  sound manifest → valid_names names →
  place_manifest_file (path_from_components names) request file options manifest = (r, manifest') →
  let tree := manifest_tree manifest in
  let room := has_parent tree names ∧ ¬ is_directory_at tree names ∧
    (options.(RenameOptions.overwrite) = false → tree names = None) in
  match r with
  | Ok _ => room ∧ sound manifest' ∧
      ∀ path, manifest_tree manifest' path = graft names (tree_of (VfsEntry.File file)) tree path
  | Err _ =>
      room → ¬ fits (plus manifest.(VfsSnapshotManifest.totals) (weight (VfsEntry.File file)))
  end.
Proof.
  intros Hs Hv Hrun tree room. apply bind_outcome in Hrun as [(e & -> & Hget)|(m & s1 & Hget & Hrun)];
    [done|]. injection Hget as <- <-.
  apply bind_outcome in Hrun as [(e & -> & Hrej)|(u & s1 & Hrej & Hrun)].
  - rewrite lookup_is_ok in Hrej by done.
    destruct options.(RenameOptions.overwrite) eqn:Ho; [done|]. cbn [negb andb] in Hrej.
    case_bool_decide as Hn; [|done]. intros (_ & _ & H). unfold room, tree in *. by destruct Hn; apply H.
  - rewrite lookup_is_ok in Hrej by done.
    assert (options.(RenameOptions.overwrite) = false → tree names = None) as Hfree.
    { intros Ho. rewrite Ho in Hrej. cbn [negb andb] in Hrej. by case_bool_decide. }
    assert (s1 = manifest) as -> by (destruct (_ && _); by injection Hrej).
    apply mapped_run in Hrun as (r0 & Hrun & ->).
    pose proof (update_refines (Update.Write names file) manifest r0 manifest' Hs Hv Hrun) as Hspec.
    destruct r0 as [u0|error]; cbn [map_err].
    + destruct Hspec as ([Hp Hd] & Hs' & Ht). by split_and!.
    + intros (Hp & Hd & _). by apply Hspec.
Qed.

Lemma rename_update_spec request request' source destination options manifest :
  sound manifest → valid_names source → valid_names destination →
  match changed (VfsWorkspaceFileSystem.rename_update request request'
    (path_from_components source) (path_from_components destination) options) manifest with
  | Ok manifest' => ∃ file,
      movable (manifest_tree manifest) source destination file options.(RenameOptions.overwrite) ∧
      sound manifest' ∧
      ∀ path, manifest_tree manifest' path =
        move source destination file (manifest_tree manifest) path
  | Err _ => ∀ file,
      movable (manifest_tree manifest) source destination file options.(RenameOptions.overwrite) →
      ¬ fits (plus manifest.(VfsSnapshotManifest.totals) (weight (VfsEntry.File file)))
  end.
Proof.
  intros Hs Hvs Hvd. unfold changed. destruct (VfsWorkspaceFileSystem.rename_update _ _ _ _ _ _)
    as [r manifest2] eqn:Hrun.
  apply bind_outcome in Hrun as [(e & -> & Hget)|(m & s1 & Hget & Hrun)]; [done|].
  injection Hget as <- <-. pose proof (lookup_file manifest source Hvs) as Hl.
  unfold movable. destruct (manifest_tree manifest source) as [[file|]|] eqn:Hsrc.
  2: { destruct Hl as [directory Hl]. rewrite Hl in Hrun. injection Hrun as <- <-. naive_solver. }
  2: { destruct (lookup_snapshot_path manifest _); [done|]. injection Hrun as <- <-. naive_solver. }
  rewrite Hl in Hrun. clear Hl.
  apply bind_outcome in Hrun as [(e & _ & Hlift)|(found & s1 & Hlift & Hrun)]; [done|].
  injection Hlift as <- <-.
  apply bind_outcome in Hrun as [(e & -> & Hplace)|(u & manifest1 & Hplace & Hrun)];
    apply place_file_spec in Hplace; [naive_solver|done..| |done|done].
  destruct Hplace as ((Hp & Hd & Hfree) & Hs1 & Ht1).
  destruct (decide (source = destination)) as [->|Hne].
  - rewrite bool_decide_eq_false_2 in Hrun by auto. injection Hrun as <- <-. exists file.
    split_and!; [done..|]. intros path. rewrite Ht1. by apply placed_again.
  - rewrite bool_decide_eq_true_2 in Hrun by by rewrite path_from_inj.
    apply mapped_run in Hrun as (r0 & Hrun & ->).
    assert (movable (manifest_tree manifest) source destination file
      options.(RenameOptions.overwrite)) as Hm by done.
    pose proof (update_refines (Update.Remove source false false) manifest1 r0 manifest2 Hs1 Hvs Hrun)
      as Hspec. cbn [allowed effect added_weight] in Hspec.
    pose proof (placed_source _ _ _ _ _ Hm Hne) as Hsource. fold (manifest_tree manifest) in Hsource.
    destruct r0 as [u0|error]; cbn [map_err].
    + destruct Hspec as (_ & Hs2 & Ht2). exists file. split_and!; [done..|]. intros path.
      rewrite Ht2. rewrite <- (placed_moved _ _ _ _ _ Hm Hne). by apply graft_ext.
    + exfalso. apply Hspec.
      * split_and!.
        -- intros Hn. apply (source_not_above _ _ _ _ _ Hm Hne destination). by rewrite Hn.
        -- intros above found Ha. rewrite Ht1. by apply (placed_above _ _ _ _ _ Hm Hne).
        -- intros Hnone. rewrite Ht1 in Hnone. congruence.
        -- intros Hdir. unfold is_directory_at in Hdir. rewrite Ht1 in Hdir. congruence.
      * destruct Hs1 as [_ Hfits]. unfold fits in *. cbn. lia.
Qed.

(** C26. A rename moves one file: it succeeds exactly where there is a file to move and room for it,
    unless the totals would not fit; then the file is at its destination with its content, media
    type and mode, gone from its source, and every other path is as it was. *)
Theorem rename_moves_one_file request request' source destination options manifest :
  sound manifest → valid_names source → valid_names destination →
  match changed (VfsWorkspaceFileSystem.rename_update request request'
    (path_from_components source) (path_from_components destination) options) manifest with
  | Ok manifest' => ∃ file,
      movable (manifest_tree manifest) source destination file options.(RenameOptions.overwrite) ∧
      sound manifest' ∧
      ∀ path, manifest_tree manifest' path =
        move source destination file (manifest_tree manifest) path
  | Err _ => ∀ file,
      movable (manifest_tree manifest) source destination file options.(RenameOptions.overwrite) →
      ¬ fits (plus manifest.(VfsSnapshotManifest.totals) (weight (VfsEntry.File file)))
  end.
Proof. apply rename_update_spec. Qed.
