(* ===== verification/Patch.v ===== *)
(** * Patches of text

    The patches a model writes: their grammar, where the lines of a hunk are found in a file, and
    the text a hunk leaves ([crates/tools/src/fs/apply_patch/{parser,seek_sequence,engine}.rs]),
    and the replacements of [edit_file] ([crates/tools/src/fs/tools/edit_file.rs]). *)
From Stdlib Require Import Ascii.
From S2P Require Import Prelude Ids Text.
Set Primitive Projections.

(** ** Lines *)
Definition newline : ascii := "010".
Definition NL : string := String newline "".
Definition carriage_return : ascii := "013".
(** [str::trim_end]. *)
Definition trim_end (s : string) : string := of_chars (trim_end_chars (chars s)).
Definition ends_with (suffix s : string) : bool := is_some (strip_suffix suffix s).
(** One line of [str::lines], without the carriage return of its line ending. *)
Definition strip_return (line : string) : string :=
  default line (strip_suffix (String carriage_return "") line).
(** [str::lines]: the text after the last line ending is a line when there is any; only a line that
    was ended loses its carriage return. *)
Fixpoint lines_of (parts : list string) : list string :=
  match parts with
  | [] => []
  | [part] => if bool_decide (part = "") then [] else [part]
  | part :: parts => strip_return part :: lines_of parts
  end.
Definition lines (s : string) : list string := lines_of (split newline s).
Definition join_lines (l : list string) : string := String.concat NL l.

(** ** The grammar of patches *)
Definition BEGIN_PATCH_MARKER : string := "*** Begin Patch".
Definition END_PATCH_MARKER : string := "*** End Patch".
Definition ADD_FILE_MARKER : string := "*** Add File: ".
Definition DELETE_FILE_MARKER : string := "*** Delete File: ".
Definition UPDATE_FILE_MARKER : string := "*** Update File: ".
Definition MOVE_TO_MARKER : string := "*** Move to: ".
Definition EOF_MARKER : string := "*** End of File".
Definition CHANGE_CONTEXT_MARKER : string := "@@ ".
Definition EMPTY_CHANGE_CONTEXT_MARKER : string := "@@".
Definition PARSE_IN_STRICT_MODE : bool := false.

Module ParseError.
Inductive ParseError : Type :=
| InvalidPatchError (message : string)
| InvalidHunkError (message : string) (line_number : nat).
End ParseError.
Abbreviation ParseError := ParseError.ParseError.
Module UpdateFileChunk.
Record UpdateFileChunk : Type := {
  change_context : option string;
  old_lines : list string;
  new_lines : list string;
  is_end_of_file : bool;
}.
End UpdateFileChunk.
Abbreviation UpdateFileChunk := UpdateFileChunk.UpdateFileChunk.
Module Hunk.
Inductive Hunk : Type :=
| AddFile (path contents : string)
| DeleteFile (path : string)
| UpdateFile (path : string) (move_path : option string) (chunks : list UpdateFileChunk).
End Hunk.
Abbreviation Hunk := Hunk.Hunk.
Module ParsedPatch.
Record ParsedPatch : Type := {
  patch : string;
  hunks : list Hunk;
  workdir : option string;
}.
End ParsedPatch.
Abbreviation ParsedPatch := ParsedPatch.ParsedPatch.
Module ParseMode.
Inductive ParseMode : Type := Strict | Lenient.
End ParseMode.
Abbreviation ParseMode := ParseMode.ParseMode.

Definition check_start_and_end_lines_strict (first_line last_line : option string)
    : Result ParseError unit :=
  match trim <$> first_line, trim <$> last_line with
  | Some first, Some last =>
      if bool_decide (first = BEGIN_PATCH_MARKER) then
        if bool_decide (last = END_PATCH_MARKER) then Ok tt
        else Err (ParseError.InvalidPatchError
                    "The last line of the patch must be '*** End Patch'")
      else Err (ParseError.InvalidPatchError
                  "The first line of the patch must be '*** Begin Patch'")
  | Some first, None =>
      if bool_decide (first = BEGIN_PATCH_MARKER) then
        Err (ParseError.InvalidPatchError "The last line of the patch must be '*** End Patch'")
      else Err (ParseError.InvalidPatchError
                  "The first line of the patch must be '*** Begin Patch'")
  | None, _ =>
      Err (ParseError.InvalidPatchError "The last line of the patch must be '*** End Patch'")
  end.
(** The slice [&lines[1..lines.len() - 1]]. The start is beyond the end, which panics, for one line,
    which is never both the first line and the last; here it is empty. *)
Definition inner (lines : list string) : list string := removelast (tail lines).
Definition check_patch_boundaries_strict (lines : list string)
    : Result ParseError (list string * list string) :=
  _ ← check_start_and_end_lines_strict (head lines) (last lines);
  mret (lines, inner lines).
Definition quote : string := str_of_bytes [34]%N.
Definition is_heredoc (line : string) : bool :=
  bool_decide (line ∈ ["<<EOF"; "<<'EOF'"; "<<" +:+ quote +:+ "EOF" +:+ quote]).
Definition check_patch_boundaries_lenient (original_lines : list string)
    : Result ParseError (list string * list string) :=
  match check_patch_boundaries_strict original_lines with
  | Ok lines => Ok lines
  | Err original_parse_error =>
      match head original_lines, last original_lines with
      | Some first, Some last =>
          if is_heredoc first && ends_with "EOF" last
             && bool_decide (4 ≤ length original_lines)
          then check_patch_boundaries_strict (inner original_lines)
          else Err original_parse_error
      | _, _ => Err original_parse_error
      end
  end.

(** *** One chunk of an update *)
(** Where the lines of a chunk start, and its context. *)
Definition chunk_start (lines : list string) (line_number : nat) (allow_missing_context : bool)
    : Result ParseError (option string * nat) :=
  match lines with
  | [] =>
      Err (ParseError.InvalidHunkError "Update hunk does not contain any lines" line_number)
  | first :: _ =>
      if bool_decide (first = EMPTY_CHANGE_CONTEXT_MARKER) then Ok (None, 1)
      else match strip_prefix CHANGE_CONTEXT_MARKER first with
           | Some context => Ok (Some context, 1)
           | None =>
               if negb allow_missing_context then
                 Err (ParseError.InvalidHunkError
                        ("Expected update hunk to start with a @@ context marker, got: '"
                         +:+ first +:+ "'") line_number)
               else Ok (None, 0)
           end
  end.
Definition unexpected_line (line_contents : string) : string :=
  "Unexpected line found in update hunk: '" +:+ line_contents
  +:+ "'. Every line should start with ' ' (context line), '+' (added line), or '-' (removed line)".

(** The loop over the lines of a chunk: the old and the new lines, whether the chunk ends at the end
    of the file, and the lines read, of which there are [parsed_lines] already. *)
Fixpoint chunk_lines (lines : list string) (line_number parsed_lines : nat)
    : Result ParseError (list string * list string * bool * nat) :=
  match lines with
  | [] => Ok ([], [], false, parsed_lines)
  | line_contents :: rest =>
      if bool_decide (line_contents = EOF_MARKER) then
        _ ← reject_if (bool_decide (parsed_lines = 0))
              (ParseError.InvalidHunkError "Update hunk does not contain any lines"
                 (line_number + 1));
        mret ([], [], true, parsed_lines + 1)
      else match line_contents with
           | "" =>
               '(old_lines, new_lines, eof, n) ← chunk_lines rest line_number (parsed_lines + 1);
               mret ("" :: old_lines, "" :: new_lines, eof, n)
           | String " " line =>
               '(old_lines, new_lines, eof, n) ← chunk_lines rest line_number (parsed_lines + 1);
               mret (line :: old_lines, line :: new_lines, eof, n)
           | String "+" line =>
               '(old_lines, new_lines, eof, n) ← chunk_lines rest line_number (parsed_lines + 1);
               mret (old_lines, line :: new_lines, eof, n)
           | String "-" line =>
               '(old_lines, new_lines, eof, n) ← chunk_lines rest line_number (parsed_lines + 1);
               mret (line :: old_lines, new_lines, eof, n)
           | String _ _ =>
               _ ← reject_if (bool_decide (parsed_lines = 0))
                     (ParseError.InvalidHunkError (unexpected_line line_contents)
                        (line_number + 1));
               mret ([], [], false, parsed_lines)
           end
  end.
Definition parse_update_file_chunk (lines : list string) (line_number : nat)
    (allow_missing_context : bool) : Result ParseError (UpdateFileChunk * nat) :=
  '(change_context, start_index) ← chunk_start lines line_number allow_missing_context;
  _ ← reject_if (bool_decide (length lines ≤ start_index))
        (ParseError.InvalidHunkError "Update hunk does not contain any lines" (line_number + 1));
  '(old_lines, new_lines, eof, parsed_lines) ←
    chunk_lines (drop start_index lines) line_number 0;
  mret ({| UpdateFileChunk.change_context := change_context;
           UpdateFileChunk.old_lines := old_lines;
           UpdateFileChunk.new_lines := new_lines;
           UpdateFileChunk.is_end_of_file := eof |}, parsed_lines + start_index).

(** *** One hunk *)
(** The lines of an added file. *)
Fixpoint added_lines (lines : list string) (contents : string) (parsed_lines : nat)
    : string * nat :=
  match lines with
  | add_line :: lines =>
      match strip_prefix "+" add_line with
      | Some line_to_add => added_lines lines (contents +:+ line_to_add +:+ NL) (parsed_lines + 1)
      | None => (contents, parsed_lines)
      end
  | [] => (contents, parsed_lines)
  end.
(** The loop over the chunks of an update. Every round reads a line at least, so as many rounds as
    there are lines, and one more, are enough. *)
Fixpoint update_chunks (rounds : nat) (remaining_lines : list string)
    (line_number parsed_lines : nat) (chunks : list UpdateFileChunk)
    : Result ParseError (list UpdateFileChunk * nat) :=
  match rounds, remaining_lines with
  | O, _ | _, [] => Ok (chunks, parsed_lines)
  | S rounds, first :: rest =>
      if bool_decide (trim first = "") then
        update_chunks rounds rest line_number (parsed_lines + 1) chunks
      else if starts_with "*" first then Ok (chunks, parsed_lines)
      else
        '(chunk, chunk_lines) ← parse_update_file_chunk remaining_lines
          (line_number + parsed_lines) (bool_decide (chunks = []));
        update_chunks rounds (drop chunk_lines remaining_lines) line_number
          (parsed_lines + chunk_lines) (chunks ++ [chunk])
  end.
Definition parse_update_hunk (path : string) (lines : list string) (line_number : nat)
    : Result ParseError (Hunk * nat) :=
  let move_path := head lines ≫= strip_prefix MOVE_TO_MARKER in
  let moved := if is_some move_path then 1 else 0 in
  '(chunks, parsed_lines) ← update_chunks (S (length lines)) (drop moved lines) line_number
    (1 + moved) [];
  _ ← reject_if (bool_decide (chunks = []))
        (ParseError.InvalidHunkError
           ("Update file hunk for path '" +:+ path +:+ "' is empty") line_number);
  mret (Hunk.UpdateFile path move_path chunks, parsed_lines).
Definition parse_one_hunk (lines : list string) (line_number : nat)
    : Result ParseError (Hunk * nat) :=
  let first_line := trim (default "" (head lines)) in
  match strip_prefix ADD_FILE_MARKER first_line with
  | Some path =>
      let '(contents, parsed_lines) := added_lines (tail lines) "" 1 in
      Ok (Hunk.AddFile path contents, parsed_lines)
  | None =>
  match strip_prefix DELETE_FILE_MARKER first_line with
  | Some path => Ok (Hunk.DeleteFile path, 1)
  | None =>
  match strip_prefix UPDATE_FILE_MARKER first_line with
  | Some path => parse_update_hunk path (tail lines) line_number
  | None =>
      Err (ParseError.InvalidHunkError
             ("'" +:+ first_line +:+ "' is not a valid hunk header. Valid hunk headers: '*** Add File: {path}', '*** Delete File: {path}', '*** Update File: {path}'")
             line_number)
  end end end.

(** *** A patch *)
(** The loop over the hunks; every round reads a line at least, so as many rounds as there are lines
    are enough ([PatchLaws.parsing_reads_every_line]: a loop that ran out would leave lines unread). *)
Fixpoint parse_hunks (rounds : nat) (remaining_lines : list string) (line_number : nat)
    : Result ParseError (list Hunk) :=
  match rounds, remaining_lines with
  | O, _ | _, [] => Ok []
  | S rounds, _ =>
      '(hunk, hunk_lines) ← parse_one_hunk remaining_lines line_number;
      hunks ← parse_hunks rounds (drop hunk_lines remaining_lines) (line_number + hunk_lines);
      mret (hunk :: hunks)
  end.
Definition parse_patch_text (patch : string) (mode : ParseMode) : Result ParseError ParsedPatch :=
  let lines := lines (trim patch) in
  '(patch_lines, hunk_lines) ← match mode with
    | ParseMode.Strict => check_patch_boundaries_strict lines
    | ParseMode.Lenient => check_patch_boundaries_lenient lines
    end;
  hunks ← parse_hunks (length hunk_lines) hunk_lines 2;
  mret {| ParsedPatch.patch := join_lines patch_lines;
          ParsedPatch.hunks := hunks;
          ParsedPatch.workdir := None |}.
Definition parse_patch (patch : string) : Result ParseError ParsedPatch :=
  let mode := if PARSE_IN_STRICT_MODE then ParseMode.Strict else ParseMode.Lenient in
  parse_patch_text patch mode.

(** ** Where lines are found *)
Definition dashes : list (list ascii) :=
  map (map ascii_of_N)
    [[226; 128; 144]; [226; 128; 145]; [226; 128; 146]; [226; 128; 147]; [226; 128; 148];
     [226; 128; 149]; [226; 136; 146]]%N.
Definition single_quotes : list (list ascii) :=
  map (map ascii_of_N)
    [[226; 128; 152]; [226; 128; 153]; [226; 128; 154]; [226; 128; 155]]%N.
Definition double_quotes : list (list ascii) :=
  map (map ascii_of_N)
    [[226; 128; 156]; [226; 128; 157]; [226; 128; 158]; [226; 128; 159]]%N.
Definition spaces : list (list ascii) :=
  map (map ascii_of_N)
    [[194; 160]; [226; 128; 130]; [226; 128; 131]; [226; 128; 132]; [226; 128; 133];
     [226; 128; 134]; [226; 128; 135]; [226; 128; 136]; [226; 128; 137]; [226; 128; 138];
     [226; 128; 175]; [226; 129; 159]; [227; 128; 128]]%N.
(** The character at the start of some text, as [normalize_line] maps it, when it changes it. *)
Definition normalize_char (l : list ascii) : option (ascii * list ascii) :=
  match strip_first_of dashes l with
  | Some l => Some ("-"%char, l)
  | None =>
  match strip_first_of single_quotes l with
  | Some l => Some ("'"%char, l)
  | None =>
  match strip_first_of double_quotes l with
  | Some l => Some (ascii_of_N 34, l)
  | None =>
  match strip_first_of spaces l with
  | Some l => Some (" "%char, l)
  | None => None
  end end end end.
Fixpoint normalize_chars (rounds : nat) (l : list ascii) : list ascii :=
  match rounds, l with
  | O, _ | _, [] => []
  | S rounds, c :: rest =>
      match normalize_char l with
      | Some (c, rest) => c :: normalize_chars rounds rest
      | None => c :: normalize_chars rounds rest
      end
  end.
Definition normalize_line (line : string) : string :=
  let l := chars (trim line) in of_chars (normalize_chars (length l) l).

(** [pattern] at the start of [lines], as far as [same] tells. *)
Fixpoint begins (same : string → string → bool) (lines pattern : list string) : bool :=
  match pattern, lines with
  | [], _ => true
  | expected :: pattern, line :: lines => same line expected && begins same lines pattern
  | _ :: _, [] => false
  end.
(** The loop of one pass, over the indexes from [index], [bound] included. *)
Definition first_match (same : string → string → bool) (lines pattern : list string)
    (search_start bound : nat) : option nat :=
  List.find (λ index, begins same (drop index lines) pattern)
    (seq search_start (S bound - search_start)).
Definition same_line (line expected : string) : bool := bool_decide (line = expected).
Definition same_but_end (line expected : string) : bool :=
  bool_decide (trim_end line = trim_end expected).
Definition same_trimmed (line expected : string) : bool := bool_decide (trim line = trim expected).
Definition same_normalized (line expected : string) : bool :=
  bool_decide (normalize_line line = normalize_line expected).
Definition or_else {A} (o : option A) (other : option A) : option A :=
  match o with Some _ => o | None => other end.
Definition seek_sequence (lines pattern : list string) (start : nat) (eof : bool) : option nat :=
  if bool_decide (pattern = []) then Some start
  else if bool_decide (length lines < length pattern) then None
  else
    let bound := length lines - length pattern in
    let search_start := if eof && bool_decide (length pattern ≤ length lines) then bound else start in
    or_else (first_match same_line lines pattern search_start bound)
      (or_else (first_match same_but_end lines pattern search_start bound)
         (or_else (first_match same_trimmed lines pattern search_start bound)
            (first_match same_normalized lines pattern search_start bound))).

(** ** The text a hunk leaves *)
(** The first line replaced, the number of lines replaced, and the lines put there. *)
Definition Replacement : Type := nat * nat * list string.
(** [&lines[..lines.len() - 1]] where the last line is empty. *)
Definition ends_empty (lines : list string) : bool := bool_decide (last lines = Some "").
Definition without_empty_end (lines : list string) : list string :=
  if ends_empty lines then removelast lines else lines.
(** Where the old lines of a chunk are, the lines there, and the new ones: as they stand, or without
    an empty line at their end. *)
Definition find_chunk (original_lines : list string) (line_index : nat) (chunk : UpdateFileChunk)
    : option Replacement :=
  let old_lines := chunk.(UpdateFileChunk.old_lines) in
  let new_lines := chunk.(UpdateFileChunk.new_lines) in
  let eof := chunk.(UpdateFileChunk.is_end_of_file) in
  match seek_sequence original_lines old_lines line_index eof with
  | Some start_index => Some (start_index, length old_lines, new_lines)
  | None =>
      if ends_empty old_lines then
        let pattern := removelast old_lines in
        start_index ← seek_sequence original_lines pattern line_index eof;
        Some (start_index, length pattern, without_empty_end new_lines)
      else None
  end.
(** The message names the file and what was not found. *)
Definition seek_context (original_lines : list string) (path : string) (line_index : nat)
    (chunk : UpdateFileChunk) : Result string nat :=
  match chunk.(UpdateFileChunk.change_context) with
  | None => Ok line_index
  | Some ctx_line =>
      match seek_sequence original_lines [ctx_line] line_index false with
      | Some index => Ok (index + 1)
      | None => Err ("Failed to find context '" +:+ ctx_line +:+ "' in " +:+ path)
      end
  end.
Fixpoint chunk_replacements (original_lines : list string) (path : string) (line_index : nat)
    (chunks : list UpdateFileChunk) : Result string (list Replacement) :=
  match chunks with
  | [] => Ok []
  | chunk :: chunks =>
      line_index ← seek_context original_lines path line_index chunk;
      if bool_decide (chunk.(UpdateFileChunk.old_lines) = []) then
        let insertion_index :=
          if ends_empty original_lines then length original_lines - 1 else length original_lines in
        replacements ← chunk_replacements original_lines path line_index chunks;
        mret ((insertion_index, 0, chunk.(UpdateFileChunk.new_lines)) :: replacements)
      else match find_chunk original_lines line_index chunk with
           | Some (start_index, old_len, new_segment) =>
               replacements ← chunk_replacements original_lines path (start_index + old_len) chunks;
               mret ((start_index, old_len, new_segment) :: replacements)
           | None =>
               Err ("Failed to find expected lines in " +:+ path +:+ ":" +:+ NL
                    +:+ join_lines chunk.(UpdateFileChunk.old_lines))
           end
  end.
(** [sort_by_key], which is stable. *)
Fixpoint insert_replacement (replacement : Replacement) (sorted : list Replacement)
    : list Replacement :=
  match sorted with
  | [] => [replacement]
  | first :: rest =>
      if bool_decide (replacement.1.1 ≤ first.1.1) then replacement :: sorted
      else first :: insert_replacement replacement rest
  end.
Definition sort_replacements (replacements : list Replacement) : list Replacement :=
  foldr insert_replacement [] replacements.
Definition compute_replacements (original_lines : list string) (path : string)
    (chunks : list UpdateFileChunk) : Result string (list Replacement) :=
  replacements ← chunk_replacements original_lines path 0 chunks;
  mret (sort_replacements replacements).

Fixpoint remove_lines (count start_index : nat) (lines : list string) : list string :=
  match count with
  | O => lines
  | S count =>
      remove_lines count start_index
        (if bool_decide (start_index < length lines) then delete start_index lines else lines)
  end.
(** [Vec::insert] of each line; it panics beyond the end of the lines, where no replacement is. *)
Fixpoint insert_lines (index : nat) (new_segment lines : list string) : list string :=
  match new_segment with
  | [] => lines
  | new_line :: new_segment =>
      insert_lines (S index) new_segment (take index lines ++ new_line :: drop index lines)
  end.
Definition apply_replacement (lines : list string) (replacement : Replacement) : list string :=
  let '(start_index, old_len, new_segment) := replacement in
  insert_lines start_index new_segment (remove_lines old_len start_index lines).
Definition apply_replacements (lines : list string) (replacements : list Replacement)
    : list string :=
  foldl apply_replacement lines (rev replacements).
Definition derive_new_contents (original_contents path : string) (chunks : list UpdateFileChunk)
    : Result string string :=
  let original_lines := without_empty_end (split newline original_contents) in
  replacements ← compute_replacements original_lines path chunks;
  let new_lines := apply_replacements original_lines replacements in
  mret (join_lines (if ends_empty new_lines then new_lines else new_lines ++ [""])).

(** ** Replacing text *)
(** The pieces between the matches of [pattern], which do not overlap; a match takes a character at
    least, so as many rounds as there are characters are enough. *)
Fixpoint pieces (rounds : nat) (pattern s : string) : list string :=
  match rounds, split_once pattern s with
  | S rounds, Some (before, after) => before :: pieces rounds pattern after
  | _, _ => [s]
  end.
(** [contents.matches(pattern).count()], [replace] and [replacen] of one match. *)
Definition count_matches (pattern s : string) : nat :=
  length (pieces (String.length s) pattern s) - 1.
Definition replace (pattern new s : string) : string :=
  String.concat new (pieces (String.length s) pattern s).
Definition replace_first (pattern new s : string) : string :=
  match split_once pattern s with
  | Some (before, after) => before +:+ new +:+ after
  | None => s
  end.
