(* ===== verification/PatchLaws.v ===== *)
(** * Laws of patches

    A printed patch reads back as the hunks it was printed from, the parser reads a grammar and
    every line of its text, and the text a hunk leaves is the old one with the lines it names replaced. *)
From Stdlib Require Import Ascii.
From S2P Require Import Prelude Ids Text Patch.

(** ** Lines and the text they make *)
Lemma join_lines_cons line first rest :
  join_lines (line :: first :: rest) = line +:+ String newline (join_lines (first :: rest)).
Proof. done. Qed.
Lemma split_join_lines l :
  l ≠ [] → Forall (λ line, has_char newline line = false) l → split newline (join_lines l) = l.
Proof.
  intros Hl H. destruct l as [|line l]; [done|]. clear Hl. revert line H.
  induction l as [|first rest IH]; intros line [Hline Hrest]%Forall_cons.
  - by apply split_none.
  - rewrite join_lines_cons, split_app, IH by done. done.
Qed.

(** A printed character, or a space. *)
Definition printed (c : ascii) : bool := in_range 32 126 c.
(** A line that can stand in a text: it has no line ending, nor half of one at its end. *)
Definition is_line (line : string) : bool :=
  negb (has_char newline line) && negb (bool_decide (last (chars line) = Some carriage_return)).
Lemma strip_return_line line : is_line line = true → strip_return line = line.
Proof.
  intros [_ H%negb_true_iff%bool_decide_eq_false]%andb_true_iff.
  unfold strip_return, strip_suffix. change (rev (chars (String carriage_return ""))) with [carriage_return].
  destruct (chars line) as [|c l _] using rev_ind; [done|]. rewrite rev_app_distr. cbn [rev app strip_list].
  destruct (Ascii.eqb_spec carriage_return c) as [<-|]; [|done].
  by rewrite last_snoc in H.
Qed.
Lemma is_line_cons c line :
  printed c = true → is_line line = true → is_line (String c line) = true.
Proof.
  unfold is_line. rewrite !andb_true_iff, !negb_true_iff, !bool_decide_eq_false.
  intros Hc [Hn Hr]. unfold has_char in *. change (chars (String c line)) with (c :: chars line).
  split; [cbn; rewrite Hn; by destruct c as [[] [] [] [] [] [] [] []]|].
  destruct (chars line) as [|d l] eqn:Hl; cbn [last]; [|done].
  intros [= ->]. done.
Qed.
Lemma is_line_app s line : all_chars printed s = true → is_line line = true → is_line (s +:+ line) = true.
Proof.
  intros Hs Hl. induction s as [|c s IH]; [done|]. cbn in Hs. apply andb_true_iff in Hs as [Hc Hs].
  by apply is_line_cons, IH.
Qed.
Lemma lines_join l :
  Forall (λ line, is_line line = true) l → last l ≠ Some "" → lines (join_lines l) = l.
Proof.
  intros H Hlast. unfold lines. destruct l as [|line l]; [done|].
  rewrite split_join_lines; [|done|].
  2: { eapply Forall_impl; [exact H|]. intros x Hx. by apply andb_true_iff in Hx as [Hx%negb_true_iff _]. }
  revert line H Hlast. induction l as [|first rest IH]; intros line [Hline Hrest]%Forall_cons Hlast.
  - cbn. rewrite bool_decide_eq_false_2; [done|]. intros ->. done.
  - change (lines_of (line :: first :: rest)) with (strip_return line :: lines_of (first :: rest)).
    rewrite strip_return_line by done. by rewrite IH.
Qed.

(** ** Trimming *)
Lemma strip_first_of_None ps l :
  strip_first_of ps l = None ↔ Forall (λ p, strip_list p l = None) ps.
Proof.
  induction ps as [|p ps IH]; cbn; [split; constructor|]. rewrite Forall_cons, <- IH.
  destruct (strip_list p l); naive_solver.
Qed.
Lemma strip_while_stops fuel ps l : strip_first_of ps l = None → strip_while fuel ps l = l.
Proof. intros H. destruct fuel as [|fuel]; cbn; [done|]. by rewrite H. Qed.
(** A text does not start with white space when it starts with a printed character. *)
Lemma trim_start_graphic c l :
  in_range 33 126 c = true → trim_start_chars (c :: l) = c :: l.
Proof.
  intros Hc. apply strip_while_stops. apply strip_first_of_None.
  destruct c as [[] [] [] [] [] [] [] []]; try discriminate Hc; repeat constructor.
Qed.
Lemma trim_end_graphic c l : in_range 33 126 c = true → trim_end_chars (l ++ [c]) = l ++ [c].
Proof.
  intros Hc. unfold trim_end_chars. rewrite rev_app_distr. cbn [rev app].
  rewrite strip_while_stops; [cbn; by rewrite rev_involutive|]. apply strip_first_of_None.
  destruct c as [[] [] [] [] [] [] [] []]; try discriminate Hc; repeat constructor.
Qed.

Lemma strip_list_app q l l' r :
  strip_list q (l ++ l') = Some r →
  is_Some (strip_list q l) ∨ ∃ q', q' ≠ [] ∧ q = l ++ q' ∧ is_Some (strip_list q' l').
Proof.
  revert l. induction q as [|c q IH]; intros l H; [by left; exists l|].
  destruct l as [|d l]; [right; exists (c :: q); split_and!; [done|done|by exists r]|].
  cbn in *. destruct (Ascii.eqb c d) eqn:Hc; [|done]. apply Ascii.eqb_eq in Hc as ->.
  destruct (IH _ H) as [?|(q' & ? & -> & ?)]; [by left|]. right. by exists q'.
Qed.
Lemma strip_list_head c q l : is_Some (strip_list (c :: q) l) → head l = Some c.
Proof. destruct l as [|d l]; cbn; [by intros []|]. destruct (Ascii.eqb_spec c d) as [->|]; [done|by intros []]. Qed.
Definition ending_encodings : list (list ascii) := map (@rev _) whitespace_encodings.
(** Past its first byte no encoding, read backwards, has a byte that is printed or a space. *)
Lemma ending_not_printed q l c l' :
  q ∈ ending_encodings → is_Some (strip_list q (l ++ c :: l')) → printed c = true →
  l ≠ [] ∨ in_range 33 126 c = true → is_Some (strip_list q l).
Proof.
  intros Hq [r H] Hc Hl. apply strip_list_app in H as [?|(q' & Hne & -> & Hs)]; [done|]. exfalso.
  destruct q' as [|d q']; [done|]. apply strip_list_head in Hs. injection Hs as ->.
  assert (Forall (λ q, Forall (λ d, printed d = false) (tail q) ∧
    Forall (λ d, in_range 33 126 d = false) q) ending_encodings) as Hall
    by (repeat constructor).
  rewrite Forall_forall in Hall. destruct (Hall _ Hq) as [Ht Hh].
  destruct Hl as [Hl|Hl].
  - destruct l as [|e l]; [done|]. cbn [app tail] in Ht. apply Forall_app in Ht as [_ Ht].
    apply Forall_cons in Ht as [Ht _]. by rewrite Hc in Ht.
  - apply Forall_app in Hh as [_ Hh]. apply Forall_cons in Hh as [Hh _]. by rewrite Hl in Hh.
Qed.
Lemma strip_first_of_Some ps l l' :
  strip_first_of ps l = Some l' → ∃ p, p ∈ ps ∧ strip_list p l = Some l'.
Proof.
  induction ps as [|p ps IH]; cbn; [done|]. destruct (strip_list p l) as [l1|] eqn:Hp.
  - intros [= ->]. exists p. split; [by left|done].
  - intros (q & ? & ?)%IH. exists q. split; [by right|done].
Qed.
Lemma strip_list_eq p l l' : strip_list p l = Some l' ↔ l = p ++ l'.
Proof.
  revert l. induction p as [|a p IH]; intros l; cbn; [naive_solver|].
  destruct l as [|b l]; [naive_solver|]. destruct (Ascii.eqb_spec a b) as [->|Hne].
  - rewrite IH. naive_solver.
  - naive_solver.
Qed.
Lemma strip_while_suffix fuel ps l : ∃ l1, l = l1 ++ strip_while fuel ps l.
Proof.
  revert l. induction fuel as [|fuel IH]; intros l; cbn; [by exists []|].
  destruct (strip_first_of ps l) as [l'|] eqn:Hs; [|by exists []].
  apply strip_first_of_Some in Hs as (p & _ & ->%strip_list_eq).
  destruct (IH l') as [l1 Hl]. exists (p ++ l1). by rewrite <- app_assoc, <- Hl.
Qed.
(** Trimming the end keeps a printed character other than a space, and all before it. *)
Lemma trim_end_keeps c l l' :
  in_range 33 126 c = true → ∃ l1, trim_end_chars (l ++ c :: l') = l ++ c :: l1.
Proof.
  intros Hc. unfold trim_end_chars.
  replace (rev (l ++ c :: l')) with (rev l' ++ c :: rev l)
    by (rewrite rev_app_distr; cbn; by rewrite <- app_assoc).
  assert (∀ fuel x, ∃ x', strip_while fuel ending_encodings (x ++ c :: rev l) = x' ++ c :: rev l)
    as Hkeep.
  { induction fuel as [|fuel IH]; intros x; cbn [strip_while]; [by exists x|].
    destruct (strip_first_of _ _) as [y|] eqn:Hs; [|by exists x].
    apply strip_first_of_Some in Hs as (q & Hq & Hs).
    assert (is_Some (strip_list q x)) as [x' Hx'].
    { eapply ending_not_printed; [done|by eexists| |by right].
      by destruct c as [[] [] [] [] [] [] [] []]. }
    apply strip_list_eq in Hx' as ->. apply strip_list_eq in Hs. rewrite <- app_assoc in Hs.
    apply app_inv_head in Hs as <-. apply IH. }
  destruct (Hkeep (length (l ++ c :: l')) (rev l')) as [x' Hx'].
  unfold ending_encodings in Hx'. rewrite Hx', rev_app_distr. cbn [rev].
  rewrite rev_involutive. exists (rev x'). by rewrite <- app_assoc.
Qed.
(** A text that ends in no white space. *)
Definition tidy (s : string) : bool := negb (bool_decide (s = "")) && bool_decide (trim_end s = s).
Lemma strip_first_of_ending l :
  l ≠ [] → trim_end_chars l = l → strip_first_of ending_encodings (rev l) = None.
Proof.
  intros Hl Ht. destruct (strip_first_of _ _) as [l'|] eqn:Hs; [|done]. exfalso.
  unfold trim_end_chars in Ht. apply (f_equal (@rev _)) in Ht. rewrite rev_involutive in Ht.
  destruct (length l) as [|n] eqn:Hn; [by destruct l|]. fold ending_encodings in Ht.
  cbn [strip_while] in Ht. rewrite Hs in Ht.
  apply strip_first_of_Some in Hs as (q & Hq & Hs%strip_list_eq).
  destruct (strip_while_suffix n ending_encodings l') as [l1 Hl1]. rewrite Ht in Hl1.
  rewrite Hl1, app_assoc in Hs. apply (f_equal length) in Hs. rewrite length_app in Hs.
  assert (q ++ l1 = []) as [-> _]%app_eq_nil by (apply nil_length_inv; lia).
  assert (Forall (λ q, q ≠ []) ending_encodings) as Hall by by repeat constructor.
  rewrite Forall_forall in Hall. by specialize (Hall _ Hq).
Qed.
Lemma trim_tidy c l s :
  in_range 33 126 c = true → printed (List.last l c) = true → tidy s = true →
  trim (String c (of_chars l) +:+ s) = String c (of_chars l) +:+ s.
Proof.
  intros Hc Hl [Hs Ht]%andb_true_iff. apply negb_true_iff, bool_decide_eq_false in Hs.
  apply bool_decide_eq_true in Ht. unfold trim. rewrite chars_app.
  change (chars (String c (of_chars l))) with (c :: chars (of_chars l)). rewrite chars_of_chars.
  cbn [app]. rewrite trim_start_graphic by done.
  assert (trim_end_chars (chars s) = chars s) as Hts.
  { unfold trim_end in Ht. rewrite <- Ht at 2. by rewrite chars_of_chars. }
  unfold trim_end_chars. rewrite strip_while_stops.
  - rewrite rev_involutive. change (c :: l ++ chars s) with ((c :: l) ++ chars s).
    rewrite <- (chars_of_chars (c :: l)), <- chars_app. apply of_chars_chars.
  - change (c :: l ++ chars s) with ((c :: l) ++ chars s). rewrite rev_app_distr.
    pose proof Hts as Hnone. apply strip_first_of_ending in Hnone; [|by rewrite chars_nil].
    apply strip_first_of_None, Forall_forall. intros q Hq.
    destruct (strip_list q _) as [r|] eqn:Hr; [|done]. exfalso.
    apply strip_first_of_None in Hnone. rewrite Forall_forall in Hnone. specialize (Hnone q Hq).
    assert (∃ d l0, rev (c :: l) = d :: l0 ∧ printed d = true) as (d & l0 & Hd & Hprinted).
    { destruct l as [|e l] using rev_ind; [exists c, []; split; [done|]|].
      - by destruct c as [[] [] [] [] [] [] [] []].
      - exists e, (rev (c :: l)). change (c :: l ++ [e]) with ((c :: l) ++ [e]).
        rewrite rev_app_distr. split; [done|]. by rewrite List.last_last in Hl. }
    rewrite Hd in Hr. destruct (ending_not_printed q (rev (chars s)) d l0) as [r' Hr'];
      [done|by exists r|done| |by rewrite Hr' in Hnone].
    left. intros Hnil. apply Hs. apply chars_nil. rewrite <- (rev_involutive (chars s)), Hnil. done.
Qed.
(** A line that starts with a printed character is not blank. *)
Lemma trim_not_blank c s : in_range 33 126 c = true → trim (String c s) ≠ "".
Proof.
  intros Hc. unfold trim. change (chars (String c s)) with (c :: chars s).
  rewrite trim_start_graphic by done. change (c :: chars s) with ([] ++ c :: chars s).
  destruct (trim_end_keeps c [] (chars s) Hc) as [l ->]. done.
Qed.

(** ** Printing *)
Definition print_chunk (chunk : UpdateFileChunk) : list string :=
  match chunk.(UpdateFileChunk.change_context) with
  | None => EMPTY_CHANGE_CONTEXT_MARKER
  | Some context => CHANGE_CONTEXT_MARKER +:+ context
  end
  :: map (String "-") chunk.(UpdateFileChunk.old_lines)
  ++ map (String "+") chunk.(UpdateFileChunk.new_lines)
  ++ (if chunk.(UpdateFileChunk.is_end_of_file) then [EOF_MARKER] else []).
(** The lines of a text whose every line is ended. *)
Definition ended_lines (contents : string) : list string := removelast (split newline contents).
Definition print_hunk (hunk : Hunk) : list string :=
  match hunk with
  | Hunk.AddFile path contents =>
      (ADD_FILE_MARKER +:+ path) :: map (String "+") (ended_lines contents)
  | Hunk.DeleteFile path => [DELETE_FILE_MARKER +:+ path]
  | Hunk.UpdateFile path move_path chunks =>
      (UPDATE_FILE_MARKER +:+ path)
      :: match move_path with
         | Some move_path => [MOVE_TO_MARKER +:+ move_path]
         | None => []
         end ++ concat (map print_chunk chunks)
  end.
Definition print_patch (hunks : list Hunk) : string :=
  join_lines (BEGIN_PATCH_MARKER :: concat (map print_hunk hunks) ++ [END_PATCH_MARKER]).

(** The hunks that can be written down. *)
Definition chunk_printable (chunk : UpdateFileChunk) : bool :=
  match chunk.(UpdateFileChunk.change_context) with
  | None => true
  | Some context => is_line context
  end
  && forallb is_line chunk.(UpdateFileChunk.old_lines)
  && forallb is_line chunk.(UpdateFileChunk.new_lines)
  && negb (bool_decide (chunk.(UpdateFileChunk.old_lines) ++ chunk.(UpdateFileChunk.new_lines) = [])).
Definition hunk_printable (hunk : Hunk) : bool :=
  match hunk with
  | Hunk.AddFile path contents =>
      is_line path && tidy path && ends_empty (split newline contents)
      && forallb is_line (split newline contents)
  | Hunk.DeleteFile path => is_line path && tidy path
  | Hunk.UpdateFile path move_path chunks =>
      is_line path && tidy path
      && match move_path with Some move_path => is_line move_path | None => true end
      && negb (bool_decide (chunks = [])) && forallb chunk_printable chunks
  end.

(** ** Reading what was printed *)
(** What may follow a chunk: the next chunk, or the next hunk. *)
Definition stops (rest : list string) : Prop :=
  match rest with
  | [] => True
  | first :: _ =>
      ∃ line, first ≠ EOF_MARKER ∧ (first = String "@" line ∨ first = String "*" line)
  end.
Lemma chunk_lines_stop rest line_number n :
  stops rest → n ≠ 0 → chunk_lines rest line_number n = Ok ([], [], false, n).
Proof.
  destruct rest as [|first rest]; [done|]. intros (line & Heof & Hline) Hn. cbn [chunk_lines].
  rewrite bool_decide_eq_false_2 by done.
  destruct Hline as [-> | ->]; cbn [reject_if]; by rewrite bool_decide_eq_false_2.
Qed.
Lemma chunk_lines_old old rest line_number n :
  chunk_lines (map (String "-") old ++ rest) line_number n =
  '(o, w, eof, m) ← chunk_lines rest line_number (n + length old); mret (old ++ o, w, eof, m).
Proof.
  revert n. induction old as [|line old IH]; intros n; cbn [map app chunk_lines length].
  - rewrite Nat.add_0_r. by destruct (chunk_lines _ _ _) as [[[[]]]|].
  - rewrite bool_decide_eq_false_2 by done. rewrite IH.
    replace (n + 1 + length old) with (n + S (length old)) by lia.
    by destruct (chunk_lines _ _ _) as [[[[]]]|].
Qed.
Lemma chunk_lines_new new rest line_number n :
  chunk_lines (map (String "+") new ++ rest) line_number n =
  '(o, w, eof, m) ← chunk_lines rest line_number (n + length new); mret (o, new ++ w, eof, m).
Proof.
  revert n. induction new as [|line new IH]; intros n; cbn [map app chunk_lines length].
  - rewrite Nat.add_0_r. by destruct (chunk_lines _ _ _) as [[[[]]]|].
  - rewrite bool_decide_eq_false_2 by done. rewrite IH.
    replace (n + 1 + length new) with (n + S (length new)) by lia.
    by destruct (chunk_lines _ _ _) as [[[[]]]|].
Qed.
Lemma parse_printed_chunk chunk rest line_number allow :
  chunk_printable chunk = true → stops rest →
  parse_update_file_chunk (print_chunk chunk ++ rest) line_number allow
  = Ok (chunk, length (print_chunk chunk)).
Proof.
  destruct chunk as [context old new eof]. intros Hp Hrest. unfold chunk_printable in Hp. cbn in Hp.
  apply andb_true_iff in Hp as [_ Hne%negb_true_iff%bool_decide_eq_false].
  assert (chunk_start (print_chunk {|
      UpdateFileChunk.change_context := context; UpdateFileChunk.old_lines := old;
      UpdateFileChunk.new_lines := new; UpdateFileChunk.is_end_of_file := eof |} ++ rest)
    line_number allow = Ok (context, 1)) as Hstart.
  { destruct context as [context|]; [|done]. cbn. by destruct context. }
  unfold parse_update_file_chunk. rewrite Hstart. cbn [mbind Result_bind print_chunk app length].
  assert (length old + length new ≠ 0) as Hlen.
  { intros Hl. apply Hne. apply nil_length_inv. by rewrite length_app. }
  rewrite bool_decide_eq_false_2.
  2: { rewrite !length_app, !length_map. cbn. lia. }
  cbn [reject_if mret Result_ret mbind Result_bind drop UpdateFileChunk.old_lines
    UpdateFileChunk.new_lines UpdateFileChunk.is_end_of_file]. rewrite drop_0, <- !app_assoc, chunk_lines_old, chunk_lines_new.
  destruct eof; cbn [app].
  - cbn [chunk_lines]. rewrite bool_decide_eq_true_2 by done. cbn [reject_if].
    rewrite bool_decide_eq_false_2 by lia. cbn. rewrite !app_nil_r. f_equal. f_equal.
    rewrite !length_app, !length_map. cbn. lia.
  - rewrite chunk_lines_stop by (done || lia). cbn. rewrite !app_nil_r. f_equal. f_equal.
    rewrite !length_app, !length_map. cbn. lia.
Qed.
Lemma print_chunk_head chunk :
  ∃ line lines, print_chunk chunk = String "@" line :: lines ∧ String "@" line ≠ EOF_MARKER.
Proof.
  destruct chunk as [[context|] old new eof]; cbn; eexists _, _; split_and!; try reflexivity; done.
Qed.
(** What may follow a hunk: the next one. *)
Definition next_hunk (rest : list string) : Prop :=
  match rest with
  | [] => True
  | first :: _ => ∃ line, first = "*** " +:+ line ∧ first ≠ EOF_MARKER ∧
      strip_prefix MOVE_TO_MARKER first = None
  end.
Lemma next_hunk_stops rest : next_hunk rest → stops rest.
Proof. destruct rest as [|first rest]; [done|]. intros (line & -> & ? & _). eexists. split; [done|]. by right. Qed.
Lemma print_chunks_stop chunks rest :
  next_hunk rest → stops (concat (map print_chunk chunks) ++ rest).
Proof.
  intros Hrest. destruct chunks as [|chunk chunks]; [by apply next_hunk_stops|].
  cbn [map concat]. destruct (print_chunk_head chunk) as (line & lines & -> & Hne).
  exists line. auto.
Qed.
Lemma update_printed_chunks chunks rest rounds line_number n acc :
  Forall (λ chunk, chunk_printable chunk = true) chunks → next_hunk rest →
  length chunks < rounds →
  update_chunks rounds (concat (map print_chunk chunks) ++ rest) line_number n acc
  = Ok (acc ++ chunks, n + length (concat (map print_chunk chunks))).
Proof.
  intros H Hrest. revert rounds n acc. induction H as [|chunk chunks Hc H IH]; intros rounds n acc Hr.
  - destruct rounds as [|rounds]; [by apply Nat.nlt_0_r in Hr|]. cbn. rewrite app_nil_r, Nat.add_0_r.
    destruct rest as [|first rest]; [done|]. destruct Hrest as (line & -> & _ & _).
    rewrite bool_decide_eq_false_2; [done|]. by apply trim_not_blank.
  - destruct rounds as [|rounds]; [by apply Nat.nlt_0_r in Hr|]. cbn [map concat].
    pose proof (parse_printed_chunk chunk (concat (map print_chunk chunks) ++ rest)
      (line_number + n) (bool_decide (acc = [])) Hc (print_chunks_stop _ _ Hrest)) as Hparse.
    rewrite <- app_assoc. destruct (print_chunk_head chunk) as (line & lines & Heq & Hne).
    rewrite Heq in Hparse |- *. cbn [app update_chunks] in Hparse |- *.
    rewrite bool_decide_eq_false_2 by by apply trim_not_blank.
    replace (starts_with "*" (String "@" line)) with false by done.
    rewrite Hparse. cbn [mbind Result_bind length drop].
    rewrite drop_app_length, IH by (cbn in Hr; lia). rewrite <- app_assoc. cbn [app length].
    rewrite length_app. f_equal. f_equal. lia.
Qed.
Definition end_lines (l : list string) : string :=
  foldr (λ line text, line +:+ String newline text) "" l.
Lemma join_end_lines l : join_lines (l ++ [""]) = end_lines l.
Proof.
  induction l as [|line l IH]; [done|]. cbn [app end_lines foldr]. fold (end_lines l).
  rewrite <- IH. by destruct l.
Qed.
Lemma join_split s : join_lines (split newline s) = s.
Proof.
  induction s as [|d s IH]; [done|]. unfold split in *. cbn [chars String.list_ascii_of_string split_chars].
  fold (chars s). destruct (split_chars newline (chars s)) as [|x xs] eqn:Hs;
    [by destruct (split_chars_join newline (chars s))|].
  destruct (Ascii.eqb_spec newline d) as [<-|Hd]; cbn [map] in *.
  - rewrite join_lines_cons, IH. done.
  - rewrite <- IH. destruct xs; cbn; done.
Qed.
Lemma ended_lines_text contents :
  ends_empty (split newline contents) = true → end_lines (ended_lines contents) = contents.
Proof.
  intros [l Hl]%bool_decide_eq_true%last_Some. unfold ended_lines.
  rewrite Hl, removelast_last, <- join_end_lines, <- Hl. apply join_split.
Qed.
Lemma string_app_nil (s : string) : s +:+ "" = s.
Proof. induction s as [|c s IH]; [done|]. exact (f_equal (String c) IH). Qed.
Lemma added_printed_lines l rest contents n :
  next_hunk rest →
  added_lines (map (String "+") l ++ rest) contents n = (contents +:+ end_lines l, n + length l).
Proof.
  intros Hrest. revert contents n. induction l as [|line l IH]; intros contents n; cbn [map app].
  - cbn [end_lines foldr length]. rewrite string_app_nil, Nat.add_0_r.
    destruct rest as [|first rest]; [done|]. by destruct Hrest as (line & -> & _).
  - change (added_lines (String "+" line :: map (String "+") l ++ rest) contents n)
      with (added_lines (map (String "+") l ++ rest) (contents +:+ line +:+ NL) (n + 1)).
    rewrite IH. cbn [end_lines foldr length]. fold (end_lines l). rewrite <- !string_app_assoc.
    f_equal; [|lia]. by rewrite !string_app_assoc.
Qed.
Lemma length_print_chunks chunks : length chunks ≤ length (concat (map print_chunk chunks)).
Proof.
  induction chunks as [|chunk chunks IH]; cbn [map concat length]; [done|].
  destruct (print_chunk_head chunk) as (line & lines & -> & _). rewrite length_app. cbn. lia.
Qed.
Lemma trim_header m path :
  m ∈ [ADD_FILE_MARKER; DELETE_FILE_MARKER; UPDATE_FILE_MARKER] → tidy path = true →
  trim (m +:+ path) = m +:+ path.
Proof.
  intros Hm Hp. rewrite !elem_of_cons, elem_of_nil in Hm.
  destruct Hm as [-> |[-> |[-> |[]]]];
    match goal with |- trim (?m +:+ path) = _ =>
      exact (trim_tidy "*" (chars (default "" (strip_prefix "*" m))) path eq_refl eq_refl Hp) end.
Qed.
Ltac conjuncts H := repeat match type of H with andb _ _ = true =>
  let H' := fresh "H" in apply andb_true_iff in H as [H H'] end.
Lemma parse_printed_hunk hunk rest line_number :
  hunk_printable hunk = true → next_hunk rest →
  parse_one_hunk (print_hunk hunk ++ rest) line_number = Ok (hunk, length (print_hunk hunk)).
Proof.
  intros Hp Hrest. unfold parse_one_hunk. destruct hunk as [path contents|path|path move chunks];
    cbn [hunk_printable] in Hp; conjuncts Hp.
  all: cbn [print_hunk app tail]; change (default "" (head (?first :: ?rest))) with first;
    rewrite trim_header by (set_solver || done).
  - rewrite strip_prefix_app, added_printed_lines by done. cbn [length]. rewrite length_map.
    by rewrite ended_lines_text.
  - change (strip_prefix ADD_FILE_MARKER _) with (@None string). by rewrite strip_prefix_app.
  - change (strip_prefix ADD_FILE_MARKER _) with (@None string).
    change (strip_prefix DELETE_FILE_MARKER _) with (@None string). rewrite strip_prefix_app.
    unfold parse_update_hunk. rewrite <- app_assoc.
    set (body := concat (map print_chunk chunks) ++ rest).
    assert (Forall (λ chunk, chunk_printable chunk = true) chunks) as Hchunks
      by (apply List.Forall_forall; by apply forallb_forall).
    assert (chunks ≠ []) as Hne by (eapply bool_decide_eq_false; by apply negb_true_iff).
    assert (head body ≫= strip_prefix MOVE_TO_MARKER = None) as Hbody.
    { unfold body. destruct chunks as [|chunk chunks]; [done|]. cbn [map concat].
      by destruct (print_chunk_head chunk) as (line & lines & -> & _). }
    assert (length chunks < S (length body)) as Hrounds.
    { unfold body. rewrite length_app. pose proof (length_print_chunks chunks). lia. }
    destruct move as [move|]; cbn [app head].
    + change (Some (MOVE_TO_MARKER +:+ move) ≫= strip_prefix MOVE_TO_MARKER)
        with (strip_prefix MOVE_TO_MARKER (MOVE_TO_MARKER +:+ move)).
      rewrite strip_prefix_app. cbn [is_some is_none negb drop].
      rewrite drop_0. unfold body in *. rewrite update_printed_chunks by (done || cbn [length] in *; lia).
      cbn [app mbind Result_bind]. rewrite bool_decide_eq_false_2 by done.
      cbn [reject_if mret Result_ret]. cbn. by f_equal.
    + rewrite Hbody. cbn [is_some is_none negb drop]. rewrite drop_0. unfold body.
      rewrite update_printed_chunks by done.
      cbn [app mbind Result_bind]. rewrite bool_decide_eq_false_2 by done.
      cbn [reject_if mret Result_ret]. cbn. f_equal.
Qed.
Lemma print_hunk_head hunk :
  ∃ line lines, print_hunk hunk = ("*** " +:+ line) :: lines ∧ "*** " +:+ line ≠ EOF_MARKER ∧
    strip_prefix MOVE_TO_MARKER ("*** " +:+ line) = None.
Proof.
  destruct hunk as [path contents|path|path move chunks]; cbn [print_hunk].
  - by exists ("Add File: " +:+ path), (map (String "+") (ended_lines contents)).
  - by exists ("Delete File: " +:+ path), [].
  - by eexists ("Update File: " +:+ path), _.
Qed.
Lemma print_hunks_next hunks : next_hunk (concat (map print_hunk hunks)).
Proof.
  destruct hunks as [|hunk hunks]; [done|]. cbn [map concat].
  destruct (print_hunk_head hunk) as (line & lines & -> & ? & ?). by exists line.
Qed.
Lemma parse_printed_hunks hunks rounds line_number :
  Forall (λ hunk, hunk_printable hunk = true) hunks →
  length (concat (map print_hunk hunks)) ≤ rounds →
  parse_hunks rounds (concat (map print_hunk hunks)) line_number = Ok hunks.
Proof.
  intros H. revert rounds line_number. induction H as [|hunk hunks Hh H IH]; intros rounds line_number Hr.
  { by destruct rounds. }
  cbn [map concat] in *. pose proof (parse_printed_hunk hunk (concat (map print_hunk hunks))
    line_number Hh (print_hunks_next hunks)) as Hparse.
  destruct (print_hunk_head hunk) as (line & lines & Heq & _). rewrite Heq in Hparse, Hr |- *.
  cbn [app length] in Hr. destruct rounds as [|rounds]; [by apply Nat.nle_succ_0 in Hr|].
  cbn [app parse_hunks] in *. rewrite Hparse. cbn [mbind Result_bind length drop].
  rewrite drop_app_length, IH; [done|]. rewrite length_app in Hr. lia.
Qed.

(** *** The lines of a printed patch *)
Lemma print_chunk_lines chunk :
  chunk_printable chunk = true → Forall (λ line, is_line line = true) (print_chunk chunk).
Proof.
  intros Hp. unfold chunk_printable in Hp. conjuncts Hp.
  assert (∀ c l, printed c = true → forallb is_line l = true →
    Forall (λ line, is_line line = true) (map (String c) l)) as Hmap.
  { intros c l Hc Hl. apply List.Forall_map, List.Forall_forall. rewrite forallb_forall in Hl.
    intros line Hin. by apply is_line_cons, Hl. }
  unfold print_chunk. constructor; [|apply Forall_app; split; [by apply Hmap|apply Forall_app; split]].
  - destruct (UpdateFileChunk.change_context chunk) as [context|]; [by apply is_line_app|done].
  - by apply Hmap.
  - destruct (UpdateFileChunk.is_end_of_file chunk); by repeat constructor.
Qed.
Lemma print_hunk_lines hunk :
  hunk_printable hunk = true → Forall (λ line, is_line line = true) (print_hunk hunk).
Proof.
  intros Hp. destruct hunk as [path contents|path|path move chunks];
    cbn [hunk_printable] in Hp; conjuncts Hp; cbn [print_hunk].
  all: constructor; [by apply is_line_app|].
  - apply List.Forall_map, List.Forall_forall. rewrite forallb_forall in H. intros line Hin.
    apply is_line_cons; [done|]. apply H. unfold ended_lines in Hin.
    destruct (split newline contents) as [|l ls _] using rev_ind; [done|].
    rewrite removelast_last in Hin. apply in_or_app. by left.
  - done.
  - apply Forall_app. split.
    + destruct move as [move|]; [|done]. constructor; [by apply is_line_app|done].
    + apply List.Forall_concat, List.Forall_map, List.Forall_forall. rewrite forallb_forall in H.
      intros chunk Hin. by apply print_chunk_lines, H.
Qed.

Lemma trim_marked c l d :
  in_range 33 126 c = true → in_range 33 126 d = true →
  trim (String c (of_chars (l ++ [d]))) = String c (of_chars (l ++ [d])).
Proof.
  intros Hc Hd. unfold trim. change (chars (String c ?s)) with (c :: chars s).
  rewrite chars_of_chars, trim_start_graphic by done.
  change (c :: l ++ [d]) with ((c :: l) ++ [d]). by rewrite trim_end_graphic.
Qed.
Lemma join_lines_app l l' : l ≠ [] → l' ≠ [] →
  join_lines (l ++ l') = join_lines l +:+ String newline (join_lines l').
Proof.
  intros Hl Hl'. destruct l as [|line l]; [done|]. clear Hl. revert line.
  induction l as [|first rest IH]; intros line.
  - destruct l' as [|line' l']; [done|]. apply join_lines_cons.
  - change ((line :: first :: rest) ++ l') with (line :: (first :: rest) ++ l').
    change ((first :: rest) ++ l') with (first :: rest ++ l') in *.
    rewrite !join_lines_cons. change (first :: rest ++ l') with ((first :: rest) ++ l').
    rewrite IH. by rewrite string_app_assoc.
Qed.
(** A patch starts and ends with printed characters. *)
Lemma trim_print_patch hunks : trim (print_patch hunks) = print_patch hunks.
Proof.
  unfold print_patch. set (body := concat (map print_hunk hunks)).
  assert (∃ l, join_lines (BEGIN_PATCH_MARKER :: body ++ [END_PATCH_MARKER])
    = String "*" (of_chars (l ++ ["h"%char]))) as (l & ->).
  { change (BEGIN_PATCH_MARKER :: body ++ [END_PATCH_MARKER])
      with ((BEGIN_PATCH_MARKER :: body) ++ [END_PATCH_MARKER]).
    rewrite join_lines_app by done.
    assert (∃ s, join_lines (BEGIN_PATCH_MARKER :: body) = String "*" s) as [s ->]
      by (destruct body; by eexists).
    exists (chars s ++ newline :: chars "*** End Patc"). apply (f_equal (String "*")).
    etransitivity; [symmetry; apply of_chars_chars|]. rewrite chars_app. apply (f_equal of_chars).
    by rewrite <- app_assoc. }
  by apply trim_marked.
Qed.

(** C25. A patch says what it was written to say: whatever hunks can be written down, the text that
    lists them, marker by marker and line by line, parses to those hunks and no others. *)
Theorem printed_patches_parse hunks :
  Forall (λ hunk, hunk_printable hunk = true) hunks →
  parse_patch (print_patch hunks) =
  Ok {| ParsedPatch.patch := print_patch hunks;
        ParsedPatch.hunks := hunks;
        ParsedPatch.workdir := None |}.
Proof.
  intros H. unfold parse_patch, PARSE_IN_STRICT_MODE, parse_patch_text.
  rewrite trim_print_patch. unfold print_patch. set (body := concat (map print_hunk hunks)).
  rewrite lines_join.
  2: { constructor; [done|]. apply Forall_app. split; [|by repeat constructor].
       apply List.Forall_concat, List.Forall_map. eapply Forall_impl; [exact H|].
       apply print_hunk_lines. }
  2: { change (BEGIN_PATCH_MARKER :: body ++ [END_PATCH_MARKER])
         with ((BEGIN_PATCH_MARKER :: body) ++ [END_PATCH_MARKER]). by rewrite last_snoc. }
  assert (check_patch_boundaries_strict (BEGIN_PATCH_MARKER :: body ++ [END_PATCH_MARKER])
    = Ok (BEGIN_PATCH_MARKER :: body ++ [END_PATCH_MARKER], body)) as Hbounds.
  { unfold check_patch_boundaries_strict, inner. cbn [head tail].
    rewrite removelast_last. change (BEGIN_PATCH_MARKER :: body ++ [END_PATCH_MARKER])
      with ((BEGIN_PATCH_MARKER :: body) ++ [END_PATCH_MARKER]). by rewrite last_snoc. }
  unfold check_patch_boundaries_lenient. rewrite Hbounds. cbn [mbind Result_bind].
  unfold body. by rewrite parse_printed_hunks.
Qed.

(** ** What a text is read as

    The grammar that the loops of the parser implement, without rounds or line numbers: which lines
    make a chunk, a hunk and a patch, each line in one place. [rest] is what follows. *)
Definition line_marked (line : string) : bool :=
  match line with
  | "" => true
  | String c _ => bool_decide (c ∈ [" "; "+"; "-"]%char)
  end.
(** The marked lines of a chunk, its old lines and its new ones. *)
Inductive marked_lines : list string → list string → list string → Prop :=
| marked_nil : marked_lines [] [] []
| marked_blank body old new :
    marked_lines body old new → marked_lines ("" :: body) ("" :: old) ("" :: new)
| marked_kept line body old new :
    marked_lines body old new →
    marked_lines (String " " line :: body) (line :: old) (line :: new)
| marked_added line body old new :
    marked_lines body old new → marked_lines (String "+" line :: body) old (line :: new)
| marked_removed line body old new :
    marked_lines body old new → marked_lines (String "-" line :: body) (line :: old) new.
(** The first line of a chunk, which only the first chunk of an update may leave out. *)
Inductive chunk_header (first : bool) : list string → option string → Prop :=
| header_missing : first = true → chunk_header first [] None
| header_empty : chunk_header first [EMPTY_CHANGE_CONTEXT_MARKER] None
| header_context context : chunk_header first [CHANGE_CONTEXT_MARKER +:+ context] (Some context).
Definition eof_lines (eof : bool) : list string := if eof then [EOF_MARKER] else [].
(** A chunk that is not ended by its end-of-file marker ends where the text does, or before a line
    that is neither marked nor that marker. *)
Definition ends_chunk (eof : bool) (rest : list string) : Prop :=
  match eof, rest with
  | false, line :: _ => line_marked line = false ∧ line ≠ EOF_MARKER
  | _, _ => True
  end.
Inductive chunk_text (first : bool) (rest : list string) : list string → UpdateFileChunk → Prop :=
| chunk_written header context body old new eof :
    chunk_header first header context → marked_lines body old new → body ≠ [] →
    ends_chunk eof rest →
    chunk_text first rest (header ++ body ++ eof_lines eof)
      {| UpdateFileChunk.change_context := context;
         UpdateFileChunk.old_lines := old;
         UpdateFileChunk.new_lines := new;
         UpdateFileChunk.is_end_of_file := eof |}.
Definition is_blank (line : string) : bool := bool_decide (trim line = "").
(** The chunks of an update, with blank lines before each and after the last; they end where the
    text does, or before a line that begins the next hunk. *)
Inductive chunks_text (rest : list string) : bool → list string → list UpdateFileChunk → Prop :=
| chunks_end first :
    (∀ line, head rest = Some line → is_blank line = false ∧ starts_with "*" line = true) →
    chunks_text rest first [] []
| chunks_blank first line block chunks :
    is_blank line = true → chunks_text rest first block chunks →
    chunks_text rest first (line :: block) chunks
| chunks_more first line lines block chunk chunks :
    is_blank line = false → chunk_text first (block ++ rest) (line :: lines) chunk →
    chunks_text rest false block chunks →
    chunks_text rest first ((line :: lines) ++ block) (chunk :: chunks).
Definition move_line (move_path : option string) : list string :=
  match move_path with Some path => [MOVE_TO_MARKER +:+ path] | None => [] end.
Inductive hunk_text (rest : list string) : list string → Hunk → Prop :=
| add_text first path added :
    trim first = ADD_FILE_MARKER +:+ path →
    (∀ line, head rest = Some line → starts_with "+" line = false) →
    hunk_text rest (first :: map (String "+") added) (Hunk.AddFile path (end_lines added))
| delete_text first path :
    trim first = DELETE_FILE_MARKER +:+ path → hunk_text rest [first] (Hunk.DeleteFile path)
| update_text first path move_path block chunks :
    trim first = UPDATE_FILE_MARKER +:+ path →
    (move_path = None → head (block ++ rest) ≫= strip_prefix MOVE_TO_MARKER = None) →
    chunks_text rest true block chunks → chunks ≠ [] →
    hunk_text rest (first :: move_line move_path ++ block)
      (Hunk.UpdateFile path move_path chunks).
Inductive hunks_text : list string → list Hunk → Prop :=
| hunks_end : hunks_text [] []
| hunks_more block rest hunk hunks :
    hunk_text rest block hunk → hunks_text rest hunks →
    hunks_text (block ++ rest) (hunk :: hunks).

(** What a line of a chunk is for its loop. *)
Inductive line_kind : string → Prop :=
| kind_eof : line_kind EOF_MARKER
| kind_blank : line_kind ""
| kind_kept line : line_kind (String " " line)
| kind_added line : line_kind (String "+" line)
| kind_removed line : line_kind (String "-" line)
| kind_other line : line_marked line = false → line ≠ EOF_MARKER → line_kind line.
Lemma kind_of line : line_kind line.
Proof.
  destruct (decide (line = EOF_MARKER)) as [->|He]; [constructor|].
  destruct (line_marked line) eqn:Hm; [|by constructor].
  destruct line as [|c line]; [constructor|]. apply bool_decide_eq_true in Hm.
  rewrite !elem_of_cons, elem_of_nil in Hm. destruct Hm as [-> |[-> |[-> |[]]]]; constructor.
Qed.
Lemma chunk_lines_other line lines line_number n :
  line_marked line = false → line ≠ EOF_MARKER →
  chunk_lines (line :: lines) line_number n =
  _ ← reject_if (bool_decide (n = 0))
        (ParseError.InvalidHunkError (unexpected_line line) (line_number + 1));
  mret ([], [], false, n).
Proof.
  intros Hm He. cbn [chunk_lines]. rewrite bool_decide_eq_false_2 by done.
  destruct line as [|[[] [] [] [] [] [] [] []] line]; try done; by cbv in Hm.
Qed.
Lemma chunk_lines_read lines line_number n old new eof m :
  chunk_lines lines line_number n = Ok (old, new, eof, m) →
  ∃ body rest, lines = body ++ eof_lines eof ++ rest ∧ marked_lines body old new ∧
    ends_chunk eof rest ∧ m = n + length (body ++ eof_lines eof) ∧
    (n = 0 → lines ≠ [] → body ≠ []).
Proof.
  revert n old new eof m. induction lines as [|line lines IH]; intros n old new eof m.
  { intros [= <- <- <- <-]. exists [], []. split_and!; [done|constructor|done|cbn; lia|done]. }
  destruct (kind_of line) as [| |l|l|l|line Hm He].
  1: cbn [chunk_lines]; rewrite bool_decide_eq_true_2 by done;
    intros (u & Hn%reject_if_Ok%bool_decide_eq_false & [= <- <- <- <-])%bind_Ok;
    exists [], lines; split_and!; [done|constructor|done|cbn; lia|done].
  5: rewrite chunk_lines_other by done;
    intros (u & Hn%reject_if_Ok%bool_decide_eq_false & [= <- <- <- <-])%bind_Ok;
    exists [], (line :: lines); split_and!; [done|constructor|done|cbn; lia|done].
  all: intros ([[[o w] e] k] & Hc & [= <- <- <- <-])%bind_Ok;
    apply IH in Hc as (body & rest & -> & Hb & Hr & -> & _);
    eexists (_ :: body), rest; split_and!;
    [done|by constructor|done|rewrite !length_app; cbn; lia|done].
Qed.
Lemma chunk_lines_written body old new eof rest line_number n :
  marked_lines body old new → ends_chunk eof rest → n + length body ≠ 0 →
  chunk_lines (body ++ eof_lines eof ++ rest) line_number n
  = Ok (old, new, eof, n + length (body ++ eof_lines eof)).
Proof.
  intros Hb Hr. revert n.
  induction Hb as [|body old new Hb IH|line body old new Hb IH|line body old new Hb IH
    |line body old new Hb IH]; intros n Hn.
  { cbn [app length] in *. rewrite Nat.add_0_r in Hn. destruct eof; cbn [eof_lines app length].
    - cbn [chunk_lines]. rewrite bool_decide_eq_true_2 by done.
      by rewrite bool_decide_eq_false_2.
    - rewrite Nat.add_0_r. destruct rest as [|line rest]; [done|]. destruct Hr as [Hm He].
      rewrite chunk_lines_other by done. by rewrite bool_decide_eq_false_2. }
  all: cbn [app length]; specialize (IH (n + 1) ltac:(lia)); rewrite <- Nat.add_assoc in IH;
    match goal with |- chunk_lines (?line :: ?lines) _ _ = Ok (?o, ?w, _, _) =>
      transitivity (r ← chunk_lines lines line_number (n + 1);
        let '(o', w', e', k) := r in
        mret (match line with String "+" _ => o' | "" => "" :: o' | String _ l => l :: o' end,
              match line with String "-" _ => w' | "" => "" :: w' | String _ l => l :: w' end,
              e', k) : Result ParseError _); [done|] end;
    rewrite IH; done.
Qed.
Lemma chunk_read lines line_number first chunk n :
  parse_update_file_chunk lines line_number first = Ok (chunk, n) →
  ∃ block rest, lines = block ++ rest ∧ chunk_text first rest block chunk ∧ n = length block.
Proof.
  unfold parse_update_file_chunk. intros ([context start] & Hs & H)%bind_Ok.
  apply bind_Ok in H as (u & Hl%reject_if_Ok%bool_decide_eq_false & H).
  apply bind_Ok in H as ([[[o w] eof] m] & Hc & [= <- <-]).
  apply chunk_lines_read in Hc as (body & rest & Hd & Hb & Hr & -> & Hne).
  assert (∃ header, chunk_header first header context ∧ length header = start ∧
    lines = header ++ drop start lines) as (header & Hh & <- & Hlines).
  { unfold chunk_start in Hs. destruct lines as [|line lines]; [done|].
    case_bool_decide as He; [injection Hs as [= <- <-]; subst line; by eexists; repeat constructor|].
    destruct (strip_prefix _ _) as [ctx|] eqn:Hp.
    - apply strip_prefix_Some in Hp as ->. injection Hs as [= <- <-]. by eexists; repeat constructor.
    - destruct first; [|done]. injection Hs as [= <- <-]. exists []. by repeat constructor. }
  exists (header ++ body ++ eof_lines eof), rest. split_and!.
  - rewrite Hlines, Hd. by rewrite <- !app_assoc.
  - constructor; [done|done| |done]. apply Hne; [done|]. rewrite <- length_zero_iff_nil, length_drop. lia.
  - rewrite (length_app header). cbn. lia.
Qed.
Lemma chunk_written_read first rest block chunk line_number :
  chunk_text first rest block chunk →
  parse_update_file_chunk (block ++ rest) line_number first = Ok (chunk, length block).
Proof.
  intros [header context body old new eof Hh Hb Hne Hr]. unfold parse_update_file_chunk.
  assert (chunk_start ((header ++ body ++ eof_lines eof) ++ rest) line_number first
    = Ok (context, length header)) as ->.
  { destruct Hh as [-> | |context].
    - destruct Hb; done.
    - done.
    - cbn [app chunk_start]. rewrite bool_decide_eq_false_2 by done. by rewrite strip_prefix_app. }
  cbn [mbind Result_bind]. rewrite bool_decide_eq_false_2.
  2: { rewrite !length_app. destruct body; [done|]. cbn. lia. }
  cbn [reject_if mret Result_ret mbind Result_bind]. rewrite <- !app_assoc, drop_app_length.
  rewrite (chunk_lines_written _ old new) by (done || (destruct body; [done|cbn; lia])).
  cbn [mbind Result_bind mret Result_ret]. rewrite (length_app header). f_equal. f_equal. lia.
Qed.
Lemma chunk_head first rest line lines chunk :
  chunk_text first rest (line :: lines) chunk → starts_with "*" line = false.
Proof.
  remember (line :: lines) as block eqn:Heq. intros H. revert Heq.
  destruct H as [header context body old new eof Hh Hb Hne _].
  destruct Hh as [-> | |context]; [destruct Hb; [done|..]|..]; by intros [= <-].
Qed.
Lemma chunks_read rounds lines line_number n acc chunks m :
  length lines < rounds → update_chunks rounds lines line_number n acc = Ok (chunks, m) →
  ∃ block rest more, lines = block ++ rest ∧
    chunks_text rest (bool_decide (acc = [])) block more ∧
    chunks = acc ++ more ∧ m = n + length block.
Proof.
  revert lines n acc. induction rounds as [|rounds IH]; intros lines n acc Hr; [lia|].
  destruct lines as [|line lines]; cbn [update_chunks].
  { intros [= <- <-]. exists [], [], []. split_and!; [done|by constructor|by rewrite app_nil_r|cbn; lia]. }
  cbn [length] in Hr. case_bool_decide as Hblank.
  { intros (block & rest & more & -> & Ht & -> & ->)%IH; [|lia].
    exists (line :: block), rest, more. split_and!; [done| |done|cbn; lia].
    constructor; [by apply bool_decide_eq_true_2|done]. }
  destruct (starts_with "*" line) eqn:Hstar.
  { intros [= <- <-]. exists [], (line :: lines), [].
    split_and!; [done| |by rewrite app_nil_r|cbn; lia].
    constructor. intros ? [= <-]. split; [by apply bool_decide_eq_false_2|done]. }
  intros ([chunk k] & Hc & Hu)%bind_Ok.
  apply chunk_read in Hc as (body & after & Heq & Hc & ->).
  rewrite Heq, drop_app_length in Hu. destruct body as [|line' body].
  { inversion Hc as [header ? body ? ? ? ? ? Hne ? Hnil]. by destruct header, body. }
  injection Heq as <- ->. apply IH in Hu as (block & rest & more & -> & Ht & -> & ->).
  - exists ((line :: body) ++ block), rest, (chunk :: more).
    split_and!; [by rewrite <- app_assoc| |by rewrite <- app_assoc|rewrite (length_app (_ :: _)); lia].
    constructor; [by apply bool_decide_eq_false_2|done|].
    by rewrite bool_decide_eq_false_2 in Ht by (by destruct acc).
  - rewrite length_app in Hr. lia.
Qed.
Lemma chunks_written_read rounds rest block more line_number n acc :
  chunks_text rest (bool_decide (acc = [])) block more → length (block ++ rest) < rounds →
  update_chunks rounds (block ++ rest) line_number n acc = Ok (acc ++ more, n + length block).
Proof.
  intros H. remember (bool_decide (acc = [])) as first eqn:Hf. revert rounds n acc Hf.
  induction H as [first Hrest|first line block more Hblank H IH
    |first line lines block chunk more Hblank Hc H IH];
    intros [|rounds] n acc -> Hr; try (cbn in Hr; lia).
  - cbn [app length update_chunks]. rewrite app_nil_r, Nat.add_0_r.
    destruct rest as [|line rest]; [done|]. destruct (Hrest line eq_refl) as [Hb ->].
    apply bool_decide_eq_false in Hb. by rewrite bool_decide_eq_false_2.
  - cbn [app length update_chunks] in *. apply bool_decide_eq_true in Hblank.
    rewrite bool_decide_eq_true_2, IH by (done || lia). f_equal. f_equal. lia.
  - pose proof (chunk_head _ _ _ _ _ Hc) as Hstar.
    pose proof (chunk_written_read _ _ _ _ (line_number + n) Hc) as Hp.
    apply bool_decide_eq_false in Hblank. rewrite <- app_assoc. cbn [app] in *.
    cbn [update_chunks]. rewrite bool_decide_eq_false_2, Hstar, Hp by done.
    cbn [mbind Result_bind]. change (line :: lines ++ block ++ rest) with ((line :: lines) ++ block ++ rest).
    rewrite drop_app_length, IH.
    + rewrite <- app_assoc. f_equal. f_equal. cbn [length]. rewrite length_app. lia.
    + symmetry. apply bool_decide_eq_false_2. by destruct acc.
    + cbn [length] in Hr. rewrite <- app_assoc, length_app in Hr. lia.
Qed.

Lemma starts_with_plus line : starts_with "+" line = false → strip_prefix "+" line = None.
Proof. unfold starts_with. by destruct (strip_prefix "+" line). Qed.
Lemma end_lines_more contents line lines :
  (contents +:+ line +:+ NL) +:+ end_lines lines = contents +:+ end_lines (line :: lines).
Proof.
  change (end_lines (line :: lines)) with (line +:+ NL +:+ end_lines lines).
  by rewrite !string_app_assoc.
Qed.
Lemma added_read lines contents n :
  ∃ added rest, lines = map (String "+") added ++ rest ∧
    (∀ line, head rest = Some line → starts_with "+" line = false) ∧
    added_lines lines contents n = (contents +:+ end_lines added, n + length added).
Proof.
  revert contents n. induction lines as [|line lines IH]; intros contents n; cbn [added_lines].
  { exists [], []. by rewrite string_app_nil, Nat.add_0_r. }
  destruct (strip_prefix "+" line) as [added|] eqn:Hp.
  - apply strip_prefix_Some in Hp as ->.
    destruct (IH (contents +:+ added +:+ NL) (n + 1)) as (more & rest & -> & Hr & ->).
    exists (added :: more), rest. split_and!; [done|done|].
    rewrite end_lines_more. f_equal. cbn. lia.
  - exists [], (line :: lines). rewrite string_app_nil, Nat.add_0_r. split_and!; [done| |done].
    intros ? [= <-]. unfold starts_with. by rewrite Hp.
Qed.
Lemma added_written_read added rest contents n :
  (∀ line, head rest = Some line → starts_with "+" line = false) →
  added_lines (map (String "+") added ++ rest) contents n
  = (contents +:+ end_lines added, n + length added).
Proof.
  intros Hr. revert contents n. induction added as [|line added IH]; intros contents n.
  - cbn [map app length]. rewrite string_app_nil, Nat.add_0_r. destruct rest as [|line rest]; [done|].
    cbn [added_lines]. by rewrite starts_with_plus by (by apply Hr).
  - transitivity (added_lines (map (String "+") added ++ rest) (contents +:+ line +:+ NL) (n + 1));
      [done|]. rewrite IH, end_lines_more. f_equal. cbn. lia.
Qed.

Lemma hunk_read lines line_number hunk n :
  lines ≠ [] → parse_one_hunk lines line_number = Ok (hunk, n) →
  ∃ block rest, lines = block ++ rest ∧ hunk_text rest block hunk ∧ n = length block.
Proof.
  intros Hl. destruct lines as [|first lines]; [done|]. unfold parse_one_hunk. cbn [tail].
  change (default "" (head (first :: lines))) with first.
  destruct (strip_prefix ADD_FILE_MARKER _) as [path|] eqn:Ha.
  { apply strip_prefix_Some in Ha. destruct (added_read lines "" 1) as (added & rest & -> & Hr & ->).
    intros [= <- <-]. eexists (_ :: _), rest. split_and!; [done|by constructor|].
    cbn. by rewrite length_map. }
  destruct (strip_prefix DELETE_FILE_MARKER _) as [path|] eqn:Hd.
  { apply strip_prefix_Some in Hd. intros [= <- <-]. exists [first], lines.
    split_and!; [done|by constructor|done]. }
  destruct (strip_prefix UPDATE_FILE_MARKER _) as [path|] eqn:Hu; [|done].
  apply strip_prefix_Some in Hu. unfold parse_update_hunk.
  set (move := head lines ≫= strip_prefix MOVE_TO_MARKER). cbv zeta.
  intros ([chunks m] & Hc & H)%bind_Ok.
  apply bind_Ok in H as (u & Hne%reject_if_Ok%bool_decide_eq_false & [= <- <-]).
  assert (lines = move_line move ++ drop (if is_some move then 1 else 0) lines ∧
    (if is_some move then 1 else 0) = length (move_line move)) as [Hlines Hlen].
  { unfold move. destruct lines as [|second lines]; [done|]. cbn [head mbind option_bind].
    destruct (strip_prefix _ second) as [to|] eqn:Hm; [|done].
    apply strip_prefix_Some in Hm as ->. done. }
  assert (head lines ≫= strip_prefix MOVE_TO_MARKER = move) as Hmove by done. clearbody move.
  rewrite Hlen in Hc, Hlines. apply chunks_read in Hc as (block & rest & more & Hd' & Ht & -> & ->).
  - rewrite Hd' in Hlines. eexists (first :: move_line move ++ block), rest. split_and!.
    + cbn [app]. rewrite <- app_assoc. by f_equal.
    + constructor; [done| |done..]. intros ->. cbn [move_line app] in Hlines. by rewrite <- Hlines.
    + cbn [length]. rewrite length_app. lia.
  - rewrite length_drop. lia.
Qed.
Lemma hunk_written_read rest block hunk line_number :
  hunk_text rest block hunk →
  parse_one_hunk (block ++ rest) line_number = Ok (hunk, length block).
Proof.
  intros H. destruct H as [first path added Hf Hr|first path Hf
    |first path move block chunks Hf Hm Ht Hne]; unfold parse_one_hunk; cbn [app tail];
    change (default "" (head (first :: _))) with first; rewrite Hf.
  - rewrite strip_prefix_app, added_written_read by done. cbn. by rewrite length_map.
  - change (strip_prefix ADD_FILE_MARKER _) with (@None string). by rewrite strip_prefix_app.
  - change (strip_prefix ADD_FILE_MARKER _) with (@None string).
    change (strip_prefix DELETE_FILE_MARKER _) with (@None string). rewrite strip_prefix_app.
    unfold parse_update_hunk. rewrite <- app_assoc.
    assert (head (move_line move ++ block ++ rest) ≫= strip_prefix MOVE_TO_MARKER = move) as ->.
    { destruct move as [to|]; [exact (strip_prefix_app MOVE_TO_MARKER to)|by apply Hm]. }
    assert (drop (if is_some move then 1 else 0) (move_line move ++ block ++ rest) = block ++ rest)
      as -> by (by destruct move; cbn [move_line app is_some is_none negb drop]; rewrite ?drop_0).
    rewrite (chunks_written_read _ _ _ chunks); [|done|rewrite !length_app; lia].
    cbn [app mbind Result_bind]. rewrite bool_decide_eq_false_2 by done.
    cbn [reject_if mret Result_ret mbind Result_bind]. f_equal. f_equal. cbn [length].
    rewrite length_app. by destruct move; cbn; lia.
Qed.
Lemma hunk_text_not_empty rest block hunk : hunk_text rest block hunk → 0 < length block.
Proof. destruct 1; cbn; lia. Qed.
Lemma hunks_read rounds lines line_number hunks :
  length lines ≤ rounds → parse_hunks rounds lines line_number = Ok hunks → hunks_text lines hunks.
Proof.
  revert lines line_number hunks. induction rounds as [|rounds IH]; intros [|first lines] line_number hunks Hr;
    try (cbn in Hr; lia); [intros [= <-]; constructor..|]. cbn [parse_hunks].
  intros ([hunk n] & (block & rest & Heq & Hh & ->)%hunk_read & H)%bind_Ok; [|done].
  apply bind_Ok in H as (more & Hm & [= <-]). rewrite Heq in *. rewrite drop_app_length in Hm.
  constructor; [done|]. eapply IH; [|done]. apply hunk_text_not_empty in Hh.
  rewrite length_app in Hr. lia.
Qed.
Lemma hunks_written_read rounds lines line_number hunks :
  hunks_text lines hunks → length lines ≤ rounds →
  parse_hunks rounds lines line_number = Ok hunks.
Proof.
  intros H. revert rounds line_number. induction H as [|block rest hunk hunks Hh H IH];
    intros rounds line_number Hr; [by destruct rounds|].
  pose proof (hunk_text_not_empty _ _ _ Hh) as Hb. rewrite length_app in Hr.
  destruct rounds as [|rounds]; [lia|]. pose proof (hunk_written_read _ _ _ line_number Hh) as Hp.
  assert (∃ first lines, block ++ rest = first :: lines) as (first & lines & Heq)
    by (destruct block; [cbn in Hb; lia|by eexists _, _]).
  rewrite Heq in *. cbn [parse_hunks]. rewrite Hp. cbn [mbind Result_bind].
  rewrite <- Heq, drop_app_length, IH by lia. done.
Qed.
(** C29. Parsing reads every line, none twice, and ends. A patch parses to some hunks exactly when
    the lines between its markers are these hunks written one after the other: each line is in one
    hunk, as its header, its move, an added line, a line of one of its chunks or a blank line between
    them. The loops are given a round for each line, and one that ran out of rounds would leave lines
    unread. *)
Theorem parsing_reads_every_line patch parsed :
  parse_patch patch = Ok parsed ↔
  ∃ patch_lines body,
    check_patch_boundaries_lenient (lines (trim patch)) = Ok (patch_lines, body) ∧
    hunks_text body parsed.(ParsedPatch.hunks) ∧
    parsed.(ParsedPatch.patch) = join_lines patch_lines ∧
    parsed.(ParsedPatch.workdir) = None.
Proof.
  unfold parse_patch, parse_patch_text. cbn [PARSE_IN_STRICT_MODE]. split.
  - intros ([patch_lines body] & Hb & H)%bind_Ok. apply bind_Ok in H as (hunks & Hh & [= <-]).
    exists patch_lines, body. split_and!; [done| |done..]. by eapply hunks_read.
  - intros (patch_lines & body & -> & Hh & Hp & Hw). cbn [mbind Result_bind].
    rewrite (hunks_written_read _ _ _ _ Hh) by done. destruct parsed as [patch' hunks workdir].
    cbn in *. by subst.
Qed.

(** ** Hunks replace what they name *)
(** A line of a file is taken for a line of a hunk when they are the same, or the same up to white
    space at their end, or at both ends, or up to that and the look of their characters. *)
Definition taken_for (line expected : string) : Prop :=
  same_line line expected = true ∨ same_but_end line expected = true
  ∨ same_trimmed line expected = true ∨ same_normalized line expected = true.
Definition fits (chunk : UpdateFileChunk) (there new : list string) : Prop :=
  Forall2 taken_for there chunk.(UpdateFileChunk.old_lines)
    ∧ new = chunk.(UpdateFileChunk.new_lines) ∨
  ends_empty chunk.(UpdateFileChunk.old_lines) = true
    ∧ Forall2 taken_for there (removelast chunk.(UpdateFileChunk.old_lines))
    ∧ new = without_empty_end chunk.(UpdateFileChunk.new_lines).
Definition context_in (chunk : UpdateFileChunk) (gap : list string) : Prop :=
  match chunk.(UpdateFileChunk.change_context) with
  | None => True
  | Some context => ∃ line, line ∈ gap ∧ taken_for line context
  end.
(** The lines a list of chunks makes of some lines: each chunk, in order, leaves a gap that holds its
    context, and puts its new lines where its old ones were. *)
Inductive rewritten : list string → list UpdateFileChunk → list string → Prop :=
| rewritten_rest lines : rewritten lines [] lines
| rewritten_chunk gap there new rest chunk chunks result :
    context_in chunk gap → fits chunk there new → rewritten rest chunks result →
    rewritten (gap ++ there ++ rest) (chunk :: chunks) (gap ++ new ++ result).
(** Chunks that replace something, found by its place rather than at the end of the file. *)
Definition in_order (chunk : UpdateFileChunk) : bool :=
  negb (bool_decide (chunk.(UpdateFileChunk.old_lines) = []))
  && negb chunk.(UpdateFileChunk.is_end_of_file).

Lemma begins_Forall2 same lines pattern :
  begins same lines pattern = true →
  length pattern ≤ length lines ∧
  Forall2 (λ line expected, same line expected = true) (take (length pattern) lines) pattern.
Proof.
  revert lines. induction pattern as [|expected pattern IH]; intros lines; cbn [begins length].
  { intros _. rewrite take_0. split; [lia|constructor]. }
  destruct lines as [|line lines]; [done|]. intros [Hs Hb]%andb_true_iff.
  apply IH in Hb as [Hl Hb]. cbn [length take]. split; [lia|by constructor].
Qed.
Lemma first_match_Some same lines pattern start bound index :
  pattern ≠ [] → first_match same lines pattern start bound = Some index →
  start ≤ index ∧ index + length pattern ≤ length lines ∧
  Forall2 (λ line expected, same line expected = true) (take (length pattern) (drop index lines)) pattern.
Proof.
  intros Hp. unfold first_match. intros [Hin%in_seq Hb]%List.find_some.
  apply begins_Forall2 in Hb as [Hl Hb]. rewrite length_drop in Hl.
  destruct pattern; [done|]. cbn [length] in *. split_and!; [lia|lia|done].
Qed.
Lemma or_else_Some {A} (o other : option A) a :
  or_else o other = Some a → o = Some a ∨ other = Some a.
Proof. destruct o; [by left|by right]. Qed.
Lemma seek_sequence_Some lines pattern start index :
  start ≤ length lines → seek_sequence lines pattern start false = Some index →
  start ≤ index ∧ index + length pattern ≤ length lines ∧
  Forall2 taken_for (take (length pattern) (drop index lines)) pattern.
Proof.
  intros Hs. unfold seek_sequence. case_bool_decide as Hp.
  { intros [= <-]. subst. cbn. split_and!; [done|lia|constructor]. }
  case_bool_decide; [done|]. cbn [andb].
  intros [Hf|[Hf|[Hf|Hf]%or_else_Some]%or_else_Some]%or_else_Some;
    apply (first_match_Some _ _ _ _ _ _ Hp) in Hf as (H1 & H2 & H3);
    (split_and!; [done|done|]); (eapply Forall2_impl; [exact H3|]); unfold taken_for; tauto.
Qed.

(** Replacements one after the other, from the line [k] on. *)
Fixpoint placed (k len : nat) (replacements : list Replacement) : Prop :=
  match replacements with
  | [] => k ≤ len
  | (start, old_len, _) :: replacements =>
      k ≤ start ∧ start + old_len ≤ len ∧ placed (start + old_len) len replacements
  end.
Fixpoint rebuild (lines : list string) (k : nat) (replacements : list Replacement) : list string :=
  match replacements with
  | [] => drop k lines
  | (start, old_len, new_segment) :: replacements =>
      take (start - k) (drop k lines) ++ new_segment
      ++ rebuild lines (start + old_len) replacements
  end.
Lemma seek_context_Some lines path k chunk k' :
  k ≤ length lines → seek_context lines path k chunk = Ok k' →
  k ≤ k' ≤ length lines ∧ context_in chunk (take (k' - k) (drop k lines)).
Proof.
  intros Hk. unfold seek_context, context_in.
  destruct (UpdateFileChunk.change_context chunk) as [context|]; [|intros [= <-]; split; [lia|done]].
  destruct (seek_sequence _ _ _ _) as [index|] eqn:Hs; [|done]. intros [= <-].
  apply seek_sequence_Some in Hs as (H1 & H2 & H3); [|done]. cbn [length] in *. split; [lia|].
  apply Forall2_cons_inv_r in H3 as (line & rest & Hline & _ & Ht). exists line. split; [|done].
  assert (drop index lines !! 0 = Some line) as Hat.
  { rewrite <- (take_drop 1 (drop index lines)), Ht. done. }
  rewrite lookup_drop, Nat.add_0_r in Hat. apply list_elem_of_lookup. exists (index - k).
  rewrite lookup_take_lt by lia. rewrite lookup_drop. by replace (k + (index - k)) with index by lia.
Qed.
Lemma find_chunk_Some lines k chunk start old_len new_segment :
  k ≤ length lines → chunk.(UpdateFileChunk.is_end_of_file) = false →
  find_chunk lines k chunk = Some (start, old_len, new_segment) →
  k ≤ start ∧ start + old_len ≤ length lines ∧
  fits chunk (take old_len (drop start lines)) new_segment.
Proof.
  intros Hk Heof. unfold find_chunk, fits. rewrite Heof.
  destruct (seek_sequence _ _ _ _) as [index|] eqn:Hs.
  { intros [= <- <- <-]. apply seek_sequence_Some in Hs as (? & ? & ?); auto. }
  destruct (ends_empty _) eqn:He; [|done]. destruct (seek_sequence _ (removelast _) _ _) eqn:Hs';
    cbn [mbind option_bind]; [|done]. intros [= <- <- <-].
  apply seek_sequence_Some in Hs' as (? & ? & ?); auto 10.
Qed.
Lemma chunk_replacements_placed lines path k chunks replacements :
  k ≤ length lines → Forall (λ chunk, in_order chunk = true) chunks →
  chunk_replacements lines path k chunks = Ok replacements →
  placed k (length lines) replacements ∧
  rewritten (drop k lines) chunks (rebuild lines k replacements).
Proof.
  intros Hk H. revert k replacements Hk. induction H as [|chunk chunks Hc H IH]; intros k rs Hk.
  { intros [= <-]. split; [done|constructor]. }
  apply andb_true_iff in Hc as [Hold%negb_true_iff%bool_decide_eq_false Heof%negb_true_iff].
  cbn [chunk_replacements]. intros (k' & [Hk' Hctx]%seek_context_Some & Hrest)%bind_Ok; [|done].
  rewrite bool_decide_eq_false_2 in Hrest by done.
  destruct (find_chunk _ _ _) as [[[start old_len] new_segment]|] eqn:Hf; [|done].
  apply find_chunk_Some in Hf as (Hs & Hlen & Hfits); [|lia|done].
  apply bind_Ok in Hrest as (rs' & Hrs & [= <-]). apply IH in Hrs as [Hp Hr]; [|lia].
  cbn [placed rebuild]. split_and!; [lia|lia|done|].
  replace (drop k lines) with (take (start - k) (drop k lines)
    ++ take old_len (drop start lines) ++ drop (start + old_len) lines) at 1.
  - constructor; [|done|done]. unfold context_in in *.
    destruct (UpdateFileChunk.change_context chunk) as [context|]; [|done].
    destruct Hctx as (line & Hin & Ht). exists line. split; [|done].
    apply elem_of_take in Hin as (i & Hi & Hlt). apply elem_of_take. exists i.
    split; [done|lia].
  - rewrite <- (take_drop (start - k) (drop k lines)) at 2. f_equal.
    rewrite drop_drop. replace (k + (start - k)) with start by lia.
    rewrite <- (take_drop old_len (drop start lines)) at 2. by rewrite drop_drop.
Qed.

Lemma sort_placed k len replacements :
  placed k len replacements → sort_replacements replacements = replacements.
Proof.
  revert k. induction replacements as [|[[start old_len] new] rest IH]; intros k; [done|].
  cbn [placed]. intros (Hk & Hl & Hp). unfold sort_replacements in *. cbn [foldr].
  rewrite (IH _ Hp). destruct rest as [|[[start' old_len'] new'] rest]; [done|].
  destruct Hp as (Hp & _). cbn [insert_replacement]. by rewrite bool_decide_eq_true_2 by (cbn; lia).
Qed.
Lemma remove_lines_eq count start lines :
  remove_lines count start lines = take start lines ++ drop (start + count) lines.
Proof.
  revert lines. induction count as [|count IH]; intros lines; cbn [remove_lines].
  { by rewrite Nat.add_0_r, take_drop. }
  rewrite IH. case_bool_decide as Hlt.
  - rewrite delete_take_drop. rewrite take_app_le, take_take by (rewrite length_take; lia).
    rewrite Nat.min_id. f_equal. rewrite drop_app_ge by (rewrite length_take; lia).
    rewrite length_take, drop_drop. f_equal. lia.
  - rewrite !drop_ge by lia. done.
Qed.
Lemma insert_lines_eq index new lines :
  index ≤ length lines → insert_lines index new lines = take index lines ++ new ++ drop index lines.
Proof.
  revert index lines. induction new as [|line new IH]; intros index lines Hi; cbn [insert_lines].
  { cbn [app]. by rewrite take_drop. }
  rewrite IH by (rewrite length_app, length_take; cbn; rewrite length_drop; lia).
  assert (length (take index lines ++ [line]) = S index) as Hlen
    by (rewrite length_app, length_take; cbn; lia).
  replace (take index lines ++ line :: drop index lines)
    with ((take index lines ++ [line]) ++ drop index lines) by by rewrite <- app_assoc.
  rewrite take_app_length', drop_app_length' by done. by rewrite <- app_assoc.
Qed.
Lemma apply_placed k lines replacements :
  placed k (length lines) replacements →
  apply_replacements lines replacements = take k lines ++ rebuild lines k replacements.
Proof.
  unfold apply_replacements. revert k.
  induction replacements as [|[[start old_len] new] rest IH]; intros k; cbn [placed rev rebuild].
  { intros _. by rewrite take_drop. }
  intros (Hk & Hl & Hp). rewrite foldl_app, (IH _ Hp). cbn [foldl apply_replacement].
  rewrite remove_lines_eq. set (tail := rebuild lines (start + old_len) rest).
  assert (length (take (start + old_len) lines) = start + old_len) as Hlen
    by (rewrite length_take; lia).
  rewrite take_app_le, take_take, Nat.min_l by lia. rewrite drop_app_length' by done.
  assert (length (take start lines) = start) as Hlen' by (rewrite length_take; lia).
  rewrite insert_lines_eq by (rewrite length_app; lia).
  rewrite take_app_length', drop_app_length' by done.
  rewrite <- (take_drop k (take start lines)) at 1. rewrite take_take, Nat.min_l by lia.
  rewrite <- app_assoc. f_equal. f_equal.
  rewrite take_drop_commute. by replace (k + (start - k)) with start by lia.
Qed.

(** The lines of a file, as [derive_new_contents] takes them. *)
Definition text_lines (contents : string) : list string :=
  without_empty_end (split newline contents).
Definition lines_text (lines : list string) : string :=
  join_lines (if ends_empty lines then lines else lines ++ [""]).
(** C31. An update replaces what it names and nothing else: when each chunk replaces something and none
    is anchored at the end of the file, the new text is the old one in which, in the order of the
    chunks, the lines taken for the old lines of each, after its context, are its new lines. *)
Theorem hunks_replace_what_they_name contents path chunks text :
  Forall (λ chunk, in_order chunk = true) chunks →
  derive_new_contents contents path chunks = Ok text →
  ∃ result, rewritten (text_lines contents) chunks result ∧ text = lines_text result.
Proof.
  intros Hc. unfold derive_new_contents. fold (text_lines contents).
  intros (rs & Hrs & [= <-])%bind_Ok. unfold compute_replacements in Hrs.
  apply bind_Ok in Hrs as (rs' & Hrs & [= <-]).
  apply chunk_replacements_placed in Hrs as [Hp Hr]; [|lia|done].
  rewrite (sort_placed _ _ _ Hp), (apply_placed _ _ _ Hp). eexists. split; [exact Hr|done].
Qed.

Definition example_chunk (old_lines new_lines : list string) (eof : bool) : UpdateFileChunk :=
  {| UpdateFileChunk.change_context := None;
     UpdateFileChunk.old_lines := old_lines;
     UpdateFileChunk.new_lines := new_lines;
     UpdateFileChunk.is_end_of_file := eof |}.
Lemma hunks_replace_what_they_name_witness :
  ∃ result, rewritten (text_lines (end_lines ["a"; "b"; "c"]))
      [example_chunk ["b"] ["x"; "y"] false] result ∧
    end_lines ["a"; "x"; "y"; "c"] = lines_text result.
Proof.
  apply (hunks_replace_what_they_name (end_lines ["a"; "b"; "c"]) "/f").
  - repeat constructor.
  - reflexivity.
Defined.
Definition example_hunks : list Hunk :=
  [Hunk.AddFile "docs/new.md" (end_lines ["one"; ""; "two"]);
   Hunk.DeleteFile "old.md";
   Hunk.UpdateFile "src/a.rs" (Some "src/b.rs")
     [example_chunk ["fn a()"] ["fn b()"] false; example_chunk ["}"] ["}"; ""] true]].
Lemma printed_patches_parse_witness :
  parse_patch (print_patch example_hunks) =
  Ok {| ParsedPatch.patch := print_patch example_hunks;
        ParsedPatch.hunks := example_hunks;
        ParsedPatch.workdir := None |}.
Proof. apply (printed_patches_parse example_hunks). repeat constructor. Defined.


(** A chunk anchored at the end of the file is looked for there even when a chunk before it has
    replaced those lines; its own lines are then lost. *)
Example an_anchored_chunk_is_lost :
  derive_new_contents (end_lines ["a"]) "/f"
    [example_chunk ["a"] ["b"] false; example_chunk ["a"] ["c"] true] = Ok (end_lines ["b"]).
Proof. reflexivity. Qed.
(** Lines added at the end of a file whose last line is empty are lost when another chunk replaces
    that line with those before it. *)
Example added_lines_are_lost :
  derive_new_contents (end_lines ["a"; ""]) "/f"
    [example_chunk [] ["new"] false; example_chunk ["a"; ""] ["b"; ""] false]
  = Ok (end_lines ["b"; ""]).
Proof. reflexivity. Qed.
