(* ===== verification/FileTools.v ===== *)
(** * Changing files

    What the tools that change text files do to a file system: [edit_file], which replaces text of one
    file, and [apply_patch], which resolves a patch against what the files hold before it writes
    anything ([crates/tools/src/fs/tools/{edit_file,apply_patch,shared}.rs],
    [crates/tools/src/fs/apply_patch/engine.rs], [crates/tools/src/error.rs]). *)
From Stdlib Require Import Ascii.
From S2P Require Import Prelude Ids Text Types Externals VfsTree VfsStore VfsFiles Patch.
Set Primitive Projections.

(** ** Errors *)
Module ApplyPatchSummary.
Record ApplyPatchSummary : Type := {
  added : list FsPath;
  modified : list FsPath;
  deleted : list FsPath;
}.
End ApplyPatchSummary.
Abbreviation ApplyPatchSummary := ApplyPatchSummary.ApplyPatchSummary.
Definition ApplyPatchSummary_default : ApplyPatchSummary :=
  {| ApplyPatchSummary.added := []; ApplyPatchSummary.modified := [];
     ApplyPatchSummary.deleted := [] |}.
Definition is_empty (self : ApplyPatchSummary) : bool :=
  bool_decide (self.(ApplyPatchSummary.added) = [])
  && bool_decide (self.(ApplyPatchSummary.modified) = [])
  && bool_decide (self.(ApplyPatchSummary.deleted) = []).
Definition list_paths (letter : string) (paths : list FsPath) : string :=
  String.concat "" (map (λ path, letter +:+ " " +:+ path +:+ NL) paths).
Definition listing (self : ApplyPatchSummary) : string :=
  list_paths "A" self.(ApplyPatchSummary.added)
  +:+ list_paths "M" self.(ApplyPatchSummary.modified)
  +:+ list_paths "D" self.(ApplyPatchSummary.deleted).
Definition output (self : ApplyPatchSummary) : string :=
  "Success. Updated the following files:" +:+ NL +:+ listing self.

(** The errors of contents, processes and jobs, which no tool here makes, are left as their text. *)
Module ToolError.
Inductive ToolError : Type :=
| Content (message : string)
| Filesystem (error : FsError)
| Process (message : string)
| Job (message : string)
| BlobStore (error : BlobStoreError)
| UnsupportedCapability (message : string)
| InvalidRequest (message : string)
| PatchPartiallyApplied (applied : ApplyPatchSummary) (failed_path : FsPath)
    (not_applied : list string) (source : FsError).
End ToolError.
Abbreviation ToolError := ToolError.ToolError.
Abbreviation ToolAsync := (Async ToolError) (only parsing).
(** [?] on what a file system returns. *)
Definition on_fs {A} (m : Async FsError A) : ToolAsync A := await_err ToolError.Filesystem m.
Definition FsPathError_to_string (error : FsPathError) : string :=
  match error with
  | FsPathError.Remote message => "invalid remote path: " +:+ message
  | FsPathError.Empty => "filesystem path is empty"
  | FsPathError.NulByte => "filesystem path contains a NUL byte"
  | FsPathError.NonUnixSeparator path => "filesystem path must use '/' separators: " +:+ path
  end.
Definition FsError_to_string (error : FsError) : string :=
  match error with
  | FsError.InvalidPath error => FsPathError_to_string error
  | FsError.NotFound path => "filesystem path not found: " +:+ path
  | FsError.AlreadyExists path => "filesystem path already exists: " +:+ path
  | FsError.Conflict path =>
      "file changed since it was read: " +:+ path +:+ "; read it again before writing"
  | FsError.PermissionDenied path => "filesystem permission denied for path: " +:+ path
  | FsError.Unavailable path message =>
      "workspace attachment unavailable for path " +:+ path +:+ ": " +:+ message
  | FsError.Unsupported message => "filesystem operation unsupported: " +:+ message
  | FsError.InvalidInput message => "invalid filesystem request: " +:+ message
  | FsError.InvalidData message => "invalid filesystem data: " +:+ message
  | FsError.Failed message => "filesystem failure: " +:+ message
  end.
Definition partially_applied_message (applied : ApplyPatchSummary) (failed_path : FsPath)
    (not_applied : list string) (source : FsError) : string :=
  "patch partly applied, stopped at " +:+ failed_path +:+ ": " +:+ FsError_to_string source
  +:+ NL +:+ "Applied, do not resend these hunks:" +:+ NL +:+ listing applied
  +:+ "Not applied:" +:+ NL +:+ join_lines not_applied.
Definition usize_to_string (n : nat) : string := u64_to_string (N.of_nat n).
Definition ParseError_to_string (error : ParseError) : string :=
  match error with
  | ParseError.InvalidPatchError message => "invalid patch: " +:+ message
  | ParseError.InvalidHunkError message line_number =>
      "invalid hunk at line " +:+ usize_to_string line_number +:+ ", " +:+ message
  end.
Definition invalid_patch (message : string) : ToolError := ToolError.InvalidRequest message.
Definition parse_error_to_tool_error (error : ParseError) : ToolError :=
  invalid_patch (ParseError_to_string error).
Definition invalid_request (message : string) : ToolError := ToolError.InvalidRequest message.

(** ** Text *)
(** What [String::from_utf8] accepts. *)
Definition continuation : ascii → bool := in_range 128 191.
Definition second_of_three (first : ascii) : ascii → bool :=
  if Ascii.eqb first (ascii_of_N 224) then in_range 160 191
  else if Ascii.eqb first (ascii_of_N 237) then in_range 128 159
  else continuation.
Definition second_of_four (first : ascii) : ascii → bool :=
  if Ascii.eqb first (ascii_of_N 240) then in_range 144 191
  else if Ascii.eqb first (ascii_of_N 244) then in_range 128 143
  else continuation.
Fixpoint valid_utf8 (l : list ascii) : bool :=
  match l with
  | [] => true
  | a :: l =>
      if in_range 0 127 a then valid_utf8 l
      else match l with
           | [] => false
           | b :: l =>
               if in_range 194 223 a then continuation b && valid_utf8 l
               else match l with
                    | [] => false
                    | c :: l =>
                        if in_range 224 239 a then
                          second_of_three a b && continuation c && valid_utf8 l
                        else match l with
                             | [] => false
                             | d :: l =>
                                 in_range 240 244 a && second_of_four a b && continuation c
                                 && continuation d && valid_utf8 l
                             end
                    end
           end
  end.
Definition from_utf8 (bytes : string) : Result FsError string :=
  if valid_utf8 (chars bytes) then Ok bytes
  else Err (FsError.InvalidData "{utf8 error}").

(** ** The changes of a patch *)
Module PlannedWrite.
Record PlannedWrite : Type := {
  path : FsPath;
  contents : string;
  if_match : option FsVersion;
  added : bool;
}.
End PlannedWrite.
Abbreviation PlannedWrite := PlannedWrite.PlannedWrite.
Module PatchStep.
Inductive PatchStep : Type :=
| Write (write : PlannedWrite)
| Move (source destination : FsPath)
| Delete (path : FsPath).
Definition target (self : PatchStep) : FsPath :=
  match self with
  | Write write => write.(PlannedWrite.path)
  | Delete path => path
  | Move _ destination => destination
  end.
Definition describe (self : PatchStep) : string :=
  match self with
  | Write write =>
      (if write.(PlannedWrite.added) then "add " else "update ") +:+ write.(PlannedWrite.path)
  | Move source destination => "move " +:+ source +:+ " to " +:+ destination
  | Delete path => "delete " +:+ path
  end.
End PatchStep.
Abbreviation PatchStep := PatchStep.PatchStep.
Module PatchPlan.
Record PatchPlan : Type := {
  steps : list PatchStep;
  writes : gmap FsPath nat;
  removed : gset FsPath;
}.
End PatchPlan.
Abbreviation PatchPlan := PatchPlan.PatchPlan.
Definition PatchPlan_default : PatchPlan :=
  {| PatchPlan.steps := []; PatchPlan.writes := ∅; PatchPlan.removed := ∅ |}.
Module PlannedKind.
Inductive PlannedKind : Type := File | Directory | Unknown.
End PlannedKind.
Abbreviation PlannedKind := PlannedKind.PlannedKind.

Definition trim_end_slashes (s : string) : string :=
  of_chars (rev (strip_while (String.length s) [["/"%char]] (rev (chars s)))).
Definition create_parent_directories (fs : FileSystem) (path : FsPath) : FsAsync unit :=
  match FsPath.parent path with
  | Some parent =>
      if FsPath.is_root parent then mret tt
      else FileSystem.create_directory fs parent {| CreateDirectoryOptions.recursive := true |}
  | None => mret tt
  end.
Definition resolve_patch_path (fs : FileSystem) (cwd : option FsPath) (path : string)
    : Result ToolError FsPath :=
  map_err ToolError.Filesystem (FileSystem.resolve_input_path fs cwd path).
Definition ensure_file_not_directory (fs : FileSystem) (path : FsPath) : ToolAsync unit :=
  metadata ← on_fs (FileSystem.get_metadata fs path);
  reject_if metadata.(FileMetadata.is_directory)
    (ToolError.Filesystem (FsError.InvalidInput ("path is a directory: " +:+ path))).
Definition read_file_text (fs : FileSystem) (max_file_read_bytes : option N) (path : FsPath)
    : ToolAsync (string * option FsVersion) :=
  read ← on_fs (FileSystem.read_file_versioned fs path);
  let bytes := read.(VersionedRead.bytes) in
  _ ← match max_file_read_bytes with
      | Some max_file_read_bytes =>
          reject_if (max_file_read_bytes <? byte_len bytes)%N
            (invalid_patch ("apply_patch read " +:+ u64_to_string (byte_len bytes)
               +:+ " bytes from " +:+ path +:+ ", exceeding max_file_read_bytes="
               +:+ u64_to_string max_file_read_bytes))
      | None => mret tt
      end;
  text ← pure (map_err ToolError.Filesystem (from_utf8 bytes));
  mret (text, read.(VersionedRead.version)).
Definition derive (original : string) (path : FsPath) (chunks : list UpdateFileChunk)
    : ToolAsync string :=
  pure (map_err invalid_patch (derive_new_contents original path chunks)).

(** *** A plan *)
Section plan.
Context (fs : FileSystem).
Implicit Types plan : PatchPlan.
Definition kind plan (path : FsPath) : Prog PlannedKind :=
  if is_some (plan.(PatchPlan.writes) !! path) then mret PlannedKind.File
  else
    let prefix := trim_end_slashes path +:+ "/" in
    if existsb (λ written, starts_with prefix written.1) (map_to_list plan.(PatchPlan.writes))
    then mret PlannedKind.Directory
    else if bool_decide (path ∈ plan.(PatchPlan.removed)) then mret PlannedKind.Unknown
    else
      metadata ← FileSystem.get_metadata fs path;
      mret match metadata with
           | Ok metadata =>
               if metadata.(FileMetadata.is_directory) then PlannedKind.Directory
               else if metadata.(FileMetadata.is_file) then PlannedKind.File
               else PlannedKind.Unknown
           | Err _ => PlannedKind.Unknown
           end.
(** The loop over the ancestors. A parent has a segment less, so as many rounds as the path has
    segments are enough. *)
Fixpoint check_ancestors plan (path : FsPath) (rounds : nat) (ancestor : option FsPath)
    : ToolAsync unit :=
  match rounds, ancestor with
  | O, _ | _, None => mret tt
  | S rounds, Some current =>
      if FsPath.is_root current then mret tt
      else
        kind ← infallible (kind plan current);
        match kind with
        | PlannedKind.File =>
            mthrow (ToolError.Filesystem (FsError.InvalidInput
              (path +:+ " cannot be created: " +:+ current +:+ " is a file")))
        | PlannedKind.Directory => mret tt
        | PlannedKind.Unknown => check_ancestors plan path rounds (FsPath.parent current)
        end
  end.
Definition check_file_target plan (path : FsPath) : ToolAsync unit :=
  kind ← infallible (kind plan path);
  _ ← reject_if (match kind with PlannedKind.Directory => true | _ => false end)
        (ToolError.Filesystem (FsError.InvalidInput ("path is a directory: " +:+ path)));
  check_ancestors plan path (S (length (FsPath.segments path))) (FsPath.parent path).

(** [write_at], and what is done to the write there; only write steps are pointed at. *)
Definition on_write (index : nat) (f : PlannedWrite → PlannedWrite) (steps : list PatchStep)
    : list PatchStep :=
  match steps !! index with
  | Some (PatchStep.Write write) => <[index := PatchStep.Write (f write)]> steps
  | _ => steps
  end.
Definition contents_at (index : nat) (steps : list PatchStep) : string :=
  match steps !! index with
  | Some (PatchStep.Write write) => write.(PlannedWrite.contents)
  | _ => ""
  end.
Definition push_write plan (write : PlannedWrite) (removed : gset FsPath) : PatchPlan :=
  {| PatchPlan.steps := plan.(PatchPlan.steps) ++ [PatchStep.Write write];
     PatchPlan.writes :=
       <[write.(PlannedWrite.path) := length plan.(PatchPlan.steps)]> plan.(PatchPlan.writes);
     PatchPlan.removed := removed |}.
Definition plan_add plan (path : FsPath) (contents : string) : PatchPlan :=
  let removed := plan.(PatchPlan.removed) ∖ {[path]} in
  match plan.(PatchPlan.writes) !! path with
  | Some index =>
      {| PatchPlan.steps := on_write index (λ write,
           {| PlannedWrite.path := write.(PlannedWrite.path);
              PlannedWrite.contents := contents;
              PlannedWrite.if_match := None;
              PlannedWrite.added := true |}) plan.(PatchPlan.steps);
         PatchPlan.writes := plan.(PatchPlan.writes);
         PatchPlan.removed := removed |}
  | None =>
      push_write plan
        {| PlannedWrite.path := path; PlannedWrite.contents := contents;
           PlannedWrite.if_match := None; PlannedWrite.added := true |} removed
  end.
Definition plan_update plan (max_file_read_bytes : option N) (path : FsPath)
    (chunks : list UpdateFileChunk) : ToolAsync PatchPlan :=
  match plan.(PatchPlan.writes) !! path with
  | Some index =>
      contents ← derive (contents_at index plan.(PatchPlan.steps)) path chunks;
      mret {| PatchPlan.steps := on_write index (λ write,
                {| PlannedWrite.path := write.(PlannedWrite.path);
                   PlannedWrite.contents := contents;
                   PlannedWrite.if_match := write.(PlannedWrite.if_match);
                   PlannedWrite.added := write.(PlannedWrite.added) |}) plan.(PatchPlan.steps);
              PatchPlan.writes := plan.(PatchPlan.writes);
              PatchPlan.removed := plan.(PatchPlan.removed) |}
  | None =>
      _ ← reject_if (bool_decide (path ∈ plan.(PatchPlan.removed)))
            (ToolError.Filesystem (FsError.NotFound path));
      original ← read_file_text fs max_file_read_bytes path;
      contents ← derive original.1 path chunks;
      mret (push_write plan
        {| PlannedWrite.path := path; PlannedWrite.contents := contents;
           PlannedWrite.if_match := original.2; PlannedWrite.added := false |}
        plan.(PatchPlan.removed))
  end.
Definition plan_move plan (source destination : FsPath) : PatchPlan :=
  {| PatchPlan.steps := plan.(PatchPlan.steps) ++ [PatchStep.Move source destination];
     PatchPlan.writes :=
       match plan.(PatchPlan.writes) !! source with
       | Some index => <[destination := index]> (delete source plan.(PatchPlan.writes))
       | None => plan.(PatchPlan.writes)
       end;
     PatchPlan.removed := {[source]} ∪ plan.(PatchPlan.removed) ∖ {[destination]} |}.
Definition plan_delete plan (path : FsPath) : ToolAsync PatchPlan :=
  _ ← reject_if (bool_decide (path ∈ plan.(PatchPlan.removed)))
        (ToolError.Filesystem (FsError.NotFound path));
  _ ← if is_some (plan.(PatchPlan.writes) !! path) then mret tt
      else ensure_file_not_directory fs path;
  mret {| PatchPlan.steps := plan.(PatchPlan.steps) ++ [PatchStep.Delete path];
          PatchPlan.writes := delete path plan.(PatchPlan.writes);
          PatchPlan.removed := {[path]} ∪ plan.(PatchPlan.removed) |}.

Definition plan_hunk (cwd : option FsPath) (max_file_read_bytes : option N) plan (hunk : Hunk)
    : ToolAsync PatchPlan :=
  match hunk with
  | Hunk.AddFile path contents =>
      path ← pure (resolve_patch_path fs cwd path);
      _ ← check_file_target plan path;
      mret (plan_add plan path contents)
  | Hunk.DeleteFile path =>
      path ← pure (resolve_patch_path fs cwd path);
      plan_delete plan path
  | Hunk.UpdateFile path move_path chunks =>
      path ← pure (resolve_patch_path fs cwd path);
      plan ← plan_update plan max_file_read_bytes path chunks;
      match move_path with
      | None => mret plan
      | Some move_path =>
          destination ← pure (resolve_patch_path fs cwd move_path);
          if bool_decide (destination ≠ path) then
            _ ← check_file_target plan destination;
            mret (plan_move plan path destination)
          else mret plan
      end
  end.
Fixpoint plan_hunks_from (cwd : option FsPath) (max_file_read_bytes : option N) plan
    (hunks : list Hunk) : ToolAsync PatchPlan :=
  match hunks with
  | [] => mret plan
  | hunk :: hunks =>
      plan ← plan_hunk cwd max_file_read_bytes plan hunk;
      plan_hunks_from cwd max_file_read_bytes plan hunks
  end.
Definition plan_hunks (cwd : option FsPath) (max_file_read_bytes : option N) (hunks : list Hunk)
    : ToolAsync PatchPlan :=
  plan_hunks_from cwd max_file_read_bytes PatchPlan_default hunks.

(** *** Carrying a plan out *)
(** [list.iter_mut().find(..)], and the write to what it finds. *)
Fixpoint replace_entry (source destination : FsPath) (entries : list FsPath) : list FsPath :=
  match entries with
  | [] => []
  | entry :: entries =>
      if bool_decide (entry = source) then destination :: entries
      else entry :: replace_entry source destination entries
  end.
(** What a step adds to the summary once it is done. *)
Definition noted (summary : ApplyPatchSummary) (step : PatchStep) : ApplyPatchSummary :=
  let '(added, modified, deleted) :=
    (summary.(ApplyPatchSummary.added), summary.(ApplyPatchSummary.modified),
     summary.(ApplyPatchSummary.deleted)) in
  match step with
  | PatchStep.Write write =>
      if write.(PlannedWrite.added) then
        {| ApplyPatchSummary.added := added ++ [write.(PlannedWrite.path)];
           ApplyPatchSummary.modified := modified; ApplyPatchSummary.deleted := deleted |}
      else
        {| ApplyPatchSummary.added := added;
           ApplyPatchSummary.modified := modified ++ [write.(PlannedWrite.path)];
           ApplyPatchSummary.deleted := deleted |}
  | PatchStep.Move source destination =>
      {| ApplyPatchSummary.added := replace_entry source destination added;
         ApplyPatchSummary.modified := replace_entry source destination modified;
         ApplyPatchSummary.deleted := deleted |}
  | PatchStep.Delete path =>
      {| ApplyPatchSummary.added := added; ApplyPatchSummary.modified := modified;
         ApplyPatchSummary.deleted := deleted ++ [path] |}
  end.
Definition run_step (step : PatchStep) : FsAsync unit :=
  match step with
  | PatchStep.Write write =>
      let path := write.(PlannedWrite.path) in
      _ ← if write.(PlannedWrite.added) then create_parent_directories fs path else mret tt;
      FileSystem.write_file_with fs path write.(PlannedWrite.contents)
        {| WriteOptions.if_match := write.(PlannedWrite.if_match) |}
  | PatchStep.Move source destination =>
      _ ← create_parent_directories fs destination;
      FileSystem.rename fs source destination {| RenameOptions.overwrite := true |}
  | PatchStep.Delete path => FileSystem.remove fs path RemoveOptions_file
  end.
Definition commit_step (step : PatchStep) (summary : ApplyPatchSummary)
    : FsAsync ApplyPatchSummary :=
  _ ← run_step step;
  mret (noted summary step).
Fixpoint commit_steps_from (summary : ApplyPatchSummary) (steps : list PatchStep)
    : ToolAsync ApplyPatchSummary :=
  match steps with
  | [] => mret summary
  | step :: steps =>
      settle (commit_step step summary) (λ result : Result FsError ApplyPatchSummary,
        match result with
        | Ok summary => commit_steps_from summary steps
        | Err source =>
            mthrow (if is_empty summary then ToolError.Filesystem source
                    else ToolError.PatchPartiallyApplied summary (PatchStep.target step)
                           (map PatchStep.describe (step :: steps)) source)
        end)
  end.
Definition commit_steps (steps : list PatchStep) : ToolAsync ApplyPatchSummary :=
  commit_steps_from ApplyPatchSummary_default steps.

Definition apply_hunks (cwd : option FsPath) (max_file_read_bytes : option N) (hunks : list Hunk)
    : ToolAsync ApplyPatchSummary :=
  _ ← reject_if (bool_decide (hunks = [])) (invalid_patch "No files were modified.");
  plan ← plan_hunks cwd max_file_read_bytes hunks;
  commit_steps plan.(PatchPlan.steps).
Definition apply_patch_text (cwd : option FsPath) (max_file_read_bytes : option N)
    (patch : string) : ToolAsync ApplyPatchSummary :=
  parsed ← pure (map_err parse_error_to_tool_error (parse_patch patch));
  apply_hunks cwd max_file_read_bytes parsed.(ParsedPatch.hunks).
End plan.

(** ** The tools *)
(** The file system of a tool, the directory its paths start from, and the limit its reads have. *)
Module FsToolContext.
Record FsToolContext : Type := {
  fs : FileSystem;
  max_file_read_bytes : N;
  fs_cwd : option FsPath;
}.
End FsToolContext.
Abbreviation FsToolContext := FsToolContext.FsToolContext.
Definition resolve_path (ctx : FsToolContext) (path : string) : Result ToolError FsPath :=
  map_err ToolError.Filesystem
    (FileSystem.resolve_input_path ctx.(FsToolContext.fs) ctx.(FsToolContext.fs_cwd) path).
(** [PathInput::presented]. *)
Definition presented (path : string) (resolved : FsPath) : FsPath :=
  match FsPath.new path with Ok path => path | Err _ => resolved end.

Module ApplyPatchResult.
Record ApplyPatchResult : Type := {
  added : list FsPath;
  modified : list FsPath;
  deleted : list FsPath;
  output : string;
}.
End ApplyPatchResult.
Abbreviation ApplyPatchResult := ApplyPatchResult.ApplyPatchResult.
Definition ApplyPatchResult_from (summary : ApplyPatchSummary) : ApplyPatchResult :=
  {| ApplyPatchResult.added := summary.(ApplyPatchSummary.added);
     ApplyPatchResult.modified := summary.(ApplyPatchSummary.modified);
     ApplyPatchResult.deleted := summary.(ApplyPatchSummary.deleted);
     ApplyPatchResult.output := output summary |}.
Definition invoke_apply_patch (ctx : FsToolContext) (patch : string)
    : ToolAsync ApplyPatchResult :=
  summary ← apply_patch_text ctx.(FsToolContext.fs) ctx.(FsToolContext.fs_cwd)
    (Some ctx.(FsToolContext.max_file_read_bytes)) patch;
  mret (ApplyPatchResult_from summary).

Module EditFileArgs.
Record EditFileArgs : Type := {
  path : string;
  old_string : string;
  new_string : string;
  replace_all : bool;
}.
End EditFileArgs.
Abbreviation EditFileArgs := EditFileArgs.EditFileArgs.
Module EditFileResult.
Record EditFileResult : Type := {
  path : FsPath;
  resolved_path : FsPath;
  replacements : nat;
  bytes_written : nat;
}.
End EditFileResult.
Abbreviation EditFileResult := EditFileResult.EditFileResult.
(** The text [edit_file] leaves, and the number of matches it counted. *)
Definition edited (args : EditFileArgs) (resolved_path : FsPath) (contents : string)
    : Result ToolError (string * nat) :=
  let replacements := count_matches args.(EditFileArgs.old_string) contents in
  _ ← reject_if (bool_decide (replacements = 0))
        (invalid_request ("edit_file old_string was not found in " +:+ resolved_path));
  _ ← reject_if (bool_decide (1 < replacements) && negb args.(EditFileArgs.replace_all))
        (invalid_request ("edit_file old_string matched " +:+ usize_to_string replacements
           +:+ " times in " +:+ resolved_path
           +:+ "; set replace_all=true to replace every match"));
  mret (if args.(EditFileArgs.replace_all)
        then replace args.(EditFileArgs.old_string) args.(EditFileArgs.new_string) contents
        else replace_first args.(EditFileArgs.old_string) args.(EditFileArgs.new_string) contents,
        replacements).
Definition invoke_edit_file (ctx : FsToolContext) (args : EditFileArgs)
    : ToolAsync EditFileResult :=
  _ ← reject_if (bool_decide (args.(EditFileArgs.old_string) = ""))
        (invalid_request "edit_file old_string must not be empty");
  resolved_path ← pure (resolve_path ctx args.(EditFileArgs.path));
  read ← on_fs (FileSystem.read_file_versioned ctx.(FsToolContext.fs) resolved_path);
  contents ← pure (map_err ToolError.Filesystem (from_utf8 read.(VersionedRead.bytes)));
  updated ← pure (edited args resolved_path contents);
  _ ← on_fs (FileSystem.write_file_with ctx.(FsToolContext.fs) resolved_path updated.1
        {| WriteOptions.if_match := read.(VersionedRead.version) |});
  mret {| EditFileResult.path := presented args.(EditFileArgs.path) resolved_path;
          EditFileResult.resolved_path := resolved_path;
          EditFileResult.replacements := if args.(EditFileArgs.replace_all) then updated.2 else 1;
          EditFileResult.bytes_written := String.length updated.1 |}.
