(* ===== verification/FileToolLaws.v ===== *)
(** * Laws of the file tools

    A patch against a store of files: planning writes nothing, carrying the plan out leaves the files
    the hunks describe one after the other, and a patch that stops partway says exactly what it
    did. The tools are proved against [FileStore], which says what a file system does to the
    texts of its files, whatever it is made of. *)
From Stdlib Require Import Ascii.
From S2P Require Import Prelude Ids Text Types Externals VfsTree VfsTreeLaws VfsStore VfsFiles.
From S2P Require Import Patch FileTools.

(** ** Programs that run to their end *)
Section runs.
Context `{!Externals, !ManifestJson}.
(** Bytes that were put are the ones found under their reference, which is so unless other bytes with
    the same hash were there, and a head that is published can be read back, which is so unless it
    nests too deep for its JSON. *)
Definition kept (op : StoreOp) (world : World) : Prop :=
  match op with
  | StoreOp.PutBytes bytes =>
      world.(World.blobs).(InMemoryBlobStoreInner.bytes_by_ref) !! BlobRef_from_bytes bytes
      = Some bytes
  | StoreOp.CompareAndSetHead request => ∃ bytes manifest,
      world.(World.blobs).(InMemoryBlobStoreInner.bytes_by_ref)
        !! request.(CompareAndSetVfsWorkspaceHead.new_head_snapshot_ref) = Some bytes ∧
      decode_snapshot_manifest bytes = Ok manifest
  | _ => True
  end.
Fixpoint runs {A} (program : Prog A) (world : World) (a : A) (world' : World) : Prop :=
  match program with
  | Return a' => a' = a ∧ world' = world
  | Call op k =>
      kept op (answer op world).2 ∧ runs (k (answer op world).1) (answer op world).2 a world'
  end.
Lemma runs_run {A} (program : Prog A) world a world' :
  runs program world a world' → run program world = (a, world').
Proof.
  revert world. induction program as [a'|op k IH]; intros world; cbn [runs run].
  - by intros [-> ->].
  - intros [_ Hr]. apply IH in Hr. by destruct (answer op world).
Qed.
Lemma runs_bind_prog {A B} (m : Prog A) (k : A → Prog B) world b world' :
  runs (bind_prog m k) world b world' ↔
  ∃ a world1, runs m world a world1 ∧ runs (k a) world1 b world'.
Proof.
  revert world. induction m as [a|op f IH]; intros world; cbn [bind_prog runs].
  - split; [intros Hr; by exists a, world|]. by intros (? & ? & [-> ->] & Hr).
  - rewrite IH. naive_solver.
Qed.
Lemma runs_async {E A B} (m : Async E A) (k : A → Async E B) world r world' :
  runs (m ≫= k) world r world' →
  (∃ a world1, runs m world (Ok a) world1 ∧ runs (k a) world1 r world') ∨
  (∃ e, r = Err e ∧ runs m world (Err e) world').
Proof.
  unfold mbind, Async_bind. intros (s & world1 & Hm & Hk)%runs_bind_prog.
  destruct s as [a|e]; [left; eauto|]. destruct Hk as [<- ->]. right. eauto.
Qed.
Lemma runs_await_err {E F A} (f : E → F) (m : Async E A) world r world' :
  runs (await_err f m) world r world' ↔ ∃ s, runs m world s world' ∧ r = map_err f s.
Proof.
  unfold await_err. rewrite runs_bind_prog. split.
  - intros (s & world1 & Hm & <- & ->). eauto.
  - intros (s & Hm & ->). by exists s, world'.
Qed.
Lemma runs_pure {E A} (s : Result E A) world r world' :
  runs (pure s) world r world' ↔ r = s ∧ world' = world.
Proof. cbn. naive_solver. Qed.
Lemma runs_ret {E A} (a : A) world (r : Result E A) world' :
  runs (mret (M:=Async E) a) world r world' ↔ r = Ok a ∧ world' = world.
Proof. cbn. naive_solver. Qed.
Lemma runs_throw {E A} (e : E) world (r : Result E A) world' :
  runs (mthrow (M:=Async E) e) world r world' ↔ r = Err e ∧ world' = world.
Proof. cbn. naive_solver. Qed.
Lemma runs_reject {E} (c : bool) (e : E) world (r : Result E unit) world' :
  runs (reject_if (M:=Async E) c e) world r world' ↔
  r = (if c then Err e else Ok tt) ∧ world' = world.
Proof. destruct c; cbn; naive_solver. Qed.
End runs.

(** ** Files and what is done to them *)
Abbreviation Files := (FsPath → option string) (only parsing).
Definition with_file (path : FsPath) (contents : string) (files : Files) : Files := λ q,
  if bool_decide (q = path) then Some contents else files q.
Definition without_file (path : FsPath) (files : Files) : Files := λ q,
  if bool_decide (q = path) then None else files q.
Lemma with_file_same path contents files : with_file path contents files path = Some contents.
Proof. unfold with_file. by rewrite bool_decide_eq_true_2. Qed.
Lemma with_file_other path contents files q : q ≠ path → with_file path contents files q = files q.
Proof. intros Hq. unfold with_file. by rewrite bool_decide_eq_false_2. Qed.
Lemma without_file_same path files : without_file path files path = None.
Proof. unfold without_file. by rewrite bool_decide_eq_true_2. Qed.
Lemma without_file_other path files q : q ≠ path → without_file path files q = files q.
Proof. intros Hq. unfold without_file. by rewrite bool_decide_eq_false_2. Qed.
(** A step, were the text it writes [contents]. *)
Definition step_with (contents : string) (step : PatchStep) (files : Files) : Files :=
  match step with
  | PatchStep.Write write => with_file write.(PlannedWrite.path) contents files
  | PatchStep.Move source destination =>
      match files source with
      | Some text => with_file destination text (without_file source files)
      | None => files
      end
  | PatchStep.Delete path => without_file path files
  end.
Definition exec_step (files : Files) (step : PatchStep) : Files :=
  step_with (contents_at 0 [step]) step files.
Definition exec_steps (steps : list PatchStep) (files : Files) : Files :=
  foldl exec_step files steps.
(** The steps from the [n]th on, were [σ] the texts they write. *)
Fixpoint exec_with (σ : nat → string) (n : nat) (steps : list PatchStep) (files : Files) : Files :=
  match steps with
  | [] => files
  | step :: steps => exec_with σ (S n) steps (step_with (σ n) step files)
  end.
Lemma exec_with_app σ n steps steps' files :
  exec_with σ n (steps ++ steps') files =
  exec_with σ (n + length steps) steps' (exec_with σ n steps files).
Proof.
  revert n files. induction steps as [|step steps IH]; intros n files; cbn [app exec_with length].
  - by rewrite Nat.add_0_r.
  - rewrite IH. by replace (S n + length steps) with (n + S (length steps)) by lia.
Qed.
Lemma exec_with_steps n steps files σ :
  (∀ i, i < length steps → σ (n + i) = contents_at i steps) →
  exec_with σ n steps files = exec_steps steps files.
Proof.
  revert n files. induction steps as [|step steps IH]; intros n files Hσ; [done|].
  cbn [exec_with exec_steps foldl]. rewrite IH.
  - unfold exec_steps, exec_step. f_equal. specialize (Hσ 0). rewrite Nat.add_0_r in Hσ.
    rewrite Hσ by (cbn; lia). done.
  - intros i Hi. specialize (Hσ (S i)). replace (S n + i) with (n + S i) by lia.
    rewrite Hσ by (cbn; lia). done.
Qed.
Lemma exec_with_on_write σ n index f steps files :
  (∀ write, (f write).(PlannedWrite.path) = write.(PlannedWrite.path)) →
  exec_with σ n (on_write index f steps) files = exec_with σ n steps files.
Proof.
  intros Hf. unfold on_write. destruct (steps !! index) as [[write|s d|p]|] eqn:Hi; [|done..].
  revert n index files Hi. induction steps as [|step steps IH]; intros n index files; [done|].
  destruct index as [|index]; cbn.
  - intros [= ->]. cbn. by rewrite Hf.
  - intros Hi. by apply IH.
Qed.

(** ** What a plan promises *)
(** What the files hold once the plan is carried out, were [σ] the texts it writes. *)
Definition held (σ : nat → string) (plan : PatchPlan) (files : Files) : Files := λ q,
  match plan.(PatchPlan.writes) !! q with
  | Some index => Some (σ index)
  | None => if bool_decide (q ∈ plan.(PatchPlan.removed)) then None else files q
  end.
Definition writes_at (steps : list PatchStep) (index : nat) : Prop :=
  ∃ write, steps !! index = Some (PatchStep.Write write).
Definition starts_well (steps : list PatchStep) : Prop :=
  match steps with PatchStep.Move _ _ :: _ => False | _ => True end.
Record planned (files : Files) (plan : PatchPlan) : Prop := {
  planned_held σ q : exec_with σ 0 plan.(PatchPlan.steps) files q = held σ plan files q;
  planned_writes q index :
    plan.(PatchPlan.writes) !! q = Some index → writes_at plan.(PatchPlan.steps) index;
  planned_apart q q' index :
    plan.(PatchPlan.writes) !! q = Some index → plan.(PatchPlan.writes) !! q' = Some index → q = q';
  planned_start : starts_well plan.(PatchPlan.steps);
}.
Definition current (plan : PatchPlan) (files : Files) : Files :=
  held (λ index, contents_at index plan.(PatchPlan.steps)) plan files.
Lemma planned_exec files plan q :
  planned files plan → exec_steps plan.(PatchPlan.steps) files q = current plan files q.
Proof.
  intros Hp. unfold current. rewrite <- planned_held by done. by rewrite exec_with_steps.
Qed.
Lemma planned_default files : planned files PatchPlan_default.
Proof.
  split; cbn; [|by intros q index; rewrite lookup_empty..|done].
  intros σ q. unfold held. cbn. rewrite lookup_empty. by rewrite bool_decide_eq_false_2.
Qed.
Lemma writes_at_lt steps index : writes_at steps index → index < length steps.
Proof. intros [write Hi]. by eapply lookup_lt_Some. Qed.
Lemma writes_at_app steps steps' index : writes_at steps index → writes_at (steps ++ steps') index.
Proof. intros [write Hi]. exists write. by apply lookup_app_l_Some. Qed.
Lemma contents_at_app steps steps' index :
  index < length steps → contents_at index (steps ++ steps') = contents_at index steps.
Proof. intros Hi. unfold contents_at. by rewrite lookup_app_l. Qed.
Lemma starts_well_snoc steps step :
  starts_well steps → steps ≠ [] ∨ starts_well [step] → starts_well (steps ++ [step]).
Proof. destruct steps; [by intros _ [?|?]|done]. Qed.

(** *** Writing a new step *)
Lemma planned_push files plan write removed :
  planned files plan → plan.(PatchPlan.writes) !! write.(PlannedWrite.path) = None →
  (∀ q, q ≠ write.(PlannedWrite.path) → q ∈ removed ↔ q ∈ plan.(PatchPlan.removed)) →
  let plan' := push_write plan write removed in
  planned files plan' ∧
  ∀ q, current plan' files q =
    with_file write.(PlannedWrite.path) write.(PlannedWrite.contents) (current plan files) q.
Proof.
  intros Hp Hnone Hrem plan'.
  assert (∀ σ q, held σ plan' files q =
    with_file write.(PlannedWrite.path) (σ (length plan.(PatchPlan.steps))) (held σ plan files) q) as Hheld.
  { intros σ q. unfold held. unfold plan', push_write; cbn [PatchPlan.writes PatchPlan.removed].
    destruct (decide (q = write.(PlannedWrite.path))) as [->|Hq].
    { by rewrite lookup_insert_eq, with_file_same. }
    rewrite lookup_insert_ne, with_file_other by done.
    destruct (PatchPlan.writes plan !! q); [done|]. by erewrite bool_decide_ext by by apply Hrem. }
  split; [split|].
  - intros σ q. rewrite Hheld. unfold plan', push_write; cbn [PatchPlan.steps].
    rewrite exec_with_app. cbn. destruct (decide (q = write.(PlannedWrite.path))) as [->|Hq].
    + by rewrite !with_file_same.
    + rewrite !with_file_other by done. by apply planned_held.
  - intros q index. unfold plan', push_write; cbn [PatchPlan.writes PatchPlan.steps].
    intros [[<- <-]|[_ Hi]]%lookup_insert_Some.
    + exists write. rewrite lookup_app_r, Nat.sub_diag by done. done.
    + apply writes_at_app. by eapply planned_writes.
  - intros q q' index. unfold plan', push_write; cbn [PatchPlan.writes].
    assert (∀ q, plan.(PatchPlan.writes) !! q ≠ Some (length plan.(PatchPlan.steps))) as Hnew.
    { intros q1 Hi. eapply planned_writes in Hi; [|done]. apply writes_at_lt in Hi. lia. }
    intros [[<- <-]|[_ Hi]]%lookup_insert_Some [[<- Hj]|[_ Hj]]%lookup_insert_Some.
    + done.
    + by apply Hnew in Hj.
    + subst. by apply Hnew in Hi.
    + by eapply planned_apart.
  - apply starts_well_snoc; [by eapply planned_start|by right].
  - intros q. unfold current at 1. rewrite Hheld.
    destruct (decide (q = write.(PlannedWrite.path))) as [->|Hq].
    + rewrite !with_file_same. unfold contents_at. cbn. by rewrite lookup_app_r, Nat.sub_diag by done.
    + rewrite !with_file_other by done. unfold current, held.
      destruct (PatchPlan.writes plan !! q) as [index|] eqn:Hi; [|done]. cbn. rewrite contents_at_app; [done|]. eapply writes_at_lt. by eapply planned_writes.
Qed.
(** *** Writing over the text of a step *)
Lemma planned_over files plan path index contents f removed :
  planned files plan → plan.(PatchPlan.writes) !! path = Some index →
  (∀ write, (f write).(PlannedWrite.path) = write.(PlannedWrite.path)) →
  (∀ write, (f write).(PlannedWrite.contents) = contents) →
  (∀ q, q ≠ path → q ∈ removed ↔ q ∈ plan.(PatchPlan.removed)) →
  let plan' := {| PatchPlan.steps := on_write index f plan.(PatchPlan.steps);
                  PatchPlan.writes := plan.(PatchPlan.writes);
                  PatchPlan.removed := removed |} in
  planned files plan' ∧
  ∀ q, current plan' files q = with_file path contents (current plan files) q.
Proof.
  intros Hp Hi Hpath Hcont Hrem plan'.
  assert (∀ σ q, held σ plan' files q = held σ plan files q) as Hheld.
  { intros σ q. unfold held. unfold plan'; cbn [PatchPlan.writes PatchPlan.removed].
    destruct (PatchPlan.writes plan !! q) eqn:Hq; [done|].
    erewrite bool_decide_ext; [done|]. apply Hrem. intros ->. congruence. }
  pose proof (planned_writes _ _ Hp _ _ Hi) as [write Hw].
  assert (∀ j, writes_at plan.(PatchPlan.steps) j →
    writes_at (on_write index f plan.(PatchPlan.steps)) j) as Hat.
  { intros j [write' Hj]. unfold on_write. rewrite Hw. unfold writes_at.
    destruct (decide (index = j)) as [->|Hne].
    - eexists. rewrite list_lookup_insert_eq; [done|]. by eapply lookup_lt_Some.
    - exists write'. by rewrite list_lookup_insert_ne. }
  split; [split|].
  - intros σ q. rewrite Hheld. unfold plan'; cbn [PatchPlan.steps]. rewrite exec_with_on_write by done.
    by apply planned_held.
  - intros q j. unfold plan'; cbn [PatchPlan.writes PatchPlan.steps]. intros Hj. apply Hat.
    by eapply planned_writes.
  - intros q q' j. unfold plan'; cbn [PatchPlan.writes]. by eapply planned_apart.
  - unfold plan'; cbn [PatchPlan.steps]. pose proof (planned_start _ _ Hp) as Hs. unfold on_write.
    rewrite Hw. destruct (PatchPlan.steps plan) as [|first rest]; [done|]. by destruct index.
  - intros q. unfold current at 1. rewrite Hheld. unfold plan'; cbn [PatchPlan.steps].
    destruct (decide (q = path)) as [->|Hq].
    + rewrite with_file_same. unfold held. rewrite Hi. unfold contents_at, on_write. rewrite Hw.
      rewrite list_lookup_insert_eq by (by eapply lookup_lt_Some). by rewrite Hcont.
    + rewrite with_file_other by done. unfold current, held.
      destruct (PatchPlan.writes plan !! q) as [j|] eqn:Hj; [|done].
      assert (index ≠ j) by (intros ->; apply Hq; by eapply planned_apart).
      unfold contents_at, on_write. rewrite Hw. by rewrite list_lookup_insert_ne.
Qed.
(** *** Moving and deleting *)
Lemma planned_snoc files plan step writes removed :
  planned files plan → plan.(PatchPlan.steps) ≠ [] ∨ starts_well [step] →
  let plan' := {| PatchPlan.steps := plan.(PatchPlan.steps) ++ [step];
                  PatchPlan.writes := writes; PatchPlan.removed := removed |} in
  (∀ q index, writes !! q = Some index → ∃ q', plan.(PatchPlan.writes) !! q' = Some index) →
  (∀ q q' index, writes !! q = Some index → writes !! q' = Some index → q = q') →
  (∀ σ q, step_with (σ (length plan.(PatchPlan.steps))) step (exec_with σ 0 plan.(PatchPlan.steps) files) q
    = held σ plan' files q) →
  planned files plan' ∧
  ∀ q, current plan' files q = held (λ index, contents_at index plan.(PatchPlan.steps)) plan' files q.
Proof.
  intros Hp Hstart plan' Hw Hapart Hheld. split; [split|].
  - intros σ q. rewrite <- Hheld. unfold plan'. cbn [PatchPlan.steps]. by rewrite exec_with_app.
  - intros q index [q' Hq']%Hw. apply writes_at_app. by eapply planned_writes.
  - done.
  - apply starts_well_snoc; [by eapply planned_start|done].
  - intros q. unfold current, held. destruct (PatchPlan.writes plan' !! q) as [index|] eqn:Hi; [|done].
    unfold plan'. cbn [PatchPlan.steps]. rewrite contents_at_app; [done|].
    apply Hw in Hi as [q' Hq']. eapply writes_at_lt. by eapply planned_writes.
Qed.
Lemma planned_move files plan source destination index :
  planned files plan → plan.(PatchPlan.writes) !! source = Some index → source ≠ destination →
  let plan' := plan_move plan source destination in
  planned files plan' ∧ ∃ text, current plan files source = Some text ∧
  ∀ q, current plan' files q =
    with_file destination text (without_file source (current plan files)) q.
Proof.
  intros Hp Hi Hne plan'. unfold plan', plan_move. rewrite Hi.
  assert (∀ σ q, held σ {|
      PatchPlan.steps := plan.(PatchPlan.steps) ++ [PatchStep.Move source destination];
      PatchPlan.writes := <[destination := index]> (delete source plan.(PatchPlan.writes));
      PatchPlan.removed := {[source]} ∪ plan.(PatchPlan.removed) ∖ {[destination]} |} files q =
    with_file destination (σ index) (without_file source (held σ plan files)) q) as Hheld.
  { intros σ q. unfold held. cbn [PatchPlan.writes PatchPlan.removed].
    destruct (decide (q = destination)) as [->|Hd].
    { by rewrite lookup_insert_eq, with_file_same. }
    rewrite lookup_insert_ne, with_file_other by done. destruct (decide (q = source)) as [->|Hs].
    { rewrite lookup_delete_eq, without_file_same, bool_decide_eq_true_2; [done|set_solver]. }
    rewrite lookup_delete_ne, without_file_other by done.
    destruct (PatchPlan.writes plan !! q); [done|]. erewrite bool_decide_ext; [done|]. set_solver. }
  destruct (planned_snoc files plan (PatchStep.Move source destination)
    (<[destination := index]> (delete source plan.(PatchPlan.writes)))
    ({[source]} ∪ plan.(PatchPlan.removed) ∖ {[destination]})) as [Hp' Hcur];
    [done| | | | |split; [exact Hp'|]].
  - left. intros Hnil. eapply planned_writes in Hi; [|done]. apply writes_at_lt in Hi.
    rewrite Hnil in Hi. cbn in Hi. lia.
  - intros q j [[<- <-]|[_ Hj]]%lookup_insert_Some; [by exists source|].
    apply lookup_delete_Some in Hj as [_ Hj]. by exists q.
  - intros q q' j [[<- <-]|[Hq [Hqs Hj]%lookup_delete_Some]]%lookup_insert_Some
      [[<- Hj']|[Hq' [Hqs' Hj']%lookup_delete_Some]]%lookup_insert_Some; try done.
    + destruct Hqs'. by eapply planned_apart.
    + subst. destruct Hqs. by eapply planned_apart.
    + by eapply planned_apart.
  - intros σ q. rewrite Hheld. cbn [step_with]. rewrite (planned_held _ _ Hp).
    assert (held σ plan files source = Some (σ index)) as -> by (unfold held; by rewrite Hi).
    destruct (decide (q = destination)) as [->|Hd]; [by rewrite !with_file_same|].
    rewrite !with_file_other by done. destruct (decide (q = source)) as [->|Hs];
      [by rewrite !without_file_same|].
    rewrite !without_file_other by done. by apply planned_held.
  - exists (contents_at index plan.(PatchPlan.steps)). split; [unfold current, held; by rewrite Hi|].
    intros q. rewrite Hcur. apply Hheld.
Qed.
Lemma planned_delete files plan path :
  planned files plan →
  let plan' := {| PatchPlan.steps := plan.(PatchPlan.steps) ++ [PatchStep.Delete path];
                  PatchPlan.writes := delete path plan.(PatchPlan.writes);
                  PatchPlan.removed := {[path]} ∪ plan.(PatchPlan.removed) |} in
  planned files plan' ∧
  ∀ q, current plan' files q = without_file path (current plan files) q.
Proof.
  intros Hp plan'.
  assert (∀ σ q, held σ plan' files q = without_file path (held σ plan files) q) as Hheld.
  { intros σ q. unfold held, plan'. cbn [PatchPlan.writes PatchPlan.removed].
    destruct (decide (q = path)) as [->|Hq].
    { rewrite lookup_delete_eq, without_file_same, bool_decide_eq_true_2; [done|set_solver]. }
    rewrite lookup_delete_ne, without_file_other by done.
    destruct (PatchPlan.writes plan !! q); [done|]. erewrite bool_decide_ext; [done|]. set_solver. }
  destruct (planned_snoc files plan (PatchStep.Delete path) (delete path plan.(PatchPlan.writes))
    ({[path]} ∪ plan.(PatchPlan.removed))) as [Hp' Hcur];
    [done|by right| | | |split; [exact Hp'|]].
  - intros q index [_ Hq]%lookup_delete_Some. by exists q.
  - intros q q' index [_ Hq]%lookup_delete_Some [_ Hq']%lookup_delete_Some. by eapply planned_apart.
  - intros σ q. rewrite Hheld. cbn [step_with].
    destruct (decide (q = path)) as [->|Hq]; [by rewrite !without_file_same|].
    rewrite !without_file_other by done. by apply planned_held.
  - intros q. rewrite Hcur. apply Hheld.
Qed.

(** ** The paths a tool works on *)
(** An absolute path, as [FsPath::new] leaves it. *)
Definition rooted (path : FsPath) : Prop :=
  ∃ names, valid_names names ∧ path = path_from_components names.
Lemma rooted_absolute path : rooted path → starts_with "/" path = true.
Proof. intros (names & _ & ->). by destruct names. Qed.
Lemma valid_name_intro name :
  name ≠ "" → name ≠ "." → name ≠ ".." → has_char "000" name = false → has_char "/" name = false →
  valid_name name = true.
Proof.
  intros He Hd Hdd Hn Hs. apply valid_name_spec. split_and!; [|done|done].
  unfold VfsPath.is_invalid. by rewrite !bool_decide_eq_false_2.
Qed.
(** The segments the loop of [normalize_path] keeps. *)
Lemma normalize_segments_kept absolute parts kept (P : string → Prop) :
  (∀ part, part ∈ parts → part ≠ "" → part ≠ "." → part ≠ ".." → P part) →
  Forall (λ part, P part ∨ absolute = false ∧ part = "..") kept →
  Forall (λ part, P part ∨ absolute = false ∧ part = "..")
    (foldl (normalize_segment absolute) kept parts).
Proof.
  revert kept. induction parts as [|part parts IH]; intros kept Hparts Hkept; [done|].
  cbn [foldl]. apply IH; [intros; apply Hparts; [by right|done..]|].
  unfold normalize_segment. do 2 case_bool_decide; cbn [orb]; [done|done|done|].
  assert (Forall (λ part, P part ∨ absolute = false ∧ part = "..")
    (if absolute then kept else kept ++ [".."])) as Hmore.
  { destruct absolute; [done|]. apply Forall_app. split; [done|]. constructor; [by right|done]. }
  case_bool_decide.
  - destruct (last kept) as [name|] eqn:Hl; [|done]. case_bool_decide; [|done].
    apply last_Some in Hl as [l ->]. rewrite removelast_last. by apply Forall_app in Hkept as [? _].
  - apply Forall_app. split; [done|]. constructor; [|done]. left. apply Hparts; [by left|done..].
Qed.
Lemma rooted_new value path :
  starts_with "/" value = true → FsPath.new value = Ok path → rooted path.
Proof.
  intros Habs. unfold FsPath.new, normalize_path. rewrite Habs.
  intros (u & _ & (u1 & Hnul%reject_if_Ok & (u2 & _ & [= <-])%bind_Ok)%bind_Ok)%bind_Ok.
  set (names := foldl _ _ _). assert (valid_names names) as Hv.
  { eapply Forall_impl;
      [apply (normalize_segments_kept true _ [] (λ name, valid_name name = true))|].
    - intros part Hin He Hd Hdd. apply split_parts in Hin as [Hs Hn].
      apply valid_name_intro; [done..| |done]. by apply Hn.
    - done.
    - by intros name [?|[? _]]. }
  case_bool_decide as Hn; [exists []; by split|]. exists names. split; [done|].
  destruct names as [|name names]; [done|]. by rewrite path_from_cons.
Qed.
Lemma starts_without_slash name rest :
  has_char "/" name = false → name ≠ "" → starts_with "/" (VfsPath.join (name :: rest)) = false.
Proof.
  intros Hs Hne. destruct name as [|c name]; [done|]. unfold has_char in Hs.
  change (chars (String c name)) with (c :: chars name) in Hs.
  apply orb_false_iff in Hs as [Hc _]. unfold starts_with.
  assert (∀ s, strip_prefix "/" (String c s) = None) as Hstrip.
  { intros s. change (strip_prefix "/" (String c s))
      with (if Ascii.eqb "/" c then Some s else None). by rewrite Hc. }
  destruct rest as [|next rest].
  { change (VfsPath.join [String c name]) with (String c name). by rewrite Hstrip. }
  change (VfsPath.join (String c name :: next :: rest))
    with (String c (name +:+ "/" +:+ VfsPath.join (next :: rest))). by rewrite Hstrip.
Qed.
Lemma starts_with_slash path : starts_with "/" path = true → ∃ rest, path = String "/" rest.
Proof.
  unfold starts_with. destruct (strip_prefix "/" path) as [rest|] eqn:Hs; [|done]. intros _.
  exists rest. by apply strip_prefix_Some in Hs.
Qed.
Lemma relative_new value path :
  starts_with "/" value = false → FsPath.new value = Ok path → FsPath.is_absolute path = false.
Proof.
  intros Hrel. unfold FsPath.new, normalize_path. rewrite Hrel.
  intros (u & _ & (u1 & _ & (u2 & _ & [= <-])%bind_Ok)%bind_Ok)%bind_Ok.
  set (names := foldl _ _ _).
  assert (Forall (λ name, has_char "/" name = false ∧ name ≠ "") names) as Hv.
  { eapply Forall_impl; [apply (normalize_segments_kept false _ []
      (λ name, has_char "/" name = false ∧ name ≠ ""))|].
    - intros part Hin He _ _. apply split_parts in Hin as [Hs _]. done.
    - done.
    - by intros name [?|[_ ->]]. }
  case_bool_decide; [done|]. destruct names as [|name names]; [done|].
  apply Forall_cons in Hv as [[Hs Hne] _]. unfold FsPath.is_absolute.
  by apply starts_without_slash.
Qed.
Lemma resolved_rooted cwd value path :
  rooted cwd → default_resolve_input_path (Some cwd) value = Ok path → rooted path.
Proof.
  intros Hcwd (first & Hnew%map_err_Ok & Hrest)%bind_Ok.
  destruct (FsPath.is_absolute first) eqn:Habs.
  - injection Hrest as <-. destruct (starts_with "/" value) eqn:Hv; [by eapply rooted_new|].
    apply relative_new in Hnew; [|done]. congruence.
  - apply map_err_Ok in Hrest. unfold FsPath.join_path in Hrest. rewrite Habs in Hrest.
    unfold FsPath.join_segments in Hrest. case_bool_decide; [by injection Hrest as <-|].
    pose proof (rooted_absolute _ Hcwd) as Hroot.
    apply starts_with_slash in Hroot as [rest ->].
    rewrite bool_decide_eq_false_2 in Hrest by done.
    case_bool_decide; (eapply rooted_new; [|exact Hrest]); reflexivity.
Qed.
Lemma parent_rooted path above : rooted path → FsPath.parent path = Some above → rooted above.
Proof.
  intros Hroot. unfold FsPath.parent. destruct (FsPath.is_root path); [done|].
  pose proof (rooted_absolute _ Hroot) as Habs.
  destruct (FsPath.segments path) as [|first rest]; [done|].
  change (FsPath.is_absolute path) with (starts_with "/" path). rewrite Habs.
  destruct (removelast (first :: rest)) as [|name names].
  - intros [= <-]. exists []. by split.
  - destruct (FsPath.new _) as [new|] eqn:Hnew; [|done]. intros [= <-]. eapply rooted_new; [|exact Hnew]. reflexivity.
Qed.

(** ** What a file system does to its files *)
Definition same_files (files files' : Files) : Prop := ∀ q, rooted q → files' q = files q.
Lemma same_files_trans files1 files2 files3 :
  same_files files1 files2 → same_files files2 files3 → same_files files1 files3.
Proof. intros H12 H23 q Hq. by rewrite H23, H12. Qed.
(** A file system whose calls, in a world that is [steady], read and change the texts that [files] says
    the world holds. A call that fails changes none. *)
Class FileStore `{!Externals, !ManifestJson} (fs : FileSystem) (steady : World → Prop)
    (files : World → FsPath → option string) : Prop := {
  store_resolve cwd value path :
    rooted cwd → FileSystem.resolve_input_path fs (Some cwd) value = Ok path → rooted path;
  store_read path world r world' :
    rooted path → steady world → runs (FileSystem.read_file_versioned fs path) world r world' →
    steady world' ∧ same_files (files world) (files world') ∧
    ∀ read, r = Ok read → files world path = Some read.(VersionedRead.bytes);
  store_metadata path world r world' :
    rooted path → steady world → runs (FileSystem.get_metadata fs path) world r world' →
    steady world' ∧ same_files (files world) (files world') ∧
    ∀ metadata, r = Ok metadata → metadata.(FileMetadata.is_directory) = false →
      is_Some (files world path);
  store_write path contents options world r world' :
    rooted path → steady world →
    runs (FileSystem.write_file_with fs path contents options) world r world' →
    steady world' ∧
    match r with
    | Ok _ => same_files (with_file path contents (files world)) (files world')
    | Err _ => same_files (files world) (files world')
    end;
  store_create_directory path options world r world' :
    rooted path → steady world →
    runs (FileSystem.create_directory fs path options) world r world' →
    steady world' ∧ same_files (files world) (files world');
  store_remove path world r world' :
    rooted path → steady world → runs (FileSystem.remove fs path RemoveOptions_file) world r world' →
    steady world' ∧
    match r with
    | Ok _ => same_files (without_file path (files world)) (files world')
    | Err _ => same_files (files world) (files world')
    end;
  store_rename source destination world r world' :
    rooted source → rooted destination → source ≠ destination → steady world →
    runs (FileSystem.rename fs source destination {| RenameOptions.overwrite := true |})
      world r world' →
    steady world' ∧
    match r with
    | Ok _ => ∃ text, files world source = Some text ∧
        same_files (with_file destination text (without_file source (files world))) (files world')
    | Err _ => same_files (files world) (files world')
    end;
}.

(** ** The hunks, one after the other *)
(** What a hunk asks of the files, whatever they are kept in; the file system says what its paths
    mean. *)
Definition resolved (fs : FileSystem) (cwd : FsPath) (path : string) : option FsPath :=
  match FileSystem.resolve_input_path fs (Some cwd) path with Ok path => Some path | Err _ => None end.
Definition apply_hunk (fs : FileSystem) (cwd : FsPath) (files : Files) (hunk : Hunk) : option Files :=
  match hunk with
  | Hunk.AddFile path contents =>
      path ← resolved fs cwd path;
      Some (with_file path contents files)
  | Hunk.DeleteFile path =>
      path ← resolved fs cwd path;
      _ ← files path;
      Some (without_file path files)
  | Hunk.UpdateFile path move_path chunks =>
      path ← resolved fs cwd path;
      original ← files path;
      match derive_new_contents original path chunks with
      | Err _ => None
      | Ok contents =>
          match move_path with
          | None => Some (with_file path contents files)
          | Some move_path =>
              destination ← resolved fs cwd move_path;
              Some (if bool_decide (destination = path) then with_file path contents files
                    else with_file destination contents (without_file path files))
          end
      end
  end.
Fixpoint hunks_applied (fs : FileSystem) (cwd : FsPath) (files : Files) (hunks : list Hunk)
    : option Files :=
  match hunks with
  | [] => Some files
  | hunk :: hunks =>
      files ← apply_hunk fs cwd files hunk;
      hunks_applied fs cwd files hunks
  end.

Section tools.
Context `{Ext : !Externals, Json : !ManifestJson} (fs : FileSystem) (steady : World → Prop).
Context (files : World → FsPath → option string) `{Store : !FileStore fs steady files}.
Implicit Types world : World.

(** A program that leaves the files alone. *)
Definition looks {A} (m : Prog A) : Prop := ∀ world a world',
  steady world → runs m world a world' → steady world' ∧ same_files (files world) (files world').
Lemma looks_return {A} (a : A) : looks (Return a).
Proof. intros world a' world' Hs [_ ->]. done. Qed.
Lemma looks_bind {A B} (m : Prog A) (k : A → Prog B) :
  looks m → (∀ a, looks (k a)) → looks (bind_prog m k).
Proof.
  intros Hm Hk world b world' Hs (a & world1 & H1 & H2)%runs_bind_prog.
  apply Hm in H1 as [Hs1 Hf1]; [|done]. apply Hk in H2 as [Hs2 Hf2]; [|done].
  split; [done|]. by eapply same_files_trans.
Qed.
Lemma looks_async {E A B} (m : Async E A) (k : A → Async E B) :
  looks m → (∀ a, looks (k a)) → looks (m ≫= k).
Proof.
  intros Hm Hk. apply looks_bind; [done|]. intros [a|e]; [apply Hk|apply looks_return].
Qed.
Lemma looks_await_err {E F A} (f : E → F) (m : Async E A) : looks m → looks (await_err f m).
Proof. intros Hm. apply looks_bind; [done|]. intros r. apply looks_return. Qed.
Lemma looks_reject {E} (c : bool) (e : E) : looks (reject_if (M:=Async E) c e).
Proof. destruct c; apply looks_return. Qed.
Lemma looks_metadata path : rooted path → looks (FileSystem.get_metadata fs path).
Proof. intros Hp world a world' Hs Hr. apply store_metadata in Hr as (? & ? & _); auto. Qed.
Lemma looks_read path : rooted path → looks (FileSystem.read_file_versioned fs path).
Proof. intros Hp world a world' Hs Hr. apply store_read in Hr as (? & ? & _); auto. Qed.
Lemma looks_kind plan path : rooted path → looks (kind fs plan path).
Proof.
  intros Hp. unfold kind. destruct (is_some _); [apply looks_return|].
  destruct (existsb _ _); [apply looks_return|]. case_bool_decide; [apply looks_return|].
  apply looks_bind; [by apply looks_metadata|]. intros r. apply looks_return.
Qed.
Lemma looks_ancestors plan path rounds ancestor :
  (∀ above, ancestor = Some above → rooted above) → looks (check_ancestors fs plan path rounds ancestor).
Proof.
  revert ancestor. induction rounds as [|rounds IH]; intros [above|] Ha; try apply looks_return.
  cbn [check_ancestors]. destruct (FsPath.is_root above); [apply looks_return|].
  apply looks_async.
  - unfold infallible. apply looks_bind; [by apply looks_kind, Ha|]. intros k. apply looks_return.
  - intros []; [apply looks_return..|]. apply IH. intros next Hn. eapply parent_rooted; [|done]. by apply Ha.
Qed.
Lemma looks_target plan path : rooted path → looks (check_file_target fs plan path).
Proof.
  intros Hp. unfold check_file_target. apply looks_async.
  - unfold infallible. apply looks_bind; [by apply looks_kind|]. intros k. apply looks_return.
  - intros k. apply looks_async; [apply looks_reject|]. intros _. apply looks_ancestors.
    intros above Ha. by eapply parent_rooted.
Qed.

(** *** Planning *)
Definition rooted_step (step : PatchStep) : Prop :=
  match step with
  | PatchStep.Write write => rooted write.(PlannedWrite.path)
  | PatchStep.Move source destination =>
      rooted source ∧ rooted destination ∧ source ≠ destination
  | PatchStep.Delete path => rooted path
  end.
(** A plan made of hunks that leave the files at [now], in a world that holds what [base] held. *)
Record planning (base now : Files) (plan : PatchPlan) (world : World) : Prop := {
  planning_steady : steady world;
  planning_same : same_files base (files world);
  planning_planned : planned base plan;
  planning_steps : Forall rooted_step plan.(PatchPlan.steps);
  planning_now q : rooted q → current plan base q = now q;
}.
Lemma read_text_runs max path world r world' :
  rooted path → steady world → runs (read_file_text fs max path) world r world' →
  steady world' ∧ same_files (files world) (files world') ∧
  ∀ text version, r = Ok (text, version) → files world path = Some text.
Proof.
  intros Hp Hs Hr. unfold read_file_text in Hr.
  apply runs_async in Hr as [(read & world1 & Hread & Hr)|(e & -> & Hread)];
    apply runs_await_err in Hread as (s & Hread & Hs'); apply store_read in Hread as (Hs1 & Hf1 & Hread);
    try done.
  assert (s = Ok read) as -> by (destruct s; [by injection Hs' as ->|done]). clear Hs'.
  apply runs_async in Hr as [(u & world2 & H2 & Hr)|(e & -> & H2)];
    (assert (steady _ ∧ same_files (files world1) (files _)) as [Hs2 Hf2]
      by (destruct max; [by eapply looks_reject in H2|by eapply looks_return in H2])).
  2: { split_and!; [done|by eapply same_files_trans|done]. }
  apply runs_async in Hr as [(text & world3 & [Htext ->]%runs_pure & Hr)|(e & -> & [_ ->]%runs_pure)].
  2: { split_and!; [done|by eapply same_files_trans|done]. }
  apply runs_ret in Hr as [-> ->]. split_and!; [done|by eapply same_files_trans|].
  intros text' version [= <- <-]. symmetry in Htext. apply map_err_Ok in Htext.
  unfold from_utf8 in Htext. destruct (valid_utf8 _); [|done]. injection Htext as <-.
  by rewrite (Hread read eq_refl).
Qed.
Lemma current_fresh plan base q :
  plan.(PatchPlan.writes) !! q = None → q ∉ plan.(PatchPlan.removed) → current plan base q = base q.
Proof. intros Hw Hr. unfold current, held. rewrite Hw. by rewrite bool_decide_eq_false_2. Qed.
Lemma push_rooted plan write removed :
  Forall rooted_step plan.(PatchPlan.steps) → rooted write.(PlannedWrite.path) →
  Forall rooted_step (push_write plan write removed).(PatchPlan.steps).
Proof. intros Hs Hp. apply Forall_app. split; [done|]. by constructor. Qed.
Lemma over_rooted index f steps :
  (∀ write, (f write).(PlannedWrite.path) = write.(PlannedWrite.path)) →
  Forall rooted_step steps → Forall rooted_step (on_write index f steps).
Proof.
  intros Hf Hs. unfold on_write. destruct (steps !! index) as [[write|s d|p]|] eqn:Hi; try done.
  apply Forall_insert; [done|]. cbn. rewrite Hf.
  by apply (Forall_lookup_1 _ _ _ _ Hs Hi).
Qed.
(** What is left to say of a plan that writes [contents] at [path]. *)
Lemma planning_write base now plan plan' path contents world :
  planning base now plan world →
  planned base plan' ∧ (∀ q, current plan' base q = with_file path contents (current plan base) q) →
  Forall rooted_step plan'.(PatchPlan.steps) →
  planning base (with_file path contents now) plan' world.
Proof.
  intros [Hs Hf _ _ Hnow] [Hp Hcur] Hsteps. split; [done|done|done|done|].
  intros q Hq. rewrite Hcur. destruct (decide (q = path)) as [->|Hne];
    [by rewrite !with_file_same|]. rewrite !with_file_other by done. by apply Hnow.
Qed.
Lemma planning_add base now plan path contents world :
  planning base now plan world → rooted path →
  planning base (with_file path contents now) (plan_add plan path contents) world.
Proof.
  intros Hplan Hp. eapply planning_write; [exact Hplan| |].
  - unfold plan_add. destruct (PatchPlan.writes plan !! path) as [index|] eqn:Hi.
    + eapply planned_over; [by apply planning_planned in Hplan|done|done|done|]. set_solver.
    + apply (planned_push base plan {| PlannedWrite.path := path; PlannedWrite.contents := contents;
        PlannedWrite.if_match := None; PlannedWrite.added := true |});
        [by apply planning_planned in Hplan|done|]. cbn. set_solver.
  - apply planning_steps in Hplan as Hsteps. unfold plan_add.
    destruct (PatchPlan.writes plan !! path); [by apply over_rooted|]. by apply push_rooted.
Qed.
Lemma planning_update base now plan max path chunks plan' world world' :
  planning base now plan world → rooted path →
  runs (plan_update fs plan max path chunks) world (Ok plan') world' →
  ∃ original contents, now path = Some original ∧
    derive_new_contents original path chunks = Ok contents ∧
    planning base (with_file path contents now) plan' world' ∧
    is_Some (plan'.(PatchPlan.writes) !! path).
Proof.
  intros Hplan Hp Hr. pose proof Hplan as [Hs Hf Hpl Hsteps Hnow]. unfold plan_update in Hr.
  destruct (PatchPlan.writes plan !! path) as [index|] eqn:Hi.
  - apply runs_async in Hr as [(contents & world1 & [Hd ->]%runs_pure & Hr)|(e & [=] & _)].
    apply runs_ret in Hr as [[= ->] ->]. symmetry in Hd. apply map_err_Ok in Hd.
    exists (contents_at index plan.(PatchPlan.steps)), contents. split_and!; [|done| |by eexists].
    + rewrite <- Hnow by done. unfold current, held. by rewrite Hi.
    + eapply planning_write; [exact Hplan| |by apply over_rooted].
      eapply planned_over; [done|done|done|done|set_solver].
  - apply runs_async in Hr as [(u & world1 & [Hrej ->]%runs_reject & Hr)|(e & [=] & _)].
    case_bool_decide as Hrem; [done|]. clear Hrej.
    apply runs_async in Hr as [([original version] & world1 & Hread & Hr)|(e & [=] & _)].
    apply read_text_runs in Hread as (Hs1 & Hf1 & Hread); [|done|done].
    apply runs_async in Hr as [(contents & world2 & [Hd ->]%runs_pure & Hr)|(e & [=] & _)].
    apply runs_ret in Hr as [[= ->] ->]. symmetry in Hd. apply map_err_Ok in Hd. cbn [fst snd] in *.
    exists original, contents. split_and!; [|done| |].
    + rewrite <- Hnow by done. rewrite current_fresh by done. rewrite <- Hf by done.
      by eapply Hread.
    + assert (planning base now plan world1) as Hplan1.
      { split; try done. by eapply same_files_trans. }
      eapply planning_write; [exact Hplan1| |by apply push_rooted].
      apply (planned_push base plan {| PlannedWrite.path := path; PlannedWrite.contents := contents;
        PlannedWrite.if_match := version; PlannedWrite.added := false |}); done.
    + cbn. rewrite lookup_insert_eq. by eexists.
Qed.
Lemma planning_move base now plan source destination world :
  planning base now plan world → rooted source → rooted destination → source ≠ destination →
  is_Some (plan.(PatchPlan.writes) !! source) →
  ∃ text, now source = Some text ∧
    planning base (with_file destination text (without_file source now))
      (plan_move plan source destination) world.
Proof.
  intros [Hs Hf Hpl Hsteps Hnow] Hsrc Hdst Hne [index Hi].
  destruct (planned_move base plan source destination index Hpl Hi Hne) as (Hp' & text & Ht & Hcur).
  exists text. split; [by rewrite <- Hnow|]. split; [done|done|done| |].
  - apply Forall_app. split; [done|]. by constructor.
  - intros q Hq. rewrite Hcur. destruct (decide (q = destination)) as [->|Hd];
      [by rewrite !with_file_same|]. rewrite !with_file_other by done.
    destruct (decide (q = source)) as [->|Hsq]; [by rewrite !without_file_same|].
    rewrite !without_file_other by done. by apply Hnow.
Qed.
Lemma planning_delete base now plan path plan' world world' :
  planning base now plan world → rooted path →
  runs (plan_delete fs plan path) world (Ok plan') world' →
  is_Some (now path) ∧ planning base (without_file path now) plan' world'.
Proof.
  intros Hplan Hp Hr. pose proof Hplan as [Hs Hf Hpl Hsteps Hnow]. unfold plan_delete in Hr.
  apply runs_async in Hr as [(u & world1 & [Hrej ->]%runs_reject & Hr)|(e & [=] & _)].
  case_bool_decide as Hrem; [done|]. clear Hrej.
  apply runs_async in Hr as [(u' & world1 & Hlook & Hr)|(e & [=] & _)].
  apply runs_ret in Hr as [[= ->] ->].
  assert (steady world1 ∧ same_files base (files world1) ∧ is_Some (now path))
    as (Hs1 & Hf1 & Hsome).
  { destruct (PatchPlan.writes plan !! path) as [index|] eqn:Hi; cbn [is_some is_none negb] in Hlook.
    - destruct Hlook as [_ ->]. split_and!; [done|done|]. rewrite <- Hnow by done.
      unfold current, held. rewrite Hi. by eexists.
    - apply runs_async in Hlook as [(metadata & world2 & Hm & Hlook)|(e & [=] & _)].
      apply runs_await_err in Hm as (s & Hm & Hs'). destruct s as [found|]; [|done].
      injection Hs' as ->. apply store_metadata in Hm as (Hs2 & Hf2 & Hm); [|done|done].
      apply runs_reject in Hlook as [Hdir ->].
      destruct (FileMetadata.is_directory found) eqn:Hd; [done|].
      split_and!; [done|by eapply same_files_trans|]. rewrite <- Hnow by done.
      rewrite current_fresh by done. rewrite <- Hf by done. by eapply Hm. }
  split; [done|]. destruct (planned_delete base plan path Hpl) as [Hp' Hcur].
  split; [done|done|done| |].
  - apply Forall_app. split; [done|]. by constructor.
  - intros q Hq. rewrite Hcur. destruct (decide (q = path)) as [->|Hne];
      [by rewrite !without_file_same|]. rewrite !without_file_other by done. by apply Hnow.
Qed.
Lemma resolve_runs cwd path r :
  r = resolve_patch_path fs (Some cwd) path →
  match r with
  | Ok path' => resolved fs cwd path = Some path' ∧ (rooted cwd → rooted path')
  | Err _ => True
  end.
Proof.
  intros ->. unfold resolve_patch_path, resolved.
  destruct (FileSystem.resolve_input_path _ _ _) as [path'|] eqn:Hr; cbn; [|done].
  split; [done|]. intros Hcwd. by eapply store_resolve.
Qed.
Lemma planning_looks {A} base now plan world (m : Prog A) a world' :
  planning base now plan world → looks m → runs m world a world' → planning base now plan world'.
Proof.
  intros [Hs Hf Hpl Hsteps Hnow] Hm Hr. apply Hm in Hr as [Hs' Hf']; [|done].
  split; try done. by eapply same_files_trans.
Qed.
Lemma planning_hunk base now cwd max plan hunk plan' world world' :
  planning base now plan world → rooted cwd →
  runs (plan_hunk fs (Some cwd) max plan hunk) world (Ok plan') world' →
  ∃ now', apply_hunk fs cwd now hunk = Some now' ∧ planning base now' plan' world'.
Proof.
  intros Hplan Hcwd Hr. destruct hunk as [path contents|path|path move_path chunks];
    cbn [plan_hunk apply_hunk] in *;
    apply runs_async in Hr as [(path' & world1 & [Hpath ->]%runs_pure & Hr)|(e & [=] & _)];
    apply resolve_runs in Hpath as [-> Hp]; specialize (Hp Hcwd); cbn [mbind option_bind].
  - apply runs_async in Hr as [(u & world2 & Hlook & Hr)|(e & [=] & _)].
    apply runs_ret in Hr as [[= ->] ->]. eexists. split; [done|].
    apply planning_add; [|done]. eapply planning_looks; [done| |done]. by apply looks_target.
  - apply (planning_delete base now) in Hr as [[text ->] Hplan']; [|done|done].
    eexists. split; [done|done].
  - apply runs_async in Hr as [(plan1 & world2 & Hu & Hr)|(e & [=] & _)].
    apply (planning_update base now) in Hu as (original & contents & Hold & Hnew & Hplan1 & Hw);
      [|done|done]. rewrite Hold. cbn [mbind option_bind]. rewrite Hnew.
    destruct move_path as [move_path|].
    2: { apply runs_ret in Hr as [[= ->] ->]. eexists. by split. }
    apply runs_async in Hr as [(destination & world3 & [Hdst ->]%runs_pure & Hr)|(e & [=] & _)].
    apply resolve_runs in Hdst as [-> Hd]. specialize (Hd Hcwd). cbn [mbind option_bind].
    eexists. split; [done|]. destruct (decide (destination = path')) as [->|Heq].
    + rewrite bool_decide_eq_false_2 in Hr by auto. rewrite bool_decide_eq_true_2 by done.
      apply runs_ret in Hr as [[= ->] ->]. done.
    + rewrite bool_decide_eq_true_2 in Hr by done. rewrite bool_decide_eq_false_2 by done.
      apply runs_async in Hr as [(u & world3 & Hlook & Hr)|(e & [=] & _)].
      apply runs_ret in Hr as [[= ->] ->].
      apply (planning_looks _ _ _ _ _ _ _ Hplan1) in Hlook; [|by apply looks_target].
      apply (planning_move _ _ _ path' destination) in Hlook as (text & Ht & [Hs Hf Hpl Hsteps Hnow]); auto.
      rewrite with_file_same in Ht. injection Ht as <-.
      split; [done|done|done|done|]. intros q Hq. rewrite Hnow by done.
      destruct (decide (q = destination)) as [->|Hqd]; [by rewrite !with_file_same|].
      rewrite !with_file_other by done.
      destruct (decide (q = path')) as [->|Hqp]; [by rewrite !without_file_same|].
      by rewrite !without_file_other, with_file_other.
Qed.
Lemma planning_hunks base now cwd max plan hunks plan' world world' :
  planning base now plan world → rooted cwd →
  runs (plan_hunks_from fs (Some cwd) max plan hunks) world (Ok plan') world' →
  ∃ now', hunks_applied fs cwd now hunks = Some now' ∧ planning base now' plan' world'.
Proof.
  revert now plan world. induction hunks as [|hunk hunks IH]; intros now plan world Hplan Hcwd Hr.
  - apply runs_ret in Hr as [[= ->] ->]. by exists now.
  - cbn [plan_hunks_from hunks_applied] in *.
    apply runs_async in Hr as [(plan1 & world1 & Hh & Hr)|(e & [=] & _)].
    apply (planning_hunk base now) in Hh as (now1 & -> & Hplan1); [|done|done].
    by eapply IH.
Qed.

(** *** A plan is made without writing *)
Lemma looks_read_text max path : rooted path → looks (read_file_text fs max path).
Proof. intros Hp world a world' Hs Hr. by apply read_text_runs in Hr as (? & ? & _). Qed.
Lemma looks_pure {E A} (r : Result E A) : looks (pure r).
Proof. apply looks_return. Qed.
Lemma looks_resolve {A} cwd path (k : FsPath → Async ToolError A) :
  rooted cwd → (∀ path, rooted path → looks (k path)) →
  looks (path ← pure (resolve_patch_path fs (Some cwd) path); k path).
Proof.
  intros Hcwd Hk world a world' Hs Hr.
  apply runs_async in Hr as [(path' & world1 & [Hpath ->]%runs_pure & Hr)|(e & -> & [_ ->]%runs_pure)];
    [|done].
  apply resolve_runs in Hpath as [_ Hp]. by eapply Hk; [apply Hp| |].
Qed.
Lemma looks_update plan max path chunks : rooted path → looks (plan_update fs plan max path chunks).
Proof.
  intros Hp. unfold plan_update. destruct (PatchPlan.writes plan !! path).
  - apply looks_async; [apply looks_pure|]. intros contents. apply looks_return.
  - apply looks_async; [apply looks_reject|]. intros _.
    apply looks_async; [by apply looks_read_text|]. intros original.
    apply looks_async; [apply looks_pure|]. intros contents. apply looks_return.
Qed.
Lemma looks_delete plan path : rooted path → looks (plan_delete fs plan path).
Proof.
  intros Hp. unfold plan_delete. apply looks_async; [apply looks_reject|]. intros _.
  apply looks_async; [|intros _; apply looks_return].
  destruct (is_some _); [apply looks_return|]. unfold ensure_file_not_directory.
  apply looks_async; [by apply looks_await_err, looks_metadata|]. intros metadata. apply looks_reject.
Qed.
Lemma looks_hunk cwd max plan hunk : rooted cwd → looks (plan_hunk fs (Some cwd) max plan hunk).
Proof.
  intros Hcwd. destruct hunk as [path contents|path|path move_path chunks];
    cbn [plan_hunk]; apply looks_resolve; try done; intros path' Hp.
  - apply looks_async; [by apply looks_target|]. intros _. apply looks_return.
  - by apply looks_delete.
  - apply looks_async; [by apply looks_update|]. intros plan'.
    destruct move_path as [move_path|]; [|apply looks_return].
    apply looks_resolve; [done|]. intros destination Hd. case_bool_decide; [|apply looks_return].
    apply looks_async; [by apply looks_target|]. intros _. apply looks_return.
Qed.
Lemma looks_hunks cwd max plan hunks :
  rooted cwd → looks (plan_hunks_from fs (Some cwd) max plan hunks).
Proof.
  intros Hcwd. revert plan. induction hunks as [|hunk hunks IH]; intros plan; [apply looks_return|].
  cbn [plan_hunks_from]. apply looks_async; [by apply looks_hunk|]. apply IH.
Qed.

(** *** Carrying the plan out *)
Lemma same_files_step step files1 files2 :
  rooted_step step → same_files files1 files2 →
  same_files (exec_step files1 step) (exec_step files2 step).
Proof.
  intros Hstep Hf q Hq. unfold exec_step. destruct step as [write|source destination|path];
    cbn [step_with contents_at lookup list_lookup].
  - destruct (decide (q = write.(PlannedWrite.path))) as [->|Hne]; [by rewrite !with_file_same|].
    rewrite !with_file_other by done. by apply Hf.
  - destruct Hstep as (Hs & Hd & _). rewrite (Hf source Hs). destruct (files1 source); [|by apply Hf].
    destruct (decide (q = destination)) as [->|Hne]; [by rewrite !with_file_same|].
    rewrite !with_file_other by done.
    destruct (decide (q = source)) as [->|Hns]; [by rewrite !without_file_same|].
    rewrite !without_file_other by done. by apply Hf.
  - destruct (decide (q = path)) as [->|Hne]; [by rewrite !without_file_same|].
    rewrite !without_file_other by done. by apply Hf.
Qed.
Lemma same_files_steps steps files1 files2 :
  Forall rooted_step steps → same_files files1 files2 →
  same_files (exec_steps steps files1) (exec_steps steps files2).
Proof.
  intros H. revert files1 files2. induction H as [|step steps Hstep H IH]; intros files1 files2 Hf; [done|].
  cbn [exec_steps foldl]. apply IH. by apply same_files_step.
Qed.
Lemma looks_parents path : rooted path → looks (create_parent_directories fs path).
Proof.
  intros Hp. unfold create_parent_directories.
  destruct (FsPath.parent path) as [above|] eqn:Ha; [|apply looks_return].
  destruct (FsPath.is_root above); [apply looks_return|].
  intros world a world' Hs Hr. eapply store_create_directory; [|done|exact Hr].
  by eapply parent_rooted.
Qed.
Lemma run_step_files step world r world' :
  rooted_step step → steady world → runs (run_step fs step) world r world' →
  steady world' ∧
  match r with
  | Ok _ => same_files (exec_step (files world) step) (files world')
  | Err _ => same_files (files world) (files world')
  end.
Proof.
  intros Hstep Hs Hr. destruct step as [write|source destination|path]; cbn [run_step rooted_step] in *.
  - apply runs_async in Hr as [(u & world1 & Hlook & Hr)|(e & -> & Hlook)];
      (assert (steady _ ∧ same_files (files world) (files _)) as [Hs1 Hf1]
        by (destruct (PlannedWrite.added write);
            [by eapply looks_parents in Hlook|by eapply looks_return in Hlook])); [|done].
    apply store_write in Hr as [Hs2 Hf2]; [|done|done]. split; [done|].
    destruct r; [|by eapply same_files_trans]. eapply same_files_trans; [|exact Hf2].
    by apply (same_files_step (PatchStep.Write write)).
  - destruct Hstep as (Hsrc & Hd & Hne).
    apply runs_async in Hr as [(u & world1 & Hlook & Hr)|(e & -> & Hlook)];
      apply looks_parents in Hlook as [Hs1 Hf1]; try done.
    apply store_rename in Hr as [Hs2 Hf2]; [|done..]. split; [done|].
    destruct r; [|by eapply same_files_trans]. destruct Hf2 as (text & Ht & Hf2).
    eapply same_files_trans;
      [by apply (same_files_step (PatchStep.Move source destination)); [|exact Hf1]|].
    unfold exec_step. cbn [step_with]. by rewrite Ht.
  - by apply store_remove in Hr.
Qed.
Lemma commit_steps_runs summary steps world r world' :
  Forall rooted_step steps → steady world →
  runs (commit_steps_from fs summary steps) world r world' →
  steady world' ∧
  match r with
  | Ok summary' =>
      summary' = foldl noted summary steps ∧ same_files (exec_steps steps (files world)) (files world')
  | Err error => ∃ done step rest source,
      let applied := foldl noted summary done in
      steps = done ++ step :: rest ∧ same_files (exec_steps done (files world)) (files world') ∧
      error = if is_empty applied then ToolError.Filesystem source
              else ToolError.PatchPartiallyApplied applied (PatchStep.target step)
                     (map PatchStep.describe (step :: rest)) source
  end.
Proof.
  intros H. revert summary world. induction H as [|step steps Hstep H IH]; intros summary world Hs Hr.
  { apply runs_ret in Hr as [-> ->]. done. }
  cbn [commit_steps_from] in Hr. unfold settle in Hr.
  apply runs_bind_prog in Hr as (s & world1 & Hcommit & Hr). unfold commit_step in Hcommit.
  apply runs_async in Hcommit as [(u & world2 & Hrun & [-> ->]%runs_ret)|(e & -> & Hrun)];
    apply run_step_files in Hrun as [Hs1 Hf1]; try done.
  - apply IH in Hr as [Hs2 Hr]; [|done]. split; [done|]. destruct r as [summary'|error].
    + destruct Hr as [-> Hf2]. split; [done|]. cbn [exec_steps foldl].
      eapply same_files_trans; [|exact Hf2]. by apply same_files_steps.
    + destruct Hr as (done & next & rest & source & -> & Hf2 & ->).
      exists (step :: done), next, rest, source. split_and!; [done| |done].
      eapply same_files_trans; [|exact Hf2]. apply Forall_app in H as [H _].
      cbn [exec_steps foldl]. by apply same_files_steps.
  - apply runs_throw in Hr as [-> ->]. split; [done|]. by exists [], step, steps, e.
Qed.

(** *** Patches *)
Lemma planning_start world :
  steady world → planning (files world) (files world) PatchPlan_default world.
Proof.
  intros Hs. split; [done|by intros q _|apply planned_default|constructor|].
  intros q _. rewrite current_fresh; [done|cbn; apply lookup_empty|set_solver].
Qed.
Lemma apply_hunks_runs cwd max hunks world r world' :
  rooted cwd → steady world → runs (apply_hunks fs (Some cwd) max hunks) world r world' →
  is_ok r = false ∧ same_files (files world) (files world') ∨
  ∃ now plan world1,
    hunks_applied fs cwd (files world) hunks = Some now ∧
    planning (files world) now plan world1 ∧
    runs (commit_steps fs plan.(PatchPlan.steps)) world1 r world'.
Proof.
  intros Hcwd Hs Hr. unfold apply_hunks in Hr.
  apply runs_async in Hr as [(u & world1 & [_ ->]%runs_reject & Hr)|(e & -> & [_ ->]%runs_reject)];
    [|by left].
  apply runs_async in Hr as [(plan & world1 & Hplan & Hr)|(e & -> & Hplan)].
  - right. eapply planning_hunks in Hplan as (now & Hnow & Hplan); [|by apply planning_start|done].
    by exists now, plan, world1.
  - left. apply looks_hunks in Hplan as [_ Hf]; [done|done|done].
Qed.
Lemma replace_entry_nil source destination entries :
  replace_entry source destination entries = [] → entries = [].
Proof. destruct entries; cbn; [done|]. by case_bool_decide. Qed.
Lemma is_empty_noted summary step : is_empty (noted summary step) = true → is_empty summary = true.
Proof.
  destruct summary as [added modified deleted], step as [write|source destination|path];
    unfold is_empty, noted; cbn; rewrite ?andb_true_iff, ?bool_decide_eq_true.
  - destruct (PlannedWrite.added write); cbn; rewrite ?andb_true_iff, ?bool_decide_eq_true;
      intros [[Ha Hm] Hd]; [by apply app_nil in Ha as [_ ?]|by apply app_nil in Hm as [_ ?]].
  - intros [[Ha%replace_entry_nil Hm%replace_entry_nil] Hd]. done.
  - intros [_ Hd]. by apply app_nil in Hd as [_ ?].
Qed.
(** Nothing noted is nothing done. *)
Lemma nothing_noted done rest :
  starts_well (done ++ rest) → is_empty (foldl noted ApplyPatchSummary_default done) = true → done = [].
Proof.
  destruct done as [|step done]; [done|]. intros Hs He. exfalso. cbn [foldl] in He.
  assert (is_empty (noted ApplyPatchSummary_default step) = true) as He'.
  { clear Hs. revert He. generalize (noted ApplyPatchSummary_default step) as summary.
    induction done as [|next done IH]; intros summary; cbn [foldl]; [done|].
    intros He%IH. by apply is_empty_noted in He. }
  destruct step as [write|source destination|path]; [|done|done].
  unfold noted in He'. by destruct (PlannedWrite.added write).
Qed.

(** C13. A patch that succeeds is its hunks applied one after the other: whatever files are kept in, they
    hold at the end what the hunks make of what they held, each hunk seeing what the ones before it
    left, although every hunk was resolved before anything was written and a file touched more
    than once is written once. Nothing else changes the files meanwhile. *)
Theorem a_patch_is_its_hunks cwd max patch world summary world' :
  rooted cwd → steady world →
  runs (apply_patch_text fs (Some cwd) max patch) world (Ok summary) world' →
  ∃ parsed now, parse_patch patch = Ok parsed ∧
    hunks_applied fs cwd (files world) parsed.(ParsedPatch.hunks) = Some now ∧
    same_files now (files world').
Proof.
  intros Hcwd Hs Hr. unfold apply_patch_text in Hr.
  apply runs_async in Hr as [(parsed & world1 & [Hparse ->]%runs_pure & Hr)|(e & [=] & _)].
  symmetry in Hparse. apply map_err_Ok in Hparse. exists parsed.
  apply apply_hunks_runs in Hr as [[? _]|(now & plan & world1 & Hnow & Hplan & Hr)]; try done.
  exists now. split_and!; [done|done|]. destruct Hplan as [Hs1 Hf1 Hpl Hsteps Hcur].
  apply commit_steps_runs in Hr as (_ & _ & Hf2); [|done|done].
  intros q Hq. rewrite Hf2 by done. rewrite <- Hcur, <- planned_exec by done.
  by apply same_files_steps.
Qed.
(** C27. A patch that fails either changed nothing or says what it did: it names what was added, changed
    and deleted by the steps that were carried out, which are the first ones of a plan whose steps,
    carried out together, are the hunks applied one after the other, and it names the rest. Changed
    means the texts of files: directories made for a step that failed remain. Nothing else changes
    the files meanwhile. *)
Theorem a_failed_patch_says_what_it_did cwd max patch world error world' :
  rooted cwd → steady world →
  runs (apply_patch_text fs (Some cwd) max patch) world (Err error) world' →
  same_files (files world) (files world') ∨
  ∃ parsed now done step rest source,
    parse_patch patch = Ok parsed ∧
    hunks_applied fs cwd (files world) parsed.(ParsedPatch.hunks) = Some now ∧
    same_files now (exec_steps (done ++ step :: rest) (files world)) ∧
    same_files (exec_steps done (files world)) (files world') ∧
    error = ToolError.PatchPartiallyApplied (foldl noted ApplyPatchSummary_default done)
              (PatchStep.target step) (map PatchStep.describe (step :: rest)) source.
Proof.
  intros Hcwd Hs Hr. unfold apply_patch_text in Hr.
  apply runs_async in Hr as [(parsed & world1 & [Hparse ->]%runs_pure & Hr)|(e & _ & [_ ->]%runs_pure)];
    [|by left].
  symmetry in Hparse. apply map_err_Ok in Hparse.
  apply apply_hunks_runs in Hr as [[_ Hf]|(now & plan & world1 & Hnow & Hplan & Hr)]; try done;
    [by left|].
  destruct Hplan as [Hs1 Hf1 Hpl Hsteps Hcur].
  apply commit_steps_runs in Hr as (_ & finished & step & rest & source & Hst & Hf2 & ->); [|done|done].
  assert (Forall rooted_step finished) as Hfin by (rewrite Hst in Hsteps; by apply Forall_app in Hsteps as [? _]).
  assert (same_files (exec_steps finished (files world)) (files world')) as Hdone.
  { eapply same_files_trans; [|exact Hf2]. by apply same_files_steps. }
  destruct (is_empty _) eqn:He.
  - left. pose proof (planned_start _ _ Hpl) as Hstart. rewrite Hst in Hstart.
    apply (nothing_noted _ _ Hstart) in He as ->. exact Hdone.
  - right. exists parsed, now, finished, step, rest, source. split_and!; [done|done| |done|done].
    rewrite <- Hst. intros q Hq. rewrite <- Hcur by done. by apply planned_exec.
Qed.
End tools.
