(* ===== verification/FileToolStore.v ===== *)
(** * The files of a workspace

    The file system of a workspace is one the file tools are proved against: what its head lists, with
    the blobs behind it, are its files, and every call reads or changes those. Then edits of a file
    that run among other changes of its workspace. *)
From Stdlib Require Import Ascii.
From S2P Require Import Prelude Ids Text Types Externals VfsTree VfsTreeLaws VfsStore VfsFiles.
From S2P Require Import VfsLaws VfsHistory Patch FileTools FileToolLaws.

(** ** Manifests that can be read back *)
Definition typed_tree (tree : Tree) : Prop :=
  ∀ names file, tree names = Some (Kind.File file) → file_typed file = true.
Lemma entry_typed_spec entry : entry_typed entry = true ↔ typed_tree (tree_of entry).
Proof.
  induction entry as [file|directory IH] using VfsEntry_tree_ind.
  - split.
    + intros Ht [|name names] found; cbn; [by intros [= <-]|done].
    + intros Ht. by apply (Ht []).
  - cbn [entry_typed]. rewrite forallb_forall. split.
    + intros Hall names file Hf. destruct names as [|name names]; [done|].
      unfold tree_of in Hf. cbn in Hf. destruct (directory !! name) as [child|] eqn:Hc; [|done].
      apply (IH name child Hc) in Hf; [done|].
      apply (Hall (entry_typed child)), list_elem_of_In, elem_of_map_values. exists name.
      by rewrite lookup_fmap, Hc.
    + intros Ht b (name & Hb)%list_elem_of_In%elem_of_map_values. rewrite lookup_fmap in Hb.
      destruct (directory !! name) as [child|] eqn:Hc; [|done]. injection Hb as <-.
      apply (IH name child Hc). intros names file Hf.
      apply (Ht (name :: names)). unfold tree_of in *. cbn. by rewrite Hc.
Qed.
Definition good (manifest : VfsSnapshotManifest) : Prop :=
  sound manifest ∧ typed_tree (manifest_tree manifest).
Lemma good_typed manifest : good manifest → manifest_typed manifest = true.
Proof.
  intros [[_ [Hf Hb]] Ht]. unfold manifest_typed. rewrite !andb_true_iff, !N.leb_le.
  split_and!; [done|done|]. by apply entry_typed_spec.
Qed.
Section json.
Context `{Json : !ManifestJson}.
Lemma decoded_good bytes manifest :
  decode_snapshot_manifest bytes = Ok manifest → good manifest.
Proof.
  intros (found & Hm%map_err_Ok & (u & Hv & [= ->])%bind_Ok)%bind_Ok.
  apply validate_consistent in Hv. apply manifest_from_slice_typed in Hm. unfold manifest_typed in Hm.
  rewrite !andb_true_iff, !N.leb_le in Hm. destruct Hm as [[Hf Hb] Ht].
  split; [by split|]. by apply entry_typed_spec.
Qed.
Lemma encoded_back manifest bytes manifest' :
  good manifest → encode_snapshot_manifest manifest = Ok bytes →
  decode_snapshot_manifest bytes = Ok manifest' → manifest' = manifest.
Proof.
  intros Hg (u & _ & [= <-])%bind_Ok (found & Hm%map_err_Ok & (u' & _ & [= ->])%bind_Ok)%bind_Ok.
  destruct (decide (manifest_json_depth manifest ≤ JSON_DEPTH)) as [Hd|Hd].
  - rewrite manifest_round_trip in Hm; [by injection Hm|by apply good_typed|done].
  - pose proof (manifest_too_deep manifest) as Hdeep. rewrite Hm in Hdeep.
    discriminate Hdeep. lia.
Qed.
End json.

(** ** Worlds and their heads *)
Abbreviation blob_bytes world := (InMemoryBlobStoreInner.bytes_by_ref (World.blobs world)).
Section workspace.
Context `{Ext : !Externals, Json : !ManifestJson} (fs : VfsWorkspaceFileSystem).
Abbreviation ID := (VfsWorkspaceFileSystem.workspace_id fs).
Implicit Types world : World.
Definition head_is world (record : VfsWorkspaceRecord) (manifest : VfsSnapshotManifest) : Prop :=
  world.(World.workspaces) !! ID = Some record ∧ record.(VfsWorkspaceRecord.workspace_id) = ID ∧
  ∃ bytes, blob_bytes world !! record.(VfsWorkspaceRecord.head_snapshot_ref) = Some bytes ∧
    decode_snapshot_manifest bytes = Ok manifest.
Definition backed world (manifest : VfsSnapshotManifest) : Prop := ∀ names file,
  manifest_tree manifest names = Some (Kind.File file) →
  is_Some (blob_bytes world !! file.(VfsFile.blob_ref)).
(** The row of the workspace has a head that can be read, and the blobs of its files are there. *)
Definition steady world : Prop :=
  ∃ record manifest, head_is world record manifest ∧ backed world manifest.
(** The text of the file at a path. *)
Definition head_manifest world : option VfsSnapshotManifest :=
  record ← world.(World.workspaces) !! ID;
  bytes ← blob_bytes world !! record.(VfsWorkspaceRecord.head_snapshot_ref);
  match decode_snapshot_manifest bytes with Ok manifest => Some manifest | Err _ => None end.
Definition text_in world (manifest : VfsSnapshotManifest) (names : list string) : option string :=
  match manifest_tree manifest names with
  | Some (Kind.File file) => blob_bytes world !! file.(VfsFile.blob_ref)
  | _ => None
  end.
Definition workspace_files world (path : FsPath) : option string :=
  manifest ← head_manifest world;
  text_in world manifest (VfsPath.components path).
Lemma head_manifest_is world record manifest :
  head_is world record manifest → head_manifest world = Some manifest.
Proof.
  intros (Hrow & _ & bytes & Hb & Hd). unfold head_manifest. rewrite Hrow. cbn. rewrite Hb. cbn. by rewrite Hd.
Qed.
Lemma head_files world record manifest path :
  head_is world record manifest →
  workspace_files world path = text_in world manifest (VfsPath.components path).
Proof. intros Hh%head_manifest_is. unfold workspace_files. by rewrite Hh. Qed.
Lemma head_unique world record manifest record' manifest' :
  head_is world record manifest → head_is world record' manifest' → record' = record ∧ manifest' = manifest.
Proof.
  intros H1 H2. pose proof (head_manifest_is _ _ _ H1). pose proof (head_manifest_is _ _ _ H2).
  destruct H1 as [Hr _], H2 as [Hr' _]. split; congruence.
Qed.

(** ** What grows *)
Definition grows world world' : Prop :=
  ∀ blob_ref bytes, blob_bytes world !! blob_ref = Some bytes → blob_bytes world' !! blob_ref = Some bytes.
Definition rows_kept world world' : Prop := world'.(World.workspaces) = world.(World.workspaces).
Definition undisturbed world world' : Prop := grows world world' ∧ rows_kept world world'.
#[local] Instance undisturbed_preorder : PreOrder undisturbed.
Proof.
  split; [by split; [intros ??|]|]. intros w1 w2 w3 [G1 R1] [G2 R2].
  split; [intros ???; by apply G2, G1|]. unfold rows_kept in *. congruence.
Qed.
Lemma head_undisturbed world world' record manifest :
  undisturbed world world' → head_is world record manifest → head_is world' record manifest.
Proof.
  intros [Hg Hr] (Hrow & Hid & bytes & Hb & Hd). split_and!; [by rewrite Hr|done|].
  exists bytes. split; [by apply Hg|done].
Qed.
Lemma backed_grows world world' manifest :
  grows world world' → backed world manifest → backed world' manifest.
Proof. intros Hg Hb names file Hf. destruct (Hb _ _ Hf) as [bytes ?]. exists bytes. by apply Hg. Qed.
Lemma text_grows world world' manifest names :
  grows world world' → backed world manifest → text_in world' manifest names = text_in world manifest names.
Proof.
  intros Hg Hb. unfold text_in. destruct (manifest_tree manifest names) as [[file|]|] eqn:Hf; [|done..].
  destruct (Hb _ _ Hf) as [bytes Hbytes]. rewrite Hbytes. by apply Hg.
Qed.
Lemma undisturbed_steady world world' :
  undisturbed world world' → steady world →
  steady world' ∧ same_files (workspace_files world) (workspace_files world').
Proof.
  intros Hu (record & manifest & Hh & Hb). pose proof (head_undisturbed _ _ _ _ Hu Hh) as Hh'.
  split.
  - exists record, manifest. split; [done|]. by eapply backed_grows; [apply Hu|].
  - intros q _. rewrite (head_files _ _ _ _ Hh), (head_files _ _ _ _ Hh'). apply text_grows; [apply Hu|done].
Qed.

(** ** Calls that only add blobs *)
Lemma record_edges_bytes edges (inner : InMemoryBlobStoreInner) :
  (record_blob_edges edges inner).2.(InMemoryBlobStoreInner.bytes_by_ref) =
  inner.(InMemoryBlobStoreInner.bytes_by_ref).
Proof.
  revert inner. unfold record_blob_edges. induction edges as [|edge edges IH]; intros inner; [done|].
  cbn [for_each]. unfold mbind, Reducer_bind at 1.
  match goal with |- context [match ?m inner with _ => _ end] =>
    assert ((m inner).2.(InMemoryBlobStoreInner.bytes_by_ref) =
            inner.(InMemoryBlobStoreInner.bytes_by_ref)) as Hone; [|
      destruct (m inner) as [[u|e] inner1]; cbn [snd] in *; [by rewrite IH|done]] end.
  unfold mbind, Reducer_bind, get_state, modify_state, for_each, mret, Reducer_ret.
  destruct (bool_decide (BlobEdge.edge_kind edge = "")); [done|]. cbn.
  destruct (is_none _); [done|]. cbn. destruct (is_none _); [done|]. cbn. by case_bool_decide.
Qed.
Lemma answer_undisturbed op world : is_quiet op = true → undisturbed world (answer op world).2.
Proof.
  intros Hq. split.
  2: { pose proof (answer_rows op world) as Hrows.
    assert (change_of op world = None) as Hc by by destruct op. by rewrite Hc in Hrows. }
  destruct op as [bytes|?|edges|?|?| |?|?]; try done; cbn [answer]; try by intros ???.
  - intros blob_ref found Hb. cbn. unfold or_insert.
    destruct (blob_bytes world !! BlobRef_from_bytes bytes) eqn:He; [done|].
    rewrite lookup_insert_ne; [done|]. intros <-. congruence.
  - intros blob_ref found Hb. unfold on_blobs.
    pose proof (record_edges_bytes edges world.(World.blobs)) as Hedges.
    destruct (record_blob_edges edges world.(World.blobs)) as [r blobs]. cbn in *. by rewrite Hedges.
Qed.
Definition calm {A} (m : Prog A) : Prop := ∀ world a world',
  runs m world a world' → undisturbed world world'.
Lemma runs_call op world a world' :
  runs (call op) world a world' →
  kept op world' ∧ a = (answer op world).1 ∧ world' = (answer op world).2.
Proof. by intros (Hk & -> & ->). Qed.
Lemma calm_return {A} (a : A) : calm (Return a).
Proof. by intros world a' world' [_ ->]. Qed.
Lemma calm_call op : is_quiet op = true → calm (call op).
Proof. intros Hq world a world' (_ & _ & ->)%runs_call. by apply answer_undisturbed. Qed.
Lemma calm_bind {A B} (m : Prog A) (k : A → Prog B) : calm m → (∀ a, calm (k a)) → calm (bind_prog m k).
Proof.
  intros Hm Hk world b world' (a & world1 & H1 & H2)%runs_bind_prog.
  etrans; [by eapply Hm|by eapply Hk].
Qed.
Lemma calm_async {E A B} (m : Async E A) (k : A → Async E B) :
  calm m → (∀ a, calm (k a)) → calm (m ≫= k).
Proof. intros Hm Hk. apply calm_bind; [done|]. intros [a|e]; [apply Hk|apply calm_return]. Qed.
Lemma calm_await_err {E F A} (f : E → F) (m : Async E A) : calm m → calm (await_err f m).
Proof. intros Hm. apply calm_bind; [done|]. intros r. apply calm_return. Qed.
Lemma calm_reject {E} (c : bool) (e : E) : calm (reject_if (M:=Async E) c e).
Proof. destruct c; apply calm_return. Qed.
Lemma calm_read_blob blob_ref : calm (read_blob blob_ref).
Proof. by apply calm_await_err, (calm_call (StoreOp.ReadBytes _)). Qed.
Lemma calm_read_manifest snapshot_ref : calm (read_snapshot_manifest snapshot_ref).
Proof. apply calm_async; [apply calm_read_blob|]. intros bytes. apply calm_return. Qed.
Lemma calm_read_head : calm (VfsWorkspaceFileSystem.read_head fs).
Proof.
  apply calm_async; [by apply calm_await_err, (calm_call (StoreOp.ReadWorkspace _))|]. intros record.
  apply calm_async; [apply calm_await_err, calm_read_manifest|]. intros manifest. apply calm_return.
Qed.
Lemma calm_now_ms : calm now_ms.
Proof.
  apply calm_async; [apply calm_bind; [by apply (calm_call StoreOp.Now)|]; intros ms; apply calm_return|].
  intros ms. apply calm_async; [apply calm_reject|]. intros _.
  apply calm_async; [apply calm_reject|]. intros _. apply calm_return.
Qed.
Lemma calm_record_edges blob_graph parent children :
  calm (record_contains_edges blob_graph parent children).
Proof.
  unfold record_contains_edges. destruct (negb blob_graph); [apply calm_return|].
  case_bool_decide; [apply calm_return|]. by apply (calm_call (StoreOp.RecordBlobEdges _)).
Qed.
Lemma calm_commit_manifest blob_graph manifest : calm (commit_snapshot_manifest blob_graph manifest).
Proof.
  apply calm_async; [apply calm_return|]. intros bytes.
  apply calm_async; [by apply calm_await_err, (calm_call (StoreOp.PutBytes _))|]. intros snapshot_ref.
  apply calm_async; [|intros _; apply calm_return]. apply calm_await_err, calm_record_edges.
Qed.
Lemma calm_read_file manifest path : calm (read_snapshot_file manifest path).
Proof.
  apply calm_async; [apply calm_return|]. intros [file|directory]; [|apply calm_return].
  apply calm_async; [apply calm_read_blob|]. intros bytes.
  apply calm_async; [apply calm_reject|]. intros _. apply calm_return.
Qed.

(** ** The head and what publishes it *)
Lemma read_head_runs world record manifest p world' :
  head_is world record manifest → runs (VfsWorkspaceFileSystem.read_head fs) world (Ok p) world' →
  p = (record, manifest).
Proof.
  intros (Hrow & Hid & bytes & Hb & Hd) Hr. unfold VfsWorkspaceFileSystem.read_head in Hr.
  apply runs_async in Hr as [(found & world1 & H1 & Hr)|(e & [=] & _)].
  apply runs_await_err in H1 as (s & (_ & Hs & ->)%runs_call & Hf). cbn [answer fst snd] in *.
  destruct s as [s|]; [|done]. injection Hf as ->. symmetry in Hs. apply ok_or_Ok in Hs.
  rewrite Hrow in Hs. injection Hs as <-.
  apply runs_async in Hr as [(found & world2 & H2 & [[= ->] _]%runs_ret)|(e & [=] & _)].
  apply runs_await_err in H2 as (s & H2 & Hf). destruct s as [s|]; [|done]. injection Hf as ->.
  apply runs_async in H2 as [(text & world3 & H3 & [H2 _]%runs_pure)|(e & [=] & _)].
  apply runs_await_err in H3 as (s' & (_ & Hs & ->)%runs_call & Hf). cbn [answer fst snd] in *.
  destruct s' as [s'|]; [|done]. injection Hf as ->. unfold read_bytes in Hs. rewrite Hb in Hs.
  cbn in Hs. case_bool_decide; [done|]. injection Hs as ->. rewrite Hd in H2. by injection H2 as ->.
Qed.
Lemma commit_manifest_runs blob_graph manifest world result world' :
  runs (commit_snapshot_manifest blob_graph manifest) world (Ok result) world' →
  ∃ bytes, encode_snapshot_manifest manifest = Ok bytes ∧
    blob_bytes world' !! result.(CreateVfsSnapshotResult.snapshot_ref) = Some bytes.
Proof.
  intros Hr. unfold commit_snapshot_manifest in Hr.
  apply runs_async in Hr as [(bytes & world1 & [He ->]%runs_pure & Hr)|(e & [=] & _)].
  apply runs_async in Hr as [(snapshot_ref & world1 & H1 & Hr)|(e & [=] & _)].
  apply runs_await_err in H1 as (s & (Hk & Hs & Hw)%runs_call & Hf). cbn [answer on_blobs fst put_bytes] in *.
  subst s. injection Hf as ->.
  apply runs_async in Hr as [(u & world2 & H2 & [[= ->] ->]%runs_ret)|(e & [=] & _)].
  exists bytes. split; [done|]. cbn [CreateVfsSnapshotResult.snapshot_ref].
  assert (grows world1 world2) as Hg; [|by apply Hg].
  apply runs_await_err in H2 as (s & H2 & _). by apply calm_record_edges in H2 as [Hg _].
Qed.
Lemma commit_head_runs world record manifest manifest' r world' :
  head_is world record manifest → good manifest' →
  runs (VfsWorkspaceFileSystem.commit_head fs record manifest') world r world' →
  grows world world' ∧
  match r with
  | Ok true => ∃ record', head_is world' record' manifest'
  | _ => rows_kept world world'
  end.
Proof.
  intros Hh Hg Hr. unfold VfsWorkspaceFileSystem.commit_head in Hr.
  apply runs_async in Hr as [(result & world1 & H1 & Hr)|(e & -> & H1)].
  2: { by apply (calm_await_err _ _ (calm_commit_manifest _ _)) in H1. }
  pose proof (calm_await_err _ _ (calm_commit_manifest _ _) _ _ _ H1) as Hu1.
  apply runs_await_err in H1 as (s & H1 & Hs). destruct s as [s|]; [|done]. injection Hs as ->.
  apply commit_manifest_runs in H1 as (bytes & Henc & Hbytes).
  apply runs_async in Hr as [(ms & world2 & H2 & Hr)|(e & -> & H2)]; apply calm_now_ms in H2 as Hu2.
  2: { destruct (transitivity Hu1 Hu2). done. }
  assert (undisturbed world world2) as [Hg2 Hr2] by by etrans. clear Hu1.
  unfold settle in Hr. apply runs_bind_prog in Hr as (reply & world3 & (Hk & Hreply & Hw)%runs_call & Hr).
  set (request := {| CompareAndSetVfsWorkspaceHead.workspace_id := _ |}) in *.
  cbn [answer] in Hreply, Hw. unfold on_workspaces in Hreply, Hw.
  destruct (compare_and_set_head request (World.workspaces world2)) as [[updated|error] rows] eqn:Hc;
    cbn [fst snd] in Hreply, Hw; subst reply.
  - apply compare_and_set_head_Ok in Hc as (current & _ & -> & Hid & _ & Href & _).
    apply runs_async in Hr as [(u & world4 & H4 & [-> ->]%runs_ret)|(e & -> & H4)].
    2: { apply runs_bind_prog in H4 as (? & ? & _ & H4). by destruct H4. }
    apply runs_bind_prog in H4 as (u' & world5 & (_ & _ & ->)%runs_call & [_ ->]).
    split; [intros blob_ref found Hb; subst world3; by apply Hg2|].
    exists updated. destruct Hh as (_ & Hh & _). split_and!.
    + subst world3. cbn. change (CompareAndSetVfsWorkspaceHead.workspace_id request)
        with (VfsWorkspaceRecord.workspace_id record). rewrite Hh. apply lookup_insert_eq.
    + by rewrite Hid.
    + destruct Hk as (bytes' & found & Hb & Hd). rewrite Href. exists bytes'.
      subst world3. split; [exact Hb|]. cbn in Hb. assert (bytes' = bytes) as ->.
      { destruct Hu2 as [Hu2 _]. apply Hu2 in Hbytes. congruence. }
      rewrite Hd. by rewrite (encoded_back manifest' bytes found).
  - apply compare_and_set_head_Err in Hc as [-> _].
    assert (r ≠ Ok true ∧ world' = world3) as [Hne ->].
    { by destruct error; destruct Hr as [<- <-]. }
    subst world3. split; [exact Hg2|]. destruct r as [[]|]; [done|exact Hr2..].
Qed.
(** Updating the head leaves what the change makes of it, or fails and leaves it as it was. *)
Lemma update_attempts_runs path update attempts world record manifest r world' :
  head_is world record manifest → (∀ manifest', changed update manifest = Ok manifest' → good manifest') →
  runs (VfsWorkspaceFileSystem.update_head_attempts fs path update attempts) world r world' →
  grows world world' ∧
  match r with
  | Ok _ => ∃ record' manifest', changed update manifest = Ok manifest' ∧ head_is world' record' manifest'
  | Err _ => rows_kept world world'
  end.
Proof.
  intros Hh Hgood. revert world Hh. induction attempts as [|attempts IH]; intros world Hh Hr.
  { apply runs_throw in Hr as [-> ->]. split; [by intros ??|done]. }
  cbn [VfsWorkspaceFileSystem.update_head_attempts] in Hr.
  apply runs_async in Hr as [(head & world1 & H1 & Hr)|(e & -> & H1)]; apply calm_read_head in H1 as Hu1;
    [|by destruct Hu1].
  apply (read_head_runs _ _ _ _ _ Hh) in H1 as ->. cbn [fst snd] in *.
  apply (head_undisturbed _ _ _ _ Hu1) in Hh.
  apply runs_async in Hr as [(manifest' & world2 & [Hch ->]%runs_pure & Hr)|(e & -> & [_ ->]%runs_pure)];
    [|by destruct Hu1]. symmetry in Hch. destruct Hu1 as [Hg1 Hr1].
  apply runs_async in Hr as [(published & world3 & H3 & Hr)|(e & -> & H3)];
    (eapply commit_head_runs in H3 as [Hg3 H3]; [|exact Hh|by apply Hgood]).
  2: { split; [by intros ???; apply Hg3, Hg1|]. unfold rows_kept in *. congruence. }
  destruct published.
  - apply runs_ret in Hr as [-> ->]. destruct H3 as [record' Hh'].
    split; [by intros ???; apply Hg3, Hg1|]. by exists record', manifest'.
  - assert (undisturbed world1 world3) as Hu3 by by split.
    apply IH in Hr as [Hg4 Hr4]; [|by eapply head_undisturbed].
    split; [by intros ???; apply Hg4, Hg3, Hg1|]. destruct r; [done|]. unfold rows_kept in *. congruence.
Qed.

(** ** What the changes of a manifest do to its texts *)
(** The file that is put is one that can be stored, as a manifest's totals fit what a [u64] holds. *)
Lemma sound_file manifest names file :
  sound manifest → manifest_tree manifest names = Some (Kind.File file) →
  (file.(VfsFile.size_bytes) <= u64_max)%N.
Proof.
  intros Hs Hf. pose proof (sound_weight _ Hs) as Hw. destruct Hs as [_ Hfits]. rewrite Hw in Hfits.
  apply tree_of_File in Hf. by apply (fits_found _ _ _ Hf) in Hfits as [_ ?].
Qed.
(** [names] holds [file] now and the rest is as before. *)
Lemma placed_text world manifest manifest' names file :
  (∀ path, manifest_tree manifest' path =
     move names names file (manifest_tree manifest) path) →
  ∀ path, text_in world manifest' path =
    if bool_decide (path = names) then blob_bytes world !! file.(VfsFile.blob_ref)
    else text_in world manifest path.
Proof.
  intros Ht path. unfold text_in. rewrite Ht. unfold move. by case_bool_decide.
Qed.
Lemma move_file (manifest manifest' : VfsSnapshotManifest) source destination file path found :
  manifest_tree manifest' path = move source destination file (manifest_tree manifest) path →
  manifest_tree manifest' path = Some (Kind.File found) →
  found = file ∨ manifest_tree manifest path = Some (Kind.File found).
Proof.
  intros ->. unfold move. case_bool_decide; [|case_bool_decide; [done|by right]].
  intros [= ->]. by left.
Qed.
(** A change that makes no file but perhaps [file] keeps a manifest good and its files backed. *)
Lemma good_changed world manifest manifest' (new : option VfsFile) :
  good manifest → backed world manifest → sound manifest' →
  (∀ file, new = Some file →
     is_canonical_sha256_ref file.(VfsFile.blob_ref) = true ∧
     is_Some (blob_bytes world !! file.(VfsFile.blob_ref))) →
  (∀ path found, manifest_tree manifest' path = Some (Kind.File found) →
     new = Some found ∨ ∃ path', manifest_tree manifest path' = Some (Kind.File found)) →
  good manifest' ∧ backed world manifest'.
Proof.
  intros [Hs Ht] Hb Hs' Hnew Hfiles. split; [split; [done|]|].
  - intros path found Hf. destruct (Hfiles _ _ Hf) as [Hn|[path' Hold]]; [|by eapply Ht].
    apply Hnew in Hn as [Hc _]. unfold file_typed. rewrite Hc, andb_true_r. apply N.leb_le.
    by eapply sound_file.
  - intros path found Hf. destruct (Hfiles _ _ Hf) as [Hn|[path' Hold]]; [|by eapply Hb].
    by apply Hnew in Hn as [_ ?].
Qed.

(** ** Updating the head *)
Definition keeps_good world (update : HeadUpdate) : Prop := ∀ manifest manifest',
  good manifest → backed world manifest → changed update manifest = Ok manifest' →
  good manifest' ∧ backed world manifest'.
Lemma update_head_runs path update world r world' :
  steady world → keeps_good world update →
  runs (VfsWorkspaceFileSystem.update_head fs path update) world r world' →
  steady world' ∧
  match r with
  | Ok _ => ∃ manifest manifest',
      good manifest ∧ backed world manifest ∧ changed update manifest = Ok manifest' ∧
      (∀ q, workspace_files world q = text_in world manifest (VfsPath.components q)) ∧
      ∀ q, workspace_files world' q = text_in world manifest' (VfsPath.components q)
  | Err _ => same_files (workspace_files world) (workspace_files world')
  end.
Proof.
  intros Hsteady Hkeeps Hr. pose proof Hsteady as (record & manifest & Hh & Hb).
  assert (good manifest) as Hg by (destruct Hh as (_ & _ & ? & _ & ?); by eapply decoded_good).
  eapply update_attempts_runs in Hr as [Hgrows Hr]; [|exact Hh|].
  2: { intros manifest' Hch. by eapply Hkeeps. }
  destruct r as [u|e].
  - destruct Hr as (record' & manifest' & Hch & Hh').
    destruct (Hkeeps _ _ Hg Hb Hch) as [Hg' Hb'].
    assert (backed world' manifest') as Hb1 by by eapply backed_grows.
    split; [by exists record', manifest'|]. exists manifest, manifest'. split_and!; [done|done|done| |].
    + intros q. by apply (head_files _ record).
    + intros q. rewrite (head_files _ record' manifest') by done. by apply text_grows.
  - apply undisturbed_steady; [by split|done].
Qed.

(** *** Each change *)
Lemma changed_mapped path change manifest manifest' :
  changed (mapped path change) manifest = Ok manifest' → change manifest = (Ok tt, manifest').
Proof.
  unfold changed, mapped. destruct (change manifest) as [[[]|e] m]; cbn; [by intros [= ->]|done].
Qed.
Lemma write_update_changes manifest path names blob_ref size options manifest' :
  sound manifest → valid_names names →
  changed (VfsWorkspaceFileSystem.write_update path (path_from_components names) blob_ref size options)
    manifest = Ok manifest' →
  ∃ file, file.(VfsFile.blob_ref) = blob_ref ∧ sound manifest' ∧
    ∀ q, manifest_tree manifest' q = move names names file (manifest_tree manifest) q.
Proof.
  intros Hs Hv. unfold changed.
  destruct (VfsWorkspaceFileSystem.write_update _ _ _ _ _ _) as [[u|e] m] eqn:Hrun; [|done].
  intros [= ->]. apply bind_outcome in Hrun as [(e & [=] & _)|(m & s1 & [= <- <-] & Hrun)].
  apply bind_outcome in Hrun as [(e & [=] & _)|(u1 & s1 & Hmatch & Hrun)].
  assert (s1 = manifest) as ->.
  { destruct options as [[v|]]; [|by injection Hmatch]. cbn in Hmatch.
    case_bool_decide; [done|]. by injection Hmatch. }
  apply mapped_run in Hrun as (r & Hrun & Hr). destruct r as [[]|]; [|done]. clear Hr.
  apply bind_outcome in Hrun as [(e & [=] & _)|(m & s1 & [= <- <-] & Hrun)].
  set (executable := match manifest_file _ _ with Some _ => _ | None => _ end) in Hrun.
  set (file := {| VfsFile.blob_ref := blob_ref; VfsFile.size_bytes := size;
    VfsFile.media_type := None; VfsFile.executable := executable |}).
  apply (write_refines names file manifest _ manifest' Hs Hv) in Hrun as ([_ Hd] & Hs' & Ht).
  exists file. split_and!; [done|done|]. intros q. rewrite Ht. by apply placed_again.
Qed.
Lemma manifest_below manifest names name rest :
  manifest_tree manifest names ≠ Some Kind.Directory →
  manifest_tree manifest (names ++ name :: rest) = None.
Proof. intros Hd. by apply tree_below. Qed.
Lemma remove_changes manifest path names manifest' :
  sound manifest → valid_names names →
  changed (mapped path (remove_manifest_path (path_from_components names) false false)) manifest
    = Ok manifest' →
  sound manifest' ∧ ∀ q, manifest_tree manifest' q =
    if bool_decide (q = names) then None else manifest_tree manifest q.
Proof.
  intros Hs Hv Hch%changed_mapped.
  apply (remove_refines names false false manifest _ manifest' Hs Hv) in Hch as (Ha & Hs' & Ht).
  split; [done|]. destruct Ha as (_ & _ & Hsome & Hempty). intros q. rewrite Ht. unfold effect, graft.
  destruct (strip_names names q) as [rest|] eqn:Hstrip.
  - apply strip_names_Some in Hstrip as ->. destruct rest as [|name rest].
    + by rewrite app_nil_r, bool_decide_eq_true_2.
    + rewrite bool_decide_eq_false_2.
      2: { intros Heq%(f_equal length). rewrite length_app in Heq. cbn in Heq. lia. }
      symmetry. destruct (manifest_tree manifest names) as [[file|]|] eqn:Hk.
      * apply manifest_below. by rewrite Hk.
      * destruct (Hempty Hk) as [?|He]; [done|]. change (name :: rest) with ([name] ++ rest).
        rewrite app_assoc. destruct rest; [rewrite app_nil_r; apply He|].
        apply manifest_below. by rewrite He.
      * apply manifest_below. by rewrite Hk.
  - apply strip_names_None in Hstrip. by rewrite bool_decide_eq_false_2 by (by intros ->).
Qed.
Lemma make_directory_changes manifest path names recursive manifest' :
  sound manifest → valid_names names →
  changed (mapped path (create_manifest_directory (path_from_components names) recursive)) manifest
    = Ok manifest' →
  sound manifest' ∧ ∀ q file, manifest_tree manifest' q = Some (Kind.File file) ↔
    manifest_tree manifest q = Some (Kind.File file).
Proof.
  intros Hs Hv Hch%changed_mapped.
  apply (update_refines (Update.MakeDirectory names recursive) manifest _ manifest' Hs Hv)
    in Hch as (Ha & Hs' & Ht).
  split; [done|]. intros q file. rewrite Ht. destruct recursive; cbn [effect allowed] in *.
  - unfold make_path. case_bool_decide as Hpre; [|done]. split; [done|]. intros Hf. by apply Ha in Hf.
  - destruct Ha as [_ Hnone]. unfold graft.
    destruct (strip_names names q) as [rest|] eqn:Hstrip; [|done].
    apply strip_names_Some in Hstrip as ->. rewrite tree_of_empty.
    assert (manifest_tree manifest (names ++ rest) = None) as ->.
    { destruct rest; [by rewrite app_nil_r|]. apply manifest_below. by rewrite Hnone. }
    by destruct rest.
Qed.
Lemma rename_changes manifest request request' source destination manifest' :
  sound manifest → valid_names source → valid_names destination →
  changed (VfsWorkspaceFileSystem.rename_update request request' (path_from_components source)
    (path_from_components destination) {| RenameOptions.overwrite := true |}) manifest = Ok manifest' →
  ∃ file, manifest_tree manifest source = Some (Kind.File file) ∧ sound manifest' ∧
    ∀ q, manifest_tree manifest' q = move source destination file (manifest_tree manifest) q.
Proof.
  intros Hs Hv Hv' Hch.
  pose proof (rename_update_spec request request' source destination
    {| RenameOptions.overwrite := true |} manifest Hs Hv Hv') as Hspec.
  rewrite Hch in Hspec. destruct Hspec as (file & (Hf & _) & Hs' & Ht). by exists file.
Qed.

(** ** The calls of the file system *)
Lemma read_file_runs manifest names world bytes world' :
  valid_names names →
  runs (read_snapshot_file manifest (path_from_components names)) world (Ok bytes) world' →
  text_in world manifest names = Some bytes.
Proof.
  intros Hv Hr. unfold read_snapshot_file in Hr. pose proof (lookup_file manifest names Hv) as Hl.
  apply runs_async in Hr as [(node & world1 & [Hn ->]%runs_pure & Hr)|(e & [=] & _)].
  unfold text_in. destruct (manifest_tree manifest names) as [[file|]|].
  - rewrite Hl in Hn. injection Hn as ->.
    apply runs_async in Hr as [(found & world1 & Hread & Hr)|(e & [=] & _)].
    apply runs_async in Hr as [(u & world2 & _ & [[= ->] _]%runs_ret)|(e & [=] & _)].
    apply runs_await_err in Hread as (s & (_ & Hs & _)%runs_call & Hf). cbn [answer fst] in Hs.
    destruct s as [s|]; [|done]. injection Hf as ->. unfold read_bytes in Hs.
    symmetry in Hs. apply bind_Ok in Hs as (text & Ht%ok_or_Ok & Hs). case_bool_decide; [done|].
    by injection Hs as ->.
  - destruct Hl as [directory Hl]. rewrite Hl in Hn. injection Hn as ->.
    by apply runs_throw in Hr as [[=] _].
  - by rewrite <- Hn in Hl.
Qed.
(** Reading leaves the files alone and sees them. *)
Lemma read_head_files world p world' :
  steady world → runs (VfsWorkspaceFileSystem.read_head fs) world (Ok p) world' →
  ∀ q, workspace_files world q = text_in world' p.2 (VfsPath.components q).
Proof.
  intros (record & manifest & Hh & Hb) Hr q. rewrite (head_files _ _ _ _ Hh).
  pose proof (calm_read_head _ _ _ Hr) as [Hg _].
  apply (read_head_runs _ _ _ _ _ Hh) in Hr as ->. symmetry. by apply text_grows.
Qed.
Lemma read_versioned_runs names world r world' :
  valid_names names → steady world →
  runs (VfsWorkspaceFileSystem.read_file_versioned fs (path_from_components names)) world r world' →
  undisturbed world world' ∧
  ∀ read, r = Ok read →
    workspace_files world (path_from_components names) = Some read.(VersionedRead.bytes).
Proof.
  intros Hv Hs Hr. unfold VfsWorkspaceFileSystem.read_file_versioned in Hr. rewrite fs_path_of in Hr by done.
  apply runs_async in Hr as [(vfs_path & world1 & [[= ->] ->]%runs_pure & Hr)|(e & -> & [[=] _]%runs_pure)].
  apply runs_async in Hr as [(head & world1 & H1 & Hr)|(e & -> & H1)];
    apply calm_read_head in H1 as Hu1; [|done].
  apply runs_async in Hr as [(bytes & world2 & H2 & [-> ->]%runs_ret)|(e & -> & H2)].
  - pose proof (calm_await_err _ _ (calm_read_file _ _) _ _ _ H2) as Hu2.
    split; [by etrans|]. intros read [= <-]. cbn.
    rewrite (read_head_files _ _ _ Hs H1), components_of_path by done.
    apply runs_await_err in H2 as (s & H2 & Hf). destruct s as [s|]; [|done]. injection Hf as ->.
    by eapply read_file_runs.
  - pose proof (calm_await_err _ _ (calm_read_file _ _) _ _ _ H2) as Hu2. split; [by etrans|done].
Qed.
Lemma metadata_runs names world r world' :
  valid_names names → steady world →
  runs (VfsWorkspaceFileSystem.get_metadata fs (path_from_components names)) world r world' →
  undisturbed world world' ∧
  ∀ metadata, r = Ok metadata → metadata.(FileMetadata.is_directory) = false →
    is_Some (workspace_files world (path_from_components names)).
Proof.
  intros Hv Hs Hr. unfold VfsWorkspaceFileSystem.get_metadata in Hr. rewrite fs_path_of in Hr by done.
  apply runs_async in Hr as [(vfs_path & world1 & [[= ->] ->]%runs_pure & Hr)|(e & -> & [[=] _]%runs_pure)].
  apply runs_async in Hr as [(head & world1 & H1 & Hr)|(e & -> & H1)];
    apply calm_read_head in H1 as Hu1; [|done].
  apply runs_async in Hr as [(found & world2 & [Hstat ->]%runs_pure & [-> ->]%runs_ret)|
    (e & -> & [_ ->]%runs_pure)]; [|done].
  split; [done|]. intros metadata [= <-] Hdir. symmetry in Hstat. apply map_err_Ok in Hstat.
  unfold stat_snapshot_path in Hstat. apply bind_Ok in Hstat as (node & Hn & Hnode).
  pose proof Hs as (record & manifest & Hh & Hb). rewrite (head_files _ _ _ _ Hh), components_of_path by done.
  apply (read_head_runs _ _ _ _ _ Hh) in H1 as ->. cbn [snd] in Hn.
  pose proof (lookup_file manifest names Hv) as Hl. unfold text_in.
  destruct (manifest_tree manifest names) as [[file|]|] eqn:Hk.
  - by eapply Hb.
  - destruct Hl as [directory Hl]. rewrite Hl in Hn. injection Hn as <-. by injection Hnode as <-.
  - by rewrite Hn in Hl.
Qed.

Lemma converted_runs {A} names (k : VfsPath → FsAsync A) world r world' :
  valid_names names →
  runs (path ← pure (fs_path_to_vfs_path (path_from_components names)); k path) world r world' →
  runs (k (path_from_components names)) world r world'.
Proof.
  intros Hv Hr. rewrite fs_path_of in Hr by done.
  by apply runs_async in Hr as [(path & world1 & [[= ->] ->]%runs_pure & Hr)|(e & _ & [[=] _]%runs_pure)].
Qed.
Lemma write_runs names contents options world r world' :
  valid_names names → steady world →
  runs (VfsWorkspaceFileSystem.write_file_with fs (path_from_components names) contents options)
    world r world' →
  steady world' ∧
  match r with
  | Ok _ => same_files (with_file (path_from_components names) contents (workspace_files world))
              (workspace_files world')
  | Err _ => same_files (workspace_files world) (workspace_files world')
  end.
Proof.
  intros Hv Hs Hr. apply converted_runs in Hr; [|done].
  apply runs_async in Hr as [(blob_ref & world1 & H1 & Hr)|(e & -> & H1)];
    pose proof (calm_await_err _ _ (calm_call (StoreOp.PutBytes contents) eq_refl) _ _ _ H1) as Hu1.
  2: { by apply undisturbed_steady. }
  apply runs_await_err in H1 as (s & (Hk & -> & _)%runs_call & [= ->]).
  destruct (undisturbed_steady _ _ Hu1 Hs) as [Hs1 Hf1].
  assert (∀ manifest manifest', good manifest → backed world1 manifest →
    changed (VfsWorkspaceFileSystem.write_update (path_from_components names)
      (path_from_components names) (BlobRef_from_bytes contents) (byte_len contents) options) manifest
      = Ok manifest' → (good manifest' ∧ backed world1 manifest') ∧
      ∃ file, file.(VfsFile.blob_ref) = BlobRef_from_bytes contents ∧
        ∀ q, manifest_tree manifest' q = move names names file (manifest_tree manifest) q) as Hch.
  { intros manifest manifest' Hg Hb (file & Href & Hs' & Ht)%write_update_changes; [|apply Hg|done].
    split; [|by exists file]. apply (good_changed world1 manifest manifest' (Some file)); try done.
    - intros ? [= <-]. rewrite Href. split; [apply BlobRef_from_bytes_canonical|by eexists].
    - intros q found Hq. eapply move_file in Hq as [->|Hq]; [by left|right; by eexists|apply Ht]. }
  apply update_head_runs in Hr as [Hs2 Hr]; [|done|intros m m' ???; by eapply Hch].
  split; [done|]. destruct r as [u|e]; [|by eapply same_files_trans].
  destruct Hr as (manifest & manifest' & Hg & Hb & Hchanged & Hq & Hq').
  destruct (Hch _ _ Hg Hb Hchanged) as (_ & file & Href & Ht).
  intros q Hrooted. pose proof Hrooted as (names' & Hv' & ->).
  rewrite Hq', components_of_path, (placed_text _ _ _ _ _ Ht), Href by done.
  destruct (decide (names' = names)) as [->|Hne].
  - rewrite bool_decide_eq_true_2, with_file_same by done. exact Hk.
  - rewrite bool_decide_eq_false_2, with_file_other by (rewrite ?path_from_inj; done).
    rewrite <- Hf1, Hq, components_of_path by done. done.
Qed.
(** The updates whose new manifest has the files of the old one, perhaps fewer. *)
Lemma update_less_runs path update (P : list string → bool) world r world' :
  steady world →
  (∀ manifest manifest', sound manifest → changed update manifest = Ok manifest' → sound manifest' ∧
    ∀ q file, manifest_tree manifest' q = Some (Kind.File file) ↔
      P q = false ∧ manifest_tree manifest q = Some (Kind.File file)) →
  runs (VfsWorkspaceFileSystem.update_head fs path update) world r world' →
  steady world' ∧
  match r with
  | Ok _ => ∀ names, valid_names names → workspace_files world' (path_from_components names) =
      if P names then None else workspace_files world (path_from_components names)
  | Err _ => same_files (workspace_files world) (workspace_files world')
  end.
Proof.
  intros Hs Hch Hr. apply update_head_runs in Hr as [Hs' Hr]; [|done|].
  2: { intros manifest manifest' Hg Hb Hchanged. destruct (Hch _ _ (proj1 Hg) Hchanged) as [Hsound Ht].
    apply (good_changed world manifest manifest' None); [done..| |].
    - done.
    - intros q found [_ Hq]%Ht. right. by exists q. }
  split; [done|]. destruct r as [u|e]; [|done].
  destruct Hr as (manifest & manifest' & Hg & Hb & Hchanged & Hq & Hq'). intros names Hv.
  destruct (Hch _ _ (proj1 Hg) Hchanged) as [_ Ht]. specialize (Ht names).
  rewrite Hq', Hq, !components_of_path by done. unfold text_in.
  destruct (P names).
  - destruct (manifest_tree manifest' names) as [[file|]|]; [|done..].
    destruct (proj1 (Ht file) eq_refl) as [[=] _].
  - destruct (manifest_tree manifest' names) as [[file|]|].
    1: { by destruct (proj1 (Ht file) eq_refl) as [_ ->]. }
    all: destruct (manifest_tree manifest names) as [[file|]|]; [|done..].
    all: discriminate (proj2 (Ht file) (conj eq_refl eq_refl)).
Qed.
Lemma remove_runs names world r world' :
  valid_names names → steady world →
  runs (VfsWorkspaceFileSystem.remove fs (path_from_components names) RemoveOptions_file) world r world' →
  steady world' ∧
  match r with
  | Ok _ => same_files (without_file (path_from_components names) (workspace_files world))
              (workspace_files world')
  | Err _ => same_files (workspace_files world) (workspace_files world')
  end.
Proof.
  intros Hv Hs Hr. apply converted_runs in Hr; [|done].
  apply (update_less_runs _ _ (λ q, bool_decide (q = names))) in Hr as [Hs' Hr]; [|done|].
  2: { intros manifest manifest' Hsound (Hsound' & Ht)%remove_changes; [|done|done]. split; [done|].
    intros q file. rewrite Ht. case_bool_decide; naive_solver. }
  split; [done|]. destruct r as [u|e]; [|done]. intros q (names' & Hv' & ->). rewrite Hr by done.
  destruct (decide (names' = names)) as [->|Hne].
  - by rewrite bool_decide_eq_true_2, without_file_same.
  - by rewrite bool_decide_eq_false_2, without_file_other by (rewrite ?path_from_inj; done).
Qed.
Lemma create_directory_runs names options world r world' :
  valid_names names → steady world →
  runs (VfsWorkspaceFileSystem.create_directory fs (path_from_components names) options)
    world r world' →
  steady world' ∧ same_files (workspace_files world) (workspace_files world').
Proof.
  intros Hv Hs Hr. apply converted_runs in Hr; [|done].
  apply (update_less_runs _ _ (λ _, false)) in Hr as [Hs' Hr]; [|done|].
  2: { intros manifest manifest' Hsound (Hsound' & Ht)%make_directory_changes; [|done|done].
    split; [done|]. intros q file. rewrite Ht. naive_solver. }
  split; [done|]. destruct r as [u|e]; [|done]. intros q (names' & Hv' & ->). by rewrite Hr.
Qed.
Lemma rename_runs source destination world r world' :
  valid_names source → valid_names destination → source ≠ destination → steady world →
  runs (VfsWorkspaceFileSystem.rename fs (path_from_components source)
    (path_from_components destination) {| RenameOptions.overwrite := true |}) world r world' →
  steady world' ∧
  match r with
  | Ok _ => ∃ text, workspace_files world (path_from_components source) = Some text ∧
      same_files (with_file (path_from_components destination) text
        (without_file (path_from_components source) (workspace_files world))) (workspace_files world')
  | Err _ => same_files (workspace_files world) (workspace_files world')
  end.
Proof.
  intros Hv Hv' Hne Hs Hr. unfold VfsWorkspaceFileSystem.rename in Hr.
  apply converted_runs in Hr; [|done]. apply converted_runs in Hr; [|done].
  apply update_head_runs in Hr as [Hs' Hr]; [|done|].
  2: { intros manifest manifest' Hg Hb (file & Hf & Hsound & Ht)%rename_changes; [|apply Hg|done|done].
    apply (good_changed world manifest manifest' None); [done..|].
    intros q found Hq. right. eapply move_file in Hq as [->|Hq]; [by exists source|by exists q|apply Ht]. }
  split; [done|]. destruct r as [u|e]; [|done].
  destruct Hr as (manifest & manifest' & Hg & Hb & Hchanged & Hq & Hq').
  apply rename_changes in Hchanged as (file & Hf & _ & Ht); [|apply Hg|done|done].
  destruct (Hb _ _ Hf) as [text Htext]. exists text.
  split; [rewrite Hq, components_of_path by done; unfold text_in; by rewrite Hf|].
  intros q (names & Hvn & ->). rewrite Hq', components_of_path by done. unfold text_in. rewrite Ht.
  unfold move. destruct (decide (names = destination)) as [->|Hnd].
  { by rewrite bool_decide_eq_true_2, with_file_same. }
  rewrite bool_decide_eq_false_2, with_file_other by (rewrite ?path_from_inj; done).
  destruct (decide (names = source)) as [->|Hns].
  { by rewrite bool_decide_eq_true_2, without_file_same. }
  rewrite bool_decide_eq_false_2, without_file_other by (rewrite ?path_from_inj; done).
  by rewrite Hq, components_of_path.
Qed.
#[export] Instance workspace_store :
  FileStore (VfsWorkspaceFileSystem.as_file_system fs) steady workspace_files.
Proof.
  split.
  - intros cwd value path. apply resolved_rooted.
  - intros path world r world' (names & Hv & ->) Hs Hr. cbn in Hr.
    apply read_versioned_runs in Hr as [Hu Hr]; [|done|done].
    destruct (undisturbed_steady _ _ Hu Hs). auto.
  - intros path world r world' (names & Hv & ->) Hs Hr. cbn in Hr.
    apply metadata_runs in Hr as [Hu Hr]; [|done|done].
    destruct (undisturbed_steady _ _ Hu Hs). auto.
  - intros path contents options world r world' (names & Hv & ->) Hs Hr. by eapply write_runs.
  - intros path options world r world' (names & Hv & ->) Hs Hr. by eapply create_directory_runs.
  - intros path world r world' (names & Hv & ->) Hs Hr. by eapply remove_runs.
  - intros source destination world r world' (names & Hv & ->) (names' & Hv' & ->) Hne Hs Hr.
    eapply rename_runs; [done|done| |done|exact Hr]. by intros ->.
Qed.
End workspace.

(** ** Edits among other changes *)
Section edits.
Context `{Ext : !Externals, Json : !ManifestJson}.
Lemma safe_promise {A} workspace_id (promise promise' : Change → Prop) (program : Prog A) post n world :
  safe workspace_id promise program post n world → (∀ change, promise change → promise' change) →
  safe workspace_id promise' program post n world.
Proof.
  intros Hs Hp. revert n world Hs. induction program as [a|op k IH]; intros n world; cbn; [done|].
  intros Hs world1 reply change world2 Hr Ho. destruct (Hs _ _ _ _ Hr Ho) as [Hc Hk]. eauto.
Qed.
(** What a read says of the file it read. *)
Definition versioned (read : VersionedRead) : Prop :=
  read.(VersionedRead.version) = Some (BlobRef_from_bytes read.(VersionedRead.bytes)).
Lemma read_blob_safe workspace_id promise blob_ref n world :
  safe workspace_id promise (read_blob blob_ref) (quietly workspace_id n world (λ r _,
    ∀ bytes, r = Ok bytes → BlobRef_from_bytes bytes = blob_ref)) n world.
Proof.
  apply safe_await_err. apply safe_quiet; [done|]. intros reply world1 Hr Hreply.
  split_and!; [done|done|]. intros bytes Hb. destruct reply as [found|]; [|done].
  injection Hb as <-. by apply Hreply.
Qed.
Lemma read_file_safe workspace_id promise manifest path n world :
  keyed world.(World.workspaces) →
  safe workspace_id promise (read_snapshot_file manifest path) (quietly workspace_id n world (λ r _,
    ∀ bytes, r = Ok bytes →
      VfsFile.blob_ref <$> manifest_file manifest path = Some (BlobRef_from_bytes bytes))) n world.
Proof.
  intros Hk. unfold read_snapshot_file, manifest_file. apply safe_async, safe_pure.
  destruct (lookup_snapshot_path manifest path) as [[file|directory]|error].
  2,3: split_and!; [done|by apply rely_refl|done].
  apply safe_async. eapply safe_mono; [apply read_blob_safe|].
  intros [bytes|error] n' world' (-> & Hr & Hb); [|done].
  apply safe_async, safe_reject; intros _; [done|]. split_and!; [done|done|]. intros found [= <-]. cbn.
  by rewrite (Hb bytes eq_refl).
Qed.
Lemma read_versioned_safe fs promise path n world :
  let workspace_id := fs.(VfsWorkspaceFileSystem.workspace_id) in
  keyed world.(World.workspaces) →
  safe workspace_id promise (VfsWorkspaceFileSystem.read_file_versioned fs path)
    (quietly workspace_id n world (λ r _, ∀ read, r = Ok read → versioned read)) n world.
Proof.
  intros workspace_id Hk. apply safe_async, safe_pure.
  destruct (fs_path_to_vfs_path path) as [vfs_path|error].
  2: { split_and!; [done|by apply rely_refl|done]. }
  apply safe_async.
  eapply safe_mono; [by apply (read_head_safe workspace_id promise fs eq_refl)|].
  intros [head|error] n' world1 (-> & Hr1 & _); [|done].
  apply safe_async, safe_await_err.
  eapply safe_mono; [apply read_file_safe; by eapply keyed_rely|].
  intros [bytes|error] n' world2 (-> & Hr2 & Hb); [|split_and!; [done|by eapply rely_trans|done]].
  split_and!; [done|by eapply rely_trans|]. intros read [= <-]. by apply Hb.
Qed.

Section editors.
Context (fs : nat → VfsWorkspaceFileSystem) (limit : nat → N) (cwd : nat → FsPath)
  (args : nat → EditFileArgs).
Definition context_of (c : nat) : FsToolContext :=
  {| FsToolContext.fs := VfsWorkspaceFileSystem.as_file_system (fs c);
     FsToolContext.max_file_read_bytes := limit c;
     FsToolContext.fs_cwd := Some (cwd c) |}.
Definition fs_error (error : ToolError) : FsError :=
  match error with
  | ToolError.Filesystem error => error
  | _ => FsError.InvalidInput "{tool error}"
  end.
(** A client that calls [edit_file] and looks at nothing but whether it succeeded. *)
Definition editor (c : nat) : FsAsync unit :=
  await_err fs_error (_ ← invoke_edit_file (context_of c) (args c); mret tt).
(** A change that replaces, in a head where the file holds [contents], that file by what the edit makes
    of [contents], and nothing else. *)
Definition replaces_text (names : list string) (contents updated : string) (change : Change) : Prop :=
  ∃ old new manifest manifest' file file',
    change.(Change.before) = Some old ∧ change.(Change.after) = Some new ∧
    represents old.(VfsWorkspaceRecord.head_snapshot_ref) manifest ∧
    manifest_tree manifest names = Some (Kind.File file) ∧
    file.(VfsFile.blob_ref) = BlobRef_from_bytes contents ∧
    published new.(VfsWorkspaceRecord.head_snapshot_ref) manifest' ∧
    file'.(VfsFile.blob_ref) = BlobRef_from_bytes updated ∧
    ∀ q, manifest_tree manifest' q = move names names file' (manifest_tree manifest) q.
Definition edits (c : nat) (change : Change) : Prop :=
  change.(Change.workspace) = (fs c).(VfsWorkspaceFileSystem.workspace_id) ∧
  ∃ names contents updated,
    resolve_path (context_of c) (args c).(EditFileArgs.path) = Ok (path_from_components names) ∧
    edited (args c) (path_from_components names) contents = Ok updated ∧
    replaces_text names contents updated.1 change.
Lemma advance_edits names contents updated workspace_id change :
  valid_names names →
  promised workspace_id (FileChange.Write (path_from_components names) updated
    {| WriteOptions.if_match := Some (BlobRef_from_bytes contents) |}) change →
  change.(Change.workspace) = workspace_id ∧ replaces_text names contents updated change.
Proof.
  intros Hv (update & Hu & Hws & old & new & manifest & manifest' & Hb & Ha & Hrep & Hch & Hpub & _ & _).
  split; [done|]. cbn in Hu. rewrite fs_path_of in Hu by done. injection Hu as <-.
  pose proof Hrep as (bytes & _ & Hdec). apply decoded_good in Hdec as [Hs _].
  pose proof (write_update_changes _ _ _ _ _ _ _ Hs Hv Hch) as (file' & Href & _ & Ht).
  assert (∃ file, manifest_tree manifest names = Some (Kind.File file) ∧
    file.(VfsFile.blob_ref) = BlobRef_from_bytes contents) as (file & Hf & Hfile).
  { unfold changed in Hch. unfold VfsWorkspaceFileSystem.write_update in Hch.
    unfold mbind at 1, Reducer_bind at 1, get_state at 1 in Hch. cbn in Hch.
    unfold manifest_file in Hch. pose proof (lookup_file manifest names Hv) as Hl.
    destruct (manifest_tree manifest names) as [[file|]|].
    - exists file. split; [done|]. rewrite Hl in Hch. cbn in Hch. case_bool_decide as Heq; [done|].
      by injection Heq.
    - destruct Hl as [directory Hl]. by rewrite Hl in Hch.
    - by destruct (lookup_snapshot_path manifest _). }
  by exists old, new, manifest, manifest', file, file'.
Qed.
Definition once (r : Result FsError unit) (n : nat) (world : World) : Prop :=
  match r with
  | Ok _ => n = 1
  | Err error => n = 0 ∨ n = 1 ∧ ∃ message, error = FsError.Failed message
  end.
Lemma editor_safe c world :
  rooted (cwd c) → keyed world.(World.workspaces) →
  safe (fs c).(VfsWorkspaceFileSystem.workspace_id) (edits c) (editor c) once 0 world.
Proof.
  intros Hcwd Hk. unfold editor. apply safe_await_err, safe_async. unfold invoke_edit_file.
  apply safe_async, safe_reject; intros _; [by left|]. apply safe_async, safe_pure.
  destruct (resolve_path (context_of c) (args c).(EditFileArgs.path)) as [path|error] eqn:Hpath;
    [|by left].
  assert (rooted path) as (names & Hv & ->) by (apply map_err_Ok in Hpath; by eapply resolved_rooted).
  apply safe_async, safe_await_err. eapply safe_mono; [by apply read_versioned_safe|].
  intros [read|error] n world1 (-> & Hr & Hread); cbn [map_err]; [|by left].
  specialize (Hread read eq_refl). unfold versioned in Hread. apply safe_async, safe_pure.
  destruct (map_err _ (from_utf8 read.(VersionedRead.bytes))) as [contents|error] eqn:Hutf; [|by left].
  assert (contents = read.(VersionedRead.bytes)) as ->.
  { apply map_err_Ok in Hutf. unfold from_utf8 in Hutf. destruct (valid_utf8 _); [|done]. by injection Hutf. }
  apply safe_async, safe_pure. destruct (edited _ _ _) as [updated|error] eqn:Hed; [|by left].
  apply safe_async, safe_await_err. cbn [context_of FsToolContext.fs VfsWorkspaceFileSystem.as_file_system
    FileSystem.write_file_with]. rewrite Hread.
  set (change := FileChange.Write (path_from_components names) updated.1
    {| WriteOptions.if_match := Some (BlobRef_from_bytes read.(VersionedRead.bytes)) |}).
  pose proof (perform_safe (fs c) change 0 world1 (keyed_rely _ _ _ Hr) (or_introl eq_refl)) as Hsafe.
  apply (safe_promise _ _ (edits c)) in Hsafe; [apply (safe_mono _ _ _ _ _ _ _ Hsafe)|].
  2: { intros later Hlater. apply advance_edits in Hlater as [Hws Hlater]; [|done]. split; [done|].
    by exists names, read.(VersionedRead.bytes), updated. }
  - intros r n world2 Hout. unfold outcome in Hout. cbn [change update_of] in Hout.
    rewrite fs_path_of in Hout by done. cbn in Hout. destruct r as [u|error]; cbn; [done|].
    by destruct Hout as [Hn _].
Qed.

(** C8. Edits do not undo each other. Whatever runs between the calls of [edit_file] and whatever calls
    fail, a client that edits publishes a head only where the one it replaces holds, at that path,
    the very text the edit was computed from; the new head holds the edited text there and is
    otherwise the same; and the client does this once if it succeeds, and at most once if not.
    All of that as long as no workspace a client works on is deleted ([spared]): one that is deleted
    and made again between the read and the write starts over at revision 0, where the write may
    replace a text that was never read. Working directories are absolute. *)
Theorem edits_replace_what_they_read system trace system' :
  keyed system.(System.world).(World.workspaces) →
  (∀ c program, system.(System.clients) !! c = Some program → rooted (cwd c) ∧ program = editor c) →
  steps system trace system' → spared fs system trace →
  (∀ c change, (Some c, change) ∈ trace → edits c change) ∧
  ∀ c r, system'.(System.clients) !! c = Some (Return r) →
    match r with
    | Ok _ => length (by_client c trace) = 1
    | Err error => length (by_client c trace) = 0 ∨
        length (by_client c trace) = 1 ∧ ∃ message, error = FsError.Failed message
    end.
Proof.
  intros Hk Hstart Hsteps Hd.
  assert (clients_safe (workspace_of fs) edits (λ _, once) trace system') as (_ & Hedits & Hpost).
  { eapply steps_safe; [|exact Hsteps|exact Hd].
    split_and!; [done|by intros c change ?%elem_of_nil|].
    intros c program Hc. exists system.(System.world). split; [by apply rely_refl|].
    destruct (Hstart c program Hc) as [Hcwd ->]. by apply editor_safe. }
  split; [done|]. intros c r Hc. destruct (Hpost c _ Hc) as (world & _ & Hpost'). exact Hpost'.
Qed.
End editors.
End edits.
