(* ===== verification/VfsExample.v ===== *)
(** * A virtual file system at work

    An encoding of manifests with the laws of [ManifestJson], a workspace that clients change in
    turns, patches and edits of its files, and the histories on which the theorems about workspaces
    and file tools are evaluated. *)
From Stdlib Require Import Ascii ZArith.
From S2P Require Import Prelude Ids Text Types Externals VfsTree VfsTreeLaws VfsStore VfsFiles.
From S2P Require Import VfsHistory VfsLaws Patch FileTools FileToolLaws FileToolStore.

(** ** Manifests as trees of codes *)
Abbreviation Code := (gen_tree (string + N)) (only parsing).
Definition text (s : string) : Code := GenLeaf (inl s).
Definition number (n : N) : Code := GenLeaf (inr n).
Definition code_text (code : Code) : string :=
  match code with GenLeaf (inl s) => s | _ => "" end.
Definition code_number (code : Code) : N := match code with GenLeaf (inr n) => n | _ => 0 end.
Definition media_code (media_type : option string) : Code :=
  match media_type with Some media_type => text media_type | None => number 0 end.
Definition code_media (code : Code) : option string :=
  match code with GenLeaf (inl s) => Some s | _ => None end.
(** A directory starts with its names; its children follow in that order. *)
Fixpoint entry_code (entry : VfsEntry) : Code :=
  match entry with
  | VfsEntry.File file =>
      GenNode 0 [text file.(VfsFile.blob_ref); number file.(VfsFile.size_bytes);
                 media_code file.(VfsFile.media_type);
                 number (if file.(VfsFile.executable) then 1 else 0)]
  | VfsEntry.Directory directory =>
      let children := map_to_list (entry_code <$> directory) in
      GenNode 1 (GenNode 2 (map text children.*1) :: children.*2)
  end.
Fixpoint code_entry (code : Code) : VfsEntry :=
  match code with
  | GenNode 0 [blob_ref; size_bytes; media_type; executable] =>
      VfsEntry.File {| VfsFile.blob_ref := code_text blob_ref;
                       VfsFile.size_bytes := code_number size_bytes;
                       VfsFile.media_type := code_media media_type;
                       VfsFile.executable := (code_number executable =? 1)%N |}
  | GenNode _ (GenNode _ names :: children) =>
      VfsEntry.Directory (list_to_map (zip (map code_text names) (map code_entry children)))
  | _ => VfsEntry.Directory ∅
  end.
Lemma code_entry_code entry : code_entry (entry_code entry) = entry.
Proof.
  induction entry as [file|directory IH] using VfsEntry_tree_ind.
  { by destruct file as [blob_ref size [media|] [|]]. }
  cbn [entry_code code_entry]. f_equal.
  rewrite (map_to_list_fmap entry_code directory).
  transitivity (list_to_map (M := gmap string VfsEntry) (map_to_list directory));
    [|apply list_to_map_to_list].
  f_equal. assert (∀ p, p ∈ map_to_list directory → code_entry (entry_code p.2) = p.2) as H
    by (intros [name entry] Hin%elem_of_map_to_list; by eapply IH).
  clear IH. revert H. generalize (map_to_list directory) as l.
  induction l as [|[name entry] l IHl]; intros H; [done|].
  cbn. f_equal; [f_equal; apply (H (name, entry)); left|].
  apply IHl. intros p Hp. apply H. by right.
Qed.

Definition manifest_code (manifest : VfsSnapshotManifest) : Code :=
  GenNode 0 [text manifest.(VfsSnapshotManifest.schema_version);
             entry_code (VfsEntry.Directory manifest.(VfsSnapshotManifest.root));
             number manifest.(VfsSnapshotManifest.totals).(VfsTotals.files);
             number manifest.(VfsSnapshotManifest.totals).(VfsTotals.bytes)].
Definition code_manifest (code : Code) : VfsSnapshotManifest :=
  let '(schema_version, root, files, bytes) :=
    match code with
    | GenNode _ [schema_version; root; files; bytes] => (schema_version, root, files, bytes)
    | _ => (number 0, number 0, number 0, number 0)
    end in
  {| VfsSnapshotManifest.schema_version := code_text schema_version;
     VfsSnapshotManifest.root :=
       match code_entry root with VfsEntry.Directory root => root | VfsEntry.File _ => ∅ end;
     VfsSnapshotManifest.totals := {| VfsTotals.files := code_number files;
                                      VfsTotals.bytes := code_number bytes |} |}.
Lemma code_manifest_code manifest : code_manifest (manifest_code manifest) = manifest.
Proof.
  destruct manifest as [schema_version root [files bytes]]. unfold code_manifest, manifest_code.
  cbn [VfsSnapshotManifest.schema_version VfsSnapshotManifest.root VfsSnapshotManifest.totals
    VfsTotals.files VfsTotals.bytes text number code_text code_number].
  by rewrite code_entry_code.
Qed.

(** Seven binary digits to a character; the ones left over have one each. *)
Fixpoint pos_digits (p : positive) : list bool :=
  match p with xH => [] | xO p => false :: pos_digits p | xI p => true :: pos_digits p end.
Fixpoint digits_pos (digits : list bool) : positive :=
  match digits with
  | [] => xH
  | false :: digits => xO (digits_pos digits)
  | true :: digits => xI (digits_pos digits)
  end.
Fixpoint pack (digits : list bool) : string :=
  match digits with
  | a :: b :: c :: d :: e :: f :: g :: digits => String (Ascii a b c d e f g true) (pack digits)
  | a :: digits => String (Ascii a false false false false false false false) (pack digits)
  | [] => EmptyString
  end.
Fixpoint unpack (s : string) : list bool :=
  match s with
  | String (Ascii a b c d e f g true) s => a :: b :: c :: d :: e :: f :: g :: unpack s
  | String (Ascii a _ _ _ _ _ _ false) s => a :: unpack s
  | EmptyString => []
  end.
Lemma digits_pos_digits p : digits_pos (pos_digits p) = p.
Proof. induction p as [p IH|p IH|]; cbn; by rewrite ?IH. Qed.
Lemma unpack_pack digits : unpack (pack digits) = digits.
Proof.
  revert digits. fix IH 1.
  intros [|a [|b [|c [|d [|e [|f [|g digits]]]]]]]; try reflexivity.
  cbn [pack unpack]. by rewrite IH.
Qed.
Definition write_code (code : Code) : string := pack (pos_digits (encode code)).
Definition read_code (bytes : string) : option Code := decode (digits_pos (unpack bytes)).
Lemma read_write_code code : read_code (write_code code) = Some code.
Proof.
  unfold read_code, write_code. by rewrite unpack_pack, digits_pos_digits, decode_encode.
Qed.

Definition example_from_slice (bytes : string) : Result string VfsSnapshotManifest :=
  match read_code bytes with
  | Some code =>
      let manifest := code_manifest code in
      if manifest_typed manifest && bool_decide (manifest_json_depth manifest ≤ JSON_DEPTH)
      then Ok manifest else Err "recursion limit exceeded"
  | None => Err "expected value"
  end.
#[export, refine] Instance example_manifest_json : ManifestJson := {|
  manifest_to_vec := λ manifest, write_code (manifest_code manifest);
  manifest_from_slice := example_from_slice;
|}.
Proof.
  - intros manifest Ht Hd. unfold example_from_slice. rewrite read_write_code, code_manifest_code, Ht.
    by rewrite bool_decide_eq_true_2.
  - intros manifest Hd. unfold example_from_slice. rewrite read_write_code, code_manifest_code.
    rewrite bool_decide_eq_false_2 by lia. by rewrite andb_false_r.
  - intros bytes manifest. unfold example_from_slice. destruct (read_code bytes) as [code|]; [|done].
    destruct (manifest_typed (code_manifest code)) eqn:Ht; [|done].
    cbn. destruct (bool_decide _); [by intros [= <-]|done].
Defined.

(** ** Taking turns *)
(** Whose turn it is: a client's, whose call is answered or whose reply is lost; the gateway's; a
    creation or a deletion of a workspace; nobody's, while the clock moves. *)
Module Turn.
Inductive Turn : Type :=
| Client (c : nat)
| Unheard (c : nat)
| Gateway (request : CompareAndSetVfsWorkspaceHead)
| Create (request : CreateVfsWorkspaceRecord)
| Delete (workspace_id : VfsWorkspaceId)
| Clock (now : Z).
End Turn.
Abbreviation Turn := Turn.Turn.
Section play.
Context `{Ext : !Externals}.
Definition LOST : string := "connection reset".
Definition changes_rows {A} (workspace_id : VfsWorkspaceId)
    (change : CatalogReducer A) (system : System) : list (option nat * Change) * System :=
  let rows := system.(System.world).(World.workspaces) in
  match change rows with
  | (Ok _, rows') =>
      ([(None, updated workspace_id rows rows')],
       {| System.world := system.(System.world) <| World.workspaces := rows' |>;
          System.clients := system.(System.clients) |})
  | (Err _, _) => ([], system)
  end.
Definition take_call (c : nat) (lost : bool) (system : System) : list (option nat * Change) * System :=
  match system.(System.clients) !! c with
  | Some (Call op k) =>
      let '(reply, world) := answer op system.(System.world) in
      let reply := match (if lost then failure LOST op else None) with
                   | Some refusal => refusal
                   | None => reply
                   end in
      (match change_of op system.(System.world) with
       | Some change => [(Some c, change)]
       | None => []
       end,
       {| System.world := world; System.clients := <[c := k reply]> system.(System.clients) |})
  | _ => ([], system)
  end.
Definition take_turn (turn : Turn) (system : System) : list (option nat * Change) * System :=
  match turn with
  | Turn.Client c => take_call c false system
  | Turn.Unheard c => take_call c true system
  | Turn.Gateway request =>
      changes_rows request.(CompareAndSetVfsWorkspaceHead.workspace_id)
        (compare_and_set_head request) system
  | Turn.Create request =>
      changes_rows request.(CreateVfsWorkspaceRecord.workspace_id)
        (create_workspace request) system
  | Turn.Delete workspace_id => changes_rows workspace_id (delete_workspace workspace_id) system
  | Turn.Clock now =>
      ([], {| System.world := system.(System.world) <| World.now := now |>;
              System.clients := system.(System.clients) |})
  end.
Fixpoint play (turns : list Turn) (system : System) : list (option nat * Change) * System :=
  match turns with
  | [] => ([], system)
  | turn :: turns =>
      let '(trace, system) := take_turn turn system in
      let '(rest, system) := play turns system in
      (trace ++ rest, system)
  end.

Lemma idle_step system : step system [] system.
Proof. destruct system as [world clients]. by apply (step_elsewhere {| System.world := world |}). Qed.
Lemma take_call_step c lost system : step system (take_call c lost system).1 (take_call c lost system).2.
Proof.
  unfold take_call. destruct (system.(System.clients) !! c) as [[a|op k]|] eqn:Hc; try apply idle_step.
  pose proof (op_answered system.(System.world) op) as Hop.
  destruct lost.
  - destruct (failure LOST op) as [reply|] eqn:Hf.
    + pose proof (op_unheard system.(System.world) op LOST reply Hf) as Hu.
      destruct (answer op _) as [heard world]. by apply (step_client system c op k reply).
    + destruct (answer op _) as [reply world]. by apply (step_client system c op k reply).
  - destruct (answer op _) as [reply world]. by apply (step_client system c op k reply).
Qed.
Lemma take_turn_step turn system : step system (take_turn turn system).1 (take_turn turn system).2.
Proof.
  destruct turn; cbn [take_turn]; try apply take_call_step; unfold changes_rows.
  - destruct (compare_and_set_head _ _) as [[record|error] rows] eqn:H; [|apply idle_step].
    by eapply step_gateway.
  - destruct (create_workspace _ _) as [[record|error] rows] eqn:H; [|apply idle_step].
    by eapply step_create.
  - destruct (delete_workspace _ _) as [[record|error] rows] eqn:H; [|apply idle_step].
    by eapply step_delete.
  - by apply step_elsewhere.
Qed.
Lemma steps_cons system trace system' rest system'' :
  step system trace system' → steps system' rest system'' → steps system (trace ++ rest) system''.
Proof.
  intros H Hs. induction Hs as [|system1 trace1 system2 trace2 system3 Hs IH Hstep].
  - rewrite app_nil_r. apply (steps_more system [] system); [constructor|done].
  - rewrite app_assoc. eapply steps_more; [by apply IH|done].
Qed.
Lemma play_steps turns system : steps system (play turns system).1 (play turns system).2.
Proof.
  revert system. induction turns as [|turn turns IH]; intros system; [constructor|]. cbn [play].
  pose proof (take_turn_step turn system) as H. destruct (take_turn turn system) as [trace system'].
  specialize (IH system'). destruct (play turns system') as [rest system'']. by eapply steps_cons.
Qed.
End play.

(** ** A workspace, its clients and their histories *)
Definition WS : VfsWorkspaceId := "ws".
Definition empty_manifest : VfsSnapshotManifest :=
  {| VfsSnapshotManifest.schema_version := VFS_SNAPSHOT_SCHEMA_VERSION;
     VfsSnapshotManifest.root := ∅;
     VfsSnapshotManifest.totals := VfsTotals_default |}.
Definition nothing : World :=
  {| World.blobs := InMemoryBlobStoreInner_default; World.workspaces := ∅;
     World.effects := ∅; World.now := 1700000000000%Z |}.
Definition stored : Result VfsError CreateVfsSnapshotResult * World :=
  run (commit_snapshot_manifest true empty_manifest) nothing.
Definition empty_ref : BlobRef :=
  match stored.1 with Ok result => result.(CreateVfsSnapshotResult.snapshot_ref) | Err _ => "" end.
Definition creation (workspace_id : VfsWorkspaceId) : CreateVfsWorkspaceRecord :=
  {| CreateVfsWorkspaceRecord.workspace_id := workspace_id;
     CreateVfsWorkspaceRecord.display_name := None;
     CreateVfsWorkspaceRecord.base_snapshot_ref := None;
     CreateVfsWorkspaceRecord.head_snapshot_ref := empty_ref;
     CreateVfsWorkspaceRecord.head_totals := VfsTotals_default;
     CreateVfsWorkspaceRecord.created_at_ms := 1700000000000%Z |}.
Definition row : VfsWorkspaceRecord :=
  {| VfsWorkspaceRecord.workspace_id := WS; VfsWorkspaceRecord.display_name := None;
     VfsWorkspaceRecord.base_snapshot_ref := None;
     VfsWorkspaceRecord.head_snapshot_ref := empty_ref;
     VfsWorkspaceRecord.head_totals := VfsTotals_default; VfsWorkspaceRecord.revision := 0;
     VfsWorkspaceRecord.created_at_ms := 1700000000000%Z;
     VfsWorkspaceRecord.updated_at_ms := 1700000000000%Z |}.
Definition base : World := stored.2 <| World.workspaces := {[ WS := row ]} |>.
Example base_is_created : (create_workspace (creation WS) ∅).2 = base.(World.workspaces).
Proof. vm_compute. done. Qed.
Definition client_fs (c : nat) : VfsWorkspaceFileSystem :=
  {| VfsWorkspaceFileSystem.blob_graph := true; VfsWorkspaceFileSystem.workspace_id := WS;
     VfsWorkspaceFileSystem.effects := c |}.
Definition client_change (c : nat) : FileChange :=
  match c with
  | 0 => FileChange.Write "/notes" "hello" WriteOptions_default
  | 1 => FileChange.CreateDirectory "/src/lib"
           {| CreateDirectoryOptions.recursive := true |}
  | _ => FileChange.Rename "/notes" "/src/notes" {| RenameOptions.overwrite := false |}
  end.
Definition client (c : nat) : FsAsync unit := perform (client_fs c) (client_change c).
Definition three_clients : System :=
  {| System.world := base; System.clients := {[ 0 := client 0; 1 := client 1; 2 := client 2 ]} |}.
Lemma base_keyed : keyed base.(World.workspaces).
Proof.
  intros workspace_id r H. change (({[ WS := row ]} : Workspaces) !! workspace_id = Some r) in H.
  by apply lookup_singleton_Some in H as [<- <-].
Qed.
Lemma three_clients_starting : starting client_fs client_change three_clients.
Proof.
  split; [apply base_keyed|]. intros c program. cbn [System.clients three_clients].
  rewrite !lookup_insert_Some, lookup_singleton_Some. naive_solver.
Qed.
(** The first two interleave, and the second is overtaken once; then the third works alone, and
    the reply to its change of the head is lost. *)
Definition turns : list Turn :=
  [Turn.Client 0; Turn.Client 1; Turn.Client 1; Turn.Client 0; Turn.Client 0; Turn.Client 1] ++
  replicate 5 (Turn.Client 0) ++ replicate 9 (Turn.Client 1) ++ replicate 5 (Turn.Client 2) ++
  [Turn.Unheard 2].
Definition returned (system : System) (c : nat) : option (Result FsError unit) :=
  match system.(System.clients) !! c with Some (Return r) => Some r | _ => None end.
Definition history := play turns three_clients.
Lemma history_steps : steps three_clients history.1 history.2.
Proof. unfold history. exact (play_steps turns three_clients). Qed.
Lemma history_facts :
  bool_decide (never_deleted WS history.1) = true ∧
  returned history.2 1 = Some (Ok tt) ∧
  returned history.2 2 = Some (Err (FsError.Failed LOST)) ∧
  length (at_workspace WS history.1) = 3.
Proof.
  assert ((bool_decide (never_deleted WS history.1), returned history.2 1, returned history.2 2,
      length (at_workspace WS history.1))
    = (true, Some (Ok tt), Some (Err (FsError.Failed LOST)), 3)) as H by (vm_compute; reflexivity).
  apply pair_equal_spec in H as [H H4]. apply pair_equal_spec in H as [H H3].
  apply pair_equal_spec in H as [H1 H2]. exact (conj H1 (conj H2 (conj H3 H4))).
Qed.
Lemma spared_by system trace :
  bool_decide (never_deleted WS trace) = true → spared client_fs system trace.
Proof. intros Hd%bool_decide_eq_true c _. exact Hd. Qed.
Lemma history_spared : spared client_fs three_clients history.1.
Proof. apply spared_by, history_facts. Qed.
Lemma returned_at system c r :
  returned system c = Some r → system.(System.clients) !! c = Some (Return r).
Proof.
  unfold returned. destruct (system.(System.clients) !! c) as [[a|op k]|]; [|done..].
  by intros [= ->].
Qed.

Lemma no_change_is_lost_witness :
  length (at_workspace WS history.1) = 3 ∧
  (∀ c change, (Some c, change) ∈ history.1 →
     ∃ update, update_of (client_change c) = Ok update ∧ advances WS update change) ∧
  chained (Some row) (at_workspace WS history.1)
    (history.2.(System.world).(World.workspaces) !! WS).
Proof.
  destruct (no_change_is_lost client_fs client_change three_clients history.1 history.2
    three_clients_starting history_steps history_spared) as [Hadvances Hchained].
  split; [apply history_facts|]. split; [exact Hadvances|]. exact (Hchained WS).
Defined.

(** The third client's change is published although it fails. *)
Lemma a_change_is_published_once_witness :
  (by_client 2 history.1 = [] ∨
   length (by_client 2 history.1) = 1 ∧
     ∃ message, FsError.Failed LOST = FsError.Failed message) ∧
  length (by_client 1 history.1) = 1.
Proof.
  destruct history_facts as (_ & H1 & H2 & _). split.
  - exact (a_change_is_published_once client_fs client_change three_clients history.1 history.2 2
      (Err (FsError.Failed LOST)) three_clients_starting history_steps history_spared
      (returned_at _ _ _ H2)).
  - exact (a_change_is_published_once client_fs client_change three_clients history.1 history.2 1
      (Ok tt) three_clients_starting history_steps history_spared (returned_at _ _ _ H1)).
Defined.

(** The gateway publishes before each change of the head that the second client tries. *)
Definition publish : CompareAndSetVfsWorkspaceHead :=
  {| CompareAndSetVfsWorkspaceHead.workspace_id := WS;
     CompareAndSetVfsWorkspaceHead.expected_revision := None;
     CompareAndSetVfsWorkspaceHead.display_name := None;
     CompareAndSetVfsWorkspaceHead.new_head_snapshot_ref := empty_ref;
     CompareAndSetVfsWorkspaceHead.new_head_totals := VfsTotals_default;
     CompareAndSetVfsWorkspaceHead.updated_at_ms := 1700000000001%Z |}.
Definition crowd : list Turn :=
  concat (replicate HEAD_UPDATE_ATTEMPTS
    (replicate 4 (Turn.Client 1) ++ [Turn.Gateway publish; Turn.Client 1])).
Definition crowded := play crowd three_clients.
Lemma crowded_steps : steps three_clients crowded.1 crowded.2.
Proof. unfold crowded. exact (play_steps crowd three_clients). Qed.
Lemma crowded_facts :
  bool_decide (never_deleted WS crowded.1) = true ∧
  returned crowded.2 1 = Some (Err (FsError.Conflict "/src/lib")).
Proof. apply pair_equal_spec. vm_compute. reflexivity. Qed.
Lemma a_conflict_takes_eight_changes_witness :
  by_client 1 crowded.1 = [] ∧ 8 ≤ length (at_workspace WS crowded.1).
Proof.
  apply (a_conflict_takes_eight_changes client_fs client_change three_clients crowded.1 crowded.2
    1 "/src/lib" row
    three_clients_starting crowded_steps
    (spared_by three_clients crowded.1 (proj1 crowded_facts))).
  - reflexivity.
  - intros update manifest error [= <-] Hch. unfold changed, mapped in Hch.
    destruct (create_manifest_directory _ _ _) as [[u|e] m]; [done|]. cbn in Hch.
    injection Hch as <-. apply map_vfs_error_overtaken.
  - done.
  - apply returned_at, crowded_facts.
Defined.

(** ** One manifest at a time *)
Definition notes : VfsFile :=
  {| VfsFile.blob_ref := BlobRef_from_bytes "hello"; VfsFile.size_bytes := 5;
     VfsFile.media_type := None; VfsFile.executable := true |}.
Definition with_notes : VfsSnapshotManifest :=
  {| VfsSnapshotManifest.schema_version := VFS_SNAPSHOT_SCHEMA_VERSION;
     VfsSnapshotManifest.root :=
       <["notes" := VfsEntry.File notes]> {[ "src" := VfsEntry.Directory ∅ ]};
     VfsSnapshotManifest.totals := {| VfsTotals.files := 1; VfsTotals.bytes := 5 |} |}.
Lemma with_notes_sound : sound with_notes.
Proof. split; [|done]. apply (proj1 (validate_consistent with_notes tt)). vm_compute. done. Qed.
Lemma manifest_updates_refine_the_tree_witness :
  let '(r, manifest') :=
    run_update (Update.Copy ["notes"] ["src"; "copy"] false) with_notes in
  r = Ok tt ∧ manifest_tree manifest' ["src"; "copy"] = Some (Kind.File notes) ∧
  manifest_tree manifest' ["notes"] = Some (Kind.File notes) ∧ sound manifest'.
Proof.
  pose proof (manifest_updates_refine_the_tree (Update.Copy ["notes"] ["src"; "copy"] false)
    with_notes) as H.
  destruct (run_update _ with_notes) as [r manifest'] eqn:Hrun.
  assert (r = Ok tt) as -> by (apply (f_equal fst) in Hrun; vm_compute in Hrun; by rewrite Hrun).
  destruct (H (Ok tt) manifest' with_notes_sound) as (_ & Hs & Ht); [by repeat constructor|done|].
  split_and!; [done|by rewrite Ht|by rewrite Ht|done].
Defined.
Lemma rename_moves_one_file_witness :
  ∃ manifest',
    changed (VfsWorkspaceFileSystem.rename_update "/notes" "/src/notes" "/notes" "/src/notes"
      {| RenameOptions.overwrite := false |}) with_notes = Ok manifest' ∧
    sound manifest' ∧ manifest_tree manifest' ["notes"] = None ∧
    manifest_tree manifest' ["src"; "notes"] = Some (Kind.File notes) ∧
    manifest_tree manifest' ["src"] = Some Kind.Directory.
Proof.
  pose proof (rename_moves_one_file "/notes" "/src/notes" ["notes"] ["src"; "notes"]
    {| RenameOptions.overwrite := false |} with_notes with_notes_sound
    ltac:(by repeat constructor) ltac:(by repeat constructor)) as H.
  change (path_from_components ["notes"]) with "/notes" in H.
  change (path_from_components ["src"; "notes"]) with "/src/notes" in H.
  destruct (changed _ with_notes) as [manifest'|error] eqn:Hrun; [|by vm_compute in Hrun].
  destruct H as (file & (Hfile & _) & Hs & Ht). exists manifest'.
  assert (file = notes) as -> by (vm_compute in Hfile; by injection Hfile as <-).
  split_and!; [done|done|by rewrite Ht..].
Defined.

Definition main_file : InlineFile :=
  {| InlineFile.path := "/src/main"; InlineFile.bytes := "fn main";
     InlineFile.media_type := None; InlineFile.executable := false |}.
Definition license : InlineFile :=
  {| InlineFile.path := "/license"; InlineFile.bytes := "MIT";
     InlineFile.media_type := Some "text/plain"; InlineFile.executable := false |}.
Lemma inline_snapshot_holds_its_files_witness :
  let blob_refs := [BlobRef_from_bytes "fn main"; BlobRef_from_bytes "MIT"] in
  ∃ manifest, inline_manifest [main_file; license] blob_refs = Ok manifest ∧
    consistent manifest ∧
    manifest_tree manifest ["license"]
      = Some (Kind.File (inline_file_entry (BlobRef_from_bytes "MIT") license)) ∧
    manifest_tree manifest ["src"] = Some Kind.Directory.
Proof.
  intros blob_refs.
  destruct (inline_snapshot_holds_its_files [main_file; license] VfsSnapshotLimits_default
    blob_refs) as (manifest & Hm & Hc & Hf & Hd).
  - vm_compute. done.
  - done.
  - by repeat constructor.
  - exists manifest. split_and!; [done|done| |].
    + apply Hf. exists license, (BlobRef_from_bytes "MIT"). split_and!; [|done|done].
      by right; left.
    + apply Hd. right. exists main_file. split_and!; [by left| |done]. by exists ["main"].
Defined.

Definition attached (path : VfsPath) (target : ResolvedWorkspaceAttachmentTarget)
    (access : WorkspaceAccess) : ResolvedWorkspaceAttachment :=
  {| ResolvedWorkspaceAttachment.path := path; ResolvedWorkspaceAttachment.target := target;
     ResolvedWorkspaceAttachment.access := access |}.
Definition both : list ResolvedWorkspaceAttachment :=
  [attached "/lib" (ResolvedWorkspaceAttachmentTarget.AvailableSnapshot empty_ref)
     WorkspaceAccess.Read;
   attached "/home/me" (ResolvedWorkspaceAttachmentTarget.AvailableWorkspace row)
     WorkspaceAccess.Edit].
Lemma paths_route_to_one_attachment_witness :
  ∃ fs, AttachedVfsFileSystem.new both 0 = Ok fs ∧
    AttachedVfsFileSystem.route_attachment fs "/home/me/src/notes"
    = Ok (Some (attached "/home/me" (ResolvedWorkspaceAttachmentTarget.AvailableWorkspace row)
                  WorkspaceAccess.Edit, "/src/notes")).
Proof.
  destruct (AttachedVfsFileSystem.new both 0) as [fs|error] eqn:Hnew.
  - exists fs. split; [done|].
    destruct (paths_route_to_one_attachment both 0 fs ["home"; "me"; "src"; "notes"] Hnew
      ltac:(by repeat constructor) ltac:(by repeat constructor) ltac:(by repeat constructor))
      as [Hroute _].
    exact (Hroute (attached "/home/me" (ResolvedWorkspaceAttachmentTarget.AvailableWorkspace row)
      WorkspaceAccess.Edit) ["src"; "notes"] ltac:(by right; left) eq_refl).
  - by vm_compute in Hnew.
Defined.

(** ** What the code does not guard against *)
(** The manifest of a directory 63 deep is written, and no longer read. *)
Definition deep : FsPath := path_from_components (replicate 63 "d").
Definition after_deep : Result FsError unit * World :=
  run (VfsWorkspaceFileSystem.create_directory (client_fs 0) deep
    {| CreateDirectoryOptions.recursive := true |}) base.
Example deep_directory_closes_the_workspace :
  after_deep.1 = Ok tt ∧
  (run (VfsWorkspaceFileSystem.remove (client_fs 0) "/d"
     {| RemoveOptions.recursive := true; RemoveOptions.force := true |}) after_deep.2).1 =
  Err (FsError.Failed "failed to decode vfs snapshot manifest: {source}").
Proof. apply pair_equal_spec. vm_compute. reflexivity. Qed.

(** A workspace deleted and created again starts at revision 0, so that a change based on the old
    one lands on the new one, over what it was created with. *)
Definition stored_notes : Result VfsError CreateVfsSnapshotResult * World :=
  run (_ ← put_blob "hello"; commit_snapshot_manifest true with_notes) base.
Definition recreation : CreateVfsWorkspaceRecord :=
  {| CreateVfsWorkspaceRecord.workspace_id := WS;
     CreateVfsWorkspaceRecord.display_name := None;
     CreateVfsWorkspaceRecord.base_snapshot_ref := None;
     CreateVfsWorkspaceRecord.head_snapshot_ref :=
       match stored_notes.1 with
       | Ok result => result.(CreateVfsSnapshotResult.snapshot_ref)
       | Err _ => ""
       end;
     CreateVfsWorkspaceRecord.head_totals := with_notes.(VfsSnapshotManifest.totals);
     CreateVfsWorkspaceRecord.created_at_ms := 1700000000000%Z |}.
Definition recreated : list (option nat * Change) * System :=
  play (replicate 4 (Turn.Client 1) ++ [Turn.Delete WS; Turn.Create recreation] ++
        replicate 2 (Turn.Client 1))
    {| System.world := stored_notes.2; System.clients := {[ 1 := client 1 ]} |}.
Example recreated_workspace_takes_a_stale_change :
  returned recreated.2 1 = Some (Ok tt) ∧
  (run (VfsWorkspaceFileSystem.read_file (client_fs 0) "/notes") recreated.2.(System.world)).1 =
  Err (FsError.NotFound "/notes").
Proof. apply pair_equal_spec. vm_compute. reflexivity. Qed.

(** A file that changes while it is moved to another workspace: the destination gets what it held
    before, and the source loses what it holds now. *)
Definition OTHER : VfsWorkspaceId := "other".
Definition other_row : VfsWorkspaceRecord :=
  {| VfsWorkspaceRecord.workspace_id := OTHER; VfsWorkspaceRecord.display_name := None;
     VfsWorkspaceRecord.base_snapshot_ref := None;
     VfsWorkspaceRecord.head_snapshot_ref := empty_ref;
     VfsWorkspaceRecord.head_totals := VfsTotals_default; VfsWorkspaceRecord.revision := 0;
     VfsWorkspaceRecord.created_at_ms := 1700000000000%Z;
     VfsWorkspaceRecord.updated_at_ms := 1700000000000%Z |}.
Definition two_workspaces : AttachedVfsFileSystem :=
  {| AttachedVfsFileSystem.blob_graph := true;
     AttachedVfsFileSystem.attachments :=
       [attached "/one" (ResolvedWorkspaceAttachmentTarget.AvailableWorkspace row)
          WorkspaceAccess.Edit;
        attached "/two" (ResolvedWorkspaceAttachmentTarget.AvailableWorkspace other_row)
          WorkspaceAccess.Edit];
     AttachedVfsFileSystem.effects := 0 |}.
Definition before_move : World :=
  let world := (run (VfsWorkspaceFileSystem.write_file (client_fs 0) "/notes" "old") base).2 in
  world <| World.workspaces ::= <[OTHER := other_row]> |>.
Definition moved_across : list (option nat * Change) * System :=
  play (replicate 8 (Turn.Client 0) ++ replicate 8 (Turn.Client 1) ++ replicate 9 (Turn.Client 0))
    {| System.world := before_move;
       System.clients :=
         {[ 0 := AttachedVfsFileSystem.rename two_workspaces "/one/notes" "/two/notes"
                   {| RenameOptions.overwrite := false |};
            1 := VfsWorkspaceFileSystem.write_file (client_fs 1) "/notes" "new" ]} |}.
Example a_move_loses_a_concurrent_change :
  ([returned moved_across.2 0; returned moved_across.2 1],
   (run (AttachedVfsFileSystem.read_file two_workspaces "/two/notes")
      moved_across.2.(System.world)).1,
   (run (AttachedVfsFileSystem.read_file two_workspaces "/one/notes")
      moved_across.2.(System.world)).1) =
  ([Some (Ok tt); Some (Ok tt)], Ok "old", Err (FsError.NotFound "/notes")).
Proof. vm_compute. reflexivity. Qed.

(** ** The file tools at work *)
Definition keptb (op : StoreOp) (world : World) : bool :=
  let bytes_by_ref := world.(World.blobs).(InMemoryBlobStoreInner.bytes_by_ref) in
  match op with
  | StoreOp.PutBytes bytes => bool_decide (bytes_by_ref !! BlobRef_from_bytes bytes = Some bytes)
  | StoreOp.CompareAndSetHead request =>
      match bytes_by_ref !! request.(CompareAndSetVfsWorkspaceHead.new_head_snapshot_ref) with
      | Some bytes => is_ok (decode_snapshot_manifest bytes)
      | None => false
      end
  | _ => true
  end.
Fixpoint all_kept {A} (program : Prog A) (world : World) : bool :=
  match program with
  | Return a => true
  | Call op k =>
      let '(reply, world) := answer op world in keptb op world && all_kept (k reply) world
  end.
Lemma keptb_kept op world : keptb op world = true → kept op world.
Proof.
  destruct op; cbn; try done; [by intros ?%bool_decide_eq_true|].
  destruct (_ !! _) as [bytes|]; [|done].
  destruct (decode_snapshot_manifest bytes) as [manifest|] eqn:Hd; [|done]. intros _. by exists bytes, manifest.
Qed.
Lemma runs_kept {A} (program : Prog A) world :
  all_kept program world = true → runs program world (run program world).1 (run program world).2.
Proof.
  intros Hk. revert world Hk. induction program as [a|op k IH]; intros world; cbn [all_kept run runs]; [done|].
  destruct (answer op world) as [reply world1]. intros [Hop Hk]%andb_true_iff. cbn [fst snd].
  split; [by apply keptb_kept|]. by apply IH.
Qed.

Definition tool_fs : FileSystem := VfsWorkspaceFileSystem.as_file_system (client_fs 0).
Lemma base_head :
  match base.(World.blobs).(InMemoryBlobStoreInner.bytes_by_ref) !! row.(VfsWorkspaceRecord.head_snapshot_ref) with
  | Some bytes => decode_snapshot_manifest bytes
  | None => Err VfsError.RootFile
  end = Ok empty_manifest.
Proof. vm_compute. reflexivity. Qed.
Lemma base_steady : steady (client_fs 0) base.
Proof.
  exists row, empty_manifest. split.
  - split; [|split; [exact eq_refl|]].
    + change (({[ WS := row ]} : Workspaces) !! WS = Some row). apply lookup_singleton_eq.
    + pose proof base_head as Hhead. destruct (_ !! _) as [bytes|]; [|discriminate Hhead].
      by exists bytes.
  - intros [|name names] file; [discriminate|]. unfold manifest_tree, tree_of.
    cbn [empty_manifest VfsSnapshotManifest.root find]. rewrite lookup_empty. discriminate.
Qed.
Definition write_notes : FsAsync unit :=
  FileSystem.write_file_with tool_fs "/notes" ("one fish" +:+ NL +:+ "two fish" +:+ NL) WriteOptions_default.
Definition noted_world : World := (run write_notes base).2.
Lemma rooted_notes : rooted "/notes".
Proof. exists ["notes"]. split; [|done]. constructor; [by vm_compute|constructor]. Qed.
Lemma rooted_root : rooted "/".
Proof. exists []. by split. Qed.
Lemma notes_kept : all_kept write_notes base = true.
Proof. vm_compute. reflexivity. Qed.
Lemma notes_steady world r world' :
  steady (client_fs 0) world → runs write_notes world r world' → steady (client_fs 0) world'.
Proof.
  intros Hs Hr. unfold write_notes, tool_fs in Hr. by apply store_write in Hr as [? _]; [|exact rooted_notes|].
Qed.
Lemma noted_steady : steady (client_fs 0) noted_world.
Proof.
  unfold noted_world. exact (notes_steady base _ _ base_steady (runs_kept write_notes base notes_kept)).
Qed.

Lemma runs_to {A} (program : Prog A) world a :
  all_kept program world = true → (run program world).1 = a → runs program world a (run program world).2.
Proof. intros Hk <-. by apply runs_kept. Qed.
Definition patch_lines (lines : list string) : string :=
  join_lines (["*** Begin Patch"] ++ lines ++ ["*** End Patch"]).
(** A file is changed, moved, and changed again under its new name; another is added. *)
Definition fish_patch : string := patch_lines
  ["*** Update File: notes"; "*** Move to: pond/fish"; "@@"; "-one fish"; "+red fish"; " two fish";
   "*** Add File: src/main"; "+main";
   "*** Update File: pond/fish"; "@@"; " red fish"; "-two fish"; "+blue fish"].
Definition fish_summary : ApplyPatchSummary :=
  {| ApplyPatchSummary.added := ["/src/main"]; ApplyPatchSummary.modified := ["/pond/fish"];
     ApplyPatchSummary.deleted := [] |}.
Definition fish_program : ToolAsync ApplyPatchSummary :=
  apply_patch_text tool_fs (Some "/") (Some 1000%N) fish_patch.
Definition fish_world : World := (run fish_program noted_world).2.
Lemma fish_facts :
  all_kept fish_program noted_world = true ∧ (run fish_program noted_world).1 = Ok fish_summary.
Proof. apply pair_equal_spec. vm_compute. reflexivity. Qed.
Lemma fish_runs : runs fish_program noted_world (Ok fish_summary) fish_world.
Proof. unfold fish_world. exact (runs_to _ _ _ (proj1 fish_facts) (proj2 fish_facts)). Qed.
Lemma a_patch_is_its_hunks_witness :
  ∃ parsed now, parse_patch fish_patch = Ok parsed ∧
    hunks_applied tool_fs "/" (workspace_files (client_fs 0) noted_world)
      parsed.(ParsedPatch.hunks) = Some now ∧
    same_files now (workspace_files (client_fs 0) fish_world).
Proof.
  exact (a_patch_is_its_hunks tool_fs (steady (client_fs 0)) (workspace_files (client_fs 0)) "/"
    (Some 1000%N) fish_patch noted_world fish_summary fish_world rooted_root noted_steady fish_runs).
Defined.

(** A directory that a hunk made is still there when a later one adds a file under its name. *)
Definition nest_patch : string := patch_lines
  ["*** Add File: nest/egg"; "+egg"; "*** Delete File: nest/egg"; "*** Add File: nest"; "+hay"].
Definition nest_summary : ApplyPatchSummary :=
  {| ApplyPatchSummary.added := ["/nest/egg"]; ApplyPatchSummary.modified := [];
     ApplyPatchSummary.deleted := ["/nest/egg"] |}.
Definition nest_error : ToolError :=
  ToolError.PatchPartiallyApplied nest_summary "/nest" ["add /nest"]
    (FsError.InvalidInput "path is not a file: {path}").
Definition nest_program : ToolAsync ApplyPatchSummary :=
  apply_patch_text tool_fs (Some "/") (Some 1000%N) nest_patch.
Definition nest_world : World := (run nest_program noted_world).2.
Lemma nest_facts :
  all_kept nest_program noted_world = true ∧ (run nest_program noted_world).1 = Err nest_error.
Proof. apply pair_equal_spec. vm_compute. reflexivity. Qed.
Lemma nest_runs : runs nest_program noted_world (Err nest_error) nest_world.
Proof. unfold nest_world. exact (runs_to _ _ _ (proj1 nest_facts) (proj2 nest_facts)). Qed.
Lemma a_failed_patch_says_what_it_did_witness :
  same_files (workspace_files (client_fs 0) noted_world) (workspace_files (client_fs 0) nest_world) ∨
  ∃ parsed now done step rest source,
    parse_patch nest_patch = Ok parsed ∧
    hunks_applied tool_fs "/" (workspace_files (client_fs 0) noted_world)
      parsed.(ParsedPatch.hunks) = Some now ∧
    same_files now (exec_steps (done ++ step :: rest) (workspace_files (client_fs 0) noted_world)) ∧
    same_files (exec_steps done (workspace_files (client_fs 0) noted_world))
      (workspace_files (client_fs 0) nest_world) ∧
    nest_error = ToolError.PatchPartiallyApplied (foldl noted ApplyPatchSummary_default done)
                   (PatchStep.target step) (map PatchStep.describe (step :: rest)) source.
Proof.
  exact (a_failed_patch_says_what_it_did tool_fs (steady (client_fs 0)) (workspace_files (client_fs 0)) "/"
    (Some 1000%N) nest_patch noted_world nest_error nest_world rooted_root noted_steady nest_runs).
Defined.

(** Two clients edit one file at the same time, and the second is turned away: the text it read was
    replaced. *)
Definition edit_args (c : nat) : EditFileArgs :=
  {| EditFileArgs.path := "notes"; EditFileArgs.old_string := if bool_decide (c = 0) then "one" else "two";
     EditFileArgs.new_string := if bool_decide (c = 0) then "red" else "blue";
     EditFileArgs.replace_all := false |}.
Definition notes_editor (c : nat) : FsAsync unit :=
  editor client_fs (λ _, 1000%N) (λ _, "/") edit_args c.
Definition editors : System :=
  {| System.world := noted_world; System.clients := {[ 0 := notes_editor 0; 1 := notes_editor 1 ]} |}.
Definition editing := play (replicate 3 (Turn.Client 1) ++ replicate 12 (Turn.Client 0) ++
  replicate 12 (Turn.Client 1)) editors.
Lemma editing_facts :
  bool_decide (never_deleted WS editing.1) = true ∧
  (returned editing.2 0 = Some (Ok tt) ∧
   returned editing.2 1 = Some (Err (FsError.Conflict "/notes"))).
Proof. do 2 rewrite <- pair_equal_spec. vm_compute. reflexivity. Qed.
Lemma editing_steps : steps editors editing.1 editing.2.
Proof. unfold editing. exact (play_steps _ editors). Qed.
Lemma run_keyed {A} (program : Prog A) world :
  keyed world.(World.workspaces) → keyed (run program world).2.(World.workspaces).
Proof.
  revert world. induction program as [a|op k IH]; intros world Hk; cbn [run]; [exact Hk|].
  pose proof (answer_rows op world) as Hrows. destruct (answer op world) as [reply world1]. apply IH.
  cbn [snd] in Hrows. destruct (change_of op world) as [change|]; [|by rewrite Hrows].
  by apply (moved_keyed _ _ _ (moved_one _ _ _ Hrows)).
Qed.
Lemma noted_keyed : keyed noted_world.(World.workspaces).
Proof. unfold noted_world. exact (run_keyed write_notes base base_keyed). Qed.
Lemma edits_replace_what_they_read_witness :
  (∀ c change, (Some c, change) ∈ editing.1 →
     edits client_fs (λ _, 1000%N) (λ _, "/") edit_args c change) ∧
  length (by_client 0 editing.1) = 1 ∧ length (by_client 1 editing.1) = 0.
Proof.
  destruct editing_facts as (Hspared & H0 & H1).
  destruct (edits_replace_what_they_read client_fs (λ _, 1000%N) (λ _, "/") edit_args editors
    editing.1 editing.2 noted_keyed) as [Hedits Hpost]; [|exact editing_steps| |].
  - intros c program. cbn [System.clients editors].
    rewrite lookup_insert_Some, lookup_singleton_Some.
    intros [[<- <-]|[_ [<- <-]]]; (split; [exact rooted_root|exact eq_refl]).
  - apply spared_by. exact Hspared.
  - split; [exact Hedits|]. split.
    + exact (Hpost 0 (Ok tt) (returned_at _ _ _ H0)).
    + destruct (Hpost 1 _ (returned_at _ _ _ H1)) as [Hnone|[_ [message Hm]]]; [exact Hnone|discriminate Hm].
Defined.
